(* ===== verification/_CoqProject ===== *)
-Q . S2P
Prelude.v
PyVal.v
Json.v
PyTime.v
Floats.v
JsonText.v
Store.v
JsonStore.v
SqliteStore.v
EventStore.v
Documents.v
Migrations.v
Quotas.v
Metering.v
Veil.v
Job.v
Queue.v
Dispatcher.v
Runtime.v
Cron.v
Scheduler.v
Governance.v
GovernanceService.v
Rbac.v
Graph.v
ContextStore.v
Reputation.v
Recovery.v
Workflow.v
WorkflowReplay.v
Identity.v
Mesh.v
Federation.v
FederationService.v
FederationTrust.v
Marketplace.v
MarketplaceService.v
MarketplaceTrust.v
Hosted.v
PhaseWorkflow.v
PhaseMemory.v
PhaseRuntime.v
AuditLog.v
Tenancy.v
Connectors.v
AuditBundle.v
Tools.v
Evaluation.v
Feedback.v
Economics.v
Renovation.v
RenovationSchedule.v
RenovationPlans.v
Repositories.v
RepositoryLineage.v
Artifacts.v
ArtifactTrust.v
Materializer.v
RepositoryExecution.v
ExecutionTrust.v
DurableMemory.v
ServerQueue.v
ToolsTrust.v
