(* ===== verification/Prelude.v ===== *)
(** * A verification of AgentFabric

    AgentFabric is a Python platform on which agents run: it stores documents and
    events, queues and schedules jobs, decides by votes what agents may do, and
    keeps tenants apart. This library models its core, function by function, and
    proves what makes it correct. All paths are under src/agentfabric/.

    ** How the code is modelled

    A method is a definition of the same name in a Module of the name of its
    class. A call that changes state is a function of the monad [M] below: from a
    state to a result, or the exception raised, and the new state; what was
    changed before an exception stays changed, as in Python. The notations [let*],
    [do*] and [let?] sequence calls. Exceptions are their class and their text
    ([exn]). Values of unknown type are JSON values (PyVal: [val]), dicts are lists
    of keys and values in the order of insertion, times are microseconds since
    year 1 (PyTime), floats are IEEE doubles ([spec_float]).

    What a process asks of its environment is answered by oracles (EventStore:
    [Oracle]): the clock, [perf_counter] and [uuid4] are functions of the number of
    the question, SHA-256 is a function of the text. Theorems hold for all oracles.
    A property that rests on SHA-256 says: or two texts have the same digest.

    Services share a process (EventStore: [sys]): a persistence backend, the event
    log, and the count of the questions asked. They are written against the class
    [PersistenceStore] with its [StoreLaws] (Store), which the in-memory backend
    implements, and keep records of a class as documents through the class
    [Document] (Documents): its instances say how a record is written and read,
    and that reading gives back what was written.

    ** The files

    - Prelude: the monad, its invariants ([preserves]), stable sorting.
      PyVal, Json, PyTime, Floats, JsonText: values, texts, dicts, JSON, times and
      floats of Python, and what its json module writes and reads.
    - Store: persistence/ — the interface, the in-memory backend, the unit of work.
      JsonStore, SqliteStore: the backends that keep documents in a JSON file and
      in a table of SQLite, with its transactions.
      EventStore: events/event_store.py — the registry of event types and the hash
      chain of events. Documents: records in collections.
    - Migrations: migrations/. Quotas: quotas/. Metering: metering/.
    - Veil: veil_client/ — the policy service's interface ([VeilClient]) and mock.
    - Job, Queue, Dispatcher, Runtime: cloud/ — jobs, queues with their backends,
      the dispatcher that checks and runs a job, workers and the runtime's calls.
      Cron, Scheduler: cloud/scheduler/ — expressions, schedules, due triggers.
    - Governance, GovernanceService: governance/ — proposals, votes, policies, the
      consensus engine, human approvals, execution, and the approval handler of
      server/app.py.
    - Rbac: phase4/rbac.py — the table of roles and the permission check.
    - Graph: collaboration/task_graph.py, dependency_graph.py and the sort of
      phase3/workflow.py. ContextStore: collaboration/context_store.py and
      shared_memory.py. Workflow: collaboration/workflow.py, the engine that runs a
      graph. Reputation: reputation/ — what agents did, and their scores. Recovery:
      recovery/ — workflows rebuilt from events. WorkflowReplay: the engine and
      recovery together.
    - Identity: identity/. Mesh: mesh/ — the directory, the messages and the bus —
      and collaboration/coordinator.py. Federation, FederationService: federation/ —
      the records; the registry, the catalog, the router of signed messages and the
      service. FederationTrust: what they let through.
    - Marketplace: marketplace/ — the records of listings, versions, trust and
      reviews. MarketplaceService: registry, publishing, installs, dependencies,
      entitlements and search. MarketplaceTrust: what may be published and
      installed, and the search for cycles of dependencies.
    - Hosted: phase2/ — the registry of uploads, billing, reviews and API keys.
      PhaseWorkflow: phase3/ — the run of a graph with its cache and retries, and
      delegation. PhaseMemory, PhaseRuntime: phase1/ — the memory of agents; their
      manifests, permissions, tools, context and life. An agent is any program that
      calls its context ([program]).
    - AuditLog: phase4/audit.py. Tenancy: enterprise/, phase4/marketplace.py, sla.py.
    - AuditBundle: audit_bundle/ — the export of what a tenant owns, redacted.
      Connectors: connectors/. Tools: tools/ and intelligence/. ToolsTrust: what the
      execution of a tool went through. DurableMemory: memory/.
    - Evaluation: evaluation/ and the quality gates of server/app.py. Feedback:
      feedback/. Economics: economics/ and the spend check of server/app.py.
    - Renovation: verticals/renovation — jobs, crews and deliveries.
      RenovationSchedule: its scheduling/. RenovationPlans: what schedules keep.
    - Repositories: repository_factory/, repository_lifecycle/ and
      repository_graph/. RepositoryLineage: what their operations keep and find.
    - Artifacts, Materializer, RepositoryExecution: repository_materializer/ and
      repository_execution/ — the writer of files, the text of every generated
      file, and the engine that plans, waits for an approval, writes and rolls back
      over a process and a tree of files. ArtifactTrust, ExecutionTrust: what they
      keep.
    - ServerQueue: server/queue.py, the QueueService of server/services.py and
      server/worker.py, over an SQLAlchemy session ([QueueSession], [SessionLaws]).

    ** What the theorems show

    - Integrity: the event log is valid by construction and tells tampering
      (the lemma event_log_valid, event_log_tamper_evident), and a restarted process
      reads back its log (event_store_restart). An audit bundle shows a tenant its
      own documents and events, redacted (audit_bundle_exact). The lemmas audit_tamper_evident and
      audit_fields_ambiguous say what the audit log tells and what it does not.
    - Backends: what is written as JSON is read back (the theorem json_round_trip), and the
      backends over a file and over SQLite answer as the one in memory does
      (json_store_refines_memory, sqlite_units_refine_memory). A unit of work over a
      JSON file is not atomic (the lemma json_unit_keeps_half).
    - Jobs: a dequeue is the first queued job of the tenant (dequeue_first), a
      dispatch accounts for the job it took (dispatch_accounts_for_job), no submitted
      job is lost (runtime_no_job_lost). The server's worker drains its queue
      (worker_drains_queue). Two lemmas show what goes wrong:
      refused_job_is_stranded and worker_records_nothing.
    - Time: the next run of a cron expression is the first match of its minute and
      hour, and there is none exactly when nothing matches (cron_next_exact); its
      other fields are ignored (the lemma cron_ignores_dates). A due schedule
      submits its job once (schedules_fire_once).
    - Governance: only what was approved runs, once (governed_execution), approval
      is exactly what the votes say (consensus_approved_exact, the theorem cast_vote_sound),
      approvals are final (the theorem human_approval_final). Two ways this fails are the lemmas
      unauthorized_vote_blocks and late_approval_reopens.
    - Access: roles and quotas (rbac_check_exact, quota_never_exceeded); the theorems
      rbac_separates_duties, tenant_isolation_exact and metering_exact say what the
      table of roles keeps apart, and what a change of tenant and a meter do. A tool runs with its
      scope, its approval and the word of VEIL, which sees what comes out
      (tool_execution_guarded).
    - Limits of the server: a quality gate reads the newest result of its target
      (evaluation_gate_exact), the spend check counts what is stored and the
      estimate (spend_check_exact). The lemmas values_do_not_count,
      wrong_answers_deploy, category_limit_of_one_job and category_limit_passed
      show how little either holds back.
    - Workflows: the sort of a task graph is complete and its batches refine it
      (topological_sort_complete, batches_refine_sort); recovery rebuilds from the
      events of a workflow what the engine held (workflow_recovers), when nodes run
      one after another and their results are clean. The theorems
      reputation_from_events and context_holds_no_raw say that the reputation of
      agents is counted from events and that the shared context holds nothing raw.
      A run of phase 3 follows the graph and is done once for its key (workflow_run_once), delegations keep to
      the policy and its quota (the theorem delegations_bounded). An agent of phase 1 does what
      its manifest allows (agent_confined), and its memory answers with what was set
      last and has not expired (memory_get_exact). Durable memory lists what an
      agent owns and keeps it for its time (memory_listing_exact,
      the theorem memory_retention_exact).
    - Agents and partners: VEIL stands between the agents of a mesh (mesh_mediated).
      The router of federation takes only what it should
      (federated_messages_guarded), and nothing twice (federated_no_replay);
      delegations and catalogs keep to the agreements (delegation_guarded,
      the lemma federated_catalog_exact).
    - Packages: what is published was signed by its publisher (publish_guarded),
      what is installed was allowed (install_guarded); cycles of dependencies are
      found (dependency_cycles_exact). Phase 2 bills every event once
      (billing_counts_once). The lemmas registry_newest_exact, install_entitles,
      hosted_publish_exact and listing_pages_exact say more of both registries.
    - Renovation: a schedule is the earliest one its dependencies allow
      (schedule_earliest), a recalculation delays a phase by what holds it up and
      says so (recalculation_exact). Undisturbed it changes no date (the theorem
      recalculation_undisturbed); material that comes on time can break it (the
      lemma on_time_delivery_raises).
    - Repositories: a tenant changes its own, as the change says, while a creation
      takes what is under its id (lifecycle_exact), and the impact of one is what depends on it, over any
      number of others (impact_exact). The lemmas create_takes_over,
      clone_again_replaces and refused_dependency_stays show where ids and checks
      fall short.
    - Files: what an execution writes was approved as it is, and is there when it
      returns, unless it was recorded as completed before (execution_runs_approved); a write is whole or undone (the theorem
      artifacts_all_or_none), and a rollback removes what it says (rollback_exact).
      The lemmas rolled_back_stays_completed, replay_voids_approval and
      rollback_takes_what_was_there show what the engine forgets.
    - Migrations fail closed (migrations_fail_closed), over any backend; what the one
      that failed did is undone where the backend has units of work that are
      ([UnitStore]). The built-in ones apply to every store. A correction is filed with its feedback (the theorem
      feedback_filed).

    ** Bounds

    Recursion that is not structural has a bound the code has too, or one that is
    proved to be enough. The cron search tries 366 * 24 * 60 minutes, as the code
    does, and finds a match within them. A dequeue turns its queue at most once. The
    consensus engine evaluates a majority inside another mode at most once. The
    walks of a task graph, of the phases of a job and of the dependents of a
    repository take as many steps as there are nodes, and visit every node they can.
    The worker's loop, which never ends in the code, is run for a number of turns.
    A node is attempted max_retries + 1 times, which is when the loop of the code
    ends. The search for cycles of dependencies has one step more than there are
    packages that depend on others, and no path without a cycle is longer.
    JSON is read with a bound on nesting, the length of the text, that is never
    met (the theorem json_round_trip). A float is printed with the fewest of at most 17 digits
    that read back as the same number, which always do.

    ** Not modelled

    Text is code points below 256; [str] of a float is kept as text where it is not
    computed with. Threads are not modelled: a service is called by one caller at a
    time, and the nodes of a batch run one after the other, as with parallel=False.
    The callbacks of the mesh do not call the bus back; the runners of nodes, the
    tools and the handlers of delegations act on a world of their own. SQL is
    modelled as what its statements do to the rows. Floats are summed one by one, as
    Pythons before 3.12 do, and dates are read in the form year-month-day only. The
    Redis queue, HTTP, SQLAlchemy, JWT and Stripe do their work outside the
    repository, and SHA-256 of bytes is a parameter. A tree of files has no symbolic links, and takes names as they are. The
    server's authentication, and of the factories of software the build workers and
    teams, which call other programs, are not modelled. Of the renovation
    application the jobs, crews, deliveries and schedules are; its estimates, texts
    and books are not, nor is the service that stores its records. *)

From stdpp Require Import base option list strings gmap.
From Stdlib Require Import ZArith Lia Sorted.

(** * Exceptions and results *)

(** The exception classes the modelled code raises: the five of
    agentfabric/errors.py, the built-in ones and the web framework's. *)
Inductive exn_class :=
  | AgentFabricError | AuthorizationError | ValidationError | NotFoundError
  | ConflictError
  | ValueError | KeyError | TypeError | PermissionError | RuntimeError
  | OverflowError | ZeroDivisionError | IndexError | AttributeError
  | RecursionError
  | FileNotFoundError | FileExistsError | NotADirectoryError | IsADirectoryError
  | HTTPException (status : Z).

#[export] Instance exn_class_eq_dec : EqDecision exn_class.
Proof. solve_decision. Defined.

(** An exception is its class and the text [str(exc)] shows. *)
Record exn := Exn { exn_cls : exn_class; exn_msg : string }.

#[export] Instance exn_eq_dec : EqDecision exn.
Proof. solve_decision. Defined.

(** What a call that changes no state produces. *)
Inductive res (A : Type) :=
  | Ok (a : A)
  | Err (e : exn).
Arguments Ok {A} a.
Arguments Err {A} e.

#[export] Instance res_eq_dec {A} `{EqDecision A} : EqDecision (res A).
Proof. solve_decision. Defined.

Definition res_bind {A B} (r : res A) (f : A → res B) : res B :=
  match r with Ok a => f a | Err e => Err e end.

Definition is_ok {A} (r : res A) : bool :=
  match r with Ok _ => true | Err _ => false end.

(** [res_map f l] runs [f] on each element in order and stops at the first
    exception, as a Python comprehension does. *)
Fixpoint res_map {A B} (f : A → res B) (l : list A) : res (list B) :=
  match l with
  | [] => Ok []
  | x :: l' => res_bind (f x) (fun y => res_bind (res_map f l') (fun ys => Ok (y :: ys)))
  end.

(** * The state and exception monad *)

(** A Python call over a mutable state [S]: it returns or raises, and the
    changes it made before raising stay. *)
Definition M (S A : Type) : Type := S → res A * S.

Definition ret {S A} (a : A) : M S A := fun s => (Ok a, s).

Definition bind {S A B} (m : M S A) (f : A → M S B) : M S B :=
  fun s => match m s with
           | (Ok a, s') => f a s'
           | (Err e, s') => (Err e, s')
           end.

Definition raise {S A} (c : exn_class) (msg : string) : M S A :=
  fun s => (Err (Exn c msg), s).

Definition of_res {S A} (r : res A) : M S A := fun s => (r, s).

Definition get_state {S} : M S S := fun s => (Ok s, s).

Definition gets {S A} (f : S → A) : M S A := fun s => (Ok (f s), s).

Definition modify {S} (f : S → S) : M S unit := fun s => (Ok tt, f s).

(** [try: m except Exception as exc: h exc] *)
Definition try_except {S A} (m : M S A) (h : exn → M S A) : M S A :=
  fun s => match m s with
           | (Ok a, s') => (Ok a, s')
           | (Err e, s') => h e s'
           end.

(** A call on a component whose state is a part of [S]. *)
Definition zoom {S T A} (get : S → T) (set : T → S → S) (m : M T A) : M S A :=
  fun s => let '(r, t) := m (get s) in (r, set t s).

(** [for x in l: f x] *)
Fixpoint for_each {S A} (l : list A) (f : A → M S unit) : M S unit :=
  match l with
  | [] => ret tt
  | x :: l' => bind (f x) (fun _ => for_each l' f)
  end.

(** [[f x for x in l]] *)
Fixpoint for_map {S A B} (l : list A) (f : A → M S B) : M S (list B) :=
  match l with
  | [] => ret []
  | x :: l' => bind (f x) (fun y => bind (for_map l' f) (fun ys => ret (y :: ys)))
  end.

Declare Scope py_scope.
Delimit Scope py_scope with py.
Notation "'let*' x ':=' m 'in' k" := (bind m (fun x => k))
  (at level 10, x name, m at level 100, k at level 200) : py_scope.
Notation "'do*' m ';' k" := (bind m (fun _ => k))
  (at level 10, m at level 100, k at level 200) : py_scope.
Notation "'let?' x ':=' r 'in' k" := (res_bind r (fun x => k))
  (at level 10, x name, r at level 100, k at level 200) : py_scope.
Open Scope py_scope.

(** * Reasoning about calls *)

(** The state a call leaves, whether it returned or raised. *)
Definition after {S A} (m : M S A) (s : S) : S := (m s).2.

(** The call keeps [I], also when it raises. *)
Definition preserves {S A} (I : S → Prop) (m : M S A) : Prop :=
  ∀ s, I s → I (after m s).

(** The call satisfies [Q] from every state where [P] holds. *)
Definition spec {S A} (P : S → Prop) (m : M S A) (Q : S → res A → S → Prop) : Prop :=
  ∀ s, P s → Q s (m s).1 (m s).2.

Create HintDb preserve.

Section Preserves.
Context {S : Type} (I : S → Prop).

Lemma preserves_ret {A} (a : A) : preserves I (ret a).
Proof. by intros s. Qed.

Lemma preserves_raise {A} c msg : preserves I (raise (A := A) c msg).
Proof. by intros s. Qed.

Lemma preserves_of_res {A} (r : res A) : preserves I (of_res r).
Proof. by intros s. Qed.

Lemma preserves_gets {A} (f : S → A) : preserves I (gets f).
Proof. by intros s. Qed.

Lemma preserves_get_state : preserves I get_state.
Proof. by intros s. Qed.

Lemma preserves_bind {A B} (m : M S A) (f : A → M S B) :
  preserves I m → (∀ a, preserves I (f a)) → preserves I (bind m f).
Proof.
  intros Hm Hf s Hs. specialize (Hm s Hs). unfold after, bind in *.
  destruct (m s) as [[a|e] s'] eqn:E; simpl in *; [|done].
  by apply (Hf a).
Qed.

Lemma preserves_run {A} (m : M S A) s r s' : preserves I m → m s = (r, s') → I s → I s'.
Proof. intros Hm E Hs. specialize (Hm s Hs). unfold after in Hm. by rewrite E in Hm. Qed.

Lemma preserves_modify f : (∀ s, I s → I (f s)) → preserves I (modify f).
Proof. intros H s Hs. by apply H. Qed.

Lemma preserves_try {A} (m : M S A) h :
  preserves I m → (∀ e, preserves I (h e)) → preserves I (try_except m h).
Proof.
  intros Hm Hh s Hs. specialize (Hm s Hs). unfold after, try_except in *.
  destruct (m s) as [[a|e] s'] eqn:E; simpl in *; [done|].
  by apply (Hh e).
Qed.

Lemma preserves_for_each {A} (l : list A) f :
  (∀ x, preserves I (f x)) → preserves I (for_each l f).
Proof.
  intros Hf. induction l as [|x l IH]; simpl.
  - apply preserves_ret.
  - apply preserves_bind; auto.
Qed.

Lemma preserves_for_map {A B} (l : list A) (f : A → M S B) :
  (∀ x, preserves I (f x)) → preserves I (for_map l f).
Proof.
  intros Hf. induction l as [|x l IH]; simpl.
  - apply preserves_ret.
  - apply preserves_bind; [auto|intros y].
    apply preserves_bind; [auto|intros ys]. apply preserves_ret.
Qed.

Lemma preserves_if {A} (b : bool) (m1 m2 : M S A) :
  preserves I m1 → preserves I m2 → preserves I (if b then m1 else m2).
Proof. by destruct b. Qed.

Lemma preserves_option {A B} (o : option B) (m1 : B → M S A) (m2 : M S A) :
  (∀ b, preserves I (m1 b)) → preserves I m2 →
  preserves I (match o with Some b => m1 b | None => m2 end).
Proof. by destruct o. Qed.

End Preserves.

#[export] Hint Resolve preserves_ret preserves_raise preserves_of_res
  preserves_gets preserves_get_state preserves_bind preserves_try
  preserves_for_each preserves_for_map preserves_if preserves_option : preserve.

(** [zoom] keeps [I] when the part it runs on keeps what [I] says of it. *)
Lemma preserves_zoom {S T A} (I : S → Prop) (J : T → Prop) get set (m : M T A) :
  (∀ s, I s → J (get s)) → (∀ s t, I s → J t → I (set t s)) →
  preserves J m → preserves I (zoom get set m).
Proof.
  intros HJ HI Hm s Hs. unfold after, zoom.
  specialize (Hm (get s) (HJ s Hs)). unfold after in Hm.
  destruct (m (get s)) as [r t]. simpl in *. by apply HI.
Qed.

(** Inversion of a call that returned. *)
Lemma bind_ok {S A B} (m : M S A) (f : A → M S B) s b s' :
  bind m f s = (Ok b, s') ↔ ∃ a s1, m s = (Ok a, s1) ∧ f a s1 = (Ok b, s').
Proof.
  unfold bind. split.
  - destruct (m s) as [[a|e] s1]; [eauto|intros ?; simplify_eq].
  - by intros (a & s1 & -> & ?).
Qed.

Lemma res_bind_ok {A B} (r : res A) (f : A → res B) b :
  res_bind r f = Ok b ↔ ∃ a, r = Ok a ∧ f a = Ok b.
Proof.
  destruct r; simpl; [|split; [done|by intros (a & ? & _)]].
  split; [eauto|by intros (? & ? & ?); simplify_eq].
Qed.

Lemma res_map_ok {A B} (f : A → res B) (g : A → B) (l : list A) :
  (∀ x, x ∈ l → f x = Ok (g x)) → res_map f l = Ok (g <$> l).
Proof.
  induction l as [|x l IH]; intros H; [done|].
  cbn [res_map]. rewrite H by set_solver. cbn [res_bind].
  rewrite IH by (intros; apply H; set_solver). done.
Qed.

Lemma res_map_unit {A} (f : A → res unit) l : is_ok (res_map f l) = true ↔ ∀ x, x ∈ l → f x = Ok tt.
Proof.
  induction l as [|x l IH]; cbn [res_map]; [split; [intros _ x ?%elem_of_nil; done|done]|].
  destruct (f x) as [[]|e] eqn:E; cbn [res_bind].
  - transitivity (is_ok (res_map f l) = true); [by destruct (res_map f l)|]. rewrite IH.
    split; [intros Hl y [->|Hy]%elem_of_cons; auto|]. intros Hl y Hy. apply Hl. by right.
  - split; [done|]. intros Hl. specialize (Hl x). rewrite E in Hl. discriminate Hl. by left.
Qed.

Lemma res_map_app {A B} (f : A → res B) (a b : list A) r :
  res_map f (a ++ b) = Ok r ↔ ∃ ra rb, res_map f a = Ok ra ∧ res_map f b = Ok rb ∧ r = ra ++ rb.
Proof.
  revert r. induction a as [|x a IH]; intros r; cbn [app res_map].
  - split; [intros Hr; by exists [], r|]. by intros (? & ? & [= <-] & ? & ->).
  - destruct (f x) as [y|]; cbn [res_bind].
    2: { split; [done|]. by intros (? & ? & ? & _). }
    split.
    + destruct (res_map f (a ++ b)) as [t|] eqn:Et; cbn [res_bind]; [|done]. intros [= <-].
      destruct (proj1 (IH t) eq_refl) as (ra & rb & -> & -> & ->). by exists (y :: ra), rb.
    + intros (ra & rb & Ha & Hb & ->). destruct (res_map f a) as [t|] eqn:Et; cbn [res_bind] in *; [|done].
      injection Ha as <-. by rewrite (proj2 (IH (t ++ rb))) by eauto.
Qed.

(** [res_map] in two layers, flattened. *)
Lemma res_map_concat {A B} (f : A → res B) (ls : list (list A)) (r : list B) :
  res_map f (concat ls) = Ok r → ∃ rs, res_map (res_map f) ls = Ok rs ∧ concat rs = r ∧
    ∀ l1 l l2, rs = l1 ++ l :: l2 → ∃ k1 k k2, ls = k1 ++ k :: k2 ∧
      res_map f (concat k1) = Ok (concat l1) ∧ res_map f k = Ok l.
Proof.
  revert r. induction ls as [|l ls IH]; intros r Hr.
  - cbn in Hr. injection Hr as <-. exists []. split_and!; [done|done|]. by intros [|? ?] ? ? [=].
  - cbn [concat] in Hr. apply res_map_app in Hr as (ra & rb & Ha & Hb & ->).
    destruct (IH rb Hb) as (rs & Hrs & Hc & Hsplit). exists (ra :: rs). cbn [res_map].
    rewrite Ha. cbn [res_bind]. rewrite Hrs. cbn [res_bind concat]. rewrite Hc.
    split_and!; [done|done|]. intros [|a l1] l' l2 [= -> Heq].
    + by exists [], l, ls.
    + destruct (Hsplit l1 l' l2 Heq) as (k1 & k & k2 & -> & Hk1 & Hk).
      exists (l :: k1), k, k2. split_and!; [done| |done]. cbn. apply res_map_app. eauto.
Qed.

Lemma Forall_filter_keep {A} (P Q : A → Prop) `{∀ x, Decision (Q x)} (l : list A) :
  Forall P l → Forall P (base.filter Q l).
Proof. rewrite !Forall_forall. intros Hl x [_ Hx]%list_elem_of_filter. auto. Qed.

Lemma filter_nil_iff {A} (P : A → Prop) `{∀ x, Decision (P x)} (l : list A) :
  base.filter P l = [] ↔ Forall (fun x => ¬ P x) l.
Proof.
  induction l as [|x l IH]; [done|]. rewrite filter_cons, Forall_cons, <- IH. case_decide; naive_solver.
Qed.

Lemma filter_fmap {A B} (f : A → B) (P : B → Prop) `{∀ x, Decision (P x)} (l : list A) :
  base.filter P (f <$> l) = f <$> base.filter (fun x => P (f x)) l.
Proof. induction l as [|x l IH]; [done|]. csimpl. rewrite !filter_cons, IH. by case_decide. Qed.

Lemma sublist_fmap_filter {A B} (f : A → B) (P : A → Prop) `{∀ x, Decision (P x)} (l : list A) :
  f <$> base.filter P l `sublist_of` f <$> l.
Proof.
  induction l as [|x l IH]; [done|]. rewrite filter_cons.
  case_decide; csimpl; [by apply sublist_skip|by apply sublist_cons].
Qed.

(** Breaks hypotheses about calls that returned into their steps. *)
Ltac inv_call :=
  repeat match goal with
  | H : bind _ _ _ = (Ok _, _) |- _ =>
      apply bind_ok in H; destruct H as (? & ? & ? & H)
  | H : res_bind _ _ = Ok _ |- _ =>
      apply res_bind_ok in H; destruct H as (? & ? & H)
  | H : ret _ _ = _ |- _ => unfold ret in H; simplify_eq
  | H : raise _ _ _ = _ |- _ => unfold raise in H; simplify_eq
  | H : of_res _ _ = _ |- _ => unfold of_res in H; simplify_eq
  | H : gets _ _ = _ |- _ => unfold gets in H; simplify_eq
  | H : modify _ _ = _ |- _ => unfold modify in H; simplify_eq
  | H : get_state _ = _ |- _ => unfold get_state in H; simplify_eq
  end.

(** Case analysis on the condition a hypothesis branches on. *)
Ltac inv_if :=
  match goal with
  | H : context [if ?b then _ else _] |- _ => let E := fresh "E" in destruct b eqn:E
  | H : context [match ?o with Some _ => _ | None => _ end] |- _ =>
      let E := fresh "E" in destruct o eqn:E
  end.

(** * Runs of a component *)

(** Zero, one or several steps of a transition relation. *)
Inductive steps {S : Type} (R : S → S → Prop) : S → S → Prop :=
  | steps_refl s : steps R s s
  | steps_cons s1 s2 s3 : R s1 s2 → steps R s2 s3 → steps R s1 s3.

Lemma steps_invariant {S} (R : S → S → Prop) (I : S → Prop) s s' :
  (∀ a b, R a b → I a → I b) → steps R s s' → I s → I s'.
Proof. intros HR. induction 1; eauto. Qed.

(** * Stable sorting *)

(** Python's [sorted] is stable: insertion keeps the order of elements the key
    does not tell apart. [le x y] says the key of [x] is at most that of [y]. *)
Fixpoint insert_sorted {A} (le : A → A → bool) (x : A) (l : list A) : list A :=
  match l with
  | [] => [x]
  | y :: l' => if le x y then x :: y :: l' else y :: insert_sorted le x l'
  end.

Fixpoint py_sorted {A} (le : A → A → bool) (l : list A) : list A :=
  match l with
  | [] => []
  | x :: l' => insert_sorted le x (py_sorted le l')
  end.

Section Sorting.
Context {A : Type} (le : A → A → bool).

Lemma insert_sorted_perm x l : insert_sorted le x l ≡ₚ x :: l.
Proof.
  induction l as [|y l IH]; simpl; [done|].
  destruct (le x y); [done|]. rewrite IH. apply Permutation_swap.
Qed.

Lemma py_sorted_perm l : py_sorted le l ≡ₚ l.
Proof.
  induction l as [|x l IH]; simpl; [done|]. by rewrite insert_sorted_perm, IH.
Qed.

Lemma elem_of_py_sorted x l : x ∈ py_sorted le l ↔ x ∈ l.
Proof. by rewrite (py_sorted_perm l). Qed.

Lemma length_py_sorted l : length (py_sorted le l) = length l.
Proof. by rewrite (py_sorted_perm l). Qed.

(** A list already in order is left alone. *)
Lemma py_sorted_id l : Sorted (fun x y => le x y = true) l → py_sorted le l = l.
Proof.
  induction 1 as [|x l Hs IH Hh]; simpl; [done|]. rewrite IH.
  destruct Hh as [|y l Hxy]; simpl; [done|]. by rewrite Hxy.
Qed.

Hypothesis le_total : ∀ x y, le x y = true ∨ le y x = true.

Lemma py_sorted_Sorted l : Sorted (fun x y => le x y = true) (py_sorted le l).
Proof.
  induction l as [|x l IH]; simpl; [constructor|].
  induction IH as [|y l' Hs IH Hh]; simpl; [repeat constructor|].
  destruct (le x y) eqn:E; [by repeat constructor|].
  constructor; [exact IH|].
  assert (Hyx : le y x = true) by (destruct (le_total x y); congruence).
  destruct Hh as [|z l'' Hyz]; simpl; [by constructor|].
  destruct (le x z); by constructor.
Qed.

End Sorting.

(** Sorting commutes with a map that keeps the comparison. *)
Lemma py_sorted_map {A B} (f : A → B) (leA : A → A → bool) (leB : B → B → bool) l :
  (∀ x y, leB (f x) (f y) = leA x y) → map f (py_sorted leA l) = py_sorted leB (map f l).
Proof.
  intros Hle. induction l as [|x l IH]; simpl; [done|]. rewrite <- IH. clear IH.
  induction (py_sorted leA l) as [|y l' IH]; simpl; [done|].
  rewrite Hle. destruct (leA x y); simpl; [done|]. by rewrite IH.
Qed.

(** The last element of a sorted list is the greatest. *)
Lemma sorted_last {A} (le : A → A → bool) (l : list A) x :
  (∀ a, le a a = true) → (∀ a b c, le a b = true → le b c = true → le a c = true) →
  Sorted (fun a b => le a b = true) l → last l = Some x → ∀ y, y ∈ l → le y x = true.
Proof.
  intros Hrefl Htrans Hs. apply Sorted_StronglySorted in Hs; [|intros a b c; apply Htrans].
  induction Hs as [|a l _ IH Hf]; [done|]. rewrite last_cons. destruct (last l) as [z|] eqn:El.
  - intros [= ->] y [->|Hy]%elem_of_cons; [|by apply IH]. rewrite Forall_forall in Hf. apply Hf. by apply last_Some_elem_of.
  - intros [= ->]. apply last_None in El as ->. by intros y ->%list_elem_of_singleton.
Qed.

(** Two lists with the same elements in strictly increasing order are equal,
    so sorting a permutation of such a list gives the list back. *)
Section SortUnique.
Context {A K : Type} (key : A → K) (lt : K → K → Prop) (le : A → A → bool).
Hypothesis lt_irrefl : ∀ x, ¬ lt x x.
Hypothesis lt_trans : ∀ x y z, lt x y → lt y z → lt x z.
Hypothesis le_lt : ∀ x y, le x y = true ↔ lt (key x) (key y) ∨ key x = key y.

Lemma strict_sorted_unique l1 l2 :
  l1 ≡ₚ l2 → StronglySorted (fun x y => lt (key x) (key y)) l1 →
  StronglySorted (fun x y => lt (key x) (key y)) l2 → l1 = l2.
Proof.
  revert l2. induction l1 as [|x l1 IH]; intros l2 Hp H1 H2.
  { by apply Permutation_nil_l in Hp. }
  destruct l2 as [|y l2]; [by apply Permutation_nil_r in Hp|].
  inversion H1 as [|?? Hs1 Hf1]; inversion H2 as [|?? Hs2 Hf2]; subst.
  rewrite Forall_forall in Hf1, Hf2.
  assert (x = y) as ->.
  { assert (Hx : x ∈ y :: l2) by (rewrite <- Hp; by left).
    assert (Hy : y ∈ x :: l1) by (rewrite Hp; by left).
    apply elem_of_cons in Hx as [->|Hx]; [done|].
    apply elem_of_cons in Hy as [->|Hy]; [done|].
    destruct (lt_irrefl (key x)). eapply lt_trans; eauto. }
  f_equal. apply IH; [|done..]. by apply Permutation_cons_inv in Hp.
Qed.

Lemma py_sorted_strict l1 l2 :
  l1 ≡ₚ l2 → StronglySorted (fun x y => lt (key x) (key y)) l2 → py_sorted le l1 = l2.
Proof.
  intros Hp H2. apply strict_sorted_unique; [by rewrite py_sorted_perm| |done].
  assert (Hd : ∀ x y, x ∈ l2 → y ∈ l2 → key x = key y → x = y).
  { clear Hp. induction H2 as [|z l Hs IH Hf]; [set_solver|].
    rewrite Forall_forall in Hf.
    intros x y [->|Hx]%elem_of_cons [->|Hy]%elem_of_cons E; [done|..|auto].
    - destruct (lt_irrefl (key z)). rewrite E at 2. auto.
    - destruct (lt_irrefl (key z)). rewrite <- E at 2. auto. }
  assert (Ht : ∀ x y, x ∈ l2 → y ∈ l2 → lt (key x) (key y) ∨ key x = key y ∨ lt (key y) (key x)).
  { clear Hp Hd. induction H2 as [|z l Hs IH Hf]; [set_solver|].
    rewrite Forall_forall in Hf.
    intros x y [->|Hx]%elem_of_cons [->|Hy]%elem_of_cons; auto. }
  assert (Hnd : NoDup l1).
  { rewrite Hp. clear Hp Hd Ht. induction H2 as [|z l Hs IH Hf]; [constructor|].
    rewrite Forall_forall in Hf. constructor; [|done].
    intros Hin. by apply (lt_irrefl (key z)), Hf. }
  assert (Hsub : ∀ x, x ∈ l1 → x ∈ l2) by (intros x; by rewrite Hp).
  clear H2 Hp. induction l1 as [|x l1 IH]; simpl; [constructor|].
  apply NoDup_cons in Hnd as [Hx Hnd].
  specialize (IH Hnd ltac:(set_solver)).
  assert (Hin : ∀ y, y ∈ py_sorted le l1 → y ∈ l2 ∧ y ≠ x).
  { intros y Hy%elem_of_py_sorted. split; [set_solver|by intros ->]. }
  assert (Hxl : x ∈ l2) by set_solver. clear Hsub Hx Hnd.
  induction IH as [|y l Hs IH Hf]; simpl; [repeat constructor|].
  destruct (Hin y) as [Hy Hne]; [by left|].
  destruct (le x y) eqn:E.
  - apply le_lt in E. destruct E as [E|E]; [|by destruct Hne; apply Hd].
    constructor; [by constructor|]. constructor; [done|].
    eapply Forall_impl; [exact Hf|]. intros z Hz. by eapply lt_trans.
  - constructor; [apply IH; set_solver|].
    apply Forall_forall. intros z Hz. rewrite (insert_sorted_perm le x l) in Hz.
    apply elem_of_cons in Hz as [->|Hz]; [|by rewrite Forall_forall in Hf; apply Hf].
    destruct (Ht x y Hxl Hy) as [H|[H|H]]; [| |done].
    + assert (le x y = true) by (apply le_lt; by left). congruence.
    + by destruct Hne; apply Hd.
Qed.
End SortUnique.
