(* ===== verification/PyVal.v ===== *)
(** Python values as the program stores them: JSON documents, the dict
    operations on them, the string methods the code calls, the conversions
    [str], [int], [bool] and the two serialisations [repr] and [json.dumps].
    A [string] is a sequence of code points below 256. A float is carried by
    the text [repr] gives it; Floats reads and writes that text. *)

From stdpp Require Import base option list strings gmap pretty.
From Stdlib Require Import ZArith Lia Ascii.
From S2P Require Import Prelude.

(** * Characters and strings *)

#[global] Arguments String.append !_ _ / : simpl nomatch.


Definition quote_char : ascii := "034"%char.
Definition nl : string := String "010"%char "".

Lemma str_app_assoc (a b c : string) : (a +:+ b) +:+ c = a +:+ (b +:+ c).
Proof. induction a; f_equal/=; auto. Qed.

Lemma str_app_nil_r (a : string) : a +:+ "" = a.
Proof. induction a; f_equal/=; auto. Qed.

Definition is_upper (c : ascii) : bool :=
  let n := N_of_ascii c in ((65 <=? n) && (n <=? 90))%N.

Definition lower_char (c : ascii) : ascii :=
  if is_upper c then ascii_of_N (N_of_ascii c + 32) else c.

(** [s.lower()] on ASCII text; other code points are left alone. *)
Fixpoint lower (s : string) : string :=
  match s with
  | "" => ""
  | String c s' => String (lower_char c) (lower s')
  end.

(** [s or default] *)
Definition str_or (s default : string) : string := if bool_decide (s = "") then default else s.

(** [s.startswith(p)] *)
Definition starts_with (p s : string) : bool := String.prefix p s.

(** [p in s] *)
Fixpoint contains (p s : string) : bool :=
  starts_with p s || match s with "" => false | String _ s' => contains p s' end.

Definition is_space (c : ascii) : bool :=
  let n := N_of_ascii c in
  (((9 <=? n) && (n <=? 13)) || ((28 <=? n) && (n <=? 32)) || (n =? 133) || (n =? 160))%N.

Fixpoint lstrip (s : string) : string :=
  match s with String c s' => if is_space c then lstrip s' else s | "" => "" end.

Fixpoint rstrip (s : string) : string :=
  match s with
  | "" => ""
  | String c s' => let r := rstrip s' in if bool_decide (r = "") && is_space c then "" else String c r
  end.

(** [s.strip()] *)
Definition strip (s : string) : string := rstrip (lstrip s).

(** [s.endswith(p)] *)
Fixpoint ends_with (p s : string) : bool :=
  bool_decide (p = s) || match s with "" => false | String _ s' => ends_with p s' end.

(** [s.split(".")[0]] *)
Fixpoint before_dot (s : string) : string :=
  match s with
  | "" => ""
  | String c s' => if bool_decide (c = "."%char) then "" else String c (before_dot s')
  end.

(** [s.split()]: the maximal runs of non-blank characters. [cur] is the word
    being read. *)
Fixpoint split_go (cur : string) (s : string) : list string :=
  match s with
  | "" => if bool_decide (cur = "") then [] else [cur]
  | String c s' =>
      if is_space c
      then if bool_decide (cur = "") then split_go "" s' else cur :: split_go "" s'
      else split_go (cur +:+ String c "") s'
  end.
Definition split_ws (s : string) : list string := split_go "" s.

(** [sep.join(l)] *)
Fixpoint join (sep : string) (l : list string) : string :=
  match l with
  | [] => ""
  | [x] => x
  | x :: l' => x +:+ sep +:+ join sep l'
  end.

Definition digit_val (c : ascii) : option Z :=
  let n := Z.of_N (N_of_ascii c) in
  if ((48 <=? n) && (n <=? 57))%Z then Some (n - 48)%Z else None.

Fixpoint parse_digits (acc : Z) (s : string) : option Z :=
  match s with
  | "" => Some acc
  | String c s' =>
      match digit_val c with
      | Some d => parse_digits (10 * acc + d)%Z s'
      | None => None
      end
  end.

(** [int(s)] for the decimal forms: an optional sign and digits. Blanks and
    underscores inside the literal, which Python also accepts, are refused. *)
Definition parse_int (s : string) : res Z :=
  let bad := Err (Exn ValueError ("invalid literal for int() with base 10: '" +:+ s +:+ "'")) in
  let digits t := match t with
                  | "" => bad
                  | _ => match parse_digits 0 t with Some z => Ok z | None => bad end
                  end in
  match s with
  | String "-" t => let? z := digits t in Ok (- z)%Z
  | String "+" t => digits t
  | _ => digits s
  end.

(** The order of strings by code point, which [sorted] uses. *)
Definition str_le (a b : string) : bool := String.leb a b.

(** [sorted(s)] of a set *)
Definition py_sorted_set (s : gset string) : list string := py_sorted str_le (elements s).

Lemma str_le_total a b : str_le a b = true ∨ str_le b a = true.
Proof. apply String.leb_total. Qed.

Lemma str_le_refl a : str_le a a = true.
Proof. destruct (str_le_total a a); done. Qed.

Lemma str_le_antisym a b : str_le a b = true → str_le b a = true → a = b.
Proof. apply String.leb_antisym. Qed.

Lemma str_le_trans a b c : str_le a b = true → str_le b c = true → str_le a c = true.
Proof.
  unfold str_le. rewrite <- !Is_true_true. apply (transitivity (R := String.le)).
Qed.

Lemma elem_of_sorted_set x (s : gset string) : x ∈ py_sorted_set s ↔ x ∈ s.
Proof. unfold py_sorted_set. by rewrite elem_of_py_sorted, elem_of_elements. Qed.

(** * Dicts *)

(** A dict keeps its keys in insertion order; setting a key that is there keeps
    its place. *)
Abbreviation dict A := (list (string * A)).

Section Dict.
Context {A : Type}.
Implicit Types (d : dict A) (k : string) (a : A).

(** [d.get(k)] *)
Fixpoint dget d k : option A :=
  match d with
  | [] => None
  | (k', a) :: d' => if bool_decide (k' = k) then Some a else dget d' k
  end.

(** [d[k] = a] *)
Fixpoint dset d k a : dict A :=
  match d with
  | [] => [(k, a)]
  | (k', a') :: d' => if bool_decide (k' = k) then (k', a) :: d' else (k', a') :: dset d' k a
  end.

(** [del d[k]] *)
Fixpoint ddel d k : dict A :=
  match d with
  | [] => []
  | (k', a) :: d' => if bool_decide (k' = k) then d' else (k', a) :: ddel d' k
  end.

(** [d.update(e)], and [{**d, **e}] *)
Definition dupdate d (e : dict A) : dict A := foldl (fun d p => dset d p.1 p.2) d e.

(** [k in d] *)
Definition dmem d k : bool := match dget d k with Some _ => true | None => false end.

(** A dict built by Python has no key twice. *)
Definition dict_ok d : Prop := NoDup d.*1.

Lemma dget_dset_eq d k a : dget (dset d k a) k = Some a.
Proof.
  induction d as [|[k' a'] d IH]; simpl.
  - by rewrite bool_decide_eq_true_2.
  - case_bool_decide as E; simpl; [by rewrite bool_decide_eq_true_2|].
    by rewrite bool_decide_eq_false_2.
Qed.

Lemma dget_dset_ne d k k' a : k ≠ k' → dget (dset d k a) k' = dget d k'.
Proof.
  intros Hne. induction d as [|[k1 a1] d IH]; simpl.
  - by rewrite bool_decide_eq_false_2.
  - case_bool_decide as E; simpl.
    + subst. by rewrite !bool_decide_eq_false_2.
    + by rewrite IH.
Qed.

Lemma dget_dset d k k' a : dget (dset d k a) k' = if bool_decide (k = k') then Some a else dget d k'.
Proof.
  case_bool_decide; [subst; apply dget_dset_eq|by apply dget_dset_ne].
Qed.

Lemma dset_dset d k a b : dset (dset d k a) k b = dset d k b.
Proof.
  induction d as [|[k' a'] d IH]; simpl; [by rewrite bool_decide_eq_true_2|].
  case_bool_decide as E; simpl.
  - by rewrite bool_decide_eq_true_2.
  - rewrite bool_decide_eq_false_2 by done. by rewrite IH.
Qed.

Lemma dset_same d k a : dget d k = Some a → dset d k a = d.
Proof.
  induction d as [|[k' a'] d IH]; simpl; [done|].
  case_bool_decide; [by intros ?; simplify_eq|]. intros Hd. by rewrite IH.
Qed.

Lemma dget_Some_elem d k a : dget d k = Some a → (k, a) ∈ d.
Proof.
  induction d as [|[k' a'] d IH]; simpl; [done|].
  case_bool_decide; intros ?; simplify_eq; set_solver.
Qed.

Lemma dget_None d k : dget d k = None ↔ k ∉ d.*1.
Proof.
  induction d as [|[k' a'] d IH]; simpl; [set_solver|].
  case_bool_decide; [split; [done|set_solver]|set_solver].
Qed.

Lemma elem_dget d k a : dict_ok d → (k, a) ∈ d → dget d k = Some a.
Proof.
  unfold dict_ok. induction d as [|[k' a'] d IH]; simpl; [set_solver|].
  intros [Hni Hnd]%NoDup_cons [?|Hin]%elem_of_cons; simplify_eq.
  - by rewrite bool_decide_eq_true_2.
  - rewrite bool_decide_eq_false_2; [by apply IH|].
    intros ->. apply Hni. by apply (list_elem_of_fmap_2 fst _ (k, a)).
Qed.

Lemma dset_fst d k a :
  (dset d k a).*1 = if decide (k ∈ d.*1) then d.*1 else d.*1 ++ [k].
Proof.
  induction d as [|[k' a'] d IH]; [by rewrite decide_False by set_solver|]. cbn.
  case_bool_decide as E; cbn.
  - subst. rewrite decide_True; [done|set_solver].
  - rewrite IH. case_decide; case_decide; try done; set_solver.
Qed.

Lemma dict_ok_dset d k a : dict_ok d → dict_ok (dset d k a).
Proof.
  unfold dict_ok. rewrite dset_fst. case_decide; [done|].
  intros Hd. apply NoDup_app. split; [done|]. split; [set_solver|apply NoDup_singleton].
Qed.

Lemma ddel_fst_sub d k k' : k' ∈ (ddel d k).*1 → k' ∈ d.*1.
Proof.
  induction d as [|[k1 a1] d IH]; simpl; [done|]. case_bool_decide; set_solver.
Qed.

Lemma dict_ok_ddel d k : dict_ok d → dict_ok (ddel d k).
Proof.
  unfold dict_ok. induction d as [|[k1 a1] d IH]; simpl; [done|].
  intros [Hn Hd]%NoDup_cons. case_bool_decide; simpl; [done|].
  constructor; [|by apply IH]. intros Hin. by apply Hn, (ddel_fst_sub d k).
Qed.

Lemma dget_ddel_eq d k : dict_ok d → dget (ddel d k) k = None.
Proof.
  unfold dict_ok. induction d as [|[k1 a1] d IH]; simpl; [done|].
  intros [Hn Hd]%NoDup_cons. case_bool_decide as E; simpl.
  - subst. by apply dget_None.
  - rewrite bool_decide_eq_false_2 by done. by apply IH.
Qed.

Lemma dget_ddel_ne d k k' : k ≠ k' → dget (ddel d k) k' = dget d k'.
Proof.
  intros Hne. induction d as [|[k1 a1] d IH]; simpl; [done|].
  case_bool_decide as E; simpl.
  - subst. by rewrite bool_decide_eq_false_2.
  - by rewrite IH.
Qed.

Lemma dict_ok_dupdate d e : dict_ok d → dict_ok (dupdate d e).
Proof.
  unfold dupdate. revert d. induction e as [|[k a] e IH]; intros d Hd; simpl; [done|].
  apply IH. by apply dict_ok_dset.
Qed.

End Dict.

(** A dict built from its entries is itself. *)
Lemma dset_new {A} (d : dict A) k a : k ∉ d.*1 → dset d k a = d ++ [(k, a)].
Proof.
  induction d as [|[k' a'] d IH]; [done|]. csimpl. intros [Hne Hk]%not_elem_of_cons.
  rewrite bool_decide_eq_false_2 by congruence. by rewrite IH.
Qed.

Lemma dupdate_entries {A} (d e : dict A) : dict_ok (d ++ e) → dupdate d e = d ++ e.
Proof.
  unfold dict_ok, dupdate. revert d. induction e as [|[k a] e IH]; intros d Hd; [by rewrite app_nil_r|].
  cbn [foldl fst snd]. rewrite dset_new.
  - rewrite IH; [by rewrite <- app_assoc|]. by rewrite <- app_assoc.
  - rewrite fmap_app in Hd. apply NoDup_app in Hd as (_ & Hd & _). intros Hk. apply (Hd k Hk). by left.
Qed.

(** [{key(a): a for a in l}], when the keys differ *)
Lemma dict_by_key {A} (key : A → string) (l : list A) :
  NoDup (key <$> l) → foldl (fun d a => dset d (key a) a) [] l = map (fun a => (key a, a)) l.
Proof.
  intros Hnd. assert (∀ d, foldl (fun d a => dset d (key a) a) d l = dupdate d (map (fun a => (key a, a)) l)) as ->.
  { clear. induction l as [|a l IH]; intros d; [done|]. cbn [foldl map]. by rewrite IH. }
  apply (dupdate_entries []). unfold dict_ok. cbn. change (map ?f ?l) with (f <$> l). by rewrite <- list_fmap_compose.
Qed.

Lemma dget_perm {A} (d e : dict A) k : dict_ok d → d ≡ₚ e → dget d k = dget e k.
Proof.
  intros Hd He. assert (dict_ok e) by (unfold dict_ok in *; by rewrite <- He).
  destruct (dget d k) as [a|] eqn:E.
  - symmetry. apply elem_dget; [done|]. rewrite <- He. by apply dget_Some_elem.
  - symmetry. apply dget_None. apply dget_None in E. by rewrite <- He.
Qed.

Lemma dget_map {A B} (f : A → B) (d : dict A) k : dget (map (fun p => (p.1, f p.2)) d) k = f <$> dget d k.
Proof. induction d as [|[k' a] d IH]; [done|]. cbn. case_bool_decide; [done|exact IH]. Qed.

Lemma map_fst_map {A B} (f : A → B) (d : dict A) : (map (fun p => (p.1, f p.2)) d).*1 = d.*1.
Proof. induction d as [|[k a] d IH]; [done|]. cbn. by f_equal. Qed.

#[export] Hint Rewrite @dget_dset_eq : dict.
#[export] Hint Resolve dict_ok_dset dict_ok_ddel dict_ok_dupdate : core.

(** * Values *)

Inductive val :=
  | VNone
  | VBool (b : bool)
  | VInt (z : Z)
  | VFloat (repr : string)
  | VStr (s : string)
  | VList (l : list val)
  | VDict (d : list (string * val)).

(** [bool(v)] *)
Definition truthy (v : val) : bool :=
  match v with
  | VNone => false
  | VBool b => b
  | VInt z => negb (z =? 0)%Z
  | VFloat r => negb (bool_decide (r = "0.0" ∨ r = "-0.0"))
  | VStr s => negb (bool_decide (s = ""))
  | VList l => match l with [] => false | _ => true end
  | VDict d => match d with [] => false | _ => true end
  end.

(** [v == s] for a string [s]. *)
Definition is_str (v : option val) (s : string) : bool :=
  match v with Some (VStr t) => bool_decide (t = s) | _ => false end.

(** The text of one character of a string literal, for the quote [q]. *)
Definition hex_digit (n : N) : ascii :=
  if (n <? 10)%N then ascii_of_N (48 + n) else ascii_of_N (87 + n).
Definition hex2 (c : ascii) : string :=
  let n := N_of_ascii c in
  String (hex_digit (n / 16)) (String (hex_digit (n mod 16)) "").

Definition repr_char (q c : ascii) : string :=
  let n := N_of_ascii c in
  if bool_decide (c = q) || bool_decide (c = "\"%char) then String "\" (String c "")
  else if (n =? 10)%N then "\n" else if (n =? 13)%N then "\r" else if (n =? 9)%N then "\t"
  else if ((n <? 32) || ((127 <=? n) && (n <=? 160)) || (n =? 173))%N then "\x" +:+ hex2 c
  else String c "".

Fixpoint string_flat (f : ascii → string) (s : string) : string :=
  match s with "" => "" | String c s' => f c +:+ string_flat f s' end.

Fixpoint has_char (c : ascii) (s : string) : bool :=
  match s with "" => false | String c' s' => bool_decide (c' = c) || has_char c s' end.

(** [repr(s)]: single quotes, unless the text has one and no double quote. *)
Definition repr_str (s : string) : string :=
  let q := if has_char "'" s && negb (has_char quote_char s) then quote_char else "'"%char in
  String q (string_flat (repr_char q) s +:+ String q "").

(** [repr(v)] *)
Fixpoint py_repr (v : val) : string :=
  match v with
  | VNone => "None"
  | VBool b => if b then "True" else "False"
  | VInt z => pretty z
  | VFloat r => r
  | VStr s => repr_str s
  | VList l => "[" +:+ join ", " (map py_repr l) +:+ "]"
  | VDict d => "{" +:+ join ", " (map (fun p => repr_str p.1 +:+ ": " +:+ py_repr p.2) d) +:+ "}"
  end.

(** [str(v)] *)
Definition py_str (v : val) : string :=
  match v with VStr s => s | _ => py_repr v end.

Definition type_error {A} (msg : string) : res A := Err (Exn TypeError msg).

(** [int(v)] *)
Definition py_int (v : val) : res Z :=
  match v with
  | VInt z => Ok z
  | VBool b => Ok (if b then 1 else 0)%Z
  | VStr s => parse_int s
  | _ => type_error "int() argument must be a string, a bytes-like object or a real number"
  end.

(** [dict(v)]; the list-of-pairs form of [dict] is used nowhere in the code. *)
Definition py_dict (v : val) : res (list (string * val)) :=
  match v with
  | VDict d => Ok d
  | VList [] | VStr "" => Ok []
  | _ => type_error "cannot convert to dict"
  end.

Fixpoint chars (s : string) : list val :=
  match s with "" => [] | String c s' => VStr (String c "") :: chars s' end.

(** [iter(v)] *)
Definition py_iter (v : val) : res (list val) :=
  match v with
  | VList l => Ok l
  | VDict d => Ok (map (fun p => VStr p.1) d)
  | VStr s => Ok (chars s)
  | _ => type_error "object is not iterable"
  end.

(** [d[k]] *)
Definition dindex (d : list (string * val)) (k : string) : res val :=
  match dget d k with
  | Some v => Ok v
  | None => Err (Exn KeyError (repr_str k))
  end.

(** [v[k]] of a value that should be a dict. *)
Definition vindex (v : val) (k : string) : res val :=
  match v with
  | VDict d => dindex d k
  | _ => type_error "string indices must be integers"
  end.

(** [d.get(k, default)] *)
Definition dget_or (d : list (string * val)) (k : string) (default : val) : val :=
  match dget d k with Some v => v | None => default end.

(** The fields [from_dict] reads: [str(d[k])], [str(d.get(k, s))],
    [int(d.get(k, n))], [bool(d.get(k, b))], [dict(d.get(k, {}))],
    [tuple(str(x) for x in d.get(k, l))] and
    [str(d[k]) if d.get(k) else None]. *)
Definition str_field d k : res string := let? v := dindex d k in Ok (py_str v).
Definition str_field_or d k (s : string) : string := py_str (dget_or d k (VStr s)).
Definition int_field_or d k (n : Z) : res Z := py_int (dget_or d k (VInt n)).
Definition bool_field_or d k (b : bool) : bool := truthy (dget_or d k (VBool b)).
Definition dict_field_or_empty d k : res (list (string * val)) := py_dict (dget_or d k (VDict [])).
Definition strs_field_or d k (l : list string) : res (list string) :=
  let? vs := py_iter (dget_or d k (VList (map VStr l))) in Ok (map py_str vs).
Definition opt_str_field d k : option string :=
  match dget d k with
  | Some v => if truthy v then Some (py_str v) else None
  | None => None
  end.

Definition opt_str (o : option string) : val :=
  match o with Some s => VStr s | None => VNone end.

Lemma opt_str_field_eq d k o :
  o ≠ Some "" → dget d k = Some (opt_str o) → opt_str_field d k = o.
Proof.
  intros Ho Hd. unfold opt_str_field. rewrite Hd. destruct o as [s|]; [|done].
  simpl. by rewrite bool_decide_eq_false_2 by congruence.
Qed.

Lemma map_py_str_VStr l : map py_str (map VStr l) = l.
Proof. induction l; f_equal/=; auto. Qed.

Lemma strs_field_or_eq d k l0 l : dget d k = Some (VList (map VStr l)) → strs_field_or d k l0 = Ok l.
Proof.
  intros Hd. unfold strs_field_or, dget_or. rewrite Hd. simpl. by rewrite map_py_str_VStr.
Qed.

(** * json.dumps *)

Definition json_char (c : ascii) : string :=
  let n := N_of_ascii c in
  if bool_decide (c = quote_char) || bool_decide (c = "\"%char) then String "\" (String c "")
  else if (n =? 10)%N then "\n" else if (n =? 13)%N then "\r" else if (n =? 9)%N then "\t"
  else if (n =? 8)%N then "\b" else if (n =? 12)%N then "\f"
  else if ((n <? 32) || (126 <? n))%N then "\u00" +:+ hex2 c
  else String c "".

Definition json_str (s : string) : string :=
  String quote_char (string_flat json_char s +:+ String quote_char "").

Definition key_le {A} (p q : string * A) : bool := str_le p.1 q.1.

(** [json.dumps(v, sort_keys=True, separators=(",", ":"))]. A field is
    serialised before the fields are put in the order of their keys. *)
Fixpoint dumps (v : val) : string :=
  match v with
  | VNone => "null"
  | VBool b => if b then "true" else "false"
  | VInt z => pretty z
  | VFloat r => r
  | VStr s => json_str s
  | VList l => "[" +:+ join "," (map dumps l) +:+ "]"
  | VDict d =>
      "{" +:+ join "," (map (fun p => json_str p.1 +:+ ":" +:+ p.2)
                          (py_sorted key_le (map (fun p => (p.1, dumps p.2)) d))) +:+ "}"
  end.

(** * Instances *)

Fixpoint val_eqb (v w : val) {struct v} : bool :=
  let fix list_eqb (l m : list val) : bool :=
    match l, m with
    | [], [] => true
    | x :: l', y :: m' => val_eqb x y && list_eqb l' m'
    | _, _ => false
    end in
  let fix dict_eqb (d e : list (string * val)) : bool :=
    match d, e with
    | [], [] => true
    | (k, x) :: d', (k', y) :: e' => bool_decide (k = k') && val_eqb x y && dict_eqb d' e'
    | _, _ => false
    end in
  match v, w with
  | VNone, VNone => true
  | VBool a, VBool b => bool_decide (a = b)
  | VInt a, VInt b => (a =? b)%Z
  | VFloat a, VFloat b => bool_decide (a = b)
  | VStr a, VStr b => bool_decide (a = b)
  | VList l, VList m => list_eqb l m
  | VDict d, VDict e => dict_eqb d e
  | _, _ => false
  end.

(** Induction that reaches the values inside lists and dicts. *)
Section ValInd.
Context (P : val → Prop).
Hypotheses (HNone : P VNone) (HBool : ∀ b, P (VBool b)) (HInt : ∀ z, P (VInt z))
  (HFloat : ∀ r, P (VFloat r)) (HStr : ∀ s, P (VStr s))
  (HList : ∀ l, Forall P l → P (VList l))
  (HDict : ∀ d, Forall (fun p => P p.2) d → P (VDict d)).

Fixpoint val_nested_ind (v : val) : P v :=
  match v with
  | VNone => HNone | VBool b => HBool b | VInt z => HInt z
  | VFloat r => HFloat r | VStr s => HStr s
  | VList l => HList l ((fix go l : Forall P l :=
      match l with
      | [] => Forall_nil_2 P
      | x :: l' => Forall_cons_2 P x l' (val_nested_ind x) (go l')
      end) l)
  | VDict d => HDict d ((fix go d : Forall (fun p => P p.2) d :=
      match d with
      | [] => Forall_nil_2 _
      | p :: d' => Forall_cons_2 _ p d' (val_nested_ind p.2) (go d')
      end) d)
  end.
End ValInd.

Lemma val_eqb_eq v w : val_eqb v w = true ↔ v = w.
Proof.
  revert w. induction v using val_nested_ind; intros w; destruct w; simpl;
    try (split; [done|discriminate]); try (rewrite bool_decide_eq_true; naive_solver);
    try done.
  - rewrite Z.eqb_eq. naive_solver.
  - revert l0. induction H as [|x l Hx Hl IH]; intros [|y m]; try (split; congruence).
    rewrite andb_true_iff, Hx. specialize (IH m). split.
    + intros [-> Hm]. apply IH in Hm. congruence.
    + intros ?; simplify_eq. split; [done|]. by apply IH.
  - revert d0. induction H as [|[k x] l Hx Hl IH]; intros [|[k' y] m]; try (split; congruence).
    simpl in Hx. rewrite !andb_true_iff, bool_decide_eq_true, Hx. specialize (IH m). split.
    + intros [[-> ->] Hm]. apply IH in Hm. congruence.
    + intros ?; simplify_eq. split; [done|]. by apply IH.
Qed.

#[export] Instance val_eq_dec : EqDecision val.
Proof.
  intros v w. destruct (val_eqb v w) eqn:E.
  - left. by apply val_eqb_eq.
  - right. intros H%val_eqb_eq. congruence.
Defined.
