(* ===== verification/Json.v ===== *)
(** Canonical JSON: the text [json.dumps(v, sort_keys=True)] determines the
    value up to the order of the keys of its dicts. Hash chains, signatures and
    idempotency checks of the program all rest on this. *)

From stdpp Require Import base option list strings gmap pretty sets.
From Stdlib Require Import ZArith Lia Sorted Ascii.
From S2P Require Import Prelude PyVal.

(** * Canonical values *)

(** A value with the entries of its dicts in the order of their keys. *)
Fixpoint canon (v : val) : val :=
  match v with
  | VList l => VList (map canon l)
  | VDict d => VDict (py_sorted key_le (map (fun p => (p.1, canon p.2)) d))
  | _ => v
  end.

(** JSON text without sorting. *)
Fixpoint write (v : val) : string :=
  match v with
  | VNone => "null"
  | VBool b => if b then "true" else "false"
  | VInt z => pretty z
  | VFloat r => r
  | VStr s => json_str s
  | VList l => "[" +:+ join "," (map write l) +:+ "]"
  | VDict d => "{" +:+ join "," (map (fun p => json_str p.1 +:+ ":" +:+ write p.2) d) +:+ "}"
  end.

Lemma dumps_write v : dumps v = write (canon v).
Proof.
  induction v as [| | | | |l IH|d IH] using val_nested_ind; simpl; try done.
  - do 3 f_equal. rewrite map_map. apply map_ext_Forall. exact IH.
  - do 2 f_equal.
    assert (map (fun p => (p.1, dumps p.2)) d
            = map (fun p => (p.1, write p.2)) (map (fun p => (p.1, canon p.2)) d)) as ->.
    { rewrite map_map. simpl. apply map_ext_Forall.
      eapply Forall_impl; [exact IH|]. intros [k v] E; simpl in *. by rewrite E. }
    rewrite <- (py_sorted_map (fun p => (p.1, write p.2)) key_le key_le) by done.
    by rewrite map_map.
Qed.

Lemma canon_idem v : canon (canon v) = canon v.
Proof.
  induction v as [| | | | |l IH|d IH] using val_nested_ind; simpl; try done.
  - f_equal. rewrite map_map. by apply map_ext_Forall.
  - f_equal. rewrite (py_sorted_map (fun p => (p.1, canon p.2)) key_le key_le) by done. rewrite map_map. cbn.
    rewrite py_sorted_id by (apply py_sorted_Sorted; intros p q; apply str_le_total). f_equal. apply map_ext_Forall.
    eapply Forall_impl; [exact IH|]. intros p Hp. cbn in *. by rewrite Hp.
Qed.

(** * Tokens *)

(** Characters of numbers and of the words null, true and false. *)
Definition token_char (c : ascii) : bool :=
  bool_decide (c ∈ ["0"; "1"; "2"; "3"; "4"; "5"; "6"; "7"; "8"; "9"; "+"; "-"; "."; "e";
                    "n"; "u"; "l"; "t"; "r"; "f"; "a"; "s"]%char).

Fixpoint all_chars (p : ascii → bool) (s : string) : bool :=
  match s with "" => true | String c s' => p c && all_chars p s' end.

(** The texts [repr] gives a finite float: number characters with a point or an
    exponent. *)
Definition float_text (r : string) : bool :=
  all_chars (fun c => bool_decide (c ∈ ["0"; "1"; "2"; "3"; "4"; "5"; "6"; "7"; "8"; "9"; "+"; "-";
                                        "."; "e"]%char)) r
  && (has_char "." r || has_char "e" r).

(** The values Python can hold: every float has the text of a float. *)
Inductive val_ok : val → Prop :=
  | ok_none : val_ok VNone
  | ok_bool b : val_ok (VBool b)
  | ok_int z : val_ok (VInt z)
  | ok_float r : float_text r = true → val_ok (VFloat r)
  | ok_str s : val_ok (VStr s)
  | ok_list l : Forall val_ok l → val_ok (VList l)
  | ok_dict d : Forall (fun p => val_ok p.2) d → val_ok (VDict d).
#[export] Hint Constructors val_ok : core.

(** What follows a value in JSON text. *)
Definition delimited (s : string) : Prop :=
  match s with "" => True | String c _ => c ∈ [","; "]"; "}"]%char end.

Lemma delimited_token c s : delimited (String c s) → token_char c = false.
Proof. simpl. rewrite !elem_of_cons, elem_of_nil. by intros [->|[->|[->|?]]]. Qed.

Lemma all_chars_impl (p q : ascii → bool) s :
  (∀ c, p c = true → q c = true) → all_chars p s = true → all_chars q s = true.
Proof.
  intros Hpq. induction s as [|c s IH]; simpl; [done|].
  rewrite !andb_true_iff. intros [Hc Hs]. auto.
Qed.

Lemma all_chars_app p a b : all_chars p (a +:+ b) = all_chars p a && all_chars p b.
Proof. induction a as [|c a IH]; simpl; [done|]. by rewrite IH, andb_assoc. Qed.

(** Two tokens in front of rests they do not run into are the same. *)
Lemma token_inj a b s t :
  all_chars token_char a = true → all_chars token_char b = true → delimited s → delimited t →
  a +:+ s = b +:+ t → a = b ∧ s = t.
Proof.
  revert b. induction a as [|c a IH]; intros [|c' b] Ha Hb Hs Ht E; simpl in *;
    rewrite ?andb_true_iff in *.
  - done.
  - subst. apply delimited_token in Hs. destruct Hb. congruence.
  - subst. apply delimited_token in Ht. destruct Ha. congruence.
  - injection E as -> E. destruct Ha, Hb. destruct (IH b) as [-> ->]; auto.
Qed.

Definition int_char (c : ascii) : bool :=
  bool_decide (c ∈ ["0"; "1"; "2"; "3"; "4"; "5"; "6"; "7"; "8"; "9"; "-"]%char).

Lemma pretty_N_go_chars n s :
  all_chars int_char s = true → all_chars int_char (pretty_N_go n s) = true.
Proof.
  revert s. induction (N.lt_wf_0 n) as [n _ IH]. intros s Hs.
  destruct (decide (n = 0)%N) as [->|Hn]; [by rewrite pretty_N_go_0|].
  rewrite pretty_N_go_step by lia. apply IH.
  - apply N.div_lt; lia.
  - simpl. rewrite Hs, andb_true_r.
    assert (n `mod` 10 < 10)%N as Hm by (apply N.mod_lt; lia).
    unfold pretty_N_char. destruct (n `mod` 10)%N as [|p]; [done|].
    by do 4 (destruct p as [p|p|]; try done).
Qed.

Lemma pretty_N_go_ne n s : s ≠ "" → pretty_N_go n s ≠ "".
Proof.
  revert s. induction (N.lt_wf_0 n) as [n _ IH]. intros s Hs.
  destruct (decide (n = 0)%N) as [->|Hn]; [by rewrite pretty_N_go_0|].
  rewrite pretty_N_go_step by lia. apply IH; [apply N.div_lt; lia|done].
Qed.

Lemma pretty_Z_ne (z : Z) : pretty z ≠ "".
Proof.
  assert (Hp : ∀ p, pretty (N.pos p) ≠ "").
  { intros p. unfold pretty, pretty_N. rewrite decide_False, pretty_N_go_step by lia.
    by apply pretty_N_go_ne. }
  destruct z as [|p|p]; [done|apply Hp|done].
Qed.

Lemma pretty_Z_chars (z : Z) : all_chars int_char (pretty z) = true.
Proof.
  assert (Hp : ∀ p, all_chars int_char (pretty (N.pos p)) = true).
  { intros p. unfold pretty, pretty_N. rewrite decide_False by lia. by apply pretty_N_go_chars. }
  destruct z as [|p|p]; [done|apply Hp|]. unfold pretty, pretty_Z. simpl. apply Hp.
Qed.

(** * Strings *)

Definition unhex (c : ascii) : N :=
  let n := N_of_ascii c in if (n <? 58)%N then (n - 48)%N else (n - 87)%N.

(** Reads one character of a string literal; [None] at its closing quote. *)
Definition read_char (s : string) : option (ascii * string) :=
  match s with
  | String "\" (String "u" (String _ (String _ (String h (String l s'))))) =>
      Some (ascii_of_N (16 * unhex h + unhex l), s')
  | String "\" (String c s') =>
      Some ((if bool_decide (c = "n"%char) then "010" else if bool_decide (c = "r"%char) then "013"
             else if bool_decide (c = "t"%char) then "009" else if bool_decide (c = "b"%char) then "008"
             else if bool_decide (c = "f"%char) then "012" else c)%char, s')
  | String c s' => if bool_decide (c = quote_char) then None else Some (c, s')
  | "" => None
  end.

Lemma read_json_char c s : read_char (json_char c +:+ s) = Some (c, s).
Proof. destruct c as [[] [] [] [] [] [] [] []]; reflexivity. Qed.

Lemma json_body_inj a b s t :
  string_flat json_char a +:+ String quote_char s = string_flat json_char b +:+ String quote_char t →
  a = b ∧ s = t.
Proof.
  revert b. induction a as [|c a IH]; intros [|c' b]; simpl; rewrite ?str_app_assoc; intros E.
  - by injection E.
  - apply (f_equal read_char) in E. rewrite read_json_char in E. discriminate E.
  - apply (f_equal read_char) in E. rewrite read_json_char in E. discriminate E.
  - apply (f_equal read_char) in E. rewrite !read_json_char in E.
    injection E as -> E. destruct (IH b E) as [-> ->]. done.
Qed.

Lemma json_str_inj a b s t : json_str a +:+ s = json_str b +:+ t → a = b ∧ s = t.
Proof.
  unfold json_str. simpl. rewrite !str_app_assoc. intros E. injection E as E.
  by apply json_body_inj in E.
Qed.

Lemma json_str_head s : ∃ u, json_str s = String quote_char u.
Proof. by eexists. Qed.

#[local] Opaque json_str.

(** * Values *)

(** The first characters of the texts tell the kinds of values apart. *)
Definition is_token (v : val) : bool :=
  match v with VNone | VBool _ | VInt _ | VFloat _ => true | _ => false end.

Lemma token_chars v : val_ok v → is_token v = true → all_chars token_char (write v) = true.
Proof.
  destruct 1 as [|b|z|r Hr| | |]; simpl; intros Ht; try done.
  - by destruct b.
  - eapply all_chars_impl; [|apply pretty_Z_chars]. intros c. unfold int_char, token_char.
    rewrite !bool_decide_eq_true. set_solver.
  - unfold float_text in Hr. apply andb_true_iff in Hr as [Hr _].
    eapply all_chars_impl; [|exact Hr]. intros c. simpl. unfold token_char.
    rewrite !bool_decide_eq_true. set_solver.
Qed.

Lemma has_char_int c (z : Z) : int_char c = false → has_char c (pretty z) = false.
Proof.
  intros Hc. pose proof (pretty_Z_chars z) as H. induction (pretty z) as [|c' s IH]; simpl in *; [done|].
  apply andb_true_iff in H as [H1 H2]. rewrite IH, orb_false_r by done.
  apply bool_decide_eq_false_2. congruence.
Qed.

Lemma token_value v w :
  val_ok v → val_ok w → is_token v = true → is_token w = true → write v = write w → v = w.
Proof.
  assert (Hint : ∀ (z : Z) r, float_text r = true → pretty z = r → False).
  { intros z r Hr <-. unfold float_text in Hr.
    rewrite !has_char_int, andb_false_r in Hr by done. done. }
  assert (Hword : ∀ (z : Z) w, int_char (default "0" (String.get 0 w))%char = false → pretty z ≠ w).
  { intros z w' Hw Hz. pose proof (pretty_Z_chars z) as H. rewrite Hz in H.
    destruct w'; simpl in *; [done|]. rewrite Hw in H. done. }
  destruct 1 as [|b|z|r Hr| | |]; destruct 1 as [|b'|z'|r' Hr'| | |]; simpl; intros Hv Hw E; try done.
  all: repeat match goal with b : bool |- _ => destruct b end; try done; try (subst; done).
  all: try match goal with
  | H : float_text ?r = true, E : pretty ?z = ?r |- _ => destruct (Hint z r H E)
  | H : float_text ?r = true, E : ?r = pretty ?z |- _ => destruct (Hint z r H (eq_sym E))
  end.
  all: try (exfalso; eapply Hword; [|done || exact E || exact (eq_sym E)]; done).
  by apply (inj pretty) in E; subst.
Qed.

(** The first character of the text of a value that is not a token. *)
Definition opening (v : val) : option ascii :=
  match v with
  | VStr _ => Some quote_char | VList _ => Some "["%char | VDict _ => Some "{"%char
  | _ => None
  end.

Lemma write_head v :
  val_ok v → ∃ c u, write v = String c u ∧
    match opening v with None => token_char c = true | Some c' => c = c' end.
Proof.
  intros Hok. destruct (opening v) eqn:Ho.
  - destruct v; simplify_eq/=; [|by eexists _, _..].
    destruct (json_str_head s) as [u ->]. by eexists _, _.
  - assert (Ht : is_token v = true) by (by destruct v).
    pose proof (token_chars v Hok Ht) as Hc.
    assert (Hne : write v ≠ "").
    { destruct Hok as [|[]|z|r Hr| | |]; try done; simpl; [apply pretty_Z_ne|by intros ->]. }
    destruct (write v) as [|c u]; [done|]. exists c, u. split; [done|]. simpl in Hc.
    by apply andb_true_iff in Hc as [Hc _].
Qed.

Lemma write_first v : val_ok v → ∃ c u, write v = String c u ∧ c ∉ [","; "]"; "}"]%char.
Proof.
  intros Hok. destruct (write_head v Hok) as (c & u & -> & Hc). exists c, u. split; [done|].
  intros Hin. assert (token_char c = false) by (by apply (delimited_token c "")).
  rewrite !elem_of_cons, elem_of_nil in Hin.
  destruct v; simplify_eq/=; try congruence; by destruct_or! Hin.
Qed.

(** Equal texts start alike. *)
Lemma write_opening v w s t :
  val_ok v → val_ok w → write v +:+ s = write w +:+ t → opening v = opening w.
Proof.
  intros Hv Hw. destruct (write_head v Hv) as (c & u & -> & Hc), (write_head w Hw) as (c' & u' & -> & Hc').
  simpl. intros E. injection E as <- _. destruct v, w; simplify_eq/=; done.
Qed.

(** Texts of elements, each told apart in front of what follows it, joined and
    closed, are told apart. *)
Lemma join_cons sep x l : join sep (x :: l) = x +:+ foldr (fun y acc => sep +:+ y +:+ acc) "" l.
Proof.
  revert x. induction l as [|y l IH]; intros x; [by simpl; rewrite str_app_nil_r|].
  change (join sep (x :: y :: l)) with (x +:+ sep +:+ join sep (y :: l)). by rewrite IH.
Qed.

Section Join.
Context {A : Type} (f : A → string) (ok : A → Prop) (close : ascii).
Hypothesis Hclose : close ∈ ["]"; "}"]%char.
Hypothesis f_first : ∀ x, ok x → ∃ c u, f x = String c u ∧ c ∉ [","; "]"; "}"]%char.

Definition told_apart (x : A) : Prop :=
  ∀ y s t, ok y → delimited s → delimited t → f x +:+ s = f y +:+ t → x = y ∧ s = t.

Lemma tail_inj l m s t :
  Forall told_apart l → Forall ok l → Forall ok m →
  foldr (fun y acc => "," +:+ y +:+ acc) "" (map f l) +:+ String close s =
  foldr (fun y acc => "," +:+ y +:+ acc) "" (map f m) +:+ String close t → l = m ∧ s = t.
Proof.
  assert (Hne : close ≠ ","%char) by (intros ->; set_solver).
  assert (Hd : ∀ k u, delimited (foldr (fun y acc => "," +:+ y +:+ acc) "" (map f k) +:+ String close u)).
  { intros [|y k] u; simpl; set_solver. }
  intros Hl. revert m. induction Hl as [|x l Hx _ IH]; intros [|y m] Hol Hom E.
  - simpl in E. by injection E.
  - simpl in E. congruence.
  - simpl in E. congruence.
  - cbn [map foldr] in E. simpl in E. rewrite !str_app_assoc in E. injection E as E.
    apply Forall_cons in Hol as [Hox Hol]. apply Forall_cons in Hom as [Hoy Hom].
    apply Hx in E as [-> E]; auto. apply IH in E as [-> ->]; auto.
Qed.

Lemma join_inj l m s t :
  Forall told_apart l → Forall ok l → Forall ok m →
  join "," (map f l) +:+ String close s = join "," (map f m) +:+ String close t → l = m ∧ s = t.
Proof.
  assert (Hd : ∀ k u, delimited (foldr (fun y acc => "," +:+ y +:+ acc) "" (map f k) +:+ String close u)).
  { intros [|y k] u; simpl; set_solver. }
  assert (Hf : ∀ y k u v, ok y → String close v ≠ join "," (map f (y :: k)) +:+ u).
  { intros y k u v Hy. cbn [map]. rewrite join_cons.
    destruct (f_first y Hy) as (c & w & -> & Hc). simpl. intros E. injection E as <- _. set_solver. }
  intros Hl Hol Hom E. destruct l as [|x l], m as [|y m].
  - simpl in E. by injection E.
  - apply Forall_cons in Hom as [Hoy Hom]. by apply Hf in E.
  - apply Forall_cons in Hol as [Hox Hol]. symmetry in E. by apply Hf in E.
  - apply Forall_cons in Hl as [Hx Hl]. apply Forall_cons in Hol as [Hox Hol].
    apply Forall_cons in Hom as [Hoy Hom].
    cbn [map] in E. rewrite !join_cons, !str_app_assoc in E.
    apply Hx in E as [-> E]; auto. apply tail_inj in E as [-> ->]; auto.
Qed.
End Join.

(** An entry of a dict. *)
Lemma entry_told_apart d :
  Forall (fun p => told_apart write val_ok p.2) d →
  Forall (told_apart (fun p => json_str p.1 +:+ ":" +:+ write p.2) (fun p => val_ok p.2)) d.
Proof.
  intros Hd. eapply Forall_impl; [exact Hd|]. intros [k v] Hv [k' v'] s t Hok Hs Ht E; simpl in *.
  rewrite !str_app_assoc in E. apply json_str_inj in E as [-> E]. simpl in E. injection E as E.
  by apply Hv in E as [-> ->].
Qed.

(** The text of a dict determines it, whatever follows. *)
Lemma dict_text_inj d e s t :
  Forall (fun p => told_apart write val_ok p.2) d → val_ok (VDict d) → val_ok (VDict e) →
  write (VDict d) +:+ s = write (VDict e) +:+ t → d = e ∧ s = t.
Proof.
  intros IH Hd He E. inversion Hd as [| | | | | |? Hl]; inversion He as [| | | | | |? Hm]; subst.
  cbn [write] in E. simpl in E. injection E as E. rewrite !str_app_assoc in E.
  apply (join_inj _ (fun p => val_ok p.2) "}") in E as [-> ->]; try done; [set_solver| |].
  - intros [k v] _. eexists _, _. split; [done|]. set_solver.
  - by apply entry_told_apart.
Qed.

(** JSON text in front of a delimiter determines the value. *)
Lemma write_inj v : val_ok v → told_apart write val_ok v.
Proof.
  induction v as [| | | | s|l IH|d IH] using val_nested_ind; intros Hv w s' t Hw Hs Ht E;
    pose proof (write_opening _ _ _ _ Hv Hw E) as Ho.
  1-4: assert (is_token w = true) by (by destruct w);
    (apply token_inj in E as [E ->]; [|by apply token_chars..|done|done]);
    split; [by apply token_value|done].
  all: destruct w as [| | | |s2|m|e]; try done.
  - cbn [write] in E. by apply json_str_inj in E as [-> ->].
  - inversion Hv as [| | | | |? Hl|]; inversion Hw as [| | | | |? Hm|]; subst.
    cbn [write] in E. simpl in E. injection E as E. rewrite !str_app_assoc in E.
    apply (join_inj write val_ok "]") in E as [-> ->]; try done; [set_solver|apply write_first|].
    rewrite Forall_forall in *. auto.
  - apply dict_text_inj in E as [-> ->]; try done. inversion Hv as [| | | | | |? Hl]; subst.
    rewrite Forall_forall in *. auto.
Qed.

Lemma canon_ok v : val_ok v → val_ok (canon v).
Proof.
  induction v as [| | | | |l IH|d IH] using val_nested_ind; simpl; try done; intros Hv;
    inversion Hv; subst; constructor.
  - rewrite Forall_map. rewrite Forall_forall in *. simpl. auto.
  - rewrite py_sorted_perm, Forall_map. rewrite Forall_forall in *. simpl. auto.
Qed.

(** The canonical text determines the value up to the order of keys. *)
Lemma dumps_inj v w : val_ok v → val_ok w → dumps v = dumps w → canon v = canon w.
Proof.
  rewrite !dumps_write. intros Hv%canon_ok Hw%canon_ok E.
  apply (write_inj _ Hv _ "" ""); [done..|]. by rewrite E.
Qed.

(** The canonical text of a dict determines it, whatever follows. *)
Lemma dumps_dict_inj d e s t :
  val_ok (VDict d) → val_ok (VDict e) → dumps (VDict d) +:+ s = dumps (VDict e) +:+ t →
  canon (VDict d) = canon (VDict e) ∧ s = t.
Proof.
  intros Hd%canon_ok He%canon_ok. rewrite !dumps_write. cbn [canon] in *. intros E.
  apply dict_text_inj in E as [-> ->]; try done. inversion Hd as [| | | | | |? Hl]; subst.
  rewrite Forall_forall in *. intros p Hp. by apply write_inj, Hl.
Qed.
