(* ===== verification/PyTime.v ===== *)
(** The part of Python's [datetime] the program uses. A [datetime] is always in
    UTC, and is the number of microseconds since 0001-01-01T00:00:00; a [date]
    is the number of days since 0001-01-01; a [timedelta] is a number of
    microseconds or days. The calendar is the one of CPython's datetime.py
    ([_ymd2ord], [_ord2ymd]); [fromisoformat] accepts what [isoformat] writes. *)

From stdpp Require Import base option list strings sets.
From Stdlib Require Import ZArith Lia Ascii.
From S2P Require Import Prelude PyVal.

Local Open Scope Z_scope.

(** [lia] also decides goals with [/] and [mod] by constants. *)
#[local] Ltac Zify.zify_post_hook ::= Z.to_euclidean_division_equations.

(** * The calendar *)

Definition is_leap (y : Z) : bool :=
  (y mod 4 =? 0) && (negb (y mod 100 =? 0) || (y mod 400 =? 0)).

Definition days_before_year (y : Z) : Z :=
  let y := y - 1 in y * 365 + y / 4 - y / 100 + y / 400.

(** The days before month [m] in a year that is a leap year or not. *)
Definition days_before_month (leap : bool) (m : Z) : Z :=
  let l := if leap then 1 else 0 in
  if m <=? 1 then 0 else if m =? 2 then 31 else if m =? 3 then 59 + l
  else if m =? 4 then 90 + l else if m =? 5 then 120 + l else if m =? 6 then 151 + l
  else if m =? 7 then 181 + l else if m =? 8 then 212 + l else if m =? 9 then 243 + l
  else if m =? 10 then 273 + l else if m =? 11 then 304 + l else if m =? 12 then 334 + l
  else 365 + l.

Definition days_in_month (leap : bool) (m : Z) : Z :=
  days_before_month leap (m + 1) - days_before_month leap m.

Definition valid_ymd (y m d : Z) : bool :=
  (1 <=? y) && (y <=? 9999) && (1 <=? m) && (m <=? 12) &&
  (1 <=? d) && (d <=? days_in_month (is_leap y) m).

(** The day number of a date, from 0 for 0001-01-01. *)
Definition ymd2day (y m d : Z) : Z :=
  days_before_year y + days_before_month (is_leap y) m + d - 1.

(** The month that day [n] of a year falls in. *)
Definition month_of_day (leap : bool) (n : Z) : Z :=
  let b := days_before_month leap in
  if n <? b 2 then 1 else if n <? b 3 then 2 else if n <? b 4 then 3
  else if n <? b 5 then 4 else if n <? b 6 then 5 else if n <? b 7 then 6
  else if n <? b 8 then 7 else if n <? b 9 then 8 else if n <? b 10 then 9
  else if n <? b 11 then 10 else if n <? b 12 then 11 else 12.

Definition day2ymd (n : Z) : Z * Z * Z :=
  let n400 := n / 146097 in let n := n mod 146097 in
  let n100 := n / 36524 in let n := n mod 36524 in
  let n4 := n / 1461 in let n := n mod 1461 in
  let n1 := n / 365 in let n := n mod 365 in
  let y := n400 * 400 + 1 + n100 * 100 + n4 * 4 + n1 in
  if (n1 =? 4) || (n100 =? 4) then (y - 1, 12, 31)
  else
    let leap := (n1 =? 3) && (negb (n4 =? 24) || (n100 =? 3)) in
    let m := month_of_day leap n in
    (y, m, n - days_before_month leap m + 1).

(** The days of the years 1 to 9999. *)
Definition max_day : Z := 3652059.

(** Evaluates the closed entries of the table of months in the goal. *)
Ltac eval_months :=
  repeat match goal with
  | |- context [days_before_month ?l ?m] =>
      let v := eval vm_compute in (days_before_month l m) in
      change (days_before_month l m) with v
  end.

(** The day of the year is in the month [month_of_day] gives. *)
Lemma month_of_day_spec (leap : bool) n :
  0 <= n < 365 + (if leap then 1 else 0) →
  let m := month_of_day leap n in
  1 <= m <= 12 ∧ days_before_month leap m <= n < days_before_month leap m + days_in_month leap m.
Proof.
  intros Hn. unfold month_of_day, days_in_month.
  destruct leap; cbn in *;
    repeat match goal with |- context [?a <? ?b] => destruct (Z.ltb_spec a b) end; cbn; eval_months; lia.
Qed.

(** The pieces [day2ymd] cuts a day number into. *)
Lemma day_pieces n a b c e r :
  a = n / 146097 → b = n mod 146097 / 36524 →
  c = n mod 146097 mod 36524 / 1461 → e = n mod 146097 mod 36524 mod 1461 / 365 →
  r = n mod 146097 mod 36524 mod 1461 mod 365 →
  n = a * 146097 + b * 36524 + c * 1461 + e * 365 + r ∧
  0 <= b <= 4 ∧ 0 <= c <= 24 ∧ 0 <= e <= 4 ∧ 0 <= r < 365 ∧
  (b = 4 → c = 0 ∧ e = 0 ∧ r = 0) ∧ (e = 4 → r = 0 ∧ c <= 23).
Proof.
  intros -> -> -> -> ->.
  pose proof (Z.div_mod n 146097). pose proof (Z.mod_pos_bound n 146097).
  set (n0 := n mod 146097) in *. set (a := n / 146097) in *.
  pose proof (Z.div_mod n0 36524). pose proof (Z.mod_pos_bound n0 36524).
  set (n1 := n0 mod 36524) in *. set (b := n0 / 36524) in *.
  pose proof (Z.div_mod n1 1461). pose proof (Z.mod_pos_bound n1 1461).
  set (n2 := n1 mod 1461) in *. set (c := n1 / 1461) in *.
  pose proof (Z.div_mod n2 365). pose proof (Z.mod_pos_bound n2 365).
  set (r := n2 mod 365) in *. set (e := n2 / 365) in *.
  clearbody n0 a n1 b n2 c r e. lia.
Qed.

Lemma days_before_year_pieces a b c e :
  0 <= b <= 3 → 0 <= c <= 24 → 0 <= e <= 3 →
  days_before_year (a * 400 + 1 + b * 100 + c * 4 + e) = a * 146097 + b * 36524 + c * 1461 + e * 365.
Proof. intros Hb Hc He. unfold days_before_year. lia. Qed.

Lemma is_leap_pieces a b c e :
  0 <= b <= 3 → 0 <= c <= 24 → 0 <= e <= 3 →
  is_leap (a * 400 + 1 + b * 100 + c * 4 + e) = (e =? 3) && (negb (c =? 24) || (b =? 3)).
Proof.
  intros Hb Hc He. unfold is_leap.
  destruct (Z.eqb_spec e 3), (Z.eqb_spec c 24), (Z.eqb_spec b 3); cbn;
    repeat match goal with |- context [?a mod ?b =? 0] => destruct (Z.eqb_spec (a mod b) 0) end;
    cbn; lia.
Qed.

(** Every day of the years 1 to 9999 is read back from its date. *)
Lemma day2ymd_spec n :
  0 <= n < max_day →
  let '(y, m, d) := day2ymd n in valid_ymd y m d = true ∧ ymd2day y m d = n.
Proof.
  intros Hn. unfold day2ymd, max_day in *.
  set (a := n / 146097). set (b := n mod 146097 / 36524).
  set (c := n mod 146097 mod 36524 / 1461). set (e := n mod 146097 mod 36524 mod 1461 / 365).
  set (r := n mod 146097 mod 36524 mod 1461 mod 365).
  destruct (day_pieces n a b c e r) as (Hsum & Hb & Hc & He & Hr & Hb4 & He4);
    [done..|]. clearbody a b c e r.
  unfold valid_ymd, ymd2day.
  destruct (Z.eqb_spec b 4) as [->|Hb'].
  - (* the last day of a cycle of 400 years *)
    destruct Hb4 as (-> & -> & ->); [done|]. rewrite orb_true_r.
    replace (a * 400 + 1 + 4 * 100 + 0 * 4 + 0 - 1) with (a * 400 + 1 + 3 * 100 + 24 * 4 + 3) by lia.
    rewrite is_leap_pieces, days_before_year_pieces by lia.
    cbn. unfold days_in_month. eval_months. clear -Hsum Hn. split; lia.
  - rewrite orb_false_r. destruct (Z.eqb_spec e 4) as [->|He'].
    + (* the last day of a leap year *)
      destruct He4 as [-> Hc']; [done|].
      replace (a * 400 + 1 + b * 100 + c * 4 + 4 - 1) with (a * 400 + 1 + b * 100 + c * 4 + 3) by lia.
      rewrite is_leap_pieces, days_before_year_pieces by lia.
      rewrite (proj2 (Z.eqb_neq c 24)) by lia.
      cbn. unfold days_in_month. eval_months. split; lia.
    + rewrite is_leap_pieces, days_before_year_pieces by lia.
      set (leap := (e =? 3) && (negb (c =? 24) || (b =? 3))).
      destruct (month_of_day_spec leap r) as [Hm Hd]; [destruct leap; lia|].
      set (m := month_of_day leap r) in *. clearbody m leap.
      unfold days_in_month in Hd |- *.
      set (x := days_before_month leap m) in *. set (x' := days_before_month leap (m + 1)) in *.
      clearbody x x'. split; lia.
Qed.

(** * Text of fixed-width numbers *)

Definition digit_char (d : Z) : ascii := ascii_of_N (Z.to_N (48 + d)).

(** [f"{n:0{w}d}"] for a number of at most [w] digits. *)
Fixpoint zpad (w : nat) (n : Z) : string :=
  match w with
  | O => ""
  | S w' => String (digit_char (n / 10 ^ Z.of_nat w')) (zpad w' (n mod 10 ^ Z.of_nat w'))
  end.

(** Reads exactly [w] digits from the front of the text. *)
Fixpoint take_digits (w : nat) (acc : Z) (s : string) : option (Z * string) :=
  match w with
  | O => Some (acc, s)
  | S w' =>
      match s with
      | String c s' =>
          match digit_val c with
          | Some d => take_digits w' (10 * acc + d) s'
          | None => None
          end
      | "" => None
      end
  end.

Definition take_char (c : ascii) (s : string) : option string :=
  match s with
  | String c' s' => if bool_decide (c' = c) then Some s' else None
  | "" => None
  end.

Lemma digit_val_char d : 0 <= d <= 9 → digit_val (digit_char d) = Some d.
Proof.
  intros Hd.
  assert (d = 0 ∨ d = 1 ∨ d = 2 ∨ d = 3 ∨ d = 4 ∨ d = 5 ∨ d = 6 ∨ d = 7 ∨ d = 8 ∨ d = 9)
    as H by lia.
  by destruct_or! H; subst.
Qed.

Lemma take_digits_zpad w acc n s :
  0 <= n < 10 ^ Z.of_nat w →
  take_digits w acc (zpad w n +:+ s) = Some (acc * 10 ^ Z.of_nat w + n, s).
Proof.
  revert acc n. induction w as [|w IH]; intros acc n Hn.
  - cbn in *. f_equal. f_equal. lia.
  - rewrite Nat2Z.inj_succ, Z.pow_succ_r in * by lia.
    set (p := 10 ^ Z.of_nat w) in *. assert (Hp : 0 < p) by (unfold p; lia).
    cbn [zpad take_digits]. fold p.
    assert (Hq : 0 <= n / p <= 9).
    { split; [apply Z.div_pos; lia|]. apply Z.lt_succ_r, Z.div_lt_upper_bound; lia. }
    change (String (digit_char (n / p)) (zpad w (n mod p)) +:+ s)
      with (String (digit_char (n / p)) (zpad w (n mod p) +:+ s)).
    cbn. rewrite digit_val_char by lia.
    rewrite IH by (apply Z.mod_pos_bound; lia). f_equal. f_equal.
    rewrite (Z.div_mod n p) at 3 by lia. lia.
Qed.

(** Reads a literal character the text starts with. *)
Ltac read_char :=
  match goal with
  | |- context [take_char ?c (String.append (String ?c "") ?x)] =>
      change (take_char c (String.append (String c "") x)) with (Some x)
  end; cbn [mbind option_bind].

(** Reads a number of [w] digits that was written with [zpad]. *)
Ltac read_num :=
  rewrite take_digits_zpad by (cbn; lia); cbn [mbind option_bind]; rewrite ?Z.mul_0_l, ?Z.add_0_l.

(** * Dates *)

Definition date_iso (day : Z) : string :=
  let '(y, m, d) := day2ymd day in
  zpad 4 y +:+ "-" +:+ zpad 2 m +:+ "-" +:+ zpad 2 d.

Definition bad_iso {A} (s : string) : res A :=
  Err (Exn ValueError ("Invalid isoformat string: " +:+ repr_str s)).

(** Reads the date at the front of the text. *)
Definition take_date (s : string) : option (Z * string) :=
  '(y, s) ← take_digits 4 0 s; s ← take_char "-" s;
  '(m, s) ← take_digits 2 0 s; s ← take_char "-" s;
  '(d, s) ← take_digits 2 0 s;
  if valid_ymd y m d then Some (ymd2day y m d, s) else None.

(** [date.fromisoformat(s)] *)
Definition date_fromiso (s : string) : res Z :=
  match take_date s with Some (day, "") => Ok day | _ => bad_iso s end.

Lemma valid_ymd_bounds y m d : valid_ymd y m d = true → 1 <= y <= 9999 ∧ 1 <= m <= 12 ∧ 1 <= d <= 31.
Proof.
  unfold valid_ymd. rewrite !andb_true_iff, !Z.leb_le.
  intros (((((? & ?) & ?) & ?) & ?) & Hd31). repeat split; [lia..|].
  etransitivity; [exact Hd31|]. unfold days_in_month.
  assert (m = 1 ∨ m = 2 ∨ m = 3 ∨ m = 4 ∨ m = 5 ∨ m = 6 ∨ m = 7 ∨ m = 8 ∨ m = 9 ∨
          m = 10 ∨ m = 11 ∨ m = 12) as Hm by lia.
  by destruct_or! Hm; subst; destruct (is_leap y).
Qed.

(** A date of the calendar has its number in the calendar. *)
Lemma ymd2day_range y m d : valid_ymd y m d = true → 0 <= ymd2day y m d < max_day.
Proof.
  intros Hv. destruct (valid_ymd_bounds y m d Hv) as (Hy & Hm & Hd).
  unfold valid_ymd in Hv. rewrite !andb_true_iff, !Z.leb_le in Hv. destruct Hv as [_ Hdm]. unfold days_in_month in Hdm.
  assert (Hmonth : 0 <= days_before_month (is_leap y) m ∧ days_before_month (is_leap y) (m + 1) <= 365 + (if is_leap y then 1 else 0)).
  { assert (m = 1 ∨ m = 2 ∨ m = 3 ∨ m = 4 ∨ m = 5 ∨ m = 6 ∨ m = 7 ∨ m = 8 ∨ m = 9 ∨ m = 10 ∨ m = 11 ∨ m = 12) as Hm' by lia.
    by destruct_or! Hm'; subst; destruct (is_leap y). }
  assert (Hleap : y = 9999 → is_leap y = false) by (by intros ->).
  unfold ymd2day, max_day, days_before_year in *. destruct (Z.eq_dec y 9999) as [->|Hne].
  - rewrite Hleap in * by done. change (9999 - 1) with 9998. change (9998 / 4) with 2499. change (9998 / 100) with 99.
    change (9998 / 400) with 24. lia.
  - destruct (is_leap y); Z.div_mod_to_equations; lia.
Qed.

Lemma take_date_iso day s :
  0 <= day < max_day → take_date (date_iso day +:+ s) = Some (day, s).
Proof.
  intros Hd. pose proof (day2ymd_spec day Hd) as H. unfold date_iso.
  destruct (day2ymd day) as [[y m] d]. destruct H as [Hv <-].
  destruct (valid_ymd_bounds y m d Hv) as (Hy & Hm & Hdd).
  rewrite !str_app_assoc. unfold take_date.
  read_num. read_char. read_num. read_char. read_num. by rewrite Hv.
Qed.

Lemma date_fromiso_range s day : date_fromiso s = Ok day → 0 <= day < max_day.
Proof.
  unfold date_fromiso, take_date. destruct (take_digits 4 0 s) as [[y s1]|]; [|done]. cbn [mbind option_bind].
  destruct (take_char "-" s1) as [s2|]; [|done]. cbn [mbind option_bind]. destruct (take_digits 2 0 s2) as [[m s3]|]; [|done].
  cbn [mbind option_bind]. destruct (take_char "-" s3) as [s4|]; [|done]. cbn [mbind option_bind].
  destruct (take_digits 2 0 s4) as [[d s5]|]; [|done]. cbn [mbind option_bind].
  destruct (valid_ymd y m d) eqn:Hv; [|done]. destruct s5; [|done]. intros [= <-]. by apply ymd2day_range.
Qed.

Lemma date_fromiso_iso day : 0 <= day < max_day → date_fromiso (date_iso day) = Ok day.
Proof.
  intros Hd. unfold date_fromiso. pose proof (take_date_iso day "" Hd) as H.
  rewrite str_app_nil_r in H. by rewrite H.
Qed.

(** * Datetimes *)

Definition second_us : Z := 1000000.
Definition minute_us : Z := 60 * second_us.
Definition hour_us : Z := 60 * minute_us.
Definition day_us : Z := 24 * hour_us.

Definition max_time : Z := max_day * day_us.

(** A value a [datetime] object can have. *)
Definition time_ok (t : Z) : Prop := 0 <= t < max_time.

#[export] Instance time_ok_dec t : Decision (time_ok t).
Proof. unfold time_ok. apply _. Defined.

Definition dt_hour (t : Z) : Z := t / hour_us mod 24.
Definition dt_minute (t : Z) : Z := t / minute_us mod 60.
Definition dt_second (t : Z) : Z := t / second_us mod 60.
Definition dt_micro (t : Z) : Z := t mod second_us.

(** [t + delta] *)
Definition dt_add (t delta : Z) : res Z :=
  if bool_decide (time_ok (t + delta)) then Ok (t + delta)
  else Err (Exn OverflowError "date value out of range").

(** [timedelta(seconds=n)], in microseconds; numbers beyond the range of the
    machine's integers raise too, with another text. *)
Definition timedelta_seconds (n : Z) : res Z :=
  let days := n * second_us / day_us in
  if Z.abs days >? 999999999
  then Err (Exn OverflowError ("days=" +:+ py_str (VInt days) +:+ "; must have magnitude <= 999999999"))
  else Ok (n * second_us).

(** [t.replace(second=0, microsecond=0)] *)
Definition truncate_minute (t : Z) : Z := t / minute_us * minute_us.

(** [t.isoformat()]: the microseconds are left out when they are 0. *)
Definition isoformat (t : Z) : string :=
  date_iso (t / day_us) +:+ "T" +:+ zpad 2 (dt_hour t) +:+ ":" +:+ zpad 2 (dt_minute t)
  +:+ ":" +:+ zpad 2 (dt_second t)
  +:+ (if dt_micro t =? 0 then "" else "." +:+ zpad 6 (dt_micro t)) +:+ "+00:00".

Definition take_micro (s : string) : option (Z * string) :=
  match take_char "." s with
  | Some s' => take_digits 6 0 s'
  | None => Some (0, s)
  end.

Definition read_datetime (s : string) : option Z :=
  '(day, s) ← take_date s;
  s ← match s with String _ s' => Some s' | "" => None end;
  '(h, s) ← take_digits 2 0 s; s ← take_char ":" s;
  '(m, s) ← take_digits 2 0 s; s ← take_char ":" s;
  '(sec, s) ← take_digits 2 0 s;
  '(us, s) ← take_micro s;
  if (h <? 24) && (m <? 60) && (sec <? 60) && bool_decide (s = "+00:00")
  then Some (day * day_us + h * hour_us + m * minute_us + sec * second_us + us)
  else None.

(** [datetime.fromisoformat(s)] *)
Definition fromisoformat (s : string) : res Z :=
  match read_datetime s with Some t => Ok t | None => bad_iso s end.

Lemma take_micro_iso us :
  0 <= us < second_us →
  take_micro ((if us =? 0 then "" else "." +:+ zpad 6 us) +:+ "+00:00") = Some (us, "+00:00").
Proof.
  intros Hus. unfold take_micro, second_us in *. destruct (Z.eqb_spec us 0) as [->|Hne]; [done|].
  rewrite str_app_assoc. change (take_char "." ("." +:+ ?x)) with (Some x). cbv iota beta.
  rewrite take_digits_zpad; [by rewrite Z.mul_0_l, Z.add_0_l|]. cbn. lia.
Qed.

(** The fields of a datetime are in range and give the datetime back. *)
Lemma time_fields t :
  time_ok t →
  0 <= t / day_us < max_day ∧ 0 <= dt_hour t < 24 ∧ 0 <= dt_minute t < 60 ∧
  0 <= dt_second t < 60 ∧ 0 <= dt_micro t < second_us ∧
  t / day_us * day_us + dt_hour t * hour_us + dt_minute t * minute_us
    + dt_second t * second_us + dt_micro t = t.
Proof.
  unfold time_ok, max_time, max_day, dt_hour, dt_minute, dt_second, dt_micro,
    day_us, hour_us, minute_us, second_us.
  intros Ht. lia.
Qed.

Theorem fromisoformat_isoformat t : time_ok t → fromisoformat (isoformat t) = Ok t.
Proof.
  intros Ht. destruct (time_fields t Ht) as (Hd & Hh & Hm & Hs & Hu & Hsum).
  unfold fromisoformat, isoformat, read_datetime.
  rewrite take_date_iso by done. cbn [mbind option_bind].
  set (H := dt_hour t) in *. set (Mi := dt_minute t) in *.
  set (Se := dt_second t) in *. set (U := dt_micro t) in *. set (D := t / day_us) in *.
  clearbody H Mi Se U D.
  change ("T" +:+ ?x) with (String "T" x). cbv iota beta. cbn [mbind option_bind].
  read_num. read_char. read_num. read_char. read_num.
  rewrite take_micro_iso by done. cbn [mbind option_bind].
  rewrite bool_decide_eq_true_2 by done.
  rewrite !(proj2 (Z.ltb_lt _ _)) by lia. cbn [andb]. by rewrite Hsum.
Qed.
