(* ===== verification/Floats.v ===== *)
(** Python's floats: IEEE doubles with their arithmetic, [round(x, 4)], the
    text [repr] gives them and [float] of a text. The arithmetic is that of the
    Standard Library's SpecFloat. *)

From stdpp Require Import base option list strings pretty.
From Stdlib Require Import ZArith Lia SpecFloat Ascii.
From S2P Require Import Prelude PyVal PyTime.

Local Open Scope Z_scope.

Abbreviation float := spec_float.

Definition float_of_Z (z : Z) : float := binary_normalize 53 1024 z 0 false.

Definition fadd (x y : float) : float := SFadd 53 1024 x y.
Definition fsub (x y : float) : float := SFsub 53 1024 x y.
Definition fmul (x y : float) : float := SFmul 53 1024 x y.
Definition fdiv (x y : float) : float := SFdiv 53 1024 x y.

(** [a / b] on integers is the double nearest to the quotient. *)
Definition of_int (z : Z) : float :=
  match z with Z0 => S754_zero false | Z.pos p => S754_finite false p 0 | Z.neg p => S754_finite true p 0 end.

Definition py_truediv (a b : Z) : res float :=
  if b =? 0 then Err (Exn ZeroDivisionError "division by zero") else Ok (fdiv (of_int a) (of_int b)).

(** [max(x, y)] and [min(x, y)]: the first, unless the second is greater or smaller. *)
Definition fmax (x y : float) : float := if SFltb x y then y else x.
Definition fmin (x y : float) : float := if SFltb y x then y else x.

(** * Decimals *)

(** The double nearest to [m * 10 ^ e]. *)
Definition decimal (neg : bool) (m : positive) (e : Z) : float :=
  if 0 <=? e
  then SFmul 53 1024 (S754_finite neg m 0) (S754_finite false (Z.to_pos (10 ^ e)) 0)
  else SFdiv 53 1024 (S754_finite neg m 0) (S754_finite false (Z.to_pos (10 ^ (- e))) 0).

(** A literal of the source with [d] digits after the point: [lit 3 1] is 0.3. *)
Definition lit (n d : Z) : float :=
  match n with Z.pos m => decimal false m (- d) | _ => S754_zero false end.

(** The value of a finite double as a fraction. *)
Definition fraction (m : positive) (e : Z) : Z * Z :=
  if 0 <=? e then (Z.pos m * 2 ^ e, 1) else (Z.pos m, 2 ^ (- e)).

(** [n / d] rounded to an integer, ties to even. *)
Definition round_half_even (n d : Z) : Z :=
  let q := n / d in
  match 2 * (n mod d) ?= d with
  | Lt => q
  | Gt => q + 1
  | Eq => if Z.even q then q else q + 1
  end.

(** [round(x, digits)] *)
Definition round_to (digits : Z) (x : float) : float :=
  match x with
  | S754_finite s m e =>
      let '(n, d) := fraction m e in
      match round_half_even (n * 10 ^ digits) d with
      | Z.pos k => decimal s k (- digits)
      | _ => S754_zero s
      end
  | _ => x
  end.

Definition round4 : float → float := round_to 4.

(** * Text *)

(** The power of ten of a fraction: the [k] with [10 ^ (k - 1) <= n / d < 10 ^ k].
    A double has at most 309 digits before the point and 324 zeros after it. *)
Fixpoint power_up (fuel : nat) (k n d : Z) : Z :=
  match fuel with
  | O => k
  | S f => if n <? d then k else power_up f (k + 1) n (10 * d)
  end.
Fixpoint power_down (fuel : nat) (k n d : Z) : Z :=
  match fuel with
  | O => k
  | S f => if 10 * n <? d then power_down f (k - 1) (10 * n) d else k
  end.
Definition power_of_ten (n d : Z) : Z := if n <? d then power_down 330 0 n d else power_up 330 0 n d.

(** The decimals of [p] digits next to a double that are read as it, the nearer
    first. *)
Definition candidates (m : positive) (e n d k : Z) (p : Z) : list Z :=
  let '(a, b) := if 0 <=? p - k then (n * 10 ^ (p - k), d) else (n, d * 10 ^ (k - p)) in
  let lo := a / b in
  let near := round_half_even a b in
  let far := if near =? lo then lo + 1 else lo in
  List.filter (fun q => match q with Z.pos q' => SFeqb (decimal false q' (k - p)) (S754_finite false m e) | _ => false end)
    [near; far].

(** The shortest digits that are read as the double, at most 17. *)
Fixpoint shortest (fuel : nat) (p : Z) (m : positive) (e n d k : Z) : Z * Z :=
  match candidates m e n d k p, fuel with
  | q :: _, _ => (q, p)
  | [], S f => shortest f (p + 1) m e n d k
  | [], O => (n, p)
  end.

(** The digits of a positive number, without the zeros at the end. *)
Fixpoint strip_zeros (fuel : nat) (q : Z) : Z :=
  match fuel with
  | O => q
  | S f => if q mod 10 =? 0 then strip_zeros f (q / 10) else q
  end.

Fixpoint zeros (n : nat) : string := match n with O => "" | S n' => "0" +:+ zeros n' end.

(** [digits] with the decimal point before their [k]-th: in full for values from
    0.0001 to below 10 ** 16, with an exponent otherwise. *)
Definition place_point (digits : string) (k : Z) : string :=
  let len := Z.of_nat (String.length digits) in
  if (-4 <? k) && (k <=? 16) then
    if k <=? 0 then "0." +:+ zeros (Z.to_nat (- k)) +:+ digits
    else if len <=? k then digits +:+ zeros (Z.to_nat (k - len)) +:+ ".0"
    else String.substring 0 (Z.to_nat k) digits +:+ "." +:+
         String.substring (Z.to_nat k) (Z.to_nat (len - k)) digits
  else
    let x := k - 1 in
    let mantissa := match digits with
      | String c "" => String c ""
      | String c rest => String c ("." +:+ rest)
      | "" => "" end in
    mantissa +:+ "e" +:+ (if x <? 0 then "-" else "+") +:+
    (if Z.abs x <? 10 then "0" else "") +:+ pretty (Z.abs x).

Definition float_repr (x : float) : string :=
  match x with
  | S754_nan => "nan"
  | S754_infinity s => if s then "-inf" else "inf"
  | S754_zero s => if s then "-0.0" else "0.0"
  | S754_finite s m e =>
      let '(n, d) := fraction m e in
      let k := power_of_ten n d in
      let '(q, p) := shortest 17 1 m e n d k in
      (* ten to the power [p] means one more digit before the point *)
      let k := if 10 ^ p <=? q then k + 1 else k in
      (if s then "-" else "") +:+ place_point (pretty (strip_zeros 20 q)) k
  end.

Definition VNumber (x : float) : val := VFloat (float_repr x).

(** ** Reading *)

Fixpoint read_digits (s : string) (m e : Z) : Z * Z * string :=
  match s with
  | String c s' => match digit_val c with
                   | Some d => read_digits s' (10 * m + d) (e - 1)
                   | None => (m, e, s)
                   end
  | "" => (m, e, s)
  end.

Definition bad_float {A} (s : string) : res A :=
  Err (Exn ValueError ("could not convert string to float: " +:+ repr_str s)).

(** The unsigned numbers Python writes: digits, a fraction and an exponent. *)
Definition read_unsigned (neg : bool) (s : string) : option float :=
  let '(m, e0, s1) := read_digits s 0 0 in
  let '(m, e, s2) := match s1 with
    | String "." s1' => read_digits s1' m 0
    | _ => (m, 0, s1)
    end in
  let value x := match m with Z.pos m' => decimal neg m' (e + x) | _ => S754_zero neg end in
  if (e0 =? 0) && (e =? 0) then None
  else match s2 with
  | "" => Some (value 0)
  | String "e" (String "+" r) | String "e" r =>
      match parse_int r with Ok x => Some (value x) | Err _ => None end
  | _ => None
  end.

Definition float_of_text (s : string) : res float :=
  if bool_decide (s = "inf") then Ok (S754_infinity false)
  else if bool_decide (s = "-inf") then Ok (S754_infinity true)
  else if bool_decide (s = "nan") then Ok S754_nan
  else match (match s with String "-" r => read_unsigned true r | _ => read_unsigned false s end) with
  | Some x => Ok x
  | None => bad_float s
  end.

(** [float(v)] *)
Definition py_float (v : val) : res float :=
  match v with
  | VFloat r => float_of_text r
  | VStr s => float_of_text s
  | VInt z => Ok (float_of_Z z)
  | VBool b => Ok (float_of_Z (if b then 1 else 0))
  | _ => type_error "float() argument must be a string or a real number"
  end.

(** [float(d.get(k, x))] *)
Definition float_field_or (d : list (string * val)) (k : string) (x : float) : res float :=
  match dget d k with Some v => py_float v | None => Ok x end.

(** [float(d[k]) if d.get(k) is not None else None] *)
Definition opt_float_field (d : list (string * val)) (k : string) : res (option float) :=
  match dget d k with
  | None | Some VNone => Ok None
  | Some v => let? x := py_float v in Ok (Some x)
  end.

(** [int(x)] of a float, which loses what is after the point *)
Definition float_to_Z (x : float) : res Z :=
  match x with
  | S754_zero _ => Ok 0
  | S754_finite s m e => let '(n, d) := fraction m e in Ok (if s then - (n / d) else n / d)
  | S754_infinity _ => Err (Exn OverflowError "cannot convert float infinity to integer")
  | S754_nan => Err (Exn ValueError "cannot convert float NaN to integer")
  end.

(** [int(v)], also of a float *)
Definition py_int_of_number (v : val) : res Z :=
  match v with
  | VFloat r => let? x := float_of_text r in float_to_Z x
  | _ => py_int v
  end.

(** ** Examples *)

Example repr_examples :
  float_repr (lit 1 1) = "0.1" ∧ float_repr (fadd (lit 1 1) (lit 2 1)) = "0.30000000000000004" ∧
  float_repr (float_of_Z 29) = "29.0" ∧ float_repr (fdiv (float_of_Z 1) (float_of_Z 3)) = "0.3333333333333333" ∧
  float_repr (decimal true 15 15) = "-1.5e+16" ∧ float_repr (decimal false 1 16) = "1e+16" ∧
  float_repr (decimal false 1 15) = "1000000000000000.0" ∧ float_repr (decimal false 1 (-5)) = "1e-05" ∧
  float_repr (decimal false 1234 (-7)) = "0.0001234" ∧ float_repr (decimal false 5 (-324)) = "5e-324" ∧
  float_repr (decimal false 17976931348623157 292) = "1.7976931348623157e+308" ∧
  float_repr (S754_finite false 4503599627370496 (-96)) = "5.684341886080802e-14".
Proof. vm_compute. done. Qed.

Example round_examples :
  float_repr (round4 (lit 123456 5)) = "1.2346" ∧ float_repr (round4 (lit 5 5)) = "0.0001" ∧
  float_repr (round4 (lit 8 1)) = "0.8" ∧ float_repr (round4 (decimal false 12345678901 10)) = "1.2345678901e+20".
Proof. vm_compute. done. Qed.

Example read_examples :
  float_of_text "0.30000000000000004" = Ok (fadd (lit 1 1) (lit 2 1)) ∧ float_of_text "-1.5e+16" = Ok (decimal true 15 15) ∧
  float_of_text "5e-324" = Ok (decimal false 5 (-324)) ∧ is_ok (float_of_text "e5") = false ∧ is_ok (float_of_text "") = false.
Proof. vm_compute. done. Qed.
