(* ===== verification/JsonText.v ===== *)
(** The texts Python's json module writes and reads: [json.dumps(v,
    sort_keys=True)] with its default separators, and [json.loads]. What is
    written is read back, with the keys of dicts in order. *)

From stdpp Require Import base option list strings gmap pretty sets.
From Stdlib Require Import ZArith Lia Ascii.
From S2P Require Import Prelude PyVal Json Floats.

(** * Writing *)

(** A float in JSON: the words for those that are not finite are its own. *)
Definition json_float (r : string) : string :=
  if bool_decide (r = "nan") then "NaN"
  else if bool_decide (r = "inf") then "Infinity"
  else if bool_decide (r = "-inf") then "-Infinity"
  else r.

(** The text of a value, its dicts in the order they have. *)
Fixpoint text (v : val) : string :=
  match v with
  | VNone => "null"
  | VBool b => if b then "true" else "false"
  | VInt z => pretty z
  | VFloat r => json_float r
  | VStr s => json_str s
  | VList l => "[" +:+ join ", " (map text l) +:+ "]"
  | VDict d => "{" +:+ join ", " (map (fun p => json_str p.1 +:+ ": " +:+ text p.2) d) +:+ "}"
  end.

(** [json.dumps(v, sort_keys=True)] *)
Definition json_dumps (v : val) : string := text (canon v).

(** * Reading *)

Definition is_ws (c : ascii) : bool := bool_decide (c ∈ [" "; "009"; "010"; "013"]%char).

Fixpoint skip_ws (s : string) : string :=
  match s with String c s' => if is_ws c then skip_ws s' else s | "" => "" end.

(** What stands alone in JSON text, and so ends a number or a word. *)
Definition is_mark (c : ascii) : bool :=
  is_ws c || bool_decide (c = quote_char) || bool_decide (c ∈ [","; "]"; "}"; ":"; "["; "{"]%char).

Fixpoint take_token (s : string) : string * string :=
  match s with
  | "" => ("", "")
  | String c s' => if is_mark c then ("", s) else let '(t, r) := take_token s' in (String c t, r)
  end.

Definition hex_val (c : ascii) : option N :=
  let n := N_of_ascii c in
  if ((48 <=? n) && (n <=? 57))%N then Some (n - 48)%N
  else if ((97 <=? n) && (n <=? 102))%N then Some (n - 87)%N
  else if ((65 <=? n) && (n <=? 70))%N then Some (n - 55)%N
  else None.

(** The character after a backslash stands for this one. *)
Definition escaped (c : ascii) : option ascii :=
  if bool_decide (c ∈ [quote_char; "\"; "/"]%char) then Some c
  else if bool_decide (c = "n"%char) then Some "010"%char
  else if bool_decide (c = "r"%char) then Some "013"%char
  else if bool_decide (c = "t"%char) then Some "009"%char
  else if bool_decide (c = "b"%char) then Some "008"%char
  else if bool_decide (c = "f"%char) then Some "012"%char
  else None.

Definition cons_to (c : ascii) (o : option (string * string)) : option (string * string) :=
  match o with Some (x, r) => Some (String c x, r) | None => None end.

(** A string literal after its opening quote. Escapes of code points above 255
    have no place in the model's texts. *)
Fixpoint read_body (s : string) : option (string * string) :=
  match s with
  | "" => None
  | String c s' =>
      if bool_decide (c = quote_char) then Some ("", s')
      else if bool_decide (c = "\"%char) then
        match s' with
        | String "u" (String "0" (String "0" (String h (String l r)))) =>
            match hex_val h, hex_val l with
            | Some a, Some b => cons_to (ascii_of_N (16 * a + b)) (read_body r)
            | _, _ => None
            end
        | String e r => match escaped e with Some c' => cons_to c' (read_body r) | None => None end
        | "" => None
        end
      else if (N_of_ascii c <? 32)%N then None
      else cons_to c (read_body s')
  end.

(** The digits a text starts with. *)
Fixpoint take_digits_of (s : string) : string * string :=
  match s with
  | String c s' => match digit_val c with Some _ => let '(d, r) := take_digits_of s' in (String c d, r) | None => ("", s) end
  | "" => ("", "")
  end.

Definition some_digits (s : string) : option string :=
  let '(d, r) := take_digits_of s in if bool_decide (d = "") then None else Some r.

(** An exponent, which ends the number. *)
Definition is_exponent (s : string) : bool :=
  match s with
  | String "e" r =>
      match some_digits (match r with String "+" r' | String "-" r' => r' | _ => r end) with Some "" => true | _ => false end
  | _ => false
  end.

(** The grammar of JSON numbers: an integer is written as [str] writes it, or is
    -0; a number with a point or an exponent, in small letters, is a float. *)
Definition is_integer (s : string) : bool :=
  match parse_int s with Ok z => bool_decide (pretty z = s) || bool_decide (s = "-0") | Err _ => false end.

Definition is_decimal (s : string) : bool :=
  let unsigned := match s with String "-" r => r | _ => s end in
  let '(d, r) := take_digits_of unsigned in
  is_integer d &&
  match r with
  | String "." r' => match some_digits r' with Some "" => true | Some r'' => is_exponent r'' | None => false end
  | _ => is_exponent r
  end.

(** A word or a number. *)
Definition scalar (t : string) : option val :=
  if bool_decide (t = "null") then Some VNone
  else if bool_decide (t = "true") then Some (VBool true)
  else if bool_decide (t = "false") then Some (VBool false)
  else if bool_decide (t = "NaN") then Some (VFloat "nan")
  else if bool_decide (t = "Infinity") then Some (VFloat "inf")
  else if bool_decide (t = "-Infinity") then Some (VFloat "-inf")
  else if is_integer t then match parse_int t with Ok z => Some (VInt z) | Err _ => None end
  else if is_decimal (lower t) then match float_of_text (lower t) with Ok x => Some (VNumber x) | Err _ => None end
  else None.

(** Items up to the closing character, [n] at most. *)
Fixpoint read_items {A} (item : string → option (A * string)) (close : ascii) (n : nat) (s : string) : option (list A * string) :=
  match n with
  | O => None
  | S n' =>
      match item s with
      | None => None
      | Some (x, r) =>
          match skip_ws r with
          | String c r' =>
              if bool_decide (c = close) then Some ([x], r')
              else if bool_decide (c = ","%char) then
                match read_items item close n' r' with Some (l, r'') => Some (x :: l, r'') | None => None end
              else None
          | "" => None
          end
      end
  end.

(** A key and its value. *)
Definition read_member (value : string → option (val * string)) (s : string) : option (string * val * string) :=
  match skip_ws s with
  | String c r =>
      if bool_decide (c = quote_char) then
        match read_body r with
        | Some (k, r1) =>
            match skip_ws r1 with
            | String ":" r2 => match value r2 with Some (v, r3) => Some (k, v, r3) | None => None end
            | _ => None
            end
        | None => None
        end
      else None
  | "" => None
  end.

(** What follows the closing character, when it is next. *)
Definition at_close (close : ascii) (s : string) : option string :=
  match skip_ws s with String c r => if bool_decide (c = close) then Some r else None | "" => None end.

(** A value, nested [n] times at most; of a key that is repeated the last value counts. *)
Fixpoint read_value (n : nat) (s : string) : option (val * string) :=
  match n with
  | O => None
  | S n' =>
      match skip_ws s with
      | "" => None
      | String c r =>
          if bool_decide (c = quote_char) then
            match read_body r with Some (x, r') => Some (VStr x, r') | None => None end
          else if bool_decide (c = "["%char) then
            match at_close "]" r with
            | Some r' => Some (VList [], r')
            | None => match read_items (read_value n') "]" n' r with Some (l, r') => Some (VList l, r') | None => None end
            end
          else if bool_decide (c = "{"%char) then
            match at_close "}" r with
            | Some r' => Some (VDict [], r')
            | None => match read_items (read_member (read_value n')) "}" n' r with
                   | Some (l, r') => Some (VDict (dupdate [] l), r')
                   | None => None
                   end
            end
          else
            let '(t, r') := take_token (String c r) in
            match scalar t with Some v => Some (v, r') | None => None end
      end
  end.

(** [json.loads(s)]; [None] is a JSONDecodeError, or a string outside the model.
    Every value takes a character, so values are not nested deeper than the text
    is long. *)
Definition json_loads (s : string) : option val :=
  match read_value (S (String.length s)) s with
  | Some (v, r) => if bool_decide (skip_ws r = "") then Some v else None
  | None => None
  end.

Example loads_example :
  json_loads (" {" +:+ json_str "a" +:+ ": [1, -2.50, null, true], " +:+ json_str "b" +:+ " :{}, " +:+ json_str "a" +:+ ": 7e2}")
  = Some (VDict [("a", VFloat "700.0"); ("b", VDict [])]).
Proof. by vm_compute. Qed.

Example loads_refused : json_loads "[1,]" = None ∧ json_loads "01" = None ∧ json_loads "1 2" = None ∧ json_loads "" = None.
Proof. by vm_compute. Qed.

(** * What is written is read back *)

(** Values that have a text: floats are read as themselves, and the keys of a
    dict differ. *)
Inductive json_ok : val → Prop :=
  | json_none : json_ok VNone
  | json_bool b : json_ok (VBool b)
  | json_int z : json_ok (VInt z)
  | json_float_ok r : scalar (json_float r) = Some (VFloat r) → all_chars (fun c => negb (is_mark c)) (json_float r) = true →
      json_ok (VFloat r)
  | json_string s : json_ok (VStr s)
  | json_list l : Forall json_ok l → json_ok (VList l)
  | json_dict d : dict_ok d → Forall (fun p => json_ok p.2) d → json_ok (VDict d).
#[export] Hint Constructors json_ok : core.

(** ** Integers *)

Lemma parse_digits_go n s : ∀ acc, ∃ k, parse_digits acc (pretty_N_go n s) = parse_digits (acc * 10 ^ Z.of_nat k + Z.of_N n)%Z s.
Proof.
  revert s. induction (N.lt_wf_0 n) as [n _ IH]. intros s acc.
  destruct (decide (n = 0)%N) as [->|Hn].
  { exists 0. rewrite pretty_N_go_0. by replace (acc * 10 ^ Z.of_nat 0 + Z.of_N 0)%Z with acc by (simpl; lia). }
  rewrite pretty_N_go_step by lia. destruct (IH (n / 10)%N (N.div_lt n 10 ltac:(lia) ltac:(lia)) (String (pretty_N_char (n `mod` 10)) s) acc)
    as (k & E). exists (S k). rewrite E. cbn [parse_digits].
  assert (Hm : (n `mod` 10 < 10)%N) by (apply N.mod_lt; lia).
  assert (Hd : digit_val (pretty_N_char (n `mod` 10)) = Some (Z.of_N (n `mod` 10))).
  { destruct (n `mod` 10)%N as [|p]; [done|]. by do 4 (destruct p as [p|p|]; try done). }
  rewrite Hd. f_equal. rewrite Nat2Z.inj_succ, Z.pow_succ_r by lia.
  pose proof (N.div_mod n 10 ltac:(lia)) as Hdm. lia.
Qed.

Lemma parse_pretty_N n : parse_digits 0 (pretty n) = Some (Z.of_N n).
Proof.
  unfold pretty, pretty_N. case_decide as Hn; [by subst|].
  destruct (parse_digits_go n "" 0) as (k & E). by rewrite E.
Qed.

(** [int(str(z))] *)
Lemma parse_int_pretty (z : Z) : parse_int (pretty z) = Ok z.
Proof.
  destruct z as [|p|p]; [done|..].
  - change (pretty (Z.pos p)) with (pretty (N.pos p)). pose proof (parse_pretty_N (N.pos p)) as E.
    pose proof (pretty_Z_chars (Z.pos p)) as Hc. change (pretty (Z.pos p)) with (pretty (N.pos p)) in Hc.
    destruct (pretty (N.pos p)) as [|c s] eqn:Ep; [done|]. unfold parse_int.
    destruct (decide (c = "-"%char)) as [->|Hm]; [done|]. destruct (decide (c = "+"%char)) as [->|Hp]; [done|].
    rewrite E. by destruct c as [[] [] [] [] [] [] [] []].
  - change (pretty (Z.neg p)) with ("-" +:+ pretty (N.pos p)). pose proof (parse_pretty_N (N.pos p)) as E.
    unfold parse_int. simpl. destruct (pretty (N.pos p)) as [|c s]; [done|]. by rewrite E.
Qed.

(** ** Strings *)

Lemma read_body_char c s : read_body (json_char c +:+ s) = cons_to c (read_body s).
Proof. destruct c as [[] [] [] [] [] [] [] []]; reflexivity. Qed.

Lemma read_body_str a s : read_body (string_flat json_char a +:+ String quote_char s) = Some (a, s).
Proof.
  induction a as [|c a IH]; [done|]. cbn [string_flat]. by rewrite str_app_assoc, read_body_char, IH.
Qed.

(** ** Tokens *)

Abbreviation plain t := (all_chars (fun c => negb (is_mark c)) t = true).

Lemma take_token_plain t s : plain t → delimited s → take_token (t +:+ s) = (t, s).
Proof.
  intros Ht Hs. induction t as [|c t IH]; simpl in *.
  - destruct s as [|c s]; [done|]. simpl in *.
    assert (is_mark c = true) as -> by (apply orb_true_iff; right; apply bool_decide_eq_true; set_solver). done.
  - apply andb_prop in Ht as [->%negb_true_iff Ht]. by rewrite IH.
Qed.

Lemma skip_ws_not c s : is_ws c = false → skip_ws (String c s) = String c s.
Proof. intros E. simpl. by rewrite E. Qed.

Lemma read_token n t s v :
  plain t → t ≠ "" → scalar t = Some v → delimited s → read_value (S n) (t +:+ s) = Some (v, s).
Proof.
  intros Ht Hne Hv Hs. destruct t as [|c t]; [done|]. pose proof (take_token_plain _ s Ht Hs) as Hk.
  simpl in Ht. apply andb_prop in Ht as [Hc%negb_true_iff _]. unfold is_mark in Hc.
  apply orb_false_iff in Hc as [[Hw Hq]%orb_false_iff Hm]. apply bool_decide_eq_false in Hm.
  cbn [read_value]. change (String c t +:+ s) with (String c (t +:+ s)) in *. rewrite skip_ws_not, Hq by done.
  rewrite !bool_decide_eq_false_2 by set_solver. by rewrite Hk, Hv.
Qed.

Lemma scalar_int (z : Z) : scalar (pretty z) = Some (VInt z).
Proof.
  pose proof (pretty_Z_chars z) as Hc. unfold scalar.
  assert (Hne : ∀ w, all_chars int_char w = false → bool_decide (pretty z = w) = false).
  { intros w Hw. apply bool_decide_eq_false. intros E. by rewrite E, Hw in Hc. }
  rewrite !Hne by done. unfold is_integer. by rewrite parse_int_pretty, bool_decide_eq_true_2.
Qed.

Lemma int_plain (z : Z) : plain (pretty z).
Proof.
  eapply all_chars_impl; [|apply pretty_Z_chars]. intros c Hc.
  destruct c as [[] [] [] [] [] [] [] []]; done.
Qed.

Lemma read_string n x s : read_value (S n) (json_str x +:+ s) = Some (VStr x, s).
Proof.
  change (json_str x +:+ s) with (String quote_char ((string_flat json_char x +:+ String quote_char "") +:+ s)).
  rewrite str_app_assoc. change (String quote_char "" +:+ s) with (String quote_char s).
  cbn [read_value]. by rewrite skip_ws_not, bool_decide_eq_true_2, read_body_str.
Qed.

(** ** Lists *)

Section Items.
Context {A : Type} (f : A → string) (item : string → option (A * string)) (close : ascii).
Hypothesis close_mark : close ∈ ["]"; "}"]%char.
Hypothesis item_space : ∀ t, item (String " " t) = item t.

Definition reads_back (x : A) : Prop := ∀ s, delimited s → item (f x +:+ s) = Some (x, s).

Lemma read_items_join x l n s :
  Forall reads_back (x :: l) → length (x :: l) ≤ n →
  read_items item close n (join ", " (map f (x :: l)) +:+ String close s) = Some (x :: l, s).
Proof.
  revert x n. induction l as [|y l IH]; intros x [|n] Hl Hn; cbn in Hn; try lia; apply Forall_cons in Hl as [Hx Hl].
  - cbn [map join read_items]. rewrite Hx by (simpl; set_solver).
    rewrite skip_ws_not by (destruct close as [[] [] [] [] [] [] [] []]; set_solver). by rewrite bool_decide_eq_true_2.
  - cbn [map]. rewrite join_cons, str_app_assoc. cbn [read_items foldr]. rewrite str_app_assoc.
    rewrite Hx by (simpl; set_solver). change (", " +:+ ?t) with (String "," (String " " t)).
    rewrite skip_ws_not by done. rewrite bool_decide_eq_false_2, bool_decide_eq_true_2 by set_solver.
    assert (E : read_items item close n (String " " (f y +:+ foldr (fun y acc => ", " +:+ y +:+ acc) "" (map f l)) +:+ String close s)
                = Some (y :: l, s)).
    { destruct n as [|n]; [cbn in Hn; lia|]. specialize (IH y (S n) Hl ltac:(cbn in *; lia)).
      cbn [map] in IH. rewrite join_cons in IH. cbn [read_items] in IH |- *.
      change (String " " ?a +:+ ?b) with (String " " (a +:+ b)). by rewrite item_space. }
    simpl in E |- *. by rewrite E.
Qed.

End Items.

(** The items of a joined text are not longer than it, nor more. *)
Lemma length_app_str a b : String.length (a +:+ b) = String.length a + String.length b.
Proof. induction a as [|c a IH]; [done|]. simpl. by rewrite IH. Qed.

Lemma length_join sep l x : x ∈ l → String.length x ≤ String.length (join sep l).
Proof.
  induction l as [|y l IH]; [by intros ?%not_elem_of_nil|]. destruct l as [|z l].
  - intros ->%list_elem_of_singleton. done.
  - change (join sep (y :: z :: l)) with (y +:+ sep +:+ join sep (z :: l)). rewrite !length_app_str.
    intros [->|Hx]%elem_of_cons; [lia|]. specialize (IH Hx). lia.
Qed.

Lemma join_items sep (l : list string) : sep ≠ "" → (∀ x, x ∈ l → x ≠ "") → length l ≤ String.length (join sep l).
Proof.
  intros Hs. induction l as [|y l IH]; intros Hne; [done|]. destruct l as [|z l].
  - pose proof (Hne y (list_elem_of_here _ _)). by destruct y; simpl; [|lia].
  - change (join sep (y :: z :: l)) with (y +:+ sep +:+ join sep (z :: l)). rewrite !length_app_str.
    specialize (IH ltac:(intros; apply Hne; by right)). destruct sep; [done|]. cbn in *. lia.
Qed.

(** ** Values *)

Lemma read_value_space n t : read_value n (String " " t) = read_value n t.
Proof. by destruct n. Qed.

Lemma read_member_space value t : read_member value (String " " t) = read_member value t.
Proof. done. Qed.

Definition member_text (p : string * val) : string := json_str p.1 +:+ ": " +:+ text p.2.

Lemma read_member_text value p s :
  (∀ t, value (String " " t) = value t) → value (text p.2 +:+ s) = Some (p.2, s) →
  read_member value (member_text p +:+ s) = Some (p, s).
Proof.
  intros Hsp Hv. unfold member_text. rewrite !str_app_assoc.
  change (json_str p.1 +:+ ?t) with (String quote_char ((string_flat json_char p.1 +:+ String quote_char "") +:+ t)).
  rewrite str_app_assoc. change (String quote_char "" +:+ ?t) with (String quote_char t).
  unfold read_member. rewrite skip_ws_not, bool_decide_eq_true_2, read_body_str by done.
  change (": " +:+ ?t) with (String ":" (String " " t)). rewrite skip_ws_not by done.
  rewrite Hsp, Hv. by destruct p.
Qed.

(** A value starts with a character that is no blank and closes nothing. *)
Lemma text_head v : json_ok v → ∃ c u, text v = String c u ∧ is_ws c = false ∧ c ≠ "]"%char ∧ c ≠ "}"%char.
Proof.
  assert (Ht : ∀ t, plain t → t ≠ "" → ∃ c u, t = String c u ∧ is_ws c = false ∧ c ≠ "]"%char ∧ c ≠ "}"%char).
  { intros [|c t] Hp Hne; [done|]. simpl in Hp. apply andb_prop in Hp as [Hc%negb_true_iff _].
    unfold is_mark in Hc. apply orb_false_iff in Hc as [[Hw _]%orb_false_iff Hm%bool_decide_eq_false].
    exists c, t. split_and!; [done|done|set_solver..]. }
  intros Hv. destruct Hv as [|b|z|r Hs Hp|s|l|d]; cbn [text].
  - by apply Ht.
  - by destruct b; apply Ht.
  - apply Ht; [apply int_plain|apply pretty_Z_ne].
  - apply Ht; [done|]. by intros E; rewrite E in Hs.
  - by eexists _, _.
  - by eexists _, _.
  - by eexists _, _.
Qed.

(** Reading a bracket and what it holds. *)
Lemma read_list n c u s :
  is_ws c = false → c ≠ "]"%char →
  read_value (S n) (String "[" (String c u +:+ s)) =
    match read_items (read_value n) "]" n (String c u +:+ s) with Some (l, r') => Some (VList l, r') | None => None end.
Proof.
  intros Hw Hc. cbn [read_value]. rewrite skip_ws_not by done. unfold at_close.
  change (String c u +:+ s) with (String c (u +:+ s)). rewrite skip_ws_not by done. by rewrite (bool_decide_eq_false_2 _ Hc).
Qed.

Lemma read_dict n c u s :
  is_ws c = false → c ≠ "}"%char →
  read_value (S n) (String "{" (String c u +:+ s)) =
    match read_items (read_member (read_value n)) "}" n (String c u +:+ s) with
    | Some (l, r') => Some (VDict (dupdate [] l), r')
    | None => None
    end.
Proof.
  intros Hw Hc. cbn [read_value]. rewrite skip_ws_not by done. unfold at_close.
  change (String c u +:+ s) with (String c (u +:+ s)). rewrite skip_ws_not by done. by rewrite (bool_decide_eq_false_2 _ Hc).
Qed.

(** Items that are read back are read from their joined text, when there are not
    more of them than characters. *)
Lemma read_joined {A} (f : A → string) item close x l n s :
  close ∈ ["]"; "}"]%char → (∀ t, item (String " " t) = item t) → Forall (fun y => f y ≠ "") (x :: l) →
  Forall (reads_back f item) (x :: l) → String.length (join ", " (map f (x :: l))) < n →
  read_items item close n (join ", " (map f (x :: l)) +:+ String close s) = Some (x :: l, s).
Proof.
  intros Hc Hsp Hne Hb Hn. apply read_items_join; [done..|].
  pose proof (join_items ", " (map f (x :: l)) ltac:(done)) as Hi. rewrite length_map in Hi.
  assert (length (x :: l) ≤ String.length (join ", " (map f (x :: l)))); [|lia]. apply Hi.
  intros y (w & -> & Hw)%list_elem_of_fmap. rewrite Forall_forall in Hne. by apply Hne.
Qed.

Abbreviation read_back v := (∀ n s, String.length (text v) < n → delimited s → read_value n (text v +:+ s) = Some (v, s)).

Lemma text_ne v : json_ok v → text v ≠ "".
Proof. by intros (c & u & -> & _)%text_head. Qed.

Lemma read_text_list l : Forall json_ok l → Forall (fun v => read_back v) l → read_back (VList l).
Proof.
  intros Hok Hl [|n] s Hn Hs; [lia|]. destruct l as [|x l]; [done|].
  change (text (VList (x :: l))) with (String "[" (join ", " (map text (x :: l)) +:+ "]")) in *.
  set (j := join ", " (map text (x :: l))) in *.
  assert (Hj : String.length j < n) by (simpl in Hn; rewrite length_app_str in Hn; simpl in Hn; lia).
  assert (Hb : Forall (reads_back text (read_value n)) (x :: l)).
  { rewrite Forall_forall in *. intros y Hy t Ht. apply Hl; [done| |done].
    pose proof (length_join ", " (map text (x :: l)) (text y) ltac:(by apply list_elem_of_fmap_2)). unfold j in Hj. lia. }
  pose proof (read_joined text (read_value n) "]" x l n s ltac:(set_solver) (read_value_space n)
                (Forall_impl _ _ _ Hok text_ne) Hb Hj) as E.
  destruct (text_head x) as (c & u & Ec & Hw & Hc & _); [by apply Forall_cons in Hok as [? _]|].
  assert (∃ u', j = String c u') as (u' & Ej) by (unfold j; cbn [map]; rewrite join_cons, Ec; by eexists).
  fold j in E. rewrite Ej in E |- *. change (String "[" (String c u' +:+ "]") +:+ s) with (String "[" ((String c u' +:+ "]") +:+ s)).
  rewrite str_app_assoc. change ("]" +:+ s) with (String "]" s). rewrite read_list by done. by rewrite E.
Qed.

Lemma read_text_dict d : dict_ok d → Forall (fun p => read_back p.2) d → read_back (VDict d).
Proof.
  intros Hd Hl [|n] s Hn Hs; [lia|]. destruct d as [|p d]; [done|].
  change (text (VDict (p :: d))) with (String "{" (join ", " (map member_text (p :: d)) +:+ "}")) in *.
  set (j := join ", " (map member_text (p :: d))) in *.
  assert (Hj : String.length j < n) by (simpl in Hn; rewrite length_app_str in Hn; simpl in Hn; lia).
  assert (Hb : Forall (reads_back member_text (read_member (read_value n))) (p :: d)).
  { rewrite Forall_forall in *. intros q Hq t Ht. apply read_member_text; [apply read_value_space|]. apply Hl; [done| |done].
    pose proof (length_join ", " (map member_text (p :: d)) (member_text q) ltac:(by apply list_elem_of_fmap_2)) as Hq'.
    unfold member_text in Hq' at 1. rewrite !length_app_str in Hq'. unfold j in Hj. lia. }
  pose proof (read_joined member_text (read_member (read_value n)) "}" p d n s ltac:(set_solver) (read_member_space _)
                ltac:(by apply Forall_forall) Hb Hj) as E.
  assert (∃ u', j = String quote_char u') as (u' & Ej) by (unfold j; cbn [map]; rewrite join_cons; by eexists).
  fold j in E. rewrite Ej in E |- *.
  change (String "{" (String quote_char u' +:+ "}") +:+ s) with (String "{" ((String quote_char u' +:+ "}") +:+ s)).
  rewrite str_app_assoc. change ("}" +:+ s) with (String "}" s). rewrite read_dict by done. by rewrite E, dupdate_entries.
Qed.

(** The reader gives back what was written, and stops where it ends. *)
Lemma read_text v : json_ok v → read_back v.
Proof.
  induction v as [|b|z|r|x|l IH|d IH] using val_nested_ind; intros Hv; inversion Hv as [| | |? Hr Hp| |? Hl|? Hd Hl]; subst.
  5: { intros [|n] s Hn _; [lia|]. apply read_string. }
  5: { apply read_text_list; [done|]. rewrite Forall_forall in *. intros y Hy. by apply IH, Hl. }
  5: { apply read_text_dict; [done|]. rewrite Forall_forall in *. intros y Hy. by apply IH, Hl. }
  all: intros [|n] s Hn Hs; [lia|]; apply read_token; try done; try by apply text_ne.
  1, 2: by destruct b.
  - apply int_plain.
  - apply scalar_int.
Qed.

(** ** The bound on the nesting is enough *)

Abbreviation len := String.length.

Lemma skip_ws_len s : len (skip_ws s) ≤ len s.
Proof. induction s as [|c s IH]; [done|]. simpl. destruct (is_ws c); simpl; lia. Qed.

Lemma take_token_len s t r : take_token s = (t, r) → len t + len r = len s.
Proof.
  revert t r. induction s as [|c s IH]; intros t r; simpl; [by intros [= <- <-]|].
  destruct (is_mark c); [by intros [= <- <-]|]. destruct (take_token s) as [t' r'].
  intros [= <- <-]. simpl. by rewrite (IH t' r').
Qed.

Lemma cons_to_Some c o x r : cons_to c o = Some (x, r) → ∃ x', o = Some (x', r).
Proof. destruct o as [[x' r']|]; [|done]. intros [= _ <-]. by exists x'. Qed.

(** What follows a backslash: four digits, or one character. *)
Lemma read_escape s x r :
  read_body (String "\" s) = Some (x, r) →
  (∃ h l u c, s = String "u" (String "0" (String "0" (String h (String l u)))) ∧ cons_to c (read_body u) = Some (x, r)) ∨
  (∃ e u c, s = String e u ∧ cons_to c (read_body u) = Some (x, r)).
Proof.
  cbn [read_body]. rewrite bool_decide_eq_false_2, bool_decide_eq_true_2 by done.
  assert (Hone : ∀ e u, match escaped e with Some c' => cons_to c' (read_body u) | None => None end = Some (x, r) →
            (∃ e' u' c, String e u = String e' u' ∧ cons_to c (read_body u') = Some (x, r))).
  { intros e u. destruct (escaped e) as [c|]; [|done]. intros E. by exists e, u, c. }
  destruct s as [|e s]; [done|]. destruct (decide (e = "u"%char)) as [->|He].
  - destruct s as [|a s]; [by right; apply Hone|].
    destruct (decide (a = "0"%char)) as [->|Ha]; [|intros E; right; apply Hone; by destruct a as [[] [] [] [] [] [] [] []]].
    destruct s as [|b s]; [by right; apply Hone|].
    destruct (decide (b = "0"%char)) as [->|Hb]; [|intros E; right; apply Hone; by destruct b as [[] [] [] [] [] [] [] []]].
    destruct s as [|h s]; [by right; apply Hone|]. destruct s as [|l s]; [by right; apply Hone|].
    intros E. left. exists h, l, s. destruct (hex_val h) as [i|]; [|done]. destruct (hex_val l) as [j|]; [|done]. by eexists.
  - intros E. right. apply Hone. by destruct e as [[] [] [] [] [] [] [] []].
Qed.

Lemma read_body_len n : ∀ s x r, len s ≤ n → read_body s = Some (x, r) → len r < len s.
Proof.
  induction n as [|n IH]; intros [|c s] x r Hn E; simpl in Hn; try done; [lia|].
  destruct (decide (c = "\"%char)) as [->|Hb].
  - apply read_escape in E as [(h & l & u & c & -> & (x' & E)%cons_to_Some)|(e & u & c & -> & (x' & E)%cons_to_Some)];
      simpl in *; apply IH in E; lia.
  - cbn [read_body] in E. case_bool_decide as Eq; [injection E as <- <-; simpl; lia|].
    rewrite bool_decide_eq_false_2 in E by done. destruct (_ <? _)%N; [done|].
    apply cons_to_Some in E as (x' & E). apply IH in E; simpl; lia.
Qed.

(** A reader that takes a text from its start, and another that reads the same. *)
Definition taken_by {A} (f : string → option (A * string)) (s : string) (x : A) (r : string) : Prop :=
  len r < len s ∧ f s = Some (x, r).

Lemma read_items_taken {A} (f g : string → option (A * string)) close n : ∀ s l r,
  (∀ t x u, len t ≤ len s → f t = Some (x, u) → taken_by g t x u) →
  read_items f close n s = Some (l, r) → ∀ m, len s ≤ m → taken_by (read_items g close m) s l r.
Proof.
  induction n as [|n IH]; intros s l r Hf E m Hm; [done|]. cbn [read_items] in E.
  destruct (f s) as [[x r1]|] eqn:Ef; [|done]. destruct (Hf s x r1 (le_n _) Ef) as [Hr1 Hg].
  pose proof (skip_ws_len r1) as Hw. destruct (skip_ws r1) as [|c r'] eqn:Ew; [done|]. simpl in Hw.
  destruct m as [|m]; [lia|]. unfold taken_by. cbn [read_items]. rewrite Hg, Ew.
  case_bool_decide as Ec; [injection E as <- <-; split; [lia|done]|].
  case_bool_decide; [|done]. destruct (read_items f close n r') as [[l' r'']|] eqn:Ei; [|done]. injection E as <- <-.
  destruct (IH r' l' r'' ltac:(intros t y u Ht; apply Hf; lia) Ei m ltac:(lia)) as [Hlen ->]. split; [lia|done].
Qed.

Lemma read_member_taken (f g : string → option (val * string)) s k v r :
  (∀ t x u, len t < len s → f t = Some (x, u) → taken_by g t x u) →
  read_member f s = Some (k, v, r) → taken_by (read_member g) s (k, v) r.
Proof.
  intros Hf E. unfold read_member, taken_by in *. pose proof (skip_ws_len s) as Hw. destruct (skip_ws s) as [|c u]; [done|].
  simpl in Hw. case_bool_decide; [|done]. destruct (read_body u) as [[k' r1]|] eqn:Eb; [|done].
  apply (read_body_len _ _ _ _ (le_n _)) in Eb. pose proof (skip_ws_len r1) as Hw1.
  destruct (skip_ws r1) as [|d r2]; [done|]. simpl in Hw1.
  destruct (decide (d = ":"%char)) as [->|Hd]; [|by destruct d as [[] [] [] [] [] [] [] []]].
  destruct (f r2) as [[w r3]|] eqn:Ef; [|done]. injection E as <- <- <-.
  destruct (Hf r2 w r3 ltac:(lia) Ef) as [Hlen ->]. split; [lia|done].
Qed.

Lemma at_close_len close s r : at_close close s = Some r → len r < len s.
Proof.
  unfold at_close. pose proof (skip_ws_len s). destruct (skip_ws s) as [|c u]; [done|]. simpl in *.
  case_bool_decide; [|done]. intros [= ->]. lia.
Qed.

(** More nesting reads the same: the bound of [json_loads] loses nothing. *)
Lemma read_value_taken n : ∀ s v r, read_value n s = Some (v, r) → ∀ m, len s < m → taken_by (read_value m) s v r.
Proof.
  induction n as [|n IH]; intros s v r E [|m] Hm; try done; [lia|]. cbn [read_value] in E. unfold taken_by. cbn [read_value].
  pose proof (skip_ws_len s) as Hw. destruct (skip_ws s) as [|c u]; [done|]. simpl in Hw.
  assert (IH' : ∀ t x w, len t ≤ len u → read_value n t = Some (x, w) → taken_by (read_value m) t x w) by (intros; apply IH; [done|lia]).
  case_bool_decide as Eq.
  { destruct (read_body u) as [[x r']|] eqn:Eb; [|done]. injection E as <- <-.
    apply (read_body_len _ _ _ _ (le_n _)) in Eb. split; [lia|done]. }
  case_bool_decide as El.
  { destruct (at_close "]" u) as [r'|] eqn:Ec; [apply at_close_len in Ec; injection E as <- <-; split; [lia|done]|].
    destruct (read_items (read_value n) "]" n u) as [[l r']|] eqn:Ei; [|done]. injection E as <- <-.
    destruct (read_items_taken _ (read_value m) _ _ _ _ _ IH' Ei m ltac:(lia)) as [Hlen ->]. split; [lia|done]. }
  case_bool_decide as Ed.
  { destruct (at_close "}" u) as [r'|] eqn:Ec; [apply at_close_len in Ec; injection E as <- <-; split; [lia|done]|].
    destruct (read_items (read_member (read_value n)) "}" n u) as [[l r']|] eqn:Ei; [|done]. injection E as <- <-.
    assert (IHm : ∀ t x w, len t ≤ len u → read_member (read_value n) t = Some (x, w) → taken_by (read_member (read_value m)) t x w).
    { intros t [k x] w Ht Et. apply (read_member_taken (read_value n)); [|done]. intros; apply IH'; [lia|done]. }
    destruct (read_items_taken _ (read_member (read_value m)) _ _ _ _ _ IHm Ei m ltac:(lia)) as [Hlen ->]. split; [lia|done]. }
  destruct (take_token (String c u)) as [t r'] eqn:Et. destruct (scalar t) as [x|] eqn:Es; [|done]. injection E as <- <-.
  apply take_token_len in Et. simpl in Et. split; [|done]. destruct t; [done|]. simpl in Et. lia.
Qed.

(** ** Round trips *)

Lemma json_ok_canon v : json_ok v → json_ok (canon v).
Proof.
  induction v as [| | | | |l IH|d IH] using val_nested_ind; simpl; try done; intros Hv; inversion Hv; subst; constructor.
  - rewrite Forall_map. rewrite Forall_forall in *. simpl. auto.
  - unfold dict_ok. by rewrite (py_sorted_perm key_le), map_fst_map.
  - rewrite py_sorted_perm, Forall_map. rewrite Forall_forall in *. simpl. auto.
Qed.

(** What the module reads from a text that it wrote. *)
Lemma loads_text v : json_ok v → json_loads (text v) = Some v.
Proof.
  intros Hv. unfold json_loads. pose proof (read_text v Hv (S (len (text v))) "" ltac:(lia) I) as E.
  rewrite str_app_nil_r in E. by rewrite E.
Qed.

(** [json.loads] gives back every value that [json.dumps(..., sort_keys=True)]
    wrote, up to the order of the keys of its dicts; so the text tells values
    apart, and writing what was read gives the same text. The reader's bound on
    nesting is never met: what any bound reads, [json.loads] reads. *)
Theorem json_round_trip v :
  json_ok v →
  json_loads (json_dumps v) = Some (canon v) ∧ json_dumps (canon v) = json_dumps v ∧
  (∀ w, json_ok w → json_dumps w = json_dumps v → canon w = canon v) ∧
  (∀ s n w r, read_value n s = Some (w, r) → skip_ws r = "" → json_loads s = Some w).
Proof.
  intros Hv. assert (Hl : ∀ w, json_ok w → json_loads (json_dumps w) = Some (canon w)).
  { intros w Hw. by apply loads_text, json_ok_canon. }
  split_and!; [by apply Hl|unfold json_dumps; by rewrite canon_idem|..].
  - intros w Hw E. pose proof (Hl w Hw) as E'. rewrite E, Hl in E' by done. by injection E'.
  - intros s n w r E Hr. unfold json_loads. destruct (read_value_taken _ _ _ _ E (S (len s)) ltac:(lia)) as [_ ->].
    by rewrite bool_decide_eq_true_2.
Qed.

Lemma json_round_trip_witness :
  json_loads (json_dumps (VDict [("b", VList [VInt (-3); VFloat "0.1"; VNone]); ("a", VStr (String "010" "x"))]))
  = Some (VDict [("a", VStr (String "010" "x")); ("b", VList [VInt (-3); VFloat "0.1"; VNone])]).
Proof.
  refine (proj1 (json_round_trip _ _)). apply json_dict; [by apply (bool_decide_unpack (NoDup _)); vm_compute|].
  repeat constructor.
Defined.
