(* ===== verification/Store.v ===== *)
(** The document stores of agentfabric/persistence: the interface every service
    is written against, the in-memory backend that implements it, and the unit
    of work that makes a group of updates atomic. *)

From stdpp Require Import base option list strings gmap sets.
From Stdlib Require Import ZArith Lia Sorted.
From S2P Require Import Prelude PyVal.

(** A document is a JSON object. *)
Abbreviation doc := (list (string * val)).

(** * The interface *)

(** The operations of the [PersistenceStore] protocol of
    persistence/interfaces.py, on a store whose state is [S]. *)
Class PersistenceStore (S : Type) := {
  st_initialize : S → S;
  st_put : string → string → doc → S → S;
  st_get : string → string → S → option doc;
  st_delete : string → string → S → bool * S;
  st_list : string → S → list doc;
  st_list_tenant : string → string → S → list doc;
  st_keys : string → S → list string;
}.

(** What a backend promises: it is a finite map from collection and key to
    document, and a listing is the documents in the order of their keys. *)
Class StoreLaws (S : Type) `{PersistenceStore S} : Prop := {
  get_initialize : ∀ c k s, st_get c k (st_initialize s) = st_get c k s;
  get_put_eq : ∀ c k d s, st_get c k (st_put c k d s) = Some d;
  get_put_ne : ∀ c k c' k' d s, (c, k) ≠ (c', k') → st_get c' k' (st_put c k d s) = st_get c' k' s;
  delete_found : ∀ c k s, (st_delete c k s).1 = bool_decide (is_Some (st_get c k s));
  get_delete_eq : ∀ c k s, st_get c k (st_delete c k s).2 = None;
  get_delete_ne : ∀ c k c' k' s, (c, k) ≠ (c', k') → st_get c' k' (st_delete c k s).2 = st_get c' k' s;
  keys_get : ∀ c k s, k ∈ st_keys c s ↔ is_Some (st_get c k s);
  keys_sorted : ∀ c s, StronglySorted (fun a b => a ≠ b ∧ str_le a b = true) (st_keys c s);
  list_keys : ∀ c s, st_list c s = omap (fun k => st_get c k s) (st_keys c s);
  list_tenant_list : ∀ c t s,
    st_list_tenant c t s = base.filter (fun d => is_str (dget d "tenant_id") t = true) (st_list c s);
}.

#[export] Hint Rewrite @get_initialize @get_put_eq @get_delete_eq using typeclasses eauto : store.

Section Laws.
Context {S : Type} `{StoreLaws S}.
Implicit Types s : S.

Lemma keys_NoDup c s : NoDup (st_keys c s).
Proof.
  pose proof (keys_sorted c s) as Hs. induction Hs as [|k l _ IH Hf]; constructor; [|done].
  rewrite Forall_forall in Hf. intros Hin. by destruct (Hf k Hin).
Qed.

Lemma elem_of_st_list c d s : d ∈ st_list c s ↔ ∃ k, st_get c k s = Some d.
Proof.
  rewrite list_keys, list_elem_of_omap. split; [naive_solver|].
  intros (k & Hk). exists k. split; [apply keys_get|]; eauto.
Qed.

Lemma elem_of_list_tenant c t d s :
  d ∈ st_list_tenant c t s ↔
  is_str (dget d "tenant_id") t = true ∧ ∃ k, st_get c k s = Some d.
Proof. rewrite list_tenant_list, list_elem_of_filter. by rewrite elem_of_st_list. Qed.

(** Stores that agree on a collection list it the same way. *)
Lemma keys_ext c s s' : (∀ k, st_get c k s = st_get c k s') → st_keys c s = st_keys c s'.
Proof.
  intros He. eapply (strict_sorted_unique id (fun a b => a ≠ b ∧ str_le a b = true)).
  - naive_solver.
  - intros x y z [Hxy Lxy] [Hyz Lyz]. split; [|by eapply str_le_trans].
    intros ->. apply Hxy. by apply str_le_antisym.
  - apply NoDup_Permutation; [apply keys_NoDup..|]. intros k. by rewrite !keys_get, He.
  - apply keys_sorted.
  - apply keys_sorted.
Qed.

Lemma list_ext c s s' : (∀ k, st_get c k s = st_get c k s') → st_list c s = st_list c s'.
Proof.
  intros He. rewrite !list_keys, (keys_ext c s s' He).
  induction (st_keys c s') as [|k l IH]; csimpl; [done|]. by rewrite He, IH.
Qed.

Lemma list_tenant_ext c t s s' :
  (∀ k, st_get c k s = st_get c k s') → st_list_tenant c t s = st_list_tenant c t s'.
Proof. intros He. by rewrite !list_tenant_list, (list_ext c s s' He). Qed.

(** Writing another collection changes no listing. *)
Lemma get_put_other c c' k k' d s : c ≠ c' → st_get c' k' (st_put c k d s) = st_get c' k' s.
Proof. intros Hc. apply get_put_ne. congruence. Qed.

Lemma list_put_other c c' k d s : c ≠ c' → st_list c' (st_put c k d s) = st_list c' s.
Proof. intros Hc. apply list_ext. intros k'. by apply get_put_other. Qed.

Lemma list_tenant_put_other c c' t k d s :
  c ≠ c' → st_list_tenant c' t (st_put c k d s) = st_list_tenant c' t s.
Proof. intros Hc. apply list_tenant_ext. intros k'. by apply get_put_other. Qed.

(** The documents after a put: the new one and the others. *)
Lemma elem_of_list_put c k d d' s :
  d' ∈ st_list c (st_put c k d s) ↔ d' = d ∨ ∃ k', k' ≠ k ∧ st_get c k' s = Some d'.
Proof.
  rewrite elem_of_st_list. split.
  - intros (k' & Hk'). destruct (decide (k' = k)) as [->|Hne].
    + rewrite get_put_eq in Hk'. simplify_eq. by left.
    + rewrite get_put_ne in Hk' by congruence. eauto.
  - intros [->|(k' & Hne & Hk')]; [exists k; apply get_put_eq|].
    exists k'. by rewrite get_put_ne by congruence.
Qed.

(** A collection that holds the documents of some objects under distinct keys
    lists exactly those documents. *)
Lemma st_list_perm {A} c s (l : list A) (key : A → string) (f : A → doc) :
  NoDup (key <$> l) → (∀ k d, st_get c k s = Some d ↔ ∃ a, a ∈ l ∧ key a = k ∧ d = f a) →
  st_list c s ≡ₚ f <$> l.
Proof.
  intros Hnd Hg. rewrite list_keys.
  assert (st_keys c s ≡ₚ key <$> l) as ->.
  { apply NoDup_Permutation; [apply keys_NoDup|done|]. intros k. rewrite keys_get, list_elem_of_fmap.
    split; [intros [d Hd]; apply Hg in Hd; naive_solver|].
    intros (a & -> & Ha). exists (f a). apply Hg. eauto. }
  assert (Hl : ∀ a, a ∈ l → st_get c (key a) s = Some (f a)) by (intros a Ha; apply Hg; eauto).
  clear Hnd Hg. induction l as [|a l IH]; csimpl; [done|]. rewrite Hl by set_solver. csimpl.
  rewrite IH; [done|set_solver].
Qed.

(** Putting a document under a new key adds it to the listing. *)
Lemma keys_put_new c k d s :
  st_get c k s = None → st_keys c (st_put c k d s) ≡ₚ k :: st_keys c s.
Proof.
  intros Hnew. apply NoDup_Permutation; [apply keys_NoDup| |].
  - constructor; [|apply keys_NoDup]. rewrite keys_get, Hnew. by intros [? ?].
  - intros k'. rewrite keys_get, elem_of_cons, keys_get. destruct (decide (k' = k)) as [->|Hne].
    + rewrite get_put_eq. split; [by left|by eauto].
    + rewrite get_put_ne by congruence. naive_solver.
Qed.

Lemma list_put_new c k d s : st_get c k s = None → st_list c (st_put c k d s) ≡ₚ d :: st_list c s.
Proof.
  intros Hnew. rewrite !list_keys, (keys_put_new c k d s Hnew). csimpl. rewrite get_put_eq. csimpl.
  assert (Hk : k ∉ st_keys c s) by (rewrite keys_get, Hnew; by intros [? ?]).
  assert (omap (fun k' => st_get c k' (st_put c k d s)) (st_keys c s)
          = omap (fun k' => st_get c k' s) (st_keys c s)) as ->; [|done].
  induction (st_keys c s) as [|k' l IH]; csimpl; [done|].
  rewrite get_put_ne by set_solver. by rewrite IH by set_solver.
Qed.

Lemma list_tenant_put_new c t k d s :
  st_get c k s = None →
  st_list_tenant c t (st_put c k d s) ≡ₚ
  (if is_str (dget d "tenant_id") t then [d] else []) ++ st_list_tenant c t s.
Proof.
  intros Hnew. rewrite !list_tenant_list, (list_put_new c k d s Hnew), filter_cons.
  case_decide as E; [by rewrite E|]. by apply not_true_iff_false in E as ->.
Qed.

End Laws.

#[export] Hint Rewrite @get_put_other @list_put_other @list_tenant_put_other
  using (typeclasses eauto || discriminate) : store.

(** * The in-memory backend *)

Module Memory.

(** [MemoryPersistenceStore._data] *)
Abbreviation store := (gmap string (gmap string doc)).

Definition initialize (s : store) : store :=
  match s !! "_meta" with Some _ => s | None => <["_meta" := ∅]> s end.

(** [self._data.get(collection, {})] *)
Definition collection (c : string) (s : store) : gmap string doc := default ∅ (s !! c).

Definition put (c k : string) (value : doc) (s : store) : store :=
  <[c := <[k := value]> (collection c s)]> s.

Definition get (c k : string) (s : store) : option doc := collection c s !! k.

Definition delete (c k : string) (s : store) : bool * store :=
  match collection c s !! k with
  | Some _ => (true, <[c := base.delete k (collection c s)]> s)
  | None => (false, s)
  end.

(** [sorted(self._data.get(collection, {}).items())] *)
Definition sorted_items (c : string) (s : store) : list (string * doc) :=
  py_sorted key_le (map_to_list (collection c s)).

Definition list (c : string) (s : store) : list doc := (sorted_items c s).*2.

Definition list_tenant (c tenant_id : string) (s : store) : Datatypes.list doc :=
  (base.filter (fun p => is_str (dget p.2 "tenant_id") tenant_id = true) (sorted_items c s)).*2.

Definition keys (c : string) (s : store) : Datatypes.list string := (sorted_items c s).*1.

Definition health (s : store) : doc :=
  [("status", VStr "ok"); ("backend", VStr "memory");
   ("collections", VList (VStr <$> py_sorted str_le (map_to_list s).*1))].

End Memory.

#[export] Instance memory_store : PersistenceStore Memory.store := {
  st_initialize := Memory.initialize;
  st_put := Memory.put;
  st_get := Memory.get;
  st_delete := Memory.delete;
  st_list := Memory.list;
  st_list_tenant := Memory.list_tenant;
  st_keys := Memory.keys;
}.

Section MemoryLaws.
Implicit Types s : Memory.store.

Lemma collection_insert c c' m s :
  Memory.collection c' (<[c := m]> s) = if decide (c = c') then m else Memory.collection c' s.
Proof.
  unfold Memory.collection. rewrite lookup_insert. by case_decide.
Qed.

Lemma elem_of_sorted_items c k d s : (k, d) ∈ Memory.sorted_items c s ↔ Memory.get c k s = Some d.
Proof.
  unfold Memory.sorted_items. rewrite elem_of_py_sorted. apply elem_of_map_to_list.
Qed.

Lemma sorted_items_NoDup c s : NoDup (Memory.sorted_items c s).*1.
Proof.
  unfold Memory.sorted_items. rewrite (py_sorted_perm key_le). apply NoDup_fst_map_to_list.
Qed.

Lemma sorted_items_keys_sorted c s :
  StronglySorted (fun a b => a ≠ b ∧ str_le a b = true) (Memory.keys c s).
Proof.
  pose proof (sorted_items_NoDup c s) as Hnd. unfold Memory.keys.
  assert (Hs : StronglySorted (fun p q => @key_le doc p q = true) (Memory.sorted_items c s)).
  { apply Sorted_StronglySorted; [intros p q r; apply str_le_trans|].
    apply py_sorted_Sorted. intros p q. apply str_le_total. }
  induction Hs as [|[k d] l Hs IH Hf]; simpl in *; [constructor|].
  apply NoDup_cons in Hnd as [Hk Hnd]. constructor; [by apply IH|].
  rewrite Forall_forall in Hf. apply Forall_fmap, Forall_forall.
  intros [k' d'] Hin. split; [|exact (Hf _ Hin)]. intros ->. apply Hk.
  by apply (list_elem_of_fmap_2 fst _ (k', d')).
Qed.

Lemma sorted_items_values c s :
  (Memory.sorted_items c s).*2 = omap (fun k => Memory.get c k s) (Memory.keys c s).
Proof.
  unfold Memory.keys.
  assert (Hg : ∀ p, p ∈ Memory.sorted_items c s → Memory.get c p.1 s = Some p.2).
  { intros [k d]. apply elem_of_sorted_items. }
  induction (Memory.sorted_items c s) as [|[k d] l IH]; csimpl; [done|].
  pose proof (Hg (k, d) ltac:(set_solver)) as E. simpl in E. rewrite E. csimpl.
  f_equal. apply IH. set_solver.
Qed.

Lemma filter_values (P : doc → Prop) `{∀ d, Decision (P d)} (l : list (string * doc)) :
  (base.filter (fun p => P p.2) l).*2 = base.filter P l.*2.
Proof.
  induction l as [|[k d] l IH]; simpl; [done|].
  rewrite !filter_cons. cbn [snd]. destruct (decide (P d)); [cbn; f_equal|]; exact IH.
Qed.

#[export] Instance memory_laws : StoreLaws Memory.store.
Proof.
  split; simpl; unfold Memory.get.
  - intros c k s. unfold Memory.initialize. destruct (s !! "_meta") eqn:E; [done|].
    rewrite collection_insert. case_decide; [|done]. subst.
    unfold Memory.collection. by rewrite E.
  - intros c k d s. unfold Memory.put. rewrite collection_insert, decide_True by done.
    apply lookup_insert_eq.
  - intros c k c' k' d s Hne. unfold Memory.put. rewrite collection_insert.
    case_decide; [subst; apply lookup_insert_ne; congruence|done].
  - intros c k s. unfold Memory.delete. destruct (Memory.collection c s !! k); done.
  - intros c k s. unfold Memory.delete. destruct (Memory.collection c s !! k) eqn:E; simpl; [|done].
    rewrite collection_insert, decide_True by done. apply lookup_delete_eq.
  - intros c k c' k' s Hne. unfold Memory.delete.
    destruct (Memory.collection c s !! k) eqn:E; simpl; [|done].
    rewrite collection_insert. case_decide; [subst; apply lookup_delete_ne; congruence|done].
  - intros c k s. unfold Memory.keys. rewrite list_elem_of_fmap. split.
    + intros ([k' d] & -> & Hin). apply elem_of_sorted_items in Hin. by eexists.
    + intros [d Hd]. exists (k, d). split; [done|]. by apply elem_of_sorted_items.
  - intros c s. apply sorted_items_keys_sorted.
  - intros c s. apply sorted_items_values.
  - intros c t s. unfold Memory.list_tenant, Memory.list.
    exact (filter_values (fun d => is_str (dget d "tenant_id") t = true) _).
Qed.

End MemoryLaws.

(** * Unit of work *)

Module UnitOfWork.

(** [UnitOfWork] over a [MemoryPersistenceStore]: the store and the snapshot. *)
Record t := Mk { store : Memory.store; snapshot : option Memory.store }.

Definition enter (u : t) : t := Mk (store u) (Some (store u)).

(** [__exit__]: it never swallows the exception. *)
Definition exit (exc : option exn) (u : t) : t :=
  match exc, snapshot u with
  | Some _, Some saved => Mk saved (snapshot u)
  | _, _ => u
  end.

Definition put (c k : string) (value : doc) : M t unit :=
  modify (fun u => Mk (Memory.put c k value (store u)) (snapshot u)).

Definition delete (c k : string) : M t bool :=
  fun u => let '(b, s) := Memory.delete c k (store u) in (Ok b, Mk s (snapshot u)).

Section With.
Context {X : Type} (get : X → Memory.store) (set : Memory.store → X → X).

(** [with UnitOfWork(store): body], where the body runs in a process of state
    [X] that holds the store. *)
Definition with_unit_of_work {A} (body : M X A) : M X A :=
  fun x =>
    let u := enter (Mk (get x) None) in
    match body x with
    | (Ok a, x') => (Ok a, set (store (exit None (Mk (get x') (snapshot u)))) x')
    | (Err e, x') => (Err e, set (store (exit (Some e) (Mk (get x') (snapshot u)))) x')
    end.

Hypothesis set_get : ∀ x, set (get x) x = x.

(** All or nothing: when the body raises, the store is the one from before and
    the exception goes on; when it returns, its updates stay. *)
Lemma with_unit_of_work_atomic {A} (body : M X A) x :
  with_unit_of_work body x =
  match body x with
  | (Ok a, x') => (Ok a, x')
  | (Err e, x') => (Err e, set (get x) x')
  end.
Proof. unfold with_unit_of_work. destruct (body x) as [[a|e] x']; simpl; [by rewrite set_get|done]. Qed.

End With.
End UnitOfWork.

(** What a unit of work does on exit depends on the class of its store: a
    [MemoryPersistenceStore] is restored from the snapshot and a transaction of
    a [SQLitePersistenceStore] is rolled back; any other store keeps what the
    body did. *)
Class UnitStore (S : Type) := { unit_restores : bool }.

#[export] Instance memory_units : UnitStore Memory.store := {| unit_restores := true |}.

(** [with UnitOfWork(store): body] over any backend. *)
Definition with_unit {S X A : Type} `{UnitStore S} (get : X → S) (set : S → X → X) (body : M X A) : M X A :=
  fun x =>
    match body x with
    | (Ok a, x') => (Ok a, x')
    | (Err e, x') => (Err e, if unit_restores (S := S) then set (get x) x' else x')
    end.

(** Over the in-memory backend that is the unit with its snapshot. *)
Lemma with_unit_memory {X A} (get : X → Memory.store) (set : Memory.store → X → X) (body : M X A) x :
  (∀ x, set (get x) x = x) → with_unit get set body x = UnitOfWork.with_unit_of_work get set body x.
Proof. intros Hs. by rewrite UnitOfWork.with_unit_of_work_atomic. Qed.
