(* ===== verification/JsonStore.v ===== *)
(** The JSON-file backend (agentfabric/persistence/json_store.py): every call reads
    the file and writes it anew. It answers as the in-memory backend does. *)

From stdpp Require Import base option list strings gmap sets sorting.
From Stdlib Require Import ZArith Lia.
From S2P Require Import Prelude PyVal Json JsonText Store.

(** * Values up to the order of keys *)

(** Python's [==] on values read from JSON. *)
#[export] Instance val_equiv : Equiv val := fun v w => canon v = canon w.

#[export] Instance val_equivalence : Equivalence (≡@{val}).
Proof. split; unfold equiv, val_equiv; congruence. Qed.

Lemma canon_equiv (v : val) : canon v ≡ v.
Proof. apply canon_idem. Qed.

Lemma dget_canon (d : dict val) k :
  dict_ok d → dget (py_sorted key_le (map (fun p => (p.1, canon p.2)) d)) k = canon <$> dget d k.
Proof.
  intros Hd. rewrite <- dget_map. apply dget_perm; [|apply py_sorted_perm].
  unfold dict_ok. by rewrite (py_sorted_perm key_le), map_fst_map.
Qed.

(** * json_store.py *)

Module JsonPersistenceStore.

(** The text of the file, when there is one. A file that is no object of objects
    is not one the program wrote: reading it raises, with a text that is not
    modelled. *)
Abbreviation file := (option string).
Abbreviation data := (dict (dict val)).

Definition wrap (d : data) : val := VDict ((fun p => (p.1, VDict p.2)) <$> d).

Definition as_object (v : val) : option (dict val) := match v with VDict d => Some d | _ => None end.

Definition unwrap (v : val) : option data :=
  match v with
  | VDict d => mapM (fun p : string * val => match as_object p.2 with Some e => Some (p.1, e) | None => None end) d
  | _ => None
  end.

(** The text goes to a temporary file that takes the place of the file. *)
Definition _write (d : data) : M file unit := modify (fun _ => Some (json_dumps (wrap d))).

Definition initialize : M file unit :=
  let* f := get_state in match f with None => _write [("_meta", [])] | Some _ => ret tt end.

Definition _read : M file data :=
  do* initialize;
  let* f := get_state in
  match json_loads (default "" f) with
  | None => raise ValueError "Expecting value"
  | Some v => match unwrap v with Some d => ret d | None => raise AttributeError "object has no attribute 'get'" end
  end.

(** [data.get(collection, {})] *)
Definition collection (c : string) (d : data) : dict val := default [] (dget d c).

Definition put (c k : string) (value : doc) : M file unit :=
  let* d := _read in
  _write (dset d c (dset (collection c d) k (VDict value))).

Definition get (c k : string) : M file (option val) :=
  let* d := _read in
  ret (match dget (collection c d) k with Some VNone | None => None | Some v => Some v end).

Definition delete (c k : string) : M file bool :=
  let* d := _read in
  if negb (dmem (collection c d) k) then ret false
  else
    do* _write (dset d c (ddel (collection c d) k));
    ret true.

(** [sorted(self._read().get(collection, {}).items())] *)
Definition sorted_items (c : string) : M file (dict val) :=
  let* d := _read in ret (py_sorted key_le (collection c d)).

Definition list (c : string) : M file (list val) :=
  let* items := sorted_items c in ret items.*2.

(** [value.get("tenant_id") == tenant_id] *)
Definition of_tenant (t : string) (v : val) : res bool :=
  match v with
  | VDict d => Ok (is_str (dget d "tenant_id") t)
  | _ => Err (Exn AttributeError "object has no attribute 'get'")
  end.

Fixpoint filter_tenant (t : string) (l : Datatypes.list val) : res (Datatypes.list val) :=
  match l with
  | [] => Ok []
  | v :: l' => let? b := of_tenant t v in let? r := filter_tenant t l' in Ok (if b then v :: r else r)
  end.

Definition list_tenant (c t : string) : M file (Datatypes.list val) :=
  let* items := sorted_items c in of_res (filter_tenant t items.*2).

Definition keys (c : string) : M file (Datatypes.list string) :=
  let* d := _read in ret (py_sorted str_le (collection c d).*1).

Definition health : M file doc :=
  try_except
    (let* d := _read in
     ret [("status", VStr "ok"); ("backend", VStr "json"); ("collections", VList (VStr <$> py_sorted str_le d.*1))])
    (fun exc => ret [("status", VStr "error"); ("backend", VStr "json"); ("error", VStr (exn_msg exc))]).

End JsonPersistenceStore.

(** * The file and the in-memory backend *)

Module JsonFacts.
Import JsonPersistenceStore.

(** The data hold the documents of the in-memory backend, up to the order of
    keys. *)
Definition same_doc (v : val) (d : doc) : Prop := v ≡ VDict d ∧ json_ok v ∧ json_ok (VDict d).

Definition holds (E : dict val) (m : gmap string doc) : Prop :=
  dict_ok E ∧ ∀ k, option_Forall2 same_doc (dget E k) (m !! k).

Definition mirrors (D : data) (mem : Memory.store) : Prop :=
  dict_ok D ∧ ∀ c, option_Forall2 holds (dget D c) (mem !! c).

Lemma holds_empty : holds [] ∅.
Proof. split; [constructor|]. intros k. rewrite lookup_empty. constructor. Qed.

(** Setting the same key on both sides. *)
Lemma related_set {A B} (R : A → B → Prop) (d : dict A) (m : gmap string B) k a b :
  (∀ k, option_Forall2 R (dget d k) (m !! k)) → R a b → ∀ k', option_Forall2 R (dget (dset d k a) k') (<[k := b]> m !! k').
Proof.
  intros Hm Hab k'. rewrite dget_dset. destruct (decide (k = k')) as [->|Hk].
  - rewrite bool_decide_eq_true_2, lookup_insert_eq by done. by constructor.
  - rewrite bool_decide_eq_false_2, lookup_insert_ne by done. apply Hm.
Qed.

Lemma holds_put E m k d : holds E m → json_ok (VDict d) → holds (dset E k (VDict d)) (<[k := d]> m).
Proof. intros [Hd He] Hj. split; [by apply dict_ok_dset|]. by apply related_set. Qed.

Lemma holds_delete E m k : holds E m → holds (ddel E k) (base.delete k m).
Proof.
  intros [Hd He]. split; [by apply dict_ok_ddel|]. intros k'. destruct (decide (k = k')) as [->|Hk].
  - rewrite dget_ddel_eq, lookup_delete_eq by done. constructor.
  - rewrite dget_ddel_ne, lookup_delete_ne by done. apply He.
Qed.

Lemma mirrors_collection D mem c : mirrors D mem → holds (collection c D) (Memory.collection c mem).
Proof. intros [_ Hm]. unfold collection, Memory.collection. by destruct (Hm c); [|apply holds_empty]. Qed.

Lemma mirrors_set D mem c E m : mirrors D mem → holds E m → mirrors (dset D c E) (<[c := m]> mem).
Proof. intros [Hd Hm] HE. split; [by apply dict_ok_dset|]. by apply related_set. Qed.

(** ** What a file holds *)

(** The data as they are read back from their text. *)
Definition sorted_items_of (E : dict val) : dict val := py_sorted key_le (map (fun q => (q.1, canon q.2)) E).
Definition sorted_data (D : data) : data := py_sorted key_le (map (fun p => (p.1, sorted_items_of p.2)) D).

Lemma dget_sorted_map {A B} (f : A → B) (d : dict A) k :
  dict_ok d → dget (py_sorted key_le (map (fun p => (p.1, f p.2)) d)) k = f <$> dget d k.
Proof.
  intros Hd. rewrite <- dget_map. symmetry. apply dget_perm; [|by rewrite (py_sorted_perm key_le)].
  unfold dict_ok. by rewrite map_fst_map.
Qed.

Lemma dict_ok_sorted_map {A B} (f : A → B) (d : dict A) : dict_ok d → dict_ok (py_sorted key_le (map (fun p => (p.1, f p.2)) d)).
Proof. unfold dict_ok. by rewrite (py_sorted_perm key_le), map_fst_map. Qed.

Lemma canon_wrap D : canon (wrap D) = wrap (sorted_data D).
Proof.
  unfold wrap, sorted_data. cbn [canon]. f_equal.
  change ((fun p : string * dict val => (p.1, VDict p.2)) <$> ?l) with (map (fun p : string * dict val => (p.1, VDict p.2)) l).
  rewrite (py_sorted_map _ key_le key_le), !map_map by done. done.
Qed.

Lemma unwrap_wrap D : unwrap (wrap D) = Some D.
Proof. unfold unwrap, wrap. induction D as [|[c E] D IH]; [done|]. cbn in *. by rewrite IH. Qed.

Lemma same_doc_canon v d : same_doc v d → same_doc (canon v) d.
Proof. intros (Hv & Hj & Hd). split_and!; [by rewrite canon_equiv|by apply json_ok_canon|done]. Qed.

Lemma holds_sorted E m : holds E m → holds (sorted_items_of E) m.
Proof.
  intros [Hd He]. split; [by apply dict_ok_sorted_map|]. intros k. unfold sorted_items_of. rewrite dget_sorted_map by done.
  destruct (He k); constructor. by apply same_doc_canon.
Qed.

Lemma mirrors_sorted D mem : mirrors D mem → mirrors (sorted_data D) mem.
Proof.
  intros [Hd Hm]. split; [by apply dict_ok_sorted_map|]. intros c. unfold sorted_data. rewrite dget_sorted_map by done.
  destruct (Hm c); constructor. by apply holds_sorted.
Qed.

Lemma mirrors_json D mem : mirrors D mem → json_ok (wrap D).
Proof.
  intros [Hd Hm]. constructor.
  - unfold dict_ok. change (fmap ?f ?l) with (map f l). by rewrite (map_fst_map VDict).
  - apply Forall_fmap, Forall_forall. intros [c E] Hin. cbn. apply elem_dget in Hin; [|done].
    specialize (Hm c). rewrite Hin in Hm. inversion Hm as [? m [HE He]|]; subst. constructor; [done|].
    apply Forall_forall. intros [k v] Hv. cbn. apply elem_dget in Hv; [|done]. specialize (He k). rewrite Hv in He.
    inversion He as [? d (_ & ? & _)|]; by subst.
Qed.

(** The file of a backend: none yet, or the text of data that mirror it. *)
Definition file_of (f : file) (mem : Memory.store) : Prop :=
  match f with
  | None => mem = Memory.initialize ∅
  | Some t => ∃ D, t = json_dumps (wrap D) ∧ mirrors D mem
  end.

Lemma mirrors_start : mirrors [("_meta", [])] (Memory.initialize ∅).
Proof.
  split; [repeat constructor; set_solver|]. intros c. cbn [dget]. unfold Memory.initialize. rewrite lookup_empty.
  case_bool_decide as E; [subst; rewrite lookup_insert_eq; constructor; apply holds_empty|].
  rewrite lookup_insert_ne, lookup_empty by done. constructor.
Qed.

(** Reading gives data that mirror the backend. *)
Lemma read_mirrors f mem :
  file_of f mem → ∃ D f', _read f = (Ok D, f') ∧ file_of f' mem ∧ mirrors D mem.
Proof.
  assert (Hr : ∀ D, mirrors D mem → _read (Some (json_dumps (wrap D))) = (Ok (sorted_data D), Some (json_dumps (wrap D)))).
  { intros D Hm. unfold _read, initialize, bind, get_state, ret.
    change (default "" (Some ?t)) with t. unfold json_dumps. rewrite loads_text by (by apply json_ok_canon, (mirrors_json D mem)).
    by rewrite canon_wrap, unwrap_wrap. }
  intros Hf. destruct f as [t|]; cbn [file_of] in Hf.
  - destruct Hf as (D & -> & Hm). exists (sorted_data D), (Some (json_dumps (wrap D))). rewrite Hr by done.
    split_and!; [done|by exists D|by apply mirrors_sorted].
  - assert (Hm : mirrors [("_meta", [])] mem) by (rewrite Hf; apply mirrors_start).
    exists (sorted_data [("_meta", [])]), (Some (json_dumps (wrap [("_meta", [])]))).
    split_and!; [exact (Hr _ Hm)|by eexists|by apply mirrors_sorted].
Qed.

(** ** Listings *)

Lemma sorted_names (l l' : Datatypes.list string) : l ≡ₚ l' → py_sorted str_le l = py_sorted str_le l'.
Proof.
  intros Hp. apply (StronglySorted_unique_strong (fun a b => str_le a b = true)).
  - intros a b _ _ H1 H2. by apply str_le_antisym.
  - apply Sorted_StronglySorted; [intros a b c; apply str_le_trans|]. apply py_sorted_Sorted, str_le_total.
  - apply Sorted_StronglySorted; [intros a b c; apply str_le_trans|]. apply py_sorted_Sorted, str_le_total.
  - by rewrite !(py_sorted_perm str_le).
Qed.

Lemma elem_of_keys {A} (d : dict A) k : k ∈ d.*1 ↔ is_Some (dget d k).
Proof.
  pose proof (dget_None d k) as Hn. destruct (dget d k) as [a|].
  - split; [by eexists|]. intros _. destruct (decide (k ∈ d.*1)) as [?|Hnot]; [done|]. by apply Hn in Hnot.
  - split; [intros Hk; by apply Hn in Hk|by intros [? ?]].
Qed.

Lemma names_eq E m : holds E m → py_sorted str_le E.*1 = (py_sorted key_le (map_to_list m)).*1.
Proof.
  intros [Hd He]. change (fmap ?f ?l) with (map f l). rewrite (py_sorted_map fst key_le str_le) by done.
  apply sorted_names, NoDup_Permutation; [done|apply NoDup_fst_map_to_list|]. intros k.
  assert (k ∈ (map_to_list m).*1 ↔ is_Some (m !! k)) as Hk.
  { rewrite list_elem_of_fmap. split.
    - intros ([k' d] & -> & Hin%elem_of_map_to_list). by eexists.
    - intros [d Hd']. exists (k, d). split; [done|]. by apply elem_of_map_to_list. }
  change (map fst ?l) with (l.*1). rewrite Hk, elem_of_keys. specialize (He k).
  destruct He; split; intros [? ?]; try done; by eexists.
Qed.

Lemma entries_related {A B} (R : A → B → Prop) (L1 : dict A) (L2 : dict B) :
  L1.*1 = L2.*1 → (∀ k v d, (k, v) ∈ L1 → (k, d) ∈ L2 → R v d) → Forall2 R L1.*2 L2.*2.
Proof.
  revert L2. induction L1 as [|[k v] L1 IH]; intros [|[k' d] L2] E Hr; csimpl in *; try done.
  injection E as <- E. constructor; [apply (Hr k); by left|]. apply IH; [done|]. intros k' v' d' H1 H2. apply (Hr k'); by right.
Qed.

Lemma documents_eq E m :
  holds E m → Forall2 same_doc (py_sorted key_le E).*2 (py_sorted key_le (map_to_list m)).*2.
Proof.
  intros Hh. apply entries_related.
  - rewrite <- (names_eq E m Hh). change (fmap ?f ?l) with (map f l). by apply py_sorted_map.
  - intros k v d Hv%elem_of_py_sorted Hd%elem_of_py_sorted. destruct Hh as [HE He].
    apply elem_dget in Hv; [|done]. apply elem_of_map_to_list in Hd. specialize (He k). rewrite Hv, Hd in He. by inversion He.
Qed.

(** The field [tenant_id] of documents that are equal up to order. *)
Lemma same_doc_inv v d : same_doc v d → ∃ d', v = VDict d' ∧ ∀ k, canon <$> dget d' k = canon <$> dget d k.
Proof.
  intros (Hv & Hj & Hd). destruct v as [| | | | | |d']; try done. exists d'. split; [done|]. intros k.
  inversion Hj; inversion Hd; subst. rewrite <- !dget_sorted_map by done. unfold equiv, val_equiv in Hv. cbn in Hv.
  by injection Hv as ->.
Qed.

Lemma tenant_same v d t : same_doc v d → of_tenant t v = Ok (is_str (dget d "tenant_id") t).
Proof.
  intros (d' & -> & Hg)%same_doc_inv. cbn. f_equal. specialize (Hg "tenant_id").
  destruct (dget d' "tenant_id") as [v|], (dget d "tenant_id") as [w|]; try done. injection Hg as Hg.
  destruct v, w; cbn in Hg; try done; by simplify_eq.
Qed.

Lemma filter_tenant_same t l l' :
  Forall2 same_doc l l' →
  ∃ r, filter_tenant t l = Ok r ∧ Forall2 same_doc r (base.filter (fun d => is_str (dget d "tenant_id") t = true) l').
Proof.
  induction 1 as [|v d l l' Hvd _ (r & E & Hr)]; [by exists []|]. cbn [filter_tenant].
  rewrite (tenant_same v d t Hvd), E. cbn [res_bind]. eexists. split; [done|]. rewrite filter_cons.
  destruct (is_str (dget d "tenant_id") t); [rewrite decide_True by done; by constructor|by rewrite decide_False].
Qed.

(** ** The calls *)

Inductive op :=
  | Put (c k : string) (d : doc) | Get (c k : string) | Delete (c k : string)
  | List_ (c : string) | ListTenant (c t : string) | Keys (c : string).

Inductive answer :=
  | Done | Found (o : option val) | Deleted (b : bool) | Docs (l : Datatypes.list val) | Names (l : Datatypes.list string).

(** Answers up to the order of the keys of documents. *)
#[export] Instance answer_equiv : Equiv answer := fun a b =>
  match a, b with
  | Done, Done => True
  | Found o, Found o' => o ≡ o'
  | Deleted x, Deleted y => x = y
  | Docs l, Docs l' => l ≡ l'
  | Names l, Names l' => l = l'
  | _, _ => False
  end.

#[export] Instance answer_equivalence : Equivalence (≡@{answer}).
Proof.
  split.
  - intros []; unfold equiv, answer_equiv; reflexivity.
  - intros [] []; unfold equiv, answer_equiv; try done; by intros ->.
  - intros [] [] []; unfold equiv, answer_equiv; try done; by intros -> ->.
Qed.

Definition on_file (o : op) : M file answer :=
  match o with
  | Put c k d => let* _ := put c k d in ret Done
  | Get c k => let* v := get c k in ret (Found v)
  | Delete c k => let* b := delete c k in ret (Deleted b)
  | List_ c => let* l := list c in ret (Docs l)
  | ListTenant c t => let* l := list_tenant c t in ret (Docs l)
  | Keys c => let* l := keys c in ret (Names l)
  end.

Definition in_memory (o : op) (mem : Memory.store) : answer * Memory.store :=
  match o with
  | Put c k d => (Done, Memory.put c k d mem)
  | Get c k => (Found (VDict <$> Memory.get c k mem), mem)
  | Delete c k => let '(b, mem') := Memory.delete c k mem in (Deleted b, mem')
  | List_ c => (Docs (VDict <$> Memory.list c mem), mem)
  | ListTenant c t => (Docs (VDict <$> Memory.list_tenant c t mem), mem)
  | Keys c => (Names (Memory.keys c mem), mem)
  end.

Definition op_ok (o : op) : Prop := match o with Put _ _ d => json_ok (VDict d) | _ => True end.

Lemma same_docs l l' : Forall2 same_doc l l' → Docs l ≡ Docs (VDict <$> l').
Proof. intros Hl. change (l ≡ VDict <$> l'). apply list_equiv_Forall2, Forall2_fmap_r. eapply Forall2_impl; [exact Hl|]. by intros v d [? _]. Qed.

Lemma memory_list_tenant c t mem :
  Memory.list_tenant c t mem = base.filter (fun d => is_str (dget d "tenant_id") t = true) (Memory.list c mem).
Proof. exact (filter_values (fun d => is_str (dget d "tenant_id") t = true) _). Qed.

Lemma call_same o f mem :
  file_of f mem → op_ok o →
  ∃ a f', on_file o f = (Ok a, f') ∧ a ≡ (in_memory o mem).1 ∧ file_of f' (in_memory o mem).2.
Proof.
  intros Hf Ho. destruct (read_mirrors f mem Hf) as (D & f' & Er & Hf' & HD). pose proof (mirrors_collection D mem) as Hc.
  destruct o as [c k d|c k|c k|c|c t|c]; cbn [on_file in_memory];
    unfold put, get, delete, list, list_tenant, keys, sorted_items; unfold bind, ret, of_res; rewrite Er.
  - exists Done, (Some (json_dumps (wrap (dset D c (dset (collection c D) k (VDict d)))))). split_and!; [done..|].
    eexists. split; [done|]. by apply mirrors_set; [|apply holds_put; [apply Hc|]].
  - eexists _, f'. split_and!; [done| |done]. destruct (Hc c HD) as [_ He]. unfold Memory.get.
    destruct (He k) as [v d (Hv & _)|]; [|constructor]. by destruct v; try done; constructor.
  - destruct (Hc c HD) as [HE He]. unfold Memory.delete, dmem. specialize (He k) as Hk.
    destruct (dget (collection c D) k) as [v|], (Memory.collection c mem !! k) as [d|]; try by inversion Hk.
    + exists (Deleted true), (Some (json_dumps (wrap (dset D c (ddel (collection c D) k))))). split_and!; [done..|].
      eexists. split; [done|]. by apply mirrors_set; [|apply holds_delete, Hc].
    + by exists (Deleted false), f'.
  - eexists _, f'. split_and!; [done|by apply same_docs, documents_eq, Hc|done].
  - destruct (filter_tenant_same t _ _ (documents_eq _ _ (Hc c HD))) as (r & -> & Hr).
    eexists _, f'. split_and!; [done| |done].
    rewrite memory_list_tenant. by apply same_docs.
  - eexists _, f'. split_and!; [done|by apply names_eq, Hc|done].
Qed.

End JsonFacts.

(** * The backends answer alike *)

Section Runs.
Import JsonFacts.

(** The answers of the in-memory backend to a sequence of calls. *)
Fixpoint memory_answers (ops : list op) (mem : Memory.store) : list answer * Memory.store :=
  match ops with
  | [] => ([], mem)
  | o :: ops' =>
      let '(a, mem1) := in_memory o mem in
      let '(l, mem2) := memory_answers ops' mem1 in
      (a :: l, mem2)
  end.

Lemma memory_answers_app ops ops' mem :
  (memory_answers (ops ++ ops') mem).1 = (memory_answers ops mem).1 ++ (memory_answers ops' (memory_answers ops mem).2).1.
Proof.
  revert mem. induction ops as [|o ops IH]; intros mem; [done|]. cbn [memory_answers app].
  destruct (in_memory o mem) as [a mem1]. specialize (IH mem1).
  destruct (memory_answers (ops ++ ops') mem1) as [l1 m1], (memory_answers ops mem1) as [l2 m2]. cbn [fst snd] in *. by rewrite IH.
Qed.

Lemma calls_same ops : ∀ f mem,
  JsonFacts.file_of f mem → Forall op_ok ops →
  ∃ l f', for_map ops on_file f = (Ok l, f') ∧ l ≡ (memory_answers ops mem).1 ∧ file_of f' (memory_answers ops mem).2.
Proof.
  induction ops as [|o ops IH]; intros f mem Hf Hok; [by exists [], f|]. apply Forall_cons in Hok as [Ho Hok].
  destruct (call_same o f mem Hf Ho) as (a & f1 & E1 & Ha & Hf1). cbn [for_map memory_answers].
  destruct (in_memory o mem) as [b mem1]. cbn [fst snd] in *.
  destruct (IH f1 mem1 Hf1 Hok) as (l & f2 & E2 & Hl & Hf2). destruct (memory_answers ops mem1) as [m mem2]. cbn [fst snd] in *.
  exists (a :: l), f2. split; [unfold bind; by rewrite E1, E2|]. split; [|done]. apply cons_equiv; done.
Qed.

(** C9: whatever is put in it, the backend that keeps its documents in a JSON
    file never raises, and answers every sequence of calls as the in-memory
    backend does: the same documents up to the order of their keys, listed in the
    order of their ids, by tenant or not, the same ids, the same deletions. All it
    holds is in the file, so a process that starts anew continues where the last
    one ended. *)
Theorem json_store_refines_memory ops ops' :
  Forall op_ok ops → Forall op_ok ops' →
  ∃ l f l' f', for_map ops on_file None = (Ok l, f) ∧ for_map ops' on_file f = (Ok l', f') ∧
    l ++ l' ≡ (memory_answers (ops ++ ops') (Memory.initialize ∅)).1.
Proof.
  intros Hok Hok'. destruct (calls_same ops None (Memory.initialize ∅) eq_refl Hok) as (l & f & E & Hl & Hf).
  destruct (calls_same ops' f _ Hf Hok') as (l' & f' & E' & Hl' & _). exists l, f, l', f'. split_and!; [done..|].
  rewrite memory_answers_app, <- Hl, <- Hl'. done.
Qed.

Lemma json_store_refines_memory_witness :
  ∃ l f l' f',
    for_map [Put "jobs" "b" [("tenant_id", VStr "acme"); ("n", VInt 2)]; Put "jobs" "a" [("x", VFloat "0.5")]] on_file None = (Ok l, f) ∧
    for_map [ListTenant "jobs" "acme"; Keys "jobs"; Delete "jobs" "c"] on_file f = (Ok l', f') ∧
    l ++ l' ≡ [Done; Done; Docs [VDict [("n", VInt 2); ("tenant_id", VStr "acme")]]; Names ["a"; "b"]; Deleted false].
Proof.
  edestruct json_store_refines_memory as (l & f & l' & f' & E & E' & Hl); [..|exists l, f, l', f'; split; [exact E|split; [exact E'|]]].
  - repeat constructor; set_solver.
  - repeat constructor.
  - etransitivity; [exact Hl|]. by repeat constructor.
Defined.

End Runs.
