(* ===== verification/SqliteStore.v ===== *)
(** The SQLite backend (agentfabric/persistence/sqlite_store.py) and the unit of
    work over each backend (unit_of_work.py): documents as texts in a table, and
    transactions. What a statement of SQL does to the table is written out. *)

From stdpp Require Import base option list strings gmap sets sorting.
From Stdlib Require Import ZArith Lia.
From S2P Require Import Prelude PyVal Json JsonText Store JsonStore.

(** * sqlite_store.py *)

Module SQLitePersistenceStore.

(** [af_documents]: the text under a collection and a key. *)
Abbreviation table := (gmap (string * string) string).

(** The table in the database, and the one a transaction that is open sees. *)
Record t := Mk { committed : table; _active_conn : option table }.

(** [SQLitePersistenceStore(path)] over a new file *)
Definition new : t := Mk ∅ None.

(** The rows the next statement sees. *)
Definition rows (s : t) : table := default (committed s) (_active_conn s).

(** A statement that changes rows is kept by the transaction that is open, or
    committed at once. *)
Definition update (f : table → table) (s : t) : t :=
  match _active_conn s with
  | Some r => Mk (committed s) (Some (f r))
  | None => Mk (f (committed s)) None
  end.

(** [CREATE TABLE IF NOT EXISTS ...], on a connection of its own; it changes no
    row. The first connection makes the file. *)
Definition initialize : M t unit := ret tt.

(** [INSERT ... ON CONFLICT(collection, key) DO UPDATE SET value] *)
Definition put (c k : string) (value : doc) : M t unit :=
  do* initialize;
  modify (update <[(c, k) := json_dumps (VDict value)]>).

Definition loads (s : string) : res val :=
  match json_loads s with Some v => Ok v | None => Err (Exn ValueError "Expecting value") end.

(** [SELECT value ... WHERE collection = ? AND key = ?] *)
Definition get (c k : string) : M t (option val) :=
  do* initialize;
  let* s := get_state in
  match rows s !! (c, k) with
  | Some text => let* v := of_res (loads text) in ret (Some v)
  | None => ret None
  end.

(** [DELETE ...]: whether a row was there *)
Definition delete (c k : string) : M t bool :=
  do* initialize;
  let* s := get_state in
  do* modify (update (base.delete (c, k)));
  ret (bool_decide (is_Some (rows s !! (c, k)))).

(** [... WHERE collection = ? ORDER BY key]: texts are ordered by their bytes in
    UTF-8, which is the order of their code points. *)
Definition collection (c : string) (r : table) : dict string :=
  py_sorted key_le (omap (fun p : string * string * string => if bool_decide (p.1.1 = c) then Some (p.1.2, p.2) else None) (map_to_list r)).

Definition list (c : string) : M t (list val) :=
  do* initialize;
  let* s := get_state in of_res (res_map loads (collection c (rows s)).*2).

(** [[item for item in self.list(collection) if item.get("tenant_id") == tenant_id]] *)
Definition list_tenant (c tenant_id : string) : M t (Datatypes.list val) :=
  let* l := list c in of_res (JsonPersistenceStore.filter_tenant tenant_id l).

Definition keys (c : string) : M t (Datatypes.list string) :=
  do* initialize;
  let* s := get_state in ret (collection c (rows s)).*1.

(** [SELECT COUNT] of the rows is on a connection of its own. *)
Definition health : M t doc :=
  do* initialize;
  let* s := get_state in
  ret [("status", VStr "ok"); ("backend", VStr "sqlite"); ("documents", VInt (Z.of_nat (size (committed s))))].

(** [with self.transaction(): body]: committed when the body returns, rolled back
    when it raises, and closed in any case. *)
Definition transaction {A} (body : M t A) : M t A :=
  do* initialize;
  fun s =>
    match body (Mk (committed s) (Some (committed s))) with
    | (Ok a, s') => (Ok a, Mk (rows s') None)
    | (Err e, s') => (Err e, Mk (committed s') None)
    end.

End SQLitePersistenceStore.

(** * The table and the in-memory backend *)

Module SqliteFacts.
Import SQLitePersistenceStore JsonFacts.

(** A row is the text of a document. *)
Definition row_of (s : string) (d : doc) : Prop := s = json_dumps (VDict d) ∧ json_ok (VDict d).

Definition tabulates (r : table) (mem : Memory.store) : Prop :=
  ∀ c k, option_Forall2 row_of (r !! (c, k)) (st_get c k mem).

(** Outside a transaction the database holds what the backend in memory does. *)
Definition database_of (s : t) (mem : Memory.store) : Prop := _active_conn s = None ∧ tabulates (committed s) mem.

Lemma loads_row s d : row_of s d → ∃ v, loads s = Ok v ∧ same_doc v d.
Proof.
  intros [-> Hj]. exists (canon (VDict d)). unfold loads. split.
  - unfold json_dumps. by rewrite loads_text by by apply json_ok_canon.
  - split_and!; [apply canon_equiv|by apply json_ok_canon|done].
Qed.

Lemma tabulates_put r mem c k d :
  tabulates r mem → json_ok (VDict d) → tabulates (<[(c, k) := json_dumps (VDict d)]> r) (st_put c k d mem).
Proof.
  intros Hr Hj c' k'. destruct (decide ((c, k) = (c', k'))) as [E|Hne].
  - simplify_eq. rewrite lookup_insert_eq, get_put_eq. by constructor.
  - rewrite lookup_insert_ne, get_put_ne by done. apply Hr.
Qed.

Lemma tabulates_delete r mem c k : tabulates r mem → tabulates (base.delete (c, k) r) (st_delete c k mem).2.
Proof.
  intros Hr c' k'. destruct (decide ((c, k) = (c', k'))) as [E|Hne].
  - simplify_eq. rewrite lookup_delete_eq, get_delete_eq. constructor.
  - rewrite lookup_delete_ne, get_delete_ne by done. apply Hr.
Qed.

(** ** Listings *)

Lemma elem_of_collection c r k s : (k, s) ∈ collection c r ↔ r !! (c, k) = Some s.
Proof.
  unfold collection. rewrite elem_of_py_sorted, list_elem_of_omap. split.
  - intros ([[c' k'] s'] & Hin%elem_of_map_to_list & E). cbn in E. case_bool_decide; by simplify_eq.
  - intros Hr. exists (c, k, s). split; [by apply elem_of_map_to_list|]. cbn. by rewrite bool_decide_eq_true_2.
Qed.

(** The keys of a collection are one column of rows that differ. *)
Lemma collection_NoDup c r : NoDup (collection c r).*1.
Proof.
  unfold collection. rewrite (py_sorted_perm key_le). pose proof (NoDup_fst_map_to_list r) as Hnd.
  induction (map_to_list r) as [|[[c' k] s] l IH]; [constructor|]. csimpl. csimpl in Hnd. apply NoDup_cons in Hnd as [Hk Hnd].
  case_bool_decide as Ec; cbn; [|by apply IH]. constructor; [|by apply IH].
  intros ([k' s'] & E & ([[c2 k2] s2] & Hin & E2)%list_elem_of_omap)%list_elem_of_fmap. cbn in E, E2.
  case_bool_decide; simplify_eq. apply Hk. by apply (list_elem_of_fmap_2 fst _ (_, s')).
Qed.

Lemma collection_keys c r mem : tabulates r mem → (collection c r).*1 = st_keys c mem.
Proof.
  intros Hr. apply (StronglySorted_unique_strong (fun a b => str_le a b = true)).
  - intros a b _ _ H1 H2. by apply str_le_antisym.
  - unfold collection. change (fmap ?f ?l) with (map f l). rewrite (py_sorted_map fst key_le str_le) by done.
    apply Sorted_StronglySorted; [intros a b d; apply str_le_trans|]. apply py_sorted_Sorted, str_le_total.
  - induction (keys_sorted c mem) as [|k l _ IH Hf]; constructor; [done|]. eapply Forall_impl; [exact Hf|]. by intros x [_ ?].
  - apply NoDup_Permutation; [apply collection_NoDup|apply keys_NoDup|]. intros k. rewrite keys_get. specialize (Hr c k).
    rewrite list_elem_of_fmap. split.
    + intros ([k' s] & -> & Hin%elem_of_collection). cbn in *. rewrite Hin in Hr. inversion Hr. by eexists.
    + intros [d Hd]. rewrite Hd in Hr. inversion Hr as [s ? ? E|]; subst. exists (k, s). split; [done|].
      by apply elem_of_collection.
Qed.

Lemma collection_rows c r mem : tabulates r mem → Forall2 row_of (collection c r).*2 (Memory.list c mem).
Proof.
  intros Hr. apply entries_related; [by apply collection_keys|].
  intros k s d Hs%elem_of_collection Hd%elem_of_sorted_items. specialize (Hr c k). rewrite Hs in Hr. cbn in Hr. rewrite Hd in Hr.
  by inversion Hr.
Qed.

Lemma loads_rows l ds : Forall2 row_of l ds → ∃ vs, res_map loads l = Ok vs ∧ Forall2 same_doc vs ds.
Proof.
  induction 1 as [|s d l ds Hsd _ (vs & E & Hvs)]; [by exists []|]. destruct (loads_row s d Hsd) as (v & Ev & Hv).
  exists (v :: vs). cbn [res_map]. rewrite Ev. cbn [res_bind]. rewrite E. by split; [|constructor].
Qed.

(** ** Calls *)

Definition on_table (o : op) : M t answer :=
  match o with
  | Put c k d => let* _ := put c k d in ret Done
  | Get c k => let* v := get c k in ret (Found v)
  | Delete c k => let* b := delete c k in ret (Deleted b)
  | List_ c => let* l := list c in ret (Docs l)
  | ListTenant c t => let* l := list_tenant c t in ret (Docs l)
  | Keys c => let* l := keys c in ret (Names l)
  end.

(** A call stays in the transaction that is open, or commits when none is. *)
Definition stays (s s' : t) : Prop :=
  match _active_conn s, _active_conn s' with
  | None, None => True
  | Some _, Some _ => committed s' = committed s
  | _, _ => False
  end.

Lemma rows_update f s : rows (update f s) = f (rows s) ∧ stays s (update f s).
Proof. unfold rows, update, stays. by destruct s as [r [a|]]. Qed.

Lemma stays_refl s : stays s s.
Proof. unfold stays. by destruct (_active_conn s). Qed.

Lemma stays_trans s1 s2 s3 : stays s1 s2 → stays s2 s3 → stays s1 s3.
Proof. unfold stays. destruct (_active_conn s1), (_active_conn s2), (_active_conn s3); try done. congruence. Qed.

Lemma table_call_same o s mem :
  tabulates (rows s) mem → op_ok o →
  ∃ a s', on_table o s = (Ok a, s') ∧ a ≡ (in_memory o mem).1 ∧ tabulates (rows s') (in_memory o mem).2 ∧ stays s s'.
Proof.
  intros Ht Ho. pose proof (stays_refl s) as Hs.
  destruct o as [c k d|c k|c k|c|c t|c]; cbn [on_table in_memory]; unfold put, get, delete, list_tenant, list, keys, initialize, bind, ret, of_res, modify, get_state; cbv beta iota.
  - destruct (rows_update <[(c, k) := json_dumps (VDict d)]> s) as [Hr Hst]. eexists _, _. split_and!; [done..| |exact Hst].
    cbn [snd]. rewrite Hr. by apply (tabulates_put _ mem).
  - specialize (Ht c k) as Hck. cbn in Hck. destruct Hck as [x d Hx|]; [|by exists (Found None), s].
    destruct (loads_row x d Hx) as (v & -> & Hv & _). exists (Found (Some v)), s. split_and!; [done| |done..]. by constructor.
  - destruct (rows_update (base.delete (c, k)) s) as [Hr Hst]. eexists _, _. split_and!; [done| | |exact Hst];
      pose proof (delete_found c k mem) as Hf; pose proof (tabulates_delete (rows s) mem c k Ht) as Hd; cbn in Hf, Hd;
      destruct (Memory.delete c k mem) as [b mem']; cbn in *.
    + rewrite Hf. apply bool_decide_ext. specialize (Ht c k). cbn in Ht. destruct Ht; split; intros [? ?]; try done; by eexists.
    + by rewrite Hr.
  - destruct (loads_rows _ _ (collection_rows c (rows s) mem Ht)) as (vs & -> & Hvs). eexists _, s.
    split_and!; [done|by apply same_docs|done..].
  - destruct (loads_rows _ _ (collection_rows c (rows s) mem Ht)) as (vs & -> & Hvs).
    destruct (filter_tenant_same t _ _ Hvs) as (r & -> & Hr). eexists _, s. split_and!; [done| |done..].
    rewrite memory_list_tenant. by apply same_docs.
  - eexists _, s. split_and!; [done|exact (collection_keys c (rows s) mem Ht)|done..].
Qed.

(** ** Units of work *)

(** A call of the backend in memory *)
Definition in_store (o : op) : M Memory.store answer := fun mem => let '(a, mem') := in_memory o mem in (Ok a, mem').

(** Calls that end well, or with an exception. *)
Definition body {X} (call : op → M X answer) (ops : Datatypes.list op) (fails : bool) : M X (Datatypes.list answer) :=
  let* l := for_map ops call in
  if fails then raise RuntimeError "the unit failed" else ret l.

(** What a call gives, as a value. *)
Definition attempt {X A} (m : M X A) : M X (res A) := fun s => let '(r, s') := m s in (Ok r, s').

Inductive act := Call (o : op) | Unit_ (ops : Datatypes.list op) (fails : bool).

Definition act_ok (a : act) : Prop := match a with Call o => op_ok o | Unit_ ops _ => Forall op_ok ops end.

Definition on_database (a : act) : M t (res (Datatypes.list answer)) :=
  match a with
  | Call o => attempt (body on_table [o] false)
  | Unit_ ops fails => attempt (transaction (body on_table ops fails))
  end.

Definition on_store (a : act) : M Memory.store (res (Datatypes.list answer)) :=
  match a with
  | Call o => attempt (body in_store [o] false)
  | Unit_ ops fails => attempt (UnitOfWork.with_unit_of_work (fun mem => mem) (fun mem _ => mem) (body in_store ops fails))
  end.

(** The same answers up to the order of keys, or the same exception. *)
Definition same_outcome (r r' : res (Datatypes.list answer)) : Prop :=
  match r, r' with Ok l, Ok l' => l ≡ l' | Err e, Err e' => e = e' | _, _ => False end.

Lemma table_calls_same ops : ∀ s mem,
  tabulates (rows s) mem → Forall op_ok ops →
  ∃ l s' l' mem', for_map ops on_table s = (Ok l, s') ∧ for_map ops in_store mem = (Ok l', mem') ∧ l ≡ l' ∧
    tabulates (rows s') mem' ∧ stays s s'.
Proof.
  induction ops as [|o ops IH]; intros s mem Ht Hok.
  { exists [], s, [], mem. split_and!; try done. apply stays_refl. }
  apply Forall_cons in Hok as [Ho Hok]. destruct (table_call_same o s mem Ht Ho) as (a & s1 & E1 & Ha & Ht1 & Hs1).
  destruct (IH s1 _ Ht1 Hok) as (l & s2 & l' & mem2 & E2 & E2' & Hl & Ht2 & Hs2).
  exists (a :: l), s2, ((in_memory o mem).1 :: l'), mem2. cbn [for_map]. unfold bind at 1 3. rewrite E1.
  unfold in_store at 1. destruct (in_memory o mem) as [b mem1]. cbn [fst snd] in *. unfold bind. rewrite E2, E2'.
  split_and!; [done..|by apply cons_equiv|done|by eapply stays_trans].
Qed.

Lemma act_same a s mem :
  database_of s mem → act_ok a →
  ∃ r s' r' mem', on_database a s = (Ok r, s') ∧ on_store a mem = (Ok r', mem') ∧ same_outcome r r' ∧ database_of s' mem'.
Proof.
  intros [Ha Ht] Hok. assert (Hrows : rows s = committed s) by (unfold rows; by rewrite Ha).
  destruct a as [o|ops fails]; cbn [on_database on_store act_ok] in *.
  - destruct (table_calls_same [o] s mem) as (l & s' & l' & mem' & E & E' & Hl & Ht' & Hs); [by rewrite Hrows|by constructor|].
    exists (Ok l), s', (Ok l'), mem'. unfold attempt, body. unfold bind at 1 2. rewrite E, E'. split_and!; [done..|].
    unfold stays in Hs. rewrite Ha in Hs. unfold database_of. unfold rows in Ht'. by destruct (_active_conn s').
  - destruct (table_calls_same ops (Mk (committed s) (Some (committed s))) mem Ht Hok) as (l & s' & l' & mem' & E & E' & Hl & Ht' & Hs).
    unfold attempt, transaction, initialize. unfold bind at 1, ret at 1. rewrite UnitOfWork.with_unit_of_work_atomic by done. unfold body. unfold bind at 1 2. rewrite E, E'.
    unfold stays in Hs. cbn in Hs. destruct (_active_conn s') as [r|] eqn:Er; [|done].
    destruct fails; eexists _, _, _, _; (split; [reflexivity|]); (split; [reflexivity|]); split; [done|split; [done|]|done|split; [done|]].
    + cbn. by rewrite Hs.
    + exact Ht'.
Qed.

End SqliteFacts.

(** * Units of work over the backends *)

Section Units.
Import JsonFacts SqliteFacts.

(** C10: over SQLite a unit of work is all or nothing as it is in memory: any
    sequence of calls and units, of which some fail, gives the answers and the
    exceptions of the in-memory backend with its snapshots, leaves the documents
    that backend holds, and never an open transaction. *)
Theorem sqlite_units_refine_memory acts :
  Forall act_ok acts →
  ∃ l s l' mem, for_map acts on_database SQLitePersistenceStore.new = (Ok l, s) ∧ for_map acts on_store ∅ = (Ok l', mem) ∧
    Forall2 same_outcome l l' ∧ database_of s mem.
Proof.
  assert (Hrun : ∀ s mem, database_of s mem → Forall act_ok acts →
            ∃ l s' l' mem', for_map acts on_database s = (Ok l, s') ∧ for_map acts on_store mem = (Ok l', mem') ∧
              Forall2 same_outcome l l' ∧ database_of s' mem').
  { induction acts as [|a acts IH]; intros s mem Hs Hok; [by exists [], s, [], mem; do 2 (split; [done|]); split; [constructor|]|].
    apply Forall_cons in Hok as [Ha Hok]. destruct (act_same a s mem Hs Ha) as (r & s1 & r' & mem1 & E1 & E1' & Hr & Hs1).
    destruct (IH s1 mem1 Hs1 Hok) as (l & s2 & l' & mem2 & E2 & E2' & Hl & Hs2). exists (r :: l), s2, (r' :: l'), mem2.
    cbn [for_map]. unfold bind. rewrite E1, E1', E2, E2'. split_and!; [done..|by constructor|done]. }
  apply Hrun. split; [done|]. intros c k.
  change (option_Forall2 row_of ((∅ : SQLitePersistenceStore.table) !! (c, k)) (default ∅ ((∅ : Memory.store) !! c) !! k)).
  rewrite !lookup_empty. constructor.
Qed.

Lemma sqlite_units_refine_memory_witness :
  ∃ l s l' mem,
    for_map [Unit_ [Put "jobs" "a" [("n", VInt 1)]] true; Call (Get "jobs" "a"); Unit_ [Put "jobs" "a" []; Keys "jobs"] false]
      on_database SQLitePersistenceStore.new = (Ok l, s) ∧
    for_map [Unit_ [Put "jobs" "a" [("n", VInt 1)]] true; Call (Get "jobs" "a"); Unit_ [Put "jobs" "a" []; Keys "jobs"] false]
      on_store ∅ = (Ok l', mem) ∧
    Forall2 same_outcome l l' ∧ database_of s mem.
Proof. apply sqlite_units_refine_memory. repeat constructor; set_solver. Defined.

(** [with UnitOfWork(store): body] over a backend that is neither in memory nor
    SQLite: it takes no snapshot and opens no transaction. *)
Definition with_bare_unit {X A} (enter : M X A) : M X A := enter.

(** So over a JSON file a unit that fails leaves what it did. *)
Lemma json_unit_keeps_half :
  (let* _ := attempt (with_bare_unit (body on_file [Put "jobs" "a" [("n", VInt 1)]] true)) in on_file (Get "jobs" "a")) None =
  (Ok (Found (Some (VDict [("n", VInt 1)]))), (attempt (body on_file [Put "jobs" "a" [("n", VInt 1)]] false) None).2).
Proof. by vm_compute. Qed.

End Units.
