(* ===== verification/EventStore.v ===== *)
(** The event log of agentfabric/events/event_store.py: a hash chain of events,
    kept in memory and, when the store has a persistence backend, in its
    collection [events]. This file also holds what every service shares: the
    oracles for the clock, [uuid4] and SHA-256, and the state [sys] of a process. *)

From stdpp Require Import base option list strings gmap sets pretty.
From Stdlib Require Import ZArith Lia Sorted.
From S2P Require Import Prelude PyVal Json PyTime Store.

Local Open Scope Z_scope.

(** * Oracles *)

(** What the process asks its environment. The [n]-th question a process asks
    has the answer [clock n], [perf n] (the reading of [perf_counter], in
    microseconds) or [uuid_hex n]; SHA-256 is a function of the text. *)
Class Oracle := {
  clock : nat → Z;
  perf : nat → Z;
  uuid_hex : nat → string;
  sha256_hex : string → string;
}.

(** Two different texts with the same digest. *)
Definition sha256_collision `{Oracle} : Prop := ∃ a b, a ≠ b ∧ sha256_hex a = sha256_hex b.

(** * Events *)

Module EventType.
Inductive t := AGENT | TASK | MESSAGE | WORKFLOW | AUDIT | CHECKPOINT
  | HUMAN_APPROVAL | REPUTATION | MEMORY.
Definition all : list t :=
  [AGENT; TASK; MESSAGE; WORKFLOW; AUDIT; CHECKPOINT; HUMAN_APPROVAL; REPUTATION; MEMORY].
Definition value (e : t) : string :=
  match e with
  | AGENT => "agent" | TASK => "task" | MESSAGE => "message" | WORKFLOW => "workflow"
  | AUDIT => "audit" | CHECKPOINT => "checkpoint" | HUMAN_APPROVAL => "human_approval"
  | REPUTATION => "reputation" | MEMORY => "memory"
  end.
End EventType.

(** The registry, in the two halves of its listing. *)
Definition EVENT_TYPE_REGISTRY_1 : list string := [
  "agent.registered"; "message.sent"; "message.received"; "workflow.started";
  "workflow.completed"; "workflow.awaiting_approval"; "task.started"; "task.completed";
  "task.failed"; "checkpoint.created"; "human_approval.requested"; "human_approval.resolved";
  "reputation.updated"; "memory.recorded"; "memory.deleted"; "tenant.created"; "team.created";
  "member.added"; "quota.updated"; "billing.plan_updated"; "usage.recorded";
  "marketplace.package.published"; "marketplace.package.signed"; "marketplace.package.verified";
  "marketplace.package.rejected"; "marketplace.package.installed";
  "marketplace.package.uninstalled"; "marketplace.package.upgraded";
  "marketplace.package.rolled_back"; "marketplace.entitlement.granted";
  "marketplace.entitlement.revoked"; "marketplace.review.submitted";
  "marketplace.abuse_report.submitted"; "governance.agent_org.created";
  "governance.charter.updated"; "governance.proposal.created"; "governance.vote.cast";
  "governance.consensus.reached"; "governance.consensus.failed";
  "governance.human_approval.requested"; "governance.human_approval.granted";
  "governance.human_approval.rejected"; "governance.human_approval.escalated";
  "governance.action.executed"; "governance.action.blocked"; "runtime.job.created";
  "runtime.job.assigned"; "runtime.job.started"; "runtime.job.completed"; "runtime.job.failed";
  "runtime.job.cancelled"; "runtime.job.retried"; "runtime.job.dead_lettered";
  "runtime.worker.registered"; "runtime.worker.heartbeat_missed"; "runtime.schedule.created";
  "runtime.schedule.triggered"; "runtime.schedule.disabled"; "runtime.schedule.enabled";
  "runtime.health.degraded"; "runtime.health.recovered"; "federation.agreement.created";
  "federation.agreement.activated"; "federation.agreement.expired";
  "federation.agreement.revoked"; "federation.capability.published";
  "federation.capability.imported"; "federation.message.sent"; "federation.message.received";
  "federation.message.rejected"; "federation.delegation.requested";
  "federation.delegation.completed"; "federation.delegation.failed";
  "federation.remote_org.blocked"; "federation.remote_key.rejected"; "connector.registered";
  "connector.enabled"; "connector.disabled"; "connector.execution.requested";
  "connector.execution.allowed"; "connector.execution.denied"; "connector.execution.completed";
  "connector.execution.failed"; "credential.created"; "credential.rotated"; "credential.revoked";
  "connector.job.created"; "connector.operation.completed"; "connector.policy.denied";
  "renovation.mvp.run.created"; "renovation.mvp.step.started"; "renovation.mvp.step.completed";
  "renovation.mvp.step.failed"; "renovation.mvp.run.completed"; "renovation.mvp.run.failed";
  "renovation.mvp.run.replayed"; "renovation.mvp.run.resumed";
  "renovation.mvp.invoice_payment.generated"; "renovation.mvp.portal_status.viewed";
  "renovation.operator.customer.created"; "renovation.operator.lead.created";
  "renovation.operator.lead.converted"; "renovation.operator.estimate.created";
  "renovation.operator.estimate.approved"; "renovation.operator.proposal.created";
  "renovation.operator.proposal.accepted"; "renovation.operator.job.created";
  "renovation.operator.job.status_changed"; "renovation.operator.schedule_item.created";
  "renovation.operator.cost_item.created"; "renovation.operator.invoice.created";
  "renovation.operator.payment.recorded"; "renovation.operator.portal.viewed";
  "renovation.operator.metrics.viewed"; "renovation.operator.account.role_assigned";
  "renovation.operator.settings.updated"; "renovation.operator.proposal.pdf_exported"].

Definition EVENT_TYPE_REGISTRY_2 : list string := [
  "renovation.operator.invoice.pdf_exported"; "renovation.operator.attachment.created";
  "renovation.operator.attachment.downloaded"; "renovation.operator.attachment.archived";
  "renovation.operator.notification.send_attempted"; "renovation.operator.notification.queued";
  "renovation.operator.notification.failed"; "renovation.operator.provider.validated";
  "renovation.operator.provider.failed"; "renovation.operator.calendar.sync_attempted";
  "renovation.operator.schedule.synced"; "renovation.operator.payment_link.created";
  "renovation.operator.payment_status.updated"; "renovation.operator.payment_webhook.received";
  "renovation.operator.payment_webhook.rejected"; "connector.sync.started";
  "connector.sync.completed"; "connector.webhook.received"; "tool.registered"; "tool.executed";
  "tool.policy.denied"; "tool.approval.required"; "tool.job.created"; "tool.result.persisted";
  "evaluation.dataset.created"; "evaluation.run.completed"; "evaluation.gate.failed";
  "evaluation.gate.passed"; "feedback.created"; "economics.cost.recorded";
  "economics.revenue.recorded"; "economics.spend_limit.updated";
  "economics.spend_limit.exceeded"; "agent.metric.recorded"; "agent.health.changed";
  "agent.drift.detected"; "agent.anomaly.detected"; "agent.degradation.detected";
  "agent.recommendation.created"; "agent.version.compared"; "factory.idea.created";
  "factory.platform.registered"; "factory.repository.created"; "factory.repository.updated";
  "factory.repository.deprecated"; "factory.repository.archived"; "factory.repository.restored";
  "factory.repository.cloned"; "factory.repository.forked"; "factory.artifact.generated";
  "factory.repository.packaged"; "factory.quality.passed"; "factory.quality.failed";
  "factory.team.task.assigned"; "factory.execution.planned";
  "factory.execution.dry_run.completed"; "factory.execution.approval.recorded";
  "factory.execution.step.started"; "factory.execution.step.completed";
  "factory.execution.step.failed"; "factory.execution.completed";
  "factory.execution.rolled_back"; "factory.execution.replayed"; "factory.build.planned";
  "factory.build.dry_run.completed"; "factory.build.approval.recorded";
  "factory.build.worker.started"; "factory.build.worker.completed"; "factory.build.failed";
  "factory.build.completed"; "factory.build.review.completed"; "factory.build.rolled_back";
  "factory.build.replayed"; "renovation.estimate_created"; "renovation.estimate_updated";
  "renovation.proposal_generated"; "renovation.proposal_exported"; "renovation.job_created";
  "renovation.job_updated"; "renovation.daily_log_created"; "renovation.field_note_added";
  "renovation.photo_record_added"; "renovation.issue_record_added";
  "renovation.change_order_created"; "renovation.change_order_approved";
  "renovation.change_order_rejected"; "renovation.change_order_exported";
  "renovation.schedule_created"; "renovation.schedule_updated"; "renovation.crew_created";
  "renovation.crew_assigned"; "renovation.crew_unassigned";
  "renovation.crew_availability_updated"; "renovation.material_delivery_created";
  "renovation.material_delivery_updated"; "renovation.delay_detected";
  "renovation.schedule_recalculated"; "renovation.job_cost_recorded";
  "renovation.invoice_created"; "renovation.invoice_paid"; "renovation.payable_created";
  "renovation.payable_paid"; "renovation.margin_variance_detected";
  "renovation.cost_overrun_detected"; "renovation.cash_flow_forecast_generated";
  "renovation.profitability_scorecard_generated"; "renovation.lead_created";
  "renovation.lead_updated"; "renovation.lead_converted"; "renovation.opportunity_created";
  "renovation.opportunity_stage_changed"; "renovation.follow_up_task_created";
  "renovation.appointment_requested"; "renovation.site_visit_recorded";
  "renovation.customer_message_recorded"; "renovation.customer_portal_view_generated"].

Definition EVENT_TYPE_REGISTRY : list string :=
  EVENT_TYPE_REGISTRY_1 ++ EVENT_TYPE_REGISTRY_2 ++ (EventType.value <$> EventType.all).

Record AgentFabricEvent := Event {
  event_id : string;
  sequence : Z;
  event_type : string;
  aggregate_id : string;
  payload : doc;
  timestamp : Z;
  previous_hash : string;
  event_hash : string;
}.

Module Event.

Definition as_dict (e : AgentFabricEvent) : doc :=
  [("event_id", VStr (event_id e)); ("sequence", VInt (sequence e));
   ("event_type", VStr (event_type e)); ("aggregate_id", VStr (aggregate_id e));
   ("payload", VDict (payload e)); ("timestamp", VStr (isoformat (timestamp e)));
   ("previous_hash", VStr (previous_hash e)); ("event_hash", VStr (event_hash e))].

Definition from_dict (value : doc) : res AgentFabricEvent :=
  let? ts := str_field value "timestamp" in
  let? parsed_timestamp := fromisoformat ts in
  let? event_id := str_field value "event_id" in
  let? sequence := int_field_or value "sequence" 0 in
  let? event_type := str_field value "event_type" in
  let? aggregate_id := str_field value "aggregate_id" in
  let? payload := dict_field_or_empty value "payload" in
  Ok (Event event_id sequence event_type aggregate_id payload parsed_timestamp
        (str_field_or value "previous_hash" "") (str_field_or value "event_hash" "")).

(** An event is read back from its document. *)
Lemma from_as_dict e : time_ok (timestamp e) → from_dict (as_dict e) = Ok e.
Proof.
  intros Ht. unfold from_dict, as_dict, str_field, int_field_or, dict_field_or_empty, str_field_or,
    dindex, dget_or. simpl.
  rewrite fromisoformat_isoformat by done. simpl. by destruct e.
Qed.

End Event.

(** The part of an event its hash covers. *)
Definition hash_fields (e : AgentFabricEvent) : doc :=
  [("event_id", VStr (event_id e)); ("sequence", VInt (sequence e));
   ("event_type", VStr (event_type e)); ("aggregate_id", VStr (aggregate_id e));
   ("payload", VDict (payload e)); ("timestamp", VStr (isoformat (timestamp e)));
   ("previous_hash", VStr (previous_hash e))].

(** The canonical text of those fields. *)
Definition encode_event (e : AgentFabricEvent) : string := dumps (VDict (hash_fields e)).

Definition _hash_event `{Oracle} (value : doc) : string := sha256_hex (dumps (VDict value)).

(** * The state of a process *)

(** [db] is the persistence backend the services share, [events] is
    [EventStore._events], [durable] says that the event store was built with
    the backend, and [tick] counts the questions put to the oracles. *)
Record sys (S : Type) := Sys {
  db : S;
  events : list AgentFabricEvent;
  durable : bool;
  tick : nat;
}.
Arguments Sys {S}.
Arguments db {S}.
Arguments events {S}.
Arguments durable {S}.
Arguments tick {S}.

Section Calls.
Context `{Oracle} {S : Type} `{PersistenceStore S}.

Definition with_db (f : S → S) (s : sys S) : sys S :=
  Sys (f (db s)) (events s) (durable s) (tick s).

(** [datetime.now(tz=timezone.utc)] *)
Definition utc_now : M (sys S) Z :=
  fun s => (Ok (clock (tick s)), Sys (db s) (events s) (durable s) (Datatypes.S (tick s))).

(** [perf_counter()] *)
Definition perf_counter : M (sys S) Z :=
  fun s => (Ok (perf (tick s)), Sys (db s) (events s) (durable s) (Datatypes.S (tick s))).

(** [uuid4().hex], or as much of it as the caller keeps. *)
Definition uuid4 : M (sys S) string :=
  fun s => (Ok (uuid_hex (tick s)), Sys (db s) (events s) (durable s) (Datatypes.S (tick s))).

Definition store_put (c k : string) (d : doc) : M (sys S) unit := modify (with_db (st_put c k d)).
Definition store_get (c k : string) : M (sys S) (option doc) := gets (fun s => st_get c k (db s)).
Definition store_list (c : string) : M (sys S) (list doc) := gets (fun s => st_list c (db s)).
Definition store_list_tenant (c t : string) : M (sys S) (list doc) :=
  gets (fun s => st_list_tenant c t (db s)).
Definition store_delete (c k : string) : M (sys S) bool :=
  fun s => let '(b, d) := st_delete c k (db s) in (Ok b, with_db (fun _ => d) s).

End Calls.

(** * The event store *)

Module EventStore.
Section EventStore.
Context `{Oracle} {S : Type} `{PersistenceStore S}.

(** [EventStore(persistence)._events]: Python computes every sort key before it
    sorts, and reads the documents after. *)
Definition load (persistence : S) : res (list AgentFabricEvent) :=
  let? keyed := res_map (fun d => let? k := int_field_or d "sequence" 0 in Ok (k, d))
                  (st_list "events" (st_initialize persistence)) in
  res_map Event.from_dict (py_sorted (fun p q => p.1 <=? q.1) keyed).*2.

Definition last_hash (evs : list AgentFabricEvent) : string :=
  match last evs with Some e => event_hash e | None => "" end.

Definition append (ty aggregate : string) (body : doc) : M (sys S) AgentFabricEvent :=
  if negb (bool_decide (ty ∈ EVENT_TYPE_REGISTRY))
  then raise ValueError ("unregistered event type: " +:+ ty)
  else
  let* seq := gets (fun s => Z.of_nat (length (events s)) + 1) in
  let* prev := gets (fun s => last_hash (events s)) in
  let* id := uuid4 in
  let* now := utc_now in
  let draft := Event ("evt-" +:+ id) seq ty aggregate body now prev "" in
  let event := Event ("evt-" +:+ id) seq ty aggregate body now prev
                 (_hash_event (hash_fields draft)) in
  do* modify (fun s => Sys (db s) (events s ++ [event]) (durable s) (tick s));
  let* persisted := gets durable in
  do* (if persisted then store_put "events" (event_id event) (Event.as_dict event) else ret tt);
  ret event.

Definition replay (aggregate : option string) (evs : list AgentFabricEvent) : list AgentFabricEvent :=
  match aggregate with
  | None => evs
  | Some a => base.filter (fun e => aggregate_id e = a) evs
  end.

Definition seq_le (a b : AgentFabricEvent) : bool := sequence a <=? sequence b.

Definition timeline (evs : list AgentFabricEvent) : list doc :=
  Event.as_dict <$> py_sorted seq_le evs.

Definition checkpoint (aggregate : string) (evs : list AgentFabricEvent) : doc :=
  [("aggregate_id", VStr aggregate);
   ("events", VList (VDict ∘ Event.as_dict <$> replay (Some aggregate) evs))].

Definition get (id : string) (evs : list AgentFabricEvent) : option AgentFabricEvent :=
  snd <$> list_find (fun e => event_id e = id) evs.

(** The loop of [validate_integrity] over the sorted events. *)
Fixpoint validate_from (previous : string) (expected_sequence : Z)
    (evs : list AgentFabricEvent) : bool :=
  match evs with
  | [] => true
  | e :: evs' =>
      if negb (sequence e =? expected_sequence) then false
      else if negb (bool_decide (previous_hash e = previous)) then false
      else if negb (bool_decide (event_hash e = _hash_event (hash_fields e))) then false
      else validate_from (event_hash e) (expected_sequence + 1) evs'
  end.

Definition validate_integrity (evs : list AgentFabricEvent) : bool :=
  validate_from "" 1 (py_sorted seq_le evs).

(** ** The chain *)

(** A log whose [i]-th event has number [i+1], the hash of the event before it
    and the hash of its own fields. *)
Definition chain (evs : list AgentFabricEvent) : Prop := validate_from "" 1 evs = true.

Lemma validate_from_app p n l1 l2 :
  validate_from p n (l1 ++ l2) =
  validate_from p n l1 &&
  validate_from (match last l1 with Some e => event_hash e | None => p end)
    (n + Z.of_nat (length l1)) l2.
Proof.
  revert p n. induction l1 as [|e l1 IH]; intros p n; simpl.
  { f_equal. lia. }
  repeat match goal with |- context [if ?b then _ else _] => destruct b; [done|] end.
  rewrite IH. do 2 f_equal; [|lia].
  change (match l1 with [] => Some e | _ :: _ => last l1 end) with (last (e :: l1)).
  rewrite last_cons. by destruct (last l1).
Qed.

Lemma validate_from_sorted p n l :
  validate_from p n l = true →
  Sorted (fun a b => seq_le a b = true) l ∧ Forall (fun e => n <= sequence e) l.
Proof.
  revert p n. induction l as [|e l IH]; intros p n; simpl; [by repeat constructor|].
  destruct (Z.eqb_spec (sequence e) n) as [En|]; simpl; [|done].
  repeat case_bool_decide; simpl; try done.
  intros Hv. apply IH in Hv as [Hs Hh]. split.
  - constructor; [done|]. destruct Hh; constructor. unfold seq_le. apply Z.leb_le. lia.
  - constructor; [lia|]. eapply Forall_impl; [exact Hh|]. simpl. lia.
Qed.

(** A chain is already in order, so the check of the program accepts it. *)
Lemma chain_sorted evs : chain evs → py_sorted seq_le evs = evs.
Proof. intros Hc. by apply py_sorted_id, (validate_from_sorted "" 1). Qed.

Lemma chain_valid evs : chain evs → validate_integrity evs = true.
Proof. intros Hc. unfold validate_integrity. by rewrite chain_sorted. Qed.

Lemma chain_take n evs : chain evs → chain (take n evs).
Proof.
  unfold chain. rewrite <- (take_drop n evs) at 1. rewrite validate_from_app.
  by intros [? _]%andb_true_iff.
Qed.

Lemma chain_snoc evs e :
  chain evs → sequence e = Z.of_nat (length evs) + 1 → previous_hash e = last_hash evs →
  event_hash e = _hash_event (hash_fields e) → chain (evs ++ [e]).
Proof.
  intros Hc Hs Hp Hh. unfold chain in *. rewrite validate_from_app, Hc. simpl.
  rewrite (proj2 (Z.eqb_eq _ _)) by lia. unfold last_hash in Hp.
  rewrite !bool_decide_eq_true_2 by done. done.
Qed.

(** ** What [append] does *)

(** The event a process in state [s] appends. *)
Definition next_event (ty aggregate : string) (body : doc) (s : sys S) : AgentFabricEvent :=
  let id := "evt-" +:+ uuid_hex (tick s) in
  let now := clock (Datatypes.S (tick s)) in
  let seq := Z.of_nat (length (events s)) + 1 in
  let prev := last_hash (events s) in
  Event id seq ty aggregate body now prev
    (_hash_event (hash_fields (Event id seq ty aggregate body now prev ""))).

Lemma append_eq ty aggregate body s :
  append ty aggregate body s =
  if bool_decide (ty ∈ EVENT_TYPE_REGISTRY) then
    let e := next_event ty aggregate body s in
    (Ok e, Sys (if durable s then st_put "events" (event_id e) (Event.as_dict e) (db s) else db s)
             (events s ++ [e]) (durable s) (Datatypes.S (Datatypes.S (tick s))))
  else (Err (Exn ValueError ("unregistered event type: " +:+ ty)), s).
Proof.
  unfold append. case_bool_decide; simpl; [|done].
  unfold bind, gets, uuid4, utc_now, modify, ret, store_put, with_db. simpl. by destruct (durable s).
Qed.

(** Some calls to [append], returned or not. *)
Inductive appended : sys S → sys S → Prop :=
  | Appended ty aggregate body s : appended s (after (append ty aggregate body) s).

Lemma chain_next s ty aggregate body :
  chain (events s) → chain (events s ++ [next_event ty aggregate body s]).
Proof. intros Hc. by apply chain_snoc. Qed.

Lemma append_chain ty aggregate body : preserves (fun s => chain (events s)) (append ty aggregate body).
Proof.
  intros s Hs. unfold after. rewrite append_eq. case_bool_decide; simpl; [|done]. by apply chain_next.
Qed.

(** ** Logs that end in the same hash *)

Definition event_ok (e : AgentFabricEvent) : Prop :=
  time_ok (timestamp e) ∧ val_ok (VDict (payload e)).

(** The same event, up to the order of the keys of its payload. *)
Definition same_event (a b : AgentFabricEvent) : Prop :=
  event_id a = event_id b ∧ sequence a = sequence b ∧ event_type a = event_type b ∧
  aggregate_id a = aggregate_id b ∧ canon (VDict (payload a)) = canon (VDict (payload b)) ∧
  timestamp a = timestamp b ∧ previous_hash a = previous_hash b ∧ event_hash a = event_hash b.

Lemma encode_event_inj a b :
  event_ok a → event_ok b → encode_event a = encode_event b → event_hash a = event_hash b →
  same_event a b.
Proof.
  intros [Hta Hva] [Htb Hvb] He Hh. unfold encode_event in He.
  assert (Hok : ∀ e, val_ok (VDict (payload e)) → val_ok (VDict (hash_fields e))).
  { intros e Hv. constructor. repeat constructor. by inversion Hv. }
  apply dumps_inj in He; [|by apply Hok..]. unfold hash_fields in He.
  cbn -[isoformat] in He. injection He. intros Hts Hseq Hprev Hpay Hty Hid Hagg.
  repeat split; try done; [by cbn; f_equal|].
  apply (f_equal fromisoformat) in Hts. rewrite !fromisoformat_isoformat in Hts by done. congruence.
Qed.

Lemma validate_from_snoc p n l e :
  validate_from p n (l ++ [e]) = true ↔
  validate_from p n l = true ∧ sequence e = n + Z.of_nat (length l) ∧
  previous_hash e = (match last l with Some e => event_hash e | None => p end) ∧
  event_hash e = _hash_event (hash_fields e).
Proof.
  rewrite validate_from_app, andb_true_iff. simpl.
  destruct (Z.eqb_spec (sequence e) (n + Z.of_nat (length l))); simpl; [|naive_solver].
  repeat case_bool_decide; simpl; naive_solver.
Qed.

Lemma chains_same l1 l2 :
  Forall event_ok l1 → Forall event_ok l2 → chain l1 → chain l2 → length l1 = length l2 →
  last_hash l1 = last_hash l2 → Forall2 same_event l1 l2 ∨ sha256_collision.
Proof.
  revert l2. induction l1 as [|a l1 IH] using rev_ind; intros l2 Ho1 Ho2 H1 H2 Hlen Hlast.
  { destruct l2; [by left|done]. }
  destruct l2 as [|b l2 _] using rev_ind; [by rewrite length_app in Hlen; simpl in Hlen; lia|].
  rewrite !length_app in Hlen. simpl in Hlen.
  apply Forall_app in Ho1 as [Ho1 Hoa], Ho2 as [Ho2 Hob]. rewrite Forall_singleton in Hoa, Hob.
  apply validate_from_snoc in H1 as (H1 & Hs1 & Hp1 & Hh1), H2 as (H2 & Hs2 & Hp2 & Hh2).
  unfold last_hash in Hlast. rewrite !last_snoc in Hlast.
  destruct (decide (encode_event a = encode_event b)) as [He|He].
  - assert (Hab : same_event a b) by by apply encode_event_inj.
    destruct (IH l2) as [Hl|Hc]; try done; [lia| |left|by right].
    + unfold last_hash. rewrite <- Hp1, <- Hp2. by apply Hab.
    + apply Forall2_app; [done|]. by constructor.
  - right. exists (encode_event a), (encode_event b). split; [done|].
    unfold _hash_event in *. unfold encode_event. congruence.
Qed.

(** ** Reload *)

(** The collection [events] holds the log, when the ids of the log differ. *)
Definition persisted (s : sys S) : Prop :=
  durable s = true ∧ chain (events s) ∧ Forall (fun e => time_ok (timestamp e)) (events s) ∧
  (NoDup (event_id <$> events s) →
   ∀ k d, st_get "events" k (db s) = Some d ↔
          ∃ e, e ∈ events s ∧ event_id e = k ∧ d = Event.as_dict e).

Lemma append_persisted `{!StoreLaws S} ty aggregate body :
  (∀ n, time_ok (clock n)) → preserves persisted (append ty aggregate body).
Proof.
  intros Hclock s (Hd & Hc & Ht & Hp). unfold after. rewrite append_eq.
  case_bool_decide; [|done]. rewrite Hd. cbv zeta.
  pose proof (chain_next s ty aggregate body Hc) as Hc'.
  assert (He : time_ok (timestamp (next_event ty aggregate body s))) by apply Hclock.
  generalize dependent (next_event ty aggregate body s). intros e Hc' He. unfold persisted. cbn.
  split_and!; [done|done|apply Forall_app; by rewrite Forall_singleton|].
  rewrite fmap_app. intros Hnd. apply NoDup_app in Hnd as (Hnd & Hnew & _).
  specialize (Hp Hnd). clear Hc Hc' Ht He. intros k d.
  assert (Hex : (∃ e0, e0 ∈ events s ++ [e] ∧ event_id e0 = k ∧ d = Event.as_dict e0) ↔
                (∃ e0, e0 ∈ events s ∧ event_id e0 = k ∧ d = Event.as_dict e0) ∨
                event_id e = k ∧ d = Event.as_dict e).
  { setoid_rewrite elem_of_app. setoid_rewrite list_elem_of_singleton. naive_solver. }
  rewrite Hex, <- Hp. destruct (decide (event_id e = k)) as [<-|Hk].
  - rewrite get_put_eq. split; [intros [= <-]; by right|].
    intros [Hold|[_ ->]]; [|done]. apply Hp in Hold as (e' & He' & Hid & ->).
    destruct (Hnew (event_id e)); [|by left]. rewrite <- Hid. by apply list_elem_of_fmap_2.
  - rewrite get_put_ne by congruence. split; [by left|]. by intros [?|[? _]].
Qed.

Lemma chain_strict p n l :
  validate_from p n l = true →
  StronglySorted (fun a b => sequence a < sequence b) l ∧ Forall (fun e => n <= sequence e) l.
Proof.
  revert p n. induction l as [|e l IH]; intros p n; simpl; [by repeat constructor|].
  destruct (Z.eqb_spec (sequence e) n) as [En|]; simpl; [|done].
  repeat case_bool_decide; simpl; try done. intros Hv. apply IH in Hv as [Hs Hf].
  split; constructor; try done; try lia; (eapply Forall_impl; [exact Hf|]); simpl; lia.
Qed.

Lemma seq_le_lt x y : seq_le x y = true ↔ sequence x < sequence y ∨ sequence x = sequence y.
Proof. unfold seq_le. rewrite Z.leb_le. lia. Qed.

Lemma load_persisted `{!StoreLaws S} s :
  persisted s → NoDup (event_id <$> events s) → load (db s) = Ok (events s).
Proof.
  intros (_ & Hc & Ht & Hp) Hnd. specialize (Hp Hnd). unfold load.
  assert (Hl : st_list "events" (st_initialize (db s)) ≡ₚ Event.as_dict <$> events s).
  { apply (st_list_perm _ _ _ event_id); [done|]. intros k d. by rewrite get_initialize. }
  apply Permutation_map_inv in Hl as (l' & -> & Hl').
  rewrite (res_map_ok _ (fun d => (match dget d "sequence" with Some (VInt z) => z | _ => 0 end, d))).
  2:{ by intros d (e & -> & _)%list_elem_of_fmap. }
  cbn [res_bind]. change (map Event.as_dict l') with (Event.as_dict <$> l').
  rewrite <- list_fmap_compose.
  pose proof (py_sorted_map (fun e => (sequence e, Event.as_dict e)) seq_le
                (fun p q => p.1 <=? q.1) l' ltac:(done)) as Hsort.
  change (map (λ e, (sequence e, Event.as_dict e)) l') with
    (((λ d, (match dget d "sequence" with Some (VInt z) => z | _ => 0 end, d)) ∘ Event.as_dict) <$> l')
    in Hsort.
  rewrite <- Hsort.
  rewrite (py_sorted_strict sequence Z.lt seq_le Z.lt_irrefl Z.lt_trans seq_le_lt l' (events s)).
  - change (map ?f ?l) with (f <$> l). rewrite <- list_fmap_compose.
    change (snd ∘ _) with Event.as_dict.
    rewrite Forall_forall in Ht. clear -Ht. induction (events s) as [|e l IH]; [done|].
    cbn [fmap list_fmap res_map]. rewrite Event.from_as_dict by (apply Ht; set_solver).
    cbn [res_bind]. rewrite IH by (intros; apply Ht; set_solver). done.
  - by symmetry.
  - by apply chain_strict in Hc as [? _].
Qed.

End EventStore.
End EventStore.

(** * Properties *)

Section EventStoreProperties.
Context `{Oracle} {S : Type} `{PersistenceStore S}.
Import EventStore.

(** Every log the program can build by appending passes its own integrity
    check, and so does every prefix of it. *)
Theorem event_log_valid (s0 s : sys S) (n : nat) :
  events s0 = [] → steps appended s0 s →
  validate_integrity (events s) = true ∧ validate_integrity (take n (events s)) = true.
Proof.
  intros H0e Hs.
  assert (Hc : chain (events s)).
  { eapply (steps_invariant _ (fun s => chain (events s))); [|exact Hs|by rewrite H0e].
    intros a b []. apply append_chain. }
  split; apply chain_valid; [done|by apply chain_take].
Qed.

(** C1: tamper evidence. Two logs the integrity check accepts, of the same
    length and with the same last hash, hold the same events in the same order
    (up to the order of the keys of a payload), unless SHA-256 collides. *)
Theorem event_log_tamper_evident (l1 l2 : list AgentFabricEvent) :
  Forall event_ok l1 → Forall event_ok l2 →
  validate_integrity l1 = true → validate_integrity l2 = true → length l1 = length l2 →
  last_hash (py_sorted seq_le l1) = last_hash (py_sorted seq_le l2) →
  Forall2 same_event (py_sorted seq_le l1) (py_sorted seq_le l2) ∨ sha256_collision.
Proof.
  intros Ho1 Ho2 H1 H2 Hlen Hlast. apply chains_same; try done.
  - by rewrite (py_sorted_perm seq_le l1).
  - by rewrite (py_sorted_perm seq_le l2).
  - by rewrite !length_py_sorted.
Qed.

(** C34: a restarted process finds the log: reading the collection [events] back
    gives the events in the order they were appended. *)
Theorem event_store_restart `{!StoreLaws S} (s0 s : sys S) :
  (∀ n, time_ok (clock n)) → events s0 = [] → durable s0 = true →
  (∀ k, st_get "events" k (db s0) = None) →
  steps appended s0 s → NoDup (event_id <$> events s) →
  load (db s) = Ok (events s).
Proof.
  intros Hclock Hev Hd Hempty Hs Hnd. apply load_persisted; [|done].
  eapply (steps_invariant _ persisted); [|exact Hs|].
  - intros a b []. by apply append_persisted.
  - unfold persisted. rewrite Hev. repeat split; try done; [by intros ?%eq_sym; rewrite Hempty in *|].
    by intros (? & ?%elem_of_nil & _).
Qed.

(** [append] accepts exactly the registered event types. An accepted event
    is the last of the log and links to the one before it; a refused one leaves
    the whole process state as it was. *)
Theorem event_append_outcome (ty aggregate : string) (body : doc) (s : sys S) :
  match append ty aggregate body s with
  | (Ok e, s') =>
      ty ∈ EVENT_TYPE_REGISTRY ∧ events s' = events s ++ [e] ∧
      previous_hash e = last_hash (events s) ∧ payload e = body ∧ aggregate_id e = aggregate ∧
      replay (Some aggregate) (events s') = replay (Some aggregate) (events s) ++ [e]
  | (Err x, s') => ty ∉ EVENT_TYPE_REGISTRY ∧ exn_cls x = ValueError ∧ s' = s
  end.
Proof.
  rewrite append_eq. case_bool_decide as Hr; cbn; [|done]. split_and!; try done.
  unfold replay. rewrite filter_app. f_equal. rewrite filter_cons. by rewrite decide_True.
Qed.

End EventStoreProperties.

(** ** Witnesses *)

(** A clock that ticks once a second from 2024-01-01, numbered ids, and the
    identity for the digest. *)
Definition demo_oracle : Oracle := {|
  clock n := ymd2day 2024 1 1 * day_us + (Z.of_nat n * second_us) `mod` day_us;
  perf n := Z.of_nat n;
  uuid_hex n := pretty (Z.of_nat n);
  sha256_hex s := s;
|}.

Lemma demo_clock n : time_ok (clock (Oracle := demo_oracle) n).
Proof.
  unfold time_ok, clock, demo_oracle, max_time. change (ymd2day 2024 1 1) with 738885.
  pose proof (Z.mod_pos_bound (Z.of_nat n * second_us) day_us eq_refl) as Hb.
  change max_day with 3652059. change day_us with 86400000000 in *. lia.
Qed.

Definition demo_start : sys Memory.store := Sys ∅ [] true 0.

Definition demo_run : sys Memory.store :=
  after (EventStore.append (H := demo_oracle) "runtime.job.created" "job-1" [("n", VInt 1)])
    (after (EventStore.append (H := demo_oracle) "agent.registered" "agent-1" []) demo_start).

Lemma demo_reaches : steps (EventStore.appended (H := demo_oracle)) demo_start demo_run.
Proof. eapply steps_cons; [constructor|]. eapply steps_cons; [constructor|]. apply steps_refl. Qed.

Lemma event_log_valid_witness :
  EventStore.validate_integrity (H := demo_oracle) (events demo_run) = true ∧
  EventStore.validate_integrity (H := demo_oracle) (take 1 (events demo_run)) = true.
Proof. apply (event_log_valid (H := demo_oracle) demo_start); [reflexivity|apply demo_reaches]. Defined.

Lemma demo_events_ok : Forall EventStore.event_ok (events demo_run).
Proof.
  repeat constructor; try (vm_compute; congruence).
Qed.

Lemma event_log_tamper_evident_witness :
  length (events demo_run) = 2%nat ∧
  (Forall2 EventStore.same_event (py_sorted EventStore.seq_le (events demo_run))
    (py_sorted EventStore.seq_le (reverse (events demo_run))) ∨
   sha256_collision (H := demo_oracle)).
Proof.
  split; [reflexivity|]. apply (event_log_tamper_evident (H := demo_oracle)).
  - apply demo_events_ok.
  - apply Forall_reverse, demo_events_ok.
  - vm_compute. reflexivity.
  - vm_compute. reflexivity.
  - reflexivity.
  - vm_compute. reflexivity.
Defined.

Lemma event_store_restart_witness :
  EventStore.load (db demo_run) = Ok (events demo_run) ∧ length (events demo_run) = 2%nat.
Proof.
  split; [|reflexivity]. apply (event_store_restart (H := demo_oracle) demo_start).
  - intros n. unfold time_ok, clock, demo_oracle, max_time. change (ymd2day 2024 1 1) with 738885.
    pose proof (Z.mod_pos_bound (Z.of_nat n * second_us) day_us eq_refl) as Hb.
    change max_day with 3652059. change day_us with 86400000000 in *. lia.
  - reflexivity.
  - reflexivity.
  - intros k. reflexivity.
  - apply demo_reaches.
  - apply (bool_decide_unpack _). vm_compute. exact I.
Defined.
