(* ===== verification/Documents.v ===== *)
(** Typed collections: how the services keep their records in a persistence
    store. A record type comes with its collection, its key, its [as_dict] and
    its [from_dict]; a service writes [as_dict] under the key and reads
    [from_dict] back. *)

From stdpp Require Import base option list strings gmap sets.
From Stdlib Require Import ZArith Lia.
From S2P Require Import Prelude PyVal Json PyTime Store EventStore.

Local Open Scope Z_scope.

(** * Timestamps in documents *)

(** [t.isoformat() if t else None] *)
Definition opt_iso (t : option Z) : val :=
  match t with Some t => VStr (isoformat t) | None => VNone end.

(** [datetime.fromisoformat(str(d[k]))] *)
Definition time_field (d : doc) (k : string) : res Z :=
  let? s := str_field d k in fromisoformat s.

(** [datetime.fromisoformat(str(d[k])) if d.get(k) else None] *)
Definition opt_time_field (d : doc) (k : string) : res (option Z) :=
  match dget d k with
  | Some v => if truthy v then let? t := fromisoformat (py_str v) in Ok (Some t) else Ok None
  | None => Ok None
  end.

(** [datetime.fromisoformat(str(d[k])) if d.get(k) else utc_now()] *)
Definition time_field_or_now `{Oracle} {S} (d : doc) (k : string) : M (sys S) Z :=
  match dget d k with
  | Some v => if truthy v then of_res (fromisoformat (py_str v)) else utc_now
  | None => utc_now
  end.

Lemma isoformat_ne t : isoformat t ≠ "".
Proof. unfold isoformat, date_iso. by destruct (day2ymd _) as [[y m] d]. Qed.

Lemma truthy_str s : s ≠ "" → truthy (VStr s) = true.
Proof. intros Hs. simpl. by rewrite bool_decide_eq_false_2. Qed.

Section Times.
Context `{Oracle} {S : Type}.

Lemma time_field_iso (d : doc) k t :
  time_ok t → dget d k = Some (VStr (isoformat t)) → time_field d k = Ok t.
Proof.
  intros Ht Hd. unfold time_field, str_field, dindex. rewrite Hd. simpl.
  by apply fromisoformat_isoformat.
Qed.

Lemma opt_time_field_iso (d : doc) k o :
  (∀ t, o = Some t → time_ok t) → dget d k = Some (opt_iso o) → opt_time_field d k = Ok o.
Proof.
  intros Ho Hd. unfold opt_time_field. rewrite Hd. destruct o as [t|]; [|done].
  cbn [opt_iso]. rewrite truthy_str by apply isoformat_ne.
  cbn [py_str]. by rewrite fromisoformat_isoformat by auto.
Qed.

Lemma time_field_or_now_iso (d : doc) k t (s : sys S) :
  time_ok t → dget d k = Some (VStr (isoformat t)) → time_field_or_now d k s = (Ok t, s).
Proof.
  intros Ht Hd. unfold time_field_or_now. rewrite Hd, truthy_str by apply isoformat_ne.
  cbn [py_str]. unfold of_res. by rewrite fromisoformat_isoformat.
Qed.

End Times.

(** A time that may be missing is one a [datetime] can have. *)
Definition opt_time_ok (o : option Z) : Prop := match o with Some t => time_ok t | None => True end.

#[export] Instance opt_time_ok_dec o : Decision (opt_time_ok o).
Proof. destruct o; apply _. Defined.

(** * Records *)

Class Document (S A : Type) `{Oracle} := {
  d_coll : string;
  d_key : A → string;
  d_enc : A → doc;
  d_dec : doc → M (sys S) A;
  d_ok : A → Prop;
  d_dec_enc : ∀ a s, d_ok a → d_dec (d_enc a) s = (Ok a, s);
  d_enc_ne : ∀ a, d_enc a ≠ [];
}.
#[global] Hint Mode Document - ! - : typeclass_instances.

Section Collections.
Context `{Oracle} {S A : Type} `{PersistenceStore S, !Document S A}.

(** [persistence.put(collection, a.key, a.as_dict())] *)
Definition doc_put (a : A) : M (sys S) unit := store_put (d_coll (A := A)) (d_key a) (d_enc a).

(** [item = persistence.get(collection, key)], then
    [from_dict(item) if item else None] *)
Definition doc_get (k : string) : M (sys S) (option A) :=
  let* item := store_get (d_coll (A := A)) k in
  match item with
  | Some ((_ :: _) as d) => let* a := d_dec d in ret (Some a)
  | _ => ret None
  end.

(** [[from_dict(item) for item in persistence.list(collection)]] *)
Definition doc_list : M (sys S) (list A) :=
  let* items := store_list (d_coll (A := A)) in for_map items d_dec.

Definition doc_list_tenant (tenant_id : string) : M (sys S) (list A) :=
  let* items := store_list_tenant (d_coll (A := A)) tenant_id in for_map items d_dec.

(** The collection holds records under their keys, and nothing else. *)
Definition typed (db : S) : Prop :=
  ∀ k d, st_get (d_coll (A := A)) k db = Some d → ∃ a : A, d_ok a ∧ d_key a = k ∧ d = d_enc a.

(** The record stored under its key. *)
Definition stored (a : A) (db : S) : Prop :=
  d_ok a ∧ st_get (d_coll (A := A)) (d_key a) db = Some (d_enc a).

Lemma for_map_dec (l : list A) (s : sys S) :
  Forall d_ok l → for_map (d_enc <$> l) d_dec s = (Ok l, s).
Proof.
  induction 1 as [|a l Ha _ IH]; [done|].
  cbn [fmap list_fmap for_map]. unfold bind. rewrite d_dec_enc by done.
  change (list_fmap A doc d_enc l) with (d_enc <$> l). by rewrite IH.
Qed.

(** [as_dict] tells records apart. *)
Lemma d_enc_inj (a b : A) (s : sys S) : d_ok a → d_ok b → d_enc a = d_enc b → a = b.
Proof.
  intros Ha Hb E. pose proof (d_dec_enc a s Ha) as H1. rewrite E, (d_dec_enc b s Hb) in H1. congruence.
Qed.

Lemma d_enc_inj_list (l l' : list A) (s : sys S) :
  Forall d_ok l → Forall d_ok l' → d_enc <$> l = d_enc <$> l' → l = l'.
Proof.
  intros Hl. revert l'. induction Hl as [|a l Ha _ IH]; intros [|b l2] Hl2 E; try discriminate E; [done|].
  injection E as Eab E. apply Forall_cons in Hl2 as [Hb Hl2].
  rewrite (d_enc_inj a b s Ha Hb Eab), (IH l2 Hl2 E). done.
Qed.

Lemma d_enc_perm (l l' : list A) (s : sys S) :
  Forall d_ok l → Forall d_ok l' → d_enc <$> l ≡ₚ d_enc <$> l' → l ≡ₚ l'.
Proof.
  intros Hl Hl' (l2 & E & Hp)%Permutation_map_inv. rewrite Hp.
  rewrite (d_enc_inj_list l l2 s Hl); [done| |done]. by rewrite <- Hp.
Qed.

(** A key belongs to one record. *)
Lemma stored_unique (a b : A) (s : sys S) : stored a (db s) → stored b (db s) → d_key a = d_key b → a = b.
Proof.
  intros [Ha Ga] [Hb Gb] Hk. rewrite Hk, Gb in Ga. injection Ga as Ga. symmetry in Ga. by apply (d_enc_inj a b s Ha Hb).
Qed.

Context `{!StoreLaws S}.

Lemma typed_put (a : A) db :
  d_ok a → typed db → typed (st_put (d_coll (A := A)) (d_key a) (d_enc a) db).
Proof.
  intros Ha Ht k d. destruct (decide (k = d_key a)) as [->|Hk].
  - rewrite get_put_eq. intros [= <-]. eauto.
  - rewrite get_put_ne by congruence. apply Ht.
Qed.

Lemma typed_put_other c k d db :
  c ≠ d_coll (A := A) → typed db → typed (st_put c k d db).
Proof. intros Hc Ht k' d'. rewrite get_put_ne by congruence. apply Ht. Qed.

(** The lookup of a key finds the record stored under it. *)
Lemma doc_get_eq k (s : sys S) :
  typed (db s) →
  (∃ a, d_key a = k ∧ stored a (db s) ∧ doc_get k s = (Ok (Some a), s)) ∨
  (st_get (d_coll (A := A)) k (db s) = None ∧ doc_get k s = (Ok None, s)).
Proof.
  intros Ht. unfold doc_get, bind, store_get, gets.
  destruct (st_get (d_coll (A := A)) k (db s)) as [d|] eqn:Hg; [|right; done]. left.
  destruct (Ht k d Hg) as (a & Ha & <- & ->). exists a.
  split; [done|]. split; [done|].
  pose proof (d_enc_ne (A := A) a) as Hne. pose proof (d_dec_enc a s Ha) as Hdec.
  destruct (d_enc a) as [|p d']; [done|]. by rewrite Hdec.
Qed.

Lemma doc_get_stored (a : A) (s : sys S) :
  stored a (db s) → doc_get (d_key a) s = (Ok (Some a), s).
Proof.
  intros [Ha Hg]. unfold doc_get, bind, store_get, gets. rewrite Hg.
  pose proof (d_enc_ne (A := A) a) as Hne. pose proof (d_dec_enc a s Ha) as Hdec.
  destruct (d_enc a) as [|p d']; [done|]. by rewrite Hdec.
Qed.

Lemma typed_docs (db : S) l :
  typed db → (∀ d, d ∈ l → ∃ k, st_get (d_coll (A := A)) k db = Some d) →
  ∃ l' : list A, l = d_enc <$> l' ∧ Forall (fun a => stored a db) l'.
Proof.
  intros Ht. induction l as [|d l IH]; intros Hl; [by exists []|].
  destruct IH as (l' & -> & Hl'); [intros; apply Hl; by right|].
  destruct (Hl d) as [k Hk]; [by left|]. destruct (Ht k d Hk) as (a & Ha & <- & ->).
  exists (a :: l'). split; [done|]. by constructor.
Qed.

Lemma Forall_stored_ok (l : list A) db : Forall (fun a => stored a db) l → Forall d_ok l.
Proof. intros Hl. eapply Forall_impl; [exact Hl|]. by intros a [? _]. Qed.

(** The listing of a collection is its records. *)
Lemma doc_list_eq (s : sys S) :
  typed (db s) →
  ∃ l, doc_list s = (Ok l, s) ∧ d_enc <$> l = st_list (d_coll (A := A)) (db s) ∧
       Forall (fun a => stored a (db s)) l.
Proof.
  intros Ht. destruct (typed_docs (db s) (st_list (d_coll (A := A)) (db s)) Ht) as (l & Hl & Hs).
  { intros d Hd. by apply elem_of_st_list. }
  exists l. split_and!; [|done|done]. unfold doc_list, bind, store_list, gets.
  rewrite Hl. by apply for_map_dec, (Forall_stored_ok _ (db s)).
Qed.

Lemma doc_list_tenant_eq t (s : sys S) :
  typed (db s) →
  ∃ l, doc_list_tenant t s = (Ok l, s) ∧
       d_enc <$> l = st_list_tenant (d_coll (A := A)) t (db s) ∧
       Forall (fun a => stored a (db s)) l.
Proof.
  intros Ht.
  destruct (typed_docs (db s) (st_list_tenant (d_coll (A := A)) t (db s)) Ht) as (l & Hl & Hs).
  { intros d Hd. by apply elem_of_list_tenant in Hd as [_ ?]. }
  exists l. split_and!; [|done|done]. unfold doc_list_tenant, bind, store_list_tenant, gets.
  rewrite Hl. by apply for_map_dec, (Forall_stored_ok _ (db s)).
Qed.

(** The listing of a tenant is the records stored with its id. *)
Lemma elem_of_doc_list_tenant t (s : sys S) l :
  typed (db s) → d_enc <$> l = st_list_tenant (d_coll (A := A)) t (db s) →
  Forall (fun a => stored a (db s)) l →
  ∀ a, a ∈ l ↔ stored a (db s) ∧ is_str (dget (d_enc a) "tenant_id") t = true.
Proof.
  intros Ht E Hl a. rewrite Forall_forall in Hl. split.
  - intros Ha. split; [by apply Hl|].
    assert (Hd : d_enc a ∈ d_enc <$> l) by by apply list_elem_of_fmap_2.
    rewrite E in Hd. by apply elem_of_list_tenant in Hd as [? _].
  - intros [[Hok Hg] Hten].
    assert (Hd : d_enc a ∈ d_enc <$> l) by (rewrite E; apply elem_of_list_tenant; eauto).
    apply list_elem_of_fmap in Hd as (b & Eab & Hb).
    destruct (Hl b Hb) as [Hok' _]. by apply (d_enc_inj a b s Hok Hok') in Eab as ->.
Qed.

(** The keys of the records of a listing differ. *)
Lemma listed_keys (db : S) ks (l : list A) (s : sys S) :
  typed db → d_enc <$> l = omap (fun k => st_get (d_coll (A := A)) k db) ks →
  Forall (fun a => stored a db) l → d_key <$> l `sublist_of` ks.
Proof.
  intros Ht. revert l. induction ks as [|k ks IH]; intros l E Hl; csimpl in E.
  { apply fmap_nil_inv in E as ->. done. }
  destruct (st_get (d_coll (A := A)) k db) as [d|] eqn:Hg; csimpl in E.
  - destruct l as [|a l]; [done|]. injection E as Ea E. apply Forall_cons in Hl as [[Ha _] Hl].
    destruct (Ht k d Hg) as (a' & Ha' & <- & ->). apply (d_enc_inj a a' s) in Ea as ->; [|done..].
    csimpl. by apply sublist_skip, IH.
  - by apply sublist_cons, IH.
Qed.

Lemma doc_list_NoDup (s : sys S) l :
  typed (db s) → d_enc <$> l = st_list (d_coll (A := A)) (db s) →
  Forall (fun a => stored a (db s)) l → NoDup (d_key (A := A) <$> l).
Proof.
  intros Ht E Hl. rewrite list_keys in E. eapply sublist_NoDup; [apply (keys_NoDup (d_coll (A := A)) (db s))|].
  by apply (listed_keys (db s) _ l s).
Qed.

Lemma doc_list_tenant_NoDup t (s : sys S) l :
  typed (db s) → d_enc <$> l = st_list_tenant (d_coll (A := A)) t (db s) →
  Forall (fun a => stored a (db s)) l → NoDup (d_key (A := A) <$> l).
Proof.
  intros Ht E Hl. destruct (doc_list_eq s Ht) as (l0 & _ & E0 & Hl0).
  pose proof (doc_list_NoDup s l0 Ht E0 Hl0) as Hnd.
  rewrite list_tenant_list, <- E0, filter_fmap in E.
  assert (l = base.filter (fun a => is_str (dget (d_enc a) "tenant_id") t = true) l0) as ->.
  { apply (d_enc_inj_list _ _ s); [by eapply Forall_stored_ok| |done].
    apply Forall_filter_keep. by eapply Forall_stored_ok. }
  eapply sublist_NoDup; [exact Hnd|]. apply sublist_fmap_filter.
Qed.

End Collections.

(** * Calls that leave a collection alone *)

Section Frame.
Context `{Oracle} {S : Type} `{PersistenceStore S}.

(** The documents of the collections other than [events]. *)
Definition reads (x : string → string → option doc) (s : sys S) : Prop :=
  ∀ c k, c ≠ "events" → st_get c k (db s) = x c k.

Lemma reads_utc_now x : preserves (reads x) utc_now.
Proof. intros s Hs. exact Hs. Qed.

Lemma reads_uuid4 x : preserves (reads x) uuid4.
Proof. intros s Hs. exact Hs. Qed.

Lemma reads_perf_counter x : preserves (reads x) perf_counter.
Proof. intros s Hs. exact Hs. Qed.

Lemma reads_time_field_or_now x d k : preserves (reads x) (time_field_or_now d k).
Proof.
  unfold time_field_or_now. destruct (dget d k) as [v|]; [destruct (truthy v)|];
    auto using preserves_of_res, reads_utc_now.
Qed.

Lemma reads_append `{!StoreLaws S} x ty id body : preserves (reads x) (EventStore.append ty id body).
Proof.
  intros s Hs. unfold after. rewrite EventStore.append_eq. case_bool_decide; [|done].
  intros c k Hc. simpl. destruct (durable s); [rewrite get_put_ne by congruence|]; by apply Hs.
Qed.

(** An event of a registered type is logged, and the documents stay. *)
Lemma append_ok `{!StoreLaws S} ty id body (s : sys S) :
  bool_decide (ty ∈ EVENT_TYPE_REGISTRY) = true →
  ∃ e s', EventStore.append ty id body s = (Ok e, s') ∧ events s' = events s ++ [e] ∧ event_type e = ty ∧
    aggregate_id e = id ∧ payload e = body ∧ (∀ c k, c ≠ "events" → st_get c k (db s') = st_get c k (db s)).
Proof.
  intros Hty. rewrite EventStore.append_eq, Hty. do 2 eexists. split; [reflexivity|]. split_and!; [done..|].
  intros c k Hc. cbn [db]. destruct (durable s); [by rewrite get_put_ne by congruence|done].
Qed.

Lemma reads_db (s s' : sys S) : reads (fun c k => st_get c k (db s)) s' →
  ∀ c k, c ≠ "events" → st_get c k (db s') = st_get c k (db s).
Proof. auto. Qed.

Lemma typed_reads {A} `{!Document S A} (d d' : S) :
  d_coll (A := A) ≠ "events" → (∀ c k, c ≠ "events" → st_get c k d' = st_get c k d) →
  typed (A := A) d → typed (A := A) d'.
Proof. intros Hc Hr Ht k v. rewrite Hr by done. apply Ht. Qed.

Lemma stored_reads {A} `{!Document S A} (a : A) (d d' : S) :
  d_coll (A := A) ≠ "events" → (∀ c k, c ≠ "events" → st_get c k d' = st_get c k d) →
  stored a d' ↔ stored a d.
Proof. intros Hc Hr. unfold stored. by rewrite Hr. Qed.

End Frame.

#[export] Hint Resolve reads_utc_now reads_uuid4 reads_perf_counter reads_time_field_or_now reads_append
  : preserve.

(** An empty store holds records only. *)
Lemma typed_empty `{Oracle} {A} `{!Document Memory.store A} : typed (A := A) (∅ : Memory.store).
Proof. intros k d Hd. unfold st_get in Hd. cbn in Hd. unfold Memory.get, Memory.collection in Hd. by rewrite lookup_empty in Hd. Qed.
