(* ===== verification/Migrations.v ===== *)
(** Schema migrations (agentfabric/migrations): the record of applied versions,
    the runner that applies the pending ones inside a unit of work, and the
    built-in migration. *)

From stdpp Require Import base option list strings gmap sets pretty.
From Stdlib Require Import ZArith Lia Sorted.
From S2P Require Import Prelude PyVal Json PyTime Store EventStore.

Local Open Scope Z_scope.

(** migration.py: a migration runs on the store and may raise. *)
Record Migration (S : Type) := Mig {
  version : Z;
  name : string;
  apply : M S unit;
  validate : option (M S unit);
}.
Arguments Mig {S}.
Arguments version {S}.
Arguments name {S}.
Arguments apply {S}.
Arguments validate {S}.

(** * schema_version.py *)

Module SchemaVersionStore.
Section SchemaVersionStore.
Context {S : Type} `{PersistenceStore S}.

Definition COLLECTION : string := "_schema_versions".

(** The set is a list whose repetitions do not matter. *)
Definition applied_versions (s : S) : res (list Z) :=
  res_map (fun item => let? v := dindex item "version" in py_int v) (st_list COLLECTION s).

Definition current_version (s : S) : res Z :=
  let? versions := applied_versions s in
  Ok (match versions with [] => 0 | v :: vs => foldl Z.max v vs end).

Definition mark_applied (v : Z) (n applied_at : string) (s : S) : S :=
  st_put COLLECTION (pretty v)
    [("version", VInt v); ("name", VStr n); ("applied_at", VStr applied_at)] s.

End SchemaVersionStore.
End SchemaVersionStore.

(** * versions/0001_initial.py *)

Module Initial.

Definition COLLECTIONS : list string := [
  "agents"; "identities"; "certificates"; "capabilities"; "mesh_messages"; "conversations";
  "workflows"; "task_graphs"; "checkpoints"; "shared_context"; "events"; "reputation";
  "runtime_memory"; "organizations"; "tenants"; "teams"; "memberships"; "usage_events";
  "quota_policies"; "billing_plans"; "audit_exports"; "marketplace_packages";
  "marketplace_entitlements"; "marketplace_reviews"; "marketplace_installs"; "governance_orgs";
  "governance_teams"; "governance_charters"; "governance_proposals"; "governance_votes";
  "governance_approvals"; "governance_decision_records"; "governance_policies"; "runtime_jobs";
  "runtime_dead_letters"; "runtime_workers"; "runtime_schedules"; "federation_orgs";
  "federation_agreements"; "federation_policies"; "federation_remote_capabilities";
  "federation_messages"; "federation_receipts"; "federation_nonces"; "federation_delegations"].

Section Initial.
Context {S : Type} `{PersistenceStore S}.

Definition apply : M S unit :=
  do* modify st_initialize;
  for_each COLLECTIONS (fun c => modify (st_put "_collections" c [("name", VStr c)])).

Definition validate : M S unit :=
  let* existing := gets (st_keys "_collections") in
  let missing := base.filter (fun c => c ∉ existing) COLLECTIONS in
  match missing with
  | [] => ret tt
  | _ => raise RuntimeError ("missing collections: " +:+ join ", " missing)
  end.

End Initial.
End Initial.

(** versions/__init__.py *)
Definition MIGRATIONS {S} `{PersistenceStore S} : list (Migration S) :=
  [Mig 1 "initial_generation4_collections" Initial.apply (Some Initial.validate)].

(** * runner.py *)

Module MigrationRunner.
Section MigrationRunner.
Context `{Oracle} {S : Type} `{PersistenceStore S} `{UnitStore S}.

Abbreviation process := (sys S).
#[local] Abbreviation Migration := (Migration S).

(** A call on the store of the process. *)
Definition on_db {A} (m : M S A) : M process A := zoom db (fun d => with_db (fun _ => d)) m.

Definition version_le (a b : Migration) : bool := version a <=? version b.

(** The constructor: [sorted(migrations or MIGRATIONS)]. *)
Definition init (migrations : option (list Migration)) : list Migration :=
  py_sorted version_le
    (match migrations with None | Some [] => MIGRATIONS | Some l => l end).

Definition pending (migrations : list Migration) (s : S) : res (list Migration) :=
  let? applied := SchemaVersionStore.applied_versions s in
  Ok (base.filter (fun m => version m ∉ applied) migrations).

(** The body of the unit of work of a migration. *)
Definition apply_body (m : Migration) : M process unit :=
  do* on_db (apply m);
  do* (match validate m with Some v => on_db v | None => ret tt end);
  let* now := utc_now in
  on_db (modify (SchemaVersionStore.mark_applied (version m) (name m) (isoformat now))).

(** One turn of the loop of [apply]. *)
Definition apply_one (m : Migration) : M process unit :=
  try_except
    (with_unit db (fun d => with_db (fun _ => d)) (apply_body m))
    (fun exc => raise RuntimeError
       ("migration " +:+ pretty (version m) +:+ " failed closed: " +:+ exn_msg exc)).

Fixpoint apply_loop (dry_run : bool) (ms : list Migration) (applied_now : list Z) : M process (list Z) :=
  match ms with
  | [] => ret applied_now
  | m :: ms' =>
      if dry_run then apply_loop dry_run ms' applied_now
      else do* apply_one m; apply_loop dry_run ms' (applied_now ++ [version m])
  end.

Definition apply (migrations : list Migration) (dry_run : bool) : M process doc :=
  let* todo := (fun s => (pending migrations (db s), s)) in
  let* applied_now := apply_loop dry_run todo [] in
  let* current := (fun s => (SchemaVersionStore.current_version (db s), s)) in
  ret [("status", VStr "ok"); ("current_version", VInt current);
       ("applied", VList (VInt <$> applied_now)); ("dry_run", VBool dry_run)].

Definition validate_one (m : Migration) : M process unit :=
  match validate m with
  | None => ret tt
  | Some v =>
      let* applied := (fun s => (SchemaVersionStore.applied_versions (db s), s)) in
      if bool_decide (version m ∈ applied) then on_db v else ret tt
  end.

Definition validate (migrations : list Migration) : M process doc :=
  do* for_each migrations validate_one;
  let* current := (fun s => (SchemaVersionStore.current_version (db s), s)) in
  ret [("status", VStr "ok"); ("current_version", VInt current)].

(** ** One migration *)

(** The store after the migration [m] failed. *)
Definition left_by (m : Migration) (s : process) : S :=
  if unit_restores (S := S) then db s else db (after (apply_body m) s).

Lemma apply_one_outcome m s :
  match apply_one m s with
  | (Ok _, s') => apply_body m s = (Ok tt, s')
  | (Err e, s') => exn_cls e = RuntimeError ∧ db s' = left_by m s ∧ is_ok (apply_body m s).1 = false
  end.
Proof.
  unfold apply_one, try_except, with_unit, left_by, after. destruct (apply_body m s) as [[[]|e] s'] eqn:E; [done|].
  unfold raise. by case_match.
Qed.

Lemma apply_loop_app ms ms' acc :
  ∀ s, apply_loop false (ms ++ ms') acc s =
       (let* done := apply_loop false ms acc in apply_loop false ms' done) s.
Proof.
  revert acc. induction ms as [|m ms IH]; intros acc s; simpl; [done|].
  unfold bind. destruct (apply_one m s) as [[[]|e] s']; [|done]. rewrite IH. done.
Qed.

(** The loop stops at the first migration that fails, and the store is the one
    the migrations before it left. *)
Lemma apply_loop_outcome ms acc s :
  match apply_loop false ms acc s with
  | (Ok l, _) => l = acc ++ (version <$> ms)
  | (Err e, s') =>
      exn_cls e = RuntimeError ∧
      ∃ done m rest s1, ms = done ++ m :: rest ∧
        apply_loop false done acc s = (Ok (acc ++ (version <$> done)), s1) ∧
        db s' = left_by m s1 ∧ is_ok (apply_body m s1).1 = false
  end.
Proof.
  revert acc s. induction ms as [|m ms IH]; intros acc s; simpl; [by rewrite app_nil_r|].
  unfold bind. pose proof (apply_one_outcome m s) as Hone.
  destruct (apply_one m s) as [[[]|e] s1] eqn:E1.
  - specialize (IH (acc ++ [version m]) s1).
    destruct (apply_loop false ms _ s1) as [[l|e] s2] eqn:E2; [by rewrite IH, <- app_assoc|].
    destruct IH as (Hc & done & m' & rest & s3 & -> & Hd & Hdb & Hm). split; [done|].
    exists (m :: done), m', rest, s3. split; [done|]. simpl. unfold bind. rewrite E1.
    rewrite <- app_assoc in Hd. by rewrite Hd.
  - destruct Hone as (Hc & Hdb & Hm). split; [done|]. exists [], m, ms, s. simpl.
    by rewrite app_nil_r.
Qed.

End MigrationRunner.
End MigrationRunner.

(** * The record of versions *)

Section Versions.
Context {S : Type} `{StoreLaws S}.

(** A collection as [mark_applied] writes it. *)
Definition versions_ok (s : S) : Prop :=
  ∀ k d, st_get SchemaVersionStore.COLLECTION k s = Some d →
         ∃ v, k = pretty v ∧ dget d "version" = Some (VInt v).

(** A migration that leaves the record of versions alone. *)
Definition leaves_versions (f : M S unit) : Prop :=
  ∀ k s, st_get SchemaVersionStore.COLLECTION k (after f s)
         = st_get SchemaVersionStore.COLLECTION k s.

Definition well_behaved (m : Migration S) : Prop :=
  leaves_versions (apply m) ∧
  match validate m with Some v => leaves_versions v | None => True end.

Lemma applied_versions_spec s :
  versions_ok s →
  ∃ vs, SchemaVersionStore.applied_versions s = Ok vs ∧
        ∀ v, v ∈ vs ↔ is_Some (st_get SchemaVersionStore.COLLECTION (pretty v) s).
Proof.
  intros Hok. unfold SchemaVersionStore.applied_versions.
  set (g := fun d : doc => match dget d "version" with Some (VInt v) => v | _ => 0 end).
  exists (g <$> st_list SchemaVersionStore.COLLECTION s). split.
  - apply res_map_ok. intros d [k Hk]%elem_of_st_list. destruct (Hok k d Hk) as (v & _ & Hv).
    unfold dindex, g. by rewrite Hv.
  - intros v. rewrite list_elem_of_fmap. split.
    + intros (d & -> & [k Hk]%elem_of_st_list). destruct (Hok k d Hk) as (w & -> & Hw).
      unfold g. rewrite Hw. eauto.
    + intros [d Hd]. exists d. destruct (Hok _ d Hd) as (w & Hvw & Hw). apply (inj pretty) in Hvw as <-.
      split; [unfold g; by rewrite Hw|]. apply elem_of_st_list. eauto.
Qed.

End Versions.

Section Runs.
Context `{Oracle} {S : Type} `{StoreLaws S} `{UnitStore S}.
Import MigrationRunner(apply_one, apply_body, apply_loop, pending, on_db, left_by).
#[local] Abbreviation Migration := (Migration S).
Implicit Types (m : Migration) (ms : list Migration).

(** What the body of the unit does to the record of versions. *)
Lemma apply_body_versions m s :
  well_behaved m →
  let '(r, s') := apply_body m s in
  match r with
  | Ok _ => ∃ at_, ∀ k, st_get SchemaVersionStore.COLLECTION k (db s') =
      if decide (k = pretty (version m))
      then Some [("version", VInt (version m)); ("name", VStr (name m)); ("applied_at", VStr at_)]
      else st_get SchemaVersionStore.COLLECTION k (db s)
  | Err _ => ∀ k, st_get SchemaVersionStore.COLLECTION k (db s') = st_get SchemaVersionStore.COLLECTION k (db s)
  end.
Proof.
  intros [Ha Hv].
  unfold apply_body, bind, on_db, zoom, utc_now, modify, raise, with_db, leaves_versions, after in *.
  pose proof (fun k => Ha k (db s)) as H4. destruct (apply m (db s)) as [[[]|e] d1]; simpl in *; [|exact H4].
  assert (Hput : ∀ k d at_, (∀ k, st_get SchemaVersionStore.COLLECTION k d = st_get SchemaVersionStore.COLLECTION k (db s)) →
    st_get SchemaVersionStore.COLLECTION k (SchemaVersionStore.mark_applied (version m) (name m) at_ d) =
    if decide (k = pretty (version m))
    then Some [("version", VInt (version m)); ("name", VStr (name m)); ("applied_at", VStr at_)]
    else st_get SchemaVersionStore.COLLECTION k (db s)).
  { intros k d at_ Hd. unfold SchemaVersionStore.mark_applied. case_decide.
    - subst. by rewrite get_put_eq.
    - by rewrite get_put_ne by congruence. }
  destruct (validate m) as [v|]; simpl.
  - pose proof (fun k => Hv k d1) as H5. destruct (v d1) as [[[]|e] d2]; simpl in *.
    + eexists. intros k. apply Hput. intros k'. by rewrite H5.
    + intros k. by rewrite H5.
  - eexists. intros k. by apply Hput.
Qed.

Lemma apply_one_versions m s s' :
  well_behaved m → apply_one m s = (Ok tt, s') →
  ∃ at_, ∀ k, st_get SchemaVersionStore.COLLECTION k (db s') =
    if decide (k = pretty (version m))
    then Some [("version", VInt (version m)); ("name", VStr (name m)); ("applied_at", VStr at_)]
    else st_get SchemaVersionStore.COLLECTION k (db s).
Proof.
  intros Hm E. pose proof (MigrationRunner.apply_one_outcome m s) as Ho. rewrite E in Ho.
  pose proof (apply_body_versions m s Hm) as Hv. by rewrite Ho in Hv.
Qed.

(** A migration that fails leaves the record of versions alone, on any backend. *)
Lemma left_by_versions m s k :
  well_behaved m → is_ok (apply_body m s).1 = false →
  st_get SchemaVersionStore.COLLECTION k (left_by m s) = st_get SchemaVersionStore.COLLECTION k (db s).
Proof.
  intros Hm He. pose proof (apply_body_versions m s Hm) as Hv. unfold left_by, after. destruct (unit_restores (S := S)); [done|].
  destruct (apply_body m s) as [[?|e] s']; [done|]. apply Hv.
Qed.

Lemma versions_ok_step m s s' :
  well_behaved m → apply_one m s = (Ok tt, s') → versions_ok (db s) → versions_ok (db s').
Proof.
  intros Hm Hs Hok k d. destruct (apply_one_versions m s s' Hm Hs) as [at_ ->].
  case_decide; [intros [= <-]; eauto|apply Hok].
Qed.

(** After the loop every migration of it is recorded, and none is forgotten. *)
Lemma apply_loop_versions ms acc s l s' :
  Forall well_behaved ms → versions_ok (db s) → apply_loop false ms acc s = (Ok l, s') →
  versions_ok (db s') ∧
  ∀ v, is_Some (st_get SchemaVersionStore.COLLECTION (pretty v) (db s')) ↔
       v ∈ version <$> ms ∨ is_Some (st_get SchemaVersionStore.COLLECTION (pretty v) (db s)).
Proof.
  intros Hms. revert acc s. induction Hms as [|m ms Hm _ IH]; intros acc s Hok; simpl.
  - intros [= _ <-]. split; [done|]. set_solver.
  - unfold bind. destruct (apply_one m s) as [[[]|e] s1] eqn:E1; [|done]. intros Hrun.
    destruct (IH _ s1 (versions_ok_step m s s1 Hm E1 Hok) Hrun) as [Hok' Hv]. split; [done|].
    intros v. rewrite Hv. destruct (apply_one_versions m s s1 Hm E1) as [at_ ->].
    cbn [fmap list_fmap]. rewrite elem_of_cons. case_decide as E.
    + apply (inj pretty) in E as ->. split; [by eauto|]. intros _. right. by eexists.
    + assert (v ≠ version m) by (intros ->; by apply E). naive_solver.
Qed.

Lemma pending_spec ms (s : S) :
  versions_ok s →
  ∃ applied : list Z, pending ms s = Ok (base.filter (fun m => version m ∉ applied) ms) ∧
    ∀ v, v ∈ applied ↔ is_Some (st_get SchemaVersionStore.COLLECTION (pretty v) s).
Proof.
  intros Hok. destruct (applied_versions_spec s Hok) as (vs & Hvs & Hin). exists vs.
  unfold pending. by rewrite Hvs.
Qed.

Lemma pending_nil ms (s : S) :
  versions_ok s → (∀ m, m ∈ ms → is_Some (st_get SchemaVersionStore.COLLECTION (pretty (version m)) s)) →
  pending ms s = Ok [].
Proof.
  intros Hok Hall. destruct (pending_spec ms s Hok) as (applied & -> & Hin). f_equal.
  induction ms as [|m ms IH]; [done|]. rewrite filter_cons, decide_False.
  - apply IH. set_solver.
  - intros Hn. apply Hn. apply Hin, Hall. by left.
Qed.

Lemma current_version_ok (s : S) : versions_ok s → ∃ v, SchemaVersionStore.current_version s = Ok v.
Proof.
  intros Hok. destruct (applied_versions_spec s Hok) as (vs & Hvs & _).
  unfold SchemaVersionStore.current_version. rewrite Hvs. simpl. eauto.
Qed.

(** ** The built-in migration *)

Lemma leaves_preserves f :
  (∀ k x, preserves (fun s : S => st_get SchemaVersionStore.COLLECTION k s = x) f) → leaves_versions f.
Proof. intros Hf k s. by apply (Hf k). Qed.

Lemma initial_leaves_versions : leaves_versions (S := S) Initial.apply ∧ leaves_versions (S := S) Initial.validate.
Proof.
  split; apply leaves_preserves; intros k x.
  - apply preserves_bind; [|intros _; apply preserves_for_each; intros c];
      apply preserves_modify; intros s <-.
    + apply get_initialize.
    + apply get_put_ne. unfold SchemaVersionStore.COLLECTION. congruence.
  - apply preserves_bind; [apply preserves_gets|]. intros existing.
    cbv zeta. case_match; [apply preserves_ret|apply preserves_raise].
Qed.

Lemma initial_well_behaved : Forall well_behaved (MIGRATIONS (S := S)).
Proof. repeat constructor; simpl; apply initial_leaves_versions. Qed.

(** Putting a document under each of some keys. *)
Lemma put_each (f : string → doc) l (s : S) :
  ∃ s1, for_each l (fun c => modify (st_put "_collections" c (f c))) s = (Ok tt, s1) ∧
    ∀ c, (c ∈ l ∨ is_Some (st_get "_collections" c s)) → is_Some (st_get "_collections" c s1).
Proof.
  revert s. induction l as [|c l IH]; intros s; cbn [for_each].
  { eexists. split; [done|]. set_solver. }
  destruct (IH (st_put "_collections" c (f c) s)) as (s1 & Hrun & Hin).
  exists s1. split; [exact Hrun|]. intros c' Hc'. apply Hin.
  destruct (decide (c' = c)) as [->|Hne]; [right; rewrite get_put_eq; eauto|].
  rewrite get_put_ne by congruence. set_solver.
Qed.

Lemma initial_validates (s : S) : ∃ s1, Initial.apply s = (Ok tt, s1) ∧ Initial.validate s1 = (Ok tt, s1).
Proof.
  destruct (put_each (fun c => [("name", VStr c)]) Initial.COLLECTIONS (st_initialize s))
    as (s1 & Hrun & Hin).
  exists s1. split; [exact Hrun|]. unfold Initial.validate, bind, gets.
  assert (base.filter (fun c => c ∉ st_keys "_collections" s1) Initial.COLLECTIONS = []) as ->; [|done].
  apply elem_of_nil_inv. intros c [Hn Hc]%list_elem_of_filter. apply Hn, keys_get, Hin. by left.
Qed.

(** After [apply] returned, every migration is recorded. *)
Lemma migrations_recorded ms s r s' :
  versions_ok (db s) → Forall well_behaved ms → MigrationRunner.apply ms false s = (Ok r, s') →
  versions_ok (db s') ∧
  ∀ m, m ∈ ms → is_Some (st_get SchemaVersionStore.COLLECTION (pretty (version m)) (db s')).
Proof.
  intros Hok Hms. unfold MigrationRunner.apply, bind.
  destruct (pending_spec ms (db s) Hok) as (applied & -> & Hin).
  set (todo := base.filter _ ms).
  assert (Htodo : Forall well_behaved todo) by (by apply Forall_filter_keep).
  destruct (apply_loop false todo [] s) as [[l|e'] s1] eqn:Hrun; [|done].
  destruct (apply_loop_versions _ _ _ _ _ Htodo Hok Hrun) as [Hok1 Hv].
  destruct (current_version_ok _ Hok1) as [v ->]. intros [= _ <-]. split; [done|].
  intros m Hm. apply Hv. destruct (decide (version m ∈ applied)) as [Ha|Ha].
  - right. by apply Hin.
  - left. apply list_elem_of_fmap_2. by apply list_elem_of_filter.
Qed.

Lemma builtin_apply_one m s : m ∈ MIGRATIONS (S := S) → ∃ s', apply_one m s = (Ok tt, s').
Proof.
  intros ->%list_elem_of_singleton. unfold apply_one, try_except, with_unit, apply_body, bind, on_db, zoom, utc_now, modify, with_db. cbn [apply validate].
  destruct (initial_validates (db s)) as (s1 & -> & Hv). cbn [db]. rewrite Hv. by eexists.
Qed.

Lemma builtin_loop ms acc s : ms ⊆ MIGRATIONS → ∃ l s', apply_loop false ms acc s = (Ok l, s').
Proof.
  revert acc s. induction ms as [|m ms IH]; intros acc s Hms; simpl; [by eexists _, _|].
  unfold bind. destruct (builtin_apply_one m s) as [s1 ->]; [apply Hms; by left|].
  apply IH. intros x Hx. apply Hms. by right.
Qed.

End Runs.

(** * Properties *)

Section MigrationProperties.
Context `{Oracle} {S : Type} `{StoreLaws S} `{UnitStore S}.
#[local] Abbreviation Migration := (Migration S).

(** C6: migrations fail closed. With migrations that leave the record of versions
    alone, when [apply] raises the pending migrations split at the one that
    failed: those before it were applied and are recorded, it and those after
    it are not, and the error is a [RuntimeError]. Over a backend whose units of
    work are undone, as the one in memory undoes them (and SQLite's answer as
    those do: SqliteStore), the store is exactly the one the migrations before
    it left; over any other, such as a JSON file, it is what the failed one
    made of that. *)
Theorem migrations_fail_closed (ms : list Migration) (s : sys S) (e : exn) (s' : sys S) :
  versions_ok (db s) → Forall well_behaved ms →
  MigrationRunner.apply ms false s = (Err e, s') →
  exn_cls e = RuntimeError ∧
  ∃ done m rest s1, MigrationRunner.pending ms (db s) = Ok (done ++ m :: rest) ∧
    MigrationRunner.apply_loop false done [] s = (Ok (version <$> done), s1) ∧
    is_ok (MigrationRunner.apply_body m s1).1 = false ∧
    db s' = (if unit_restores (S := S) then db s1 else db (after (MigrationRunner.apply_body m) s1)) ∧
    ¬ is_Some (st_get SchemaVersionStore.COLLECTION (pretty (version m)) (db s)) ∧
    ∀ v, is_Some (st_get SchemaVersionStore.COLLECTION (pretty v) (db s')) ↔
         v ∈ version <$> done ∨ is_Some (st_get SchemaVersionStore.COLLECTION (pretty v) (db s)).
Proof.
  intros Hok Hms. unfold MigrationRunner.apply, bind.
  destruct (pending_spec ms (db s) Hok) as (applied & Hp & Hin). rewrite Hp.
  set (todo := base.filter _ ms) in *.
  assert (Htodo : Forall well_behaved todo) by (by apply Forall_filter_keep).
  pose proof (MigrationRunner.apply_loop_outcome todo [] s) as Hout.
  destruct (MigrationRunner.apply_loop false todo [] s) as [[l|e'] s1] eqn:Hrun.
  - destruct (apply_loop_versions _ _ _ _ _ Htodo Hok Hrun) as [Hok1 _].
    destruct (current_version_ok _ Hok1) as [v ->]. done.
  - intros [= <- <-]. destruct Hout as (Hc & don & m & rest & s2 & Hsplit & Hd & Hdb & He).
    split; [done|]. exists don, m, rest, s2.
    assert (Hm : m ∈ todo) by (rewrite Hsplit; set_solver).
    rewrite Hsplit in Htodo. apply Forall_app in Htodo as [Hdone [Hwm _]%Forall_cons].
    destruct (apply_loop_versions _ _ _ _ _ Hdone Hok Hd) as [_ Hv].
    split_and!; [by rewrite Hsplit|done|done|exact Hdb| |].
    + rewrite <- Hin. subst todo. by apply list_elem_of_filter in Hm as [? _].
    + intros v. rewrite <- Hv, Hdb. by rewrite left_by_versions.
Qed.

(** Migrations are idempotent. When [apply] returns, every migration is
    recorded, nothing is pending, and a second [apply] succeeds, applies
    nothing and leaves the process state as it is. *)
Theorem migrations_idempotent (ms : list Migration) (s : sys S) (r : doc) (s' : sys S) :
  versions_ok (db s) → Forall well_behaved ms →
  MigrationRunner.apply ms false s = (Ok r, s') →
  (∀ m, m ∈ ms → is_Some (st_get SchemaVersionStore.COLLECTION (pretty (version m)) (db s'))) ∧
  MigrationRunner.pending ms (db s') = Ok [] ∧
  ∃ r', MigrationRunner.apply ms false s' = (Ok r', s') ∧ dget r' "applied" = Some (VList []).
Proof.
  intros Hok Hms Hrun. destruct (migrations_recorded ms s r s' Hok Hms Hrun) as [Hok' Hall].
  destruct (current_version_ok _ Hok') as [v Hcur].
  pose proof (pending_nil ms (db s') Hok' Hall) as Hnil.
  split; [done|]. split; [done|]. unfold MigrationRunner.apply, bind. rewrite Hnil. simpl.
  rewrite Hcur. eexists. split; [reflexivity|done].
Qed.

(** A store at any recorded version can be brought up to date: with the
    built-in migrations [apply] always returns. *)
Theorem migrations_builtin_total (s : sys S) :
  versions_ok (db s) →
  ∃ r s', MigrationRunner.apply (MigrationRunner.init None) false s = (Ok r, s') ∧
          ∃ vs, SchemaVersionStore.applied_versions (db s') = Ok vs ∧
                ∀ m, m ∈ MIGRATIONS → version m ∈ vs.
Proof.
  intros Hok. change (MigrationRunner.init None) with MIGRATIONS.
  assert (∃ r s', MigrationRunner.apply MIGRATIONS false s = (Ok r, s')) as (r & s' & Hrun).
  { unfold MigrationRunner.apply, bind.
    destruct (pending_spec MIGRATIONS (db s) Hok) as (applied & -> & _).
    destruct (builtin_loop (base.filter (fun m => version m ∉ applied) MIGRATIONS) [] s)
      as (l & s1 & Hrun); [intros x Hx; by apply list_elem_of_filter in Hx as [_ ?]|].
    rewrite Hrun. eapply apply_loop_versions in Hrun as [Hok1 _]; [|apply Forall_filter_keep, initial_well_behaved|done].
    destruct (current_version_ok _ Hok1) as [v ->]. by eexists _, _. }
  exists r, s'. split; [done|].
  destruct (migrations_recorded MIGRATIONS s r s' Hok initial_well_behaved Hrun) as [Hok' Hall].
  destruct (applied_versions_spec (db s') Hok') as (vs & Hvs & Hin). exists vs. split; [done|].
  intros m Hm. by apply Hin, Hall.
Qed.

End MigrationProperties.

(** ** Witnesses *)

Definition demo_put (k : string) : M Memory.store unit := modify (st_put "agents" k []).

Definition demo_first : list (Migration Memory.store) := [Mig 1 "first" (demo_put "a") None].

Definition demo_migrations : list (Migration Memory.store) :=
  demo_first ++ [Mig 2 "broken" (do* demo_put "b"; raise ValueError "boom") None].

Lemma demo_put_leaves k : leaves_versions (demo_put k).
Proof.
  apply leaves_preserves. intros k' x s <-. apply get_put_ne. unfold SchemaVersionStore.COLLECTION. congruence.
Qed.

Lemma demo_well_behaved : Forall well_behaved demo_migrations.
Proof.
  repeat constructor; [apply demo_put_leaves|]. intros k s. apply (demo_put_leaves "b" k s).
Qed.

Lemma demo_versions_ok : versions_ok (db demo_start).
Proof. intros k d Hk. discriminate Hk. Qed.

Lemma migrations_fail_closed_witness :
  ∃ e s', MigrationRunner.apply (H := demo_oracle) demo_migrations false demo_start = (Err e, s') ∧
    e = Exn RuntimeError "migration 2 failed closed: boom" ∧ exn_cls e = RuntimeError.
Proof.
  destruct (MigrationRunner.apply (H := demo_oracle) demo_migrations false demo_start) as [[r|e] s'] eqn:Hrun.
  - exfalso. apply (f_equal fst) in Hrun. vm_compute in Hrun. discriminate Hrun.
  - exists e, s'. split; [reflexivity|]. split.
    + apply (f_equal fst) in Hrun. vm_compute in Hrun. injection Hrun as <-. reflexivity.
    + exact (proj1 (migrations_fail_closed (H := demo_oracle) _ _ _ _ demo_versions_ok demo_well_behaved Hrun)).
Defined.

Lemma migrations_idempotent_witness :
  ∃ r s', MigrationRunner.apply (H := demo_oracle) demo_first false demo_start = (Ok r, s') ∧
    MigrationRunner.pending demo_first (db demo_start) = Ok demo_first ∧
    MigrationRunner.pending demo_first (db s') = Ok [].
Proof.
  destruct (MigrationRunner.apply (H := demo_oracle) demo_first false demo_start) as [[r|e] s'] eqn:Hrun.
  - exists r, s'. split; [reflexivity|]. split; [reflexivity|].
    assert (Hwb : Forall well_behaved demo_first) by (repeat constructor; apply demo_put_leaves).
    exact (proj1 (proj2 (migrations_idempotent (H := demo_oracle) _ _ _ _ demo_versions_ok Hwb Hrun))).
  - exfalso. apply (f_equal fst) in Hrun. vm_compute in Hrun. discriminate Hrun.
Defined.

Lemma migrations_builtin_total_witness :
  ∃ r s', MigrationRunner.apply (H := demo_oracle) (MigrationRunner.init None) false demo_start = (Ok r, s') ∧
    ∃ vs, SchemaVersionStore.applied_versions (db s') = Ok vs ∧
          ∀ m, m ∈ MIGRATIONS → version m ∈ vs.
Proof. apply (migrations_builtin_total (H := demo_oracle)). apply demo_versions_ok. Defined.

(** Over a backend that is neither in memory nor SQLite (a JSON file) the
    migration that failed leaves what it did. *)
Example bare_unit_keeps_half :
  let run restores := (MigrationRunner.apply (H := demo_oracle) (H1 := {| unit_restores := restores |})
    demo_migrations false demo_start).2 in
  st_get "agents" "b" (db (run true)) = None ∧ st_get "agents" "b" (db (run false)) = Some [].
Proof. vm_compute. split; reflexivity. Qed.
