(* ===== verification/Quotas.v ===== *)
(** Tenant quotas (agentfabric/quotas): limits per tenant, usage counters, and
    the enforcement that a counter never passes its limit. *)

From stdpp Require Import base option list strings gmap sets.
From Stdlib Require Import ZArith Lia.
From S2P Require Import Prelude PyVal.

Local Open Scope Z_scope.

(** * quota_policy.py *)

Record QuotaPolicy := Policy {
  agents_per_tenant : Z;
  workflow_runs_per_day : Z;
  concurrent_workflows : Z;
  mesh_messages_per_minute : Z;
  memory_records : Z;
  event_retention : Z;
  marketplace_installs : Z;
  api_calls : Z;
  storage_bytes : Z;
  compute_seconds : Z;
}.

Module QuotaPolicy.

(** [QuotaPolicy()] *)
Definition default : QuotaPolicy := Policy 10 100 5 1000 1000 100000 100 10000 10000000 3600.

Definition as_dict (p : QuotaPolicy) : dict Z :=
  [("agents_per_tenant", agents_per_tenant p); ("workflow_runs_per_day", workflow_runs_per_day p);
   ("concurrent_workflows", concurrent_workflows p);
   ("mesh_messages_per_minute", mesh_messages_per_minute p); ("memory_records", memory_records p);
   ("event_retention", event_retention p); ("marketplace_installs", marketplace_installs p);
   ("api_calls", api_calls p); ("storage_bytes", storage_bytes p);
   ("compute_seconds", compute_seconds p)].

(** [cls( **fields )] for a dict with the ten fields. *)
Definition of_fields (d : dict Z) : QuotaPolicy :=
  let f k := match dget d k with Some z => z | None => 0 end in
  Policy (f "agents_per_tenant") (f "workflow_runs_per_day") (f "concurrent_workflows")
    (f "mesh_messages_per_minute") (f "memory_records") (f "event_retention")
    (f "marketplace_installs") (f "api_calls") (f "storage_bytes") (f "compute_seconds").

Definition from_dict (value : list (string * val)) : res QuotaPolicy :=
  let defaults := as_dict default in
  let? given := res_map (fun p => let? z := py_int p.2 in Ok (p.1, z))
                  (base.filter (fun p => dmem defaults p.1 = true) value) in
  Ok (of_fields (dupdate defaults given)).

(** [getattr(policy, counter)] for the fields of the class. *)
Definition limit (p : QuotaPolicy) (counter : string) : res Z :=
  match dget (as_dict p) counter with
  | Some z => Ok z
  | None => Err (Exn AttributeError ("'QuotaPolicy' object has no attribute " +:+ repr_str counter))
  end.

End QuotaPolicy.

(** * quota_tracker.py *)

(** [QuotaUsage.counters] *)
Abbreviation QuotaUsage := (dict Z).

Module QuotaUsage.

Definition get (counters : QuotaUsage) (name : string) : Z :=
  match dget counters name with Some z => z | None => 0 end.

Definition increment (counters : QuotaUsage) (name : string) (amount : Z) : Z * QuotaUsage :=
  let counters' := dset counters name (get counters name + amount) in (get counters' name, counters').

End QuotaUsage.

(** [QuotaTracker._usage] *)
Abbreviation QuotaTracker := (dict QuotaUsage).

Module QuotaTracker.

(** [usage] enters an empty record for a tenant it does not know. *)
Definition usage (tenant_id : string) : M QuotaTracker QuotaUsage :=
  fun t => match dget t tenant_id with
           | Some u => (Ok u, t)
           | None => (Ok [], dset t tenant_id [])
           end.

Definition increment (tenant_id name : string) (amount : Z) : M QuotaTracker Z :=
  let* u := usage tenant_id in
  let '(n, u') := QuotaUsage.increment u name amount in
  do* modify (fun t => dset t tenant_id u'); ret n.

(** The count a tenant has used, whether the tracker knows it or not. *)
Definition used (t : QuotaTracker) (tenant_id name : string) : Z :=
  match dget t tenant_id with Some u => QuotaUsage.get u name | None => 0 end.

End QuotaTracker.

(** * limit_enforcer.py *)

Module LimitEnforcer.

Definition check (tenant_id : string) (policy : QuotaPolicy) (counter : string) (amount : Z) :
    M QuotaTracker unit :=
  let* limit := of_res (QuotaPolicy.limit policy counter) in
  let* u := QuotaTracker.usage tenant_id in
  if QuotaUsage.get u counter + amount >? limit
  then raise ConflictError ("quota exceeded: " +:+ counter) else ret tt.

Definition consume (tenant_id : string) (policy : QuotaPolicy) (counter : string) (amount : Z) :
    M QuotaTracker Z :=
  do* check tenant_id policy counter amount; QuotaTracker.increment tenant_id counter amount.

End LimitEnforcer.

(** * Lemmas *)

Lemma usage_eq tenant t :
  ∃ u t', QuotaTracker.usage tenant t = (Ok u, t') ∧ dget t' tenant = Some u ∧
    (∀ c, QuotaUsage.get u c = QuotaTracker.used t tenant c) ∧
    (∀ tn c, QuotaTracker.used t' tn c = QuotaTracker.used t tn c).
Proof.
  unfold QuotaTracker.usage, QuotaTracker.used. destruct (dget t tenant) as [u|] eqn:E.
  - exists u, t. by rewrite E.
  - exists [], (dset t tenant []). split_and!; [done|apply dget_dset_eq|done|].
    intros tn c. rewrite dget_dset. case_bool_decide; [subst; by rewrite E|done].
Qed.

Lemma increment_eq tenant c amount t :
  ∃ t', QuotaTracker.increment tenant c amount t = (Ok (QuotaTracker.used t tenant c + amount), t') ∧
    ∀ tn n, QuotaTracker.used t' tn n =
      if bool_decide (tn = tenant ∧ n = c) then QuotaTracker.used t tenant c + amount
      else QuotaTracker.used t tn n.
Proof.
  unfold QuotaTracker.increment, bind.
  destruct (usage_eq tenant t) as (u & t1 & -> & Hu & Hc & Hsame). unfold QuotaUsage.increment.
  cbv zeta. unfold modify, ret. rewrite (Hc c). set (v := QuotaTracker.used t tenant c + amount).
  clearbody v.
  assert (Hg : ∀ n, QuotaUsage.get (dset u c v) n = if bool_decide (c = n) then v else QuotaUsage.get u n).
  { intros n. unfold QuotaUsage.get. rewrite dget_dset. by case_bool_decide. }
  exists (dset t1 tenant (dset u c v)). split.
  { do 2 f_equal. rewrite Hg. by rewrite bool_decide_eq_true_2. }
  intros tn n. unfold QuotaTracker.used at 1. rewrite dget_dset.
  case_bool_decide as Htn; [subst tn; rewrite Hg|].
  - case_bool_decide as Hn; [subst; by rewrite bool_decide_eq_true_2|].
    rewrite bool_decide_eq_false_2 by naive_solver. apply Hc.
  - rewrite bool_decide_eq_false_2 by naive_solver. rewrite <- Hsame. done.
Qed.

Lemma consume_eq tenant p c amount t :
  match LimitEnforcer.consume tenant p c amount t with
  | (Ok n, t') =>
      ∃ l, QuotaPolicy.limit p c = Ok l ∧ n = QuotaTracker.used t tenant c + amount ∧ n <= l ∧
      ∀ tn k, QuotaTracker.used t' tn k =
        if bool_decide (tn = tenant ∧ k = c) then n else QuotaTracker.used t tn k
  | (Err e, t') =>
      (∀ tn k, QuotaTracker.used t' tn k = QuotaTracker.used t tn k) ∧
      match QuotaPolicy.limit p c with
      | Ok l => exn_cls e = ConflictError ∧ l < QuotaTracker.used t tenant c + amount
      | Err e' => e = e'
      end
  end.
Proof.
  unfold LimitEnforcer.consume, LimitEnforcer.check, bind, of_res, raise, ret.
  destruct (QuotaPolicy.limit p c) as [l|e]; [|done].
  destruct (usage_eq tenant t) as (u & t1 & -> & _ & Hc & Hsame).
  rewrite Hc, Z.gtb_ltb. destruct (Z.ltb_spec l (QuotaTracker.used t tenant c + amount)).
  - split; [done|]. split; [done|lia].
  - destruct (increment_eq tenant c amount t1) as (t2 & -> & Hu).
    exists l. split; [done|]. rewrite Hsame. split; [done|]. split; [lia|].
    intros tn k. rewrite Hu, !Hsame. done.
Qed.

(** One call to [consume] under a policy. *)
Inductive consumed (p : QuotaPolicy) : QuotaTracker → QuotaTracker → Prop :=
  | Consumed tenant c amount t :
      consumed p t (after (LimitEnforcer.consume tenant p c amount) t).

(** Every counter is within its limit. *)
Definition within (p : QuotaPolicy) (t : QuotaTracker) : Prop :=
  ∀ tenant c l, QuotaPolicy.limit p c = Ok l → QuotaTracker.used t tenant c <= l.

Lemma consume_within tenant p c amount t : within p t → within p (after (LimitEnforcer.consume tenant p c amount) t).
Proof.
  intros Ht tn k l Hl. unfold after. pose proof (consume_eq tenant p c amount t) as H.
  destruct (LimitEnforcer.consume tenant p c amount t) as [[n|e] t1]; cbn [snd].
  - destruct H as (l' & Hl' & Hn & Hle & ->). case_bool_decide as E; [|by apply Ht].
    destruct E as [-> ->]. rewrite Hl in Hl'. by simplify_eq.
  - destruct H as [-> _]. by apply Ht.
Qed.

(** * Properties *)

(** C37: however many calls are made and in whatever order, no tenant's counter
    passes the limit of the policy; and after them a call that is allowed adds
    its amount to the counter of its tenant and changes no other, while a
    refused one changes no counter. *)
Theorem quota_never_exceeded (p : QuotaPolicy) (t t' : QuotaTracker) :
  within p t → steps (consumed p) t t' →
  within p t' ∧
  ∀ tenant c amount, match LimitEnforcer.consume tenant p c amount t' with
    | (Ok n, t'') => n = QuotaTracker.used t' tenant c + amount ∧
        ∀ tn k, QuotaTracker.used t'' tn k = if bool_decide (tn = tenant ∧ k = c) then n else QuotaTracker.used t' tn k
    | (Err _, t'') => ∀ tn k, QuotaTracker.used t'' tn k = QuotaTracker.used t' tn k
    end.
Proof.
  intros Hw Hs. split.
  - eapply (steps_invariant _ (within p)); [|exact Hs|done]. intros a b [tenant c amount t0]. apply consume_within.
  - intros tenant c amount. pose proof (consume_eq tenant p c amount t') as H.
    destruct (LimitEnforcer.consume tenant p c amount t') as [[n|e] t'']; [|by destruct H].
    destruct H as (l & _ & Hn & _ & H). done.
Qed.

Lemma quota_never_exceeded_witness :
  let run := LimitEnforcer.consume "t" QuotaPolicy.default "concurrent_workflows" 5 [] in
  QuotaTracker.used run.2 "t" "concurrent_workflows" = 5 ∧ within QuotaPolicy.default run.2.
Proof.
  intros run. split; [reflexivity|].
  apply (quota_never_exceeded QuotaPolicy.default []).
  - intros tenant c l Hl. cbn. unfold QuotaPolicy.limit in Hl.
    destruct (dget (QuotaPolicy.as_dict QuotaPolicy.default) c) eqn:E; [|discriminate Hl].
    injection Hl as <-. revert E. cbn. repeat case_bool_decide; intros E; [injection E as <-; lia..|discriminate E].
  - eapply steps_cons; [|apply steps_refl].
    exact (Consumed QuotaPolicy.default "t" "concurrent_workflows" 5 []).
Defined.
