(* ===== verification/Metering.v ===== *)
(** Usage metering (agentfabric/metering): usage events per tenant and their
    totals. *)

From stdpp Require Import base option list strings gmap sets pretty.
From Stdlib Require Import ZArith Lia.
From S2P Require Import Prelude PyVal Json PyTime Store EventStore Documents.

Local Open Scope Z_scope.

(** * usage_event.py *)

Module UsageEvent.

Record t := Mk {
  tenant_id : string;
  event_type : string;
  quantity : Z;
  metadata : doc;
  usage_id : string;
  timestamp : Z;
}.

Definition as_dict (e : t) : doc :=
  [("usage_id", VStr (usage_id e)); ("tenant_id", VStr (tenant_id e));
   ("event_type", VStr (event_type e)); ("quantity", VInt (quantity e));
   ("metadata", VDict (metadata e)); ("timestamp", VStr (isoformat (timestamp e)))].

Definition from_dict (value : doc) : res t :=
  let? usage_id := str_field value "usage_id" in
  let? tenant_id := str_field value "tenant_id" in
  let? event_type := str_field value "event_type" in
  let? quantity := int_field_or value "quantity" 1 in
  let? metadata := dict_field_or_empty value "metadata" in
  let? timestamp := time_field value "timestamp" in
  Ok (Mk tenant_id event_type quantity metadata usage_id timestamp).

Lemma usage_from_as_dict e : time_ok (timestamp e) → from_dict (as_dict e) = Ok e.
Proof.
  intros Ht. unfold from_dict. rewrite (time_field_iso _ _ _ Ht) by done. by destruct e.
Qed.

Lemma usage_dec_enc {X} e (s : X) : time_ok (timestamp e) → of_res (from_dict (as_dict e)) s = (Ok e, s).
Proof. intros He. unfold of_res. by rewrite usage_from_as_dict. Qed.

End UsageEvent.

Abbreviation UsageEvent := UsageEvent.t.

#[export] Instance usage_document `{Oracle} {S} : Document S UsageEvent := {
  d_coll := "usage_events";
  d_key := UsageEvent.usage_id;
  d_enc := UsageEvent.as_dict;
  d_dec d := of_res (UsageEvent.from_dict d);
  d_ok e := time_ok (UsageEvent.timestamp e);
  d_dec_enc := UsageEvent.usage_dec_enc;
  d_enc_ne e := ltac:(done);
}.

(** * aggregation.py *)

Definition aggregate_usage (events : list UsageEvent) : dict Z :=
  foldl (fun totals e =>
    dset totals (UsageEvent.event_type e)
      ((match dget totals (UsageEvent.event_type e) with Some z => z | None => 0 end) + UsageEvent.quantity e)) [] events.

(** * metering_service.py *)

Module MeteringService.
Section MeteringService.
Context `{Oracle} {S : Type} `{PersistenceStore S}.

(** [UsageEvent(...)] draws the id, then the time. *)
Definition record (tenant ty : string) (n : Z) (meta : option doc) : M (sys S) UsageEvent :=
  let* id := uuid4 in
  let* now := utc_now in
  let event := UsageEvent.Mk tenant ty n (match meta with Some m => m | None => [] end) ("use-" +:+ id) now in
  do* doc_put event; ret event.

Definition list_for_tenant (tenant : string) : M (sys S) (list UsageEvent) := doc_list_tenant tenant.

Definition aggregate (tenant : string) : M (sys S) (dict Z) :=
  let* events := list_for_tenant tenant in ret (aggregate_usage events).

(** The usage an event of the log stands for. *)
Definition usage_type (ty : string) : option string :=
  dget [("workflow.started", "workflow_runs"); ("task.completed", "task_executions");
        ("task.failed", "task_executions"); ("message", "message_sends");
        ("memory.recorded", "memory_writes"); ("memory.deleted", "memory_deletes")] ty.

Definition reconstruct_from_events (tenant : string) (evs : list AgentFabricEvent) : dict Z :=
  foldl (fun mapped e =>
    if negb (is_str (dget (payload e) "tenant_id") tenant) then mapped
    else match usage_type (event_type e) with
         | Some u => dset mapped u ((match dget mapped u with Some z => z | None => 0 end) + 1)
         | None => mapped
         end) [] (EventStore.replay None evs).

End MeteringService.
End MeteringService.

(** * Totals *)

Definition total (d : dict Z) (ty : string) : Z := match dget d ty with Some z => z | None => 0 end.

(** The quantity of a type of usage, counted directly. *)
Definition count (ty : string) (l : list UsageEvent) : Z :=
  foldr (fun e n => (if bool_decide (UsageEvent.event_type e = ty) then UsageEvent.quantity e else 0) + n) 0 l.

Lemma count_perm ty l l' : l ≡ₚ l' → count ty l = count ty l'.
Proof. induction 1; simpl; lia. Qed.

Lemma aggregate_usage_count l ty : total (aggregate_usage l) ty = count ty l.
Proof.
  unfold aggregate_usage.
  assert (Hgen : ∀ d, total (foldl (fun totals e => dset totals (UsageEvent.event_type e)
      ((match dget totals (UsageEvent.event_type e) with Some z => z | None => 0 end) + UsageEvent.quantity e)) d l) ty
      = total d ty + count ty l).
  { induction l as [|e l IH]; intros d; simpl; [lia|]. rewrite IH. unfold total at 1.
    rewrite dget_dset. case_bool_decide as E; [subst; unfold total; lia|].
    fold (total d ty). lia. }
  by rewrite Hgen.
Qed.

(** * Properties *)

Section MeteringProperties.
Context `{Oracle} {S : Type} `{StoreLaws S}.

(** Metering is exact and keeps tenants apart. Recording a quantity raises
    the recorded type's total of that tenant by it, and no other total of any
    tenant. *)
Theorem metering_exact (s : sys S) (tenant ty : string) (n : Z) (meta : option doc) (tenant' : string) :
  typed (A := UsageEvent) (db s) → time_ok (clock (Datatypes.S (tick s))) →
  st_get "usage_events" ("use-" +:+ uuid_hex (tick s)) (db s) = None →
  ∃ e s' tot tot' s1 s2,
    MeteringService.record tenant ty n meta s = (Ok e, s') ∧
    MeteringService.aggregate tenant' s = (Ok tot, s1) ∧
    MeteringService.aggregate tenant' s' = (Ok tot', s2) ∧
    ∀ ty', total tot' ty' =
           total tot ty' + if bool_decide (tenant' = tenant ∧ ty' = ty) then n else 0.
Proof.
  intros Ht Hclock Hnew. unfold MeteringService.record, bind, uuid4, utc_now, ret. cbn [tick db].
  set (e := UsageEvent.Mk tenant ty n _ ("use-" +:+ uuid_hex (tick s)) _).
  assert (He : d_ok (S := S) e) by exact Hclock.
  set (s' := Sys (st_put "usage_events" (UsageEvent.usage_id e) (UsageEvent.as_dict e) (db s))
               (events s) (durable s) (Datatypes.S (Datatypes.S (tick s)))).
  assert (Ht' : typed (A := UsageEvent) (db s')) by exact (typed_put e (db s) He Ht).
  destruct (doc_list_tenant_eq tenant' s Ht) as (l & Hl & El & Sl).
  destruct (doc_list_tenant_eq tenant' s' Ht') as (l' & Hl' & El' & Sl').
  exists e, s', (aggregate_usage l), (aggregate_usage l'), s, s'.
  unfold MeteringService.aggregate, MeteringService.list_for_tenant, bind.
  rewrite Hl, Hl'. split_and!; [done..|]. intros ty'. rewrite !aggregate_usage_count.
  assert (Hp : l' ≡ₚ (if bool_decide (tenant = tenant') then [e] else []) ++ l).
  { eapply (d_enc_perm _ _ s); [by eapply Forall_stored_ok| |].
    - apply Forall_app. split; [by case_bool_decide; constructor|by eapply Forall_stored_ok].
    - rewrite El', fmap_app, El. unfold s'. cbn [db].
      etransitivity; [apply list_tenant_put_new; exact Hnew|]. simpl.
      by case_bool_decide. }
  rewrite (count_perm _ _ _ Hp). case_bool_decide as E; simpl.
  - subst tenant'. destruct (decide (ty' = ty)) as [->|Hne].
    + rewrite !bool_decide_eq_true_2 by done. lia.
    + rewrite !bool_decide_eq_false_2 by naive_solver. lia.
  - rewrite bool_decide_eq_false_2 by naive_solver. lia.
Qed.

End MeteringProperties.

Lemma metering_exact_witness :
  ∃ e s' tot tot' s1 s2,
    MeteringService.record (H := demo_oracle) "t" "api" 3 None demo_start = (Ok e, s') ∧
    MeteringService.aggregate (H := demo_oracle) "t" demo_start = (Ok tot, s1) ∧
    MeteringService.aggregate (H := demo_oracle) "t" s' = (Ok tot', s2) ∧
    ∀ ty', total tot' ty' = total tot ty' + if bool_decide ("t" = "t" ∧ ty' = "api") then 3 else 0.
Proof.
  apply (metering_exact (H := demo_oracle)).
  - intros k d Hk. discriminate Hk.
  - vm_compute. split; congruence.
  - reflexivity.
Defined.
