(* ===== verification/Veil.v ===== *)
(** The boundary to the VEIL policy service (veil_client): the requests and
    responses, the protocol every service is written against, and the mock
    client. A client answers the [n]-th question of a process from the request
    alone or from a service this repository does not hold, so a method takes
    the number of the question and may raise. *)

From stdpp Require Import base option list strings gmap.
From Stdlib Require Import ZArith.
From S2P Require Import Prelude PyVal Store EventStore Documents.

Local Open Scope Z_scope.

(** * models.py *)

Module SanitizeContext.
Record request := Req { agent_id : string; tenant_id : string; context : doc }.
Record response := Resp { sanitized_context : doc; redactions : list string }.
End SanitizeContext.

Module PolicyCheck.
Record request := Req { agent_id : string; action : string; payload : doc }.
Record response := Resp { allowed : bool; reason : string }.
End PolicyCheck.

Module Restore.
Record request := Req { agent_id : string; restore_token : string; justification : string }.
Record response := Resp { approved : bool; restored_context : doc }.
End Restore.

Module AuditEvent.
Record request := Req { agent_id : string; event_type : string; payload : doc }.
Record response := Resp { event_id : string; accepted : bool }.
End AuditEvent.

Module ToolVerification.
Record request := Req { agent_id : string; tool_name : string; tool_input : doc }.
Record response := Resp { allowed : bool; reason : string }.
End ToolVerification.

Module TokenIssue.
Record request := Req { agent_id : string; scopes : list string; ttl_seconds : Z }.
Record response := Resp { token : string; expires_in_seconds : Z }.
End TokenIssue.

(** * interfaces.py *)

Class VeilClient := {
  sanitize_context : nat → SanitizeContext.request → res SanitizeContext.response;
  check_policy : nat → PolicyCheck.request → res PolicyCheck.response;
  request_restore : nat → Restore.request → res Restore.response;
  create_audit_event : nat → AuditEvent.request → res AuditEvent.response;
  verify_tool_action : nat → ToolVerification.request → res ToolVerification.response;
  issue_agent_token : nat → TokenIssue.request → res TokenIssue.response;
}.

(** A call to a method of the client. *)
Definition veil_call {S Q R} (method : nat → Q → res R) (q : Q) : M (sys S) R :=
  fun s => (method (tick s) q, Sys (db s) (events s) (durable s) (Datatypes.S (tick s))).

Lemma reads_veil_call `{Oracle} {S} `{PersistenceStore S} {Q R} x (method : nat → Q → res R) (q : Q) :
  preserves (reads (S := S) x) (veil_call method q).
Proof. intros s Hs. exact Hs. Qed.

#[export] Hint Resolve reads_veil_call : preserve.

(** * mock.py *)

Module MockVeilClient.

Definition sanitize_context (r : SanitizeContext.request) : SanitizeContext.response :=
  SanitizeContext.Resp (SanitizeContext.context r) [].
Definition check_policy (r : PolicyCheck.request) : PolicyCheck.response := PolicyCheck.Resp true "".
Definition request_restore (r : Restore.request) : Restore.response := Restore.Resp false [].
Definition create_audit_event (r : AuditEvent.request) : AuditEvent.response :=
  AuditEvent.Resp ("audit:" +:+ AuditEvent.agent_id r +:+ ":" +:+ AuditEvent.event_type r) true.
Definition verify_tool_action (r : ToolVerification.request) : ToolVerification.response :=
  ToolVerification.Resp true "".
Definition issue_agent_token (r : TokenIssue.request) : TokenIssue.response :=
  TokenIssue.Resp ("mock-token:" +:+ TokenIssue.agent_id r) (TokenIssue.ttl_seconds r).

End MockVeilClient.

Definition mock_veil : VeilClient := {|
  sanitize_context _ r := Ok (MockVeilClient.sanitize_context r);
  check_policy _ r := Ok (MockVeilClient.check_policy r);
  request_restore _ r := Ok (MockVeilClient.request_restore r);
  create_audit_event _ r := Ok (MockVeilClient.create_audit_event r);
  verify_tool_action _ r := Ok (MockVeilClient.verify_tool_action r);
  issue_agent_token _ r := Ok (MockVeilClient.issue_agent_token r);
|}.
