(* ===== verification/Job.v ===== *)
(** Runtime jobs (agentfabric/cloud/job.py). *)

From stdpp Require Import base option list strings gmap sets pretty.
From Stdlib Require Import ZArith Lia.
From S2P Require Import Prelude PyVal Json PyTime Store EventStore Documents.

Local Open Scope Z_scope.

Module JobStatus.
Definition QUEUED : string := "queued".
Definition ASSIGNED : string := "assigned".
Definition RUNNING : string := "running".
Definition COMPLETED : string := "completed".
Definition FAILED : string := "failed".
Definition CANCELLED : string := "cancelled".
Definition DEAD_LETTERED : string := "dead_lettered".
End JobStatus.

Definition RUNTIME_JOB_TYPES : list string := [
  "agent_run"; "workflow_step"; "mesh_message_delivery"; "governance_action";
  "marketplace_package"; "recovery"; "memory_retention"; "audit_export";
  "reputation_recalculation"; "remote_discovery_sync"; "federated_message_send";
  "federated_message_receipt"; "remote_delegation"; "revocation_propagation";
  "federation_reputation_recalculation"; "connector_sync"; "connector_search";
  "connector_document_fetch"; "connector_event_ingestion"; "connector_webhook_handling";
  "connector_credential_rotation_check"; "tool_execution"; "tool_retry"; "tool_approval_pause";
  "tool_result_persistence"; "tool_audit_export"; "tool_reputation_update"; "evaluation_run";
  "evaluation_gate_check"; "feedback_ingestion"; "quality_score_recalculation"].

Module RuntimeJob.

Record t := Mk {
  tenant_id : string;
  organization_id : string;
  created_by : string;
  job_type : string;
  payload : doc;
  queue_name : string;
  max_attempts : Z;
  job_id : string;
  status : string;
  attempts : Z;
  assigned_worker_id : option string;
  last_error : string;
  created_at : Z;
  updated_at : Z;
  started_at : option Z;
  completed_at : option Z;
}.

Definition set_payload (x : doc) (j : t) : t :=
  Mk (tenant_id j) (organization_id j) (created_by j) (job_type j) x (queue_name j) (max_attempts j) (job_id j) (status j) (attempts j) (assigned_worker_id j) (last_error j) (created_at j) (updated_at j) (started_at j) (completed_at j).
Definition set_status (x : string) (j : t) : t :=
  Mk (tenant_id j) (organization_id j) (created_by j) (job_type j) (payload j) (queue_name j) (max_attempts j) (job_id j) x (attempts j) (assigned_worker_id j) (last_error j) (created_at j) (updated_at j) (started_at j) (completed_at j).
Definition set_attempts (x : Z) (j : t) : t :=
  Mk (tenant_id j) (organization_id j) (created_by j) (job_type j) (payload j) (queue_name j) (max_attempts j) (job_id j) (status j) x (assigned_worker_id j) (last_error j) (created_at j) (updated_at j) (started_at j) (completed_at j).
Definition set_assigned_worker_id (x : option string) (j : t) : t :=
  Mk (tenant_id j) (organization_id j) (created_by j) (job_type j) (payload j) (queue_name j) (max_attempts j) (job_id j) (status j) (attempts j) x (last_error j) (created_at j) (updated_at j) (started_at j) (completed_at j).
Definition set_last_error (x : string) (j : t) : t :=
  Mk (tenant_id j) (organization_id j) (created_by j) (job_type j) (payload j) (queue_name j) (max_attempts j) (job_id j) (status j) (attempts j) (assigned_worker_id j) x (created_at j) (updated_at j) (started_at j) (completed_at j).
Definition set_updated_at (x : Z) (j : t) : t :=
  Mk (tenant_id j) (organization_id j) (created_by j) (job_type j) (payload j) (queue_name j) (max_attempts j) (job_id j) (status j) (attempts j) (assigned_worker_id j) (last_error j) (created_at j) x (started_at j) (completed_at j).
Definition set_started_at (x : option Z) (j : t) : t :=
  Mk (tenant_id j) (organization_id j) (created_by j) (job_type j) (payload j) (queue_name j) (max_attempts j) (job_id j) (status j) (attempts j) (assigned_worker_id j) (last_error j) (created_at j) (updated_at j) x (completed_at j).
Definition set_completed_at (x : option Z) (j : t) : t :=
  Mk (tenant_id j) (organization_id j) (created_by j) (job_type j) (payload j) (queue_name j) (max_attempts j) (job_id j) (status j) (attempts j) (assigned_worker_id j) (last_error j) (created_at j) (updated_at j) (started_at j) x.

Definition as_dict (j : t) : doc :=
  [("job_id", VStr (job_id j)); ("tenant_id", VStr (tenant_id j));
   ("organization_id", VStr (organization_id j)); ("created_by", VStr (created_by j));
   ("job_type", VStr (job_type j)); ("payload", VDict (payload j));
   ("queue_name", VStr (queue_name j)); ("max_attempts", VInt (max_attempts j));
   ("status", VStr (status j)); ("attempts", VInt (attempts j));
   ("assigned_worker_id", opt_str (assigned_worker_id j)); ("last_error", VStr (last_error j));
   ("created_at", VStr (isoformat (created_at j))); ("updated_at", VStr (isoformat (updated_at j)));
   ("started_at", opt_iso (started_at j)); ("completed_at", opt_iso (completed_at j))].

Section Calls.
Context `{Oracle} {S : Type}.

Definition from_dict (value : doc) : M (sys S) t :=
  let* job_id := of_res (str_field value "job_id") in
  let* tenant_id := of_res (str_field value "tenant_id") in
  let* organization_id := of_res (str_field value "organization_id") in
  let* job_type := of_res (str_field value "job_type") in
  let* payload := of_res (dict_field_or_empty value "payload") in
  let* max_attempts := of_res (int_field_or value "max_attempts" 3) in
  let* attempts := of_res (int_field_or value "attempts" 0) in
  let* created_at := time_field_or_now value "created_at" in
  let* updated_at := time_field_or_now value "updated_at" in
  let* started_at := of_res (opt_time_field value "started_at") in
  let* completed_at := of_res (opt_time_field value "completed_at") in
  ret (Mk tenant_id organization_id (str_field_or value "created_by" "") job_type payload
         (str_field_or value "queue_name" "default") max_attempts job_id
         (str_field_or value "status" JobStatus.QUEUED) attempts
         (opt_str_field value "assigned_worker_id") (str_field_or value "last_error" "")
         created_at updated_at started_at completed_at).

(** [RuntimeJob(tenant_id=..., ...)] with every other field at its default. *)
Definition new (tenant_id organization_id created_by job_type : string) (payload : doc) : M (sys S) t :=
  let* id := uuid4 in
  let* created := utc_now in
  let* updated := utc_now in
  ret (Mk tenant_id organization_id created_by job_type payload "default" 3 ("job-" +:+ id)
         JobStatus.QUEUED 0 None "" created updated None None).

Definition sensitive : list string := ["secret"; "raw"; "password"; "token_value"].

Definition validate (j : t) : res unit :=
  if bool_decide (tenant_id j = "") || bool_decide (organization_id j = "")
  then Err (Exn ValueError "tenant context is required")
  else if negb (bool_decide (job_type j ∈ RUNTIME_JOB_TYPES))
  then Err (Exn ValueError ("unsupported job type: " +:+ job_type j))
  else if existsb (fun p => bool_decide (lower p.1 ∈ sensitive)) (payload j)
  then Err (Exn ValueError "raw sensitive job payload values are not allowed")
  else Ok tt.

Definition with_update (updates : doc) (j : t) : M (sys S) t :=
  let* now := utc_now in
  from_dict (dset (dupdate (as_dict j) updates) "updated_at" (VStr (isoformat now))).

(** A job whose document is read back as it is. *)
Definition job_ok (j : t) : Prop :=
  assigned_worker_id j ≠ Some "" ∧ time_ok (created_at j) ∧ time_ok (updated_at j) ∧
  opt_time_ok (started_at j) ∧ opt_time_ok (completed_at j).

Lemma job_from_as_dict j (s : sys S) : job_ok j → from_dict (as_dict j) s = (Ok j, s).
Proof.
  intros (Hw & Hc & Hu & Hs & Hd). unfold from_dict, bind, of_res, ret.
  cbn -[time_field_or_now opt_time_field opt_str_field isoformat].
  rewrite (time_field_or_now_iso _ _ _ _ Hc), (time_field_or_now_iso _ _ _ _ Hu) by done.
  rewrite (opt_time_field_iso _ "started_at" (started_at j)), (opt_time_field_iso _ "completed_at" (completed_at j)).
  2-5: first [done | intros t E; by rewrite E in *].
  rewrite (opt_str_field_eq _ _ _ Hw) by done. by destruct j.
Qed.

(** The clock reading a call in state [s] gets. *)
Definition now (s : sys S) : Z := clock (tick s).
Definition ticked (s : sys S) : sys S := Sys (db s) (events s) (durable s) (Datatypes.S (tick s)).

(** [with_update] gives the job [j'] when the updates turn the document of [j]
    into the one of [j'] and [j'] can be read back. *)
Lemma with_update_eq updates j j' (s : sys S) :
  dset (dupdate (as_dict j) updates) "updated_at" (VStr (isoformat (now s))) = as_dict j' →
  job_ok j' → with_update updates j s = (Ok j', ticked s).
Proof.
  intros E Hj. unfold with_update, bind, utc_now. fold (now s). rewrite E. by apply job_from_as_dict.
Qed.

Lemma with_update_status x j (s : sys S) :
  job_ok j → time_ok (now s) →
  with_update [("status", VStr x)] j s = (Ok (set_updated_at (now s) (set_status x j)), ticked s).
Proof. intros (? & ? & ? & ? & ?) Hn. by apply with_update_eq. Qed.

Lemma with_update_lease n j (s : sys S) :
  job_ok j → time_ok (now s) →
  with_update [("status", VStr JobStatus.ASSIGNED); ("attempts", VInt n)] j s =
  (Ok (set_updated_at (now s) (set_attempts n (set_status JobStatus.ASSIGNED j))), ticked s).
Proof. intros (? & ? & ? & ? & ?) Hn. by apply with_update_eq. Qed.

Lemma with_update_worker w j (s : sys S) :
  job_ok j → time_ok (now s) → w ≠ "" →
  with_update [("assigned_worker_id", VStr w)] j s =
  (Ok (set_updated_at (now s) (set_assigned_worker_id (Some w) j)), ticked s).
Proof. intros (? & ? & ? & ? & ?) Hn Hw. apply with_update_eq; [done|]. split; [simpl; congruence|done]. Qed.

Lemma with_update_running t j (s : sys S) :
  job_ok j → time_ok (now s) → time_ok t →
  with_update [("status", VStr JobStatus.RUNNING); ("started_at", VStr (isoformat t))] j s =
  (Ok (set_updated_at (now s) (set_started_at (Some t) (set_status JobStatus.RUNNING j))), ticked s).
Proof. intros (? & ? & ? & ? & ?) Hn Ht. by apply with_update_eq. Qed.

Lemma with_update_completed t p j (s : sys S) :
  job_ok j → time_ok (now s) → time_ok t →
  with_update [("status", VStr JobStatus.COMPLETED); ("completed_at", VStr (isoformat t));
               ("payload", VDict p); ("last_error", VStr "")] j s =
  (Ok (set_updated_at (now s) (set_last_error "" (set_payload p (set_completed_at (Some t)
         (set_status JobStatus.COMPLETED j))))), ticked s).
Proof. intros (? & ? & ? & ? & ?) Hn Ht. by apply with_update_eq. Qed.

Lemma with_update_error x e j (s : sys S) :
  job_ok j → time_ok (now s) →
  with_update [("status", VStr x); ("last_error", VStr e)] j s =
  (Ok (set_updated_at (now s) (set_last_error e (set_status x j))), ticked s).
Proof. intros (? & ? & ? & ? & ?) Hn. by apply with_update_eq. Qed.

End Calls.

(** The updates keep a job readable. *)
Lemma job_ok_updated n j : job_ok j → time_ok n → job_ok (set_updated_at n j).
Proof. by intros (? & ? & ? & ? & ?). Qed.

End RuntimeJob.

Abbreviation RuntimeJob := RuntimeJob.t.

#[export] Instance job_document `{Oracle} {S} : Document S RuntimeJob := {
  d_coll := "runtime_jobs";
  d_key := RuntimeJob.job_id;
  d_enc := RuntimeJob.as_dict;
  d_dec := RuntimeJob.from_dict;
  d_ok := RuntimeJob.job_ok;
  d_dec_enc := RuntimeJob.job_from_as_dict;
  d_enc_ne j := ltac:(done);
}.
