(* ===== verification/Queue.v ===== *)
(** The job queues of agentfabric/cloud/queue_backends: the in-memory queue and
    the queue that also writes its jobs to a SQLite store. *)

From stdpp Require Import base option list strings gmap sets pretty.
From Stdlib Require Import ZArith Lia.
From S2P Require Import Prelude PyVal Json PyTime Store EventStore Documents Quotas Job.

Local Open Scope Z_scope.

(** [MemoryJobQueue]: the jobs in the order they were first stored, a queue of
    job ids per queue name, and the dead letters. *)
Record MemoryJobQueue := MemQueue {
  _jobs : dict RuntimeJob;
  _queues : dict (list string);
  _dead : dict RuntimeJob;
}.

(** A process of the cloud runtime: the environment its services share, the
    queue, the quota counters, the handlers registered per job type and the
    readings of [perf_counter] around each completed job, of which the code
    keeps the difference. *)
Record cloud (S : Type) := Cloud {
  env : sys S;
  queue : MemoryJobQueue;
  quota : QuotaTracker;
  handlers : dict (RuntimeJob → M (sys S) doc);
  latency_ms : list (Z * Z);
}.
Arguments Cloud {S}.
Arguments env {S}.
Arguments queue {S}.
Arguments quota {S}.
Arguments handlers {S}.
Arguments latency_ms {S}.

Section State.
Context {S : Type}.

Definition set_env (e : sys S) (c : cloud S) : cloud S :=
  Cloud e (queue c) (quota c) (handlers c) (latency_ms c).
Definition set_queue (q : MemoryJobQueue) (c : cloud S) : cloud S :=
  Cloud (env c) q (quota c) (handlers c) (latency_ms c).
Definition set_quota (q : QuotaTracker) (c : cloud S) : cloud S :=
  Cloud (env c) (queue c) q (handlers c) (latency_ms c).

(** A call on the environment. *)
Definition on_env {A} (m : M (sys S) A) : M (cloud S) A := zoom env set_env m.

End State.

Module Queue.

Definition set_job (id : string) (j : RuntimeJob) (q : MemoryJobQueue) : MemoryJobQueue :=
  MemQueue (dset (_jobs q) id j) (_queues q) (_dead q).

(** [self._queues.setdefault(name, deque())] *)
Definition ids (name : string) (q : MemoryJobQueue) : list string :=
  match dget (_queues q) name with Some l => l | None => [] end.

Definition set_ids (name : string) (l : list string) (q : MemoryJobQueue) : MemoryJobQueue :=
  MemQueue (_jobs q) (dset (_queues q) name l) (_dead q).

Section Operations.
Context `{Oracle} {S : Type}.

Abbreviation C := (M (cloud S)).

Definition update (f : MemoryJobQueue → MemoryJobQueue) : C unit :=
  modify (fun c => set_queue (f (queue c)) c).

Definition enqueue (job : RuntimeJob) : C RuntimeJob :=
  do* of_res (RuntimeJob.validate job);
  let* queued := on_env (RuntimeJob.with_update [("status", VStr JobStatus.QUEUED)] job) in
  do* update (set_job (RuntimeJob.job_id queued) queued);
  let name := RuntimeJob.queue_name queued in
  do* update (fun q => set_ids name (ids name q ++ [RuntimeJob.job_id queued]) q);
  ret queued.

(** The job belongs to the tenant that asks, if one does. *)
Definition for_tenant (tenant_id : option string) (job : RuntimeJob) : bool :=
  match tenant_id with
  | None => true
  | Some t => bool_decide (RuntimeJob.tenant_id job = t)
  end.

(** The loop of [dequeue]: [n] turns are left. *)
Fixpoint dequeue_loop (n : nat) (tenant_id : option string) (name : string) : C (option RuntimeJob) :=
  match n with
  | O => ret None
  | Datatypes.S n' =>
      let* q := gets queue in
      match ids name q with
      | [] => raise IndexError "pop from an empty deque"
      | job_id :: rest =>
          do* update (set_ids name rest);
          match dget (_jobs q) job_id with
          | None => dequeue_loop n' tenant_id name
          | Some job =>
              if negb (bool_decide (RuntimeJob.status job = JobStatus.QUEUED))
              then dequeue_loop n' tenant_id name
              else if negb (for_tenant tenant_id job)
              then do* update (fun q => set_ids name (ids name q ++ [job_id]) q);
                   dequeue_loop n' tenant_id name
              else
              let* leased := on_env (RuntimeJob.with_update
                [("status", VStr JobStatus.ASSIGNED);
                 ("attempts", VInt (RuntimeJob.attempts job + 1))] job) in
              do* update (set_job job_id leased);
              ret (Some leased)
          end
      end
  end.

Definition dequeue (tenant_id : option string) (name : string) : C (option RuntimeJob) :=
  do* update (fun q => set_ids name (ids name q) q);
  let* n := gets (fun c => length (ids name (queue c))) in
  dequeue_loop n tenant_id name.

Definition put (job : RuntimeJob) : C RuntimeJob :=
  do* update (set_job (RuntimeJob.job_id job) job);
  do* (if bool_decide (RuntimeJob.status job = JobStatus.QUEUED)
       then update (fun q =>
         let name := RuntimeJob.queue_name job in
         let l := ids name q in
         set_ids name (if bool_decide (RuntimeJob.job_id job ∈ l) then l
                       else l ++ [RuntimeJob.job_id job]) q)
       else ret tt);
  ret job.

Definition get (job_id : string) (q : MemoryJobQueue) : option RuntimeJob :=
  match dget (_jobs q) job_id with Some j => Some j | None => dget (_dead q) job_id end.

Definition created_le (a b : RuntimeJob) : bool := RuntimeJob.created_at a <=? RuntimeJob.created_at b.
Definition updated_le (a b : RuntimeJob) : bool := RuntimeJob.updated_at a <=? RuntimeJob.updated_at b.

Definition list_jobs (tenant_id : option string) (q : MemoryJobQueue) : list RuntimeJob :=
  base.filter (fun j => for_tenant tenant_id j = true) (py_sorted created_le (_jobs q).*2).

Definition dead_letter (job : RuntimeJob) : C RuntimeJob :=
  let* dead := on_env (RuntimeJob.with_update [("status", VStr JobStatus.DEAD_LETTERED)] job) in
  do* update (fun q => MemQueue (dset (_jobs q) (RuntimeJob.job_id dead) dead) (_queues q)
                         (dset (_dead q) (RuntimeJob.job_id dead) dead));
  ret dead.

Definition dead_letters (tenant_id : option string) (q : MemoryJobQueue) : list RuntimeJob :=
  base.filter (fun j => for_tenant tenant_id j = true) (py_sorted updated_le (_dead q).*2).

Definition health (q : MemoryJobQueue) : doc :=
  [("status", VStr "ok"); ("backend", VStr "memory");
   ("queued_jobs", VInt (Z.of_nat (length (base.filter
      (fun p => RuntimeJob.status p.2 = JobStatus.QUEUED) (_jobs q)))));
   ("dead_letter_jobs", VInt (Z.of_nat (length (_dead q))))].

End Operations.
End Queue.

(** * The scan of a queue *)

Section Scan.
Context {S : Type} (jobs : dict RuntimeJob) (tenant : option string).

Definition is_queued (id : string) : Prop :=
  ∃ j, dget jobs id = Some j ∧ RuntimeJob.status j = JobStatus.QUEUED.

(** The job a dequeue may lease. *)
Definition eligible (id : string) (j : RuntimeJob) : Prop :=
  dget jobs id = Some j ∧ RuntimeJob.status j = JobStatus.QUEUED ∧ Queue.for_tenant tenant j = true.

(** The loop of [dequeue] on lists: [back] are the ids it moved to the end. *)
Fixpoint scan (todo back : list string) : option (string * RuntimeJob) * list string :=
  match todo with
  | [] => (None, back)
  | id :: rest =>
      match dget jobs id with
      | None => scan rest back
      | Some j =>
          if negb (bool_decide (RuntimeJob.status j = JobStatus.QUEUED)) then scan rest back
          else if negb (Queue.for_tenant tenant j) then scan rest (back ++ [id])
          else (Some (id, j), rest ++ back)
      end
  end.

(** The first eligible job is found, and the queued jobs in front of it are
    moved behind the rest. *)
Lemma scan_spec todo back :
  match scan todo back with
  | (Some (id, j), q') =>
      ∃ pre post, todo = pre ++ id :: post ∧ eligible id j ∧
        (∀ i j', i ∈ pre → ¬ eligible i j') ∧
        (∀ i, is_queued i → i ∈ pre ++ post ++ back → i ∈ q')
  | (None, q') => (∀ i j', i ∈ todo → ¬ eligible i j') ∧ (∀ i, is_queued i → i ∈ todo ++ back → i ∈ q')
  end.
Proof.
  revert back. induction todo as [|id rest IH]; intros back; simpl; [set_solver|].
  assert (Hskip : ∀ back', back ⊆ back' → (is_queued id → id ∈ back') →
    (∀ j', ¬ eligible id j') →
    match scan rest back' with
    | (Some (i, j), q') =>
        ∃ pre post, id :: rest = pre ++ i :: post ∧ eligible i j ∧
          (∀ i j', i ∈ pre → ¬ eligible i j') ∧
          (∀ i, is_queued i → i ∈ pre ++ post ++ back → i ∈ q')
    | (None, q') => (∀ i j', i ∈ id :: rest → ¬ eligible i j') ∧
                    (∀ i, is_queued i → i ∈ id :: rest ++ back → i ∈ q')
    end).
  { intros back' Hb Hid' Hid. specialize (IH back'). destruct (scan rest back') as [[[i j]|] q'].
    - destruct IH as (pre & post & -> & Hj & Hpre & Hin). exists (id :: pre), post.
      split; [done|]. split; [done|]. split.
      + intros i0 j' [->|Hi]%elem_of_cons; [apply Hid|by apply Hpre].
      + intros i0 Hi0 Hmem. apply Hin; [done|]. rewrite elem_of_app, elem_of_cons in Hmem.
        rewrite !elem_of_app in *. destruct Hmem as [[->|?]|[?|?]]; auto.
    - destruct IH as [Hno Hin]. split.
      + intros i0 j' [->|Hi]%elem_of_cons; [apply Hid|by apply Hno].
      + intros i0 Hi0 Hmem. apply Hin; [done|]. rewrite elem_of_cons in Hmem.
        rewrite !elem_of_app in *. destruct Hmem as [->|[?|?]]; auto. }
  destruct (dget jobs id) as [j|] eqn:Hg.
  - case_bool_decide as Hst; simpl.
    + destruct (Queue.for_tenant tenant j) eqn:Ht; simpl.
      * exists [], rest. split; [done|]. split; [done|]. split; [|done]. by intros i j' ?%elem_of_nil.
      * apply Hskip; [set_solver|set_solver|]. intros j' (Hj' & _ & Ht'). congruence.
    + apply Hskip; [done| |].
      * intros (j' & Hj' & Hs). congruence.
      * intros j' (Hj' & Hs & _). congruence.
  - apply Hskip; [done| |].
    + intros (j' & Hj' & Hs). congruence.
    + intros j' (Hj' & Hs & _). congruence.
Qed.

End Scan.

(** * The invariant *)

Section Invariant.
Implicit Types (q : MemoryJobQueue) (j job : RuntimeJob).

Lemma ids_set_ids name name' l q :
  Queue.ids name' (Queue.set_ids name l q) = if bool_decide (name = name') then l else Queue.ids name' q.
Proof. unfold Queue.ids, Queue.set_ids. simpl. rewrite dget_dset. by case_bool_decide. Qed.

Lemma set_ids_set_ids name l l' q :
  Queue.set_ids name l' (Queue.set_ids name l q) = Queue.set_ids name l' q.
Proof. unfold Queue.set_ids. simpl. by rewrite dset_dset. Qed.

(** The queue after [put]. *)
Definition put_queue job q : MemoryJobQueue :=
  let q1 := Queue.set_job (RuntimeJob.job_id job) job q in
  if bool_decide (RuntimeJob.status job = JobStatus.QUEUED) then
    let name := RuntimeJob.queue_name job in
    Queue.set_ids name (if bool_decide (RuntimeJob.job_id job ∈ Queue.ids name q1) then Queue.ids name q1
                        else Queue.ids name q1 ++ [RuntimeJob.job_id job]) q1
  else q1.

(** Every job is stored under its id and can be read back, and a queued job is
    in the queue it names. *)
Definition queue_ok (q : MemoryJobQueue) : Prop :=
  (∀ id j, dget (_jobs q) id = Some j → RuntimeJob.job_id j = id ∧ RuntimeJob.job_ok j) ∧
  (∀ id j, dget (_dead q) id = Some j → RuntimeJob.job_id j = id ∧ RuntimeJob.job_ok j) ∧
  (∀ id j, dget (_jobs q) id = Some j → RuntimeJob.status j = JobStatus.QUEUED →
           id ∈ Queue.ids (RuntimeJob.queue_name j) q).

Lemma queue_ok_set_job j q :
  RuntimeJob.job_ok j → RuntimeJob.status j ≠ JobStatus.QUEUED → queue_ok q →
  queue_ok (Queue.set_job (RuntimeJob.job_id j) j q).
Proof.
  intros Hj Hs (H1 & H2 & H3). split_and!; [|done|]; intros id j'; simpl; rewrite dget_dset;
    case_bool_decide; [intros [= <-]; by subst|apply H1|congruence|apply H3].
Qed.

Lemma queue_ok_put j q : RuntimeJob.job_ok j → queue_ok q → queue_ok (put_queue j q).
Proof.
  intros Hj Hq. unfold put_queue. case_bool_decide as Hs; [|by apply queue_ok_set_job].
  destruct Hq as (H1 & H2 & H3). set (q1 := Queue.set_job _ _ _). set (name := RuntimeJob.queue_name j).
  assert (Hids : ∀ n, Queue.ids n q1 = Queue.ids n q) by done.
  split_and!; [|done|].
  - intros id j'. simpl. rewrite dget_dset. case_bool_decide; [intros [= <-]; by subst|apply H1].
  - intros id j'. simpl. rewrite dget_dset, ids_set_ids. case_bool_decide as E.
    + intros [= <-] _. subst id. fold name. rewrite bool_decide_eq_true_2 by done.
      case_bool_decide; set_solver.
    + intros Hj' Hs'. specialize (H3 id j' Hj' Hs'). rewrite Hids.
      case_bool_decide as En; [|exact H3]. rewrite <- En in H3. case_bool_decide; set_solver.
Qed.

Lemma queue_ok_enqueue j q :
  RuntimeJob.job_ok j → queue_ok q →
  let q1 := Queue.set_job (RuntimeJob.job_id j) j q in
  let name := RuntimeJob.queue_name j in
  queue_ok (Queue.set_ids name (Queue.ids name q1 ++ [RuntimeJob.job_id j]) q1).
Proof.
  intros Hj (H1 & H2 & H3) q1 name. assert (Hids : ∀ n, Queue.ids n q1 = Queue.ids n q) by done.
  split_and!; [|done|].
  - intros id j'. simpl. rewrite dget_dset. case_bool_decide; [intros [= <-]; by subst|apply H1].
  - intros id j'. simpl. rewrite dget_dset, ids_set_ids, Hids. case_bool_decide as E.
    + intros [= <-] _. subst id. rewrite bool_decide_eq_true_2 by done. set_solver.
    + intros Hj' Hs'. specialize (H3 id j' Hj' Hs').
      case_bool_decide as En; [|exact H3]. rewrite <- En in H3. set_solver.
Qed.

End Invariant.

(** * What the operations do *)

Section Outcomes.
Context `{Oracle} {S : Type}.
Hypothesis clock_ok : ∀ n, time_ok (clock n).
Implicit Types (c : cloud S) (q : MemoryJobQueue) (j : RuntimeJob).

Abbreviation tick_env c := (set_env (RuntimeJob.ticked (env c)) c).
Abbreviation time_of c := (RuntimeJob.now (env c)).

Lemma time_of_ok c : time_ok (time_of c).
Proof. apply clock_ok. Qed.

(** A [with_update] of the queue's code whose result is known. *)
Lemma on_env_update updates j j' c :
  RuntimeJob.with_update updates j (env c) = (Ok j', RuntimeJob.ticked (env c)) →
  on_env (RuntimeJob.with_update updates j) c = (Ok j', tick_env c).
Proof. unfold on_env, zoom. by intros ->. Qed.

Definition queued_job c j : RuntimeJob :=
  RuntimeJob.set_updated_at (time_of c) (RuntimeJob.set_status JobStatus.QUEUED j).
Definition leased_job c j : RuntimeJob :=
  RuntimeJob.set_updated_at (time_of c) (RuntimeJob.set_attempts (RuntimeJob.attempts j + 1)
    (RuntimeJob.set_status JobStatus.ASSIGNED j)).
Definition dead_job c j : RuntimeJob :=
  RuntimeJob.set_updated_at (time_of c) (RuntimeJob.set_status JobStatus.DEAD_LETTERED j).

Lemma enqueue_eq job c :
  RuntimeJob.job_ok job →
  Queue.enqueue job c =
  match RuntimeJob.validate job with
  | Err e => (Err e, c)
  | Ok _ =>
      let queued := queued_job c job in
      let id := RuntimeJob.job_id job in let name := RuntimeJob.queue_name job in
      let q := Queue.set_job id queued (queue c) in
      (Ok queued, set_queue (Queue.set_ids name (Queue.ids name q ++ [id]) q) (tick_env c))
  end.
Proof.
  intros Hj. unfold Queue.enqueue, bind at 1, of_res. destruct (RuntimeJob.validate job); [|done].
  unfold bind, Queue.update, modify, ret.
  rewrite (on_env_update _ job (queued_job c job)) by (apply RuntimeJob.with_update_status; [done|apply clock_ok]).
  done.
Qed.

Lemma dead_letter_eq job c :
  RuntimeJob.job_ok job →
  Queue.dead_letter job c =
  (Ok (dead_job c job),
   set_queue (MemQueue (dset (_jobs (queue c)) (RuntimeJob.job_id job) (dead_job c job)) (_queues (queue c))
                (dset (_dead (queue c)) (RuntimeJob.job_id job) (dead_job c job))) (tick_env c)).
Proof.
  intros Hj. unfold Queue.dead_letter, bind, Queue.update, modify, ret.
  rewrite (on_env_update _ job (dead_job c job)) by (apply RuntimeJob.with_update_status; [done|apply clock_ok]).
  done.
Qed.

Lemma put_eq job c : Queue.put job c = (Ok job, set_queue (put_queue job (queue c)) c).
Proof.
  unfold Queue.put, put_queue, bind, Queue.update, modify, ret. cbn [queue set_queue].
  by case_bool_decide.
Qed.

(** The lease of a job the loop found. *)
Definition lease (id : string) (j : RuntimeJob) : M (cloud S) (option RuntimeJob) :=
  let* leased := on_env (RuntimeJob.with_update
    [("status", VStr JobStatus.ASSIGNED); ("attempts", VInt (RuntimeJob.attempts j + 1))] j) in
  do* Queue.update (Queue.set_job id leased);
  ret (Some leased).

Lemma dequeue_loop_scan todo back tenant name c :
  dget (_queues (queue c)) name = Some (todo ++ back) →
  Queue.dequeue_loop (length todo) tenant name c =
  match scan (_jobs (queue c)) tenant todo back with
  | (None, q') => (Ok None, set_queue (Queue.set_ids name q' (queue c)) c)
  | (Some (id, j), q') => lease id j (set_queue (Queue.set_ids name q' (queue c)) c)
  end.
Proof.
  revert back c. induction todo as [|id todo IH]; intros back c Hq; simpl.
  { unfold ret, Queue.set_ids, set_queue. rewrite dset_same by done. by destruct c as [? []]. }
  unfold bind at 1, gets. unfold Queue.ids at 1. rewrite Hq. cbn [app].
  unfold bind at 1, Queue.update at 1, modify at 1.
  set (c1 := set_queue (Queue.set_ids name (todo ++ back) (queue c)) c).
  assert (IH1 : Queue.dequeue_loop (length todo) tenant name c1 =
    match scan (_jobs (queue c)) tenant todo back with
    | (None, q') => (Ok None, set_queue (Queue.set_ids name q' (queue c)) c)
    | (Some (id, j), q') => lease id j (set_queue (Queue.set_ids name q' (queue c)) c)
    end).
  { rewrite (IH back) by (simpl; apply dget_dset_eq). cbn [queue c1 set_queue _jobs Queue.set_ids].
    destruct (scan _ _ _ _) as [[[i j]|] q']; rewrite set_ids_set_ids; done. }
  destruct (dget (_jobs (queue c)) id) as [j|]; [|exact IH1].
  destruct (bool_decide (RuntimeJob.status j = JobStatus.QUEUED)); cbn [negb]; [|exact IH1].
  destruct (Queue.for_tenant tenant j); cbn [negb]; [done|].
  unfold bind, Queue.update, modify. rewrite (IH (back ++ [id])).
  - cbn [queue c1 set_queue _jobs]. rewrite ids_set_ids, bool_decide_eq_true_2 by done.
    change (_jobs (Queue.set_ids _ _ _)) with (_jobs (queue c)).
    destruct (scan (_jobs (queue c)) tenant todo (back ++ [id])) as [[[i j']|] q'];
      rewrite !set_ids_set_ids; done.
  - cbn [queue c1 set_queue]. rewrite ids_set_ids, bool_decide_eq_true_2 by done. simpl.
    rewrite dget_dset_eq. by rewrite <- app_assoc.
Qed.

Lemma dequeue_scan tenant name c :
  Queue.dequeue tenant name c =
  match scan (_jobs (queue c)) tenant (Queue.ids name (queue c)) [] with
  | (None, q') => (Ok None, set_queue (Queue.set_ids name q' (queue c)) c)
  | (Some (id, j), q') => lease id j (set_queue (Queue.set_ids name q' (queue c)) c)
  end.
Proof.
  unfold Queue.dequeue, bind, Queue.update, modify, gets.
  set (l := Queue.ids name (queue c)). cbn [queue set_queue]. rewrite ids_set_ids, bool_decide_eq_true_2 by done.
  rewrite (dequeue_loop_scan l []).
  - cbn [queue set_queue Queue.set_ids _jobs].
    destruct (scan _ _ _ _) as [[[i j]|] q']; rewrite set_ids_set_ids; done.
  - cbn. rewrite dget_dset_eq. by rewrite app_nil_r.
Qed.

Lemma lease_eq id j c :
  RuntimeJob.job_ok j →
  lease id j c = (Ok (Some (leased_job c j)),
                  set_queue (Queue.set_job id (leased_job c j) (queue c)) (tick_env c)).
Proof.
  intros Hj. unfold lease, bind, Queue.update, modify, ret.
  rewrite (on_env_update _ j (leased_job c j)) by (apply RuntimeJob.with_update_lease; [done|apply clock_ok]).
  done.
Qed.

(** ** The operations keep it *)

Definition cloud_ok c : Prop := queue_ok (queue c).

Lemma enqueue_ok j : RuntimeJob.job_ok j → preserves cloud_ok (Queue.enqueue j).
Proof.
  intros Hj c Hc. unfold after. rewrite enqueue_eq by done. destruct (RuntimeJob.validate j); [|done].
  apply (queue_ok_enqueue (queued_job c j)); [|done]. apply RuntimeJob.job_ok_updated; [done|apply clock_ok].
Qed.

Lemma put_ok j : RuntimeJob.job_ok j → preserves cloud_ok (Queue.put j).
Proof. intros Hj c Hc. unfold after. rewrite put_eq. by apply queue_ok_put. Qed.

Lemma dead_letter_ok j : RuntimeJob.job_ok j → preserves cloud_ok (Queue.dead_letter j).
Proof.
  intros Hj c (H1 & H2 & H3). unfold after. rewrite dead_letter_eq by done.
  assert (Hd : RuntimeJob.job_ok (dead_job c j)) by (apply RuntimeJob.job_ok_updated; [done|apply clock_ok]).
  split_and!; intros id j'; simpl; rewrite dget_dset; case_bool_decide as E;
    [intros [= <-]; by subst|apply H1|intros [= <-]; by subst|apply H2|by intros [= <-]|apply H3].
Qed.

Lemma dequeue_ok tenant name : preserves cloud_ok (Queue.dequeue tenant name).
Proof.
  intros c (H1 & H2 & H3). unfold after. rewrite dequeue_scan.
  pose proof (scan_spec (_jobs (queue c)) tenant (Queue.ids name (queue c)) []) as Hscan.
  assert (Hkeep : ∀ q' : list string, (∀ i, is_queued (_jobs (queue c)) i → i ∈ Queue.ids name (queue c) → i ∈ q') →
    queue_ok (Queue.set_ids name q' (queue c))).
  { intros q' Hq'. split_and!; [done..|]. intros id j Hj Hs. simpl in Hj. rewrite ids_set_ids.
    specialize (H3 id j Hj Hs). case_bool_decide as En; [|exact H3]. rewrite <- En in H3.
    apply Hq'; [by exists j|done]. }
  destruct (scan _ _ _ _) as [[[id j]|] q'].
  - destruct Hscan as (pre & post & Hids & (Hj & Hs & _) & _ & Hin).
    destruct (H1 id j Hj) as [<- Hok]. rewrite lease_eq by done. simpl.
    set (c' := set_queue (Queue.set_ids name q' (queue c)) c).
    change (queue_ok (Queue.set_job (RuntimeJob.job_id j) (leased_job c' j) (Queue.set_ids name q' (queue c)))).
    destruct (decide (RuntimeJob.job_id j ∈ q')) as [Hmem|Hmem].
    + apply (queue_ok_set_job (leased_job c' j)); [apply RuntimeJob.job_ok_updated; [done|apply clock_ok]|done|].
      apply Hkeep. intros i Hi. rewrite Hids. rewrite app_nil_r in Hin. specialize (Hin i Hi).
      set_solver.
    + (* the leased id left the queue, and its job is no longer queued *)
      assert (Hl : RuntimeJob.job_ok (leased_job c' j)) by (apply RuntimeJob.job_ok_updated; [done|apply clock_ok]).
      split_and!; [|done|]; intros id j'; simpl; rewrite dget_dset; case_bool_decide as E;
        [intros [= <-]; by subst|apply H1|by intros [= <-]|].
      intros Hj' Hs'. specialize (H3 id j' Hj' Hs').
      change (id ∈ Queue.ids (RuntimeJob.queue_name j') (Queue.set_ids name q' (queue c))).
      rewrite ids_set_ids. case_bool_decide as En; [|exact H3]. rewrite <- En in H3.
      apply Hin; [by exists j'|]. rewrite Hids in H3. set_solver.
  - simpl. apply Hkeep. intros i Hi Hmem. apply (proj2 Hscan); [done|]. by rewrite app_nil_r.
Qed.

End Outcomes.

(** * The SQLite queue *)

(** [SQLiteJobQueue]: the in-memory queue and the store its jobs are written
    to. *)
Module SQLiteQueue.
Section SQLiteQueue.
Context `{Oracle} {S T : Type} `{PersistenceStore T}.

Record t := Mk { base : cloud S; store : T }.

Definition on_base {A} (m : M (cloud S) A) : M t A := zoom base (fun b s => Mk b (store s)) m.

Definition store_put (c k : string) (d : doc) : M t unit :=
  modify (fun s => Mk (base s) (st_put c k d (store s))).

Definition load_into (set : string → RuntimeJob → MemoryJobQueue → MemoryJobQueue) (d : doc) : M t unit :=
  let* job := on_base (on_env (RuntimeJob.from_dict d)) in
  on_base (Queue.update (set (RuntimeJob.job_id job) job)).

(** [__init__]: a new in-memory queue, then the jobs and the dead letters of
    the store. *)
Definition init : M t unit :=
  do* on_base (Queue.update (fun _ => MemQueue [] [] []));
  do* modify (fun s => Mk (base s) (st_initialize (store s)));
  let* items := gets (fun s => st_list "runtime_jobs" (store s)) in
  do* for_each items (load_into Queue.set_job);
  let* dead := gets (fun s => st_list "runtime_dead_letters" (store s)) in
  for_each dead (load_into (fun id j q => MemQueue (_jobs q) (_queues q) (dset (_dead q) id j))).

Definition enqueue (job : RuntimeJob) : M t RuntimeJob :=
  let* queued := on_base (Queue.enqueue job) in
  do* store_put "runtime_jobs" (RuntimeJob.job_id queued) (RuntimeJob.as_dict queued); ret queued.

Definition dequeue (tenant_id : option string) (name : string) : M t (option RuntimeJob) :=
  let* job := on_base (Queue.dequeue tenant_id name) in
  match job with
  | Some j => do* store_put "runtime_jobs" (RuntimeJob.job_id j) (RuntimeJob.as_dict j); ret job
  | None => ret job
  end.

Definition put (job : RuntimeJob) : M t RuntimeJob :=
  let* saved := on_base (Queue.put job) in
  do* store_put "runtime_jobs" (RuntimeJob.job_id saved) (RuntimeJob.as_dict saved); ret saved.

Definition dead_letter (job : RuntimeJob) : M t RuntimeJob :=
  let* dead := on_base (Queue.dead_letter job) in
  do* store_put "runtime_jobs" (RuntimeJob.job_id dead) (RuntimeJob.as_dict dead);
  do* store_put "runtime_dead_letters" (RuntimeJob.job_id dead) (RuntimeJob.as_dict dead); ret dead.

Definition no_ids (s : t) : Prop := _queues (queue (base s)) = [].

Lemma load_no_ids set l :
  (∀ id j q, _queues (set id j q) = _queues q) → preserves no_ids (for_each l (load_into set)).
Proof.
  intros Hset. apply preserves_for_each. intros d. apply preserves_bind.
  - intros s Hs. unfold after, no_ids, on_base, on_env, zoom in *.
    by destruct (RuntimeJob.from_dict d (env (base s))) as [r e].
  - intros j s Hs. unfold after, no_ids, on_base, zoom, Queue.update, modify in *. simpl. by rewrite Hset.
Qed.

Lemma init_no_ids s : no_ids (after init s).
Proof.
  assert (Hp : ∀ s, no_ids s → no_ids (after (
    do* modify (fun s => Mk (base s) (st_initialize (store s)));
    let* items := gets (fun s => st_list "runtime_jobs" (store s)) in
    do* for_each items (load_into Queue.set_job);
    let* dead := gets (fun s => st_list "runtime_dead_letters" (store s)) in
    for_each dead (load_into (fun id j q => MemQueue (_jobs q) (_queues q) (dset (_dead q) id j)))) s)).
  { apply (preserves_bind no_ids); [by apply preserves_modify|intros _].
    apply preserves_bind; [apply preserves_gets|intros items].
    apply preserves_bind; [by apply load_no_ids|intros _].
    apply preserves_bind; [apply preserves_gets|intros dead]. by apply load_no_ids. }
  unfold init, after, bind at 1. apply Hp. done.
Qed.

End SQLiteQueue.
Arguments t S T : clear implicits.
End SQLiteQueue.

(** * Properties *)

Section QueueProperties.
Context `{Oracle} {S : Type}.
Hypothesis clock_ok : ∀ n, time_ok (clock n).

(** One call on the queue, returned or not. *)
Inductive queue_step : cloud S → cloud S → Prop :=
  | Step_enqueue j c : RuntimeJob.job_ok j → queue_step c (after (Queue.enqueue j) c)
  | Step_dequeue tenant name c : queue_step c (after (Queue.dequeue tenant name) c)
  | Step_put j c : RuntimeJob.job_ok j → queue_step c (after (Queue.put j) c)
  | Step_dead_letter j c : RuntimeJob.job_ok j → queue_step c (after (Queue.dead_letter j) c).

Lemma steps_enqueue l c :
  Forall RuntimeJob.job_ok l →
  steps queue_step c (fold_left (fun c j => after (Queue.enqueue j) c) l c).
Proof.
  intros Hl. revert c. induction Hl as [|j l Hj _ IH]; intros c; simpl; [constructor|].
  eapply steps_cons; [by apply Step_enqueue|apply IH].
Qed.

Lemma steps_queue_ok c c' : queue_ok (queue c) → steps queue_step c c' → queue_ok (queue c').
Proof.
  intros Hc Hs. eapply (steps_invariant _ cloud_ok); [|exact Hs|exact Hc]. intros a b [].
  - by apply enqueue_ok.
  - by apply dequeue_ok.
  - by apply put_ok.
  - by apply dead_letter_ok.
Qed.

(** C8: [dequeue] leases the first job of the queue that is queued and belongs
    to the tenant that asks: it is marked assigned, its attempts go up by one
    and no other job changes. It returns nothing only when no queued job of the
    tenant names the queue. It never raises. *)
Theorem dequeue_first (c : cloud S) (tenant : option string) (name : string) :
  queue_ok (queue c) →
  match Queue.dequeue tenant name c with
  | (Ok (Some leased), c') =>
      ∃ pre j post,
        Queue.ids name (queue c) = pre ++ RuntimeJob.job_id j :: post ∧
        eligible (_jobs (queue c)) tenant (RuntimeJob.job_id j) j ∧
        (∀ id j', id ∈ pre → ¬ eligible (_jobs (queue c)) tenant id j') ∧
        leased = RuntimeJob.set_updated_at (RuntimeJob.now (env c))
                   (RuntimeJob.set_attempts (RuntimeJob.attempts j + 1)
                     (RuntimeJob.set_status JobStatus.ASSIGNED j)) ∧
        ∀ id, dget (_jobs (queue c')) id =
              if bool_decide (RuntimeJob.job_id j = id) then Some leased else dget (_jobs (queue c)) id
  | (Ok None, c') =>
      _jobs (queue c') = _jobs (queue c) ∧
      ∀ id j, dget (_jobs (queue c)) id = Some j → RuntimeJob.status j = JobStatus.QUEUED →
              RuntimeJob.queue_name j = name → Queue.for_tenant tenant j = false
  | (Err _, _) => False
  end.
Proof.
  intros (H1 & H2 & H3). rewrite dequeue_scan.
  pose proof (scan_spec (_jobs (queue c)) tenant (Queue.ids name (queue c)) []) as Hscan.
  destruct (scan _ _ _ _) as [[[id j]|] q'].
  - destruct Hscan as (pre & post & Hids & Hel & Hpre & _). pose proof Hel as (Hj & _ & _).
    destruct (H1 id j Hj) as [<- Hok]. rewrite lease_eq by done.
    exists pre, j, post. split_and!; [done..|]. intros id'. simpl. by rewrite dget_dset.
  - destruct Hscan as [Hno _]. split; [done|]. intros id j Hj Hs <-.
    destruct (Queue.for_tenant tenant j) eqn:Et; [|done].
    destruct (Hno id j); [by apply H3|done].
Qed.

(** A restarted SQLite queue has lost its queues. Whatever jobs its store
    holds, after [__init__] every [dequeue] returns nothing. *)
Theorem sqlite_restart_forgets_queues {T} `{PersistenceStore T} (s : SQLiteQueue.t S T)
    (tenant : option string) (name : string) :
  let s1 := after SQLiteQueue.init s in
  (SQLiteQueue.dequeue tenant name s1).1 = Ok None ∧
  _jobs (queue (SQLiteQueue.base (after (SQLiteQueue.dequeue tenant name) s1))) =
  _jobs (queue (SQLiteQueue.base s1)).
Proof.
  intros s1. pose proof (SQLiteQueue.init_no_ids s : SQLiteQueue.no_ids s1) as Hno. clearbody s1.
  unfold SQLiteQueue.dequeue, after, bind, SQLiteQueue.on_base, zoom. rewrite dequeue_scan.
  assert (Queue.ids name (queue (SQLiteQueue.base s1)) = []) as ->; [|done].
  unfold Queue.ids. by rewrite Hno.
Qed.

End QueueProperties.

(** ** Witnesses *)

Definition demo_cloud : cloud Memory.store := Cloud demo_start (MemQueue [] [] []) [] [] [].

Definition demo_job (id tenant : string) : RuntimeJob :=
  RuntimeJob.Mk tenant "org" "me" "agent_run" [] "default" 3 id JobStatus.QUEUED 0 None "" 0 0 None None.

Lemma demo_job_ok id tenant : RuntimeJob.job_ok (demo_job id tenant).
Proof. repeat split; vm_compute; congruence. Qed.

Lemma demo_cloud_ok : queue_ok (queue demo_cloud).
Proof. repeat split; intros; discriminate. Qed.

(** Four jobs of two tenants, in the order a1, a2, b1, a3. *)
Definition demo_queued : cloud Memory.store :=
  fold_left (fun c j => after (Queue.enqueue (H := demo_oracle) j) c)
    [demo_job "a1" "a"; demo_job "a2" "a"; demo_job "b1" "b"; demo_job "a3" "a"] demo_cloud.

Lemma demo_queued_steps : steps (queue_step (H := demo_oracle)) demo_cloud demo_queued.
Proof. apply (steps_enqueue (H := demo_oracle)). repeat constructor; apply demo_job_ok. Qed.

Lemma demo_queued_ok : queue_ok (queue demo_queued).
Proof.
  exact (steps_queue_ok (H := demo_oracle) demo_clock demo_cloud demo_queued demo_cloud_ok demo_queued_steps).
Qed.

Lemma dequeue_first_witness :
  ∃ leased c' pre j post,
    Queue.dequeue (H := demo_oracle) (Some "b") "default" demo_queued = (Ok (Some leased), c') ∧
    Queue.ids "default" (queue demo_queued) = pre ++ RuntimeJob.job_id j :: post ∧
    RuntimeJob.status leased = JobStatus.ASSIGNED.
Proof.
  pose proof (dequeue_first (H := demo_oracle) demo_clock demo_queued (Some "b") "default" demo_queued_ok) as Hd.
  destruct (Queue.dequeue (Some "b") "default" demo_queued) as [[[leased|]|e] c'] eqn:E.
  - destruct Hd as (pre & j & post & Hids & _ & _ & -> & _). eexists _, c', pre, j, post.
    split; [reflexivity|]. split; [exact Hids|reflexivity].
  - exfalso. apply (f_equal fst) in E. vm_compute in E. discriminate E.
  - destruct Hd.
Defined.

(** A dequeue for one tenant moves the jobs of another behind later ones: after
    it tenant a is served a3 before a1. *)
Example dequeue_reorders_other_tenants :
  Queue.ids "default" (queue demo_queued) = ["a1"; "a2"; "b1"; "a3"] ∧
  Queue.ids "default" (queue (after (Queue.dequeue (H := demo_oracle) (Some "b") "default") demo_queued))
  = ["a3"; "a1"; "a2"].
Proof. vm_compute. split; reflexivity. Qed.
