(* ===== verification/Dispatcher.v ===== *)
(** Dispatch and execution of jobs (agentfabric/cloud/dispatcher.py). *)

From stdpp Require Import base option list strings gmap sets pretty.
From Stdlib Require Import ZArith Lia.
From S2P Require Import Prelude PyVal Json PyTime Store EventStore Documents Quotas Job Queue Veil.

Local Open Scope Z_scope.

(** The checks a [Dispatcher] was built with. [quota_enforcer] says that it has
    an enforcer: the counters it enforces are in the state. *)
Record Checks (S : Type) := {
  quota_enforcer : bool;
  quota_policy : option (string → res QuotaPolicy);
  entitlement_check : option (RuntimeJob → M (sys S) unit);
  governance_check : option (RuntimeJob → M (sys S) unit);
  federation_check : option (RuntimeJob → M (sys S) unit);
  spend_check : option (RuntimeJob → M (sys S) unit);
}.
Arguments quota_enforcer {S}.
Arguments quota_policy {S}.
Arguments entitlement_check {S}.
Arguments governance_check {S}.
Arguments federation_check {S}.
Arguments spend_check {S}.

Module Dispatcher.
Section Dispatcher.
Context `{Oracle} `{VeilClient} {S : Type} `{PersistenceStore S} (checks : Checks S).

Abbreviation C := (M (cloud S)).

(** A call on the quota counters. *)
Definition on_quota {A} (m : M QuotaTracker A) : C A := zoom quota set_quota m.

Definition append (ty id : string) (body : doc) : C AgentFabricEvent :=
  on_env (EventStore.append ty id body).

Definition register_handler (job_type : string) (handler : RuntimeJob → M (sys S) doc) : C unit :=
  modify (fun c => Cloud (env c) (queue c) (quota c) (dset (handlers c) job_type handler) (latency_ms c)).

Definition run_check (c : option (RuntimeJob → M (sys S) unit)) (job : RuntimeJob) : C unit :=
  match c with Some f => on_env (f job) | None => ret tt end.

Definition federation_job_types : list string :=
  ["remote_discovery_sync"; "federated_message_send"; "federated_message_receipt";
   "remote_delegation"; "revocation_propagation"; "federation_reputation_recalculation"].

Definition _enforce (job : RuntimeJob) : C unit :=
  if bool_decide (RuntimeJob.tenant_id job = "")
  then raise AuthorizationError "job execution requires tenant context"
  else
  do* (if quota_enforcer checks then
         match quota_policy checks with
         | Some policy_of =>
             let* policy := of_res (policy_of (RuntimeJob.tenant_id job)) in
             let* used := on_quota (LimitEnforcer.consume (RuntimeJob.tenant_id job) policy "compute_seconds" 1) in
             ret tt
         | None => ret tt
         end
       else ret tt);
  do* run_check (spend_check checks) job;
  do* (if bool_decide (RuntimeJob.job_type job = "governance_action")
       then run_check (governance_check checks) job else ret tt);
  do* (if bool_decide (RuntimeJob.job_type job ∈ ["agent_run"; "marketplace_package"])
       then run_check (entitlement_check checks) job else ret tt);
  do* (if bool_decide (RuntimeJob.job_type job ∈ federation_job_types)
       then run_check (federation_check checks) job else ret tt);
  let* response := on_env (veil_call check_policy
    (PolicyCheck.Req
       (py_str (dget_or (RuntimeJob.payload job) "agent_id" (VStr (RuntimeJob.created_by job))))
       ("runtime.execute." +:+ RuntimeJob.job_type job) (RuntimeJob.as_dict job))) in
  if negb (PolicyCheck.allowed response)
  then raise AuthorizationError
         (if bool_decide (PolicyCheck.reason response = "") then "VEIL policy denied job execution"
          else PolicyCheck.reason response)
  else ret tt.

Definition _default_handler (job : RuntimeJob) : M (sys S) doc :=
  match dget (RuntimeJob.payload job) "force_fail" with
  | Some v =>
      if truthy v then raise ConflictError "forced job failure"
      else ret [("job_id", VStr (RuntimeJob.job_id job)); ("job_type", VStr (RuntimeJob.job_type job));
                ("status", VStr "ok")]
  | None =>
      ret [("job_id", VStr (RuntimeJob.job_id job)); ("job_type", VStr (RuntimeJob.job_type job));
           ("status", VStr "ok")]
  end.

(** [self.handlers.get(job.job_type, self._default_handler)] *)
Definition handler_for (job_type : string) (c : cloud S) : RuntimeJob → M (sys S) doc :=
  match dget (handlers c) job_type with Some h => h | None => _default_handler end.

(** The body of the [try] of [execute]. *)
Definition run_job (job_type : string) (running : RuntimeJob) (started : Z) : C RuntimeJob :=
  let* handler := gets (handler_for job_type) in
  let* result := on_env (handler running) in
  let* now := on_env utc_now in
  let* completed := on_env (RuntimeJob.with_update
    [("status", VStr JobStatus.COMPLETED); ("completed_at", VStr (isoformat now));
     ("payload", VDict (dset (RuntimeJob.payload running) "result" (VDict result)));
     ("last_error", VStr "")] running) in
  let* saved := Queue.put completed in
  let* finished := on_env perf_counter in
  do* modify (fun c => Cloud (env c) (queue c) (quota c) (handlers c) (latency_ms c ++ [(started, finished)]));
  let* event := append "runtime.job.completed" (RuntimeJob.job_id completed) (RuntimeJob.as_dict completed) in
  ret completed.

(** The [except Exception] of [execute]. *)
Definition job_failed (running : RuntimeJob) (exc : exn) : C RuntimeJob :=
  let* failed := on_env (RuntimeJob.with_update
    [("status", VStr JobStatus.FAILED); ("last_error", VStr (exn_msg exc))] running) in
  let* event := append "runtime.job.failed" (RuntimeJob.job_id failed) (RuntimeJob.as_dict failed) in
  if RuntimeJob.attempts failed >=? RuntimeJob.max_attempts failed then
    let* dead := Queue.dead_letter failed in
    let* event := append "runtime.job.dead_lettered" (RuntimeJob.job_id dead) (RuntimeJob.as_dict dead) in
    ret dead
  else
    let* requeued := on_env (RuntimeJob.with_update [("status", VStr JobStatus.QUEUED)] failed) in
    let* saved := Queue.put requeued in
    let* event := append "runtime.job.retried" (RuntimeJob.job_id failed) (RuntimeJob.as_dict failed) in
    ret failed.

Definition execute (job : RuntimeJob) : C RuntimeJob :=
  do* of_res (RuntimeJob.validate job);
  do* _enforce job;
  let* now := on_env utc_now in
  let* running := on_env (RuntimeJob.with_update
    [("status", VStr JobStatus.RUNNING); ("started_at", VStr (isoformat now))] job) in
  let* saved := Queue.put running in
  let* event := append "runtime.job.started" (RuntimeJob.job_id running) (RuntimeJob.as_dict running) in
  let* started := on_env perf_counter in
  try_except (run_job (RuntimeJob.job_type job) running started) (job_failed running).

Definition dispatch_one (tenant_id : option string) (queue_name worker_id : string) : C (option RuntimeJob) :=
  let* job := Queue.dequeue tenant_id queue_name in
  match job with
  | None => ret None
  | Some job =>
      let* assigned := on_env (RuntimeJob.with_update [("assigned_worker_id", VStr worker_id)] job) in
      let* saved := Queue.put assigned in
      let* event := append "runtime.job.assigned" (RuntimeJob.job_id assigned) (RuntimeJob.as_dict assigned) in
      let* done := execute assigned in
      ret (Some done)
  end.

End Dispatcher.
End Dispatcher.

(** * What a dispatch does to the queue *)

(** The two copies are of the same job at the same attempt. *)
Definition same_job (a b : RuntimeJob) : Prop :=
  RuntimeJob.job_id a = RuntimeJob.job_id b ∧ RuntimeJob.tenant_id a = RuntimeJob.tenant_id b ∧
  RuntimeJob.job_type a = RuntimeJob.job_type b ∧ RuntimeJob.queue_name a = RuntimeJob.queue_name b ∧
  RuntimeJob.max_attempts a = RuntimeJob.max_attempts b ∧ RuntimeJob.attempts a = RuntimeJob.attempts b.

Lemma same_job_trans a b c : same_job a b → same_job b c → same_job a c.
Proof. unfold same_job. intuition congruence. Qed.

(** How the last copy of an executed job is stored. *)
Definition store_final (f : RuntimeJob) (q : MemoryJobQueue) : MemoryJobQueue :=
  if bool_decide (RuntimeJob.status f = JobStatus.DEAD_LETTERED)
  then MemQueue (dset (_jobs q) (RuntimeJob.job_id f) f) (_queues q) (dset (_dead q) (RuntimeJob.job_id f) f)
  else put_queue f q.

(** The outcome of the attempt of [job]: what is returned and what is stored. *)
Definition outcome (job returned final : RuntimeJob) : Prop :=
  same_job job returned ∧ same_job job final ∧ RuntimeJob.job_ok final ∧
  ((RuntimeJob.status returned = JobStatus.COMPLETED ∧ final = returned) ∨
   (RuntimeJob.max_attempts job <= RuntimeJob.attempts job ∧
    RuntimeJob.status returned = JobStatus.DEAD_LETTERED ∧ final = returned) ∨
   (RuntimeJob.attempts job < RuntimeJob.max_attempts job ∧
    RuntimeJob.status returned = JobStatus.FAILED ∧ RuntimeJob.status final = JobStatus.QUEUED)).

Section Outcomes.
Context `{Oracle} `{VeilClient} {S : Type} `{PersistenceStore S} (checks : Checks S).
Hypothesis clock_ok : ∀ n, time_ok (clock n).
Implicit Types (c : cloud S) (j : RuntimeJob).

Lemma bind_on_env {A B} (m : M (sys S) A) (f : A → M (cloud S) B) c :
  bind (on_env m) f c =
  match m (env c) with
  | (Ok a, s') => f a (set_env s' c)
  | (Err e, s') => (Err e, set_env s' c)
  end.
Proof. unfold bind, on_env, zoom. by destruct (m (env c)) as [[a|e] s']. Qed.

(** Appending a registered event returns and changes only the environment. *)
Lemma bind_append {B} ty id body (f : AgentFabricEvent → M (cloud S) B) c :
  bool_decide (ty ∈ EVENT_TYPE_REGISTRY) = true →
  ∃ e s', bind (Dispatcher.append ty id body) f c = f e (set_env s' c).
Proof.
  intros Hty. unfold Dispatcher.append. rewrite bind_on_env, EventStore.append_eq, Hty. by eexists _, _.
Qed.

Lemma bind_put {B} j (f : RuntimeJob → M (cloud S) B) c :
  bind (Queue.put j) f c = f j (set_queue (put_queue j (queue c)) c).
Proof. unfold bind. by rewrite put_eq. Qed.

Lemma now_ok (s : sys S) : time_ok (RuntimeJob.now s).
Proof. apply clock_ok. Qed.

(** Steps over an append of the program. *)
Ltac do_append :=
  match goal with
  | |- context [bind (Dispatcher.append ?ty ?id ?body) ?f ?c] =>
      let e := fresh "ev" in let s := fresh "s" in
      destruct (bind_append ty id body f c) as (e & s & ->); [vm_compute; reflexivity|]
  end.

Ltac ok_after := apply RuntimeJob.job_ok_updated; [done|apply now_ok].

Lemma job_failed_outcome running exc c :
  RuntimeJob.job_ok running →
  ∃ j final c', Dispatcher.job_failed running exc c = (Ok j, c') ∧
    queue c' = store_final final (queue c) ∧ outcome running j final.
Proof.
  intros Hr. unfold Dispatcher.job_failed.
  rewrite bind_on_env, RuntimeJob.with_update_error by (done || apply now_ok).
  set (failed := RuntimeJob.set_updated_at _ _).
  assert (Hf : RuntimeJob.job_ok failed) by ok_after.
  do_append. change (RuntimeJob.attempts failed) with (RuntimeJob.attempts running).
  change (RuntimeJob.max_attempts failed) with (RuntimeJob.max_attempts running).
  rewrite Z.geb_leb. destruct (Z.leb_spec (RuntimeJob.max_attempts running) (RuntimeJob.attempts running)).
  - unfold bind at 1. rewrite dead_letter_eq by done. set (dead := dead_job _ failed).
    assert (Hd : RuntimeJob.job_ok dead) by ok_after. do_append. unfold ret.
    eexists dead, dead, _. split; [reflexivity|]. split; [reflexivity|].
    split; [repeat split|]. split; [repeat split|]. split; [exact Hd|]. right; left. done.
  - rewrite bind_on_env, RuntimeJob.with_update_status by (done || apply now_ok).
    set (requeued := RuntimeJob.set_updated_at _ (RuntimeJob.set_status JobStatus.QUEUED failed)).
    assert (Hq : RuntimeJob.job_ok requeued) by ok_after.
    rewrite bind_put. do_append. unfold ret.
    eexists failed, requeued, _. split; [reflexivity|]. split; [reflexivity|].
    split; [repeat split|]. split; [repeat split|]. split; [exact Hq|]. right; right. done.
Qed.

Lemma run_job_outcome ty running started c :
  RuntimeJob.job_ok running →
  match Dispatcher.run_job ty running started c with
  | (Err e, c') => queue c' = queue c
  | (Ok j, c') => queue c' = store_final j (queue c) ∧ outcome running j j
  end.
Proof.
  intros Hr. unfold Dispatcher.run_job. unfold bind at 1, gets.
  rewrite bind_on_env. destruct (Dispatcher.handler_for ty c running (env c)) as [[result|e] s1].
  2:{ done. }
  rewrite bind_on_env. unfold utc_now at 1. cbv beta iota.
  rewrite bind_on_env, RuntimeJob.with_update_completed by (done || apply now_ok || apply clock_ok).
  set (completed := RuntimeJob.set_updated_at _ _).
  assert (Hc : RuntimeJob.job_ok completed).
  { destruct Hr as (? & ? & ? & ? & ?). split_and!; first [done | apply clock_ok | apply now_ok]. }
  rewrite bind_put, bind_on_env. unfold perf_counter at 1. cbv beta iota. unfold bind at 1, modify.
  do_append. unfold ret. split; [reflexivity|].
  split; [repeat split|]. split; [repeat split|]. split; [exact Hc|]. by left.
Qed.

Lemma enforce_queue job c : queue (after (Dispatcher._enforce checks job) c) = queue c.
Proof.
  assert (Hp : preserves (fun c' => queue c' = queue c) (Dispatcher._enforce checks job)); [|by apply Hp].
  assert (Henv : ∀ A (m : M (sys S) A), preserves (fun c' => queue c' = queue c) (on_env m)).
  { intros A m. by apply (preserves_zoom _ (fun _ => True)). }
  assert (Hquota : ∀ A (m : M QuotaTracker A), preserves (fun c' => queue c' = queue c) (Dispatcher.on_quota m)).
  { intros A m. by apply (preserves_zoom _ (fun _ => True)). }
  assert (Hcheck : ∀ o, preserves (fun c' => queue c' = queue c) (Dispatcher.run_check o job)).
  { intros [f|]; [apply Henv|apply preserves_ret]. }
  unfold Dispatcher._enforce.
  repeat first [apply Henv | apply Hquota | apply Hcheck | apply preserves_if | apply preserves_ret
    | apply preserves_raise | apply preserves_of_res | apply preserves_option; intros
    | apply preserves_bind; intros].
Qed.

(** An attempt either stops at its checks and leaves the queue alone, or stores
    the running job and then the outcome. *)
Lemma execute_outcome job c :
  RuntimeJob.job_ok job →
  match Dispatcher.execute checks job c with
  | (Err e, c') => queue c' = queue c
  | (Ok j, c') =>
      ∃ running final, queue c' = store_final final (put_queue running (queue c)) ∧
        RuntimeJob.status running = JobStatus.RUNNING ∧ RuntimeJob.job_ok running ∧
        same_job job running ∧ outcome job j final
  end.
Proof.
  intros Hj. unfold Dispatcher.execute. unfold bind at 1, of_res.
  destruct (RuntimeJob.validate job) as [u|e]; [|done]. unfold bind at 1.
  pose proof (enforce_queue job c) as Hq. unfold after in Hq.
  destruct (Dispatcher._enforce checks job c) as [[[]|e] c1]; simpl in Hq; [|done].
  rewrite bind_on_env. unfold utc_now at 1. cbv beta iota.
  rewrite bind_on_env, RuntimeJob.with_update_running by (done || apply now_ok || apply clock_ok).
  set (running := RuntimeJob.set_updated_at _ _).
  assert (Hr : RuntimeJob.job_ok running).
  { destruct Hj as (? & ? & ? & ? & ?). split_and!; first [done | apply clock_ok | apply now_ok]. }
  assert (Hsame : same_job job running) by repeat split.
  rewrite bind_put. do_append. rewrite bind_on_env. unfold perf_counter at 1. cbv beta iota.
  unfold try_except.
  match goal with |- context [Dispatcher.run_job _ running ?t ?c0] =>
    set (c2 := c0); set (t0 := t) end.
  assert (Hq2 : queue c2 = put_queue running (queue c)) by (unfold c2; cbn; by rewrite Hq).
  clearbody c2 t0.
  pose proof (run_job_outcome (RuntimeJob.job_type job) running t0 c2 Hr) as Hrun.
  destruct (Dispatcher.run_job _ running _ c2) as [[j|e] c3].
  - destruct Hrun as [Hq3 Ho]. exists running, j. by rewrite Hq3, Hq2.
  - destruct (job_failed_outcome running e c3 Hr) as (j & final & c4 & E4 & Hq4 & Ho).
    rewrite E4. exists running, final. by rewrite Hq4, Hrun, Hq2.
Qed.

End Outcomes.

(** * One dispatch *)

Lemma jobs_put_queue j q id :
  dget (_jobs (put_queue j q)) id =
  if bool_decide (RuntimeJob.job_id j = id) then Some j else dget (_jobs q) id.
Proof. unfold put_queue. case_bool_decide; simpl; by rewrite dget_dset. Qed.

Lemma jobs_store_final j q id :
  dget (_jobs (store_final j q)) id =
  if bool_decide (RuntimeJob.job_id j = id) then Some j else dget (_jobs q) id.
Proof. unfold store_final. case_bool_decide; simpl; [by rewrite dget_dset|apply jobs_put_queue]. Qed.

Lemma queue_ok_store_final j q : RuntimeJob.job_ok j → queue_ok q → queue_ok (store_final j q).
Proof.
  intros Hj Hq. unfold store_final. case_bool_decide as Hs; [|by apply queue_ok_put].
  destruct Hq as (H1 & H2 & H3).
  split_and!; intros id j'; simpl; rewrite dget_dset; case_bool_decide as E;
    [intros [= <-]; by subst|apply H1|intros [= <-]; by subst|apply H2| |apply H3].
  intros [= <-] Hq. rewrite Hs in Hq. discriminate Hq.
Qed.

Section Dispatches.
Context `{Oracle} `{VeilClient} {S : Type} `{PersistenceStore S} (checks : Checks S).
Hypothesis clock_ok : ∀ n, time_ok (clock n).
Implicit Types (c : cloud S).

(** The store of jobs after one of them was replaced. *)
Definition replaced (f : RuntimeJob) (c c' : cloud S) : Prop :=
  ∀ id, dget (_jobs (queue c')) id =
        if bool_decide (RuntimeJob.job_id f = id) then Some f else dget (_jobs (queue c)) id.

(** [j] is the first job of the queue [name] the tenant may lease: the queue
    holds its id, and no id in front of it is of a queued job of the tenant. *)
Definition first_in_line (tenant : option string) (name : string) (q : MemoryJobQueue) (j : RuntimeJob) : Prop :=
  eligible (_jobs q) tenant (RuntimeJob.job_id j) j ∧
  ∃ pre post, Queue.ids name q = pre ++ RuntimeJob.job_id j :: post ∧
    ∀ i j', i ∈ pre → ¬ eligible (_jobs q) tenant i j'.

(** What one dispatch from the queue [name] can do, by what it returns. *)
Definition dispatched (tenant : option string) (name : string) (c : cloud S) (r : res (option RuntimeJob))
    (c' : cloud S) : Prop :=
  match r with
  | Ok None =>
      _jobs (queue c') = _jobs (queue c) ∧ _dead (queue c') = _dead (queue c) ∧
      ∀ id j, eligible (_jobs (queue c)) tenant id j → RuntimeJob.queue_name j ≠ name
  | Ok (Some returned) =>
      ∃ j leased final, first_in_line tenant name (queue c) j ∧
        same_job (RuntimeJob.set_attempts (RuntimeJob.attempts j + 1) j) leased ∧
        outcome leased returned final ∧ replaced final c c' ∧
        _dead (queue c') = (if bool_decide (RuntimeJob.status final = JobStatus.DEAD_LETTERED)
                            then dset (_dead (queue c)) (RuntimeJob.job_id final) final
                            else _dead (queue c))
  | Err _ =>
      ∃ j stuck, first_in_line tenant name (queue c) j ∧
        same_job (RuntimeJob.set_attempts (RuntimeJob.attempts j + 1) j) stuck ∧
        RuntimeJob.status stuck = JobStatus.ASSIGNED ∧ replaced stuck c c' ∧
        _dead (queue c') = _dead (queue c)
  end.

Lemma dead_put_queue j q : _dead (put_queue j q) = _dead q.
Proof. unfold put_queue. by case_bool_decide. Qed.

Lemma dead_store_final f q :
  _dead (store_final f q) =
  if bool_decide (RuntimeJob.status f = JobStatus.DEAD_LETTERED)
  then dset (_dead q) (RuntimeJob.job_id f) f else _dead q.
Proof. unfold store_final. case_bool_decide; [done|]. apply dead_put_queue. Qed.

(** The execution of the job that was taken, from the cloud in which it is stored
    as assigned. *)
Lemma execute_dispatched tenant name c j assigned c3 :
  first_in_line tenant name (queue c) j → RuntimeJob.job_ok assigned → RuntimeJob.status assigned = JobStatus.ASSIGNED →
  same_job (RuntimeJob.set_attempts (RuntimeJob.attempts j + 1) j) assigned →
  queue_ok (queue c3) → _dead (queue c3) = _dead (queue c) →
  (∀ id, dget (_jobs (queue c3)) id = if bool_decide (RuntimeJob.job_id assigned = id) then Some assigned else dget (_jobs (queue c)) id) →
  let '(r, c') := (let* job := Dispatcher.execute checks assigned in ret (Some job)) c3 in
  dispatched tenant name c r c' ∧ queue_ok (queue c').
Proof.
  intros Hfirst Ha Hst Hsame Hc3 Hd3 Hr3. unfold bind, ret.
  pose proof (execute_outcome checks clock_ok assigned c3 Ha) as Hx.
  destruct (Dispatcher.execute checks assigned c3) as [[r|ex] c4].
  - destruct Hx as (running & final & Hq4 & _ & Hrun & Hsr & Ho).
    pose proof Ho as (_ & Hsf & Hf & _).
    split; [|rewrite Hq4; by apply queue_ok_store_final, queue_ok_put].
    exists j, assigned, final. split; [done|]. split; [done|]. split; [done|]. split.
    + intros i. rewrite Hq4, jobs_store_final, jobs_put_queue, Hr3.
      destruct Hsf as (<- & _), Hsr as (<- & _). by case_bool_decide.
    + by rewrite Hq4, dead_store_final, dead_put_queue, Hd3.
  - split; [|by rewrite Hx]. exists j, assigned. split; [done|]. split; [done|]. split; [done|].
    split; [|by rewrite Hx]. intros i. by rewrite Hx.
Qed.

Lemma dispatch_one_dispatched tenant name worker c :
  queue_ok (queue c) → worker ≠ "" →
  let '(r, c') := Dispatcher.dispatch_one checks tenant name worker c in
  dispatched tenant name c r c' ∧ queue_ok (queue c').
Proof.
  intros Hc Hw. unfold Dispatcher.dispatch_one. unfold bind at 1.
  pose proof (dequeue_ok clock_ok tenant name c Hc) as Hc1. unfold after in Hc1.
  rewrite dequeue_scan in *.
  pose proof (scan_spec (_jobs (queue c)) tenant (Queue.ids name (queue c)) []) as Hscan.
  destruct (scan _ _ _ _) as [[[id j]|] q'].
  2:{ split; [|done]. split; [done|]. split; [done|]. intros id j Hel Hn.
      pose proof Hel as (Hj & Hst & _). apply (proj1 Hscan id j); [|done]. rewrite <- Hn. by apply Hc. }
  destruct Hscan as (pre & post & Hids & Hel & Hpre & _). pose proof Hel as (Hj & _ & _).
  destruct (proj1 Hc id j Hj) as [<- Hok].
  assert (Hfirst : first_in_line tenant name (queue c) j) by (split; [done|]; by exists pre, post). rewrite lease_eq in * by done. cbn [snd] in Hc1.
  set (c0 := set_queue (Queue.set_ids name q' (queue c)) c) in *.
  set (leased := leased_job c0 j) in *.
  assert (Hl : RuntimeJob.job_ok leased).
  { destruct Hok as (? & ? & ? & ? & ?). split_and!; first [done | apply clock_ok]. }
  set (c1 := set_queue (Queue.set_job (RuntimeJob.job_id j) leased (queue c0))
               (set_env (RuntimeJob.ticked (env c0)) c0)) in *.
  assert (Hjobs : ∀ id, dget (_jobs (queue c1)) id =
    if bool_decide (RuntimeJob.job_id leased = id) then Some leased else dget (_jobs (queue c)) id).
  { intros i. unfold c1. simpl. by rewrite dget_dset. }
  rewrite bind_on_env, RuntimeJob.with_update_worker by (done || apply clock_ok).
  set (assigned := RuntimeJob.set_updated_at _ _).
  assert (Ha : RuntimeJob.job_ok assigned).
  { destruct Hl as (? & ? & ? & ? & ?). split_and!; first [done | apply clock_ok | simpl; congruence]. }
  assert (Hsame : same_job (RuntimeJob.set_attempts (RuntimeJob.attempts j + 1) j) assigned) by repeat split.
  rewrite bind_put.
  match goal with |- context [bind (Dispatcher.append ?ty ?id ?body) ?f ?c2] =>
    destruct (bind_append (S := S) ty id body f c2) as (e & s & ->); [vm_compute; reflexivity|];
    set (c3 := set_env s c2) end.
  assert (Hq3 : queue c3 = put_queue assigned (queue c1)) by done.
  assert (Hc3 : queue_ok (queue c3)) by (rewrite Hq3; by apply queue_ok_put).
  assert (Hd3 : _dead (queue c3) = _dead (queue c)) by (rewrite Hq3, dead_put_queue; done).
  assert (Hr3 : ∀ id, dget (_jobs (queue c3)) id =
    if bool_decide (RuntimeJob.job_id assigned = id) then Some assigned else dget (_jobs (queue c)) id).
  { intros i. rewrite Hq3, jobs_put_queue, Hjobs.
    change (RuntimeJob.job_id leased) with (RuntimeJob.job_id assigned). by case_bool_decide. }
  clearbody c3. by apply (execute_dispatched _ _ _ j).
Qed.

(** One call of [dispatch_one] by some worker. *)
Inductive dispatch_step : cloud S → cloud S → Prop :=
  | Dispatch tenant name worker c :
      worker ≠ "" → dispatch_step c (after (Dispatcher.dispatch_one checks tenant name worker) c).

Lemma dispatch_step_inv c c' :
  dispatch_step c c' → queue_ok (queue c) →
  queue_ok (queue c') ∧ ∃ tenant name r, dispatched tenant name c r c'.
Proof.
  intros [tenant name worker c0 Hw] Hc. pose proof (dispatch_one_dispatched tenant name worker c0 Hc Hw) as Hd.
  unfold after. destruct (Dispatcher.dispatch_one _ _ _ _ c0) as [r c1]. destruct Hd. eauto.
Qed.

(** Only a queued job is touched. *)
Lemma dispatch_step_keeps c c' id j :
  dispatch_step c c' → queue_ok (queue c) →
  dget (_jobs (queue c)) id = Some j → RuntimeJob.status j ≠ JobStatus.QUEUED →
  dget (_jobs (queue c')) id = Some j.
Proof.
  intros Hs Hc Hj Hq. destruct (dispatch_step_inv c c' Hs Hc) as (_ & tenant & name & r & Hd).
  assert (Hrep : ∀ j0 f, eligible (_jobs (queue c)) tenant (RuntimeJob.job_id j0) j0 →
    RuntimeJob.job_id j0 = RuntimeJob.job_id f → replaced f c c' → dget (_jobs (queue c')) id = Some j).
  { intros j0 f (Hj0 & Hst & _) Hid Hr. rewrite Hr. case_bool_decide as E; [|done].
    exfalso. apply Hq. rewrite Hid, E in Hj0. congruence. }
  destruct r as [[returned|]|e]; simpl in Hd.
  - destruct Hd as (j0 & leased & final & [Hel _] & Hs1 & (_ & Hs2 & _) & Hr & _).
    apply (Hrep j0 final); [done| |done]. destruct Hs1 as (E1 & _), Hs2 as (E2 & _). simpl in E1. congruence.
  - destruct Hd as [Hd _]. by rewrite Hd.
  - destruct Hd as (j0 & stuck & [Hel _] & Hs1 & _ & Hr & _). apply (Hrep j0 stuck); [done| |done].
    destruct Hs1 as (E1 & _). exact E1.
Qed.

(** No job has used more attempts than it may, and a queued one has one left. *)
Definition attempts_ok (q : MemoryJobQueue) : Prop :=
  ∀ id j, dget (_jobs q) id = Some j →
    RuntimeJob.attempts j <= RuntimeJob.max_attempts j ∧
    (RuntimeJob.status j = JobStatus.QUEUED → RuntimeJob.attempts j < RuntimeJob.max_attempts j).

Lemma dispatch_step_attempts c c' :
  dispatch_step c c' → queue_ok (queue c) → attempts_ok (queue c) → attempts_ok (queue c').
Proof.
  intros Hs Hc Hat. destruct (dispatch_step_inv c c' Hs Hc) as (_ & tenant & name & r & Hd).
  assert (Hrep : ∀ f, RuntimeJob.attempts f <= RuntimeJob.max_attempts f →
    (RuntimeJob.status f = JobStatus.QUEUED → RuntimeJob.attempts f < RuntimeJob.max_attempts f) →
    replaced f c c' → attempts_ok (queue c')).
  { intros f Hle Hlt Hr id j. rewrite Hr. case_bool_decide; [by intros [= <-]|apply Hat]. }
  destruct r as [[returned|]|e]; simpl in Hd.
  - destruct Hd as (j & leased & final & [(Hj & Hst & _) _] & Hs1 & (_ & Hs2 & _ & Ho) & Hr & _).
    destruct (Hat _ j Hj) as [_ Hlt]. specialize (Hlt Hst).
    unfold same_job in Hs1, Hs2. simpl in Hs1. destruct_and! Hs1. destruct_and! Hs2.
    apply (Hrep final); [lia| |done]. intros Hq.
    destruct Ho as [[Hc1 ->]|[(_ & Hd1 & ->)|(Hlt' & _ & _)]].
    + rewrite Hc1 in Hq. discriminate Hq.
    + rewrite Hd1 in Hq. discriminate Hq.
    + lia.
  - destruct Hd as [Hd _]. intros id j. rewrite Hd. apply Hat.
  - destruct Hd as (j & stuck & [(Hj & Hst & _) _] & Hs1 & Has & Hr & _).
    destruct (Hat _ j Hj) as [_ Hlt]. specialize (Hlt Hst).
    unfold same_job in Hs1. simpl in Hs1. destruct_and! Hs1.
    apply (Hrep stuck); [lia| |done]. intros Hq. rewrite Has in Hq. discriminate Hq.
Qed.

End Dispatches.

(** * Properties *)

Section DispatcherProperties.
Context `{Oracle} `{VeilClient} {S : Type} `{PersistenceStore S} (checks : Checks S).
Hypothesis clock_ok : ∀ n, time_ok (clock n).

(** C2: a dispatch accounts for the job it leases. It leases the first job of
    the queue that is queued and the tenant's, uses up one attempt, and then:
    the job is completed; or its last attempt failed and it is dead-lettered,
    in the dead letters too; or it failed with attempts left and is stored as
    queued again, in its queue; or a check raised and it stays assigned. No
    other job and no other dead letter changes. It returns no job only when no
    queued job of the tenant names that queue, and then no job changes. *)
Theorem dispatch_accounts_for_job (tenant : option string) (name worker : string) (c : cloud S) :
  queue_ok (queue c) → worker ≠ "" →
  let '(r, c') := Dispatcher.dispatch_one checks tenant name worker c in
  dispatched tenant name c r c' ∧
  ∀ id j, dget (_jobs (queue c')) id = Some j → RuntimeJob.status j = JobStatus.QUEUED →
          id ∈ Queue.ids (RuntimeJob.queue_name j) (queue c').
Proof.
  intros Hc Hw. pose proof (dispatch_one_dispatched checks clock_ok tenant name worker c Hc Hw) as Hd.
  destruct (Dispatcher.dispatch_one _ _ _ _ c) as [r c']. destruct Hd as [Hd Hok].
  split; [done|]. apply Hok.
Qed.

(** Retries are bounded. Under any dispatches a job uses at most
    [max_attempts] attempts, and one that is queued again has an attempt left. *)
Theorem dispatch_attempts_bounded (c c' : cloud S) (id : string) (j : RuntimeJob) :
  queue_ok (queue c) → attempts_ok (queue c) → steps (dispatch_step checks) c c' →
  dget (_jobs (queue c')) id = Some j →
  RuntimeJob.attempts j <= RuntimeJob.max_attempts j ∧
  (RuntimeJob.status j = JobStatus.QUEUED → RuntimeJob.attempts j < RuntimeJob.max_attempts j).
Proof.
  intros Hc Ha Hs. assert (queue_ok (queue c') ∧ attempts_ok (queue c')) as [_ Ha']; [|apply Ha'].
  eapply (steps_invariant _ (fun c => queue_ok (queue c) ∧ attempts_ok (queue c))); [|exact Hs|done].
  intros a b Hab [Hca Haa]. split; [by eapply dispatch_step_inv|by eapply dispatch_step_attempts].
Qed.

(** A job a check refused is never run again. When a dispatch raises, the
    job it leased is stored as assigned, and no later dispatch, by any worker
    of any tenant, changes it. *)
Theorem refused_job_is_stranded (tenant : option string) (name worker : string) (c c1 c2 : cloud S) (e : exn) :
  queue_ok (queue c) → worker ≠ "" →
  Dispatcher.dispatch_one checks tenant name worker c = (Err e, c1) →
  steps (dispatch_step checks) c1 c2 →
  ∃ j stuck, eligible (_jobs (queue c)) tenant (RuntimeJob.job_id j) j ∧
    RuntimeJob.status stuck = JobStatus.ASSIGNED ∧
    RuntimeJob.attempts stuck = RuntimeJob.attempts j + 1 ∧
    dget (_jobs (queue c2)) (RuntimeJob.job_id j) = Some stuck.
Proof.
  intros Hc Hw Hd Hs. pose proof (dispatch_one_dispatched checks clock_ok tenant name worker c Hc Hw) as Hout.
  rewrite Hd in Hout. destruct Hout as [(j & stuck & [Hel _] & Hsame & Hst & Hrep & _) Hok].
  destruct Hsame as (Hid & _ & _ & _ & _ & Hat). simpl in Hid, Hat.
  exists j, stuck. split_and!; [done|done|done|]. 
  assert (Hg1 : dget (_jobs (queue c1)) (RuntimeJob.job_id j) = Some stuck).
  { rewrite Hrep, bool_decide_eq_true_2; [done|]. by rewrite Hid. }
  enough (queue_ok (queue c2) ∧ dget (_jobs (queue c2)) (RuntimeJob.job_id j) = Some stuck) by tauto.
  eapply (steps_invariant _ (fun c => queue_ok (queue c) ∧ dget (_jobs (queue c)) (RuntimeJob.job_id j) = Some stuck));
    [|exact Hs|done].
  intros a b Hab [Hca Hja]. split; [by eapply dispatch_step_inv|].
  eapply dispatch_step_keeps; [done|done|done|done|]. by rewrite Hst.
Qed.

End DispatcherProperties.

(** ** Witnesses *)

Definition demo_checks : Checks Memory.store := Build_Checks _ false None None None None None.

(** A dispatcher whose spend check refuses every job. *)
Definition demo_refusing : Checks Memory.store :=
  Build_Checks _ false None None None None (Some (fun _ => raise ConflictError "spend limit")).

Lemma dispatch_accounts_for_job_witness :
  (Dispatcher.dispatch_one (H := demo_oracle) (H0 := mock_veil) demo_checks (Some "b") "default" "w" demo_queued).1
  ≠ Ok None ∧
  let '(r, c') := Dispatcher.dispatch_one (H := demo_oracle) (H0 := mock_veil) demo_checks
                    (Some "b") "default" "w" demo_queued in
  dispatched (Some "b") "default" demo_queued r c' ∧
  ∀ id j, dget (_jobs (queue c')) id = Some j → RuntimeJob.status j = JobStatus.QUEUED →
          id ∈ Queue.ids (RuntimeJob.queue_name j) (queue c').
Proof.
  split; [vm_compute; congruence|].
  exact (dispatch_accounts_for_job (H := demo_oracle) (H0 := mock_veil) demo_checks demo_clock
           (Some "b") "default" "w" demo_queued demo_queued_ok ltac:(congruence)).
Defined.

Definition demo_dispatched : cloud Memory.store :=
  after (Dispatcher.dispatch_one (H := demo_oracle) (H0 := mock_veil) demo_checks (Some "b") "default" "w")
    demo_queued.

Lemma demo_dispatched_steps :
  steps (dispatch_step (H := demo_oracle) (H0 := mock_veil) demo_checks) demo_queued demo_dispatched.
Proof.
  eapply steps_cons; [|apply steps_refl].
  exact (Dispatch (H := demo_oracle) (H0 := mock_veil) demo_checks (Some "b") "default" "w" demo_queued
           ltac:(congruence)).
Qed.

Lemma demo_attempts_ok : attempts_ok (queue demo_queued).
Proof.
  intros id j Hj. apply dget_Some_elem in Hj. revert Hj.
  assert (Hall : Forall (fun p => RuntimeJob.attempts p.2 = 0 ∧ RuntimeJob.max_attempts p.2 = 3)
                   (_jobs (queue demo_queued))).
  { vm_compute. repeat constructor. }
  rewrite Forall_forall in Hall. intros Hj. destruct (Hall _ Hj) as [Ha Hm].
  cbn [snd] in Ha, Hm. rewrite Ha, Hm. split; lia.
Qed.

Lemma dispatch_attempts_bounded_witness :
  ∃ j, dget (_jobs (queue demo_dispatched)) "b1" = Some j ∧
       RuntimeJob.attempts j <= RuntimeJob.max_attempts j.
Proof.
  destruct (dget (_jobs (queue demo_dispatched)) "b1") as [j|] eqn:E.
  - exists j. split; [reflexivity|].
    exact (proj1 (dispatch_attempts_bounded (H := demo_oracle) (H0 := mock_veil) demo_checks demo_clock
             demo_queued demo_dispatched "b1" j demo_queued_ok demo_attempts_ok demo_dispatched_steps E)).
  - exfalso. vm_compute in E. discriminate E.
Defined.

Lemma refused_job_is_stranded_witness :
  ∃ e c1 j stuck,
    Dispatcher.dispatch_one (H := demo_oracle) (H0 := mock_veil) demo_refusing (Some "b") "default" "w"
      demo_queued = (Err e, c1) ∧
    dget (_jobs (queue c1)) (RuntimeJob.job_id j) = Some stuck ∧
    RuntimeJob.status stuck = JobStatus.ASSIGNED.
Proof.
  destruct (Dispatcher.dispatch_one (H := demo_oracle) (H0 := mock_veil) demo_refusing (Some "b") "default"
    "w" demo_queued) as [[r|e] c1] eqn:E.
  - exfalso. apply (f_equal fst) in E. vm_compute in E. discriminate E.
  - destruct (refused_job_is_stranded (H := demo_oracle) (H0 := mock_veil) demo_refusing demo_clock
      (Some "b") "default" "w" demo_queued c1 c1 e demo_queued_ok ltac:(congruence) E (steps_refl _ c1))
      as (j & stuck & _ & Hst & _ & Hg).
    exists e, c1, j, stuck. split; [reflexivity|]. split; [exact Hg|exact Hst].
Defined.
