(* ===== verification/Runtime.v ===== *)
(** Workers and the facade of the cloud runtime (agentfabric/cloud: worker.py,
    worker_pool.py, runtime.py, runtime_config.py). *)

From stdpp Require Import base option list strings gmap sets pretty.
From Stdlib Require Import ZArith Lia.
From S2P Require Import Prelude PyVal Json PyTime Store EventStore Documents Quotas Job Queue Veil Dispatcher.

Local Open Scope Z_scope.

(** runtime_config.py *)
Module RuntimeConfig.
Record t := Mk {
  queue_backend : string;
  sqlite_path : string;
  redis_url : string;
  max_attempts : Z;
  worker_lease_seconds : Z;
  heartbeat_timeout_seconds : Z;
  production_fail_closed : bool;
}.
Definition default : t :=
  Mk "memory" "agentfabric_runtime_queue.db" "redis://localhost:6379/0" 3 60 90 false.
End RuntimeConfig.

(** * worker.py *)

Module Worker.

Record t := Mk {
  tenant_id : string;
  worker_id : string;
  queue_names : list string;
  capabilities : list string;
  status : string;
  lease_until : option Z;
  registered_at : Z;
  last_heartbeat_at : Z;
}.

Definition as_dict (w : t) : doc :=
  [("worker_id", VStr (worker_id w)); ("tenant_id", VStr (tenant_id w));
   ("queue_names", VList (map VStr (queue_names w))); ("capabilities", VList (map VStr (capabilities w)));
   ("status", VStr (status w)); ("lease_until", opt_iso (lease_until w));
   ("registered_at", VStr (isoformat (registered_at w)));
   ("last_heartbeat_at", VStr (isoformat (last_heartbeat_at w)))].

Section Calls.
Context `{Oracle} {S : Type}.

Definition heartbeat (lease_seconds : Z) (w : t) : M (sys S) t :=
  let* now := utc_now in
  let* until := of_res (dt_add now (lease_seconds * second_us)) in
  ret (Mk (tenant_id w) (worker_id w) (queue_names w) (capabilities w) "healthy" (Some until)
         (registered_at w) now).

Definition is_stale (timeout_seconds : Z) (w : t) : M (sys S) bool :=
  let* now := utc_now in
  ret (now - last_heartbeat_at w >? timeout_seconds * second_us).

Definition from_dict (value : doc) : M (sys S) t :=
  let* worker_id := of_res (str_field value "worker_id") in
  let* tenant_id := of_res (str_field value "tenant_id") in
  let* queue_names := of_res (strs_field_or value "queue_names" ["default"]) in
  let* capabilities := of_res (strs_field_or value "capabilities" []) in
  let* lease_until := of_res (opt_time_field value "lease_until") in
  let* registered_at := time_field_or_now value "registered_at" in
  let* last_heartbeat_at := time_field_or_now value "last_heartbeat_at" in
  ret (Mk tenant_id worker_id queue_names capabilities (str_field_or value "status" "registered")
         lease_until registered_at last_heartbeat_at).

Definition worker_ok (w : t) : Prop :=
  opt_time_ok (lease_until w) ∧ time_ok (registered_at w) ∧ time_ok (last_heartbeat_at w).

Lemma worker_from_as_dict w (s : sys S) : worker_ok w → from_dict (as_dict w) s = (Ok w, s).
Proof.
  intros (Hl & Hr & Hh). unfold from_dict, bind, of_res, ret.
  cbn -[time_field_or_now opt_time_field isoformat strs_field_or].
  rewrite (strs_field_or_eq _ "queue_names" _ (queue_names w)), (strs_field_or_eq _ "capabilities" _ (capabilities w)) by done.
  rewrite (time_field_or_now_iso _ _ _ _ Hr), (time_field_or_now_iso _ _ _ _ Hh) by done.
  rewrite (opt_time_field_iso _ "lease_until" (lease_until w)).
  2-3: first [done | intros t0 E; by rewrite E in *].
  by destruct w.
Qed.

End Calls.
End Worker.

Abbreviation Worker := Worker.t.

#[export] Instance worker_document `{Oracle} {S} : Document S Worker := {
  d_coll := "runtime_workers";
  d_key := Worker.worker_id;
  d_enc := Worker.as_dict;
  d_dec := Worker.from_dict;
  d_ok := Worker.worker_ok;
  d_dec_enc := Worker.worker_from_as_dict;
  d_enc_ne w := ltac:(done);
}.

(** * worker_pool.py *)

Module WorkerPool.
Section WorkerPool.
Context `{Oracle} {S : Type} `{PersistenceStore S}.

Definition register (w : Worker) : M (sys S) Worker :=
  do* doc_put w;
  let* event := EventStore.append "runtime.worker.registered" (Worker.worker_id w) (Worker.as_dict w) in
  ret w.

Definition get (worker_id : string) : M (sys S) (option Worker) := doc_get worker_id.

Definition heartbeat (worker_id : string) (lease_seconds : Z) : M (sys S) Worker :=
  let* worker := get worker_id in
  match worker with
  | None => raise KeyError (repr_str worker_id)
  | Some w =>
      let* updated := Worker.heartbeat lease_seconds w in
      do* store_put "runtime_workers" worker_id (Worker.as_dict updated);
      ret updated
  end.

Definition list_workers (tenant_id : option string) : M (sys S) (list Worker) :=
  match tenant_id with
  | Some t => if bool_decide (t = "") then doc_list else doc_list_tenant t
  | None => doc_list
  end.

Definition stale_copy (w : Worker) : Worker :=
  Worker.Mk (Worker.tenant_id w) (Worker.worker_id w) (Worker.queue_names w) (Worker.capabilities w)
    "stale" (Worker.lease_until w) (Worker.registered_at w) (Worker.last_heartbeat_at w).

(** The loop of [mark_stale_workers]. *)
Fixpoint mark_loop (timeout_seconds : Z) (workers : list Worker) : M (sys S) (list Worker) :=
  match workers with
  | [] => ret []
  | w :: ws =>
      let* is_stale := Worker.is_stale timeout_seconds w in
      if is_stale && negb (bool_decide (Worker.status w = "stale")) then
        do* doc_put (stale_copy w);
        let* event := EventStore.append "runtime.worker.heartbeat_missed" (Worker.worker_id w)
                        (Worker.as_dict (stale_copy w)) in
        let* rest := mark_loop timeout_seconds ws in
        ret (stale_copy w :: rest)
      else mark_loop timeout_seconds ws
  end.

Definition mark_stale_workers (timeout_seconds : Z) : M (sys S) (list Worker) :=
  let* workers := list_workers None in mark_loop timeout_seconds workers.

End WorkerPool.
End WorkerPool.

(** * runtime.py *)

Module CloudRuntime.
Section CloudRuntime.
Context `{Oracle} `{VeilClient} {S : Type} `{PersistenceStore S}.
Context (checks : Checks S) (config : RuntimeConfig.t).

Abbreviation C := (M (cloud S)).

Definition append (ty id : string) (body : doc) : C AgentFabricEvent :=
  on_env (EventStore.append ty id body).

Definition submit (job : RuntimeJob) : C RuntimeJob :=
  do* of_res (RuntimeJob.validate job);
  let* queued := Queue.enqueue job in
  let* event := append "runtime.job.created" (RuntimeJob.job_id queued) (RuntimeJob.as_dict queued) in
  ret queued.

Definition list_jobs (tenant_id : option string) : C (list RuntimeJob) :=
  gets (fun c => Queue.list_jobs tenant_id (queue c)).

Definition get_job (job_id : string) : C (option RuntimeJob) := gets (fun c => Queue.get job_id (queue c)).

Definition cancel (job_id : string) : C RuntimeJob :=
  let* job := get_job job_id in
  match job with
  | None => raise KeyError (repr_str job_id)
  | Some job =>
      let* cancelled := on_env (RuntimeJob.with_update [("status", VStr JobStatus.CANCELLED)] job) in
      let* saved := Queue.put cancelled in
      let* event := append "runtime.job.cancelled" (RuntimeJob.job_id cancelled) (RuntimeJob.as_dict cancelled) in
      ret cancelled
  end.

Definition retry (job_id : string) : C RuntimeJob :=
  let* job := get_job job_id in
  match job with
  | None => raise KeyError (repr_str job_id)
  | Some job =>
      let* retried := on_env (RuntimeJob.with_update
        [("status", VStr JobStatus.QUEUED); ("last_error", VStr "")] job) in
      let* saved := Queue.put retried in
      let* event := append "runtime.job.retried" (RuntimeJob.job_id retried) (RuntimeJob.as_dict retried) in
      ret retried
  end.

Definition requeue_dead_letter (job_id : string) : C RuntimeJob :=
  let* job := get_job job_id in
  match job with
  | None => raise KeyError (repr_str job_id)
  | Some job =>
      let* requeued := on_env (RuntimeJob.with_update
        [("status", VStr JobStatus.QUEUED); ("last_error", VStr "")] job) in
      let* saved := Queue.enqueue requeued in
      let* event := append "runtime.job.retried" (RuntimeJob.job_id requeued) (RuntimeJob.as_dict requeued) in
      ret requeued
  end.

Definition register_worker (w : Worker) : C Worker := on_env (WorkerPool.register w).

Definition heartbeat (worker_id : string) : C Worker :=
  on_env (WorkerPool.heartbeat worker_id (RuntimeConfig.worker_lease_seconds config)).

Definition health : C doc :=
  let* stale := on_env (WorkerPool.mark_stale_workers (RuntimeConfig.heartbeat_timeout_seconds config)) in
  let* queue_health := gets (fun c => Queue.health (queue c)) in
  let* workers := on_env (WorkerPool.list_workers None) in
  let* integrity := gets (fun c => EventStore.validate_integrity (events (env c))) in
  ret [("status", VStr (if is_str (dget queue_health "status") "ok" then "ok" else "degraded"));
       ("queue", VDict queue_health);
       ("workers", VDict [("count", VInt (Z.of_nat (length workers)));
          ("healthy", VInt (Z.of_nat (length (base.filter (fun w => Worker.status w = "healthy") workers))))]);
       ("event_integrity", VBool integrity)].

End CloudRuntime.
End CloudRuntime.

(** * The runtime keeps the queue *)

Section RuntimeRuns.
Context `{Oracle} `{VeilClient} {S : Type} `{PersistenceStore S}.
Context (checks : Checks S) (config : RuntimeConfig.t).
Hypothesis clock_ok : ∀ n, time_ok (clock n).
Implicit Types (c : cloud S).

Lemma get_job_ok job_id c j :
  cloud_ok c → Queue.get job_id (queue c) = Some j → RuntimeJob.job_ok j.
Proof.
  intros (H1' & H2' & _). unfold Queue.get. destruct (dget (_jobs (queue c)) job_id) eqn:E.
  - intros [= <-]. by apply (H1' job_id).
  - intros Hd. by apply (H2' job_id).
Qed.

(** What a job keeps from its submission on; its attempts only grow. *)
Definition same_identity (a b : RuntimeJob) : Prop :=
  RuntimeJob.job_id a = RuntimeJob.job_id b ∧ RuntimeJob.tenant_id a = RuntimeJob.tenant_id b ∧
  RuntimeJob.job_type a = RuntimeJob.job_type b ∧ RuntimeJob.queue_name a = RuntimeJob.queue_name b ∧
  RuntimeJob.max_attempts a = RuntimeJob.max_attempts b ∧ RuntimeJob.attempts a <= RuntimeJob.attempts b.

(** The queue is well formed, and the job that is watched, if one is, is stored
    under its id. *)
Definition holds (watched : option RuntimeJob) c : Prop :=
  cloud_ok c ∧
  match watched with
  | Some j0 => ∃ j, dget (_jobs (queue c)) (RuntimeJob.job_id j0) = Some j ∧ same_identity j0 j
  | None => True
  end.

(** A copy that may be stored while [watched] is watched. *)
Definition fits (watched : option RuntimeJob) (j : RuntimeJob) : Prop :=
  RuntimeJob.job_ok j ∧
  match watched with
  | Some j0 => RuntimeJob.job_id j = RuntimeJob.job_id j0 → same_identity j0 j
  | None => True
  end.

Lemma fits_updated w n j : fits w j → fits w (RuntimeJob.set_updated_at (clock n) j).
Proof. intros [Hj Hw]. split; [apply RuntimeJob.job_ok_updated; [done|apply clock_ok]|exact Hw]. Qed.

(** A call that stores [j] under its id holds the watched job. *)
Lemma holds_store w j c c' :
  holds w c → cloud_ok c' → fits w j →
  (∀ id, dget (_jobs (queue c')) id =
         if bool_decide (RuntimeJob.job_id j = id) then Some j else dget (_jobs (queue c)) id) →
  holds w c'.
Proof.
  intros [_ Hw] Hc' [_ Hj] Hg. split; [done|]. destruct w as [j0|]; [|done]. rewrite Hg.
  case_bool_decide as E; [exists j; auto|exact Hw].
Qed.

Lemma on_env_holds w {A} (m : M (sys S) A) : preserves (holds w) (on_env m).
Proof. by apply (preserves_zoom _ (fun _ => True)). Qed.

Lemma put_holds w j : fits w j → preserves (holds w) (Queue.put j).
Proof.
  intros Hj c Hc. apply (holds_store w j c); [done|apply put_ok; [apply Hj|apply Hc]|done|].
  intros id. unfold after. rewrite put_eq. cbn [snd queue set_queue]. apply jobs_put_queue.
Qed.

Lemma enqueue_holds w j : fits w j → preserves (holds w) (Queue.enqueue j).
Proof.
  intros Hj c Hc. pose proof (enqueue_ok clock_ok j (proj1 Hj) c (proj1 Hc)) as Hok. revert Hok. unfold after.
  rewrite enqueue_eq by (done || apply Hj). destruct (RuntimeJob.validate j); [|done]. intros Hok.
  apply (holds_store w (queued_job c j) c); [done|done| |].
  - apply (fits_updated w _ (RuntimeJob.set_status JobStatus.QUEUED j)). exact Hj.
  - intros id. cbn. by rewrite dget_dset.
Qed.

Ltac keep := repeat first [apply preserves_bind; [first [apply on_env_holds | apply put_holds; assumption
  | apply enqueue_holds; assumption | apply preserves_gets]|intros ?] | apply preserves_ret | apply preserves_raise].

(** A job that is read back may be stored again with another status. *)
Lemma get_job_fits w job_id c j :
  holds w c → Queue.get job_id (queue c) = Some j → fits w j.
Proof.
  intros [Hc Hw] Hj. split; [by eapply get_job_ok|]. destruct w as [j0|]; [|done]. intros E.
  destruct Hc as (H1' & H2' & _), Hw as (j1 & Hj1 & Hs). unfold Queue.get in Hj.
  destruct (dget (_jobs (queue c)) job_id) as [j'|] eqn:Hg.
  - injection Hj as ->. destruct (H1' _ _ Hg) as [<- _]. rewrite E, Hj1 in Hg. by injection Hg as <-.
  - destruct (H2' _ _ Hj) as [<- _]. congruence.
Qed.

Lemma on_job_holds w {A} job_id (f : RuntimeJob → M (cloud S) A) :
  (∀ j, fits w j → preserves (holds w) (f j)) →
  preserves (holds w)
    (let* job := CloudRuntime.get_job job_id in
     match job with None => raise KeyError (repr_str job_id) | Some job => f job end).
Proof.
  intros Hf c Hc. unfold after, bind, CloudRuntime.get_job, gets.
  destruct (Queue.get job_id (queue c)) as [j|] eqn:E; [|done].
  apply Hf; [by eapply get_job_fits|done].
Qed.

(** An update of a job that keeps its identity, then calls that store it. *)
Lemma update_then_holds w {A} updates j j' (f : RuntimeJob → M (cloud S) A) :
  fits w j' →
  (∀ c, RuntimeJob.with_update updates j (env c) =
        (Ok (RuntimeJob.set_updated_at (RuntimeJob.now (env c)) j'), RuntimeJob.ticked (env c))) →
  (∀ j, fits w j → preserves (holds w) (f j)) →
  preserves (holds w) (bind (on_env (RuntimeJob.with_update updates j)) f).
Proof.
  intros Hj Hu Hf c Hc. unfold after. rewrite bind_on_env, Hu. apply Hf; [by apply fits_updated|done].
Qed.

Lemma submit_holds w job : fits w job → preserves (holds w) (CloudRuntime.submit job).
Proof.
  intros Hj. unfold CloudRuntime.submit. apply preserves_bind; [apply preserves_of_res|intros _]. keep.
Qed.

Lemma cancel_holds w job_id : preserves (holds w) (CloudRuntime.cancel job_id).
Proof.
  apply on_job_holds. intros j Hj.
  apply (update_then_holds w _ j (RuntimeJob.set_status JobStatus.CANCELLED j)); [exact Hj| |intros j' Hj'; keep].
  intros c. apply RuntimeJob.with_update_status; [apply Hj|apply clock_ok].
Qed.

Lemma retry_holds w job_id : preserves (holds w) (CloudRuntime.retry job_id).
Proof.
  apply on_job_holds. intros j Hj.
  apply (update_then_holds w _ j (RuntimeJob.set_last_error "" (RuntimeJob.set_status JobStatus.QUEUED j)));
    [exact Hj| |intros j' Hj'; keep].
  intros c. apply RuntimeJob.with_update_error; [apply Hj|apply clock_ok].
Qed.

Lemma requeue_holds w job_id : preserves (holds w) (CloudRuntime.requeue_dead_letter job_id).
Proof.
  apply on_job_holds. intros j Hj.
  apply (update_then_holds w _ j (RuntimeJob.set_last_error "" (RuntimeJob.set_status JobStatus.QUEUED j)));
    [exact Hj| |intros j' Hj'; keep].
  intros c. apply RuntimeJob.with_update_error; [apply Hj|apply clock_ok].
Qed.

Lemma health_holds w : preserves (holds w) (CloudRuntime.health config).
Proof.
  unfold CloudRuntime.health.
  repeat first [apply preserves_bind; [first [apply on_env_holds | apply preserves_gets]|intros ?] | apply preserves_ret].
Qed.

(** A dispatch stores at most a copy of a stored job, with an attempt more. *)
Lemma dispatch_holds w tenant name worker :
  worker ≠ "" → preserves (holds w) (Dispatcher.dispatch_one checks tenant name worker).
Proof.
  intros Hw c Hc. pose proof (dispatch_one_dispatched checks clock_ok tenant name worker c (proj1 Hc) Hw) as Hd.
  unfold after. destruct (Dispatcher.dispatch_one checks tenant name worker c) as [r c']. destruct Hd as [Hd Hok].
  assert (Hstore : ∀ j f, first_in_line tenant name (queue c) j →
    same_job (RuntimeJob.set_attempts (RuntimeJob.attempts j + 1) j) f →
    replaced f c c' → holds w c').
  { intros j f [(Hj & _ & _) _] Hs Hr. split; [done|]. destruct Hc as [_ Hc]. destruct w as [j0|]; [|done].
    rewrite Hr. case_bool_decide as E; [|exact Hc]. exists f. split; [done|].
    destruct Hc as (j1 & Hj1 & Hi). destruct Hs as (S1 & S2 & S3 & S4 & S5 & S6). simpl in *.
    rewrite S1, E, Hj1 in Hj. injection Hj as ->. destruct Hi as (? & ? & ? & ? & ? & ?).
    split_and!; first [congruence | lia]. }
  cbn [snd]. destruct r as [[returned|]|e]; simpl in Hd.
  - destruct Hd as (j & leased & final & Hf & Hs & (_ & Hs' & _) & Hr & _).
    apply (Hstore j final); [done|by eapply same_job_trans|done].
  - destruct Hd as (Hj & _). split; [done|]. destruct Hc as [_ Hc]. by rewrite Hj.
  - destruct Hd as (j & stuck & Hf & Hs & _ & Hr & _). by apply (Hstore j stuck).
Qed.

(** One call to the runtime, returned or not, where a job that is submitted is
    one that may be ([allowed]). *)
Inductive runtime_step (allowed : RuntimeJob → Prop) : cloud S → cloud S → Prop :=
  | Run_submit job c :
      RuntimeJob.job_ok job → allowed job → runtime_step allowed c (after (CloudRuntime.submit job) c)
  | Run_cancel id c : runtime_step allowed c (after (CloudRuntime.cancel id) c)
  | Run_retry id c : runtime_step allowed c (after (CloudRuntime.retry id) c)
  | Run_requeue id c : runtime_step allowed c (after (CloudRuntime.requeue_dead_letter id) c)
  | Run_register w c : runtime_step allowed c (after (CloudRuntime.register_worker w) c)
  | Run_heartbeat id c : runtime_step allowed c (after (CloudRuntime.heartbeat config id) c)
  | Run_health c : runtime_step allowed c (after (CloudRuntime.health config) c)
  | Run_dispatch tenant name worker c :
      worker ≠ "" → runtime_step allowed c (after (Dispatcher.dispatch_one checks tenant name worker) c).

Lemma runtime_step_holds allowed w c c' :
  (∀ job, RuntimeJob.job_ok job → allowed job → fits w job) →
  runtime_step allowed c c' → holds w c → holds w c'.
Proof.
  intros Hall [] Hc.
  - by apply submit_holds; [apply Hall|].
  - by apply cancel_holds.
  - by apply retry_holds.
  - by apply requeue_holds.
  - by apply on_env_holds.
  - by apply on_env_holds.
  - by apply health_holds.
  - by apply dispatch_holds.
Qed.

Lemma runtime_steps_hold allowed w c c' :
  (∀ job, RuntimeJob.job_ok job → allowed job → fits w job) →
  steps (runtime_step allowed) c c' → holds w c → holds w c'.
Proof.
  intros Hall Hs. apply (steps_invariant (runtime_step allowed) (holds w)); [|done].
  intros a b. by apply runtime_step_holds.
Qed.

(** A submission that returns stores its job, queued, in the queue it names. *)
Lemma submit_stores job queued c c1 :
  cloud_ok c → RuntimeJob.job_ok job → CloudRuntime.submit job c = (Ok queued, c1) →
  RuntimeJob.status queued = JobStatus.QUEUED ∧ same_identity job queued ∧
  dget (_jobs (queue c1)) (RuntimeJob.job_id job) = Some queued ∧
  RuntimeJob.job_id job ∈ Queue.ids (RuntimeJob.queue_name job) (queue c1) ∧ cloud_ok c1.
Proof.
  intros Hc Hj. pose proof (submit_holds None job (conj Hj I) c (conj Hc I)) as [Hok _].
  unfold after in Hok. intros E. rewrite E in Hok. cbn [snd] in Hok. revert E.
  unfold CloudRuntime.submit. unfold bind at 1, of_res. destruct (RuntimeJob.validate job) eqn:Hv; [|done].
  unfold bind at 1. rewrite enqueue_eq by done. rewrite Hv. cbv zeta iota.
  match goal with |- context [bind (CloudRuntime.append ?ty ?id ?b) ?f ?c0] =>
    destruct (bind_append (S := S) ty id b f c0) as (e & s & Heq); [vm_compute; reflexivity|] end.
  unfold Dispatcher.append in Heq. unfold CloudRuntime.append. rewrite Heq. unfold ret. intros [= <- <-].
  assert (Hg : dget (_jobs (queue (set_env s (set_queue (Queue.set_ids (RuntimeJob.queue_name job)
    (Queue.ids (RuntimeJob.queue_name job) (Queue.set_job (RuntimeJob.job_id job) (queued_job c job) (queue c))
      ++ [RuntimeJob.job_id job])
    (Queue.set_job (RuntimeJob.job_id job) (queued_job c job) (queue c)))
    (set_env (RuntimeJob.ticked (env c)) c))))) (RuntimeJob.job_id job) = Some (queued_job c job))
    by apply dget_dset_eq.
  split_and!; [done| |done| |done]; [by repeat split|].
  by apply (proj2 (proj2 Hok) (RuntimeJob.job_id job) (queued_job c job)).
Qed.

End RuntimeRuns.

(** * Properties *)

Section RuntimeProperties.
Context `{Oracle} `{VeilClient} {S : Type} `{PersistenceStore S}.
Context (checks : Checks S) (config : RuntimeConfig.t).
Hypothesis clock_ok : ∀ n, time_ok (clock n).

(** C3: the runtime loses no submitted job. A submission that returns has stored
    the job, queued and in the queue it names. After any further calls to the
    runtime (submissions under other ids, dispatches by any worker,
    cancellations, retries, requeues of dead letters, heartbeats, health
    checks), returned or not, a job is still stored under its id, with the
    tenant, type, queue and attempt limit it was submitted with and no fewer
    attempts; and whichever job is stored as queued is in the queue it names. *)
Theorem runtime_no_job_lost (c c1 c2 : cloud S) (job queued : RuntimeJob) :
  queue_ok (queue c) → RuntimeJob.job_ok job → CloudRuntime.submit job c = (Ok queued, c1) →
  steps (runtime_step checks config (fun other => RuntimeJob.job_id other ≠ RuntimeJob.job_id job)) c1 c2 →
  (RuntimeJob.status queued = JobStatus.QUEUED ∧ same_identity job queued ∧
   dget (_jobs (queue c1)) (RuntimeJob.job_id job) = Some queued ∧
   RuntimeJob.job_id job ∈ Queue.ids (RuntimeJob.queue_name job) (queue c1)) ∧
  (∃ j, dget (_jobs (queue c2)) (RuntimeJob.job_id job) = Some j ∧ same_identity job j) ∧
  ∀ id j, dget (_jobs (queue c2)) id = Some j → RuntimeJob.status j = JobStatus.QUEUED →
          RuntimeJob.job_id j = id ∧ id ∈ Queue.ids (RuntimeJob.queue_name j) (queue c2).
Proof.
  intros Hc Hj Hsub Hs. destruct (submit_stores clock_ok job queued c c1 Hc Hj Hsub) as (Hst & Hi & Hg & Hin & Hc1).
  split; [done|].
  destruct (runtime_steps_hold checks config clock_ok (fun other => RuntimeJob.job_id other ≠ RuntimeJob.job_id job)
    (Some job) c1 c2) with (2 := Hs) as [(H1' & _ & H3') Hw].
  - intros other Ho Hne. by split.
  - split; [done|]. by exists queued.
  - split; [exact Hw|]. intros id j Hj' Hq. split; [by apply (H1' id)|by apply H3'].
Qed.

End RuntimeProperties.

(** ** Witnesses *)

Definition demo_submitted : cloud Memory.store :=
  after (CloudRuntime.submit (H := demo_oracle) (demo_job "x" "t")) demo_queued.

(** Every job queued before it is dispatched, then it is, and is cancelled. *)
Definition demo_run_cloud : cloud Memory.store :=
  after (CloudRuntime.cancel (H := demo_oracle) "x")
    (after (Dispatcher.dispatch_one (H := demo_oracle) (H0 := mock_veil) demo_checks (Some "t") "default" "w")
      (after (Dispatcher.dispatch_one (H := demo_oracle) (H0 := mock_veil) demo_checks None "default" "w")
        demo_submitted)).

Lemma demo_run_steps :
  steps (runtime_step (H := demo_oracle) (H0 := mock_veil) demo_checks RuntimeConfig.default
           (fun other => RuntimeJob.job_id other ≠ "x"))
    demo_submitted demo_run_cloud.
Proof.
  eapply steps_cons; [|eapply steps_cons; [|eapply steps_cons; [|apply steps_refl]]].
  - by apply (Run_dispatch (H := demo_oracle) (H0 := mock_veil) demo_checks RuntimeConfig.default
                _ None "default" "w" demo_submitted).
  - by apply (Run_dispatch (H := demo_oracle) (H0 := mock_veil) demo_checks RuntimeConfig.default
                _ (Some "t") "default" "w").
  - apply (Run_cancel (H := demo_oracle) (H0 := mock_veil) demo_checks RuntimeConfig.default).
Qed.

Lemma runtime_no_job_lost_witness :
  ∃ queued j, CloudRuntime.submit (H := demo_oracle) (demo_job "x" "t") demo_queued = (Ok queued, demo_submitted) ∧
    dget (_jobs (queue demo_run_cloud)) "x" = Some j ∧ RuntimeJob.attempts j = 1 ∧ same_identity (demo_job "x" "t") j.
Proof.
  destruct (CloudRuntime.submit (H := demo_oracle) (demo_job "x" "t") demo_queued) as [[queued|e] c1] eqn:E.
  2:{ exfalso. apply (f_equal fst) in E. vm_compute in E. discriminate E. }
  assert (Hc1 : c1 = demo_submitted) by exact (eq_sym (f_equal snd E)). subst c1.
  destruct (runtime_no_job_lost (H := demo_oracle) (H0 := mock_veil) demo_checks RuntimeConfig.default demo_clock
    demo_queued demo_submitted demo_run_cloud (demo_job "x" "t") queued demo_queued_ok (demo_job_ok "x" "t") E
    demo_run_steps) as (_ & (j & Hj & Hi) & _).
  exists queued, j. split; [reflexivity|]. split; [exact Hj|]. split; [|exact Hi].
  apply (f_equal (fun o => RuntimeJob.attempts <$> o)) in Hj. vm_compute in Hj. by injection Hj.
Defined.
