(* ===== verification/Cron.v ===== *)
(** The cron parser of agentfabric/cloud/scheduler/cron_parser.py. *)

From stdpp Require Import base option list strings gmap sets pretty.
From Stdlib Require Import ZArith Lia.
From S2P Require Import Prelude PyVal PyTime.

Local Open Scope Z_scope.
#[local] Ltac Zify.zify_post_hook ::= Z.to_euclidean_division_equations.

Module CronParser.

(** [s[2:]] *)
Definition from2 (s : string) : string :=
  match s with String _ (String _ s') => s' | _ => "" end.

Definition _matches (field : string) (value : Z) : res bool :=
  if bool_decide (field = "*") then Ok true
  else if starts_with "*/" field then
    let? n := parse_int (from2 field) in
    if n =? 0 then Err (Exn ZeroDivisionError "integer modulo by zero") else Ok (value mod n =? 0)
  else let? n := parse_int field in Ok (n =? value).

(** [a and b], where [b] is looked at only when [a] holds. *)
Definition matches_time (minute hour : string) (t : Z) : res bool :=
  let? m := _matches minute (dt_minute t) in
  if m then _matches hour (dt_hour t) else Ok false.

Definition unit_seconds (unit : string) : res Z :=
  match dget [("second", 1); ("seconds", 1); ("minute", 60); ("minutes", 60);
              ("hour", 3600); ("hours", 3600)] unit with
  | Some n => Ok n
  | None => Err (Exn KeyError (repr_str unit))
  end.

(** The search of [next_after]: [n] candidates are left. *)
Fixpoint search (n : nat) (minute hour : string) (candidate : Z) : res Z :=
  match n with
  | O => Err (Exn ValueError "could not find next cron run")
  | S n' =>
      let? found := matches_time minute hour candidate in
      if found then Ok candidate
      else let? next := dt_add candidate minute_us in search n' minute hour next
  end.

(** The number of candidates the code tries. *)
Definition max_candidates : nat := Z.to_nat (60 * 24 * 366).

Definition next_after (expression : string) (after : Z) : res Z :=
  if starts_with "every " expression then
    match drop 1 (take 3 (split_ws expression)) with
    | [amount; unit] =>
        let? n := parse_int amount in
        let? u := unit_seconds unit in
        dt_add after (n * u * second_us)
    | l => Err (Exn ValueError ("not enough values to unpack (expected 2, got "
                                 +:+ pretty (Z.of_nat (length l)) +:+ ")"))
    end
  else
    match split_ws expression with
    | [minute; hour; _; _; _] =>
        let? candidate := dt_add (truncate_minute after) minute_us in
        search max_candidates minute hour candidate
    | _ => Err (Exn ValueError "cron expression must have five fields or use 'every N unit'")
    end.

(** A field the parser understands: it never raises. *)
Definition field_ok (field : string) : bool :=
  bool_decide (field = "*") ||
  (if starts_with "*/" field
   then match parse_int (from2 field) with Ok n => negb (n =? 0) | Err _ => false end
   else is_ok (parse_int field)).

End CronParser.

(** * The search *)

Section Search.
Import CronParser.
Context (minute hour : string).

(** The candidates are the minutes from the first one on. *)
Definition candidate_at (c : Z) (k : nat) : Z := c + Z.of_nat k * minute_us.

Lemma candidate_at_S c k : candidate_at (c + minute_us) k = candidate_at c (S k).
Proof. unfold candidate_at. lia. Qed.

Lemma search_sound n c r :
  search n minute hour c = Ok r →
  ∃ k, (k < n)%nat ∧ r = candidate_at c k ∧ matches_time minute hour r = Ok true ∧
       ∀ i, (i < k)%nat → matches_time minute hour (candidate_at c i) = Ok false.
Proof.
  revert c. induction n as [|n IH]; intros c; simpl; [done|].
  assert (H0 : candidate_at c 0 = c) by (unfold candidate_at; lia).
  destruct (matches_time minute hour c) as [[]|e] eqn:Em; cbn [res_bind]; [| |done].
  - intros [= <-]. exists 0%nat. rewrite H0. split; [lia|]. split; [done|]. split; [done|]. intros i Hi; lia.
  - unfold dt_add. case_bool_decide; cbn [res_bind]; [|done].
    intros (k & Hk & -> & Hm & Hno)%IH. exists (S k). rewrite <- candidate_at_S.
    split; [lia|]. split; [done|]. split; [done|].
    intros [|i] Hi; [by rewrite H0|]. rewrite <- candidate_at_S. apply Hno. lia.
Qed.

Lemma matches_ok field v : field_ok field = true → ∃ b, _matches field v = Ok b.
Proof.
  unfold field_ok, _matches. case_bool_decide; [by eexists|]. simpl.
  destruct (starts_with "*/" field).
  - destruct (parse_int (from2 field)) as [n|]; [|done]. simpl. destruct (n =? 0); [done|]. by eexists.
  - destruct (parse_int field); [|done]. by eexists.
Qed.

Lemma matches_time_ok t :
  field_ok minute = true → field_ok hour = true → ∃ b, matches_time minute hour t = Ok b.
Proof.
  intros Hm Hh. unfold matches_time. destruct (matches_ok minute (dt_minute t) Hm) as [b ->].
  destruct b; simpl; [by apply matches_ok|by eexists].
Qed.

(** With fields that never raise, the search finds a candidate that matches. *)
Lemma search_finds n c k :
  field_ok minute = true → field_ok hour = true → (k < n)%nat → 0 <= c →
  candidate_at c k < max_time → matches_time minute hour (candidate_at c k) = Ok true →
  ∃ r, search n minute hour c = Ok r ∧ r <= candidate_at c k.
Proof.
  intros Hm Hh. revert c k. induction n as [|n IH]; intros c k Hk Hc Hmax Hmatch; [lia|].
  assert (H0 : candidate_at c 0 = c) by (unfold candidate_at; lia). simpl.
  destruct (matches_time_ok c Hm Hh) as [[] Hb]; rewrite Hb; cbn [res_bind].
  - exists c. split; [done|]. unfold candidate_at, minute_us, second_us. lia.
  - destruct k as [|k]; [rewrite H0 in Hmatch; congruence|]. rewrite <- candidate_at_S in Hmax, Hmatch.
    unfold dt_add. rewrite bool_decide_eq_true_2.
    + cbn [res_bind]. rewrite <- candidate_at_S. apply IH; try done; [lia|].
      unfold minute_us, second_us. lia.
    + unfold time_ok. unfold candidate_at, minute_us, second_us in *. lia.
Qed.

(** When no minute and hour of the day match, no candidate does. *)
Lemma search_none n c :
  field_ok minute = true → field_ok hour = true →
  (∀ h m, 0 <= h < 24 → 0 <= m < 60 → ¬ (_matches minute m = Ok true ∧ _matches hour h = Ok true)) →
  0 <= c → candidate_at c n < max_time →
  search n minute hour c = Err (Exn ValueError "could not find next cron run").
Proof.
  intros Hm Hh Hno. revert c. induction n as [|n IH]; intros c Hc Hmax; [done|]. simpl.
  assert (Hb : matches_time minute hour c = Ok false).
  { destruct (matches_time_ok c Hm Hh) as [[] Hb]; [exfalso|done]. revert Hb. unfold matches_time.
    destruct (_matches minute (dt_minute c)) as [[]|] eqn:E1; cbn [res_bind]; [|done|done]. intros E2.
    apply (Hno (dt_hour c) (dt_minute c)); [| |done]; unfold dt_hour, dt_minute; by apply Z.mod_pos_bound. }
  rewrite Hb. cbn [res_bind]. rewrite <- candidate_at_S in Hmax. unfold dt_add. rewrite bool_decide_eq_true_2.
  - cbn [res_bind]. apply IH; [|done]. unfold minute_us, second_us. lia.
  - unfold time_ok. unfold candidate_at, minute_us, second_us in *. lia.
Qed.

End Search.

(** The fields of a time on a minute. *)
Lemma minute_fields q : dt_minute (q * minute_us) = q mod 60 ∧ dt_hour (q * minute_us) = q / 60 mod 24.
Proof.
  unfold dt_minute, dt_hour, hour_us. split.
  - rewrite Z.div_mul by done. done.
  - by rewrite Z.div_mul_cancel_r by done.
Qed.

(** Every hour and minute of the day comes within 1440 minutes. *)
Lemma day_wraps q h m :
  0 <= h < 24 → 0 <= m < 60 →
  ∃ k : nat, (k < 1440)%nat ∧ (q + Z.of_nat k) mod 60 = m ∧ (q + Z.of_nat k) / 60 mod 24 = h.
Proof.
  intros Hh Hm. exists (Z.to_nat ((h * 60 + m - q) mod 1440)).
  pose proof (Z.mod_pos_bound (h * 60 + m - q) 1440 eq_refl) as Hb.
  rewrite Z2Nat.id by lia. split; [lia|].
  assert (∃ z, q + (h * 60 + m - q) mod 1440 = h * 60 + m + z * 1440) as [z ->].
  { exists (- ((h * 60 + m - q) / 1440)). rewrite Z.mod_eq by done. lia. }
  split; lia.
Qed.

(** * Properties *)

Section CronProperties.
Import CronParser.

(** A cron expression of five fields. *)
Definition five_fields (expression minute hour : string) : Prop :=
  starts_with "every " expression = false ∧
  ∃ day month weekday, split_ws expression = [minute; hour; day; month; weekday].

Lemma next_after_five expression minute hour after :
  five_fields expression minute hour →
  next_after expression after =
  (let? candidate := dt_add (truncate_minute after) minute_us in search max_candidates minute hour candidate).
Proof. intros (He & d & mo & w & Hs). unfold next_after. by rewrite He, Hs. Qed.

(** What [next_after] returns is the first minute after the given time whose
    minute and hour match the expression: it is later, it is on a minute, it
    matches, and no minute between does. *)
Lemma cron_next_is_first (expression minute hour : string) (after r : Z) :
  five_fields expression minute hour → next_after expression after = Ok r →
  after < r ∧ r mod minute_us = 0 ∧ matches_time minute hour r = Ok true ∧
  ∀ t, after < t < r → t mod minute_us = 0 → matches_time minute hour t = Ok false.
Proof.
  intros Hf. rewrite (next_after_five _ _ _ _ Hf).
  unfold dt_add. case_bool_decide; cbn [res_bind]; [|done].
  intros (k & Hk & -> & Hm & Hno)%search_sound.
  unfold candidate_at, truncate_minute in *. change minute_us with 60000000 in *.
  assert (Hq : after / 60000000 * 60000000 <= after < after / 60000000 * 60000000 + 60000000) by lia.
  set (q := after / 60000000) in *. clearbody q.
  replace (q * 60000000 + 60000000 + Z.of_nat k * 60000000)
    with ((q + 1 + Z.of_nat k) * 60000000) in * by lia.
  split; [lia|]. split; [by rewrite Z.mod_mul|]. split; [done|]. intros t Ht Hmod.
  apply Z.mod_divide in Hmod as [u ->]; [|done].
  replace (u * 60000000) with (q * 60000000 + 60000000 + Z.of_nat (Z.to_nat (u - q - 1)) * 60000000) by lia.
  apply Hno. lia.
Qed.

(** It finds a run when the two fields never raise and some minute and hour of
    the day match them, at most a day and a minute later, unless the calendar
    ends before. *)
Lemma cron_next_exists (expression minute hour : string) (after h m : Z) :
  five_fields expression minute hour →
  field_ok minute = true → field_ok hour = true →
  0 <= h < 24 → 0 <= m < 60 → _matches minute m = Ok true → _matches hour h = Ok true →
  0 <= after → after + day_us + minute_us < max_time →
  ∃ r, next_after expression after = Ok r ∧ after < r <= after + day_us + minute_us.
Proof.
  intros Hf Hfm Hfh Hh Hm Hmm Hmh Ha Hmax. rewrite (next_after_five _ _ _ _ Hf).
  set (q := after / minute_us + 1).
  assert (Hc : truncate_minute after + minute_us = q * minute_us) by (unfold truncate_minute, q; lia).
  assert (Hbounds : after < q * minute_us <= after + minute_us).
  { unfold q. change minute_us with 60000000. lia. }
  destruct (day_wraps q h m Hh Hm) as (k & Hk & Ekm & Ekh).
  assert (Hcand : candidate_at (q * minute_us) k = (q + Z.of_nat k) * minute_us)
    by (unfold candidate_at; lia).
  assert (Hlast : candidate_at (q * minute_us) k <= after + day_us + minute_us).
  { rewrite Hcand. change day_us with (1440 * minute_us). change minute_us with 60000000 in *. lia. }
  assert (Hmatch : matches_time minute hour (candidate_at (q * minute_us) k) = Ok true).
  { unfold matches_time. rewrite Hcand. destruct (minute_fields (q + Z.of_nat k)) as [-> ->].
    rewrite Ekm, Hmm. cbn [res_bind]. by rewrite Ekh. }
  unfold dt_add. rewrite Hc, bool_decide_eq_true_2.
  2:{ unfold time_ok. unfold candidate_at, day_us, hour_us, minute_us, second_us in *. lia. }
  cbn [res_bind].
  destruct (search_finds minute hour max_candidates (q * minute_us) k) as (r & Hr & Hle); try done.
  { unfold max_candidates. lia. }
  { change minute_us with 60000000 in *. lia. }
  { lia. }
  exists r. split; [done|]. apply search_sound in Hr as (i & _ & -> & _ & _).
  split; [|lia]. unfold candidate_at in *. change minute_us with 60000000 in *. lia.
Qed.

(** C35: [next_after] finds the next run, as far as the code reads the
    expression. For five fields of which the first two are understood, and a
    calendar that does not end within the search, it returns the first minute
    after the given time whose minute and hour match those two fields, at most
    a day and a minute later; it raises a [ValueError] exactly when no minute
    and hour of a day match them. The fields for the day, the month and the
    weekday are read and ignored. *)
Theorem cron_next_exact (expression minute hour : string) (after : Z) :
  five_fields expression minute hour → field_ok minute = true → field_ok hour = true →
  0 <= after → after + 367 * day_us < max_time →
  match next_after expression after with
  | Ok r =>
      after < r <= after + day_us + minute_us ∧ r mod minute_us = 0 ∧ matches_time minute hour r = Ok true ∧
      ∀ t, after < t < r → t mod minute_us = 0 → matches_time minute hour t = Ok false
  | Err e =>
      exn_cls e = ValueError ∧
      ∀ h m, 0 <= h < 24 → 0 <= m < 60 → ¬ (_matches minute m = Ok true ∧ _matches hour h = Ok true)
  end.
Proof.
  intros Hf Hm Hh Ha Hmax.
  assert (Hfind : ∀ h m, 0 <= h < 24 → 0 <= m < 60 → _matches minute m = Ok true → _matches hour h = Ok true →
    ∃ r, next_after expression after = Ok r ∧ after < r <= after + day_us + minute_us).
  { intros h m Hh' Hm' ? ?. apply (cron_next_exists expression minute hour after h m); try done.
    unfold day_us, hour_us, minute_us, second_us in *. lia. }
  destruct (next_after expression after) as [r|e] eqn:E.
  - destruct (cron_next_is_first _ _ _ _ _ Hf E) as (Hlt & Hmod & Hmatch & Hno). split_and!; try done.
    revert Hmatch. unfold matches_time.
    destruct (_matches minute (dt_minute r)) as [[]|] eqn:E1; cbn [res_bind]; [|done|done]. intros E2.
    destruct (Hfind (dt_hour r) (dt_minute r)) as (r' & [= <-] & Hr); try done;
      [unfold dt_hour; by apply Z.mod_pos_bound|unfold dt_minute; by apply Z.mod_pos_bound|lia].
  - assert (Hno : ∀ h m, 0 <= h < 24 → 0 <= m < 60 → ¬ (_matches minute m = Ok true ∧ _matches hour h = Ok true)).
    { intros h m Hh' Hm' [E1 E2]. by destruct (Hfind h m Hh' Hm' E1 E2) as (r & [= ] & _). }
    split; [|exact Hno]. rewrite (next_after_five _ _ _ _ Hf) in E. unfold dt_add in E.
    assert (Ht : truncate_minute after <= after ∧ 0 <= truncate_minute after).
    { unfold truncate_minute. change minute_us with 60000000. lia. }
    rewrite bool_decide_eq_true_2 in E; cbn [res_bind] in E.
    2: { unfold time_ok. unfold day_us, hour_us, minute_us, second_us in *. lia. }
    assert (Hcap : Z.of_nat max_candidates = 527040) by (unfold max_candidates; rewrite Z2Nat.id; lia).
    rewrite (search_none minute hour max_candidates _ Hm Hh Hno) in E; [by injection E as <-| |].
    + unfold minute_us, second_us. lia.
    + unfold candidate_at. rewrite Hcap. unfold day_us, hour_us, minute_us, second_us in *. lia.
Qed.

(** The day, month and weekday fields are read and ignored. *)
Lemma cron_ignores_dates e1 e2 minute hour after :
  five_fields e1 minute hour → five_fields e2 minute hour → next_after e1 after = next_after e2 after.
Proof. intros H1 H2. by rewrite (next_after_five _ _ _ _ H1), (next_after_five _ _ _ _ H2). Qed.

End CronProperties.

(** ** Witnesses *)

Lemma demo_cron : five_fields "*/15 9 * * 1" "*/15" "9".
Proof. split; [reflexivity|]. by exists "*", "*", "1". Qed.

Lemma cron_next_exact_witness :
  CronParser.next_after "*/15 9 * * 1" (100 * second_us) = Ok (9 * hour_us) ∧
  100 * second_us < 9 * hour_us <= 100 * second_us + day_us + minute_us ∧
  CronParser.matches_time "*/15" "9" (9 * hour_us) = Ok true.
Proof.
  assert (Hr : CronParser.next_after "*/15 9 * * 1" (100 * second_us) = Ok (9 * hour_us))
    by (vm_compute; reflexivity).
  pose proof (cron_next_exact "*/15 9 * * 1" "*/15" "9" (100 * second_us) demo_cron eq_refl eq_refl
    ltac:(vm_compute; congruence) ltac:(vm_compute; reflexivity)) as Hx.
  rewrite Hr in Hx. destruct Hx as (Hlt & _ & Hm & _). split; [exact Hr|]. split; [exact Hlt|exact Hm].
Defined.

(** The first of January is not waited for. *)
Example cron_new_year_is_tomorrow :
  CronParser.next_after "0 0 1 1 *" (40 * day_us) = Ok (41 * day_us).
Proof. vm_compute. reflexivity. Qed.
