(* ===== verification/Scheduler.v ===== *)
(** The scheduler of agentfabric/cloud/scheduler: scheduled jobs, their next
    runs and the trigger of those that are due. *)

From stdpp Require Import base option list strings gmap sets pretty.
From Stdlib Require Import ZArith Lia.
From S2P Require Import Prelude PyVal Json PyTime Store EventStore Documents Quotas Job Queue Veil.
From S2P Require Import Dispatcher Runtime Cron.

Local Open Scope Z_scope.

(** * scheduled_job.py *)

Module ScheduledJob.

Record t := Mk {
  tenant_id : string;
  organization_id : string;
  created_by : string;
  job_type : string;
  payload : doc;
  schedule_type : string;
  cron : option string;
  run_at : option Z;
  enabled : bool;
  schedule_id : string;
  last_run_at : option Z;
  next_run_at : option Z;
  created_at : Z;
}.

Definition as_dict (s : t) : doc :=
  [("schedule_id", VStr (schedule_id s)); ("tenant_id", VStr (tenant_id s));
   ("organization_id", VStr (organization_id s)); ("created_by", VStr (created_by s));
   ("job_type", VStr (job_type s)); ("payload", VDict (payload s));
   ("schedule_type", VStr (schedule_type s)); ("cron", opt_str (cron s));
   ("run_at", opt_iso (run_at s)); ("enabled", VBool (enabled s));
   ("last_run_at", opt_iso (last_run_at s)); ("next_run_at", opt_iso (next_run_at s));
   ("created_at", VStr (isoformat (created_at s)))].

Section Calls.
Context `{Oracle} {S : Type}.

Definition from_dict (value : doc) : M (sys S) t :=
  let* schedule_id := of_res (str_field value "schedule_id") in
  let* tenant_id := of_res (str_field value "tenant_id") in
  let* organization_id := of_res (str_field value "organization_id") in
  let* job_type := of_res (str_field value "job_type") in
  let* payload := of_res (dict_field_or_empty value "payload") in
  let* run_at := of_res (opt_time_field value "run_at") in
  let* last_run_at := of_res (opt_time_field value "last_run_at") in
  let* next_run_at := of_res (opt_time_field value "next_run_at") in
  let* created_at := time_field_or_now value "created_at" in
  ret (Mk tenant_id organization_id (str_field_or value "created_by" "") job_type payload
         (str_field_or value "schedule_type" "one_time") (opt_str_field value "cron") run_at
         (bool_field_or value "enabled" true) schedule_id last_run_at next_run_at created_at).

(** A schedule whose document is read back as it is. *)
Definition schedule_ok (s : t) : Prop :=
  cron s ≠ Some "" ∧ opt_time_ok (run_at s) ∧ opt_time_ok (last_run_at s) ∧
  opt_time_ok (next_run_at s) ∧ time_ok (created_at s).

Lemma schedule_from_as_dict x (s : sys S) : schedule_ok x → from_dict (as_dict x) s = (Ok x, s).
Proof.
  intros (Hcr & Hr & Hl & Hn & Hc). unfold from_dict, bind, of_res, ret.
  cbn -[time_field_or_now opt_time_field opt_str_field isoformat].
  rewrite (time_field_or_now_iso _ _ _ _ Hc) by done.
  rewrite (opt_time_field_iso _ "run_at" (run_at x)), (opt_time_field_iso _ "last_run_at" (last_run_at x)),
    (opt_time_field_iso _ "next_run_at" (next_run_at x)).
  2-7: first [done | intros t0 E; by rewrite E in *].
  rewrite (opt_str_field_eq _ _ _ Hcr) by done. by destruct x.
Qed.

End Calls.

Definition set_enabled (b : bool) (s : t) : t :=
  Mk (tenant_id s) (organization_id s) (created_by s) (job_type s) (payload s) (schedule_type s)
    (cron s) (run_at s) b (schedule_id s) (last_run_at s) (next_run_at s) (created_at s).

(** The copy with another next run, which a run at [last] leaves. *)
Definition after_run (enabled : bool) (last next : option Z) (s : t) : t :=
  Mk (tenant_id s) (organization_id s) (created_by s) (job_type s) (payload s) (schedule_type s)
    (cron s) (run_at s) enabled (schedule_id s) last next (created_at s).

End ScheduledJob.

Abbreviation ScheduledJob := ScheduledJob.t.

#[export] Instance schedule_document `{Oracle} {S} : Document S ScheduledJob := {
  d_coll := "runtime_schedules";
  d_key := ScheduledJob.schedule_id;
  d_enc := ScheduledJob.as_dict;
  d_dec := ScheduledJob.from_dict;
  d_ok := ScheduledJob.schedule_ok;
  d_dec_enc := ScheduledJob.schedule_from_as_dict;
  d_enc_ne s := ltac:(done);
}.

(** [if schedule.cron] and [if not schedule.cron] *)
Definition cron_text (s : ScheduledJob) : option string :=
  match ScheduledJob.cron s with Some "" | None => None | Some c => Some c end.

(** * schedule.py *)

Definition prepare_schedule (s : ScheduledJob) (now : Z) : res ScheduledJob :=
  let? next := (if bool_decide (ScheduledJob.schedule_type s = "recurring") then
      match cron_text s with
      | None => Err (Exn ValueError "recurring schedule requires cron")
      | Some c => let? r := CronParser.next_after c now in Ok (Some r)
      end
    else Ok (ScheduledJob.run_at s)) in
  Ok (ScheduledJob.after_run (ScheduledJob.enabled s) (ScheduledJob.last_run_at s) next s).

(** * scheduler_service.py *)

Module SchedulerService.
Section SchedulerService.
Context `{Oracle} {S : Type} `{PersistenceStore S}.

Abbreviation C := (M (cloud S)).

Definition create (schedule : ScheduledJob) : M (sys S) ScheduledJob :=
  let* now := utc_now in
  let* prepared := of_res (prepare_schedule schedule now) in
  do* doc_put prepared;
  let* event := EventStore.append "runtime.schedule.created" (ScheduledJob.schedule_id prepared)
                  (ScheduledJob.as_dict prepared) in
  ret prepared.

Definition list_schedules (tenant_id : string) : M (sys S) (list ScheduledJob) := doc_list_tenant tenant_id.

Definition get (schedule_id : string) : M (sys S) (option ScheduledJob) := doc_get schedule_id.

Definition set_enabled (schedule_id : string) (enabled : bool) : M (sys S) ScheduledJob :=
  let* schedule := get schedule_id in
  match schedule with
  | None => raise KeyError (repr_str schedule_id)
  | Some s =>
      let updated := ScheduledJob.set_enabled enabled s in
      do* store_put "runtime_schedules" schedule_id (ScheduledJob.as_dict updated);
      let* event := EventStore.append
        (if enabled then "runtime.schedule.enabled" else "runtime.schedule.disabled")
        schedule_id (ScheduledJob.as_dict updated) in
      ret updated
  end.

(** [schedule.enabled and schedule.next_run_at is not None and
    schedule.next_run_at <= now] *)
Definition is_due (now : Z) (s : ScheduledJob) : bool :=
  ScheduledJob.enabled s &&
  match ScheduledJob.next_run_at s with Some n => negb (n >? now) | None => false end.

(** The payload of the job of a schedule. *)
Definition job_payload (s : ScheduledJob) : doc :=
  dset (ScheduledJob.payload s) "schedule_id" (VStr (ScheduledJob.schedule_id s)).

(** The next run, as of the time of the trigger. *)
Definition next_run (now : Z) (s : ScheduledJob) : res (option Z) :=
  if bool_decide (ScheduledJob.schedule_type s = "recurring") then
    match cron_text s with
    | Some c => let? r := CronParser.next_after c now in Ok (Some r)
    | None => Ok None
    end
  else Ok None.

(** The copy of the schedule that is stored after its run. *)
Definition rescheduled (now : Z) (next : option Z) (s : ScheduledJob) : ScheduledJob :=
  ScheduledJob.after_run (match next with Some _ => ScheduledJob.enabled s | None => false end) (Some now) next s.

(** The run of one due schedule. *)
Definition trigger (now : Z) (s : ScheduledJob) : C RuntimeJob :=
  let* job := on_env (RuntimeJob.new (ScheduledJob.tenant_id s) (ScheduledJob.organization_id s)
    (ScheduledJob.created_by s) (ScheduledJob.job_type s) (job_payload s)) in
  let* job := CloudRuntime.submit job in
  let* next := of_res (next_run now s) in
  do* on_env (doc_put (rescheduled now next s));
  let* event := on_env (EventStore.append "runtime.schedule.triggered" (ScheduledJob.schedule_id s)
    [("tenant_id", VStr (ScheduledJob.tenant_id s)); ("job_id", VStr (RuntimeJob.job_id job))]) in
  ret job.

Fixpoint trigger_loop (now : Z) (schedules : list ScheduledJob) : C (list RuntimeJob) :=
  match schedules with
  | [] => ret []
  | s :: ss =>
      if negb (is_due now s) then trigger_loop now ss
      else
        let* job := trigger now s in
        let* jobs := trigger_loop now ss in
        ret (job :: jobs)
  end.

(** [now or utc_now()]: a [datetime] is never falsy. *)
Definition trigger_due (tenant_id : option string) (now : option Z) : C (list RuntimeJob) :=
  let* now := (match now with Some n => ret n | None => on_env utc_now end) in
  let* schedules := on_env
    (match tenant_id with
     | Some t => if bool_decide (t = "") then doc_list else list_schedules t
     | None => doc_list
     end) in
  trigger_loop now schedules.

End SchedulerService.
End SchedulerService.

(** * Calls that leave the schedules alone *)

Section Frame.
Context `{Oracle} {S : Type} `{PersistenceStore S, !StoreLaws S} (x : string → string → option doc).

Definition creads (c : cloud S) : Prop := reads x (env c).

Lemma creads_on_env {A} (m : M (sys S) A) : preserves (reads x) m → preserves creads (on_env m).
Proof. intros Hm. by apply (preserves_zoom creads (reads x)). Qed.

Lemma creads_update f : preserves creads (Queue.update (S := S) f).
Proof. by apply preserves_modify. Qed.

Lemma reads_job_from_dict d : preserves (reads x) (RuntimeJob.from_dict (S := S) d).
Proof. unfold RuntimeJob.from_dict. repeat (apply preserves_bind; [auto with preserve|intros ?]). auto with preserve. Qed.

Lemma reads_with_update u j : preserves (reads x) (RuntimeJob.with_update (S := S) u j).
Proof. apply preserves_bind; [auto with preserve|intros ?]. apply reads_job_from_dict. Qed.

Lemma reads_job_new t o b ty p : preserves (reads x) (RuntimeJob.new (S := S) t o b ty p).
Proof. unfold RuntimeJob.new. auto 10 with preserve. Qed.

Lemma creads_enqueue j : preserves creads (Queue.enqueue (S := S) j).
Proof.
  unfold Queue.enqueue. repeat (apply preserves_bind;
    [first [apply preserves_of_res | apply creads_on_env, reads_with_update | apply creads_update]|intros ?]).
  apply preserves_ret.
Qed.

Lemma creads_submit j : preserves creads (CloudRuntime.submit (S := S) j).
Proof.
  unfold CloudRuntime.submit. repeat (apply preserves_bind;
    [first [apply preserves_of_res | apply creads_enqueue | apply creads_on_env, reads_append]|intros ?]).
  apply preserves_ret.
Qed.

End Frame.

(** * Next runs *)

Lemma dt_add_ok t d r : dt_add t d = Ok r → r = t + d ∧ time_ok r.
Proof. unfold dt_add. case_bool_decide; [by intros [= <-]|done]. Qed.

Lemma search_time_ok n minute hour c r :
  time_ok c → CronParser.search n minute hour c = Ok r → time_ok r.
Proof.
  revert c. induction n as [|n IH]; intros c Hc; simpl; [done|].
  destruct (CronParser.matches_time minute hour c) as [[]|e]; cbn [res_bind]; [by intros [= <-]| |done].
  destruct (dt_add c minute_us) as [c'|] eqn:E; cbn [res_bind]; [|done].
  apply IH. by apply dt_add_ok in E as [_ ?].
Qed.

Lemma next_after_time_ok e a r : CronParser.next_after e a = Ok r → time_ok r.
Proof.
  unfold CronParser.next_after. destruct (starts_with "every " e).
  - case_match; [done|]. case_match; [done|]. case_match; [|done].
    destruct (parse_int _); cbn [res_bind]; [|done].
    destruct (CronParser.unit_seconds _); cbn [res_bind]; [|done]. intros E. by apply dt_add_ok in E as [_ ?].
  - repeat (case_match; try done).
    destruct (dt_add _ _) as [c|] eqn:E; cbn [res_bind]; [|done].
    apply search_time_ok. by apply dt_add_ok in E as [_ ?].
Qed.

(** The next run of an expression is later than the time it is asked for. *)
Definition cron_forward (e : string) : Prop := ∀ a r, CronParser.next_after e a = Ok r → a < r.

Lemma cron_forward_five e minute hour : five_fields e minute hour → cron_forward e.
Proof.
  intros Hf a r. rewrite (next_after_five _ _ _ _ Hf).
  destruct (dt_add _ _) as [c|] eqn:E; cbn [res_bind]; [|done].
  apply dt_add_ok in E as [-> _]. intros (k & _ & -> & _)%search_sound.
  unfold candidate_at, truncate_minute. change minute_us with 60000000.
  pose proof (Z.mod_pos_bound a 60000000 eq_refl). pose proof (Z.div_mod a 60000000). lia.
Qed.

(** * Due schedules *)

Section Trigger.
Context `{Oracle} {S : Type} `{PersistenceStore S, !StoreLaws S}.
Hypothesis clock_ok : ∀ n, time_ok (clock n).
Implicit Types (c : cloud S) (s b : ScheduledJob).

(** The recurrence of a schedule moves forward. *)
Definition forward s : Prop := ∀ e, cron_text s = Some e → cron_forward e.

(** The job a due schedule submits, as the queue stores it. *)
Definition job_of s (j : RuntimeJob) : Prop :=
  RuntimeJob.tenant_id j = ScheduledJob.tenant_id s ∧ RuntimeJob.organization_id j = ScheduledJob.organization_id s ∧
  RuntimeJob.created_by j = ScheduledJob.created_by s ∧ RuntimeJob.job_type j = ScheduledJob.job_type s ∧
  RuntimeJob.payload j = SchedulerService.job_payload s ∧ RuntimeJob.queue_name j = "default" ∧
  RuntimeJob.status j = JobStatus.QUEUED ∧ RuntimeJob.attempts j = 0.

(** The queue after a job was enqueued: it is stored under its id, which is the
    last one in its queue. *)
Definition enqueued (q : MemoryJobQueue) (j : RuntimeJob) : MemoryJobQueue :=
  let q1 := Queue.set_job (RuntimeJob.job_id j) j q in
  Queue.set_ids (RuntimeJob.queue_name j) (Queue.ids (RuntimeJob.queue_name j) q1 ++ [RuntimeJob.job_id j]) q1.

Lemma on_env_queue {A} (m : M (sys S) A) c r c' : on_env m c = (r, c') → queue c' = queue c.
Proof. unfold on_env, zoom. destruct (m (env c)). by intros [= _ <-]. Qed.

Lemma submit_enqueues j c queued c' :
  RuntimeJob.job_ok j → CloudRuntime.submit j c = (Ok queued, c') →
  queue c' = enqueued (queue c) queued ∧ ∃ t, queued = RuntimeJob.set_updated_at t (RuntimeJob.set_status JobStatus.QUEUED j).
Proof.
  intros Hj Hs. unfold CloudRuntime.submit in Hs.
  apply bind_ok in Hs as ([] & c1 & H1 & Hs). unfold of_res in H1. injection H1 as Hv <-.
  apply bind_ok in Hs as (q & c2 & H2 & Hs). apply bind_ok in Hs as (ev & c3 & H3 & Hs). injection Hs as <- <-.
  rewrite (enqueue_eq clock_ok) in H2 by done. rewrite Hv in H2. injection H2 as <- <-.
  apply on_env_queue in H3. rewrite H3. split; [done|]. by eexists.
Qed.

(** The job of a schedule is submitted and nothing else enters the queue. *)
Lemma trigger_job now s c job c' :
  SchedulerService.trigger now s c = (Ok job, c') → job_of s job ∧ queue c' = enqueued (queue c) job.
Proof.
  intros Htr. unfold SchedulerService.trigger in Htr.
  apply bind_ok in Htr as (j & c1 & H1 & Htr). unfold on_env, zoom, RuntimeJob.new, bind, uuid4, utc_now, ret in H1.
  injection H1 as <- <-. apply bind_ok in Htr as (j2 & c2 & H2 & Htr).
  apply submit_enqueues in H2 as [Hq (t & ->)]; [|split_and!; first [done | apply clock_ok]].
  apply bind_ok in Htr as (next & c3 & H3 & Htr). unfold of_res in H3. injection H3 as _ <-.
  apply bind_ok in Htr as ([] & c4 & H4 & Htr). apply bind_ok in Htr as (ev & c5 & H5 & Htr). injection Htr as <- <-.
  apply on_env_queue in H4, H5. split; [by split_and!|]. by rewrite H5, H4.
Qed.

Lemma trigger_outcome now s c job c' :
  time_ok now → ScheduledJob.schedule_ok s → forward s →
  SchedulerService.trigger now s c = (Ok job, c') →
  ∃ next, SchedulerService.next_run now s = Ok next ∧
    let updated := SchedulerService.rescheduled now next s in
    ScheduledJob.schedule_ok updated ∧ SchedulerService.is_due now updated = false ∧
    ∀ col k, col ≠ "events" → st_get col k (db (env c')) =
      st_get col k (st_put "runtime_schedules" (ScheduledJob.schedule_id s) (ScheduledJob.as_dict updated) (db (env c))).
Proof.
  intros Hnow (Hcr & Hrun & Hlast & Hnext & Hcreated) Hf Htr. unfold SchedulerService.trigger in Htr.
  set (x := fun col k => st_get col k (db (env c))).
  assert (Hx : creads x c) by done.
  apply bind_ok in Htr as (j & c1 & H1 & Htr).
  pose proof (preserves_run _ _ _ _ _ (creads_on_env x _ (reads_job_new x _ _ _ _ _)) H1 Hx) as Hx1.
  apply bind_ok in Htr as (j2 & c2 & H2 & Htr).
  pose proof (preserves_run _ _ _ _ _ (creads_submit x j) H2 Hx1) as Hx2.
  apply bind_ok in Htr as (next & c3 & H3 & Htr). unfold of_res in H3. injection H3 as Hn <-.
  set (updated := SchedulerService.rescheduled now next s) in Htr.
  apply bind_ok in Htr as ([] & c4 & H4 & Htr). apply bind_ok in Htr as (ev & c5 & H5 & Htr).
  apply (f_equal snd) in H4, Htr. cbn in H4, Htr.
  exists next. split; [done|]. cbv zeta. fold updated.
  assert (Hnx : opt_time_ok next ∧ ∀ n, next = Some n → now < n).
  { unfold SchedulerService.next_run in Hn. destruct (bool_decide (ScheduledJob.schedule_type s = "recurring")); [|by injection Hn as <-].
    destruct (cron_text s) as [e|] eqn:Ee; [|by injection Hn as <-].
    destruct (CronParser.next_after e now) as [r|] eqn:Er; [|done]. injection Hn as <-.
    split; [by apply next_after_time_ok in Er|]. intros n [= <-]. by apply (Hf e Ee). }
  destruct Hnx as [Hnok Hnlt]. split; [by split_and!|]. split.
  - unfold SchedulerService.is_due, updated, SchedulerService.rescheduled. simpl. destruct next as [n|]; [|by rewrite andb_false_r].
    specialize (Hnlt n eq_refl). rewrite Z.gtb_ltb, (proj2 (Z.ltb_lt now n)) by done. by rewrite andb_false_r.
  - intros col k Hcol. subst c'.
    assert (Hx5 : creads (fun col k => st_get col k (db (env c4))) c5).
    { eapply preserves_run; [apply creads_on_env, reads_append|exact H5|done]. }
    rewrite (Hx5 col k Hcol). subst c4. cbn.
    destruct (decide ((col, k) = ("runtime_schedules", ScheduledJob.schedule_id s))) as [E|E].
    + injection E as -> ->. by rewrite !get_put_eq.
    + rewrite !get_put_ne by congruence. by apply Hx2.
Qed.

Lemma schedule_enc_inj (a b : ScheduledJob) c :
  ScheduledJob.schedule_ok a → ScheduledJob.schedule_ok b → ScheduledJob.as_dict a = ScheduledJob.as_dict b →
  a = b.
Proof. intros Ha Hb E. by apply (d_enc_inj a b (env c)). Qed.

Abbreviation is_due now := (fun s => SchedulerService.is_due now s = true).

(** The loop submits a job for each schedule that is due. *)
Lemma trigger_loop_jobs now l c jobs c' :
  SchedulerService.trigger_loop now l c = (Ok jobs, c') →
  Forall2 job_of (base.filter (is_due now) l) jobs ∧ queue c' = fold_left enqueued jobs (queue c).
Proof.
  revert c jobs c'. induction l as [|s l IH]; intros c jobs c' Hrun; cbn [SchedulerService.trigger_loop] in Hrun.
  { injection Hrun as <- <-. by split; [constructor|]. }
  rewrite filter_cons. destruct (SchedulerService.is_due now s) eqn:Ed; cbn [negb] in Hrun.
  - rewrite decide_True by done.
    apply bind_ok in Hrun as (job & c1 & H1 & Hrun). apply bind_ok in Hrun as (js & c2 & H2 & Hrun).
    injection Hrun as <- <-. apply trigger_job in H1 as [Hj Hq]. apply IH in H2 as [Hjs Hqs].
    split; [by constructor|]. by rewrite Hqs, Hq.
  - rewrite decide_False by done. by apply IH.
Qed.

(** The loop leaves every schedule it was given not due, and the others as they
    were. *)
Lemma trigger_loop_outcome now l c jobs c' :
  time_ok now → typed (A := ScheduledJob) (db (env c)) →
  Forall (fun s => stored s (db (env c)) ∧ forward s) l → NoDup (ScheduledJob.schedule_id <$> l) →
  SchedulerService.trigger_loop now l c = (Ok jobs, c') →
  typed (A := ScheduledJob) (db (env c')) ∧
  (∀ s, s ∈ l → SchedulerService.is_due now s = true →
     ∃ next, SchedulerService.next_run now s = Ok next ∧ stored (SchedulerService.rescheduled now next s) (db (env c'))) ∧
  (∀ b, stored b (db (env c')) → ScheduledJob.schedule_id b ∈ ScheduledJob.schedule_id <$> l →
        SchedulerService.is_due now b = false) ∧
  (∀ k, k ∉ ScheduledJob.schedule_id <$> l →
        st_get "runtime_schedules" k (db (env c')) = st_get "runtime_schedules" k (db (env c))).
Proof.
  intros Hnow. revert c jobs c'.
  induction l as [|s l IH]; intros c jobs c' Ht Hl Hnd Hrun; cbn [SchedulerService.trigger_loop] in Hrun.
  { unfold ret in Hrun. injection Hrun as <- <-. split_and!; try done.
    - by intros s ?%elem_of_nil.
    - by intros b _ ?%elem_of_nil. }
  apply Forall_cons in Hl as [[Hs Hf] Hl].
  cbn [fmap list_fmap] in Hnd. apply NoDup_cons in Hnd as [Hsl Hnd].
  change (list_fmap ScheduledJob string ScheduledJob.schedule_id l) with (ScheduledJob.schedule_id <$> l) in *.
  destruct (SchedulerService.is_due now s) eqn:Ed; cbn [negb] in Hrun.
  - apply bind_ok in Hrun as (job & c1 & H1 & Hrun). apply bind_ok in Hrun as (js & c2 & H2 & Hrun).
    unfold ret in Hrun. injection Hrun as <- <-.
    destruct (trigger_outcome now s c job c1 Hnow (proj1 Hs) Hf H1) as (next & Hnext & Hu & Hdue & Hget).
    set (u := SchedulerService.rescheduled now next s) in *.
    assert (Hsch : ∀ k, st_get "runtime_schedules" k (db (env c1)) =
      if decide (k = ScheduledJob.schedule_id s) then Some (ScheduledJob.as_dict u)
      else st_get "runtime_schedules" k (db (env c))).
    { intros k. rewrite Hget by done. case_decide; [subst; apply get_put_eq|apply get_put_ne; congruence]. }
    assert (Ht1 : typed (A := ScheduledJob) (db (env c1))).
    { intros k d. cbn. rewrite Hsch. case_decide; [|apply Ht]. intros [= <-]. exists u. split; [done|]. by subst k. }
    assert (Hl1 : Forall (fun s => stored s (db (env c1)) ∧ forward s) l).
    { apply Forall_forall. intros a Ha. rewrite Forall_forall in Hl. destruct (Hl a Ha) as [[Hok Hga] Hfa].
      split; [|done]. split; [done|]. cbn in *. rewrite Hsch, decide_False; [done|].
      intros E. apply Hsl. rewrite <- E. by apply list_elem_of_fmap_2. }
    destruct (IH c1 js c2 Ht1 Hl1 Hnd H2) as (Ht2 & Hre & Hno & Hrest).
    split_and!; [done| | |].
    + intros a [->|Ha]%elem_of_cons Hda; [|by apply Hre]. exists next. split; [done|]. split; [exact Hu|].
      cbn. by rewrite Hrest, Hsch, decide_True.
    + intros b Hb [Eb|Hin]%elem_of_cons; [|by apply Hno]. destruct Hb as [Hbok Hgb]. cbn in Hgb.
      rewrite Eb, Hrest, Hsch, decide_True in Hgb by done. apply (inj Some) in Hgb.
      by apply (schedule_enc_inj u b c Hu Hbok) in Hgb as <-.
    + intros k Hk. rewrite Hrest, Hsch, decide_False; [done|set_solver|set_solver].
  - destruct (IH c jobs c' Ht Hl Hnd Hrun) as (Ht2 & Hre & Hno & Hrest).
    split_and!; [done| | |].
    + intros a [->|Ha]%elem_of_cons Hda; [congruence|by apply Hre].
    + intros b Hb [Eb|Hin]%elem_of_cons; [|by apply Hno]. destruct Hb as [Hbok Hgb]. cbn in Hgb.
      destruct Hs as [Hsok Hgs]. cbn in Hgs. rewrite Eb, Hrest, Hgs in Hgb by done. apply (inj Some) in Hgb.
      by apply (schedule_enc_inj s b c Hsok Hbok) in Hgb as <-.
    + intros k Hk. apply Hrest. set_solver.
Qed.

(** A schedule in the scope of a listing. *)
Definition in_scope (tenant : option string) s : Prop :=
  match tenant with
  | Some t => t = "" ∨ ScheduledJob.tenant_id s = t
  | None => True
  end.

Definition listing (tenant : option string) : M (sys S) (list ScheduledJob) :=
  match tenant with
  | Some t => if bool_decide (t = "") then doc_list else SchedulerService.list_schedules t
  | None => doc_list
  end.

Lemma listing_eq tenant (s : sys S) :
  typed (A := ScheduledJob) (db s) →
  ∃ l, listing tenant s = (Ok l, s) ∧ Forall (fun a => stored a (db s) ∧ in_scope tenant a) l ∧
       NoDup (ScheduledJob.schedule_id <$> l) ∧
       ∀ a, stored a (db s) → in_scope tenant a → a ∈ l.
Proof.
  intros Ht. destruct (doc_list_eq s Ht) as (l & Hl & El & Sl).
  pose proof (doc_list_NoDup s l Ht El Sl) as Hnd.
  assert (Hin : ∀ a, stored a (db s) → a ∈ l).
  { intros a Ha. assert (Hd : ScheduledJob.as_dict a ∈ ScheduledJob.as_dict <$> l).
    { change (ScheduledJob.as_dict a ∈ d_enc (S := S) <$> l). rewrite El. apply elem_of_st_list. exists (ScheduledJob.schedule_id a). apply Ha. }
    apply list_elem_of_fmap in Hd as (a' & E & Ha'). rewrite Forall_forall in Sl.
    destruct Ha as [Hok _], (Sl a' Ha') as [Hok' _].
    by apply (d_enc_inj a a' s Hok Hok') in E as ->. }
  assert (Hall : ∀ t, (∀ a, in_scope t a) → Forall (fun a => stored a (db s) ∧ in_scope t a) l).
  { intros t Hsc. eapply Forall_impl; [exact Sl|]. intros a Ha. split; [exact Ha|apply Hsc]. }
  destruct tenant as [t|]; [|exists l; split; [exact Hl|]; split; [by apply Hall|]; split; [exact Hnd|]; auto].
  unfold listing. case_bool_decide as Et.
  { exists l. split; [exact Hl|]. split; [apply Hall; by left|]. split; [exact Hnd|]. auto. }
  destruct (doc_list_tenant_eq t s Ht) as (lt & Hlt & Elt & Slt). exists lt.
  pose proof Elt as Elt'. rewrite list_tenant_list, <- El, filter_fmap in Elt'.
  assert (lt = base.filter (fun a => is_str (dget (ScheduledJob.as_dict a) "tenant_id") t = true) l) as Hf.
  { apply (d_enc_inj_list _ _ s); [by eapply Forall_stored_ok| |done].
    apply Forall_filter_keep. by eapply Forall_stored_ok. }
  assert (Hten : ∀ a : ScheduledJob, is_str (dget (ScheduledJob.as_dict a) "tenant_id") t = true ↔ ScheduledJob.tenant_id a = t).
  { intros a. simpl. by rewrite bool_decide_eq_true. }
  split; [exact Hlt|]. split; [|split; [exact (doc_list_tenant_NoDup t s lt Ht Elt Slt)|]].
  - apply Forall_forall. intros a Ha. rewrite Forall_forall in Slt. split; [by apply Slt|]. right.
    rewrite Hf in Ha. apply list_elem_of_filter in Ha as [Ha _]. by apply Hten.
  - intros a Ha [?|Hs]; [done|]. rewrite Hf. apply list_elem_of_filter. split; [by apply Hten|by apply Hin].
Qed.

Lemma trigger_loop_nothing now l c :
  Forall (fun s => SchedulerService.is_due now s = false) l →
  SchedulerService.trigger_loop now l c = (Ok [], c).
Proof. induction 1 as [|s l Hs _ IH]; [done|]. cbn. by rewrite Hs. Qed.

End Trigger.

(** * Properties *)

Section SchedulerProperties.
Context `{Oracle} {S : Type} `{PersistenceStore S, !StoreLaws S}.

(** C36: a due schedule fires once. With recurrences that move forward (a cron
    expression does, "every 0 minutes" does not), when [trigger_due] returns it
    has enqueued, for the due schedules in its scope and in the order of their
    listing, one job each, with the tenant, organization, creator and type of
    the schedule and its payload and id; nothing else entered the queue. Each of
    them is stored with that run and its next one, disabled when there is none.
    No schedule in the scope is due at that time any more, and triggering again
    at the same time submits nothing and changes nothing. *)
Theorem schedules_fire_once (tenant : option string) (now : Z) (c : cloud S) (jobs : list RuntimeJob) (c' : cloud S) :
  (∀ n, time_ok (clock n)) → time_ok now → typed (A := ScheduledJob) (db (env c)) →
  (∀ s : ScheduledJob, stored s (db (env c)) → forward s) →
  SchedulerService.trigger_due tenant (Some now) c = (Ok jobs, c') →
  (∃ l, listing tenant (env c) = (Ok l, env c) ∧
        Forall2 job_of (base.filter (fun s => SchedulerService.is_due now s = true) l) jobs ∧
        queue c' = fold_left enqueued jobs (queue c) ∧
        ∀ s, s ∈ l → SchedulerService.is_due now s = true →
          ∃ next, SchedulerService.next_run now s = Ok next ∧
            stored (SchedulerService.rescheduled now next s) (db (env c'))) ∧
  (∀ b : ScheduledJob, stored b (db (env c')) → in_scope tenant b → SchedulerService.is_due now b = false) ∧
  SchedulerService.trigger_due tenant (Some now) c' = (Ok [], c').
Proof.
  intros Hclock Hnow Ht Hf. unfold SchedulerService.trigger_due. fold (listing tenant).
  unfold bind at 1, ret. rewrite bind_on_env.
  destruct (listing_eq tenant (env c) Ht) as (l & Hl & Sl & Hnd & Hin). rewrite Hl.
  replace (set_env (env c) c) with c by (by destruct c). intros Hrun.
  assert (Hloop : Forall (fun s => stored s (db (env c)) ∧ forward s) l).
  { eapply Forall_impl; [exact Sl|]. intros a [Ha _]. split; [done|by apply Hf]. }
  destruct (trigger_loop_outcome Hclock now l c jobs c' Hnow Ht Hloop Hnd Hrun) as (Ht' & Hre & Hno & Hrest).
  apply (trigger_loop_jobs Hclock) in Hrun as [Hjobs Hq].
  assert (Hnot : ∀ b : ScheduledJob, stored b (db (env c')) → in_scope tenant b → SchedulerService.is_due now b = false).
  { intros b Hb Hsc. destruct (decide (ScheduledJob.schedule_id b ∈ ScheduledJob.schedule_id <$> l)) as [Hk|Hk].
    - by apply Hno.
    - exfalso. apply Hk, list_elem_of_fmap_2, Hin; [|done]. destruct Hb as [Hok Hg]. split; [done|].
      cbn in *. by rewrite <- Hrest. }
  split; [exists l; by split_and!|]. split; [done|].
  unfold bind at 1. rewrite bind_on_env.
  destruct (listing_eq tenant (env c') Ht') as (l' & Hl' & Sl' & _ & _). rewrite Hl'.
  replace (set_env (env c') c') with c' by (by destruct c').
  apply trigger_loop_nothing. eapply Forall_impl; [exact Sl'|]. intros b [Hb Hsc]. by apply Hnot.
Qed.

End SchedulerProperties.

(** ** Witnesses *)

Definition demo_schedule : ScheduledJob :=
  ScheduledJob.Mk "t" "org" "me" "agent_run" [] "recurring" (Some "*/15 9 * * 1") None true "sch-1"
    None (Some 0) 0.

Definition demo_scheduled : cloud Memory.store :=
  set_env (with_db (st_put "runtime_schedules" "sch-1" (ScheduledJob.as_dict demo_schedule)) (env demo_cloud))
    demo_cloud.

Lemma demo_scheduled_stored k d :
  st_get "runtime_schedules" k (db (env demo_scheduled)) = Some d →
  k = "sch-1" ∧ d = ScheduledJob.as_dict demo_schedule.
Proof.
  cbn [env demo_scheduled set_env with_db db]. destruct (decide (k = "sch-1")) as [->|Hk].
  - rewrite get_put_eq. by intros [= <-].
  - rewrite get_put_ne by congruence. discriminate.
Qed.

Lemma demo_schedule_ok : ScheduledJob.schedule_ok demo_schedule.
Proof. repeat split; vm_compute; congruence. Qed.

Lemma demo_schedule_forward (s : ScheduledJob) :
  stored (Document0 := schedule_document (H := demo_oracle)) s (db (env demo_scheduled)) → forward s.
Proof.
  intros [Hok Hs]. destruct (demo_scheduled_stored _ _ Hs) as [_ Es].
  apply (schedule_enc_inj (H := demo_oracle) s demo_schedule demo_cloud Hok demo_schedule_ok) in Es as ->.
  intros e [= <-]. apply (cron_forward_five _ "*/15" "9"). apply demo_cron.
Qed.

Lemma demo_scheduled_typed : typed (Document0 := schedule_document (H := demo_oracle)) (db (env demo_scheduled)).
Proof.
  intros k d Hd. destruct (demo_scheduled_stored k d Hd) as [-> ->].
  exists demo_schedule. split; [apply demo_schedule_ok|]. split; reflexivity.
Qed.

Lemma schedules_fire_once_witness :
  ∃ job c', SchedulerService.trigger_due (H := demo_oracle) None (Some 0) demo_scheduled = (Ok [job], c') ∧
    RuntimeJob.payload job = [("schedule_id", VStr "sch-1")] ∧
    queue c' = enqueued (queue demo_scheduled) job ∧
    SchedulerService.trigger_due (H := demo_oracle) None (Some 0) c' = (Ok [], c').
Proof.
  destruct (SchedulerService.trigger_due (H := demo_oracle) None (Some 0) demo_scheduled) as [[jobs|e] c'] eqn:E.
  2: { exfalso. apply (f_equal (fun p => is_ok p.1)) in E. vm_compute in E. discriminate E. }
  assert (Hp : (RuntimeJob.payload <$> jobs) = [[("schedule_id", VStr "sch-1")]]).
  { apply (f_equal (fun p => match p.1 with Ok l => RuntimeJob.payload <$> l | Err _ => [] end)) in E.
    vm_compute in E. symmetry. exact E. }
  destruct jobs as [|job [|? ?]]; [discriminate Hp| |discriminate Hp]. injection Hp as Hp.
  assert (Hnow : time_ok 0) by (vm_compute; split; congruence).
  destruct (schedules_fire_once (H := demo_oracle) None 0 demo_scheduled [job] c' demo_clock Hnow
    demo_scheduled_typed demo_schedule_forward E) as ((l & _ & _ & Hq & _) & _ & Hagain).
  exists job, c'. split; [reflexivity|]. split; [exact Hp|]. split; [exact Hq|exact Hagain].
Defined.
