(* ===== verification/Governance.v ===== *)
(** Governed proposals (agentfabric/governance): the records, the policies and
    the consensus engine. *)

From stdpp Require Import base option list strings gmap sets pretty.
From Stdlib Require Import ZArith Lia SpecFloat.
From S2P Require Import Prelude PyVal Json PyTime Floats Store EventStore Documents.

Local Open Scope Z_scope.

(** * agent_role.py, proposal_status.py *)

Module AgentRole.
Definition PLANNER : string := "planner".
Definition RESEARCHER : string := "researcher".
Definition EXECUTOR : string := "executor".
Definition REVIEWER : string := "reviewer".
Definition COMPLIANCE_REVIEWER : string := "compliance_reviewer".
Definition SECURITY_REVIEWER : string := "security_reviewer".
Definition HUMAN_APPROVER : string := "human_approver".
Definition OBSERVER : string := "observer".
End AgentRole.

Definition AUTHORIZED_VOTING_ROLES : list string :=
  [AgentRole.PLANNER; AgentRole.EXECUTOR; AgentRole.REVIEWER; AgentRole.COMPLIANCE_REVIEWER;
   AgentRole.SECURITY_REVIEWER; AgentRole.HUMAN_APPROVER].

Module ProposalStatus.
Definition PENDING : string := "pending".
Definition APPROVED : string := "approved".
Definition REJECTED : string := "rejected".
Definition BLOCKED : string := "blocked".
Definition EXPIRED : string := "expired".
Definition AWAITING_HUMAN : string := "awaiting_human".
Definition ESCALATED : string := "escalated".
Definition EXECUTED : string := "executed".
End ProposalStatus.

(** [{str(k): str(v) for k, v in dict(d.get(k, {})).items()}]: the keys of a
    JSON object are strings already. *)
Definition str_dict_field (d : doc) (k : string) : res (dict string) :=
  let? v := dict_field_or_empty d k in Ok (map (fun p => (p.1, py_str p.2)) v).

(** [tuple(dict(item) for item in d.get(k, ()))] *)
Definition dicts_field (d : doc) (k : string) : res (list doc) :=
  let? vs := py_iter (dget_or d k (VList [])) in res_map py_dict vs.

Lemma res_map_py_dict l : res_map py_dict (map VDict l) = Ok l.
Proof. induction l as [|d l IH]; [done|]. simpl. by rewrite IH. Qed.

(** * agent_org.py *)

Module AgentOrganization.
Record t := Mk {
  tenant_id : string;
  organization_id : string;
  name : string;
  created_by : string;
  org_id : string;
  authority_boundaries : list string;
  allowed_workflow_types : list string;
  budget_limits : doc;
  created_at : Z;
  updated_at : Z;
}.

Definition as_dict (o : t) : doc :=
  [("org_id", VStr (org_id o)); ("tenant_id", VStr (tenant_id o));
   ("organization_id", VStr (organization_id o)); ("name", VStr (name o));
   ("authority_boundaries", VList (map VStr (authority_boundaries o)));
   ("allowed_workflow_types", VList (map VStr (allowed_workflow_types o)));
   ("budget_limits", VDict (budget_limits o)); ("created_by", VStr (created_by o));
   ("created_at", VStr (isoformat (created_at o))); ("updated_at", VStr (isoformat (updated_at o)))].

Definition from_dict `{Oracle} {S} (value : doc) : M (sys S) t :=
  let* org_id := of_res (str_field value "org_id") in
  let* tenant_id := of_res (str_field value "tenant_id") in
  let* organization_id := of_res (str_field value "organization_id") in
  let* name := of_res (str_field value "name") in
  let* authority_boundaries := of_res (strs_field_or value "authority_boundaries" []) in
  let* allowed_workflow_types := of_res (strs_field_or value "allowed_workflow_types" []) in
  let* budget_limits := of_res (dict_field_or_empty value "budget_limits") in
  let* created_at := time_field_or_now value "created_at" in
  let* updated_at := time_field_or_now value "updated_at" in
  ret (Mk tenant_id organization_id name (str_field_or value "created_by" "") org_id
         authority_boundaries allowed_workflow_types budget_limits created_at updated_at).

Definition org_ok (o : t) : Prop := time_ok (created_at o) ∧ time_ok (updated_at o).

Lemma org_from_as_dict `{Oracle} {S} o (s : sys S) : org_ok o → from_dict (as_dict o) s = (Ok o, s).
Proof.
  intros [Hc Hu]. unfold from_dict, bind, of_res, ret.
  cbn -[time_field_or_now isoformat strs_field_or].
  rewrite (strs_field_or_eq _ "authority_boundaries" _ (authority_boundaries o)),
    (strs_field_or_eq _ "allowed_workflow_types" _ (allowed_workflow_types o)) by done.
  rewrite (time_field_or_now_iso _ _ _ _ Hc), (time_field_or_now_iso _ _ _ _ Hu) by done.
  by destruct o.
Qed.
End AgentOrganization.

(** * agent_team.py *)

Module AgentTeam.
Record t := Mk {
  org_id : string;
  tenant_id : string;
  organization_id : string;
  name : string;
  roles : dict string;
  created_by : string;
  team_id : string;
  created_at : Z;
  updated_at : Z;
}.

Definition as_dict (o : t) : doc :=
  [("team_id", VStr (team_id o)); ("org_id", VStr (org_id o)); ("tenant_id", VStr (tenant_id o));
   ("organization_id", VStr (organization_id o)); ("name", VStr (name o));
   ("roles", VDict (map (fun p => (p.1, VStr p.2)) (roles o))); ("created_by", VStr (created_by o));
   ("created_at", VStr (isoformat (created_at o))); ("updated_at", VStr (isoformat (updated_at o)))].

Definition from_dict `{Oracle} {S} (value : doc) : M (sys S) t :=
  let* team_id := of_res (str_field value "team_id") in
  let* org_id := of_res (str_field value "org_id") in
  let* tenant_id := of_res (str_field value "tenant_id") in
  let* organization_id := of_res (str_field value "organization_id") in
  let* name := of_res (str_field value "name") in
  let* roles := of_res (str_dict_field value "roles") in
  let* created_at := time_field_or_now value "created_at" in
  let* updated_at := time_field_or_now value "updated_at" in
  ret (Mk org_id tenant_id organization_id name roles (str_field_or value "created_by" "") team_id
         created_at updated_at).
End AgentTeam.

(** * charter.py *)

Module Charter.
Record t := Mk {
  org_id : string;
  tenant_id : string;
  organization_id : string;
  purpose : string;
  authority_boundaries : list string;
  allowed_workflow_types : list string;
  escalation_requirements : list string;
  budget_limits : doc;
  updated_by : string;
  updated_at : Z;
}.

Definition as_dict (o : t) : doc :=
  [("org_id", VStr (org_id o)); ("tenant_id", VStr (tenant_id o));
   ("organization_id", VStr (organization_id o)); ("purpose", VStr (purpose o));
   ("authority_boundaries", VList (map VStr (authority_boundaries o)));
   ("allowed_workflow_types", VList (map VStr (allowed_workflow_types o)));
   ("escalation_requirements", VList (map VStr (escalation_requirements o)));
   ("budget_limits", VDict (budget_limits o)); ("updated_by", VStr (updated_by o));
   ("updated_at", VStr (isoformat (updated_at o)))].

Definition from_dict `{Oracle} {S} (value : doc) : M (sys S) t :=
  let* org_id := of_res (str_field value "org_id") in
  let* tenant_id := of_res (str_field value "tenant_id") in
  let* organization_id := of_res (str_field value "organization_id") in
  let* authority_boundaries := of_res (strs_field_or value "authority_boundaries" []) in
  let* allowed_workflow_types := of_res (strs_field_or value "allowed_workflow_types" []) in
  let* escalation_requirements := of_res (strs_field_or value "escalation_requirements" []) in
  let* budget_limits := of_res (dict_field_or_empty value "budget_limits") in
  let* updated_at := time_field_or_now value "updated_at" in
  ret (Mk org_id tenant_id organization_id (str_field_or value "purpose" "") authority_boundaries
         allowed_workflow_types escalation_requirements budget_limits
         (str_field_or value "updated_by" "") updated_at).
End Charter.

(** * vote.py *)

Module Vote.
Record t := Mk {
  proposal_id : string;
  tenant_id : string;
  voter_agent_id : string;
  voter_role : string;
  vote : string;
  weight : Z;
  reason : string;
  vote_id : string;
  created_at : Z;
}.

Definition as_dict (v : t) : doc :=
  [("vote_id", VStr (vote_id v)); ("proposal_id", VStr (proposal_id v)); ("tenant_id", VStr (tenant_id v));
   ("voter_agent_id", VStr (voter_agent_id v)); ("voter_role", VStr (voter_role v));
   ("vote", VStr (vote v)); ("weight", VInt (weight v)); ("reason", VStr (reason v));
   ("created_at", VStr (isoformat (created_at v)))].

Definition from_dict `{Oracle} {S} (value : doc) : M (sys S) t :=
  let* vote_id := of_res (str_field value "vote_id") in
  let* proposal_id := of_res (str_field value "proposal_id") in
  let* tenant_id := of_res (str_field value "tenant_id") in
  let* voter_agent_id := of_res (str_field value "voter_agent_id") in
  let* voter_role := of_res (str_field value "voter_role") in
  let* vote := of_res (str_field value "vote") in
  let* weight := of_res (int_field_or value "weight" 1) in
  let* created_at := time_field_or_now value "created_at" in
  ret (Mk proposal_id tenant_id voter_agent_id voter_role vote weight (str_field_or value "reason" "")
         vote_id created_at).

Lemma vote_from_as_dict `{Oracle} {S} v (s : sys S) :
  time_ok (created_at v) → from_dict (as_dict v) s = (Ok v, s).
Proof.
  intros Hc. unfold from_dict, bind, of_res, ret. cbn -[time_field_or_now isoformat].
  rewrite (time_field_or_now_iso _ _ _ _ Hc) by done. by destruct v.
Qed.
End Vote.

Abbreviation Vote := Vote.t.

#[export] Instance vote_document `{Oracle} {S} : Document S Vote := {
  d_coll := "governance_votes";
  d_key := Vote.vote_id;
  d_enc := Vote.as_dict;
  d_dec := Vote.from_dict;
  d_ok v := time_ok (Vote.created_at v);
  d_dec_enc := Vote.vote_from_as_dict;
  d_enc_ne v := ltac:(done);
}.

(** * governance_policy.py *)

Definition RISK_ORDER : dict Z := [("low", 1); ("medium", 2); ("high", 3); ("critical", 4)].

Module GovernancePolicy.
Record t := Mk {
  policy_id : string;
  tenant_id : string;
  organization_id : string;
  max_agent_authority_risk : string;
  human_required_risks : list string;
  security_required_actions : list string;
  compliance_required_actions : list string;
  high_risk_self_approval_allowed : bool;
}.

(** [GovernancePolicy(policy_id, tenant_id, organization_id)] *)
Definition default (policy_id tenant_id organization_id : string) : t :=
  Mk policy_id tenant_id organization_id "medium" ["high"; "critical"]
    ["tool_permission_escalation"; "external_api_call"]
    ["tenant_configuration_change"; "marketplace_publish"] false.

Definition requires_human (risk_level : string) (p : t) : bool :=
  bool_decide (risk_level ∈ human_required_risks p).

Definition risk_within_agent_authority (risk_level : string) (p : t) : bool :=
  (match dget RISK_ORDER risk_level with Some n => n | None => 99 end)
  <=? (match dget RISK_ORDER (max_agent_authority_risk p) with Some n => n | None => 0 end).

Definition as_dict (p : t) : doc :=
  [("policy_id", VStr (policy_id p)); ("tenant_id", VStr (tenant_id p));
   ("organization_id", VStr (organization_id p));
   ("max_agent_authority_risk", VStr (max_agent_authority_risk p));
   ("human_required_risks", VList (map VStr (human_required_risks p)));
   ("security_required_actions", VList (map VStr (security_required_actions p)));
   ("compliance_required_actions", VList (map VStr (compliance_required_actions p)));
   ("high_risk_self_approval_allowed", VBool (high_risk_self_approval_allowed p))].

Definition from_dict (value : doc) : res t :=
  let? policy_id := str_field value "policy_id" in
  let? tenant_id := str_field value "tenant_id" in
  let? organization_id := str_field value "organization_id" in
  let? human := strs_field_or value "human_required_risks" ["high"; "critical"] in
  let? security := strs_field_or value "security_required_actions" [] in
  let? compliance := strs_field_or value "compliance_required_actions" [] in
  Ok (Mk policy_id tenant_id organization_id (str_field_or value "max_agent_authority_risk" "medium")
        human security compliance (bool_field_or value "high_risk_self_approval_allowed" false)).

Lemma policy_from_as_dict p : from_dict (as_dict p) = Ok p.
Proof.
  unfold from_dict. cbn -[strs_field_or].
  rewrite (strs_field_or_eq _ "human_required_risks" _ (human_required_risks p)),
    (strs_field_or_eq _ "security_required_actions" _ (security_required_actions p)),
    (strs_field_or_eq _ "compliance_required_actions" _ (compliance_required_actions p)) by done.
  by destruct p.
Qed.
End GovernancePolicy.

(** * proposal.py *)

Module Proposal.
Record t := Mk {
  tenant_id : string;
  organization_id : string;
  proposing_agent_id : string;
  target_org_id : string;
  action_type : string;
  risk_level : string;
  required_approvals : Z;
  created_by : string;
  target_team_id : option string;
  veil_trust_metadata_ref : option string;
  consensus_mode : string;
  status : string;
  proposal_id : string;
  created_at : Z;
  updated_at : Z;
  expires_at : Z;
  executed_action : option doc;
}.

(** [dict(self.executed_action or {})] *)
Definition executed_dict (p : t) : doc := match executed_action p with Some a => a | None => [] end.

Definition as_dict (p : t) : doc :=
  [("proposal_id", VStr (proposal_id p)); ("tenant_id", VStr (tenant_id p));
   ("organization_id", VStr (organization_id p)); ("proposing_agent_id", VStr (proposing_agent_id p));
   ("target_org_id", VStr (target_org_id p)); ("target_team_id", opt_str (target_team_id p));
   ("action_type", VStr (action_type p)); ("risk_level", VStr (risk_level p));
   ("required_approvals", VInt (required_approvals p));
   ("veil_trust_metadata_ref", opt_str (veil_trust_metadata_ref p));
   ("consensus_mode", VStr (consensus_mode p)); ("status", VStr (status p));
   ("created_by", VStr (created_by p)); ("created_at", VStr (isoformat (created_at p)));
   ("updated_at", VStr (isoformat (updated_at p))); ("expires_at", VStr (isoformat (expires_at p)));
   ("executed_action", VDict (executed_dict p))].

(** The copy [with_status] makes at time [now]. *)
Definition status_at (now : Z) (st : string) (action : option doc) (p : t) : t :=
  Mk (tenant_id p) (organization_id p) (proposing_agent_id p) (target_org_id p) (action_type p)
    (risk_level p) (required_approvals p) (created_by p) (target_team_id p) (veil_trust_metadata_ref p)
    (consensus_mode p) st (proposal_id p) (created_at p) now (expires_at p)
    (match action with Some a => Some a | None => executed_action p end).

Section Calls.
Context `{Oracle} {S : Type}.

Definition is_expired (p : t) : M (sys S) bool := let* now := utc_now in ret (now >? expires_at p).

Definition with_status (st : string) (action : option doc) (p : t) : M (sys S) t :=
  let* now := utc_now in ret (status_at now st action p).

Definition from_dict (value : doc) : M (sys S) t :=
  let* proposal_id := of_res (str_field value "proposal_id") in
  let* tenant_id := of_res (str_field value "tenant_id") in
  let* organization_id := of_res (str_field value "organization_id") in
  let* proposing_agent_id := of_res (str_field value "proposing_agent_id") in
  let* target_org_id := of_res (str_field value "target_org_id") in
  let* action_type := of_res (str_field value "action_type") in
  let* required_approvals := of_res (int_field_or value "required_approvals" 1) in
  let* created_at := time_field_or_now value "created_at" in
  let* updated_at := time_field_or_now value "updated_at" in
  let* expires_at := time_field_or_now value "expires_at" in
  let* executed_action := of_res (dict_field_or_empty value "executed_action") in
  ret (Mk tenant_id organization_id proposing_agent_id target_org_id action_type
         (str_field_or value "risk_level" "medium") required_approvals (str_field_or value "created_by" "")
         (opt_str_field value "target_team_id") (opt_str_field value "veil_trust_metadata_ref")
         (str_field_or value "consensus_mode" "majority")
         (str_field_or value "status" ProposalStatus.PENDING) proposal_id created_at updated_at expires_at
         (match executed_action with [] => None | a => Some a end)).

(** A proposal whose document is read back as it is. *)
Definition proposal_ok (p : t) : Prop :=
  target_team_id p ≠ Some "" ∧ veil_trust_metadata_ref p ≠ Some "" ∧
  time_ok (created_at p) ∧ time_ok (updated_at p) ∧ time_ok (expires_at p) ∧ executed_action p ≠ Some [].

Lemma proposal_from_as_dict p (s : sys S) : proposal_ok p → from_dict (as_dict p) s = (Ok p, s).
Proof.
  intros (Ht & Hv & Hc & Hu & He & Ha). unfold from_dict, bind, of_res, ret.
  cbn -[time_field_or_now isoformat opt_str_field].
  rewrite (time_field_or_now_iso _ _ _ _ Hc), (time_field_or_now_iso _ _ _ _ Hu),
    (time_field_or_now_iso _ _ _ _ He) by done.
  rewrite (opt_str_field_eq _ "target_team_id" _ Ht), (opt_str_field_eq _ "veil_trust_metadata_ref" _ Hv) by done.
  destruct p as [? ? ? ? ? ? ? ? ? ? ? ? ? ? ? ? [[|x a]|]]; [done|done|done].
Qed.

Lemma proposal_ok_status now st action p :
  proposal_ok p → time_ok now → action ≠ Some [] → proposal_ok (status_at now st action p).
Proof. intros (Ht & Hv & Hc & Hu & He & Ha) Hn Hact. split_and!; try done. by destruct action. Qed.

End Calls.
End Proposal.

Abbreviation Proposal := Proposal.t.

#[export] Instance proposal_document `{Oracle} {S} : Document S Proposal := {
  d_coll := "governance_proposals";
  d_key := Proposal.proposal_id;
  d_enc := Proposal.as_dict;
  d_dec := Proposal.from_dict;
  d_ok := Proposal.proposal_ok;
  d_dec_enc := Proposal.proposal_from_as_dict;
  d_enc_ne v := ltac:(done);
}.

(** * human_approval.py *)

Module HumanApproval.
Record t := Mk {
  proposal_id : string;
  tenant_id : string;
  assigned_reviewer : string;
  status : string;
  reason : string;
  approval_id : string;
  created_at : Z;
  expires_at : Z;
  resolved_at : option Z;
}.

Definition as_dict (a : t) : doc :=
  [("approval_id", VStr (approval_id a)); ("proposal_id", VStr (proposal_id a));
   ("tenant_id", VStr (tenant_id a)); ("assigned_reviewer", VStr (assigned_reviewer a));
   ("status", VStr (status a)); ("reason", VStr (reason a));
   ("created_at", VStr (isoformat (created_at a))); ("expires_at", VStr (isoformat (expires_at a)));
   ("resolved_at", opt_iso (resolved_at a))].

Section Calls.
Context `{Oracle} {S : Type}.

Definition is_expired (a : t) : M (sys S) bool := let* now := utc_now in ret (now >? expires_at a).

Definition from_dict (value : doc) : M (sys S) t :=
  let* approval_id := of_res (str_field value "approval_id") in
  let* proposal_id := of_res (str_field value "proposal_id") in
  let* tenant_id := of_res (str_field value "tenant_id") in
  let* created_at := time_field_or_now value "created_at" in
  let* expires_at := time_field_or_now value "expires_at" in
  let* resolved_at := of_res (opt_time_field value "resolved_at") in
  ret (Mk proposal_id tenant_id (str_field_or value "assigned_reviewer" "")
         (str_field_or value "status" "pending") (str_field_or value "reason" "") approval_id
         created_at expires_at resolved_at).

Definition approval_ok (a : t) : Prop :=
  time_ok (created_at a) ∧ time_ok (expires_at a) ∧ opt_time_ok (resolved_at a).

Lemma approval_from_as_dict a (s : sys S) : approval_ok a → from_dict (as_dict a) s = (Ok a, s).
Proof.
  intros (Hc & He & Hr). unfold from_dict, bind, of_res, ret.
  cbn -[time_field_or_now isoformat opt_time_field].
  rewrite (time_field_or_now_iso _ _ _ _ Hc), (time_field_or_now_iso _ _ _ _ He) by done.
  rewrite (opt_time_field_iso _ "resolved_at" (resolved_at a)).
  2-3: first [done | intros t0 E; by rewrite E in *].
  by destruct a.
Qed.

(** [HumanApproval(proposal_id, tenant_id, assigned_reviewer)] *)
Definition new (proposal tenant reviewer : string) : M (sys S) t :=
  let* id := uuid4 in
  let* created := utc_now in
  let* now := utc_now in
  let* expires := of_res (dt_add now (24 * hour_us)) in
  ret (Mk proposal tenant reviewer "pending" "" ("approval-" +:+ id) created expires None).

End Calls.
End HumanApproval.

Abbreviation HumanApproval := HumanApproval.t.

#[export] Instance approval_document `{Oracle} {S} : Document S HumanApproval := {
  d_coll := "governance_approvals";
  d_key := HumanApproval.approval_id;
  d_enc := HumanApproval.as_dict;
  d_dec := HumanApproval.from_dict;
  d_ok := HumanApproval.approval_ok;
  d_dec_enc := HumanApproval.approval_from_as_dict;
  d_enc_ne v := ltac:(done);
}.

Module HumanApprovalQueue.
Section HumanApprovalQueue.
Context `{Oracle} {S : Type} `{PersistenceStore S}.

Definition request (proposal tenant reviewer : string) : M (sys S) HumanApproval :=
  let* approval := HumanApproval.new proposal tenant reviewer in
  do* doc_put approval; ret approval.

Definition list_approvals (tenant_id : string) : M (sys S) (list HumanApproval) := doc_list_tenant tenant_id.

Definition get (approval_id : string) : M (sys S) (option HumanApproval) := doc_get approval_id.

Definition resolved_at (now : Z) (status reason : string) (a : HumanApproval) : HumanApproval :=
  HumanApproval.Mk (HumanApproval.proposal_id a) (HumanApproval.tenant_id a)
    (HumanApproval.assigned_reviewer a) status reason (HumanApproval.approval_id a)
    (HumanApproval.created_at a) (HumanApproval.expires_at a) (Some now).

Definition resolve (approval_id status reason : string) : M (sys S) HumanApproval :=
  let* approval := get approval_id in
  match approval with
  | None => raise KeyError (repr_str approval_id)
  | Some a =>
      let* expired := HumanApproval.is_expired a in
      if expired : bool then raise ConflictError "approval expired"
      else if negb (bool_decide (HumanApproval.status a ∈ ["pending"; "escalated"]))
      then raise ConflictError "approval already resolved"
      else
        let* now := utc_now in
        let resolved := resolved_at now status reason a in
        do* doc_put resolved; ret resolved
  end.

Definition approved_for_proposal (tenant_id proposal_id : string) : M (sys S) bool :=
  let* approvals := list_approvals tenant_id in
  ret (existsb (fun a => bool_decide (HumanApproval.proposal_id a = proposal_id)
                         && bool_decide (HumanApproval.status a = "approved")) approvals).

End HumanApprovalQueue.
End HumanApprovalQueue.

(** * consensus_policy.py *)

(** [threshold] is a binary64 number. *)
Module ConsensusPolicy.
Record t := Mk {
  mode : string;
  threshold : spec_float;
  required_roles : list string;
  required_approvals : Z;
}.

Definition half : spec_float := S754_finite false 4503599627370496 (-53).

Definition default : t := Mk "majority" half [] 1.

(** [ConsensusPolicy(mode="majority", required_roles=(role,), required_approvals=n)] *)
Definition majority_with (role : string) (n : Z) : t := Mk "majority" half [role] n.
End ConsensusPolicy.

(** * consensus_engine.py *)

Definition two_thirds : spec_float := fdiv (float_of_Z 2) (float_of_Z 3).

Module ConsensusResult.
Record t := Mk {
  reached : bool;
  status : string;
  reason : string;
  approvals : Z;
  rejections : Z;
  abstentions : Z;
}.

Definition as_dict (r : t) : doc :=
  [("reached", VBool (reached r)); ("status", VStr (status r)); ("reason", VStr (reason r));
   ("approvals", VInt (approvals r)); ("rejections", VInt (rejections r));
   ("abstentions", VInt (abstentions r))].
End ConsensusResult.

Abbreviation ConsensusResult := ConsensusResult.t.

Module ConsensusEngine.

Definition with_vote (v : string) (votes : list Vote) : list Vote :=
  base.filter (fun x => Vote.vote x = v) votes.

Definition count (l : list Vote) : Z := Z.of_nat (length l).

Definition weights (l : list Vote) : Z := foldr (fun v n => Vote.weight v + n) 0 l.

(** The loop that checks the votes. *)
Fixpoint check_votes (votes : list Vote) : res unit :=
  match votes with
  | [] => Ok tt
  | v :: votes' =>
      if negb (bool_decide (Vote.voter_role v ∈ AUTHORIZED_VOTING_ROLES))
      then Err (Exn AuthorizationError "agent cannot vote outside authorized role")
      else if negb (bool_decide (Vote.vote v ∈ ["approve"; "reject"; "abstain"; "escalate"]))
      then Err (Exn ValidationError ("unsupported vote: " +:+ Vote.vote v))
      else check_votes votes'
  end.

(** The result for a mode that decides by itself. [mode_result] is [None] for
    the modes that evaluate again and for unknown modes. *)
Definition mode_result (policy : ConsensusPolicy.t) (required : Z)
    (approvals rejections counted : list Vote) (mk : bool → string → string → ConsensusResult)
    : option (res ConsensusResult) :=
  let mode := ConsensusPolicy.mode policy in
  let decided reached reason := Ok (mk reached (if reached : bool then "approved" else "pending") reason) in
  let total := Z.max (count counted) required in
  if bool_decide (mode = "single_approver") then
    Some (Ok (mk true "approved" "single approver consensus reached"))
  else if bool_decide (mode = "majority") then
    Some (decided (2 * count approvals >? total) "majority evaluated")
  else if bool_decide (mode = "supermajority") then
    Some (let? share := py_truediv (count approvals) total in
          decided (SFleb (fmax (ConsensusPolicy.threshold policy) two_thirds) share)
            "supermajority evaluated")
  else if bool_decide (mode = "unanimous") then
    Some (decided (match rejections with [] => true | _ => false end
                   && (required <=? count approvals) && (count counted =? count approvals))
            "unanimous evaluated")
  else if bool_decide (mode = "weighted") then
    Some (if 0 <? weights counted then
            let? share := py_truediv (weights approvals) (weights counted) in
            decided (SFleb (ConsensusPolicy.threshold policy) share) "weighted consensus evaluated"
          else decided false "weighted consensus evaluated")
  else if bool_decide (mode = "human_required") then
    Some (Ok (mk true "awaiting_human" "human approval required"))
  else None.

Section ConsensusEngine.
Context `{Oracle} {S : Type}.

(** [evaluate], with [again] for its calls to itself. *)
Definition evaluate_body (again : ConsensusPolicy.t → M (sys S) ConsensusResult) (proposal : Proposal)
    (votes : list Vote) (governance_policy : GovernancePolicy.t) (policy : ConsensusPolicy.t)
    : M (sys S) ConsensusResult :=
  let* expired := Proposal.is_expired proposal in
  if expired : bool then ret (ConsensusResult.Mk false "expired" "proposal expired" 0 0 0)
  else if negb (GovernancePolicy.risk_within_agent_authority (Proposal.risk_level proposal) governance_policy)
          && negb (bool_decide (ConsensusPolicy.mode policy = "human_required"))
  then ret (ConsensusResult.Mk false "blocked" "proposal risk exceeds agent authority" 0 0 0)
  else match votes with
  | [] => ret (ConsensusResult.Mk false "pending" "required voters are missing" 0 0 0)
  | _ =>
  do* of_res (check_votes votes);
  let approvals := with_vote "approve" votes in
  let rejections := with_vote "reject" votes in
  let abstentions := with_vote "abstain" votes in
  let escalations := with_vote "escalate" votes in
  let counted := approvals ++ rejections in
  let mk reached status reason :=
    ConsensusResult.Mk reached status reason (count approvals) (count rejections) (count abstentions) in
  match escalations with
  | _ :: _ => ret (mk false "escalated" "proposal escalated")
  | [] =>
  if match rejections with [] => false | _ => true end
     && bool_decide (ConsensusPolicy.mode policy ∈ ["single_approver"; "unanimous"])
  then ret (mk false "rejected" "proposal rejected")
  else
  let missing_roles := base.filter (fun role => role ∉ (Vote.voter_role <$> approvals))
                         (ConsensusPolicy.required_roles policy) in
  match missing_roles with
  | _ :: _ => ret (mk false "pending" ("missing required approver roles: " +:+ join ", " missing_roles))
  | [] =>
  let required := Z.max (ConsensusPolicy.required_approvals policy) (Proposal.required_approvals proposal) in
  if count approvals <? required then ret (mk false "pending" "not enough approvals")
  else match mode_result policy required approvals rejections counted mk with
  | Some r => of_res r
  | None =>
      if bool_decide (ConsensusPolicy.mode policy = "security_required")
      then again (ConsensusPolicy.majority_with "security_reviewer" required)
      else if bool_decide (ConsensusPolicy.mode policy = "compliance_required")
      then again (ConsensusPolicy.majority_with "compliance_reviewer" required)
      else raise ValidationError ("unsupported consensus mode: " +:+ ConsensusPolicy.mode policy)
  end end end end.

(** The policies it evaluates again have the mode majority, so one more level
    is all it needs: [evaluate_unfold] is the equation of the code. *)
Definition evaluate (proposal : Proposal) (votes : list Vote) (policy : ConsensusPolicy.t)
    (governance_policy : GovernancePolicy.t) : M (sys S) ConsensusResult :=
  evaluate_body
    (evaluate_body (fun _ => raise RecursionError "maximum recursion depth exceeded")
       proposal votes governance_policy)
    proposal votes governance_policy policy.

End ConsensusEngine.
End ConsensusEngine.

(** * What an approval means *)

Section Consensus.
Context `{Oracle} {S : Type}.
Import ConsensusEngine.



Lemma is_expired_eq p (s : sys S) :
  Proposal.is_expired p s =
  (Ok (clock (tick s) >? Proposal.expires_at p), Sys (db s) (events s) (durable s) (Datatypes.S (tick s))).
Proof. done. Qed.

Lemma evaluate_body_ext again again' p votes gp policy (s : sys S) :
  (∀ role n s', again (ConsensusPolicy.majority_with role n) s' = again' (ConsensusPolicy.majority_with role n) s') →
  evaluate_body again p votes gp policy s = evaluate_body again' p votes gp policy s.
Proof.
  intros Hagain. unfold evaluate_body, bind, of_res. rewrite is_expired_eq.
  repeat first [rewrite Hagain; reflexivity | done | case_match].
Qed.

(** [evaluate] is the code's recursion. *)
Lemma evaluate_unfold p votes policy gp (s : sys S) :
  evaluate p votes policy gp s =
  evaluate_body (fun policy' => evaluate p votes policy' gp) p votes gp policy s.
Proof. by apply evaluate_body_ext. Qed.

(** Evaluation writes nothing. *)
Lemma evaluate_body_db (d : S) again p votes gp policy :
  (∀ policy', preserves (fun s => db s = d) (again policy')) →
  preserves (fun s => db s = d) (evaluate_body again p votes gp policy).
Proof.
  intros Ha. unfold evaluate_body. apply preserves_bind; [intros s Hs; exact Hs|]. intros expired.
  repeat first
    [ apply preserves_ret | apply preserves_of_res | apply preserves_raise | apply Ha
    | apply preserves_bind; [|intros ?] | case_match ].
Qed.

Lemma evaluate_db p votes gp policy (s s' : sys S) r :
  evaluate p votes policy gp s = (r, s') → db s' = db s.
Proof.
  intros Hrun. refine (preserves_run (fun x => db x = db s) _ s r s' _ Hrun eq_refl).
  apply evaluate_body_db. intros policy'. apply evaluate_body_db. intros ?. apply preserves_raise.
Qed.

Lemma check_votes_ok votes :
  check_votes votes = Ok tt →
  Forall (fun v => Vote.voter_role v ∈ AUTHORIZED_VOTING_ROLES ∧
                   Vote.vote v ∈ ["approve"; "reject"; "abstain"; "escalate"]) votes.
Proof.
  induction votes as [|v votes IH]; simpl; [constructor|].
  repeat case_bool_decide; simpl; try done. intros Hv. constructor; [done|]. by apply IH.
Qed.

Definition role_approves (votes : list Vote) (role : string) : Prop :=
  ∃ v, v ∈ votes ∧ Vote.vote v = "approve" ∧ Vote.voter_role v = role.

Lemma missing_none votes roles :
  base.filter (fun role => role ∉ (Vote.voter_role <$> with_vote "approve" votes)) roles = [] →
  Forall (role_approves votes) roles.
Proof.
  intros Hf. apply Forall_forall. intros role Hr.
  destruct (decide (role ∈ Vote.voter_role <$> with_vote "approve" votes)) as [Hin|Hout].
  - apply list_elem_of_fmap in Hin as (v & -> & Hv). apply list_elem_of_filter in Hv as [Ha Hv].
    by exists v.
  - assert (Hx : role ∈ base.filter (fun role => role ∉ (Vote.voter_role <$> with_vote "approve" votes)) roles)
      by by apply list_elem_of_filter. rewrite Hf in Hx. by apply elem_of_nil in Hx.
Qed.

(** The approvals a policy asks for. *)
Definition required (p : Proposal) (policy : ConsensusPolicy.t) : Z :=
  Z.max (ConsensusPolicy.required_approvals policy) (Proposal.required_approvals p).

(** More than half of the counted votes, and of the required ones, approve. *)
Definition majority (p : Proposal) (votes : list Vote) (policy : ConsensusPolicy.t) : Prop :=
  let approvals := count (with_vote "approve" votes) in
  let rejections := count (with_vote "reject" votes) in
  approvals > rejections ∧ 2 * approvals > required p policy.

(** The share of the approvals among the counted votes, or among the required
    ones if those are more, is at least two thirds and the threshold. *)
Definition supermajority (p : Proposal) (votes : list Vote) (policy : ConsensusPolicy.t) : Prop :=
  let approvals := count (with_vote "approve" votes) in
  let total := Z.max (approvals + count (with_vote "reject" votes)) (required p policy) in
  ∃ share, py_truediv approvals total = Ok share ∧
    SFleb (fmax (ConsensusPolicy.threshold policy) two_thirds) share = true.

(** The share of the weights of the approvals is at least the threshold. *)
Definition outweighs (votes : list Vote) (policy : ConsensusPolicy.t) : Prop :=
  let total := weights (with_vote "approve" votes) + weights (with_vote "reject" votes) in
  0 < total ∧
  ∃ share, py_truediv (weights (with_vote "approve" votes)) total = Ok share ∧
    SFleb (ConsensusPolicy.threshold policy) share = true.

(** The reviewer a mode asks for. *)
Definition reviewer_modes : list (string * string) :=
  [("security_required", "security_reviewer"); ("compliance_required", "compliance_reviewer")].

(** What the votes have to be for a policy that decides by itself. *)
Definition carried (p : Proposal) (votes : list Vote) (policy : ConsensusPolicy.t) : Prop :=
  let mode := ConsensusPolicy.mode policy in
  (mode ∈ ["single_approver"; "unanimous"] ∧ with_vote "reject" votes = []) ∨
  (mode = "majority" ∧ majority p votes policy) ∨
  (mode = "supermajority" ∧ supermajority p votes policy) ∨
  (mode = "weighted" ∧ outweighs votes policy).

(** What every approval needs: the risk is within the agents' authority, all
    voters may vote, nobody escalates, the required roles approve and there are
    as many approvals as required. *)
Definition grounds (p : Proposal) (votes : list Vote) (policy : ConsensusPolicy.t) (gp : GovernancePolicy.t) : Prop :=
  GovernancePolicy.risk_within_agent_authority (Proposal.risk_level p) gp = true ∧
  Forall (fun v => Vote.voter_role v ∈ AUTHORIZED_VOTING_ROLES) votes ∧
  with_vote "escalate" votes = [] ∧
  Forall (role_approves votes) (ConsensusPolicy.required_roles policy) ∧
  required p policy <= count (with_vote "approve" votes).

(** What holds of the votes when a policy approves a proposal. *)
Definition endorsed (p : Proposal) (votes : list Vote) (policy : ConsensusPolicy.t)
    (gp : GovernancePolicy.t) : Prop :=
  grounds p votes policy gp ∧
  (carried p votes policy ∨
   ∃ role, (ConsensusPolicy.mode policy, role) ∈ reviewer_modes ∧ role_approves votes role ∧ majority p votes policy).

Lemma weights_app l l' : weights (l ++ l') = weights l + weights l'.
Proof. induction l as [|v l IH]; [done|]. change (weights ((v :: l) ++ l')) with (Vote.weight v + weights (l ++ l')). rewrite IH. unfold weights. cbn. lia. Qed.

Lemma count_app l l' : count (l ++ l') = count l + count l'.
Proof. unfold count. rewrite length_app. lia. Qed.

Lemma share_iff (r : res float) (x : float) (mk : bool → string → string → ConsensusResult) re cr :
  (∀ b st re, ConsensusResult.status (mk b st re) = st) →
  (let? share := r in Ok (mk (SFleb x share) (if SFleb x share then "approved" else "pending") re)) = Ok cr →
  ConsensusResult.status cr = "approved" ↔ ∃ share, r = Ok share ∧ SFleb x share = true.
Proof.
  intros Hmk. destruct r as [share|e]; [|done]. cbn [res_bind]. intros [= <-]. rewrite Hmk.
  destruct (SFleb x share) eqn:E; split; intros Hs; [by exists share|done|done|].
  destruct Hs as (? & [= <-] & ?). congruence.
Qed.

(** A mode that decides by itself approves exactly when the votes carry it. *)
Lemma mode_result_approved policy p votes mk r :
  (∀ b st re, ConsensusResult.status (mk b st re) = st) →
  (ConsensusPolicy.mode policy ∈ ["single_approver"; "unanimous"] → with_vote "reject" votes = []) →
  required p policy <= count (with_vote "approve" votes) →
  mode_result policy (required p policy) (with_vote "approve" votes) (with_vote "reject" votes)
    (with_vote "approve" votes ++ with_vote "reject" votes) mk = Some (Ok r) →
  ConsensusResult.status r = "approved" ↔ carried p votes policy.
Proof.
  intros Hmk Hrej Hreq. unfold mode_result, carried, majority, supermajority, outweighs. cbv zeta.
  set (m := ConsensusPolicy.mode policy) in *.
  rewrite weights_app, count_app.
  case_bool_decide as E1; [intros [= <-]; rewrite Hmk, E1 in *; set_solver|].
  case_bool_decide as E2.
  { intros [= <-]. rewrite Hmk, E2. case_match eqn:Eb; rewrite Z.gtb_ltb in Eb; split; try done.
    - intros _. right; left. apply Z.ltb_lt in Eb. split; [done|]. lia.
    - apply Z.ltb_ge in Eb. intros [[Hin _]|[[_ Hm]|[[? _]|[? _]]]]; [set_solver|lia|done|done]. }
  case_bool_decide as E3.
  { intros [= Hr]. rewrite E3. rewrite (share_iff _ _ mk _ r Hmk Hr). split.
    - intros Hs. by right; right; left.
    - intros [[Hin _]|[[? _]|[[_ Hs]|[? _]]]]; [set_solver|done|exact Hs|done]. }
  case_bool_decide as E4.
  { intros [= <-]. rewrite Hmk, E4 in *. rewrite Hrej in * by set_solver. cbn [andb].
    rewrite (proj2 (Z.leb_le _ _) Hreq). change (count []) with 0. rewrite Z.add_0_r, Z.eqb_refl. set_solver. }
  case_bool_decide as E5.
  { rewrite E5. destruct (Z.ltb_spec 0 (weights (with_vote "approve" votes) + weights (with_vote "reject" votes))) as [Hpos|Hneg].
    - intros [= Hr]. rewrite (share_iff _ _ mk _ r Hmk Hr). split.
      + intros Hs. by right; right; right.
      + intros [[Hin _]|[[? _]|[[? _]|[_ [_ Hs]]]]]; [set_solver|done|done|exact Hs].
    - intros [= <-]. rewrite Hmk. split; [done|].
      intros [[Hin _]|[[? _]|[[? _]|[_ [? _]]]]]; [set_solver|done|done|lia]. }
  case_bool_decide as E6; [|done]. intros [= <-]. rewrite Hmk, E6. split; [done|].
  intros [[Hin _]|[[? _]|[[? _]|[? _]]]]; [set_solver|done..].
Qed.

Lemma missing_iff votes roles :
  base.filter (fun role => role ∉ (Vote.voter_role <$> with_vote "approve" votes)) roles = [] ↔
  Forall (role_approves votes) roles.
Proof.
  split; [apply missing_none|]. intros Hf. apply elem_of_nil_inv. intros role [Hn Hr]%list_elem_of_filter.
  rewrite Forall_forall in Hf. destruct (Hf role Hr) as (v & Hv & Ha & <-). apply Hn.
  apply list_elem_of_fmap_2. by apply list_elem_of_filter.
Qed.

(** The modes that decide by themselves are not those that ask a reviewer. *)
Lemma carried_no_reviewer p votes policy role :
  (ConsensusPolicy.mode policy, role) ∈ reviewer_modes → ¬ carried p votes policy.
Proof.
  intros [[= E _]|[[= E _]|[]%elem_of_nil]%elem_of_cons]%elem_of_cons; unfold carried; rewrite E;
    intros [[Hin _]|[[? _]|[[? _]|[? _]]]]; first [done | set_solver].
Qed.

(** The reviewer a mode asks for, as a function. *)
Lemma elem_of_reviewer_modes m role :
  (m, role) ∈ reviewer_modes ↔
  (m = "security_required" ∧ role = "security_reviewer") ∨ (m = "compliance_required" ∧ role = "compliance_reviewer").
Proof. unfold reviewer_modes. rewrite !elem_of_cons, elem_of_nil. naive_solver. Qed.

Lemma reviewer_unique m role role' : (m, role) ∈ reviewer_modes → (m, role') ∈ reviewer_modes → role = role'.
Proof. rewrite !elem_of_reviewer_modes. naive_solver. Qed.

Lemma majority_no_reviewer role : ¬ ("majority", role) ∈ reviewer_modes.
Proof. rewrite elem_of_reviewer_modes. naive_solver. Qed.

(** What the mode decides. *)
Lemma mode_cases again p votes policy (s s' : sys S) r :
  (ConsensusPolicy.mode policy ∈ ["single_approver"; "unanimous"] → with_vote "reject" votes = []) →
  required p policy <= count (with_vote "approve" votes) →
  (let approvals := with_vote "approve" votes in let rejections := with_vote "reject" votes in
   let mk := fun reached status reason => ConsensusResult.Mk reached status reason (count approvals)
     (count rejections) (count (with_vote "abstain" votes)) in
   match mode_result policy (required p policy) approvals rejections (approvals ++ rejections) mk with
   | Some r => of_res r
   | None =>
       if bool_decide (ConsensusPolicy.mode policy = "security_required")
       then again (ConsensusPolicy.majority_with "security_reviewer" (required p policy))
       else if bool_decide (ConsensusPolicy.mode policy = "compliance_required")
       then again (ConsensusPolicy.majority_with "compliance_reviewer" (required p policy))
       else raise ValidationError ("unsupported consensus mode: " +:+ ConsensusPolicy.mode policy)
   end) s = (Ok r, s') →
  ((∀ role, (ConsensusPolicy.mode policy, role) ∉ reviewer_modes) ∧
   (ConsensusResult.status r = "approved" ↔ carried p votes policy)) ∨
  ∃ role, (ConsensusPolicy.mode policy, role) ∈ reviewer_modes ∧
    again (ConsensusPolicy.majority_with role (required p policy)) s = (Ok r, s').
Proof.
  intros Hrej Hge. cbv zeta.
  destruct (mode_result _ _ _ _ _ _) as [mr|] eqn:Emr.
  - intros Hrun. left. unfold of_res in Hrun. injection Hrun as -> <-. split.
    + intros role Hin. revert Emr. unfold mode_result.
      apply elem_of_cons in Hin as [[= -> _]|[[= -> _]|?%elem_of_nil]%elem_of_cons]; done.
    + by eapply mode_result_approved in Emr.
  - intros Hrun. right. case_bool_decide as E1; [|case_bool_decide as E2; [|done]].
    + exists "security_reviewer". rewrite E1. split; [set_solver|exact Hrun].
    + exists "compliance_reviewer". rewrite E2. split; [set_solver|exact Hrun].
Qed.

(** An evaluation decides against the proposal before it looks at the mode, or
    it has grounds and the mode decides. *)
Lemma evaluate_body_cases again p votes gp policy (s s' : sys S) r :
  evaluate_body again p votes gp policy s = (Ok r, s') →
  let timely := clock (tick s) <= Proposal.expires_at p in
  (ConsensusResult.status r ≠ "approved" ∧
   ¬ (timely ∧ votes ≠ [] ∧ grounds p votes policy gp ∧
      (carried p votes policy ∨ ∃ role, (ConsensusPolicy.mode policy, role) ∈ reviewer_modes))) ∨
  (timely ∧ votes ≠ [] ∧ grounds p votes policy gp ∧
   (((∀ role, (ConsensusPolicy.mode policy, role) ∉ reviewer_modes) ∧
     (ConsensusResult.status r = "approved" ↔ carried p votes policy)) ∨
    ∃ role, (ConsensusPolicy.mode policy, role) ∈ reviewer_modes ∧
      again (ConsensusPolicy.majority_with role (required p policy)) (Sys (db s) (events s) (durable s) (Datatypes.S (tick s)))
      = (Ok r, s'))).
Proof.
  intros Hrun timely. revert Hrun. unfold evaluate_body. unfold bind at 1. rewrite is_expired_eq.
  destruct (Z.gtb_spec (clock (tick s)) (Proposal.expires_at p)) as [Hex|Hex].
  { intros [= <- <-]. left. split; [done|]. unfold timely. lia. }
  destruct (negb (GovernancePolicy.risk_within_agent_authority _ gp) && _) eqn:Er.
  { intros [= <- <-]. left. split; [done|]. intros (_ & _ & (Hr & _) & _). by rewrite Hr in Er. }
  destruct votes as [|v0 votes0] eqn:Ev; [intros [= <- <-]; left; naive_solver|]. rewrite <- Ev.
  assert (Hne : votes ≠ []) by by rewrite Ev. clear Ev v0 votes0.
  unfold bind, of_res. destruct (check_votes votes) as [[]|e] eqn:Ec; [|done].
  apply check_votes_ok in Ec.
  destruct (with_vote "escalate" votes) as [|v0 l0] eqn:Ex.
  2: { intros [= <- <-]. left. split; [done|]. intros (_ & _ & (_ & _ & He & _) & _). by rewrite Ex in He. }
  destruct (_ && bool_decide (ConsensusPolicy.mode policy ∈ _)) eqn:Erj.
  { intros [= <- <-]. left. split; [done|]. apply andb_true_iff in Erj as [Hrj Hm].
    intros (_ & _ & _ & [[[_ Hr]|[[Hm' _]|[[Hm' _]|[Hm' _]]]]|(role & Hin)]).
    - by rewrite Hr in Hrj.
    - by rewrite Hm' in Hm.
    - by rewrite Hm' in Hm.
    - by rewrite Hm' in Hm.
    - apply elem_of_cons in Hin as [[= E _]|[[= E _]|[]%elem_of_nil]%elem_of_cons]; by rewrite E in Hm. }
  destruct (base.filter _ (ConsensusPolicy.required_roles policy)) as [|r0 l0] eqn:Em.
  2: { intros [= <- <-]. left. split; [done|]. intros (_ & _ & (_ & _ & _ & Hroles & _) & _).
       apply missing_iff in Hroles. by rewrite Hroles in Em. }
  apply missing_iff in Em. fold (required p policy).
  destruct (Z.ltb_spec (count (with_vote "approve" votes)) (required p policy)) as [Hlt|Hge].
  { intros [= <- <-]. left. split; [done|]. intros (_ & _ & (_ & _ & _ & _ & Hc) & _). lia. }
  assert (Hg : GovernancePolicy.risk_within_agent_authority (Proposal.risk_level p) gp = true → grounds p votes policy gp).
  { intros Hr. split_and!; try done. eapply Forall_impl; [exact Ec|]. by intros v [? _]. }
  assert (Hrej : ConsensusPolicy.mode policy ∈ ["single_approver"; "unanimous"] → with_vote "reject" votes = []).
  { intros Hm. destruct (with_vote "reject" votes); [done|]. by rewrite bool_decide_eq_true_2 in Erj. }
  destruct (GovernancePolicy.risk_within_agent_authority (Proposal.risk_level p) gp) eqn:Hrisk; cbn [negb andb] in Er.
  - specialize (Hg eq_refl). intros Hrun. right. split; [exact Hex|]. split; [done|]. split; [done|].
    by apply mode_cases.
  - apply negb_false_iff, bool_decide_eq_true in Er. intros Hrun. left.
    unfold mode_result in Hrun. rewrite Er in Hrun. injection Hrun as <- <-. split; [done|].
    intros (_ & _ & (? & _) & _). congruence.
Qed.

(** A consensus approves exactly the proposals that are endorsed in time. *)
Lemma evaluate_iff p votes policy gp (s s' : sys S) r :
  evaluate p votes policy gp s = (Ok r, s') →
  ConsensusResult.status r = "approved" ↔
  clock (tick s) <= Proposal.expires_at p ∧ votes ≠ [] ∧ endorsed p votes policy gp ∧
  ((∃ role, (ConsensusPolicy.mode policy, role) ∈ reviewer_modes) →
   clock (Datatypes.S (tick s)) <= Proposal.expires_at p).
Proof.
  unfold evaluate. intros Hrun. apply evaluate_body_cases in Hrun. cbv zeta in Hrun.
  destruct Hrun as [(Hno & Hnot)|(Ht & Hne & Hg & [[Hmode Hiff]|(role & Hmode & Hrun)])].
  - split; [done|]. intros (Ht & Hne & (Hg & Hc) & _). destruct Hnot. split_and!; try done. naive_solver.
  - rewrite Hiff. unfold endorsed. split.
    + intros Hc. split_and!; [done|done|done|by left|]. intros [role Hr]. by destruct (Hmode role).
    + intros (_ & _ & (_ & [Hc|(role & Hr & _)]) & _); [done|]. by destruct (Hmode role).
  - pose proof (carried_no_reviewer p votes policy role Hmode) as Hnc.
    set (policy' := ConsensusPolicy.majority_with role (required p policy)) in *.
    assert (Hreq : required p policy' = required p policy) by (unfold policy', required; cbn; lia).
    assert (Hmaj : carried p votes policy' ↔ majority p votes policy).
    { unfold carried, majority. rewrite Hreq. cbn [ConsensusPolicy.mode policy' ConsensusPolicy.majority_with]. set_solver. }
    assert (Hgr : grounds p votes policy' gp ↔ role_approves votes role).
    { destruct Hg as (? & ? & ? & ? & ?). unfold grounds. rewrite Hreq. cbn [policy' ConsensusPolicy.required_roles
        ConsensusPolicy.majority_with]. rewrite Forall_singleton. tauto. }
    assert (Hrole : ∀ role', (ConsensusPolicy.mode policy, role') ∈ reviewer_modes → role' = role).
    { intros role' Hr'. by apply (reviewer_unique (ConsensusPolicy.mode policy)). }
    apply evaluate_body_cases in Hrun. cbv zeta in Hrun. rewrite Hgr, Hmaj in Hrun. cbn [tick] in Hrun.
    unfold endorsed. split.
    + intros Hst. destruct Hrun as [[Hno _]|(Ht' & _ & Hr & [[_ Hiff]|(role' & Hbad & _)])]; [done| |by apply majority_no_reviewer in Hbad].
      split_and!; try done. right. exists role. rewrite <- Hiff. by split_and!.
    + intros (_ & _ & (_ & [Hc|(role' & Hr' & Ha & Hm)]) & Ht'); [done|]. apply Hrole in Hr' as Heq. subst role'.
      destruct Hrun as [[_ Hnot]|(_ & _ & _ & [[_ Hiff]|(role' & Hbad & _)])]; [|by apply Hiff|by apply majority_no_reviewer in Hbad].
      destruct Hnot. split_and!; [apply Ht'; by exists role|done|done|by left].
Qed.

Lemma evaluate_approved p votes gp policy (s s' : sys S) r :
  evaluate p votes policy gp s = (Ok r, s') → ConsensusResult.status r = "approved" →
  clock (tick s) <= Proposal.expires_at p ∧ endorsed p votes policy gp.
Proof. intros Hrun Hst. by apply (evaluate_iff _ _ _ _ _ _ _ Hrun) in Hst as (? & _ & ? & _). Qed.

End Consensus.

(** * Properties *)

Section GovernanceProperties.
Context `{Oracle} {S : Type}.

(** C33: a consensus approves exactly what was endorsed. An evaluation that
    returns has approved the proposal if and only if the proposal has not
    expired when it is looked at (twice, in the modes that ask a reviewer),
    there are votes, its risk is within the agents' authority, every voter may
    vote, nobody escalated, every required role has an approving vote, there
    are as many approvals as both the policy and the proposal require, and the
    mode carries it: nobody rejects (one approver, unanimity); more than half
    of the counted and of the required votes approve (majority, and the modes
    that ask a security or compliance reviewer, who has approved); two thirds
    and the threshold of them do (supermajority); or the weights of the
    approvals reach the threshold (weighted). A mode that asks a human, or an
    unknown one, approves nothing. *)
Theorem consensus_approved_exact (p : Proposal) (votes : list Vote) (policy : ConsensusPolicy.t)
    (gp : GovernancePolicy.t) (s s' : sys S) (r : ConsensusResult) :
  ConsensusEngine.evaluate p votes policy gp s = (Ok r, s') →
  ConsensusResult.status r = "approved" ↔
  clock (tick s) <= Proposal.expires_at p ∧ votes ≠ [] ∧ endorsed p votes policy gp ∧
  ((∃ role, (ConsensusPolicy.mode policy, role) ∈ reviewer_modes) →
   clock (Datatypes.S (tick s)) <= Proposal.expires_at p).
Proof. apply evaluate_iff. Qed.

End GovernanceProperties.

(** ** Witness *)

Definition demo_consensus_proposal : Proposal :=
  Proposal.Mk "t" "org" "agent-1" "org-1" "deploy" "low" 1 "me" None None "security_required" "pending" "p1"
    0 0 (day_us * 800000) None.

Definition demo_consensus_votes : list Vote :=
  [Vote.Mk "p1" "t" "agent-2" "security_reviewer" "approve" 1 "" "v1" 0;
   Vote.Mk "p1" "t" "agent-3" "executor" "approve" 1 "" "v2" 0;
   Vote.Mk "p1" "t" "agent-4" "planner" "reject" 1 "" "v3" 0].

Definition demo_consensus_policy : ConsensusPolicy.t :=
  ConsensusPolicy.Mk "security_required" ConsensusPolicy.half ["executor"] 2.

Lemma consensus_approved_exact_witness :
  ∃ r s', ConsensusEngine.evaluate (H := demo_oracle) demo_consensus_proposal demo_consensus_votes
            demo_consensus_policy (GovernancePolicy.default "p" "t" "org") demo_start = (Ok r, s') ∧
    ConsensusResult.status r = "approved" ∧
    endorsed demo_consensus_proposal demo_consensus_votes demo_consensus_policy
      (GovernancePolicy.default "p" "t" "org").
Proof.
  destruct (ConsensusEngine.evaluate (H := demo_oracle) demo_consensus_proposal demo_consensus_votes
    demo_consensus_policy (GovernancePolicy.default "p" "t" "org") demo_start) as [[r|e] s'] eqn:E.
  - assert (Hr : ConsensusResult.status r = "approved").
    { apply (f_equal (fun p => match p.1 with Ok x => ConsensusResult.status x | Err _ => "" end)) in E.
      vm_compute in E. symmetry. exact E. }
    exists r, s'. split; [reflexivity|]. split; [exact Hr|].
    exact (proj1 (proj2 (proj2 (proj1 (consensus_approved_exact (H := demo_oracle) demo_consensus_proposal
      demo_consensus_votes demo_consensus_policy (GovernancePolicy.default "p" "t" "org") demo_start s' r E) Hr)))).
  - exfalso. apply (f_equal (fun p => is_ok p.1)) in E. vm_compute in E. discriminate E.
Defined.
