(* ===== verification/GovernanceService.v ===== *)
(** The governance service of agentfabric/governance/proposal_service.py and
    decision_record.py: organizations, proposals, votes, human approvals and
    the execution of what was approved; with the resolution of an approval of
    agentfabric/server/app.py. *)

From stdpp Require Import base option list strings gmap sets pretty.
From Stdlib Require Import ZArith Lia.
From S2P Require Import Prelude PyVal Json PyTime Store EventStore Documents Veil Governance.

Local Open Scope Z_scope.

(** * decision_record.py *)

Module DecisionRecord.
Record t := Mk {
  proposal_id : string;
  tenant_id : string;
  proposal_summary : doc;
  voters : list string;
  votes : list doc;
  consensus_result : doc;
  human_approvals : list doc;
  executed_action : doc;
  risk_summary : doc;
  veil_audit_refs : list string;
  event_ids : list string;
  final_status : string;
  decision_record_id : string;
  created_at : Z;
}.

Definition as_dict (r : t) : doc :=
  [("decision_record_id", VStr (decision_record_id r)); ("proposal_id", VStr (proposal_id r));
   ("tenant_id", VStr (tenant_id r)); ("proposal_summary", VDict (proposal_summary r));
   ("voters", VList (map VStr (voters r))); ("votes", VList (map VDict (votes r)));
   ("consensus_result", VDict (consensus_result r));
   ("human_approvals", VList (map VDict (human_approvals r)));
   ("executed_action", VDict (executed_action r)); ("risk_summary", VDict (risk_summary r));
   ("veil_audit_refs", VList (map VStr (veil_audit_refs r)));
   ("event_ids", VList (map VStr (event_ids r))); ("final_status", VStr (final_status r));
   ("created_at", VStr (isoformat (created_at r)))].

Section Calls.
Context `{Oracle} {S : Type}.

Definition from_dict (value : doc) : M (sys S) t :=
  let* decision_record_id := of_res (str_field value "decision_record_id") in
  let* proposal_id := of_res (str_field value "proposal_id") in
  let* tenant_id := of_res (str_field value "tenant_id") in
  let* proposal_summary := of_res (dict_field_or_empty value "proposal_summary") in
  let* voters := of_res (strs_field_or value "voters" []) in
  let* votes := of_res (dicts_field value "votes") in
  let* consensus_result := of_res (dict_field_or_empty value "consensus_result") in
  let* human_approvals := of_res (dicts_field value "human_approvals") in
  let* executed_action := of_res (dict_field_or_empty value "executed_action") in
  let* risk_summary := of_res (dict_field_or_empty value "risk_summary") in
  let* veil_audit_refs := of_res (strs_field_or value "veil_audit_refs" []) in
  let* event_ids := of_res (strs_field_or value "event_ids" []) in
  let* created_at := time_field_or_now value "created_at" in
  ret (Mk proposal_id tenant_id proposal_summary voters votes consensus_result human_approvals
         executed_action risk_summary veil_audit_refs event_ids
         (str_field_or value "final_status" "") decision_record_id created_at).

(** The row of a vote in a record. *)
Definition vote_row (v : Vote) : doc :=
  [("voter_agent_id", VStr (Vote.voter_agent_id v)); ("voter_role", VStr (Vote.voter_role v));
   ("vote", VStr (Vote.vote v)); ("weight", VInt (Vote.weight v))].

Definition build (proposal : Proposal) (votes : list Vote) (consensus_result : doc)
    (human_approvals : list doc) (executed_action : doc) (veil_audit_refs event_ids : list string)
    : M (sys S) t :=
  let* id := uuid4 in
  let* now := utc_now in
  ret (Mk (Proposal.proposal_id proposal) (Proposal.tenant_id proposal)
    [("action_type", VStr (Proposal.action_type proposal));
     ("risk_level", VStr (Proposal.risk_level proposal));
     ("target_org_id", VStr (Proposal.target_org_id proposal));
     ("target_team_id", opt_str (Proposal.target_team_id proposal));
     ("veil_trust_metadata_ref", opt_str (Proposal.veil_trust_metadata_ref proposal))]
    (Vote.voter_agent_id <$> votes) (vote_row <$> votes) consensus_result human_approvals
    executed_action
    [("risk_level", VStr (Proposal.risk_level proposal)); ("raw_sensitive_values_persisted", VBool false)]
    veil_audit_refs event_ids (Proposal.status proposal)
    ("decision-" +:+ id) now).

End Calls.
End DecisionRecord.

Abbreviation DecisionRecord := DecisionRecord.t.

(** * proposal_service.py *)

Module GovernanceService.
Section GovernanceService.
Context `{Oracle} {S : Type} `{PersistenceStore S, VeilClient}.

Definition create_org (org : AgentOrganization.t) : M (sys S) AgentOrganization.t :=
  do* store_put "governance_orgs" (AgentOrganization.org_id org) (AgentOrganization.as_dict org);
  do* EventStore.append "governance.agent_org.created" (AgentOrganization.org_id org)
        (AgentOrganization.as_dict org);
  ret org.

Definition list_orgs (tenant_id : string) : M (sys S) (list AgentOrganization.t) :=
  let* items := store_list_tenant "governance_orgs" tenant_id in
  for_map items AgentOrganization.from_dict.

Definition get_org (org_id : string) : M (sys S) AgentOrganization.t :=
  let* item := store_get "governance_orgs" org_id in
  match item with
  | None => raise NotFoundError "governance org not found"
  | Some item => AgentOrganization.from_dict item
  end.

Definition create_team (team : AgentTeam.t) : M (sys S) AgentTeam.t :=
  do* store_put "governance_teams" (AgentTeam.team_id team) (AgentTeam.as_dict team); ret team.

Definition update_charter (charter : Charter.t) : M (sys S) Charter.t :=
  do* store_put "governance_charters" (Charter.org_id charter) (Charter.as_dict charter);
  do* EventStore.append "governance.charter.updated" (Charter.org_id charter) (Charter.as_dict charter);
  ret charter.

(** The refusal of the policy service: an event, and the exception. *)
Definition blocked {A} (proposal : Proposal) (reason default : string) : M (sys S) A :=
  do* EventStore.append "governance.action.blocked" (Proposal.proposal_id proposal)
        [("tenant_id", VStr (Proposal.tenant_id proposal));
         ("proposal_id", VStr (Proposal.proposal_id proposal)); ("reason", VStr reason)];
  raise AuthorizationError (str_or reason default).

Definition create_proposal (proposal : Proposal) (assigned_reviewer : option string) : M (sys S) Proposal :=
  let* response := veil_call check_policy
    (PolicyCheck.Req (Proposal.proposing_agent_id proposal)
       ("governance.propose." +:+ Proposal.action_type proposal) (Proposal.as_dict proposal)) in
  if negb (PolicyCheck.allowed response)
  then blocked proposal (PolicyCheck.reason response) "VEIL policy denied proposal"
  else
  do* doc_put proposal;
  do* EventStore.append "governance.proposal.created" (Proposal.proposal_id proposal)
        (Proposal.as_dict proposal);
  if bool_decide (Proposal.consensus_mode proposal = "human_required")
     || bool_decide (Proposal.risk_level proposal ∈ ["high"; "critical"])
  then
    let reviewer := str_or (default "" assigned_reviewer) (Proposal.created_by proposal) in
    let* approval := HumanApprovalQueue.request (Proposal.proposal_id proposal)
                       (Proposal.tenant_id proposal) reviewer in
    do* EventStore.append "governance.human_approval.requested" (HumanApproval.approval_id approval)
          (HumanApproval.as_dict approval);
    ret proposal
  else ret proposal.

Definition list_proposals (tenant_id : string) : M (sys S) (list Proposal) := doc_list_tenant tenant_id.

Definition get_proposal (proposal_id : string) : M (sys S) Proposal :=
  let* item := store_get "governance_proposals" proposal_id in
  match item with
  | None => raise NotFoundError "proposal not found"
  | Some item =>
      let* proposal := Proposal.from_dict item in
      let* expired := Proposal.is_expired proposal in
      if (expired : bool) && negb (bool_decide (Proposal.status proposal ∈ ["executed"; "rejected"]))
      then
        let* expired := Proposal.with_status ProposalStatus.EXPIRED None proposal in
        do* store_put "governance_proposals" proposal_id (Proposal.as_dict expired);
        ret expired
      else ret proposal
  end.

Definition votes_for (tenant_id proposal_id : string) : M (sys S) (list Vote) :=
  let* items := store_list_tenant "governance_votes" tenant_id in
  for_map (base.filter (fun item => is_str (dget item "proposal_id") proposal_id = true) items)
    Vote.from_dict.

Definition cast_vote (vote : Vote) (policy : ConsensusPolicy.t) (governance_policy : GovernancePolicy.t)
    : M (sys S) (Vote * ConsensusResult * Proposal) :=
  let* proposal := get_proposal (Vote.proposal_id vote) in
  if bool_decide (Proposal.status proposal ∈ ["executed"; "rejected"; "expired"])
  then raise ConflictError "proposal is closed"
  else if bool_decide (Proposal.risk_level proposal ∈ ["high"; "critical"])
          && bool_decide (Vote.voter_agent_id vote = Proposal.proposing_agent_id proposal)
          && negb (GovernancePolicy.high_risk_self_approval_allowed governance_policy)
  then raise AuthorizationError "self-approval is not allowed for high-risk proposals"
  else
  do* doc_put vote;
  do* EventStore.append "governance.vote.cast" (Proposal.proposal_id proposal) (Vote.as_dict vote);
  let* votes := votes_for (Proposal.tenant_id proposal) (Proposal.proposal_id proposal) in
  let* result := ConsensusEngine.evaluate proposal votes policy governance_policy in
  let outcome := ConsensusResult.status result in
  let body := ("tenant_id", VStr (Proposal.tenant_id proposal)) :: ConsensusResult.as_dict result in
  let* status :=
    if bool_decide (outcome = "approved") then
      do* EventStore.append "governance.consensus.reached" (Proposal.proposal_id proposal) body;
      ret ProposalStatus.APPROVED
    else if bool_decide (outcome ∈ ["rejected"; "blocked"; "expired"; "escalated"]) then
      do* EventStore.append "governance.consensus.failed" (Proposal.proposal_id proposal) body;
      ret outcome
    else if bool_decide (outcome = "awaiting_human") then ret ProposalStatus.AWAITING_HUMAN
    else ret (Proposal.status proposal) in
  let* updated := Proposal.with_status status None proposal in
  do* doc_put updated;
  ret (vote, result, updated).

Definition execute (proposal_id : string) (action_payload : doc) (require_human : bool)
    : M (sys S) DecisionRecord :=
  let* proposal := get_proposal proposal_id in
  if negb (bool_decide (Proposal.status proposal = ProposalStatus.APPROVED))
  then raise ConflictError "proposal consensus is not finalized"
  else
  let* human := if require_human
    then HumanApprovalQueue.approved_for_proposal (Proposal.tenant_id proposal) proposal_id
    else ret true in
  if negb human then raise ConflictError "human approval is required"
  else
  let* response := veil_call check_policy
    (PolicyCheck.Req (Proposal.proposing_agent_id proposal)
       ("governance.execute." +:+ Proposal.action_type proposal)
       (dset (Proposal.as_dict proposal) "action_payload" (VDict action_payload))) in
  if negb (PolicyCheck.allowed response)
  then blocked proposal (PolicyCheck.reason response) "VEIL policy denied execution"
  else
  let* audit := veil_call create_audit_event
    (AuditEvent.Req (Proposal.proposing_agent_id proposal) "governance.action.executed"
       [("tenant_id", VStr (Proposal.tenant_id proposal));
        ("proposal_id", VStr (Proposal.proposal_id proposal))]) in
  let* event := EventStore.append "governance.action.executed" (Proposal.proposal_id proposal)
    [("tenant_id", VStr (Proposal.tenant_id proposal));
     ("proposal_id", VStr (Proposal.proposal_id proposal));
     ("action_type", VStr (Proposal.action_type proposal))] in
  let* executed := Proposal.with_status ProposalStatus.EXECUTED (Some action_payload) proposal in
  do* doc_put executed;
  let* votes := votes_for (Proposal.tenant_id proposal) (Proposal.proposal_id proposal) in
  let* all := HumanApprovalQueue.list_approvals (Proposal.tenant_id proposal) in
  let approvals := HumanApproval.as_dict <$>
    base.filter (fun a => HumanApproval.proposal_id a = Proposal.proposal_id proposal) all in
  let* record := DecisionRecord.build executed votes [("status", VStr ProposalStatus.APPROVED)]
    approvals action_payload [AuditEvent.event_id audit] [event_id event] in
  do* store_put "governance_decision_records" (Proposal.proposal_id proposal) (DecisionRecord.as_dict record);
  ret record.

Definition decision_record (proposal_id : string) : M (sys S) DecisionRecord :=
  let* item := store_get "governance_decision_records" proposal_id in
  match item with
  | None => raise NotFoundError "decision record not found"
  | Some item => DecisionRecord.from_dict item
  end.

(** ** server/app.py: the approve, reject and escalate requests

    The request has passed its scope check; [assert_tenant] is the tenant check
    of its context. *)

Definition event_type_of (status : string) : option string :=
  dget [("approved", "governance.human_approval.granted");
        ("rejected", "governance.human_approval.rejected");
        ("escalated", "governance.human_approval.escalated")] status.

Definition resolve_governance_approval (assert_tenant : doc → res unit) (approval_id status reason : string)
    : M (sys S) doc :=
  let* approval := HumanApprovalQueue.get approval_id in
  match approval with
  | None => raise (HTTPException 404) "approval not found"
  | Some approval =>
  do* of_res (assert_tenant (HumanApproval.as_dict approval));
  let* resolved := try_except (HumanApprovalQueue.resolve approval_id status reason)
    (fun e => if bool_decide (exn_cls e = ConflictError) then raise (HTTPException 409) (exn_msg e)
              else of_res (Err e)) in
  let* event_type := of_res (match event_type_of status with
                             | Some e => Ok e | None => Err (Exn KeyError (repr_str status)) end) in
  do* EventStore.append event_type (HumanApproval.proposal_id approval) (HumanApproval.as_dict resolved);
  let* proposal := get_proposal (HumanApproval.proposal_id approval) in
  let* updated := Proposal.with_status
    (if bool_decide (status = "approved") then ProposalStatus.APPROVED
     else if bool_decide (status = "rejected") then ProposalStatus.REJECTED
     else ProposalStatus.ESCALATED) None proposal in
  do* doc_put updated;
  ret (HumanApproval.as_dict resolved)
  end.

End GovernanceService.
End GovernanceService.

(** * Proposals, votes and approvals in the store *)

Section Governance.
Context `{Oracle} {S : Type} `{PersistenceStore S, !StoreLaws S, VeilClient}.
Hypothesis clock_ok : ∀ n, time_ok (clock n).
Implicit Types (s : sys S) (p : Proposal).
Import GovernanceService.

Lemma append_reads ty id body s e s' :
  EventStore.append ty id body s = (Ok e, s') →
  ∀ c k, c ≠ "events" → st_get c k (db s') = st_get c k (db s).
Proof. intros Hrun. by apply (preserves_run _ _ _ _ _ (reads_append (λ c k, st_get c k (db s)) ty id body) Hrun). Qed.

Lemma veil_call_db {Q R} (m : nat → Q → res R) q s r s' : veil_call m q s = (r, s') → db s' = db s.
Proof. by intros [= _ <-]. Qed.

(** A proposal that is read back: the stored one, unless it expired. *)
Lemma get_proposal_ok pid s p' s' :
  typed (A := Proposal) (db s) → get_proposal pid s = (Ok p', s') →
  ∃ p, stored p (db s) ∧ Proposal.proposal_id p = pid ∧
    ((p' = p ∧ db s' = db s ∧
      (clock (tick s) <= Proposal.expires_at p ∨ Proposal.status p ∈ ["executed"; "rejected"])) ∨
     (p' = Proposal.status_at (clock (Datatypes.S (tick s))) "expired" None p ∧
      Proposal.expires_at p < clock (tick s) ∧
      db s' = st_put "governance_proposals" pid (Proposal.as_dict p') (db s))).
Proof.
  intros Ht. unfold get_proposal. unfold bind at 1. unfold store_get, gets.
  destruct (st_get "governance_proposals" pid (db s)) as [d|] eqn:Hg; [|done].
  destruct (Ht pid d Hg) as (p & Hp & Hk & ->). cbn [d_enc d_key proposal_document] in Hk. 
  cbn [d_enc proposal_document]. unfold bind at 1. rewrite (Proposal.proposal_from_as_dict p s Hp).
  intros Hrun. exists p. split; [split; [done|]; cbn; by rewrite Hk|]. split; [done|].
  revert Hrun. unfold bind at 1. rewrite is_expired_eq. cbv iota.
  destruct (Z.gtb_spec (clock (tick s)) (Proposal.expires_at p)); cbn [andb].
  - case_bool_decide; cbn [negb]; [intros [= <- <-]; left; auto|].
    intros [= <- <-]. right. split_and!; [done|lia|done].
  - intros [= <- <-]. left. split_and!; [done|done|left; lia].
Qed.

(** The votes of a proposal. *)
Lemma votes_for_eq t pid s :
  typed (A := Vote) (db s) →
  ∃ l, votes_for t pid s = (Ok l, s) ∧
    ∀ v : Vote, v ∈ l ↔ stored v (db s) ∧ Vote.tenant_id v = t ∧ Vote.proposal_id v = pid.
Proof.
  intros Ht. destruct (doc_list_tenant_eq (A := Vote) t s Ht) as (l & _ & El & Sl).
  pose proof (elem_of_doc_list_tenant t s l Ht El Sl) as Hin.
  exists (base.filter (fun v => Vote.proposal_id v = pid) l). split.
  - unfold votes_for, bind, store_list_tenant, gets. cbn [d_coll d_enc vote_document] in El.
    rewrite <- El, filter_fmap.
    replace (base.filter (λ v : Vote, is_str (dget (Vote.as_dict v) "proposal_id") pid = true) l)
      with (base.filter (fun v => Vote.proposal_id v = pid) l).
    2: { apply list_filter_iff. intros v. simpl. by rewrite bool_decide_eq_true. }
    refine (for_map_dec (A := Vote) _ s _). apply Forall_filter_keep. by eapply Forall_stored_ok.
  - intros v. rewrite list_elem_of_filter, Hin. simpl. rewrite bool_decide_eq_true. tauto.
Qed.

Lemma with_status_ok st a p s u s' :
  Proposal.with_status st a p s = (Ok u, s') →
  u = Proposal.status_at (clock (tick s)) st a p ∧ db s' = db s.
Proof. by intros [= <- <-]. Qed.

Lemma stored_put {A} `{!Document S A} (a : A) (d : S) :
  d_ok a → stored a (st_put (d_coll (A := A)) (d_key a) (d_enc a) d).
Proof. intros Ha. split; [done|]. apply get_put_eq. Qed.

Lemma doc_put_db {A} `{!Document S A} (a : A) s x s' :
  doc_put a s = (Ok x, s') → db s' = st_put (d_coll (A := A)) (d_key a) (d_enc a) (db s).
Proof. by intros [= _ <-]. Qed.

(** The status a consensus gives, with the events it logs. *)
Lemma outcome_status (r : ConsensusResult) p body s st s' :
  (if bool_decide (ConsensusResult.status r = "approved") then
     do* EventStore.append "governance.consensus.reached" (Proposal.proposal_id p) body;
     ret ProposalStatus.APPROVED
   else if bool_decide (ConsensusResult.status r ∈ ["rejected"; "blocked"; "expired"; "escalated"]) then
     do* EventStore.append "governance.consensus.failed" (Proposal.proposal_id p) body;
     ret (ConsensusResult.status r)
   else if bool_decide (ConsensusResult.status r = "awaiting_human") then ret ProposalStatus.AWAITING_HUMAN
   else ret (Proposal.status p)) s = (Ok st, s') →
  (st = "approved" → ConsensusResult.status r = "approved" ∨ Proposal.status p = "approved") ∧
  ∀ c k, c ≠ "events" → st_get c k (db s') = st_get c k (db s).
Proof.
  case_bool_decide as E1; [|case_bool_decide as E2; [|case_bool_decide as E3]].
  1-2: intros (e & s1 & Hr & [= <- <-])%bind_ok; pose proof (append_reads _ _ _ _ _ _ Hr); split; [|done].
  - auto.
  - intros Er. by rewrite Er in E2.
  - by intros [= <- <-].
  - intros [= <- <-]. auto.
Qed.

(** A vote that was cast: [votes] are those of the proposal afterwards. *)
Definition vote_cast (vote : Vote) (policy : ConsensusPolicy.t) (gp : GovernancePolicy.t)
    (s s' : sys S) (p u : Proposal) (votes : list Vote) : Prop :=
  stored p (db s) ∧ Proposal.proposal_id p = Vote.proposal_id vote ∧
  Proposal.status p ∉ ["executed"; "rejected"; "expired"] ∧
  clock (tick s) <= Proposal.expires_at p ∧
  (Proposal.risk_level p ∈ ["high"; "critical"] →
   Vote.voter_agent_id vote = Proposal.proposing_agent_id p →
   GovernancePolicy.high_risk_self_approval_allowed gp = true) ∧
  stored vote (db s') ∧ stored u (db s') ∧ Proposal.proposal_id u = Proposal.proposal_id p ∧
  (∀ x, x ∈ votes ↔ stored x (db s') ∧ Vote.tenant_id x = Proposal.tenant_id p ∧
                    Vote.proposal_id x = Proposal.proposal_id p) ∧
  (Proposal.status u = "approved" → Proposal.status p = "approved" ∨ endorsed p votes policy gp).

Lemma cast_vote_ok vote policy gp s s' v r u :
  typed (A := Proposal) (db s) → typed (A := Vote) (db s) → d_ok (S := S) vote →
  cast_vote vote policy gp s = (Ok (v, r, u), s') →
  v = vote ∧ (∃ p votes, vote_cast vote policy gp s s' p u votes ∧
    (ConsensusResult.status r = "approved" → endorsed p votes policy gp)) ∧
  ∀ x : Vote, Vote.vote_id x ≠ Vote.vote_id vote → stored x (db s) → stored x (db s').
Proof.
  intros Htp Htv Hv Hrun. unfold cast_vote in Hrun.
  apply bind_ok in Hrun as (p & s1 & Hp & Hrun). case_bool_decide as Eclosed; [done|].
  apply (get_proposal_ok _ _ _ _ Htp) in Hp as (p0 & Hst & Hid & [(-> & Hdb1 & Hexp)|(-> & _)]).
  2: { exfalso. apply Eclosed. cbn. apply elem_of_cons; right. apply elem_of_cons; right. by left. }
  destruct (_ && _ && _) eqn:Eself; [done|].
  apply bind_ok in Hrun as ([] & s2 & Hput & Hrun).
  apply bind_ok in Hrun as (e & s3 & Hlog & Hrun).
  pose proof (append_reads _ _ _ _ _ _ Hlog) as Hdb3. apply doc_put_db in Hput.
  assert (Htv3 : typed (A := Vote) (db s3)).
  { apply (typed_reads (db s2)); [done|done|]. rewrite Hput, Hdb1. by apply typed_put. }
  apply bind_ok in Hrun as (votes & s4 & Hvotes & Hrun).
  destruct (votes_for_eq (Proposal.tenant_id p0) (Proposal.proposal_id p0) s3 Htv3) as (l & El & Hl).
  rewrite El in Hvotes. injection Hvotes as <- <-.
  apply bind_ok in Hrun as (r0 & s5 & Heval & Hrun). pose proof (evaluate_db _ _ _ _ _ _ _ Heval) as Hdb5.
  apply bind_ok in Hrun as (st & s6 & H6 & Hrun).
  apply bind_ok in Hrun as (u0 & s7 & H7 & Hrun).
  apply bind_ok in Hrun as ([] & s8 & Hput8 & [= <- <- <- <-]).
  apply doc_put_db in Hput8. apply outcome_status in H6 as [Hst6 Hdb6]. apply with_status_ok in H7 as [-> Hdb7].
  assert (Hv8 : ∀ x : Vote, stored x (db s8) ↔ stored x (db s3)).
  { intros x. unfold stored. rewrite Hput8, get_put_ne by done. rewrite Hdb7, Hdb6 by done. by rewrite Hdb5. }
  assert (Hend : ConsensusResult.status r0 = "approved" → endorsed p0 l policy gp).
  { intros Hr. by destruct (evaluate_approved _ _ _ _ _ _ _ Heval Hr). }
  split; [done|]. split.
  2: { intros x Hx Hs. apply Hv8, (stored_reads x (db s2)); [done|done|]. destruct Hs as [Hok Hg].
       split; [done|]. rewrite Hput, Hdb1, get_put_ne; [done|]. cbn. congruence. }
  exists p0, l. split; [|done]. unfold vote_cast. split_and!; try done.
  - destruct Hexp as [?|Hc]; [done|]. set_solver.
  - intros Hr Hs. rewrite !bool_decide_eq_true_2 in Eself by done. by apply negb_false_iff in Eself.
  - rewrite Hv8. apply (stored_reads vote (db s2)); [by cbn|exact Hdb3|]. rewrite Hput. by apply (stored_put vote).
  - rewrite Hput8. apply stored_put. apply Proposal.proposal_ok_status; [apply Hst|apply clock_ok|done].
  - intros x. by rewrite Hl, Hv8.
  - intros Hu. destruct (Hst6 Hu) as [Hr|Hr]; [right; by apply Hend|by left].
Qed.

(** ** Execution *)

Lemma dicts_field_eq d k l : dget d k = Some (VList (map VDict l)) → dicts_field d k = Ok l.
Proof. intros Hd. unfold dicts_field, dget_or. rewrite Hd. apply res_map_py_dict. Qed.

Lemma record_from_as_dict (r : DecisionRecord) s :
  time_ok (DecisionRecord.created_at r) → DecisionRecord.from_dict (DecisionRecord.as_dict r) s = (Ok r, s).
Proof.
  intros Hc. unfold DecisionRecord.from_dict, bind, of_res, ret.
  cbn -[time_field_or_now isoformat strs_field_or dicts_field].
  rewrite (dicts_field_eq _ "votes" (DecisionRecord.votes r)),
    (dicts_field_eq _ "human_approvals" (DecisionRecord.human_approvals r)) by done. rewrite (time_field_or_now_iso _ _ _ _ Hc) by done.
  rewrite (strs_field_or_eq _ "voters" _ (DecisionRecord.voters r)),
    (strs_field_or_eq _ "veil_audit_refs" _ (DecisionRecord.veil_audit_refs r)),
    (strs_field_or_eq _ "event_ids" _ (DecisionRecord.event_ids r)) by done.
  by destruct r.
Qed.

Lemma get_proposal_executed p s :
  stored p (db s) → Proposal.status p ∈ ["executed"; "rejected"] →
  ∃ s', get_proposal (Proposal.proposal_id p) s = (Ok p, s') ∧ db s' = db s.
Proof.
  intros [Hp Hg] Hst. unfold get_proposal, store_get, gets. unfold bind at 1.
  cbn [d_coll d_key d_enc proposal_document] in Hg. rewrite Hg. unfold bind at 1.
  rewrite (Proposal.proposal_from_as_dict p s Hp). unfold bind at 1. rewrite is_expired_eq. cbv iota.
  rewrite bool_decide_eq_true_2 by done. rewrite andb_false_r. by eexists.
Qed.

Lemma approved_for_proposal_true t pid s s' :
  typed (A := HumanApproval) (db s) →
  HumanApprovalQueue.approved_for_proposal t pid s = (Ok true, s') →
  ∃ a : HumanApproval, stored a (db s) ∧ HumanApproval.tenant_id a = t ∧
    HumanApproval.proposal_id a = pid ∧ HumanApproval.status a = "approved".
Proof.
  intros Ht. destruct (doc_list_tenant_eq (A := HumanApproval) t s Ht) as (l & El & Eenc & Sl).
  unfold HumanApprovalQueue.approved_for_proposal, HumanApprovalQueue.list_approvals, bind.
  rewrite El. intros [= Hex _].
  apply existsb_exists in Hex as (a & Ha & Hb). apply list_elem_of_In in Ha.
  apply andb_true_iff in Hb as [Hp%bool_decide_eq_true Hs%bool_decide_eq_true].
  apply (elem_of_doc_list_tenant t s l Ht Eenc Sl) in Ha as [Hsa Hten]. simpl in Hten.
  apply bool_decide_eq_true in Hten. eauto 6.
Qed.

(** An execution that returned. *)
Definition executed (pid : string) (payload : doc) (require_human : bool) s s' (r : DecisionRecord) : Prop :=
  ∃ p ex, stored p (db s) ∧ Proposal.proposal_id p = pid ∧ Proposal.status p = "approved" ∧
    clock (tick s) <= Proposal.expires_at p ∧
    (require_human = true → ∃ a : HumanApproval, stored a (db s) ∧
       HumanApproval.tenant_id a = Proposal.tenant_id p ∧ HumanApproval.proposal_id a = pid ∧
       HumanApproval.status a = "approved") ∧
    stored ex (db s') ∧ Proposal.proposal_id ex = pid ∧ Proposal.status ex = "executed" ∧
    Proposal.executed_action ex = Some payload ∧
    decision_record pid s' = (Ok r, s') ∧ DecisionRecord.executed_action r = payload.

Lemma build_ok p votes c ha ea va ev s r s' :
  DecisionRecord.build p votes c ha ea va ev s = (Ok r, s') →
  db s' = db s ∧ time_ok (DecisionRecord.created_at r) ∧ DecisionRecord.executed_action r = ea.
Proof. intros [= <- <-]. split_and!; [done|apply clock_ok|done]. Qed.

Lemma human_check (require_human : bool) t pid s s' :
  (if require_human then HumanApprovalQueue.approved_for_proposal t pid else ret true) s = (Ok true, s') →
  typed (A := HumanApproval) (db s) →
  db s' = db s ∧ (require_human = true → ∃ a : HumanApproval, stored a (db s) ∧
    HumanApproval.tenant_id a = t ∧ HumanApproval.proposal_id a = pid ∧ HumanApproval.status a = "approved").
Proof.
  intros Hrun Ht. destruct require_human; [|by injection Hrun as <-].
  split; [|intros _; by eapply approved_for_proposal_true].
  destruct (doc_list_tenant_eq (A := HumanApproval) t s Ht) as (l & El & _).
  unfold HumanApprovalQueue.approved_for_proposal, HumanApprovalQueue.list_approvals, bind in Hrun.
  rewrite El in Hrun. by injection Hrun as _ <-.
Qed.

(** What an execution does once the action is logged. *)
Definition finish (proposal ex : Proposal) (payload : doc) (audits events : list string) : M (sys S) DecisionRecord :=
  do* doc_put ex;
  let* votes := votes_for (Proposal.tenant_id proposal) (Proposal.proposal_id proposal) in
  let* all := HumanApprovalQueue.list_approvals (Proposal.tenant_id proposal) in
  let approvals := HumanApproval.as_dict <$>
    base.filter (fun a => HumanApproval.proposal_id a = Proposal.proposal_id proposal) all in
  let* record := DecisionRecord.build ex votes [("status", VStr ProposalStatus.APPROVED)]
    approvals payload audits events in
  do* store_put "governance_decision_records" (Proposal.proposal_id proposal) (DecisionRecord.as_dict record);
  ret record.

Lemma finish_ok p ex payload audits evs s s' r :
  Proposal.proposal_ok ex → Proposal.proposal_id ex = Proposal.proposal_id p →
  typed (A := Vote) (db s) → typed (A := HumanApproval) (db s) →
  finish p ex payload audits evs s = (Ok r, s') →
  stored ex (db s') ∧ decision_record (Proposal.proposal_id p) s' = (Ok r, s') ∧
  DecisionRecord.executed_action r = payload.
Proof.
  intros Hok Hid Htv Hta Hrun. unfold finish in Hrun.
  apply bind_ok in Hrun as ([] & s7 & Hput & Hrun). apply doc_put_db in Hput.
  assert (Htv7 : typed (A := Vote) (db s7)) by (rewrite Hput; by apply typed_put_other).
  assert (Hta7 : typed (A := HumanApproval) (db s7)) by (rewrite Hput; by apply typed_put_other).
  apply bind_ok in Hrun as (vs & s8 & Hvs & Hrun).
  destruct (votes_for_eq (Proposal.tenant_id p) (Proposal.proposal_id p) s7 Htv7) as (l & El & _).
  rewrite El in Hvs. injection Hvs as <- <-.
  apply bind_ok in Hrun as (al & s9 & Hal & Hrun).
  destruct (doc_list_tenant_eq (A := HumanApproval) (Proposal.tenant_id p) s7 Hta7) as (la & Ela & _).
  unfold HumanApprovalQueue.list_approvals in Hal. rewrite Ela in Hal. injection Hal as <- <-.
  apply bind_ok in Hrun as (rec & s10 & Hrec & Hrun). apply build_ok in Hrec as (Hdb10 & Hcre & Hact).
  apply bind_ok in Hrun as ([] & s11 & Hput' & [= <- <-]). injection Hput' as <-.
  split; [|split; [|done]].
  - split; [done|]. cbn [with_db db]. rewrite get_put_ne by done. rewrite Hdb10, Hput. apply get_put_eq.
  - unfold decision_record, bind, store_get, gets. cbn [with_db db]. rewrite get_put_eq. by apply record_from_as_dict.
Qed.

Lemma execute_ok pid payload require_human s s' r :
  payload ≠ [] → typed (A := Proposal) (db s) → typed (A := Vote) (db s) →
  typed (A := HumanApproval) (db s) →
  execute pid payload require_human s = (Ok r, s') → executed pid payload require_human s s' r.
Proof.
  intros Hpay Htp Htv Hta Hrun. unfold execute in Hrun.
  apply bind_ok in Hrun as (p & s1 & Hp & Hrun). case_bool_decide as Est; [cbn [negb] in Hrun|done].
  apply (get_proposal_ok _ _ _ _ Htp) in Hp as (p0 & Hst & Hid & [(-> & Hdb1 & Hexp)|(-> & _)]); [|done].
  assert (Hle : clock (tick s) <= Proposal.expires_at p0).
  { destruct Hexp as [?|Hc]; [done|]. rewrite Est in Hc. by apply elem_of_cons in Hc as [?|?%list_elem_of_singleton]. }
  apply bind_ok in Hrun as (hum & s2 & Hh & Hrun). destruct hum; [cbn [negb] in Hrun|done].
  assert (Hhum : db s2 = db s ∧ (require_human = true → ∃ a : HumanApproval, stored a (db s) ∧
       HumanApproval.tenant_id a = Proposal.tenant_id p0 ∧ HumanApproval.proposal_id a = pid ∧
       HumanApproval.status a = "approved")).
  { rewrite <- Hdb1. apply human_check in Hh; [done|by rewrite Hdb1]. }
  destruct Hhum as [Hdb2 Hhum].
  apply bind_ok in Hrun as (resp & s3 & Hv3 & Hrun). destruct (PolicyCheck.allowed resp); cbn [negb] in Hrun.
  2: { by apply bind_ok in Hrun as (? & ? & _ & ?). }
  apply bind_ok in Hrun as (audit & s4 & Hv4 & Hrun). apply veil_call_db in Hv3, Hv4.
  apply bind_ok in Hrun as (e & s5 & Hlog & Hrun). pose proof (append_reads _ _ _ _ _ _ Hlog) as Hdb5.
  apply bind_ok in Hrun as (ex & s6 & Hex & Hrun). apply with_status_ok in Hex as [-> Hdb6].
  assert (Hdb : ∀ c k, c ≠ "events" → st_get c k (db s6) = st_get c k (db s)).
  { intros c k Hc. rewrite Hdb6, Hdb5 by done. by rewrite Hv4, Hv3, Hdb2. }
  pose proof (Proposal.proposal_ok_status (clock (tick s5)) "executed" (Some payload) p0 (proj1 Hst) (clock_ok _)) as Hok.
  eapply finish_ok in Hrun as (Hsx & Hrec & Hact); [|apply Hok; congruence|done|by apply (typed_reads (db s))|by apply (typed_reads (db s))].
  rewrite Hid in Hrec. exists p0; eexists. by split_and!.
Qed.

(** ** Approvals *)

Lemma resolve_eq (a : HumanApproval) st reason s :
  stored a (db s) →
  HumanApprovalQueue.resolve (HumanApproval.approval_id a) st reason s =
  (let s1 := Sys (db s) (events s) (durable s) (Datatypes.S (tick s)) in
   if clock (tick s) >? HumanApproval.expires_at a
   then (Err (Exn ConflictError "approval expired"), s1)
   else if bool_decide (HumanApproval.status a ∈ ["pending"; "escalated"]) then
     let a' := HumanApprovalQueue.resolved_at (clock (tick s1)) st reason a in
     (Ok a', Sys (st_put "governance_approvals" (HumanApproval.approval_id a) (HumanApproval.as_dict a') (db s))
               (events s) (durable s) (Datatypes.S (tick s1)))
   else (Err (Exn ConflictError "approval already resolved"), s1)).
Proof.
  intros Ha. unfold HumanApprovalQueue.resolve, HumanApprovalQueue.get. unfold bind at 1.
  pose proof (doc_get_stored a s Ha) as Hg. cbn [d_key approval_document] in Hg. rewrite Hg.
  unfold bind at 1, HumanApproval.is_expired. cbn [utc_now].
  unfold bind at 1, utc_now at 1, ret at 1. cbv beta iota.
  destruct (clock (tick s) >? HumanApproval.expires_at a); [done|].
  by case_bool_decide.
Qed.

Lemma resolved_ok st reason (a : HumanApproval) :
  HumanApproval.approval_ok a → ∀ n, HumanApproval.approval_ok (HumanApprovalQueue.resolved_at (clock n) st reason a).
Proof. intros (? & ? & _) n. split_and!; [done|done|apply clock_ok]. Qed.

(** An approval that is granted after the execution opens the proposal again. *)
Lemma reopens assert_tenant (a : HumanApproval) p reason s :
  stored a (db s) → stored p (db s) → HumanApproval.proposal_id a = Proposal.proposal_id p →
  Proposal.status p = "executed" → HumanApproval.status a = "pending" →
  clock (tick s) <= HumanApproval.expires_at a → assert_tenant (HumanApproval.as_dict a) = Ok tt →
  ∃ d s' u, resolve_governance_approval assert_tenant (HumanApproval.approval_id a) "approved" reason s = (Ok d, s') ∧
    stored u (db s') ∧ Proposal.proposal_id u = Proposal.proposal_id p ∧ Proposal.status u = "approved" ∧
    Proposal.expires_at u = Proposal.expires_at p.
Proof.
  intros Ha Hp Hid Hst Hpend Hexp Htenant. unfold resolve_governance_approval, HumanApprovalQueue.get.
  unfold bind at 1. pose proof (doc_get_stored a s Ha) as Hg. cbn [d_key approval_document] in Hg. rewrite Hg.
  unfold bind at 1, of_res at 1. rewrite Htenant. unfold bind at 1, try_except. rewrite (resolve_eq a _ _ s Ha).
  destruct (Z.gtb_spec (clock (tick s)) (HumanApproval.expires_at a)); [lia|].
  rewrite bool_decide_eq_true_2 by (rewrite Hpend; by left). cbv zeta.
  cbn [tick]. set (a' := HumanApprovalQueue.resolved_at _ _ _ _). set (s1 := Sys _ _ _ _).
  unfold bind at 1, of_res at 1. change (event_type_of "approved") with (Some "governance.human_approval.granted").
  cbv iota. unfold bind at 1. rewrite EventStore.append_eq, bool_decide_eq_true_2 by (apply (bool_decide_unpack _); by vm_compute).
  cbv zeta. set (s2 := Sys _ _ _ _).
  assert (Hp2 : stored p (db s2)).
  { destruct Hp as [Hok Hgp]. split; [done|]. unfold s2. cbn [db].
    destruct (durable s1); [rewrite get_put_ne by done|]; unfold s1; cbn [db]; by rewrite get_put_ne. }
  unfold bind at 1. rewrite Hid.
  destruct (get_proposal_executed p s2 Hp2) as (s3 & -> & Hdb3); [rewrite Hst; by left|].
  unfold bind at 1, Proposal.with_status, bind at 1, utc_now, ret at 1. cbv beta iota.
  unfold bind, doc_put, store_put, modify, ret.
  eexists _, _, (Proposal.status_at _ "approved" None p). split; [reflexivity|].
  split; [|done]. split; [|apply get_put_eq]. apply Proposal.proposal_ok_status; [apply Hp2|apply clock_ok|done].
Qed.

End Governance.

(** * Properties *)

Section GovernanceServiceProperties.
Context `{Oracle} {S : Type} `{PersistenceStore S, !StoreLaws S, VeilClient}.
Implicit Types (s : sys S) (p : Proposal).

(** A vote that is accepted was allowed, and what it decides follows from
    all the votes. When [cast_vote] returns, the proposal was open and not
    expired, nobody voted on a high-risk proposal of their own without leave,
    the vote and the updated proposal are stored, and the proposal is approved
    only if it already was or if the votes now stored for it endorse it. *)
Theorem cast_vote_sound (vote v : Vote) (policy : ConsensusPolicy.t) (gp : GovernancePolicy.t)
    (s s' : sys S) (r : ConsensusResult) (u : Proposal) :
  (∀ n, time_ok (clock n)) → typed (A := Proposal) (db s) → typed (A := Vote) (db s) →
  d_ok (S := S) vote →
  GovernanceService.cast_vote vote policy gp s = (Ok (v, r, u), s') →
  v = vote ∧ ∃ p votes, vote_cast vote policy gp s s' p u votes.
Proof.
  intros Hc Htp Htv Hv Hrun.
  destruct (cast_vote_ok Hc _ _ _ _ _ _ _ _ Htp Htv Hv Hrun) as (Hvv & (p & votes & Hcast & _) & _). eauto.
Qed.

(** C5: what runs was approved, and it runs once. When [execute] returns, the
    proposal was stored as approved and had not expired, a person had approved
    it if one had to, the stored proposal says executed with the payload, and
    the decision record reads back as it was returned. Executing the proposal
    again, in any state that still holds the executed proposal, raises a
    conflict. *)
Theorem governed_execution (pid : string) (payload : doc) (require_human : bool) (s s' : sys S)
    (r : DecisionRecord) :
  (∀ n, time_ok (clock n)) → payload ≠ [] → typed (A := Proposal) (db s) →
  typed (A := Vote) (db s) → typed (A := HumanApproval) (db s) →
  GovernanceService.execute pid payload require_human s = (Ok r, s') →
  executed pid payload require_human s s' r ∧
  ∀ s2 payload2 require_human2,
    st_get "governance_proposals" pid (db s2) = st_get "governance_proposals" pid (db s') →
    (GovernanceService.execute pid payload2 require_human2 s2).1 =
    Err (Exn ConflictError "proposal consensus is not finalized").
Proof.
  intros Hc Hpay Htp Htv Hta Hrun. pose proof (execute_ok Hc _ _ _ _ _ _ Hpay Htp Htv Hta Hrun) as Hex.
  split; [done|]. intros s2 payload2 rh2 Hsame.
  destruct Hex as (p & ex & _ & _ & _ & _ & _ & [Hok Hg] & Hid & Hst & _).
  assert (Hst2 : stored ex (db s2)).
  { split; [done|]. rewrite <- Hg. cbn [d_coll d_key proposal_document]. by rewrite Hid. }
  unfold GovernanceService.execute, bind at 1.
  destruct (get_proposal_executed ex s2 Hst2) as (s3 & Hget & _); [rewrite Hst; by left|].
  rewrite Hid in Hget. rewrite Hget, bool_decide_eq_false_2; [done|]. by rewrite Hst.
Qed.

(** A person decides once. An approval that was resolved had been waiting,
    pending or escalated, and had not expired; if the decision was to approve or
    to reject, every later decision raises a conflict and changes no record. *)
Theorem human_approval_final (id status reason : string) (s s' : sys S) (a' : HumanApproval) :
  (∀ n, time_ok (clock n)) → typed (A := HumanApproval) (db s) → status ∈ ["approved"; "rejected"] →
  HumanApprovalQueue.resolve id status reason s = (Ok a', s') →
  (∃ a : HumanApproval, stored a (db s) ∧ HumanApproval.approval_id a = id ∧
     HumanApproval.status a ∈ ["pending"; "escalated"] ∧ clock (tick s) <= HumanApproval.expires_at a) ∧
  stored a' (db s') ∧ HumanApproval.status a' = status ∧
  ∀ status2 reason2, ∃ msg s2,
    HumanApprovalQueue.resolve id status2 reason2 s' = (Err (Exn ConflictError msg), s2) ∧ db s2 = db s'.
Proof.
  intros Hc Ht Hstatus Hrun.
  assert (∃ a : HumanApproval, stored a (db s) ∧ HumanApproval.approval_id a = id) as (a & Ha & <-).
  { revert Hrun. unfold HumanApprovalQueue.resolve, HumanApprovalQueue.get. unfold bind at 1.
    destruct (doc_get_eq (A := HumanApproval) id s Ht) as [(a & <- & Ha & _)|[_ ->]]; [by exists a|done]. }
  rewrite (resolve_eq a _ _ s Ha) in Hrun.
  destruct (Z.gtb_spec (clock (tick s)) (HumanApproval.expires_at a)); [done|].
  case_bool_decide as Epend; [|done]. injection Hrun as <- <-.
  assert (Hs : stored (HumanApprovalQueue.resolved_at (clock (Datatypes.S (tick s))) status reason a)
    (st_put "governance_approvals" (HumanApproval.approval_id a) (HumanApproval.as_dict
      (HumanApprovalQueue.resolved_at (clock (Datatypes.S (tick s))) status reason a)) (db s))).
  { split; [apply (resolved_ok Hc), Ha|apply get_put_eq]. }
  split; [by exists a|]. split; [exact Hs|]. split; [done|]. intros status2 reason2.
  set (s1 := Sys _ _ _ _). pose proof (resolve_eq _ status2 reason2 s1 Hs) as Er.
  cbn [HumanApproval.approval_id HumanApprovalQueue.resolved_at] in Er. rewrite Er. cbv zeta.
  case_match; [by eexists _, _|]. rewrite bool_decide_eq_false_2; [by eexists _, _|].
  simpl. apply elem_of_cons in Hstatus as [->|Hstatus]; [|apply list_elem_of_singleton in Hstatus as ->];
    by intros [?|?%list_elem_of_singleton]%elem_of_cons.
Qed.

(** One vote from a role that may not vote blocks a proposal for good.
    [cast_vote] stores the vote before it checks the roles, so the vote stays
    when the call raises; from then on no vote gets the proposal approved, and
    the stored vote stays. *)
Theorem unauthorized_vote_blocks (bad vote v : Vote) p (policy : ConsensusPolicy.t) (gp : GovernancePolicy.t)
    (s s' : sys S) (r : ConsensusResult) (u : Proposal) :
  (∀ n, time_ok (clock n)) → typed (A := Proposal) (db s) → typed (A := Vote) (db s) →
  stored p (db s) → stored bad (db s) →
  Vote.voter_role bad ∉ AUTHORIZED_VOTING_ROLES →
  Vote.proposal_id bad = Proposal.proposal_id p → Vote.tenant_id bad = Proposal.tenant_id p →
  d_ok (S := S) vote → Vote.proposal_id vote = Proposal.proposal_id p → Vote.vote_id vote ≠ Vote.vote_id bad →
  GovernanceService.cast_vote vote policy gp s = (Ok (v, r, u), s') →
  ConsensusResult.status r ≠ "approved" ∧ stored bad (db s').
Proof.
  intros Hc Htp Htv Hp Hbad Hrole Hpid Hten Hv Hvid Hne Hrun.
  destruct (cast_vote_ok Hc _ _ _ _ _ _ _ _ Htp Htv Hv Hrun) as (_ & (p0 & votes & Hcast & Hend) & Hkeep).
  assert (Hbad' : stored bad (db s')) by (by apply Hkeep).
  split; [|done]. intros Happ. destruct Hcast as (Hp0 & Hid0 & _ & _ & _ & _ & _ & _ & Hvotes & _).
  assert (p0 = p) as ->.
  { destruct Hp as [Hok Hg], Hp0 as [Hok0 Hg0]. cbn [d_coll d_key proposal_document] in Hg, Hg0.
    rewrite Hid0, Hvid, Hg in Hg0. apply (inj Some) in Hg0. by apply (d_enc_inj p0 p s Hok0 Hok). }
  destruct (Hend Happ) as [(_ & Hroles & _) _]. rewrite Forall_forall in Hroles.
  apply Hrole, (Hroles bad), Hvotes. done.
Qed.

(** An approval granted late opens an executed proposal again. Granting a
    pending approval of a proposal that was already executed succeeds and
    stores the proposal as approved once more. *)
Theorem late_approval_reopens (assert_tenant : doc → res unit) (a : HumanApproval) p (reason : string) (s : sys S) :
  (∀ n, time_ok (clock n)) → stored a (db s) → stored p (db s) →
  HumanApproval.proposal_id a = Proposal.proposal_id p → Proposal.status p = "executed" →
  HumanApproval.status a = "pending" → clock (tick s) <= HumanApproval.expires_at a →
  assert_tenant (HumanApproval.as_dict a) = Ok tt →
  ∃ d s' u, GovernanceService.resolve_governance_approval assert_tenant (HumanApproval.approval_id a)
              "approved" reason s = (Ok d, s') ∧
    stored u (db s') ∧ Proposal.proposal_id u = Proposal.proposal_id p ∧ Proposal.status u = "approved" ∧
    Proposal.expires_at u = Proposal.expires_at p.
Proof. intros Hc. by apply reopens. Qed.

End GovernanceServiceProperties.

(** ** Witnesses *)

Definition demo_policy : GovernancePolicy.t := GovernancePolicy.default "default" "t" "org".

Definition demo_proposal (status : string) : Proposal :=
  Proposal.Mk "t" "org" "agent-1" "org-1" "deploy" "low" 1 "me" None None "majority" status "p1" 0 0
    (day_us * 800000) None.

Definition demo_vote (id role : string) : Vote :=
  Vote.Mk "p1" "t" "agent-2" role "approve" 1 "" id 0.

Definition demo_approval (status : string) : HumanApproval :=
  HumanApproval.Mk "p1" "t" "me" status "" "a1" 0 (day_us * 800000) None.

Definition demo_docs (p : Proposal) (v : Vote) (a : HumanApproval) : Memory.store :=
  st_put "governance_approvals" "a1" (HumanApproval.as_dict a)
    (st_put "governance_votes" (Vote.vote_id v) (Vote.as_dict v)
      (st_put "governance_proposals" "p1" (Proposal.as_dict p) ∅)).

Definition demo_governed (status role approval : string) : sys Memory.store :=
  Sys (demo_docs (demo_proposal status) (demo_vote "v1" role) (demo_approval approval)) [] true 0.

Section Demo.
#[local] Existing Instance demo_oracle.

Lemma demo_proposal_ok st : Proposal.proposal_ok (demo_proposal st).
Proof. split_and!; try done; by vm_compute. Qed.

Lemma demo_approval_ok st : HumanApproval.approval_ok (demo_approval st).
Proof. split_and!; try done; by vm_compute. Qed.

Lemma demo_vote_ok id role : d_ok (S := Memory.store) (demo_vote id role).
Proof. by vm_compute. Qed.

Lemma demo_proposals st role ap : typed (A := Proposal) (db (demo_governed st role ap)).
Proof. do 2 (apply typed_put_other; [done|]). refine (typed_put (demo_proposal st) ∅ _ typed_empty). apply demo_proposal_ok. Qed.

Lemma demo_votes st role ap : typed (A := Vote) (db (demo_governed st role ap)).
Proof.
  apply typed_put_other; [done|]. refine (typed_put (demo_vote "v1" role) _ (demo_vote_ok _ _) _).
  apply typed_put_other, typed_empty. done.
Qed.

Lemma demo_approvals st role ap : typed (A := HumanApproval) (db (demo_governed st role ap)).
Proof.
  refine (typed_put (demo_approval ap) _ (demo_approval_ok _) _).
  do 2 (apply typed_put_other; [done|]). apply typed_empty.
Qed.

Lemma demo_proposal_stored st role ap : stored (demo_proposal st) (db (demo_governed st role ap)).
Proof. split; [apply demo_proposal_ok|]. unfold demo_governed, demo_docs; cbn [db]. do 2 rewrite get_put_ne by done. apply get_put_eq. Qed.

Lemma demo_vote_stored st role ap : stored (demo_vote "v1" role) (db (demo_governed st role ap)).
Proof. split; [apply demo_vote_ok|]. unfold demo_governed, demo_docs; cbn [db]. rewrite get_put_ne by done. apply get_put_eq. Qed.

Lemma demo_approval_stored st role ap : stored (demo_approval ap) (db (demo_governed st role ap)).
Proof. split; [apply demo_approval_ok|]. apply get_put_eq. Qed.

(** Runs of the examples: what a call returns. *)
Definition cast_demo role id :=
  GovernanceService.cast_vote (demo_vote id "executor") ConsensusPolicy.default demo_policy
    (demo_governed "pending" role "pending").

Definition execute_demo :=
  GovernanceService.execute (H1 := mock_veil) "p1" [("result", VStr "done")] true
    (demo_governed "approved" "executor" "approved").

Definition resolve_demo :=
  HumanApprovalQueue.resolve "a1" "approved" "fine" (demo_governed "pending" "executor" "pending").

End Demo.

Section DemoWitnesses.
#[local] Existing Instance demo_oracle.

(** What a run returned, without the state. *)
Definition outcome_of {S A} (run : res A * S) : option A := match run.1 with Ok a => Some a | Err _ => None end.

Lemma outcome_run {S A} (run : res A * S) a : outcome_of run = Some a → ∃ s', run = (Ok a, s').
Proof. destruct run as [[b|e] s']; [|done]. intros [= <-]. by exists s'. Qed.

Lemma cast_vote_sound_witness :
  ∃ r u s', cast_demo "reviewer" "v2" = (Ok (demo_vote "v2" "executor", r, u), s') ∧
    Proposal.status u = "approved" ∧
    ∃ p votes, vote_cast (demo_vote "v2" "executor") ConsensusPolicy.default demo_policy
                 (demo_governed "pending" "reviewer" "pending") s' p u votes.
Proof.
  destruct (cast_demo "reviewer" "v2") as [[[[v r] u]|e] s'] eqn:E.
  - pose proof (cast_vote_sound (demo_vote "v2" "executor") v ConsensusPolicy.default demo_policy
      (demo_governed "pending" "reviewer" "pending") s' r u demo_clock
      (demo_proposals _ _ _) (demo_votes _ _ _) (demo_vote_ok _ _) E) as [Hv Hcast].
    exists r, u, s'. rewrite Hv. split; [reflexivity|]. split; [|exact Hcast].
    apply (f_equal (fun p => match p.1 with Ok x => Proposal.status x.2 | Err _ => "" end)) in E.
    vm_compute in E. symmetry. exact E.
  - exfalso. apply (f_equal (fun p => is_ok p.1)) in E. vm_compute in E. discriminate E.
Defined.

Lemma governed_execution_witness :
  ∃ r s', execute_demo = (Ok r, s') ∧
    executed "p1" [("result", VStr "done")] true (demo_governed "approved" "executor" "approved") s' r ∧
    (GovernanceService.execute (H1 := mock_veil) "p1" [("result", VStr "done")] true s').1 =
      Err (Exn ConflictError "proposal consensus is not finalized").
Proof.
  destruct execute_demo as [[r|e] s'] eqn:E.
  - exists r, s'.
    assert (Hp : [("result", VStr "done")] ≠ ([] : doc)) by discriminate.
    destruct (governed_execution (H1 := mock_veil) "p1" [("result", VStr "done")] true
      (demo_governed "approved" "executor" "approved") s' r demo_clock Hp
      (demo_proposals _ _ _) (demo_votes _ _ _) (demo_approvals _ _ _) E) as [Hex Hagain].
    split; [reflexivity|]. split; [exact Hex|]. apply Hagain. reflexivity.
  - exfalso. apply (f_equal (fun p => is_ok p.1)) in E. vm_compute in E. discriminate E.
Defined.

Lemma human_approval_final_witness :
  ∃ a s', resolve_demo = (Ok a, s') ∧ HumanApproval.status a = "approved" ∧
    ∃ msg s2, HumanApprovalQueue.resolve "a1" "rejected" "no" s' = (Err (Exn ConflictError msg), s2) ∧ db s2 = db s'.
Proof.
  destruct resolve_demo as [[a|e] s'] eqn:E.
  - exists a, s'. assert (Hin : "approved" ∈ ["approved"; "rejected"]) by (left).
    destruct (human_approval_final "a1" "approved" "fine"
      (demo_governed "pending" "executor" "pending") s' a demo_clock (demo_approvals _ _ _) Hin E)
      as (_ & _ & Hst & Hagain).
    split; [reflexivity|]. split; [exact Hst|]. apply Hagain.
  - exfalso. apply (f_equal (fun p => is_ok p.1)) in E. vm_compute in E. discriminate E.
Defined.

(** The observer's vote is stored; the vote of an executor raises. *)
Lemma unauthorized_vote_blocks_witness :
  (is_ok (cast_demo "observer" "v2").1 = false) ∧
  ∃ r s', GovernanceService.cast_vote (demo_vote "v2" "executor") ConsensusPolicy.default
            (GovernancePolicy.Mk "default" "t" "org" "none" [] [] [] false)
            (demo_governed "pending" "observer" "pending") = (Ok r, s') ∧
    ConsensusResult.status r.1.2 ≠ "approved".
Proof.
  split; [vm_compute; reflexivity|].
  destruct (GovernanceService.cast_vote (demo_vote "v2" "executor") ConsensusPolicy.default
            (GovernancePolicy.Mk "default" "t" "org" "none" [] [] [] false)
            (demo_governed "pending" "observer" "pending")) as [[[[v r] u]|e] s'] eqn:E.
  - exists (v, r, u), s'. split; [reflexivity|].
    apply (unauthorized_vote_blocks (demo_vote "v1" "observer") (demo_vote "v2" "executor") v
      (demo_proposal "pending") ConsensusPolicy.default (GovernancePolicy.Mk "default" "t" "org" "none" [] [] [] false)
      (demo_governed "pending" "observer" "pending") s' r u demo_clock
      (demo_proposals _ _ _) (demo_votes _ _ _) (demo_proposal_stored _ _ _) (demo_vote_stored _ _ _)).
    + apply (bool_decide_unpack _). vm_compute. exact I.
    + reflexivity.
    + reflexivity.
    + apply demo_vote_ok.
    + reflexivity.
    + discriminate.
    + exact E.
  - exfalso. apply (f_equal (fun p => is_ok p.1)) in E. vm_compute in E. discriminate E.
Defined.

Lemma late_approval_reopens_witness :
  ∃ d s' u, GovernanceService.resolve_governance_approval (fun _ => Ok tt) "a1" "approved" "late"
              (demo_governed "executed" "executor" "pending") = (Ok d, s') ∧
    stored u (db s') ∧ Proposal.status u = "approved".
Proof.
  destruct (late_approval_reopens (fun _ => Ok tt) (demo_approval "pending") (demo_proposal "executed") "late"
    (demo_governed "executed" "executor" "pending") demo_clock (demo_approval_stored _ _ _) (demo_proposal_stored _ _ _))
    as (d & s' & u & Hrun & Hu & _ & Hst & _).
  - reflexivity.
  - reflexivity.
  - reflexivity.
  - vm_compute. discriminate.
  - reflexivity.
  - exists d, s', u. split; [exact Hrun|]. split; [exact Hu|exact Hst].
Defined.

End DemoWitnesses.
