(* ===== verification/Rbac.v ===== *)
(** Role-based access control (agentfabric/phase4/rbac.py): the permissions of
    the roles, as the class body builds them, and the service that assigns roles
    and checks permissions. *)

From stdpp Require Import base option list strings gmap sets.
From Stdlib Require Import ZArith Lia.
From S2P Require Import Prelude PyVal.

(** A Python set of permissions. *)
Abbreviation permissions := (gset string).

Definition RENOVATION_READ_SCOPES : permissions :=
  list_to_set ["renovation.estimate.read"; "renovation.proposal.read";
    "renovation.jobs.read"; "renovation.change_orders.read"; "renovation.scheduling.read";
    "renovation.crews.read"; "renovation.profitability.read"; "renovation.invoicing.read";
    "renovation.cashflow.read"; "renovation.finance.read"; "renovation.leads.read";
    "renovation.crm.read"; "renovation.portal.read"; "renovation.mvp.read";
    "renovation.operator.read"].

Definition RENOVATION_WRITE_SCOPES : permissions :=
  list_to_set ["renovation.estimate.write"; "renovation.proposal.write";
    "renovation.jobs.write"; "renovation.documentation.write";
    "renovation.change_orders.write"; "renovation.change_orders.approve";
    "renovation.scheduling.write"; "renovation.crews.write"; "renovation.deliveries.write";
    "renovation.finance.write"; "renovation.invoicing.write"; "renovation.leads.write";
    "renovation.crm.write"; "renovation.communications.write"; "renovation.mvp.run";
    "renovation.operator.write"].

Definition role_admin : permissions :=
  RENOVATION_READ_SCOPES ∪ RENOVATION_WRITE_SCOPES ∪
  list_to_set ["tenant.manage"; "tenant.settings.manage"; "team.manage"; "members.manage";
    "quotas.read"; "quotas.manage"; "usage.read"; "registry.publish"; "registry.install";
    "registry.read"; "registry.read_private"; "marketplace.publish"; "marketplace.install";
    "marketplace.read"; "marketplace.review"; "billing.read"; "billing.write";
    "billing.manage"; "agent.create"; "agent.execute"; "runtime.run"; "mesh.send";
    "mesh.broadcast"; "workflow.start"; "workflow.read"; "workflow.recover"; "agents.read";
    "reputation.read"; "events.read"; "memory.read"; "memory.write"; "memory.delete";
    "persistence.read"; "audit.read"; "audit.write"; "audit.export"; "rbac.assign_role";
    "ops.backup.read"; "ops.backup.write"; "metrics.read"; "governance.manage";
    "governance.read"; "governance.propose"; "governance.vote"; "governance.execute";
    "governance.approve"; "runtime.jobs.read"; "runtime.jobs.manage";
    "runtime.workers.manage"; "runtime.schedules.manage"; "federation.manage";
    "federation.read"; "federation.message"; "federation.delegate"; "connectors.read";
    "connectors.manage"; "tools.read"; "tools.manage"; "tools.execute"; "evaluations.read";
    "evaluations.manage"; "feedback.read"; "feedback.write"; "economics.read";
    "economics.manage"; "observability:read"; "observability:write"; "health:read";
    "drift:read"; "anomaly:read"; "recommendations:read"; "recommendations:approve";
    "connectors:read"; "connectors:write"; "connectors:execute"; "connectors:admin";
    "credentials:read"; "credentials:write"; "credentials:rotate"; "gmail.read";
    "gmail.send"; "calendar.read"; "calendar.write"; "github.read"; "github.write";
    "jira.read"; "jira.write"; "slack.read"; "slack.write"; "servicenow.read";
    "servicenow.write"; "s3.read"; "s3.write"; "custom_http.execute"; "teams.read";
    "teams.write"; "salesforce.read"; "salesforce.write"; "sharepoint.read";
    "sharepoint.write"].

Definition role_developer : permissions :=
  RENOVATION_READ_SCOPES ∪ RENOVATION_WRITE_SCOPES ∪
  list_to_set ["agents.read"; "agent.create"; "agent.execute"; "workflow.start";
    "workflow.read"; "workflow.recover"; "memory.read"; "memory.write"; "events.read";
    "usage.read"; "registry.publish"; "registry.install"; "registry.read";
    "registry.read_private"; "marketplace.publish"; "marketplace.install";
    "marketplace.read"; "marketplace.review"; "runtime.run"; "mesh.send"; "mesh.broadcast";
    "workflow.start"; "workflow.read"; "workflow.recover"; "agents.read"; "reputation.read";
    "events.read"; "memory.read"; "memory.write"; "memory.delete"; "persistence.read";
    "audit.read"; "governance.read"; "governance.propose"; "governance.vote";
    "runtime.jobs.read"; "runtime.jobs.manage"; "runtime.schedules.manage";
    "federation.read"; "federation.message"; "federation.delegate"; "connectors.read";
    "connectors.manage"; "tools.read"; "tools.manage"; "tools.execute"; "evaluations.read";
    "evaluations.manage"; "feedback.read"; "feedback.write"; "economics.read";
    "observability:read"; "observability:write"; "health:read"; "drift:read"; "anomaly:read";
    "recommendations:read"; "connectors:read"; "connectors:write"; "connectors:execute";
    "credentials:read"; "credentials:write"; "credentials:rotate"; "gmail.read";
    "gmail.send"; "calendar.read"; "calendar.write"; "github.read"; "github.write";
    "jira.read"; "jira.write"; "slack.read"; "slack.write"; "servicenow.read";
    "servicenow.write"; "s3.read"; "s3.write"; "custom_http.execute"; "teams.read";
    "teams.write"; "salesforce.read"; "salesforce.write"; "sharepoint.read";
    "sharepoint.write"].

Definition role_viewer : permissions :=
  RENOVATION_READ_SCOPES ∪
  list_to_set ["agents.read"; "workflow.read"; "memory.read"; "events.read";
    "reputation.read"; "usage.read"; "registry.install"; "marketplace.install";
    "marketplace.read"; "billing.read"; "audit.read"; "governance.read"; "runtime.jobs.read";
    "federation.read"; "connectors.read"; "tools.read"; "evaluations.read"; "feedback.read";
    "economics.read"; "observability:read"; "health:read"; "drift:read"; "anomaly:read";
    "recommendations:read"; "connectors:read"; "credentials:read"].

Definition role_owner : permissions :=
  RENOVATION_READ_SCOPES ∪ RENOVATION_WRITE_SCOPES ∪
  list_to_set ["tenant.manage"; "tenant.settings.manage"; "team.manage"; "members.manage";
    "quotas.read"; "quotas.manage"; "usage.read"; "auth.admin"; "auth.token.issue";
    "billing.read"; "billing.write"; "audit.read"; "audit.export"; "events.read";
    "metrics.read"; "persistence.read"].

Definition role_operator : permissions :=
  RENOVATION_READ_SCOPES ∪ RENOVATION_WRITE_SCOPES ∪
  list_to_set ["agent.execute"; "runtime.run"; "mesh.send"; "mesh.broadcast";
    "workflow.start"; "workflow.read"; "workflow.recover"; "events.read"; "memory.read";
    "usage.read"; "governance.read"; "governance.propose"; "governance.execute";
    "runtime.jobs.read"; "runtime.jobs.manage"; "runtime.workers.manage";
    "runtime.schedules.manage"; "federation.read"; "federation.message";
    "federation.delegate"; "connectors.read"; "connectors.manage"; "tools.read";
    "tools.manage"; "tools.execute"; "evaluations.read"; "evaluations.manage";
    "feedback.read"; "feedback.write"; "economics.read"; "economics.manage";
    "observability:read"; "observability:write"; "health:read"; "drift:read"; "anomaly:read";
    "recommendations:read"; "recommendations:approve"; "connectors:read"; "connectors:write";
    "connectors:execute"; "credentials:read"; "gmail.read"; "gmail.send"; "calendar.read";
    "calendar.write"; "github.read"; "github.write"; "jira.read"; "jira.write"; "slack.read";
    "slack.write"; "servicenow.read"; "servicenow.write"; "s3.read"; "s3.write";
    "custom_http.execute"; "teams.read"; "teams.write"; "salesforce.read";
    "salesforce.write"; "sharepoint.read"; "sharepoint.write"].

Definition role_reviewer : permissions :=
  list_to_set ["agents.read"; "workflow.read"; "events.read"; "reputation.read";
    "reviews.write"; "governance.read"; "governance.vote"; "governance.approve";
    "runtime.jobs.read"; "federation.read"; "connectors.read"; "tools.read";
    "evaluations.read"; "feedback.read"; "feedback.write"; "economics.read";
    "observability:read"; "health:read"; "drift:read"; "anomaly:read";
    "recommendations:read"; "recommendations:approve"; "connectors:read"; "credentials:read"].

Definition role_billing_admin : permissions :=
  list_to_set ["billing.read"; "billing.write"; "billing.manage"; "usage.read"; "quotas.read"].

Definition role_auditor : permissions :=
  list_to_set ["agents.read"; "workflow.read"; "events.read"; "audit.read"; "audit.export";
    "usage.read"; "reputation.read"; "governance.read"; "runtime.jobs.read";
    "federation.read"; "connectors.read"; "tools.read"; "evaluations.read"; "feedback.read";
    "economics.read"; "observability:read"; "health:read"; "drift:read"; "anomaly:read";
    "recommendations:read"; "connectors:read"; "credentials:read"].

Definition role_service_account : permissions :=
  list_to_set ["agent.execute"; "runtime.run"; "mesh.send"; "workflow.start";
    "workflow.read"; "memory.read"; "memory.write"; "events.read"; "governance.read";
    "governance.propose"; "runtime.jobs.read"; "runtime.jobs.manage";
    "runtime.workers.manage"; "federation.read"; "federation.message"; "federation.delegate";
    "connectors.read"; "connectors.manage"; "tools.read"; "tools.execute";
    "evaluations.read"; "feedback.read"; "feedback.write"; "economics.read";
    "observability:read"; "observability:write"; "health:read"; "drift:read"; "anomaly:read";
    "recommendations:read"; "connectors:read"; "connectors:execute"; "credentials:read";
    "gmail.read"; "calendar.read"; "github.read"; "jira.read"; "slack.read";
    "servicenow.read"; "s3.read"; "custom_http.execute"; "teams.read"; "salesforce.read";
    "sharepoint.read"].

Definition renovation_read : permissions :=
  list_to_set ["renovation.estimate.read"; "renovation.proposal.read"].

Definition renovation_write : permissions :=
  list_to_set ["renovation.estimate.write"; "renovation.proposal.write"].

Definition renovation_operations_read : permissions :=
  list_to_set ["renovation.jobs.read"; "renovation.documentation.read";
    "renovation.change_orders.read"].

Definition renovation_operations_write : permissions :=
  list_to_set ["renovation.jobs.write"; "renovation.documentation.write";
    "renovation.change_orders.write"].

Definition renovation_scheduling_read : permissions :=
  list_to_set ["renovation.scheduling.read"; "renovation.crews.read";
    "renovation.deliveries.read"].

Definition renovation_scheduling_write : permissions :=
  list_to_set ["renovation.scheduling.write"; "renovation.crews.write";
    "renovation.deliveries.write"].

Definition renovation_finance_read : permissions :=
  list_to_set ["renovation.finance.read"; "renovation.profitability.read";
    "renovation.invoicing.read"; "renovation.cashflow.read"].

Definition renovation_finance_write : permissions :=
  list_to_set ["renovation.finance.write"; "renovation.invoicing.write"].

Definition renovation_crm_read : permissions :=
  list_to_set ["renovation.crm.read"; "renovation.leads.read"; "renovation.portal.read";
    "renovation.communications.read"].

Definition renovation_crm_write : permissions :=
  list_to_set ["renovation.crm.write"; "renovation.leads.write"; "renovation.portal.write";
    "renovation.communications.write"].

Definition renovation_approve : permissions :=
  list_to_set ["renovation.change_orders.approve"].

(** [ROLE_PERMISSIONS] as the dictionary literal gives it. *)
Definition role_literals : dict permissions :=
  [("admin", role_admin);
   ("developer", role_developer);
   ("viewer", role_viewer);
   ("owner", role_owner);
   ("operator", role_operator);
   ("reviewer", role_reviewer);
   ("billing_admin", role_billing_admin);
   ("auditor", role_auditor);
   ("service_account", role_service_account)].

(** The [update] and [add] calls of the class body, in order. *)
Definition factory_updates : list (string * permissions) :=
  [("admin", list_to_set ["factory:read"; "factory:write"; "factory:execute"; "factory:admin"; "factory:quality"]);
   ("developer", list_to_set ["factory:read"; "factory:write"; "factory:execute"; "factory:quality"]);
   ("operator", list_to_set ["factory:read"; "factory:execute"; "factory:quality"]);
   ("viewer", {[ "factory:read" ]});
   ("reviewer", list_to_set ["factory:read"; "factory:quality"]);
   ("auditor", list_to_set ["factory:read"; "factory:quality"]);
   ("service_account", list_to_set ["factory:read"; "factory:execute"])].

Definition renovation_updates : list (string * permissions) :=
  [("admin",
     renovation_read ∪ renovation_write ∪ renovation_operations_read ∪
     renovation_operations_write ∪ renovation_scheduling_read ∪
     renovation_scheduling_write ∪ renovation_finance_read ∪
     renovation_finance_write ∪ renovation_crm_read ∪ renovation_crm_write ∪
     renovation_approve);
   ("developer",
     renovation_read ∪ renovation_write ∪ renovation_operations_read ∪
     renovation_operations_write ∪ renovation_scheduling_read ∪
     renovation_scheduling_write ∪ renovation_finance_read ∪
     renovation_finance_write ∪ renovation_crm_read ∪ renovation_crm_write);
   ("operator",
     renovation_read ∪ renovation_write ∪ renovation_operations_read ∪
     renovation_operations_write ∪ renovation_scheduling_read ∪
     renovation_scheduling_write ∪ renovation_finance_read ∪
     renovation_finance_write ∪ renovation_crm_read ∪ renovation_crm_write ∪
     renovation_approve);
   ("reviewer",
     renovation_read ∪ renovation_operations_read ∪ renovation_scheduling_read ∪
     renovation_finance_read ∪ renovation_crm_read ∪ renovation_approve);
   ("auditor",
     renovation_read ∪ renovation_operations_read ∪ renovation_scheduling_read ∪
     renovation_finance_read ∪ renovation_crm_read);
   ("viewer",
     renovation_read ∪ renovation_operations_read ∪ renovation_scheduling_read ∪
     renovation_finance_read ∪ renovation_crm_read);
   ("service_account",
     renovation_read ∪ renovation_write ∪ renovation_operations_read ∪
     renovation_operations_write ∪ renovation_scheduling_read ∪
     renovation_scheduling_write ∪ renovation_finance_read ∪
     renovation_finance_write ∪ renovation_crm_read ∪ renovation_crm_write)].

(** [ROLE_PERMISSIONS[role].update(more)] *)
Definition update_role (table : dict permissions) (u : string * permissions) : dict permissions :=
  match dget table u.1 with Some ps => dset table u.1 (ps ∪ u.2) | None => table end.

Definition updated_roles : dict permissions :=
  foldl update_role role_literals (factory_updates ++ renovation_updates).

(** The owner has what any role has. *)
Definition ROLE_PERMISSIONS : dict permissions :=
  dset updated_roles "owner"
    (⋃ updated_roles.*2 ∪
     list_to_set ["auth.admin"; "members.manage"; "tenant.manage"; "tenant.settings.manage"; "quotas.manage"]).

(** The permissions of a role; none if there is no such role. *)
Definition permissions_of (role : string) : permissions := default ∅ (dget ROLE_PERMISSIONS role).

(** * The service *)

Module RbacService.

(** [_roles_by_principal], a defaultdict: reading a key adds it. *)
Abbreviation t := (gmap string (gset string)).

Definition roles (principal_id : string) (s : t) : gset string := default ∅ (s !! principal_id).

Definition assign_role (principal_id role : string) : M t unit :=
  if dmem ROLE_PERMISSIONS role
  then modify (fun s => <[principal_id := {[role]} ∪ roles principal_id s]> s)
  else raise AuthorizationError ("unknown role: " +:+ role).

Definition check (principal_id permission : string) : M t unit :=
  let* s := get_state in
  do* modify (fun s => <[principal_id := roles principal_id s]> s);
  if bool_decide (set_Exists (fun role => permission ∈ permissions_of role) (roles principal_id s))
  then ret tt
  else raise AuthorizationError ("principal " +:+ principal_id +:+ " lacks " +:+ permission).

(** ** Runs of the service *)

Inductive op := Assign (principal role : string) | Check (principal permission : string).

Definition step (s : t) (o : op) : t :=
  match o with
  | Assign p r => after (assign_role p r) s
  | Check p perm => after (check p perm) s
  end.

Definition run (ops : list op) : t := foldl step ∅ ops.

(** What the service promises: a principal has the known roles it was given. *)
Definition granted (ops : list op) (p r : string) : Prop :=
  Assign p r ∈ ops ∧ dmem ROLE_PERMISSIONS r = true.

Lemma roles_insert p p' x s :
  roles p (<[p' := x]> s) = if decide (p' = p) then x else roles p s.
Proof.
  unfold roles. case_decide as E; [subst; by rewrite lookup_insert_eq|by rewrite lookup_insert_ne].
Qed.

(** The proofs about the service do not look into the table. *)
#[local] Opaque ROLE_PERMISSIONS.

Lemma roles_step s o p r :
  r ∈ roles p (step s o) ↔ r ∈ roles p s ∨ (o = Assign p r ∧ dmem ROLE_PERMISSIONS r = true).
Proof.
  destruct o as [p' r'|p' perm]; cbn [step].
  - unfold assign_role, after. destruct (dmem ROLE_PERMISSIONS r') eqn:Er; cbn [modify raise snd].
    + rewrite roles_insert. case_decide as E.
      * subst. rewrite elem_of_union, elem_of_singleton.
        split; [intros [->|?]; auto|]. intros [?|[[= ->] _]]; auto.
      * split; [by left|]. intros [Hr|[[= -> ->] _]]; [exact Hr|by destruct (E eq_refl)].
    + split; [by left|]. intros [Hr|[[= -> ->] Hd]]; [exact Hr|rewrite Hd in Er; discriminate Er].
  - unfold check, after, bind, get_state, modify.
    assert (Hs : roles p (<[p' := roles p' s]> s) = roles p s).
    { rewrite roles_insert. case_decide; by subst. }
    case_bool_decide; cbn [ret raise snd]; rewrite Hs;
      (split; [by left|intros [Hr|[[=] _]]; exact Hr]).
Qed.

Lemma roles_run ops p r : r ∈ roles p (run ops) ↔ granted ops p r.
Proof.
  unfold run, granted. induction ops as [|o ops IH] using rev_ind.
  - cbn [foldl]. unfold roles. rewrite lookup_empty. cbn [default].
    split; [intros []%elem_of_empty|intros [[]%elem_of_nil _]].
  - rewrite foldl_app. cbn [foldl]. rewrite roles_step, IH, elem_of_app, list_elem_of_singleton.
    split.
    + intros [[??]|[-> ?]]; auto.
    + intros [[?|<-] ?]; auto.
Qed.

End RbacService.

(** * Properties *)

(** C40: a permission check passes exactly when the principal was given a role
    that has the permission. After any sequence of assignments and checks, in
    which the assignment of an unknown role is refused, a check returns when one
    of the known roles ever assigned to the principal has the permission in the
    table of roles, and otherwise raises an authorization error; either way every
    principal keeps exactly the roles it was given. *)
Theorem rbac_check_exact (ops : list RbacService.op) (principal permission : string) :
  let allowed := ∃ role, RbacService.granted ops principal role ∧ permission ∈ permissions_of role in
  let '(r, s') := RbacService.check principal permission (RbacService.run ops) in
  ((r = Ok tt ∧ allowed) ∨
   (r = Err (Exn AuthorizationError ("principal " +:+ principal +:+ " lacks " +:+ permission)) ∧ ¬ allowed)) ∧
  ∀ p role, role ∈ RbacService.roles p s' ↔ RbacService.granted ops p role.
Proof.
  intros allowed. unfold RbacService.check, bind, get_state, modify.
  assert (Hkeep : ∀ p role, role ∈ RbacService.roles p
      (<[principal := RbacService.roles principal (RbacService.run ops)]> (RbacService.run ops)) ↔
    RbacService.granted ops p role).
  { intros p role. rewrite RbacService.roles_insert, <- RbacService.roles_run. case_decide; by subst. }
  assert (Hall : set_Exists (fun role => permission ∈ permissions_of role)
    (RbacService.roles principal (RbacService.run ops)) ↔ allowed).
  { split; intros (role & Hr & Hp); exists role; (split; [by apply RbacService.roles_run|exact Hp]). }
  case_bool_decide as Hc; cbn [ret raise]; (split; [|exact Hkeep]); rewrite Hall in Hc; [by left|by right].
Qed.

#[local] Transparent ROLE_PERMISSIONS.

(** The roles that have a permission. *)
Definition roles_with (permission : string) : list string :=
  (base.filter (fun p : string * permissions => permission ∈ p.2) ROLE_PERMISSIONS).*1.

(** A permission to change something: its last word says so. *)
Definition changes (permission : string) : bool :=
  existsb (fun w => String.eqb w (String.substring (String.length permission - String.length w) (String.length w) permission))
    ["write"; "manage"; "execute"; "delete"; "publish"; "install"; "send"; "approve"; "admin"; "rotate"].

(** What a role may change. *)
Definition changes_of (role : string) : list string :=
  base.filter (fun p => changes p = true) (elements (permissions_of role)).

(** The table of roles keeps duties apart. The owner has every permission
    of every role; only the owner issues tokens and only the owner and the
    administrator assign roles; of the other roles none may both approve and
    execute a governance action; the auditor may change nothing, and the viewer
    nothing but install packages. *)
Theorem rbac_separates_duties :
  Forall (fun p => p.2 ⊆ permissions_of "owner") ROLE_PERMISSIONS ∧
  roles_with "auth.token.issue" = ["owner"] ∧
  roles_with "rbac.assign_role" = ["admin"; "owner"] ∧
  Forall (fun p => p.1 ∈ ["admin"; "owner"] ∨
            ¬ ("governance.approve" ∈ p.2 ∧ "governance.execute" ∈ p.2)) ROLE_PERMISSIONS ∧
  changes_of "auditor" = [] ∧
  list_to_set (C := gset string) (changes_of "viewer") = {["registry.install"; "marketplace.install"]}.
Proof.
  split; [apply (bool_decide_unpack _); vm_compute; exact I|].
  split; [vm_compute; reflexivity|]. split; [vm_compute; reflexivity|].
  split; [apply (bool_decide_unpack _); vm_compute; exact I|].
  split; [vm_compute; reflexivity|]. apply (bool_decide_unpack _). vm_compute. exact I.
Qed.
