(* ===== verification/Graph.v ===== *)
(** Task graphs: the dependency graph and its batches
    (agentfabric/collaboration/dependency_graph.py and task_graph.py) and the
    topological sort of the workflow engine (agentfabric/phase3/workflow.py),
    which are two ways to walk a graph in Kahn's order. *)

From stdpp Require Import base option list strings gmap sets.
From Stdlib Require Import ZArith Lia.
From S2P Require Import Prelude PyVal Floats Store.

Local Open Scope Z_scope.

(** * Nodes *)

(** task_graph.py *)
Module TaskNode.
Record t := Mk {
  node_id : string;
  agent_id : string;
  capability : option string;
  dependencies : list string;
  max_retries : Z;
  requires_human_approval : bool;
  payload : doc;
}.
End TaskNode.

Abbreviation TaskNode := TaskNode.t.

Module TaskGraph.
Record t := Mk { graph_id : string; nodes : list TaskNode }.

(** [a or b] of values that may be missing. *)
Definition first_true (a b : option val) : option val :=
  match a with Some v => if truthy v then a else b | None => b end.

Definition node_of_dict (item : doc) : res TaskNode :=
  let? node_id := str_field item "node_id" in
  let? agent := match first_true (dget item "agent_id") (dget item "agent_name") with
                | Some v => if truthy v then Ok v else dindex item "node_id"
                | None => dindex item "node_id"
                end in
  let? dependencies := strs_field_or item "dependencies" [] in
  let? max_retries := int_field_or item "max_retries" 0 in
  let? payload := dict_field_or_empty item "payload" in
  Ok (TaskNode.Mk node_id (py_str agent) (opt_str_field item "capability") dependencies max_retries
        (bool_field_or item "requires_human_approval" false) payload).

Definition from_dicts (graph_id : string) (nodes : list doc) : res t :=
  let? nodes := res_map node_of_dict nodes in Ok (Mk graph_id nodes).
End TaskGraph.

(** phase3/workflow.py *)
Module WorkflowNode.
Record t := Mk {
  node_id : string;
  agent_name : string;
  dependencies : list string;
  max_retries : Z;
  timeout_seconds : float;
}.
End WorkflowNode.

Abbreviation WorkflowNode := WorkflowNode.t.

(** What both walks ask of a node. *)
Class GraphNode (A : Type) := {
  node_id : A → string;
  dependencies : A → list string;
}.

#[export] Instance task_node : GraphNode TaskNode :=
  { node_id := TaskNode.node_id; dependencies := TaskNode.dependencies }.
#[export] Instance workflow_node : GraphNode WorkflowNode :=
  { node_id := WorkflowNode.node_id; dependencies := WorkflowNode.dependencies }.

(** * Graphs *)

Section Graph.
Context `{GraphNode A}.

(** The children of each node, as a defaultdict, and the indegrees, in the
    order of the nodes. *)
Record graph := Graph {
  children : dict (list string);
  indegree : dict Z;
}.

Definition children_of (g : graph) (id : string) : list string :=
  match dget (children g) id with Some l => l | None => [] end.

Definition degree (ind : dict Z) (id : string) : Z :=
  match dget ind id with Some n => n | None => 0 end.

(** The inner loop over the dependencies of a node. *)
Fixpoint add_deps (ids : list string) (id : string) (deps : list string) (g : graph) : res graph :=
  match deps with
  | [] => Ok g
  | dep :: deps' =>
      if negb (bool_decide (dep ∈ ids))
      then Err (Exn ValidationError ("unknown dependency: " +:+ dep))
      else add_deps ids id deps'
             (Graph (dset (children g) dep (children_of g dep ++ [id]))
                    (dset (indegree g) id (degree (indegree g) id + 1)))
  end.

Fixpoint add_nodes (ids : list string) (nodes : list A) (g : graph) : res graph :=
  match nodes with
  | [] => Ok g
  | n :: nodes' => let? g := add_deps ids (node_id n) (dependencies n) g in add_nodes ids nodes' g
  end.

(** [duplicate] is the message the caller has for repeated ids. *)
Definition build (duplicate : string) (nodes : list A) : res graph :=
  let ids := node_id <$> nodes in
  if negb (bool_decide (NoDup ids)) then Err (Exn ValidationError duplicate)
  else add_nodes ids nodes (Graph [] ((fun id => (id, 0)) <$> ids)).

(** [indegree[child] -= 1], and the child joins the queue at zero. *)
Definition relax (st : dict Z * list string) (child : string) : dict Z * list string :=
  let '(ind, queue) := st in
  let ind := dset ind child (degree ind child - 1) in
  (ind, if degree ind child =? 0 then queue ++ [child] else queue).

Definition visit (g : graph) (st : dict Z * list string) (id : string) : dict Z * list string :=
  foldl relax st (children_of g id).

Definition roots (ind : dict Z) : list string := (base.filter (fun p : string * Z => p.2 = 0) ind).*1.

(** The loop of the sort: one node at a time. *)
Fixpoint sort_loop (fuel : nat) (g : graph) (ind : dict Z) (queue ordered : list string) : list string :=
  match fuel, queue with
  | Datatypes.S fuel', id :: queue' =>
      let '(ind, queue) := visit g (ind, queue') id in sort_loop fuel' g ind queue (ordered ++ [id])
  | _, _ => ordered
  end.

(** The loop of the batches: all the nodes of the queue at once. *)
Fixpoint batch_loop (fuel : nat) (g : graph) (ind : dict Z) (queue : list string) (batches : list (list string))
    : list (list string) :=
  match fuel, queue with
  | Datatypes.S fuel', _ :: _ =>
      let '(ind, next) := foldl (visit g) (ind, []) queue in
      batch_loop fuel' g ind next (batches ++ [queue])
  | _, _ => batches
  end.

(** [[by_id[node_id] for node_id in ids]] *)
Definition node_of (nodes : list A) (id : string) : res A :=
  match base.filter (fun n => node_id n = id) nodes with
  | n :: _ => Ok n
  | [] => Err (Exn KeyError (repr_str id))
  end.

(** phase3: a walk of as many steps as there are nodes visits every node it can
    ([sort_loop_done]). *)
Definition _topological_sort (nodes : list A) : res (list A) :=
  let? g := build "workflow has duplicate node_id values" nodes in
  let ordered := sort_loop (length nodes) g (indegree g) (roots (indegree g)) [] in
  if negb (length ordered =? length nodes)%nat then Err (Exn ValidationError "workflow graph contains cycles")
  else res_map (node_of nodes) ordered.

(** collaboration: [DependencyGraph(task_graph).topological_batches()] *)
Definition topological_batches (nodes : list A) : res (list (list A)) :=
  let? g := build "task graph contains duplicate node_id values" nodes in
  let batches := batch_loop (length nodes) g (indegree g) (roots (indegree g)) [] in
  if negb (length (concat batches) =? length nodes)%nat then Err (Exn ValidationError "task graph contains cycles")
  else res_map (res_map (node_of nodes)) batches.

End Graph.

(** * Edges *)

(** An edge goes from a dependency to the node that has it. *)
Section Edges.
Implicit Types (E : list (string * string)) (ids done l : list string).

(** How often [c] waits for a node outside [done]. *)
Definition waiting E done c : nat := length (base.filter (fun e => e.2 = c ∧ e.1 ∉ done) E).

(** A list of nodes in which every node comes after what it waits for. *)
Definition ordered E l : Prop :=
  ∀ l1 x l2, l = l1 ++ x :: l2 → ∀ d, (d, x) ∈ E → d ∈ l1.

(** How often [c] occurs in [l]. *)
Definition occurs l c : nat := length (base.filter (fun x => x = c) l).

Definition edge_children E d : list string := (base.filter (fun e : string * string => e.1 = d) E).*2.

Lemma ordered_snoc E l x :
  ordered E l → (∀ d, (d, x) ∈ E → d ∈ l) → ordered E (l ++ [x]).
Proof.
  intros Hl Hx l1 y l2 Heq d Hd. destruct l2 as [|z l2 _] using rev_ind.
  - apply app_inj_tail in Heq as [-> ->]. by apply Hx.
  - rewrite app_comm_cons, app_assoc in Heq. apply app_inj_tail in Heq as [-> _]. by eapply Hl.
Qed.

Lemma ordered_app E l l' : ordered E (l ++ l') → ordered E l.
Proof. intros Hl l1 x l2 -> d Hd. eapply (Hl l1 x (l2 ++ l')); [|done]. by rewrite <- app_assoc. Qed.

Lemma waiting_0 E done c : waiting E done c = 0%nat ↔ ∀ d, (d, c) ∈ E → d ∈ done.
Proof.
  unfold waiting. rewrite length_zero_iff_nil, filter_nil_iff, Forall_forall. split.
  - intros Hw d Hd. destruct (decide (d ∈ done)) as [?|Hn]; [done|]. by destruct (Hw _ Hd).
  - intros Hw [d c'] Hd [Hc Hn]. cbn in *. subst. by apply Hn, Hw.
Qed.

Lemma waiting_all E c : waiting E [] c = length (base.filter (fun e : string * string => e.2 = c) E).
Proof.
  unfold waiting. f_equal. apply list_filter_iff. intros [d x]. cbn. split; [tauto|].
  intros ->. split; [done|]. apply not_elem_of_nil.
Qed.

(** A node that is done is waited for no more. *)
Lemma waiting_done E done n c :
  n ∉ done → waiting E done c = (waiting E (done ++ [n]) c + occurs (edge_children E n) c)%nat.
Proof.
  intros Hn. unfold waiting, occurs, edge_children.
  induction E as [|[d x] E IH]; [done|]. rewrite !filter_cons. cbn [fst snd].
  assert (Happ : d ∉ done ++ [n] ↔ d ∉ done ∧ d ≠ n).
  { rewrite not_elem_of_app, list_elem_of_singleton. done. }
  destruct (decide (d = n)) as [->|Hd].
  - destruct (decide (x = c)) as [->|Hx].
    + rewrite decide_True by done. rewrite decide_False by (rewrite Happ; tauto).
      cbn [fmap list_fmap]. rewrite filter_cons. cbn [snd]. rewrite decide_True by done. cbn [length]. rewrite IH. lia.
    + rewrite !decide_False by tauto. cbn [fmap list_fmap]. rewrite filter_cons. cbn [snd]. by rewrite decide_False.
  - destruct (decide (x = c ∧ d ∉ done)) as [[-> Hdn]|Hx].
    + rewrite decide_True by (rewrite Happ; tauto). cbn [length]. rewrite IH. lia.
    + rewrite decide_False by (rewrite Happ; tauto). done.
Qed.

Lemma occurs_cons l x c : occurs (x :: l) c = ((if decide (x = c) then 1 else 0) + occurs l c)%nat.
Proof. unfold occurs. rewrite filter_cons. by case_decide. Qed.

Lemma occurs_pos l x : x ∈ l → (0 < occurs l x)%nat.
Proof.
  intros Hx. unfold occurs. destruct (base.filter _ l) eqn:Ef; [|cbn; lia].
  apply filter_nil_iff in Ef. rewrite Forall_forall in Ef. by destruct (Ef _ Hx).
Qed.

(** An order of all the nodes leaves no node waiting outside it. *)
Lemma ordered_no_waiting E ids done o :
  o ≡ₚ ids → ordered E o → (∀ c, c ∈ ids → c ∉ done → (0 < waiting E done c)%nat) →
  ∀ c, c ∈ ids → c ∈ done.
Proof.
  intros Hp Ho Hw. assert (∀ l, (∃ l', o = l ++ l') → ∀ c, c ∈ l → c ∈ done) as Hall.
  { induction l as [|x l IH] using rev_ind; intros [l' Heq] c; [by intros ?%elem_of_nil|].
    rewrite <- app_assoc in Heq. intros [Hc|Hc%list_elem_of_singleton]%elem_of_app; [eapply IH; eauto|subst c].
    destruct (decide (x ∈ done)) as [?|Hx]; [done|].
    assert (Hxi : x ∈ ids) by (rewrite <- Hp, Heq; set_solver).
    specialize (Hw x Hxi Hx). assert (waiting E done x = 0%nat); [|lia].
    apply waiting_0. intros d Hd. apply IH; [by eexists|]. by eapply Ho. }
  intros c Hc. apply (Hall o); [exists []; by rewrite app_nil_r|]. by rewrite Hp.
Qed.

End Edges.

(** * The walk *)

Section Walk.
Context (g : graph) (E : list (string * string)) (ids : list string).
Hypothesis children_eq : ∀ d, children_of g d = edge_children E d.
Hypothesis edges_in : ∀ d c, (d, c) ∈ E → d ∈ ids ∧ c ∈ ids.
Implicit Types (done q rest : list string) (ind : dict Z).

(** The state of a walk: [done] was visited, [q] waits in the queue, and [rest]
    are the children of the last visited node still to be told. A node is in
    the queue as soon as it waits for nobody. *)
Record walk done rest ind q : Prop := Walk {
  walk_NoDup : NoDup (done ++ q);
  walk_in : ∀ c, c ∈ done ++ q → c ∈ ids;
  walk_degree : ∀ c, c ∈ ids → degree ind c = Z.of_nat (waiting E done c + occurs rest c);
  walk_queue : ∀ c, c ∈ ids → c ∈ done ++ q ↔ degree ind c = 0;
  walk_ordered : ordered E done;
}.

Lemma degree_dset ind k n c : degree (dset ind k n) c = if bool_decide (k = c) then n else degree ind c.
Proof. unfold degree. rewrite dget_dset. by case_bool_decide. Qed.

Lemma relax_walk done c rest ind q :
  c ∈ ids → walk done (c :: rest) ind q →
  walk done rest (relax (ind, q) c).1 (relax (ind, q) c).2.
Proof using. clear children_eq edges_in.
  intros Hc [Hnd Hin Hdeg Hq Hord]. unfold relax. cbn [fst snd].
  pose proof (Hdeg c Hc) as Hdc. rewrite occurs_cons, decide_True in Hdc by done.
  assert (Hnew : ∀ x, x ∈ ids → degree (dset ind c (degree ind c - 1)) x =
    Z.of_nat (waiting E done x + occurs rest x)).
  { intros x Hx. rewrite degree_dset. case_bool_decide as Ex; [subst; lia|].
    rewrite Hdeg, occurs_cons, decide_False by done. done. }
  assert (Hcq : c ∉ done ++ q) by (rewrite (Hq c Hc); lia).
  destruct (Z.eqb_spec (degree (dset ind c (degree ind c - 1)) c) 0) as [H0|H0].
  - split; [| |done| |done]; rewrite app_assoc.
    + apply NoDup_app. split; [done|]. split; [|apply NoDup_singleton].
      intros x Hx ->%list_elem_of_singleton. done.
    + intros x [Hx|Hx%list_elem_of_singleton]%elem_of_app; [by apply Hin|by subst].
    + intros x Hx. rewrite elem_of_app, list_elem_of_singleton, (Hq x Hx), degree_dset.
      rewrite degree_dset, bool_decide_eq_true_2 in H0 by done. case_bool_decide; naive_solver.
  - split; [done|done|done| |done]. intros x Hx. rewrite (Hq x Hx), degree_dset.
    rewrite degree_dset, bool_decide_eq_true_2 in H0 by done. case_bool_decide; [subst; lia|done].
Qed.

Lemma relax_all_walk done rest ind q :
  (∀ c, c ∈ rest → c ∈ ids) → walk done rest ind q →
  walk done [] (foldl relax (ind, q) rest).1 (foldl relax (ind, q) rest).2.
Proof using. clear children_eq edges_in.
  revert ind q. induction rest as [|c rest IH]; intros ind q Hr Hw; [done|].
  cbn [foldl]. pose proof (relax_walk done c rest ind q (Hr c ltac:(by left)) Hw) as Hw'.
  destruct (relax (ind, q) c) as [ind' q']. apply IH; [|done]. intros x Hx. apply Hr. by right.
Qed.

(** A node leaves the queue, and its children are still to be told. *)
Lemma pop_walk done n ind q :
  walk done [] ind (n :: q) → walk (done ++ [n]) (edge_children E n) ind q.
Proof using. clear children_eq edges_in.
  intros [Hnd Hin Hdeg Hq Hord].
  assert (Hn : n ∈ ids) by (apply Hin; set_solver).
  assert (Hnn : n ∉ done). { apply NoDup_app in Hnd as (_ & Hd & _). intros Hx. apply (Hd n Hx). by left. }
  assert (Hw0 : waiting E done n = 0%nat).
  { assert (Hz : degree ind n = 0) by (apply (Hq n Hn); set_solver). rewrite (Hdeg n Hn) in Hz. lia. }
  split.
  - by rewrite <- (app_assoc done [n] q).
  - intros c Hc. apply Hin. by rewrite <- (app_assoc done [n] q) in Hc.
  - intros c Hc. rewrite (Hdeg c Hc), (waiting_done E done n c Hnn). cbn. f_equal. lia.
  - intros c Hc. rewrite <- (Hq c Hc). by rewrite <- (app_assoc done [n] q).
  - apply ordered_snoc; [done|]. by apply waiting_0.
Qed.

Lemma child_in n c : c ∈ edge_children E n → c ∈ ids.
Proof using edges_in. intros ([d x] & -> & [_ Hc]%list_elem_of_filter)%list_elem_of_fmap. by eapply edges_in. Qed.

Lemma visit_walk done n ind q :
  walk done [] ind (n :: q) → walk (done ++ [n]) [] (visit g (ind, q) n).1 (visit g (ind, q) n).2.
Proof.
  intros Hw. unfold visit. rewrite children_eq. apply relax_all_walk; [apply child_in|by apply pop_walk].
Qed.

(** The order of the queue and of the children does not matter. *)
Lemma walk_perm done rest rest' ind q q' :
  rest ≡ₚ rest' → q ≡ₚ q' → walk done rest ind q → walk done rest' ind q'.
Proof.
  intros Hr Hq [Hnd Hin Hdeg Hqueue Hord]. split; [by rewrite <- Hq|intros c; rewrite <- Hq; apply Hin| | |done].
  - intros c Hc. rewrite (Hdeg c Hc). unfold occurs. by rewrite Hr.
  - intros c Hc. rewrite <- (Hqueue c Hc). by rewrite Hq.
Qed.

Lemma relax_app ind a b c : relax (ind, a ++ b) c = ((relax (ind, b) c).1, a ++ (relax (ind, b) c).2).
Proof. unfold relax. cbn. case_match; by rewrite ?app_assoc. Qed.

Lemma visit_app ind a b n : visit g (ind, a ++ b) n = ((visit g (ind, b) n).1, a ++ (visit g (ind, b) n).2).
Proof.
  unfold visit. revert ind b. induction (children_of g n) as [|c l IH]; intros ind b; [done|].
  cbn [foldl]. rewrite relax_app. destruct (relax (ind, b) c) as [ind' b']. apply IH.
Qed.

(** The batch [q] is what the sort visits next. *)
Lemma sort_batch f q ind next acc :
  sort_loop (length q + f) g ind (q ++ next) acc =
  sort_loop f g (foldl (visit g) (ind, next) q).1 (foldl (visit g) (ind, next) q).2 (acc ++ q).
Proof.
  revert ind next acc. induction q as [|n q IH]; intros ind next acc; [by rewrite app_nil_r|].
  cbn [length Nat.add sort_loop app foldl]. rewrite visit_app.
  destruct (visit g (ind, next) n) as [ind' next']. cbn [fst snd]. rewrite IH.
  by rewrite <- app_assoc.
Qed.

Lemma batch_walk done q ind next :
  walk done [] ind (q ++ next) →
  walk (done ++ q) [] (foldl (visit g) (ind, next) q).1 (foldl (visit g) (ind, next) q).2.
Proof.
  revert done ind next. induction q as [|n q IH]; intros done ind next Hw; [by rewrite app_nil_r|].
  cbn [foldl]. apply visit_walk in Hw. rewrite visit_app in Hw. cbn [fst snd] in Hw.
  destruct (visit g (ind, next) n) as [ind' next']. cbn [fst snd] in Hw. apply IH in Hw.
  by rewrite <- app_assoc in Hw.
Qed.

(** The nodes that wait in the queue fit in what is left. *)
Lemma walk_length done ind q : walk done [] ind q → (length q ≤ length ids - length done)%nat.
Proof using. clear children_eq edges_in.
  intros [Hnd Hin _ _ _].
  pose proof (NoDup_submseteq (done ++ q) ids Hnd Hin) as Hs. apply submseteq_length in Hs.
  rewrite length_app in Hs. lia.
Qed.

Lemma sort_loop_nil f ind done : sort_loop f g ind [] done = done.
Proof. by destruct f. Qed.

(** A walk of enough steps ends with an empty queue. *)
Lemma sort_loop_done f ind q done :
  walk done [] ind q → (length ids - length done ≤ f)%nat →
  ∃ ind', walk (sort_loop f g ind q done) [] ind' [].
Proof.
  revert ind q done. induction f as [|f IH]; intros ind q done Hw Hf; pose proof (walk_length _ _ _ Hw) as Hlen.
  - destruct q; [by exists ind|cbn in Hlen; lia].
  - destruct q as [|n q]; [by exists ind|]. cbn [sort_loop]. apply visit_walk in Hw.
    destruct (visit g (ind, q) n) as [ind' q']. apply (IH _ _ _ Hw). rewrite length_app. cbn. lia.
Qed.

(** The batches, one after the other, are the sort. *)
Lemma batch_concat f f' ind q bs :
  walk (concat bs) [] ind q → (length ids - length (concat bs) ≤ f)%nat →
  (length ids - length (concat bs) ≤ f')%nat →
  concat (batch_loop f g ind q bs) = sort_loop f' g ind q (concat bs).
Proof.
  revert f' ind q bs. induction f as [|f IH]; intros f' ind q bs Hw Hf Hf';
    pose proof (walk_length _ _ _ Hw) as Hlen.
  - destruct q; [by rewrite sort_loop_nil|cbn in Hlen; lia].
  - destruct q as [|n q]; [by rewrite sort_loop_nil|]. cbn [batch_loop].
    replace f' with (length (n :: q) + (f' - length (n :: q)))%nat by lia.
    rewrite <- (app_nil_r (n :: q)) at 4. rewrite sort_batch.
    pose proof Hw as Hw'. rewrite <- (app_nil_r (n :: q)) in Hw'. apply batch_walk in Hw'.
    destruct (foldl (visit g) (ind, []) (n :: q)) as [ind' next]. cbn [fst snd] in *.
    assert (Hc : concat (bs ++ [n :: q]) = concat bs ++ n :: q) by (rewrite concat_app; cbn; by rewrite app_nil_r).
    rewrite <- Hc in *. apply IH; [done| |]; rewrite Hc, length_app; cbn [length] in *; lia.
Qed.

(** Every node of a batch waits for nodes of earlier batches only. *)
Definition levels (bs : list (list string)) : Prop :=
  ∀ l1 b l2, bs = l1 ++ b :: l2 → ∀ x, x ∈ b → ∀ d, (d, x) ∈ E → d ∈ concat l1.

Lemma levels_snoc bs b :
  levels bs → (∀ x, x ∈ b → ∀ d, (d, x) ∈ E → d ∈ concat bs) → levels (bs ++ [b]).
Proof.
  intros Hl Hb l1 b' l2 Heq. destruct l2 as [|z l2 _] using rev_ind.
  - by apply app_inj_tail in Heq as [-> ->].
  - rewrite app_comm_cons, app_assoc in Heq. apply app_inj_tail in Heq as [-> _]. by eapply Hl.
Qed.

Lemma batch_levels f ind q bs :
  walk (concat bs) [] ind q → levels bs → levels (batch_loop f g ind q bs).
Proof.
  revert ind q bs. induction f as [|f IH]; intros ind q bs Hw Hl; [done|].
  destruct q as [|n q]; [done|]. cbn [batch_loop].
  assert (Hq : levels (bs ++ [n :: q])).
  { apply levels_snoc; [done|]. intros x Hx d Hd. destruct Hw as [_ Hin Hdeg Hqueue _].
    assert (Hx' : x ∈ ids) by (apply Hin, elem_of_app; by right).
    assert (Hz : degree ind x = 0) by (apply (Hqueue x Hx'), elem_of_app; by right).
    rewrite (Hdeg x Hx') in Hz. assert (Hw0 : waiting E (concat bs) x = 0%nat) by lia.
    by apply (proj1 (waiting_0 _ _ _) Hw0). }
  rewrite <- (app_nil_r (n :: q)) in Hw. apply batch_walk in Hw.
  destruct (foldl (visit g) (ind, []) (n :: q)) as [ind' next]. apply IH; [|done].
  rewrite concat_app. cbn. by rewrite app_nil_r.
Qed.

(** What a finished walk says. *)
Lemma walk_complete l ind :
  NoDup ids → walk l [] ind [] →
  NoDup l ∧ ordered E l ∧ (∀ c, c ∈ l → c ∈ ids) ∧
  (length l = length ids ↔ l ≡ₚ ids) ∧ ((∃ o, o ≡ₚ ids ∧ ordered E o) ↔ l ≡ₚ ids).
Proof using. clear children_eq edges_in.
  intros Hids [Hnd Hin Hdeg Hq Hord]. rewrite app_nil_r in Hnd.
  assert (Hin' : ∀ c, c ∈ l → c ∈ ids) by (intros c Hc; apply Hin; rewrite app_nil_r; done).
  split_and!; try done; split.
  - intros Hlen. apply submseteq_length_Permutation; [by apply NoDup_submseteq|lia].
  - apply Permutation_length.
  - intros (o & Hp & Ho). apply NoDup_Permutation; [done|done|]. intros c. split; [apply Hin'|].
    apply (ordered_no_waiting E ids l o Hp Ho). intros x Hx Hnx.
    pose proof (Hq x Hx) as Hqx. rewrite app_nil_r, (Hdeg x Hx) in Hqx. cbn in Hqx.
    destruct (waiting E l x); [|lia]. exfalso. by apply Hnx, Hqx.
  - intros Hp. by exists l.
Qed.

End Walk.

(** * Graphs of nodes *)

Section Nodes.
Context `{GraphNode A}.
Implicit Types (nodes l : list A) (g : graph) (ids : list string).

Definition edges nodes : list (string * string) :=
  nodes ≫= (fun n => (fun d => (d, node_id n)) <$> dependencies n).

(** Every node comes after the nodes it depends on. *)
Definition dependencies_first l : Prop :=
  ∀ l1 n l2, l = l1 ++ n :: l2 → ∀ d, d ∈ dependencies n → d ∈ node_id <$> l1.

Definition known ids nodes : Prop := ∀ n d, n ∈ nodes → d ∈ dependencies n → d ∈ ids.

Lemma elem_of_edges nodes d c : (d, c) ∈ edges nodes ↔ ∃ n, n ∈ nodes ∧ node_id n = c ∧ d ∈ dependencies n.
Proof.
  unfold edges. rewrite list_elem_of_bind. split.
  - intros (n & (d' & [= -> ->] & Hd)%list_elem_of_fmap & Hn). eauto.
  - intros (n & Hn & <- & Hd). exists n. split; [|done]. by apply (list_elem_of_fmap_2 (fun d => (d, node_id n))).
Qed.

(** The graph of the edges [E]. *)
Definition graph_ok ids (E : list (string * string)) g : Prop :=
  (∀ d, children_of g d = edge_children E d) ∧
  (∀ c, degree (indegree g) c = Z.of_nat (waiting E [] c)) ∧
  (indegree g).*1 = ids.

Lemma add_dep_ok ids E g dep id :
  id ∈ ids → graph_ok ids E g →
  graph_ok ids (E ++ [(dep, id)])
    (Graph (dset (children g) dep (children_of g dep ++ [id]))
           (dset (indegree g) id (degree (indegree g) id + 1))).
Proof.
  intros Hid (Hc & Hd & Hi). split_and!; cbn [indegree].
  - intros d. unfold children_of at 1. cbn [children]. rewrite dget_dset.
    unfold edge_children. rewrite filter_app, fmap_app, filter_cons. cbn [fst].
    case_bool_decide as E1; [rewrite decide_True by done; subst; by rewrite Hc|].
    rewrite decide_False by done. cbn. rewrite app_nil_r. apply Hc.
  - intros c. rewrite degree_dset, waiting_all, filter_app, length_app, filter_cons. cbn [snd].
    case_bool_decide as E1; [rewrite decide_True by done; subst|rewrite decide_False by done];
      rewrite Hd, waiting_all; cbn; lia.
  - rewrite dset_fst, Hi. by rewrite decide_True.
Qed.

Lemma add_deps_spec ids id deps g E :
  id ∈ ids → graph_ok ids E g →
  match add_deps ids id deps g with
  | Ok g' => graph_ok ids (E ++ ((fun d => (d, id)) <$> deps)) g' ∧ Forall (fun d => d ∈ ids) deps
  | Err e => exn_cls e = ValidationError ∧ ¬ Forall (fun d => d ∈ ids) deps
  end.
Proof.
  intros Hid. revert g E. induction deps as [|d deps IH]; intros g E Hg; cbn [add_deps].
  - split; [by rewrite app_nil_r|constructor].
  - case_bool_decide as Hd; cbn [negb].
    + specialize (IH _ _ (add_dep_ok ids E g d id Hid Hg)). case_match; rewrite Forall_cons.
      * rewrite <- app_assoc in IH. tauto.
      * tauto.
    + split; [done|]. by intros [? _]%Forall_cons.
Qed.

Lemma add_nodes_spec ids nodes g E :
  (∀ n, n ∈ nodes → node_id n ∈ ids) → graph_ok ids E g →
  match add_nodes ids nodes g with
  | Ok g' => graph_ok ids (E ++ edges nodes) g' ∧ known ids nodes
  | Err e => exn_cls e = ValidationError ∧ ¬ known ids nodes
  end.
Proof.
  revert g E. induction nodes as [|n nodes IH]; intros g E Hids Hg; cbn [add_nodes].
  - split; [by rewrite app_nil_r|]. by intros n d ?%elem_of_nil.
  - pose proof (add_deps_spec ids (node_id n) (dependencies n) g E (Hids n ltac:(by left)) Hg) as Hn.
    destruct (add_deps ids (node_id n) (dependencies n) g) as [g1|e]; cbn [res_bind].
    + destruct Hn as [Hg1 Hd]. rewrite Forall_forall in Hd.
      specialize (IH g1 _ (fun m Hm => Hids m (proj2 (elem_of_cons _ _ _) (or_intror Hm))) Hg1).
      destruct (add_nodes ids nodes g1) as [g2|e].
      * destruct IH as [Hg2 Hk]. split; [by rewrite <- app_assoc in Hg2|].
        intros m d [->|Hm]%elem_of_cons Hdm; [by apply Hd|by eapply Hk].
      * destruct IH as [He Hk]. split; [done|]. intros Hk'. apply Hk. intros m d Hm. apply Hk'. by right.
    + destruct Hn as [He Hd]. split; [done|]. intros Hk. apply Hd, Forall_forall. intros d Hdd.
      apply (Hk n d); [by left|done].
Qed.

Lemma build_spec duplicate nodes :
  let ids := node_id <$> nodes in
  match build duplicate nodes with
  | Ok g => NoDup ids ∧ known ids nodes ∧ graph_ok ids (edges nodes) g
  | Err e => exn_cls e = ValidationError ∧ ¬ (NoDup ids ∧ known ids nodes)
  end.
Proof.
  intros ids. unfold build. fold ids. case_bool_decide as Hnd; cbn [negb]; [|split; [done|tauto]].
  assert (Hg : graph_ok ids [] (Graph [] ((fun id => (id, 0)) <$> ids))).
  { split_and!; [done| |].
    - intros c. unfold degree. destruct (dget _ c) as [z|] eqn:Ed; [|done].
      apply dget_Some_elem, list_elem_of_fmap in Ed as (id & [= _ ->] & _). done.
    - cbn. rewrite <- list_fmap_compose. apply list_fmap_id. }
  pose proof (add_nodes_spec ids nodes _ [] (fun n Hn => list_elem_of_fmap_2 node_id nodes n Hn) Hg) as Hb.
  destruct (add_nodes _ _ _) as [g|e]; [tauto|]. split; [apply Hb|]. tauto.
Qed.

Lemma elem_of_roots (ind : dict Z) c : dict_ok ind → c ∈ ind.*1 → c ∈ roots ind ↔ degree ind c = 0.
Proof.
  intros Hok Hc. unfold roots, degree. rewrite list_elem_of_fmap. split.
  - intros ([c' z] & -> & [Hz Hin]%list_elem_of_filter). cbn in *. by rewrite (elem_dget _ _ _ Hok Hin).
  - apply list_elem_of_fmap in Hc as ([c' z] & -> & Hin). cbn. rewrite (elem_dget _ _ _ Hok Hin).
    intros ->. exists (c', 0). split; [done|]. by apply list_elem_of_filter.
Qed.

(** The walk of the edges [E] starts at the roots. *)
Lemma roots_walk_of ids E g :
  NoDup ids → graph_ok ids E g → walk E ids [] [] (indegree g) (roots (indegree g)).
Proof.
  intros Hnd (_ & Hd & Hi). assert (Hok : dict_ok (indegree g)) by (unfold dict_ok; by rewrite Hi).
  split; cbn [app].
  - eapply sublist_NoDup; [exact Hok|]. apply sublist_fmap_filter.
  - intros c Hc. rewrite <- Hi. apply list_elem_of_fmap in Hc as (p & -> & [_ Hp]%list_elem_of_filter).
    by apply list_elem_of_fmap_2.
  - intros c _. rewrite Hd. unfold occurs. cbn. f_equal. lia.
  - intros c Hc. apply elem_of_roots; [done|by rewrite Hi].
  - by intros [|? ?] ? ? [=].
Qed.

(** ** From ids back to nodes *)

Lemma node_id_inj nodes m n :
  NoDup (node_id <$> nodes) → m ∈ nodes → n ∈ nodes → node_id m = node_id n → m = n.
Proof.
  induction nodes as [|x nodes IH]; [by intros _ ?%elem_of_nil|]. cbn [fmap list_fmap].
  intros [Hx Hnd]%NoDup_cons [->|Hm]%elem_of_cons [->|Hn]%elem_of_cons E; [done| | |by apply IH].
  - exfalso. apply Hx. rewrite E. by apply (list_elem_of_fmap_2 node_id).
  - exfalso. apply Hx. rewrite <- E. by apply (list_elem_of_fmap_2 node_id).
Qed.

Lemma node_of_ok nodes n : NoDup (node_id <$> nodes) → n ∈ nodes → node_of nodes (node_id n) = Ok n.
Proof.
  intros Hnd Hn. unfold node_of. destruct (base.filter _ nodes) as [|m l] eqn:Ef.
  - apply filter_nil_iff in Ef. rewrite Forall_forall in Ef. by destruct (Ef n Hn).
  - assert (Hm : m ∈ base.filter (fun m => node_id m = node_id n) nodes) by (rewrite Ef; by left).
    apply list_elem_of_filter in Hm as [Hid Hm]. f_equal. by apply (node_id_inj nodes).
Qed.

Lemma nodes_of_ok nodes (l : list string) :
  NoDup (node_id <$> nodes) → (∀ c, c ∈ l → c ∈ node_id <$> nodes) →
  ∃ ns, res_map (node_of nodes) l = Ok ns ∧ node_id <$> ns = l ∧ ∀ n, n ∈ ns → n ∈ nodes.
Proof.
  intros Hnd. induction l as [|c l IH]; intros Hl; [exists []; split_and!; try done; by intros n ?%elem_of_nil|].
  destruct IH as (ns & Hns & Hid & Hin); [intros x Hx; apply Hl; by right|].
  destruct (proj1 (list_elem_of_fmap _ _ _) (Hl c ltac:(by left))) as (n & -> & Hn).
  exists (n :: ns). cbn [res_map]. rewrite (node_of_ok nodes n Hnd Hn). cbn [res_bind]. rewrite Hns. cbn [res_bind].
  split_and!; [done|cbn; by rewrite Hid|]. intros m [->|Hm]%elem_of_cons; [done|by apply Hin].
Qed.

Lemma nodes_perm nodes ns :
  NoDup (node_id <$> nodes) → (∀ n, n ∈ ns → n ∈ nodes) → node_id <$> ns ≡ₚ node_id <$> nodes → ns ≡ₚ nodes.
Proof.
  intros Hnd Hin Hp. apply NoDup_Permutation; [|by eapply NoDup_fmap_1|].
  - eapply NoDup_fmap_1. by rewrite Hp.
  - intros n. split; [apply Hin|]. intros Hn.
    assert (Hid : node_id n ∈ node_id <$> ns) by (rewrite Hp; by apply list_elem_of_fmap_2).
    apply list_elem_of_fmap in Hid as (m & Hid & Hm).
    by rewrite (node_id_inj nodes n m Hnd Hn (Hin m Hm) Hid).
Qed.

Lemma ordered_dependencies nodes ns :
  ns ≡ₚ nodes → NoDup (node_id <$> nodes) → ordered (edges nodes) (node_id <$> ns) ↔ dependencies_first ns.
Proof.
  intros Hp Hnd. split.
  - intros Ho l1 n l2 -> d Hd. apply (Ho (node_id <$> l1) (node_id n) (node_id <$> l2)).
    + by rewrite fmap_app.
    + apply elem_of_edges. exists n. split_and!; [|done|done]. rewrite <- Hp. set_solver.
  - intros Hf l1 c l2 Heq d Hd. apply fmap_app_inv in Heq as (k1 & k2 & -> & Heq & ->).
    symmetry in Heq. apply fmap_cons_inv in Heq as (n & k3 & -> & -> & ->).
    apply elem_of_edges in Hd as (m & Hm & Hid & Hd). apply (Hf k1 n k3 eq_refl).
    rewrite (node_id_inj nodes n m Hnd); [done| |done|done]. rewrite <- Hp. set_solver.
Qed.

End Nodes.

(** * What the walks find *)

Section Results.
Context `{GraphNode A}.
Implicit Types (nodes l : list A).

(** An order of the nodes in which dependencies come first. *)
Definition order_of nodes l : Prop :=
  l ≡ₚ nodes ∧ NoDup (node_id <$> l) ∧ dependencies_first l.

Lemma order_known nodes l : order_of nodes l → NoDup (node_id <$> nodes) ∧ known (node_id <$> nodes) nodes.
Proof.
  intros (Hp & Hnd & Hf). rewrite Hp in Hnd. split; [done|]. intros n d Hn Hd. rewrite <- Hp in Hn.
  apply list_elem_of_split in Hn as (l1 & l2 & ->). rewrite <- Hp.
  specialize (Hf l1 n l2 eq_refl d Hd). rewrite fmap_app. set_solver.
Qed.

Lemma edges_known nodes d c :
  known (node_id <$> nodes) nodes → (d, c) ∈ edges nodes → d ∈ node_id <$> nodes ∧ c ∈ node_id <$> nodes.
Proof.
  intros Hk (n & Hn & <- & Hd)%elem_of_edges. split; [by eapply Hk|]. by apply list_elem_of_fmap_2.
Qed.

(** The visited ids are all the ids exactly when an order exists. *)
Lemma visited_spec nodes (g : graph) (visited : list string) ind :
  NoDup (node_id <$> nodes) → walk (edges nodes) (node_id <$> nodes) visited [] ind [] →
  (length visited = length nodes → ∃ ns, res_map (node_of nodes) visited = Ok ns ∧ order_of nodes ns ∧
     node_id <$> ns = visited) ∧
  (length visited ≠ length nodes → ¬ ∃ o, order_of nodes o).
Proof.
  intros Hnd Hw. destruct (walk_complete _ _ _ _ Hnd Hw) as (Hl & Hord & Hin & Hlen & Hex).
  rewrite length_fmap in Hlen. split.
  - intros Hp%Hlen. destruct (nodes_of_ok nodes visited Hnd Hin) as (ns & Hns & Hid & Hsub).
    exists ns. split; [done|]. split; [|done].
    assert (Hperm : ns ≡ₚ nodes) by (apply nodes_perm; [done|done|by rewrite Hid]).
    split; [done|]. split; [by rewrite Hid|]. apply (ordered_dependencies nodes); [done|done|by rewrite Hid].
  - intros Hne (o & Hp & Hndo & Hfirst). apply Hne, Hlen, Hex. exists (node_id <$> o).
    split; [by rewrite Hp|]. by apply ordered_dependencies.
Qed.

(** Both walks, from the same start. *)
Lemma walks_agree nodes (g : graph) :
  NoDup (node_id <$> nodes) → known (node_id <$> nodes) nodes → graph_ok (node_id <$> nodes) (edges nodes) g →
  let visited := sort_loop (length nodes) g (indegree g) (roots (indegree g)) [] in
  let batches := batch_loop (length nodes) g (indegree g) (roots (indegree g)) [] in
  (∃ ind, walk (edges nodes) (node_id <$> nodes) visited [] ind []) ∧
  concat batches = visited ∧ levels (edges nodes) batches.
Proof.
  intros Hnd Hk Hg visited batches. pose proof (roots_walk_of _ _ g Hnd Hg) as Hw.
  assert (Hedges := fun d c => edges_known nodes d c Hk). destruct Hg as (Hch & _ & _).
  assert (Hlen : (length (node_id <$> nodes) - length (@nil string) ≤ length nodes)%nat) by (rewrite length_fmap; cbn; lia).
  split_and!.
  - by apply (sort_loop_done g _ _ Hch Hedges).
  - by apply (batch_concat g _ _ Hch Hedges _ _ _ _ [] Hw).
  - apply (batch_levels g _ _ Hch Hedges _ _ _ [] Hw). by intros [|? ?] ? ? [=].
Qed.

End Results.

(** The batches of a task graph hold its nodes in an order. *)
Lemma batches_order (nodes : list TaskNode) bs :
  topological_batches nodes = Ok bs →
  is_ok (build "task graph contains duplicate node_id values" nodes) = true ∧ order_of nodes (concat bs).
Proof.
  unfold topological_batches. pose proof (build_spec "task graph contains duplicate node_id values" nodes) as Hb.
  destruct (build _ nodes) as [g|]; cbn [res_bind]; [|done]. destruct Hb as (Hnd & Hk & Hg).
  destruct (walks_agree nodes g Hnd Hk Hg) as ([ind Hw] & Hc & _). cbv zeta in *. rewrite Hc.
  destruct (visited_spec nodes g _ ind Hnd Hw) as [Hall _]. case_match eqn:Hlen; [done|]. intros Hbs.
  apply negb_false_iff, Nat.eqb_eq in Hlen. destruct (Hall Hlen) as (ns & Hns & Hord & _). rewrite <- Hc in Hns.
  destruct (res_map_concat (node_of nodes) _ ns Hns) as (bs' & Hbs' & <- & _).
  rewrite Hbs in Hbs'. injection Hbs' as <-. done.
Qed.

(** The sort returns an order of the nodes, or there is none. *)
Lemma topological_sort_spec `{GraphNode A} (nodes : list A) :
  match _topological_sort nodes with
  | Ok l => order_of nodes l
  | Err e => exn_cls e = ValidationError ∧ ¬ ∃ l, order_of nodes l
  end.
Proof.
  unfold _topological_sort. pose proof (build_spec "workflow has duplicate node_id values" nodes) as Hb.
  destruct (build _ nodes) as [g|e]; cbn [res_bind].
  - destruct Hb as (Hnd & Hk & Hg). destruct (walks_agree nodes g Hnd Hk Hg) as ([ind Hw] & _).
    destruct (visited_spec nodes g _ ind Hnd Hw) as [Hall Hnone].
    destruct (Nat.eqb_spec (length (sort_loop (length nodes) g (indegree g) (roots (indegree g)) [])) (length nodes))
      as [Hlen|Hlen]; cbn [negb].
    + by destruct (Hall Hlen) as (ns & -> & ? & _).
    + split; [done|by apply Hnone].
  - destruct Hb as [He Hn]. split; [done|]. intros (l & Hl). by apply Hn, (order_known nodes l).
Qed.

(** * Properties *)

(** C38: the sort of the workflow engine is complete. When it returns, the
    result is the nodes in an order in which every node comes after the nodes
    it depends on; when it raises, it raises a validation error and no such
    order of the nodes exists: an id is repeated, a dependency is unknown, or
    there is a cycle. The walk never takes more steps than there are nodes. *)
Theorem topological_sort_complete (nodes : list WorkflowNode) :
  match _topological_sort nodes with
  | Ok l => order_of nodes l
  | Err e => exn_cls e = ValidationError ∧ ¬ ∃ l, order_of nodes l
  end.
Proof. apply topological_sort_spec. Qed.

(** C39: the batches of a task graph are its topological sort, cut where nodes
    may run at the same time. Laid end to end they are the nodes in the order
    of the sort, and every dependency of a node of a batch is in an earlier
    batch; they exist exactly when the sort does, else both raise a validation
    error. *)
Theorem batches_refine_sort (nodes : list TaskNode) :
  match topological_batches nodes with
  | Ok bs =>
      order_of nodes (concat bs) ∧ _topological_sort nodes = Ok (concat bs) ∧
      ∀ earlier b later n d, bs = earlier ++ b :: later → n ∈ b → d ∈ TaskNode.dependencies n →
        d ∈ TaskNode.node_id <$> concat earlier
  | Err e => exn_cls e = ValidationError ∧ ∃ e', _topological_sort nodes = Err e' ∧ exn_cls e' = ValidationError
  end.
Proof.
  unfold topological_batches, _topological_sort.
  pose proof (build_spec "task graph contains duplicate node_id values" nodes) as Hb.
  assert (Hsame : build "workflow has duplicate node_id values" nodes =
    match build "task graph contains duplicate node_id values" nodes with
    | Ok g => Ok g
    | Err e => if bool_decide (NoDup (node_id <$> nodes)) then Err e
               else Err (Exn ValidationError "workflow has duplicate node_id values") end).
  { unfold build. case_bool_decide; cbn [negb]; [|done]. by destruct (add_nodes _ _ _). }
  rewrite Hsame. destruct (build "task graph contains duplicate node_id values" nodes) as [g|e]; cbn [res_bind].
  2: { destruct Hb as [He _]. split; [done|]. case_bool_decide; eexists; (split; [reflexivity|done]). }
  destruct Hb as (Hnd & Hk & Hg). destruct (walks_agree nodes g Hnd Hk Hg) as ([ind Hw] & Hc & Hlev).
  cbv zeta in *. rewrite Hc. destruct (visited_spec nodes g _ ind Hnd Hw) as [Hall _].
  destruct (Nat.eqb_spec (length (sort_loop (length nodes) g (indegree g) (roots (indegree g)) [])) (length nodes))
    as [Hlen|Hlen]; cbn [negb]; [|split; [done|]; eexists; split; [reflexivity|done]].
  destruct (Hall Hlen) as (ns & Hns & Hord & Hids). rewrite <- Hc in Hns.
  destruct (res_map_concat (node_of nodes) _ ns Hns) as (bs & -> & <- & Hsplit). rewrite <- Hc.
  split_and!; [done|done|]. intros earlier b later n d Heq Hn Hd.
  destruct (Hsplit earlier b later Heq) as (k1 & k & k2 & Hk' & Hk1 & Hkb).
  assert (Hnames : ∀ (l : list string) (r : list TaskNode), (∀ c, c ∈ l → c ∈ node_id <$> nodes) →
    res_map (node_of nodes) l = Ok r → node_id <$> r = l ∧ ∀ m, m ∈ r → m ∈ nodes).
  { intros l r Hl Hr. destruct (nodes_of_ok nodes l Hnd Hl) as (r' & Hr' & Hi & Hm).
    rewrite Hr' in Hr. by injection Hr as <-. }
  assert (Hsub : ∀ c, c ∈ concat k1 ++ k → c ∈ node_id <$> nodes).
  { intros c Hcc. destruct Hw as [_ Hin _ _ _]. apply Hin. rewrite app_nil_r, <- Hc, Hk', concat_app.
    cbn. set_solver. }
  destruct (Hnames _ _ (fun c Hcc => Hsub c (proj2 (elem_of_app _ _ _) (or_introl Hcc))) Hk1) as [Hn1 _].
  destruct (Hnames _ _ (fun c Hcc => Hsub c (proj2 (elem_of_app _ _ _) (or_intror Hcc))) Hkb) as [Hn2 Hm2].
  change (d ∈ node_id <$> concat earlier). rewrite Hn1. apply (Hlev k1 k k2 Hk' (node_id n)).
  - rewrite <- Hn2. by apply list_elem_of_fmap_2.
  - apply elem_of_edges. exists n. split_and!; [by apply Hm2|done|done].
Qed.
