(* ===== verification/ContextStore.v ===== *)
(** The shared context of collaborative workflows
    (agentfabric/collaboration/context_store.py, shared_memory.py): records of
    named fields that only take values without raw sensitive keys, snapshots,
    checkpoints and their restoration. Python copies every value that goes in
    or out, so values are values here. *)

From stdpp Require Import base option list strings gmap sets.
From Stdlib Require Import ZArith Lia.
From S2P Require Import Prelude PyVal Json PyTime Store EventStore Documents.

Local Open Scope Z_scope.

(** * Raw sensitive values *)

Definition sensitive_key (key : string) : bool :=
  let lowered := lower key in
  bool_decide (lowered ∈ ["raw"; "secret"; "password"; "token"]) || starts_with "raw_" lowered.

(** [_reject_raw_sensitive] raises on this. *)
Fixpoint raw_sensitive (v : val) : bool :=
  match v with
  | VDict d => (fix go (d : list (string * val)) := match d with
                | [] => false
                | (k, item) :: d' => sensitive_key k || raw_sensitive item || go d'
                end) d
  | VList l => (fix go (l : list val) := match l with
                | [] => false
                | item :: l' => raw_sensitive item || go l'
                end) l
  | _ => false
  end.

Definition _reject_raw_sensitive (v : val) : res unit :=
  if raw_sensitive v
  then Err (Exn ValueError "raw sensitive values must remain behind VEIL/Aegis references")
  else Ok tt.

(** * Records *)

Module ContextRecord.
Record t := Mk {
  workflow_id : string;
  conversation_state : doc;
  task_state : doc;
  artifacts : doc;
  structured_outputs : doc;
  sanitized_payloads : doc;
  veil_token_refs : list string;
  approval_state : doc;
  agent_visible_context : doc;
  summaries : list string;
  checkpoints : dict doc;
  updated_at : Z;
}.

(** [ContextRecord(workflow_id=id)] at time [now]. *)
Definition new (id : string) (now : Z) : t := Mk id [] [] [] [] [] [] [] [] [] [] now.

Definition snapshot (r : t) : doc :=
  [("workflow_id", VStr (workflow_id r)); ("conversation_state", VDict (conversation_state r));
   ("task_state", VDict (task_state r)); ("artifacts", VDict (artifacts r));
   ("structured_outputs", VDict (structured_outputs r));
   ("sanitized_payloads", VDict (sanitized_payloads r));
   ("veil_token_refs", VList (map VStr (veil_token_refs r)));
   ("approval_state", VDict (approval_state r));
   ("agent_visible_context", VDict (agent_visible_context r));
   ("summaries", VList (map VStr (summaries r)));
   ("checkpoints", VDict ((fun p => (p.1, VDict p.2)) <$> checkpoints r));
   ("updated_at", VStr (isoformat (updated_at r)))].

(** Assignments to a field. *)
Definition set_conversation (x : doc) (r : t) : t :=
  Mk (workflow_id r) x (task_state r) (artifacts r) (structured_outputs r) (sanitized_payloads r)
    (veil_token_refs r) (approval_state r) (agent_visible_context r) (summaries r) (checkpoints r) (updated_at r).
Definition set_task_state (x : doc) (r : t) : t :=
  Mk (workflow_id r) (conversation_state r) x (artifacts r) (structured_outputs r) (sanitized_payloads r)
    (veil_token_refs r) (approval_state r) (agent_visible_context r) (summaries r) (checkpoints r) (updated_at r).
Definition set_artifacts (x : doc) (r : t) : t :=
  Mk (workflow_id r) (conversation_state r) (task_state r) x (structured_outputs r) (sanitized_payloads r)
    (veil_token_refs r) (approval_state r) (agent_visible_context r) (summaries r) (checkpoints r) (updated_at r).
Definition set_structured (x : doc) (r : t) : t :=
  Mk (workflow_id r) (conversation_state r) (task_state r) (artifacts r) x (sanitized_payloads r)
    (veil_token_refs r) (approval_state r) (agent_visible_context r) (summaries r) (checkpoints r) (updated_at r).
Definition set_sanitized (x : doc) (r : t) : t :=
  Mk (workflow_id r) (conversation_state r) (task_state r) (artifacts r) (structured_outputs r) x
    (veil_token_refs r) (approval_state r) (agent_visible_context r) (summaries r) (checkpoints r) (updated_at r).
Definition set_token_refs (x : list string) (r : t) : t :=
  Mk (workflow_id r) (conversation_state r) (task_state r) (artifacts r) (structured_outputs r)
    (sanitized_payloads r) x (approval_state r) (agent_visible_context r) (summaries r) (checkpoints r) (updated_at r).
Definition set_approval (x : doc) (r : t) : t :=
  Mk (workflow_id r) (conversation_state r) (task_state r) (artifacts r) (structured_outputs r)
    (sanitized_payloads r) (veil_token_refs r) x (agent_visible_context r) (summaries r) (checkpoints r) (updated_at r).
Definition set_summaries (x : list string) (r : t) : t :=
  Mk (workflow_id r) (conversation_state r) (task_state r) (artifacts r) (structured_outputs r)
    (sanitized_payloads r) (veil_token_refs r) (approval_state r) (agent_visible_context r) x (checkpoints r) (updated_at r).
Definition set_checkpoints (x : dict doc) (r : t) : t :=
  Mk (workflow_id r) (conversation_state r) (task_state r) (artifacts r) (structured_outputs r)
    (sanitized_payloads r) (veil_token_refs r) (approval_state r) (agent_visible_context r) (summaries r) x (updated_at r).
Definition set_updated (x : Z) (r : t) : t :=
  Mk (workflow_id r) (conversation_state r) (task_state r) (artifacts r) (structured_outputs r)
    (sanitized_payloads r) (veil_token_refs r) (approval_state r) (agent_visible_context r) (summaries r)
    (checkpoints r) x.

Definition set_visible (x : doc) (r : t) : t :=
  Mk (workflow_id r) (conversation_state r) (task_state r) (artifacts r) (structured_outputs r)
    (sanitized_payloads r) (veil_token_refs r) (approval_state r) x (summaries r) (checkpoints r) (updated_at r).

(** [_record_from_snapshot], for a record made at time [now]. *)
Definition from_snapshot (now : Z) (s : doc) : res t :=
  let? id := str_field s "workflow_id" in
  let? conversation := dict_field_or_empty s "conversation_state" in
  let? task := dict_field_or_empty s "task_state" in
  let? artifacts := dict_field_or_empty s "artifacts" in
  let? structured := dict_field_or_empty s "structured_outputs" in
  let? sanitized := dict_field_or_empty s "sanitized_payloads" in
  let? refs := strs_field_or s "veil_token_refs" [] in
  let? approval := dict_field_or_empty s "approval_state" in
  let? visible := dict_field_or_empty s "agent_visible_context" in
  let? summaries := strs_field_or s "summaries" [] in
  let? checkpoints := let? d := dict_field_or_empty s "checkpoints" in
    res_map (fun p => let? c := py_dict p.2 in Ok (p.1, c)) d in
  Ok (Mk id conversation task artifacts structured sanitized refs approval visible summaries checkpoints now).
End ContextRecord.

Abbreviation ContextRecord := ContextRecord.t.

(** * The store *)

(** [persistent] says that the store was built with a persistence backend. *)
Record contexts (S : Type) := Contexts {
  env : sys S;
  persistent : bool;
  _records : dict ContextRecord;
}.
Arguments Contexts {S}.
Arguments env {S}.
Arguments persistent {S}.
Arguments _records {S}.

Module ContextStore.
Section ContextStore.
Context `{Oracle} {S : Type} `{PersistenceStore S}.
#[local] Abbreviation C := (M (contexts S)).

Definition on_env {A} (m : M (sys S) A) : C A :=
  zoom env (fun e c => Contexts e (persistent c) (_records c)) m.

Definition set_record (id : string) (r : ContextRecord) (c : contexts S) : contexts S :=
  Contexts (env c) (persistent c) (dset (_records c) id r).

(** [ContextStore(persistence)]: the records of the collection, if any. *)
Definition init : C unit :=
  let* c := get_state in
  if persistent c then
    let* items := on_env (store_list "shared_context") in
    for_each items (fun item =>
      let* now := on_env utc_now in
      let* r := of_res (ContextRecord.from_snapshot now item) in
      modify (set_record (ContextRecord.workflow_id r) r))
  else ret tt.

Definition get_or_create (workflow_id : string) : C ContextRecord :=
  let* c := get_state in
  match dget (_records c) workflow_id with
  | Some r => ret r
  | None =>
      let* now := on_env utc_now in
      let r := ContextRecord.new workflow_id now in
      do* modify (set_record workflow_id r); ret r
  end.

Definition _persist (r : ContextRecord) : C unit :=
  let* c := get_state in
  if persistent c
  then on_env (store_put "shared_context" (ContextRecord.workflow_id r) (ContextRecord.snapshot r))
  else ret tt.

(** An update of a record: the change, the time, and the copy in the backend. *)
Definition update (workflow_id : string) (f : ContextRecord → ContextRecord) : C unit :=
  let* r := get_or_create workflow_id in
  let* now := on_env utc_now in
  let r := ContextRecord.set_updated now (f r) in
  do* modify (set_record workflow_id r);
  _persist r.

Definition update_task_state (workflow_id node_id : string) (value : doc) : C unit :=
  do* of_res (_reject_raw_sensitive (VDict value));
  update workflow_id (fun r =>
    ContextRecord.set_task_state (dset (ContextRecord.task_state r) node_id (VDict value)) r).

Definition put_artifact (workflow_id key : string) (value : val) : C unit :=
  do* of_res (_reject_raw_sensitive (VDict [(key, value)]));
  update workflow_id (fun r => ContextRecord.set_artifacts (dset (ContextRecord.artifacts r) key value) r).

Definition add_summary (workflow_id summary : string) : C unit :=
  update workflow_id (fun r => ContextRecord.set_summaries (ContextRecord.summaries r ++ [summary]) r).

Definition put_sanitized_payload (workflow_id key : string) (value : doc) : C unit :=
  do* of_res (_reject_raw_sensitive (VDict value));
  update workflow_id (fun r =>
    ContextRecord.set_sanitized (dset (ContextRecord.sanitized_payloads r) key (VDict value)) r).

Definition put_structured_output (workflow_id key : string) (value : doc) : C unit :=
  do* of_res (_reject_raw_sensitive (VDict value));
  update workflow_id (fun r =>
    ContextRecord.set_structured (dset (ContextRecord.structured_outputs r) key (VDict value)) r).

Definition add_veil_token_ref (workflow_id token_ref : string) : C unit :=
  update workflow_id (fun r => ContextRecord.set_token_refs (ContextRecord.veil_token_refs r ++ [token_ref]) r).

Definition update_approval_state (workflow_id : string) (values : doc) : C unit :=
  do* of_res (_reject_raw_sensitive (VDict values));
  update workflow_id (fun r =>
    ContextRecord.set_approval (dupdate (ContextRecord.approval_state r) values) r).

(** The snapshot is taken before the checkpoint is added to the record. *)
Definition checkpoint (workflow_id checkpoint_id : string) : C doc :=
  let* r := get_or_create workflow_id in
  let snapshot := ContextRecord.snapshot r in
  let* now := on_env utc_now in
  let r := ContextRecord.set_updated now
    (ContextRecord.set_checkpoints (dset (ContextRecord.checkpoints r) checkpoint_id snapshot) r) in
  do* modify (set_record workflow_id r);
  do* _persist r;
  let* c := get_state in
  do* (if persistent c
       then on_env (store_put "checkpoints" (workflow_id +:+ ":" +:+ checkpoint_id) snapshot)
       else ret tt);
  ret snapshot.

(** One field of a restoration. What was restored before a field is missing
    stays. *)
Definition restore_field {A} (workflow_id : string) (x : res A) (set : A → ContextRecord → ContextRecord)
    : C unit :=
  let* x := of_res x in
  let* r := get_or_create workflow_id in
  modify (set_record workflow_id (set x r)).

Definition restore (workflow_id checkpoint_id : string) : C doc :=
  let* r := get_or_create workflow_id in
  let* s := of_res (match dget (ContextRecord.checkpoints r) checkpoint_id with
                    | Some s => Ok s
                    | None => Err (Exn KeyError (repr_str checkpoint_id)) end) in
  let field k := (let? v := dindex s k in py_dict v) in
  do* restore_field workflow_id (field "conversation_state") ContextRecord.set_conversation;
  do* restore_field workflow_id (field "task_state") ContextRecord.set_task_state;
  do* restore_field workflow_id (field "artifacts") ContextRecord.set_artifacts;
  do* restore_field workflow_id (dict_field_or_empty s "structured_outputs") ContextRecord.set_structured;
  do* restore_field workflow_id (dict_field_or_empty s "sanitized_payloads") ContextRecord.set_sanitized;
  do* restore_field workflow_id (strs_field_or s "veil_token_refs" []) ContextRecord.set_token_refs;
  do* restore_field workflow_id (dict_field_or_empty s "approval_state") ContextRecord.set_approval;
  do* restore_field workflow_id (dict_field_or_empty s "agent_visible_context") ContextRecord.set_visible;
  do* restore_field workflow_id
        (let? v := dindex s "summaries" in let? l := py_iter v in Ok (map py_str l)) ContextRecord.set_summaries;
  do* update workflow_id (fun r => r);
  let* r := get_or_create workflow_id in
  ret (ContextRecord.snapshot r).

(** ** shared_memory.py *)

Definition write_artifact (workflow_id agent_id key : string) (value : val) : C unit :=
  put_artifact workflow_id (agent_id +:+ ":" +:+ key) value.

Definition read_artifacts (workflow_id : string) : C doc :=
  let* r := get_or_create workflow_id in ret (ContextRecord.artifacts r).

End ContextStore.
End ContextStore.

(** * What the operations do to the records *)

Section Effects.
Context `{Oracle} {S : Type} `{PersistenceStore S}.
Implicit Types (c : contexts S) (w : string) (r : ContextRecord).
Import ContextStore.

(** The record a call works on: the one of the id, or a new one. *)
Definition opened c w r : Prop :=
  dget (_records c) w = Some r ∨ (dget (_records c) w = None ∧ ∃ now, r = ContextRecord.new w now).

(** The state after the record [r] was written. *)
Definition written c w r c' : Prop :=
  persistent c' = persistent c ∧ _records c' = dset (_records c) w r.

Lemma get_or_create_eq w c :
  ∃ r c', get_or_create w c = (Ok r, c') ∧ opened c w r ∧ written c w r c'.
Proof.
  unfold get_or_create, bind at 1, get_state. destruct (dget (_records c) w) as [r|] eqn:Er.
  - exists r, c. split; [done|]. split; [by left|]. split; [done|]. by rewrite dset_same.
  - unfold bind. cbn. eexists _, _. split; [done|]. split; [right; split; [done|by eexists]|done].
Qed.

Lemma written_trans c w r c1 r' c2 : written c w r c1 → written c1 w r' c2 → written c w r' c2.
Proof. intros [Hp Hr] [Hp' Hr']. split; [congruence|]. by rewrite Hr', Hr, dset_dset. Qed.

Lemma opened_written c w r c' : written c w r c' → dget (_records c') w = Some r.
Proof. intros [_ ->]. apply dget_dset_eq. Qed.

Lemma _persist_eq r c :
  ∃ c', _persist r c = (Ok tt, c') ∧ persistent c' = persistent c ∧ _records c' = _records c.
Proof.
  unfold _persist, bind, get_state. destruct (persistent c) eqn:Ep; [|by exists c].
  cbn. eexists. split; [done|]. by rewrite Ep.
Qed.

Lemma update_eq w f c :
  ∃ r now c', update w f c = (Ok tt, c') ∧ opened c w r ∧
    written c w (ContextRecord.set_updated now (f r)) c'.
Proof.
  unfold update. destruct (get_or_create_eq w c) as (r & c1 & Hg & Ho & Hw).
  unfold bind at 1. rewrite Hg. unfold bind at 1. cbn [on_env zoom utc_now]. unfold on_env, zoom, utc_now.
  unfold bind at 1, modify.
  set (c2 := set_record _ _ _).
  destruct (_persist_eq (ContextRecord.set_updated (clock (tick (env c1))) (f r)) c2) as (c3 & Hp & Hpp & Hr).
  exists r, (clock (tick (env c1))), c3. split; [exact Hp|]. split; [done|]. destruct Hw as [Hwp Hwr].
  split; [by rewrite Hpp|]. rewrite Hr. unfold c2. cbn. by rewrite Hwr, dset_dset.
Qed.

Lemma checkpoint_eq w cp c :
  ∃ r now c', checkpoint w cp c = (Ok (ContextRecord.snapshot r), c') ∧ opened c w r ∧
    written c w (ContextRecord.set_updated now
      (ContextRecord.set_checkpoints (dset (ContextRecord.checkpoints r) cp (ContextRecord.snapshot r)) r)) c'.
Proof.
  unfold checkpoint. destruct (get_or_create_eq w c) as (r & c1 & Hg & Ho & Hw).
  unfold bind at 1. rewrite Hg. unfold bind at 1, on_env, zoom at 1, utc_now at 1.
  unfold bind at 1, modify. set (r' := ContextRecord.set_updated _ _). set (c2 := set_record _ _ _).
  destruct (_persist_eq r' c2) as (c3 & Hp & Hpp & Hr).
  assert (Hw3 : written c w r' c3).
  { destruct Hw as [Hwp Hwr]. split; [by rewrite Hpp|]. rewrite Hr. unfold c2. cbn. by rewrite Hwr, dset_dset. }
  unfold bind at 1. rewrite Hp. unfold bind at 1, get_state, bind at 1.
  destruct (persistent c3) eqn:Ep; (eexists r, _, _; split; [reflexivity|]; split; [done|]).
  - destruct Hw3 as [Hw3 Hr3]. split; [cbn; by rewrite Ep in *|done].
  - exact Hw3.
Qed.

Lemma restore_field_eq {A} w (x : A) set r c :
  dget (_records c) w = Some r →
  ∃ c', restore_field w (Ok x) set c = (Ok tt, c') ∧ written c w (set x r) c'.
Proof.
  intros Hr. unfold restore_field, of_res, bind at 1. destruct (get_or_create_eq w c) as (r' & c1 & Hg & Ho & Hw).
  unfold bind. rewrite Hg. eexists. split; [reflexivity|].
  assert (r' = r) as -> by (destruct Ho as [E|[E _]]; congruence).
  apply (written_trans c w r c1); [done|]. by split.
Qed.

(** The record with the fields of [s], which are those a checkpoint keeps. *)
Definition restored (s r : ContextRecord) : ContextRecord :=
  ContextRecord.Mk (ContextRecord.workflow_id r) (ContextRecord.conversation_state s) (ContextRecord.task_state s)
    (ContextRecord.artifacts s) (ContextRecord.structured_outputs s) (ContextRecord.sanitized_payloads s)
    (ContextRecord.veil_token_refs s) (ContextRecord.approval_state s) (ContextRecord.agent_visible_context s)
    (ContextRecord.summaries s) (ContextRecord.checkpoints r) (ContextRecord.updated_at r).

(** One step of a restoration whose field is there. *)
Ltac restore_step Hd w :=
  unfold bind at 1;
  match goal with
  | |- context [restore_field w (Ok ?x) ?set ?c] =>
      let c' := fresh "c" in let He := fresh "He" in let Hw := fresh "Hw" in
      destruct (restore_field_eq w x set _ c Hd) as (c' & He & Hw); rewrite He; clear He
  end.

Lemma restore_found w cp s r c :
  dget (_records c) w = Some r → dget (ContextRecord.checkpoints r) cp = Some (ContextRecord.snapshot s) →
  ∃ now c', restore w cp c = (Ok (ContextRecord.snapshot (ContextRecord.set_updated now (restored s r))), c') ∧
    written c w (ContextRecord.set_updated now (restored s r)) c'.
Proof.
  intros Hr Hcp. unfold restore. destruct (get_or_create_eq w c) as (r' & c1 & Hg & Ho & Hw).
  assert (r' = r) as -> by (destruct Ho as [E|[E _]]; congruence). pose proof (opened_written _ _ _ _ Hw) as Hd.
  unfold bind at 1. rewrite Hg. unfold bind at 1, of_res at 1. rewrite Hcp. clear Hg Ho.
  assert (Hrefs : strs_field_or (ContextRecord.snapshot s) "veil_token_refs" [] = Ok (ContextRecord.veil_token_refs s))
    by by apply strs_field_or_eq.
  assert (Hsum : (let? v := dindex (ContextRecord.snapshot s) "summaries" in
                  let? l := py_iter v in Ok (map py_str l)) = Ok (ContextRecord.summaries s)).
  { change (Ok (map py_str (map VStr (ContextRecord.summaries s))) = Ok (ContextRecord.summaries s)).
    by rewrite map_py_str_VStr. }
  cbv zeta. rewrite Hrefs, Hsum. clear Hrefs Hsum.
  assert (Hf : ∀ k d, dget (ContextRecord.snapshot s) k = Some (VDict d) →
    (let? v := dindex (ContextRecord.snapshot s) k in py_dict v) = Ok d ∧
    dict_field_or_empty (ContextRecord.snapshot s) k = Ok d).
  { intros k d E. unfold dindex, dict_field_or_empty, dget_or. by rewrite E. }
  rewrite (proj1 (Hf "conversation_state" _ eq_refl)), (proj1 (Hf "task_state" _ eq_refl)),
    (proj1 (Hf "artifacts" _ eq_refl)), (proj2 (Hf "structured_outputs" _ eq_refl)),
    (proj2 (Hf "sanitized_payloads" _ eq_refl)), (proj2 (Hf "approval_state" _ eq_refl)),
    (proj2 (Hf "agent_visible_context" _ eq_refl)). clear Hf Hcp Hr.
  do 9 (restore_step Hd w; match goal with Hw' : written _ w _ ?c' |- context [?c'] =>
          let Ht := fresh in pose proof (written_trans _ _ _ _ _ _ Hw Hw') as Ht; clear Hw Hw'; rename Ht into Hw;
          clear Hd; pose proof (opened_written _ _ _ _ Hw) as Hd end).
  change (ContextRecord.set_summaries _ _) with (restored s r) in Hw, Hd.
  destruct (update_eq w (fun r0 => r0) c9) as (r' & now & c10 & Hu & Ho & Hw').
  assert (r' = restored s r) as -> by (destruct Ho as [E|[E _]]; congruence).
  pose proof (written_trans _ _ _ _ _ _ Hw Hw') as Hw10. pose proof (opened_written _ _ _ _ Hw10) as Hd10.
  unfold bind at 1. rewrite Hu. destruct (get_or_create_eq w c10) as (r' & c11 & Hg & Ho' & Hw'').
  assert (r' = ContextRecord.set_updated now (restored s r)) as -> by (destruct Ho' as [E|[E _]]; congruence).
  exists now, c11. unfold bind. rewrite Hg. split; [done|]. by eapply written_trans.
Qed.

Lemma restore_missing w cp c :
  (∀ r, opened c w r → dget (ContextRecord.checkpoints r) cp = None) →
  ∃ r c', restore w cp c = (Err (Exn KeyError (repr_str cp)), c') ∧ opened c w r ∧ written c w r c'.
Proof.
  intros Hn. unfold restore. destruct (get_or_create_eq w c) as (r & c1 & Hg & Ho & Hw).
  exists r, c1. unfold bind at 1. rewrite Hg. unfold bind at 1, of_res at 1. by rewrite (Hn r Ho).
Qed.

End Effects.

(** * Operations as data *)

Inductive operation :=
  | UpdateTaskState (w node : string) (value : doc)
  | PutArtifact (w key : string) (value : val)
  | AddSummary (w summary : string)
  | PutSanitizedPayload (w key : string) (value : doc)
  | PutStructuredOutput (w key : string) (value : doc)
  | AddVeilTokenRef (w ref : string)
  | UpdateApprovalState (w : string) (values : doc)
  | Checkpoint (w id : string)
  | RestoreCheckpoint (w id : string).

Section Operations.
Context `{Oracle} {S : Type} `{PersistenceStore S}.
Implicit Types (c : contexts S) (w : string) (r : ContextRecord) (o : operation).

Definition perform o c : contexts S :=
  match o with
  | UpdateTaskState w n v => after (ContextStore.update_task_state w n v) c
  | PutArtifact w k v => after (ContextStore.put_artifact w k v) c
  | AddSummary w x => after (ContextStore.add_summary w x) c
  | PutSanitizedPayload w k v => after (ContextStore.put_sanitized_payload w k v) c
  | PutStructuredOutput w k v => after (ContextStore.put_structured_output w k v) c
  | AddVeilTokenRef w x => after (ContextStore.add_veil_token_ref w x) c
  | UpdateApprovalState w v => after (ContextStore.update_approval_state w v) c
  | Checkpoint w id => after (ContextStore.checkpoint w id) c
  | RestoreCheckpoint w id => after (ContextStore.restore w id) c
  end.

Definition run_operations (os : list operation) c : contexts S := foldl (fun c o => perform o c) c os.

(** A record without raw sensitive keys. *)
Definition clean_values (d : doc) : Prop := Forall (fun p => raw_sensitive p.2 = false) d.

Definition clean r : Prop :=
  clean_values (ContextRecord.task_state r) ∧ raw_sensitive (VDict (ContextRecord.artifacts r)) = false ∧
  clean_values (ContextRecord.structured_outputs r) ∧ clean_values (ContextRecord.sanitized_payloads r) ∧
  raw_sensitive (VDict (ContextRecord.approval_state r)) = false.

(** Its checkpoints are snapshots of clean records. *)
Definition clean_record r : Prop :=
  clean r ∧ ∀ cp d, dget (ContextRecord.checkpoints r) cp = Some d → ∃ s, d = ContextRecord.snapshot s ∧ clean s.

Definition clean_contexts c : Prop := ∀ w r, dget (_records c) w = Some r → clean_record r.

Lemma raw_sensitive_dict (d : doc) :
  raw_sensitive (VDict d) = false ↔ Forall (fun p => sensitive_key p.1 = false ∧ raw_sensitive p.2 = false) d.
Proof.
  induction d as [|[k v] d IH]; [done|].
  change (sensitive_key k || raw_sensitive v || raw_sensitive (VDict d) = false ↔
    Forall (λ p, sensitive_key p.1 = false ∧ raw_sensitive p.2 = false) ((k, v) :: d)).
  rewrite !orb_false_iff, Forall_cons, IH. cbn. tauto.
Qed.

Lemma Forall_dset {A} (P : string * A → Prop) (d : dict A) k a :
  (∀ k', k' = k → P (k', a)) → Forall P d → Forall P (dset d k a).
Proof.
  intros Ha. induction 1 as [|[k' b] d Hb Hd IH]; cbn [dset]; [constructor; [by apply Ha|constructor]|].
  case_bool_decide; constructor; auto.
Qed.

Lemma Forall_dupdate {A} (P : string * A → Prop) (d e : dict A) :
  Forall P d → Forall P e → Forall P (dupdate d e).
Proof.
  intros Hd He. unfold dupdate. revert d Hd. induction He as [|[k a] e Ha _ IH]; intros d Hd; [done|].
  cbn [foldl]. apply IH, Forall_dset; [|done]. by intros ? ->.
Qed.

Lemma clean_new w now : clean_record (ContextRecord.new w now).
Proof. split; [repeat split; constructor|]. by intros cp d. Qed.

Lemma opened_clean c w r : clean_contexts c → opened c w r → clean_record r.
Proof. intros Hc [E|[_ [now ->]]]; [by eapply Hc|apply clean_new]. Qed.

Lemma written_clean c w r c' : clean_contexts c → clean_record r → written c w r c' → clean_contexts c'.
Proof.
  intros Hc Hr [_ Hrec] w' r'. rewrite Hrec, dget_dset. case_bool_decide; [by intros [= <-]|apply Hc].
Qed.

(** The effect of an operation on the record [r] of [w]. *)
Definition effect o w r r' : Prop :=
  (ContextRecord.checkpoints r' = ContextRecord.checkpoints r ∧ (clean_record r → clean_record r')) ∨
  ∃ id now, o = Checkpoint w id ∧
    r' = ContextRecord.set_updated now (ContextRecord.set_checkpoints
           (dset (ContextRecord.checkpoints r) id (ContextRecord.snapshot r)) r).

Definition has_effect o c c' : Prop :=
  _records c' = _records c ∨ ∃ w r r', opened c w r ∧ written c w r' c' ∧ effect o w r r'.

Lemma update_effect o w f c :
  (∀ r, ContextRecord.checkpoints (f r) = ContextRecord.checkpoints r ∧ (clean_record r → clean_record (f r))) →
  has_effect o c (after (ContextStore.update w f) c).
Proof.
  intros Hf. destruct (update_eq w f c) as (r & now & c' & Hu & Ho & Hw). unfold after. rewrite Hu.
  right. exists w, r, (ContextRecord.set_updated now (f r)). split; [done|]. split; [done|]. left. apply Hf.
Qed.

Lemma guarded_effect o v w f c :
  (raw_sensitive v = false →
   ∀ r, ContextRecord.checkpoints (f r) = ContextRecord.checkpoints r ∧ (clean_record r → clean_record (f r))) →
  has_effect o c (after (do* of_res (_reject_raw_sensitive v); ContextStore.update w f) c).
Proof.
  intros Hf. unfold _reject_raw_sensitive. destruct (raw_sensitive v); [by left|].
  change (has_effect o c (after (ContextStore.update w f) c)). by apply update_effect, Hf.
Qed.

Lemma restore_effect w id c :
  clean_contexts c → has_effect (RestoreCheckpoint w id) c (after (ContextStore.restore w id) c).
Proof.
  intros Hc. unfold after. destruct (dget (_records c) w) as [r|] eqn:Er.
  - destruct (Hc w r Er) as [Hcl Hcps]. destruct (dget (ContextRecord.checkpoints r) id) as [d|] eqn:Ed.
    + destruct (Hcps id d Ed) as (s & -> & Hs).
      destruct (restore_found w id s r c Er Ed) as (now & c' & -> & Hw).
      right. eexists w, r, _. split; [by left|]. split; [exact Hw|]. left. split; [done|]. intros _. by split.
    + destruct (restore_missing w id c) as (r' & c' & -> & Ho & Hw).
      { intros r' [E|[E _]]; congruence. }
      right. exists w, r', r'. split; [done|]. split; [done|]. by left.
  - destruct (restore_missing w id c) as (r' & c' & -> & Ho & Hw).
    { intros r' [E|[_ [now ->]]]; [congruence|done]. }
    right. exists w, r', r'. split; [done|]. split; [done|]. by left.
Qed.

Lemma perform_effect o c : clean_contexts c → has_effect o c (perform o c).
Proof.
  intros Hc. destruct o as [w n v|w k v|w x|w k v|w k v|w x|w v|w id|w id]; cbn [perform].
  - apply guarded_effect. intros Hv r. split; [done|]. intros [(Ht & Hrest) Hcp]. split; [split; [|done]|done].
    apply Forall_dset; [|done]. by intros ? ->.
  - apply guarded_effect. intros Hv r. split; [done|]. intros [(Ht & Ha & Hrest) Hcp]. split; [|done].
    split; [done|]. split; [|done]. apply raw_sensitive_dict, Forall_dset; [|by apply raw_sensitive_dict].
    intros ? ->. apply raw_sensitive_dict in Hv. by apply Forall_cons in Hv as [? _].
  - by apply update_effect.
  - apply guarded_effect. intros Hv r. split; [done|]. intros [(Ht & Ha & Hst & Hsa & Hap) Hcp].
    split; [|done]. split_and!; try done. apply Forall_dset; [|done]. by intros ? ->.
  - apply guarded_effect. intros Hv r. split; [done|]. intros [(Ht & Ha & Hst & Hsa & Hap) Hcp].
    split; [|done]. split_and!; try done. apply Forall_dset; [|done]. by intros ? ->.
  - by apply update_effect.
  - apply guarded_effect. intros Hv r. split; [done|]. intros [(Ht & Ha & Hst & Hsa & Hap) Hcp].
    split; [|done]. split_and!; try done. apply raw_sensitive_dict, Forall_dupdate; by apply raw_sensitive_dict.
  - destruct (checkpoint_eq w id c) as (r & now & c' & Hk & Ho & Hw). unfold after. rewrite Hk.
    right. eexists w, r, _. split; [done|]. split; [exact Hw|]. right. by exists id, now.
  - by apply restore_effect.
Qed.

Lemma perform_clean o c : clean_contexts c → clean_contexts (perform o c).
Proof.
  intros Hc. destruct (perform_effect o c Hc) as [E|(w & r & r' & Ho & Hw & He)].
  - intros w r. rewrite E. apply Hc.
  - pose proof (opened_clean c w r Hc Ho) as Hr. apply (written_clean c w r' _ Hc); [|done].
    destruct He as [[_ He]|(id & now & _ & ->)]; [by apply He|]. destruct Hr as [Hcl Hcps].
    split; [done|]. intros cp d. cbn. rewrite dget_dset. case_bool_decide; [|apply Hcps].
    intros [= <-]. by exists r.
Qed.

Lemma run_clean os c : clean_contexts c → clean_contexts (run_operations os c).
Proof.
  revert c. induction os as [|o os IH]; intros c Hc; [done|]. by apply IH, perform_clean.
Qed.

(** The record of [w] keeps the checkpoint [cp] as [d]. *)
Definition keeps w cp (d : doc) c : Prop :=
  ∃ r, dget (_records c) w = Some r ∧ dget (ContextRecord.checkpoints r) cp = Some d.

Lemma perform_keeps w cp d o c :
  clean_contexts c → o ≠ Checkpoint w cp → keeps w cp d c → keeps w cp d (perform o c).
Proof.
  intros Hc Ho (r & Hr & Hcp). destruct (perform_effect o c Hc) as [E|(w' & r0 & r' & Hop & [_ Hrec] & He)].
  - exists r. by rewrite E.
  - unfold keeps. rewrite Hrec, dget_dset. case_bool_decide as Ew; [|by exists r]. subst w'.
    assert (r0 = r) as -> by (destruct Hop as [?|[? _]]; congruence). exists r'. split; [done|].
    destruct He as [[-> _]|(id & now & -> & ->)]; [done|]. cbn.
    rewrite dget_dset_ne; [done|]. intros ->. by apply Ho.
Qed.

Lemma run_keeps w cp d os c :
  clean_contexts c → Checkpoint w cp ∉ os → keeps w cp d c → keeps w cp d (run_operations os c).
Proof.
  revert c. induction os as [|o os IH]; intros c Hc Ho Hk; [done|].
  apply not_elem_of_cons in Ho as [Ho1 Ho2]. apply IH; [by apply perform_clean|done|].
  by apply perform_keeps.
Qed.

End Operations.

(** * The size of a snapshot *)

(** How many values a value is made of. *)
Fixpoint val_size (v : val) : nat :=
  match v with
  | VList l => Datatypes.S ((fix go (l : list val) :=
      match l with [] => O | x :: l' => val_size x + go l' end)%nat l)
  | VDict d => Datatypes.S ((fix go (d : list (string * val)) :=
      match d with [] => O | (_, x) :: d' => val_size x + go d' end)%nat d)
  | _ => 1%nat
  end.

Definition snapshot_size (r : ContextRecord) : nat := val_size (VDict (ContextRecord.snapshot r)).

Lemma val_size_dict (d : doc) : val_size (VDict d) = Datatypes.S (sum_list ((fun p => val_size p.2) <$> d)).
Proof.
  induction d as [|[k v] d IH]; [done|].
  change (Datatypes.S (val_size v + pred (val_size (VDict d))) =
    Datatypes.S (val_size v + sum_list ((fun p => val_size p.2) <$> d)))%nat. rewrite IH. lia.
Qed.

Lemma snapshot_size_eq r : snapshot_size r =
  (snapshot_size (ContextRecord.set_checkpoints [] r) +
   sum_list ((fun p : string * doc => val_size (VDict p.2)) <$> ContextRecord.checkpoints r))%nat.
Proof.
  unfold snapshot_size, ContextRecord.snapshot. rewrite !val_size_dict.
  cbn [fmap list_fmap sum_list fst snd]. rewrite !val_size_dict, <- list_fmap_compose.
  cbn [ContextRecord.checkpoints ContextRecord.set_checkpoints].
  change (list_fmap (string * doc)%type (string * val)%type) with (fmap (M := list) (A := (string * doc)%type) (B := (string * val)%type)).
  cbn -[val_size sum_list fmap]. unfold compose. cbn -[val_size]. lia.
Qed.

Lemma dset_size (cps : dict doc) id (d : doc) :
  dget cps id = None →
  sum_list ((fun p : string * doc => val_size (VDict p.2)) <$> dset cps id d) =
  (sum_list ((fun p : string * doc => val_size (VDict p.2)) <$> cps) + val_size (VDict d))%nat.
Proof.
  induction cps as [|[k x] cps IH]; intros Hn; [cbn -[val_size]; lia|]. cbn [dget dset] in *.
  case_bool_decide; [done|]. cbn -[val_size]. rewrite IH by done. lia.
Qed.

(** * Properties *)

Section ContextProperties.
Context `{Oracle} {S : Type} `{PersistenceStore S}.

(** The shared context doubles with every checkpoint. A snapshot contains
    the checkpoints of the record, and a checkpoint is a snapshot: after
    checkpoints of [n] different names the snapshot of a workflow is made of at
    least 2 to the [n] values. *)
Theorem checkpoints_double (w : string) (names : list string) (e : sys S) (persistent : bool) :
  NoDup names → names ≠ [] →
  ∃ r, dget (_records (run_operations (Checkpoint w <$> names) (Contexts e persistent []))) w = Some r ∧
       (2 ^ length names ≤ snapshot_size r)%nat.
Proof.
  intros Hnd Hne. cut (∃ r, opened (run_operations (Checkpoint w <$> names) (Contexts e persistent [])) w r ∧
    (2 ^ length names ≤ snapshot_size r)%nat ∧ (∀ n, n ∉ names → dget (ContextRecord.checkpoints r) n = None) ∧
    (names ≠ [] → dget (_records (run_operations (Checkpoint w <$> names) (Contexts e persistent []))) w = Some r)).
  { intros (r & _ & Hs & _ & Hr). exists r. auto. }
  clear Hne. induction names as [|n names IH] using rev_ind.
  - exists (ContextRecord.new w 0). split_and!; [right; split; [done|by eexists]|cbn; lia|done|done].
  - apply NoDup_app in Hnd as (Hnd & Hnew & _). destruct (IH Hnd) as (r0 & Ho0 & Hs & Hfresh & _).
    rewrite fmap_app. unfold run_operations in *. rewrite foldl_app. cbn [foldl fmap list_fmap perform].
    set (c := foldl _ _ _) in *. destruct (checkpoint_eq w n c) as (r & now & c' & Hk & Ho & Hw).
    unfold after. rewrite Hk.
    assert (Hr : (2 ^ length names ≤ snapshot_size r)%nat ∧
      ∀ m, m ∉ names → dget (ContextRecord.checkpoints r) m = None).
    { destruct Ho as [E|[E [t ->]]], Ho0 as [E0|[E0 [t0 ->]]]; simplify_eq; auto. }
    destruct Hr as [Hsr Hfr]. eexists. split; [left; by eapply opened_written|]. split; [|split].
    + rewrite snapshot_size_eq. cbn [ContextRecord.checkpoints ContextRecord.set_updated ContextRecord.set_checkpoints].
      rewrite dset_size by (apply Hfr; intros Hin; by apply (Hnew n Hin), list_elem_of_singleton).
      pose proof (snapshot_size_eq r) as Hr. unfold snapshot_size in *.
      change (val_size (VDict (ContextRecord.snapshot (ContextRecord.set_checkpoints []
        (ContextRecord.set_updated now (ContextRecord.set_checkpoints
          (dset (ContextRecord.checkpoints r) n (ContextRecord.snapshot r)) r))))))
        with (val_size (VDict (ContextRecord.snapshot (ContextRecord.set_checkpoints [] r)))).
      rewrite length_app. cbn [length]. rewrite Nat.pow_add_r. change (2 ^ 1)%nat with 2%nat. lia.
    + intros m [Hm1 [Hm2 _]%not_elem_of_cons]%not_elem_of_app. cbn. rewrite dget_dset_ne; [by apply Hfr|].
      intros ->. by apply Hm2.
    + intros _. by eapply opened_written.
Qed.

(** No raw sensitive value enters the shared context. After any operations
    on a new context store, no value of the task state, the artifacts, the
    structured outputs, the sanitized payloads or the approval state of any
    record has a sensitive key at any depth, and neither has a checkpoint, so
    no restoration brings one back. *)
Theorem context_holds_no_raw (os : list operation) (e : sys S) (persistent : bool) :
  clean_contexts (run_operations os (Contexts e persistent [])).
Proof. by apply run_clean. Qed.

(** A checkpoint can be gone back to. Whatever is done after a checkpoint,
    but to make one of the same name again, restoring it gives a record whose
    fields are those the checkpoint was made of (only the checkpoints made
    since and the time are newer). *)
Theorem restore_checkpoint (before later : list operation) (w cp : string) (e : sys S) (persistent : bool) :
  Checkpoint w cp ∉ later →
  ∃ s r now c1 c2,
    ContextStore.checkpoint w cp (run_operations before (Contexts e persistent [])) =
      (Ok (ContextRecord.snapshot s), c1) ∧
    ContextStore.restore w cp (run_operations later c1) =
      (Ok (ContextRecord.snapshot (ContextRecord.set_updated now (restored s r))), c2).
Proof.
  intros Hl. set (c := run_operations before (Contexts e persistent [])).
  assert (Hc : clean_contexts c) by by apply run_clean.
  destruct (checkpoint_eq w cp c) as (s & t & c1 & Hk & Ho & Hw).
  assert (Hc1 : clean_contexts c1).
  { pose proof (perform_clean (Checkpoint w cp) c Hc) as Hp. cbn [perform] in Hp. unfold after in Hp.
    by rewrite Hk in Hp. }
  destruct (run_keeps w cp (ContextRecord.snapshot s) later c1 Hc1 Hl) as (r & Hr & Hcp).
  { eexists. split; [by eapply opened_written|]. apply dget_dset_eq. }
  destruct (restore_found w cp s r _ Hr Hcp) as (now & c2 & Hres & _).
  by exists s, r, now, c1, c2.
Qed.

End ContextProperties.

(** ** Witnesses *)

Lemma restore_checkpoint_witness :
  ∃ s r now c1 c2,
    ContextStore.checkpoint (H := demo_oracle) "wf" "batch-1"
      (run_operations (H := demo_oracle) [UpdateTaskState "wf" "n1" [("status", VStr "completed")]]
        (Contexts demo_start true [])) = (Ok (ContextRecord.snapshot s), c1) ∧
    ContextStore.restore (H := demo_oracle) "wf" "batch-1"
      (run_operations (H := demo_oracle) [UpdateTaskState "wf" "n1" [("status", VStr "failed")]; Checkpoint "wf" "batch-2"] c1) =
      (Ok (ContextRecord.snapshot (ContextRecord.set_updated now (restored s r))), c2).
Proof.
  apply (restore_checkpoint (H := demo_oracle) [UpdateTaskState "wf" "n1" [("status", VStr "completed")]]
    [UpdateTaskState "wf" "n1" [("status", VStr "failed")]; Checkpoint "wf" "batch-2"] "wf" "batch-1" demo_start true).
  intros Hin. apply elem_of_cons in Hin as [Hin|Hin]; [discriminate Hin|].
  apply elem_of_cons in Hin as [Hin|Hin]; [discriminate Hin|]. by apply elem_of_nil in Hin.
Defined.

Lemma checkpoints_double_witness :
  ∃ r, dget (_records (run_operations (H := demo_oracle) (Checkpoint "wf" <$> ["batch-1"; "batch-2"; "batch-3"])
              (Contexts demo_start true []))) "wf" = Some r ∧ (8 ≤ snapshot_size r)%nat.
Proof.
  apply (checkpoints_double (H := demo_oracle) "wf" ["batch-1"; "batch-2"; "batch-3"] demo_start true).
  - apply (bool_decide_unpack _). vm_compute. exact I.
  - discriminate.
Defined.
