(* ===== verification/Reputation.v ===== *)
(** The reputation of agents (agentfabric/reputation): the counts of a record,
    the scores computed from them in floating point, and the service that keeps
    the records, in memory and in the collection [reputation], and rebuilds them
    from the event log. *)

From stdpp Require Import base option list strings gmap pretty.
From Stdlib Require Import ZArith Lia SpecFloat.
From S2P Require Import Prelude PyVal Json PyTime Floats Store EventStore Documents.

Local Open Scope Z_scope.

(** * models.py *)

Module ReputationRecord.
Record t := Mk {
  agent_id : string;
  successful_tasks : Z;
  failures : Z;
  total_latency_ms : float;
  human_ratings_total : float;
  human_ratings_count : Z;
  approvals : Z;
  approval_requests : Z;
}.

Definition new (agent_id : string) : t := Mk agent_id 0 0 (S754_zero false) (S754_zero false) 0 0 0.

Definition total_tasks (r : t) : Z := successful_tasks r + failures r.

(** [a / b], where the code has ruled out 0 *)
Definition quotient (a b : Z) : float := fdiv (of_int a) (of_int b).

Definition average_latency_ms (r : t) : float :=
  if total_tasks r =? 0 then lit 0 1 else fdiv (total_latency_ms r) (float_of_Z (total_tasks r)).

Definition reliability (r : t) : float :=
  if total_tasks r =? 0 then lit 10 1 else quotient (successful_tasks r) (total_tasks r).

Definition approval_rate (r : t) : float :=
  if approval_requests r =? 0 then lit 10 1 else quotient (approvals r) (approval_requests r).

Definition average_human_rating (r : t) : float :=
  if human_ratings_count r =? 0 then lit 0 1
  else fdiv (human_ratings_total r) (float_of_Z (human_ratings_count r)).

Definition health_score (r : t) : float :=
  let latency_penalty := fmin (fdiv (average_latency_ms r) (lit 100000 1)) (lit 4 1) in
  round4 (fmax (lit 0 1) (fsub (reliability r) latency_penalty)).

Definition reputation_score (r : t) : float :=
  let rating_score := if human_ratings_count r =? 0 then lit 8 1
                      else fdiv (average_human_rating r) (float_of_Z 5) in
  round4 (fadd (fadd (fmul (reliability r) (lit 5 1)) (fmul (approval_rate r) (lit 2 1)))
               (fmul rating_score (lit 3 1))).

Definition confidence_score (r : t) : float :=
  let sample_weight := fmin (fdiv (float_of_Z (total_tasks r)) (lit 200 1)) (lit 10 1) in
  round4 (fmul (reputation_score r) (fadd (lit 5 1) (fdiv sample_weight (float_of_Z 2)))).

Definition as_dict (r : t) : doc :=
  [("agent_id", VStr (agent_id r)); ("successful_tasks", VInt (successful_tasks r));
   ("failures", VInt (failures r)); ("average_latency_ms", VNumber (average_latency_ms r));
   ("reliability", VNumber (reliability r)); ("human_ratings", VNumber (average_human_rating r));
   ("approval_rate", VNumber (approval_rate r)); ("health_score", VNumber (health_score r));
   ("reputation_score", VNumber (reputation_score r)); ("confidence_score", VNumber (confidence_score r))].

(** [_record_from_dict] of service.py *)
Definition from_dict (value : doc) : res t :=
  let? agent_id := str_field value "agent_id" in
  let? successful_tasks := int_field_or value "successful_tasks" 0 in
  let? failures := int_field_or value "failures" 0 in
  let? total_latency_ms := float_field_or value "total_latency_ms" (lit 0 1) in
  let? human_ratings_total := float_field_or value "human_ratings_total" (lit 0 1) in
  let? human_ratings_count := int_field_or value "human_ratings_count" 0 in
  let? approvals := int_field_or value "approvals" 0 in
  let? approval_requests := int_field_or value "approval_requests" 0 in
  Ok (Mk agent_id successful_tasks failures total_latency_ms human_ratings_total human_ratings_count
        approvals approval_requests).

(** The updates of a record. *)
Definition task (success : bool) (latency_ms : float) (r : t) : t :=
  Mk (agent_id r) (if success then successful_tasks r + 1 else successful_tasks r)
    (if success then failures r else failures r + 1) (fadd (total_latency_ms r) latency_ms)
    (human_ratings_total r) (human_ratings_count r) (approvals r) (approval_requests r).

Definition rating (x : float) (r : t) : t :=
  Mk (agent_id r) (successful_tasks r) (failures r) (total_latency_ms r) (fadd (human_ratings_total r) x)
    (human_ratings_count r + 1) (approvals r) (approval_requests r).

Definition approval (approved : bool) (r : t) : t :=
  Mk (agent_id r) (successful_tasks r) (failures r) (total_latency_ms r) (human_ratings_total r)
    (human_ratings_count r) (if approved then approvals r + 1 else approvals r) (approval_requests r + 1).

End ReputationRecord.

Abbreviation ReputationRecord := ReputationRecord.t.

(** * service.py *)

(** The process, whether the service has a persistence backend, [_records] and
    [_timeline]. *)
Record reputation (S : Type) := Reputation {
  env : sys S;
  persistent : bool;
  _records : dict ReputationRecord;
  _timeline : dict (list doc);
}.
Arguments Reputation {S}.
Arguments env {S}.
Arguments persistent {S}.
Arguments _records {S}.
Arguments _timeline {S}.

(** [tenant_id or None], where an empty text is no tenant. *)
Definition _key (agent_id : string) (tenant_id : option string) : string :=
  match tenant_id with
  | Some t => if bool_decide (t = "") then agent_id else t +:+ ":" +:+ agent_id
  | None => agent_id
  end.

Module ReputationService.
Section Service.
Context `{Oracle} {S : Type} `{PersistenceStore S}.
#[local] Abbreviation R := (M (reputation S)).

Definition on_env {A} (m : M (sys S) A) : R A :=
  zoom env (fun e r => Reputation e (persistent r) (_records r) (_timeline r)) m.

Definition set_record (key : string) (x : ReputationRecord) (r : reputation S) : reputation S :=
  Reputation (env r) (persistent r) (dset (_records r) key x) (_timeline r).

Definition set_timeline (key : string) (l : list doc) (r : reputation S) : reputation S :=
  Reputation (env r) (persistent r) (_records r) (dset (_timeline r) key l).

Definition timeline_of (key : string) (r : reputation S) : list doc := default [] (dget (_timeline r) key).

Definition _persist (agent_id : string) (tenant_id : option string) : R unit :=
  let* r := get_state in
  if negb (persistent r) then ret tt
  else
  let key := _key agent_id tenant_id in
  let* record := of_res (match dget (_records r) key with
                         | Some x => Ok x | None => Err (Exn KeyError (repr_str key)) end) in
  let payload := dupdate (ReputationRecord.as_dict record)
    [("tenant_id", opt_str tenant_id); ("total_latency_ms", VNumber (ReputationRecord.total_latency_ms record));
     ("human_ratings_total", VNumber (ReputationRecord.human_ratings_total record));
     ("human_ratings_count", VInt (ReputationRecord.human_ratings_count record));
     ("approvals", VInt (ReputationRecord.approvals record));
     ("approval_requests", VInt (ReputationRecord.approval_requests record));
     ("timeline", VList (map VDict (timeline_of key r)))] in
  on_env (store_put "reputation" key payload).

(** [ReputationService(persistence)] *)
Definition init : R unit :=
  let* r := get_state in
  if negb (persistent r) then ret tt
  else
  do* on_env (modify (with_db st_initialize));
  let* items := on_env (store_list "reputation") in
  for_each items (fun item =>
    let* record := of_res (ReputationRecord.from_dict item) in
    let key := _key (ReputationRecord.agent_id record) (opt_str_field item "tenant_id") in
    do* modify (set_record key record);
    let* timeline := of_res (let? l := py_iter (dget_or item "timeline" (VList [])) in res_map py_dict l) in
    modify (set_timeline key timeline)).

Definition get (agent_id : string) (tenant_id : option string) : R ReputationRecord :=
  let key := _key agent_id tenant_id in
  let* known := gets (fun r => dget (_records r) key) in
  match known with
  | Some record => ret record
  | None =>
      do* modify (set_record key (ReputationRecord.new agent_id));
      do* _persist agent_id tenant_id;
      ret (ReputationRecord.new agent_id)
  end.

(** A change of a record: the record, its timeline, the stored copy. *)
Definition record_change (agent_id : string) (tenant_id : option string) (f : ReputationRecord → ReputationRecord)
    (entry : doc) : R ReputationRecord :=
  let* record := get agent_id tenant_id in
  let key := _key agent_id tenant_id in
  do* modify (set_record key (f record));
  do* modify (fun r => set_timeline key (timeline_of key r ++ [entry]) r);
  do* _persist agent_id tenant_id;
  ret (f record).

Definition record_task (agent_id : string) (success : bool) (latency_ms : float) (tenant_id : option string)
    : R ReputationRecord :=
  record_change agent_id tenant_id (ReputationRecord.task success latency_ms)
    [("event", VStr "task"); ("success", VBool success); ("latency_ms", VNumber latency_ms)].

Definition record_rating (agent_id : string) (rating : float) (tenant_id : option string) : R ReputationRecord :=
  record_change agent_id tenant_id (ReputationRecord.rating rating)
    [("event", VStr "rating"); ("rating", VNumber rating)].

Definition record_approval (agent_id : string) (approved : bool) (tenant_id : option string) : R ReputationRecord :=
  record_change agent_id tenant_id (ReputationRecord.approval approved)
    [("event", VStr "approval"); ("approved", VBool approved)].

Definition timeline (agent_id : string) (tenant_id : option string) : R (list doc) :=
  do* get agent_id tenant_id; gets (timeline_of (_key agent_id tenant_id)).

(** The body of the loop of [reconstruct_from_events]. *)
Definition replay_event (e : AgentFabricEvent) : R unit :=
  let agent_id := str_field_or (payload e) "agent_id" "" in
  let tenant_id := opt_str_field (payload e) "tenant_id" in
  if bool_decide (event_type e ∈ ["task.completed"; "task.failed"]) then
    if bool_decide (agent_id = "") then ret tt
    else
    let* latency_ms := of_res (float_field_or (payload e) "latency_ms" (lit 0 1)) in
    do* record_task agent_id (bool_decide (event_type e = "task.completed")) latency_ms tenant_id; ret tt
  else if bool_decide (event_type e = "reputation.updated") then
    match dget (payload e) "rating" with
    | Some v =>
        if bool_decide (agent_id = "") then ret tt
        else let* rating := of_res (py_float v) in do* record_rating agent_id rating tenant_id; ret tt
    | None => ret tt
    end
  else ret tt.

Definition reconstruct_from_events (log : list AgentFabricEvent) : R unit :=
  do* modify (fun r => Reputation (env r) (persistent r) [] []);
  for_each (EventStore.replay None log) replay_event.

End Service.
End ReputationService.

(** * The service's calls *)

Section Effects.
Context `{Oracle} {S : Type} `{PersistenceStore S}.
Implicit Types r : reputation S.
Import ReputationService.

(** The record of a key, or the one a first use of it makes. *)
Definition record_or_new (agent_id : string) (tenant_id : option string) r : ReputationRecord :=
  default (ReputationRecord.new agent_id) (dget (_records r) (_key agent_id tenant_id)).

(** Two states of one service over the same event log. *)
Definition same_log r r' : Prop := events (env r') = events (env r) ∧ durable (env r') = durable (env r).

Lemma same_log_trans r1 r2 r3 : same_log r1 r2 → same_log r2 r3 → same_log r1 r3.
Proof. intros [E1 D1] [E2 D2]. split; congruence. Qed.

Lemma persist_record_eq agent tenant x r :
  dget (_records r) (_key agent tenant) = Some x →
  ∃ r', _persist agent tenant r = (Ok tt, r') ∧ _records r' = _records r ∧ same_log r r'.
Proof.
  intros Hx. unfold _persist, bind at 1, get_state. destruct (persistent r) eqn:Ep; cbn [negb]; [|by exists r].
  rewrite Hx. cbv zeta. unfold bind, of_res. eexists. split; [reflexivity|]. done.
Qed.

Lemma get_eq agent tenant r :
  ∃ r', get agent tenant r = (Ok (record_or_new agent tenant r), r') ∧ same_log r r' ∧
    _records r' = dset (_records r) (_key agent tenant) (record_or_new agent tenant r).
Proof.
  unfold get, record_or_new, bind at 1, gets. destruct (dget (_records r) (_key agent tenant)) as [x|] eqn:Ex; cbn [default].
  - exists r. by rewrite dset_same.
  - destruct (persist_record_eq agent tenant (ReputationRecord.new agent)
      (set_record (_key agent tenant) (ReputationRecord.new agent) r)) as (r' & Hp & Hr & Hl); [apply dget_dset_eq|].
    unfold bind, modify. rewrite Hp. by exists r'.
Qed.

Lemma record_change_eq agent tenant f entry r :
  ∃ r', record_change agent tenant f entry r = (Ok (f (record_or_new agent tenant r)), r') ∧ same_log r r' ∧
    _records r' = dset (_records r) (_key agent tenant) (f (record_or_new agent tenant r)).
Proof.
  unfold record_change. destruct (get_eq agent tenant r) as (r1 & Hg & Hl1 & Hr1). unfold bind at 1. rewrite Hg.
  set (x := record_or_new agent tenant r) in *. cbv zeta. unfold bind at 1, modify. unfold bind at 1.
  set (r2 := set_timeline _ _ _).
  destruct (persist_record_eq agent tenant (f x) r2) as (r3 & Hp & Hr3 & Hl3).
  { unfold r2. cbn. apply dget_dset_eq. }
  unfold bind, ret. rewrite Hp. exists r3. split; [done|]. split; [by eapply same_log_trans|].
  rewrite Hr3. unfold r2. cbn. by rewrite Hr1, dset_dset.
Qed.

(** ** The replay *)

Definition agent_of (e : AgentFabricEvent) : string := str_field_or (payload e) "agent_id" "".
Definition key_of (e : AgentFabricEvent) : string := _key (agent_of e) (opt_str_field (payload e) "tenant_id").

(** The events of a type that speak of a key. *)
Definition about (type key : string) (e : AgentFabricEvent) : Prop :=
  event_type e = type ∧ agent_of e ≠ "" ∧ key_of e = key ∧
  (type = "reputation.updated" → is_Some (dget (payload e) "rating")).

#[export] Instance about_dec type key e : Decision (about type key e).
Proof. unfold about. apply _. Defined.

Definition count_about (type key : string) (log : list AgentFabricEvent) : Z :=
  Z.of_nat (length (base.filter (about type key) log)).

(** An event whose numbers can be read. *)
Definition readable (e : AgentFabricEvent) : bool :=
  is_ok (float_field_or (payload e) "latency_ms" (lit 0 1)) &&
  match dget (payload e) "rating" with Some v => is_ok (py_float v) | None => true end.

(** What the records say after the events of [log]. *)
Definition tallies (log : list AgentFabricEvent) r : Prop :=
  ∀ key, match dget (_records r) key with
  | Some x =>
      ReputationRecord.successful_tasks x = count_about "task.completed" key log ∧
      ReputationRecord.failures x = count_about "task.failed" key log ∧
      ReputationRecord.human_ratings_count x = count_about "reputation.updated" key log
  | None =>
      count_about "task.completed" key log = 0 ∧ count_about "task.failed" key log = 0 ∧
      count_about "reputation.updated" key log = 0
  end.

Lemma count_snoc type key log e :
  count_about type key (log ++ [e]) = count_about type key log + if decide (about type key e) then 1 else 0.
Proof.
  unfold count_about. rewrite filter_app, length_app, filter_cons. case_decide; cbn; lia.
Qed.

Definition increment (type : string) (e : AgentFabricEvent) : Z := if decide (about type (key_of e) e) then 1 else 0.

Lemma increment_other type key e : key_of e ≠ key → (if decide (about type key e) then 1 else 0) = 0.
Proof. intros Hk. rewrite decide_False; [done|]. by intros (_ & _ & ? & _). Qed.

Lemma increment_yes type e :
  event_type e = type → agent_of e ≠ "" → (type = "reputation.updated" → is_Some (dget (payload e) "rating")) →
  increment type e = 1.
Proof. intros Ht Ha Hr. unfold increment. by rewrite decide_True. Qed.

Lemma increment_no type e : event_type e ≠ type → increment type e = 0.
Proof. intros Ht. unfold increment. rewrite decide_False; [done|]. by intros [? _]. Qed.

(** An event that changes one record adds one to its counts and to nothing else. *)
Lemma tallies_change log e r r' f :
  tallies log r →
  _records r' = dset (_records r) (key_of e) (f (record_or_new (agent_of e) (opt_str_field (payload e) "tenant_id") r)) →
  (∀ x, ReputationRecord.successful_tasks (f x) = ReputationRecord.successful_tasks x + increment "task.completed" e ∧
    ReputationRecord.failures (f x) = ReputationRecord.failures x + increment "task.failed" e ∧
    ReputationRecord.human_ratings_count (f x) = ReputationRecord.human_ratings_count x + increment "reputation.updated" e) →
  tallies (log ++ [e]) r'.
Proof.
  intros Ht Hr Hf key. rewrite Hr, dget_dset, !count_snoc. specialize (Ht key). case_bool_decide as Ek.
  - subst key. fold (increment "task.completed" e) (increment "task.failed" e) (increment "reputation.updated" e).
    set (x := record_or_new _ _ _). destruct (Hf x) as (-> & -> & ->).
    assert (Hx : ReputationRecord.successful_tasks x = count_about "task.completed" (key_of e) log ∧
      ReputationRecord.failures x = count_about "task.failed" (key_of e) log ∧
      ReputationRecord.human_ratings_count x = count_about "reputation.updated" (key_of e) log); [|naive_solver lia].
    unfold x, record_or_new. change (_key (agent_of e) _) with (key_of e).
    destruct (dget (_records r) (key_of e)) as [y|]; cbn [default]; [done|].
    destruct Ht as (-> & -> & ->). done.
  - rewrite !increment_other, !Z.add_0_r by done. exact Ht.
Qed.

Lemma tallies_skip log e r : tallies log r → (∀ type, about type (key_of e) e → type ∉ ["task.completed"; "task.failed"; "reputation.updated"]) →
  tallies (log ++ [e]) r.
Proof.
  intros Ht He key. specialize (Ht key). rewrite !count_snoc.
  assert (Hn : ∀ type, type ∈ ["task.completed"; "task.failed"; "reputation.updated"] →
    (if decide (about type key e) then 1 else 0) = 0).
  { intros type Hin. rewrite decide_False; [done|]. intros Ha. apply (He type); [|done].
    assert (Hk : key_of e = key) by apply Ha. by rewrite Hk. }
  rewrite !Hn, !Z.add_0_r by set_solver. exact Ht.
Qed.

Lemma replay_event_eq log e r :
  readable e = true → tallies log r →
  ∃ r', replay_event e r = (Ok tt, r') ∧ tallies (log ++ [e]) r'.
Proof.
  intros [Hlat Hrat]%andb_true_iff Ht. unfold replay_event. fold (agent_of e).
  destruct (bool_decide (event_type e ∈ ["task.completed"; "task.failed"])) eqn:Et.
  - apply bool_decide_eq_true in Et. case_bool_decide as Ea.
    { exists r. split; [done|]. apply tallies_skip; [done|]. by intros type (_ & ? & _). }
    destruct (float_field_or (payload e) "latency_ms" (lit 0 1)) as [lat|]; [|done].
    unfold bind at 1, of_res at 1, record_task.
    destruct (record_change_eq (agent_of e) (opt_str_field (payload e) "tenant_id")
      (ReputationRecord.task (bool_decide (event_type e = "task.completed")) lat)
      [("event", VStr "task"); ("success", VBool (bool_decide (event_type e = "task.completed"))); ("latency_ms", VNumber lat)] r)
      as (r' & Hc & _ & Hr).
    unfold bind, ret. rewrite Hc. exists r'. split; [done|]. eapply tallies_change; [done|exact Hr|].
    intros x. apply elem_of_cons in Et as [Et|Et%list_elem_of_singleton].
    + rewrite (increment_yes "task.completed") by done. rewrite !increment_no by (by rewrite Et).
      rewrite bool_decide_eq_true_2 by done. cbn. lia.
    + rewrite (increment_yes "task.failed") by done. rewrite !increment_no by (by rewrite Et).
      rewrite bool_decide_eq_false_2 by (by rewrite Et). cbn. lia.
  - apply bool_decide_eq_false in Et. destruct (bool_decide (event_type e = "reputation.updated")) eqn:Eu.
    2: { apply bool_decide_eq_false in Eu. exists r. split; [done|]. apply tallies_skip; [done|].
         intros type (<- & _) Hin. set_solver. }
    apply bool_decide_eq_true in Eu. destruct (dget (payload e) "rating") as [v|] eqn:Ev.
    2: { exists r. split; [done|]. apply tallies_skip; [done|]. intros type (<- & _ & _ & Hs) _. rewrite Ev in Hs.
         by destruct (Hs Eu). }
    case_bool_decide as Ea.
    { exists r. split; [done|]. apply tallies_skip; [done|]. by intros type (_ & ? & _). }
    destruct (py_float v) as [x|]; [|done]. unfold bind at 1, of_res at 1, record_rating.
    destruct (record_change_eq (agent_of e) (opt_str_field (payload e) "tenant_id") (ReputationRecord.rating x)
      [("event", VStr "rating"); ("rating", VNumber x)] r) as (r' & Hc & _ & Hr).
    unfold bind, ret. rewrite Hc. exists r'. split; [done|]. eapply tallies_change; [done|exact Hr|].
    intros y. rewrite (increment_yes "reputation.updated") by (rewrite ?Ev; eauto).
    rewrite !increment_no by (by rewrite Eu). cbn. lia.
Qed.

End Effects.

(** * Properties *)

(** The reputation of an agent is what the event log says. When the numbers
    of the log can be read, the records rebuilt from it count, for every agent of
    every tenant, the tasks it completed, the tasks it failed and its ratings,
    whatever the service held before. *)
Theorem reputation_from_events {S : Type} `{PersistenceStore S} (log : list AgentFabricEvent) (r : reputation S) :
  Forall (fun e => readable e = true) log →
  ∃ r', ReputationService.reconstruct_from_events log r = (Ok tt, r') ∧ tallies log r'.
Proof.
  intros Hlog. unfold ReputationService.reconstruct_from_events, EventStore.replay, bind, modify.
  set (r0 := Reputation _ _ [] []). assert (Hr0 : tallies [] r0) by done. clearbody r0. clear r.
  assert (Hgo : ∀ before r, tallies before r → ∃ r', for_each log ReputationService.replay_event r = (Ok tt, r') ∧
    tallies (before ++ log) r'); [|exact (Hgo [] r0 Hr0)].
  induction Hlog as [|e log He Hlog IH]; intros before r Hr; [exists r; by rewrite app_nil_r|].
  destruct (replay_event_eq before e r He Hr) as (r1 & E & Hr1).
  destruct (IH (before ++ [e]) r1 Hr1) as (r2 & E2 & Hr2). rewrite <- app_assoc in Hr2.
  exists r2. split; [|exact Hr2]. cbn [for_each]. unfold bind. by rewrite E.
Qed.

(** ** Witness *)

(** A log of a completed task, a failed one and a rating. *)
Definition demo_reputation_log : list AgentFabricEvent :=
  let event n ty d := Event ("evt-" +:+ pretty (Z.of_nat n)) (Z.of_nat n) ty "wf" d 0 "" "" in
  [event 1%nat "task.completed" [("agent_id", VStr "a-1"); ("latency_ms", VFloat "12.5"); ("tenant_id", VStr "t-1")];
   event 2%nat "task.failed" [("agent_id", VStr "a-1"); ("latency_ms", VFloat "3.0"); ("tenant_id", VStr "t-1")];
   event 3%nat "reputation.updated" [("agent_id", VStr "a-1"); ("rating", VInt 4); ("tenant_id", VStr "t-1")]].

Lemma reputation_from_events_witness :
  ∃ r', ReputationService.reconstruct_from_events demo_reputation_log
      (Reputation demo_start true [] []) = (Ok tt, r') ∧
    tallies demo_reputation_log r' ∧ count_about "task.completed" "t-1:a-1" demo_reputation_log = 1.
Proof.
  destruct (reputation_from_events demo_reputation_log (Reputation demo_start true [] [])) as (r' & E & Ht).
  - repeat constructor.
  - exists r'. split; [exact E|]. split; [exact Ht|reflexivity].
Defined.
