(* ===== verification/Recovery.v ===== *)
(** Recovery (agentfabric/recovery): the state of a workflow rebuilt from its
    events, the check of the chain before it, and the lookup of checkpoints. *)

From stdpp Require Import base option list strings gmap sets.
From Stdlib Require Import ZArith Lia.
From S2P Require Import Prelude PyVal PyTime Store EventStore.

Local Open Scope Z_scope.

(** * state_rebuilder.py *)

Module StateRebuilder.

(** The local variables of [rebuild_workflow]: the fields of [state] that the
    events fill, and the sets. *)
Record t := Mk {
  status : string;
  node_results : doc;
  node_status : dict string;
  retry_counters : dict Z;
  checkpoints : list string;
  delegated_assignments : dict string;
  traces : list doc;
  completed : gset string;
  failed : gset string;
  started : gset string;
}.

Definition init : t := Mk "unknown" [] [] [] [] [] [] ∅ ∅ ∅.

Definition set_status (x : string) (s : t) : t :=
  Mk x (node_results s) (node_status s) (retry_counters s) (checkpoints s) (delegated_assignments s) (traces s)
    (completed s) (failed s) (started s).
Definition set_node (id x : string) (s : t) : t :=
  Mk (status s) (node_results s) (dset (node_status s) id x) (retry_counters s) (checkpoints s)
    (delegated_assignments s) (traces s) (completed s) (failed s) (started s).
Definition set_result (id : string) (v : val) (s : t) : t :=
  Mk (status s) (dset (node_results s) id v) (node_status s) (retry_counters s) (checkpoints s)
    (delegated_assignments s) (traces s) (completed s) (failed s) (started s).
Definition set_retries (id : string) (n : Z) (s : t) : t :=
  Mk (status s) (node_results s) (node_status s) (dset (retry_counters s) id n) (checkpoints s)
    (delegated_assignments s) (traces s) (completed s) (failed s) (started s).
Definition add_checkpoint (id : string) (s : t) : t :=
  Mk (status s) (node_results s) (node_status s) (retry_counters s) (checkpoints s ++ [id])
    (delegated_assignments s) (traces s) (completed s) (failed s) (started s).
Definition delegate (id agent : string) (s : t) : t :=
  Mk (status s) (node_results s) (node_status s) (retry_counters s) (checkpoints s)
    (dset (delegated_assignments s) id agent) (traces s) (completed s) (failed s) (started s).
Definition add_trace (x : doc) (s : t) : t :=
  Mk (status s) (node_results s) (node_status s) (retry_counters s) (checkpoints s)
    (delegated_assignments s) (traces s ++ [x]) (completed s) (failed s) (started s).
Definition set_sets (c f st : gset string) (s : t) : t :=
  Mk (status s) (node_results s) (node_status s) (retry_counters s) (checkpoints s)
    (delegated_assignments s) (traces s) c f st.

(** [for x in l: s = f(x, s)] *)
Fixpoint fold_res {A B} (f : A → B → res B) (l : list A) (s : B) : res B :=
  match l with
  | [] => Ok s
  | x :: l' => let? s := f x s in fold_res f l' s
  end.

(** The nodes of the graph of a started workflow. *)
Definition start_node (node : val) (s : t) : res t :=
  let? id := vindex node "node_id" in
  let id := py_str id in
  let s := set_node id "pending" s in
  let? agent := vindex node "agent_id" in
  Ok (delegate id (py_str agent) s).

Definition nodes_of (payload : doc) : res (list val) := py_iter (dget_or payload "nodes" (VList [])).

(** One event, of a type and with a payload. *)
Definition apply (type : string) (payload : doc) (s : t) : res t :=
  if bool_decide (type = "workflow.started") then
    let s := set_status "running" s in
    let? graph := dict_field_or_empty payload "task_graph" in
    let? nodes := nodes_of graph in
    fold_res start_node nodes s
  else if bool_decide (type = "task.started") then
    let? id := str_field payload "node_id" in
    let s := set_sets (completed s) (failed s) ({[id]} ∪ started s) s in
    let? n := int_field_or payload "attempt" 1 in
    Ok (set_retries id n s)
  else if bool_decide (type = "task.completed") then
    let? id := str_field payload "node_id" in
    let s := set_node id "completed" (set_sets ({[id]} ∪ completed s) (failed s ∖ {[id]}) (started s) s) in
    let s := match dget payload "result" with Some v => set_result id v s | None => s end in
    Ok (add_trace payload s)
  else if bool_decide (type = "task.failed") then
    let? id := str_field payload "node_id" in
    let s := if bool_decide (id ∈ completed s) then s
             else set_node id "failed" (set_sets (completed s) ({[id]} ∪ failed s) (started s) s) in
    let? n := int_field_or payload "attempt" 1 in
    Ok (add_trace payload (set_retries id n s))
  else if bool_decide (type = "human_approval.requested") then
    let s := set_status "awaiting_approval" s in
    let? nodes := nodes_of payload in
    Ok (foldl (fun s id => set_node (py_str id) "awaiting_approval" s) s nodes)
  else if bool_decide (type = "human_approval.resolved") then
    let? nodes := nodes_of payload in
    Ok (set_status "running" (foldl (fun s id => set_node (py_str id) "pending" s) s nodes))
  else if bool_decide (type = "checkpoint.created") then
    let? id := str_field payload "checkpoint_id" in Ok (add_checkpoint id s)
  else if bool_decide (type = "workflow.completed") then Ok (set_status "completed" s)
  else if bool_decide (type = "workflow") then
    Ok (if is_str (dget payload "status") "completed" then set_status "completed" s else s)
  else Ok s.

Definition apply_event (e : AgentFabricEvent) (s : t) : res t := apply (event_type e) (payload e) s.

Definition completed_task_ids (s : t) : list string := py_sorted_set (completed s).
Definition pending_task_ids (s : t) : list string :=
  py_sorted_set (list_to_set (node_status s).*1 ∖ completed s ∖ failed s).
Definition failed_task_ids (s : t) : list string := py_sorted_set (failed s ∖ completed s).

(** The loop over the sorted events, and what follows it. *)
Definition rebuild_workflow (events : list AgentFabricEvent) : res t :=
  let? s := fold_res apply_event (py_sorted EventStore.seq_le events) init in
  Ok (if bool_decide (status s = "unknown") && negb (bool_decide (started s = ∅)) then set_status "running" s else s).

(** [state], as it is returned. *)
Definition as_dict (workflow_id : string) (s : t) : doc :=
  [("workflow_id", VStr workflow_id); ("status", VStr (status s)); ("node_results", VDict (node_results s));
   ("node_status", VDict ((fun p => (p.1, VStr p.2)) <$> node_status s));
   ("retry_counters", VDict ((fun p => (p.1, VInt p.2)) <$> retry_counters s));
   ("completed_task_ids", VList (map VStr (completed_task_ids s)));
   ("pending_task_ids", VList (map VStr (pending_task_ids s)));
   ("failed_task_ids", VList (map VStr (failed_task_ids s)));
   ("checkpoints", VList (map VStr (checkpoints s)));
   ("delegated_assignments", VDict ((fun p => (p.1, VStr p.2)) <$> delegated_assignments s));
   ("traces", VList (map VDict (traces s)))].

End StateRebuilder.

(** * checkpoint_loader.py *)

Module CheckpointLoader.
Section Loader.
Context {S : Type} `{PersistenceStore S}.

(** [CheckpointLoader(persistence)] *)
Definition init : M S unit := modify st_initialize.

Definition load (workflow_id checkpoint_id : string) : M S doc :=
  let* checkpoint := gets (st_get "checkpoints" (workflow_id +:+ ":" +:+ checkpoint_id)) in
  match checkpoint with
  | None => raise KeyError (repr_str ("checkpoint not found: " +:+ workflow_id +:+ ":" +:+ checkpoint_id))
  | Some d => ret d
  end.

Definition latest (workflow_id : string) : M S (option doc) :=
  let* keys := gets (st_keys "checkpoints") in
  let matching := List.filter (starts_with (workflow_id +:+ ":")) keys in
  match last (py_sorted str_le matching) with
  | None => ret None
  | Some k => gets (st_get "checkpoints" k)
  end.

End Loader.
End CheckpointLoader.

(** * integrity_validator.py, replay_engine.py *)

Module ReplayRecoveryEngine.
Section Engine.
Context `{Oracle} {S : Type} `{PersistenceStore S}.

Definition validate_or_raise (log : list AgentFabricEvent) : res unit :=
  if EventStore.validate_integrity log then Ok tt
  else Err (Exn RuntimeError "event integrity validation failed").

(** [recover_workflow] of an engine with a persistence backend, or without. *)
Definition recover_workflow (persistence : bool) (log : list AgentFabricEvent) (workflow_id : string) : M S doc :=
  do* of_res (validate_or_raise log);
  match EventStore.replay (Some workflow_id) log with
  | [] => raise KeyError (repr_str ("workflow not found: " +:+ workflow_id))
  | events =>
      let* s := of_res (StateRebuilder.rebuild_workflow events) in
      let status := StateRebuilder.status s in
      let state := StateRebuilder.as_dict workflow_id s ++
        [("recovered", VBool true);
         ("safe_to_resume", VBool (bool_decide (status ∈ ["running"; "awaiting_approval"])));
         ("skip_completed_task_ids", VList (map VStr (StateRebuilder.completed_task_ids s)))] in
      if persistence then
        do* CheckpointLoader.init;
        let* latest := CheckpointLoader.latest workflow_id in
        ret (match latest with Some d => state ++ [("latest_checkpoint", VDict d)] | None => state end)
      else ret state
  end.

End Engine.
End ReplayRecoveryEngine.
