(* ===== verification/Workflow.v ===== *)
(** The mesh workflow engine (agentfabric/collaboration/workflow.py): it runs the
    nodes of a task graph batch by batch, with retries, approvals, checkpoints,
    and an event for every step. The nodes of a batch run one after the other, as
    with [parallel=False]. *)

From stdpp Require Import base option list strings gmap pretty.
From Stdlib Require Import ZArith Lia SpecFloat.
From S2P Require Import Prelude PyVal PyTime Floats Store EventStore Graph ContextStore Reputation.

Local Open Scope Z_scope.

(** * Workflow states *)

Module WorkflowState.
Record t := Mk {
  workflow_id : string;
  status : string;
  node_results : doc;
  node_status : dict string;
  retry_counters : dict Z;
  delegated_assignments : dict string;
  checkpoints : list string;
  traces : list doc;
}.

Definition new (workflow_id : string) : t := Mk workflow_id "running" [] [] [] [] [] [].

(** The ids whose status is [x], in the order of the nodes. *)
Definition with_status (x : string) (s : t) : list string :=
  (base.filter (fun p : string * string => p.2 = x) (node_status s)).*1.

Definition as_dict (s : t) : doc :=
  [("workflow_id", VStr (workflow_id s)); ("status", VStr (status s)); ("node_results", VDict (node_results s));
   ("node_status", VDict ((fun p => (p.1, VStr p.2)) <$> node_status s));
   ("retry_counters", VDict ((fun p => (p.1, VInt p.2)) <$> retry_counters s));
   ("completed_task_ids", VList (map VStr (with_status "completed" s)));
   ("pending_task_ids", VList (map VStr (with_status "pending" s)));
   ("failed_task_ids", VList (map VStr (with_status "failed" s)));
   ("delegated_assignments", VDict ((fun p => (p.1, VStr p.2)) <$> delegated_assignments s));
   ("checkpoints", VList (map VStr (checkpoints s))); ("traces", VList (map VDict (traces s)))].

Definition set_status (x : string) (s : t) : t :=
  Mk (workflow_id s) x (node_results s) (node_status s) (retry_counters s) (delegated_assignments s) (checkpoints s) (traces s).
Definition set_node (id x : string) (s : t) : t :=
  Mk (workflow_id s) (status s) (node_results s) (dset (node_status s) id x) (retry_counters s) (delegated_assignments s)
    (checkpoints s) (traces s).
Definition delegate (id agent : string) (s : t) : t :=
  Mk (workflow_id s) (status s) (node_results s) (node_status s) (retry_counters s)
    (dset (delegated_assignments s) id agent) (checkpoints s) (traces s).
Definition set_result (id : string) (v : val) (s : t) : t :=
  Mk (workflow_id s) (status s) (dset (node_results s) id v) (node_status s) (retry_counters s) (delegated_assignments s)
    (checkpoints s) (traces s).
Definition set_retries (id : string) (n : Z) (s : t) : t :=
  Mk (workflow_id s) (status s) (node_results s) (node_status s) (dset (retry_counters s) id n) (delegated_assignments s)
    (checkpoints s) (traces s).
Definition add_checkpoint (id : string) (s : t) : t :=
  Mk (workflow_id s) (status s) (node_results s) (node_status s) (retry_counters s) (delegated_assignments s)
    (checkpoints s ++ [id]) (traces s).
Definition add_trace (x : doc) (s : t) : t :=
  Mk (workflow_id s) (status s) (node_results s) (node_status s) (retry_counters s) (delegated_assignments s)
    (checkpoints s) (traces s ++ [x]).
End WorkflowState.

Abbreviation WorkflowState := WorkflowState.t.

(** * The engine *)

(** [_states], the context store with the process it runs in, and the state of
    the reputation service. *)
Record engine (S : Type) := Engine {
  context_store : contexts S;
  rep_persistent : bool;
  rep_records : dict ReputationRecord;
  rep_timeline : dict (list doc);
  _states : dict WorkflowState;
}.
Arguments Engine {S}.
Arguments context_store {S}.
Arguments rep_persistent {S}.
Arguments rep_records {S}.
Arguments rep_timeline {S}.
Arguments _states {S}.

Module MeshWorkflowEngine.
Section Engine.
Context `{Oracle} {S : Type} `{PersistenceStore S}.
#[local] Abbreviation E := (M (engine S)).

(** The function that runs a node. It is given the node and its payload, and
    returns a value or raises; what it does may depend on when it is called. *)
Context (node_runner : nat → TaskNode → doc → res val).

Definition set_context (c : contexts S) (e : engine S) : engine S :=
  Engine c (rep_persistent e) (rep_records e) (rep_timeline e) (_states e).

Definition on_context {A} (m : M (contexts S) A) : E A := zoom context_store set_context m.

Definition on_env {A} (m : M (sys S) A) : E A := on_context (ContextStore.on_env m).

Definition on_reputation {A} (m : M (reputation S) A) : E A :=
  zoom (fun e => Reputation (ContextStore.env (context_store e)) (rep_persistent e) (rep_records e) (rep_timeline e))
    (fun r e => Engine
       (Contexts (Reputation.env r) (ContextStore.persistent (context_store e)) (ContextStore._records (context_store e)))
       (Reputation.persistent r) (Reputation._records r) (Reputation._timeline r) (_states e)) m.

Definition append (type workflow_id : string) (payload : doc) : E AgentFabricEvent :=
  on_env (EventStore.append type workflow_id payload).

(** [perf_counter()], in seconds *)
Definition perf_seconds : E float :=
  let* us := on_env perf_counter in ret (fdiv (float_of_Z us) (float_of_Z 1000000)).

Definition set_state (workflow_id : string) (x : WorkflowState) (e : engine S) : engine S :=
  Engine (context_store e) (rep_persistent e) (rep_records e) (rep_timeline e) (dset (_states e) workflow_id x).

(** The local variable [state], which is the object [_states] holds. *)
Definition state_of (workflow_id : string) : E WorkflowState :=
  gets (fun e => default (WorkflowState.new workflow_id) (dget (_states e) workflow_id)).

Definition update_state (workflow_id : string) (f : WorkflowState → WorkflowState) : E unit :=
  let* x := state_of workflow_id in modify (set_state workflow_id (f x)).

(** ** A node *)

Section Node.
Context (workflow_id : string) (node : TaskNode) (initial_payload : doc).

Definition tenant : option string := opt_str_field initial_payload "tenant_id".
Definition organization : option string := opt_str_field initial_payload "organization_id".

Definition trace_of (attempts : Z) (status : string) (error : option string) (started_at finished_at : Z)
    (latency_ms : float) : doc :=
  [("node_id", VStr (TaskNode.node_id node)); ("agent_id", VStr (TaskNode.agent_id node));
   ("attempt", VInt attempts); ("status", VStr status)] ++
  match error with Some m => [("error", VStr m)] | None => [] end ++
  [("started_at", VStr (isoformat started_at)); ("finished_at", VStr (isoformat finished_at));
   ("latency_ms", VNumber latency_ms); ("tenant_id", opt_str tenant); ("organization_id", opt_str organization)].

Definition latency_since (started : float) : E float :=
  let* now := perf_seconds in ret (fmul (fsub now started) (float_of_Z 1000)).

(** The body of the [try]. *)
Definition run_node (attempts : Z) (started : float) (started_at : Z) : E unit :=
  let* event := append "task.started" workflow_id
    [("node_id", VStr (TaskNode.node_id node)); ("agent_id", VStr (TaskNode.agent_id node));
     ("attempt", VInt attempts); ("tenant_id", opt_str tenant); ("organization_id", opt_str organization)] in
  let* state := state_of workflow_id in
  let* record := on_context (ContextStore.get_or_create workflow_id) in
  let payload :=
    [("workflow_id", VStr workflow_id); ("node_id", VStr (TaskNode.node_id node));
     ("initial_payload", VDict initial_payload); ("node_payload", VDict (TaskNode.payload node));
     ("dependency_results", VDict (foldl (fun d dep => match dget (WorkflowState.node_results state) dep with
                                                       | Some v => dset d dep v | None => d end)
                                     [] (TaskNode.dependencies node)));
     ("shared_context", VDict (ContextRecord.snapshot record))] in
  let* now := gets (fun e => tick (ContextStore.env (context_store e))) in
  let* result := of_res (node_runner now node payload) in
  let* latency_ms := latency_since started in
  do* update_state workflow_id (WorkflowState.set_result (TaskNode.node_id node) result);
  do* update_state workflow_id (WorkflowState.set_node (TaskNode.node_id node) "completed");
  let* finished_at := on_env utc_now in
  let trace := trace_of attempts "completed" None started_at finished_at latency_ms in
  do* update_state workflow_id (WorkflowState.add_trace trace);
  do* on_context (ContextStore.update_task_state workflow_id (TaskNode.node_id node)
        [("status", VStr "completed"); ("result", result)]);
  let* event := append (EventType.value EventType.TASK) workflow_id trace in
  let* event := append "task.completed" workflow_id (dset trace "result" result) in
  do* on_reputation (ReputationService.record_task (TaskNode.agent_id node) true latency_ms tenant);
  ret tt.

(** The [except Exception]. *)
Definition node_failed (attempts : Z) (started : float) (started_at : Z) (exc : exn) : E unit :=
  let* latency_ms := latency_since started in
  let* finished_at := on_env utc_now in
  let trace := trace_of attempts "failed" (Some (exn_msg exc)) started_at finished_at latency_ms in
  do* update_state workflow_id (WorkflowState.add_trace trace);
  let* event := append (EventType.value EventType.TASK) workflow_id trace in
  let* event := append "task.failed" workflow_id trace in
  do* on_reputation (ReputationService.record_task (TaskNode.agent_id node) false latency_ms tenant);
  if attempts >? TaskNode.max_retries node then
    do* update_state workflow_id (WorkflowState.set_node (TaskNode.node_id node) "failed");
    do* update_state workflow_id (WorkflowState.set_status "failed");
    raise ConflictError ("workflow failed at " +:+ TaskNode.node_id node +:+ ": " +:+ exn_msg exc)
  else ret tt.

(** An attempt; it says whether the node is done. *)
Definition attempt (attempts : Z) : E bool :=
  do* update_state workflow_id (WorkflowState.set_retries (TaskNode.node_id node) attempts);
  let* started := perf_seconds in
  let* started_at := on_env utc_now in
  try_except (do* run_node attempts started started_at; ret true)
    (fun exc => do* node_failed attempts started started_at exc; ret false).

(** The loop [while attempts <= node.max_retries], of [n] turns at most. *)
Fixpoint attempt_loop (n : nat) (attempts : Z) : E unit :=
  match n with
  | O => ret tt
  | Datatypes.S n' =>
      if attempts <=? TaskNode.max_retries node then
        let* finished := attempt (attempts + 1) in
        if finished : bool then ret tt else attempt_loop n' (attempts + 1)
      else ret tt
  end.

Definition _run_node_with_retries : E unit := attempt_loop (Z.to_nat (TaskNode.max_retries node + 1)) 0.

End Node.

(** ** The workflow *)

Section Start.
Context (task_graph : TaskGraph.t) (initial_payload : doc) (approved_nodes : list string).

Definition graph_id : string := TaskGraph.graph_id task_graph.

Definition owner : doc :=
  [("tenant_id", opt_str (tenant initial_payload)); ("organization_id", opt_str (organization initial_payload))].

Definition node_dict (n : TaskNode) : doc :=
  [("node_id", VStr (TaskNode.node_id n)); ("agent_id", VStr (TaskNode.agent_id n));
   ("capability", opt_str (TaskNode.capability n)); ("dependencies", VList (map VStr (TaskNode.dependencies n)));
   ("max_retries", VInt (TaskNode.max_retries n));
   ("requires_human_approval", VBool (TaskNode.requires_human_approval n)); ("payload", VDict (TaskNode.payload n))].

Definition started_payload : doc :=
  [("status", VStr "started"); ("tenant_id", opt_str (tenant initial_payload));
   ("organization_id", opt_str (organization initial_payload));
   ("task_graph", VDict [("graph_id", VStr graph_id);
                         ("nodes", VList (map (fun n => VDict (node_dict n)) (TaskGraph.nodes task_graph)))]);
   ("initial_payload", VDict initial_payload)].

Definition enter_node (s : WorkflowState) (n : TaskNode) : WorkflowState :=
  WorkflowState.delegate (TaskNode.node_id n) (TaskNode.agent_id n)
    (WorkflowState.set_node (TaskNode.node_id n) "pending" s).

Definition pending_approval (batch : list TaskNode) : list TaskNode :=
  base.filter (fun n => TaskNode.requires_human_approval n = true ∧ TaskNode.node_id n ∉ approved_nodes) batch.

(** The workflow stops and waits for approvals. *)
Definition await_approval (pending : list TaskNode) : E unit :=
  do* for_each pending (fun n => update_state graph_id (WorkflowState.set_node (TaskNode.node_id n) "awaiting_approval"));
  do* update_state graph_id (WorkflowState.set_status "awaiting_approval");
  let* event := append "human_approval.requested" graph_id
    ([("status", VStr "awaiting_approval")] ++ owner ++ [("nodes", VList (map (VStr ∘ TaskNode.node_id) pending))]) in
  ret tt.

Definition save_checkpoint : E unit :=
  let* state := state_of graph_id in
  let checkpoint_id := "batch-" +:+ pretty (Z.of_nat (length (WorkflowState.checkpoints state)) + 1) in
  let* snapshot := on_context (ContextStore.checkpoint graph_id checkpoint_id) in
  do* update_state graph_id (WorkflowState.add_checkpoint checkpoint_id);
  let* state := state_of graph_id in
  let* event := append "checkpoint.created" graph_id
    ([("checkpoint_id", VStr checkpoint_id)] ++ owner ++
     [("workflow_state", VDict (WorkflowState.as_dict state)); ("shared_context", VDict snapshot)]) in
  ret tt.

(** The loop over the batches; it says whether all of them ran. *)
Fixpoint run_batches (batches : list (list TaskNode)) : E bool :=
  match batches with
  | [] => ret true
  | batch :: batches' =>
      match pending_approval batch with
      | _ :: _ => do* await_approval (pending_approval batch); ret false
      | [] =>
          do* for_each batch (fun n => _run_node_with_retries graph_id n initial_payload);
          do* save_checkpoint;
          run_batches batches'
      end
  end.

Definition finish : E unit :=
  do* update_state graph_id (WorkflowState.set_status "completed");
  let* event := append (EventType.value EventType.WORKFLOW) graph_id ([("status", VStr "completed")] ++ owner) in
  let* state := state_of graph_id in
  let* event := append "workflow.completed" graph_id (dupdate (WorkflowState.as_dict state) owner) in
  ret tt.

(** [get_or_create(graph_id).conversation_state.update(initial_payload)], which
    is not written to the backend. *)
Definition seed_context : E unit :=
  on_context (
    let* record := ContextStore.get_or_create graph_id in
    modify (ContextStore.set_record graph_id
      (ContextRecord.set_conversation (dupdate (ContextRecord.conversation_state record) initial_payload) record))).

Definition start : E doc :=
  let* graph := of_res (build "task graph contains duplicate node_id values" (TaskGraph.nodes task_graph)) in
  do* modify (set_state graph_id (foldl enter_node (WorkflowState.new graph_id) (TaskGraph.nodes task_graph)));
  do* seed_context;
  let* event := append "workflow.started" graph_id started_payload in
  let* batches := of_res (topological_batches (TaskGraph.nodes task_graph)) in
  let* completed := run_batches batches in
  do* (if completed : bool then finish else ret tt);
  let* state := state_of graph_id in
  ret (WorkflowState.as_dict state).

End Start.

Definition get (workflow_id : string) : E (option doc) :=
  gets (fun e => WorkflowState.as_dict <$> dget (_states e) workflow_id).

Definition recover_from_checkpoint (workflow_id checkpoint_id : string) : E doc :=
  on_context (ContextStore.restore workflow_id checkpoint_id).

End Engine.
End MeshWorkflowEngine.
