(* ===== verification/WorkflowReplay.v ===== *)
(** The mesh workflow engine and recovery together: what the engine did to the
    state of a workflow is what recovery rebuilds from the events it wrote. *)

From stdpp Require Import base option list strings gmap sets pretty.
From Stdlib Require Import ZArith Lia SpecFloat Sorted.
From S2P Require Import Prelude PyVal PyTime Floats Store EventStore Graph ContextStore Reputation Recovery Workflow.

Local Open Scope Z_scope.

(** * Calls and what they yield *)

Definition yields {S A} (m : M S A) (s : S) (Q : res A → S → Prop) : Prop := Q (m s).1 (m s).2.

Lemma yields_bind {S A B} (m : M S A) (f : A → M S B) s (Q : res B → S → Prop) :
  yields m s (fun r s1 => match r with Ok a => yields (f a) s1 Q | Err e => Q (Err e) s1 end) →
  yields (bind m f) s Q.
Proof. unfold yields, bind. by destruct (m s) as [[a|e] s1]. Qed.

Lemma yields_try {S A} (m : M S A) h s (Q : res A → S → Prop) :
  yields m s (fun r s1 => match r with Ok a => Q (Ok a) s1 | Err e => yields (h e) s1 Q end) →
  yields (try_except m h) s Q.
Proof. unfold yields, try_except. by destruct (m s) as [[a|e] s1]. Qed.

Lemma yields_ret {S A} (a : A) (s : S) (Q : res A → S → Prop) : Q (Ok a) s → yields (ret a) s Q.
Proof. done. Qed.

Lemma yields_weaken {S A} (m : M S A) s (Q Q' : res A → S → Prop) :
  yields m s Q → (∀ r s', Q r s' → Q' r s') → yields m s Q'.
Proof. unfold yields. auto. Qed.

(** * The engine and the rebuilt state *)

Lemma fold_res_snoc {A B} (f : A → B → res B) l x s :
  StateRebuilder.fold_res f (l ++ [x]) s = (let? s := StateRebuilder.fold_res f l s in f x s).
Proof.
  revert s. induction l as [|y l IH]; intros s; cbn [app StateRebuilder.fold_res res_bind].
  - by destruct (f x s).
  - destruct (f y s) as [s'|e]; cbn [res_bind]; [apply IH|done].
Qed.

Section Replay.
Context `{Oracle} {S : Type} `{PersistenceStore S}.
Context (node_runner : nat → TaskNode → doc → res val).
Implicit Types (s : engine S) (es : WorkflowState) (R : StateRebuilder.t) (id : string).
Import MeshWorkflowEngine.

Definition log s : list AgentFabricEvent := events (ContextStore.env (context_store s)).

(** The engine holds [es] for the workflow [w]; the log is a valid chain, and
    the events of [w] rebuild to [R]. *)
Record tracks (w : string) s es R : Prop := Tracks {
  tr_state : dget (_states s) w = Some es;
  tr_chain : EventStore.chain (log s);
  tr_fold : StateRebuilder.fold_res StateRebuilder.apply_event (EventStore.replay (Some w) (log s)) StateRebuilder.init = Ok R;
}.

(** A call that neither writes events nor touches the workflows. *)
Definition quiet s s' : Prop := _states s' = _states s ∧ log s' = log s.

Lemma tracks_quiet w s s' es R : quiet s s' → tracks w s es R → tracks w s' es R.
Proof. intros [Hs Hl] [? ? ?]. split; [by rewrite Hs|by rewrite Hl|by rewrite Hl]. Qed.

Section Calls.
Context (w : string) {s : engine S} {es : WorkflowState} {R : StateRebuilder.t} (Ht : tracks w s es R).

Lemma y_quiet {A} (m : M (engine S) A) a s' (Q : res A → engine S → Prop) :
  m s = (Ok a, s') → quiet s s' → (∀ a s', tracks w s' es R → Q (Ok a) s') → yields m s Q.
Proof. unfold yields. intros -> Hq HQ. apply HQ. by apply (tracks_quiet w s). Qed.

Lemma y_now (Q : res Z → engine S → Prop) : (∀ t s', tracks w s' es R → Q (Ok t) s') → yields (on_env utc_now) s Q.
Proof. by eapply y_quiet. Qed.

Lemma y_perf (Q : res float → engine S → Prop) : (∀ x s', tracks w s' es R → Q (Ok x) s') → yields perf_seconds s Q.
Proof. by eapply y_quiet. Qed.

Lemma y_latency x (Q : res float → engine S → Prop) :
  (∀ x s', tracks w s' es R → Q (Ok x) s') → yields (latency_since x) s Q.
Proof. by eapply y_quiet. Qed.

Lemma y_state (Q : res WorkflowState → engine S → Prop) : Q (Ok es) s → yields (state_of w) s Q.
Proof. unfold yields, state_of, gets. cbn. by rewrite (tr_state _ _ _ _ Ht). Qed.

Lemma y_update f (Q : res unit → engine S → Prop) :
  (∀ s', tracks w s' (f es) R → Q (Ok tt) s') → yields (update_state w f) s Q.
Proof.
  intros HQ. apply yields_bind, y_state. unfold yields, modify. cbn. apply HQ.
  destruct Ht as [Hs Hc Hf]. split; [apply dget_dset_eq|exact Hc|exact Hf].
Qed.

Lemma y_append ty body R' (Q : res AgentFabricEvent → engine S → Prop) :
  bool_decide (ty ∈ EVENT_TYPE_REGISTRY) = true → StateRebuilder.apply ty body R = Ok R' →
  (∀ e s', tracks w s' es R' → Q (Ok e) s') → yields (append ty w body) s Q.
Proof.
  intros Hty Ha HQ. unfold yields, append, on_env, on_context, ContextStore.on_env, zoom. rewrite EventStore.append_eq, Hty.
  cbv zeta. apply HQ. destruct Ht as [Hs Hc Hf]. split; [exact Hs| |].
  - unfold log. cbn. by apply EventStore.chain_next.
  - unfold log. cbn -[EventStore.replay]. unfold EventStore.replay. rewrite filter_app, filter_cons, decide_True by done.
    rewrite filter_nil. rewrite fold_res_snoc. unfold EventStore.replay in Hf. unfold log in Hf. rewrite Hf. exact Ha.
Qed.

Lemma y_reputation agent success x tn (Q : res ReputationRecord → engine S → Prop) :
  (∀ r s', tracks w s' es R → Q (Ok r) s') → yields (on_reputation (ReputationService.record_task agent success x tn)) s Q.
Proof.
  unfold ReputationService.record_task.
  destruct (record_change_eq agent tn (ReputationRecord.task success x)
    [("event", VStr "task"); ("success", VBool success); ("latency_ms", VNumber x)]
    (Reputation (ContextStore.env (context_store s)) (rep_persistent s) (rep_records s) (rep_timeline s)))
    as (r' & E & [Hl _] & _).
  eapply y_quiet; [unfold on_reputation, zoom; rewrite E; reflexivity|]. split; [done|exact Hl].
Qed.

(** The calls of the context store write no events. *)
Lemma context_quiet {A} (m : M (contexts S) A) a c' :
  m (context_store s) = (Ok a, c') →
  preserves (fun c => events (ContextStore.env c) = log s) m →
  on_context m s = (Ok a, set_context c' s) ∧ quiet s (set_context c' s).
Proof.
  intros E Hm. unfold on_context, zoom. rewrite E. split; [done|]. split; [done|].
  by apply (preserves_run _ _ _ _ _ Hm E).
Qed.

End Calls.

Lemma get_or_create_log w l : preserves (fun c : contexts S => events (ContextStore.env c) = l) (ContextStore.get_or_create w).
Proof. intros c Hc. unfold after, ContextStore.get_or_create, bind, get_state. by destruct (dget _ w). Qed.

Lemma _persist_log r l : preserves (fun c : contexts S => events (ContextStore.env c) = l) (ContextStore._persist r).
Proof. intros c Hc. unfold after, ContextStore._persist, bind, get_state. by destruct (ContextStore.persistent c). Qed.

Lemma update_log w f l : preserves (fun c : contexts S => events (ContextStore.env c) = l) (ContextStore.update w f).
Proof.
  apply preserves_bind; [apply get_or_create_log|]. intros r. apply preserves_bind; [by intros c Hc|].
  intros now. cbv zeta. apply preserves_bind; [by intros c Hc|]. intros _. apply _persist_log.
Qed.

Lemma checkpoint_log w cp l : preserves (fun c : contexts S => events (ContextStore.env c) = l) (ContextStore.checkpoint w cp).
Proof.
  apply preserves_bind; [apply get_or_create_log|]. intros r. cbv zeta. apply preserves_bind; [by intros c Hc|].
  intros now. apply preserves_bind; [by intros c Hc|]. intros _. apply preserves_bind; [apply _persist_log|].
  intros _. apply preserves_bind; [apply preserves_get_state|]. intros c. apply preserves_bind; [|intros ?; apply preserves_ret].
  apply preserves_if; [by intros c' Hc'|apply preserves_ret].
Qed.

Section ContextCalls.
Context (w : string) {s : engine S} {es : WorkflowState} {R : StateRebuilder.t} (Ht : tracks w s es R).

Lemma y_record v (Q : res ContextRecord → engine S → Prop) :
  (∀ r s', tracks w s' es R → Q (Ok r) s') → yields (on_context (ContextStore.get_or_create v)) s Q.
Proof.
  destruct (get_or_create_eq v (context_store s)) as (r & c' & E & _).
  destruct (context_quiet _ _ _ E (get_or_create_log v (log s))) as [E' Hq]. by apply (y_quiet w Ht _ r _ Q E').
Qed.

Lemma y_task_state v id x (Q : res unit → engine S → Prop) :
  raw_sensitive x = false → (∀ s', tracks w s' es R → Q (Ok tt) s') →
  yields (on_context (ContextStore.update_task_state v id [("status", VStr "completed"); ("result", x)])) s Q.
Proof.
  intros Hx HQ. set (f := fun r : ContextRecord => ContextRecord.set_task_state
    (dset (ContextRecord.task_state r) id (VDict [("status", VStr "completed"); ("result", x)])) r).
  assert (Hr : ∀ c, ContextStore.update_task_state v id [("status", VStr "completed"); ("result", x)] c = ContextStore.update v f c).
  { intros c. unfold ContextStore.update_task_state, bind at 1, of_res, _reject_raw_sensitive.
    replace (raw_sensitive (VDict _)) with false; [done|]. symmetry. apply raw_sensitive_dict.
    apply Forall_cons; split; [by split; vm_compute|]. apply Forall_cons; split; [|done].
    split; [by vm_compute|exact Hx]. }
  destruct (update_eq v f (context_store s)) as (r & now & c' & E & _). rewrite <- Hr in E.
  destruct (context_quiet (s := s) _ _ _ E) as [E' Hq].
  { intros c Hc. unfold after. rewrite Hr. by apply update_log. }
  apply (y_quiet w Ht _ tt _ Q E' Hq). intros [] s' Ht'. by apply HQ.
Qed.

Lemma y_checkpoint v cp (Q : res doc → engine S → Prop) :
  (∀ d s', tracks w s' es R → Q (Ok d) s') → yields (on_context (ContextStore.checkpoint v cp)) s Q.
Proof.
  destruct (checkpoint_eq v cp (context_store s)) as (r & now & c' & E & _).
  destruct (context_quiet _ _ _ E (checkpoint_log v cp (log s))) as [E' Hq]. by apply (y_quiet w Ht _ _ _ Q E').
Qed.

End ContextCalls.

(** ** What recovery makes of the engine's events *)

Lemma apply_started n agent attempts tn org R :
  StateRebuilder.apply "task.started"
    [("node_id", VStr n); ("agent_id", VStr agent); ("attempt", VInt attempts); ("tenant_id", tn); ("organization_id", org)] R =
  Ok (StateRebuilder.set_retries n attempts
        (StateRebuilder.set_sets (StateRebuilder.completed R) (StateRebuilder.failed R) ({[n]} ∪ StateRebuilder.started R) R)).
Proof. reflexivity. Qed.

Lemma apply_task body R : StateRebuilder.apply "task" body R = Ok R.
Proof. reflexivity. Qed.

Lemma apply_completed (n : TaskNode) p attempts t1 t2 x v R :
  StateRebuilder.apply "task.completed" (dset (trace_of n p attempts "completed" None t1 t2 x) "result" v) R =
  Ok (StateRebuilder.add_trace (dset (trace_of n p attempts "completed" None t1 t2 x) "result" v)
       (StateRebuilder.set_result (TaskNode.node_id n) v
         (StateRebuilder.set_node (TaskNode.node_id n) "completed"
           (StateRebuilder.set_sets ({[TaskNode.node_id n]} ∪ StateRebuilder.completed R)
              (StateRebuilder.failed R ∖ {[TaskNode.node_id n]}) (StateRebuilder.started R) R)))).
Proof. reflexivity. Qed.

Lemma apply_failed (n : TaskNode) p attempts m t1 t2 x R :
  TaskNode.node_id n ∉ StateRebuilder.completed R →
  StateRebuilder.apply "task.failed" (trace_of n p attempts "failed" (Some m) t1 t2 x) R =
  Ok (StateRebuilder.add_trace (trace_of n p attempts "failed" (Some m) t1 t2 x)
       (StateRebuilder.set_retries (TaskNode.node_id n) attempts
         (StateRebuilder.set_node (TaskNode.node_id n) "failed"
           (StateRebuilder.set_sets (StateRebuilder.completed R) ({[TaskNode.node_id n]} ∪ StateRebuilder.failed R)
              (StateRebuilder.started R) R)))).
Proof.
  intros Hn. change (StateRebuilder.apply "task.failed" (trace_of n p attempts "failed" (Some m) t1 t2 x) R) with
    (Ok (StateRebuilder.add_trace (trace_of n p attempts "failed" (Some m) t1 t2 x)
      (StateRebuilder.set_retries (TaskNode.node_id n) attempts
        (if bool_decide (TaskNode.node_id n ∈ StateRebuilder.completed R) then R
         else StateRebuilder.set_node (TaskNode.node_id n) "failed"
           (StateRebuilder.set_sets (StateRebuilder.completed R) ({[TaskNode.node_id n]} ∪ StateRebuilder.failed R)
              (StateRebuilder.started R) R))))).
  by rewrite bool_decide_eq_false_2.
Qed.

(** ** The two states *)

(** The traces recovery collects carry the results too. *)
Definition bare (d : doc) : doc := ddel d "result".

(** What both states agree on but for the node [id], whose status recovery may
    know to be a failed attempt. *)
Record agree_but (id : string) es R : Prop := Agree {
  a_results : StateRebuilder.node_results R = WorkflowState.node_results es;
  a_status : ∀ x, dset (StateRebuilder.node_status R) id x = dset (WorkflowState.node_status es) id x;
  a_retries : StateRebuilder.retry_counters R = WorkflowState.retry_counters es;
  a_delegated : StateRebuilder.delegated_assignments R = WorkflowState.delegated_assignments es;
  a_checkpoints : StateRebuilder.checkpoints R = WorkflowState.checkpoints es;
  a_traces : bare <$> StateRebuilder.traces R = WorkflowState.traces es;
  a_completed : ∀ i, i ∈ StateRebuilder.completed R ↔ i ≠ id ∧ dget (WorkflowState.node_status es) i = Some "completed";
  a_failed : ∀ i, i ≠ id → i ∈ StateRebuilder.failed R ↔ dget (WorkflowState.node_status es) i = Some "failed";
  a_running : StateRebuilder.status R = WorkflowState.status es;
}.

(** What both states agree on, but for the status of the workflow. *)
Record mirrors es R : Prop := Mirrors {
  m_results : StateRebuilder.node_results R = WorkflowState.node_results es;
  m_nodes : StateRebuilder.node_status R = WorkflowState.node_status es;
  m_retries : StateRebuilder.retry_counters R = WorkflowState.retry_counters es;
  m_delegated : StateRebuilder.delegated_assignments R = WorkflowState.delegated_assignments es;
  m_checkpoints : StateRebuilder.checkpoints R = WorkflowState.checkpoints es;
  m_traces : bare <$> StateRebuilder.traces R = WorkflowState.traces es;
  m_completed : ∀ i, i ∈ StateRebuilder.completed R ↔ dget (WorkflowState.node_status es) i = Some "completed";
  m_failed : ∀ i, i ∈ StateRebuilder.failed R ↔ dget (WorkflowState.node_status es) i = Some "failed";
}.

Lemma agree_pending id es R :
  mirrors es R → StateRebuilder.status R = WorkflowState.status es →
  dget (WorkflowState.node_status es) id ≠ Some "completed" → agree_but id es R.
Proof.
  intros [? Hn ? ? ? ? Hc Hf] Hs Hid. split; [done|intros x; by rewrite Hn|done..| | |done].
  - intros i. rewrite Hc. split; [intros Hi; split; [by intros ->|done]|by intros [_ ?]].
  - intros i _. apply Hf.
Qed.

Lemma agree_retries id n es R st :
  agree_but id es R →
  agree_but id (WorkflowState.set_retries id n es)
    (StateRebuilder.set_retries id n (StateRebuilder.set_sets (StateRebuilder.completed R) (StateRebuilder.failed R) st R)).
Proof. intros [? ? Hr ? ? ? ? ? ?]. split; try done. cbn. by rewrite Hr. Qed.

Lemma agree_failed id n tr es R :
  bare tr = tr → agree_but id es R →
  agree_but id (WorkflowState.add_trace tr (WorkflowState.set_retries id n es))
    (StateRebuilder.add_trace tr (StateRebuilder.set_retries id n (StateRebuilder.set_node id "failed"
      (StateRebuilder.set_sets (StateRebuilder.completed R) ({[id]} ∪ StateRebuilder.failed R) (StateRebuilder.started R) R)))).
Proof.
  intros Htr [? Hn Hr ? ? Ht Hc Hf ?]. split; try done; cbn.
  - intros x. by rewrite dset_dset, Hn.
  - by rewrite Hr.
  - rewrite fmap_app. cbn. by rewrite Ht, Htr.
  - intros i Hi. rewrite elem_of_union, elem_of_singleton, <- Hf by done. naive_solver.
Qed.

Lemma done_completed id v tr es R :
  agree_but id es R →
  mirrors (WorkflowState.add_trace (bare tr) (WorkflowState.set_node id "completed" (WorkflowState.set_result id v es)))
    (StateRebuilder.add_trace tr (StateRebuilder.set_result id v (StateRebuilder.set_node id "completed"
      (StateRebuilder.set_sets ({[id]} ∪ StateRebuilder.completed R) (StateRebuilder.failed R ∖ {[id]}) (StateRebuilder.started R) R)))).
Proof.
  intros [Hv Hn Hr ? ? Ht Hc Hf ?]. split; cbn; try done.
  - by rewrite Hv.
  - rewrite fmap_app. cbn. by rewrite Ht.
  - intros i. rewrite elem_of_union, elem_of_singleton, Hc, dget_dset. case_bool_decide; naive_solver.
  - intros i. rewrite elem_of_difference, elem_of_singleton, dget_dset. case_bool_decide as E; [naive_solver|].
    rewrite Hf by congruence. naive_solver.
Qed.

Lemma done_failed id es R :
  agree_but id es R → StateRebuilder.node_status R = dset (StateRebuilder.node_status R) id "failed" → id ∈ StateRebuilder.failed R →
  mirrors (WorkflowState.set_status "failed" (WorkflowState.set_node id "failed" es)) R.
Proof.
  intros [? Hn ? ? ? ? Hc Hf ?] Hs Hid. split; cbn; try done.
  - by rewrite Hs, Hn.
  - intros i. rewrite Hc, dget_dset. case_bool_decide; naive_solver.
  - intros i. rewrite dget_dset. case_bool_decide as E; [naive_solver|]. by apply Hf.
Qed.


(** ** A node *)

(** What a runner returns may enter the shared context. *)
Definition clean_runner : Prop := ∀ t n d v, node_runner t n d = Ok v → raw_sensitive v = false.

(** The states agree, and only the status of the node [id] changed. *)
Record ran (w id : string) (es0 : WorkflowState) s es R : Prop := Ran {
  r_tracks : tracks w s es R;
  r_mirrors : mirrors es R;
  r_others : ∀ j, j ≠ id → dget (WorkflowState.node_status es) j = dget (WorkflowState.node_status es0) j;
}.

Section Node.
Context (Hclean : clean_runner) (w : string) (n : TaskNode) (p : doc).
#[local] Abbreviation id := (TaskNode.node_id n).

Definition retried (attempts : Z) es : WorkflowState := WorkflowState.set_retries id attempts es.
Definition R_started (attempts : Z) R : StateRebuilder.t :=
  StateRebuilder.set_retries id attempts
    (StateRebuilder.set_sets (StateRebuilder.completed R) (StateRebuilder.failed R) ({[id]} ∪ StateRebuilder.started R) R).

Lemma y_run_node attempts started t s es R :
  tracks w s (retried attempts es) R → agree_but id es R →
  yields (run_node node_runner w n p attempts started t) s (fun r s' =>
    match r with
    | Ok _ => ∃ es' R', ran w id es s' es' R' ∧ StateRebuilder.status R' = WorkflowState.status es' ∧
                        WorkflowState.status es' = WorkflowState.status es
    | Err _ => tracks w s' (retried attempts es) (R_started attempts R)
    end).
Proof.
  intros Ht Ha. unfold run_node.
  apply yields_bind. eapply (y_append w Ht); [by vm_compute|apply apply_started|]. intros e s1 H1. fold (R_started attempts R) in H1.
  apply yields_bind, (y_state w H1). apply yields_bind, (y_record w H1). intros r s2 H2. cbv zeta.
  apply yields_bind. unfold yields at 1, gets. cbn [fst snd]. apply yields_bind. unfold yields at 1, of_res. cbn [fst snd].
  destruct (node_runner _ n _) as [v|exc] eqn:Hv; [|exact H2]. apply Hclean in Hv.
  apply yields_bind, (y_latency w H2). intros lat s3 H3.
  apply yields_bind, (y_update w H3). intros s4 H4. apply yields_bind, (y_update w H4). intros s5 H5.
  apply yields_bind, (y_now w H5). intros t2 s6 H6. apply yields_bind, (y_update w H6). intros s7 H7.
  apply yields_bind, (y_task_state w H7); [exact Hv|]. intros s8 H8.
  apply yields_bind. eapply (y_append w H8); [by vm_compute|apply apply_task|]. intros e9 s9 H9.
  apply yields_bind. eapply (y_append w H9); [by vm_compute|apply apply_completed|]. intros e10 s10 H10.
  apply yields_bind, (y_reputation w H10). intros rec s11 H11. apply yields_ret.
  do 2 eexists. split.
  - split; [exact H11| |].
    + apply (done_completed id v (dset (trace_of n p attempts "completed" None t t2 lat) "result" v)). by apply agree_retries.
    + intros j Hj. cbn. by rewrite dget_dset_ne by congruence.
  - split; [apply (a_running _ _ _ Ha)|reflexivity].
Qed.

Lemma y_node_failed attempts started t exc s es R :
  tracks w s (retried attempts es) (R_started attempts R) → agree_but id es R →
  yields (node_failed w n p attempts started t exc) s (fun r s' =>
    match r with
    | Ok _ => attempts <= TaskNode.max_retries n ∧ ∃ es' R', tracks w s' es' R' ∧ agree_but id es' R' ∧
                WorkflowState.node_status es' = WorkflowState.node_status es ∧ WorkflowState.status es' = WorkflowState.status es
    | Err e => exn_cls e = ConflictError ∧ ∃ es' R', ran w id es s' es' R' ∧
                WorkflowState.status es' = "failed" ∧ StateRebuilder.status R' = WorkflowState.status es
    end).
Proof.
  intros Ht Ha. unfold node_failed.
  apply yields_bind, (y_latency w Ht). intros lat s1 H1. apply yields_bind, (y_now w H1). intros t2 s2 H2. cbv zeta.
  apply yields_bind, (y_update w H2). intros s3 H3.
  apply yields_bind. eapply (y_append w H3); [by vm_compute|apply apply_task|]. intros e4 s4 H4.
  pose proof (agree_retries id attempts es R ({[id]} ∪ StateRebuilder.started R) Ha) as Ha1. fold (R_started attempts R) in Ha1.
  assert (Hnc : id ∉ StateRebuilder.completed (R_started attempts R)).
  { intros Hin. apply (a_completed _ _ _ Ha1) in Hin as [? _]. done. }
  apply yields_bind. eapply (y_append w H4); [by vm_compute|by apply apply_failed|]. intros e5 s5 H5.
  apply yields_bind, (y_reputation w H5). intros rec s6 H6.
  pose proof (agree_failed id attempts (trace_of n p attempts "failed" (Some (exn_msg exc)) t t2 lat) _ _ eq_refl Ha1) as Ha2.
  unfold WorkflowState.set_retries at 1 in Ha2. cbn [WorkflowState.retry_counters retried] in Ha2. unfold WorkflowState.set_retries in Ha2.
  cbn in Ha2. rewrite dset_dset in Ha2. 
  destruct (Z.gtb_spec attempts (TaskNode.max_retries n)) as [Hgt|Hle].
  - apply yields_bind, (y_update w H6). intros s7 H7. apply yields_bind, (y_update w H7). intros s8 H8.
    unfold yields, raise. cbn [fst snd]. split; [done|]. do 2 eexists. split.
    + split; [exact H8| |].
      * apply done_failed; [exact Ha2|by cbn; rewrite dset_dset|]. cbn. set_solver.
      * intros j Hj. cbn. by rewrite dget_dset_ne by congruence.
    + split; [reflexivity|apply (a_running _ _ _ Ha)].
  - apply yields_ret. split; [lia|]. do 2 eexists. split; [exact H6|]. split; [exact Ha2|]. done.
Qed.

Lemma y_attempt attempts s es R :
  tracks w s es R → agree_but id es R →
  yields (attempt node_runner w n p attempts) s (fun r s' =>
    match r with
    | Ok true => ∃ es' R', ran w id es s' es' R' ∧ StateRebuilder.status R' = WorkflowState.status es' ∧
                   WorkflowState.status es' = WorkflowState.status es
    | Ok false => attempts <= TaskNode.max_retries n ∧ ∃ es' R', tracks w s' es' R' ∧ agree_but id es' R' ∧
                WorkflowState.node_status es' = WorkflowState.node_status es ∧ WorkflowState.status es' = WorkflowState.status es
    | Err e => exn_cls e = ConflictError ∧ ∃ es' R', ran w id es s' es' R' ∧
                WorkflowState.status es' = "failed" ∧ StateRebuilder.status R' = WorkflowState.status es
    end).
Proof.
  intros Ht Ha. unfold attempt. apply yields_bind, (y_update w Ht). intros s1 H1.
  apply yields_bind, (y_perf w H1). intros x s2 H2. apply yields_bind, (y_now w H2). intros t s3 H3.
  apply yields_try, yields_bind. eapply yields_weaken; [by apply (y_run_node attempts x t s3 es R)|].
  intros [[]|exc] s4 Hr; [exact Hr|]. apply yields_bind. eapply yields_weaken; [by apply (y_node_failed attempts x t exc s4 es R)|].
  intros [[]|e] s5 Hf; exact Hf.
Qed.

Lemma y_attempt_loop k attempts s es R :
  tracks w s es R → agree_but id es R → attempts <= TaskNode.max_retries n → k = Z.to_nat (TaskNode.max_retries n + 1 - attempts) →
  yields (attempt_loop node_runner w n p k attempts) s (fun r s' =>
    match r with
    | Ok _ => ∃ es' R', ran w id es s' es' R' ∧ StateRebuilder.status R' = WorkflowState.status es' ∧
                   WorkflowState.status es' = WorkflowState.status es
    | Err e => exn_cls e = ConflictError ∧ ∃ es' R', ran w id es s' es' R' ∧
                WorkflowState.status es' = "failed" ∧ StateRebuilder.status R' = WorkflowState.status es
    end).
Proof.
  revert attempts s es R. induction k as [|k IH]; intros attempts s es R Ht Ha Hle Hk; [lia|].
  cbn [attempt_loop]. rewrite (proj2 (Z.leb_le _ _) Hle). apply yields_bind.
  eapply yields_weaken; [by apply (y_attempt (attempts + 1) s es R)|].
  intros [[|]|e] s1 Hr; [exact Hr| |exact Hr].
  destruct Hr as (Hle1 & es1 & R1 & Ht1 & Ha1 & Hn1 & Hs1).
  eapply yields_weaken; [apply (IH (attempts + 1) s1 es1 R1 Ht1 Ha1 Hle1); lia|].
  intros [[]|e] s2 Hr; [|destruct Hr as [He Hr]; split; [done|]];
    destruct Hr as (es2 & R2 & [Ht2 Hm2 Ho2] & Hr); exists es2, R2; rewrite Hs1 in Hr; (split; [|exact Hr]);
    (split; [done|done|]); intros j Hj; by rewrite Ho2, Hn1.
Qed.

Lemma y_run_with_retries s es R :
  tracks w s es R → mirrors es R → StateRebuilder.status R = WorkflowState.status es →
  dget (WorkflowState.node_status es) id ≠ Some "completed" →
  yields (_run_node_with_retries node_runner w n p) s (fun r s' =>
    match r with
    | Ok _ => ∃ es' R', ran w id es s' es' R' ∧ StateRebuilder.status R' = WorkflowState.status es' ∧
                   WorkflowState.status es' = WorkflowState.status es
    | Err e => exn_cls e = ConflictError ∧ ∃ es' R', ran w id es s' es' R' ∧
                WorkflowState.status es' = "failed" ∧ StateRebuilder.status R' = WorkflowState.status es
    end).
Proof.
  intros Ht Hm Hs Hid. unfold _run_node_with_retries. destruct (Z.leb_spec 0 (TaskNode.max_retries n)) as [Hle|Hlt].
  - apply (y_attempt_loop _ 0 s es R Ht); [by apply agree_pending|done|]. by rewrite Z.sub_0_r.
  - replace (Z.to_nat (TaskNode.max_retries n + 1)) with O by lia. apply yields_ret. exists es, R. by split_and!; [split|..].
Qed.

End Node.


(** ** A workflow *)

(** How far running some nodes came: the states agree, and only the statuses of
    the nodes [ids] changed; or a node failed, which the workflow knows of and
    recovery does not. *)
Definition outcome {A} (w : string) (ids : list string) (es : WorkflowState) (r : res A) s' : Prop :=
  match r with
  | Ok _ => ∃ es' R', tracks w s' es' R' ∧ mirrors es' R' ∧ StateRebuilder.status R' = WorkflowState.status es' ∧
      WorkflowState.status es' = WorkflowState.status es ∧
      ∀ j, j ∉ ids → dget (WorkflowState.node_status es') j = dget (WorkflowState.node_status es) j
  | Err e => exn_cls e = ConflictError ∧ ∃ es' R', tracks w s' es' R' ∧ mirrors es' R' ∧
      WorkflowState.status es' = "failed" ∧ StateRebuilder.status R' = WorkflowState.status es
  end.

(** The nodes [l] are still to be run. *)
Definition waiting es (l : list TaskNode) : Prop :=
  ∀ n, n ∈ l → dget (WorkflowState.node_status es) (TaskNode.node_id n) = Some "pending".

Section Workflow.
Context (Hclean : clean_runner) (g : TaskGraph.t) (p : doc) (approved : list string).
#[local] Abbreviation w := (graph_id g).

Lemma y_batch (l : list TaskNode) s es R :
  tracks w s es R → mirrors es R → StateRebuilder.status R = WorkflowState.status es →
  NoDup (TaskNode.node_id <$> l) → waiting es l →
  yields (for_each l (fun n => _run_node_with_retries node_runner w n p)) s (outcome w (TaskNode.node_id <$> l) es).
Proof.
  revert s es R. induction l as [|n l IH]; intros s es R Ht Hm Hs Hnd Hw; cbn [for_each].
  - apply yields_ret. by exists es, R.
  - csimpl in Hnd. apply NoDup_cons in Hnd as [Hn Hnd]. apply yields_bind.
    eapply yields_weaken; [apply (y_run_with_retries Hclean w n p s es R Ht Hm Hs); by rewrite Hw by left|].
    intros [[]|e] s1 Hr.
    2: { destruct Hr as (He & es' & R' & [Ht' Hm' _] & Hst). split; [done|]. by exists es', R'. }
    destruct Hr as (es1 & R1 & [Ht1 Hm1 Ho1] & Hs1 & Hss1).
    eapply yields_weaken; [apply (IH s1 es1 R1 Ht1 Hm1 Hs1 Hnd)|].
    { intros m Hin. rewrite Ho1; [apply Hw; by right|]. intros E. apply Hn. rewrite <- E. by apply list_elem_of_fmap_2. }
    intros [a|e] s2; cbn [outcome]; rewrite Hss1; [|done].
    intros (es2 & R2 & Ht2 & Hm2 & Hs2 & Hss2 & Ho2). exists es2, R2. split_and!; try done.
    intros j Hj. csimpl in Hj. apply not_elem_of_cons in Hj as [Hj1 Hj2]. by rewrite Ho2, Ho1.
Qed.

Lemma y_save_checkpoint s es R :
  tracks w s es R → mirrors es R → StateRebuilder.status R = WorkflowState.status es →
  yields (save_checkpoint g p) s (outcome w [] es).
Proof.
  intros Ht Hm Hs. unfold save_checkpoint. apply yields_bind, (y_state w Ht). cbv zeta.
  apply yields_bind, (y_checkpoint w Ht). intros d s1 H1. apply yields_bind, (y_update w H1). intros s2 H2.
  apply yields_bind, (y_state w H2). apply yields_bind. eapply (y_append w H2); [by vm_compute|reflexivity|].
  intros e s3 H3. apply yields_ret. do 2 eexists. split; [exact H3|]. split; [|by split_and!].
  destruct Hm. split; try done. cbn. congruence.
Qed.

(** A node that waits for an approval. *)
Definition held id es : WorkflowState := WorkflowState.set_node id "awaiting_approval" es.

Lemma y_hold (l : list TaskNode) s es R (Q : res unit → engine S → Prop) :
  tracks w s es R → (∀ s', tracks w s' (foldl (fun es n => held (TaskNode.node_id n) es) es l) R → Q (Ok tt) s') →
  yields (for_each l (fun n => update_state w (WorkflowState.set_node (TaskNode.node_id n) "awaiting_approval"))) s Q.
Proof.
  revert s es. induction l as [|n l IH]; intros s es Ht HQ; cbn [for_each]; [by apply HQ|].
  apply yields_bind, (y_update w Ht). intros s1 H1. apply (IH s1 _ H1 HQ).
Qed.

Lemma mirrors_held (l : list TaskNode) es R :
  mirrors es R → waiting es l → NoDup (TaskNode.node_id <$> l) →
  mirrors (foldl (fun es n => held (TaskNode.node_id n) es) es l)
    (foldl (fun R v => StateRebuilder.set_node (py_str v) "awaiting_approval" R) R (map (VStr ∘ TaskNode.node_id) l)).
Proof.
  revert es R. induction l as [|n l IH]; intros es R Hm Hw Hnd; [done|]. csimpl in Hnd. apply NoDup_cons in Hnd as [Hn Hnd].
  cbn [foldl map compose py_str]. pose proof (Hw n (list_elem_of_here _ _)) as Hn0.
  apply IH; [| |done].
  - destruct Hm as [? Hns ? ? ? ? Hc Hf]. split; cbn; try done.
    + by rewrite Hns.
    + intros i. rewrite Hc, dget_dset. case_bool_decide; [subst; naive_solver|done].
    + intros i. rewrite Hf, dget_dset. case_bool_decide; [subst; naive_solver|done].
  - intros m Hin. cbn. rewrite dget_dset_ne; [apply Hw; by right|]. intros E. apply Hn. rewrite E. by apply list_elem_of_fmap_2.
Qed.

Lemma held_status (l : list TaskNode) es x :
  WorkflowState.set_status x (foldl (fun es n => held (TaskNode.node_id n) es) es l) =
  foldl (fun es n => held (TaskNode.node_id n) es) (WorkflowState.set_status x es) l.
Proof. revert es. induction l as [|n l IH]; intros es; [done|]. apply IH. Qed.

Lemma held_keeps_status (l : list TaskNode) es :
  WorkflowState.status (foldl (fun es n => held (TaskNode.node_id n) es) es l) = WorkflowState.status es.
Proof. revert es. induction l as [|n l IH]; intros es; [done|]. cbn. by rewrite IH. Qed.

Lemma held_rebuilt_status (l : list val) R :
  StateRebuilder.status (foldl (fun R v => StateRebuilder.set_node (py_str v) "awaiting_approval" R) R l) = StateRebuilder.status R.
Proof. revert R. induction l as [|n l IH]; intros R; [done|]. cbn. by rewrite IH. Qed.

Lemma mirrors_status es R x y :
  mirrors es R → mirrors (WorkflowState.set_status x es) (StateRebuilder.set_status y R).
Proof. intros []. by split. Qed.

(** What the two know when the workflow stopped without a failure. *)
Definition settled (x : string) s' : Prop :=
  ∃ es R, tracks w s' es R ∧ mirrors es R ∧ StateRebuilder.status R = x ∧ WorkflowState.status es = x.

Lemma y_await (l : list TaskNode) s es R :
  tracks w s es R → mirrors es R → waiting es l → NoDup (TaskNode.node_id <$> l) →
  yields (await_approval g p l) s (fun r s' => r = Ok tt ∧ settled "awaiting_approval" s').
Proof.
  intros Ht Hm Hw Hnd. unfold await_approval. apply yields_bind, (y_hold l s es R _ Ht). intros s1 H1.
  apply yields_bind, (y_update w H1). intros s2 H2. apply yields_bind.
  eapply (y_append w H2); [by vm_compute|reflexivity|]. intros e s3 H3. apply yields_ret. split; [done|].
  rewrite held_status in H3. do 2 eexists. split; [exact H3|]. split; [|split].
  - apply mirrors_held; [by apply mirrors_status|exact Hw|done].
  - rewrite held_rebuilt_status. done.
  - rewrite held_keeps_status. done.
Qed.

Lemma y_run_batches (bs : list (list TaskNode)) s es R :
  tracks w s es R → mirrors es R → StateRebuilder.status R = WorkflowState.status es →
  NoDup (TaskNode.node_id <$> concat bs) → waiting es (concat bs) →
  yields (run_batches node_runner g p approved bs) s (fun r s' =>
    match r with
    | Ok true => ∃ es' R', tracks w s' es' R' ∧ mirrors es' R'
    | Ok false => settled "awaiting_approval" s'
    | Err e => exn_cls e = ConflictError ∧ ∃ es' R', tracks w s' es' R' ∧ mirrors es' R' ∧
        WorkflowState.status es' = "failed" ∧ StateRebuilder.status R' = WorkflowState.status es
    end).
Proof.
  revert s es R. induction bs as [|b bs IH]; intros s es R Ht Hm Hs Hnd Hw; cbn [run_batches].
  - apply yields_ret. by exists es, R.
  - cbn [concat] in *. rewrite fmap_app in Hnd. apply NoDup_app in Hnd as (Hnb & Hdisj & Hnd).
    destruct (pending_approval approved b) as [|n l] eqn:Hp.
    + apply yields_bind. eapply yields_weaken.
      { apply (y_batch b s es R Ht Hm Hs Hnb). intros m Hin. apply Hw, elem_of_app. by left. }
      intros [[]|e] s1 Hr; [|exact Hr]. destruct Hr as (es1 & R1 & Ht1 & Hm1 & Hs1 & Hss1 & Ho1).
      apply yields_bind. eapply yields_weaken; [apply (y_save_checkpoint s1 es1 R1 Ht1 Hm1 Hs1)|].
      intros [[]|e] s2 Hr.
      2: { destruct Hr as (He & es' & R' & Hr). rewrite Hss1 in Hr. split; [done|]. by exists es', R'. }
      destruct Hr as (es2 & R2 & Ht2 & Hm2 & Hs2 & Hss2 & Ho2).
      eapply yields_weaken; [apply (IH s2 es2 R2 Ht2 Hm2 Hs2 Hnd)|].
      { intros m Hin. rewrite Ho2, Ho1; [apply Hw, elem_of_app; by right| |by apply not_elem_of_nil].
        intros Hb. apply (Hdisj _ Hb). by apply list_elem_of_fmap_2. }
      intros [[|]|e] s3 Hr; [exact Hr|exact Hr|]. by rewrite Hss2, Hss1 in Hr.
    + apply yields_bind. assert (Hin : ∀ m, m ∈ n :: l → m ∈ b).
      { intros m Hm'. rewrite <- Hp in Hm'. by apply list_elem_of_filter in Hm' as [_ ?]. }
      eapply yields_weaken; [apply (y_await (n :: l) s es R Ht Hm)|].
      * intros m Hm'. apply Hw, elem_of_app. left. by apply Hin.
      * rewrite <- Hp. eapply sublist_NoDup; [exact Hnb|]. apply sublist_fmap_filter.
      * intros r s1 [-> Hr]. by apply yields_ret.
Qed.

Lemma y_finish s es R :
  tracks w s es R → mirrors es R → yields (finish g p) s (fun r s' => r = Ok tt ∧ settled "completed" s').
Proof.
  intros Ht Hm. unfold finish. apply yields_bind, (y_update w Ht). intros s1 H1. apply yields_bind.
  eapply (y_append w H1); [by vm_compute|reflexivity|]. intros e2 s2 H2. apply yields_bind, (y_state w H2).
  apply yields_bind. eapply (y_append w H2); [by vm_compute|reflexivity|]. intros e3 s3 H3. apply yields_ret. split; [done|].
  do 2 eexists. split; [exact H3|]. split; [|done]. exact (mirrors_status es R "completed" "completed" Hm).
Qed.

(** The nodes of a started workflow, as recovery enters them. *)
Lemma start_nodes (l : list TaskNode) es R :
  mirrors es R → waiting es [] → (∀ n, n ∈ l → dget (WorkflowState.node_status es) (TaskNode.node_id n) = None) →
  NoDup (TaskNode.node_id <$> l) →
  ∃ R', StateRebuilder.fold_res StateRebuilder.start_node (map (fun n => VDict (node_dict n)) l) R = Ok R' ∧
    mirrors (foldl enter_node es l) R' ∧ StateRebuilder.status R' = StateRebuilder.status R ∧
    WorkflowState.status (foldl enter_node es l) = WorkflowState.status es ∧
    (∀ j, dget (WorkflowState.node_status (foldl enter_node es l)) j =
       if bool_decide (j ∈ TaskNode.node_id <$> l) then Some "pending" else dget (WorkflowState.node_status es) j).
Proof.
  revert es R. induction l as [|n l IH]; intros es R Hm Hw Hnew Hnd.
  { exists R. by split_and!. }
  csimpl in Hnd. apply NoDup_cons in Hnd as [Hn Hnd].
  set (R1 := StateRebuilder.delegate (TaskNode.node_id n) (TaskNode.agent_id n) (StateRebuilder.set_node (TaskNode.node_id n) "pending" R)).
  assert (Hm1 : mirrors (enter_node es n) R1).
  { pose proof (Hnew n (list_elem_of_here _ _)) as Hn0. destruct Hm as [? Hns ? Hd ? ? Hc Hf]. split; cbn; try done.
    - by rewrite Hns.
    - by rewrite Hd.
    - intros i. rewrite Hc, dget_dset. case_bool_decide; [subst; naive_solver|done].
    - intros i. rewrite Hf, dget_dset. case_bool_decide; [subst; naive_solver|done]. }
  destruct (IH (enter_node es n) R1 Hm1) as (R' & E & Hm' & Hs' & Hss' & Hj); [by intros ? ?%elem_of_nil| |done|].
  - intros m Hin. cbn. rewrite dget_dset_ne; [apply Hnew; by right|]. intros Eid. apply Hn. rewrite Eid. by apply list_elem_of_fmap_2.
  - exists R'. split_and!; [exact E|exact Hm'|by rewrite Hs'|exact Hss'|]. intros j. cbn [foldl]. rewrite Hj. cbn [enter_node].
    csimpl. destruct (decide (TaskNode.node_id n = j)) as [<-|Hne].
    + rewrite bool_decide_eq_false_2 by done. rewrite bool_decide_eq_true_2 by by left. cbn. by rewrite dget_dset_eq.
    + cbn. rewrite dget_dset_ne by done. repeat case_bool_decide; set_solver.
Qed.

(** What a start of a graph that could be built returns, and the two statuses of
    the workflow then. *)
Definition start_outcome (r : res doc) es R : Prop :=
  match r with
  | Ok d => d = WorkflowState.as_dict es ∧ StateRebuilder.status R = WorkflowState.status es ∧
            WorkflowState.status es ∈ ["completed"; "awaiting_approval"]
  | Err e => (exn_cls e = ConflictError ∧ WorkflowState.status es = "failed" ∧ StateRebuilder.status R = "running") ∨
             (topological_batches (TaskGraph.nodes g) = Err e ∧
              WorkflowState.status es = "running" ∧ StateRebuilder.status R = "running")
  end.

(** The batches hold every node of the graph once. *)
Lemma batches_cover (bs : list (list TaskNode)) :
  topological_batches (TaskGraph.nodes g) = Ok bs →
  NoDup (TaskNode.node_id <$> concat bs) ∧ ∀ n, n ∈ concat bs → TaskNode.node_id n ∈ TaskNode.node_id <$> TaskGraph.nodes g.
Proof.
  intros Hb. destruct (batches_order _ _ Hb) as [_ (Hperm & Hnd & _)]. split; [exact Hnd|].
  intros n Hin. apply list_elem_of_fmap_2. by rewrite <- Hperm.
Qed.

Lemma y_start s :
  EventStore.chain (log s) → EventStore.replay (Some w) (log s) = [] →
  is_ok (build "task graph contains duplicate node_id values" (TaskGraph.nodes g)) = true →
  yields (start node_runner g p approved) s (fun r s' =>
    ∃ es R, tracks w s' es R ∧ mirrors es R ∧ start_outcome r es R).
Proof.
  intros Hc Hr Hok. pose proof (build_spec "task graph contains duplicate node_id values" (TaskGraph.nodes g)) as Hnd.
  unfold start. destruct (build _ _) as [gr|]; [|done]. destruct Hnd as [Hnd _]. apply yields_bind. unfold yields at 1, of_res. cbn [fst snd].
  apply yields_bind. unfold yields at 1, modify. cbn [fst snd].
  set (es0 := foldl enter_node (WorkflowState.new w) (TaskGraph.nodes g)).
  assert (H0' : tracks w (set_state w es0 s) es0 StateRebuilder.init).
  { split; [apply dget_dset_eq|exact Hc|]. change (log (set_state w es0 s)) with (log s). by rewrite Hr. }
  destruct (start_nodes (TaskGraph.nodes g) (WorkflowState.new w) (StateRebuilder.set_status "running" StateRebuilder.init))
    as (R1 & E1 & Hm1 & Hs1 & Hss1 & Hj1); [| |done|exact Hnd|].
  { split; try done; cbn; intros i; set_solver. }
  { by intros ? ?%elem_of_nil. }
  fold es0 in Hm1, Hss1, Hj1. apply yields_bind. unfold seed_context.
  eapply (yields_weaken _ _ (fun r s' => r = Ok tt ∧ tracks w s' es0 StateRebuilder.init)).
  { destruct (get_or_create_eq w (context_store (set_state w es0 s))) as (r & c' & E & _).
    set (m := bind _ _). assert (Em : m (context_store (set_state w es0 s)) = (Ok tt, ContextStore.set_record w
      (ContextRecord.set_conversation (dupdate (ContextRecord.conversation_state r) p) r) c')).
    { unfold m, bind. by rewrite E. }
    destruct (context_quiet m tt _ Em) as [E' Hq].
    { apply preserves_bind; [apply get_or_create_log|]. intros x c Hcc. exact Hcc. }
    unfold yields. rewrite E'. split; [done|]. by apply (tracks_quiet w _ _ _ _ Hq). }
  intros r s2 [-> H2]. apply yields_bind.
  eapply (y_append w H2); [by vm_compute|exact E1|]. intros e3 s3 H3.
  apply yields_bind. unfold yields at 1, of_res. cbn [fst snd].
  destruct (topological_batches (TaskGraph.nodes g)) as [bs|e] eqn:Hb.
  2: { exists es0, R1. split_and!; [done|done|]. right. by rewrite Hs1, Hss1. }
  destruct (batches_cover bs Hb) as [Hndb Hcover]. apply yields_bind.
  eapply yields_weaken; [apply (y_run_batches bs s3 es0 R1 H3 Hm1)|].
  { by rewrite Hs1, Hss1. }
  { exact Hndb. }
  { intros n Hin. rewrite Hj1, bool_decide_eq_true_2; [done|]. by apply Hcover. }
  assert (Hdone : ∀ x s4, settled x s4 → x ∈ ["completed"; "awaiting_approval"] →
    yields (let* state := state_of w in ret (WorkflowState.as_dict state)) s4 (fun r s' =>
      ∃ es R, tracks w s' es R ∧ mirrors es R ∧ start_outcome r es R)).
  { intros x s4 (es & R & H4 & Hm4 & <- & Hs4) Hx. apply yields_bind, (y_state w H4). apply yields_ret.
    exists es, R. rewrite <- Hs4 in Hx. by split_and!. }
  intros [[|]|e] s4 Hr4.
  - destruct Hr4 as (es4 & R4 & H4 & Hm4). apply yields_bind. eapply yields_weaken; [by apply (y_finish s4 es4 R4)|].
    intros r5 s5 [-> Hset]. apply (Hdone _ _ Hset). set_solver.
  - apply yields_bind, yields_ret. apply (Hdone _ _ Hr4). set_solver.
  - destruct Hr4 as (He & es4 & R4 & H4 & Hm4 & Hs4 & Hs4'). exists es4, R4. split_and!; [done|done|]. left. split_and!; [done|done|]. by rewrite Hs4', Hss1.
Qed.

End Workflow.


End Replay.

(** ** What recovery returns *)

Lemma Sorted_filter_chain (P : AgentFabricEvent → Prop) `{∀ e, Decision (P e)} `{Oracle} evs :
  EventStore.chain evs → py_sorted EventStore.seq_le (base.filter P evs) = base.filter P evs.
Proof.
  intros Hc. apply py_sorted_id. destruct (EventStore.chain_strict "" 1 evs Hc) as [Hs _]. clear Hc.
  apply StronglySorted_Sorted. induction Hs as [|e evs Hs IH Hf]; [constructor|].
  rewrite filter_cons. case_decide; [|done]. constructor; [done|]. apply Forall_filter_keep.
  eapply Forall_impl; [exact Hf|]. intros x Hx. unfold EventStore.seq_le. apply Z.leb_le. cbn in Hx. lia.
Qed.

(** * Properties *)

(** C4: recovery knows what the engine knew. A workflow is started under an id
    without events, over a valid log, with a runner whose results may enter the
    shared context, the nodes of a batch one after another. A graph that cannot
    be built is refused and nothing changes. Otherwise, whether its nodes
    succeed, are retried, fail for good or wait for approval, and also when the
    graph has no order, the log stays valid, and recovery rebuilds from the
    events of the workflow the statuses of its nodes, the results, retries,
    delegations, checkpoints and traces the engine holds. It also rebuilds the
    status of the workflow when it completed or waits for approval; a workflow
    that failed leaves no event that says so, and recovery takes it to be
    running. *)
Theorem workflow_recovers `{Oracle} {S : Type} `{PersistenceStore S} (node_runner : nat → TaskNode → doc → res val)
    (g : TaskGraph.t) (initial_payload : doc) (approved : list string) (s : engine S) :
  clean_runner node_runner → EventStore.chain (log s) → EventStore.replay (Some (TaskGraph.graph_id g)) (log s) = [] →
  let '(r, s') := MeshWorkflowEngine.start node_runner g initial_payload approved s in
  match build "task graph contains duplicate node_id values" (TaskGraph.nodes g) with
  | Err e => r = Err e ∧ s' = s
  | Ok _ =>
      ∃ es R,
        dget (_states s') (TaskGraph.graph_id g) = Some es ∧ EventStore.validate_integrity (log s') = true ∧
        StateRebuilder.rebuild_workflow (EventStore.replay (Some (TaskGraph.graph_id g)) (log s')) = Ok R ∧
        mirrors es R ∧ start_outcome g r es R
  end.
Proof.
  intros Hclean Hc Hr. pose proof (y_start node_runner Hclean g initial_payload approved s Hc Hr) as Hy.
  destruct (build _ (TaskGraph.nodes g)) as [gr|e] eqn:Hb.
  2: { unfold MeshWorkflowEngine.start, bind, of_res. by rewrite Hb. }
  specialize (Hy eq_refl). unfold yields in Hy.
  destruct (MeshWorkflowEngine.start node_runner g initial_payload approved s) as [r s'].
  cbn [fst snd] in Hy. destruct Hy as (es & R & [Hst Hc' Hf] & Hm & Hcase). exists es, R.
  split_and!; [exact Hst|by apply EventStore.chain_valid| |exact Hm|exact Hcase].
  unfold StateRebuilder.rebuild_workflow. unfold EventStore.replay in *. rewrite (Sorted_filter_chain _ (log s') Hc').
  unfold MeshWorkflowEngine.graph_id in Hf. rewrite Hf. cbn [res_bind].
  assert (Hne : StateRebuilder.status R ≠ "unknown"); [|by rewrite bool_decide_eq_false_2].
  destruct r as [d|e]; cbn in Hcase.
  - destruct Hcase as (_ & -> & Hin). intros E. rewrite E in Hin. set_solver.
  - by destruct Hcase as [(_ & _ & ->)|(_ & _ & ->)].
Qed.

(** ** Witness *)

(** Two nodes, the second of which needs the first and an approval. *)
Definition demo_graph : TaskGraph.t :=
  TaskGraph.Mk "wf-1"
    [TaskNode.Mk "draft" "a-1" None [] 1 false []; TaskNode.Mk "publish" "a-2" None ["draft"] 0 true []].

Definition demo_engine : engine Memory.store := Engine (Contexts demo_start true []) true [] [] [].

Lemma workflow_recovers_witness :
  ∃ r s' es R,
    MeshWorkflowEngine.start (H := demo_oracle) (fun _ _ _ => Ok (VStr "ok")) demo_graph [] ["publish"] demo_engine = (r, s') ∧
    StateRebuilder.rebuild_workflow (EventStore.replay (Some "wf-1") (log s')) = Ok R ∧ mirrors es R ∧
    start_outcome demo_graph r es R.
Proof.
  pose proof (workflow_recovers (H := demo_oracle) (fun _ _ _ => Ok (VStr "ok")) demo_graph [] ["publish"] demo_engine) as Hw.
  destruct (MeshWorkflowEngine.start (fun _ _ _ => Ok (VStr "ok")) demo_graph [] ["publish"] demo_engine) as [r s'].
  destruct Hw as (es & R & _ & _ & HR & Hm & Ho).
  - intros t n d v [= <-]. reflexivity.
  - reflexivity.
  - reflexivity.
  - exists r, s', es, R. split_and!; [reflexivity|exact HR|exact Hm|exact Ho].
Defined.

(** A graph whose nodes wait for each other leaves a workflow that both take to
    be running. *)
Example cycle_stays_running :
  let g := TaskGraph.Mk "wf-2" [TaskNode.Mk "a" "a-1" None ["b"] 0 false []; TaskNode.Mk "b" "a-2" None ["a"] 0 false []] in
  let '(r, s') := MeshWorkflowEngine.start (H := demo_oracle) (fun _ _ _ => Ok (VStr "ok")) g [] [] demo_engine in
  (r, WorkflowState.status <$> dget (_states s') "wf-2",
   let? R := StateRebuilder.rebuild_workflow (EventStore.replay (Some "wf-2") (log s')) in Ok (StateRebuilder.status R))
  = (Err (Exn ValidationError "task graph contains cycles"), Some "running", Ok "running").
Proof. vm_compute. reflexivity. Qed.
