(* ===== verification/Identity.v ===== *)
(** The identities of agents (agentfabric/identity): what an agent can do, who
    signed for it, and the passport that carries both. *)

From stdpp Require Import base option list strings gmap sets.
From Stdlib Require Import ZArith Lia.
From S2P Require Import Prelude PyVal PyTime Store EventStore Documents.

Local Open Scope Z_scope.

(** * capability_manifest.py *)

Module CapabilityManifest.

(** [{cap.value for cap in AgentCapability}] *)
Definition AgentCapability : list string :=
  ["research"; "coding"; "analysis"; "review"; "retrieval"; "planning"; "execution"].

Record t := Mk { capabilities : list string }.

(** [CapabilityManifest(capabilities)] *)
Definition new (capabilities : list string) : res t :=
  let normalized := py_sorted_set (list_to_set (map lower capabilities)) in
  match base.filter (fun item => item ∉ AgentCapability) normalized with
  | [] => Ok (Mk normalized)
  | invalid => Err (Exn ValueError ("unsupported capabilities: " +:+ join ", " invalid))
  end.

Definition supports (capability : string) (m : t) : bool := bool_decide (lower capability ∈ capabilities m).

Definition as_dict (m : t) : doc := [("capabilities", VList (map VStr (capabilities m)))].

End CapabilityManifest.

(** * agent_identity.py *)

Module AgentIdentity.
Record t := Mk {
  agent_id : string;
  name : string;
  version : string;
  owner : string;
  organization : string;
  capabilities : CapabilityManifest.t;
  signing_fingerprint : string;
  created_at : Z;
}.

Definition create `{Oracle} {S} (agent_id name version owner organization : string) (capabilities : list string)
    (signing_fingerprint : string) : M (sys S) t :=
  let* manifest := of_res (CapabilityManifest.new capabilities) in
  let* created_at := utc_now in
  ret (Mk agent_id name version owner organization manifest signing_fingerprint created_at).

Definition as_dict (i : t) : doc :=
  [("agent_id", VStr (agent_id i)); ("name", VStr (name i)); ("version", VStr (version i));
   ("owner", VStr (owner i)); ("organization", VStr (organization i));
   ("capabilities", VList (map VStr (CapabilityManifest.capabilities (capabilities i))));
   ("signing_fingerprint", VStr (signing_fingerprint i)); ("created_at", VStr (isoformat (created_at i)))].
End AgentIdentity.

Abbreviation AgentIdentity := AgentIdentity.t.

(** * agent_certificate.py *)

Module AgentCertificate.
Record t := Mk {
  agent_id : string;
  signing_fingerprint : string;
  issuer : string;
  issued_at : Z;
  expires_at : option Z;
}.

Section Clock.
Context `{Oracle} {S : Type}.

Definition issue (agent_id signing_fingerprint issuer : string) (expires_at : option Z) : M (sys S) t :=
  let* issued_at := utc_now in ret (Mk agent_id signing_fingerprint issuer issued_at expires_at).

(** [is_valid_at()] *)
Definition is_valid_at (c : t) : M (sys S) bool :=
  let* check_time := utc_now in
  ret (match expires_at c with None => true | Some t => t >? check_time end).

End Clock.

Definition as_dict (c : t) : doc :=
  [("agent_id", VStr (agent_id c)); ("signing_fingerprint", VStr (signing_fingerprint c));
   ("issuer", VStr (issuer c)); ("issued_at", VStr (isoformat (issued_at c))); ("expires_at", opt_iso (expires_at c))].
End AgentCertificate.

Abbreviation AgentCertificate := AgentCertificate.t.

(** * agent_passport.py *)

Module AgentPassport.
Record t := Mk {
  identity : AgentIdentity;
  certificate : AgentCertificate;
  metadata : option doc;
}.

Section Clock.
Context `{Oracle} {S : Type}.

Definition validate (p : t) : M (sys S) bool :=
  if negb (bool_decide (AgentIdentity.agent_id (identity p) = AgentCertificate.agent_id (certificate p))) then ret false
  else if negb (bool_decide (AgentIdentity.signing_fingerprint (identity p) =
                             AgentCertificate.signing_fingerprint (certificate p))) then ret false
  else AgentCertificate.is_valid_at (certificate p).

Definition as_dict (p : t) : M (sys S) doc :=
  let* valid := validate p in
  ret [("identity", VDict (AgentIdentity.as_dict (identity p)));
       ("certificate", VDict (AgentCertificate.as_dict (certificate p)));
       ("metadata", VDict (default [] (metadata p))); ("valid", VBool valid)].

End Clock.
End AgentPassport.

Abbreviation AgentPassport := AgentPassport.t.

(** * Lemmas *)

(** A manifest holds exactly the declared capabilities, in lower case. *)
Lemma manifest_supports l m c :
  CapabilityManifest.new l = Ok m → CapabilityManifest.supports c m = true ↔ lower c ∈ map lower l.
Proof.
  unfold CapabilityManifest.new, CapabilityManifest.supports. destruct (base.filter _ _); [|done]. intros [= <-].
  rewrite bool_decide_eq_true. cbn. rewrite elem_of_sorted_set. set_solver.
Qed.

Lemma manifest_known l m c :
  CapabilityManifest.new l = Ok m → c ∈ CapabilityManifest.capabilities m → c ∈ CapabilityManifest.AgentCapability.
Proof.
  unfold CapabilityManifest.new. destruct (base.filter _ _) eqn:E; [|done]. intros [= <-] Hc.
  apply filter_nil_iff in E. rewrite Forall_forall in E. specialize (E c Hc). cbn in E. by apply dec_stable.
Qed.

(** A passport is valid when both of its halves speak of the same agent and key,
    and the certificate has not expired. *)
Definition valid_at (now : Z) (p : AgentPassport) : Prop :=
  AgentIdentity.agent_id (AgentPassport.identity p) = AgentCertificate.agent_id (AgentPassport.certificate p) ∧
  AgentIdentity.signing_fingerprint (AgentPassport.identity p) =
    AgentCertificate.signing_fingerprint (AgentPassport.certificate p) ∧
  match AgentCertificate.expires_at (AgentPassport.certificate p) with None => True | Some t => now < t end.

Lemma validate_true `{Oracle} {S} p (s : sys S) :
  (AgentPassport.validate p s).1 = Ok true ↔ valid_at (clock (tick s)) p.
Proof.
  unfold AgentPassport.validate, valid_at. repeat case_bool_decide; cbn; try naive_solver.
  destruct (AgentCertificate.expires_at _) as [t|]; [|done]. split; [|intros (_ & _ & Ht)].
  - intros [= Ht%Z.gtb_lt]. done.
  - f_equal. by apply Z.gtb_lt.
Qed.
