(* ===== verification/Mesh.v ===== *)
(** The agent mesh (agentfabric/mesh): the directory of agents and its index of
    capabilities, message envelopes, and the bus, which passes every message
    through VEIL. Also the coordinator (agentfabric/collaboration/coordinator.py),
    which finds agents in the directory and starts the workflow engine. *)

From stdpp Require Import base option list strings gmap sets.
From Stdlib Require Import ZArith Lia.
From S2P Require Import Prelude PyVal PyTime Store EventStore Documents Veil Graph ContextStore Workflow Identity.

Local Open Scope Z_scope.

(** * agent_directory.py, agent_discovery.py *)

Module AgentDirectoryEntry.
Record t := Mk {
  passport : AgentPassport;
  health_status : string;
  last_seen_at : Z;
}.

Definition identity (e : t) : AgentIdentity := AgentPassport.identity (passport e).

Definition as_dict `{Oracle} {S} (e : t) : M (sys S) doc :=
  let* data := AgentPassport.as_dict (passport e) in
  ret (dset (dset data "health_status" (VStr (health_status e))) "last_seen_at" (VStr (isoformat (last_seen_at e)))).
End AgentDirectoryEntry.

Abbreviation AgentDirectoryEntry := AgentDirectoryEntry.t.

Record directory := Directory {
  _entries : dict AgentDirectoryEntry;
  _capability_index : dict (list string);
}.

Definition _version_compatible (candidate requested : string) : bool :=
  if ends_with ".x" requested then bool_decide (before_dot candidate = before_dot requested)
  else bool_decide (candidate = requested).

Module AgentDirectory.

(** The agent and the capabilities of a passport. *)
Definition agent_id (p : AgentPassport) : string := AgentIdentity.agent_id (AgentPassport.identity p).
Definition capabilities (p : AgentPassport) : list string :=
  CapabilityManifest.capabilities (AgentIdentity.capabilities (AgentPassport.identity p)).

Definition init : directory := Directory [] [].

(** One capability of the agent [id] enters the index. *)
Definition add_index (id : string) (index : dict (list string)) (capability : string) : dict (list string) :=
  let indexed := default [] (dget index capability) in
  dset index capability (if bool_decide (id ∈ indexed) then indexed else indexed ++ [id]).

Definition set_entry (id : string) (e : AgentDirectoryEntry) (d : directory) : directory :=
  Directory (dset (_entries d) id e) (_capability_index d).

Definition get (id : string) (d : directory) : option AgentDirectoryEntry := dget (_entries d) id.

Definition list_agents (d : directory) : list AgentDirectoryEntry := (_entries d).*2.

Definition entry (id : string) (d : directory) : res AgentDirectoryEntry :=
  match dget (_entries d) id with Some e => Ok e | None => Err (Exn KeyError (repr_str id)) end.

Definition find_by_capability (capability : string) (version : option string) (healthy_only : bool) (d : directory)
    : res (list AgentDirectoryEntry) :=
  let agent_ids := default [] (dget (_capability_index d) (lower capability)) in
  let? entries := res_map (fun id => entry id d) agent_ids in
  let entries := match version with
                 | Some v => base.filter (fun e =>
                     _version_compatible (AgentIdentity.version (AgentDirectoryEntry.identity e)) v = true) entries
                 | None => entries
                 end in
  Ok (if healthy_only then base.filter (fun e => AgentDirectoryEntry.health_status e = "healthy") entries else entries).

Section Directory.
Context `{Oracle} {S : Type}.

(** The process and the directory. *)
#[local] Abbreviation D := (M (sys S * directory)).

Definition on_sys {A} (m : M (sys S) A) : D A := zoom fst (fun e s => (e, s.2)) m.
Definition change (f : directory → directory) : D unit := modify (fun s => (s.1, f s.2)).

Definition register (passport : AgentPassport) (health_status : string) : D AgentDirectoryEntry :=
  let* valid := on_sys (AgentPassport.validate passport) in
  if negb valid then raise ValueError "agent passport is not valid"
  else
  let* now := on_sys utc_now in
  let e := AgentDirectoryEntry.Mk passport health_status now in
  do* change (set_entry (agent_id passport) e);
  do* change (fun d => Directory (_entries d)
        (foldl (add_index (agent_id passport)) (_capability_index d) (capabilities passport)));
  ret e.

Definition update_health (id health_status : string) : D unit :=
  let* d := gets snd in
  let* e := of_res (entry id d) in
  let e := AgentDirectoryEntry.Mk (AgentDirectoryEntry.passport e) health_status (AgentDirectoryEntry.last_seen_at e) in
  do* change (set_entry id e);
  let* now := on_sys utc_now in
  change (set_entry id (AgentDirectoryEntry.Mk (AgentDirectoryEntry.passport e) health_status now)).

(** agent_discovery.py *)
Definition discover (capability : string) (version : option string) (healthy_only : bool) : D (list doc) :=
  let* d := gets snd in
  let* entries := of_res (find_by_capability capability version healthy_only d) in
  on_sys (for_map entries AgentDirectoryEntry.as_dict).

End Directory.
End AgentDirectory.

(** * message.py *)

Module MessageType.
Definition REQUEST : string := "request".
Definition RESPONSE : string := "response".
Definition BROADCAST : string := "broadcast".
Definition PUBLISH : string := "publish".
Definition SUBSCRIBE : string := "subscribe".
Definition DELEGATE : string := "delegate".
End MessageType.

Module MeshMessage.
Record t := Mk {
  source_agent : string;
  destination_agent : option string;
  payload : doc;
  message_type : string;
  timestamp : Z;
  correlation_id : string;
  task_id : string;
  signature : string;
  trust_metadata : doc;
}.

(** [MeshMessage(...)] of the fields given here, at time [timestamp]. *)
Definition new (source_agent : string) (destination_agent : option string) (payload : doc) (message_type : string)
    (correlation_id task_id : string) (timestamp : Z) : t :=
  Mk source_agent destination_agent payload message_type timestamp correlation_id task_id "" [].

Definition with_payload_and_trust (payload trust_metadata : doc) (signature : string) (m : t) : t :=
  Mk (source_agent m) (destination_agent m) payload (message_type m) (timestamp m) (correlation_id m) (task_id m)
    signature trust_metadata.

Definition as_dict (m : t) : doc :=
  [("source_agent", VStr (source_agent m)); ("destination_agent", opt_str (destination_agent m));
   ("timestamp", VStr (isoformat (timestamp m))); ("correlation_id", VStr (correlation_id m));
   ("task_id", VStr (task_id m)); ("message_type", VStr (message_type m)); ("payload", VDict (payload m));
   ("signature", VStr (signature m)); ("trust_metadata", VDict (trust_metadata m))].
End MeshMessage.

Abbreviation MeshMessage := MeshMessage.t.

(** * conversation_context.py *)

Module ConversationContext.
Record t := Mk {
  conversation_id : string;
  task_id : string;
  participants : gset string;
  state : doc;
  updated_at : Z;
}.

Section Context.
Context `{Oracle} {S : Type}.

Definition add_participant (agent_id : string) (c : t) : M (sys S) t :=
  let* now := utc_now in
  ret (Mk (conversation_id c) (task_id c) ({[agent_id]} ∪ participants c) (state c) now).

Definition update_state (values : doc) (c : t) : M (sys S) t :=
  let* now := utc_now in
  ret (Mk (conversation_id c) (task_id c) (participants c) (dupdate (state c) values) now).

End Context.

Definition as_dict (c : t) : doc :=
  [("conversation_id", VStr (conversation_id c)); ("task_id", VStr (task_id c));
   ("participants", VList (map VStr (py_sorted_set (participants c)))); ("state", VDict (state c));
   ("updated_at", VStr (isoformat (updated_at c)))].
End ConversationContext.

(** * message_bus.py *)

(** The process, the directory, the history, the subscribers of each topic, and
    what the subscribers' callbacks act on. A callback does not call the bus back. *)
Record mesh (S Sub W : Type) := Mesh {
  env : sys S;
  agents : directory;
  _messages : list MeshMessage;
  _subscribers : dict (list Sub);
  outside : W;
}.
Arguments Mesh {S Sub W}.
Arguments env {S Sub W}.
Arguments agents {S Sub W}.
Arguments _messages {S Sub W}.
Arguments _subscribers {S Sub W}.
Arguments outside {S Sub W}.

Module MessageBus.
Section Bus.
Context `{Oracle} `{VeilClient} {S Sub W : Type} (call : Sub → MeshMessage → M W unit) (tenant_id : string).
#[local] Abbreviation B := (M (mesh S Sub W)).

Definition on_env {A} (m : M (sys S) A) : B A :=
  zoom env (fun e s => Mesh e (agents s) (_messages s) (_subscribers s) (outside s)) m.

Definition on_directory {A} (m : M (sys S * directory) A) : B A :=
  zoom (fun s => (env s, agents s)) (fun ed s => Mesh ed.1 ed.2 (_messages s) (_subscribers s) (outside s)) m.

Definition on_outside {A} (m : M W A) : B A :=
  zoom outside (fun w s => Mesh (env s) (agents s) (_messages s) (_subscribers s) w) m.

(** [self._messages.append(secured)] *)
Definition log_message (m : MeshMessage) (s : mesh S Sub W) : mesh S Sub W :=
  Mesh (env s) (agents s) (_messages s ++ [m]) (_subscribers s) (outside s).

(** The text that is signed; a missing destination is printed as [None]. *)
Definition signed_text (m : MeshMessage) : string :=
  MeshMessage.source_agent m +:+ ":" +:+ py_str (opt_str (MeshMessage.destination_agent m)) +:+ ":" +:+
  MeshMessage.correlation_id m +:+ ":" +:+ MeshMessage.task_id m.

Definition policy_request (m : MeshMessage) : PolicyCheck.request :=
  PolicyCheck.Req (MeshMessage.source_agent m) ("mesh." +:+ MeshMessage.message_type m) (MeshMessage.as_dict m).

Definition sanitize_request (m : MeshMessage) : SanitizeContext.request :=
  SanitizeContext.Req (MeshMessage.source_agent m) tenant_id (MeshMessage.payload m).

Definition audit_request (m : MeshMessage) : AuditEvent.request :=
  AuditEvent.Req (MeshMessage.source_agent m) "mesh.exchange"
    [("destination_agent", opt_str (MeshMessage.destination_agent m)); ("message_type", VStr (MeshMessage.message_type m));
     ("correlation_id", VStr (MeshMessage.correlation_id m)); ("task_id", VStr (MeshMessage.task_id m))].

Definition _secure_exchange (message : MeshMessage) : B MeshMessage :=
  let* policy := on_env (veil_call check_policy (policy_request message)) in
  if negb (PolicyCheck.allowed policy)
  then raise AuthorizationError (str_or (PolicyCheck.reason policy) "VEIL policy denied mesh exchange")
  else
  let* sanitized := on_env (veil_call sanitize_context (sanitize_request message)) in
  let* token := on_env (veil_call issue_agent_token
    (TokenIssue.Req (MeshMessage.source_agent message) ["mesh.exchange"] 300)) in
  let* audit := on_env (veil_call create_audit_event (audit_request message)) in
  let signature := sha256_hex (signed_text message) in
  let trust_metadata :=
    [("veil_policy_allowed", VBool (PolicyCheck.allowed policy)); ("veil_policy_reason", VStr (PolicyCheck.reason policy));
     ("veil_redactions", VList (map VStr (SanitizeContext.redactions sanitized)));
     ("veil_audit_event_id", VStr (AuditEvent.event_id audit)); ("veil_audit_accepted", VBool (AuditEvent.accepted audit));
     ("veil_token_expires_in", VInt (TokenIssue.expires_in_seconds token))] in
  ret (MeshMessage.with_payload_and_trust (SanitizeContext.sanitized_context sanitized) trust_metadata signature message).

(** The callbacks of a topic, in the order they subscribed. *)
Definition deliver (topic : string) (m : MeshMessage) : B unit :=
  let* callbacks := gets (fun s => default [] (dget (_subscribers s) topic)) in
  for_each callbacks (fun callback => on_outside (call callback m)).

(** [destination_agent or "*"] *)
Definition topic_of (m : MeshMessage) : string :=
  match MeshMessage.destination_agent m with
  | Some d => str_or d "*"
  | None => "*"
  end.

Definition send (message : MeshMessage) : B MeshMessage :=
  let* d := gets agents in
  let missing := match MeshMessage.destination_agent message with
                 | Some dest => if bool_decide (dest = "") then None
                                else match AgentDirectory.get dest d with None => Some dest | Some _ => None end
                 | None => None
                 end in
  match missing with
  | Some dest => raise NotFoundError ("destination agent not found: " +:+ dest)
  | None =>
      let* secured := _secure_exchange message in
      do* modify (log_message secured);
      do* deliver (topic_of secured) secured;
      ret secured
  end.

(** [self.send(MeshMessage(...))] *)
Definition send_new (message : MeshMessage) (destination_agent : option string) (message_type : string) : B MeshMessage :=
  let* now := on_env utc_now in
  send (MeshMessage.new (MeshMessage.source_agent message) destination_agent (MeshMessage.payload message) message_type
          (MeshMessage.correlation_id message) (MeshMessage.task_id message) now).

Definition broadcast (message : MeshMessage) : B (list MeshMessage) :=
  let* d := gets agents in
  let ids := AgentIdentity.agent_id <$> (AgentDirectoryEntry.identity <$> AgentDirectory.list_agents d) in
  for_map (base.filter (fun id => id ≠ MeshMessage.source_agent message) ids)
    (fun id => send_new message (Some id) MessageType.BROADCAST).

Definition publish (topic : string) (message : MeshMessage) : B MeshMessage :=
  let* now := on_env utc_now in
  let* secured := _secure_exchange
    (MeshMessage.new (MeshMessage.source_agent message) (Some topic) (MeshMessage.payload message) MessageType.PUBLISH
       (MeshMessage.correlation_id message) (MeshMessage.task_id message) now) in
  do* modify (log_message secured);
  do* deliver topic secured;
  ret secured.

Definition subscribe (topic : string) (callback : Sub) : B unit :=
  modify (fun s => Mesh (env s) (agents s) (_messages s)
    (dset (_subscribers s) topic (default [] (dget (_subscribers s) topic) ++ [callback])) (outside s)).

Definition delegate_task (message : MeshMessage) : B MeshMessage :=
  send_new message (MeshMessage.destination_agent message) MessageType.DELEGATE.

Definition history (correlation_id : option string) : B (list MeshMessage) :=
  gets (fun s => match correlation_id with
    | None => _messages s
    | Some c => base.filter (fun m => MeshMessage.correlation_id m = c) (_messages s)
    end).

End Bus.
End MessageBus.

(** * coordinator.py *)

Module CollaborationCoordinator.
Section Coordinator.
Context `{Oracle} {S : Type} `{PersistenceStore S} (node_runner : nat → TaskNode → doc → res val).

(** The workflow engine and the directory the discovery searches. *)
#[local] Abbreviation K := (M (engine S * directory)).

Definition on_engine {A} (m : M (engine S) A) : K A := zoom fst (fun e s => (e, s.2)) m.

Definition on_discovery {A} (m : M (sys S * directory) A) : K A :=
  zoom (fun s => (ContextStore.env (context_store s.1), s.2))
    (fun ed s => (MeshWorkflowEngine.set_context
                    (Contexts ed.1 (ContextStore.persistent (context_store s.1)) (ContextStore._records (context_store s.1))) s.1,
                  ed.2)) m.

(** [not d.get(k)] *)
Definition falsy (d : doc) (k : string) : bool := negb (truthy (dget_or d k VNone)).

(** A node without an agent gets the first healthy one with its capability. *)
Definition resolve (node : doc) : K doc :=
  if falsy node "agent_id" && negb (falsy node "capability") then
    let capability := py_str (dget_or node "capability" VNone) in
    let* matches := on_discovery (AgentDirectory.discover capability None true) in
    match matches with
    | [] => raise ValueError ("no healthy agent found for capability: " +:+ capability)
    | first :: _ =>
        let* identity := of_res (dindex first "identity") in
        let* agent_id := of_res (vindex identity "agent_id") in
        ret (dset node "agent_id" agent_id)
    end
  else ret node.

Definition start_workflow (workflow_id : string) (nodes : list doc) (initial_payload : doc) (approved_nodes : list string)
    : K doc :=
  let* resolved := for_map nodes resolve in
  let* task_graph := of_res (TaskGraph.from_dicts workflow_id resolved) in
  on_engine (MeshWorkflowEngine.start node_runner task_graph initial_payload approved_nodes).

End Coordinator.
End CollaborationCoordinator.

(** * The bus and VEIL *)

Section Mediation.
Context `{Oracle} `{VeilClient} {S Sub W : Type} (call : Sub → MeshMessage → M W unit) (tenant_id : string).
Implicit Types s : mesh S Sub W.
Import MessageBus.

(** [m] is what VEIL made of a message with the same envelope: it allowed the
    exchange, took note of it, and gave the payload. *)
Definition mediated (m : MeshMessage) : Prop :=
  ∃ o n1 n2 n3 policy sanitized audit,
    check_policy n1 (policy_request o) = Ok policy ∧ PolicyCheck.allowed policy = true ∧
    sanitize_context n2 (sanitize_request tenant_id o) = Ok sanitized ∧
    create_audit_event n3 (audit_request o) = Ok audit ∧
    MeshMessage.payload m = SanitizeContext.sanitized_context sanitized ∧
    dget (MeshMessage.trust_metadata m) "veil_audit_event_id" = Some (VStr (AuditEvent.event_id audit)) ∧
    MeshMessage.signature m = sha256_hex (signed_text m) ∧
    MeshMessage.source_agent m = MeshMessage.source_agent o ∧
    MeshMessage.destination_agent m = MeshMessage.destination_agent o ∧
    MeshMessage.message_type m = MeshMessage.message_type o ∧ MeshMessage.timestamp m = MeshMessage.timestamp o.

(** Securing an exchange only asks VEIL. *)
Lemma secure_exchange_eq m s :
  ∃ r e, _secure_exchange tenant_id m s = (r, Mesh e (agents s) (_messages s) (_subscribers s) (outside s)) ∧
    match r with Ok m' => mediated m' | Err _ => True end.
Proof.
  unfold _secure_exchange, on_env, zoom, veil_call, bind, ret.
  destruct (check_policy _ _) as [policy|] eqn:Ep; cbn; [|by do 2 eexists]. destruct (PolicyCheck.allowed policy) eqn:Ea; cbn; [|by do 2 eexists].
  destruct (sanitize_context _ _) as [san|] eqn:Es; cbn; [|by do 2 eexists]. destruct (issue_agent_token _ _) as [tok|]; cbn; [|by do 2 eexists].
  destruct (create_audit_event _ _) as [au|] eqn:Eu; cbn; [|by do 2 eexists]. do 2 eexists. split; [done|].
  exists m. do 6 eexists. split_and!; [exact Ep|done|exact Es|exact Eu|done..].
Qed.

Context (J : W → Prop).

(** The history and the subscribers' world. *)
Definition guarded s : Prop := Forall mediated (_messages s) ∧ J (outside s).

Hypothesis Hcall : ∀ callback m w, mediated m → J w → J (after (call callback m) w).

Lemma deliver_guarded topic m : mediated m → preserves guarded (deliver call topic m).
Proof.
  intros Hm. apply preserves_bind; [by intros s|]. intros callbacks. apply preserves_for_each. intros callback.
  apply (preserves_zoom _ J); [by intros s [_ ?]|by intros s w [? _]|]. intros w Hw. by apply Hcall.
Qed.

(** Sending what was secured. *)
Lemma exchange_guarded {A} m (k : MeshMessage → M (mesh S Sub W) A) :
  (∀ m', mediated m' → preserves guarded (k m')) → preserves guarded (bind (_secure_exchange tenant_id m) k).
Proof.
  intros Hk s Hs. destruct (secure_exchange_eq m s) as (r & e & E & Hr). unfold after, bind. rewrite E.
  destruct r as [m'|]; [by apply (Hk m' Hr)|exact Hs].
Qed.

Lemma send_tail_guarded topic m : mediated m →
  preserves guarded (do* modify (log_message m); do* deliver call topic m; ret m).
Proof.
  intros Hm. apply preserves_bind; [|intros _; apply preserves_bind; [by apply deliver_guarded|intros _; apply preserves_ret]].
  apply preserves_modify. intros s [Hl HJ]. split; [|done]. cbn. apply Forall_app. by split; [|repeat constructor].
Qed.

Lemma send_guarded m : preserves guarded (send call tenant_id m).
Proof.
  apply preserves_bind; [by intros s|]. intros d. cbv zeta. destruct (match MeshMessage.destination_agent m with _ => _ end).
  - apply preserves_raise.
  - apply exchange_guarded. intros m' Hm. by apply send_tail_guarded.
Qed.

Lemma on_env_guarded {A} (c : M (sys S) A) : preserves guarded (on_env c).
Proof. intros s Hs. unfold after, on_env, zoom. by destruct (c (env s)). Qed.

Lemma send_new_guarded m dest ty : preserves guarded (send_new call tenant_id m dest ty).
Proof. apply preserves_bind; [apply on_env_guarded|]. intros now. apply send_guarded. Qed.

Lemma bus_publish_guarded topic m : preserves guarded (publish call tenant_id topic m).
Proof.
  apply preserves_bind; [apply on_env_guarded|]. intros now. apply exchange_guarded. intros m' Hm. by apply send_tail_guarded.
Qed.

(** What can happen to a bus: its calls, registrations, health reports, and
    whatever else happens in the process. *)
Inductive bus_step : mesh S Sub W → mesh S Sub W → Prop :=
  | bus_send m s : bus_step s (after (send call tenant_id m) s)
  | bus_broadcast m s : bus_step s (after (broadcast call tenant_id m) s)
  | bus_publish topic m s : bus_step s (after (publish call tenant_id topic m) s)
  | bus_subscribe topic callback s : bus_step s (after (subscribe topic callback) s)
  | bus_delegate m s : bus_step s (after (delegate_task call tenant_id m) s)
  | bus_register p h s : bus_step s (after (on_directory (AgentDirectory.register p h)) s)
  | bus_health id h s : bus_step s (after (on_directory (AgentDirectory.update_health id h)) s)
  | bus_process e s : bus_step s (Mesh e (agents s) (_messages s) (_subscribers s) (outside s)).

Lemma bus_step_guarded s s' : bus_step s s' → guarded s → guarded s'.
Proof.
  intros [] Hs; [by apply send_guarded| |by apply bus_publish_guarded|exact Hs|by apply send_new_guarded| | |exact Hs].
  - assert (Hb : preserves guarded (broadcast call tenant_id m)); [|by apply Hb].
    apply preserves_bind; [by intros ?|]. intros d. apply preserves_for_map. intros id. apply send_new_guarded.
  - unfold after, on_directory, zoom. by destruct (AgentDirectory.register _ _ _).
  - unfold after, on_directory, zoom. by destruct (AgentDirectory.update_health _ _ _).
Qed.

End Mediation.

(** * The directory and its registrations *)

Section Registrations.
Context `{Oracle} {S : Type}.
Implicit Types (d : directory) (p : AgentPassport) (hist : list AgentPassport).
Import AgentDirectory.

(** A directory after the registrations [hist] and any reports of health, in a
    process that does other things too. *)
Inductive registered : list AgentPassport → sys S * directory → Prop :=
  | reg_init e : registered [] (e, init)
  | reg_add hist p h s x s' : registered hist s → register p h s = (Ok x, s') → registered (hist ++ [p]) s'
  | reg_refused hist p h s x s' : registered hist s → register p h s = (Err x, s') → registered hist s'
  | reg_health hist id h s : registered hist s → registered hist (after (update_health id h) s)
  | reg_process hist e e' d : registered hist (e, d) → registered hist (e', d).

Lemma reg_after hist p h s :
  registered hist s → is_ok (register p h s).1 = true → registered (hist ++ [p]) (after (register p h) s).
Proof. intros Hs Ho. unfold after. destruct (register p h s) as [[x|] s'] eqn:E; [|done]. by eapply reg_add. Qed.

(** The last passport an agent registered with. *)
Definition latest (id : string) hist : option AgentPassport := last (base.filter (fun p => agent_id p = id) hist).

(** The agent of an entry. *)
Definition entry_id (x : AgentDirectoryEntry) : string := agent_id (AgentDirectoryEntry.passport x).

(** The directory holds the last passport of every agent, and under a capability
    the agents that ever declared it. *)
Record holds hist d : Prop := Holds {
  h_entries : ∀ id, AgentDirectoryEntry.passport <$> dget (_entries d) id = latest id hist;
  h_nodup : ∀ c, NoDup (default [] (dget (_capability_index d) c));
  h_index : ∀ c id, id ∈ default [] (dget (_capability_index d) c) ↔ ∃ p, p ∈ hist ∧ agent_id p = id ∧ c ∈ capabilities p;
}.

Lemma add_index_other id index cap c :
  c ≠ cap → dget (add_index id index cap) c = dget index c.
Proof. intros Hc. unfold add_index. by rewrite dget_dset_ne. Qed.

Lemma add_index_same id index cap :
  default [] (dget (add_index id index cap) cap) =
  let l := default [] (dget index cap) in if bool_decide (id ∈ l) then l else l ++ [id].
Proof. unfold add_index. by rewrite dget_dset_eq. Qed.

Lemma add_indices id caps : ∀ index,
  (∀ c, NoDup (default [] (dget index c))) →
  ∀ c, NoDup (default [] (dget (foldl (add_index id) index caps) c)) ∧
    ∀ i, i ∈ default [] (dget (foldl (add_index id) index caps) c) ↔
         i ∈ default [] (dget index c) ∨ (i = id ∧ c ∈ caps).
Proof.
  induction caps as [|cap caps IH]; intros index Hnd c; cbn [foldl]; [split; [done|set_solver]|].
  destruct (IH (add_index id index cap)) with (c := c) as [Hn Hi].
  { intros c'. destruct (decide (c' = cap)) as [->|Hne]; [|by rewrite add_index_other].
    rewrite add_index_same. cbv zeta. case_bool_decide; [done|]. apply NoDup_app. split_and!; [done|set_solver|apply NoDup_singleton]. }
  split; [done|]. intros i. rewrite Hi. destruct (decide (c = cap)) as [->|Hne].
  - rewrite add_index_same. cbv zeta. case_bool_decide; set_solver.
  - rewrite add_index_other by done. set_solver.
Qed.

Lemma latest_snoc id hist p : latest id (hist ++ [p]) = if bool_decide (agent_id p = id) then Some p else latest id hist.
Proof.
  unfold latest. rewrite filter_app, filter_cons, filter_nil. case_decide; case_bool_decide; try done.
  - by rewrite last_snoc.
  - by rewrite app_nil_r.
Qed.

Lemma registered_holds hist s : registered hist s → holds hist s.2.
Proof.
  induction 1 as [e|hist p h [e d] x s' Hr IH E|hist p h [e d] x s' Hr IH E|hist id h [e d] Hr IH|hist e e' d Hr IH]; cbn [snd] in *.
  - split; [done|intros c; apply NoDup_nil_2|]. cbn. intros c id. split; [by intros ?%elem_of_nil|].
    by intros (p & ?%elem_of_nil & _).
  - revert E. unfold register, on_sys, bind, zoom, change, modify, ret. cbn [fst snd].
    destruct (AgentPassport.validate p e) as [[[]|] e1]; [|cbn; by intros [=]..].
    cbn. intros [= _ <-]. cbn [snd]. destruct IH as [He Hn Hi].
    pose proof (add_indices (agent_id p) (capabilities p) (_capability_index d) Hn) as Ha. split; cbn.
    + intros id. rewrite dget_dset, latest_snoc, <- He. by case_bool_decide.
    + intros c. apply Ha.
    + intros c id. rewrite (proj2 (Ha c) id), Hi. setoid_rewrite elem_of_app. setoid_rewrite list_elem_of_singleton. naive_solver.
  - revert E. unfold register, on_sys, bind, zoom, change, modify, ret, raise. cbn [fst snd].
    destruct (AgentPassport.validate p e) as [[[]|] e1]; cbn; by intros [=]; subst.
  - unfold after, update_health, on_sys, bind, zoom, change, modify, gets, of_res, entry. cbn.
    destruct (dget (_entries d) id) as [y|] eqn:Ey; [|done]. cbn. destruct IH as [He Hn Hi]. split; cbn; [|done..].
    intros i. rewrite !dget_dset, <- He. case_bool_decide; [subst; by rewrite Ey|done].
  - done.
Qed.

Lemma entries_found hist d ids :
  holds hist d → (∀ id, id ∈ ids → is_Some (latest id hist)) → NoDup ids →
  ∃ l, res_map (fun id => entry id d) ids = Ok l ∧ entry_id <$> l = ids ∧
    Forall (fun x => dget (_entries d) (entry_id x) = Some x) l.
Proof.
  intros Hh. induction ids as [|id ids IH]; intros Hs Hnd; [by exists []|]. apply NoDup_cons in Hnd as [_ Hnd].
  destruct IH as (l & E & Hids & Hl); [intros; apply Hs; by right|done|].
  destruct (Hs id) as [p Hp]; [by left|]. pose proof (h_entries _ _ Hh id) as He. rewrite Hp in He.
  apply fmap_Some in He as (x & Hx & ->). exists (x :: l). cbn [res_map]. unfold entry at 1. rewrite Hx, E.
  assert (Eid : entry_id x = id).
  { symmetry in Hp. unfold latest in Hp. symmetry in Hp. apply last_Some_elem_of in Hp. by apply list_elem_of_filter in Hp as [? _]. }
  split; [done|]. csimpl. rewrite Hids, Eid. split; [done|]. constructor; [by rewrite Eid|done].
Qed.

End Registrations.

(** * Properties *)

(** C32: VEIL stands between agents. From a bus without messages, whatever is sent,
    broadcast, published or delegated, and whatever the subscribers do, every
    message of the history went through VEIL: it was allowed and noted, and its
    payload is the one VEIL sanitized. Subscribers are given such messages only:
    what they do to their world keeps whatever such messages keep. *)
Theorem mesh_mediated `{Oracle} `{VeilClient} {S Sub W : Type} (call : Sub → MeshMessage → M W unit) (tenant_id : string)
    (J : W → Prop) (s s' : mesh S Sub W) :
  (∀ callback m w, mediated tenant_id m → J w → J (after (call callback m) w)) →
  J (outside s) → _messages s = [] → steps (bus_step call tenant_id) s s' →
  Forall (mediated tenant_id) (_messages s') ∧ J (outside s').
Proof.
  intros Hcall HJ Hm Hs. eapply (steps_invariant _ (guarded tenant_id J)); [|exact Hs|].
  - intros a b. by apply bus_step_guarded.
  - split; [|done]. by rewrite Hm.
Qed.

(** What the directory finds. After any registrations and reports of health,
    the search for a capability finds, once each and without an error, the agents
    that declared it in some registration, by the passport of the last one, when
    that has the right version and, if asked for, the agent is healthy. *)
Theorem directory_search_exact `{Oracle} {S : Type} (hist : list AgentPassport) (e : sys S) (d : directory)
    (capability : string) (version : option string) (healthy_only : bool) :
  registered hist (e, d) →
  ∃ l, AgentDirectory.find_by_capability capability version healthy_only d = Ok l ∧
    NoDup (entry_id <$> l) ∧
    ∀ x, x ∈ l ↔
      let id := entry_id x in
      dget (_entries d) id = Some x ∧ latest id hist = Some (AgentDirectoryEntry.passport x) ∧
      (∃ p, p ∈ hist ∧ AgentDirectory.agent_id p = id ∧ lower capability ∈ AgentDirectory.capabilities p) ∧
      (∀ v, version = Some v → _version_compatible (AgentIdentity.version (AgentDirectoryEntry.identity x)) v = true) ∧
      (healthy_only = true → AgentDirectoryEntry.health_status x = "healthy").
Proof.
  intros Hr. apply registered_holds in Hr. cbn in Hr. pose proof Hr as [He Hn Hi].
  destruct (entries_found hist d (default [] (dget (_capability_index d) (lower capability))) Hr) as (l & E & Hids & Hl).
  { intros id (p & Hp & <- & _)%Hi. apply last_is_Some. intros Hnil. apply filter_nil_iff in Hnil.
    rewrite Forall_forall in Hnil. by apply (Hnil p Hp). }
  { apply Hn. }
  assert (Hl' : ∀ x, x ∈ l ↔ dget (_entries d) (entry_id x) = Some x ∧
    latest (entry_id x) hist = Some (AgentDirectoryEntry.passport x) ∧
    ∃ p, p ∈ hist ∧ AgentDirectory.agent_id p = entry_id x ∧ lower capability ∈ AgentDirectory.capabilities p).
  { intros x. rewrite Forall_forall in Hl. rewrite <- Hi, <- Hids, <- He. split.
    - intros Hx. rewrite (Hl x Hx). split_and!; [done|done|]. by apply list_elem_of_fmap_2.
    - intros (Hx & _ & (y & Ey & Hy)%list_elem_of_fmap). pose proof (Hl y Hy) as Hy'. rewrite <- Ey in Hy'. congruence. }
  unfold AgentDirectory.find_by_capability. rewrite E. cbn [res_bind]. eexists. split; [reflexivity|]. split.
  - eapply (sublist_NoDup _ (entry_id <$> l)); [rewrite Hids; apply Hn|].
    destruct healthy_only, version as [v|]; rewrite ?sublist_fmap_filter; done.
  - intros x. cbv zeta. destruct healthy_only, version as [v|]; rewrite ?list_elem_of_filter, Hl'; naive_solver.
Qed.

(** ** Witnesses *)

Definition demo_passport (id : string) (capabilities : list string) : AgentPassport :=
  AgentPassport.Mk
    (AgentIdentity.Mk id id "1.0.0" "owner" "org" (CapabilityManifest.Mk capabilities) "key" 0)
    (AgentCertificate.Mk id "key" "agentfabric" 0 None) None.

(** An agent registers as a coder, and again as a researcher. *)
Definition demo_directory : sys Memory.store * directory :=
  after (AgentDirectory.register (H := demo_oracle) (demo_passport "a-1" ["research"]) "healthy")
    (after (AgentDirectory.register (H := demo_oracle) (demo_passport "a-1" ["coding"]) "healthy")
       (demo_start, AgentDirectory.init)).

Lemma demo_registered :
  registered (H := demo_oracle) [demo_passport "a-1" ["coding"]; demo_passport "a-1" ["research"]] demo_directory.
Proof.
  apply (reg_after (H := demo_oracle) [demo_passport "a-1" ["coding"]]); [|vm_compute; reflexivity].
  apply (reg_after (H := demo_oracle) []); [apply reg_init|vm_compute; reflexivity].
Qed.

(** The directory still finds it as a coder, which it no longer is. *)
Lemma stale_capability :
  ∃ x, AgentDirectory.find_by_capability "coding" None true demo_directory.2 = Ok [x] ∧
    CapabilityManifest.supports "coding" (AgentIdentity.capabilities (AgentDirectoryEntry.identity x)) = false.
Proof.
  exists (AgentDirectoryEntry.Mk (demo_passport "a-1" ["research"]) "healthy" (clock (Oracle := demo_oracle) 3)).
  split; vm_compute; reflexivity.
Qed.

Lemma directory_search_exact_witness :
  ∃ l, AgentDirectory.find_by_capability "Coding" (Some "1.x") true demo_directory.2 = Ok l ∧
    NoDup (entry_id <$> l).
Proof.
  destruct (directory_search_exact (H := demo_oracle) [demo_passport "a-1" ["coding"]; demo_passport "a-1" ["research"]]
    demo_directory.1 demo_directory.2 "Coding" (Some "1.x") true) as (l & E & Hn & _).
  - apply demo_registered.
  - by exists l.
Defined.

(** A bus whose subscribers keep what they are given. *)
Definition keep (callback : string) (m : MeshMessage) : M (list (string * MeshMessage)) unit :=
  modify (fun l => l ++ [(callback, m)]).

Definition demo_mesh : mesh Memory.store string (list (string * MeshMessage)) :=
  Mesh demo_directory.1 demo_directory.2 [] [("a-1", ["inbox"])] [].

Definition demo_message : MeshMessage := MeshMessage.new "a-2" (Some "a-1") [("text", VStr "hi")] "request" "c" "t" 0.

Definition demo_sent : mesh Memory.store string (list (string * MeshMessage)) :=
  after (MessageBus.send (H := demo_oracle) (H0 := mock_veil) keep "t-1" demo_message) demo_mesh.

Lemma mesh_mediated_witness :
  Forall (mediated (H := demo_oracle) (H0 := mock_veil) "t-1") (_messages demo_sent) ∧
  Forall (fun x => mediated (H := demo_oracle) (H0 := mock_veil) "t-1" x.2) (outside demo_sent) ∧
  (length (_messages demo_sent), length (outside demo_sent)) = (1%nat, 1%nat).
Proof.
  destruct (mesh_mediated (H := demo_oracle) (H0 := mock_veil) keep "t-1"
    (Forall (fun x => mediated (H := demo_oracle) (H0 := mock_veil) "t-1" x.2)) demo_mesh demo_sent) as [Hm Ho].
  - intros callback m w Hm Hw. apply Forall_app. split; [exact Hw|]. apply Forall_singleton, Hm.
  - constructor.
  - reflexivity.
  - eapply steps_cons; [apply bus_send|apply steps_refl].
  - split; [exact Hm|]. split; [exact Ho|]. vm_compute. reflexivity.
Defined.
