(* ===== verification/Federation.v ===== *)
(** The records of federation (agentfabric/federation): organizations, trust
    agreements, policies, remote agents with their capabilities, signed messages,
    receipts and delegations, and how each is written and read back. *)

From stdpp Require Import base option list strings gmap sets.
From Stdlib Require Import ZArith Lia SpecFloat.
From S2P Require Import Prelude PyVal Json PyTime Floats Store EventStore Documents.

Local Open Scope Z_scope.

(** * federated_org.py *)

Module FederatedOrg.
Record t := Mk {
  tenant_id : string;
  organization_id : string;
  remote_org_id : string;
  name : string;
  endpoint : string;
  public_key : string;
  created_by : string;
  org_id : string;
  blocked : bool;
  created_at : Z;
  updated_at : Z;
}.

Definition as_dict (o : t) : doc :=
  [("org_id", VStr (org_id o)); ("tenant_id", VStr (tenant_id o)); ("organization_id", VStr (organization_id o));
   ("remote_org_id", VStr (remote_org_id o)); ("name", VStr (name o)); ("endpoint", VStr (endpoint o));
   ("public_key", VStr (public_key o)); ("created_by", VStr (created_by o)); ("blocked", VBool (blocked o));
   ("created_at", VStr (isoformat (created_at o))); ("updated_at", VStr (isoformat (updated_at o)))].

Definition from_dict `{Oracle} {S} (value : doc) : M (sys S) t :=
  let* org_id := of_res (str_field value "org_id") in
  let* tenant_id := of_res (str_field value "tenant_id") in
  let* organization_id := of_res (str_field value "organization_id") in
  let* remote_org_id := of_res (str_field value "remote_org_id") in
  let* name := of_res (str_field value "name") in
  let* created_at := time_field_or_now value "created_at" in
  let* updated_at := time_field_or_now value "updated_at" in
  ret (Mk tenant_id organization_id remote_org_id name (str_field_or value "endpoint" "")
         (str_field_or value "public_key" "") (str_field_or value "created_by" "") org_id
         (bool_field_or value "blocked" false) created_at updated_at).

Definition ok (o : t) : Prop := time_ok (created_at o) ∧ time_ok (updated_at o).

Lemma fed_org_from_as_dict `{Oracle} {S} o (s : sys S) : ok o → from_dict (as_dict o) s = (Ok o, s).
Proof.
  intros [Hc Hu]. unfold from_dict, bind, of_res, ret. cbn -[time_field_or_now isoformat].
  rewrite (time_field_or_now_iso _ _ _ _ Hc), (time_field_or_now_iso _ _ _ _ Hu) by done. by destruct o.
Qed.
End FederatedOrg.

Abbreviation FederatedOrg := FederatedOrg.t.

#[export] Instance fed_org_document `{Oracle} {S} : Document S FederatedOrg := {
  d_coll := "federation_orgs"; d_key := FederatedOrg.org_id; d_enc := FederatedOrg.as_dict; d_dec := FederatedOrg.from_dict;
  d_ok := FederatedOrg.ok; d_dec_enc := FederatedOrg.fed_org_from_as_dict; d_enc_ne o := ltac:(done);
}.

(** * trust_agreement.py *)

(** [capability in denied] is no, and [not allowed or capability in allowed]. *)
Definition allows (allowed denied : list string) (capability : string) : bool :=
  if bool_decide (capability ∈ denied) then false
  else bool_decide (allowed = []) || bool_decide (capability ∈ allowed).

Module TrustAgreement.
Record t := Mk {
  tenant_id : string;
  organization_id : string;
  remote_org_id : string;
  created_by : string;
  allowed_capabilities : list string;
  denied_capabilities : list string;
  permitted_data_classes : list string;
  allowed_workflow_types : list string;
  status : string;
  agreement_id : string;
  expires_at : Z;
  created_at : Z;
  updated_at : Z;
  revoked_reason : string;
}.

Definition allows_capability (capability : string) (a : t) : bool :=
  allows (allowed_capabilities a) (denied_capabilities a) capability.

Definition as_dict (a : t) : doc :=
  [("agreement_id", VStr (agreement_id a)); ("tenant_id", VStr (tenant_id a));
   ("organization_id", VStr (organization_id a)); ("remote_org_id", VStr (remote_org_id a));
   ("created_by", VStr (created_by a)); ("allowed_capabilities", VList (map VStr (allowed_capabilities a)));
   ("denied_capabilities", VList (map VStr (denied_capabilities a)));
   ("permitted_data_classes", VList (map VStr (permitted_data_classes a)));
   ("allowed_workflow_types", VList (map VStr (allowed_workflow_types a))); ("status", VStr (status a));
   ("expires_at", VStr (isoformat (expires_at a))); ("created_at", VStr (isoformat (created_at a)));
   ("updated_at", VStr (isoformat (updated_at a))); ("revoked_reason", VStr (revoked_reason a))].

Section Clock.
Context `{Oracle} {S : Type}.

Definition is_active (a : t) : M (sys S) bool :=
  if bool_decide (status a = "active") then let* now := utc_now in ret (now <? expires_at a) else ret false.

Definition is_expired (a : t) : M (sys S) bool := let* now := utc_now in ret (now >=? expires_at a).

Definition status_at (status reason : string) (now : Z) (a : t) : t :=
  Mk (tenant_id a) (organization_id a) (remote_org_id a) (created_by a) (allowed_capabilities a) (denied_capabilities a)
    (permitted_data_classes a) (allowed_workflow_types a) status (agreement_id a) (expires_at a) (created_at a) now reason.

Definition with_status (status reason : string) (a : t) : M (sys S) t :=
  let* now := utc_now in ret (status_at status reason now a).

Definition from_dict (value : doc) : M (sys S) t :=
  let* agreement_id := of_res (str_field value "agreement_id") in
  let* tenant_id := of_res (str_field value "tenant_id") in
  let* organization_id := of_res (str_field value "organization_id") in
  let* remote_org_id := of_res (str_field value "remote_org_id") in
  let* allowed_capabilities := of_res (strs_field_or value "allowed_capabilities" []) in
  let* denied_capabilities := of_res (strs_field_or value "denied_capabilities" []) in
  let* permitted_data_classes := of_res (strs_field_or value "permitted_data_classes" ["public"; "internal"]) in
  let* allowed_workflow_types := of_res (strs_field_or value "allowed_workflow_types" []) in
  let* expires_at := time_field_or_now value "expires_at" in
  let* created_at := time_field_or_now value "created_at" in
  let* updated_at := time_field_or_now value "updated_at" in
  ret (Mk tenant_id organization_id remote_org_id (str_field_or value "created_by" "") allowed_capabilities
         denied_capabilities permitted_data_classes allowed_workflow_types (str_field_or value "status" "draft")
         agreement_id expires_at created_at updated_at (str_field_or value "revoked_reason" "")).

Definition ok (a : t) : Prop := time_ok (expires_at a) ∧ time_ok (created_at a) ∧ time_ok (updated_at a).

Lemma agreement_from_as_dict a (s : sys S) : ok a → from_dict (as_dict a) s = (Ok a, s).
Proof.
  intros (He & Hc & Hu). unfold from_dict, bind, of_res, ret. cbn -[time_field_or_now isoformat strs_field_or].
  rewrite (strs_field_or_eq _ "allowed_capabilities" _ (allowed_capabilities a)),
    (strs_field_or_eq _ "denied_capabilities" _ (denied_capabilities a)),
    (strs_field_or_eq _ "permitted_data_classes" _ (permitted_data_classes a)),
    (strs_field_or_eq _ "allowed_workflow_types" _ (allowed_workflow_types a)) by done.
  rewrite (time_field_or_now_iso _ _ _ _ He), (time_field_or_now_iso _ _ _ _ Hc), (time_field_or_now_iso _ _ _ _ Hu) by done.
  by destruct a.
Qed.

(** The agreement is active, and not yet expired, when [s] is asked the time. *)
Definition active_at (now : Z) (a : t) : Prop := status a = "active" ∧ now < expires_at a.

Lemma is_active_eq a (s : sys S) :
  ∃ b s', is_active a s = (Ok b, s') ∧ (b = true ↔ active_at (clock (tick s)) a) ∧
    db s' = db s ∧ events s' = events s ∧ durable s' = durable s.
Proof.
  unfold is_active, active_at. case_bool_decide as E.
  - do 2 eexists. split; [reflexivity|]. cbn. rewrite Z.ltb_lt. naive_solver.
  - exists false, s. naive_solver.
Qed.

End Clock.
End TrustAgreement.

Abbreviation TrustAgreement := TrustAgreement.t.

#[export] Instance agreement_document `{Oracle} {S} : Document S TrustAgreement := {
  d_coll := "federation_agreements"; d_key := TrustAgreement.agreement_id; d_enc := TrustAgreement.as_dict;
  d_dec := TrustAgreement.from_dict; d_ok := TrustAgreement.ok; d_dec_enc := TrustAgreement.agreement_from_as_dict;
  d_enc_ne a := ltac:(done);
}.

(** * federation_policy.py *)

Module FederationPolicy.
Record t := Mk {
  tenant_id : string;
  organization_id : string;
  allowed_capabilities : list string;
  denied_capabilities : list string;
  permitted_data_classes : list string;
  allowed_workflow_types : list string;
  min_reputation_score : float;
  blocked_remote_orgs : list string;
  blocked_remote_agents : list string;
  blocked_publishers : list string;
  compromised_keys : list string;
}.

(** [FederationPolicy(tenant_id=..., organization_id=...)] *)
Definition default (tenant_id organization_id : string) : t :=
  Mk tenant_id organization_id [] [] ["public"; "internal"] [] (lit 0 1) [] [] [] [].

Definition allows_capability (capability : string) (p : t) : bool :=
  allows (allowed_capabilities p) (denied_capabilities p) capability.

Definition as_dict (p : t) : doc :=
  [("tenant_id", VStr (tenant_id p)); ("organization_id", VStr (organization_id p));
   ("allowed_capabilities", VList (map VStr (allowed_capabilities p)));
   ("denied_capabilities", VList (map VStr (denied_capabilities p)));
   ("permitted_data_classes", VList (map VStr (permitted_data_classes p)));
   ("allowed_workflow_types", VList (map VStr (allowed_workflow_types p)));
   ("min_reputation_score", VNumber (min_reputation_score p));
   ("blocked_remote_orgs", VList (map VStr (blocked_remote_orgs p)));
   ("blocked_remote_agents", VList (map VStr (blocked_remote_agents p)));
   ("blocked_publishers", VList (map VStr (blocked_publishers p)));
   ("compromised_keys", VList (map VStr (compromised_keys p)))].

Definition from_dict (value : doc) : res t :=
  let? tenant_id := str_field value "tenant_id" in
  let? organization_id := str_field value "organization_id" in
  let? allowed_capabilities := strs_field_or value "allowed_capabilities" [] in
  let? denied_capabilities := strs_field_or value "denied_capabilities" [] in
  let? permitted_data_classes := strs_field_or value "permitted_data_classes" ["public"; "internal"] in
  let? allowed_workflow_types := strs_field_or value "allowed_workflow_types" [] in
  let? min_reputation_score := float_field_or value "min_reputation_score" (lit 0 1) in
  let? blocked_remote_orgs := strs_field_or value "blocked_remote_orgs" [] in
  let? blocked_remote_agents := strs_field_or value "blocked_remote_agents" [] in
  let? blocked_publishers := strs_field_or value "blocked_publishers" [] in
  let? compromised_keys := strs_field_or value "compromised_keys" [] in
  Ok (Mk tenant_id organization_id allowed_capabilities denied_capabilities permitted_data_classes allowed_workflow_types
        min_reputation_score blocked_remote_orgs blocked_remote_agents blocked_publishers compromised_keys).
End FederationPolicy.

Abbreviation FederationPolicy := FederationPolicy.t.

(** * remote_capability.py, remote_agent.py *)

Module RemoteCapability.
Record t := Mk {
  name : string;
  version : string;
  data_classes : list string;
  workflow_types : list string;
  package_signature_verified : bool;
}.

Definition as_dict (c : t) : doc :=
  [("name", VStr (name c)); ("version", VStr (version c)); ("data_classes", VList (map VStr (data_classes c)));
   ("workflow_types", VList (map VStr (workflow_types c)));
   ("package_signature_verified", VBool (package_signature_verified c))].

Definition from_dict (value : doc) : res t :=
  let? name := str_field value "name" in
  let? data_classes := strs_field_or value "data_classes" ["public"] in
  let? workflow_types := strs_field_or value "workflow_types" [] in
  Ok (Mk name (str_field_or value "version" "1.0.0") data_classes workflow_types
        (bool_field_or value "package_signature_verified" true)).

(** [from_dict] of a value that should be a dict. *)
Definition of_val (v : val) : res t :=
  match v with VDict d => from_dict d | _ => type_error "string indices must be integers" end.

Lemma capability_from_as_dict c : from_dict (as_dict c) = Ok c.
Proof.
  unfold from_dict. cbn -[strs_field_or].
  rewrite (strs_field_or_eq _ "data_classes" _ (data_classes c)), (strs_field_or_eq _ "workflow_types" _ (workflow_types c)) by done.
  by destruct c.
Qed.

Lemma capabilities_from_as_dict l : res_map of_val (map (fun c => VDict (as_dict c)) l) = Ok l.
Proof.
  induction l as [|c l IH]; [done|]. cbn [map res_map of_val]. by rewrite capability_from_as_dict, IH.
Qed.
End RemoteCapability.

Abbreviation RemoteCapability := RemoteCapability.t.

Module RemoteAgent.
Record t := Mk {
  tenant_id : string;
  organization_id : string;
  remote_org_id : string;
  remote_agent_id : string;
  name : string;
  capabilities : list RemoteCapability;
  reputation_score : float;
  publisher_id : string;
  blocked : bool;
  catalog_id : string;
  imported_at : Z;
}.

(** The same agent with some of its capabilities. *)
Definition with_capabilities (capabilities : list RemoteCapability) (a : t) : t :=
  Mk (tenant_id a) (organization_id a) (remote_org_id a) (remote_agent_id a) (name a) capabilities
    (reputation_score a) (publisher_id a) (blocked a) (catalog_id a) (imported_at a).

Definition as_dict (a : t) : doc :=
  [("catalog_id", VStr (catalog_id a)); ("tenant_id", VStr (tenant_id a)); ("organization_id", VStr (organization_id a));
   ("remote_org_id", VStr (remote_org_id a)); ("remote_agent_id", VStr (remote_agent_id a)); ("name", VStr (name a));
   ("capabilities", VList (map (fun c => VDict (RemoteCapability.as_dict c)) (capabilities a)));
   ("reputation_score", VNumber (reputation_score a)); ("publisher_id", VStr (publisher_id a));
   ("blocked", VBool (blocked a)); ("imported_at", VStr (isoformat (imported_at a)))].

Definition from_dict `{Oracle} {S} (value : doc) : M (sys S) t :=
  let* catalog_id := of_res (str_field value "catalog_id") in
  let* tenant_id := of_res (str_field value "tenant_id") in
  let* organization_id := of_res (str_field value "organization_id") in
  let* remote_org_id := of_res (str_field value "remote_org_id") in
  let* remote_agent_id := of_res (str_field value "remote_agent_id") in
  let* name := of_res (str_field value "name") in
  let* items := of_res (py_iter (dget_or value "capabilities" (VList []))) in
  let* capabilities := of_res (res_map RemoteCapability.of_val items) in
  let* reputation_score := of_res (float_field_or value "reputation_score" (lit 10 1)) in
  let* imported_at := time_field_or_now value "imported_at" in
  ret (Mk tenant_id organization_id remote_org_id remote_agent_id name capabilities reputation_score
         (str_field_or value "publisher_id" "") (bool_field_or value "blocked" false) catalog_id imported_at).

(** The score is a number that its text gives back. *)
Definition ok (a : t) : Prop :=
  time_ok (imported_at a) ∧ float_of_text (float_repr (reputation_score a)) = Ok (reputation_score a).

#[local] Opaque float_of_text float_repr.

Lemma agent_from_as_dict `{Oracle} {S} a (s : sys S) : ok a → from_dict (as_dict a) s = (Ok a, s).
Proof.
  intros [Hi Hf]. unfold from_dict, bind, of_res, ret.
  assert (Ec : dget (as_dict a) "capabilities" = Some (VList (map (fun c => VDict (RemoteCapability.as_dict c)) (capabilities a)))) by done.
  assert (Er : dget (as_dict a) "reputation_score" = Some (VNumber (reputation_score a))) by done.
  unfold dget_or, float_field_or. rewrite Ec, Er. cbn [py_iter]. rewrite RemoteCapability.capabilities_from_as_dict.
  cbn [py_float VNumber]. unfold VNumber, py_float. rewrite Hf, (time_field_or_now_iso _ _ _ _ Hi) by done. by destruct a.
Qed.
End RemoteAgent.

Abbreviation RemoteAgent := RemoteAgent.t.

#[export] Instance remote_agent_document `{Oracle} {S} : Document S RemoteAgent := {
  d_coll := "federation_remote_capabilities"; d_key := RemoteAgent.catalog_id; d_enc := RemoteAgent.as_dict;
  d_dec := RemoteAgent.from_dict; d_ok := RemoteAgent.ok; d_dec_enc := RemoteAgent.agent_from_as_dict;
  d_enc_ne a := ltac:(done);
}.

(** * messaging/federated_message.py, federated_receipt.py *)

(** A payload key that must not cross organizations. *)
Definition sensitive_payload (payload : doc) : bool :=
  existsb (fun p => bool_decide (lower p.1 ∈ ["secret"; "raw"; "password"; "token_value"])) payload.

Module FederatedMessage.
Record t := Mk {
  source_org_id : string;
  source_tenant_id : string;
  destination_org_id : string;
  destination_tenant_id : string;
  source_agent_id : string;
  destination_agent_id : string;
  trust_agreement_id : string;
  payload : doc;
  veil_reference : string;
  signature : string;
  message_id : string;
  correlation_id : string;
  nonce : string;
  timestamp : Z;
  ttl_seconds : Z;
  message_type : string;
}.

Definition set_signature (x : string) (m : t) : t :=
  Mk (source_org_id m) (source_tenant_id m) (destination_org_id m) (destination_tenant_id m) (source_agent_id m)
    (destination_agent_id m) (trust_agreement_id m) (payload m) (veil_reference m) x (message_id m) (correlation_id m)
    (nonce m) (timestamp m) (ttl_seconds m) (message_type m).

Definition signing_payload (m : t) : doc :=
  [("message_id", VStr (message_id m)); ("source_org_id", VStr (source_org_id m));
   ("source_tenant_id", VStr (source_tenant_id m)); ("destination_org_id", VStr (destination_org_id m));
   ("destination_tenant_id", VStr (destination_tenant_id m)); ("source_agent_id", VStr (source_agent_id m));
   ("destination_agent_id", VStr (destination_agent_id m)); ("trust_agreement_id", VStr (trust_agreement_id m));
   ("payload", VDict (payload m)); ("veil_reference", VStr (veil_reference m));
   ("correlation_id", VStr (correlation_id m)); ("nonce", VStr (nonce m));
   ("timestamp", VStr (isoformat (timestamp m))); ("ttl_seconds", VInt (ttl_seconds m));
   ("message_type", VStr (message_type m))].

Definition as_dict (m : t) : doc := signing_payload m ++ [("signature", VStr (signature m))].

Section Message.
Context `{Oracle} {S : Type}.

Definition expired (m : t) : M (sys S) bool :=
  let* now := utc_now in
  let* ttl := of_res (timedelta_seconds (ttl_seconds m)) in
  let* limit := of_res (dt_add (timestamp m) ttl) in
  ret (now >? limit).

Definition sign (payload : doc) (secret : string) : string := sha256_hex (dumps (VDict payload) +:+ secret).

Definition verify (secret : string) (m : t) : bool := bool_decide (signature m = sign (signing_payload m) secret).

(** The defaults of [correlation_id] and [nonce] are made whether they are used or not. *)
Definition from_dict (value : doc) : M (sys S) t :=
  let* message_id := of_res (str_field value "message_id") in
  let* source_org_id := of_res (str_field value "source_org_id") in
  let* source_tenant_id := of_res (str_field value "source_tenant_id") in
  let* destination_org_id := of_res (str_field value "destination_org_id") in
  let* destination_tenant_id := of_res (str_field value "destination_tenant_id") in
  let* source_agent_id := of_res (str_field value "source_agent_id") in
  let* destination_agent_id := of_res (str_field value "destination_agent_id") in
  let* trust_agreement_id := of_res (str_field value "trust_agreement_id") in
  let* payload := of_res (dict_field_or_empty value "payload") in
  let* corr := uuid4 in
  let* nonce := uuid4 in
  let* timestamp := time_field_or_now value "timestamp" in
  let* ttl_seconds := of_res (int_field_or value "ttl_seconds" 300) in
  ret (Mk source_org_id source_tenant_id destination_org_id destination_tenant_id source_agent_id destination_agent_id
         trust_agreement_id payload (str_field_or value "veil_reference" "") (str_field_or value "signature" "") message_id
         (str_field_or value "correlation_id" ("fed-corr-" +:+ corr)) (str_field_or value "nonce" ("nonce-" +:+ nonce))
         timestamp ttl_seconds (str_field_or value "message_type" "request")).

(** [create(signing_secret=secret, ...)] with the fields that have no default. *)
Definition create (secret source_org_id source_tenant_id destination_org_id destination_tenant_id source_agent_id
    destination_agent_id trust_agreement_id : string) (payload : doc) (veil_reference : string) : M (sys S) t :=
  let* id := uuid4 in
  let* corr := uuid4 in
  let* nonce := uuid4 in
  let* now := utc_now in
  let unsigned := Mk source_org_id source_tenant_id destination_org_id destination_tenant_id source_agent_id
    destination_agent_id trust_agreement_id payload veil_reference "" ("fed-msg-" +:+ id) ("fed-corr-" +:+ corr)
    ("nonce-" +:+ nonce) now 300 "request" in
  from_dict (dset (as_dict unsigned) "signature" (VStr (sign (signing_payload unsigned) secret))).

(** Reading a message back asks for two ids it does not use. *)
Lemma message_from_as_dict m (s : sys S) :
  time_ok (timestamp m) →
  from_dict (as_dict m) s = (Ok m, Sys (db s) (events s) (durable s) (Datatypes.S (Datatypes.S (tick s)))).
Proof.
  intros Ht. unfold from_dict, bind, of_res, ret, uuid4. cbn -[time_field_or_now isoformat].
  rewrite (time_field_or_now_iso _ _ _ _ Ht) by done. by destruct m.
Qed.

Lemma as_dict_signature x m : dset (as_dict m) "signature" (VStr x) = as_dict (set_signature x m).
Proof. done. Qed.

Lemma signing_payload_signature x m : signing_payload (set_signature x m) = signing_payload m.
Proof. done. Qed.

(** Signed texts that are equal were made of the same message with the same secret. *)
Lemma signed_text_inj m m' secret secret' :
  val_ok (VDict (payload m)) → val_ok (VDict (payload m')) →
  dumps (VDict (signing_payload m)) +:+ secret = dumps (VDict (signing_payload m')) +:+ secret' →
  canon (VDict (signing_payload m)) = canon (VDict (signing_payload m')) ∧ secret = secret'.
Proof.
  intros Hv Hv'. assert (Hok : ∀ m, val_ok (VDict (payload m)) → val_ok (VDict (signing_payload m))).
  { intros x Hx. constructor. repeat constructor. by inversion Hx. }
  by apply dumps_dict_inj; apply Hok.
Qed.

End Message.
End FederatedMessage.

Abbreviation FederatedMessage := FederatedMessage.t.

Module FederatedReceipt.
Record t := Mk {
  message_id : string;
  tenant_id : string;
  status : string;
  reason : string;
  receipt_id : string;
  created_at : Z;
}.

Definition as_dict (r : t) : doc :=
  [("receipt_id", VStr (receipt_id r)); ("message_id", VStr (message_id r)); ("tenant_id", VStr (tenant_id r));
   ("status", VStr (status r)); ("reason", VStr (reason r)); ("created_at", VStr (isoformat (created_at r)))].

Section Receipt.
Context `{Oracle} {S : Type}.

(** [FederatedReceipt(message_id=..., tenant_id=..., status=..., reason=...)] *)
Definition new (message_id tenant_id status reason : string) : M (sys S) t :=
  let* id := uuid4 in
  let* now := utc_now in
  ret (Mk message_id tenant_id status reason ("fed-receipt-" +:+ id) now).

Definition from_dict (value : doc) : M (sys S) t :=
  let* receipt_id := of_res (str_field value "receipt_id") in
  let* message_id := of_res (str_field value "message_id") in
  let* tenant_id := of_res (str_field value "tenant_id") in
  let* status := of_res (str_field value "status") in
  let* created_at := time_field_or_now value "created_at" in
  ret (Mk message_id tenant_id status (str_field_or value "reason" "") receipt_id created_at).

Lemma receipt_from_as_dict r (s : sys S) : time_ok (created_at r) → from_dict (as_dict r) s = (Ok r, s).
Proof.
  intros Hc. unfold from_dict, bind, of_res, ret. cbn -[time_field_or_now isoformat].
  rewrite (time_field_or_now_iso _ _ _ _ Hc) by done. by destruct r.
Qed.

End Receipt.
End FederatedReceipt.

Abbreviation FederatedReceipt := FederatedReceipt.t.

#[export] Instance receipt_document `{Oracle} {S} : Document S FederatedReceipt := {
  d_coll := "federation_receipts"; d_key := FederatedReceipt.receipt_id; d_enc := FederatedReceipt.as_dict;
  d_dec := FederatedReceipt.from_dict; d_ok r := time_ok (FederatedReceipt.created_at r);
  d_dec_enc := FederatedReceipt.receipt_from_as_dict; d_enc_ne r := ltac:(done);
}.

(** * federation_service.py: delegations *)

Module RemoteDelegation.
Record t := Mk {
  tenant_id : string;
  organization_id : string;
  trust_agreement_id : string;
  remote_org_id : string;
  source_agent_id : string;
  destination_agent_id : string;
  task_type : string;
  payload : doc;
  created_by : string;
  status : string;
  delegation_id : string;
  receipt_id : option string;
  result : option doc;
  rejection_reason : string;
  created_at : Z;
  updated_at : Z;
}.

Definition as_dict (d : t) : doc :=
  [("delegation_id", VStr (delegation_id d)); ("tenant_id", VStr (tenant_id d));
   ("organization_id", VStr (organization_id d)); ("trust_agreement_id", VStr (trust_agreement_id d));
   ("remote_org_id", VStr (remote_org_id d)); ("source_agent_id", VStr (source_agent_id d));
   ("destination_agent_id", VStr (destination_agent_id d)); ("task_type", VStr (task_type d));
   ("payload", VDict (payload d)); ("created_by", VStr (created_by d)); ("status", VStr (status d));
   ("receipt_id", opt_str (receipt_id d)); ("result", VDict (default [] (result d)));
   ("rejection_reason", VStr (rejection_reason d)); ("created_at", VStr (isoformat (created_at d)));
   ("updated_at", VStr (isoformat (updated_at d)))].

Section Delegation.
Context `{Oracle} {S : Type}.

Definition from_dict (value : doc) : M (sys S) t :=
  let* delegation_id := of_res (str_field value "delegation_id") in
  let* tenant_id := of_res (str_field value "tenant_id") in
  let* organization_id := of_res (str_field value "organization_id") in
  let* trust_agreement_id := of_res (str_field value "trust_agreement_id") in
  let* remote_org_id := of_res (str_field value "remote_org_id") in
  let* source_agent_id := of_res (str_field value "source_agent_id") in
  let* destination_agent_id := of_res (str_field value "destination_agent_id") in
  let* task_type := of_res (str_field value "task_type") in
  let* payload := of_res (dict_field_or_empty value "payload") in
  let* result := of_res (dict_field_or_empty value "result") in
  let* created_at := time_field_or_now value "created_at" in
  let* updated_at := time_field_or_now value "updated_at" in
  ret (Mk tenant_id organization_id trust_agreement_id remote_org_id source_agent_id destination_agent_id task_type
         payload (str_field_or value "created_by" "") (str_field_or value "status" "requested") delegation_id
         (opt_str_field value "receipt_id") (match result with [] => None | _ => Some result end)
         (str_field_or value "rejection_reason" "") created_at updated_at).

Definition with_update (updates : doc) (d : t) : M (sys S) t :=
  let data := dupdate (as_dict d) updates in
  let* now := utc_now in
  from_dict (dset data "updated_at" (VStr (isoformat now))).

Definition ok (d : t) : Prop :=
  receipt_id d ≠ Some "" ∧ result d ≠ Some [] ∧ time_ok (created_at d) ∧ time_ok (updated_at d).

Lemma delegation_from_as_dict d (s : sys S) : ok d → from_dict (as_dict d) s = (Ok d, s).
Proof.
  intros (Hr & Hres & Hc & Hu). unfold from_dict, bind, of_res, ret.
  cbn -[time_field_or_now isoformat opt_str_field].
  rewrite (time_field_or_now_iso _ _ _ _ Hc), (time_field_or_now_iso _ _ _ _ Hu), (opt_str_field_eq _ _ _ Hr) by done.
  destruct d as [? ? ? ? ? ? ? ? ? ? ? ? [[|]|] ? ? ?]; done.
Qed.

(** The delegation at time [now] with the receipt of its message. *)
Definition sent_at (receipt_id : string) (now : Z) (d : t) : t :=
  Mk (tenant_id d) (organization_id d) (trust_agreement_id d) (remote_org_id d) (source_agent_id d)
    (destination_agent_id d) (task_type d) (payload d) (created_by d) (status d) (delegation_id d) (Some receipt_id)
    (result d) (rejection_reason d) (created_at d) now.

Lemma with_receipt receipt d (s : sys S) :
  ok d → receipt ≠ "" → time_ok (clock (tick s)) →
  with_update [("receipt_id", VStr receipt)] d s =
  (Ok (sent_at receipt (clock (tick s)) d), Sys (db s) (events s) (durable s) (Datatypes.S (tick s))).
Proof.
  intros (Hr & Hres & Hc & Hu) Hne Ht. unfold with_update. cbv zeta. unfold bind at 1, utc_now.
  change (dset (dupdate (as_dict d) [("receipt_id", VStr receipt)]) "updated_at" (VStr (isoformat (clock (tick s)))))
    with (as_dict (sent_at receipt (clock (tick s)) d)).
  apply delegation_from_as_dict. split_and!; cbn; [congruence|done..].
Qed.

End Delegation.
End RemoteDelegation.

Abbreviation RemoteDelegation := RemoteDelegation.t.

#[export] Instance delegation_document `{Oracle} {S} : Document S RemoteDelegation := {
  d_coll := "federation_delegations"; d_key := RemoteDelegation.delegation_id; d_enc := RemoteDelegation.as_dict;
  d_dec := RemoteDelegation.from_dict; d_ok := RemoteDelegation.ok; d_dec_enc := RemoteDelegation.delegation_from_as_dict;
  d_enc_ne d := ltac:(done);
}.
