(* ===== verification/FederationService.v ===== *)
(** Federation (agentfabric/federation): the registry of organizations and
    agreements, the exchange of capabilities, the router of signed messages and
    the service over them. *)

From stdpp Require Import base option list strings gmap sets.
From Stdlib Require Import ZArith Lia SpecFloat.
From S2P Require Import Prelude PyVal Json PyTime Floats Store EventStore Documents Veil Federation.

Local Open Scope Z_scope.

Section Records.
Context `{Oracle} {S : Type} `{PersistenceStore S}.

(** [item = persistence.get(collection, key)]; a missing item is an error. *)
Definition get_record {A} `{!Document S A} (missing : string) (key : string) : M (sys S) A :=
  let* item := store_get (d_coll (A := A)) key in
  match item with None => raise NotFoundError missing | Some d => d_dec d end.

End Records.

(** * federation_registry.py *)

Module FederationRegistry.
Section Registry.
Context `{Oracle} {S : Type} `{PersistenceStore S}.

Definition list_orgs (tenant_id : string) : M (sys S) (list FederatedOrg) := doc_list_tenant tenant_id.

Definition find_org_by_remote_id (tenant_id remote_org_id : string) : M (sys S) (option FederatedOrg) :=
  let* orgs := list_orgs tenant_id in
  ret (head (base.filter (fun o => FederatedOrg.remote_org_id o = remote_org_id) orgs)).

Definition get_org (org_id : string) : M (sys S) FederatedOrg := get_record "federated org not found" org_id.

Definition list_agreements (tenant_id : string) : M (sys S) (list TrustAgreement) := doc_list_tenant tenant_id.

Definition get_agreement (agreement_id : string) : M (sys S) TrustAgreement :=
  get_record "trust agreement not found" agreement_id.

(** The loop of [active_for_remote]. *)
Fixpoint first_active (remote_org_id : string) (l : list TrustAgreement) : M (sys S) (option TrustAgreement) :=
  match l with
  | [] => ret None
  | a :: l' =>
      if bool_decide (TrustAgreement.remote_org_id a = remote_org_id) then
        let* active := TrustAgreement.is_active a in
        if active : bool then ret (Some a) else first_active remote_org_id l'
      else first_active remote_org_id l'
  end.

Definition active_for_remote (tenant_id remote_org_id : string) : M (sys S) (option TrustAgreement) :=
  let* agreements := list_agreements tenant_id in first_active remote_org_id agreements.

End Registry.
End FederationRegistry.

(** * capability_exchange.py *)

Module CapabilityExchange.
Section Exchange.
Context `{Oracle} `{VeilClient} {S : Type} `{PersistenceStore S}.

Definition subset (l m : list string) : bool := forallb (fun x => bool_decide (x ∈ m)) l.

(** What the agreement and the policy both let through. *)
Definition permitted (agreement : TrustAgreement) (policy : FederationPolicy) (cap : RemoteCapability) : bool :=
  RemoteCapability.package_signature_verified cap
  && TrustAgreement.allows_capability (RemoteCapability.name cap) agreement
  && FederationPolicy.allows_capability (RemoteCapability.name cap) policy
  && subset (RemoteCapability.data_classes cap) (TrustAgreement.permitted_data_classes agreement)
  && subset (RemoteCapability.data_classes cap) (FederationPolicy.permitted_data_classes policy).

(** The agents the policy passes over. *)
Definition passed_over (policy : FederationPolicy) (agent : RemoteAgent) : bool :=
  bool_decide (RemoteAgent.remote_org_id agent ∈ FederationPolicy.blocked_remote_orgs policy)
  || bool_decide (RemoteAgent.remote_agent_id agent ∈ FederationPolicy.blocked_remote_agents policy)
  || negb (bool_decide (RemoteAgent.publisher_id agent = ""))
     && bool_decide (RemoteAgent.publisher_id agent ∈ FederationPolicy.blocked_publishers policy)
  || SFltb (RemoteAgent.reputation_score agent) (FederationPolicy.min_reputation_score policy)
  || RemoteAgent.blocked agent.

Definition discovery_request (agent : RemoteAgent) (capabilities : list RemoteCapability) : PolicyCheck.request :=
  PolicyCheck.Req (RemoteAgent.remote_agent_id agent) "federation.discovery"
    [("tenant_id", VStr (RemoteAgent.tenant_id agent)); ("remote_org_id", VStr (RemoteAgent.remote_org_id agent));
     ("capabilities", VList (map (fun c => VStr (RemoteCapability.name c)) capabilities))].

(** A turn of the loop: the agent as it is shown, if it is. *)
Definition show (agreement : TrustAgreement) (policy : FederationPolicy) (agent : RemoteAgent) : M (sys S) (option RemoteAgent) :=
  if passed_over policy agent then ret None
  else
  match base.filter (fun cap => permitted agreement policy cap = true) (RemoteAgent.capabilities agent) with
  | [] => ret None
  | capabilities =>
      let* response := veil_call check_policy (discovery_request agent capabilities) in
      ret (if PolicyCheck.allowed response then Some (RemoteAgent.with_capabilities capabilities agent) else None)
  end.

Definition filter_catalog (agreement : TrustAgreement) (policy : FederationPolicy) (agents : list RemoteAgent)
    : M (sys S) (list RemoteAgent) :=
  let* active := TrustAgreement.is_active agreement in
  if negb active then raise AuthorizationError "active trust agreement is required"
  else let* shown := for_map agents (show agreement policy) in ret (omap id shown).

End Exchange.
End CapabilityExchange.

(** * federated_directory.py *)

Module FederatedDirectory.
Section Directory.
Context `{Oracle} `{VeilClient} {S : Type} `{PersistenceStore S}.

Definition publish_local (agent : RemoteAgent) : M (sys S) RemoteAgent := do* doc_put agent; ret agent.
Definition import_remote (agent : RemoteAgent) : M (sys S) RemoteAgent := do* doc_put agent; ret agent.

Definition has_capability (name : string) (agent : RemoteAgent) : bool :=
  existsb (fun c => bool_decide (RemoteCapability.name c = name)) (RemoteAgent.capabilities agent).

Definition discover (tenant_id : string) (agreement : TrustAgreement) (policy : FederationPolicy) (capability : option string)
    : M (sys S) (list RemoteAgent) :=
  let* items := store_list_tenant "federation_remote_capabilities" tenant_id in
  let* agents := for_map (base.filter (fun d => is_str (dget d "remote_org_id") (TrustAgreement.remote_org_id agreement) = true)
                            items) RemoteAgent.from_dict in
  let* filtered := CapabilityExchange.filter_catalog agreement policy agents in
  ret (match capability with
       | Some c => if bool_decide (c = "") then filtered else base.filter (fun a => has_capability c a = true) filtered
       | None => filtered
       end).

End Directory.
End FederatedDirectory.

(** * messaging/federated_message_router.py, remote_delivery.py *)

Module FederatedMessageRouter.
Section Router.
Context `{Oracle} `{VeilClient} {S : Type} `{PersistenceStore S}.

(** [RemoteDelivery.deliver] *)
Definition deliver (message : FederatedMessage) : M (sys S) FederatedReceipt :=
  FederatedReceipt.new (FederatedMessage.message_id message) (FederatedMessage.source_tenant_id message) "accepted" "".

(** The refusal of a message that is logged. *)
Definition reject {A} (type : string) (message : FederatedMessage) (reason : string) (c : exn_class) (msg : string) : M (sys S) A :=
  do* EventStore.append type (FederatedMessage.message_id message)
    [("tenant_id", VStr (FederatedMessage.source_tenant_id message)); ("reason", VStr reason)];
  raise c msg.

Definition message_request (message : FederatedMessage) : PolicyCheck.request :=
  PolicyCheck.Req (FederatedMessage.source_agent_id message) "federation.message" (FederatedMessage.as_dict message).

Definition _validate (message : FederatedMessage) (agreement : TrustAgreement) (signing_secret : string) : M (sys S) unit :=
  let* active := TrustAgreement.is_active agreement in
  if negb active then raise AuthorizationError "active trust agreement is required"
  else
  let* expired := FederatedMessage.expired message in
  if expired : bool
  then reject "federation.message.rejected" message "message expired" ValidationError "message expired"
  else
  let* known := store_get "federation_nonces" (FederatedMessage.nonce message) in
  match known with
  | Some (_ :: _) =>
      reject "federation.message.rejected" message "replay detected" ValidationError "replayed message rejected"
  | _ =>
      if bool_decide (FederatedMessage.signature message = "") || negb (FederatedMessage.verify signing_secret message)
      then reject "federation.remote_key.rejected" message "bad signature" AuthorizationError "invalid federated message signature"
      else if sensitive_payload (FederatedMessage.payload message)
      then raise ValidationError "raw sensitive federated payload values are not allowed"
      else
      let* response := veil_call check_policy (message_request message) in
      if negb (PolicyCheck.allowed response)
      then reject "federation.message.rejected" message (PolicyCheck.reason response) AuthorizationError
             (str_or (PolicyCheck.reason response) "VEIL policy denied federated message")
      else ret tt
  end.

Definition put_message (message : FederatedMessage) : M (sys S) unit :=
  store_put "federation_messages" (FederatedMessage.message_id message) (FederatedMessage.as_dict message).

Definition put_nonce (tenant_id : string) (message : FederatedMessage) : M (sys S) unit :=
  store_put "federation_nonces" (FederatedMessage.nonce message)
    [("tenant_id", VStr tenant_id); ("nonce", VStr (FederatedMessage.nonce message));
     ("message_id", VStr (FederatedMessage.message_id message))].

Definition log_message (type tenant_id organization_id : string) (message : FederatedMessage) : M (sys S) AgentFabricEvent :=
  EventStore.append type (FederatedMessage.message_id message)
    (dupdate [("tenant_id", VStr tenant_id); ("organization_id", VStr organization_id)] (FederatedMessage.as_dict message)).

Definition send (message : FederatedMessage) (agreement : TrustAgreement) (signing_secret : string) : M (sys S) FederatedReceipt :=
  do* _validate message agreement signing_secret;
  do* put_message message;
  do* put_nonce (FederatedMessage.source_tenant_id message) message;
  do* log_message "federation.message.sent" (FederatedMessage.source_tenant_id message)
        (FederatedMessage.source_org_id message) message;
  let* receipt := deliver message in
  do* doc_put receipt;
  ret receipt.

Definition receive (message : FederatedMessage) (agreement : TrustAgreement) (signing_secret : string)
    : M (sys S) FederatedReceipt :=
  do* _validate message agreement signing_secret;
  let* receipt := FederatedReceipt.new (FederatedMessage.message_id message)
    (FederatedMessage.destination_tenant_id message) "received" "" in
  do* put_message message;
  do* doc_put receipt;
  do* put_nonce (FederatedMessage.destination_tenant_id message) message;
  do* log_message "federation.message.received" (FederatedMessage.destination_tenant_id message)
        (FederatedMessage.destination_org_id message) message;
  ret receipt.

Definition receipt (message_id tenant_id status reason : string) : M (sys S) FederatedReceipt :=
  let* receipt := FederatedReceipt.new message_id tenant_id status reason in
  do* doc_put receipt;
  ret receipt.

End Router.
End FederatedMessageRouter.

(** * federation_service.py *)

Module FederationService.
Section Service.
Context `{Oracle} `{VeilClient} {S : Type} `{PersistenceStore S}.
Import FederationRegistry.

Definition log_agreement (type : string) (agreement : TrustAgreement) : M (sys S) AgentFabricEvent :=
  EventStore.append type (TrustAgreement.agreement_id agreement) (TrustAgreement.as_dict agreement).

Definition _assert_active (agreement : TrustAgreement) : M (sys S) unit :=
  let* expired := TrustAgreement.is_expired agreement in
  if expired : bool then
    let* expired := TrustAgreement.with_status "expired" "" agreement in
    do* doc_put expired;
    do* EventStore.append "federation.agreement.expired" (TrustAgreement.agreement_id agreement) (TrustAgreement.as_dict expired);
    raise AuthorizationError "trust agreement expired"
  else
  let* active := TrustAgreement.is_active agreement in
  if negb active then raise AuthorizationError "active trust agreement is required" else ret tt.

Definition _safe_payload (payload : doc) : res unit :=
  if sensitive_payload payload
  then Err (Exn ValidationError "raw sensitive federation payload values are not allowed") else Ok tt.

Definition create_org (org : FederatedOrg) : M (sys S) FederatedOrg := do* doc_put org; ret org.

Definition create_agreement (agreement : TrustAgreement) : M (sys S) TrustAgreement :=
  let* org := find_org_by_remote_id (TrustAgreement.tenant_id agreement) (TrustAgreement.remote_org_id agreement) in
  match org with
  | None => raise NotFoundError "remote organization must be registered before agreement"
  | Some _ =>
      do* doc_put agreement;
      do* log_agreement "federation.agreement.created" agreement;
      ret agreement
  end.

Definition activate_agreement (agreement_id : string) : M (sys S) TrustAgreement :=
  let* agreement := get_agreement agreement_id in
  let* expired := TrustAgreement.is_expired agreement in
  if expired : bool then
    let* expired := TrustAgreement.with_status "expired" "" agreement in
    do* doc_put expired;
    do* EventStore.append "federation.agreement.expired" agreement_id (TrustAgreement.as_dict expired);
    raise ConflictError "trust agreement expired"
  else
  let* activated := TrustAgreement.with_status "active" "" agreement in
  do* doc_put activated;
  do* EventStore.append "federation.agreement.activated" agreement_id (TrustAgreement.as_dict activated);
  ret activated.

Definition revoke_agreement (agreement_id reason : string) : M (sys S) TrustAgreement :=
  let* agreement := get_agreement agreement_id in
  let* revoked := TrustAgreement.with_status "revoked" reason agreement in
  do* doc_put revoked;
  do* EventStore.append "federation.agreement.revoked" agreement_id (TrustAgreement.as_dict revoked);
  do* EventStore.append "federation.remote_org.blocked" (TrustAgreement.remote_org_id agreement)
    [("tenant_id", VStr (TrustAgreement.tenant_id agreement));
     ("organization_id", VStr (TrustAgreement.organization_id agreement));
     ("remote_org_id", VStr (TrustAgreement.remote_org_id agreement)); ("reason", VStr reason)];
  ret revoked.

Definition policy (tenant_id organization_id : string) : M (sys S) FederationPolicy :=
  let* item := store_get "federation_policies" tenant_id in
  match item with
  | Some ((_ :: _) as d) => of_res (FederationPolicy.from_dict d)
  | _ => ret (FederationPolicy.default tenant_id organization_id)
  end.

Definition publish_capability (agent : RemoteAgent) (agreement : TrustAgreement) : M (sys S) RemoteAgent :=
  do* _assert_active agreement;
  do* FederatedDirectory.publish_local agent;
  do* EventStore.append "federation.capability.published" (RemoteAgent.catalog_id agent) (RemoteAgent.as_dict agent);
  ret agent.

Definition import_capability (agent : RemoteAgent) (agreement : TrustAgreement) : M (sys S) RemoteAgent :=
  do* _assert_active agreement;
  do* FederatedDirectory.import_remote agent;
  do* EventStore.append "federation.capability.imported" (RemoteAgent.catalog_id agent) (RemoteAgent.as_dict agent);
  ret agent.

Definition discover (tenant_id organization_id agreement_id : string) (capability : option string)
    : M (sys S) (list RemoteAgent) :=
  let* agreement := get_agreement agreement_id in
  do* _assert_active agreement;
  let* policy := policy tenant_id organization_id in
  FederatedDirectory.discover tenant_id agreement policy capability.

Definition send_message (message : FederatedMessage) (signing_secret : string) : M (sys S) FederatedReceipt :=
  let* agreement := get_agreement (FederatedMessage.trust_agreement_id message) in
  do* _assert_active agreement;
  FederatedMessageRouter.send message agreement signing_secret.

Definition get_message (message_id : string) : M (sys S) FederatedMessage :=
  let* item := store_get "federation_messages" message_id in
  match item with
  | None => raise NotFoundError "federated message not found"
  | Some d => FederatedMessage.from_dict d
  end.

Definition add_receipt (message_id tenant_id status reason : string) : M (sys S) FederatedReceipt :=
  let* receipt := FederatedMessageRouter.receipt message_id tenant_id status reason in
  do* doc_put receipt;
  ret receipt.

Definition get_delegation (delegation_id : string) : M (sys S) RemoteDelegation :=
  get_record "federation delegation not found" delegation_id.

Definition governed_tasks : list string := ["code_review"; "compliance_review"; "package_verification"].

Definition delegate_request (delegation : RemoteDelegation) : PolicyCheck.request :=
  PolicyCheck.Req (RemoteDelegation.source_agent_id delegation)
    ("federation.delegate." +:+ RemoteDelegation.task_type delegation) (RemoteDelegation.as_dict delegation).

(** The message that carries a delegation. *)
Definition delegation_message (delegation : RemoteDelegation) (signing_secret : string) : M (sys S) FederatedMessage :=
  FederatedMessage.create signing_secret (RemoteDelegation.organization_id delegation) (RemoteDelegation.tenant_id delegation)
    (RemoteDelegation.remote_org_id delegation) (RemoteDelegation.remote_org_id delegation)
    (RemoteDelegation.source_agent_id delegation) (RemoteDelegation.destination_agent_id delegation)
    (RemoteDelegation.trust_agreement_id delegation)
    (dupdate [("delegation_id", VStr (RemoteDelegation.delegation_id delegation));
              ("task_type", VStr (RemoteDelegation.task_type delegation))] (RemoteDelegation.payload delegation))
    (str_field_or (RemoteDelegation.payload delegation) "veil_reference" "veil-ref").

Definition request_delegation (delegation : RemoteDelegation) (signing_secret : string) (governance_approved : bool)
    : M (sys S) RemoteDelegation :=
  let task := RemoteDelegation.task_type delegation in
  let* agreement := get_agreement (RemoteDelegation.trust_agreement_id delegation) in
  do* _assert_active agreement;
  if negb (bool_decide (task ∈ TrustAgreement.allowed_capabilities agreement))
  then raise AuthorizationError "delegation capability is not allowed by agreement"
  else if bool_decide (task ∈ governed_tasks) && negb governance_approved
  then raise AuthorizationError "governance approval is required for delegation"
  else
  do* of_res (_safe_payload (RemoteDelegation.payload delegation));
  let* response := veil_call check_policy (delegate_request delegation) in
  if negb (PolicyCheck.allowed response)
  then raise AuthorizationError (str_or (PolicyCheck.reason response) "VEIL policy denied federation delegation")
  else
  let* message := delegation_message delegation signing_secret in
  let* receipt := send_message message signing_secret in
  let* requested := RemoteDelegation.with_update [("receipt_id", VStr (FederatedReceipt.receipt_id receipt))] delegation in
  do* doc_put requested;
  do* EventStore.append "federation.delegation.requested" (RemoteDelegation.delegation_id requested)
    (RemoteDelegation.as_dict requested);
  ret requested.

Definition complete_delegation (delegation_id : string) (result : doc) : M (sys S) RemoteDelegation :=
  let* delegation := get_delegation delegation_id in
  let* completed := RemoteDelegation.with_update [("status", VStr "completed"); ("result", VDict result)] delegation in
  do* store_put "federation_delegations" delegation_id (RemoteDelegation.as_dict completed);
  do* EventStore.append "federation.delegation.completed" delegation_id (RemoteDelegation.as_dict completed);
  do* veil_call create_audit_event (AuditEvent.Req (RemoteDelegation.destination_agent_id completed)
        "federation.delegation.completed" (RemoteDelegation.as_dict completed));
  ret completed.

Definition reject_delegation (delegation_id reason : string) : M (sys S) RemoteDelegation :=
  let* delegation := get_delegation delegation_id in
  let* rejected := RemoteDelegation.with_update [("status", VStr "failed"); ("rejection_reason", VStr reason)] delegation in
  do* store_put "federation_delegations" delegation_id (RemoteDelegation.as_dict rejected);
  do* EventStore.append "federation.delegation.failed" delegation_id (RemoteDelegation.as_dict rejected);
  ret rejected.

(** [sum(1 for x in l if ...)] *)
Definition count {A} (p : A → bool) (l : list A) : Z := Z.of_nat (length (List.filter p l)).

Definition reputation (tenant_id remote_org_id : string) : M (sys S) doc :=
  let* items := store_list_tenant "federation_delegations" tenant_id in
  let* delegations := for_map (base.filter (fun d => is_str (dget d "remote_org_id") remote_org_id = true) items)
                        RemoteDelegation.from_dict in
  let* items := store_list_tenant "federation_messages" tenant_id in
  let messages := base.filter (fun d => is_str (dget d "destination_org_id") remote_org_id = true) items in
  let completed := count (fun d => bool_decide (RemoteDelegation.status d = "completed")) delegations in
  let failed := count (fun d => bool_decide (RemoteDelegation.status d = "failed")) delegations in
  let rejected := count (fun d => is_str (dget d "status") "rejected") messages in
  let total := Z.max (completed + failed) 1 in
  let reliability := fdiv (of_int completed) (of_int total) in
  let rejection_penalty := fmin (fdiv (of_int rejected) (of_int (Z.max (Z.of_nat (length messages)) 1))) (lit 5 1) in
  let score := round4 (fmax (lit 0 1) (fsub reliability rejection_penalty)) in
  ret [("tenant_id", VStr tenant_id); ("remote_org_id", VStr remote_org_id);
       ("remote_task_success_rate", VNumber reliability);
       ("remote_failure_rate", VNumber (fdiv (of_int failed) (of_int total)));
       ("message_rejection_rate", VNumber rejection_penalty); ("federated_reputation_score", VNumber score);
       ("partner_reliability_score", VNumber score);
       ("remote_agent_confidence_score",
          VNumber (round4 (fmul score (fmin (fdiv (of_int (completed + failed)) (of_int 10)) (lit 10 1)))))].

End Service.
End FederationService.
