(* ===== verification/FederationTrust.v ===== *)
(** What federation lets through: the messages the router accepts, the nonces it
    never accepts twice, what a signature stands for, the agents a catalog shows
    and the delegations that are sent. *)

From stdpp Require Import base option list strings gmap sets.
From Stdlib Require Import ZArith Lia SpecFloat.
From S2P Require Import Prelude PyVal Json PyTime Floats Store EventStore Documents Veil Federation FederationService.

Local Open Scope Z_scope.

(** * The router and the service *)

(** Lookups in a store after some puts to other places. *)
Ltac through_puts := unfold with_db; cbn [db events durable tick d_coll d_key d_enc receipt_document delegation_document];
  repeat (rewrite get_put_eq || rewrite get_put_ne by congruence).

Section Router.
Context `{Oracle} `{VeilClient} {S : Type} `{PersistenceStore S} `{!StoreLaws S}.
Implicit Types (m : FederatedMessage) (ag : TrustAgreement) (s : sys S).
Import FederatedMessageRouter.

(** The nonce was not seen: there is no record of it. *)
Definition fresh_nonce (nonce : string) (db : S) : Prop :=
  match st_get "federation_nonces" nonce db with Some (_ :: _) => False | _ => True end.

(** What is asked of a message: an active agreement, a time to live that is not
    over, a new nonce, a signature made with the secret, no sensitive key, and
    the consent of VEIL. *)
Record acceptable m ag (secret : string) s : Prop := Acceptable {
  acc_active : TrustAgreement.active_at (clock (tick s)) ag;
  acc_alive : clock (Datatypes.S (tick s)) <= FederatedMessage.timestamp m + FederatedMessage.ttl_seconds m * second_us;
  acc_nonce : fresh_nonce (FederatedMessage.nonce m) (db s);
  acc_signed : FederatedMessage.signature m ≠ "" ∧
    FederatedMessage.signature m = FederatedMessage.sign (FederatedMessage.signing_payload m) secret;
  acc_payload : sensitive_payload (FederatedMessage.payload m) = false;
  acc_veil : ∃ n response, check_policy n (message_request m) = Ok response ∧ PolicyCheck.allowed response = true;
}.

Lemma reads_reject {A} x ty m reason c msg : preserves (reads (S := S) x) (reject (A := A) ty m reason c msg).
Proof. unfold reject. auto with preserve. Qed.

Lemma reads_is_active x ag : preserves (reads (S := S) x) (TrustAgreement.is_active ag).
Proof. unfold TrustAgreement.is_active. auto with preserve. Qed.

Lemma reads_expired x m : preserves (reads (S := S) x) (FederatedMessage.expired m).
Proof. unfold FederatedMessage.expired. auto with preserve. Qed.

Lemma reads_validate x m ag secret : preserves (reads (S := S) x) (_validate m ag secret).
Proof.
  apply preserves_bind; [apply reads_is_active|]. intros b. apply preserves_if; [auto with preserve|].
  apply preserves_bind; [apply reads_expired|]. intros e. apply preserves_if; [apply reads_reject|].
  apply preserves_bind; [by intros s|]. intros known.
  destruct known as [[|? ?]|]; try apply reads_reject; repeat apply preserves_if; try apply reads_reject; auto with preserve.
  all: apply preserves_bind; [apply reads_veil_call|]; intros r; apply preserves_if; [apply reads_reject|auto with preserve].
Qed.

(** A call that only asks the oracles. *)
Definition same_data s s' : Prop := db s' = db s ∧ events s' = events s ∧ durable s' = durable s.

Lemma expired_false m s s' :
  FederatedMessage.expired m s = (Ok false, s') →
  clock (tick s) <= FederatedMessage.timestamp m + FederatedMessage.ttl_seconds m * second_us ∧ same_data s s'.
Proof.
  unfold FederatedMessage.expired, bind, utc_now, of_res, ret, timedelta_seconds, dt_add.
  destruct (_ >? 999999999); [done|]. case_bool_decide; [|done]. intros E. injection E as Eb <-.
  split; [|done]. rewrite Z.gtb_ltb in Eb. apply Z.ltb_ge in Eb. exact Eb.
Qed.

Lemma reject_not_ok {A} ty m reason c msg s (a : A) s' : reject ty m reason c msg s ≠ (Ok a, s').
Proof. unfold reject, bind, raise. by destruct (EventStore.append _ _ _ s) as [[]]. Qed.

Lemma validate_ok m ag secret s u s' :
  _validate m ag secret s = (Ok u, s') → acceptable m ag secret s ∧ same_data s s'.
Proof.
  intros Hv. unfold _validate in Hv. apply bind_ok in Hv as (b & s1 & Hb & Hv).
  destruct b; [|done]. unfold TrustAgreement.is_active in Hb. destruct (bool_decide (TrustAgreement.status ag = _)) eqn:Ea; [|by injection Hb].
  apply bool_decide_eq_true in Ea. injection Hb as Hb <-. apply Z.ltb_lt in Hb. cbn [negb] in Hv.
  apply bind_ok in Hv as ([] & s2 & He & Hv); [by apply reject_not_ok in Hv|]. apply expired_false in He as [He Hs2].
  apply bind_ok in Hv as (known & s3 & Hk & Hv). unfold store_get, gets in Hk. injection Hk as Hk <-.
  destruct Hs2 as (Hd & Hev & Hdu). cbn in Hd, Hev, Hdu, He.
  assert (Hfresh : fresh_nonce (FederatedMessage.nonce m) (db s)).
  { unfold fresh_nonce. rewrite <- Hd, Hk. destruct known as [[|]|]; try done. by apply reject_not_ok in Hv. }
  assert (Hv' : (if bool_decide (FederatedMessage.signature m = "") || negb (FederatedMessage.verify secret m)
      then reject "federation.remote_key.rejected" m "bad signature" AuthorizationError "invalid federated message signature"
      else if sensitive_payload (FederatedMessage.payload m)
      then raise ValidationError "raw sensitive federated payload values are not allowed"
      else
      let* response := veil_call check_policy (message_request m) in
      if negb (PolicyCheck.allowed response)
      then reject "federation.message.rejected" m (PolicyCheck.reason response) AuthorizationError
             (str_or (PolicyCheck.reason response) "VEIL policy denied federated message")
      else ret tt) s2 = (Ok u, s')).
  { destruct known as [[|]|]; [exact Hv|by apply reject_not_ok in Hv|exact Hv]. }
  clear Hv. destruct (bool_decide (_ = "")) eqn:Esig; cbn [orb] in Hv'; [by apply reject_not_ok in Hv'|].
  destruct (FederatedMessage.verify secret m) eqn:Ever; cbn [negb] in Hv'; [|by apply reject_not_ok in Hv'].
  destruct (sensitive_payload _) eqn:Esen; [done|].
  apply bind_ok in Hv' as (response & s4 & Hr & Hv'). unfold veil_call in Hr. injection Hr as Hr <-.
  destruct (PolicyCheck.allowed response) eqn:Eal; cbn [negb] in Hv'; [|by apply reject_not_ok in Hv'].
  injection Hv' as _ <-. split; [|done]. split; [done|exact He|exact Hfresh| |done|by eauto].
  split; [by apply bool_decide_eq_false in Esig|by apply bool_decide_eq_true in Ever].
Qed.

(** The message was taken: it is stored with its nonce and a receipt, and logged. *)
Record delivered (type status tenant_id : string) m (r : FederatedReceipt) s s' : Prop := Delivered {
  del_message : st_get "federation_messages" (FederatedMessage.message_id m) (db s') = Some (FederatedMessage.as_dict m);
  del_nonce : ¬ fresh_nonce (FederatedMessage.nonce m) (db s');
  del_others : ∀ nonce, fresh_nonce nonce (db s') → fresh_nonce nonce (db s);
  del_stored : st_get "federation_receipts" (FederatedReceipt.receipt_id r) (db s') = Some (FederatedReceipt.as_dict r);
  del_receipt : FederatedReceipt.message_id r = FederatedMessage.message_id m ∧ FederatedReceipt.tenant_id r = tenant_id ∧
    FederatedReceipt.status r = status ∧ FederatedReceipt.receipt_id r ≠ "";
  del_event : ∃ e, events s' = events s ++ [e] ∧ event_type e = type ∧ aggregate_id e = FederatedMessage.message_id m ∧
    durable s' = durable s;
}.

(** The documents, but for the events, are as they were. *)
Definition untouched s s' : Prop := ∀ c k, c ≠ "events" → st_get c k (db s') = st_get c k (db s).

Lemma fresh_put nonce k c d db :
  (c = "federation_nonces" → d ≠ []) → fresh_nonce nonce (st_put c k d db) → fresh_nonce nonce db.
Proof.
  unfold fresh_nonce. intros Hd. destruct (decide (c = "federation_nonces")) as [->|Hc].
  - destruct (decide (k = nonce)) as [->|Hk].
    + rewrite get_put_eq. destruct d; [by destruct Hd|done].
    + by rewrite get_put_ne by congruence.
  - by rewrite get_put_ne by congruence.
Qed.

Lemma get_put_if c k k' d (db : S) :
  st_get c k' (st_put c k d db) = if bool_decide (k' = k) then Some d else st_get c k' db.
Proof. case_bool_decide; [subst; apply get_put_eq|by rewrite get_put_ne by congruence]. Qed.

Lemma delivered_intro type status tenant m r s s' d e :
  st_get "federation_messages" (FederatedMessage.message_id m) (db s') = Some (FederatedMessage.as_dict m) →
  (∀ nonce, st_get "federation_nonces" nonce (db s') =
     if bool_decide (nonce = FederatedMessage.nonce m) then Some d else st_get "federation_nonces" nonce (db s)) → d ≠ [] →
  st_get "federation_receipts" (FederatedReceipt.receipt_id r) (db s') = Some (FederatedReceipt.as_dict r) →
  FederatedReceipt.message_id r = FederatedMessage.message_id m ∧ FederatedReceipt.tenant_id r = tenant ∧
    FederatedReceipt.status r = status ∧ FederatedReceipt.receipt_id r ≠ "" →
  events s' = events s ++ [e] → event_type e = type → aggregate_id e = FederatedMessage.message_id m → durable s' = durable s →
  delivered type status tenant m r s s'.
Proof.
  intros Hm Hn Hd Hr Hf He Ht Ha Hdu. split; [done| | |done|done|by exists e].
  - unfold fresh_nonce. rewrite Hn, bool_decide_eq_true_2 by done. destruct d; naive_solver.
  - intros nonce. unfold fresh_nonce. rewrite Hn. case_bool_decide; [destruct d; naive_solver|done].
Qed.

Lemma send_eq m ag secret s :
  ∃ r s', send m ag secret s = (r, s') ∧
    match r with
    | Ok receipt => acceptable m ag secret s ∧
        delivered "federation.message.sent" "accepted" (FederatedMessage.source_tenant_id m) m receipt s s'
    | Err _ => untouched s s'
    end.
Proof.
  unfold send, bind at 1. destruct (_validate m ag secret s) as [[u|e] s1] eqn:Ev.
  2: { exists (Err e), s1. split; [done|]. apply (preserves_run _ _ _ _ _ (reads_validate _ m ag secret) Ev). by intros c k. }
  apply validate_ok in Ev as [Hacc (Hd & He & Hdu)].
  unfold put_message, put_nonce, log_message, deliver, FederatedReceipt.new, doc_put, store_put.
  unfold bind at 1, modify at 1. unfold bind at 1, modify at 1. unfold bind at 1. rewrite EventStore.append_eq.
  assert (Hreg : bool_decide ("federation.message.sent" ∈ EVENT_TYPE_REGISTRY) = true) by by vm_compute. rewrite Hreg.
  cbv zeta. unfold bind, modify, uuid4, utc_now, ret. do 2 eexists. split; [reflexivity|]. split; [done|].
  eapply delivered_intro; [| | | |by split_and!|cbn [with_db events db]; by rewrite He|reflexivity|reflexivity|exact Hdu].
  - through_puts. destruct (durable s1); through_puts; done.
  - intros nonce. through_puts. rewrite <- Hd. destruct (durable s1); through_puts.
    all: rewrite get_put_if; through_puts; reflexivity.
  - done.
  - through_puts. done.
Qed.

Lemma receive_eq m ag secret s :
  ∃ r s', receive m ag secret s = (r, s') ∧
    match r with
    | Ok receipt => acceptable m ag secret s ∧
        delivered "federation.message.received" "received" (FederatedMessage.destination_tenant_id m) m receipt s s'
    | Err _ => untouched s s'
    end.
Proof.
  unfold receive, bind at 1. destruct (_validate m ag secret s) as [[u|e] s1] eqn:Ev.
  2: { exists (Err e), s1. split; [done|]. apply (preserves_run _ _ _ _ _ (reads_validate _ m ag secret) Ev). by intros c k. }
  apply validate_ok in Ev as [Hacc (Hd & He & Hdu)].
  unfold put_message, put_nonce, log_message, FederatedReceipt.new, doc_put, store_put.
  unfold bind, modify, uuid4, utc_now, ret. rewrite EventStore.append_eq.
  assert (Hreg : bool_decide ("federation.message.received" ∈ EVENT_TYPE_REGISTRY) = true) by by vm_compute. rewrite Hreg.
  cbv zeta. do 2 eexists. split; [reflexivity|]. split; [done|].
  eapply delivered_intro; [| | | |by split_and!|cbn [with_db events db]; by rewrite He|reflexivity|reflexivity|exact Hdu].
  - through_puts. destruct (durable s1); through_puts; done.
  - intros nonce. through_puts. rewrite <- Hd. destruct (durable s1); through_puts.
    all: rewrite get_put_if; through_puts; reflexivity.
  - done.
  - through_puts. destruct (durable s1); through_puts; done.
Qed.

(** The messages that were sent or received in a process that does other things
    too, but forgets no nonce. *)
Inductive exchanged : list FederatedMessage → sys S → Prop :=
  | ex_start s : exchanged [] s
  | ex_sent l m ag secret s r s' : exchanged l s → send m ag secret s = (Ok r, s') → exchanged (l ++ [m]) s'
  | ex_received l m ag secret s r s' : exchanged l s → receive m ag secret s = (Ok r, s') → exchanged (l ++ [m]) s'
  | ex_unsent l m ag secret s e s' : exchanged l s → send m ag secret s = (Err e, s') → exchanged l s'
  | ex_unreceived l m ag secret s e s' : exchanged l s → receive m ag secret s = (Err e, s') → exchanged l s'
  | ex_other l s s' : exchanged l s → (∀ nonce, fresh_nonce nonce (db s') → fresh_nonce nonce (db s)) → exchanged l s'.

Lemma exchanged_nonces l s :
  exchanged l s → NoDup (FederatedMessage.nonce <$> l) ∧ Forall (fun m => ¬ fresh_nonce (FederatedMessage.nonce m) (db s)) l.
Proof.
  assert (Hadd : ∀ l m ty st t r s s', NoDup (FederatedMessage.nonce <$> l) →
    Forall (fun m => ¬ fresh_nonce (FederatedMessage.nonce m) (db s)) l → fresh_nonce (FederatedMessage.nonce m) (db s) →
    delivered ty st t m r s s' → NoDup (FederatedMessage.nonce <$> l ++ [m]) ∧
    Forall (fun m => ¬ fresh_nonce (FederatedMessage.nonce m) (db s')) (l ++ [m])).
  { intros l' m ty st t r s1 s2 Hn Hf Hm Hd. rewrite fmap_app, NoDup_app, Forall_app, Forall_singleton. rewrite Forall_forall in *.
    split_and!; [done| |apply NoDup_singleton| |apply (del_nonce _ _ _ _ _ _ _ Hd)].
    - intros x (m' & -> & Hm')%list_elem_of_fmap Hx%list_elem_of_singleton. apply (Hf m' Hm'). by rewrite Hx.
    - intros m' Hm' Hx. by apply (Hf m' Hm'), (del_others _ _ _ _ _ _ _ Hd). }
  assert (Hkeep : ∀ l s s', (∀ nonce, fresh_nonce nonce (db s') → fresh_nonce nonce (db s)) →
    Forall (fun m => ¬ fresh_nonce (FederatedMessage.nonce m) (db s)) l →
    Forall (fun m => ¬ fresh_nonce (FederatedMessage.nonce m) (db s')) l).
  { intros l' s1 s2 Hs Hl. eapply Forall_impl; [exact Hl|]. intros m Hm Hx. by apply Hm, Hs. }
  assert (Hun : ∀ s s' : sys S, untouched s s' → ∀ nonce, fresh_nonce nonce (db s') → fresh_nonce nonce (db s)).
  { intros s1 s2 Hu nonce. unfold fresh_nonce. by rewrite Hu. }
  induction 1 as [s|l m ag secret s r s' _ [Hn Hf] E|l m ag secret s r s' _ [Hn Hf] E|l m ag secret s e s' _ [Hn Hf] E|
    l m ag secret s e s' _ [Hn Hf] E|l s s' _ [Hn Hf] Ho]; [by split; constructor| | | | |].
  - destruct (send_eq m ag secret s) as (r0 & s0 & E' & Hr). rewrite E in E'. injection E' as <- <-. destruct Hr as [Ha Hd].
    eapply (Hadd l m); [done..|apply Ha|exact Hd].
  - destruct (receive_eq m ag secret s) as (r0 & s0 & E' & Hr). rewrite E in E'. injection E' as <- <-. destruct Hr as [Ha Hd].
    eapply (Hadd l m); [done..|apply Ha|exact Hd].
  - destruct (send_eq m ag secret s) as (r0 & s0 & E' & Hr). rewrite E in E'. injection E' as <- <-. split; [done|].
    by eapply Hkeep; [apply Hun|].
  - destruct (receive_eq m ag secret s) as (r0 & s0 & E' & Hr). rewrite E in E'. injection E' as <- <-. split; [done|].
    by eapply Hkeep; [apply Hun|].
  - split; [done|]. by eapply Hkeep.
Qed.

(** ** Signatures *)

(** A message that [create] made carries its signature. *)
Lemma create_eq secret so st dorg dt sa da agreement payload veil s :
  time_ok (clock (Datatypes.S (Datatypes.S (Datatypes.S (tick s))))) →
  ∃ m s', FederatedMessage.create secret so st dorg dt sa da agreement payload veil s = (Ok m, s') ∧ same_data s s' ∧
    FederatedMessage.verify secret m = true ∧
    m = FederatedMessage.Mk so st dorg dt sa da agreement payload veil (FederatedMessage.signature m)
          ("fed-msg-" +:+ uuid_hex (tick s)) ("fed-corr-" +:+ uuid_hex (Datatypes.S (tick s)))
          ("nonce-" +:+ uuid_hex (Datatypes.S (Datatypes.S (tick s))))
          (clock (Datatypes.S (Datatypes.S (Datatypes.S (tick s))))) 300 "request".
Proof.
  intros Ht. unfold FederatedMessage.create, bind at 1, uuid4 at 1. unfold bind at 1, uuid4 at 1. unfold bind at 1, uuid4 at 1.
  unfold bind at 1, utc_now at 1. cbv zeta. cbn [tick]. rewrite FederatedMessage.as_dict_signature.
  rewrite FederatedMessage.message_from_as_dict by exact Ht. do 2 eexists. split; [reflexivity|]. split; [done|].
  split; [by apply bool_decide_eq_true|reflexivity].
Qed.

(** ** The service *)

Import FederationService.

Lemma get_record_stored {A} `{!Document S A} missing key s (a : A) s' :
  typed (A := A) (db s) → get_record missing key s = (Ok a, s') → stored a (db s) ∧ d_key a = key ∧ s' = s.
Proof.
  intros Ht. unfold get_record, bind at 1, store_get, gets. destruct (st_get _ key (db s)) as [d|] eqn:Hg; [|done].
  destruct (Ht key d Hg) as (b & Hb & Hk & ->). rewrite d_dec_enc by done. intros [= <- <-]. split; [|done].
  split; [done|]. by rewrite Hk.
Qed.

Lemma assert_active_ok ag s u s' :
  _assert_active ag s = (Ok u, s') →
  TrustAgreement.active_at (clock (Datatypes.S (tick s))) ag ∧ clock (tick s) < TrustAgreement.expires_at ag ∧ same_data s s'.
Proof.
  unfold _assert_active, TrustAgreement.is_expired, bind at 1. unfold bind at 1, utc_now at 1, ret at 1.
  destruct (_ >=? _) eqn:Ee.
  - unfold bind at 1, TrustAgreement.with_status, bind at 1, utc_now, ret. unfold bind, doc_put, store_put, modify, raise.
    by destruct (EventStore.append _ _ _ _) as [[]].
  - unfold bind at 1. destruct (TrustAgreement.is_active_eq ag (Sys (db s) (events s) (durable s) (Datatypes.S (tick s))))
      as (b & s1 & E & Hb & Hd & Hev & Hdu). rewrite E. destruct b; [|done]. intros [= _ <-].
    split; [by apply Hb|]. split; [|done]. rewrite Z.geb_leb in Ee. by apply Z.leb_gt in Ee.
Qed.
End Router.

(** * Delegations *)

Section Delegations.
Context `{Oracle} `{VeilClient} {S : Type} `{PersistenceStore S} `{!StoreLaws S}.
Implicit Types (d : RemoteDelegation) (s : sys S).
Import FederationService.

Lemma send_message_ok m ag secret s r s' :
  typed (A := TrustAgreement) (db s) → stored ag (db s) →
  TrustAgreement.agreement_id ag = FederatedMessage.trust_agreement_id m →
  send_message m secret s = (Ok r, s') →
  ∃ s1, db s1 = db s ∧ acceptable m ag secret s1 ∧
    delivered "federation.message.sent" "accepted" (FederatedMessage.source_tenant_id m) m r s1 s'.
Proof.
  intros Ht Hag Hid Hs. unfold send_message in Hs. apply bind_ok in Hs as (ag' & s1 & Hg & Hs).
  apply (get_record_stored _ _ _ _ _ Ht) in Hg as (Hag' & Hk & ->).
  assert (ag' = ag) as -> by (apply (stored_unique ag' ag s Hag' Hag); by rewrite Hk).
  apply bind_ok in Hs as (u & s1 & Ha & Hs). apply assert_active_ok in Ha as (_ & _ & Hd & _).
  destruct (send_eq m ag secret s1) as (r0 & s0 & E & Hr). rewrite Hs in E. injection E as <- <-. exists s1. by split.
Qed.

(** What stands behind a delegation that was requested. *)
Record delegated d (secret : string) (governance_approved : bool) s (d' : RemoteDelegation) s' : Prop := Delegated {
  dg_agreement : ∃ ag, stored ag (db s) ∧ TrustAgreement.agreement_id ag = RemoteDelegation.trust_agreement_id d ∧
    TrustAgreement.active_at (clock (Datatypes.S (tick s))) ag ∧ clock (tick s) < TrustAgreement.expires_at ag ∧
    RemoteDelegation.task_type d ∈ TrustAgreement.allowed_capabilities ag ∧
    ∃ m r s1 s2, db s1 = db s ∧ acceptable m ag secret s1 ∧
      delivered "federation.message.sent" "accepted" (RemoteDelegation.tenant_id d) m r s1 s2 ∧
      FederatedMessage.payload m =
        dupdate [("delegation_id", VStr (RemoteDelegation.delegation_id d)); ("task_type", VStr (RemoteDelegation.task_type d))]
          (RemoteDelegation.payload d) ∧
      FederatedMessage.destination_agent_id m = RemoteDelegation.destination_agent_id d ∧
      ∃ now, d' = RemoteDelegation.sent_at (FederatedReceipt.receipt_id r) now d;
  dg_governed : RemoteDelegation.task_type d ∈ governed_tasks → governance_approved = true;
  dg_payload : sensitive_payload (RemoteDelegation.payload d) = false;
  dg_veil : ∃ n response, check_policy n (delegate_request d) = Ok response ∧ PolicyCheck.allowed response = true;
  dg_stored : stored d' (db s');
}.

Lemma request_delegation_ok d secret gov s d' s' :
  (∀ n, time_ok (clock n)) → typed (A := TrustAgreement) (db s) → RemoteDelegation.ok d →
  request_delegation d secret gov s = (Ok d', s') → delegated d secret gov s d' s'.
Proof.
  intros Hclock Ht Hok Hr. unfold request_delegation in Hr. cbv zeta in Hr.
  apply bind_ok in Hr as (ag & s0 & Hg & Hr). apply (get_record_stored _ _ _ _ _ Ht) in Hg as (Hag & Hid & ->).
  apply bind_ok in Hr as (u & s1 & Ha & Hr). apply assert_active_ok in Ha as (Hact & Hexp & Hd1 & He1 & _).
  destruct (bool_decide (_ ∈ TrustAgreement.allowed_capabilities ag)) eqn:Etask; [|done]. cbn [negb] in Hr.
  destruct (bool_decide (_ ∈ governed_tasks) && negb gov) eqn:Egov; [done|].
  apply bind_ok in Hr as (u2 & s2 & Hp & Hr). unfold of_res, _safe_payload in Hp.
  destruct (sensitive_payload _) eqn:Esen; [done|]. injection Hp as _ <-.
  apply bind_ok in Hr as (resp & s2 & Hv & Hr). unfold veil_call in Hv. injection Hv as Hv <-.
  destruct (PolicyCheck.allowed resp) eqn:Eal; [|done]. cbn [negb] in Hr.
  apply bind_ok in Hr as (m & s3 & Hm & Hr). unfold delegation_message in Hm.
  match type of Hm with FederatedMessage.create ?a ?b ?c ?dd ?e ?f ?g ?h ?i ?j ?st = _ =>
    destruct (create_eq a b c dd e f g h i j st) as (m0 & s3' & Em & (Hd3 & _ & _) & _ & Hmeq) end.
  { apply Hclock. }
  rewrite Hm in Em. injection Em as <- <-. cbn [db] in Hd3.
  apply bind_ok in Hr as (r & s4 & Hsend & Hr).
  assert (Hdb3 : db s3 = db s) by congruence.
  destruct (send_message_ok m ag secret s3 r s4) as (s5 & Hdb5 & Hacc & Hdel); [by rewrite Hdb3|by rewrite Hdb3|by rewrite Hmeq|exact Hsend|].
  apply bind_ok in Hr as (d2 & s6 & Hu & Hr). rewrite RemoteDelegation.with_receipt in Hu; [|done| |apply Hclock].
  2: { apply (del_receipt _ _ _ _ _ _ _ Hdel). }
  injection Hu as <- <-.
  apply bind_ok in Hr as (u3 & s7 & Hput & Hr). unfold doc_put, store_put, modify in Hput. injection Hput as <- <-.
  apply bind_ok in Hr as (e & s8 & Happ & Hr). rewrite EventStore.append_eq in Happ.
  assert (Hreg : bool_decide ("federation.delegation.requested" ∈ EVENT_TYPE_REGISTRY) = true) by by vm_compute.
  rewrite Hreg in Happ. cbv zeta in Happ. injection Happ as <- <-. injection Hr as <- <-.
  split.
  - exists ag. split_and!; [done..|by apply bool_decide_eq_true in Etask|]. exists m, r, s5, s4.
    split_and!; [congruence|done| |by rewrite Hmeq|by rewrite Hmeq|by eexists].
    by rewrite Hmeq in Hdel at 1.
  - intros Hin. rewrite bool_decide_eq_true_2 in Egov by exact Hin. by destruct gov.
  - done.
  - by eauto.
  - destruct Hok as (? & ? & ? & ?). split.
    + split_and!; cbn; [|done|done|apply Hclock]. intros [= E]. by apply (del_receipt _ _ _ _ _ _ _ Hdel).
    + through_puts. destruct (durable s4); through_puts; done.
Qed.
End Delegations.

(** * Catalogs *)

Section Catalog.
Context `{Oracle} `{VeilClient} {S : Type} `{PersistenceStore S} `{!StoreLaws S}.
Context (ag : TrustAgreement) (p : FederationPolicy).
Implicit Types (a : RemoteAgent) (s : sys S).
Import CapabilityExchange.

(** The capabilities of an agent that the agreement and the policy let through. *)
Definition let_through a : list RemoteCapability :=
  base.filter (fun cap => permitted ag p cap = true) (RemoteAgent.capabilities a).

Definition veil_answers a (answer : bool) : Prop :=
  ∃ n response, check_policy n (discovery_request a (let_through a)) = Ok response ∧ PolicyCheck.allowed response = answer.

(** How an agent is shown, and why it is not. *)
Definition shown_as a a' : Prop :=
  passed_over p a = false ∧ let_through a ≠ [] ∧ veil_answers a true ∧ a' = RemoteAgent.with_capabilities (let_through a) a.

Definition hidden a : Prop := passed_over p a = true ∨ let_through a = [] ∨ veil_answers a false.

Definition outcome a (o : option RemoteAgent) : Prop := match o with Some a' => shown_as a a' | None => hidden a end.

Lemma show_ok a s o s' : show ag p a s = (Ok o, s') → outcome a o ∧ same_data s s'.
Proof.
  unfold show. fold (let_through a). destruct (passed_over p a) eqn:Ep; [by intros [= <- <-]; split; [left|]|].
  destruct (let_through a) as [|c l] eqn:El; [by intros [= <- <-]; split; [right; left|]|]. rewrite <- El.
  intros (resp & s1 & Hv & Hr)%bind_ok. unfold veil_call in Hv. injection Hv as Hv <-. injection Hr as <- <-. split; [|done].
  destruct (PolicyCheck.allowed resp) eqn:Ea.
  - split_and!; [done|by rewrite El|by exists (tick s), resp|done].
  - right. right. by exists (tick s), resp.
Qed.

Lemma shows_ok l s os s' : for_map l (show ag p) s = (Ok os, s') → Forall2 outcome l os ∧ same_data s s'.
Proof.
  revert s os s'. induction l as [|a l IH]; intros s os s'; cbn [for_map]; [intros [= <- <-]; by split; [constructor|]|].
  intros (o & s1 & (Ho & Hd1 & He1 & Hu1)%show_ok & (os' & s2 & (Hos & Hd2 & He2 & Hu2)%IH & [= <- <-])%bind_ok)%bind_ok.
  split; [by constructor|]. by split_and!; etransitivity.
Qed.

Lemma filter_catalog_ok l s shown s' :
  filter_catalog ag p l s = (Ok shown, s') →
  TrustAgreement.active_at (clock (tick s)) ag ∧ (∀ a', a' ∈ shown → ∃ a, a ∈ l ∧ shown_as a a') ∧
  (∀ a, a ∈ l → hidden a ∨ ∃ a', a' ∈ shown ∧ shown_as a a').
Proof.
  intros (b & s1 & Hb & Hs)%bind_ok. destruct (TrustAgreement.is_active_eq ag s) as (b' & s1' & E & Hact & _).
  rewrite E in Hb. injection Hb as <- <-. destruct b'; [|done]. split; [by apply Hact|]. cbn [negb] in Hs.
  apply bind_ok in Hs as (os & s2 & (Hos & _)%shows_ok & Hr). injection Hr as <- _. clear E. split.
  - intros a' (o & Ho & Eo)%list_elem_of_omap. unfold id in Eo. subst o. apply list_elem_of_lookup in Ho as [i Hi].
    destruct (Forall2_lookup_r _ _ _ _ _ Hos Hi) as (a & Ha & Hsh). exists a. split; [by eapply list_elem_of_lookup_2|done].
  - intros a [i Hi]%list_elem_of_lookup. destruct (Forall2_lookup_l _ _ _ _ _ Hos Hi) as ([a'|] & Ho & Hsh); [|by left].
    right. exists a'. split; [|done]. apply list_elem_of_omap. exists (Some a'). split; [by eapply list_elem_of_lookup_2|done].
Qed.
End Catalog.

(** * What the code does not do *)

(** The messages of the collection carry no [tenant_id], so that the reputation of
    a partner counts none of them as rejected. *)
Lemma rejections_never_counted {S} `{PersistenceStore S, !StoreLaws S} (db : S) (tenant_id : string) :
  (∀ k d, st_get "federation_messages" k db = Some d → ∃ m, d = FederatedMessage.as_dict m) →
  st_list_tenant "federation_messages" tenant_id db = [].
Proof.
  intros Hm. destruct (st_list_tenant _ _ _) as [|d l] eqn:E; [done|].
  assert (Hd : d ∈ st_list_tenant "federation_messages" tenant_id db) by (rewrite E; by left).
  apply elem_of_list_tenant in Hd as [Ht [k Hk]]. destruct (Hm k d Hk) as [m ->]. done.
Qed.

(** * Properties *)

Section FederationProperties.
Context `{Oracle} `{VeilClient} {S : Type} `{PersistenceStore S} `{!StoreLaws S}.

(** C11: the router takes a message, to send it or as received, only under an
    active agreement, in its time to live, with a new nonce, signed with the
    secret, without sensitive keys and with the consent of VEIL. Then the message,
    its nonce and a receipt are stored and the exchange is logged. A message that
    is refused changes no document. *)
Theorem federated_messages_guarded (m : FederatedMessage) (ag : TrustAgreement) (secret : string) (s : sys S) :
  (∃ r s', FederatedMessageRouter.send m ag secret s = (r, s') ∧
    match r with
    | Ok receipt => acceptable m ag secret s ∧
        delivered "federation.message.sent" "accepted" (FederatedMessage.source_tenant_id m) m receipt s s'
    | Err _ => untouched s s'
    end) ∧
  (∃ r s', FederatedMessageRouter.receive m ag secret s = (r, s') ∧
    match r with
    | Ok receipt => acceptable m ag secret s ∧
        delivered "federation.message.received" "received" (FederatedMessage.destination_tenant_id m) m receipt s s'
    | Err _ => untouched s s'
    end).
Proof. split; [apply send_eq|apply receive_eq]. Qed.

(** C12: no replay. Of all the messages that were sent or received over a store
    that keeps its nonces, no two had the same nonce. *)
Theorem federated_no_replay (l : list FederatedMessage) (s : sys S) :
  exchanged l s → NoDup (FederatedMessage.nonce <$> l).
Proof. apply exchanged_nonces. Qed.

(** A signature stands for one message and one secret. When two messages carry
    the same signature and each is verified with a secret, they say the same, up to
    the order of keys, and the secrets are equal, or SHA-256 collides. *)
Theorem federated_signature_binds (m m' : FederatedMessage) (secret secret' : string) :
  val_ok (VDict (FederatedMessage.payload m)) → val_ok (VDict (FederatedMessage.payload m')) →
  FederatedMessage.verify secret m = true → FederatedMessage.verify secret' m' = true →
  FederatedMessage.signature m = FederatedMessage.signature m' →
  (canon (VDict (FederatedMessage.signing_payload m)) = canon (VDict (FederatedMessage.signing_payload m')) ∧
   secret = secret') ∨ sha256_collision.
Proof.
  intros Hv Hv' Hs%bool_decide_eq_true Hs'%bool_decide_eq_true E. rewrite Hs, Hs' in E. unfold FederatedMessage.sign in E.
  destruct (decide (dumps (VDict (FederatedMessage.signing_payload m)) +:+ secret =
                    dumps (VDict (FederatedMessage.signing_payload m')) +:+ secret')) as [Et|Hne].
  - left. by apply FederatedMessage.signed_text_inj.
  - right. by do 2 eexists.
Qed.

(** C13: a delegation that was requested rests on a stored, active agreement that
    names its task, on the approval of governance where the task needs it, on a
    payload without sensitive keys and on the consent of VEIL; its message was
    accepted by the router, and it is stored with the receipt of that message. *)
Theorem delegation_guarded (d d' : RemoteDelegation) (secret : string) (governance_approved : bool) (s s' : sys S) :
  (∀ n, time_ok (clock n)) → typed (A := TrustAgreement) (db s) → RemoteDelegation.ok d →
  FederationService.request_delegation d secret governance_approved s = (Ok d', s') →
  delegated d secret governance_approved s d' s'.
Proof. apply request_delegation_ok. Qed.

(** What a catalog shows. A discovery runs under a stored, active agreement and
    the policy of the tenant. It shows agents of the tenant's catalog that belong to
    the partner, each with exactly the capabilities that the agreement and the
    policy both let through and VEIL's consent; an agent of the partner that is not
    shown is one the policy passes over, has no such capability, was denied by VEIL
    or lacks the capability asked for. *)
Theorem federated_catalog_exact (tenant_id organization_id agreement_id : string) (capability : option string)
    (l : list RemoteAgent) (s s' : sys S) :
  typed (A := TrustAgreement) (db s) → typed (A := RemoteAgent) (db s) →
  FederationService.discover tenant_id organization_id agreement_id capability s = (Ok l, s') →
  ∃ ag p, stored ag (db s) ∧ TrustAgreement.agreement_id ag = agreement_id ∧ (∃ n, TrustAgreement.active_at (clock n) ag) ∧
    FederationService.policy tenant_id organization_id s = (Ok p, s) ∧
    let asked a := match capability with Some c => c = "" ∨ FederatedDirectory.has_capability c a = true | None => True end in
    let partner a := stored a (db s) ∧ RemoteAgent.tenant_id a = tenant_id ∧
                     RemoteAgent.remote_org_id a = TrustAgreement.remote_org_id ag in
    (∀ a', a' ∈ l → asked a' ∧ ∃ a, partner a ∧ shown_as ag p a a') ∧
    (∀ a, partner a → hidden ag p a ∨ ∃ a', shown_as ag p a a' ∧ (asked a' → a' ∈ l)).
Proof.
  intros Ht Hta Hs. unfold FederationService.discover in Hs.
  apply bind_ok in Hs as (ag & s0 & Hg & Hs). apply (get_record_stored _ _ _ _ _ Ht) in Hg as (Hag & Hid & ->).
  apply bind_ok in Hs as (u & s1 & Ha & Hs). apply assert_active_ok in Ha as (Hact & _ & Hd1 & _).
  apply bind_ok in Hs as (p & s2 & Hp & Hs).
  assert (Hpol : FederationService.policy tenant_id organization_id s = (Ok p, s) ∧ s2 = s1).
  { revert Hp. unfold FederationService.policy, bind, store_get, gets, of_res, ret. rewrite Hd1.
    destruct (st_get _ _ (db s)) as [[|e d]|]; [by intros [= <- <-]| |by intros [= <- <-]].
    destruct (FederationPolicy.from_dict _); by intros [= <- <-]. }
  destruct Hpol as [Hpol ->]. exists ag, p. split_and!; [done..|by eexists|done|]. cbv zeta.
  unfold FederatedDirectory.discover in Hs. apply bind_ok in Hs as (items & s2 & Hi & Hs).
  unfold store_list_tenant, gets in Hi. injection Hi as Hi <-. rewrite Hd1 in Hi.
  destruct (doc_list_tenant_eq tenant_id s Hta) as (agents & _ & Eag & Hst).
  assert (Hel := elem_of_doc_list_tenant tenant_id s agents Hta Eag Hst).
  change (d_coll (A := RemoteAgent)) with "federation_remote_capabilities" in Eag. rewrite <- Hi, <- Eag in Hs.
  rewrite filter_fmap in Hs.
  apply bind_ok in Hs as (agents' & s2 & Hm & Hs).
  change (RemoteAgent.from_dict (S := S)) with (d_dec (S := S) (A := RemoteAgent)) in Hm. rewrite (for_map_dec (A := RemoteAgent)) in Hm.
  2: { apply Forall_filter_keep. by eapply Forall_stored_ok. }
  injection Hm as <- <-. apply bind_ok in Hs as (filtered & s2 & Hf & Hs). injection Hs as Hl _.
  apply filter_catalog_ok in Hf as (_ & Hin & Hout).
  set (asked := fun a => match capability with Some c => c = "" ∨ FederatedDirectory.has_capability c a = true | None => True end).
  assert (Hpart : ∀ a : RemoteAgent, a ∈ base.filter (fun a : RemoteAgent =>
      bool_decide (RemoteAgent.remote_org_id a = TrustAgreement.remote_org_id ag) = true) agents ↔
    stored a (db s) ∧ RemoteAgent.tenant_id a = tenant_id ∧ RemoteAgent.remote_org_id a = TrustAgreement.remote_org_id ag).
  { intros a. rewrite list_elem_of_filter, Hel, bool_decide_eq_true.
    change (is_str (dget (d_enc (S := S) a) "tenant_id") tenant_id) with (bool_decide (RemoteAgent.tenant_id a = tenant_id)).
    rewrite bool_decide_eq_true. clear. tauto. }
  assert (Hlist : ∀ a, a ∈ l ↔ asked a ∧ a ∈ filtered).
  { intros a. rewrite <- Hl. unfold asked. destruct capability as [c|]; [|clear; tauto].
    case_bool_decide; [clear -H2; tauto|]. rewrite list_elem_of_filter. clear -H2; tauto. }
  split.
  - intros a' [Has Ha']%Hlist. split; [done|]. destruct (Hin a' Ha') as (a & Ha & Hsh). exists a. split; [by apply Hpart|done].
  - intros a Ha%Hpart. destruct (Hout a Ha) as [Hh|(a' & Ha' & Hsh)]; [by left|]. right. exists a'. split; [done|].
    intros Has. apply Hlist. by split.
Qed.
End FederationProperties.

(** ** Witnesses *)

Section Demo.
#[local] Existing Instance demo_oracle.
#[local] Existing Instance mock_veil.

(** An agreement that lets code be reviewed, whatever it denies. *)
Definition demo_agreement (status : string) : TrustAgreement :=
  TrustAgreement.Mk "t-1" "o-1" "partner" "root" ["review"] ["review"] ["public"] [] status "ag-1" (max_time - 1) 0 0 "".

Definition demo_agent : RemoteAgent :=
  RemoteAgent.Mk "t-1" "o-1" "partner" "r-1" "reviewer"
    [RemoteCapability.Mk "search" "1.0.0" ["public"] [] true; RemoteCapability.Mk "audit" "1.0.0" ["secret"] [] true]
    (lit 9 1) "" false "cat-1" 0.

Definition catalog_agreement : TrustAgreement :=
  TrustAgreement.Mk "t-1" "o-1" "partner" "root" [] [] ["public"] [] "active" "ag-1" (max_time - 1) 0 0 "".

Definition demo_fed (ag : TrustAgreement) : sys Memory.store :=
  Sys (st_put "federation_remote_capabilities" "cat-1" (RemoteAgent.as_dict demo_agent)
         (st_put "federation_agreements" "ag-1" (TrustAgreement.as_dict ag) ∅)) [] true 0.

Definition demo_delegation : RemoteDelegation :=
  RemoteDelegation.Mk "t-1" "o-1" "ag-1" "partner" "a-1" "r-1" "review" [("file", VStr "main.py")] "root" "requested"
    "del-1" None None "" 0 0.

(** A revoked agreement is made active again. *)
Lemma revoked_agreement_reactivates :
  let s := after (FederationService.revoke_agreement "ag-1" "breach") (demo_fed (demo_agreement "active")) in
  ∃ ag s', FederationService.activate_agreement "ag-1" s = (Ok ag, s') ∧ TrustAgreement.status ag = "active".
Proof.
  cbv zeta. destruct (FederationService.activate_agreement _ _) as [[ag|e] s'] eqn:E.
  - exists ag, s'. split; [done|]. apply (f_equal (fun x => match x.1 with Ok a => TrustAgreement.status a | Err _ => "" end)) in E.
    cbn [fst] in E. rewrite <- E. vm_compute. reflexivity.
  - apply (f_equal (fun x => is_ok x.1)) in E. vm_compute in E. discriminate E.
Qed.

(** A task the agreement denies is delegated, if it also allows it. *)
Lemma denied_task_is_delegated :
  TrustAgreement.allows_capability "review" (demo_agreement "active") = false ∧
  is_ok (FederationService.request_delegation demo_delegation "key" false (demo_fed (demo_agreement "active"))).1 = true.
Proof. split; vm_compute; reflexivity. Qed.

Lemma demo_fed_agreements st : typed (A := TrustAgreement) (db (demo_fed (demo_agreement st))).
Proof. apply typed_put_other; [done|]. refine (typed_put (demo_agreement st) ∅ _ typed_empty). by vm_compute. Qed.

Lemma demo_fed_catalog : typed (A := TrustAgreement) (db (demo_fed catalog_agreement)) ∧ typed (A := RemoteAgent) (db (demo_fed catalog_agreement)).
Proof.
  split.
  - apply typed_put_other; [done|]. refine (typed_put catalog_agreement ∅ _ typed_empty). by vm_compute.
  - refine (typed_put demo_agent _ _ _); [split; by vm_compute|]. apply typed_put_other; [done|]. apply typed_empty.
Qed.

Definition demo_message : FederatedMessage :=
  match (FederatedMessage.create "key" "o-1" "t-1" "partner" "partner" "a-1" "r-1" "ag-1" [("text", VStr "hi")] "ref"
           (demo_fed catalog_agreement)).1 with
  | Ok m => m
  | Err _ => FederatedMessage.Mk "" "" "" "" "" "" "" [] "" "" "" "" "" 0 0 ""
  end.

Definition demo_sent : res FederatedReceipt * sys Memory.store :=
  FederatedMessageRouter.send demo_message catalog_agreement "key" (demo_fed catalog_agreement).

Lemma federated_messages_guarded_witness :
  ∃ receipt, demo_sent.1 = Ok receipt ∧ acceptable demo_message catalog_agreement "key" (demo_fed catalog_agreement).
Proof.
  destruct (federated_messages_guarded demo_message catalog_agreement "key" (demo_fed catalog_agreement))
    as [(r & s' & E & Hr) _]. destruct r as [receipt|e].
  - exists receipt. split; [unfold demo_sent; by rewrite E|apply Hr].
  - exfalso. apply (f_equal (fun x => is_ok x.1)) in E. vm_compute in E. discriminate E.
Defined.

Lemma federated_no_replay_witness :
  NoDup (FederatedMessage.nonce <$> [demo_message]) ∧
  is_ok (FederatedMessageRouter.send demo_message catalog_agreement "key" demo_sent.2).1 = false.
Proof.
  split; [|vm_compute; reflexivity]. destruct demo_sent as [[r|e] s'] eqn:E.
  - apply (federated_no_replay _ s'). apply (ex_sent [] demo_message catalog_agreement "key" (demo_fed catalog_agreement) r s').
    + constructor.
    + exact E.
  - exfalso. apply (f_equal (fun x => is_ok x.1)) in E. vm_compute in E. discriminate E.
Defined.

Lemma demo_message_ok : val_ok (VDict (FederatedMessage.payload demo_message)).
Proof.
  assert (E : FederatedMessage.payload demo_message = [("text", VStr "hi")]) by (vm_compute; reflexivity).
  rewrite E. repeat constructor.
Qed.

Lemma federated_signature_binds_witness :
  (canon (VDict (FederatedMessage.signing_payload demo_message)) =
   canon (VDict (FederatedMessage.signing_payload demo_message)) ∧ "key" = "key") ∨ sha256_collision.
Proof.
  pose proof demo_message_ok as Hok.
  apply (federated_signature_binds demo_message demo_message "key" "key" Hok Hok); vm_compute; reflexivity.
Defined.

Lemma demo_delegation_ok : RemoteDelegation.ok demo_delegation.
Proof. split_and!; [done|done|by vm_compute|by vm_compute]. Qed.

Lemma delegation_guarded_witness :
  ∃ d' s', FederationService.request_delegation demo_delegation "key" false (demo_fed (demo_agreement "active")) = (Ok d', s') ∧
    delegated demo_delegation "key" false (demo_fed (demo_agreement "active")) d' s'.
Proof.
  destruct (FederationService.request_delegation demo_delegation "key" false (demo_fed (demo_agreement "active")))
    as [[d'|e] s'] eqn:E.
  - exists d', s'. split; [reflexivity|]. apply (delegation_guarded demo_delegation d' "key" false _ s').
    + exact demo_clock.
    + apply demo_fed_agreements.
    + exact demo_delegation_ok.
    + exact E.
  - exfalso. apply (f_equal (fun x => is_ok x.1)) in E. vm_compute in E. discriminate E.
Defined.

(** The agent is shown with the one capability that is public. *)
Definition demo_shown : res (list RemoteAgent) * sys Memory.store :=
  FederationService.discover "t-1" "o-1" "ag-1" (Some "search") (demo_fed catalog_agreement).

Lemma demo_shown_names :
  match demo_shown.1 with Ok l => (fun a => RemoteCapability.name <$> RemoteAgent.capabilities a) <$> l | Err _ => [] end = [["search"]].
Proof. vm_compute. reflexivity. Qed.

Lemma federated_catalog_exact_witness :
  ∃ l s' ag, demo_shown = (Ok l, s') ∧ stored ag (db (demo_fed catalog_agreement)) ∧ TrustAgreement.agreement_id ag = "ag-1".
Proof.
  pose proof demo_shown_names as Hn. destruct demo_shown as [[l|e] s'] eqn:E; [|discriminate Hn]. clear Hn. pose proof E as E'. unfold demo_shown in E'.
  destruct (federated_catalog_exact "t-1" "o-1" "ag-1" (Some "search") l (demo_fed catalog_agreement) s'
    (proj1 demo_fed_catalog) (proj2 demo_fed_catalog) E') as (ag & p & Hag & Hid & _). exists l, s', ag.
  split; [reflexivity|]. split; [exact Hag|exact Hid].
Defined.
End Demo.
