(* ===== verification/Marketplace.v ===== *)
(** The packages of the marketplace (agentfabric/marketplace): manifests, metadata,
    versions and dependencies with how they are written and read, signatures,
    the resolution of dependencies, the scanners, licenses and entitlements. *)

From stdpp Require Import base option list strings gmap sets.
From Stdlib Require Import ZArith Lia SpecFloat.
From S2P Require Import Prelude PyVal Json PyTime Floats Store EventStore Documents.

Local Open Scope Z_scope.

(** * packages/package_dependency.py *)

Module PackageDependency.
Record t := Mk {
  package_id : string;
  version_constraint : string;
  required : bool;
  deprecated : bool;
}.

Definition as_dict (d : t) : doc :=
  [("package_id", VStr (package_id d)); ("version_constraint", VStr (version_constraint d));
   ("required", VBool (required d)); ("deprecated", VBool (deprecated d))].

Definition from_dict (value : doc) : res t :=
  let? package_id := str_field value "package_id" in
  Ok (Mk package_id (str_field_or value "version_constraint" "*") (bool_field_or value "required" true)
        (bool_field_or value "deprecated" false)).

(** [from_dict] of a value that should be a dict. *)
Definition of_val (v : val) : res t :=
  match v with VDict d => from_dict d | _ => type_error "string indices must be integers" end.

Lemma dependencies_from_as_dict l : res_map of_val (map (fun d => VDict (as_dict d)) l) = Ok l.
Proof. induction l as [|d l IH]; [done|]. cbn [map res_map of_val]. rewrite IH. by destruct d. Qed.
End PackageDependency.

Abbreviation PackageDependency := PackageDependency.t.

(** * packages/package_manifest.py *)

Definition INDUSTRY_PACKAGE_CATEGORIES : list string :=
  ["general"; "construction"; "treasury"; "trust"; "energy"; "manufacturing"; "aerospace"].

(** What [json.dumps] writes with its own separators: [dumps] with a blank after
    each comma and colon. *)
Fixpoint dumps_spaced (v : val) : string :=
  match v with
  | VList l => "[" +:+ join ", " (map dumps_spaced l) +:+ "]"
  | VDict d =>
      "{" +:+ join ", " (map (fun p => json_str p.1 +:+ ": " +:+ p.2)
                           (py_sorted key_le (map (fun p => (p.1, dumps_spaced p.2)) d))) +:+ "}"
  | _ => dumps v
  end.

Module PackageManifest.
Record t := Mk {
  package_id : string;
  name : string;
  version : string;
  publisher_tenant_id : string;
  agent_identity_id : string;
  runtime_requirements : doc;
  tool_permissions : list string;
  connector_requirements : list string;
  connector_permissions : list string;
  dependencies : list PackageDependency;
  license_type : string;
  pricing_model : string;
}.

Definition connectors : list string :=
  ["gmail"; "calendar"; "github"; "jira"; "slack"; "servicenow"; "s3"; "custom_http"; "teams"; "salesforce";
   "sharepoint"].

(** ["." in permission and permission.split(".", 1)[0] in connectors] *)
Definition connector_like (permission : string) : bool :=
  contains "." permission && bool_decide (before_dot permission ∈ connectors).

Definition validate (m : t) : res unit :=
  if bool_decide ("" ∈ [package_id m; name m; version m; publisher_tenant_id m; agent_identity_id m])
  then Err (Exn ValueError "package manifest is missing required fields")
  else if existsb (starts_with "raw.") (tool_permissions m)
  then Err (Exn ValueError "package cannot request raw sensitive persistence")
  else if negb (forallb (fun p => bool_decide (p ∈ connector_permissions m))
                  (base.filter (fun p => connector_like p = true) (tool_permissions m)))
  then Err (Exn ValueError "connector permissions must be explicitly declared")
  else Ok tt.

Definition as_dict (m : t) : doc :=
  [("package_id", VStr (package_id m)); ("name", VStr (name m)); ("version", VStr (version m));
   ("publisher_tenant_id", VStr (publisher_tenant_id m)); ("agent_identity_id", VStr (agent_identity_id m));
   ("runtime_requirements", VDict (runtime_requirements m));
   ("tool_permissions", VList (map VStr (tool_permissions m)));
   ("connector_requirements", VList (map VStr (connector_requirements m)));
   ("connector_permissions", VList (map VStr (connector_permissions m)));
   ("dependencies", VList (map (fun d => VDict (PackageDependency.as_dict d)) (dependencies m)));
   ("license_type", VStr (license_type m)); ("pricing_model", VStr (pricing_model m))].

Definition manifest_hash `{Oracle} (m : t) : string := sha256_hex (dumps_spaced (VDict (as_dict m))).

Definition from_dict (value : doc) : res t :=
  let? package_id := str_field value "package_id" in
  let? id := dindex value "package_id" in
  let? version := str_field value "version" in
  let? publisher_tenant_id := str_field value "publisher_tenant_id" in
  let? agent_identity_id := str_field value "agent_identity_id" in
  let? runtime_requirements := dict_field_or_empty value "runtime_requirements" in
  let? tool_permissions := strs_field_or value "tool_permissions" [] in
  let? connector_requirements := strs_field_or value "connector_requirements" [] in
  let? connector_permissions := strs_field_or value "connector_permissions" [] in
  let? items := py_iter (dget_or value "dependencies" (VList [])) in
  let? dependencies := res_map PackageDependency.of_val items in
  Ok (Mk package_id (py_str (dget_or value "name" id)) version publisher_tenant_id agent_identity_id
        runtime_requirements tool_permissions connector_requirements connector_permissions dependencies
        (str_field_or value "license_type" "free") (str_field_or value "pricing_model" "free")).
End PackageManifest.

Abbreviation PackageManifest := PackageManifest.t.

(** * packages/package_metadata.py *)

Module PackageMetadata.
Record t := Mk {
  description : string;
  tags : list string;
  private : bool;
  enterprise_only : bool;
  deprecated : bool;
  revoked : bool;
  high_risk_approved : bool;
  approval_notes : string;
  category : string;
  bundle_id : option string;
  compatibility : list (string * string);
  quality_score : option float;
  extra : doc;
}.

Definition as_dict (m : t) : doc :=
  [("description", VStr (description m)); ("tags", VList (map VStr (tags m))); ("private", VBool (private m));
   ("enterprise_only", VBool (enterprise_only m)); ("deprecated", VBool (deprecated m)); ("revoked", VBool (revoked m));
   ("high_risk_approved", VBool (high_risk_approved m)); ("approval_notes", VStr (approval_notes m));
   ("category", VStr (category m)); ("bundle_id", opt_str (bundle_id m));
   ("compatibility", VDict (prod_map id VStr <$> compatibility m));
   ("quality_score", match quality_score m with Some q => VNumber q | None => VNone end);
   ("extra", VDict (extra m))].

Definition from_dict (value : doc) : res t :=
  let? tags := strs_field_or value "tags" [] in
  let? compatibility := dict_field_or_empty value "compatibility" in
  let? quality_score := opt_float_field value "quality_score" in
  let? extra := dict_field_or_empty value "extra" in
  Ok (Mk (str_field_or value "description" "") tags (bool_field_or value "private" false)
        (bool_field_or value "enterprise_only" false) (bool_field_or value "deprecated" false)
        (bool_field_or value "revoked" false) (bool_field_or value "high_risk_approved" false)
        (str_field_or value "approval_notes" "") (str_field_or value "category" "general")
        (opt_str_field value "bundle_id") (prod_map id py_str <$> compatibility) quality_score extra).

(** A quality score is a number that its text gives back. *)
Definition ok (m : t) : Prop :=
  bundle_id m ≠ Some "" ∧
  match quality_score m with Some q => float_of_text (float_repr q) = Ok q | None => True end.
End PackageMetadata.

Abbreviation PackageMetadata := PackageMetadata.t.

(** * packages/package_version.py, package.py *)

Module PackageVersion.
Record t := Mk {
  manifest : PackageManifest;
  manifest_hash : string;
  signature : string;
  publisher_fingerprint : string;
  metadata : PackageMetadata;
  created_at : Z;
  published_at : Z;
}.

Definition package_id (p : t) : string := PackageManifest.package_id (manifest p).
Definition version (p : t) : string := PackageManifest.version (manifest p).
Definition key (p : t) : string := package_id p +:+ ":" +:+ version p.

(** [PackageVersion(manifest=..., manifest_hash=..., ...)] *)
Definition new `{Oracle} {S} (manifest : PackageManifest) (manifest_hash signature publisher_fingerprint : string)
    (metadata : PackageMetadata) : M (sys S) t :=
  let* created_at := utc_now in
  let* published_at := utc_now in
  ret (Mk manifest manifest_hash signature publisher_fingerprint metadata created_at published_at).

Definition as_dict (p : t) : doc :=
  let m := manifest p in
  [("package_id", VStr (package_id p)); ("name", VStr (PackageManifest.name m)); ("version", VStr (version p));
   ("publisher_tenant_id", VStr (PackageManifest.publisher_tenant_id m));
   ("agent_identity_id", VStr (PackageManifest.agent_identity_id m)); ("manifest_hash", VStr (manifest_hash p));
   ("runtime_requirements", VDict (PackageManifest.runtime_requirements m));
   ("tool_permissions", VList (map VStr (PackageManifest.tool_permissions m)));
   ("connector_requirements", VList (map VStr (PackageManifest.connector_requirements m)));
   ("connector_permissions", VList (map VStr (PackageManifest.connector_permissions m)));
   ("dependencies", VList (map (fun d => VDict (PackageDependency.as_dict d)) (PackageManifest.dependencies m)));
   ("license_type", VStr (PackageManifest.license_type m)); ("pricing_model", VStr (PackageManifest.pricing_model m));
   ("signature", VStr (signature p)); ("publisher_fingerprint", VStr (publisher_fingerprint p));
   ("metadata", VDict (PackageMetadata.as_dict (metadata p))); ("created_at", VStr (isoformat (created_at p)));
   ("published_at", VStr (isoformat (published_at p)))].

Definition from_dict (value : doc) : res t :=
  let? manifest := PackageManifest.from_dict value in
  let? manifest_hash := str_field value "manifest_hash" in
  let? metadata_dict := dict_field_or_empty value "metadata" in
  let? metadata := PackageMetadata.from_dict metadata_dict in
  let? created_at := time_field value "created_at" in
  let? published_at := time_field value "published_at" in
  Ok (Mk manifest manifest_hash (str_field_or value "signature" "") (str_field_or value "publisher_fingerprint" "")
        metadata created_at published_at).

Definition ok (p : t) : Prop := PackageMetadata.ok (metadata p) ∧ time_ok (created_at p) ∧ time_ok (published_at p).

#[local] Opaque float_of_text float_repr.

Lemma metadata_from_as_dict m : PackageMetadata.ok m → PackageMetadata.from_dict (PackageMetadata.as_dict m) = Ok m.
Proof.
  intros [Hb Hq]. unfold PackageMetadata.from_dict.
  rewrite (strs_field_or_eq _ "tags" _ (PackageMetadata.tags m)) by done.
  assert (opt_float_field (PackageMetadata.as_dict m) "quality_score" = Ok (PackageMetadata.quality_score m)) as ->.
  { unfold opt_float_field.
    assert (dget (PackageMetadata.as_dict m) "quality_score" =
      Some (match PackageMetadata.quality_score m with Some q => VNumber q | None => VNone end)) as -> by done.
    destruct (PackageMetadata.quality_score m) as [q|]; [|done]. unfold VNumber, py_float. by rewrite Hq. }
  rewrite (opt_str_field_eq _ "bundle_id" (PackageMetadata.bundle_id m)) by done.
  assert (dict_field_or_empty (PackageMetadata.as_dict m) "compatibility" =
    Ok (prod_map id VStr <$> PackageMetadata.compatibility m)) as -> by done.
  assert (dict_field_or_empty (PackageMetadata.as_dict m) "extra" = Ok (PackageMetadata.extra m)) as -> by done.
  cbn [res_bind].
  rewrite <- list_fmap_compose, (list_fmap_ext _ id), list_fmap_id by (intros ? [? ?]; done).
  by destruct m.
Qed.

Lemma manifest_from_version p : PackageManifest.from_dict (as_dict p) = Ok (manifest p).
Proof.
  unfold PackageManifest.from_dict.
  rewrite (strs_field_or_eq _ "tool_permissions" _ (PackageManifest.tool_permissions (manifest p))),
    (strs_field_or_eq _ "connector_requirements" _ (PackageManifest.connector_requirements (manifest p))),
    (strs_field_or_eq _ "connector_permissions" _ (PackageManifest.connector_permissions (manifest p))) by done.
  assert (py_iter (dget_or (as_dict p) "dependencies" (VList [])) =
    Ok (map (fun d => VDict (PackageDependency.as_dict d)) (PackageManifest.dependencies (manifest p)))) as -> by done.
  assert (dict_field_or_empty (as_dict p) "runtime_requirements" = Ok (PackageManifest.runtime_requirements (manifest p)))
    as -> by done.
  cbn [res_bind]. rewrite PackageDependency.dependencies_from_as_dict. by destruct p as [[] ? ? ? ? ? ?].
Qed.

Lemma version_from_as_dict `{Oracle} {S} p (s : sys S) : ok p → of_res (from_dict (as_dict p)) s = (Ok p, s).
Proof.
  intros (Hm & Hc & Hp). unfold of_res, from_dict. rewrite manifest_from_version. cbn [res_bind].
  assert (str_field (as_dict p) "manifest_hash" = Ok (manifest_hash p)) as -> by done. cbn [res_bind].
  assert (dict_field_or_empty (as_dict p) "metadata" = Ok (PackageMetadata.as_dict (metadata p))) as -> by done. cbn [res_bind].
  rewrite (metadata_from_as_dict _ Hm). cbn [res_bind].
  rewrite (time_field_iso _ "created_at" _ Hc), (time_field_iso _ "published_at" _ Hp) by done. by destruct p.
Qed.
End PackageVersion.

Abbreviation PackageVersion := PackageVersion.t.

#[export] Instance package_document `{Oracle} {S} : Document S PackageVersion := {
  d_coll := "marketplace_packages"; d_key := PackageVersion.key; d_enc := PackageVersion.as_dict;
  d_dec d := of_res (PackageVersion.from_dict d); d_ok := PackageVersion.ok;
  d_dec_enc := PackageVersion.version_from_as_dict; d_enc_ne p := ltac:(done);
}.

Module Package.
Record t := Mk {
  package_id : string;
  publisher_tenant_id : string;
  versions : dict PackageVersion;
}.

Definition add_version (version : PackageVersion) (p : t) : t :=
  Mk (package_id p) (publisher_tenant_id p) (dset (versions p) (PackageVersion.version version) version).

Definition latest (p : t) : res PackageVersion :=
  match last (py_sorted str_le (versions p).*1) with
  | None => Err (Exn KeyError "'package has no versions'")
  | Some v => match dget (versions p) v with
              | Some package => Ok package
              | None => Err (Exn KeyError (repr_str v))
              end
  end.
End Package.

(** * signing/ *)

Module SigningKey.
Record t := Mk { publisher_id : string; secret : string }.

Definition fingerprint `{Oracle} (k : t) : string := sha256_hex (publisher_id k +:+ ":" +:+ secret k).
End SigningKey.

Abbreviation SigningKey := SigningKey.t.

Module PackageSignature.
Record t := Mk { signature : string; fingerprint : string }.

Definition sign `{Oracle} (manifest_hash : string) (key : SigningKey) : t :=
  Mk (sha256_hex (manifest_hash +:+ ":" +:+ SigningKey.secret key)) (SigningKey.fingerprint key).
End PackageSignature.

(** [TrustedPublisherRegistry._fingerprints] *)
Module TrustedPublisherRegistry.
Abbreviation t := (dict string).

Definition trust (publisher_id fingerprint : string) (r : t) : t := dset r publisher_id fingerprint.
Definition fingerprint_for (publisher_id : string) (r : t) : option string := dget r publisher_id.
End TrustedPublisherRegistry.

Module SignatureVerifier.
Record t := Mk {
  trusted_publishers : TrustedPublisherRegistry.t;
  allow_unsigned_local : bool;
}.

Definition verify `{Oracle} (publisher_id manifest_hash signature : string) (key : option SigningKey) (v : t) : res string :=
  if bool_decide (signature = "")
  then if allow_unsigned_local v then Ok "unsigned-local" else Err (Exn ValidationError "unsigned packages are not allowed")
  else
  match TrustedPublisherRegistry.fingerprint_for publisher_id (trusted_publishers v) with
  | None => Err (Exn ValidationError "publisher is not trusted")
  | Some trusted =>
      match key with
      | None => Err (Exn ValidationError "signing key is required for local verification")
      | Some key =>
          let expected := PackageSignature.sign manifest_hash key in
          if negb (bool_decide (PackageSignature.fingerprint expected = trusted)) ||
             negb (bool_decide (PackageSignature.signature expected = signature))
          then Err (Exn ValidationError "package signature verification failed")
          else Ok (PackageSignature.fingerprint expected)
      end
  end.
End SignatureVerifier.

(** * dependencies/ *)

(** The packages a resolution can choose from, by their ids. *)
Abbreviation available := (dict PackageVersion).

(** [a > b] of two strings *)
Definition str_gt (a b : string) : bool := negb (str_le a b).

Module ConflictDetector.

Definition _compatible (version constraint : string) : bool :=
  if bool_decide (constraint ∈ ["*"; version]) then true
  else if ends_with ".x" constraint then bool_decide (before_dot version = before_dot constraint)
  else if starts_with ">=" constraint
  then str_le (String.substring 2 (String.length constraint) constraint) version
  else false.

(** The body of the loop. *)
Definition check (available : available) (d : PackageDependency) : res unit :=
  if PackageDependency.required d && negb (dmem available (PackageDependency.package_id d))
  then Err (Exn ValidationError ("missing dependency: " +:+ PackageDependency.package_id d))
  else if PackageDependency.deprecated d
  then Err (Exn ValidationError ("deprecated dependency: " +:+ PackageDependency.package_id d))
  else
  match dget available (PackageDependency.package_id d) with
  | Some resolved =>
      if negb (_compatible (PackageVersion.version resolved) (PackageDependency.version_constraint d))
      then Err (Exn ValidationError ("incompatible dependency: " +:+ PackageDependency.package_id d))
      else Ok tt
  | None => Ok tt
  end.

Definition validate (package : PackageVersion) (available : available) : res unit :=
  let? _ := res_map (check available) (PackageManifest.dependencies (PackageVersion.manifest package)) in Ok tt.

End ConflictDetector.

Module DependencyGraph.
Record t := Mk {
  packages : dict PackageVersion;
  edges : dict (list string);
}.

(** [self.edges.get(node, [])] *)
Definition children (node : string) (edges : dict (list string)) : list string := default [] (dget edges node).

(** [self.edges[package_id].append(dependency_id)] *)
Definition add_edge (edges : dict (list string)) (package_id dependency_id : string) : dict (list string) :=
  dset edges package_id (children package_id edges ++ [dependency_id]).

(** The inner loop, for one package. *)
Definition add_package (edges : dict (list string)) (p : PackageVersion) : dict (list string) :=
  foldl (fun edges d => add_edge edges (PackageVersion.package_id p) (PackageDependency.package_id d)) edges
    (PackageManifest.dependencies (PackageVersion.manifest p)).

Definition init (packages : list PackageVersion) : t :=
  Mk (foldl (fun d p => dset d (PackageVersion.package_id p) p) [] packages) (foldl add_package [] packages).

(** The variables [visit] shares with its calls. *)
Record walk := Walk {
  cycles : list (list string);
  visiting : gset string;
  visited : gset string;
}.

(** [path[path.index(node):]] *)
Fixpoint from_first (node : string) (path : list string) : list string :=
  match path with
  | [] => []
  | x :: path' => if bool_decide (x = node) then x :: path' else from_first node path'
  end.

Definition found (cycle : list string) (w : walk) : walk := Walk (cycles w ++ [cycle]) (visiting w) (visited w).
Definition enter (node : string) (w : walk) : walk := Walk (cycles w) (visiting w ∪ {[node]}) (visited w).
Definition leave (node : string) (w : walk) : walk := Walk (cycles w) (visiting w ∖ {[node]}) (visited w ∪ {[node]}).

(** [for child in l: f(child)] *)
Fixpoint visit_all (f : string → walk → option walk) (l : list string) (w : walk) : option walk :=
  match l with
  | [] => Some w
  | child :: l' => w' ← f child w; visit_all f l' w'
  end.

(** [visit(node, path)]. [fuel] bounds the depth of the calls; the result is
    [None] when they are deeper. *)
Fixpoint visit (edges : dict (list string)) (fuel : nat) (node : string) (path : list string) (w : walk) : option walk :=
  match fuel with
  | O => None
  | Datatypes.S fuel' =>
      if bool_decide (node ∈ visiting w) then Some (found (from_first node path ++ [node]) w)
      else if bool_decide (node ∈ visited w) then Some w
      else
      w' ← visit_all (fun child => visit edges fuel' child (path ++ [child])) (children node edges) (enter node w);
      Some (leave node w')
  end.

(** Calls go no deeper than the nodes that have children, and one. *)
Definition detect_cycles (g : t) : option (list (list string)) :=
  w ← visit_all (fun package_id => visit (edges g) (1 + length (edges g)) package_id [package_id])
        (packages g).*1 (Walk [] ∅ ∅);
  Some (cycles w).

End DependencyGraph.

Module DependencyResolver.

Definition unsafe : list string := ["tenant.data.all"; "network.unbounded"; "veil.restore"].

(** [resolved]: the package and the dependencies it names that are available. *)
Definition resolved (package : PackageVersion) (available : available) : list PackageVersion :=
  package :: omap (fun d => dget available (PackageDependency.package_id d))
               (PackageManifest.dependencies (PackageVersion.manifest package)).

(** [unsafe_permissions] of [resolved[1:]] *)
Definition unsafe_permissions (l : list PackageVersion) : gset string :=
  list_to_set (base.filter (fun permission => permission ∈ unsafe)
                 (l ≫= fun p => PackageManifest.tool_permissions (PackageVersion.manifest p))).

(** A search that runs out of depth raises [RecursionError]. *)
Definition resolve (package : PackageVersion) (available : available) : res (list PackageVersion) :=
  let? _ := ConflictDetector.validate package available in
  match DependencyGraph.detect_cycles (DependencyGraph.init (resolved package available)) with
  | None => Err (Exn RecursionError "maximum recursion depth exceeded")
  | Some (_ :: _) => Err (Exn ValidationError "circular dependency detected")
  | Some [] =>
      let unsafe_permissions := py_sorted_set (unsafe_permissions (tail (resolved package available))) in
      match unsafe_permissions with
      | [] => Ok (resolved package available)
      | _ => Err (Exn ValidationError ("unsafe transitive permissions: " +:+ join ", " unsafe_permissions))
      end
  end.

End DependencyResolver.

(** * scanning/ *)

Module PermissionScanner.

Definition HIGH_RISK_PERMISSIONS : list string :=
  ["network.unbounded"; "tenant.data.all"; "memory.unbounded"; "events.write"; "marketplace.admin"; "veil.restore";
   "gmail.send"; "calendar.write"; "github.write"; "jira.write"; "slack.write"; "servicenow.write"; "s3.write";
   "custom_http.execute"].

(** What [scan] returns. *)
Record t := Mk {
  requested_permissions : list string;
  high_risk_permissions : list string;
  requires_approval : bool;
  summary : string;
}.

Definition requested (package : PackageVersion) : gset string :=
  list_to_set (PackageManifest.tool_permissions (PackageVersion.manifest package)) ∪
  list_to_set (PackageManifest.connector_permissions (PackageVersion.manifest package)).

Definition scan (package : PackageVersion) : t :=
  let requested := requested package in
  let high_risk := py_sorted_set (requested ∩ list_to_set HIGH_RISK_PERMISSIONS) in
  let risky := negb (bool_decide (high_risk = [])) in
  Mk (py_sorted_set requested) high_risk risky
    (if risky then "high-risk permissions require tenant approval" else "no high-risk permissions").

End PermissionScanner.

Module DependencyScanner.

(** What [scan] returns. *)
Record t := Mk {
  missing : list string;
  deprecated : list string;
  unsigned : list string;
  ok : bool;
}.

Definition is_missing (available : available) (d : PackageDependency) : bool :=
  PackageDependency.required d && negb (dmem available (PackageDependency.package_id d)).

Definition is_unsigned (available : available) (d : PackageDependency) : bool :=
  match dget available (PackageDependency.package_id d) with
  | Some p => bool_decide (PackageVersion.signature p = "")
  | None => false
  end.

Definition scan (package : PackageVersion) (available : available) : t :=
  let named f := PackageDependency.package_id <$>
    base.filter (fun d => f d = true) (PackageManifest.dependencies (PackageVersion.manifest package)) in
  let missing := named (is_missing available) in
  let deprecated := named PackageDependency.deprecated in
  let unsigned := named (is_unsigned available) in
  Mk missing deprecated unsigned (bool_decide (missing = [] ∧ deprecated = [] ∧ unsigned = [])).

End DependencyScanner.

Module PolicyScanner.

(** What [scan] returns. *)
Record t := Mk { findings : list string; ok : bool }.

Definition scan (package : PackageVersion) : t :=
  let metadata := PackageVersion.metadata package in
  let found (b : bool) (finding : string) := if b then [finding] else [] in
  let findings :=
    found (existsb (fun key => starts_with "raw_" (lower key)) (PackageManifest.as_dict (PackageVersion.manifest package)).*1)
      "suspicious raw manifest field" ++
    found (PackageMetadata.revoked metadata) "package version is revoked" ++
    found (PackageMetadata.deprecated metadata) "package version is deprecated" ++
    found (negb (bool_decide (PackageMetadata.category metadata ∈ INDUSTRY_PACKAGE_CATEGORIES)))
      "unsupported industry package category" ++
    found (match PackageMetadata.quality_score metadata with Some q => SFltb q (lit 8 1) | None => false end)
      "industry package quality score is below threshold" in
  Mk findings (bool_decide (findings = [])).

End PolicyScanner.

Module MarketplaceScanner.

(** What [scan] returns. *)
Record t := Mk {
  ok : bool;
  permission : PermissionScanner.t;
  dependency : DependencyScanner.t;
  policy : PolicyScanner.t;
}.

Definition scan (package : PackageVersion) (available : available) : t :=
  let permission := PermissionScanner.scan package in
  let dependency := DependencyScanner.scan package available in
  let policy := PolicyScanner.scan package in
  Mk (DependencyScanner.ok dependency && PolicyScanner.ok policy && negb (PermissionScanner.requires_approval permission))
    permission dependency policy.

Definition enforce (package : PackageVersion) (available : available) : res t :=
  let result := scan package available in
  if negb (ok result) && negb (PackageMetadata.high_risk_approved (PackageVersion.metadata package))
  then Err (Exn ValidationError "package failed marketplace scan")
  else Ok result.

End MarketplaceScanner.

(** * licensing/ *)

Module License.
Record t := Mk {
  license_type : string;
  seats : option Z;
  usage_limit : option Z;
  trial_days : option Z;
  enterprise_only : bool;
}.

Definition opt_int (o : option Z) : val := match o with Some n => VInt n | None => VNone end.

Definition as_dict (l : t) : doc :=
  [("license_type", VStr (license_type l)); ("seats", opt_int (seats l)); ("usage_limit", opt_int (usage_limit l));
   ("trial_days", opt_int (trial_days l)); ("enterprise_only", VBool (enterprise_only l))].
End License.

Module Entitlement.
Record t := Mk {
  tenant_id : string;
  package_id : string;
  version : string;
  license_type : string;
  active : bool;
  expires_at : option Z;
  entitlement_id : string;
  created_at : Z;
}.

(** [Entitlement(tenant_id=..., package_id=..., version=..., license_type=...)] *)
Definition new `{Oracle} {S} (tenant_id package_id version license_type : string) : M (sys S) t :=
  let* id := uuid4 in
  let* created_at := utc_now in
  ret (Mk tenant_id package_id version license_type true None ("ent-" +:+ id) created_at).

Definition as_dict (e : t) : doc :=
  [("entitlement_id", VStr (entitlement_id e)); ("tenant_id", VStr (tenant_id e)); ("package_id", VStr (package_id e));
   ("version", VStr (version e)); ("license_type", VStr (license_type e)); ("active", VBool (active e));
   ("expires_at", opt_iso (expires_at e)); ("created_at", VStr (isoformat (created_at e)))].

Definition from_dict (value : doc) : res t :=
  let? entitlement_id := str_field value "entitlement_id" in
  let? tenant_id := str_field value "tenant_id" in
  let? package_id := str_field value "package_id" in
  let? version := str_field value "version" in
  let? license_type := str_field value "license_type" in
  let? expires_at := opt_time_field value "expires_at" in
  let? created_at := time_field value "created_at" in
  Ok (Mk tenant_id package_id version license_type (bool_field_or value "active" true) expires_at entitlement_id created_at).

Definition ok (e : t) : Prop := opt_time_ok (expires_at e) ∧ time_ok (created_at e).

Lemma entitlement_from_as_dict `{Oracle} {S} e (s : sys S) : ok e → of_res (from_dict (as_dict e)) s = (Ok e, s).
Proof.
  intros [He Hc]. unfold of_res, from_dict. rewrite (time_field_iso _ "created_at" _ Hc) by done.
  rewrite (opt_time_field_iso _ "expires_at" (expires_at e)); [by destruct e| |done]. intros t Ht. unfold opt_time_ok in He. by rewrite Ht in He.
Qed.
End Entitlement.

Abbreviation Entitlement := Entitlement.t.

#[export] Instance entitlement_document `{Oracle} {S} : Document S Entitlement := {
  d_coll := "marketplace_entitlements"; d_key := Entitlement.entitlement_id; d_enc := Entitlement.as_dict;
  d_dec d := of_res (Entitlement.from_dict d); d_ok := Entitlement.ok;
  d_dec_enc := Entitlement.entitlement_from_as_dict; d_enc_ne e := ltac:(done);
}.

Module LicenseChecker.

Definition verify `{Oracle} {S} (entitlement : option Entitlement) : M (sys S) unit :=
  match entitlement with
  | None => raise AuthorizationError "package entitlement is required"
  | Some e =>
      if negb (Entitlement.active e) then raise AuthorizationError "package entitlement is required"
      else
      match Entitlement.expires_at e with
      | None => ret tt
      | Some t =>
          let* now := utc_now in
          if t <=? now then raise AuthorizationError "package entitlement has expired" else ret tt
      end
  end.

End LicenseChecker.
