(* ===== verification/MarketplaceService.v ===== *)
(** The services of the marketplace (agentfabric/marketplace): the registry of
    packages, publishing, installing with what it entitles to, and reviews; and
    how the server's handler publishes (server/app.py). *)

From stdpp Require Import base option list strings gmap sets.
From Stdlib Require Import ZArith Lia SpecFloat.
From S2P Require Import Prelude PyVal Json PyTime Floats Store EventStore Documents Marketplace.

Local Open Scope Z_scope.

(** * registry/version_resolver.py *)

Module VersionResolver.

Definition version_le (p q : PackageVersion) : bool := str_le (PackageVersion.version p) (PackageVersion.version q).

Definition latest (versions : list PackageVersion) : res PackageVersion :=
  match last (py_sorted version_le versions) with
  | Some p => Ok p
  | None => Err (Exn KeyError "'no package versions available'")
  end.

(** [_compatible] is the function of conflict_detector.py, word for word. *)
Definition compatible (versions : list PackageVersion) (constraint : option string) : res PackageVersion :=
  match constraint with
  | None | Some "" => latest versions
  | Some c => latest (base.filter (fun p => ConflictDetector._compatible (PackageVersion.version p) c = true) versions)
  end.

End VersionResolver.

(** * registry/registry_service.py *)

Module MarketplaceRegistryService.
Section Registry.
Context `{Oracle} {S : Type} `{PersistenceStore S}.

(** [MarketplaceRegistryService(persistence)] *)
Definition init (persistence : S) : S := st_initialize persistence.

Definition save_version (package : PackageVersion) : M (sys S) unit := doc_put package.

Definition list_packages (tenant_id : option string) : M (sys S) (list PackageVersion) :=
  let* versions := doc_list in
  ret (match tenant_id with
       | None => versions
       | Some t => base.filter (fun p => PackageManifest.publisher_tenant_id (PackageVersion.manifest p) = t ∨
                                         PackageMetadata.private (PackageVersion.metadata p) = false) versions
       end).

(** The choice among the versions of a package. *)
Definition choose (version : option string) (versions : list PackageVersion) : res PackageVersion :=
  match versions with
  | [] => Err (Exn NotFoundError "package not found")
  | _ =>
      match version with
      | None | Some "" => VersionResolver.latest versions
      | Some v => match list_find (fun p => PackageVersion.version p = v) versions with
                  | Some (_, p) => Ok p
                  | None => Err (Exn NotFoundError "package version not found")
                  end
      end
  end.

Definition get (package_id : string) (version : option string) : M (sys S) PackageVersion :=
  let* packages := list_packages None in
  of_res (choose version (base.filter (fun p => PackageVersion.package_id p = package_id) packages)).

(** The body of the loop. *)
Definition keep_latest (latest : available) (package : PackageVersion) : available :=
  match dget latest (PackageVersion.package_id package) with
  | None => dset latest (PackageVersion.package_id package) package
  | Some existing =>
      if str_gt (PackageVersion.version package) (PackageVersion.version existing)
      then dset latest (PackageVersion.package_id package) package else latest
  end.

Definition available_by_id : M (sys S) available :=
  let* packages := list_packages None in ret (foldl keep_latest [] packages).

End Registry.
End MarketplaceRegistryService.

(** * registry/publish_service.py *)

Module PublishService.
Section Publish.
Context `{Oracle} {S : Type} `{PersistenceStore S}.
Import MarketplaceRegistryService.

Definition publish (manifest : PackageManifest) (metadata : PackageMetadata) (signature : string) (signing_key : SigningKey)
    (verifier : SignatureVerifier.t) : M (sys S) PackageVersion :=
  do* of_res (PackageManifest.validate manifest);
  let manifest_hash := PackageManifest.manifest_hash manifest in
  let* fingerprint := of_res (SignatureVerifier.verify (PackageManifest.publisher_tenant_id manifest) manifest_hash
                                signature (Some signing_key) verifier) in
  let* package := PackageVersion.new manifest manifest_hash signature fingerprint metadata in
  let* available := available_by_id in
  do* of_res (MarketplaceScanner.enforce package available);
  do* save_version package;
  do* EventStore.append "marketplace.package.published" (PackageVersion.package_id package)
    [("tenant_id", VStr (PackageManifest.publisher_tenant_id manifest));
     ("package_id", VStr (PackageVersion.package_id package)); ("version", VStr (PackageVersion.version package));
     ("manifest_hash", VStr manifest_hash)];
  do* EventStore.append "marketplace.package.signed" (PackageVersion.package_id package)
    [("tenant_id", VStr (PackageManifest.publisher_tenant_id manifest));
     ("package_id", VStr (PackageVersion.package_id package)); ("version", VStr (PackageVersion.version package));
     ("publisher_fingerprint", VStr fingerprint)];
  ret package.

(** What [marketplace_package_publish] of server/app.py does between its gates:
    the key is made from the request, trusted, and signs when the request does
    not. The registry of publishers it leaves is a part of the result. *)
Definition publish_request (tenant_id signing_secret signature : string) (manifest : PackageManifest)
    (metadata : PackageMetadata) (verifier : SignatureVerifier.t) : SignatureVerifier.t * M (sys S) PackageVersion :=
  let signing_key := SigningKey.Mk tenant_id signing_secret in
  let trusted := TrustedPublisherRegistry.trust tenant_id (SigningKey.fingerprint signing_key)
                   (SignatureVerifier.trusted_publishers verifier) in
  let verifier := SignatureVerifier.Mk trusted (SignatureVerifier.allow_unsigned_local verifier) in
  let signature := str_or signature
                     (PackageSignature.signature (PackageSignature.sign (PackageManifest.manifest_hash manifest) signing_key)) in
  (verifier,
   try_except (publish manifest metadata signature signing_key verifier)
     (fun exc =>
        if bool_decide (exn_cls exc = ValidationError)
        then
          do* EventStore.append "marketplace.package.rejected" (PackageManifest.package_id manifest)
            [("tenant_id", VStr tenant_id); ("package_id", VStr (PackageManifest.package_id manifest));
             ("reason", VStr (exn_msg exc))];
          raise (HTTPException 400) (exn_msg exc)
        else of_res (Err exc))).

End Publish.
End PublishService.

(** * registry/install_service.py *)

Module InstallService.
Section Install.
Context `{Oracle} {S : Type} `{PersistenceStore S}.
Import MarketplaceRegistryService.

(** The first document of the package that is active, as the loops of
    [_active_install] and [verify_runtime_entitlement] look for it. *)
Fixpoint first_active (package_id : string) (items : list doc) : res (option doc) :=
  match items with
  | [] => Ok None
  | item :: items' =>
      let? id := dindex item "package_id" in
      if is_str (Some id) package_id && bool_field_or item "active" true then Ok (Some item)
      else first_active package_id items'
  end.

Definition _validate_install (tenant_id : string) (package : PackageVersion) (approved_permissions : bool) : M (sys S) unit :=
  let metadata := PackageVersion.metadata package in
  if PackageMetadata.private metadata &&
     negb (bool_decide (PackageManifest.publisher_tenant_id (PackageVersion.manifest package) = tenant_id))
  then raise AuthorizationError "tenant cannot install private package"
  else
  let* available := available_by_id in
  let scan := MarketplaceScanner.scan package available in
  if PermissionScanner.requires_approval (MarketplaceScanner.permission scan) &&
     negb (approved_permissions || PackageMetadata.high_risk_approved metadata)
  then raise AuthorizationError "high-risk package permissions require approval"
  else if negb (DependencyScanner.ok (MarketplaceScanner.dependency scan)) || negb (PolicyScanner.ok (MarketplaceScanner.policy scan))
  then raise ValidationError "package failed install scan"
  else
  let* available := available_by_id in
  do* of_res (DependencyResolver.resolve package available);
  ret tt.

Definition _active_install (tenant_id package_id : string) : M (sys S) doc :=
  let* installs := store_list_tenant "marketplace_installs" tenant_id in
  let* found := of_res (first_active package_id installs) in
  match found with
  | Some install => ret install
  | None => raise ValidationError "package is not installed"
  end.

(** [install], the document it stores. *)
Definition new_install (tenant_id : string) (package : PackageVersion) : M (sys S) (string * doc) :=
  let* id := uuid4 in
  let* now := utc_now in
  ret ("inst-" +:+ id,
       [("install_id", VStr ("inst-" +:+ id)); ("tenant_id", VStr tenant_id);
        ("package_id", VStr (PackageVersion.package_id package));
        ("publisher_tenant_id", VStr (PackageManifest.publisher_tenant_id (PackageVersion.manifest package)));
        ("version", VStr (PackageVersion.version package)); ("installed_at", VStr (isoformat now)); ("active", VBool true)]).

Definition install (tenant_id package_id : string) (version : option string) (approved_permissions : bool) : M (sys S) doc :=
  let* package := get package_id version in
  do* _validate_install tenant_id package approved_permissions;
  let* entitlement := Entitlement.new tenant_id (PackageVersion.package_id package) (PackageVersion.version package)
                        (PackageManifest.license_type (PackageVersion.manifest package)) in
  let* install := new_install tenant_id package in
  do* doc_put entitlement;
  do* store_put "marketplace_installs" install.1 install.2;
  do* EventStore.append "marketplace.entitlement.granted" (PackageVersion.package_id package)
    (dupdate [("tenant_id", VStr tenant_id)] (Entitlement.as_dict entitlement));
  do* EventStore.append "marketplace.package.installed" (PackageVersion.package_id package) install.2;
  ret install.2.

(** [self.persistence.put("marketplace_installs", str(install["install_id"]), install)] *)
Definition put_install (install : doc) : M (sys S) unit :=
  let* key := of_res (str_field install "install_id") in store_put "marketplace_installs" key install.

Definition uninstall (tenant_id package_id : string) : M (sys S) doc :=
  let* install := _active_install tenant_id package_id in
  let install := dset install "active" (VBool false) in
  do* put_install install;
  do* EventStore.append "marketplace.package.uninstalled" package_id
    [("tenant_id", VStr tenant_id); ("package_id", VStr package_id)];
  ret install.

(** The install gets another version: the end of [upgrade] and of [rollback]. *)
Definition move_to (stamp event tenant_id package_id : string) (package : PackageVersion) : M (sys S) doc :=
  let* current := _active_install tenant_id package_id in
  let current := dset current "version" (VStr (PackageVersion.version package)) in
  let* now := utc_now in
  let current := dset current stamp (VStr (isoformat now)) in
  do* put_install current;
  do* EventStore.append event package_id
    [("tenant_id", VStr tenant_id); ("package_id", VStr package_id); ("version", VStr (PackageVersion.version package))];
  ret current.

Definition upgrade (tenant_id package_id : string) (version : option string) : M (sys S) doc :=
  let* package := get package_id version in
  do* _validate_install tenant_id package true;
  move_to "upgraded_at" "marketplace.package.upgraded" tenant_id package_id package.

Definition rollback (tenant_id package_id version : string) (admin_override : bool) : M (sys S) doc :=
  let* package := get package_id (Some version) in
  if PackageMetadata.revoked (PackageVersion.metadata package) && negb admin_override
  then raise ValidationError "cannot rollback to revoked package version"
  else move_to "rolled_back_at" "marketplace.package.rolled_back" tenant_id package_id package.

Definition verify_runtime_entitlement (tenant_id package_id : string) : M (sys S) unit :=
  let* items := store_list_tenant "marketplace_entitlements" tenant_id in
  let* item := of_res (first_active package_id items) in
  let* entitlement := match item with
                      | Some item => let* e := of_res (Entitlement.from_dict item) in ret (Some e)
                      | None => ret None
                      end in
  LicenseChecker.verify entitlement.

Definition list_installed (tenant_id : string) : M (sys S) (list doc) := store_list_tenant "marketplace_installs" tenant_id.

End Install.
End InstallService.

(** * reviews/ *)

Module PackageReview.
Record t := Mk {
  tenant_id : string;
  package_id : string;
  rating : Z;
  review : string;
  abuse_report : bool;
  review_id : string;
  created_at : Z;
}.

(** [PackageReview(tenant_id=..., package_id=..., rating=..., ...)] *)
Definition new `{Oracle} {S} (tenant_id package_id : string) (rating : Z) (review : string) (abuse_report : bool) : M (sys S) t :=
  let* id := uuid4 in
  let* created_at := utc_now in
  ret (Mk tenant_id package_id rating review abuse_report ("rev-" +:+ id) created_at).

Definition as_dict (r : t) : doc :=
  [("review_id", VStr (review_id r)); ("tenant_id", VStr (tenant_id r)); ("package_id", VStr (package_id r));
   ("rating", VInt (rating r)); ("review", VStr (review r)); ("abuse_report", VBool (abuse_report r));
   ("created_at", VStr (isoformat (created_at r)))].
End PackageReview.

Abbreviation PackageReview := PackageReview.t.

(** [[x for x in l if f(x)]] *)
Fixpoint res_filter {A} (f : A → res bool) (l : list A) : res (list A) :=
  match l with
  | [] => Ok []
  | x :: l' => let? b := f x in let? r := res_filter f l' in Ok (if b then x :: r else r)
  end.

(** [item[k] == s] *)
Definition field_is (k s : string) (item : doc) : res bool := let? v := dindex item k in Ok (is_str (Some v) s).

(** [sum(int(item["rating"]) for item in reviews) / len(reviews) if reviews else 0.0] *)
Definition average_rating (reviews : list doc) : res float :=
  match reviews with
  | [] => Ok (lit 0 1)
  | _ =>
      let? ratings := res_map (fun item => let? v := dindex item "rating" in py_int v) reviews in
      py_truediv (foldl Z.add 0 ratings) (Z.of_nat (length reviews))
  end.

Module RatingService.
Section Ratings.
Context `{Oracle} {S : Type} `{PersistenceStore S}.

Definition submit (review : PackageReview) : M (sys S) PackageReview :=
  do* store_put "marketplace_reviews" (PackageReview.review_id review) (PackageReview.as_dict review);
  ret review.

Definition summary (package_id : string) : M (sys S) doc :=
  let* items := store_list "marketplace_reviews" in
  let* reviews := of_res (res_filter (field_is "package_id" package_id) items) in
  let* average := of_res (average_rating reviews) in
  ret [("package_id", VStr package_id); ("count", VInt (Z.of_nat (length reviews))); ("average_rating", VNumber average)].

End Ratings.
End RatingService.

Module PublisherReputationService.
Section Reputation.
Context `{Oracle} {S : Type} `{PersistenceStore S}.

(** [any(package["package_id"] == review["package_id"] for package in packages)] *)
Fixpoint reviewed (packages : list doc) (review : doc) : res bool :=
  match packages with
  | [] => Ok false
  | package :: packages' =>
      let? p := dindex package "package_id" in
      let? r := dindex review "package_id" in
      if val_eqb p r then Ok true else reviewed packages' review
  end.

(** [max(0.0, round((avg / 5 if avg else 0.8) - (abuse * 0.1), 4))] *)
Definition reputation_score (avg : float) (abuse : Z) : float :=
  let quality := if SFeqb avg (lit 0 1) then lit 8 1 else fdiv avg (float_of_Z 5) in
  fmax (lit 0 1) (round4 (fsub quality (fmul (of_int abuse) (lit 1 1)))).

Definition reputation (publisher_id : string) : M (sys S) doc :=
  let* rows := store_list "marketplace_packages" in
  let* packages := of_res (res_filter (field_is "publisher_tenant_id" publisher_id) rows) in
  let* rows := store_list "marketplace_installs" in
  let installs := base.filter (fun item => is_str (dget item "publisher_tenant_id") publisher_id = true) rows in
  let* rows := store_list "marketplace_reviews" in
  let* reviews := of_res (res_filter (reviewed packages) rows) in
  let* avg := of_res (average_rating reviews) in
  let abuse := Z.of_nat (length (base.filter (fun item => bool_field_or item "abuse_report" false = true) reviews)) in
  ret [("publisher_id", VStr publisher_id); ("package_count", VInt (Z.of_nat (length packages)));
       ("install_count", VInt (Z.of_nat (length installs))); ("average_rating", VNumber avg);
       ("abuse_reports", VInt abuse); ("reputation_score", VNumber (reputation_score avg abuse))].

End Reputation.
End PublisherReputationService.
