(* ===== verification/MarketplaceTrust.v ===== *)
(** What the marketplace lets through: the cycles of dependencies it finds, the
    versions the registry chooses, the packages that are published and
    installed, and what tenants are entitled to. *)

From stdpp Require Import base option list strings gmap sets relations.
From Stdlib Require Import ZArith Lia SpecFloat Sorted.
From S2P Require Import Prelude PyVal Json PyTime Floats Store EventStore Documents Marketplace MarketplaceService.

Local Open Scope Z_scope.

(** * The search for cycles *)

Section Ways.
Context (R : string → string → Prop).

(** Each node of the list is related to the one before it. *)
Fixpoint linked (l : list string) : Prop :=
  match l with
  | x :: ((y :: _) as l') => R x y ∧ linked l'
  | _ => True
  end.

(** A cycle as [visit] reports it: a way from a node back to it, and the node
    once more. *)
Definition reported (c : list string) : Prop := ∃ n mid, c = n :: mid ++ [n; n] ∧ linked (n :: mid ++ [n]).

Lemma linked_app_r l l' : linked (l ++ l') → linked l'.
Proof.
  induction l as [|x l IH]; [done|]. cbn [app]. intros Hl. apply IH. destruct (l ++ l'); [done|apply Hl].
Qed.

Lemma linked_snoc p x y : linked (p ++ [x]) → R x y → linked (p ++ [x; y]).
Proof.
  intros Hp Hxy. induction p as [|z p IH]; [done|]. cbn [app] in *.
  destruct p as [|z' p]; cbn [app linked] in *; naive_solver.
Qed.

Lemma linked_tc x l y : linked (x :: l ++ [y]) → tc R x y.
Proof.
  revert x. induction l as [|z l IH]; intros x; cbn; [intros [? _]; by constructor|].
  intros [Hxz Hl]. eapply tc_l; [exact Hxz|]. by apply IH.
Qed.

Lemma reported_tc c : reported c → ∃ x, tc R x x.
Proof. intros (n & mid & _ & Hl). exists n. by apply (linked_tc n mid n). Qed.

Lemma tc_first x y : tc R x y → ∃ z, R x z.
Proof. destruct 1; eauto. Qed.
End Ways.

Lemma reported_impl (R R' : string → string → Prop) c : (∀ x y, R x y → R' x y) → reported R c → reported R' c.
Proof.
  intros HR (n & mid & Hc & Hl). exists n, mid. split; [done|]. clear Hc. revert Hl.
  generalize (n :: mid ++ [n]) as l. induction l as [|x [|y l] IH]; [done..|]. intros [Hxy Hl]. split; [by apply HR|by apply IH].
Qed.

Section Cycles.
Import DependencyGraph.
Context (E : dict (list string)).
Implicit Types (w : walk) (p l order : list string).

Definition edge (x y : string) : Prop := y ∈ children x E.

(** The order in which nodes are finished: each once, and after its children. *)
Fixpoint finished order : Prop :=
  match order with
  | [] => True
  | v :: order' => v ∉ order' ∧ (∀ c, edge v c → c ∈ order') ∧ finished order'
  end.

Lemma from_first_spec n p :
  n ∈ p → ∃ p1 rest, p = p1 ++ n :: rest ∧ from_first n (p ++ [n]) = n :: rest ++ [n].
Proof.
  induction p as [|x p IH]; [by intros ?%not_elem_of_nil|]. cbn [app from_first].
  case_bool_decide as Hx; [intros _; subst x; by exists [], p|].
  intros [->|Hn]%elem_of_cons; [done|]. destruct (IH Hn) as (p1 & rest & -> & ->). by exists (x :: p1), rest.
Qed.

(** What a node that was finished reaches was finished before it. *)
Lemma finished_tc order v x :
  finished order → v ∈ order → tc edge v x → ∃ o1 o2, order = o1 ++ v :: o2 ∧ v ∉ o2 ∧ x ∈ o2.
Proof.
  intros Ho Hv Ht. revert order Ho Hv. induction Ht as [v x Hvx|v y x Hvy Hyx IH]; intros order Ho Hv.
  all: apply list_elem_of_split in Hv as (o1 & o2 & ->); exists o1, o2; split; [done|].
  all: assert (Hf : finished (v :: o2)) by (clear -Ho; induction o1 as [|z o1 IHo]; [done|apply IHo, Ho]).
  all: destruct Hf as (Hn & Hc & Hf); split; [done|].
  - by apply Hc.
  - destruct (IH o2 Hf (Hc y Hvy)) as (o3 & o4 & -> & _ & Hx). set_solver.
Qed.

Lemma finished_acyclic order v : finished order → v ∈ order → ¬ tc edge v v.
Proof. intros Ho Hv Ht. by destruct (finished_tc order v v Ho Hv Ht) as (? & ? & _ & ? & ?). Qed.

(** The nodes with children that are not being visited. *)
Definition unentered w : gset string := list_to_set E.*1 ∖ visiting w.

Lemma unentered_enter n w :
  children n E ≠ [] → n ∉ visiting w → (size (unentered (enter n w)) < size (unentered w))%nat.
Proof.
  intros Hc Hn. apply subset_size. unfold unentered, enter. cbn [visiting].
  assert (n ∈ E.*1); [|set_solver].
  unfold children in Hc. destruct (dget E n) as [c|] eqn:Hg; [|done]. apply dget_Some_elem in Hg.
  apply list_elem_of_fmap. by exists (n, c).
Qed.

(** What a part of the search does to the shared variables. *)
Record progress w w' : Prop := Progress {
  pr_cycles : ∃ new, cycles w' = cycles w ++ new ∧ Forall (reported edge) new;
  pr_visiting : visiting w' = visiting w;
  pr_visited : visited w ⊆ visited w' ∧ ∀ x, x ∈ visiting w → x ∈ visited w' → x ∈ visited w;
  pr_order : cycles w' = [] → (∃ order, finished order ∧ list_to_set order = visited w) →
    ∃ order, finished order ∧ list_to_set order = visited w';
}.

Lemma progress_refl w : progress w w.
Proof. split; [exists []; by rewrite app_nil_r|done|done|done]. Qed.

Lemma progress_quiet w w' : progress w w' → cycles w' = [] → cycles w = [].
Proof. intros [(new & -> & _) _ _ _]. by intros [? _]%app_eq_nil. Qed.

Lemma progress_trans w1 w2 w3 : progress w1 w2 → progress w2 w3 → progress w1 w3.
Proof.
  intros H12 H23. pose proof (progress_quiet _ _ H23) as Hq.
  destruct H12 as [(n1 & E1 & R1) V1 (S1 & K1) O1], H23 as [(n2 & E2 & R2) V2 (S2 & K2) O2]. split.
  - exists (n1 ++ n2). split; [by rewrite E2, E1, app_assoc|by apply Forall_app].
  - congruence.
  - split; [set_solver|]. intros x Hx Hx3. apply K1, K2; [done|by rewrite V1|done].
  - intros Hc Ho. apply O2; [done|]. apply O1; [by apply Hq|done].
Qed.

(** The outcome of the search at a node. *)
Definition searched (c : string) w w' : Prop := progress w w' ∧ (cycles w' = [] → c ∈ visited w').

Lemma visit_all_searched f l w :
  (∀ c w1, c ∈ l → visiting w1 = visiting w → ∃ w2, f c w1 = Some w2 ∧ searched c w1 w2) →
  ∃ w', visit_all f l w = Some w' ∧ progress w w' ∧ (cycles w' = [] → ∀ c, c ∈ l → c ∈ visited w').
Proof.
  revert w. induction l as [|c l IH]; intros w Hf.
  { exists w. split_and!; [done|apply progress_refl|set_solver]. }
  destruct (Hf c w) as (w1 & E1 & Hp1 & Hc1); [by left|done|].
  destruct (IH w1) as (w2 & E2 & Hp2 & Hc2).
  { intros c' w' Hc' Hv. apply Hf; [by right|]. rewrite Hv. apply Hp1. }
  exists w2. cbn [visit_all]. rewrite E1. cbn. split_and!; [done|by eapply progress_trans|].
  intros Hq c' [->|Hc']%elem_of_cons; [|by apply Hc2].
  apply (proj1 (pr_visited _ _ Hp2)), Hc1. by eapply progress_quiet.
Qed.

Lemma enter_leave n w w' :
  n ∉ visiting w → n ∉ visited w → progress (enter n w) w' → (cycles w' = [] → ∀ c, edge n c → c ∈ visited w') →
  searched n w (leave n w').
Proof.
  intros Hv Hd [Hc Hvis (Hs & Hk) Ho] Hch. cbn in *. split; [split|]; cbn.
  - done.
  - rewrite Hvis. set_solver.
  - split; [set_solver|]. intros x Hx [Hx'|Hx']%elem_of_union; [|set_solver]. apply Hk; set_solver.
  - intros Hq Hw. destruct (Ho Hq Hw) as (order & Hf & Heq). exists (n :: order). split; [|set_solver].
    assert (Hin : ∀ x, x ∈ order ↔ x ∈ visited w') by (intros x; by rewrite <- Heq, elem_of_list_to_set).
    split_and!; [|intros c Hce; by apply Hin, Hch|done]. rewrite Hin. intros Hn. apply Hd, Hk; set_solver.
  - set_solver.
Qed.

Lemma visit_searched fuel n p w :
  visiting w = list_to_set p → linked edge (p ++ [n]) → (size (unentered w) < fuel)%nat →
  ∃ w', visit E fuel n (p ++ [n]) w = Some w' ∧ searched n w w'.
Proof.
  revert n p w. induction fuel as [|fuel IH]; intros n p w Hp Hl Hf; [lia|]. cbn [visit].
  case_bool_decide as Hv.
  { eexists. split; [reflexivity|]. rewrite Hp, elem_of_list_to_set in Hv. destruct (from_first_spec n p Hv) as (p1 & rest & -> & Hff).
    split; [split|]; cbn; [|done|done| |].
    - exists [n :: rest ++ [n; n]]. rewrite Hff. split; [cbn; by rewrite <- app_assoc|]. constructor; [|done].
      exists n, rest. split; [done|]. rewrite <- app_assoc in Hl. by apply linked_app_r in Hl.
    - intros Hq. by apply app_eq_nil in Hq as [_ ?].
    - intros Hq. by apply app_eq_nil in Hq as [_ ?]. }
  case_bool_decide as Hd; [by exists w; split; [|split; [apply progress_refl|]]|].
  destruct (visit_all_searched (fun child => visit E fuel child ((p ++ [n]) ++ [child])) (children n E) (enter n w))
    as (w' & E' & Hpr & Hch).
  - intros c w1 Hc Hvis. apply IH.
    + rewrite Hvis. cbn. rewrite Hp, list_to_set_app_L. set_solver.
    + rewrite <- app_assoc. by apply linked_snoc.
    + assert (unentered w1 = unentered (enter n w)) as -> by (unfold unentered; by rewrite Hvis).
      assert (Hlt := unentered_enter n w). unfold edge in Hc. destruct (children n E); [set_solver|]. specialize (Hlt ltac:(done) Hv). lia.
  - rewrite E'. cbn. eexists. split; [reflexivity|]. by apply enter_leave.
Qed.

(** The search ends, and finds a cycle exactly when there is one. *)
Lemma search_exact (roots : list string) fuel :
  (size (list_to_set E.*1 : gset string) < fuel)%nat → (∀ x y, edge x y → x ∈ roots) →
  ∃ w, visit_all (fun r => visit E fuel r [r]) roots (Walk [] ∅ ∅) = Some w ∧
    Forall (reported edge) (cycles w) ∧ (cycles w = [] ↔ ∀ x, ¬ tc edge x x).
Proof.
  intros Hfuel Hr. destruct (visit_all_searched (fun r => visit E fuel r [r]) roots (Walk [] ∅ ∅)) as (w & Ew & Hpr & Hall).
  { intros c w1 _ Hv. apply (visit_searched fuel c [] w1); [done|done|]. unfold unentered. rewrite Hv. cbn [visiting].
    by rewrite difference_empty_L. }
  exists w. split; [done|]. pose proof Hpr as [(new & Ec & Hn) _ _ Ho]. cbn in *. rewrite Ec in *. split; [done|]. split.
  - intros Hq x Hx. destruct Ho as (order & Hf & Heq); [done|by exists []; split|].
    destruct (tc_first edge x x Hx) as [y Hxy]. pose proof (Hr x y Hxy) as Hin.
    pose proof (Hall Hq x Hin) as Hv. rewrite <- Heq, elem_of_list_to_set in Hv. by apply (finished_acyclic order x Hf Hv).
  - intros Hx. destruct new as [|c new]; [done|]. apply Forall_cons in Hn as [Hc _].
    by destruct (reported_tc edge c Hc) as [x ?%Hx].
Qed.
End Cycles.

(** What packages depend on. *)
Definition depends (l : list PackageVersion) (x y : string) : Prop :=
  ∃ p d, p ∈ l ∧ PackageVersion.package_id p = x ∧
    d ∈ PackageManifest.dependencies (PackageVersion.manifest p) ∧ PackageDependency.package_id d = y.

Section Graph.
Import DependencyGraph.

Lemma children_add_edge x a b E : children x (add_edge E a b) = children x E ++ (if bool_decide (a = x) then [b] else []).
Proof.
  unfold add_edge, children at 1. rewrite dget_dset. case_bool_decide as Hx; [by rewrite Hx|]. by rewrite app_nil_r.
Qed.

Lemma children_add_package x p E y :
  y ∈ children x (add_package E p) ↔ y ∈ children x E ∨ depends [p] x y.
Proof.
  unfold add_package, depends. setoid_rewrite list_elem_of_singleton.
  assert (Hl : ∀ l E, y ∈ children x (foldl (fun E d => add_edge E (PackageVersion.package_id p) (PackageDependency.package_id d)) E l)
    ↔ y ∈ children x E ∨ (PackageVersion.package_id p = x ∧ ∃ d, d ∈ l ∧ PackageDependency.package_id d = y)); [|rewrite Hl; naive_solver].
  induction l as [|d l IH]; intros E'; cbn [foldl]; [set_solver|].
  rewrite IH, children_add_edge, elem_of_app. setoid_rewrite elem_of_cons.
  case_bool_decide; rewrite ?list_elem_of_singleton, ?elem_of_nil; naive_solver.
Qed.

Lemma size_list_to_set_le (l : list string) : (size (list_to_set l : gset string) ≤ length l)%nat.
Proof.
  induction l as [|x l IH]; cbn; [by rewrite size_empty|]. pose proof (size_union_alt {[x]} (list_to_set l : gset string)) as Hs.
  rewrite Hs, size_singleton. pose proof (subseteq_size (list_to_set l ∖ {[x]}) (list_to_set l : gset string) ltac:(set_solver)). lia.
Qed.

Lemma edge_depends l x y : edge (edges (init l)) x y ↔ depends l x y.
Proof.
  unfold edge, init. cbn [edges].
  assert (Hl : ∀ E, y ∈ children x (foldl add_package E l) ↔ y ∈ children x E ∨ depends l x y).
  { induction l as [|p l IH]; intros E; cbn [foldl]; [split; [by left|by intros [?|(? & ? & ?%elem_of_nil & _)]]|].
    rewrite IH, children_add_package. unfold depends. setoid_rewrite elem_of_cons. setoid_rewrite elem_of_nil. naive_solver. }
  rewrite Hl. unfold children. cbn. split; [by intros [?%elem_of_nil|?]|by right].
Qed.

Lemma elem_of_packages l x : x ∈ (packages (init l)).*1 ↔ ∃ p, p ∈ l ∧ PackageVersion.package_id p = x.
Proof.
  unfold init. cbn [packages].
  assert (Hl : ∀ d : dict PackageVersion, x ∈ (foldl (fun d p => dset d (PackageVersion.package_id p) p) d l).*1 ↔
    x ∈ d.*1 ∨ ∃ p, p ∈ l ∧ PackageVersion.package_id p = x); [|rewrite Hl; set_solver].
  induction l as [|p l IH]; intros d; cbn [foldl]; [set_solver|]. rewrite IH, dset_fst.
  setoid_rewrite elem_of_cons. case_decide; [|set_solver]. naive_solver.
Qed.
End Graph.

Lemma tc_edge_depends l x y : tc (edge (DependencyGraph.edges (DependencyGraph.init l))) x y ↔ tc (depends l) x y.
Proof. split; induction 1; [apply tc_once|eapply tc_l; [|done]|apply tc_once|eapply tc_l; [|done]]; by apply edge_depends. Qed.

Lemma detect_cycles_eq l :
  let E := DependencyGraph.edges (DependencyGraph.init l) in
  ∃ cycles, DependencyGraph.detect_cycles (DependencyGraph.init l) = Some cycles ∧
    Forall (reported (edge E)) cycles ∧ (cycles = [] ↔ ∀ x, ¬ tc (edge E) x x).
Proof.
  intros E.
  destruct (search_exact E (DependencyGraph.packages (DependencyGraph.init l)).*1 (1 + length E)) as (w & Ew & Hr & Hc).
  - pose proof (size_list_to_set_le E.*1). rewrite length_fmap in *. lia.
  - intros x y (p & d & Hp & Hx & _)%edge_depends. apply elem_of_packages. by exists p.
  - exists (DependencyGraph.cycles w). unfold DependencyGraph.detect_cycles. fold E. by rewrite Ew.
Qed.

(** * The registry *)

Section Registry.
Context `{Oracle} {S : Type} `{PersistenceStore S} `{!StoreLaws S}.
Implicit Types (p q : PackageVersion) (s : sys S).
Import MarketplaceRegistryService.

(** The greatest of the versions of a package in a list. *)
Definition greatest (l : list PackageVersion) (id : string) p : Prop :=
  p ∈ l ∧ PackageVersion.package_id p = id ∧
  ∀ q, q ∈ l → PackageVersion.package_id q = id → str_le (PackageVersion.version q) (PackageVersion.version p) = true.

Lemma latest_greatest (l : list PackageVersion) :
  l ≠ [] → ∃ p, VersionResolver.latest l = Ok p ∧ p ∈ l ∧
    ∀ q, q ∈ l → str_le (PackageVersion.version q) (PackageVersion.version p) = true.
Proof.
  intros Hl. unfold VersionResolver.latest.
  destruct (last (py_sorted VersionResolver.version_le l)) as [p|] eqn:Ep.
  - exists p. split; [done|]. split; [by apply last_Some_elem_of, elem_of_py_sorted in Ep|]. intros q Hq.
    apply (sorted_last VersionResolver.version_le _ p) with (y := q) in Ep; [done|..].
    + intros a. apply str_le_refl.
    + intros a b c. apply str_le_trans.
    + apply py_sorted_Sorted. intros a b. apply str_le_total.
    + by apply elem_of_py_sorted.
  - apply last_None in Ep. pose proof (length_py_sorted VersionResolver.version_le l) as Hlen. rewrite Ep in Hlen. by destruct l.
Qed.

Lemma keep_latest_greatest (l : list PackageVersion) id :
  match dget (foldl keep_latest [] l) id with
  | Some p => greatest l id p
  | None => ∀ p, p ∈ l → PackageVersion.package_id p ≠ id
  end.
Proof.
  induction l as [|p l IH] using rev_ind; [by intros p ?%elem_of_nil|]. rewrite foldl_snoc. unfold keep_latest at 1.
  assert (Hkeep : PackageVersion.package_id p ≠ id → match dget (foldl keep_latest [] l) id with
    | Some q => greatest (l ++ [p]) id q | None => ∀ q, q ∈ l ++ [p] → PackageVersion.package_id q ≠ id end).
  { intros Hp. destruct (dget _ id) as [q|]; unfold greatest in *; set_solver. }
  destruct (decide (PackageVersion.package_id p = id)) as [Hid|Hid].
  - rewrite Hid. destruct (dget (foldl keep_latest [] l) id) as [q|] eqn:Eq.
    + destruct IH as (Hq & Hqid & Hmax). unfold str_gt. destruct (str_le _ _) eqn:El; cbn [negb].
      * rewrite Eq. split_and!; [set_solver|done|]. intros r [Hr| ->%list_elem_of_singleton]%elem_of_app Hrid; auto.
      * rewrite dget_dset_eq. split_and!; [set_solver|done|].
        intros r [Hr| ->%list_elem_of_singleton]%elem_of_app Hrid; [|apply str_le_refl].
        eapply str_le_trans; [by apply Hmax|]. destruct (str_le_total (PackageVersion.version p) (PackageVersion.version q)); congruence.
    + rewrite dget_dset_eq. split_and!; [set_solver|done|].
      intros r [Hr| ->%list_elem_of_singleton]%elem_of_app Hrid; [by destruct (IH r Hr)|apply str_le_refl].
  - specialize (Hkeep Hid). destruct (dget (foldl keep_latest [] l) (PackageVersion.package_id p)) as [q|] eqn:Eq.
    + destruct (str_gt _ _); [|done]. by rewrite dget_dset_ne.
    + by rewrite dget_dset_ne.
Qed.

(** What the registry shows of its packages. *)
Lemma packages_eq s :
  typed (A := PackageVersion) (db s) →
  ∃ l, list_packages None s = (Ok l, s) ∧ (∀ p, p ∈ l ↔ stored p (db s)) ∧
    available_by_id s = (Ok (foldl keep_latest [] l), s) ∧
    ∀ id version, get id version s = (choose version (base.filter (fun p => PackageVersion.package_id p = id) l), s).
Proof.
  intros Ht. destruct (doc_list_eq s Ht) as (l & El & Hl & Hs). exists l.
  unfold available_by_id, get, list_packages, bind. rewrite El. split_and!; [done| |done|done].
  intros p. split; [rewrite Forall_forall in Hs; apply Hs|]. intros Hp. destruct Hp as [Hok Hg] eqn:Hp'.
  assert (Hd : d_enc p ∈ d_enc (S := S) <$> l) by (rewrite Hl; apply elem_of_st_list; eauto).
  apply list_elem_of_fmap in Hd as (q & Eq & Hq). rewrite Forall_forall in Hs. destruct (Hs q Hq) as [Hqok _].
  by apply (d_enc_inj p q s Hok Hqok) in Eq as ->.
Qed.

Lemma package_unique p q s :
  stored p (db s) → stored q (db s) → PackageVersion.package_id p = PackageVersion.package_id q →
  PackageVersion.version p = PackageVersion.version q → p = q.
Proof. intros Hp Hq Hid Hv. apply (stored_unique p q s Hp Hq). cbn. unfold PackageVersion.key. by rewrite Hid, Hv. Qed.

(** The newest version of a package, in the order of texts. *)
Definition newest (db : S) (id : string) p : Prop :=
  stored p db ∧ PackageVersion.package_id p = id ∧
  ∀ q, stored q db → PackageVersion.package_id q = id → str_le (PackageVersion.version q) (PackageVersion.version p) = true.

Lemma newest_unique s id p q : newest (db s) id p → newest (db s) id q → p = q.
Proof.
  intros (Hp & Ip & Mp) (Hq & Iq & Mq). apply (package_unique p q s); [done..|congruence|]. apply str_le_antisym; auto.
Qed.

Lemma available_newest s :
  typed (A := PackageVersion) (db s) →
  ∃ available, available_by_id s = (Ok available, s) ∧
    (∀ id p, dget available id = Some p ↔ newest (db s) id p) ∧
    ∀ id, get id None s = (match dget available id with Some p => Ok p | None => Err (Exn NotFoundError "package not found") end, s).
Proof.
  intros Ht. destruct (packages_eq s Ht) as (l & _ & Hl & Ha & Hg). eexists. split; [exact Ha|].
  assert (Hgr : ∀ id p, greatest l id p ↔ newest (db s) id p) by (intros; unfold greatest, newest; by setoid_rewrite Hl).
  assert (Hn : ∀ id p, dget (foldl keep_latest [] l) id = Some p ↔ newest (db s) id p).
  { intros id p. pose proof (keep_latest_greatest l id) as Hk. destruct (dget _ id) as [q|].
    - apply Hgr in Hk. split; [by intros [= <-]|]. intros Hp. f_equal. by eapply newest_unique.
    - split; [done|]. intros (Hp & Hid & _). apply Hl in Hp. by destruct (Hk p Hp). }
  split; [exact Hn|]. intros id. rewrite Hg. f_equal. unfold choose.
  pose proof (latest_greatest (base.filter (fun p => PackageVersion.package_id p = id) l)) as Hlat.
  destruct (base.filter _ l) as [|p0 l0] eqn:Ef.
  - pose proof (keep_latest_greatest l id) as Hk. destruct (dget _ id) as [q|]; [|done]. destruct Hk as (Hq & Hid & _).
    apply filter_nil_iff in Ef. rewrite Forall_forall in Ef. by destruct (Ef q Hq).
  - destruct Hlat as (p & -> & Hp & Hmax); [done|]. rewrite <- Ef in Hp, Hmax. apply list_elem_of_filter in Hp as [Hid Hp].
    rewrite (proj2 (Hn id p)); [done|]. apply Hgr. split_and!; [done..|]. intros q Hq Hqid. apply Hmax. by apply list_elem_of_filter.
Qed.

(** A version that is asked for is the one that is stored. *)
Lemma get_version s id v p :
  typed (A := PackageVersion) (db s) → v ≠ "" →
  get id (Some v) s = (Ok p, s) ↔ stored p (db s) ∧ PackageVersion.package_id p = id ∧ PackageVersion.version p = v.
Proof.
  intros Ht Hv. destruct (packages_eq s Ht) as (l & _ & Hl & _ & Hg). rewrite Hg.
  destruct v as [|c v]; [done|]. set (vs := base.filter (fun p => PackageVersion.package_id p = id) l).
  assert (Hvs : ∀ q, q ∈ vs ↔ stored q (db s) ∧ PackageVersion.package_id q = id) by (intros q; unfold vs; rewrite list_elem_of_filter, Hl; naive_solver).
  split.
  - intros E. apply (f_equal fst) in E. cbn [fst] in E. unfold choose in E. destruct vs as [|q0 vs'] eqn:Evs; [done|]. rewrite <- Evs in *.
    destruct (list_find _ vs) as [[i q]|] eqn:Ef; [|done]. injection E as ->. apply list_find_Some in Ef as (Hi & Hq & _).
    apply list_elem_of_lookup_2, Hvs in Hi as [? ?]. done.
  - intros (Hp & Hid & Hpv). assert (Hin : p ∈ vs) by by apply Hvs. f_equal. unfold choose. destruct vs as [|q0 vs'] eqn:Evs; [by apply elem_of_nil in Hin|].
    rewrite <- Evs in *. destruct (list_find (fun q => PackageVersion.version q = String c v) vs) as [[i q]|] eqn:Ef.
    + apply list_find_Some in Ef as (Hi & Hq & _). apply list_elem_of_lookup_2, Hvs in Hi as [Hqs Hqid].
      f_equal. apply (package_unique q p s); congruence.
    + apply list_find_None in Ef. rewrite Forall_forall in Ef. by destruct (Ef p Hin).
Qed.
End Registry.

(** * Scans and dependencies *)

Section Scans.
Implicit Types (p q : PackageVersion) (a : available) (d : PackageDependency).

Definition dependencies p : list PackageDependency := PackageManifest.dependencies (PackageVersion.manifest p).
Definition permissions p : list string := PackageManifest.tool_permissions (PackageVersion.manifest p).

(** The package asks for a permission that is a risk. *)
Definition risky p : Prop :=
  ∃ x, x ∈ PermissionScanner.HIGH_RISK_PERMISSIONS ∧
    (x ∈ permissions p ∨ x ∈ PackageManifest.connector_permissions (PackageVersion.manifest p)).

(** Each dependency is there if it must be, is not deprecated, and is signed. *)
Definition sound_dependencies a p : Prop :=
  ∀ d, d ∈ dependencies p →
    (PackageDependency.required d = true → is_Some (dget a (PackageDependency.package_id d))) ∧
    PackageDependency.deprecated d = false ∧
    ∀ q, dget a (PackageDependency.package_id d) = Some q → PackageVersion.signature q ≠ "".

(** The package is in use, of a known category, and not known to be poor. *)
Definition sound_metadata (m : PackageMetadata) : Prop :=
  PackageMetadata.revoked m = false ∧ PackageMetadata.deprecated m = false ∧
  PackageMetadata.category m ∈ INDUSTRY_PACKAGE_CATEGORIES ∧
  ∀ x, PackageMetadata.quality_score m = Some x → SFltb x (lit 8 1) = false.

Lemma requires_approval_risky p : PermissionScanner.requires_approval (PermissionScanner.scan p) = true ↔ risky p.
Proof.
  unfold PermissionScanner.scan. cbn [PermissionScanner.requires_approval]. rewrite negb_true_iff, bool_decide_eq_false. split.
  - intros Hl. destruct (py_sorted_set _) as [|x l] eqn:E; [done|].
    assert (Hx : x ∈ py_sorted_set (PermissionScanner.requested p ∩ list_to_set PermissionScanner.HIGH_RISK_PERMISSIONS)) by (rewrite E; by left).
    rewrite elem_of_sorted_set in Hx. exists x. unfold PermissionScanner.requested in Hx. set_solver.
  - intros (x & Hx & Hp) E. assert (Hn : x ∉ py_sorted_set (PermissionScanner.requested p ∩ list_to_set PermissionScanner.HIGH_RISK_PERMISSIONS)).
    { rewrite E. apply not_elem_of_nil. }
    rewrite elem_of_sorted_set in Hn. apply Hn. unfold PermissionScanner.requested. rewrite elem_of_intersection, elem_of_union, !elem_of_list_to_set. auto.
Qed.

Lemma dmem_Some {A} (d : dict A) k : dmem d k = true ↔ is_Some (dget d k).
Proof. unfold dmem. destruct (dget d k); split; naive_solver. Qed.

Lemma fmap_nil_iff {A B} (f : A → B) (l : list A) : f <$> l = [] ↔ l = [].
Proof. by destruct l. Qed.

Lemma dependency_scan_ok p a : DependencyScanner.ok (DependencyScanner.scan p a) = true ↔ sound_dependencies a p.
Proof.
  unfold DependencyScanner.scan. cbn [DependencyScanner.ok]. rewrite bool_decide_eq_true.
  rewrite !fmap_nil_iff, !filter_nil_iff, !Forall_forall. unfold sound_dependencies, dependencies. split.
  - intros (Hm & Hd & Hu) d Hin. specialize (Hm d Hin). specialize (Hd d Hin). specialize (Hu d Hin).
    unfold DependencyScanner.is_missing, DependencyScanner.is_unsigned in *. split_and!.
    + intros Hr. apply dmem_Some. rewrite Hr in Hm. by destruct (dmem _ _).
    + by destruct (PackageDependency.deprecated d).
    + intros q Hq. rewrite Hq, bool_decide_eq_true in Hu. done.
  - intros Hs. split_and!; intros d Hin; destruct (Hs d Hin) as (Hr & Hd & Hq).
    + unfold DependencyScanner.is_missing. destruct (PackageDependency.required d); [|done].
      by rewrite (proj2 (dmem_Some _ _) (Hr eq_refl)).
    + by rewrite Hd.
    + unfold DependencyScanner.is_unsigned. destruct (dget _ _) as [q|]; [|done]. rewrite bool_decide_eq_true. by apply Hq.
Qed.

Lemma policy_scan_ok p : PolicyScanner.ok (PolicyScanner.scan p) = true ↔ sound_metadata (PackageVersion.metadata p).
Proof.
  unfold PolicyScanner.scan. cbn [PolicyScanner.ok]. rewrite bool_decide_eq_true.
  assert (existsb (fun key => starts_with "raw_" (lower key)) (PackageManifest.as_dict (PackageVersion.manifest p)).*1 = false) as -> by done.
  unfold sound_metadata. destruct (PackageMetadata.revoked _); [split; [done|by intros [[=] _]]|].
  destruct (PackageMetadata.deprecated _); [split; [done|by intros (_ & [=] & _)]|].
  case_bool_decide as Hc; cbn [negb app]; [|split; [done|by intros (_ & _ & ? & _)]].
  destruct (PackageMetadata.quality_score _) as [x|]; [|split; [intros _; split_and!; done|done]].
  destruct (SFltb x (lit 8 1)) eqn:Ex; split.
  - done.
  - intros (_ & _ & _ & Hx). by rewrite Hx in Ex.
  - intros _. split_and!; [done..|]. by intros y [= <-].
  - done.
Qed.

Lemma scan_ok p a :
  MarketplaceScanner.ok (MarketplaceScanner.scan p a) = true ↔
  sound_dependencies a p ∧ sound_metadata (PackageVersion.metadata p) ∧ ¬ risky p.
Proof.
  unfold MarketplaceScanner.scan. cbn [MarketplaceScanner.ok].
  rewrite !andb_true_iff, negb_true_iff, dependency_scan_ok, policy_scan_ok, <- not_true_iff_false, requires_approval_risky. tauto.
Qed.

(** ** The resolver *)

(** A dependency as the resolver wants it. *)
Definition resolvable a d : Prop :=
  (PackageDependency.required d = true → is_Some (dget a (PackageDependency.package_id d))) ∧
  PackageDependency.deprecated d = false ∧
  ∀ q, dget a (PackageDependency.package_id d) = Some q →
    ConflictDetector._compatible (PackageVersion.version q) (PackageDependency.version_constraint d) = true.

Lemma check_ok a d u : ConflictDetector.check a d = Ok u ↔ resolvable a d.
Proof.
  destruct u. unfold ConflictDetector.check, resolvable, dmem.
  destruct (PackageDependency.deprecated d).
  { split; [by destruct (_ && _)|by intros (_ & [=] & _)]. }
  destruct (dget a _) as [q|].
  - rewrite andb_false_r. destruct (ConflictDetector._compatible _ _) eqn:Ec; cbn [negb].
    + split; [intros _; split_and!; [by eexists|done|by intros q' [= <-]]|done].
    + split; [done|]. intros (_ & _ & Hq). specialize (Hq q eq_refl). congruence.
  - destruct (PackageDependency.required d); cbn [andb negb].
    + split; [done|]. intros (Hr & _). by destruct (Hr eq_refl).
    + split; [intros _; split_and!; done|done].
Qed.

Lemma conflict_validate_ok p a u : ConflictDetector.validate p a = Ok u ↔ ∀ d, d ∈ dependencies p → resolvable a d.
Proof.
  unfold ConflictDetector.validate. destruct u. pose proof (res_map_unit (ConflictDetector.check a) (dependencies p)) as Hr. unfold dependencies in *.
  destruct (res_map _ _); cbn in *; setoid_rewrite <- (check_ok a _ tt); naive_solver.
Qed.

(** The package and the dependencies that are available. *)
Lemma elem_of_resolved p a q :
  q ∈ DependencyResolver.resolved p a ↔ q = p ∨ ∃ d, d ∈ dependencies p ∧ dget a (PackageDependency.package_id d) = Some q.
Proof. unfold DependencyResolver.resolved. by rewrite elem_of_cons, list_elem_of_omap. Qed.

(** What a resolution asks for: dependencies that fit, no cycle among the package
    and its dependencies, and no dependency with an unsafe permission. *)
Record resolution p a (l : list PackageVersion) : Prop := Resolution {
  rs_fit : ∀ d, d ∈ dependencies p → resolvable a d;
  rs_acyclic : ∀ x, ¬ tc (depends l) x x;
  rs_safe : ∀ d q x, d ∈ dependencies p → dget a (PackageDependency.package_id d) = Some q → x ∈ permissions q →
    x ∉ DependencyResolver.unsafe;
  rs_list : l = DependencyResolver.resolved p a;
}.

Lemma sorted_set_nil (s : gset string) : py_sorted_set s = [] ↔ ∀ x, x ∉ s.
Proof.
  setoid_rewrite <- elem_of_sorted_set. split; [intros ->; apply not_elem_of_nil|]. apply elem_of_nil_inv.
Qed.

Lemma unsafe_nil p a :
  py_sorted_set (DependencyResolver.unsafe_permissions (tail (DependencyResolver.resolved p a))) = [] ↔
  ∀ d q x, d ∈ dependencies p → dget a (PackageDependency.package_id d) = Some q → x ∈ permissions q → x ∉ DependencyResolver.unsafe.
Proof.
  rewrite sorted_set_nil. unfold DependencyResolver.unsafe_permissions, DependencyResolver.resolved. cbn [tail].
  setoid_rewrite elem_of_list_to_set. setoid_rewrite list_elem_of_filter. setoid_rewrite list_elem_of_bind. setoid_rewrite list_elem_of_omap.
  unfold permissions, dependencies. naive_solver.
Qed.

Lemma resolve_ok p a l : DependencyResolver.resolve p a = Ok l ↔ resolution p a l.
Proof.
  unfold DependencyResolver.resolve. pose proof (conflict_validate_ok p a tt) as Hc.
  destruct (detect_cycles_eq (DependencyResolver.resolved p a)) as (cs & -> & _ & Hcs). setoid_rewrite tc_edge_depends in Hcs.
  pose proof (unsafe_nil p a) as Hu.
  destruct (ConflictDetector.validate p a) as [[]|e]; cbn [res_bind].
  2: { split; [done|]. intros [Hf _ _ _]. by apply Hc in Hf. }
  destruct cs as [|c cs].
  2: { split; [done|]. intros [_ Hac _ ->]. by apply Hcs in Hac. }
  destruct (py_sorted_set _) as [|x xs] eqn:Ex.
  - split; [intros [= <-]; split; naive_solver|]. by intros [_ _ _ ->].
  - split; [done|]. intros [_ _ Hs _]. by apply Hu in Hs.
Qed.
End Scans.

(** * Publishing *)

Section Publishing.
Context `{Oracle} {S : Type} `{PersistenceStore S} `{!StoreLaws S}.
Implicit Types (p : PackageVersion) (s : sys S).
Import MarketplaceRegistryService.

(** Why a package is taken for its publisher's, and the fingerprint kept of it. *)
Definition authentic (v : SignatureVerifier.t) (publisher hash signature : string) (key : SigningKey) (fingerprint : string) : Prop :=
  (signature = "" ∧ SignatureVerifier.allow_unsigned_local v = true ∧ fingerprint = "unsigned-local") ∨
  (signature ≠ "" ∧ fingerprint = sha256_hex (SigningKey.publisher_id key +:+ ":" +:+ SigningKey.secret key) ∧
   dget (SignatureVerifier.trusted_publishers v) publisher = Some fingerprint ∧
   signature = sha256_hex (hash +:+ ":" +:+ SigningKey.secret key)).

Lemma verify_ok v publisher hash signature key fingerprint :
  SignatureVerifier.verify publisher hash signature (Some key) v = Ok fingerprint ↔
  authentic v publisher hash signature key fingerprint.
Proof.
  unfold SignatureVerifier.verify, authentic, TrustedPublisherRegistry.fingerprint_for. case_bool_decide as Hs.
  - destruct (SignatureVerifier.allow_unsigned_local v); naive_solver.
  - destruct (dget _ publisher) as [t|]; [|naive_solver]. unfold PackageSignature.sign. cbn.
    fold (SigningKey.fingerprint key). do 2 case_bool_decide; cbn; naive_solver.
Qed.

(** The packages a resolution chooses from. *)
Definition shows (db : S) (a : available) : Prop := ∀ id p, dget a id = Some p ↔ newest db id p.

(** A package was published: checked, signed, scanned, stored and logged. *)
Record published (m : PackageManifest) (md : PackageMetadata) (signature : string) (key : SigningKey) (v : SignatureVerifier.t)
    s p s' : Prop := Published {
  pb_valid : PackageManifest.validate m = Ok tt;
  pb_contents : PackageVersion.manifest p = m ∧ PackageVersion.metadata p = md ∧ PackageVersion.signature p = signature ∧
    PackageVersion.manifest_hash p = PackageManifest.manifest_hash m;
  pb_authentic : authentic v (PackageManifest.publisher_tenant_id m) (PackageManifest.manifest_hash m) signature key
    (PackageVersion.publisher_fingerprint p);
  pb_scanned : PackageMetadata.high_risk_approved md = true ∨
    ∃ a, shows (db s) a ∧ sound_dependencies a p ∧ sound_metadata md ∧ ¬ risky p;
  pb_found : get (PackageVersion.package_id p) (Some (PackageVersion.version p)) s' = (Ok p, s');
  pb_others : ∀ c k, c ≠ "events" → (c, k) ≠ ("marketplace_packages", PackageVersion.key p) →
    st_get c k (db s') = st_get c k (db s);
  pb_events : ∃ e1 e2, events s' = events s ++ [e1; e2] ∧
    event_type e1 = "marketplace.package.published" ∧ event_type e2 = "marketplace.package.signed" ∧
    aggregate_id e1 = PackageVersion.package_id p ∧ aggregate_id e2 = PackageVersion.package_id p;
}.

Lemma valid_version m : PackageManifest.validate m = Ok tt → PackageManifest.version m ≠ "".
Proof. unfold PackageManifest.validate. case_bool_decide as Hin; [done|]. intros _ Hv. apply Hin. rewrite Hv. set_solver. Qed.

Lemma enforce_ok p a r :
  MarketplaceScanner.enforce p a = Ok r →
  PackageMetadata.high_risk_approved (PackageVersion.metadata p) = true ∨
  sound_dependencies a p ∧ sound_metadata (PackageVersion.metadata p) ∧ ¬ risky p.
Proof.
  unfold MarketplaceScanner.enforce. destruct (MarketplaceScanner.ok _) eqn:Eok; [intros _; right; by apply scan_ok in Eok|].
  destruct (PackageMetadata.high_risk_approved _); [by left|done].
Qed.

(** A package that is stored, and the events that follow. *)
Lemma publish_eq m md signature key v s :
  (∀ n, time_ok (clock n)) → PackageMetadata.ok md → typed (A := PackageVersion) (db s) →
  ∃ r s', PublishService.publish m md signature key v s = (r, s') ∧
    match r with
    | Ok p => published m md signature key v s p s'
    | Err _ => db s' = db s ∧ events s' = events s
    end.
Proof.
  intros Hclock Hmd Ht. unfold PublishService.publish. unfold bind at 1, of_res at 1.
  destruct (PackageManifest.validate m) as [[]|e] eqn:Ev; [|by exists (Err e), s]. cbv zeta. unfold bind at 1, of_res at 1.
  destruct (SignatureVerifier.verify _ _ _ _ _) as [fp|e] eqn:Ef; [|by exists (Err e), s]. apply verify_ok in Ef.
  unfold bind at 1, PackageVersion.new, bind at 1, utc_now at 1, bind at 1, utc_now, ret at 1. cbn [tick db events durable].
  set (p := PackageVersion.Mk _ _ _ _ _ _ _). set (s1 := Sys _ _ _ _).
  destruct (available_newest s1 Ht) as (a & Ea & Hn & _). unfold bind at 1. rewrite Ea. unfold bind at 1, of_res at 1.
  destruct (MarketplaceScanner.enforce p a) as [r|e] eqn:Ee; [|by exists (Err e), s1]. apply enforce_ok in Ee.
  assert (Hok : PackageVersion.ok p) by (split_and!; [done|apply Hclock..]).
  unfold bind at 1, save_version, doc_put, store_put, modify at 1. set (s2 := with_db _ s1).
  assert (Ht2 : typed (A := PackageVersion) (db s2)) by exact (typed_put p (db s) Hok Ht).
  unfold bind at 1. edestruct (append_ok "marketplace.package.published") as (e1 & s3 & -> & He1 & Hty1 & Hid1 & _ & Hr1); [by vm_compute|].
  unfold bind at 1. edestruct (append_ok "marketplace.package.signed") as (e2 & s4 & -> & He2 & Hty2 & Hid2 & _ & Hr2); [by vm_compute|].
  unfold ret. exists (Ok p), s4. split; [done|].
  assert (Hr : ∀ c k, c ≠ "events" → st_get c k (db s4) = st_get c k (db s2)) by (intros; rewrite Hr2, Hr1; done).
  assert (Hst : stored p (db s4)). { split; [done|]. rewrite Hr by done. apply get_put_eq. }
  split; [done|done|exact Ef| | | |].
  - destruct Ee as [?|Hscan]; [by left|right]. exists a. split; [exact Hn|exact Hscan].
  - assert (Ht4 : typed (A := PackageVersion) (db s4)) by (apply (typed_reads (db s2)); done).
    apply (proj2 (get_version s4 _ _ p Ht4 (valid_version m Ev))). split; [exact Hst|]. split; reflexivity.
  - intros c k Hc Hk. rewrite Hr by done. unfold s2. cbn. by apply get_put_ne.
  - exists e1, e2. split_and!; [|done..]. rewrite He2, He1. cbn. by rewrite <- app_assoc.
Qed.
End Publishing.

(** * Installing *)

Section Installing.
Context `{Oracle} {S : Type} `{PersistenceStore S} `{!StoreLaws S}.
Implicit Types (p : PackageVersion) (s : sys S).
Import MarketplaceRegistryService InstallService.

(** What a package must be for a tenant to install it. *)
Record admissible (a : available) (tenant_id : string) (approved : bool) p : Prop := Admissible {
  ad_visible : PackageMetadata.private (PackageVersion.metadata p) = true →
    PackageManifest.publisher_tenant_id (PackageVersion.manifest p) = tenant_id;
  ad_approved : risky p → approved = true ∨ PackageMetadata.high_risk_approved (PackageVersion.metadata p) = true;
  ad_dependencies : sound_dependencies a p;
  ad_metadata : sound_metadata (PackageVersion.metadata p);
  ad_resolved : ∃ l, resolution p a l;
}.

Lemma validate_install_eq tenant_id approved p s :
  typed (A := PackageVersion) (db s) →
  ∃ a r, shows (db s) a ∧ _validate_install tenant_id p approved s = (r, s) ∧ (r = Ok tt ↔ admissible a tenant_id approved p).
Proof.
  intros Ht. destruct (available_newest s Ht) as (a & Ea & Hn & _). exists a.
  assert (Hno : ∀ c msg, (∃ Q : Prop, (admissible a tenant_id approved p → Q) ∧ ¬ Q) →
    ∃ r, shows (db s) a ∧ raise c msg s = (r, s) ∧ (r = Ok tt ↔ admissible a tenant_id approved p)).
  { intros c msg (Q & HQ & HnQ). exists (Err (Exn c msg)). split_and!; [exact Hn|done|]. split; [done|]. intros Had. destruct (HnQ (HQ Had)). }
  unfold _validate_install. destruct (PackageMetadata.private _ && _) eqn:Ep.
  { apply Hno. apply andb_true_iff in Ep as [Ep Et]. apply negb_true_iff, bool_decide_eq_false in Et. eexists. split; [intros Had; exact (ad_visible _ _ _ _ Had Ep)|done]. }
  unfold bind at 1. rewrite Ea. cbv zeta.
  assert (Hpol : ∀ q, PolicyScanner.ok (MarketplaceScanner.policy (MarketplaceScanner.scan q a)) = true ↔ sound_metadata (PackageVersion.metadata q)) by apply policy_scan_ok.
  assert (Hdep : ∀ q, DependencyScanner.ok (MarketplaceScanner.dependency (MarketplaceScanner.scan q a)) = true ↔ sound_dependencies a q) by (intros; apply dependency_scan_ok).
  assert (Hper : ∀ q, PermissionScanner.requires_approval (MarketplaceScanner.permission (MarketplaceScanner.scan q a)) = true ↔ risky q) by apply requires_approval_risky.
  destruct (PermissionScanner.requires_approval _ && _) eqn:Er.
  { apply Hno. apply andb_true_iff in Er as [Er Eh]. apply Hper in Er. apply negb_true_iff, orb_false_iff in Eh as [E1 E2].
    eexists. split; [intros Had; exact (ad_approved _ _ _ _ Had Er)|]. rewrite E1, E2. by intros [|]. }
  destruct (DependencyScanner.ok _) eqn:Ed; cbn [negb orb]; [|apply Hno; eexists; split; [apply ad_dependencies|rewrite <- Hdep; by rewrite Ed]].
  destruct (PolicyScanner.ok _) eqn:El; cbn [negb]; [|apply Hno; eexists; split; [apply ad_metadata|rewrite <- Hpol; by rewrite El]].
  apply Hdep in Ed. apply Hpol in El. unfold bind at 1. rewrite Ea. unfold bind, of_res, ret.
  destruct (DependencyResolver.resolve p a) as [l|ex] eqn:Eres.
  - apply resolve_ok in Eres. exists (Ok tt). split_and!; [exact Hn|done|]. split; [intros _|done]. split; [| |done|done|by exists l].
    + intros Hp. rewrite Hp in Ep. cbn in Ep. apply negb_false_iff, bool_decide_eq_true in Ep. done.
    + intros Hr%Hper. rewrite Hr in Er. cbn in Er. by apply negb_false_iff, orb_true_iff in Er.
  - exists (Err ex). split_and!; [exact Hn|done|]. split; [done|]. intros [_ _ _ _ [l Hl]]. apply resolve_ok in Hl. congruence.
Qed.

(** What an install leaves: an entitlement without an end, the install, and two
    events. *)
Record granted (tenant_id : string) p s (d : doc) s' : Prop := Granted {
  gr_entitled : ∃ e : Entitlement, stored e (db s') ∧ Entitlement.tenant_id e = tenant_id ∧
    Entitlement.package_id e = PackageVersion.package_id p ∧ Entitlement.version e = PackageVersion.version p ∧
    Entitlement.license_type e = PackageManifest.license_type (PackageVersion.manifest p) ∧
    Entitlement.active e = true ∧ Entitlement.expires_at e = None ∧
    ∀ k, k ≠ Entitlement.entitlement_id e → st_get "marketplace_entitlements" k (db s') = st_get "marketplace_entitlements" k (db s);
  gr_install : ∃ id, st_get "marketplace_installs" id (db s') = Some d ∧
    dget d "install_id" = Some (VStr id) ∧ dget d "tenant_id" = Some (VStr tenant_id) ∧
    dget d "package_id" = Some (VStr (PackageVersion.package_id p)) ∧
    dget d "version" = Some (VStr (PackageVersion.version p)) ∧ dget d "active" = Some (VBool true);
  gr_others : ∀ c k, c ∉ ["events"; "marketplace_entitlements"; "marketplace_installs"] →
    st_get c k (db s') = st_get c k (db s);
  gr_events : ∃ e1 e2, events s' = events s ++ [e1; e2] ∧
    event_type e1 = "marketplace.entitlement.granted" ∧ event_type e2 = "marketplace.package.installed" ∧
    aggregate_id e1 = PackageVersion.package_id p ∧ aggregate_id e2 = PackageVersion.package_id p;
}.

Lemma install_eq tenant_id id version approved s :
  (∀ n, time_ok (clock n)) → typed (A := PackageVersion) (db s) →
  ∃ a r s', shows (db s) a ∧ install tenant_id id version approved s = (r, s') ∧
    match r with
    | Ok d => ∃ p, get id version s = (Ok p, s) ∧ admissible a tenant_id approved p ∧ granted tenant_id p s d s'
    | Err _ => s' = s ∧ ∀ p, get id version s = (Ok p, s) → ¬ admissible a tenant_id approved p
    end.
Proof.
  intros Hclock Ht. unfold install. destruct (packages_eq s Ht) as (l & _ & _ & _ & Hg).
  destruct (choose version (base.filter (fun p => PackageVersion.package_id p = id) l)) as [p|e] eqn:Ec.
  2: { destruct (available_newest s Ht) as (a & _ & Hn & _). exists a, (Err e), s. unfold bind at 1. rewrite Hg, Ec. split_and!; [done..|]. naive_solver. }
  destruct (validate_install_eq tenant_id approved p s Ht) as (a & r & Hn & Ev & Hr). exists a. unfold bind at 1. rewrite Hg, Ec.
  unfold bind at 1. rewrite Ev. destruct r as [[]|ex].
  2: { exists (Err ex), s. split_and!; [done..|]. intros q [= <-] Had. by apply Hr in Had. }
  unfold bind at 1, Entitlement.new, bind at 1, uuid4 at 1, bind at 1, utc_now at 1, ret at 1. cbn [tick db events durable].
  set (en := Entitlement.Mk _ _ _ _ _ _ _ _).
  unfold bind at 1, new_install, bind at 1, uuid4 at 1, bind at 1, utc_now at 1, ret at 1. cbn [tick db events durable].
  set (k := "inst-" +:+ _). set (d := [_; _; _; _; _; _; _]).
  unfold doc_put, store_put. unfold bind at 1, modify at 1. unfold bind at 1, modify at 1. set (s2 := with_db _ _). cbn [fst snd].
  unfold bind at 1. edestruct (append_ok "marketplace.entitlement.granted") as (e1 & s3 & -> & He1 & Hty1 & Hid1 & _ & Hr1); [by vm_compute|].
  unfold bind at 1. edestruct (append_ok "marketplace.package.installed") as (e2 & s4 & -> & He2 & Hty2 & Hid2 & _ & Hr2); [by vm_compute|].
  unfold ret. exists (Ok d), s4. split; [done|]. split; [done|]. exists p. split; [done|]. split; [by apply Hr|].
  assert (Hdb : ∀ c k, c ≠ "events" → st_get c k (db s4) = st_get c k (db s2)) by (intros; rewrite Hr2, Hr1; done).
  assert (Hen : ∀ k, st_get "marketplace_entitlements" k (db s4) =
    st_get "marketplace_entitlements" k (st_put "marketplace_entitlements" (Entitlement.entitlement_id en) (Entitlement.as_dict en) (db s))).
  { intros k'. rewrite Hdb by done. unfold s2, with_db. cbn [db]. by rewrite get_put_ne by congruence. }
  split.
  - exists en. split; [|split_and!; [done..|]].
    + split; [split; [done|apply Hclock]|]. cbn [d_coll d_key d_enc entitlement_document]. rewrite Hen. apply get_put_eq.
    + intros k' Hk. rewrite Hen. by apply get_put_ne; congruence.
  - exists k. split; [|by split_and!]. rewrite Hdb by done. unfold s2, with_db. cbn [db]. apply get_put_eq.
  - intros c k' Hc. rewrite Hdb by set_solver. unfold s2, with_db. cbn [db]. cbn [d_coll d_key d_enc entitlement_document].
    rewrite !get_put_ne; [done|set_solver..].
  - exists e1, e2. split_and!; [|done..]. rewrite He2, He1. cbn. by rewrite <- app_assoc.
Qed.
End Installing.

(** * Entitlements *)

Section Entitlements.
Context `{Oracle} {S : Type} `{PersistenceStore S} `{!StoreLaws S}.
Implicit Types (e : Entitlement) (s : sys S).
Import InstallService.

(** An active entitlement of the tenant to the package is stored. *)
Definition entitles (db : S) (tenant_id package_id : string) e : Prop :=
  stored e db ∧ Entitlement.tenant_id e = tenant_id ∧ Entitlement.package_id e = package_id ∧ Entitlement.active e = true.

(** It has not ended. *)
Definition lasting (now : Z) e : Prop := match Entitlement.expires_at e with Some t => now < t | None => True end.

#[export] Instance lasting_dec now e : Decision (lasting now e).
Proof. unfold lasting. destruct (Entitlement.expires_at e); apply _. Defined.

Lemma first_active_entitlement id (l : list Entitlement) :
  first_active id (d_enc (S := S) <$> l) =
  Ok (d_enc (S := S) <$> head (base.filter (fun e => Entitlement.package_id e = id ∧ Entitlement.active e = true) l)).
Proof.
  induction l as [|e l IH]; [done|]. cbn [fmap list_fmap first_active]. rewrite filter_cons.
  assert (dindex (d_enc (S := S) e) "package_id" = Ok (VStr (Entitlement.package_id e))) as -> by done.
  assert (bool_field_or (d_enc (S := S) e) "active" true = Entitlement.active e) as -> by done. cbn [res_bind is_str].
  case_bool_decide as Hid; cbn [andb]; [|by rewrite decide_False by naive_solver].
  destruct (Entitlement.active e); [by rewrite decide_True|by rewrite decide_False by naive_solver].
Qed.

(** The check of a running package looks at one active entitlement, the first. *)
Lemma verify_entitlement_eq tenant_id package_id s :
  typed (A := Entitlement) (db s) →
  (∃ e s', entitles (db s) tenant_id package_id e ∧ db s' = db s ∧ events s' = events s ∧
     verify_runtime_entitlement tenant_id package_id s =
     (if decide (lasting (clock (tick s)) e) then Ok tt else Err (Exn AuthorizationError "package entitlement has expired"), s')) ∨
  ((∀ e, ¬ entitles (db s) tenant_id package_id e) ∧
   verify_runtime_entitlement tenant_id package_id s = (Err (Exn AuthorizationError "package entitlement is required"), s)).
Proof.
  intros Ht. destruct (doc_list_tenant_eq tenant_id s Ht) as (l & _ & El & Hl).
  pose proof (elem_of_doc_list_tenant tenant_id s l Ht El Hl) as Hin.
  set (fl := base.filter (fun e => Entitlement.package_id e = package_id ∧ Entitlement.active e = true) l).
  assert (Hfl : ∀ e, e ∈ fl ↔ entitles (db s) tenant_id package_id e).
  { intros e. unfold fl, entitles. rewrite list_elem_of_filter, Hin.
    assert (is_str (dget (d_enc (S := S) e) "tenant_id") tenant_id = bool_decide (Entitlement.tenant_id e = tenant_id)) as -> by done.
    rewrite bool_decide_eq_true. tauto. }
  assert (Ev : verify_runtime_entitlement tenant_id package_id s = LicenseChecker.verify (head fl) s).
  { unfold verify_runtime_entitlement, store_list_tenant, bind, gets, of_res. cbn [d_coll entitlement_document] in El. rewrite <- El.
    rewrite first_active_entitlement. fold fl. destruct fl as [|e fl']; [done|]. cbn [head fmap option_fmap option_map].
    assert (He : Entitlement.ok e) by (destruct (proj1 (Hfl e) ltac:(by left)) as ((? & _) & _); done).
    pose proof (Entitlement.entitlement_from_as_dict e s He) as Hd. unfold of_res in Hd. injection Hd as Hd.
    cbn [d_enc entitlement_document]. by rewrite Hd. }
  rewrite Ev. destruct fl as [|e fl']; cbn [head].
  - right. split; [|done]. intros e He. by apply Hfl, elem_of_nil in He.
  - left. assert (He : entitles (db s) tenant_id package_id e) by (apply Hfl; by left). exists e.
    pose proof He as (_ & _ & _ & Hact). unfold LicenseChecker.verify. rewrite Hact. cbn [negb].
    destruct (decide (lasting _ e)) as [Hla|Hla]; unfold lasting in Hla.
    all: destruct (Entitlement.expires_at e) as [t|]; [|try done; by exists s].
    all: unfold bind, utc_now; destruct (Z.leb_spec t (clock (tick s))) as [Hle|Hlt]; [try lia|try lia].
    all: eexists; (split; [done|]); split; [|split; [|reflexivity]]; done.
Qed.
End Entitlements.

(** * After an install *)

Section AfterInstall.
Context `{Oracle} {S : Type} `{PersistenceStore S} `{!StoreLaws S}.
Implicit Types (e : Entitlement) (s : sys S).
Import MarketplaceRegistryService InstallService.

Lemma get_id s id version p :
  typed (A := PackageVersion) (db s) → get id version s = (Ok p, s) → stored p (db s) ∧ PackageVersion.package_id p = id.
Proof.
  intros Ht. destruct (packages_eq s Ht) as (l & _ & Hl & _ & Hg). rewrite Hg. intros E. apply (f_equal fst) in E. cbn [fst] in E.
  assert (Hp : p ∈ base.filter (fun p => PackageVersion.package_id p = id) l); [|apply list_elem_of_filter in Hp as [? ?%Hl]; done].
  unfold choose in E. destruct (base.filter _ l) as [|q0 vs] eqn:Evs; [done|]. rewrite <- Evs in *.
  assert (Hlat : VersionResolver.latest (base.filter (fun p => PackageVersion.package_id p = id) l) = Ok p →
    p ∈ base.filter (fun p => PackageVersion.package_id p = id) l).
  { destruct (latest_greatest (base.filter (fun p => PackageVersion.package_id p = id) l)) as (q & -> & Hq & _); [by rewrite Evs|]. by intros [= <-]. }
  destruct version as [[|c v]|]; [by apply Hlat| |by apply Hlat].
  destruct (list_find _ _) as [[i q]|] eqn:Ef; [|done]. injection E as ->. apply list_find_Some in Ef as (Hi & _). by eapply list_elem_of_lookup_2.
Qed.

(** A call that leaves what [x] says, but for the events and the installs. *)
Definition keeps (x : string → string → option doc) s : Prop :=
  ∀ c k, c ≠ "events" → c ≠ "marketplace_installs" → st_get c k (db s) = x c k.

Lemma keeps_append x ty id body : preserves (keeps x) (EventStore.append ty id body).
Proof.
  intros s Hs. unfold after. rewrite EventStore.append_eq. case_bool_decide; [|done].
  intros c k He Hi. cbn [snd db]. destruct (durable s); [rewrite get_put_ne by congruence|]; by apply Hs.
Qed.

Lemma keeps_active_install x tenant_id package_id : preserves (keeps x) (_active_install tenant_id package_id).
Proof.
  apply preserves_bind; [by intros s|]. intros l. apply preserves_bind; [apply preserves_of_res|]. intros [d|]; [apply preserves_ret|apply preserves_raise].
Qed.

Lemma keeps_put_install x d : preserves (keeps x) (put_install d).
Proof.
  apply preserves_bind; [apply preserves_of_res|]. intros k. apply preserves_modify. intros s Hs c k' He Hi.
  unfold with_db. cbn [db]. rewrite get_put_ne by congruence. by apply Hs.
Qed.

Lemma keeps_uninstall x tenant_id package_id : preserves (keeps x) (uninstall tenant_id package_id).
Proof.
  apply preserves_bind; [apply keeps_active_install|]. intros d. apply preserves_bind; [apply keeps_put_install|]. intros u.
  apply preserves_bind; [apply keeps_append|]. intros e. apply preserves_ret.
Qed.

(** No entitlement of the store ends, as none that [install] makes does. *)
Definition unending (db : S) : Prop := ∀ e, stored e db → Entitlement.expires_at e = None.

Lemma unending_verify tenant_id package_id s e :
  typed (A := Entitlement) (db s) → unending (db s) → entitles (db s) tenant_id package_id e →
  (verify_runtime_entitlement tenant_id package_id s).1 = Ok tt.
Proof.
  intros Ht Hu He. destruct (verify_entitlement_eq tenant_id package_id s Ht) as [(e' & s' & He' & _ & _ & ->)|[Hno _]]; [|by apply Hno in He].
  cbn [fst]. rewrite decide_True; [done|]. unfold lasting. by rewrite (Hu e' (proj1 He')).
Qed.

Lemma granted_entitlements tenant_id p s d s' :
  typed (A := Entitlement) (db s) → unending (db s) → granted tenant_id p s d s' →
  typed (A := Entitlement) (db s') ∧ unending (db s') ∧ ∃ e, entitles (db s') tenant_id (PackageVersion.package_id p) e.
Proof.
  intros Ht Hu [(e & [Hok Hg] & Hten & Hpkg & _ & _ & Hact & Hexp & Hoth) _ _ _].
  cbn [d_coll d_key d_enc entitlement_document] in Hg. split_and!.
  - intros k d' Hk. cbn [d_coll entitlement_document] in Hk. destruct (decide (k = Entitlement.entitlement_id e)) as [->|Hne].
    + rewrite Hg in Hk. injection Hk as <-. by exists e.
    + rewrite Hoth in Hk by done. by apply Ht.
  - intros e' [Hok' Hg']. cbn [d_coll d_key d_enc entitlement_document] in Hg'.
    destruct (decide (Entitlement.entitlement_id e' = Entitlement.entitlement_id e)) as [Heq|Hne].
    + rewrite Heq, Hg in Hg'. by rewrite (d_enc_inj e' e s' Hok' Hok ltac:(cbn [d_enc entitlement_document]; congruence)).
    + rewrite Hoth in Hg' by done. apply Hu. by split.
  - exists e. by split_and!.
Qed.
End AfterInstall.

(** * Properties *)

Section MarketplaceProperties.
Context `{Oracle} {S : Type} `{PersistenceStore S} `{!StoreLaws S}.
Implicit Types (p : PackageVersion) (s : sys S).
Import MarketplaceRegistryService InstallService.

(** C26: the search for circular dependencies ends, what it reports are cycles, and
    it reports one exactly when there is one. Packages are linked to what they
    depend on; a cycle is reported as the way around it, and its first node once
    more. *)
Theorem dependency_cycles_exact (l : list PackageVersion) :
  ∃ cycles, DependencyGraph.detect_cycles (DependencyGraph.init l) = Some cycles ∧
    Forall (reported (depends l)) cycles ∧ (cycles = [] ↔ ∀ x, ¬ tc (depends l) x x).
Proof.
  destruct (detect_cycles_eq l) as (cycles & E & Hr & Hc). exists cycles. split; [exact E|]. split.
  - eapply Forall_impl; [exact Hr|]. intros c. apply reported_impl. intros x y. apply edge_depends.
  - rewrite Hc. by setoid_rewrite tc_edge_depends.
Qed.

(** The resolver accepts a package exactly when its dependencies fit (there if
    they must be, not deprecated, of a version their constraint allows), no cycle
    runs through it and them, and none asks for an unsafe permission; it returns
    the package and the dependencies that are available. *)
Theorem resolver_exact p (a : available) (l : list PackageVersion) :
  DependencyResolver.resolve p a = Ok l ↔
  (∀ d, d ∈ dependencies p → resolvable a d) ∧
  (∀ x, ¬ tc (depends (DependencyResolver.resolved p a)) x x) ∧
  (∀ d q x, d ∈ dependencies p → dget a (PackageDependency.package_id d) = Some q → x ∈ permissions q →
     x ∉ DependencyResolver.unsafe) ∧
  l = DependencyResolver.resolved p a.
Proof.
  rewrite resolve_ok. split.
  - intros [Hf Hc Hs ->]. by split_and!.
  - intros (Hf & Hc & Hs & ->). by split.
Qed.

(** The two ways the registry chooses a version agree. The table of available
    packages holds for each id the stored version that is greatest in the order
    of texts; [get] without a version returns it, or says that there is none, and
    with a version it returns the package stored under that id and version. *)
Theorem registry_newest_exact s :
  typed (A := PackageVersion) (db s) →
  ∃ a, available_by_id s = (Ok a, s) ∧ (∀ id p, dget a id = Some p ↔ newest (db s) id p) ∧
    (∀ id, get id None s = (match dget a id with Some p => Ok p | None => Err (Exn NotFoundError "package not found") end, s)) ∧
    (∀ id v p, v ≠ "" → get id (Some v) s = (Ok p, s) ↔
       stored p (db s) ∧ PackageVersion.package_id p = id ∧ PackageVersion.version p = v).
Proof.
  intros Ht. destruct (available_newest s Ht) as (a & Ea & Hn & Hg). exists a. split_and!; [done..|].
  intros id v p. by apply get_version.
Qed.

(** C15: publishing is guarded and complete. A package that is published has a valid
    manifest, is signed with the key whose fingerprint is trusted for its
    publisher (or unsigned where that is allowed), and passed the scan or says of
    itself that it is approved; it is found by its id and version afterwards, no
    other document changes, and two events are logged. A refusal changes nothing. *)
Theorem publish_guarded m md signature key v s :
  (∀ n, time_ok (clock n)) → PackageMetadata.ok md → typed (A := PackageVersion) (db s) →
  ∃ r s', PublishService.publish m md signature key v s = (r, s') ∧
    match r with
    | Ok p => published m md signature key v s p s'
    | Err _ => db s' = db s ∧ events s' = events s
    end.
Proof. intros Hclock Hmd Ht. by apply publish_eq. Qed.

(** C16: an install succeeds exactly when the package is there and admissible:
    visible to the tenant, approved if it is a risk, with sound dependencies and
    metadata, and resolvable. It leaves an entitlement without an end, an active
    install and two events; a refusal leaves everything as it was. *)
Theorem install_guarded tenant_id id version approved s :
  (∀ n, time_ok (clock n)) → typed (A := PackageVersion) (db s) →
  ∃ a r s', shows (db s) a ∧ install tenant_id id version approved s = (r, s') ∧
    match r with
    | Ok d => ∃ p, get id version s = (Ok p, s) ∧ admissible a tenant_id approved p ∧ granted tenant_id p s d s'
    | Err _ => s' = s ∧ ∀ p, get id version s = (Ok p, s) → ¬ admissible a tenant_id approved p
    end.
Proof. intros Hclock Ht. by apply install_eq. Qed.

(** Who installed a package may run it, also after uninstalling it: while no
    entitlement of the store has an end, the check of a running package passes
    after an install, and after the uninstall that follows. *)
Theorem install_entitles tenant_id id version approved s d s' :
  (∀ n, time_ok (clock n)) → typed (A := PackageVersion) (db s) → typed (A := Entitlement) (db s) → unending (db s) →
  install tenant_id id version approved s = (Ok d, s') →
  (verify_runtime_entitlement tenant_id id s').1 = Ok tt ∧
  (verify_runtime_entitlement tenant_id id (after (uninstall tenant_id id) s')).1 = Ok tt.
Proof.
  intros Hclock Htp Hte Hu Hi. destruct (install_eq tenant_id id version approved s Hclock Htp) as (a & r & s0 & _ & E & Hr).
  rewrite Hi in E. injection E as <- <-. destruct Hr as (p & Hg & _ & Hgr).
  apply (get_id _ _ _ _ Htp) in Hg as [_ Hid].
  destruct (granted_entitlements _ _ _ _ _ Hte Hu Hgr) as (Ht' & Hu' & e & He). rewrite Hid in He.
  split; [by eapply unending_verify|].
  pose proof (keeps_uninstall (fun c k => st_get c k (db s')) tenant_id id s' ltac:(done)) as Hk.
  set (s2 := after _ s') in *.
  assert (Hs : ∀ b : Entitlement, stored b (db s2) ↔ stored b (db s')) by (intros b; unfold stored; by rewrite Hk).
  eapply unending_verify.
  - intros k d' Hd. rewrite Hk in Hd by done. by apply Ht'.
  - intros b Hb%Hs. by apply Hu'.
  - destruct He as (He & Hrest). split; [by apply Hs|exact Hrest].
Qed.
End MarketplaceProperties.

(** * What the code does not do *)

(** Whoever makes the request signs for himself: a request without a signature
    passes the check of signatures, with any secret. *)
Lemma request_signs_itself `{Oracle} tenant_id secret m (v : SignatureVerifier.t) :
  (∀ text, sha256_hex text ≠ "") → PackageManifest.publisher_tenant_id m = tenant_id →
  let key := SigningKey.Mk tenant_id secret in
  let verifier := SignatureVerifier.Mk
    (TrustedPublisherRegistry.trust tenant_id (SigningKey.fingerprint key) (SignatureVerifier.trusted_publishers v))
    (SignatureVerifier.allow_unsigned_local v) in
  let signature := str_or "" (PackageSignature.signature (PackageSignature.sign (PackageManifest.manifest_hash m) key)) in
  SignatureVerifier.verify (PackageManifest.publisher_tenant_id m) (PackageManifest.manifest_hash m) signature (Some key) verifier =
  Ok (SigningKey.fingerprint key).
Proof.
  intros Hsha ->. cbv zeta. unfold str_or. rewrite bool_decide_eq_true_2 by done. apply verify_ok. right. cbn.
  split_and!; [apply Hsha|done|apply dget_dset_eq|done].
Qed.

(** ** Examples and witnesses *)

Section Demo.
#[local] Existing Instance demo_oracle.
Import MarketplaceRegistryService InstallService.

Definition demo_manifest (id version publisher : string) (tools : list string) (deps : list PackageDependency) : PackageManifest :=
  PackageManifest.Mk id id version publisher "agent-1" [] tools [] [] deps "free" "free".

Definition demo_metadata : PackageMetadata := PackageMetadata.Mk "" [] false false false false false "" "general" None [] (Some (lit 9 1)) [].

Definition demo_package (id version : string) (tools : list string) (deps : list string) : PackageVersion :=
  PackageVersion.Mk (demo_manifest id version "t-1" tools ((fun d => PackageDependency.Mk d "*" true false) <$> deps)) "hash" "sig" "fp"
    demo_metadata 0 0.

Definition demo_store (l : list PackageVersion) : Memory.store :=
  foldr (fun p db => st_put "marketplace_packages" (PackageVersion.key p) (PackageVersion.as_dict p) db) ∅ l.

Definition demo_market (l : list PackageVersion) : sys Memory.store := Sys (demo_store l) [] true 0.

(** A package depends on itself through two others, and resolves. *)
Lemma long_cycle_resolves :
  is_ok (install "t-1" "a" None false (demo_market [demo_package "a" "1" [] ["b"]; demo_package "b" "1" [] ["c"]; demo_package "c" "1" [] ["a"]])).1 = true ∧
  is_ok (install "t-1" "a" None false (demo_market [demo_package "a" "1" [] ["b"]; demo_package "b" "1" [] ["a"]])).1 = false.
Proof. split; vm_compute; reflexivity. Qed.

(** The newest version is the last in the order of texts. *)
Lemma newest_is_text_order :
  match (get "a" None (demo_market [demo_package "a" "1.9.0" [] []; demo_package "a" "1.10.0" [] []])).1 with
  | Ok p => PackageVersion.version p | Err _ => "" end = "1.9.0".
Proof. vm_compute. reflexivity. Qed.

(** An upgrade takes a package that is a risk without an approval. *)
Lemma upgrade_needs_no_approval :
  let s := after (install "t-2" "a" (Some "1") false) (demo_market [demo_package "a" "1" [] []; demo_package "a" "2" ["gmail.send"] []]) in
  is_ok (install "t-2" "a" (Some "2") false s).1 = false ∧ is_ok (upgrade "t-2" "a" None s).1 = true.
Proof. split; vm_compute; reflexivity. Qed.

(** Another publisher who is trusted replaces a version. *)
Definition demo_verifier : SignatureVerifier.t :=
  SignatureVerifier.Mk [("t-1", SigningKey.fingerprint (SigningKey.Mk "t-1" "k1")); ("t-2", SigningKey.fingerprint (SigningKey.Mk "t-2" "k2"))] false.

Definition demo_publish (publisher secret : string) (s : sys Memory.store) : res PackageVersion * sys Memory.store :=
  let m := demo_manifest "a" "1" publisher [] [] in
  let key := SigningKey.Mk publisher secret in
  PublishService.publish m demo_metadata (PackageSignature.signature (PackageSignature.sign (PackageManifest.manifest_hash m) key)) key demo_verifier s.

Lemma package_replaced_by_another :
  match (get "a" (Some "1") (demo_publish "t-2" "k2" (demo_publish "t-1" "k1" (demo_market [])).2).2).1 with
  | Ok p => PackageManifest.publisher_tenant_id (PackageVersion.manifest p) | Err _ => "" end = "t-2".
Proof. vm_compute. reflexivity. Qed.

Lemma demo_typed l : Forall PackageVersion.ok l → typed (A := PackageVersion) (db (demo_market l)).
Proof.
  induction 1 as [|p l Hp _ IH]; [apply typed_empty|]. exact (typed_put p (demo_store l) Hp IH).
Qed.

Lemma demo_entitlements l : typed (A := Entitlement) (db (demo_market l)) ∧ unending (db (demo_market l)).
Proof.
  assert (Hn : ∀ k, st_get "marketplace_entitlements" k (demo_store l) = None).
  { intros k. induction l as [|p l IH]; [reflexivity|]. cbn [demo_store foldr]. by rewrite get_put_ne by congruence. }
  split; [intros k d Hd|intros e [_ Hd]]; cbn [d_coll entitlement_document db demo_market] in Hd; by rewrite Hn in Hd.
Qed.

Definition demo_list : list PackageVersion := [demo_package "a" "1" [] ["b"]; demo_package "a" "2" ["gmail.send"] []; demo_package "b" "1" [] []].

Lemma demo_list_ok : Forall PackageVersion.ok demo_list.
Proof. repeat constructor; vm_compute; first [reflexivity|discriminate|done]. Qed.

Lemma registry_newest_exact_witness :
  ∃ a, available_by_id (demo_market demo_list) = (Ok a, demo_market demo_list) ∧ ∃ p, dget a "a" = Some p ∧ newest (db (demo_market demo_list)) "a" p.
Proof.
  destruct (registry_newest_exact (demo_market demo_list) (demo_typed demo_list demo_list_ok)) as (a & E & Hn & Hg & _).
  exists a. split; [exact E|]. specialize (Hg "a"). destruct (dget a "a") as [p|] eqn:Ea.
  - exists p. split; [reflexivity|]. apply Hn. exact Ea.
  - exfalso. apply (f_equal (fun x => is_ok x.1)) in Hg. vm_compute in Hg. discriminate Hg.
Defined.

Lemma demo_metadata_ok : PackageMetadata.ok demo_metadata.
Proof. split; vm_compute; [discriminate|reflexivity]. Qed.

Lemma publish_guarded_witness :
  ∃ p s' signature, demo_publish "t-1" "k1" (demo_market demo_list) = (Ok p, s') ∧
    published (demo_manifest "a" "1" "t-1" [] []) demo_metadata signature (SigningKey.Mk "t-1" "k1") demo_verifier (demo_market demo_list) p s'.
Proof.
  destruct (publish_guarded (demo_manifest "a" "1" "t-1" [] []) demo_metadata
    (PackageSignature.signature (PackageSignature.sign (PackageManifest.manifest_hash (demo_manifest "a" "1" "t-1" [] [])) (SigningKey.Mk "t-1" "k1")))
    (SigningKey.Mk "t-1" "k1") demo_verifier (demo_market demo_list) demo_clock demo_metadata_ok (demo_typed demo_list demo_list_ok)) as (r & s' & E & Hr).
  destruct r as [p|e].
  - exists p, s'. eexists. split; [exact E|exact Hr].
  - exfalso. apply (f_equal (fun x => is_ok x.1)) in E. vm_compute in E. discriminate E.
Defined.

Lemma install_guarded_witness :
  ∃ a p d s', install "t-2" "a" (Some "1") false (demo_market demo_list) = (Ok d, s') ∧ admissible a "t-2" false p ∧
    granted "t-2" p (demo_market demo_list) d s'.
Proof.
  destruct (install_guarded "t-2" "a" (Some "1") false (demo_market demo_list) demo_clock (demo_typed demo_list demo_list_ok))
    as (a & r & s' & _ & E & Hr). destruct r as [d|e].
  - destruct Hr as (p & _ & Ha & Hg). exists a, p, d, s'. split; [exact E|]. split; [exact Ha|exact Hg].
  - exfalso. apply (f_equal (fun x => is_ok x.1)) in E. vm_compute in E. discriminate E.
Defined.

Lemma install_entitles_witness :
  ∃ s', (verify_runtime_entitlement "t-2" "a" s').1 = Ok tt ∧ (verify_runtime_entitlement "t-2" "a" (after (uninstall "t-2" "a") s')).1 = Ok tt.
Proof.
  destruct (install "t-2" "a" (Some "1") false (demo_market demo_list)) as [[d|e] s'] eqn:E.
  - exists s'. apply (install_entitles "t-2" "a" (Some "1") false (demo_market demo_list) d s').
    + exact demo_clock.
    + exact (demo_typed demo_list demo_list_ok).
    + apply demo_entitlements.
    + apply demo_entitlements.
    + exact E.
  - exfalso. apply (f_equal (fun x => is_ok x.1)) in E. vm_compute in E. discriminate E.
Defined.
End Demo.
