(* ===== verification/Hosted.v ===== *)
(** The hosted services (agentfabric/phase2): the registry of packages with the
    checks of an upload, metering and invoices, reviews and API keys. *)

From stdpp Require Import base option list strings gmap sets.
From Stdlib Require Import ZArith Lia SpecFloat.
From S2P Require Import Prelude PyVal Floats Store EventStore.

Local Open Scope Z_scope.

(** * models.py *)

Module AgentPackage.
Record t := Mk {
  package_id : string;
  version : string;
  developer_id : string;
  namespace : string;
  category : string;
  permissions : list string;
  manifest : doc;
  payload_digest : string;
  signature : string;
  created_at : Z;
}.

Definition fqid (p : t) : string := namespace p +:+ "/" +:+ package_id p +:+ ":" +:+ version p.
End AgentPackage.

Abbreviation AgentPackage := AgentPackage.t.

(** [payload] holds bytes. *)
Module PackageUpload.
Record t := Mk {
  package_id : string;
  version : string;
  namespace : string;
  category : string;
  permissions : list string;
  manifest : doc;
  payload : list Byte.byte;
  signature : string;
}.
End PackageUpload.

Abbreviation PackageUpload := PackageUpload.t.

Module InstallRecord.
Record t := Mk { tenant_id : string; user_id : string; package_fqid : string; installed_at : Z }.
End InstallRecord.

Module Rating.
Record t := Mk {
  tenant_id : string;
  package_fqid : string;
  user_id : string;
  stars : Z;
  review : string;
  created_at : Z;
}.
End Rating.

Abbreviation Rating := Rating.t.

Module MeterEvent.
Record t := Mk {
  event_type : string;
  tenant_id : string;
  actor_id : string;
  package_fqid : string;
  idempotency_key : string;
  created_at : Z;
}.
End MeterEvent.

Abbreviation MeterEvent := MeterEvent.t.

(** * pipeline.py *)

Module ManifestValidator.

Definition REQUIRED_FIELDS : list string := ["manifest_version"; "name"; "description"; "entrypoint"; "permissions"].

Definition validate (manifest : doc) : res unit :=
  match py_sorted_set (list_to_set REQUIRED_FIELDS ∖ list_to_set manifest.*1) with
  | [] =>
      if is_str (dget manifest "manifest_version") "v1" then Ok tt
      else Err (Exn ValidationError "only manifest_version=v1 is supported")
  | missing => Err (Exn ValidationError ("manifest missing fields: " +:+ join ", " missing))
  end.

End ManifestValidator.

Section Pipeline.
Context `{Oracle}.

(** SHA-256 of bytes, in hex. *)
Context (compute_payload_digest : list Byte.byte → string).

(** [SignatureVerifier.verify_upload], on the dict of signing secrets. *)
Definition verify_upload (developer_id : string) (upload : PackageUpload) (secrets : dict string) : res string :=
  match dget secrets developer_id with
  | None => Err (Exn ValidationError "developer has no registered signing secret")
  | Some secret =>
      let digest := compute_payload_digest (PackageUpload.payload upload) in
      let expected_signature := sha256_hex (developer_id +:+ ":" +:+ digest +:+ ":" +:+ secret) in
      if negb (bool_decide (PackageUpload.signature upload = expected_signature))
      then Err (Exn ValidationError "signature verification failed")
      else Ok digest
  end.

End Pipeline.

(** * registry.py *)

Module RegistryService.

(** [_packages], [_latest_by_package], which lists its values in the order in
    which packages were first published, [_installs] with [_installs_by_tenant],
    the secrets of [_verifier], and the count of the questions put to the clock. *)
Record t := Mk {
  _packages : gmap (string * string * string) AgentPackage;
  _latest_by_package : list ((string * string) * AgentPackage);
  _installs : list InstallRecord.t;
  _installs_by_tenant : dict (list InstallRecord.t);
  _developer_signing_secrets : dict string;
  tick : nat;
}.

Section Registry.
Context `{Oracle}.
Context (compute_payload_digest : list Byte.byte → string).

Definition init (tick : nat) : t := Mk ∅ [] [] [] [] tick.

Definition utc_now : M t Z := fun s =>
  (Ok (clock (tick s)),
   Mk (_packages s) (_latest_by_package s) (_installs s) (_installs_by_tenant s) (_developer_signing_secrets s) (S (tick s))).

Definition register_developer_signing_secret (developer_id secret : string) : M t unit :=
  modify (fun s => Mk (_packages s) (_latest_by_package s) (_installs s) (_installs_by_tenant s)
                     (dset (_developer_signing_secrets s) developer_id secret) (tick s)).

(** [self._latest_by_package.get(key)] *)
Fixpoint latest_get (key : string * string) (l : list ((string * string) * AgentPackage)) : option AgentPackage :=
  match l with
  | [] => None
  | (k, p) :: l' => if bool_decide (k = key) then Some p else latest_get key l'
  end.

(** [self._latest_by_package[key] = package] *)
Fixpoint latest_set (key : string * string) (package : AgentPackage) (l : list ((string * string) * AgentPackage))
    : list ((string * string) * AgentPackage) :=
  match l with
  | [] => [(key, package)]
  | (k, p) :: l' => if bool_decide (k = key) then (k, package) :: l' else (k, p) :: latest_set key package l'
  end.

Definition store (key : string * string * string) (package : AgentPackage) (s : t) : t :=
  Mk (<[key := package]> (_packages s)) (latest_set key.1 package (_latest_by_package s)) (_installs s)
    (_installs_by_tenant s) (_developer_signing_secrets s) (tick s).

Definition publish (developer_id : string) (upload : PackageUpload) : M t AgentPackage :=
  if negb (bool_decide (PackageUpload.namespace upload = developer_id))
  then raise AuthorizationError "developer can only publish to own namespace"
  else
  do* of_res (ManifestValidator.validate (PackageUpload.manifest upload));
  let* secrets := gets _developer_signing_secrets in
  let* payload_digest := of_res (verify_upload compute_payload_digest developer_id upload secrets) in
  let key := (PackageUpload.namespace upload, PackageUpload.package_id upload, PackageUpload.version upload) in
  let* existing := gets (fun s => _packages s !! key) in
  match existing with
  | Some _ => raise ConflictError "package version already exists"
  | None =>
      let* created_at := utc_now in
      let package := AgentPackage.Mk (PackageUpload.package_id upload) (PackageUpload.version upload) developer_id
                       (PackageUpload.namespace upload) (PackageUpload.category upload) (PackageUpload.permissions upload)
                       (PackageUpload.manifest upload) payload_digest (PackageUpload.signature upload) created_at in
      do* modify (store key package);
      ret package
  end.

(** The loop over the latest packages lets these through. *)
Definition matching (query category : option string) (required_permissions : list string) (p : AgentPackage) : bool :=
  match query with
  | None | Some "" => true
  | Some q => contains (lower q) (lower (AgentPackage.package_id p))
  end &&
  match category with None | Some "" => true | Some c => bool_decide (AgentPackage.category p = c) end &&
  forallb (fun r => bool_decide (r ∈ AgentPackage.permissions p)) required_permissions.

(** What [list_packages] returns. *)
Record listing := Listing {
  items : list AgentPackage;
  page : Z;
  page_size : Z;
  total : Z;
  total_pages : Z;
}.

(** [ceil(a / b)]; the quotient of lengths rounds to a double that has the same
    ceiling. *)
Definition ceil_div (a b : Z) : Z := - (- a / b).

Definition list_packages (query category : option string) (required_permissions : list string) (page page_size : Z) (s : t)
    : res listing :=
  if (page <? 1) || (page_size <? 1) then Err (Exn ValidationError "page and page_size must be positive")
  else
  let filtered := base.filter (fun p => matching query category required_permissions p = true) (_latest_by_package s).*2 in
  let total := Z.of_nat (length filtered) in
  let total_pages := Z.max 1 (ceil_div total page_size) in
  let start := (page - 1) * page_size in
  Ok (Listing (take (Z.to_nat page_size) (drop (Z.to_nat start) filtered)) page page_size total total_pages).

Definition get_package (namespace package_id : string) (version : option string) (s : t) : res AgentPackage :=
  match version with
  | None =>
      match latest_get (namespace, package_id) (_latest_by_package s) with
      | Some package => Ok package
      | None => Err (Exn NotFoundError "package not found")
      end
  | Some v =>
      match _packages s !! (namespace, package_id, v) with
      | Some package => Ok package
      | None => Err (Exn NotFoundError "package version not found")
      end
  end.

Definition record_install (record : InstallRecord.t) (s : t) : t :=
  Mk (_packages s) (_latest_by_package s) (_installs s ++ [record])
    (dset (_installs_by_tenant s) (InstallRecord.tenant_id record)
       (default [] (dget (_installs_by_tenant s) (InstallRecord.tenant_id record)) ++ [record]))
    (_developer_signing_secrets s) (tick s).

Definition install (tenant_id user_id namespace package_id : string) (version : option string) : M t InstallRecord.t :=
  let* found := gets (get_package namespace package_id version) in
  let* package := of_res found in
  let* installed_at := utc_now in
  let record := InstallRecord.Mk tenant_id user_id (AgentPackage.fqid package) installed_at in
  do* modify (record_install record);
  ret record.

Definition list_installs (tenant_id : string) (s : t) : list InstallRecord.t := default [] (dget (_installs_by_tenant s) tenant_id).

End Registry.
End RegistryService.

(** * billing.py *)

Module BillingService.

Record InvoiceLine := Line { event_type : string; quantity : Z; unit_price : float }.

Definition subtotal (l : InvoiceLine) : float := round4 (fmul (float_of_Z (quantity l)) (unit_price l)).

Definition DEFAULT_PRICING : dict float := [("install", lit 5 2); ("run", lit 1 2); ("subscription_month", lit 290 1)].

(** [_usage_by_tenant] maps tenants to counters. *)
Record t := Mk {
  _queue : list MeterEvent;
  _processed_idempotency_keys : gset string;
  _usage_by_tenant : dict (dict Z);
  _pricing : dict float;
}.

Definition init : t := Mk [] ∅ [] DEFAULT_PRICING.

Definition set_price (event_type : string) (unit_price : float) (b : t) : t :=
  Mk (_queue b) (_processed_idempotency_keys b) (_usage_by_tenant b) (dset (_pricing b) event_type unit_price).

Definition enqueue (event : MeterEvent) (b : t) : t :=
  Mk (_queue b ++ [event]) (_processed_idempotency_keys b) (_usage_by_tenant b) (_pricing b).

(** [self._usage_by_tenant[tenant_id][event_type]], 0 when there is none *)
Definition used (tenant_id event_type : string) (usage : dict (dict Z)) : Z :=
  default 0 (dget (default [] (dget usage tenant_id)) event_type).

(** [self._usage_by_tenant[event.tenant_id][event.event_type] += 1] *)
Definition count (event : MeterEvent) (usage : dict (dict Z)) : dict (dict Z) :=
  dset usage (MeterEvent.tenant_id event)
    (dset (default [] (dget usage (MeterEvent.tenant_id event))) (MeterEvent.event_type event)
       (used (MeterEvent.tenant_id event) (MeterEvent.event_type event) usage + 1)).

(** The body of the loop, for an event taken from the queue. *)
Definition process (event : MeterEvent) (b : t) : t :=
  if bool_decide (MeterEvent.idempotency_key event ∈ _processed_idempotency_keys b) then b
  else Mk (_queue b) ({[MeterEvent.idempotency_key event]} ∪ _processed_idempotency_keys b) (count event (_usage_by_tenant b)) (_pricing b).

Fixpoint process_all (queue : list MeterEvent) (b : t) : t :=
  match queue with [] => b | event :: queue' => process_all queue' (process event b) end.

Definition process_queue (b : t) : t :=
  process_all (_queue b) (Mk [] (_processed_idempotency_keys b) (_usage_by_tenant b) (_pricing b)).

Record invoice := Invoice { tenant_id : string; lines : list InvoiceLine; total : val }.

(** [round(sum(...), 4)] starts from the integer 0, which is the sum of nothing. *)
Definition total_of (l : list InvoiceLine) : val :=
  match l with
  | [] => VInt 0
  | _ => VNumber (round4 (foldl fadd (lit 0 1) (map subtotal l)))
  end.

(** The counter of the tenant is made when there is none. *)
Definition build_invoice (tenant_id : string) (b : t) : invoice * t :=
  let usage := default [] (dget (_usage_by_tenant b) tenant_id) in
  let lines := map (fun p => Line p.1 p.2 (default (lit 0 1) (dget (_pricing b) p.1))) (py_sorted key_le usage) in
  (Invoice tenant_id lines (total_of lines),
   Mk (_queue b) (_processed_idempotency_keys b)
     (if dmem (_usage_by_tenant b) tenant_id then _usage_by_tenant b else dset (_usage_by_tenant b) tenant_id []) (_pricing b)).

End BillingService.

(** * reviews.py *)

Module ReviewService.

Definition BANNED_TERMS : list string := ["malware"; "phishing"; "scam"].

(** [_ratings] *)
Abbreviation t := (dict (list Rating)).

Definition submit_rating (rating : Rating) : M t unit :=
  if (Rating.stars rating <? 1) || (Rating.stars rating >? 5) then raise ValidationError "stars must be between 1 and 5"
  else
  let lowered := lower (Rating.review rating) in
  if existsb (fun term => contains term lowered) BANNED_TERMS then raise ValidationError "review rejected by moderation policy"
  else modify (fun r => dset r (Rating.package_fqid rating) (default [] (dget r (Rating.package_fqid rating)) ++ [rating])).

Definition get_rating_summary (package_fqid : string) (r : t) : doc :=
  match default [] (dget r package_fqid) with
  | [] => [("count", VInt 0); ("avg_stars", VNumber (lit 0 1))]
  | entries =>
      let total := foldl Z.add 0 (map Rating.stars entries) in
      [("count", VInt (Z.of_nat (length entries)));
       ("avg_stars", VNumber (round_to 2 (fdiv (of_int total) (of_int (Z.of_nat (length entries))))))]
  end.

End ReviewService.

(** * auth.py *)

Module ApiKeyAuthService.

Record Principal := Mk { principal_id : string; tenant_id : string; principal_type : string }.

(** [_keys] *)
Abbreviation t := (dict Principal).

Definition register_key (api_key : string) (principal : Principal) : M t unit :=
  fun keys => if dmem keys api_key then raise ConflictError "api key already registered" keys
              else modify (fun keys => dset keys api_key principal) keys.

Definition authenticate (api_key : string) (keys : t) : res Principal :=
  match dget keys api_key with
  | Some principal => Ok principal
  | None => Err (Exn AuthorizationError "invalid api key")
  end.

End ApiKeyAuthService.

(** * What was billed *)

Module BillingHistory.
Import BillingService.

Inductive op := Enqueue (e : MeterEvent) | Process | SetPrice (event_type : string) (price : float) | BuildInvoice (tenant_id : string).

Definition apply (o : op) (b : t) : t :=
  match o with
  | Enqueue e => enqueue e b
  | Process => process_queue b
  | SetPrice ty x => set_price ty x b
  | BuildInvoice tenant => (build_invoice tenant b).2
  end.

Definition run (ops : list op) (b : t) : t := foldl (fun b o => apply o b) b ops.

(** The events that were put in the queue. *)
Definition enqueued (ops : list op) : list MeterEvent := omap (fun o => match o with Enqueue e => Some e | _ => None end) ops.

(** The first event of each idempotency key, of those that are not [seen]. *)
Fixpoint firsts (seen : gset string) (l : list MeterEvent) : list MeterEvent :=
  match l with
  | [] => []
  | e :: l' => if bool_decide (MeterEvent.idempotency_key e ∈ seen) then firsts seen l'
               else e :: firsts ({[MeterEvent.idempotency_key e]} ∪ seen) l'
  end.

(** How many of the events are the tenant's and of the type. *)
Definition tally (tenant type : string) (l : list MeterEvent) : Z :=
  Z.of_nat (length (base.filter (fun e => MeterEvent.tenant_id e = tenant ∧ MeterEvent.event_type e = type) l)).

Definition keys_of (l : list MeterEvent) : gset string := list_to_set (MeterEvent.idempotency_key <$> l).

Lemma tally_app tenant type l l' : tally tenant type (l ++ l') = tally tenant type l + tally tenant type l'.
Proof. unfold tally. rewrite filter_app, length_app. lia. Qed.

Lemma firsts_app seen l l' : firsts seen (l ++ l') = firsts seen l ++ firsts (keys_of l ∪ seen) l'.
Proof.
  revert seen. induction l as [|e l IH]; intros seen; cbn [app firsts].
  - f_equal. set_solver.
  - case_bool_decide as Hs; rewrite IH; [f_equal; f_equal; unfold keys_of; set_solver|]. cbn. do 3 f_equal. unfold keys_of. set_solver.
Qed.

(** The events of a processed list are counted once for each key. *)
Record counted (l : list MeterEvent) (b : t) : Prop := Counted {
  ct_keys : _processed_idempotency_keys b = keys_of l;
  ct_used : ∀ tenant type, used tenant type (_usage_by_tenant b) = tally tenant type (firsts ∅ l);
  ct_ok : ∀ tenant usage, dget (_usage_by_tenant b) tenant = Some usage → dict_ok usage ∧ ∀ type n, dget usage type = Some n → 0 < n;
}.

Lemma used_count tenant type e usage :
  used tenant type (count e usage) = used tenant type usage + tally tenant type [e].
Proof.
  unfold used at 1, count, tally. rewrite dget_dset. rewrite filter_cons. case_bool_decide as Ht; cbn [from_option id].
  - rewrite dget_dset. case_bool_decide as Hty; cbn [from_option id].
    + rewrite decide_True by done. cbn. by rewrite Ht, Hty.
    + rewrite decide_False by naive_solver. cbn. unfold used. rewrite Ht. lia.
  - rewrite decide_False by naive_solver. cbn. unfold used. lia.
Qed.

Lemma used_nonneg l b tenant type : counted l b → 0 <= used tenant type (_usage_by_tenant b).
Proof. intros [_ Hu _]. rewrite Hu. unfold tally. lia. Qed.

Lemma process_counted l e b : counted l b → counted (l ++ [e]) (process e b).
Proof.
  intros Hc. pose proof (used_nonneg l b (MeterEvent.tenant_id e) (MeterEvent.event_type e) Hc) as Hpos. destruct Hc as [Hk Hu Hok].
  unfold process. case_bool_decide as Hin.
  - split; [rewrite Hk; rewrite Hk in Hin; unfold keys_of in *; set_solver| |done].
    intros tenant type. rewrite Hu, firsts_app, tally_app. cbn [firsts]. rewrite bool_decide_eq_true_2; [unfold tally at 3; cbn; lia|].
    rewrite Hk in Hin. set_solver.
  - split; cbn [_processed_idempotency_keys _usage_by_tenant].
    + rewrite Hk. unfold keys_of. set_solver.
    + intros tenant type. rewrite used_count, Hu, firsts_app, tally_app. cbn [firsts]. rewrite bool_decide_eq_false_2; [done|].
      rewrite Hk in Hin. set_solver.
    + intros tenant usage. unfold count. rewrite dget_dset. case_bool_decide as Ht; [|apply Hok]. intros [= <-]. split.
      * apply dict_ok_dset. destruct (dget (_usage_by_tenant b) (MeterEvent.tenant_id e)) as [u|] eqn:Eu; [by eapply Hok|apply NoDup_nil_2].
      * intros type n. rewrite dget_dset. case_bool_decide; [intros [= <-]; lia|].
        destruct (dget (_usage_by_tenant b) (MeterEvent.tenant_id e)) as [u|] eqn:Eu; [by eapply Hok|done].
Qed.

Lemma process_all_counted q l b : counted l b → counted (l ++ q) (process_all q b) ∧ _queue (process_all q b) = _queue b.
Proof.
  revert l b. induction q as [|e q IH]; intros l b Hc; cbn [process_all]; [by rewrite app_nil_r|].
  destruct (IH (l ++ [e]) (process e b) (process_counted l e b Hc)) as [Hc' Hq]. rewrite <- app_assoc in Hc'. split; [exact Hc'|].
  rewrite Hq. unfold process. by case_bool_decide.
Qed.

(** The history of a service: what was enqueued was counted or waits. *)
Lemma run_counted ops :
  ∃ l, enqueued ops = l ++ _queue (run ops init) ∧ counted l (run ops init).
Proof.
  induction ops as [|o ops IH] using rev_ind.
  { exists []. split; [done|]. split; [done|done|by intros ? ? [=]]. }
  destruct IH as (l & El & Hc). unfold run, enqueued in *. rewrite foldl_snoc, omap_app. set (b := foldl _ init ops) in *.
  destruct o as [e| |ty x|tenant]; cbn [omap list_omap apply]; rewrite ?app_nil_r.
  - exists l. split; [cbn; by rewrite El, app_assoc|by destruct Hc].
  - destruct (process_all_counted (_queue b) l (Mk [] (_processed_idempotency_keys b) (_usage_by_tenant b) (_pricing b))) as [Hc' Hq].
    { by destruct Hc. }
    exists (l ++ _queue b). unfold process_queue. rewrite Hq. cbn [_queue]. by rewrite app_nil_r.
  - exists l. split; [done|by destruct Hc].
  - exists l. split; [done|]. destruct Hc as [Hk Hu Hok]. unfold build_invoice. cbn [snd].
    destruct (dmem (_usage_by_tenant b) tenant) eqn:Em; split; cbn [_processed_idempotency_keys _usage_by_tenant]; try done.
    + intros t' ty. rewrite <- Hu. unfold used. rewrite dget_dset. case_bool_decide as Ht; [|done]. subst t'.
      unfold dmem in Em. by destruct (dget (_usage_by_tenant b) tenant).
    + intros t' u. rewrite dget_dset. case_bool_decide; [intros [= <-]; split; [apply NoDup_nil_2|done]|apply Hok].
Qed.
End BillingHistory.

(** * Pages *)

(** The pages of a list, laid end to end, are the list. *)
Lemma concat_pages {A} (n : nat) (size : nat) (l : list A) :
  (length l ≤ n * size)%nat → concat ((fun i => take size (drop (i * size) l)) <$> seq 0 n) = l.
Proof.
  revert l. induction n as [|n IH]; intros l Hl; [by destruct l; cbn in *; [|lia]|].
  cbn [seq fmap list_fmap concat]. change (0 * size)%nat with 0%nat. rewrite drop_0.
  etransitivity; [|apply (take_drop size l)]. f_equal. rewrite <- fmap_S_seq, <- list_fmap_compose.
  rewrite <- (IH (drop size l)); [|rewrite length_drop; lia]. f_equal. apply list_fmap_ext. intros i x _. cbn.
  by rewrite !drop_drop.
Qed.

Lemma ceil_div_bounds a b : 0 < b → 0 <= a → a <= RegistryService.ceil_div a b * b < a + b.
Proof.
  intros Hb Ha. unfold RegistryService.ceil_div. pose proof (Z.mul_div_le (- a) b Hb). pose proof (Z.mul_succ_div_gt (- a) b Hb). lia.
Qed.

(** * What was published *)

Section Publishing.
Context `{Oracle}.
Context (compute_payload_digest : list Byte.byte → string).
Import RegistryService.

Lemma latest_get_set k k' p l : latest_get k' (latest_set k p l) = if bool_decide (k = k') then Some p else latest_get k' l.
Proof.
  induction l as [|[k0 p0] l IH]; cbn [latest_set latest_get]; [done|].
  destruct (bool_decide (k0 = k)) eqn:E0; cbn [latest_get].
  - apply bool_decide_eq_true in E0 as ->. by case_bool_decide.
  - apply bool_decide_eq_false in E0. rewrite IH. repeat case_bool_decide; congruence.
Qed.

(** An upload that its developer signed. *)
Definition signed_upload (developer_id : string) (upload : PackageUpload) (s : t) : Prop :=
  ∃ secret, dget (_developer_signing_secrets s) developer_id = Some secret ∧
    PackageUpload.signature upload =
      sha256_hex (developer_id +:+ ":" +:+ compute_payload_digest (PackageUpload.payload upload) +:+ ":" +:+ secret).

(** The manifest has every field it must have, and the version that is known. *)
Definition sound_manifest (m : doc) : Prop :=
  (∀ k, k ∈ ManifestValidator.REQUIRED_FIELDS → k ∈ m.*1) ∧ dget m "manifest_version" = Some (VStr "v1").

Lemma is_str_eq v text : is_str v text = true ↔ v = Some (VStr text).
Proof. destruct v as [[]|]; cbn; try (split; congruence). rewrite bool_decide_eq_true. split; congruence. Qed.

Lemma manifest_validate_ok m : ManifestValidator.validate m = Ok tt ↔ sound_manifest m.
Proof.
  unfold ManifestValidator.validate, sound_manifest. rewrite <- is_str_eq.
  assert (Hn : py_sorted_set (list_to_set ManifestValidator.REQUIRED_FIELDS ∖ list_to_set m.*1) = [] ↔
    ∀ k, k ∈ ManifestValidator.REQUIRED_FIELDS → k ∈ m.*1).
  { split.
    - intros E k Hk. destruct (decide (k ∈ m.*1)) as [|Hm]; [done|exfalso].
      assert (Hin : k ∈ py_sorted_set (list_to_set ManifestValidator.REQUIRED_FIELDS ∖ list_to_set m.*1)).
      { apply elem_of_sorted_set, elem_of_difference. by rewrite !elem_of_list_to_set. }
      rewrite E in Hin. by apply elem_of_nil in Hin.
    - intros Hall. apply elem_of_nil_inv. intros k Hk%elem_of_sorted_set. apply elem_of_difference in Hk as [Hk Hm].
      rewrite elem_of_list_to_set in Hk, Hm. by apply Hm, Hall. }
  destruct (py_sorted_set _) as [|x l].
  - destruct (is_str _ _); naive_solver.
  - split; [done|]. intros [Hk _]. apply Hn in Hk. done.
Qed.

Lemma verify_upload_ok developer_id upload s digest :
  verify_upload compute_payload_digest developer_id upload (_developer_signing_secrets s) = Ok digest ↔
  signed_upload developer_id upload s ∧ digest = compute_payload_digest (PackageUpload.payload upload).
Proof.
  unfold verify_upload, signed_upload. destruct (dget _ developer_id) as [secret|]; [|naive_solver].
  case_bool_decide; cbn [negb]; naive_solver.
Qed.
End Publishing.

(** * Properties *)

(** C31: usage is billed once. Whatever was enqueued, processed, priced and
    invoiced, the usage of a tenant is the number of the events of the type that
    were taken from the queue, of which only the first of each idempotency key
    counts; the events behind them wait in the queue. The invoice has one line for
    each type that was used, in the order of the types, with that number. *)
Theorem billing_counts_once (ops : list BillingHistory.op) :
  let b := BillingHistory.run ops BillingService.init in
  ∃ processed, BillingHistory.enqueued ops = processed ++ BillingService._queue b ∧
    ∀ tenant, ∃ usage : list (string * Z),
      BillingService.lines (BillingService.build_invoice tenant b).1 =
        map (fun p => BillingService.Line p.1 p.2 (default (lit 0 1) (dget (BillingService._pricing b) p.1))) usage ∧
      Sorting.Sorted.Sorted (fun p q => key_le p q = true) usage ∧ NoDup usage.*1 ∧
      ∀ type n, (type, n) ∈ usage ↔
        0 < n ∧ n = BillingHistory.tally tenant type (BillingHistory.firsts ∅ processed).
Proof.
  intros b. destruct (BillingHistory.run_counted ops) as (l & El & [Hk Hu Hok]). fold b in El, Hk, Hu, Hok.
  exists l. split; [exact El|]. intros tenant.
  exists (py_sorted key_le (default [] (dget (BillingService._usage_by_tenant b) tenant))). split; [reflexivity|].
  assert (Hd : dict_ok (default [] (dget (BillingService._usage_by_tenant b) tenant)) ∧
    ∀ type n, dget (default [] (dget (BillingService._usage_by_tenant b) tenant)) type = Some n → 0 < n).
  { destruct (dget (BillingService._usage_by_tenant b) tenant) as [u|] eqn:Eu; [by eapply Hok|split; [apply NoDup_nil_2|done]]. }
  destruct Hd as [Hd Hpos]. split; [apply py_sorted_Sorted; intros p q; apply str_le_total|].
  split; [by rewrite (py_sorted_perm key_le)|]. intros type n. rewrite elem_of_py_sorted, <- Hu. unfold BillingService.used. split.
  - intros Hin%elem_dget; [|done]. rewrite Hin. split; [by eapply Hpos|done].
  - intros [Hn ->]. apply dget_Some_elem. destruct (dget _ type) as [m|]; [done|cbn in Hn; lia].
Qed.

(** A listing is cut into pages and loses nothing. For every filter and every
    positive page size the pages from the first to the last, laid end to end, are
    the latest packages the filter lets through, in order; a page that is no
    positive number is refused. *)
Theorem listing_pages_exact (query category : option string) (required : list string) (size : Z) (s : RegistryService.t) :
  0 < size →
  let matches := base.filter (fun p => RegistryService.matching query category required p = true) (RegistryService._latest_by_package s).*2 in
  ∃ n : nat, (1 ≤ n)%nat ∧
    (∃ pages, res_map (fun i : nat => RegistryService.list_packages query category required (Z.of_nat i + 1) size s) (seq 0 n) = Ok pages ∧
       concat (RegistryService.items <$> pages) = matches ∧
       Forall (fun l => RegistryService.total_pages l = Z.of_nat n ∧ RegistryService.total l = Z.of_nat (length matches)) pages) ∧
    ∀ page, page < 1 →
      RegistryService.list_packages query category required page size s = Err (Exn ValidationError "page and page_size must be positive").
Proof.
  intros Hsize matches. set (pages := Z.max 1 (RegistryService.ceil_div (Z.of_nat (length matches)) size)).
  pose proof (ceil_div_bounds (Z.of_nat (length matches)) size Hsize ltac:(lia)) as Hc.
  assert (1 <= pages) by lia. exists (Z.to_nat pages). split; [lia|]. split.
  2: { intros page Hpage. unfold RegistryService.list_packages. by rewrite (proj2 (Z.ltb_lt page 1) Hpage). }
  set (page i := RegistryService.Listing (take (Z.to_nat size) (drop (i * Z.to_nat size) matches)) (Z.of_nat i + 1) size
    (Z.of_nat (length matches)) pages).
  exists (page <$> seq 0 (Z.to_nat pages)). split_and!.
  - apply res_map_ok. intros i _. unfold RegistryService.list_packages.
    rewrite (proj2 (Z.ltb_ge _ 1)), (proj2 (Z.ltb_ge size 1)) by lia. cbn [orb]. fold matches. unfold page. do 2 f_equal.
    f_equal. f_equal. lia.
  - rewrite <- list_fmap_compose. cbn. apply concat_pages.
    assert (Z.of_nat (length matches) <= pages * size) by (unfold pages; nia). nia.
  - apply Forall_forall. intros l (i & -> & _)%list_elem_of_fmap. cbn. split; [unfold pages; lia|done].
Qed.

(** What the hosted registry publishes. An upload is taken exactly when it is
    made in the developer's own namespace, its manifest is complete and of the
    known version, the developer signed it and the version is new. It is then
    found by its version and as the latest, no other version changes; a refusal
    changes nothing. *)
Theorem hosted_publish_exact `{Oracle} digest (developer_id : string) (upload : PackageUpload) (s : RegistryService.t) :
  let key := (PackageUpload.namespace upload, PackageUpload.package_id upload, PackageUpload.version upload) in
  let takes := PackageUpload.namespace upload = developer_id ∧ sound_manifest (PackageUpload.manifest upload) ∧
    signed_upload digest developer_id upload s ∧ RegistryService._packages s !! key = None in
  ∃ r s', RegistryService.publish digest developer_id upload s = (r, s') ∧
    match r with
    | Ok p => takes ∧ AgentPackage.payload_digest p = digest (PackageUpload.payload upload) ∧
        RegistryService._packages s' = <[key := p]> (RegistryService._packages s) ∧
        RegistryService.get_package key.1.1 key.1.2 (Some key.2) s' = Ok p ∧
        RegistryService.get_package key.1.1 key.1.2 None s' = Ok p
    | Err _ => ¬ takes ∧ s' = s
    end.
Proof.
  intros key takes. unfold RegistryService.publish. case_bool_decide as Hns; cbn [negb]; [|by eexists _, s; split; [reflexivity|split; [intros [? _]|]]].
  unfold bind at 1, of_res at 1. pose proof (manifest_validate_ok (PackageUpload.manifest upload)) as Hm.
  destruct (ManifestValidator.validate _) as [[]|e]; [|eexists _, s; split; [reflexivity|split; [intros (_ & Hx & _); by apply Hm in Hx|done]]].
  unfold bind at 1, gets at 1. unfold bind at 1, of_res at 1. pose proof (verify_upload_ok digest developer_id upload s) as Hv.
  destruct (verify_upload _ _ _ _) as [d|e].
  2: { eexists _, s. split; [reflexivity|]. split; [|done]. intros (_ & _ & Hs & _). discriminate (proj2 (Hv _) (conj Hs eq_refl)). }
  destruct (proj1 (Hv d) eq_refl) as [Hs ->]. unfold bind at 1, gets at 1. fold key.
  destruct (RegistryService._packages s !! key) as [p|] eqn:Ek; [eexists _, s; split; [reflexivity|split; [intros (_ & _ & _ & ?); congruence|done]]|].
  unfold bind, RegistryService.utc_now, modify, ret. do 2 eexists. split; [reflexivity|].
  split; [split_and!; [done|by apply Hm|done|done]|]. split_and!; [done|done| |].
  - unfold RegistryService.get_package, RegistryService.store. cbn [RegistryService._packages].
    by rewrite lookup_insert_eq.
  - unfold RegistryService.get_package, RegistryService.store. cbn [RegistryService._latest_by_package].
    rewrite latest_get_set. by rewrite bool_decide_eq_true_2.
Qed.

(** ** Witness *)

Definition demo_hosted (id : string) : AgentPackage := AgentPackage.Mk id "1.0" "dev" "dev" "tools" ["read"] [] "digest" "sig" 0.

Definition demo_registry : RegistryService.t :=
  foldr (fun id => RegistryService.store ("dev", id, "1.0") (demo_hosted id)) (RegistryService.init 0) ["a"; "b"; "c"].

Lemma listing_pages_exact_witness :
  ∃ n pages, res_map (fun i : nat => RegistryService.list_packages (Some "") None ["read"] (Z.of_nat i + 1) 2 demo_registry) (seq 0 n) = Ok pages ∧
    concat (RegistryService.items <$> pages) = [demo_hosted "c"; demo_hosted "b"; demo_hosted "a"].
Proof.
  destruct (listing_pages_exact (Some "") None ["read"] 2 demo_registry eq_refl) as (n & _ & (pages & E & Hc & _) & _).
  exists n, pages. split; [exact E|]. rewrite Hc. vm_compute. reflexivity.
Defined.
