(* ===== verification/PhaseWorkflow.v ===== *)
(** Collaboration in phase 3 (agentfabric/phase3): the workflow engine, which runs
    the nodes of a graph one after the other, tries each again when it fails and
    keeps the output of a run for its key; and delegation from agent to agent. *)

From stdpp Require Import base option list strings gmap sets.
From Stdlib Require Import ZArith Lia SpecFloat.
From S2P Require Import Prelude PyVal PyTime Floats Store EventStore Graph.

Local Open Scope Z_scope.

(** * workflow.py *)

Module NodeState.
Record t := Mk { attempts : Z; status : string; result : val; error : option string }.

(** [NodeState()] *)
Definition new : t := Mk 0 "pending" VNone None.

Definition attempt (x : t) : t := Mk (attempts x + 1) (status x) (result x) (error x).
Definition complete (v : val) (x : t) : t := Mk (attempts x) "completed" v (error x).
Definition fail (msg : string) (x : t) : t := Mk (attempts x) "failed" (result x) (Some msg).
End NodeState.

Abbreviation NodeState := NodeState.t.

(** A run: the world the runner of the nodes acts on, the count of the questions
    put to the clock, [_run_cache], and the local variables of [run]. *)
Record running (W : Type) := Running {
  world : W;
  tick : nat;
  _run_cache : dict doc;
  state : dict NodeState;
  traces : list doc;
  context : doc;
}.
Arguments Running {W}.
Arguments world {W}.
Arguments tick {W}.
Arguments _run_cache {W}.
Arguments state {W}.
Arguments traces {W}.
Arguments context {W}.

Module WorkflowEngine.
Section Engine.
Context `{Oracle} {W : Type}.

(** The function that runs a node: it acts on a world of its own, and returns a
    value or raises. *)
Context (node_runner : WorkflowNode → doc → M W val).

#[local] Abbreviation R := (M (running W)).

Definition utc_now : R Z := fun s =>
  (Ok (clock (tick s)), Running (world s) (S (tick s)) (_run_cache s) (state s) (traces s) (context s)).

Definition call (node : WorkflowNode) (input : doc) : R val :=
  zoom world (fun w s => Running w (tick s) (_run_cache s) (state s) (traces s) (context s)) (node_runner node input).

Definition node_state (id : string) (s : running W) : NodeState := default NodeState.new (dget (state s) id).

(** The object [state[id]] is changed. *)
Definition update_node (id : string) (f : NodeState → NodeState) : R unit :=
  modify (fun s => Running (world s) (tick s) (_run_cache s) (dset (state s) id (f (node_state id s))) (traces s) (context s)).

Definition set_context (id : string) (v : val) : R unit :=
  modify (fun s => Running (world s) (tick s) (_run_cache s) (state s) (traces s) (dset (context s) id v)).

Definition add_trace (d : doc) : R unit :=
  modify (fun s => Running (world s) (tick s) (_run_cache s) (state s) (traces s ++ [d]) (context s)).

Section Run.
Context (workflow_id idempotency_key : string).

(** [f"{workflow_id}:{idempotency_key}"] *)
Definition cache_key : string := workflow_id +:+ ":" +:+ idempotency_key.

Section Node.
Context (node : WorkflowNode).
#[local] Abbreviation id := (WorkflowNode.node_id node).

Definition dependency_results (s : running W) : doc :=
  foldl (fun d dep => dset d dep (NodeState.result (node_state dep s))) [] (WorkflowNode.dependencies node).

Definition node_input (s : running W) : doc :=
  [("workflow_id", VStr workflow_id); ("node_id", VStr id); ("context", VDict (context s));
   ("dependency_results", VDict (dependency_results s))].

(** What an attempt appends to [traces]. *)
Definition trace (status : string) (error : option string) (started_at : Z) : R unit :=
  let* x := gets (node_state id) in
  let* finished_at := utc_now in
  add_trace ([("node_id", VStr id); ("agent_name", VStr (WorkflowNode.agent_name node));
              ("attempt", VInt (NodeState.attempts x)); ("status", VStr status)] ++
             match error with Some m => [("error", VStr m)] | None => [] end ++
             [("started_at", VStr (isoformat started_at)); ("finished_at", VStr (isoformat finished_at))]).

(** The body of the loop; it returns whether the loop is left. *)
Definition attempt : R bool :=
  do* update_node id NodeState.attempt;
  let* started_at := utc_now in
  try_except
    (let* input := gets node_input in
     let* result := call node input in
     do* update_node id (NodeState.complete result);
     do* set_context id result;
     do* trace "completed" None started_at;
     ret true)
    (fun exc =>
       let last_error := exn_msg exc in
       do* trace "failed" (Some last_error) started_at;
       let* x := gets (node_state id) in
       if NodeState.attempts x >? WorkflowNode.max_retries node
       then
         do* update_node id (NodeState.fail last_error);
         raise ConflictError ("workflow failed at " +:+ id +:+ ": " +:+ last_error)
       else ret false).

(** [while node_state.attempts <= node.max_retries]: every turn adds one to
    [attempts], which is 0 at first. *)
Fixpoint attempt_loop (fuel : nat) : R unit :=
  match fuel with
  | O => ret tt
  | S fuel' => let* stop := attempt in if stop then ret tt else attempt_loop fuel'
  end.

Definition run_node : R unit := attempt_loop (Z.to_nat (WorkflowNode.max_retries node + 1)).

End Node.

Definition output (s : running W) : doc :=
  [("workflow_id", VStr workflow_id); ("idempotency_key", VStr idempotency_key); ("status", VStr "completed");
   ("node_results", VDict (map (fun p => (p.1, NodeState.result p.2)) (state s)));
   ("traces", VList (map VDict (traces s)))].

Definition run (nodes : list WorkflowNode) (initial_payload : doc) : R doc :=
  let* cached := gets (fun s => dget (_run_cache s) cache_key) in
  match cached with
  | Some output => ret output
  | None =>
      let* ordered_nodes := of_res (_topological_sort nodes) in
      do* modify (fun s => Running (world s) (tick s) (_run_cache s)
                    (map (fun n => (WorkflowNode.node_id n, NodeState.new)) ordered_nodes) [] initial_payload);
      do* for_each ordered_nodes run_node;
      let* output := gets output in
      do* modify (fun s => Running (world s) (tick s) (dset (_run_cache s) cache_key output) (state s) (traces s) (context s));
      ret output
  end.

End Run.
End Engine.
End WorkflowEngine.

(** * protocol.py, collaboration.py *)

Module CollaborationMessage.
Record t := Mk {
  message_type : string;
  source_agent : string;
  target_agent : string;
  payload : doc;
  correlation_id : string;
  parent_span_id : option string;
  timeout_seconds : float;
  created_at : Z;
}.
End CollaborationMessage.

Abbreviation CollaborationMessage := CollaborationMessage.t.

(** [CollaborationPolicy] and [_delegation_counts_by_correlation_id], and the
    world the handler of delegations acts on. *)
Record orchestrator (W : Type) := Orchestrator {
  outside : W;
  allowed_edges : gset (string * string);
  max_delegations_per_run : Z;
  max_timeout_seconds : float;
  counts : dict Z;
  readings : nat;
}.
Arguments Orchestrator {W}.
Arguments outside {W}.
Arguments allowed_edges {W}.
Arguments max_delegations_per_run {W}.
Arguments max_timeout_seconds {W}.
Arguments counts {W}.
Arguments readings {W}.

Module CollaborationOrchestrator.
Section Orchestrator.
Context `{Oracle} {W : Type}.

Definition allow_edge (source target : string) : M (orchestrator W) unit :=
  modify (fun s => Orchestrator (outside s) ({[(source, target)]} ∪ allowed_edges s) (max_delegations_per_run s)
                     (max_timeout_seconds s) (counts s) (readings s)).

(** [monotonic()], in seconds *)
Definition monotonic : M (orchestrator W) float := fun s =>
  (Ok (fdiv (float_of_Z (perf (readings s))) (float_of_Z 1000000)),
   Orchestrator (outside s) (allowed_edges s) (max_delegations_per_run s) (max_timeout_seconds s) (counts s) (S (readings s))).

Definition set_count (correlation_id : string) (n : Z) (s : orchestrator W) : orchestrator W :=
  Orchestrator (outside s) (allowed_edges s) (max_delegations_per_run s) (max_timeout_seconds s)
    (dset (counts s) correlation_id n) (readings s).

Definition count_of (correlation_id : string) (s : orchestrator W) : Z := default 0 (dget (counts s) correlation_id).

Definition delegate (message : CollaborationMessage) (delegate_handler : CollaborationMessage → M W doc) : M (orchestrator W) doc :=
  let* policy := get_state in
  if negb (bool_decide ((CollaborationMessage.source_agent message, CollaborationMessage.target_agent message) ∈ allowed_edges policy))
  then raise AuthorizationError "agent delegation edge is not allowed"
  else if SFltb (max_timeout_seconds policy) (CollaborationMessage.timeout_seconds message)
  then raise ValidationError "delegation timeout exceeds policy limit"
  else
  let correlation_id := CollaborationMessage.correlation_id message in
  let count := count_of correlation_id policy + 1 in
  if count >? max_delegations_per_run policy then raise AuthorizationError "delegation quota exceeded"
  else
  do* modify (set_count correlation_id count);
  let* start := monotonic in
  let* result := zoom outside (fun w s => Orchestrator w (allowed_edges s) (max_delegations_per_run s) (max_timeout_seconds s)
                                            (counts s) (readings s)) (delegate_handler message) in
  let* now := monotonic in
  let duration_seconds := fsub now start in
  ret [("correlation_id", VStr correlation_id); ("source_agent", VStr (CollaborationMessage.source_agent message));
       ("target_agent", VStr (CollaborationMessage.target_agent message));
       ("duration_seconds", VNumber (round_to 6 duration_seconds)); ("result", VDict result)].

End Orchestrator.
End CollaborationOrchestrator.

(** * What a run does *)

Section Runs.
Context `{Oracle} {W : Type} (node_runner : WorkflowNode → doc → M W val).
Context (workflow_id idempotency_key : string).
Implicit Types (s : running W) (n : WorkflowNode).
Import WorkflowEngine.

(** A call of the runner: the node, its input, and what came of it. *)
Abbreviation runner_call := (WorkflowNode * doc * res val)%type.

(** These calls, one after the other, lead from one world to another. *)
Fixpoint called (w : W) (cs : list runner_call) (w' : W) : Prop :=
  match cs with
  | [] => w' = w
  | (n, input, r) :: cs' => ∃ w1, node_runner n input w = (r, w1) ∧ called w1 cs' w'
  end.

Lemma called_app w cs cs' w' : called w (cs ++ cs') w' ↔ ∃ w1, called w cs w1 ∧ called w1 cs' w'.
Proof.
  revert w. induction cs as [|[[n input] r] cs IH]; intros w; cbn [app called]; [naive_solver|]. setoid_rewrite IH. naive_solver.
Qed.

Definition result_of (id : string) s : val := NodeState.result (node_state id s).

(** The results a node is given of those it depends on. *)
Definition results_for (results : string → val) n : doc :=
  foldl (fun d dep => dset d dep (results dep)) [] (WorkflowNode.dependencies n).

Lemma results_for_ext results results' n :
  (∀ dep, dep ∈ WorkflowNode.dependencies n → results dep = results' dep) → results_for results n = results_for results' n.
Proof.
  unfold results_for. generalize (@nil (string * val)) as d. induction (WorkflowNode.dependencies n) as [|dep l IH]; intros d Hd; [done|].
  cbn [foldl]. rewrite Hd by set_solver. apply IH. set_solver.
Qed.

(** Failed calls of a node with one input. *)
Definition failing n (input : doc) (cs : list runner_call) : Prop := Forall (fun c => ∃ e, c = (n, input, Err e)) cs.

Lemma dset_keys {A} (d : dict A) k a : k ∈ d.*1 → (dset d k a).*1 = d.*1.
Proof. intros Hk. by rewrite dset_fst, decide_True. Qed.

(** The effect of a part of the run on what other nodes see. *)
Record kept (id : string) s s' : Prop := Kept {
  kp_cache : _run_cache s' = _run_cache s;
  kp_keys : id ∈ (state s).*1 → (state s').*1 = (state s).*1;
  kp_others : ∀ k, k ≠ id → node_state k s' = node_state k s;
}.

Lemma kept_trans id s1 s2 s3 : kept id s1 s2 → kept id s2 s3 → kept id s1 s3.
Proof.
  intros [c1 k1 o1] [c2 k2 o2]. split; [congruence| |intros k Hk; by rewrite o2, o1]. intros Hin. rewrite k2; [by apply k1|]. by rewrite k1.
Qed.

(** A trace is appended, and the clock was asked. *)
Lemma trace_eq n status error started_at s :
  ∃ d, trace n status error started_at s =
    (Ok tt, Running (world s) (Datatypes.S (tick s)) (_run_cache s) (state s) (traces s ++ [d]) (context s)).
Proof. by eexists. Qed.

(** What an attempt does. *)
Lemma attempt_eq n s :
  let id := WorkflowNode.node_id n in
  let input := node_input workflow_id n (after (update_node id NodeState.attempt) s) in
  ∃ r s' rv, attempt node_runner workflow_id n s = (r, s') ∧ node_runner n input (world s) = (rv, world s') ∧ kept id s s' ∧
    match r with
    | Ok true => ∃ v, rv = Ok v ∧ result_of id s' = v
    | Ok false => ∃ e, rv = Err e ∧ result_of id s' = result_of id s ∧ context s' = context s ∧
        NodeState.attempts (node_state id s') = NodeState.attempts (node_state id s) + 1 ∧
        NodeState.attempts (node_state id s) + 1 <= WorkflowNode.max_retries n
    | Err e => exn_cls e = ConflictError ∧ (∃ e', rv = Err e') ∧
        WorkflowNode.max_retries n < NodeState.attempts (node_state id s) + 1
    end.
Proof.
  intros id input. unfold attempt. unfold bind at 1, update_node at 1, modify at 1. unfold bind at 1, utc_now at 1.
  cbn [world tick _run_cache state traces context]. set (s1 := Running _ _ _ _ _ _). unfold try_except. unfold bind at 1, gets at 1.
  assert (Hin : node_input workflow_id n s1 = input) by done. rewrite Hin.
  unfold bind at 1, call, zoom. destruct (node_runner n input (world s1)) as [[v|e] w] eqn:Er.
  - unfold bind, update_node, set_context, trace, add_trace, gets, modify, utc_now, ret. cbn [world tick _run_cache state traces context].
    do 3 eexists. split; [reflexivity|]. split; [exact Er|]. split; [|exists v; split; [reflexivity|]].
    + split; cbn [_run_cache state]; [done| |].
      * intros Hk. rewrite dset_keys; unfold s1; cbn [state]; by rewrite dset_keys.
      * intros k Hk. unfold id in Hk. unfold node_state, s1. cbn [state]. by rewrite !dget_dset_ne by congruence.
    + unfold result_of, node_state at 1. cbn [state]. by rewrite dget_dset_eq.
  - set (s2 := Running w _ _ _ _ _). edestruct (trace_eq n "failed") as [d Ed]. unfold bind at 1. rewrite Ed. clear Ed.
    set (s3 := Running _ _ _ _ _ _). unfold bind at 1, gets at 1.
    assert (Hatt : node_state id s1 = NodeState.attempt (node_state id s)).
    { unfold node_state at 1, s1. cbn [state]. by rewrite dget_dset_eq. }
    assert (Hk1 : kept id s s1).
    { split; [done| |].
      - intros Hk. unfold s1. cbn [state]. by apply dset_keys.
      - intros k Hk. unfold id in Hk. unfold node_state, s1. cbn [state]. by rewrite dget_dset_ne by congruence. }
    assert (Hst : node_state id s3 = node_state id s1) by done.
    fold id. rewrite Hst, Hatt. cbn [NodeState.attempts NodeState.attempt].
    destruct (Z.gtb_spec (NodeState.attempts (node_state id s) + 1) (WorkflowNode.max_retries n)) as [Hgt|Hle].
    + unfold bind, update_node, modify, raise.
      do 3 eexists. split; [reflexivity|]. split; [exact Er|]. split; [|by split_and!; [|eexists|]].
      eapply kept_trans; [exact Hk1|]. split; [done| |].
      * intros Hk. cbn [state]. by apply dset_keys.
      * intros k Hk. unfold id in Hk. unfold node_state. cbn [state]. by rewrite dget_dset_ne by (unfold id; congruence).
    + do 3 eexists. split; [reflexivity|]. split; [exact Er|]. split; [destruct Hk1 as [? ? ?]; by split|].
      exists e. unfold result_of. rewrite Hst, Hatt. cbn. split_and!; done.
Qed.
Lemma node_input_ext n s s' :
  context s' = context s → (∀ k, result_of k s' = result_of k s) → node_input workflow_id n s' = node_input workflow_id n s.
Proof.
  intros Hc Hr. unfold node_input, dependency_results. rewrite Hc.
  pose proof (results_for_ext (fun k => result_of k s') (fun k => result_of k s) n (fun k _ => Hr k)) as Hd.
  unfold results_for, result_of in Hd. by rewrite Hd.
Qed.

Lemma node_input_attempt n s :
  node_input workflow_id n (after (update_node (WorkflowNode.node_id n) NodeState.attempt) s) = node_input workflow_id n s.
Proof.
  apply node_input_ext; [done|]. intros k. unfold result_of, node_state, after, update_node, modify. cbn [snd state].
  rewrite dget_dset. case_bool_decide as Hk; [|done]. subst k. unfold node_state. by destruct (dget _ _).
Qed.

(** What the loop over the attempts does, while there is one left. *)
Lemma attempt_loop_eq n fuel s :
  let id := WorkflowNode.node_id n in
  let input := node_input workflow_id n s in
  Z.of_nat fuel = WorkflowNode.max_retries n + 1 - NodeState.attempts (node_state id s) → (0 < fuel)%nat →
  ∃ r s' fails, attempt_loop node_runner workflow_id n fuel s = (r, s') ∧ kept id s s' ∧ failing n input fails ∧
    match r with
    | Ok _ => ∃ v, called (world s) (fails ++ [(n, input, Ok v)]) (world s') ∧ (length fails < fuel)%nat ∧ result_of id s' = v
    | Err e => exn_cls e = ConflictError ∧ called (world s) fails (world s') ∧ length fails = fuel
    end.
Proof.
  intros id input. subst input. revert s. induction fuel as [|fuel IH]; intros s Hf Hpos; [lia|]. cbn [attempt_loop]. unfold bind.
  destruct (attempt_eq n s) as (r & s1 & rv & -> & Hrun & Hk & Hr). rewrite node_input_attempt in Hrun. fold id in Hk, Hr.
  destruct r as [[|]|e].
  - destruct Hr as (v & -> & Hv). exists (Ok tt), s1, []. split; [done|]. split; [done|]. split; [by constructor|].
    exists v. split; [by eexists|]. split; [cbn; lia|done].
  - destruct Hr as (e & -> & Hres & Hctx & Hatt & Hle). fold id in Hatt, Hle.
    assert (Hin : node_input workflow_id n s1 = node_input workflow_id n s).
    { apply node_input_ext; [done|]. intros k. destruct (decide (k = id)) as [->|Hne]; [done|]. unfold result_of. by rewrite (kp_others _ _ _ Hk). }
    destruct (IH s1) as (r & s2 & fails & E & Hk2 & Hfl & Hr); [lia|lia|]. rewrite Hin in Hfl, Hr.
    exists r, s2, ((n, node_input workflow_id n s, Err e) :: fails). split; [exact E|]. split; [by eapply kept_trans|].
    split; [constructor; [by exists e|done]|]. destruct r as [[]|e2].
    + destruct Hr as (v & Hc & Hlen & Hv). exists v. split; [by exists (world s1)|]. split; [cbn; lia|done].
    + destruct Hr as (He & Hc & Hlen). split; [done|]. split; [by exists (world s1)|]. cbn. by rewrite Hlen.
  - destruct Hr as (He & (e' & ->) & Hlt). fold id in Hlt. exists (Err e), s1, [(n, node_input workflow_id n s, Err e')].
    split; [done|]. split; [done|]. split; [constructor; [by exists e'|constructor]|]. split; [done|].
    split; [by eexists|]. cbn. lia.
Qed.

(** The calls for a node in a run that ends with these results: failed ones, no
    more than its retries, and one that gives its result, all with the same
    input; none when the number of retries is negative. *)
Definition node_calls (results : string → val) n (cs : list runner_call) : Prop :=
  (WorkflowNode.max_retries n < 0 ∧ cs = [] ∧ results (WorkflowNode.node_id n) = VNone) ∨
  ∃ input fails, cs = fails ++ [(n, input, Ok (results (WorkflowNode.node_id n)))] ∧ failing n input fails ∧
    Z.of_nat (length fails) <= WorkflowNode.max_retries n ∧
    dget input "dependency_results" = Some (VDict (results_for results n)).

(** The calls for a node that fails its run: all its attempts, which all fail. *)
Definition failed_calls (results : string → val) n (cs : list runner_call) : Prop :=
  Z.of_nat (length cs) = WorkflowNode.max_retries n + 1 ∧ cs ≠ [] ∧
  ∃ input, failing n input cs ∧ dget input "dependency_results" = Some (VDict (results_for results n)).

Lemma run_node_eq n s :
  let id := WorkflowNode.node_id n in
  node_state id s = NodeState.new → id ∉ WorkflowNode.dependencies n →
  ∃ r s', run_node node_runner workflow_id n s = (r, s') ∧ kept id s s' ∧
    match r with
    | Ok _ => ∃ cs, called (world s) cs (world s') ∧ node_calls (fun k => result_of k s') n cs
    | Err e => exn_cls e = ConflictError ∧
        ∃ cs, called (world s) cs (world s') ∧ failed_calls (fun k => result_of k s') n cs
    end.
Proof.
  intros id Hnew Hdep. unfold run_node. destruct (Z.lt_ge_cases (WorkflowNode.max_retries n) 0) as [Hneg|Hpos].
  { replace (Z.to_nat (WorkflowNode.max_retries n + 1)) with O by lia. exists (Ok tt), s. split; [done|]. split; [done|]. exists []. split; [done|]. left.
    unfold result_of. fold id. by rewrite Hnew. }
  destruct (attempt_loop_eq n (Z.to_nat (WorkflowNode.max_retries n + 1)) s) as (r & s' & fails & E & Hk & Hf & Hr).
  { fold id. rewrite Hnew. cbn. lia. }
  { lia. }
  exists r, s'. split; [exact E|]. split; [exact Hk|].
  assert (Hin : dget (node_input workflow_id n s) "dependency_results" = Some (VDict (results_for (fun k => result_of k s') n))).
  { cbn. do 2 f_equal. unfold dependency_results. apply (results_for_ext (fun k => result_of k s) (fun k => result_of k s')).
    intros dep Hd. unfold result_of. rewrite (kp_others _ _ _ Hk); [done|]. fold id. by intros ->. }
  destruct r as [[]|e].
  - destruct Hr as (v & Hc & Hlen & Hv). eexists. split; [exact Hc|]. right.
    exists (node_input workflow_id n s), fails. cbv beta. rewrite Hv. split_and!; [done|done|lia|exact Hin].
  - destruct Hr as (He & Hc & Hlen). split; [done|]. exists fails. split; [exact Hc|]. split; [lia|].
    split; [|by eexists]. intros ->. cbn in Hlen. lia.
Qed.

(** Nodes in an order in which none depends on itself or a later one. *)
Definition forward (l : list WorkflowNode) : Prop :=
  NoDup (WorkflowNode.node_id <$> l) ∧
  ∀ l1 n l2, l = l1 ++ n :: l2 → ∀ dep, dep ∈ WorkflowNode.dependencies n → dep ∉ WorkflowNode.node_id <$> (n :: l2).

Lemma node_calls_ext results results' n cs :
  results (WorkflowNode.node_id n) = results' (WorkflowNode.node_id n) →
  (∀ dep, dep ∈ WorkflowNode.dependencies n → results dep = results' dep) → node_calls results n cs → node_calls results' n cs.
Proof.
  intros Hid Hd [(Hneg & -> & Hr)|(input & fails & -> & Hf & Hle & Hin)]; [left; by rewrite <- Hid|right].
  exists input, fails. rewrite <- Hid, <- (results_for_ext _ _ _ Hd). done.
Qed.

Lemma failed_calls_ext results results' n cs :
  (∀ dep, dep ∈ WorkflowNode.dependencies n → results dep = results' dep) → failed_calls results n cs → failed_calls results' n cs.
Proof. intros Hd (Hlen & Hne & input & Hf & Hin). split_and!; [done|done|]. exists input. by rewrite <- (results_for_ext _ _ _ Hd). Qed.

Lemma run_nodes_eq l s :
  forward l → (∀ n, n ∈ l → node_state (WorkflowNode.node_id n) s = NodeState.new ∧ WorkflowNode.node_id n ∈ (state s).*1) →
  ∃ r s', for_each l (run_node node_runner workflow_id) s = (r, s') ∧ _run_cache s' = _run_cache s ∧ (state s').*1 = (state s).*1 ∧
    (∀ k, k ∉ WorkflowNode.node_id <$> l → node_state k s' = node_state k s) ∧
    match r with
    | Ok _ => ∃ blocks, called (world s) (concat blocks) (world s') ∧ Forall2 (node_calls (fun k => result_of k s')) l blocks
    | Err e => exn_cls e = ConflictError ∧ ∃ before n after blocks fails, l = before ++ n :: after ∧
        called (world s) (concat blocks ++ fails) (world s') ∧
        Forall2 (node_calls (fun k => result_of k s')) before blocks ∧ failed_calls (fun k => result_of k s') n fails
    end.
Proof.
  revert s. induction l as [|n l IH]; intros s Hfw Hnew; cbn [for_each].
  { exists (Ok tt), s. split; [done|]. split; [done|]. split; [done|]. split; [done|]. exists []. by split; [|constructor]. }
  destruct Hfw as [Hnd Hdeps]. apply NoDup_cons in Hnd as [Hn Hnd].
  pose proof (Hdeps [] n l eq_refl) as Hdep. unfold bind.
  destruct (run_node_eq n s) as (r & s1 & -> & Hk & Hr); [by apply Hnew; left|intros Hd; apply (Hdep _ Hd); by left|].
  assert (Hkeys : (state s1).*1 = (state s).*1) by (apply (kp_keys _ _ _ Hk), Hnew; by left).
  destruct r as [[]|e].
  2: { exists (Err e), s1. split; [done|]. split; [apply Hk|]. split; [done|].
       split; [intros k Hkl; apply (kp_others _ _ _ Hk); set_solver|]. destruct Hr as (He & cs & Hcs & Hfc). split; [done|].
       exists [], n, l, [], cs. by split_and!; [| |constructor|]. }
  destruct Hr as (cs & Hcs & Hnc). destruct (IH s1) as (r & s2 & E & Hca & Hks & Hoth & Hr).
  - split; [done|]. intros l1 m l2 ->. by apply (Hdeps (n :: l1) m l2).
  - intros m Hm. rewrite Hkeys. destruct (Hnew m) as [Hm1 Hm2]; [by right|]. split; [|done]. rewrite (kp_others _ _ _ Hk); [done|].
    intros Heq. apply Hn. rewrite <- Heq. by apply list_elem_of_fmap_2.
  - exists r, s2. split; [exact E|]. split; [rewrite Hca; apply Hk|]. split; [congruence|]. split.
    { intros k Hkl. rewrite Hoth by set_solver. apply (kp_others _ _ _ Hk). set_solver. }
    assert (Hnc2 : node_calls (fun k => result_of k s2) n cs).
    { eapply node_calls_ext; [| |exact Hnc]; unfold result_of; [by rewrite Hoth|].
      intros dep Hd. rewrite Hoth; [done|]. specialize (Hdep dep Hd). set_solver. }
    destruct r as [[]|e].
    + destruct Hr as (blocks & Hcl & Hbl). exists (cs :: blocks). split; [cbn; apply called_app; by exists (world s1)|].
      by constructor.
    + destruct Hr as (He & before & m & rest & blocks & fails & -> & Hcl & Hbl & Hfc). split; [done|].
      exists (n :: before), m, rest, (cs :: blocks), fails. split; [done|]. split; [|by split; [constructor|]].
      cbn. rewrite <- app_assoc. apply called_app. by exists (world s1).
Qed.

Lemma forward_order nodes l : order_of nodes l → forward l.
Proof.
  intros (Hp & Hnd & Hf). split; [exact Hnd|]. intros l1 n l2 -> dep Hd Hin. specialize (Hf l1 n l2 eq_refl dep Hd).
  rewrite fmap_app in Hnd. apply NoDup_app in Hnd as (_ & Hdis & _). by apply (Hdis dep Hf).
Qed.

Lemma node_results_eq s :
  dict_ok (state s) → map (fun p => (p.1, NodeState.result p.2)) (state s) = (fun k => (k, result_of k s)) <$> (state s).*1.
Proof.
  intros Hd. rewrite <- list_fmap_compose. apply list_fmap_ext. intros i [k x] Hi%list_elem_of_lookup_2. cbn.
  unfold result_of, node_state. by rewrite (elem_dget _ k x Hd Hi).
Qed.

(** A run whose key has no output yet. *)
Lemma run_eq nodes payload s :
  let key := cache_key workflow_id idempotency_key in
  dget (_run_cache s) key = None →
  ∃ r s', run node_runner workflow_id idempotency_key nodes payload s = (r, s') ∧
    match r with
    | Ok out => ∃ order blocks results, _topological_sort nodes = Ok order ∧
        called (world s) (concat blocks) (world s') ∧ Forall2 (node_calls results) order blocks ∧
        dget out "node_results" = Some (VDict ((fun n => (WorkflowNode.node_id n, results (WorkflowNode.node_id n))) <$> order)) ∧
        _run_cache s' = dset (_run_cache s) key out
    | Err e => _run_cache s' = _run_cache s ∧
        (_topological_sort nodes = Err e ∧ s' = s ∨
         exn_cls e = ConflictError ∧ ∃ before n after blocks fails results, _topological_sort nodes = Ok (before ++ n :: after) ∧
           called (world s) (concat blocks ++ fails) (world s') ∧ Forall2 (node_calls results) before blocks ∧
           failed_calls results n fails)
    end.
Proof.
  intros key Hnone. unfold run. unfold bind at 1, gets at 1. fold key. rewrite Hnone. unfold bind at 1, of_res at 1.
  pose proof (topological_sort_spec nodes) as Hs. destruct (_topological_sort nodes) as [order|e]; [|exists (Err e), s; split; [done|]; auto].
  unfold bind at 1, modify at 1. set (s0 := Running _ _ _ _ _ _).
  assert (Hst : ∀ n, n ∈ order → node_state (WorkflowNode.node_id n) s0 = NodeState.new ∧ WorkflowNode.node_id n ∈ (state s0).*1).
  { intros n Hn. assert (Hin : (WorkflowNode.node_id n, NodeState.new) ∈ state s0) by (apply list_elem_of_fmap; by exists n). split.
    - unfold node_state. rewrite (elem_dget _ _ NodeState.new); [done| |done]. unfold dict_ok, s0. cbn [state]. rewrite <- list_fmap_compose.
      cbn. apply (forward_order nodes order Hs).
    - apply list_elem_of_fmap. by exists (WorkflowNode.node_id n, NodeState.new). }
  destruct (run_nodes_eq order s0 (forward_order nodes order Hs) Hst) as (r & s1 & E & Hca & Hks & _ & Hr). unfold bind at 1. rewrite E.
  destruct r as [[]|e].
  2: { exists (Err e), s1. split; [done|]. split; [exact Hca|]. right. destruct Hr as (He & before & n & rest & blocks & fails & -> & Hr).
       split; [done|]. by exists before, n, rest, blocks, fails, (fun k => result_of k s1). }
  destruct Hr as (blocks & Hcl & Hbl).
  unfold bind, gets, modify, ret. do 2 eexists. split; [reflexivity|].
  exists order, blocks, (fun k => result_of k s1). split_and!; [done|done|done| |cbn [_run_cache]; by rewrite Hca].
  cbn. do 2 f_equal. rewrite node_results_eq.
  - rewrite Hks. unfold s0. cbn [state]. by rewrite <- list_fmap_compose, <- list_fmap_compose.
  - unfold dict_ok. rewrite Hks. unfold s0. cbn [state]. rewrite <- list_fmap_compose. apply (forward_order nodes order Hs).
Qed.
End Runs.

(** ** Later runs *)

(** A run someone asks for. *)
Record request (W : Type) := Request {
  node_runner : WorkflowNode → doc → M W val;
  workflow_id : string;
  idempotency_key : string;
  nodes : list WorkflowNode;
  initial_payload : doc;
}.
Arguments node_runner {W}.
Arguments workflow_id {W}.
Arguments idempotency_key {W}.
Arguments nodes {W}.
Arguments initial_payload {W}.

Definition run_request `{Oracle} {W} (q : request W) : M (running W) doc :=
  WorkflowEngine.run (node_runner q) (workflow_id q) (idempotency_key q) (nodes q) (initial_payload q).

(** The state after the runs, returned or not. *)
Definition run_requests `{Oracle} {W} (qs : list (request W)) (s : running W) : running W :=
  fold_left (fun s q => after (run_request q) s) qs s.

(** A run keeps the outputs there are. *)
Lemma run_keeps_output `{Oracle} {W} (q : request W) key out (s : running W) :
  dget (_run_cache s) key = Some out → dget (_run_cache (after (run_request q) s)) key = Some out.
Proof.
  intros Hk. unfold after, run_request.
  destruct (dget (_run_cache s) (WorkflowEngine.cache_key (workflow_id q) (idempotency_key q))) as [out'|] eqn:Ec.
  { unfold WorkflowEngine.run, bind at 1, gets at 1. by rewrite Ec. }
  destruct (run_eq (node_runner q) _ _ (nodes q) (initial_payload q) s Ec) as (r & s' & -> & Hr). cbn [snd].
  destruct r as [out'|e]; [|destruct Hr as [-> _]; exact Hk]. destruct Hr as (? & ? & ? & _ & _ & _ & _ & ->).
  rewrite dget_dset_ne; [done|]. congruence.
Qed.

Lemma run_requests_keep_output `{Oracle} {W} (qs : list (request W)) key out (s : running W) :
  dget (_run_cache s) key = Some out → dget (_run_cache (run_requests qs s)) key = Some out.
Proof. unfold run_requests. revert s. induction qs as [|q qs IH]; intros s Hk; [done|]. cbn. by apply IH, run_keeps_output. Qed.

(** * Delegations *)

Section Delegations.
Context `{Oracle} {W : Type}.
Implicit Types (s : orchestrator W) (m : CollaborationMessage).
Import CollaborationOrchestrator.

(** The message may go from its source to its target, in time, and the run has
    not used up its delegations. *)
Definition admits s m : Prop :=
  (CollaborationMessage.source_agent m, CollaborationMessage.target_agent m) ∈ allowed_edges s ∧
  SFltb (max_timeout_seconds s) (CollaborationMessage.timeout_seconds m) = false ∧
  count_of (CollaborationMessage.correlation_id m) s < max_delegations_per_run s.

#[export] Instance admits_dec s m : Decision (admits s m).
Proof. unfold admits. apply _. Defined.

Lemma count_set id id' n s : count_of id' (set_count id n s) = if bool_decide (id = id') then n else count_of id' s.
Proof. unfold count_of, set_count. cbn [counts]. rewrite dget_dset. by case_bool_decide. Qed.

(** What a call leaves of the policy and the counts. *)
Definition same_rules s s' : Prop :=
  allowed_edges s' = allowed_edges s ∧ max_delegations_per_run s' = max_delegations_per_run s ∧ max_timeout_seconds s' = max_timeout_seconds s.

Lemma delegate_eq m (handler : CollaborationMessage → M W doc) s :
  ∃ r s', delegate m handler s = (r, s') ∧ same_rules s s' ∧
    if decide (admits s m)
    then ∃ rh, handler m (outside s) = (rh, outside s') ∧ is_ok r = is_ok rh ∧
      ∀ id, count_of id s' = count_of id s + (if bool_decide (CollaborationMessage.correlation_id m = id) then 1 else 0)
    else is_ok r = false ∧ s' = s.
Proof.
  unfold delegate. unfold bind at 1, get_state at 1.
  destruct (decide (admits s m)) as [(Hedge & Htime & Hcount)|Hno].
  2: { destruct (bool_decide _) eqn:Hedge; cbn [negb]; [|by eexists _, s]. apply bool_decide_eq_true in Hedge.
    destruct (SFltb _ _) eqn:Htime; [by eexists _, s|].
    destruct (Z.gtb_spec (count_of (CollaborationMessage.correlation_id m) s + 1) (max_delegations_per_run s)); [by eexists _, s|].
    destruct Hno. split_and!; [done|done|lia]. }
  rewrite bool_decide_eq_true_2, Htime by done. cbn [negb]. cbv zeta. rewrite Z.gtb_ltb, (proj2 (Z.ltb_ge _ _)) by lia.
  unfold bind at 1, modify at 1. set (s1 := set_count _ _ s). unfold bind at 1, monotonic at 1. unfold bind at 1, zoom. cbn [outside].
  change (outside s1) with (outside s).
  assert (Hc : ∀ id, count_of id s1 = count_of id s + (if bool_decide (CollaborationMessage.correlation_id m = id) then 1 else 0)).
  { intros id. unfold s1. rewrite count_set. case_bool_decide as Hid; [by rewrite <- Hid|lia]. }
  destruct (handler m (outside s)) as [[d|e] w]; [unfold bind, monotonic, ret|].
  - do 2 eexists. split; [reflexivity|]. split; [done|]. exists (Ok d). split_and!; [done|done|exact Hc].
  - do 2 eexists. split; [reflexivity|]. split; [done|]. exists (Err e). split_and!; [done|done|exact Hc].
Qed.

Inductive op := Allow (source target : string) | Delegate m (handler : CollaborationMessage → M W doc).

Definition apply (o : op) s : orchestrator W :=
  match o with
  | Allow source target => after (allow_edge source target) s
  | Delegate m handler => after (delegate m handler) s
  end.

(** The message that reaches its handler, if one does. *)
Definition handled (o : op) s : list CollaborationMessage :=
  match o with
  | Allow _ _ => []
  | Delegate m _ => if decide (admits s m) then [m] else []
  end.

Fixpoint run_ops (ops : list op) s : list CollaborationMessage * orchestrator W :=
  match ops with
  | [] => ([], s)
  | o :: ops' => let '(l, s') := run_ops ops' (apply o s) in (handled o s ++ l, s')
  end.

(** How many of the messages belong to the run. *)
Definition delegations_of (id : string) (l : list CollaborationMessage) : Z :=
  Z.of_nat (length (base.filter (fun m => CollaborationMessage.correlation_id m = id) l)).

Lemma delegations_app id l l' : delegations_of id (l ++ l') = delegations_of id l + delegations_of id l'.
Proof. unfold delegations_of. rewrite filter_app, length_app. lia. Qed.

Lemma step_eq o s :
  let s' := apply o s in
  max_delegations_per_run s' = max_delegations_per_run s ∧ max_timeout_seconds s' = max_timeout_seconds s ∧
  allowed_edges s ⊆ allowed_edges s' ∧
  ∀ id, count_of id s' = count_of id s + delegations_of id (handled o s) ∧
    (count_of id s <= Z.max 0 (max_delegations_per_run s) → count_of id s' <= Z.max 0 (max_delegations_per_run s)).
Proof.
  intros s'. subst s'. destruct o as [source target|m handler]; cbn [apply handled].
  - unfold after, allow_edge, modify. cbn. split_and!; [done|done|set_solver|]. intros id. unfold delegations_of, count_of. cbn. lia.
  - destruct (delegate_eq m handler s) as (r & s' & E & (He & Hm & Ht) & Hr). unfold after. rewrite E. cbn [snd].
    split_and!; [done|done|by rewrite He|]. intros id. destruct (decide (admits s m)) as [(_ & _ & Hlt)|].
    + destruct Hr as (rh & _ & _ & Hc). rewrite Hc. unfold delegations_of. rewrite filter_cons, filter_nil.
      case_bool_decide as Hid; [rewrite decide_True by done; subst id|rewrite decide_False by done]; cbn; lia.
    + destruct Hr as [_ ->]. unfold delegations_of. cbn. lia.
Qed.
End Delegations.

(** * Properties *)

(** C30: a workflow runs once for its key, and as its graph says. With an output for
    the key, a run returns it and does nothing else. Without one, the runner is
    called for the nodes in an order in which dependencies come first: for each
    node some failed calls, no more than its retries, and one that gives its
    result, all with the results of the nodes it depends on (a node with a
    negative number of retries is not called, and its result is None); the
    output holds the results and is kept under the key, with all the outputs
    kept before. A run that raises keeps nothing: the graph has no order, and
    nothing was called; or the nodes before the one that failed were called as
    above, and then that one once more than its retries, in vain. Once a run
    has returned, whatever runs follow, of this key or others, a run of its key
    returns its output and calls nothing. *)
Theorem workflow_run_once `{Oracle} {W} (q : request W) (s : running W) :
  let key := WorkflowEngine.cache_key (workflow_id q) (idempotency_key q) in
  ∃ r s', run_request q s = (r, s') ∧
    match dget (_run_cache s) key with
    | Some out => r = Ok out ∧ s' = s
    | None =>
        match r with
        | Ok out => ∃ order blocks results, order_of (nodes q) order ∧
            called (node_runner q) (world s) (concat blocks) (world s') ∧ Forall2 (node_calls results) order blocks ∧
            dget out "node_results" =
              Some (VDict ((fun n => (WorkflowNode.node_id n, results (WorkflowNode.node_id n))) <$> order)) ∧
            _run_cache s' = dset (_run_cache s) key out
        | Err e => _run_cache s' = _run_cache s ∧
            (¬ (∃ order, order_of (nodes q) order) ∧ s' = s ∨
             exn_cls e = ConflictError ∧ ∃ before n after blocks fails results, order_of (nodes q) (before ++ n :: after) ∧
               called (node_runner q) (world s) (concat blocks ++ fails) (world s') ∧
               Forall2 (node_calls results) before blocks ∧ failed_calls results n fails)
        end
    end ∧
    ∀ out, r = Ok out → ∀ later runner nodes' payload',
      let s'' := run_requests later s' in
      WorkflowEngine.run runner (workflow_id q) (idempotency_key q) nodes' payload' s'' = (Ok out, s'').
Proof.
  intros key.
  assert (Hlater : ∀ out (s' : running W), dget (_run_cache s') key = Some out → ∀ later runner nodes' payload',
    WorkflowEngine.run runner (workflow_id q) (idempotency_key q) nodes' payload' (run_requests later s') =
    (Ok out, run_requests later s')).
  { intros out s' Hk later runner nodes' payload'. unfold WorkflowEngine.run, bind at 1, gets at 1. fold key.
    by rewrite (run_requests_keep_output later key out s' Hk). }
  destruct (dget (_run_cache s) key) as [out|] eqn:Ec.
  - exists (Ok out), s. split_and!; [by apply (Hlater out s Ec [])|done|done|]. intros out' [= <-]. by apply Hlater.
  - destruct (run_eq (node_runner q) (workflow_id q) (idempotency_key q) (nodes q) (initial_payload q) s Ec) as (r & s' & E & Hr).
    exists r, s'. split; [exact E|]. pose proof (topological_sort_spec (nodes q)) as Hs. destruct r as [out|e].
    + destruct Hr as (order & blocks & results & Eo & Hcl & Hbl & Hout & Hca). rewrite Eo in Hs.
      split; [by exists order, blocks, results|]. intros out' [= <-]. apply Hlater. rewrite Hca. apply dget_dset_eq.
    + split; [|done]. destruct Hr as [Hca [[Eo Hw]|(He & before & n & rest & blocks & fails & results & Eo & Hr)]];
        (split; [exact Hca|]); rewrite Eo in Hs; [left; by split; [apply Hs|]|right].
      split; [done|]. by exists before, n, rest, blocks, fails, results.
Qed.

(** Delegations are bounded. Whatever edges are allowed and whatever is
    delegated, each message that reaches its handler goes along an edge that was
    allowed and asks for no more time than the limit, and no run has more
    delegations handled than its limit. *)
Theorem delegations_bounded `{Oracle} {W} (ops : list op) (s : orchestrator W) :
  counts s = [] →
  let '(l, s') := run_ops ops s in
  (∀ id, delegations_of id l <= Z.max 0 (max_delegations_per_run s)) ∧
  Forall (fun m => (CollaborationMessage.source_agent m, CollaborationMessage.target_agent m) ∈ allowed_edges s' ∧
                   SFltb (max_timeout_seconds s) (CollaborationMessage.timeout_seconds m) = false) l.
Proof.
  intros Hc. assert (Hgen : let '(l, s') := run_ops ops s in
    allowed_edges s ⊆ allowed_edges s' ∧
    (∀ id, CollaborationOrchestrator.count_of id s <= Z.max 0 (max_delegations_per_run s) →
       CollaborationOrchestrator.count_of id s + delegations_of id l <= Z.max 0 (max_delegations_per_run s)) ∧
    Forall (fun m => (CollaborationMessage.source_agent m, CollaborationMessage.target_agent m) ∈ allowed_edges s' ∧
                     SFltb (max_timeout_seconds s) (CollaborationMessage.timeout_seconds m) = false) l).
  { clear Hc. revert s. induction ops as [|o ops IH]; intros s; cbn [run_ops].
    { split_and!; [done| |constructor]. intros id. unfold delegations_of. cbn. lia. }
    destruct (step_eq o s) as (Hm & Ht & He & Hid). specialize (IH (apply o s)). destruct (run_ops ops (apply o s)) as [l s'].
    rewrite Hm, Ht in IH. destruct IH as (He' & Hcount & Hall). split_and!; [by etransitivity| |].
    - intros id Hle. rewrite delegations_app. destruct (Hid id) as [Heq Hle']. specialize (Hcount id (Hle' Hle)). lia.
    - apply Forall_app. split; [|exact Hall]. destruct o as [|m h]; cbn [handled]; [constructor|].
      destruct (decide (admits s m)) as [(Hedge & Htime & _)|]; [|constructor]. constructor; [|constructor]. split; [|done]. by apply He', He. }
  destruct (run_ops ops s) as [l s']. destruct Hgen as (_ & Hcount & Hall). split; [|exact Hall]. intros id. specialize (Hcount id).
  unfold CollaborationOrchestrator.count_of in Hcount. rewrite Hc in Hcount. cbn in Hcount. lia.
Qed.

(** ** Witness *)

Definition demo_delegate (id : string) : CollaborationMessage :=
  CollaborationMessage.Mk "delegate" "a" "b" [] id None (lit 300 1) 0.

Definition demo_orchestrator : orchestrator nat := Orchestrator 0%nat ∅ 1 (lit 3000 1) [] 0.

(** One delegation of the run passes; before the edge is allowed none does. *)
Definition demo_ops : list (op (W := nat)) :=
  let send := Delegate (demo_delegate "run-1") (fun _ n => (Ok [], Datatypes.S n)) in [send; Allow "a" "b"; send; send].

Lemma delegations_bounded_witness :
  ∃ l s', run_ops (H := demo_oracle) demo_ops demo_orchestrator = (l, s') ∧ length l = 1%nat ∧ outside s' = 1%nat ∧
    ∀ id, delegations_of id l <= 1.
Proof.
  pose proof (delegations_bounded (H := demo_oracle) demo_ops demo_orchestrator eq_refl) as Hb.
  assert (E : length (run_ops (H := demo_oracle) demo_ops demo_orchestrator).1 = 1%nat ∧
    outside (run_ops (H := demo_oracle) demo_ops demo_orchestrator).2 = 1%nat) by (vm_compute; by split).
  destruct (run_ops demo_ops demo_orchestrator) as [l s']. exists l, s'. destruct Hb as [Hb _]. split_and!; [reflexivity|apply E|apply E|exact Hb].
Defined.
