(* ===== verification/PhaseMemory.v ===== *)
(** The memory of agents in phase 1 (agentfabric/phase1/memory.py): values under
    the user, the session and the agent they belong to, kept for a time and
    written to a file. *)

From stdpp Require Import base option list strings.
From Stdlib Require Import ZArith Lia.
From S2P Require Import Prelude PyVal PyTime Json Store EventStore Documents.

Local Open Scope Z_scope.

(** * memory.py *)

Module MemoryScope.
Record t := Mk { user_id : string; session_id : string; agent_id : string }.

Definition key_prefix (s : t) : string := user_id s +:+ ":" +:+ session_id s +:+ ":" +:+ agent_id s.
End MemoryScope.

Abbreviation MemoryScope := MemoryScope.t.

Module ScopedMemoryStore.

(** What is kept under a key. *)
Record item := Item { value : val; expires_at : option string }.

(** [_records], the file they are written to, and the count of the questions put
    to the clock. The file is the dict that is read back from its text, in the
    order of the text. *)
Record t := Mk { _records : dict item; _storage_file : option (dict item); tick : nat }.

Definition canon_item (i : item) : item := Item (canon (value i)) (expires_at i).

(** What the text of the records gives back: keys in order, here and in the values. *)
Definition written (records : dict item) : dict item :=
  py_sorted key_le (map (fun p => (p.1, canon_item p.2)) records).

(** [ScopedMemoryStore(storage_file)] reads the file, when there is one. *)
Definition _load (file : option (dict item)) (tick : nat) : t := Mk (default [] file) file tick.

Definition _persist : M t unit := modify (fun s => Mk (_records s) (Some (written (_records s))) (tick s)).

Definition set_records (records : dict item) : M t unit := modify (fun s => Mk records (_storage_file s) (tick s)).

(** [f"{scope.key_prefix()}:{key}"] *)
Definition composite (scope : MemoryScope) (key : string) : string := MemoryScope.key_prefix scope +:+ ":" +:+ key.

Section Memory.
Context `{Oracle}.

Definition utc_now : M t Z := fun s => (Ok (clock (tick s)), Mk (_records s) (_storage_file s) (S (tick s))).

Definition set (scope : MemoryScope) (key : string) (value : val) (ttl_seconds : option Z) : M t unit :=
  let* expires_at := match ttl_seconds with
    | None => ret None
    | Some n =>
        let* now := utc_now in
        let* delta := of_res (timedelta_seconds n) in
        let* t := of_res (dt_add now delta) in
        ret (Some (isoformat t))
    end in
  let* records := gets _records in
  do* set_records (dset records (composite scope key) (Item value expires_at));
  _persist.

(** [expires_at and datetime.fromisoformat(expires_at) <= now], for a time that
    is asked for when it is needed. *)
Definition expired (i : item) (now : M t Z) : M t bool :=
  match expires_at i with
  | None | Some "" => ret false
  | Some text =>
      let* deadline := of_res (fromisoformat text) in
      let* now := now in
      ret (deadline <=? now)
  end.

(** [None] is the value [VNone]. *)
Definition get (scope : MemoryScope) (key : string) : M t val :=
  let* records := gets _records in
  match dget records (composite scope key) with
  | None => ret VNone
  | Some item =>
      let* gone := expired item utc_now in
      if gone then
        do* set_records (ddel records (composite scope key));
        do* _persist;
        ret VNone
      else ret (value item)
  end.

(** The loop over the keys, from the records it started with. *)
Fixpoint purge_loop (now : Z) (keys : list string) (removed : Z) : M t Z :=
  match keys with
  | [] => ret removed
  | key :: keys' =>
      let* records := gets _records in
      match dget records key with
      | None => raise KeyError (repr_str key)
      | Some item =>
          let* gone := expired item (ret now) in
          if gone then
            do* set_records (ddel records key);
            purge_loop now keys' (removed + 1)
          else purge_loop now keys' removed
      end
  end.

Definition purge_expired : M t Z :=
  let* now := utc_now in
  let* records := gets _records in
  let* removed := purge_loop now records.*1 0 in
  do* (if removed =? 0 then ret tt else _persist);
  ret removed.

End Memory.
End ScopedMemoryStore.

(** * Histories *)

Module MemoryHistory.
Import ScopedMemoryStore.

Section History.
Context `{Oracle}.

(** [Reload]: the process ends and another reads the file. *)
Inductive op := Set_ (scope : MemoryScope) (key : string) (v : val) (ttl : option Z) | Get (scope : MemoryScope) (key : string)
  | Purge | Reload.

Definition apply (o : op) (s : t) : t :=
  match o with
  | Set_ scope key v ttl => after (set scope key v ttl) s
  | Get scope key => after (get scope key) s
  | Purge => after purge_expired s
  | Reload => _load (_storage_file s) (tick s)
  end.

(** What an operation enters: the key, the value and the time until which it is
    kept. *)
Definition enters (o : op) (s : t) : list (string * (val * option Z)) :=
  match o with
  | Set_ scope key v ttl =>
      if is_ok (set scope key v ttl s).1
      then [(composite scope key, (v, (fun n => clock (tick s) + n * second_us) <$> ttl))]
      else []
  | _ => []
  end.

Fixpoint run (ops : list op) (s : t) : list (string * (val * option Z)) * t :=
  match ops with
  | [] => ([], s)
  | o :: ops' => let '(l, s') := run ops' (apply o s) in (enters o s ++ l, s')
  end.

(** The last entry for a key. *)
Fixpoint last_entry (k : string) (l : list (string * (val * option Z))) : option (val * option Z) :=
  match l with
  | [] => None
  | (k', e) :: l' => match last_entry k l' with Some e' => Some e' | None => if bool_decide (k' = k) then Some e else None end
  end.

(** The value an entry has at a time. *)
Definition holds_at (now : Z) (e : option (val * option Z)) : val :=
  match e with
  | None => VNone
  | Some (v, None) => v
  | Some (v, Some deadline) => if deadline <=? now then VNone else v
  end.

End History.
End MemoryHistory.

(** * What memory holds *)

Module MemoryFacts.
Import ScopedMemoryStore MemoryHistory.

Section Facts.
Context `{Oracle}.

(** An item that holds an entry, up to the order of keys in its value. *)
Record item_of (i : item) (e : val * option Z) : Prop := ItemOf {
  io_value : canon (value i) = canon e.1;
  io_expires : expires_at i = isoformat <$> e.2;
  io_time : from_option time_ok True e.2;
}.

Lemma expired_eq i e now (m : M t Z) s s1 :
  item_of i e → m s = (Ok now, s1) →
  expired i m s = match e.2 with None => (Ok false, s) | Some d => (Ok (d <=? now), s1) end.
Proof.
  intros [_ He Ht] Hm. unfold expired. rewrite He. destruct e as [v [d|]]; cbn in *; [|done].
  assert (Hr : fromisoformat (isoformat d) = Ok d) by by apply fromisoformat_isoformat.
  destruct (isoformat d) eqn:Ei; [by apply (isoformat_ne d) in Ei|]. unfold bind, of_res, ret. by rewrite Hr, Hm.
Qed.

(** The records agree with what was entered: what is missing had expired. *)
Record remembers (l : list (string * (val * option Z))) (s : t) : Prop := Remembers {
  rm_ok : dict_ok (_records s);
  rm_file : match _storage_file s with Some f => f = written (_records s) | None => _records s = [] end;
  rm_items : ∀ k, match dget (_records s) k with
    | Some i => ∃ e, last_entry k l = Some e ∧ item_of i e
    | None => last_entry k l = None ∨ ∃ v d n, last_entry k l = Some (v, Some d) ∧ (n < tick s)%nat ∧ d <= clock n
    end;
}.

Lemma last_entry_app k l l' : last_entry k (l ++ l') = match last_entry k l' with Some e => Some e | None => last_entry k l end.
Proof.
  induction l as [|[k' e] l IH]; cbn [app last_entry]; [by destruct (last_entry k l')|]. rewrite IH. by destruct (last_entry k l').
Qed.

Lemma dict_ok_written r : dict_ok r → dict_ok (written r).
Proof. unfold dict_ok, written. intros Hd. rewrite (py_sorted_perm key_le). by rewrite map_fst_map. Qed.

Lemma dget_written r k : dict_ok r → dget (written r) k = canon_item <$> dget r k.
Proof.
  intros Hd. rewrite <- dget_map. apply dget_perm; [by apply dict_ok_written|]. apply py_sorted_perm.
Qed.

Lemma written_idem r : written (written r) = written r.
Proof.
  unfold written. rewrite (py_sorted_map (fun p => (p.1, canon_item p.2)) key_le key_le) by done. rewrite map_map. cbn.
  rewrite py_sorted_id by (apply py_sorted_Sorted; intros p q; apply str_le_total).
  f_equal. apply map_ext. intros [k [v e]]. unfold canon_item. cbn. by rewrite canon_idem.
Qed.

(** The clock was asked. *)
Lemma remembers_tick l s n : remembers l s → (tick s <= n)%nat → remembers l (Mk (_records s) (_storage_file s) n).
Proof.
  intros [Hd Hf Hi] Hn. split; [done|done|]. intros k. specialize (Hi k). cbn [_records tick].
  destruct (dget (_records s) k); [done|]. destruct Hi as [?|(v & d & j & ? & ? & ?)]; [by left|right]. exists v, d, j. split_and!; [done|lia|done].
Qed.

Lemma after_set scope key v ttl s :
  ∃ r n f, set scope key v ttl s = (r, Mk (if is_ok r then f else _records s) (if is_ok r then Some (written f) else _storage_file s) n) ∧
    (tick s <= n)%nat ∧
    (is_ok r = true → ∃ d, d = (fun m => clock (tick s) + m * second_us) <$> ttl ∧ from_option time_ok True d ∧
       f = dset (_records s) (composite scope key) (Item v (isoformat <$> d))).
Proof.
  unfold set. destruct ttl as [m|].
  - unfold bind at 1. unfold bind at 1, utc_now at 1. unfold bind at 1, of_res, timedelta_seconds. destruct (_ >? _).
    { eexists (Err _), _, []. split; [reflexivity|]. split; [cbn; lia|done]. }
    unfold bind at 1, dt_add. case_bool_decide as Ht.
    2: { eexists (Err _), _, []. split; [reflexivity|]. split; [cbn; lia|done]. }
    unfold ret, bind, gets, set_records, _persist, modify. cbn [_records _storage_file tick].
    eexists (Ok tt), _, _. split; [reflexivity|]. split; [cbn; lia|]. intros _. by eexists.
  - unfold ret, bind, gets, set_records, _persist, modify. cbn [_records _storage_file tick].
    eexists (Ok tt), _, _. split; [reflexivity|]. split; [cbn; lia|]. intros _. exists None. by split_and!.
Qed.

Lemma remembers_set l s scope key v ttl :
  remembers l s → remembers (l ++ enters (Set_ scope key v ttl) s) (after (set scope key v ttl) s).
Proof.
  intros Hr. cbn [enters]. unfold after. destruct (after_set scope key v ttl s) as (r & n & f & E & Hn & Hf). rewrite E.
  destruct r as [u|e]; cbn [is_ok fst snd].
  2: { rewrite app_nil_r. by apply remembers_tick. }
  destruct (Hf eq_refl) as (d & Hd & Ht & ->). clear Hf E. rewrite <- Hd. destruct Hr as [Hok _ Hi].
  split; cbn [_records _storage_file tick]; [by apply dict_ok_dset|done|]. intros k. rewrite last_entry_app. cbn [last_entry].
  rewrite dget_dset. case_bool_decide as Hk.
  - eexists. split; [reflexivity|]. by split.
  - specialize (Hi k). destruct (dget (_records s) k); [done|]. destruct Hi as [?|(v' & d' & j & ? & ? & ?)]; [by left|right].
    exists v', d', j. split_and!; [done|lia|done].
Qed.

(** Only keys whose entries expired are deleted. *)
Definition forgets (l : list (string * (val * option Z))) (now : Z) (d d' : dict item) : Prop :=
  ∀ k, dget d' k = dget d k ∨ dget d' k = None ∧ ∃ v t, last_entry k l = Some (v, Some t) ∧ t <= now.

Lemma forgets_trans l now d1 d2 d3 : forgets l now d1 d2 → forgets l now d2 d3 → forgets l now d1 d3.
Proof. intros H1 H2 k. destruct (H2 k) as [E|?]; [rewrite E; apply H1|by right]. Qed.

Lemma forgets_ddel l now d k v t : dict_ok d → last_entry k l = Some (v, Some t) → t <= now → forgets l now d (ddel d k).
Proof.
  intros Hd Hl Ht k'. destruct (decide (k = k')) as [<-|Hne]; [right|left; by rewrite dget_ddel_ne].
  split; [by rewrite dget_ddel_eq|by exists v, t].
Qed.

Lemma remembers_forget l s d j :
  remembers l s → dict_ok d → forgets l (clock j) (_records s) d → (j < tick s)%nat →
  remembers l (Mk d (Some (written d)) (tick s)).
Proof.
  intros [_ _ Hi] Hd Hf Hj. split; cbn [_records _storage_file tick]; [done|done|]. intros k.
  destruct (Hf k) as [->|(-> & v & t & Hl & Ht)]; [apply Hi|right; by exists v, t, j].
Qed.

(** What [get] returns, and that it forgets only what expired. *)
Lemma memory_get_eq l s scope key :
  remembers l s → ∃ v s', get scope key s = (Ok v, s') ∧ remembers l s' ∧
    (dget (_records s) (composite scope key) = None ∧ v = VNone ∧ s' = s ∨
     ∃ e, last_entry (composite scope key) l = Some e ∧ canon v = canon (holds_at (clock (tick s)) (Some e))).
Proof.
  intros Hr. unfold get. unfold bind at 1, gets at 1. pose proof (rm_items _ _ Hr (composite scope key)) as Hi.
  destruct (dget _ _) as [i|] eqn:Ei.
  2: { exists VNone, s. split; [done|]. split; [done|]. by left. }
  destruct Hi as (e & Hl & Hio). unfold bind at 1. rewrite (expired_eq i e (clock (tick s)) utc_now s _ Hio eq_refl).
  destruct e as [v [d|]]; cbn [snd].
  - pose proof (remembers_tick _ _ (S (tick s)) Hr ltac:(lia)) as Hr1. destruct (d <=? clock (tick s)) eqn:Ed.
    + unfold bind, set_records, modify, _persist, ret. cbn [_records _storage_file tick].
      exists VNone. eexists. split; [reflexivity|]. split.
      * apply Z.leb_le in Ed. apply (remembers_forget _ _ _ (tick s) Hr1); [apply dict_ok_ddel, Hr| |cbn; lia].
        eapply forgets_ddel; [apply Hr|exact Hl|exact Ed].
      * right. eexists. split; [exact Hl|]. cbn. by rewrite Ed.
    + unfold ret. do 2 eexists. split; [reflexivity|]. split; [exact Hr1|]. right.
      eexists. split; [exact Hl|]. cbn. rewrite Ed. apply (io_value _ _ Hio).
  - exists (value i), s. split; [done|]. split; [done|]. right. eexists. split; [exact Hl|].
    apply (io_value _ _ Hio).
Qed.

Lemma purge_loop_eq l now keys n s :
  NoDup keys → dict_ok (_records s) →
  (∀ k, k ∈ keys → ∃ i e, dget (_records s) k = Some i ∧ last_entry k l = Some e ∧ item_of i e) →
  ∃ n' d, purge_loop now keys n s = (Ok n', Mk d (_storage_file s) (tick s)) ∧ n <= n' ∧
    (n' = n → d = _records s) ∧ dict_ok d ∧ forgets l now (_records s) d.
Proof.
  revert n s. induction keys as [|k keys IH]; intros n s Hnd Hok Hk; cbn [purge_loop].
  { exists n, (_records s). split; [by destruct s|]. split_and!; [lia|done|done|by left]. }
  apply NoDup_cons in Hnd as [Hni Hnd]. destruct (Hk k) as (i & e & Ei & Hl & Hio); [by left|].
  unfold bind at 1, gets at 1. rewrite Ei. unfold bind at 1. rewrite (expired_eq i e now (ret now) s s Hio eq_refl).
  assert (Hrest : ∃ n' d, purge_loop now keys n s = (Ok n', Mk d (_storage_file s) (tick s)) ∧ n <= n' ∧
    (n' = n → d = _records s) ∧ dict_ok d ∧ forgets l now (_records s) d).
  { apply IH; [done|done|]. intros k' Hin. apply Hk. by right. }
  destruct e as [v [t|]]; cbn [snd]; [|done]. destruct (t <=? now) eqn:Et; [|done]. apply Z.leb_le in Et. clear Hrest.
  unfold bind, set_records, modify. set (s1 := Mk _ _ _).
  assert (Hf : forgets l now (_records s) (_records s1)) by by eapply forgets_ddel.
  destruct (IH (n + 1) s1) as (n' & d & E & Hn & _ & Hd & Hfd); [done|by apply dict_ok_ddel| |].
  { intros k' Hin. unfold s1. cbn [_records]. rewrite dget_ddel_ne by (by intros ->). apply Hk. by right. }
  exists n', d. split; [exact E|]. split_and!; [lia|lia|done|by eapply forgets_trans].
Qed.

Lemma remembers_purge l s : remembers l s → remembers l (after purge_expired s).
Proof.
  intros Hr. unfold after, purge_expired. unfold bind at 1, utc_now at 1. set (s1 := Mk _ _ _).
  pose proof (remembers_tick _ _ (S (tick s)) Hr ltac:(lia)) as Hr1. fold s1 in Hr1.
  unfold bind at 1, gets at 1. destruct (purge_loop_eq l (clock (tick s)) (_records s1).*1 0 s1) as (n & d & E & Hn & Hd0 & Hd & Hf).
  { apply Hr. }
  { apply Hr. }
  { intros k Hk. pose proof (rm_items _ _ Hr1 k) as Hi. destruct (dget (_records s1) k) as [i|] eqn:Ei; [|by apply dget_None in Ei].
    destruct Hi as (e & ? & ?). by exists i, e. }
  unfold bind at 1. rewrite E. unfold bind. destruct (Z.eqb_spec n 0) as [Hz|_].
  - rewrite (Hd0 Hz). destruct s1; exact Hr1.
  - unfold _persist, modify, ret. cbn. by apply (remembers_forget _ s1 _ (tick s)); [..|unfold s1; cbn; lia].
Qed.

Lemma item_of_canon i e : item_of i e → item_of (canon_item i) e.
Proof. intros [Hv He Ht]. split; [|done|done]. cbn. by rewrite canon_idem. Qed.

Lemma remembers_reload l s : remembers l s → remembers l (_load (_storage_file s) (tick s)).
Proof.
  intros [Hok Hf Hi]. unfold _load. destruct (_storage_file s) as [f|]; [change (default [] (Some f)) with f|].
  - subst f. split; cbn [_records _storage_file tick]; [by apply dict_ok_written|by rewrite written_idem|]. intros k.
    specialize (Hi k). rewrite dget_written by done. destruct (dget (_records s) k) as [i|]; cbn; [|done].
    destruct Hi as (e & Hl & Hio). exists e. split; [done|by apply item_of_canon].
  - rewrite Hf in Hi. split; [apply NoDup_nil_2|done|exact Hi].
Qed.

Lemma remembers_step l s o : remembers l s → remembers (l ++ enters o s) (apply o s).
Proof.
  intros Hr. destruct o as [scope key v ttl|scope key| |]; cbn [apply]; [by apply remembers_set|..]; cbn [enters]; rewrite app_nil_r.
  - unfold after. destruct (memory_get_eq l s scope key Hr) as (v & s' & -> & Hr' & _). exact Hr'.
  - by apply remembers_purge.
  - by apply remembers_reload.
Qed.

Lemma remembers_run ops l s : remembers l s → remembers (l ++ (run ops s).1) (run ops s).2.
Proof.
  revert l s. induction ops as [|o ops IH]; intros l s Hr; cbn [run]; [by rewrite app_nil_r|].
  specialize (IH _ _ (remembers_step _ _ o Hr)). destruct (run ops (apply o s)) as [l' s']. cbn in *. by rewrite app_assoc.
Qed.

Lemma remembers_init : remembers [] (_load None 0).
Proof. split; [apply NoDup_nil_2|done|]. intros k. by left. Qed.

End Facts.
End MemoryFacts.

(** C29: what memory answers. After any sequence of settings, readings, purges and
    restarts from the file, a reading gives the value set last under the user, the
    session, the agent and the key joined by colons, or nothing from the moment
    its time is over; the order of keys in a value may be another. What was
    deleted meanwhile had expired, as clocks do not go back. *)
Theorem memory_get_exact `{Oracle} (ops : list MemoryHistory.op) (scope : MemoryScope) (key : string) :
  (∀ i j, (i <= j)%nat → clock i <= clock j) →
  let '(entered, s) := MemoryHistory.run ops (ScopedMemoryStore._load None 0) in
  let last := MemoryHistory.last_entry (ScopedMemoryStore.composite scope key) entered in
  ∃ v s', ScopedMemoryStore.get scope key s = (Ok v, s') ∧
    canon v = canon (MemoryHistory.holds_at (clock (ScopedMemoryStore.tick s)) last).
Proof.
  intros Hmono. pose proof (MemoryFacts.remembers_run ops [] _ MemoryFacts.remembers_init) as Hr.
  destruct (MemoryHistory.run ops _) as [entered s]. cbn in Hr. cbv zeta.
  destruct (MemoryFacts.memory_get_eq entered s scope key Hr) as (v & s' & -> & _ & Hv). exists v, s'. split; [done|].
  destruct Hv as [(Hn & -> & _)|(e & -> & Hv)]; [|exact Hv].
  pose proof (MemoryFacts.rm_items _ _ Hr (ScopedMemoryStore.composite scope key)) as Hi. rewrite Hn in Hi.
  destruct Hi as [->|(w & d & n & -> & Hlt & Hd)]; [done|]. cbn. rewrite (proj2 (Z.leb_le _ _)); [done|].
  specialize (Hmono n (ScopedMemoryStore.tick s)). lia.
Qed.

(** Scopes are joined by colons, so two scopes can be one. *)
Lemma memory_scopes_shared :
  let alice := MemoryScope.Mk "alice" "home:work" "notes" in
  let other := MemoryScope.Mk "alice:home" "work" "notes" in
  alice ≠ other ∧ ∀ key, ScopedMemoryStore.composite alice key = ScopedMemoryStore.composite other key.
Proof. by split. Qed.

(** ** Witness *)

#[local] Instance demo_memory_oracle : Oracle := {
  clock n := 1000000 * Z.of_nat n;
  perf n := 0;
  uuid_hex n := "";
  sha256_hex s := s;
}.

Definition demo_scope : MemoryScope := MemoryScope.Mk "alice" "home" "notes".

Lemma memory_get_exact_witness :
  ∃ s', ScopedMemoryStore.get demo_scope "plan"
    (MemoryHistory.run [MemoryHistory.Set_ demo_scope "plan" (VInt 1) None; MemoryHistory.Set_ demo_scope "plan" (VInt 2) (Some 5);
                        MemoryHistory.Get demo_scope "plan"; MemoryHistory.Reload; MemoryHistory.Purge] (ScopedMemoryStore._load None 0)).2
    = (Ok (VInt 2), s').
Proof.
  pose proof (@memory_get_exact demo_memory_oracle [MemoryHistory.Set_ demo_scope "plan" (VInt 1) None; MemoryHistory.Set_ demo_scope "plan" (VInt 2) (Some 5);
    MemoryHistory.Get demo_scope "plan"; MemoryHistory.Reload; MemoryHistory.Purge] demo_scope "plan"
    ltac:(intros i j Hij; cbn [clock demo_memory_oracle]; lia)) as Hw.
  vm_compute in Hw. vm_compute. destruct Hw as (v & s' & E & Hc). eexists. reflexivity.
Defined.
