(* ===== verification/PhaseRuntime.v ===== *)
(** The runtime of agents in phase 1 (agentfabric/phase1): manifests, permissions,
    signatures of packages, the tools and the context an agent is given, and its
    life from installation to removal. *)

From stdpp Require Import base option list strings sets.
From Stdlib Require Import ZArith Lia SpecFloat.
From S2P Require Import Prelude PyVal PyTime Floats Store EventStore PhaseMemory.

Local Open Scope Z_scope.

(** * manifest.py *)

Module AgentManifest.
(** Fields that are taken from the payload as they are hold values of any type. *)
Record t := Mk {
  manifest_version : val;
  agent_id : val;
  name : val;
  description : val;
  version : val;
  entrypoint : val;
  capabilities : list val;
  permissions : list val;
  sandbox : doc;
  max_run_seconds : float;
  max_tool_calls : Z;
}.
End AgentManifest.

Abbreviation AgentManifest := AgentManifest.t.

Module ManifestLoader.

Definition REQUIRED_FIELDS : list string :=
  ["manifest_version"; "agent_id"; "name"; "description"; "version"; "entrypoint"; "capabilities"; "permissions"; "sandbox"].

Definition from_dict (payload : doc) : res AgentManifest :=
  match py_sorted_set (list_to_set REQUIRED_FIELDS ∖ list_to_set payload.*1) with
  | [] =>
      if negb (is_str (dget payload "manifest_version") "v1") then Err (Exn ValidationError "manifest_version must be v1")
      else match dget payload "capabilities", dget payload "permissions", dget payload "sandbox" with
      | Some (VList capabilities), Some (VList permissions), Some (VDict sandbox) =>
          let? manifest_version := dindex payload "manifest_version" in
          let? agent_id := dindex payload "agent_id" in
          let? name := dindex payload "name" in
          let? description := dindex payload "description" in
          let? version := dindex payload "version" in
          let? entrypoint := dindex payload "entrypoint" in
          let? max_run_seconds := float_field_or payload "max_run_seconds" (lit 600 1) in
          let? max_tool_calls := py_int_of_number (dget_or payload "max_tool_calls" (VInt 16)) in
          Ok (AgentManifest.Mk manifest_version agent_id name description version entrypoint capabilities permissions
                sandbox max_run_seconds max_tool_calls)
      | Some (VList _), Some (VList _), _ => Err (Exn ValidationError "manifest.sandbox must be an object")
      | Some (VList _), _, _ => Err (Exn ValidationError "manifest.permissions must be a list")
      | _, _, _ => Err (Exn ValidationError "manifest.capabilities must be a list")
      end
  | missing => Err (Exn ValidationError ("manifest missing fields: " +:+ join ", " missing))
  end.

End ManifestLoader.

(** * security.py *)

Module PermissionEnforcer.
Definition check (manifest : AgentManifest) (permission : string) : res unit :=
  if bool_decide (VStr permission ∈ AgentManifest.permissions manifest) then Ok tt
  else Err (Exn AuthorizationError ("permission denied: " +:+ permission)).
End PermissionEnforcer.

Module RuntimeSecrets.
Definition put (key value : string) (_secrets : dict string) : dict string := dset _secrets key value.

Definition get (key : string) (_secrets : dict string) : res string :=
  match dget _secrets key with
  | Some value => Ok value
  | None => Err (Exn ValidationError ("unknown secret: " +:+ key))
  end.
End RuntimeSecrets.

Module PackageIntegrityVerifier.
Section Verifier.
Context `{Oracle}.

(** SHA-256 of bytes, in hex. *)
Context (sha256_bytes : list Byte.byte → string).

Definition register_signer_key (signer_id key : string) (_signer_keys : dict string) : dict string :=
  dset _signer_keys signer_id key.

Definition sign (signer_id : string) (payload : list Byte.byte) (_signer_keys : dict string) : res string :=
  match dget _signer_keys signer_id with
  | None => Err (Exn ValidationError "unknown signer")
  | Some key =>
      let digest := sha256_bytes payload in
      Ok (sha256_hex (signer_id +:+ ":" +:+ digest +:+ ":" +:+ key))
  end.

Definition verify (signer_id : string) (payload : list Byte.byte) (signature : string) (_signer_keys : dict string) : res string :=
  match dget _signer_keys signer_id with
  | None => Err (Exn ValidationError "unknown signer")
  | Some key =>
      let digest := sha256_bytes payload in
      let expected := sha256_hex (signer_id +:+ ":" +:+ digest +:+ ":" +:+ key) in
      if negb (bool_decide (expected = signature)) then Err (Exn ValidationError "package integrity verification failed")
      else Ok digest
  end.

End Verifier.
End PackageIntegrityVerifier.

(** * protocol.py *)

Module ProtocolEnvelope.
Record t := Mk {
  protocol_version : string;
  message_type : string;
  correlation_id : string;
  payload : doc;
  timestamp : Z;
}.
End ProtocolEnvelope.

Abbreviation ProtocolEnvelope := ProtocolEnvelope.t.

(** * sandbox.py *)

Module SandboxPolicy.
(** Paths of a manifest hold values of any type. *)
Record t := Mk {
  allow_network : bool;
  allowed_filesystem_paths : list val;
  denied_filesystem_prefixes : list val;
}.

Definition denied_by_default : list val := [VStr "/etc"; VStr "/proc"; VStr "/sys"; VStr "/dev"].

(** [SandboxPolicy.strict()] *)
Definition strict : t :=
  Mk false [] [VStr "/etc"; VStr "/proc"; VStr "/sys"; VStr "/dev"; VStr "/usr"; VStr "/bin"; VStr "/sbin"; VStr "/boot";
               VStr "/root"; VStr "/var"].
End SandboxPolicy.

Abbreviation SandboxPolicy := SandboxPolicy.t.

(** * tools.py *)

(** The function of a tool acts on a world of its own, and returns or raises. *)
Module RegisteredTool.
Record t (W : Type) := Mk { name : string; required_permission : string; handler : doc → M W val }.
Arguments Mk {W}.
Arguments name {W}.
Arguments required_permission {W}.
Arguments handler {W}.
End RegisteredTool.

Abbreviation RegisteredTool := RegisteredTool.t.

(** * sdk.py *)

(** What an agent can ask of its context, and of the context's sandbox. *)
Inductive call :=
  | CallTool (name : string) (args : doc)
  | MemorySet (key : string) (value : val) (ttl_seconds : option Z)
  | MemoryGet (key : string)
  | EmitEvent (event_name : string) (payload : doc)
  | ReadFile (path : val).

(** The code of an agent, between its calls to the context: it acts on the world
    by code of its own, calls the context, and goes on with what came back, which
    may be an exception; it ends with a result or an exception. *)
Inductive program (W : Type) :=
  | Return (result : val)
  | Raise (e : exn)
  | Own (f : M W val) (k : res val → program W)
  | Call (c : call) (k : res val → program W).
Arguments Return {W}.
Arguments Raise {W}.
Arguments Own {W}.
Arguments Call {W}.

(** * observability.py *)

Module Observability.
(** The entries of [StructuredLogger] and the fields of [MetricsCollector]. *)
Record t := Mk { _entries : list doc; counters : dict Z; latencies_seconds : dict (list float) }.

Definition add_entry (entry : doc) (o : t) : t := Mk (_entries o ++ [entry]) (counters o) (latencies_seconds o).

Definition inc (name : string) (value : Z) (o : t) : t :=
  Mk (_entries o) (dset (counters o) name (default 0 (dget (counters o) name) + value)) (latencies_seconds o).

Definition observe_latency (name : string) (value : float) (o : t) : t :=
  Mk (_entries o) (counters o)
    (dset (latencies_seconds o) name (default [] (dget (latencies_seconds o) name) ++ [value])).
End Observability.

(** * runtime.py *)

Module InstalledAgent.
(** The factory makes an agent: the function from a request to its code. *)
Record t (W : Type) := Mk { manifest : AgentManifest; package_digest : string; state : string; factory : M W (doc → program W) }.
Arguments Mk {W}.
Arguments manifest {W}.
Arguments package_digest {W}.
Arguments state {W}.
Arguments factory {W}.

Definition with_state {W} (state : string) (a : t W) : t W := Mk (manifest a) (package_digest a) state (factory a).
End InstalledAgent.

Abbreviation InstalledAgent := InstalledAgent.t.

(** The orchestrator with its router, memory, signers and metrics; the world its
    tools and agents act on; and the count of the questions put to the clock. *)
Record runtime (W : Type) := Runtime {
  outside : W;
  _tools : dict (RegisteredTool W);
  memory_store : ScopedMemoryStore.t;
  _agents : list (val * InstalledAgent W);
  _signer_keys : dict string;
  observed : Observability.t;
  tick : nat;
}.
Arguments Runtime {W}.
Arguments outside {W}.
Arguments _tools {W}.
Arguments memory_store {W}.
Arguments _agents {W}.
Arguments _signer_keys {W}.
Arguments observed {W}.
Arguments tick {W}.

(** The world, what is observed and the count, with the rest as it is. *)
Definition with_rest {W} (outside : W) (observed : Observability.t) (tick : nat) (s : runtime W) : runtime W :=
  Runtime outside (_tools s) (memory_store s) (_agents s) (_signer_keys s) observed tick.

Definition with_agents {W} (agents : list (val * InstalledAgent W)) (s : runtime W) : runtime W :=
  Runtime (outside s) (_tools s) (memory_store s) agents (_signer_keys s) (observed s) (tick s).

(** A run in progress: the runtime, the fields of the context that change, the
    token, and whether the wait for the result has timed out. *)
Record session (W : Type) := Session {
  host : runtime W;
  _tool_calls : Z;
  _events : list doc;
  cancelled : bool;
  timed_out : bool;
}.
Arguments Session {W}.
Arguments host {W}.
Arguments _tool_calls {W}.
Arguments _events {W}.
Arguments cancelled {W}.
Arguments timed_out {W}.

(** What other threads do while the agent runs: the holder of the token cancels
    the run, or the time the run is waited for is over. *)
Inductive signal := Cancel | Timeout.

(** [uuid4()] as text *)
Definition uuid_text (hex : string) : string :=
  String.substring 0 8 hex +:+ "-" +:+ String.substring 8 4 hex +:+ "-" +:+ String.substring 12 4 hex +:+ "-" +:+
  String.substring 16 4 hex +:+ "-" +:+ String.substring 20 12 hex.

Section Runtime.
Context `{Oracle} {W : Type}.

(** SHA-256 of bytes; what [Path(p).resolve()] gives, as text; and reading a file. *)
Context (sha256_bytes : list Byte.byte → string) (resolve : val → res string) (read_text : string → M W string).

#[local] Abbreviation R := (M (runtime W)).

Definition ask {A} (f : nat → A) : R A := fun s => (Ok (f (tick s)), with_rest (outside s) (observed s) (S (tick s)) s).

Definition utc_now : R Z := ask clock.

(** [monotonic()], in seconds *)
Definition monotonic : R float := ask (fun n => fdiv (float_of_Z (perf n)) (float_of_Z 1000000)).

Definition uuid4 : R string := ask (fun n => uuid_text (uuid_hex n)).

(** A call that acts on the world. *)
Definition on_world {A} (m : M W A) : R A := zoom outside (fun w s => with_rest w (observed s) (tick s) s) m.

Definition on_memory {A} (m : M ScopedMemoryStore.t A) : R A := fun s =>
  let '(r, x) := m (ScopedMemoryStore.Mk (ScopedMemoryStore._records (memory_store s))
                      (ScopedMemoryStore._storage_file (memory_store s)) (tick s)) in
  (r, Runtime (outside s) (_tools s) x (_agents s) (_signer_keys s) (observed s) (ScopedMemoryStore.tick x)).

Definition observe (f : Observability.t → Observability.t) : R unit :=
  modify (fun s => with_rest (outside s) (f (observed s)) (tick s) s).

Definition inc (name : string) : R unit := observe (Observability.inc name 1).

Definition log (level event : string) (fields : doc) : R unit :=
  let* now := utc_now in
  observe (Observability.add_entry (dupdate [("timestamp", VStr (isoformat now)); ("level", VStr level); ("event", VStr event)] fields)).

(** [try: m finally: f] *)
Definition try_finally {A} (m : R A) (f : R unit) : R A := fun s =>
  let '(r, s1) := m s in
  let '(r', s2) := f s1 in
  (match r' with Ok _ => r | Err e => Err e end, s2).

(** [with self.span(correlation_id, name): m] *)
Definition span {A} (correlation_id name : string) (m : R A) : R A :=
  let* start := monotonic in
  do* log "DEBUG" "trace.start" [("correlation_id", VStr correlation_id); ("span", VStr name)];
  try_finally m
    (let* now := monotonic in
     let duration := fsub now start in
     do* observe (Observability.observe_latency ("trace." +:+ name +:+ ".seconds") duration);
     log "DEBUG" "trace.end" [("correlation_id", VStr correlation_id); ("span", VStr name);
                              ("duration_seconds", VNumber (round_to 6 duration))]).

(** [ProtocolEnvelope(...)] takes its timestamp when it is made. *)
Definition envelope (message_type correlation_id : string) (payload : doc) : R ProtocolEnvelope :=
  let* timestamp := utc_now in
  ret (ProtocolEnvelope.Mk "v1" message_type correlation_id payload timestamp).

(** [ProtocolEnvelope.build] *)
Definition build (message_type : string) (payload : doc) : R ProtocolEnvelope :=
  let* correlation_id := uuid4 in
  envelope message_type correlation_id payload.

Definition register_tool (name required_permission : string) (handler : doc → M W val) : R unit :=
  modify (fun s => Runtime (outside s) (dset (_tools s) name (RegisteredTool.Mk name required_permission handler))
                     (memory_store s) (_agents s) (_signer_keys s) (observed s) (tick s)).

(** [ToolRouter.invoke] *)
Definition invoke (manifest : AgentManifest) (tool_name : string) (args : doc) (correlation_id : string) : R ProtocolEnvelope :=
  let* tools := gets _tools in
  match dget tools tool_name with
  | None => raise NotFoundError ("tool not found: " +:+ tool_name)
  | Some tool =>
      do* of_res (PermissionEnforcer.check manifest (RegisteredTool.required_permission tool));
      let* start := monotonic in
      let* result := on_world (RegisteredTool.handler tool args) in
      let* now := monotonic in
      let duration_seconds := fsub now start in
      envelope "tool_result" correlation_id
        [("tool_name", VStr tool_name); ("result", result); ("duration_seconds", VNumber (round_to 6 duration_seconds))]
  end.

(** [Sandbox.read_file] *)
Definition read_file (policy : SandboxPolicy) (path : val) : R string :=
  let* target := of_res (resolve path) in
  let* denied := of_res (res_map resolve (SandboxPolicy.denied_filesystem_prefixes policy)) in
  if existsb (fun prefix => starts_with prefix target) denied
  then raise AuthorizationError ("sandbox denied protected path read: " +:+ py_str path)
  else
  let* allowed := of_res (res_map resolve (SandboxPolicy.allowed_filesystem_paths policy)) in
  if negb (existsb (fun prefix => starts_with prefix target) allowed)
  then raise AuthorizationError ("sandbox denied filesystem read: " +:+ py_str path)
  else on_world (read_text target).

(** ** AgentExecutionContext *)

#[local] Abbreviation C := (M (session W)).

Section Context_.
Context (correlation_id : string) (scope : MemoryScope) (manifest : AgentManifest) (policy : SandboxPolicy).
Context (agent_id : string) (effective_timeout : float).

Definition on_host {A} (m : R A) : C A :=
  zoom host (fun h c => Session h (_tool_calls c) (_events c) (cancelled c) (timed_out c)) m.

Definition _assert_not_cancelled : C unit :=
  let* c := get_state in
  if cancelled c then raise ConflictError "run cancelled" else ret tt.

Definition call_tool (name : string) (args : doc) : C val :=
  do* _assert_not_cancelled;
  do* modify (fun c => Session (host c) (_tool_calls c + 1) (_events c) (cancelled c) (timed_out c));
  let* c := get_state in
  if _tool_calls c >? AgentManifest.max_tool_calls manifest then raise ConflictError "tool call limit exceeded"
  else
  let* envelope := on_host (invoke manifest name args correlation_id) in
  of_res (dindex (ProtocolEnvelope.payload envelope) "result").

Definition memory_set (key : string) (value : val) (ttl_seconds : option Z) : C unit :=
  do* _assert_not_cancelled;
  on_host (on_memory (ScopedMemoryStore.set scope key value ttl_seconds)).

Definition memory_get (key : string) : C val :=
  do* _assert_not_cancelled;
  on_host (on_memory (ScopedMemoryStore.get scope key)).

Definition emit_event (event_name : string) (payload : doc) : C unit :=
  modify (fun c => Session (host c) (_tool_calls c)
                     (_events c ++ [[("event_name", VStr event_name); ("payload", VDict payload)]]) (cancelled c) (timed_out c)).

Definition perform (c : call) : C val :=
  match c with
  | CallTool name args => call_tool name args
  | MemorySet key value ttl => do* memory_set key value ttl; ret VNone
  | MemoryGet key => memory_get key
  | EmitEvent name payload => do* emit_event name payload; ret VNone
  | ReadFile path => let* text := on_host (read_file policy path) in ret (VStr text)
  end.

(** [except FutureTimeout]: the run is waited for no longer. Leaving the executor
    still waits for the agent to end. *)
Definition on_timeout : C unit :=
  do* modify (fun c => Session (host c) (_tool_calls c) (_events c) true true);
  do* on_host (inc "runtime.run.timeout.count");
  on_host (log "ERROR" "runtime.run.timeout"
             [("agent_id", VStr agent_id); ("correlation_id", VStr correlation_id); ("timeout_seconds", VNumber effective_timeout)]).

Definition deliver (sig : signal) : C unit :=
  match sig with
  | Cancel => modify (fun c => Session (host c) (_tool_calls c) (_events c) true (timed_out c))
  | Timeout => let* c := get_state in if timed_out c then ret tt else on_timeout
  end.

(** The agent runs. Before each of its steps come the signals of the head of the
    list. *)
Fixpoint exec (p : program W) (signals : list (list signal)) (c : session W) : res val * session W :=
  let c := after (for_each (default [] (head signals)) deliver) c in
  match p with
  | Return v => (Ok v, c)
  | Raise e => (Err e, c)
  | Own f k => let '(r, c') := on_host (on_world f) c in exec (k r) (tail signals) c'
  | Call op k => let '(r, c') := perform op c in exec (k r) (tail signals) c'
  end.

(** The executor runs the agent; it gives the result and the events. *)
Definition supervise (p : program W) (signals : list (list signal)) : R (val * list doc) := fun s =>
  let '(r, c) := exec p signals (Session s 0 [] false false) in
  let r := if timed_out c then Err (Exn ConflictError "run timeout exceeded") else r in
  (let? v := r in Ok (v, _events c), host c).

End Context_.

(** ** AgentOrchestrator *)

(** [self._agents.get(agent_id)] *)
Fixpoint find_agent (agent_id : val) (agents : list (val * InstalledAgent W)) : option (InstalledAgent W) :=
  match agents with
  | [] => None
  | (k, a) :: agents' => if bool_decide (k = agent_id) then Some a else find_agent agent_id agents'
  end.

(** [self._agents[agent_id] = agent] *)
Fixpoint set_agent (agent_id : val) (agent : InstalledAgent W) (agents : list (val * InstalledAgent W)) : list (val * InstalledAgent W) :=
  match agents with
  | [] => [(agent_id, agent)]
  | (k, a) :: agents' => if bool_decide (k = agent_id) then (k, agent) :: agents' else (k, a) :: set_agent agent_id agent agents'
  end.

(** [del self._agents[agent_id]] *)
Fixpoint del_agent (agent_id : val) (agents : list (val * InstalledAgent W)) : list (val * InstalledAgent W) :=
  match agents with
  | [] => []
  | (k, a) :: agents' => if bool_decide (k = agent_id) then agents' else (k, a) :: del_agent agent_id agents'
  end.

(** Lists and dicts are no keys. *)
Definition hashable (v : val) : res unit :=
  match v with
  | VList _ => type_error "unhashable type: 'list'"
  | VDict _ => type_error "unhashable type: 'dict'"
  | _ => Ok tt
  end.

Definition install (manifest_payload : doc) (package_payload : list Byte.byte) (signature signer_id : string)
    (factory : M W (doc → program W)) : R AgentManifest :=
  let* manifest := of_res (ManifestLoader.from_dict manifest_payload) in
  let* keys := gets _signer_keys in
  let* digest := of_res (PackageIntegrityVerifier.verify sha256_bytes signer_id package_payload signature keys) in
  do* of_res (hashable (AgentManifest.agent_id manifest));
  do* modify (fun s => with_agents (set_agent (AgentManifest.agent_id manifest)
                                      (InstalledAgent.Mk manifest digest "installed" factory) (_agents s)) s);
  do* inc "runtime.install.count";
  do* log "INFO" "runtime.install" [("agent_id", AgentManifest.agent_id manifest); ("package_digest", VStr digest)];
  ret manifest.

(** The part [load] and [suspend] share. *)
Definition change_state (agent_id state event : string) : R unit :=
  let* agents := gets _agents in
  match find_agent (VStr agent_id) agents with
  | None => raise NotFoundError "agent is not installed"
  | Some agent =>
      do* modify (fun s => with_agents (set_agent (VStr agent_id) (InstalledAgent.with_state state agent) (_agents s)) s);
      do* inc (event +:+ ".count");
      log "INFO" event [("agent_id", VStr agent_id)]
  end.

Definition load (agent_id : string) : R unit := change_state agent_id "loaded" "runtime.load".

Definition suspend (agent_id : string) : R unit := change_state agent_id "suspended" "runtime.suspend".

Definition uninstall (agent_id : string) : R unit :=
  let* agents := gets _agents in
  match find_agent (VStr agent_id) agents with
  | None => raise NotFoundError "agent is not installed"
  | Some _ =>
      do* modify (fun s => with_agents (del_agent (VStr agent_id) (_agents s)) s);
      do* inc "runtime.uninstall.count";
      log "INFO" "runtime.uninstall" [("agent_id", VStr agent_id)]
  end.

Definition list_agents (s : runtime W) : list doc :=
  map (fun p => [("agent_id", AgentManifest.agent_id (InstalledAgent.manifest p.2));
                 ("version", AgentManifest.version (InstalledAgent.manifest p.2));
                 ("state", VStr (InstalledAgent.state p.2))]) (_agents s).

Definition capabilities (agent_id : string) : R ProtocolEnvelope :=
  let* agents := gets _agents in
  match find_agent (VStr agent_id) agents with
  | None => raise NotFoundError "agent is not installed"
  | Some agent =>
      build "capability_discovery"
        [("agent_id", AgentManifest.agent_id (InstalledAgent.manifest agent));
         ("capabilities", VList (AgentManifest.capabilities (InstalledAgent.manifest agent)));
         ("permissions", VList (AgentManifest.permissions (InstalledAgent.manifest agent)))]
  end.

(** The policy of an agent's sandbox. *)
Definition sandbox_policy (manifest : AgentManifest) : res SandboxPolicy :=
  let? allowed := py_iter (dget_or (AgentManifest.sandbox manifest) "allowed_filesystem_paths" (VList [])) in
  Ok (SandboxPolicy.Mk (truthy (dget_or (AgentManifest.sandbox manifest) "allow_network" (VBool false))) allowed
        SandboxPolicy.denied_by_default).

(** [timeout_seconds or max_run_seconds], and no more than the latter *)
Definition effective_timeout_of (timeout_seconds : option float) (max_run_seconds : float) : float :=
  let chosen := match timeout_seconds with
    | None | Some (S754_zero _) => max_run_seconds
    | Some x => x
    end in
  fmin chosen max_run_seconds.

(** The scope of the memory of a run. *)
Definition scope_of (manifest : AgentManifest) (user_id session_id : string) : MemoryScope :=
  MemoryScope.Mk user_id session_id (py_str (AgentManifest.agent_id manifest)).

Definition run (agent_id : string) (request : doc) (user_id session_id : string) (timeout_seconds : option float)
    (signals : list (list signal)) : R ProtocolEnvelope :=
  let* agents := gets _agents in
  match find_agent (VStr agent_id) agents with
  | None => raise NotFoundError "agent is not installed"
  | Some installed =>
      let manifest := InstalledAgent.manifest installed in
      if bool_decide (InstalledAgent.state installed = "suspended") then raise ConflictError "agent is suspended"
      else
      do* (if bool_decide (InstalledAgent.state installed = "installed") then load agent_id else ret tt);
      let* correlation_id := uuid4 in
      let* policy := of_res (sandbox_policy manifest) in
      let* agent := on_world (InstalledAgent.factory installed) in
      let effective_timeout := effective_timeout_of timeout_seconds (AgentManifest.max_run_seconds manifest) in
      let* started := monotonic in
      let* result := span correlation_id "agent_run"
        (supervise correlation_id (scope_of manifest user_id session_id) manifest policy agent_id effective_timeout
           (agent request) signals) in
      let* now := monotonic in
      let duration := fsub now started in
      do* inc "runtime.run.count";
      do* observe (Observability.observe_latency "runtime.run.seconds" duration);
      do* log "INFO" "runtime.run" [("agent_id", VStr agent_id); ("correlation_id", VStr correlation_id);
                                   ("duration_seconds", VNumber (round_to 6 duration))];
      envelope "response" correlation_id
        [("agent_id", VStr agent_id); ("result", result.1); ("events", VList (map VDict result.2))]
  end.

End Runtime.

(** * What an agent can do *)

Section Confinement.
Context `{Oracle} {W : Type}.
Context (resolve : val → res string) (read_text : string → M W string).
Implicit Types (h : runtime W) (c : session W) (p : program W).

(** What happens to the world in a run: code of the agent's own, a tool that is
    called, a file that is read. *)
Inductive effect := OwnCode (f : M W val) | ToolRun (t : RegisteredTool W) (args : doc) | FileRead (target : string).

Definition act (w : W) (e : effect) : W :=
  match e with
  | OwnCode f => after f w
  | ToolRun t args => after (RegisteredTool.handler t args) w
  | FileRead target => after (read_text target) w
  end.

Definition acts (es : list effect) (w : W) : W := foldl act w es.

Definition tool_runs (es : list effect) : nat := length (List.filter (fun e => match e with ToolRun _ _ => true | _ => false end) es).

Lemma tool_runs_app es es' : tool_runs (es ++ es') = (tool_runs es + tool_runs es')%nat.
Proof. unfold tool_runs. by rewrite List.filter_app, length_app. Qed.

(** The code of its own that a program has somewhere. *)
Inductive owns : program W → M W val → Prop :=
  | owns_here f k : owns (Own f k) f
  | owns_own f k r g : owns (k r) g → owns (Own f k) g
  | owns_call op k r g : owns (k r) g → owns (Call op k) g.

(** A path under an allowed one and under no denied one, as texts. *)
Definition readable (policy : SandboxPolicy) (target : string) : Prop :=
  (∀ d prefix, d ∈ SandboxPolicy.denied_filesystem_prefixes policy → resolve d = Ok prefix → starts_with prefix target = false) ∧
  ∃ a prefix, a ∈ SandboxPolicy.allowed_filesystem_paths policy ∧ resolve a = Ok prefix ∧ starts_with prefix target = true.

(** An effect the manifest allows. *)
Definition allowed (manifest : AgentManifest) (policy : SandboxPolicy) (tools : dict (RegisteredTool W)) (p : program W) (e : effect) : Prop :=
  match e with
  | OwnCode f => owns p f
  | ToolRun t _ => (∃ name, dget tools name = Some t) ∧ VStr (RegisteredTool.required_permission t) ∈ AgentManifest.permissions manifest
  | FileRead target => readable policy target
  end.

Section Run.
Context (correlation_id : string) (scope : MemoryScope) (manifest : AgentManifest) (policy : SandboxPolicy).
Context (agent_id : string) (effective_timeout : float).

(** A part of a run: it has these effects on the world, changes memory in its
    scope only, and leaves the tools, the agents and the signers alone. *)
Record moved h h' (es : list effect) : Prop := Moved {
  mv_outside : outside h' = acts es (outside h);
  mv_tools : _tools h' = _tools h;
  mv_agents : _agents h' = _agents h;
  mv_keys : _signer_keys h' = _signer_keys h;
  mv_memory : ∀ k, starts_with (MemoryScope.key_prefix scope +:+ ":") k = false →
    dget (ScopedMemoryStore._records (memory_store h')) k = dget (ScopedMemoryStore._records (memory_store h)) k;
}.

Lemma moved_refl h : moved h h [].
Proof. by split. Qed.

Lemma moved_trans h1 h2 h3 es es' : moved h1 h2 es → moved h2 h3 es' → moved h1 h3 (es ++ es').
Proof.
  intros [o1 t1 a1 k1 m1] [o2 t2 a2 k2 m2]. split; [|congruence..|].
  - rewrite o2, o1. unfold acts. by rewrite foldl_app.
  - intros k Hk. by rewrite m2, m1.
Qed.

(** A call without effect on the world. *)
Definition quiet {A} (m : M (runtime W) A) : Prop := ∀ h, moved h (after m h) [].

Lemma quiet_bind {A B} (m : M (runtime W) A) (f : A → M (runtime W) B) : quiet m → (∀ a, quiet (f a)) → quiet (bind m f).
Proof.
  intros Hm Hf h. specialize (Hm h). unfold after, bind in *. destruct (m h) as [[a|e] h1]; cbn in *; [|done].
  change (@nil effect) with ([] ++ [] : list effect). eapply moved_trans; [exact Hm|apply Hf].
Qed.

Lemma quiet_ask {A} (f : nat → A) : quiet (ask f).
Proof. by split. Qed.

Lemma quiet_observe f : quiet (observe f).
Proof. by split. Qed.

Lemma quiet_ret {A} (a : A) : quiet (ret a).
Proof. by split. Qed.

Lemma quiet_log level event fields : quiet (log level event fields).
Proof. apply quiet_bind; [apply quiet_ask|intros now; apply quiet_observe]. Qed.

Lemma quiet_envelope ty id payload : quiet (envelope (W := W) ty id payload).
Proof. apply quiet_bind; [apply quiet_ask|intros now; apply quiet_ret]. Qed.

(** A call with effects, after a quiet one and before others. *)
Definition effects {A} (m : M (runtime W) A) h (P : list effect → Prop) : Prop := ∃ es, moved h (after m h) es ∧ P es.

Lemma effects_after {A B} (m : M (runtime W) A) (f : A → M (runtime W) B) h P :
  quiet m → (∀ a h', moved h h' [] → effects (f a) h' P) → P [] → effects (bind m f) h P.
Proof.
  intros Hm Hf HP. specialize (Hm h). unfold effects, after, bind in *. destruct (m h) as [[a|e] h1]; cbn in *; [|by exists []].
  destruct (Hf a h1 Hm) as (es & Hes & HPes). exists es. split; [|done]. change es with ([] ++ es). by eapply moved_trans.
Qed.

Lemma effects_before {A B} (m : M (runtime W) A) (f : A → M (runtime W) B) h P :
  effects m h P → (∀ a, quiet (f a)) → effects (bind m f) h P.
Proof.
  intros (es & Hes & HPes) Hf. unfold effects, after, bind in *. destruct (m h) as [[a|e] h1]; cbn in *; [|by exists es].
  exists es. split; [|done]. rewrite <- (app_nil_r es). eapply moved_trans; [exact Hes|apply Hf].
Qed.

Lemma effects_world {A} (m : M W A) h e (P : list effect → Prop) :
  (∀ w, act w e = after m w) → P [e] → effects (on_world m) h P.
Proof.
  intros Hm HP. exists [e]. split; [|done]. unfold after, on_world, zoom. specialize (Hm (outside h)). unfold after in Hm.
  destruct (m (outside h)) as [r w]. by split.
Qed.

Lemma invoke_effects name args h :
  effects (invoke manifest name args correlation_id) h
    (fun es => es = [] ∨ ∃ t, es = [ToolRun t args] ∧ dget (_tools h) name = Some t ∧
       VStr (RegisteredTool.required_permission t) ∈ AgentManifest.permissions manifest).
Proof.
  unfold invoke. unfold effects, after. unfold bind at 1, gets at 1. destruct (dget (_tools h) name) as [t|] eqn:Et.
  2: { exists []. split; [apply moved_refl|by left]. }
  unfold bind at 1, of_res at 1, PermissionEnforcer.check. case_bool_decide as Hp; [|exists []; split; [apply moved_refl|by left]].
  apply effects_after; [apply quiet_ask|intros start h1 Hh1|by left].
  apply effects_before; [|intros v; apply quiet_bind; [apply quiet_ask|intros now; apply quiet_envelope]].
  eapply (effects_world _ _ (ToolRun t args)); [done|]. right. by exists t.
Qed.

Lemma res_map_elem {A B} (f : A → res B) (l : list A) r x y : res_map f l = Ok r → x ∈ l → f x = Ok y → y ∈ r.
Proof.
  revert r. induction l as [|a l IH]; intros r Hr Hx Hy; [set_solver|]. cbn in Hr. apply res_bind_ok in Hr as (b & Hb & Hr).
  apply res_bind_ok in Hr as (bs & Hbs & [= <-]). apply elem_of_cons in Hx as [->|Hx]; [|right; by apply (IH bs)].
  rewrite Hy in Hb. injection Hb as ->. by left.
Qed.

Lemma res_map_source {A B} (f : A → res B) (l : list A) r y : res_map f l = Ok r → y ∈ r → ∃ x, x ∈ l ∧ f x = Ok y.
Proof.
  revert r. induction l as [|a l IH]; intros r Hr Hy; cbn in Hr; [injection Hr as <-; set_solver|]. apply res_bind_ok in Hr as (b & Hb & Hr).
  apply res_bind_ok in Hr as (bs & Hbs & [= <-]). apply elem_of_cons in Hy as [->|Hy]; [exists a; split; [by left|done]|].
  destruct (IH bs Hbs Hy) as (x & ? & ?). exists x. split; [by right|done].
Qed.

Lemma read_file_effects path h :
  effects (read_file resolve read_text policy path) h (fun es => es = [] ∨ ∃ target, es = [FileRead target] ∧ readable policy target).
Proof.
  assert (Hnil : ∃ es, moved h h es ∧ (es = [] ∨ ∃ target, es = [FileRead target] ∧ readable policy target)).
  { exists []. split; [apply moved_refl|by left]. }
  unfold read_file, effects, after. unfold bind at 1, of_res at 1. destruct (resolve path) as [target|e]; [|exact Hnil].
  unfold bind at 1, of_res at 1. destruct (res_map resolve (SandboxPolicy.denied_filesystem_prefixes policy)) as [ds|e] eqn:Ed; [|exact Hnil].
  destruct (existsb _ ds) eqn:Hd; [exact Hnil|].
  unfold bind at 1, of_res at 1. destruct (res_map resolve (SandboxPolicy.allowed_filesystem_paths policy)) as [l|e] eqn:Ea; [|exact Hnil].
  destruct (existsb _ l) eqn:Ha; cbn [negb]; [|exact Hnil].
  eapply (effects_world _ _ (FileRead target)); [done|]. right. exists target. split; [done|]. split.
  - intros d prefix Hin Hr. pose proof (res_map_elem _ _ _ _ _ Ed Hin Hr) as Hx.
    destruct (starts_with prefix target) eqn:Es; [|done]. rewrite <- Hd. symmetry. apply existsb_exists. exists prefix.
    split; [by apply list_elem_of_In|done].
  - apply existsb_exists in Ha as (prefix & Hin & Hs). apply list_elem_of_In in Hin.
    destruct (res_map_source _ _ _ _ Ea Hin) as (a & ? & ?). by exists a, prefix.
Qed.

Lemma starts_with_app a b : starts_with a (a +:+ b) = true.
Proof. unfold starts_with. induction a as [|x a IH]; [by destruct b|]. cbn. destruct (Ascii.ascii_dec x x); [exact IH|done]. Qed.

Lemma composite_key key k :
  starts_with (MemoryScope.key_prefix scope +:+ ":") k = false → ScopedMemoryStore.composite scope key ≠ k.
Proof. intros Hk <-. unfold ScopedMemoryStore.composite in Hk. by rewrite <- str_app_assoc, starts_with_app in Hk. Qed.

(** Calls of memory that change keys of the scope only. *)
Definition in_scope {A} (m : M ScopedMemoryStore.t A) : Prop := ∀ x k,
  starts_with (MemoryScope.key_prefix scope +:+ ":") k = false →
  dget (ScopedMemoryStore._records (after m x)) k = dget (ScopedMemoryStore._records x) k.

Lemma in_scope_set key v ttl : in_scope (ScopedMemoryStore.set scope key v ttl).
Proof.
  intros x k Hk. unfold after. destruct (MemoryFacts.after_set scope key v ttl x) as (r & n & f & E & _ & Hf). rewrite E.
  cbn [snd ScopedMemoryStore._records]. destruct (is_ok r); [|done]. destruct (Hf eq_refl) as (d & _ & _ & ->).
  apply dget_dset_ne. by apply composite_key.
Qed.

Lemma in_scope_get key : in_scope (ScopedMemoryStore.get scope key).
Proof.
  intros x k Hk. unfold ScopedMemoryStore.get, after. unfold bind at 1, gets at 1.
  destruct (dget _ (ScopedMemoryStore.composite scope key)) as [i|]; [|done]. unfold bind at 1.
  assert (Hx : ∃ r n, ScopedMemoryStore.expired i ScopedMemoryStore.utc_now x =
    (r, ScopedMemoryStore.Mk (ScopedMemoryStore._records x) (ScopedMemoryStore._storage_file x) n)).
  { unfold ScopedMemoryStore.expired. destruct (ScopedMemoryStore.expires_at i) as [[|a t]|]; [by destruct x; repeat eexists| |by destruct x; repeat eexists].
    unfold bind, of_res. destruct (fromisoformat _); [by repeat eexists|by destruct x; repeat eexists]. }
  destruct Hx as (r & n & ->). destruct r as [[|]|e]; [|done|done].
  unfold bind, ScopedMemoryStore.set_records, ScopedMemoryStore._persist, modify, ret. cbn [snd ScopedMemoryStore._records].
  apply dget_ddel_ne. by apply composite_key.
Qed.

Lemma quiet_memory {A} (m : M ScopedMemoryStore.t A) : in_scope m → quiet (on_memory m).
Proof.
  intros Hm h. unfold after, on_memory. specialize (Hm (ScopedMemoryStore.Mk (ScopedMemoryStore._records (memory_store h))
    (ScopedMemoryStore._storage_file (memory_store h)) (tick h))). unfold after in Hm. destruct (m _) as [r x]. by split.
Qed.

(** What a call of the agent does: no more than one tool runs, none once the run
    is cancelled or the limit is reached. *)
Record performed c c' (es : list effect) : Prop := Performed {
  pf_moved : moved (host c) (host c') es;
  pf_cancelled : cancelled c' = cancelled c;
  pf_timed_out : timed_out c' = timed_out c;
  pf_one : (tool_runs es <= 1)%nat;
  pf_allowed : ∀ p, Forall (allowed manifest policy (_tools (host c)) p) es;
  pf_stopped : cancelled c = true → tool_runs es = 0%nat;
  pf_counted : _tool_calls c + Z.of_nat (tool_runs es) <= _tool_calls c';
  pf_limit : tool_runs es = 0%nat ∨ _tool_calls c' <= AgentManifest.max_tool_calls manifest;
}.

Lemma performed_idle c c' :
  moved (host c) (host c') [] → cancelled c' = cancelled c → timed_out c' = timed_out c → _tool_calls c <= _tool_calls c' →
  performed c c' [].
Proof. intros Hm Hc Ht Hn. split; [done|done|done|cbn; lia|by constructor|done|cbn; lia|by left]. Qed.

Lemma performed_refl c : performed c c [].
Proof. apply performed_idle; [apply moved_refl|done|done|lia]. Qed.

Lemma on_host_performed {A} (m : M (runtime W) A) c (P : list effect → Prop) :
  effects m (host c) P → (∀ es, P es → tool_runs es = 0%nat ∧ ∀ p, Forall (allowed manifest policy (_tools (host c)) p) es) →
  ∃ es, performed c (after (on_host m) c) es.
Proof.
  intros (es & Hm & HP) Hes. destruct (Hes es HP) as [Hn Hall]. exists es. unfold after, on_host, zoom in *. destruct (m (host c)) as [r h].
  split; cbn -[tool_runs]; [exact Hm|done|done|lia|done|done|lia|by left].
Qed.

Lemma on_host_quiet {A} (m : M (runtime W) A) c : quiet m → ∃ es, performed c (after (on_host m) c) es.
Proof.
  intros Hm. apply (on_host_performed m c (fun es => es = [])); [by exists []|]. intros ? ->. split; [done|by constructor].
Qed.

Lemma performed_ret {A B} (m : M (session W) A) (f : A → res B) c c0 :
  (∃ es, performed c0 (after m c) es) → ∃ es, performed c0 (after (bind m (fun a => of_res (f a))) c) es.
Proof. unfold after, bind, of_res. by destruct (m c) as [[a|e] c']. Qed.

Lemma uncancelled {A} (m : M (session W) A) c :
  (∃ es, performed c (after m c) es) → ∃ es, performed c (after (do* _assert_not_cancelled; m) c) es.
Proof.
  intros Hm. unfold after, _assert_not_cancelled. unfold bind at 1. unfold bind at 1, get_state at 1.
  destruct (cancelled c); [exists []; apply performed_refl|exact Hm].
Qed.

Lemma call_tool_performed name args c : ∃ es, performed c (after (call_tool correlation_id manifest name args) c) es.
Proof.
  unfold after, call_tool, _assert_not_cancelled. unfold bind at 1. unfold bind at 1, get_state at 1.
  destruct (cancelled c) eqn:Ec; [exists []; apply performed_refl|]. unfold ret. unfold bind at 1, modify at 1. set (c1 := Session _ _ _ _ _).
  unfold bind at 1, get_state at 1. destruct (Z.gtb_spec (_tool_calls c1) (AgentManifest.max_tool_calls manifest)) as [Hgt|Hle].
  { exists []. apply performed_idle; [apply moved_refl|done|done|cbn; lia]. }
  apply (performed_ret (on_host (invoke manifest name args correlation_id)) (fun env => dindex (ProtocolEnvelope.payload env) "result")).
  destruct (invoke_effects name args (host c1)) as (es & Hm & Hes). exists es. unfold after, on_host, zoom in *.
  destruct (invoke _ _ _ _ (host c1)) as [r h]. change (host c1) with (host c) in *.
  assert (tool_runs es <= 1)%nat by (destruct Hes as [->|(t & -> & _)]; cbn; lia).
  split; cbn -[tool_runs] in *; [exact Hm|done|done|done| |congruence|lia|right; lia].
  intros p. destruct Hes as [->|(t & -> & Ht & Hp)]; [by constructor|]. constructor; [|by constructor]. split; [by exists name|done].
Qed.

Lemma perform_eq op c : ∃ es, performed c (after (perform resolve read_text correlation_id scope manifest policy op) c) es.
Proof.
  destruct op as [name args|key v ttl|key|name payload|path]; cbn [perform].
  - apply call_tool_performed.
  - apply (performed_ret (memory_set scope key v ttl) (fun _ => Ok VNone)). apply uncancelled, on_host_quiet, quiet_memory, in_scope_set.
  - apply uncancelled, on_host_quiet, quiet_memory, in_scope_get.
  - exists []. apply performed_idle; [apply moved_refl|done|done|done].
  - apply (performed_ret (on_host (read_file resolve read_text policy path)) (fun text => Ok (VStr text))).
    eapply on_host_performed; [apply read_file_effects|]. intros es [->|(target & -> & Ht)]; [split; [done|intros p; by constructor]|].
    split; [done|]. intros p. constructor; [exact Ht|by constructor].
Qed.

(** A run that is no longer waited for is cancelled. *)
Definition waited c : Prop := timed_out c = true → cancelled c = true.

(** The signals change no more than the token. *)
Record signalled c c' : Prop := Signalled {
  sg_moved : moved (host c) (host c') [];
  sg_calls : _tool_calls c' = _tool_calls c;
  sg_cancelled : cancelled c = true → cancelled c' = true;
  sg_waited : waited c';
}.

Lemma deliver_eq sig c :
  waited c → ∃ c', deliver correlation_id agent_id effective_timeout sig c = (Ok tt, c') ∧ signalled c c' ∧ cancelled c' = true.
Proof.
  intros Hw. destruct sig; cbn [deliver]; [eexists; split; [reflexivity|]; by repeat split|].
  unfold bind at 1, get_state at 1. destruct (timed_out c) eqn:Et.
  - exists c. split; [done|]. split; [|by apply Hw]. split; [apply moved_refl|done|done|done].
  - unfold on_timeout, on_host, zoom, inc, log, utc_now, ask, observe, bind, modify. eexists. split; [reflexivity|].
    by repeat split.
Qed.

Lemma signals_eq l c :
  waited c → ∃ c', for_each l (deliver correlation_id agent_id effective_timeout) c = (Ok tt, c') ∧ signalled c c' ∧
    (l ≠ [] → cancelled c' = true).
Proof.
  revert c. induction l as [|sig l IH]; intros c Hw; cbn [for_each].
  { exists c. split; [done|]. split; [|done]. split; [apply moved_refl|done|done|done]. }
  destruct (deliver_eq sig c Hw) as (c1 & E1 & [m1 n1 k1 w1] & Hc1). unfold bind. rewrite E1. destruct (IH c1 w1) as (c2 & E2 & [m2 n2 k2 w2] & _).
  exists c2. split; [exact E2|]. split; [|intros _; by apply k2].
  split; [exact (moved_trans _ _ _ _ _ m1 m2)|congruence|tauto|done].
Qed.

(** What the agent does to the world in its run. *)
Record confined p (signals : list (list signal)) c c' (es : list effect) : Prop := Confined {
  cf_moved : moved (host c) (host c') es;
  cf_allowed : Forall (allowed manifest policy (_tools (host c)) p) es;
  cf_limit : Z.of_nat (tool_runs es) <= Z.max 0 (AgentManifest.max_tool_calls manifest - _tool_calls c);
  cf_cancelled : cancelled c = true → tool_runs es = 0%nat;
  cf_signals : ∀ n l, signals !! n = Some l → l ≠ [] → (tool_runs es <= n)%nat;
}.

Lemma allowed_weaken tools p p' e : (∀ f, owns p f → owns p' f) → allowed manifest policy tools p e → allowed manifest policy tools p' e.
Proof. intros Hp. destruct e; cbn; [apply Hp|done|done]. Qed.

(** One step of the agent after the signals, and the rest. *)
Lemma confined_step p q signals c c1 c2 c3 es1 es2 :
  signalled c c1 → (default [] (head signals) ≠ [] → cancelled c1 = true) →
  moved (host c1) (host c2) es1 → Forall (allowed manifest policy (_tools (host c1)) p) es1 → (tool_runs es1 <= 1)%nat →
  (cancelled c1 = true → tool_runs es1 = 0%nat ∧ cancelled c2 = true) →
  _tool_calls c1 + Z.of_nat (tool_runs es1) <= _tool_calls c2 →
  (tool_runs es1 = 0%nat ∨ _tool_calls c2 <= AgentManifest.max_tool_calls manifest) →
  (∀ f, owns q f → owns p f) → confined q (tail signals) c2 c3 es2 → confined p signals c c3 (es1 ++ es2).
Proof.
  intros [m1 n1 k1 _] Hsig m2 Ha Hone Hstop Hcount Hlim Hown [m3 Ha3 Hl3 Hc3 Hs3].
  assert (Hboth : cancelled c1 = true → tool_runs (es1 ++ es2) = 0%nat).
  { intros Hc. destruct (Hstop Hc) as [? Hc2]. rewrite tool_runs_app, (Hc3 Hc2). lia. }
  split.
  - exact (moved_trans _ _ _ _ _ m1 (moved_trans _ _ _ _ _ m2 m3)).
  - rewrite <- (mv_tools _ _ _ m1). apply Forall_app. split; [done|]. rewrite <- (mv_tools _ _ _ m2).
    eapply Forall_impl; [exact Ha3|]. intros e. by apply allowed_weaken.
  - rewrite tool_runs_app. lia.
  - intros Hc. by apply Hboth, k1.
  - intros [|n] l Hl Hne.
    + rewrite Hboth; [done|]. apply Hsig. destruct signals as [|l0 signals]; [done|]. by injection Hl as ->.
    + rewrite tool_runs_app. assert (tool_runs es2 <= n)%nat; [|lia]. apply (Hs3 n l); [|done]. by destruct signals.
Qed.

Lemma exec_confined p signals c :
  waited c → ∃ es, confined p signals c
    (exec resolve read_text correlation_id scope manifest policy agent_id effective_timeout p signals c).2 es.
Proof.
  revert signals c. induction p as [v|e|f k IH|op k IH]; intros signals c Hw; cbn [exec]; unfold after at 1;
    destruct (signals_eq (default [] (head signals)) c Hw) as (c1 & -> & Hs & Hsig); cbn [snd].
  - exists []. split; [apply Hs|by constructor|cbn; lia|done|cbn; lia].
  - exists []. split; [apply Hs|by constructor|cbn; lia|done|cbn; lia].
  - destruct (on_host (on_world f) c1) as [r c2] eqn:E. unfold on_host, on_world, zoom in E. destruct (f (outside (host c1))) as [r0 w] eqn:Ef.
    injection E as -> <-. set (c2 := Session _ _ _ _ _). destruct (IH r (tail signals) c2) as (es & Hes); [apply Hs|].
    exists ([OwnCode f] ++ es). eapply (confined_step _ (k r)); [exact Hs|exact Hsig| | | | | | | |exact Hes].
    + split; [|done..]. cbn. unfold after. by rewrite Ef.
    + constructor; [constructor|by constructor].
    + cbn. lia.
    + by split.
    + cbn. lia.
    + by left.
    + intros g. apply owns_own.
  - destruct (perform_eq op c1) as (es1 & Hp). unfold after in Hp. destruct (perform _ _ _ _ _ _ op c1) as [r c2]. cbn [snd] in Hp.
    destruct Hp as [m ec et Hone Ha Hstop Hcount Hlim].
    destruct (IH r (tail signals) c2) as (es & Hes). { unfold waited. rewrite ec, et. apply Hs. }
    exists (es1 ++ es). eapply (confined_step _ (k r)); [exact Hs|exact Hsig|exact m|apply Ha|done| |done|done| |exact Hes].
    + intros Hc. split; [by apply Hstop|congruence].
    + intros g. apply owns_call.
Qed.

Lemma effects_finally {A} (m : M (runtime W) A) f h P : effects m h P → quiet f → effects (try_finally m f) h P.
Proof.
  intros (es & Hes & HP) Hf. exists es. split; [|done]. unfold after, try_finally in *. destruct (m h) as [r h1]. specialize (Hf h1).
  unfold after in Hf. destruct (f h1) as [r' h2]. cbn in *. rewrite <- (app_nil_r es). by eapply moved_trans.
Qed.

Lemma effects_span {A} name (m : M (runtime W) A) h (P : list effect → Prop) :
  P [] → (∀ h', moved h h' [] → effects m h' P) → effects (span correlation_id name m) h P.
Proof.
  intros Hnil Hm. apply effects_after; [apply quiet_ask|intros start h1 Hh1|done].
  apply effects_after; [apply quiet_log|intros [] h2 Hh2|done].
  apply effects_finally; [apply Hm; exact (moved_trans _ _ _ _ _ Hh1 Hh2)|].
  apply quiet_bind; [apply quiet_ask|intros now]. apply quiet_bind; [apply quiet_observe|intros []; apply quiet_log].
Qed.

Lemma supervise_effects p signals h :
  effects (supervise resolve read_text correlation_id scope manifest policy agent_id effective_timeout p signals) h
    (fun es => Forall (allowed manifest policy (_tools h) p) es ∧
       Z.of_nat (tool_runs es) <= Z.max 0 (AgentManifest.max_tool_calls manifest) ∧
       ∀ n l, signals !! n = Some l → l ≠ [] → (tool_runs es <= n)%nat).
Proof.
  destruct (exec_confined p signals (Session h 0 [] false false)) as (es & [Hm Ha Hl _ Hs]); [done|]. exists es.
  unfold after, supervise. destruct (exec _ _ _ _ _ _ _ _ p signals _) as [r c]. cbn -[tool_runs] in *.
  split; [exact Hm|]. split; [done|]. split; [lia|done].
Qed.

End Run.

(** The runtime a run starts from: the factory made the agent, which is loaded. *)
Definition started (agent_id : string) (a : InstalledAgent W) (w : W) (s : runtime W) : runtime W :=
  Runtime w (_tools s) (memory_store s)
    (if bool_decide (InstalledAgent.state a = "installed")
     then set_agent (VStr agent_id) (InstalledAgent.with_state "loaded" a) (_agents s) else _agents s)
    (_signer_keys s) (observed s) (tick s).

Lemma load_eq scope agent_id a h :
  find_agent (VStr agent_id) (_agents h) = Some a →
  ∃ h', (if bool_decide (InstalledAgent.state a = "installed") then load agent_id else ret tt) h = (Ok tt, h') ∧
    moved scope (started agent_id a (outside h) h) h' [] ∧ outside h' = outside h.
Proof.
  intros Ha. unfold started. case_bool_decide as Hs; [|exists h; by repeat split].
  unfold load, change_state. unfold bind at 1, gets at 1. rewrite Ha.
  unfold inc, log, utc_now, ask, observe, bind, modify. eexists. split; [reflexivity|]. by repeat split.
Qed.

End Confinement.

(** C28: an agent does what its manifest allows. In a run of an agent, whatever its
    code and whenever the run is cancelled or no longer waited for, the world is
    changed by code of the agent's own, by tools that are registered and whose
    permission the manifest grants, no more of them than the manifest's limit and
    none after the run was cancelled, and by reading files the policy of the
    sandbox lets it read. Memory changes in the scope of the run only; tools,
    signers and other agents do not change. An agent that is not installed or is
    suspended does not run. *)
Theorem agent_confined `{Oracle} {W : Type} (resolve : val → res string) (read_text : string → M W string)
    (agent_id : string) (request : doc) (user_id session_id : string) (timeout_seconds : option float)
    (signals : list (list signal)) (s : runtime W) :
  ∃ r s', run resolve read_text agent_id request user_id session_id timeout_seconds signals s = (r, s') ∧
    match find_agent (VStr agent_id) (_agents s) with
    | None => r = Err (Exn NotFoundError "agent is not installed") ∧ s' = s
    | Some a =>
        if decide (InstalledAgent.state a = "suspended") then r = Err (Exn ConflictError "agent is suspended") ∧ s' = s
        else
        let m := InstalledAgent.manifest a in
        ∃ w es, moved read_text (scope_of m user_id session_id) (started agent_id a w s) s' es ∧
          match sandbox_policy m, InstalledAgent.factory a (outside s) with
          | Ok policy, (Ok agent, w') =>
              w = w' ∧ Forall (allowed resolve m policy (_tools s) (agent request)) es ∧
              Z.of_nat (tool_runs es) <= Z.max 0 (AgentManifest.max_tool_calls m) ∧
              ∀ n sigs, signals !! n = Some sigs → sigs ≠ [] → (tool_runs es <= n)%nat
          | Ok _, (Err _, w') => w = w' ∧ es = []
          | Err _, _ => w = outside s ∧ es = []
          end
    end.
Proof.
  unfold run. unfold bind at 1, gets at 1. destruct (find_agent _ _) as [a|] eqn:Ea; [|by do 2 eexists].
  destruct (decide (InstalledAgent.state a = "suspended")) as [Hs|Hs]; [rewrite bool_decide_eq_true_2 by done; by do 2 eexists|].
  rewrite bool_decide_eq_false_2 by done. set (m := InstalledAgent.manifest a). set (scope := scope_of m user_id session_id). cbv zeta.
  destruct (load_eq read_text scope agent_id a s Ea) as (h1 & E1 & Hm1 & Ho). unfold bind at 1. rewrite E1. clear E1.
  unfold bind at 1, uuid4 at 1, ask at 1. set (h2 := with_rest _ _ _ _). unfold bind at 1, of_res at 1.
  destruct (sandbox_policy m) as [policy|e].
  2: { do 2 eexists. split; [reflexivity|]. exists (outside s), []. split; [|done]. destruct Hm1. by split. }
  unfold bind at 1, on_world, zoom. change (outside h2) with (outside h1). rewrite Ho.
  destruct (InstalledAgent.factory a (outside s)) as [[agent|e] w].
  2: { do 2 eexists. split; [reflexivity|]. exists w, []. split; [|done]. destruct Hm1. by split. }
  set (h3 := with_rest _ _ _ _). set (P := fun es => Forall (allowed resolve m policy (_tools s) (agent request)) es ∧
    Z.of_nat (tool_runs es) <= Z.max 0 (AgentManifest.max_tool_calls m) ∧ ∀ n sigs, signals !! n = Some sigs → sigs ≠ [] → (tool_runs es <= n)%nat).
  match goal with |- ∃ r s', ?k h3 = _ ∧ _ => assert (Hk : effects read_text scope k h3 P) end.
  { assert (Hnil : P []) by (split; [by constructor|split; [cbn; lia|intros; cbn; lia]]).
    apply effects_after; [apply quiet_ask|intros start h4 Hh4|done]. apply effects_before.
    - apply effects_span; [done|]. intros h5 Hh5.
      pose proof (supervise_effects resolve read_text (uuid_text (uuid_hex (tick h1))) scope m policy agent_id
        (effective_timeout_of timeout_seconds (AgentManifest.max_run_seconds m)) (agent request) signals h5) as Hsup.
      rewrite (mv_tools _ _ _ _ _ Hh5), (mv_tools _ _ _ _ _ Hh4) in Hsup. change (_tools h3) with (_tools h1) in Hsup.
      rewrite (mv_tools _ _ _ _ _ Hm1) in Hsup. exact Hsup.
    - intros result. apply quiet_bind; [apply quiet_ask|intros now]. apply quiet_bind; [apply quiet_observe|intros _].
      apply quiet_bind; [apply quiet_observe|intros _]. apply quiet_bind; [apply quiet_log|intros _]. apply quiet_envelope. }
  destruct Hk as (es & Hmv & HP). unfold after in Hmv. match goal with |- ∃ r s', ?x = _ ∧ _ => destruct x as [r s'] end.
  exists r, s'. split; [done|]. exists w, es. split; [|by split]. cbn in Hmv. change es with ([] ++ es). eapply moved_trans; [|exact Hmv].
  destruct Hm1. by split.
Qed.

(** ** Signatures and other limits *)

(** A signature is accepted exactly when the signer's key makes it. *)
Lemma verify_signed `{Oracle} sha256_bytes signer_id payload signature keys digest :
  PackageIntegrityVerifier.verify sha256_bytes signer_id payload signature keys = Ok digest ↔
  PackageIntegrityVerifier.sign sha256_bytes signer_id payload keys = Ok signature ∧ digest = sha256_bytes payload.
Proof.
  unfold PackageIntegrityVerifier.verify, PackageIntegrityVerifier.sign. destruct (dget keys signer_id) as [key|]; [|by split; [|intros [? _]]].
  case_bool_decide as Hs; cbn [negb]; [rewrite Hs|]; split; try done.
  - by intros [= <-].
  - by intros [_ ->].
  - by intros [[= ?] _].
Qed.

(** The signature does not cover the manifest: with the same package and the same
    signature any manifest is installed, and it grants the permissions. *)
Lemma manifest_not_signed `{Oracle} {W : Type} sha256_bytes manifest manifest' m' payload signature signer_id factory (s : runtime W) :
  is_ok (install sha256_bytes manifest payload signature signer_id factory s).1 = true →
  ManifestLoader.from_dict manifest' = Ok m' → hashable (AgentManifest.agent_id m') = Ok tt →
  (install sha256_bytes manifest' payload signature signer_id factory s).1 = Ok m'.
Proof.
  unfold install. unfold bind at 1, of_res at 1. destruct (ManifestLoader.from_dict manifest) as [m|e]; [|done].
  unfold bind at 1, gets at 1. unfold bind at 1, of_res at 1.
  destruct (PackageIntegrityVerifier.verify _ _ _ _ _) as [digest|e] eqn:Ev; [|done]. intros _ Hm Hh.
  unfold bind at 1, of_res at 1. rewrite Hm. unfold bind at 1, gets at 1. unfold bind at 1, of_res at 1. rewrite Ev.
  unfold bind at 1, of_res at 1. by rewrite Hh.
Qed.

(** ** Witness *)

Section Demo.
#[local] Instance demo_runtime_oracle : Oracle := {
  clock n := 1000000 * Z.of_nat n;
  perf n := Z.of_nat n;
  uuid_hex n := "00000000000000000000000000000000";
  sha256_hex s := s;
}.

Definition demo_resolve (v : val) : res string := match v with VStr s => Ok s | _ => type_error "no path" end.

(** Paths are compared as texts: an allowed one allows its siblings. *)
Lemma sibling_is_readable :
  (read_file demo_resolve (fun target w => (Ok target, w))
     (SandboxPolicy.Mk false [VStr "/data/a"] SandboxPolicy.denied_by_default) (VStr "/data/ab/secret")
     (Runtime tt [] (ScopedMemoryStore._load None 0) [] [] (Observability.Mk [] [] []) 0)).1 = Ok "/data/ab/secret".
Proof. vm_compute. reflexivity. Qed.

Definition demo_agent_manifest : AgentManifest :=
  AgentManifest.Mk (VStr "v1") (VStr "notes") (VStr "Notes") (VStr "") (VStr "1.0") (VStr "main") [] [VStr "use"] [] (lit 600 1) 1.

(** An agent that counts twice. *)
Definition demo_program : program nat :=
  Call (CallTool "count" []) (fun _ => Call (CallTool "count" []) (fun _ => Return VNone)).

Definition demo_runtime : runtime nat :=
  Runtime 0%nat [("count", RegisteredTool.Mk "count" "use" (fun _ n => (Ok VNone, S n)))] (ScopedMemoryStore._load None 0)
    [(VStr "notes", InstalledAgent.Mk demo_agent_manifest "" "installed" (ret (fun _ => demo_program)))] []
    (Observability.Mk [] [] []) 0.

Lemma agent_confined_witness :
  ∃ r s' es, run demo_resolve (fun target w => (Ok target, w)) "notes" [] "alice" "home" None [[]; [Cancel]] demo_runtime = (r, s') ∧
    is_ok r = true ∧ outside s' = 1%nat ∧ outside s' = acts (fun target w => (Ok target, w)) es 0%nat ∧ (tool_runs es <= 1)%nat.
Proof.
  destruct (agent_confined demo_resolve (fun target w => (Ok target, w)) "notes" [] "alice" "home" None [[]; [Cancel]] demo_runtime)
    as (r & s' & E & w & es & Hm & Hw & _ & _ & Hs).
  exists r, s', es. split; [exact E|]. assert (Hr : (is_ok r, outside s') = (true, 1%nat)).
  { apply (f_equal (fun x => (is_ok x.1, outside x.2))) in E. vm_compute in E. symmetry. exact E. }
  injection Hr as Hr Ho. split; [exact Hr|]. split; [exact Ho|]. split; [rewrite (mv_outside _ _ _ _ _ Hm); by rewrite Hw|].
  by apply (Hs 1%nat [Cancel]).
Defined.
End Demo.
