(* ===== verification/AuditLog.v ===== *)
(** The audit log of agentfabric/phase4/audit.py: events chained by the SHA-256
    of a text in which the fields are joined by bars. *)

From stdpp Require Import base option list strings gmap.
From Stdlib Require Import ZArith Lia Ascii.
From S2P Require Import Prelude PyVal PyTime Store EventStore.

Local Open Scope Z_scope.

(** * Events *)

Module AuditEvent.
Record t := Mk {
  timestamp : Z;
  actor_id : string;
  action : string;
  target : string;
  metadata : doc;
  previous_hash : string;
  event_hash : string;
}.

(** The text an event's hash is made of, after the hash [previous]. *)
Definition material (e : t) (previous : string) : string :=
  isoformat (timestamp e) +:+ "|" +:+ actor_id e +:+ "|" +:+ action e +:+ "|" +:+ target e +:+ "|" +:+
  py_repr (VDict (metadata e)) +:+ "|" +:+ previous.
End AuditEvent.

Abbreviation AuditEvent := AuditEvent.t.

(** * The log *)

Module ImmutableAuditLog.

(** [_events], and the count of the questions put to the clock. *)
Record t := Mk { _events : list AuditEvent; tick : nat }.

Section Log.
Context `{Oracle}.

(** [ImmutableAuditLog()] at a given moment. *)
Definition init (tick : nat) : t := Mk [] tick.

Definition utc_now : M t Z := fun s => (Ok (clock (tick s)), Mk (_events s) (S (tick s))).

Definition last_hash (evs : list AuditEvent) : string :=
  match last evs with Some e => AuditEvent.event_hash e | None => "GENESIS" end.

Definition append (actor_id action target : string) (metadata : option doc) : M t AuditEvent :=
  let metadata := default [] metadata in
  let* previous_hash := gets (fun s => last_hash (_events s)) in
  let* timestamp := utc_now in
  let event := AuditEvent.Mk timestamp actor_id action target metadata previous_hash in
  let event := event (sha256_hex (AuditEvent.material (event "") previous_hash)) in
  do* modify (fun s => Mk (_events s ++ [event]) (tick s));
  ret event.

Definition events (s : t) : list AuditEvent := _events s.

(** The loop of [verify_integrity]. *)
Fixpoint verify_from (previous_hash : string) (evs : list AuditEvent) : bool :=
  match evs with
  | [] => true
  | e :: evs' =>
      if negb (bool_decide (sha256_hex (AuditEvent.material e previous_hash) = AuditEvent.event_hash e)) then false
      else verify_from (AuditEvent.event_hash e) evs'
  end.

Definition verify_integrity (s : t) : bool := verify_from "GENESIS" (_events s).

(** Logs made by calls of [append] alone. *)
Inductive appended : t → t → Prop :=
  | appended_step s a b c m : appended s (after (append a b c m) s).

End Log.
End ImmutableAuditLog.

(** * Lemmas *)

(** ** Text without bars *)

Definition bar_free (s : string) : Prop := has_char "|"%char s = false.

Lemma has_char_app c a b : has_char c (a +:+ b) = has_char c a || has_char c b.
Proof. induction a as [|x a IH]; cbn; [done|]. by rewrite IH, orb_assoc. Qed.

(** The first bar of a text tells what is before it. *)
Lemma bar_split a b s u : bar_free a → bar_free b → a +:+ "|" +:+ s = b +:+ "|" +:+ u → a = b ∧ s = u.
Proof.
  unfold bar_free. revert b. induction a as [|x a IH]; intros [|y b] Ha Hb E; cbn in *.
  - by injection E.
  - injection E as <- _. done.
  - injection E as -> _. done.
  - apply orb_false_iff in Ha as [_ Ha], Hb as [_ Hb]. injection E as -> E.
    destruct (IH b Ha Hb E) as [-> ->]. done.
Qed.

(** And the last one tells what is after it. *)
Lemma bar_split_end a b s u : bar_free s → bar_free u → a +:+ "|" +:+ s = b +:+ "|" +:+ u → a = b ∧ s = u.
Proof.
  unfold bar_free. revert b. induction a as [|x a IH]; intros [|y b] Hs Hu E; cbn in *.
  - by injection E.
  - injection E as <- ->. rewrite has_char_app in Hs. cbn in Hs. by rewrite orb_true_r in Hs.
  - injection E as -> <-. rewrite has_char_app in Hu. cbn in Hu. by rewrite orb_true_r in Hu.
  - injection E as -> E. destruct (IH b Hs Hu E) as [-> ->]. done.
Qed.

Lemma zpad_bar_free w n : 0 <= n < 10 ^ Z.of_nat w → bar_free (zpad w n).
Proof.
  unfold bar_free. revert n. induction w as [|w IH]; intros n Hn; [done|].
  rewrite Nat2Z.inj_succ, Z.pow_succ_r in Hn by lia. cbn [zpad has_char].
  assert (0 < 10 ^ Z.of_nat w) by (apply Z.pow_pos_nonneg; lia).
  rewrite IH by (apply Z.mod_pos_bound; lia). rewrite orb_false_r. apply bool_decide_eq_false_2.
  assert (0 <= n / 10 ^ Z.of_nat w <= 9).
  { split; [apply Z.div_pos; lia|]. apply Z.lt_succ_r, Z.div_lt_upper_bound; lia. }
  set (d := n / 10 ^ Z.of_nat w) in *. clearbody d.
  assert (d = 0 ∨ d = 1 ∨ d = 2 ∨ d = 3 ∨ d = 4 ∨ d = 5 ∨ d = 6 ∨ d = 7 ∨ d = 8 ∨ d = 9) as Hd by lia.
  by destruct_or! Hd; subst d.
Qed.

Lemma bar_free_app a b : bar_free a → bar_free b → bar_free (a +:+ b).
Proof. unfold bar_free. rewrite has_char_app. by intros -> ->. Qed.

Lemma isoformat_bar_free t : time_ok t → bar_free (isoformat t).
Proof.
  intros Ht. destruct (time_fields t Ht) as (Hd & Hh & Hm & Hs & Hu & _). unfold isoformat, date_iso.
  pose proof (day2ymd_spec (t / day_us) Hd) as Hy. destruct (day2ymd (t / day_us)) as [[y m] d].
  destruct Hy as [Hv _]. destruct (valid_ymd_bounds y m d Hv) as (? & ? & ?). unfold second_us in *.
  repeat match goal with
  | |- bar_free (_ +:+ _) => apply bar_free_app
  | |- bar_free (zpad _ _) => apply zpad_bar_free; cbn; lia
  | |- bar_free (if ?b then _ else _) => destruct b
  | |- bar_free _ => reflexivity
  end.
Qed.

(** ** The chain *)

Section Chain.
Context `{Oracle}.
Import ImmutableAuditLog.

(** SHA-256 digests are written in hexadecimal. *)
Definition plain_digests : Prop := ∀ s, bar_free (sha256_hex s) ∧ sha256_hex s ≠ "GENESIS".

(** An event whose fields the bars of its text can be told apart from. *)
Definition plain_event (e : AuditEvent) : Prop :=
  time_ok (AuditEvent.timestamp e) ∧ bar_free (AuditEvent.actor_id e) ∧
  bar_free (AuditEvent.action e) ∧ bar_free (AuditEvent.target e).

(** Two events that say the same: the metadata are told by their text. *)
Definition same_event (e e' : AuditEvent) : Prop :=
  AuditEvent.timestamp e = AuditEvent.timestamp e' ∧ AuditEvent.actor_id e = AuditEvent.actor_id e' ∧
  AuditEvent.action e = AuditEvent.action e' ∧ AuditEvent.target e = AuditEvent.target e' ∧
  py_repr (VDict (AuditEvent.metadata e)) = py_repr (VDict (AuditEvent.metadata e')) ∧
  AuditEvent.event_hash e = AuditEvent.event_hash e'.

Lemma verify_from_app p l1 l2 :
  verify_from p (l1 ++ l2) =
  verify_from p l1 && verify_from (match last l1 with Some e => AuditEvent.event_hash e | None => p end) l2.
Proof.
  revert p. induction l1 as [|e l1 IH]; intros p; [done|]. cbn [app verify_from].
  case_bool_decide; cbn [negb]; [|done]. rewrite IH, last_cons. by destruct (last l1).
Qed.

Lemma verify_snoc l e :
  verify_from "GENESIS" (l ++ [e]) = true ↔
  verify_from "GENESIS" l = true ∧ sha256_hex (AuditEvent.material e (last_hash l)) = AuditEvent.event_hash e.
Proof.
  rewrite verify_from_app, andb_true_iff. cbn [verify_from]. fold (last_hash l).
  case_bool_decide; cbn; naive_solver.
Qed.

Lemma last_hash_snoc l e : last_hash (l ++ [e]) = AuditEvent.event_hash e.
Proof. unfold last_hash. by rewrite last_snoc. Qed.

(** The text of an event and the hash before it tells both. *)
Lemma material_inj e e' p p' :
  plain_event e → plain_event e' → bar_free p → bar_free p' →
  AuditEvent.material e p = AuditEvent.material e' p' → AuditEvent.event_hash e = AuditEvent.event_hash e' →
  same_event e e' ∧ p = p'.
Proof.
  intros (Ht & Ha & Hc & Hg) (Ht' & Ha' & Hc' & Hg') Hp Hp' E Eh. unfold AuditEvent.material in E.
  apply bar_split in E as [Et E]; [|by apply isoformat_bar_free..].
  apply bar_split in E as [Ea E]; [|done..]. apply bar_split in E as [Ec E]; [|done..].
  apply bar_split in E as [Eg E]; [|done..]. apply bar_split_end in E as [Em ->]; [|done..].
  assert (AuditEvent.timestamp e = AuditEvent.timestamp e').
  { apply (f_equal fromisoformat) in Et. rewrite !fromisoformat_isoformat in Et by done. by injection Et. }
  by split.
Qed.

Lemma last_hash_plain l : plain_digests → verify_from "GENESIS" l = true → bar_free (last_hash l).
Proof.
  intros Hd. destruct l as [|e l _] using rev_ind; [done|].
  rewrite last_hash_snoc. intros [_ <-]%verify_snoc. apply Hd.
Qed.

Lemma audit_append_eq a b c m s :
  ∃ e, append a b c m s = (Ok e, Mk (_events s ++ [e]) (S (tick s))) ∧
    AuditEvent.actor_id e = a ∧ AuditEvent.action e = b ∧ AuditEvent.target e = c ∧
    AuditEvent.metadata e = default [] m ∧ AuditEvent.previous_hash e = last_hash (_events s) ∧
    AuditEvent.event_hash e = sha256_hex (AuditEvent.material e (last_hash (_events s))).
Proof. unfold append, bind, gets, utc_now, modify, ret. eexists. split; [reflexivity|]. by split_and!. Qed.

End Chain.

(** * Properties *)

Section AuditProperties.
Context `{Oracle}.
Import ImmutableAuditLog.

(** The audit log is tamper evident. Two logs that pass the integrity check
    and end in the same hash say the same, event by event, unless two texts
    share a SHA-256 digest. It needs fields without bars: the text that is
    hashed joins them by bars ([audit_fields_ambiguous]). *)
Theorem audit_tamper_evident (s s' : t) :
  plain_digests → Forall plain_event (events s) → Forall plain_event (events s') →
  verify_integrity s = true → verify_integrity s' = true → last_hash (events s) = last_hash (events s') →
  Forall2 same_event (events s) (events s') ∨ sha256_collision.
Proof.
  intros Hd. unfold verify_integrity, events. destruct s as [l n], s' as [l' n']. cbn [_events].
  revert l'. induction l as [|e l IH] using rev_ind; intros l' Hp Hp' Hv Hv' Hl.
  - destruct l' as [|e' l' _] using rev_ind; [by left|]. apply verify_snoc in Hv' as [_ Hv'].
    rewrite last_hash_snoc, <- Hv' in Hl. by destruct (Hd (AuditEvent.material e' (last_hash l'))) as [_ []].
  - apply verify_snoc in Hv as [Hv He]. rewrite last_hash_snoc in Hl.
    destruct l' as [|e' l' _] using rev_ind.
    { destruct (Hd (AuditEvent.material e (last_hash l))) as [_ []]. by rewrite He, Hl. }
    apply verify_snoc in Hv' as [Hv' He']. rewrite last_hash_snoc in Hl.
    apply Forall_app in Hp as [Hp Hpe], Hp' as [Hp' Hpe'].
    apply (proj1 (Forall_singleton _ _)) in Hpe, Hpe'.
    destruct (decide (AuditEvent.material e (last_hash l) = AuditEvent.material e' (last_hash l'))) as [Em|Em].
    + apply material_inj in Em as [Hs Hh]; [|done|done|by apply last_hash_plain|by apply last_hash_plain|done].
      destruct (IH l' Hp Hp' Hv Hv' Hh); [left|by right]. by apply Forall2_app; [|constructor].
    + right. exists (AuditEvent.material e (last_hash l)), (AuditEvent.material e' (last_hash l')).
      split; [done|]. congruence.
Qed.

(** The text that is hashed is ambiguous, and the stored previous hash is
    not looked at. An event whose actor holds a bar can be replaced by one of
    another actor, action and target, with any previous hash: the integrity
    check does not notice. *)
Theorem audit_fields_ambiguous (l1 l2 : list AuditEvent) (ts : Z) (a b c d : string) (m : doc) (p q h : string) (n : nat) :
  verify_integrity (Mk (l1 ++ AuditEvent.Mk ts (a +:+ "|" +:+ b) c d m p h :: l2) n) =
  verify_integrity (Mk (l1 ++ AuditEvent.Mk ts a b (c +:+ "|" +:+ d) m q h :: l2) n).
Proof.
  unfold verify_integrity. cbn [_events]. rewrite !verify_from_app. cbn [verify_from]. unfold AuditEvent.material.
  cbn [AuditEvent.timestamp AuditEvent.actor_id AuditEvent.action AuditEvent.target AuditEvent.metadata
       AuditEvent.event_hash]. by rewrite !str_app_assoc.
Qed.

(** A log made by [append] passes the integrity check, and every append
    adds one event with the given fields, linked to the one before. *)
Theorem audit_log_valid (n : nat) (s : t) (a b c : string) (m : option doc) :
  steps appended (init n) s →
  verify_integrity s = true ∧
  ∃ e, append a b c m s = (Ok e, Mk (events s ++ [e]) (S (tick s))) ∧
    AuditEvent.actor_id e = a ∧ AuditEvent.action e = b ∧ AuditEvent.target e = c ∧
    AuditEvent.metadata e = default [] m ∧ AuditEvent.previous_hash e = last_hash (events s).
Proof.
  intros Hs. split.
  - refine (steps_invariant appended (fun s => verify_integrity s = true) _ _ _ Hs eq_refl).
    intros ? ? [s0 a0 b0 c0 m0] Hv. destruct (audit_append_eq a0 b0 c0 m0 s0) as (e & He & _ & _ & _ & _ & _ & Hh).
    unfold after. rewrite He. by apply verify_snoc.
  - destruct (audit_append_eq a b c m s) as (e & He & ? & ? & ? & ? & ? & _). by exists e.
Qed.

End AuditProperties.

(** ** Witnesses *)

(** The demo oracle with texts in hexadecimal for digests. *)
Definition hex_oracle : Oracle := {|
  clock := clock (Oracle := demo_oracle);
  perf := perf (Oracle := demo_oracle);
  uuid_hex := uuid_hex (Oracle := demo_oracle);
  sha256_hex := string_flat hex2;
|}.

Lemma hex_digit_char n : (n < 16)%N → hex_digit n ≠ "|"%char ∧ hex_digit n ≠ "G"%char.
Proof.
  intros Hn. assert (n = 0 ∨ n = 1 ∨ n = 2 ∨ n = 3 ∨ n = 4 ∨ n = 5 ∨ n = 6 ∨ n = 7 ∨ n = 8 ∨ n = 9 ∨
    n = 10 ∨ n = 11 ∨ n = 12 ∨ n = 13 ∨ n = 14 ∨ n = 15)%N as Hc by lia.
  by destruct_or! Hc; subst n.
Qed.

Lemma hex_plain : plain_digests (H := hex_oracle).
Proof.
  assert (Hc : ∀ c, (N_of_ascii c / 16 < 16 ∧ N_of_ascii c mod 16 < 16)%N).
  { intros c. pose proof (N_ascii_bounded c). split; [apply N.Div0.div_lt_upper_bound|apply N.mod_lt]; lia. }
  intros s. cbn. split.
  - unfold bar_free. induction s as [|c s IH]; [done|]. cbn. rewrite IH.
    destruct (Hc c) as [H1 H2]. apply hex_digit_char in H1 as [H1 _], H2 as [H2 _].
    by rewrite !bool_decide_eq_false_2.
  - destruct s as [|c s]; [done|]. cbn. intros [= E _]. destruct (Hc c) as [H1 _].
    by apply hex_digit_char in H1 as [_ []].
Qed.

Definition demo_log : ImmutableAuditLog.t :=
  after (ImmutableAuditLog.append (H := hex_oracle) "alice" "role.assign" "bob" (Some [("role", VStr "viewer")]))
    (after (ImmutableAuditLog.append (H := hex_oracle) "root" "tenant.create" "t-1" None) (ImmutableAuditLog.init 0)).

Lemma audit_tamper_evident_witness :
  Forall2 same_event (ImmutableAuditLog.events demo_log) (ImmutableAuditLog.events demo_log) ∨
  sha256_collision (H := hex_oracle).
Proof.
  assert (Hp : Forall plain_event (ImmutableAuditLog.events demo_log)).
  { repeat constructor; vm_compute; congruence. }
  apply (audit_tamper_evident (H := hex_oracle) demo_log demo_log hex_plain Hp Hp); vm_compute; reflexivity.
Defined.

Lemma audit_log_valid_witness :
  ImmutableAuditLog.verify_integrity (H := hex_oracle) demo_log = true ∧
  ∃ e, ImmutableAuditLog.append (H := hex_oracle) "bob" "login" "t-1" None demo_log =
      (Ok e, ImmutableAuditLog.Mk (ImmutableAuditLog.events demo_log ++ [e]) 3) ∧
    AuditEvent.actor_id e = "bob" ∧ AuditEvent.action e = "login" ∧ AuditEvent.target e = "t-1" ∧
    AuditEvent.metadata e = [] ∧
    AuditEvent.previous_hash e = ImmutableAuditLog.last_hash (ImmutableAuditLog.events demo_log).
Proof.
  apply (audit_log_valid (H := hex_oracle) 0 demo_log "bob" "login" "t-1" None).
  eapply steps_cons; [constructor|]. eapply steps_cons; [constructor|]. apply steps_refl.
Defined.
