(* ===== verification/Tenancy.v ===== *)
(** Tenants: the tenant context and its isolation checks, organizations, teams,
    tenants and memberships (agentfabric/enterprise), and the private namespaces
    and support tiers of agentfabric/phase4. *)

From stdpp Require Import base option list strings gmap sets.
From Stdlib Require Import ZArith Lia SpecFloat.
From S2P Require Import Prelude PyVal PyTime Store EventStore Documents.

Local Open Scope Z_scope.

(** * tenant_context.py, isolation.py *)

Module TenantContext.
Record t := Mk {
  tenant_id : string;
  organization_id : string;
  principal_id : string;
  roles : list string;
  is_global_admin : bool;
}.

Definition require (c : t) : res t :=
  if bool_decide (tenant_id c = "") || bool_decide (organization_id c = "") || bool_decide (principal_id c = "")
  then Err (Exn PermissionError "tenant context is required") else Ok c.

Definition as_metadata (c : t) : doc :=
  [("tenant_id", VStr (tenant_id c)); ("organization_id", VStr (organization_id c));
   ("created_by", VStr (principal_id c))].
End TenantContext.

Abbreviation TenantContext := TenantContext.t.

Definition TENANT_SCOPED_COLLECTIONS : gset string :=
  {["agents"; "identities"; "certificates"; "capabilities"; "mesh_messages"; "conversations";
    "workflows"; "task_graphs"; "checkpoints"; "shared_context"; "events"; "reputation";
    "runtime_memory"; "marketplace_installs"; "billing_records"; "audit_exports"]}.

Module TenantIsolation.

Definition require_context (context : option TenantContext) : res TenantContext :=
  match context with
  | None => Err (Exn AuthorizationError "tenant context is required")
  | Some c => match TenantContext.require c with
              | Err e => if bool_decide (exn_cls e = PermissionError) then Err (Exn AuthorizationError (exn_msg e))
                         else Err e
              | Ok c => Ok c
              end
  end.

Definition assert_tenant (context : option TenantContext) (obj : doc) : res unit :=
  let? ctx := require_context context in
  match dget obj "tenant_id" with
  | None | Some VNone => Err (Exn AuthorizationError "tenant-scoped object is missing tenant_id")
  | Some object_tenant =>
      if negb (bool_decide (object_tenant = VStr (TenantContext.tenant_id ctx))) &&
         negb (TenantContext.is_global_admin ctx)
      then Err (Exn AuthorizationError "cross-tenant access denied") else Ok tt
  end.

Definition scoped_metadata (context : TenantContext) : res doc :=
  let? ctx := require_context (Some context) in Ok (TenantContext.as_metadata ctx).

End TenantIsolation.

(** * organization.py *)

Module Organization.
Record t := Mk {
  organization_id : string;
  name : string;
  created_by : string;
  created_at : Z;
  updated_at : Z;
}.

Definition as_dict (o : t) : doc :=
  [("organization_id", VStr (organization_id o)); ("name", VStr (name o));
   ("created_by", VStr (created_by o)); ("created_at", VStr (isoformat (created_at o)));
   ("updated_at", VStr (isoformat (updated_at o)))].
End Organization.

(** * team.py *)

Module Team.
Record t := Mk {
  team_id : string;
  tenant_id : string;
  organization_id : string;
  name : string;
  created_by : string;
  created_at : Z;
  updated_at : Z;
}.

Definition as_dict (o : t) : doc :=
  [("team_id", VStr (team_id o)); ("tenant_id", VStr (tenant_id o));
   ("organization_id", VStr (organization_id o)); ("name", VStr (name o));
   ("created_by", VStr (created_by o)); ("created_at", VStr (isoformat (created_at o)));
   ("updated_at", VStr (isoformat (updated_at o)))].

Definition from_dict (value : doc) : res t :=
  let? team_id := str_field value "team_id" in
  let? tenant_id := str_field value "tenant_id" in
  let? organization_id := str_field value "organization_id" in
  let? name := str_field value "name" in
  let? created_by := str_field value "created_by" in
  let? created_at := time_field value "created_at" in
  let? updated_at := time_field value "updated_at" in
  Ok (Mk team_id tenant_id organization_id name created_by created_at updated_at).

Lemma team_from_as_dict o : time_ok (created_at o) → time_ok (updated_at o) → from_dict (as_dict o) = Ok o.
Proof.
  intros Hc Hu. unfold from_dict. cbn -[time_field isoformat].
  rewrite (time_field_iso _ "created_at" _ Hc), (time_field_iso _ "updated_at" _ Hu) by done. by destruct o.
Qed.
End Team.

(** * membership.py *)

Module Membership.
Record t := Mk {
  principal_id : string;
  tenant_id : string;
  organization_id : string;
  role : string;
  member_type : string;
  created_by : string;
  team_id : option string;
  created_at : Z;
  updated_at : Z;
}.

Definition membership_id (m : t) : string := tenant_id m +:+ ":" +:+ principal_id m.

Definition as_dict (m : t) : doc :=
  [("membership_id", VStr (membership_id m)); ("principal_id", VStr (principal_id m));
   ("tenant_id", VStr (tenant_id m)); ("organization_id", VStr (organization_id m));
   ("role", VStr (role m)); ("member_type", VStr (member_type m)); ("team_id", opt_str (team_id m));
   ("created_by", VStr (created_by m)); ("created_at", VStr (isoformat (created_at m)));
   ("updated_at", VStr (isoformat (updated_at m)))].

Definition from_dict (value : doc) : res t :=
  let? principal_id := str_field value "principal_id" in
  let? tenant_id := str_field value "tenant_id" in
  let? organization_id := str_field value "organization_id" in
  let? role := str_field value "role" in
  let? created_by := str_field value "created_by" in
  let? created_at := time_field value "created_at" in
  let? updated_at := time_field value "updated_at" in
  Ok (Mk principal_id tenant_id organization_id role (str_field_or value "member_type" "user") created_by
        (opt_str_field value "team_id") created_at updated_at).

(** A team id that is there is not empty. *)
Definition membership_ok (m : t) : Prop :=
  time_ok (created_at m) ∧ time_ok (updated_at m) ∧ team_id m ≠ Some "".

Lemma membership_from_as_dict m : membership_ok m → from_dict (as_dict m) = Ok m.
Proof.
  intros (Hc & Hu & Ht). unfold from_dict. cbn -[time_field isoformat opt_str_field opt_str].
  rewrite (time_field_iso _ "created_at" _ Hc), (time_field_iso _ "updated_at" _ Hu) by done.
  cbn [res_bind]. rewrite (opt_str_field_eq _ "team_id" (team_id m)) by done. by destruct m.
Qed.
End Membership.

Abbreviation Membership := Membership.t.

#[export] Instance membership_document `{Oracle} {S} : Document S Membership := {
  d_coll := "memberships";
  d_key := Membership.membership_id;
  d_enc := Membership.as_dict;
  d_dec v := of_res (Membership.from_dict v);
  d_ok := Membership.membership_ok;
  d_dec_enc m s Hm := f_equal (fun r => (r, s)) (Membership.membership_from_as_dict m Hm);
  d_enc_ne m := ltac:(done);
}.

(** * tenant.py *)

Module Tenant.
Record t := Mk {
  tenant_id : string;
  organization_id : string;
  name : string;
  created_by : string;
  billing_plan : string;
  created_at : Z;
  updated_at : Z;
}.

Definition as_dict (o : t) : doc :=
  [("tenant_id", VStr (tenant_id o)); ("organization_id", VStr (organization_id o)); ("name", VStr (name o));
   ("billing_plan", VStr (billing_plan o)); ("created_by", VStr (created_by o));
   ("created_at", VStr (isoformat (created_at o))); ("updated_at", VStr (isoformat (updated_at o)))].

Definition from_dict (value : doc) : res t :=
  let? tenant_id := str_field value "tenant_id" in
  let? organization_id := str_field value "organization_id" in
  let? name := str_field value "name" in
  let? created_by := str_field value "created_by" in
  let? created_at := time_field value "created_at" in
  let? updated_at := time_field value "updated_at" in
  Ok (Mk tenant_id organization_id name created_by (str_field_or value "billing_plan" "dev") created_at updated_at).

Definition tenant_ok (o : t) : Prop := time_ok (created_at o) ∧ time_ok (updated_at o).

Lemma tenant_from_as_dict o : tenant_ok o → from_dict (as_dict o) = Ok o.
Proof.
  intros [Hc Hu]. unfold from_dict. cbn -[time_field isoformat].
  rewrite (time_field_iso _ "created_at" _ Hc), (time_field_iso _ "updated_at" _ Hu) by done. by destruct o.
Qed.

Definition set_plan (plan : string) (now : Z) (o : t) : t :=
  Mk (tenant_id o) (organization_id o) (name o) (created_by o) plan (created_at o) now.
End Tenant.

Abbreviation Tenant := Tenant.t.

#[export] Instance tenant_document `{Oracle} {S} : Document S Tenant := {
  d_coll := "tenants";
  d_key := Tenant.tenant_id;
  d_enc := Tenant.as_dict;
  d_dec v := of_res (Tenant.from_dict v);
  d_ok := Tenant.tenant_ok;
  d_dec_enc o s Ho := f_equal (fun r => (r, s)) (Tenant.tenant_from_as_dict o Ho);
  d_enc_ne o := ltac:(done);
}.

(** * The services *)

Module MembershipService.
Section Service.
Context `{Oracle} {S : Type} `{PersistenceStore S}.

(** [persistence.initialize()] *)
Definition init : M (sys S) unit := modify (with_db st_initialize).

(** [Membership(...)] with its default times. *)
Definition new (principal tenant organization role member_type created_by : string)
    (team : option string) : M (sys S) Membership :=
  let* created := utc_now in
  let* updated := utc_now in
  ret (Membership.Mk principal tenant organization role member_type created_by team created updated).

Definition add (membership : Membership) (actor_member_type actor_role : string) : M (sys S) Membership :=
  if bool_decide (actor_member_type = "service_account") &&
     bool_decide (Membership.role membership ∈ ["owner"; "admin"])
  then raise PermissionError "service accounts cannot escalate roles"
  else if negb (bool_decide (actor_role ∈ ["owner"; "admin"]))
  then raise PermissionError "insufficient tenant role"
  else do* doc_put membership; ret membership.

Definition list_for_tenant (tenant_id : string) : M (sys S) (list Membership) := doc_list_tenant tenant_id.

Definition get (tenant_id principal_id : string) : M (sys S) (option Membership) :=
  doc_get (tenant_id +:+ ":" +:+ principal_id).

End Service.
End MembershipService.

Module TenantService.
Section Service.
Context `{Oracle} {S : Type} `{PersistenceStore S}.

Definition create_tenant (tenant_id organization_id name created_by billing_plan : string) : M (sys S) Tenant :=
  let* existing := store_get "tenants" tenant_id in
  match existing with
  | Some _ => raise ValueError "tenant already exists"
  | None =>
      let* created := utc_now in
      let* updated := utc_now in
      let tenant := Tenant.Mk tenant_id organization_id name created_by billing_plan created updated in
      do* doc_put tenant; ret tenant
  end.

Definition get (tenant_id : string) : M (sys S) (option Tenant) := doc_get tenant_id.

Definition list_for_principal (principal_tenant_id : string) (global_admin : bool) : M (sys S) (list Tenant) :=
  let* items := if global_admin then store_list "tenants" else store_list_tenant "tenants" principal_tenant_id in
  let* items := match items with
    | _ :: _ => ret items
    | [] =>
        let* own := get principal_tenant_id in
        match own with
        | None => ret []
        | Some _ =>
            let* item := store_get "tenants" principal_tenant_id in
            ret (match item with Some ((_ :: _) as d) => [d] | _ => [] end)
        end
    end in
  for_map items (fun d => of_res (Tenant.from_dict d)).

Definition update_billing_plan (tenant_id plan : string) : M (sys S) Tenant :=
  let* found := get tenant_id in
  match found with
  | None => raise KeyError (repr_str "tenant not found")
  | Some tenant =>
      let* now := utc_now in
      let tenant := Tenant.set_plan plan now tenant in
      do* store_put "tenants" tenant_id (Tenant.as_dict tenant); ret tenant
  end.

End Service.
End TenantService.

(** * phase4/marketplace.py *)

Module PrivateMarketplaceService.

(** [_namespace_owner] and [_memberships], a defaultdict. *)
Record t := Mk { _namespace_owner : dict string; _memberships : gmap string (gset string) }.

Definition init : t := Mk [] ∅.

Definition members (namespace : string) (s : t) : gset string := default ∅ (_memberships s !! namespace).

Definition add_member (namespace tenant_id : string) (s : t) : t :=
  Mk (_namespace_owner s) (<[namespace := {[tenant_id]} ∪ members namespace s]> (_memberships s)).

Definition create_namespace (tenant_id namespace : string) : M t unit :=
  let* s := get_state in
  if dmem (_namespace_owner s) namespace then raise ConflictError "namespace already exists"
  else do* modify (fun s => Mk (dset (_namespace_owner s) namespace tenant_id) (_memberships s));
       modify (add_member namespace tenant_id).

Definition grant_access (owner_tenant_id namespace target_tenant_id : string) : M t unit :=
  let* s := get_state in
  match dget (_namespace_owner s) namespace with
  | None => raise NotFoundError "namespace not found"
  | Some owner =>
      if negb (bool_decide (owner = owner_tenant_id))
      then raise AuthorizationError "only namespace owner can grant access"
      else modify (add_member namespace target_tenant_id)
  end.

Definition check_access (tenant_id namespace : string) : M t unit :=
  let* s := get_state in
  if negb (dmem (_namespace_owner s) namespace) then raise NotFoundError "namespace not found"
  else
  do* modify (fun s => Mk (_namespace_owner s) (<[namespace := members namespace s]> (_memberships s)));
  if negb (bool_decide (tenant_id ∈ members namespace s))
  then raise AuthorizationError "tenant has no access to private namespace" else ret tt.

(** ** Runs of the service *)

Inductive op :=
  | Create (tenant namespace : string)
  | Grant (owner namespace target : string)
  | Access (tenant namespace : string).

Definition step (s : t) (o : op) : t :=
  match o with
  | Create tn ns => after (create_namespace tn ns) s
  | Grant ow ns tg => after (grant_access ow ns tg) s
  | Access tn ns => after (check_access tn ns) s
  end.

Definition run (ops : list op) : t := foldl step init ops.

(** What the service promises, read off its calls: the owner of a namespace is
    the tenant that first created it, and access is the owner's and that of the
    tenants the owner granted it to afterwards. *)
Definition owned_after (ops : list op) (ns owner : string) (later : list op) : Prop :=
  ∃ before, ops = before ++ Create owner ns :: later ∧ ∀ tn, Create tn ns ∉ before.

Definition has_access (ops : list op) (ns tn : string) : Prop :=
  ∃ owner later, owned_after ops ns owner later ∧ (tn = owner ∨ Grant owner ns tn ∈ later).

End PrivateMarketplaceService.

(** * phase4/sla.py *)

Module SlaCatalog.
Record SupportTier := Tier {
  name : string;
  availability_target_percent : spec_float;
  response_time_minutes : Z;
  escalation_policy : string;
}.

(** 99.5 and 99.9, rounded to the nearest double. *)
Definition _tiers : dict SupportTier :=
  [("standard", Tier "standard" (SFdiv 53 1024 (binary_normalize 53 1024 995 0 false) (binary_normalize 53 1024 10 0 false))
                  240 "business-hours");
   ("premium", Tier "premium" (SFdiv 53 1024 (binary_normalize 53 1024 999 0 false) (binary_normalize 53 1024 10 0 false))
                  60 "24x7")].

Definition get_tier (name : string) : res SupportTier :=
  match dget _tiers name with
  | None => Err (Exn NotFoundError ("unknown SLA tier: " +:+ name))
  | Some tier => Ok tier
  end.
End SlaCatalog.

(** * Lemmas *)

(** ** Private namespaces *)

Module Access.
Import PrivateMarketplaceService.

Lemma owned_after_unique ops ns o1 l1 o2 l2 :
  owned_after ops ns o1 l1 → owned_after ops ns o2 l2 → o1 = o2 ∧ l1 = l2.
Proof.
  intros (b1 & -> & H1) (b2 & E & H2). revert b2 E H2.
  induction b1 as [|x b1 IH]; intros [|y b2] E H2; cbn in E.
  - by injection E.
  - injection E as <- ->. destruct (H2 o1). by left.
  - injection E as -> <-. destruct (H1 o2). by left.
  - injection E as -> E. apply (IH (fun tn Hin => H1 tn (list_elem_of_further _ _ _ Hin)) b2 E).
    intros tn Hin. apply (H2 tn). by right.
Qed.

Lemma owned_after_snoc ops ns o later x : owned_after ops ns o later → owned_after (ops ++ [x]) ns o (later ++ [x]).
Proof. intros (b & -> & Hb). exists b. split; [|done]. by rewrite <- app_assoc. Qed.

Lemma members_add ns ns' tn s :
  members ns (add_member ns' tn s) = if decide (ns' = ns) then {[tn]} ∪ members ns s else members ns s.
Proof.
  unfold members, add_member. cbn [_memberships]. case_decide as E; [subst; by rewrite lookup_insert_eq|].
  by rewrite lookup_insert_ne.
Qed.

(** What the state says of a namespace after the calls [ops]. *)
Definition tells ops s ns : Prop :=
  match dget (_namespace_owner s) ns with
  | None => members ns s = ∅ ∧ ∀ o, Create o ns ∉ ops
  | Some o => ∃ later, owned_after ops ns o later ∧ ∀ tn, tn ∈ members ns s ↔ tn = o ∨ Grant o ns tn ∈ later
  end.

(** A call that does not touch the namespace. *)
Lemma tells_same ops s s' x ns :
  dget (_namespace_owner s') ns = dget (_namespace_owner s) ns → members ns s' = members ns s →
  (dget (_namespace_owner s) ns = None → ∀ o, x ≠ Create o ns) →
  (∀ o tn, x = Grant o ns tn → dget (_namespace_owner s) ns ≠ Some o) →
  tells ops s ns → tells (ops ++ [x]) s' ns.
Proof.
  unfold tells. intros -> -> Hc Hg. destruct (dget (_namespace_owner s) ns) as [o|].
  - intros (later & Ho & Hm). exists (later ++ [x]). split; [by apply owned_after_snoc|].
    intros tn. rewrite Hm, elem_of_app, list_elem_of_singleton. split; [naive_solver|].
    intros [?|[?|<-]]; [by left|by right|]. by destruct (Hg o tn eq_refl).
  - intros [Hm Ho]. split; [done|]. intros o [Hin|Hin%list_elem_of_singleton]%elem_of_app; [by apply (Ho o)|].
    by apply (Hc eq_refl o).
Qed.

Lemma members_entered ns ns' s :
  members ns (Mk (_namespace_owner s) (<[ns' := members ns' s]> (_memberships s))) = members ns s.
Proof.
  unfold members. cbn [_memberships]. destruct (decide (ns' = ns)) as [->|]; [by rewrite lookup_insert_eq|].
  by rewrite lookup_insert_ne.
Qed.

Lemma tells_create ops s tn ns ns' : tells ops s ns → tells (ops ++ [Create tn ns']) (step s (Create tn ns')) ns.
Proof.
  intros Ht. cbn [step]. unfold create_namespace, after, bind, get_state, dmem.
  destruct (dget (_namespace_owner s) ns') as [o'|] eqn:E; cbn [raise modify snd].
  - apply (tells_same _ s); [done|done| |done|done]. intros Hn o [= _ ->]. congruence.
  - destruct (decide (ns' = ns)) as [->|Hne].
    + unfold tells in *. rewrite E in Ht. destruct Ht as [Hm Ho].
      rewrite members_add, decide_True by done. cbn [_namespace_owner add_member]. rewrite dget_dset_eq.
      exists []. split; [by exists ops|]. intros t. change (members ns (Mk _ _)) with (members ns s).
      rewrite Hm. set_solver.
    + apply (tells_same _ s); [|by rewrite members_add, decide_False|by intros _ o [=]|done|done].
      cbn [_namespace_owner add_member]. by rewrite dget_dset_ne.
Qed.

Lemma tells_grant ops s ow tg ns ns' : tells ops s ns → tells (ops ++ [Grant ow ns' tg]) (step s (Grant ow ns' tg)) ns.
Proof.
  intros Ht. cbn [step]. unfold grant_access, after, bind, get_state.
  destruct (dget (_namespace_owner s) ns') as [o'|] eqn:E; cbn [raise modify snd].
  - case_bool_decide as Eo; cbn [negb raise modify snd].
    + subst o'. destruct (decide (ns' = ns)) as [->|Hne].
      * unfold tells in *. cbn [_namespace_owner add_member]. rewrite E in *. destruct Ht as (later & Ho & Hm).
        exists (later ++ [Grant ow ns tg]). split; [by apply owned_after_snoc|]. intros t.
        rewrite members_add, decide_True, elem_of_union, elem_of_singleton, Hm, elem_of_app, list_elem_of_singleton by done.
        naive_solver.
      * apply (tells_same _ s); [done|by rewrite members_add, decide_False|by intros _ o [=]| |done].
        intros o tn [= _ ? _]. by destruct Hne.
    + apply (tells_same _ s); [done|done|by intros _ o [=]| |done]. intros o tn [= -> -> ->]. congruence.
  - apply (tells_same _ s); [done|done|by intros _ o [=]| |done]. intros o tn [= -> -> ->]. congruence.
Qed.

Lemma tells_access ops s tn ns ns' : tells ops s ns → tells (ops ++ [Access tn ns']) (step s (Access tn ns')) ns.
Proof.
  intros Ht. assert (He : _namespace_owner (step s (Access tn ns')) = _namespace_owner s ∧
                          members ns (step s (Access tn ns')) = members ns s).
  { cbn [step]. unfold check_access, after, bind, get_state, modify. destruct (dmem _ _); [|done]. cbn [negb].
    case_bool_decide; cbn [negb raise ret snd]; by rewrite members_entered. }
  destruct He as [Ho Hm]. apply (tells_same _ s); [by rewrite Ho|done|by intros _ o [=]|done|done].
Qed.

Lemma run_tells ops ns : tells ops (run ops) ns.
Proof.
  unfold run. induction ops as [|x ops IH] using rev_ind.
  - unfold tells. cbn. split; [done|]. by intros o ?%elem_of_nil.
  - rewrite foldl_app. cbn [foldl]. destruct x; auto using tells_create, tells_grant, tells_access.
Qed.

End Access.

(** ** Memberships and tenants *)

Section Records.
Context `{Oracle} {S : Type} `{StoreLaws S}.

Lemma membership_add_eq (m : Membership) (member_type role : string) (s : sys S) :
  Membership.membership_ok m →
  match MembershipService.add m member_type role s with
  | (Ok m', s') =>
      m' = m ∧ role ∈ ["owner"; "admin"] ∧
      (member_type = "service_account" → Membership.role m ∉ ["owner"; "admin"]) ∧
      MembershipService.get (Membership.tenant_id m) (Membership.principal_id m) s' = (Ok (Some m), s') ∧
      (∀ tn p, tn +:+ ":" +:+ p ≠ Membership.membership_id m →
         (MembershipService.get tn p s').1 = (MembershipService.get tn p s).1)
  | (Err e, s') => s' = s ∧ exn_cls e = PermissionError ∧
      (role ∉ ["owner"; "admin"] ∨ (member_type = "service_account" ∧ Membership.role m ∈ ["owner"; "admin"]))
  end.
Proof.
  intros Hm. unfold MembershipService.add.
  destruct (bool_decide (member_type = "service_account") && _) eqn:E1; cbn [raise].
  { apply andb_true_iff in E1 as [Ht%bool_decide_eq_true Hr%bool_decide_eq_true]. split_and!; auto. }
  destruct (bool_decide (role ∈ ["owner"; "admin"])) eqn:Hr; cbn [negb raise].
  2: { apply bool_decide_eq_false in Hr. split_and!; auto. }
  apply bool_decide_eq_true in Hr.
  unfold bind, doc_put, store_put, modify, ret. split_and!; [done|done| | |].
  - intros ->. rewrite bool_decide_eq_true_2 in E1 by done. cbn [andb] in E1. by apply bool_decide_eq_false in E1.
  - unfold MembershipService.get. change (_ +:+ ":" +:+ _) with (d_key (S := S) m).
    apply (doc_get_stored m). split; [done|]. apply get_put_eq.
  - intros tn p Hne. unfold MembershipService.get, doc_get, bind, store_get, gets. cbn [db with_db].
    rewrite get_put_ne by (intros [= E]; by apply Hne). destruct (st_get _ _ _) as [[|kv d]|]; [done| |done].
    unfold d_dec, membership_document, of_res, ret. by destruct (Membership.from_dict _).
Qed.

Lemma tenant_str (o : Tenant) t : is_str (dget (Tenant.as_dict o) "tenant_id") t = bool_decide (Tenant.tenant_id o = t).
Proof. reflexivity. Qed.

End Records.

(** * Properties *)

Section TenancyProperties.
Context `{Oracle} {S : Type} `{StoreLaws S}.

(** Tenant isolation fails closed. An object passes the check exactly when
    the caller has a complete tenant context and the object names the tenant of
    that context, or names some tenant and the caller is a global administrator;
    everything else, a missing context or tenant included, is refused as an
    authorization error. *)
Theorem tenant_isolation_exact (context : option TenantContext) (obj : doc) :
  match TenantIsolation.assert_tenant context obj with
  | Ok _ => ∃ c v, context = Some c ∧ TenantContext.require c = Ok c ∧ TenantContext.tenant_id c ≠ "" ∧
              dget obj "tenant_id" = Some v ∧ v ≠ VNone ∧
              (v = VStr (TenantContext.tenant_id c) ∨ TenantContext.is_global_admin c = true)
  | Err e => exn_cls e = AuthorizationError ∧
      ¬ ∃ c v, context = Some c ∧ TenantContext.require c = Ok c ∧
              dget obj "tenant_id" = Some v ∧ v ≠ VNone ∧
              (v = VStr (TenantContext.tenant_id c) ∨ TenantContext.is_global_admin c = true)
  end.
Proof.
  unfold TenantIsolation.assert_tenant, TenantIsolation.require_context.
  destruct context as [c|]; cbn [res_bind]; [|split; [done|naive_solver]].
  destruct (TenantContext.require c) as [c'|e] eqn:Hr.
  2: { assert (exn_cls e = PermissionError) as He by (unfold TenantContext.require in Hr; destruct (_ || _ || _); by simplify_eq).
       rewrite bool_decide_eq_true_2 by done. cbn [res_bind]. split; [done|].
       intros (c0 & v & [= <-] & Hr' & _). congruence. }
  assert (c' = c ∧ TenantContext.tenant_id c ≠ "") as [-> Hne].
  { unfold TenantContext.require in Hr. repeat case_bool_decide; cbn in Hr; naive_solver. }
  cbn [res_bind]. destruct (dget obj "tenant_id") as [v|]; [|split; [done|naive_solver]].
  destruct (decide (v = VNone)) as [->|Hv].
  { split; [done|]. intros (c0 & v & _ & _ & [= <-] & Hn & _). by destruct Hn. }
  assert (Hno : v ≠ VStr (TenantContext.tenant_id c) → TenantContext.is_global_admin c = false →
    ¬ ∃ c0 v0, Some c = Some c0 ∧ TenantContext.require c0 = Ok c0 ∧ Some v = Some v0 ∧ v0 ≠ VNone ∧
       (v0 = VStr (TenantContext.tenant_id c0) ∨ TenantContext.is_global_admin c0 = true)).
  { intros Hvs Ha (c0 & v0 & [= <-] & _ & [= <-] & _ & [?|?]); congruence. }
  assert (Hyes : v = VStr (TenantContext.tenant_id c) ∨ TenantContext.is_global_admin c = true →
    ∃ c0 v0, Some c = Some c0 ∧ TenantContext.require c0 = Ok c0 ∧ TenantContext.tenant_id c0 ≠ "" ∧ Some v = Some v0 ∧
       v0 ≠ VNone ∧ (v0 = VStr (TenantContext.tenant_id c0) ∨ TenantContext.is_global_admin c0 = true)).
  { intros Hor. by exists c, v. }
  destruct v; [done|..];
    (case_bool_decide as Hb; [rewrite Hb in *; cbn; auto|];
     destruct (TenantContext.is_global_admin c) eqn:Ea; cbn; auto).
Qed.

(** Access to a private namespace is exactly what its owner gave. Whatever
    calls were made, a tenant passes the check when it was the first to create
    the namespace or when that owner granted it access afterwards; a namespace
    nobody created is reported as missing, and everyone else is refused. *)
Theorem private_access_exact (ops : list PrivateMarketplaceService.op) (tenant namespace : string) :
  match (PrivateMarketplaceService.check_access tenant namespace (PrivateMarketplaceService.run ops)).1 with
  | Ok _ => PrivateMarketplaceService.has_access ops namespace tenant
  | Err e => ¬ PrivateMarketplaceService.has_access ops namespace tenant ∧
      ((exn_cls e = NotFoundError ∧ ∀ o, PrivateMarketplaceService.Create o namespace ∉ ops) ∨
       (exn_cls e = AuthorizationError ∧ ∃ o, PrivateMarketplaceService.Create o namespace ∈ ops))
  end.
Proof.
  pose proof (Access.run_tells ops namespace) as Ht. unfold Access.tells in Ht.
  unfold PrivateMarketplaceService.check_access, bind, get_state, modify, dmem.
  destruct (dget _ namespace) as [o|]; cbn [negb raise fst].
  - destruct Ht as (later & Ho & Hm). assert (Hin : PrivateMarketplaceService.Create o namespace ∈ ops).
    { destruct Ho as (b & -> & _). apply elem_of_app. right. by left. }
    case_bool_decide as Ht; cbn [negb ret raise fst].
    + exists o, later. split; [done|]. by apply Hm.
    + split; [|right; eauto]. intros (o' & l' & Ho' & Hacc).
      destruct (Access.owned_after_unique _ _ _ _ _ _ Ho Ho') as [<- <-]. by apply Ht, Hm.
  - destruct Ht as [_ Hn]. split; [|by left]. intros (o & l & (b & -> & _) & _).
    apply (Hn o), elem_of_app. right. by left.
Qed.

(** Memberships are added by tenant owners and administrators only, a
    service account never adds one, and the membership that was added is the
    one read back; the other keys keep what they had, and a refused call changes
    nothing. *)
Theorem membership_add_sound (m : Membership) (member_type role : string) (s : sys S) :
  Membership.membership_ok m →
  match MembershipService.add m member_type role s with
  | (Ok m', s') =>
      m' = m ∧ role ∈ ["owner"; "admin"] ∧
      (member_type = "service_account" → Membership.role m ∉ ["owner"; "admin"]) ∧
      MembershipService.get (Membership.tenant_id m) (Membership.principal_id m) s' = (Ok (Some m), s') ∧
      (∀ tn p, tn +:+ ":" +:+ p ≠ Membership.membership_id m →
         (MembershipService.get tn p s').1 = (MembershipService.get tn p s).1)
  | (Err e, s') => s' = s ∧ exn_cls e = PermissionError ∧
      (role ∉ ["owner"; "admin"] ∨ (member_type = "service_account" ∧ Membership.role m ∈ ["owner"; "admin"]))
  end.
Proof. apply membership_add_eq. Qed.

(** A principal who is no global administrator is shown its own tenant and
    no other, if it exists. *)
Theorem tenant_listing_isolated (tenant_id : string) (s : sys S) :
  typed (A := Tenant) (db s) →
  ∃ own, TenantService.get tenant_id s = (Ok own, s) ∧
    TenantService.list_for_principal tenant_id false s = (Ok (option_list own), s) ∧
    ∀ o, own = Some o → Tenant.tenant_id o = tenant_id ∧ stored o (db s).
Proof.
  intros Ht. destruct (doc_get_eq (A := Tenant) tenant_id s Ht) as [(o & Ho & Hs & Hg)|[Hn Hg]].
  - exists (Some o). split; [exact Hg|]. split; [|by intros ? [= <-]].
    assert (Hl : st_list_tenant "tenants" tenant_id (db s) = [Tenant.as_dict o]).
    { destruct (doc_list_tenant_eq (A := Tenant) tenant_id s Ht) as (l & _ & El & Hl).
      pose proof (doc_list_tenant_NoDup tenant_id s l Ht El Hl) as Hnd.
      pose proof (elem_of_doc_list_tenant tenant_id s l Ht El Hl) as Hin.
      change (Tenant.tenant_id o = tenant_id) in Ho.
      etransitivity; [symmetry; exact El|]. assert (Ho1 : o ∈ l).
      { apply Hin. split; [done|]. etransitivity; [apply tenant_str|]. by apply bool_decide_eq_true_2. }
      assert (Hall : ∀ a, a ∈ l → Tenant.tenant_id a = tenant_id).
      { intros a [_ Ha]%Hin. apply (eq_trans (eq_sym (tenant_str a tenant_id))) in Ha. by apply bool_decide_eq_true in Ha. }
      destruct l as [|a [|b l]]; [by apply elem_of_nil in Ho1| |].
      - apply list_elem_of_singleton in Ho1 as ->. done.
      - cbn in Hnd. apply NoDup_cons in Hnd as [Hnd _]. destruct Hnd.
        rewrite !Hall by set_solver. by left. }
    unfold TenantService.list_for_principal, bind, store_list_tenant, gets, ret. rewrite Hl.
    cbn [for_map option_list]. unfold bind, of_res, ret. destruct Hs as [Hok _].
    by rewrite Tenant.tenant_from_as_dict.
  - exists None. split; [exact Hg|]. split; [|done].
    assert (Hl : st_list_tenant "tenants" tenant_id (db s) = []).
    { destruct (doc_list_tenant_eq (A := Tenant) tenant_id s Ht) as (l & _ & El & Hl).
      pose proof (elem_of_doc_list_tenant tenant_id s l Ht El Hl) as Hin.
      etransitivity; [symmetry; exact El|].
      destruct l as [|a l]; [done|]. exfalso. destruct (proj1 (Hin a)) as [[_ Ha] Hten]; [by left|].
      apply (eq_trans (eq_sym (tenant_str a tenant_id))), bool_decide_eq_true in Hten. rewrite <- Hten in Hn.
      change (d_key a) with (Tenant.tenant_id a) in Ha. congruence. }
    unfold TenantService.list_for_principal, TenantService.get, bind, store_list_tenant, gets, ret.
    rewrite Hl. by rewrite Hg.
Qed.

End TenancyProperties.

(** ** Membership ids *)

(** The id of a membership does not tell the tenant from the principal: the
    principal [b:p] of tenant [a] is taken for the principal [p] of tenant [a:b]. *)
Lemma membership_ids_ambiguous `{Oracle} {S : Type} `{StoreLaws S} (m : Membership) (a b role : string) (s s' : sys S) m' :
  Membership.membership_ok m → Membership.tenant_id m = a +:+ ":" +:+ b →
  MembershipService.add m "user" role s = (Ok m', s') →
  MembershipService.get a (b +:+ ":" +:+ Membership.principal_id m) s' = (Ok (Some m), s').
Proof.
  intros Hm Ht Ha. pose proof (membership_add_eq m "user" role s Hm) as Hs.
  rewrite Ha in Hs. destruct Hs as (-> & _ & _ & Hg & _). rewrite <- Hg. unfold MembershipService.get.
  by rewrite Ht, !str_app_assoc.
Qed.

(** ** Witnesses *)

Definition demo_time : Z := ymd2day 2024 1 1 * day_us.

Definition demo_membership : Membership :=
  Membership.Mk "alice" "t-1" "o-1" "admin" "user" "root" (Some "team-1") demo_time demo_time.

Definition demo_tenant : Tenant := Tenant.Mk "t-1" "o-1" "Acme" "root" "team" demo_time demo_time.

Lemma membership_add_sound_witness :
  ∃ m' s', MembershipService.add (H := demo_oracle) demo_membership "user" "owner" demo_start = (Ok m', s') ∧
    m' = demo_membership ∧ MembershipService.get (H := demo_oracle) "t-1" "alice" s' = (Ok (Some demo_membership), s').
Proof.
  assert (Hm : Membership.membership_ok demo_membership).
  { split; [|split]; [vm_compute; split; congruence..|discriminate]. }
  pose proof (membership_add_sound (H := demo_oracle) demo_membership "user" "owner" demo_start Hm) as Hs.
  destruct (MembershipService.add demo_membership "user" "owner" demo_start) as [[m'|e] s'] eqn:E.
  - destruct Hs as (-> & _ & _ & Hg & _). exists demo_membership, s'. split; [reflexivity|]. split; [reflexivity|exact Hg].
  - exfalso. apply (f_equal (fun p => is_ok p.1)) in E. vm_compute in E. discriminate E.
Defined.

Lemma tenant_listing_isolated_witness :
  ∃ own, TenantService.get (H := demo_oracle) "t-1" (with_db (st_put "tenants" "t-1" (Tenant.as_dict demo_tenant)) demo_start) =
      (Ok own, with_db (st_put "tenants" "t-1" (Tenant.as_dict demo_tenant)) demo_start) ∧
    TenantService.list_for_principal (H := demo_oracle) "t-1" false
      (with_db (st_put "tenants" "t-1" (Tenant.as_dict demo_tenant)) demo_start) =
      (Ok (option_list own), with_db (st_put "tenants" "t-1" (Tenant.as_dict demo_tenant)) demo_start).
Proof.
  destruct (tenant_listing_isolated (H := demo_oracle) "t-1"
    (with_db (st_put "tenants" "t-1" (Tenant.as_dict demo_tenant)) demo_start)) as (own & Hg & Hl & _).
  - refine (typed_put (H := demo_oracle) demo_tenant ∅ _ typed_empty). vm_compute. repeat split; congruence.
  - exists own. split; [exact Hg|exact Hl].
Defined.
