(* ===== verification/Connectors.v ===== *)
(** Connectors to the systems of an enterprise (agentfabric/connectors): their
    records, and the registry that runs an operation behind VEIL. *)

From stdpp Require Import base option list strings gmap sets.
From Stdlib Require Import ZArith Lia SpecFloat.
From S2P Require Import Prelude PyVal PyTime Floats Store EventStore Documents Veil Job Queue Dispatcher Runtime Tenancy.

Local Open Scope Z_scope.

(** * connector_manifest.py *)

Definition SUPPORTED_CONNECTOR_TYPES : list string :=
  ["gmail"; "google_workspace"; "microsoft_365"; "slack"; "teams"; "jira"; "servicenow"; "confluence"; "sharepoint"; "s3"; "github"].

Module ConnectorManifest.
Record t := Mk {
  connector_type : string;
  display_name : string;
  capabilities : list string;
  scopes : list string;
  data_classes : list string;
  webhook_supported : bool;
  metadata : doc;
}.

Definition validate (m : t) : res unit :=
  if negb (bool_decide (connector_type m ∈ SUPPORTED_CONNECTOR_TYPES))
  then Err (Exn ValueError ("unsupported connector type: " +:+ connector_type m))
  else if bool_decide (display_name m = "") then Err (Exn ValueError "connector display_name is required")
  else Ok tt.

Definition as_dict (m : t) : doc :=
  [("connector_type", VStr (connector_type m)); ("display_name", VStr (display_name m));
   ("capabilities", VList (map VStr (capabilities m))); ("scopes", VList (map VStr (scopes m)));
   ("data_classes", VList (map VStr (data_classes m))); ("webhook_supported", VBool (webhook_supported m));
   ("metadata", VDict (metadata m))].

Definition from_dict (value : doc) : res t :=
  let? connector_type := str_field value "connector_type" in
  let? capabilities := strs_field_or value "capabilities" ["sync"; "search"; "fetch"] in
  let? scopes := strs_field_or value "scopes" [] in
  let? data_classes := strs_field_or value "data_classes" [] in
  let? metadata := dict_field_or_empty value "metadata" in
  Ok (Mk connector_type (str_field_or value "display_name" connector_type) capabilities scopes data_classes
        (bool_field_or value "webhook_supported" false) metadata).

Lemma connector_manifest_from_as_dict m : from_dict (as_dict m) = Ok m.
Proof.
  unfold from_dict. cbn -[strs_field_or].
  rewrite (strs_field_or_eq _ "capabilities" _ (capabilities m)), (strs_field_or_eq _ "scopes" _ (scopes m)),
    (strs_field_or_eq _ "data_classes" _ (data_classes m)) by done. by destruct m.
Qed.
End ConnectorManifest.

Abbreviation ConnectorManifest := ConnectorManifest.t.

(** * connector_credentials.py *)

Module ConnectorCredentials.
Record t := Mk { credential_ref : string; provider : string; expires_at : option Z; rotation_due_at : option Z }.

Definition validate (c : t) : res unit :=
  if bool_decide (credential_ref c = "") then Err (Exn ValueError "credential_ref is required")
  else
  let lowered := lower (credential_ref c) in
  if existsb (fun marker => contains marker lowered) ["secret="; "password="; "token="]
  then Err (Exn ValueError "raw credential values are not allowed")
  else Ok tt.

Definition as_dict (c : t) : doc :=
  [("credential_ref", VStr (credential_ref c)); ("provider", VStr (provider c)); ("expires_at", opt_iso (expires_at c));
   ("rotation_due_at", opt_iso (rotation_due_at c))].

Definition from_dict (value : doc) : res t :=
  let? credential_ref := str_field value "credential_ref" in
  let? expires_at := opt_time_field value "expires_at" in
  let? rotation_due_at := opt_time_field value "rotation_due_at" in
  Ok (Mk credential_ref (str_field_or value "provider" "") expires_at rotation_due_at).

Definition credentials_ok (c : t) : Prop := opt_time_ok (expires_at c) ∧ opt_time_ok (rotation_due_at c).

Lemma credentials_from_as_dict c : credentials_ok c → from_dict (as_dict c) = Ok c.
Proof.
  intros [He Hr]. unfold from_dict. cbn -[opt_time_field].
  rewrite (opt_time_field_iso _ "expires_at" (expires_at c)), (opt_time_field_iso _ "rotation_due_at" (rotation_due_at c)).
  2-5: first [done | intros t E; by rewrite E in *].
  by destruct c.
Qed.
End ConnectorCredentials.

Abbreviation ConnectorCredentials := ConnectorCredentials.t.

(** * connector_policy.py *)

Module ConnectorPolicy.
Record t := Mk { allowed_operations : list string; allowed_data_classes : list string; max_results : Z; require_veil : bool }.

Definition operations : list string := ["sync"; "search"; "fetch"; "webhook"; "health"].

(** [ConnectorPolicy()] *)
Definition default : t := Mk operations [] 100 true.

Definition allows (operation : string) (data_class : option string) (p : t) : bool :=
  if negb (bool_decide (operation ∈ allowed_operations p)) then false
  else match data_class, allowed_data_classes p with
  | None, _ | Some "", _ | _, [] => true
  | Some c, l => bool_decide (c ∈ l)
  end.

Definition as_dict (p : t) : doc :=
  [("allowed_operations", VList (map VStr (allowed_operations p)));
   ("allowed_data_classes", VList (map VStr (allowed_data_classes p))); ("max_results", VInt (max_results p));
   ("require_veil", VBool (require_veil p))].

Definition from_dict (value : doc) : res t :=
  let? allowed_operations := strs_field_or value "allowed_operations" operations in
  let? allowed_data_classes := strs_field_or value "allowed_data_classes" [] in
  let? max_results := int_field_or value "max_results" 100 in
  Ok (Mk allowed_operations allowed_data_classes max_results (bool_field_or value "require_veil" true)).

Lemma connector_policy_from_as_dict p : from_dict (as_dict p) = Ok p.
Proof.
  unfold from_dict. cbn -[strs_field_or].
  rewrite (strs_field_or_eq _ "allowed_operations" _ (allowed_operations p)),
    (strs_field_or_eq _ "allowed_data_classes" _ (allowed_data_classes p)) by done. by destruct p.
Qed.
End ConnectorPolicy.

Abbreviation ConnectorPolicy := ConnectorPolicy.t.

(** * connector.py *)

Module Connector.
Record t := Mk {
  tenant_id : string;
  organization_id : string;
  created_by : string;
  manifest : ConnectorManifest;
  credentials : ConnectorCredentials;
  policy : ConnectorPolicy;
  connector_id : string;
  status : string;
  created_at : Z;
  updated_at : Z;
}.

Definition validate (c : t) : res unit :=
  if bool_decide (tenant_id c = "") || bool_decide (organization_id c = "") then Err (Exn ValueError "tenant context is required")
  else
  let? _ := ConnectorManifest.validate (manifest c) in
  ConnectorCredentials.validate (credentials c).

Definition as_dict (c : t) : doc :=
  [("connector_id", VStr (connector_id c)); ("tenant_id", VStr (tenant_id c)); ("organization_id", VStr (organization_id c));
   ("created_by", VStr (created_by c)); ("manifest", VDict (ConnectorManifest.as_dict (manifest c)));
   ("credentials", VDict (ConnectorCredentials.as_dict (credentials c))); ("policy", VDict (ConnectorPolicy.as_dict (policy c)));
   ("status", VStr (status c)); ("created_at", VStr (isoformat (created_at c))); ("updated_at", VStr (isoformat (updated_at c)))].

Section Calls.
Context `{Oracle} {S : Type}.

(** [Connector(tenant_id=..., ...)], with [connector_id] when it is given. *)
Definition new (tenant_id organization_id created_by : string) (manifest : ConnectorManifest) (credentials : ConnectorCredentials)
    (policy : ConnectorPolicy) (connector_id : option string) : M (sys S) t :=
  let* connector_id := match connector_id with
    | Some id => ret id
    | None => let* id := uuid4 in ret ("connector-" +:+ id)
    end in
  let* created_at := utc_now in
  let* updated_at := utc_now in
  ret (Mk tenant_id organization_id created_by manifest credentials policy connector_id "active" created_at updated_at).

Definition from_dict (value : doc) : M (sys S) t :=
  let* connector_id := of_res (str_field value "connector_id") in
  let* tenant_id := of_res (str_field value "tenant_id") in
  let* organization_id := of_res (str_field value "organization_id") in
  let* manifest := of_res (let? v := dindex value "manifest" in let? d := py_dict v in ConnectorManifest.from_dict d) in
  let* credentials := of_res (let? v := dindex value "credentials" in let? d := py_dict v in ConnectorCredentials.from_dict d) in
  let* policy := of_res (let? d := dict_field_or_empty value "policy" in ConnectorPolicy.from_dict d) in
  let* created_at := time_field_or_now value "created_at" in
  let* updated_at := time_field_or_now value "updated_at" in
  ret (Mk tenant_id organization_id (str_field_or value "created_by" "") manifest credentials policy connector_id
         (str_field_or value "status" "active") created_at updated_at).

Definition connector_ok (c : t) : Prop :=
  ConnectorCredentials.credentials_ok (credentials c) ∧ time_ok (created_at c) ∧ time_ok (updated_at c).

Lemma connector_from_as_dict c (s : sys S) : connector_ok c → from_dict (as_dict c) s = (Ok c, s).
Proof.
  intros (Hc & Ht & Hu). unfold from_dict, bind, of_res, ret.
  assert ((let? v := dindex (as_dict c) "manifest" in let? d := py_dict v in ConnectorManifest.from_dict d) = Ok (manifest c)) as ->
    by exact (ConnectorManifest.connector_manifest_from_as_dict (manifest c)).
  assert ((let? v := dindex (as_dict c) "credentials" in let? d := py_dict v in ConnectorCredentials.from_dict d) = Ok (credentials c)) as ->
    by exact (ConnectorCredentials.credentials_from_as_dict _ Hc).
  assert ((let? d := dict_field_or_empty (as_dict c) "policy" in ConnectorPolicy.from_dict d) = Ok (policy c)) as ->
    by exact (ConnectorPolicy.connector_policy_from_as_dict (policy c)).
  rewrite (time_field_or_now_iso _ _ _ _ Ht), (time_field_or_now_iso _ _ _ _ Hu) by done. by destruct c.
Qed.
End Calls.
End Connector.

Abbreviation Connector := Connector.t.

#[export] Instance connector_document `{Oracle} {S} : Document S Connector := {
  d_coll := "connectors";
  d_key := Connector.connector_id;
  d_enc := Connector.as_dict;
  d_dec := Connector.from_dict;
  d_ok := Connector.connector_ok;
  d_dec_enc := Connector.connector_from_as_dict;
  d_enc_ne c := ltac:(done);
}.

(** * connector_result.py *)

(** [t.timestamp()], in whole seconds since 1970 *)
Definition unix_seconds (t : Z) : Z :=
  match float_to_Z (fdiv (of_int (t - ymd2day 1970 1 1 * day_us)) (of_int second_us)) with Ok n => n | Err _ => 0 end.

Module ConnectorResult.
Record t := Mk {
  connector_id : string;
  tenant_id : string;
  operation : string;
  sanitized_payload : doc;
  veil_audit_id : string;
  token_refs : list string;
  result_id : string;
  created_at : Z;
}.

(** The id of the result, which its second gives when it has none. *)
Definition id_of (r : t) : string :=
  str_or (result_id r) (connector_id r +:+ ":" +:+ operation r +:+ ":" +:+ py_str (VInt (unix_seconds (created_at r)))).

Definition as_dict (r : t) : doc :=
  [("result_id", VStr (id_of r)); ("connector_id", VStr (connector_id r)); ("tenant_id", VStr (tenant_id r));
   ("operation", VStr (operation r)); ("sanitized_payload", VDict (sanitized_payload r));
   ("veil_audit_id", VStr (veil_audit_id r)); ("token_refs", VList (map VStr (token_refs r)));
   ("created_at", VStr (isoformat (created_at r)))].
End ConnectorResult.

Abbreviation ConnectorResult := ConnectorResult.t.

(** * connector_registry.py *)

Definition CONNECTOR_JOB_TYPES : dict string :=
  [("sync", "connector_sync"); ("search", "connector_search"); ("fetch", "connector_document_fetch");
   ("webhook", "connector_webhook_handling"); ("event_ingestion", "connector_event_ingestion");
   ("credential_rotation_check", "connector_credential_rotation_check")].

Definition SENSITIVE_KEYS : list string := ["raw"; "secret"; "password"; "token_value"; "private_key"; "credential"].

Fixpoint _contains_sensitive_key (v : val) : bool :=
  match v with
  | VDict d =>
      (fix go (d : list (string * val)) : bool :=
         match d with
         | [] => false
         | (k, item) :: d' => bool_decide (lower k ∈ SENSITIVE_KEYS) || _contains_sensitive_key item || go d'
         end) d
  | VList l =>
      (fix go (l : list val) : bool := match l with [] => false | item :: l' => _contains_sensitive_key item || go l' end) l
  | _ => false
  end.

Module ConnectorRegistry.
Section Registry.
Context `{Oracle} `{VeilClient} {S : Type} `{PersistenceStore S}.

(** Whether the registry was given a runtime; it is one over the same store and
    the same events. *)
Context (runtime : bool).

Definition register (ctx : TenantContext) (manifest : ConnectorManifest) (credentials : ConnectorCredentials)
    (policy : option ConnectorPolicy) (connector_id : option string) : M (sys S) Connector :=
  let* connector := Connector.new (TenantContext.tenant_id ctx) (TenantContext.organization_id ctx) (TenantContext.principal_id ctx)
    manifest credentials (default ConnectorPolicy.default policy)
    (match connector_id with Some "" => None | _ => connector_id end) in
  do* of_res (Connector.validate connector);
  do* doc_put connector;
  do* EventStore.append "connector.registered" (Connector.connector_id connector) (Connector.as_dict connector);
  ret connector.

Definition list (ctx : TenantContext) : M (sys S) (list Connector) := doc_list_tenant (TenantContext.tenant_id ctx).

Definition get (ctx : TenantContext) (connector_id : string) : M (sys S) Connector :=
  let* item := store_get "connectors" connector_id in
  match item with
  | None => raise NotFoundError "connector not found"
  | Some d =>
      let* connector := Connector.from_dict d in
      if negb (bool_decide (Connector.tenant_id connector = TenantContext.tenant_id ctx)) && negb (TenantContext.is_global_admin ctx)
      then raise AuthorizationError "cross-tenant connector access denied"
      else ret connector
  end.

Definition _assert_policy (connector : Connector) (operation : string) (payload : doc) : res unit :=
  if negb (ConnectorPolicy.allows operation (opt_str_field payload "data_class") (Connector.policy connector))
  then Err (Exn AuthorizationError "connector policy denied operation") else Ok tt.

Definition _reject_raw (payload : doc) : res unit :=
  if _contains_sensitive_key (VDict payload) then Err (Exn ValidationError "raw connector payload values are not allowed") else Ok tt.

Definition _tokenize_request (payload : doc) : doc := base.filter (fun p => p.1 ∉ SENSITIVE_KEYS) payload.

Definition create_job (ctx : TenantContext) (connector_id operation : string) (payload : doc) : M (cloud S) RuntimeJob :=
  let* connector := on_env (get ctx connector_id) in
  do* of_res (_assert_policy connector operation payload);
  do* of_res (_reject_raw payload);
  match dget CONNECTOR_JOB_TYPES operation with
  | None => raise ValidationError ("unsupported connector operation: " +:+ operation)
  | Some job_type =>
      let* job := on_env (RuntimeJob.new (TenantContext.tenant_id ctx) (TenantContext.organization_id ctx)
        (TenantContext.principal_id ctx) job_type
        [("connector_id", VStr (Connector.connector_id connector));
         ("connector_type", VStr (ConnectorManifest.connector_type (Connector.manifest connector)));
         ("operation", VStr operation); ("request", VDict (_tokenize_request payload))]) in
      let* created :=
        if runtime then CloudRuntime.submit job
        else
          do* of_res (RuntimeJob.validate job);
          do* on_env (store_put "runtime_jobs" (RuntimeJob.job_id job) (RuntimeJob.as_dict job));
          ret job in
      do* on_env (EventStore.append "connector.job.created" (Connector.connector_id connector)
                    (dset (RuntimeJob.as_dict created) "tenant_id" (VStr (TenantContext.tenant_id ctx))));
      ret created
  end.

Definition policy_request (ctx : TenantContext) (connector : Connector) (operation : string) (payload : doc) : PolicyCheck.request :=
  PolicyCheck.Req ("connector:" +:+ Connector.connector_id connector) ("connector." +:+ operation)
    [("tenant_id", VStr (TenantContext.tenant_id ctx)); ("connector_id", VStr (Connector.connector_id connector));
     ("connector_type", VStr (ConnectorManifest.connector_type (Connector.manifest connector)));
     ("data_class", dget_or payload "data_class" VNone)].

Definition sanitize_request (ctx : TenantContext) (connector : Connector) (payload : doc) : SanitizeContext.request :=
  SanitizeContext.Req ("connector:" +:+ Connector.connector_id connector) (TenantContext.tenant_id ctx) payload.

Definition audit_request (ctx : TenantContext) (connector : Connector) (operation : string) : AuditEvent.request :=
  AuditEvent.Req ("connector:" +:+ Connector.connector_id connector) ("connector." +:+ operation)
    [("tenant_id", VStr (TenantContext.tenant_id ctx)); ("connector_id", VStr (Connector.connector_id connector))].

Definition execute (ctx : TenantContext) (connector_id operation : string) (payload : doc) : M (sys S) ConnectorResult :=
  let* connector := get ctx connector_id in
  do* of_res (_assert_policy connector operation payload);
  do* of_res (_reject_raw payload);
  let* policy := veil_call check_policy (policy_request ctx connector operation payload) in
  if negb (PolicyCheck.allowed policy) then
    do* EventStore.append "connector.policy.denied" (Connector.connector_id connector)
      [("tenant_id", VStr (TenantContext.tenant_id ctx)); ("operation", VStr operation); ("reason", VStr (PolicyCheck.reason policy))];
    raise AuthorizationError (str_or (PolicyCheck.reason policy) "VEIL policy denied connector operation")
  else
  let* sanitized := veil_call sanitize_context (sanitize_request ctx connector payload) in
  do* of_res (_reject_raw (SanitizeContext.sanitized_context sanitized));
  let* audit := veil_call create_audit_event (audit_request ctx connector operation) in
  let* token_refs := of_res (strs_field_or (SanitizeContext.sanitized_context sanitized) "veil_token_refs" []) in
  let* created_at := utc_now in
  let result := ConnectorResult.Mk (Connector.connector_id connector) (TenantContext.tenant_id ctx) operation
    (SanitizeContext.sanitized_context sanitized) (AuditEvent.event_id audit) token_refs "" created_at in
  do* store_put "connector_results" (ConnectorResult.id_of result) (ConnectorResult.as_dict result);
  do* EventStore.append "connector.operation.completed" (Connector.connector_id connector) (ConnectorResult.as_dict result);
  ret result.

Definition health (ctx : TenantContext) (connector_id : string) : M (sys S) doc :=
  let* connector := get ctx connector_id in
  ret [("connector_id", VStr (Connector.connector_id connector)); ("tenant_id", VStr (Connector.tenant_id connector));
       ("status", VStr (Connector.status connector));
       ("connector_type", VStr (ConnectorManifest.connector_type (Connector.manifest connector)));
       ("credential_ref_present", VBool (negb (bool_decide (ConnectorCredentials.credential_ref (Connector.credentials connector) = ""))));
       ("policy", VDict (ConnectorPolicy.as_dict (Connector.policy connector)))].

End Registry.
End ConnectorRegistry.
