(* ===== verification/AuditBundle.v ===== *)
(** Audit bundles (agentfabric/audit_bundle): what a tenant is given of the stores
    and the log, without raw sensitive values. *)

From stdpp Require Import base option list strings gmap sets.
From Stdlib Require Import ZArith Lia.
From S2P Require Import Prelude PyVal Json PyTime Store EventStore.

Local Open Scope Z_scope.

(** * redactor.py *)

Module Redactor.

Definition SENSITIVE_KEYS : list string := ["secret"; "raw"; "password"; "token_value"; "private_key"].

Definition sensitive (key : string) : bool := bool_decide (lower key ∈ SENSITIVE_KEYS).

Definition REDACTED : val := VStr "[REDACTED]".

Fixpoint redact (value : val) : val :=
  match value with
  | VDict d => VDict (map (fun '(key, item) => (key, if sensitive key then REDACTED else redact item)) d)
  | VList l => VList (map redact l)
  | _ => value
  end.

(** [redact] of a dict *)
Definition redact_dict (d : doc) : doc :=
  map (fun '(key, item) => (key, if sensitive key then REDACTED else redact item)) d.

(** [item != "[REDACTED]"] *)
Definition unredacted (item : val) : bool := negb (is_str (Some item) "[REDACTED]").

Fixpoint contains_raw_sensitive (value : val) : bool :=
  match value with
  | VDict d => existsb (fun '(key, item) => (sensitive key && unredacted item) || contains_raw_sensitive item) d
  | VList l => existsb contains_raw_sensitive l
  | _ => false
  end.

End Redactor.

(** * manifest.py *)

Module AuditBundleManifest.
Record t := Mk { tenant_id : string; bundle_id : string; created_at : Z; schema_version : string }.

(** [AuditBundleManifest(tenant_id=tenant_id)] *)
Definition new `{Oracle} {S} (tenant_id : string) : M (sys S) t :=
  let* id := uuid4 in
  let* created_at := utc_now in
  ret (Mk tenant_id ("audit-bundle-" +:+ id) created_at "software-foundry-generation-17").

Definition as_dict (m : t) : doc :=
  [("bundle_id", VStr (bundle_id m)); ("tenant_id", VStr (tenant_id m));
   ("created_at", VStr (isoformat (created_at m))); ("schema_version", VStr (schema_version m))].
End AuditBundleManifest.

(** * bundle.py *)

Module AuditBundle.

(** The fields from [runtime_jobs] on, which are all lists of documents, are kept
    in their order in [collections]. *)
Record t := Mk {
  manifest : AuditBundleManifest.t;
  tenant_summary : doc;
  workflow_timeline : list doc;
  decision_records : list doc;
  package_installs : list doc;
  event_hash_chain : doc;
  veil_audit_references : list string;
  reputation_summary : doc;
  collections : list (string * list doc);
}.

Definition docs (l : list doc) : val := VList (map VDict l).

(** The dict before it is redacted *)
Definition raw_dict (b : t) : doc :=
  [("manifest", VDict (AuditBundleManifest.as_dict (manifest b))); ("tenant_summary", VDict (tenant_summary b));
   ("workflow_timeline", docs (workflow_timeline b)); ("decision_records", docs (decision_records b));
   ("package_installs", docs (package_installs b)); ("event_hash_chain", VDict (event_hash_chain b));
   ("veil_audit_references", VList (map VStr (veil_audit_references b)));
   ("reputation_summary", VDict (reputation_summary b))] ++
  map (fun p => (p.1, docs p.2)) (collections b).

Definition as_dict (b : t) : res doc :=
  let redacted := Redactor.redact_dict (raw_dict b) in
  if Redactor.contains_raw_sensitive (VDict redacted)
  then Err (Exn ValueError "audit bundle contains raw sensitive values")
  else Ok redacted.

End AuditBundle.

(** * exporter.py *)

Module AuditBundleExporter.

(** Where a field of the bundle comes from: the documents of the tenant in a
    collection as they are, without the contents of a plan, or as the four
    entries of a renovation artifact. *)
Inductive source :=
  | Tenant (collection : string)
  | Plans (collection : string)
  | Artifacts (collection : string).

Definition collection_of (src : source) : string :=
  match src with Tenant c | Plans c | Artifacts c => c end.

Definition fields : list (string * source) :=
  [("runtime_jobs", Tenant "runtime_jobs"); ("connectors", Tenant "connectors");
   ("connector_results", Tenant "connector_results"); ("tools", Tenant "tools");
   ("tool_results", Tenant "tool_results"); ("evaluation_results", Tenant "evaluation_results");
   ("feedback", Tenant "feedback"); ("cost_events", Tenant "cost_events");
   ("revenue_events", Tenant "revenue_events"); ("health_snapshots", Tenant "agent_health_snapshots");
   ("drift_events", Tenant "agent_drift_events"); ("anomaly_events", Tenant "agent_anomaly_records");
   ("recommendations", Tenant "agent_recommendations");
   ("version_comparisons", Tenant "agent_version_comparisons");
   ("connector_manifests", Tenant "enterprise_connector_manifests");
   ("connector_enablement", Tenant "enterprise_connector_enablement");
   ("connector_executions", Tenant "enterprise_connector_executions");
   ("connector_denials", Tenant "enterprise_connector_denials");
   ("credential_lifecycle", Tenant "connector_credentials");
   ("connector_policies", Tenant "enterprise_connector_policies"); ("factory_ideas", Tenant "factory_ideas");
   ("factory_repositories", Tenant "factory_repositories"); ("factory_platforms", Tenant "factory_platforms");
   ("factory_artifacts", Tenant "factory_artifacts");
   ("factory_packages", Tenant "factory_repository_packages");
   ("factory_quality", Tenant "factory_quality_scores"); ("factory_tasks", Tenant "factory_software_tasks");
   ("factory_execution_plans", Plans "factory_execution_plans");
   ("factory_execution_approvals", Tenant "factory_execution_approvals");
   ("factory_execution_results", Tenant "factory_execution_results");
   ("factory_execution_artifacts", Tenant "factory_execution_artifacts");
   ("factory_execution_rollbacks", Tenant "factory_execution_rollbacks");
   ("factory_build_plans", Plans "factory_build_plans");
   ("factory_build_approvals", Tenant "factory_build_approvals");
   ("factory_build_results", Tenant "factory_build_results");
   ("factory_build_artifacts", Tenant "factory_build_artifacts");
   ("factory_build_reviews", Tenant "factory_build_reviews");
   ("factory_build_rollbacks", Tenant "factory_build_rollbacks");
   ("renovation_estimates", Artifacts "renovation_estimates");
   ("renovation_proposals", Artifacts "renovation_proposals");
   ("renovation_proposal_exports", Tenant "renovation_proposal_exports");
   ("renovation_jobs", Artifacts "renovation_jobs");
   ("renovation_daily_logs", Artifacts "renovation_daily_logs");
   ("renovation_field_notes", Artifacts "renovation_field_notes");
   ("renovation_photo_records", Artifacts "renovation_photo_records");
   ("renovation_issue_records", Artifacts "renovation_issue_records");
   ("renovation_daily_summaries", Tenant "renovation_daily_summaries");
   ("renovation_change_orders", Artifacts "renovation_change_orders");
   ("renovation_change_order_approvals", Artifacts "renovation_change_order_approvals");
   ("renovation_change_order_exports", Tenant "renovation_change_order_exports");
   ("renovation_schedules", Artifacts "renovation_schedules");
   ("renovation_schedule_recalculations", Tenant "renovation_schedule_recalculations");
   ("renovation_schedule_summaries", Tenant "renovation_schedule_summaries");
   ("renovation_crews", Artifacts "renovation_crews");
   ("renovation_crew_assignments", Artifacts "renovation_crew_assignments");
   ("renovation_crew_availability", Artifacts "renovation_crew_availability");
   ("renovation_material_deliveries", Artifacts "renovation_material_deliveries");
   ("renovation_delay_impacts", Artifacts "renovation_delay_impacts");
   ("renovation_job_costs", Artifacts "renovation_job_costs");
   ("renovation_invoices", Artifacts "renovation_invoices");
   ("renovation_payments", Artifacts "renovation_payments");
   ("renovation_payables", Artifacts "renovation_payables");
   ("renovation_profitability_scorecards", Artifacts "renovation_profitability_scorecards");
   ("renovation_margin_variances", Artifacts "renovation_margin_variances");
   ("renovation_cost_overrun_alerts", Artifacts "renovation_cost_overrun_alerts");
   ("renovation_cash_flow_forecasts", Artifacts "renovation_cash_flow_forecasts");
   ("renovation_owner_summaries", Tenant "renovation_owner_summaries");
   ("renovation_leads", Artifacts "renovation_leads");
   ("renovation_customers", Artifacts "renovation_customers");
   ("renovation_opportunities", Artifacts "renovation_opportunities");
   ("renovation_follow_ups", Artifacts "renovation_follow_ups");
   ("renovation_appointments", Artifacts "renovation_appointments");
   ("renovation_site_visits", Artifacts "renovation_site_visits");
   ("renovation_customer_messages", Artifacts "renovation_customer_messages");
   ("renovation_communications", Artifacts "renovation_communications");
   ("renovation_portal_views", Artifacts "renovation_portal_views")].

(** An item of [_renovation_artifacts] *)
Definition artifact (item : doc) : res doc :=
  let? tenant_id := dindex item "tenant_id" in
  let? organization_id := dindex item "organization_id" in
  let? created_by := dindex item "created_by" in
  let? artifact := dindex item "artifact" in
  Ok [("tenant_id", tenant_id); ("organization_id", organization_id); ("created_by", created_by); ("artifact", artifact)].

(** What a source makes of the documents of the tenant *)
Definition shown (src : source) (items : list doc) : res (list doc) :=
  match src with
  | Tenant _ => Ok items
  | Plans _ => Ok (map (fun plan => ddel plan "artifact_contents") items)
  | Artifacts _ => res_map artifact items
  end.

(** The references of one record *)
Definition record_refs (record : doc) : res (list string) :=
  let? items := py_iter (dget_or record "veil_audit_refs" (VList [])) in Ok (map py_str items).

Definition _veil_refs (records : list doc) : res (list string) :=
  let? refs := res_map record_refs records in Ok (concat refs).

Definition timeline_prefixes : list string := ["workflow"; "task"; "checkpoint"; "human_approval"].

Definition in_timeline (e : AgentFabricEvent) : bool :=
  existsb (fun p => starts_with p (event_type e)) timeline_prefixes.

(** The events whose payload names the tenant *)
Definition events_of (tenant_id : string) (evs : list AgentFabricEvent) : list AgentFabricEvent :=
  base.filter (fun e => is_str (dget (EventStore.payload e) "tenant_id") tenant_id = true) (EventStore.replay None evs).

Definition first_id (evs : list AgentFabricEvent) : option string := event_id <$> head evs.
Definition last_id (evs : list AgentFabricEvent) : option string := event_id <$> last evs.

Section Exporter.
Context `{Oracle} {S : Type} `{PersistenceStore S}.

Definition field (tenant_id : string) (f : string * source) : M (sys S) (string * list doc) :=
  let* items := store_list_tenant (collection_of f.2) tenant_id in
  let* docs := of_res (shown f.2 items) in
  ret (f.1, docs).

Definition export (tenant_id : string) : M (sys S) AuditBundle.t :=
  let* evs := gets (fun s => events_of tenant_id (events s)) in
  let* decision_records := store_list_tenant "governance_decision_records" tenant_id in
  let* manifest := AuditBundleManifest.new tenant_id in
  let* package_installs := store_list_tenant "marketplace_installs" tenant_id in
  let* valid := gets (fun s => EventStore.validate_integrity (events s)) in
  let* refs := of_res (_veil_refs decision_records) in
  let* reputation := store_list_tenant "reputation" tenant_id in
  let* collections := for_map fields (field tenant_id) in
  let count := VInt (Z.of_nat (length evs)) in
  ret (AuditBundle.Mk manifest [("tenant_id", VStr tenant_id); ("event_count", count)]
         (map EventStore.Event.as_dict (base.filter (fun e => in_timeline e = true) evs)) decision_records package_installs
         [("valid", VBool valid); ("first_event_id", opt_str (first_id evs)); ("last_event_id", opt_str (last_id evs));
          ("event_count", count)]
         refs [("records", AuditBundle.docs reputation)] collections).

(** [self.audit_exporter.export(tenant_id).as_dict()] *)
Definition export_dict (tenant_id : string) : M (sys S) doc :=
  let* bundle := export tenant_id in of_res (AuditBundle.as_dict bundle).

End Exporter.
End AuditBundleExporter.

(** * Redaction *)

Import Redactor.

(** The value [x] is somewhere in [v] under the key [k]. *)
Inductive within : val → string → val → Prop :=
  | Within_here d k x : (k, x) ∈ d → within (VDict d) k x
  | Within_dict d k' v k x : (k', v) ∈ d → within v k x → within (VDict d) k x
  | Within_list l v k x : v ∈ l → within v k x → within (VList l) k x.

(** A value whose sensitive entries, at any depth, are all redacted. *)
Definition clean (v : val) : Prop := ∀ k x, within v k x → sensitive k = true → x = REDACTED.

Lemma existsb_false {A} (f : A → bool) l : existsb f l = false ↔ Forall (fun x => f x = false) l.
Proof.
  induction l as [|x l IH]; cbn; [by split; [constructor|]|]. rewrite orb_false_iff, IH, Forall_cons. done.
Qed.

Lemma contains_clean v : contains_raw_sensitive v = false → clean v.
Proof.
  intros Hc k x Hw Hk. induction Hw as [d k x Hin|d k' v k x Hin _ IH|l v k x Hin _ IH]; cbn in Hc.
  - destruct (unredacted x) eqn:Hu.
    + exfalso. rewrite existsb_false, Forall_forall in Hc. specialize (Hc _ Hin). cbn in Hc. by rewrite Hk, Hu in Hc.
    + unfold unredacted in Hu. apply negb_false_iff in Hu. destruct x; try done. cbn in Hu.
      apply bool_decide_eq_true in Hu as ->. done.
  - apply IH; [|done]. rewrite existsb_false, Forall_forall in Hc. specialize (Hc _ Hin). cbn in Hc.
    by apply orb_false_iff in Hc as [_ ?].
  - apply IH; [|done]. rewrite existsb_false, Forall_forall in Hc. by apply Hc.
Qed.

(** What was redacted passes the check of the bundle. *)
Lemma redact_clean v : contains_raw_sensitive (redact v) = false.
Proof.
  induction v as [| | | | |l IH|d IH] using val_nested_ind; try done; cbn; apply existsb_false, Forall_map.
  - exact IH.
  - eapply Forall_impl; [exact IH|]. intros [k item] Hi. cbn in *. destruct (sensitive k); [done|]. exact Hi.
Qed.

(** A value without raw sensitive entries is left as it is. *)
Lemma redact_same v : contains_raw_sensitive v = false → redact v = v.
Proof.
  induction v as [| | | | |l IH|d IH] using val_nested_ind; try done; cbn; intros Hc; apply existsb_false in Hc; f_equal.
  - induction IH as [|x l Hx _ IHl]; [done|]. apply Forall_cons in Hc as [Hc1 Hc2]. cbn. by rewrite Hx, IHl.
  - induction IH as [|[k x] d Hx _ IHd]; [done|]. apply Forall_cons in Hc as [Hc1 Hc2]. cbn in *.
    apply orb_false_iff in Hc1 as [Hk Hc1]. rewrite IHd by done. destruct (sensitive k); [|by rewrite Hx].
    cbn in Hk. unfold unredacted in Hk. apply negb_false_iff in Hk. destruct x; try done. cbn in Hk.
    by apply bool_decide_eq_true in Hk as ->.
Qed.

(** So the export of a bundle is never refused. *)
Lemma as_dict_eq b : AuditBundle.as_dict b = Ok (redact_dict (AuditBundle.raw_dict b)).
Proof.
  unfold AuditBundle.as_dict. change (VDict (redact_dict (AuditBundle.raw_dict b))) with (redact (VDict (AuditBundle.raw_dict b))).
  by rewrite redact_clean.
Qed.

(** * The bundle of a tenant *)

Section Bundles.
Context `{Oracle} {S : Type} `{PersistenceStore S, !StoreLaws S}.
Import AuditBundleExporter.
Implicit Types (s : sys S) (tenant : string).

(** The documents of a collection that name the tenant *)
Definition owned tenant (c : string) (d : S) : list doc :=
  base.filter (fun item => is_str (dget item "tenant_id") tenant = true) (st_list c d).

(** The stores and the log are as they were; the clock was asked. *)
Definition untouched s s' : Prop := db s' = db s ∧ events s' = events s.

(** What a list of fields comes to *)
Definition fields_res tenant (d : S) (fs : list (string * source)) : res (list (string * list doc)) :=
  res_map (fun f => let? docs := shown f.2 (owned tenant (collection_of f.2) d) in Ok (f.1, docs)) fs.

Lemma list_owned tenant c s : store_list_tenant c tenant s = (Ok (owned tenant c (db s)), s).
Proof. unfold store_list_tenant, gets. by rewrite list_tenant_list. Qed.

Lemma fields_eq tenant fs s : for_map fs (field tenant) s = (fields_res tenant (db s) fs, s).
Proof.
  unfold fields_res. induction fs as [|[name src] fs IH]; [done|]. cbn [for_map res_map fst snd]. unfold bind at 1.
  unfold field at 1. cbn [fst snd]. unfold bind at 1. rewrite list_owned. unfold bind, of_res, ret.
  destruct (shown src _) as [docs|e]; [|done]. cbn [res_bind]. rewrite IH. by destruct (res_map _ fs).
Qed.

(** The bundle of a tenant, given the time and the id of its manifest *)
Definition bundle_of tenant s refs collections : AuditBundle.t :=
  let evs := events_of tenant (events s) in
  let count := VInt (Z.of_nat (length evs)) in
  AuditBundle.Mk
    (AuditBundleManifest.Mk tenant ("audit-bundle-" +:+ uuid_hex (tick s)) (clock (Datatypes.S (tick s))) "software-foundry-generation-17")
    [("tenant_id", VStr tenant); ("event_count", count)]
    (map EventStore.Event.as_dict (base.filter (fun e => in_timeline e = true) evs))
    (owned tenant "governance_decision_records" (db s)) (owned tenant "marketplace_installs" (db s))
    [("valid", VBool (EventStore.validate_integrity (events s))); ("first_event_id", opt_str (first_id evs));
     ("last_event_id", opt_str (last_id evs)); ("event_count", count)]
    refs [("records", AuditBundle.docs (owned tenant "reputation" (db s)))] collections.

Lemma export_eq tenant s :
  ∃ s', untouched s s' ∧
    export_dict tenant s =
    ((let? refs := _veil_refs (owned tenant "governance_decision_records" (db s)) in
      let? collections := fields_res tenant (db s) fields in
      Ok (redact_dict (AuditBundle.raw_dict (bundle_of tenant s refs collections)))), s').
Proof.
  exists (Sys (db s) (events s) (durable s) (Datatypes.S (Datatypes.S (tick s)))). split; [done|].
  unfold export_dict, export. unfold bind at 1, bind at 1, gets at 1. unfold bind at 1. rewrite list_owned.
  unfold bind at 1, AuditBundleManifest.new, bind at 1, uuid4, bind at 1, utc_now, ret at 1. cbv beta iota.
  unfold bind at 1. rewrite list_owned. unfold bind at 1, gets at 1. unfold bind at 1, of_res at 1. cbn [db events tick durable].
  destruct (_veil_refs _) as [refs|e]; [|done]. cbn [res_bind]. unfold bind at 1. rewrite list_owned.
  unfold bind at 1. rewrite fields_eq. cbn [db]. destruct (fields_res _ _ _) as [collections|e]; [|done]. cbn [res_bind].
  unfold ret, of_res. by rewrite as_dict_eq.
Qed.

(** The fields that list documents of the tenant, with their sources *)
Definition document_fields : list (string * source) :=
  ("decision_records", Tenant "governance_decision_records") :: ("package_installs", Tenant "marketplace_installs") :: fields.

(** The names of the fields of a bundle *)
Definition names : list string :=
  ["manifest"; "tenant_summary"; "workflow_timeline"; "decision_records"; "package_installs"; "event_hash_chain";
   "veil_audit_references"; "reputation_summary"] ++ fields.*1.

Lemma names_differ : NoDup names.
Proof. apply (bool_decide_unpack _). vm_compute. exact I. Qed.

Lemma fields_res_spec tenant d fs l :
  fields_res tenant d fs = Ok l →
  l.*1 = fs.*1 ∧ ∀ name src, (name, src) ∈ fs → ∃ docs, shown src (owned tenant (collection_of src) d) = Ok docs ∧ (name, docs) ∈ l.
Proof.
  revert l. unfold fields_res. induction fs as [|[name src] fs IH]; intros l; cbn [res_map fst snd].
  { intros [= <-]. split; [done|]. by intros ? ? ?%elem_of_nil. }
  destruct (shown src _) as [docs|] eqn:E; cbn [res_bind]; [|done].
  destruct (res_map _ fs) as [l'|] eqn:El; cbn [res_bind]; [|done]. intros [= <-].
  destruct (IH l' eq_refl) as [Hn Hin]. split; [cbn; by rewrite Hn|].
  intros name' src' [[= -> ->]|Hf]%elem_of_cons; [exists docs; split; [done|by left]|].
  destruct (Hin _ _ Hf) as (docs' & ? & ?). exists docs'. split; [done|by right].
Qed.

Lemma raw_dict_get tenant s refs l name v :
  l.*1 = fields.*1 → (name, v) ∈ AuditBundle.raw_dict (bundle_of tenant s refs l) →
  dget (AuditBundle.raw_dict (bundle_of tenant s refs l)) name = Some v.
Proof.
  intros Hl. apply elem_dget. unfold dict_ok.
  assert ((AuditBundle.raw_dict (bundle_of tenant s refs l)).*1 = names) as ->; [|apply names_differ].
  unfold AuditBundle.raw_dict, names. rewrite fmap_app. f_equal. rewrite <- Hl. cbn [AuditBundle.collections bundle_of].
  clear Hl. induction l as [|p l IH]; [done|]. cbn. by rewrite IH.
Qed.

(** The tenant's documents a bundle cannot show: a decision record whose
    references are no sequence, or a renovation artifact without its entries. *)
Definition malformed tenant (d : S) : Prop :=
  (∃ r, r ∈ owned tenant "governance_decision_records" d ∧ is_ok (record_refs r) = false) ∨
  ∃ name c item, (name, Artifacts c) ∈ fields ∧ item ∈ owned tenant c d ∧ is_ok (artifact item) = false.

Lemma res_map_err {A B} (f : A → res B) l e : res_map f l = Err e → ∃ x, x ∈ l ∧ f x = Err e.
Proof.
  induction l as [|x l IH]; cbn [res_map]; [done|]. destruct (f x) as [y|e'] eqn:E; cbn [res_bind].
  - destruct (res_map f l); [done|]. intros [= ->]. destruct (IH eq_refl) as (x' & ? & ?). exists x'. split; [by right|done].
  - intros [= ->]. exists x. split; [by left|done].
Qed.

Lemma fields_err tenant d e : fields_res tenant d fields = Err e → malformed tenant d.
Proof.
  intros ([name src] & Hin & E)%res_map_err. cbn [fst snd] in E. destruct (shown src _) as [docs|e'] eqn:Es; [done|].
  destruct src as [c|c|c]; [done|done|]. cbn [shown collection_of] in Es. apply res_map_err in Es as (item & Hitem & Ei).
  right. exists name, c, item. split_and!; [exact Hin|exact Hitem|]. by rewrite Ei.
Qed.


End Bundles.

(** ** An export *)

Section Demo.
#[local] Existing Instance demo_oracle.

Definition demo_documents : sys Memory.store :=
  with_db (st_put "connectors" "c-1" [("tenant_id", VStr "t-1"); ("config", VDict [("Password", VStr "hunter2")]); ("credential", VStr "key-7")])
    (with_db (st_put "connectors" "c-2" [("tenant_id", VStr "t-2")]) demo_start).

(** The password of the connector is redacted, the connector of the other tenant is
    not shown, and a credential is shown as it is. *)
Example demo_bundle :
  match (AuditBundleExporter.export_dict "t-1" demo_documents).1 with
  | Ok d => dget d "connectors"
  | Err _ => None
  end =
  Some (VList [VDict [("tenant_id", VStr "t-1"); ("config", VDict [("Password", VStr "[REDACTED]")]); ("credential", VStr "key-7")]]).
Proof. vm_compute. reflexivity. Qed.

End Demo.
