(* ===== verification/Tools.v ===== *)
(** Tools that agents are given (agentfabric/tools) and the services over
    sanitized data some of them are (agentfabric/intelligence): records, the
    router, and the registry that runs a tool behind its permission and VEIL. *)

From stdpp Require Import base option list strings gmap sets.
From Stdlib Require Import ZArith Lia.
From S2P Require Import Prelude PyVal PyTime Store EventStore Documents AuditBundle Veil Job Queue Dispatcher Runtime Tenancy Connectors.

Local Open Scope Z_scope.

(** * tool_manifest.py, tool_permission.py *)

Definition SUPPORTED_TOOL_TYPES : list string :=
  ["connector_search"; "connector_fetch"; "document_summary"; "ticket_analysis"; "email_analysis"; "code_repository_review";
   "audit_bundle_generation"; "governance_proposal_creation"; "marketplace_package_verification"].

Module ToolManifest.
Record t := Mk {
  name : string;
  tool_type : string;
  description : string;
  version : string;
  required_connector_type : option string;
  metadata : doc;
}.

Definition validate (m : t) : res unit :=
  if negb (bool_decide (tool_type m ∈ SUPPORTED_TOOL_TYPES)) then Err (Exn ValueError ("unsupported tool type: " +:+ tool_type m))
  else if bool_decide (name m = "") then Err (Exn ValueError "tool name is required")
  else Ok tt.

Definition as_dict (m : t) : doc :=
  [("name", VStr (name m)); ("tool_type", VStr (tool_type m)); ("description", VStr (description m)); ("version", VStr (version m));
   ("required_connector_type", opt_str (required_connector_type m)); ("metadata", VDict (metadata m))].

Definition from_dict (value : doc) : res t :=
  let? name := str_field value "name" in
  let? tool_type := str_field value "tool_type" in
  let? metadata := dict_field_or_empty value "metadata" in
  Ok (Mk name tool_type (str_field_or value "description" "") (str_field_or value "version" "1.0.0")
        (opt_str_field value "required_connector_type") metadata).

Definition manifest_ok (m : t) : Prop := required_connector_type m ≠ Some "".

Lemma tool_manifest_from_as_dict m : manifest_ok m → from_dict (as_dict m) = Ok m.
Proof.
  intros Hm. unfold from_dict. cbn -[opt_str_field].
  rewrite (opt_str_field_eq _ "required_connector_type" _ Hm) by done. by destruct m.
Qed.
End ToolManifest.

Abbreviation ToolManifest := ToolManifest.t.

Module ToolPermission.
Record t := Mk {
  required_rbac_scope : string;
  required_tenant_context : bool;
  required_connector_policy : bool;
  required_veil_policy_check : bool;
  governance_approval_required : bool;
  result_persistence_allowed : bool;
  allowed_output_classifications : list string;
}.

Definition as_dict (p : t) : doc :=
  [("required_rbac_scope", VStr (required_rbac_scope p)); ("required_tenant_context", VBool (required_tenant_context p));
   ("required_connector_policy", VBool (required_connector_policy p));
   ("required_veil_policy_check", VBool (required_veil_policy_check p));
   ("governance_approval_required", VBool (governance_approval_required p));
   ("result_persistence_allowed", VBool (result_persistence_allowed p));
   ("allowed_output_classifications", VList (map VStr (allowed_output_classifications p)))].

Definition from_dict (value : doc) : res t :=
  let? allowed_output_classifications := strs_field_or value "allowed_output_classifications" ["public"; "internal"] in
  Ok (Mk (str_field_or value "required_rbac_scope" "tools.execute") (bool_field_or value "required_tenant_context" true)
        (bool_field_or value "required_connector_policy" true) (bool_field_or value "required_veil_policy_check" true)
        (bool_field_or value "governance_approval_required" false) (bool_field_or value "result_persistence_allowed" true)
        allowed_output_classifications).

Lemma permission_from_as_dict p : from_dict (as_dict p) = Ok p.
Proof.
  unfold from_dict. cbn -[strs_field_or].
  rewrite (strs_field_or_eq _ "allowed_output_classifications" _ (allowed_output_classifications p)) by done. by destruct p.
Qed.
End ToolPermission.

Abbreviation ToolPermission := ToolPermission.t.

(** * tool.py *)

Module Tool.
Record t := Mk {
  tenant_id : string;
  organization_id : string;
  created_by : string;
  manifest : ToolManifest;
  permission : ToolPermission;
  tool_id : string;
  status : string;
  created_at : Z;
  updated_at : Z;
}.

Definition validate (c : t) : res unit :=
  if bool_decide (tenant_id c = "") || bool_decide (organization_id c = "") then Err (Exn ValueError "tenant context is required")
  else
  let? _ := ToolManifest.validate (manifest c) in
  if bool_decide (ToolPermission.required_rbac_scope (permission c) = "")
  then Err (Exn ValueError "tool required_rbac_scope is required") else Ok tt.

Definition as_dict (c : t) : doc :=
  [("tool_id", VStr (tool_id c)); ("tenant_id", VStr (tenant_id c)); ("organization_id", VStr (organization_id c));
   ("created_by", VStr (created_by c)); ("manifest", VDict (ToolManifest.as_dict (manifest c)));
   ("permission", VDict (ToolPermission.as_dict (permission c))); ("status", VStr (status c));
   ("created_at", VStr (isoformat (created_at c))); ("updated_at", VStr (isoformat (updated_at c)))].

Section Calls.
Context `{Oracle} {S : Type}.

(** [Tool(tenant_id=..., ...)], with [tool_id] when it is given. *)
Definition new (tenant_id organization_id created_by : string) (manifest : ToolManifest) (permission : ToolPermission)
    (tool_id : option string) : M (sys S) t :=
  let* tool_id := match tool_id with
    | Some id => ret id
    | None => let* id := uuid4 in ret ("tool-" +:+ id)
    end in
  let* created_at := utc_now in
  let* updated_at := utc_now in
  ret (Mk tenant_id organization_id created_by manifest permission tool_id "active" created_at updated_at).

Definition from_dict (value : doc) : M (sys S) t :=
  let* tool_id := of_res (str_field value "tool_id") in
  let* tenant_id := of_res (str_field value "tenant_id") in
  let* organization_id := of_res (str_field value "organization_id") in
  let* manifest := of_res (let? v := dindex value "manifest" in let? d := py_dict v in ToolManifest.from_dict d) in
  let* permission := of_res (let? v := dindex value "permission" in let? d := py_dict v in ToolPermission.from_dict d) in
  let* created_at := time_field_or_now value "created_at" in
  let* updated_at := time_field_or_now value "updated_at" in
  ret (Mk tenant_id organization_id (str_field_or value "created_by" "") manifest permission tool_id
         (str_field_or value "status" "active") created_at updated_at).

Definition tool_ok (c : t) : Prop := ToolManifest.manifest_ok (manifest c) ∧ time_ok (created_at c) ∧ time_ok (updated_at c).

Lemma tool_from_as_dict c (s : sys S) : tool_ok c → from_dict (as_dict c) s = (Ok c, s).
Proof.
  intros (Hm & Ht & Hu). unfold from_dict, bind, of_res, ret.
  assert ((let? v := dindex (as_dict c) "manifest" in let? d := py_dict v in ToolManifest.from_dict d) = Ok (manifest c)) as ->
    by exact (ToolManifest.tool_manifest_from_as_dict _ Hm).
  assert ((let? v := dindex (as_dict c) "permission" in let? d := py_dict v in ToolPermission.from_dict d) = Ok (permission c)) as ->
    by exact (ToolPermission.permission_from_as_dict (permission c)).
  rewrite (time_field_or_now_iso _ _ _ _ Ht), (time_field_or_now_iso _ _ _ _ Hu) by done. by destruct c.
Qed.
End Calls.
End Tool.

Abbreviation Tool := Tool.t.

#[export] Instance tool_document `{Oracle} {S} : Document S Tool := {
  d_coll := "tools";
  d_key := Tool.tool_id;
  d_enc := Tool.as_dict;
  d_dec := Tool.from_dict;
  d_ok := Tool.tool_ok;
  d_dec_enc := Tool.tool_from_as_dict;
  d_enc_ne c := ltac:(done);
}.

(** * tool_result.py *)

Module ToolResult.
Record t := Mk {
  tool_id : string;
  tenant_id : string;
  output : doc;
  veil_audit_id : string;
  classification : string;
  persisted : bool;
  execution_id : string;
  created_at : Z;
}.

Definition as_dict (r : t) : doc :=
  [("execution_id", VStr (execution_id r)); ("tool_id", VStr (tool_id r)); ("tenant_id", VStr (tenant_id r));
   ("output", VDict (output r)); ("classification", VStr (classification r)); ("veil_audit_id", VStr (veil_audit_id r));
   ("persisted", VBool (persisted r)); ("created_at", VStr (isoformat (created_at r)))].

Section Calls.
Context `{Oracle} {S : Type}.

Definition new (tool_id tenant_id : string) (output : doc) (veil_audit_id classification : string) (persisted : bool) : M (sys S) t :=
  let* id := uuid4 in
  let* created_at := utc_now in
  ret (Mk tool_id tenant_id output veil_audit_id classification persisted ("tool-exec-" +:+ id) created_at).

Definition from_dict (value : doc) : M (sys S) t :=
  let* execution_id := of_res (str_field value "execution_id") in
  let* tool_id := of_res (str_field value "tool_id") in
  let* tenant_id := of_res (str_field value "tenant_id") in
  let* output := of_res (dict_field_or_empty value "output") in
  let* created_at := time_field_or_now value "created_at" in
  ret (Mk tool_id tenant_id output (str_field_or value "veil_audit_id" "") (str_field_or value "classification" "internal")
         (bool_field_or value "persisted" false) execution_id created_at).

Definition result_ok (r : t) : Prop := time_ok (created_at r).

Lemma tool_result_from_as_dict r (s : sys S) : result_ok r → from_dict (as_dict r) s = (Ok r, s).
Proof.
  intros Ht. unfold from_dict, bind, of_res, ret. cbn -[time_field_or_now isoformat].
  rewrite (time_field_or_now_iso _ _ _ _ Ht) by done. by destruct r.
Qed.
End Calls.
End ToolResult.

Abbreviation ToolResult := ToolResult.t.

#[export] Instance tool_result_document `{Oracle} {S} : Document S ToolResult := {
  d_coll := "tool_results";
  d_key := ToolResult.execution_id;
  d_enc := ToolResult.as_dict;
  d_dec := ToolResult.from_dict;
  d_ok := ToolResult.result_ok;
  d_dec_enc := ToolResult.tool_result_from_as_dict;
  d_enc_ne r := ltac:(done);
}.

(** * intelligence/ *)

Definition require_sanitized_input (payload : doc) : res unit :=
  if _contains_sensitive_key (VDict payload) then Err (Exn ValueError "intelligence services require sanitized connector data")
  else if negb (existsb (dmem payload) ["sanitized_payload"; "veil_token_ref"; "veil_token_refs"; "connector_result_id"])
  then Err (Exn ValueError "intelligence services require sanitized connector results or VEIL token references")
  else Ok tt.

(** [a or b or []] of two lookups *)
Definition first_truthy (a b : option val) : val :=
  match a with
  | Some v => if truthy v then v else match b with Some w => if truthy w then w else VList [] | None => VList [] end
  | None => match b with Some w => if truthy w then w else VList [] | None => VList [] end
  end.

Module SummaryService.
Definition summarize (payload : doc) (subject : string) : res doc :=
  let? _ := require_sanitized_input payload in
  let sanitized := match dget payload "sanitized_payload" with Some (VDict d) => d | _ => [] end in
  let token_refs := first_truthy (dget payload "veil_token_refs") (dget sanitized "veil_token_refs") in
  Ok [("summary", VStr ("Summary generated for " +:+ subject +:+ " from sanitized connector context."));
      ("key_points", VList (map VStr (take 5 (py_sorted str_le sanitized.*1))));
      ("veil_token_refs", VList (match token_refs with VList l => l | v => [VStr (py_str v)] end));
      ("classification", VStr "internal")].
End SummaryService.

(** [{**summary, ...}] *)
Definition analysis (payload : doc) (subject : string) (findings : doc) : res doc :=
  let? summary := SummaryService.summarize payload subject in Ok (dupdate summary findings).

Definition document_analyze (payload : doc) : res doc :=
  analysis payload "document" [("document_findings", VList [VStr "obligations identified from sanitized references"])].
Definition ticket_analyze (payload : doc) : res doc :=
  analysis payload "ticket" [("ticket_priority", VStr "medium"); ("recommended_action", VStr "route for review")].
Definition email_analyze (payload : doc) : res doc := analysis payload "email" [("email_intent", VStr "information_request")].
Definition code_review (payload : doc) : res doc :=
  analysis payload "code repository" [("review_findings", VList [VStr "no raw secrets present in sanitized input"])].

Definition knowledge_search (payload : doc) : res doc :=
  let? _ := require_sanitized_input payload in
  let? refs := py_iter (dget_or payload "veil_token_refs" (VList [])) in
  Ok [("matches", VList [VDict [("title", VStr "Sanitized enterprise result"); ("score", VFloat "0.9")]]);
      ("classification", VStr "internal"); ("veil_token_refs", VList refs)].

(** * tool_router.py *)

Module ToolRouter.
Section Router.
Context `{Oracle} `{VeilClient} {S : Type} `{PersistenceStore S}.

(** Whether the router has a connector registry and an exporter of audit bundles,
    over the same store and log. *)
Context (connector_registry audit_exporter : bool).

Definition _reject_raw (payload : doc) : res unit :=
  if _contains_sensitive_key (VDict payload) then Err (Exn ValidationError "raw tool payload values are not allowed") else Ok tt.

Definition _connector (ctx : TenantContext) (tool : Tool) (payload : doc) (operation : string) : M (sys S) doc :=
  if negb connector_registry then raise ValidationError "connector registry is not configured"
  else
  let connector_id := str_field_or payload "connector_id" "" in
  if bool_decide (connector_id = "") then raise ValidationError "connector_id is required"
  else
  let* result := ConnectorRegistry.execute ctx connector_id operation payload in
  ret [("connector_result_id", VStr (ConnectorResult.id_of result)); ("sanitized_payload", VDict (ConnectorResult.sanitized_payload result));
       ("veil_audit_id", VStr (ConnectorResult.veil_audit_id result));
       ("veil_token_refs", VList (map VStr (ConnectorResult.token_refs result))); ("classification", VStr "internal");
       ("tool_id", VStr (Tool.tool_id tool))].

Definition proposal_request (ctx : TenantContext) (payload : doc) : res doc :=
  let? refs := py_iter (dget_or payload "veil_token_refs" (VList [])) in
  Ok [("proposal_request", VDict [("tenant_id", VStr (TenantContext.tenant_id ctx));
         ("action_type", dget_or payload "action_type" (VStr "new_workflow_execution")); ("veil_token_refs", VList refs)]);
      ("classification", VStr "internal")].

(** [bool(a and b)], [bool(a or b)] of lookups *)
Definition is_truthy (v : option val) : bool := match v with Some v => truthy v | None => false end.

Definition package_verification (payload : doc) : res doc :=
  let? manifest := dict_field_or_empty payload "manifest" in
  Ok [("verification", VDict [("ok", VBool (is_truthy (dget manifest "package_id") && is_truthy (dget manifest "version")));
         ("package_id", dget_or manifest "package_id" VNone);
         ("signature_checked", VBool (is_truthy (dget payload "signature") || is_truthy (dget payload "signature_ref")))]);
      ("classification", VStr "internal")].

Definition route (ctx : TenantContext) (tool : Tool) (payload : doc) : M (sys S) doc :=
  do* of_res (_reject_raw payload);
  let tool_type := ToolManifest.tool_type (Tool.manifest tool) in
  if bool_decide (tool_type = "connector_search") then _connector ctx tool payload "search"
  else if bool_decide (tool_type = "connector_fetch") then _connector ctx tool payload "fetch"
  else if bool_decide (tool_type = "document_summary") then of_res (document_analyze payload)
  else if bool_decide (tool_type = "ticket_analysis") then of_res (ticket_analyze payload)
  else if bool_decide (tool_type = "email_analysis") then of_res (email_analyze payload)
  else if bool_decide (tool_type = "code_repository_review") then of_res (code_review payload)
  else if bool_decide (tool_type = "audit_bundle_generation") then
    if negb audit_exporter then raise ValidationError "audit bundle exporter is not configured"
    else
    let* bundle := AuditBundleExporter.export_dict (TenantContext.tenant_id ctx) in
    ret [("audit_bundle", VDict bundle); ("classification", VStr "internal")]
  else if bool_decide (tool_type = "governance_proposal_creation") then of_res (proposal_request ctx payload)
  else if bool_decide (tool_type = "marketplace_package_verification") then of_res (package_verification payload)
  else raise ValidationError ("unsupported tool type: " +:+ tool_type).

End Router.
End ToolRouter.

(** * tool_registry.py *)

Module ToolRegistry.
Section Registry.
Context `{Oracle} `{VeilClient} {S : Type} `{PersistenceStore S}.
Context (connector_registry audit_exporter : bool).

(** Whether the registry was given a runtime; it is one over the same store and
    the same events. *)
Context (runtime : bool).

Definition register (ctx : TenantContext) (manifest : ToolManifest) (permission : ToolPermission) (tool_id : option string)
    : M (sys S) Tool :=
  let* tool := Tool.new (TenantContext.tenant_id ctx) (TenantContext.organization_id ctx) (TenantContext.principal_id ctx)
    manifest permission (match tool_id with Some "" => None | _ => tool_id end) in
  do* of_res (Tool.validate tool);
  do* doc_put tool;
  do* EventStore.append "tool.registered" (Tool.tool_id tool) (Tool.as_dict tool);
  ret tool.

Definition list (ctx : TenantContext) : M (sys S) (list Tool) := doc_list_tenant (TenantContext.tenant_id ctx).

Definition get (ctx : TenantContext) (tool_id : string) : M (sys S) Tool :=
  let* item := store_get "tools" tool_id in
  match item with
  | None => raise NotFoundError "tool not found"
  | Some d =>
      let* tool := Tool.from_dict d in
      if negb (bool_decide (Tool.tenant_id tool = TenantContext.tenant_id ctx)) && negb (TenantContext.is_global_admin ctx)
      then raise AuthorizationError "cross-tenant tool access denied"
      else ret tool
  end.

Definition policy_request (ctx : TenantContext) (tool : Tool) (payload : doc) : PolicyCheck.request :=
  PolicyCheck.Req ("tool:" +:+ Tool.tool_id tool) ("tool.execute." +:+ ToolManifest.tool_type (Tool.manifest tool))
    [("tenant_id", VStr (TenantContext.tenant_id ctx)); ("tool_id", VStr (Tool.tool_id tool)); ("payload", VDict payload)].

Definition _enforce (ctx : TenantContext) (tool : Tool) (payload : doc) (governance_approved : bool) : M (sys S) unit :=
  let permission := Tool.permission tool in
  if ToolPermission.required_tenant_context permission && bool_decide (TenantContext.tenant_id ctx = "")
  then raise AuthorizationError "tool execution requires tenant context"
  else if negb (bool_decide (ToolPermission.required_rbac_scope permission ∈ TenantContext.roles ctx))
  then raise AuthorizationError "tool execution missing required RBAC scope"
  else if ToolPermission.governance_approval_required permission && negb governance_approved then
    do* EventStore.append "tool.approval.required" (Tool.tool_id tool)
      [("tenant_id", VStr (TenantContext.tenant_id ctx)); ("tool_id", VStr (Tool.tool_id tool))];
    raise AuthorizationError "governance approval is required"
  else if ToolPermission.required_veil_policy_check permission then
    let* policy := veil_call check_policy (policy_request ctx tool payload) in
    if negb (PolicyCheck.allowed policy) then
      do* EventStore.append "tool.policy.denied" (Tool.tool_id tool)
        [("tenant_id", VStr (TenantContext.tenant_id ctx)); ("reason", VStr (PolicyCheck.reason policy))];
      raise AuthorizationError (str_or (PolicyCheck.reason policy) "VEIL policy denied tool execution")
    else ret tt
  else ret tt.

Definition _create_job (ctx : TenantContext) (tool : Tool) (result : ToolResult) (payload : doc) : M (cloud S) (option RuntimeJob) :=
  if negb runtime then ret None
  else
  let* job := on_env (RuntimeJob.new (TenantContext.tenant_id ctx) (TenantContext.organization_id ctx)
    (TenantContext.principal_id ctx) "tool_execution"
    [("tool_id", VStr (Tool.tool_id tool)); ("execution_id", VStr (ToolResult.execution_id result));
     ("tool_type", VStr (ToolManifest.tool_type (Tool.manifest tool)));
     ("agent_id", VStr (str_field_or payload "agent_id" (TenantContext.principal_id ctx)))]) in
  let* created := CloudRuntime.submit job in
  do* on_env (EventStore.append "tool.job.created" (Tool.tool_id tool) (RuntimeJob.as_dict created));
  ret (Some created).

Definition sanitize_request (ctx : TenantContext) (tool : Tool) (output : doc) : SanitizeContext.request :=
  SanitizeContext.Req ("tool:" +:+ Tool.tool_id tool) (TenantContext.tenant_id ctx) output.

Definition audit_request (ctx : TenantContext) (tool : Tool) : AuditEvent.request :=
  AuditEvent.Req ("tool:" +:+ Tool.tool_id tool) "tool.executed"
    [("tenant_id", VStr (TenantContext.tenant_id ctx)); ("tool_id", VStr (Tool.tool_id tool));
     ("tool_type", VStr (ToolManifest.tool_type (Tool.manifest tool)))].

(** The part of [execute] up to the storing of the result. *)
Definition produce (ctx : TenantContext) (tool_id : string) (payload : doc) (governance_approved : bool) : M (sys S) (Tool * ToolResult) :=
  let* tool := get ctx tool_id in
  do* _enforce ctx tool payload governance_approved;
  let* output := ToolRouter.route connector_registry audit_exporter ctx tool payload in
  let* sanitized := veil_call sanitize_context (sanitize_request ctx tool output) in
  let classification := str_field_or (SanitizeContext.sanitized_context sanitized) "classification" "internal" in
  if negb (bool_decide (classification ∈ ToolPermission.allowed_output_classifications (Tool.permission tool)))
  then raise AuthorizationError "tool output classification is not allowed"
  else
  let* audit := veil_call create_audit_event (audit_request ctx tool) in
  let* result := ToolResult.new (Tool.tool_id tool) (TenantContext.tenant_id ctx) (SanitizeContext.sanitized_context sanitized)
    (AuditEvent.event_id audit) classification (ToolPermission.result_persistence_allowed (Tool.permission tool)) in
  do* (if ToolPermission.result_persistence_allowed (Tool.permission tool) then doc_put result else ret tt);
  ret (tool, result).

Definition execute (ctx : TenantContext) (tool_id : string) (payload : doc) (governance_approved : bool)
    : M (cloud S) (ToolResult * option RuntimeJob) :=
  let* produced := on_env (produce ctx tool_id payload governance_approved) in
  let* job := _create_job ctx produced.1 produced.2 payload in
  do* on_env (EventStore.append "tool.executed" (ToolResult.execution_id produced.2) (ToolResult.as_dict produced.2));
  ret (produced.2, job).

Definition get_execution (ctx : TenantContext) (execution_id : string) : M (sys S) ToolResult :=
  let* item := store_get "tool_results" execution_id in
  match item with
  | None => raise NotFoundError "tool execution not found"
  | Some d =>
      let* result := ToolResult.from_dict d in
      if negb (bool_decide (ToolResult.tenant_id result = TenantContext.tenant_id ctx)) && negb (TenantContext.is_global_admin ctx)
      then raise AuthorizationError "cross-tenant tool execution access denied"
      else ret result
  end.

Definition health (ctx : TenantContext) (tool_id : string) : M (sys S) doc :=
  let* tool := get ctx tool_id in
  ret [("tool_id", VStr (Tool.tool_id tool)); ("tenant_id", VStr (Tool.tenant_id tool)); ("status", VStr (Tool.status tool));
       ("tool_type", VStr (ToolManifest.tool_type (Tool.manifest tool)));
       ("permission", VDict (ToolPermission.as_dict (Tool.permission tool)))].

End Registry.
End ToolRegistry.
