(* ===== verification/Evaluation.v ===== *)
(** Evaluations and quality gates (agentfabric/evaluation): datasets of cases,
    runs that score the outputs of a target, scorecards and the gates that read
    them, and the quality of repositories. *)

From stdpp Require Import base option list strings gmap sets.
From Stdlib Require Import ZArith Lia SpecFloat.
From S2P Require Import Prelude PyVal Json PyTime Floats Store EventStore Documents Veil Reputation Tenancy.

Local Open Scope Z_scope.

(** A dict of numbers, as JSON and from it; the numbers are read as they were
    written. *)
Definition float_doc (d : dict float) : doc := map (fun p => (p.1, VNumber p.2)) d.

(** [{str(key): float(item) for key, item in d.items()}] *)
Definition floats_of (d : doc) : res (dict float) := res_map (fun p => let? x := py_float p.2 in Ok (p.1, x)) d.

Definition readable (x : float) : Prop := float_of_text (float_repr x) = Ok x.

Lemma floats_of_doc d : Forall (fun p => readable p.2) d → floats_of (float_doc d) = Ok d.
Proof.
  induction 1 as [|[k x] d Hx _ IH]; [done|].
  change (floats_of (float_doc ((k, x) :: d))) with
    (let? y := (let? z := float_of_text (float_repr x) in Ok (k, z)) in let? ys := floats_of (float_doc d) in Ok (y :: ys)).
  cbn [snd] in Hx. rewrite Hx. cbn [res_bind]. by rewrite IH.
Qed.

(** [sum(xs)]: the integer 0, to which the floats are added in order (from
    version 3.12 on, Python also keeps track of what the rounding loses) *)
Definition py_sum (l : list float) : float := foldl fadd (S754_zero false) l.

(** * evaluation_case.py *)

Definition SENSITIVE_KEYS : list string := ["raw"; "secret"; "password"; "token_value"; "private_key"; "credential"].

(** Whether a key of a value, at any depth, is one of [keys]. *)
Fixpoint has_key_of (keys : list string) (v : val) : bool :=
  match v with
  | VDict d =>
      (fix go (d : list (string * val)) : bool :=
         match d with
         | [] => false
         | (k, item) :: d' => bool_decide (lower k ∈ keys) || has_key_of keys item || go d'
         end) d
  | VList l => (fix go (l : list val) : bool := match l with [] => false | item :: l' => has_key_of keys item || go l' end) l
  | _ => false
  end.

Definition _contains_sensitive_key (v : val) : bool := has_key_of SENSITIVE_KEYS v.

Module EvaluationCase.
Record t := Mk {
  case_id : string;
  input_ref : string;
  expected_output : doc;
  target_type : string;
  target_id : string;
  metric_weights : dict float;
}.

Definition validate (c : t) : res unit :=
  if bool_decide (case_id c = "") || bool_decide (input_ref c = "")
  then Err (Exn ValueError "evaluation case requires case_id and input_ref")
  else if _contains_sensitive_key (VDict (expected_output c))
  then Err (Exn ValueError "raw sensitive values are not allowed in evaluation cases")
  else Ok tt.

Definition as_dict (c : t) : doc :=
  [("case_id", VStr (case_id c)); ("input_ref", VStr (input_ref c)); ("expected_output", VDict (expected_output c));
   ("target_type", VStr (target_type c)); ("target_id", VStr (target_id c)); ("metric_weights", VDict (float_doc (metric_weights c)))].

Definition from_dict (value : doc) : res t :=
  let? case_id := str_field value "case_id" in
  let? input_ref := str_field value "input_ref" in
  let? expected_output := dict_field_or_empty value "expected_output" in
  let? metric_weights := (let? d := dict_field_or_empty value "metric_weights" in floats_of d) in
  Ok (Mk case_id input_ref expected_output (str_field_or value "target_type" "agent_output")
        (str_field_or value "target_id" "") metric_weights).

Definition case_ok (c : t) : Prop := Forall (fun p => readable p.2) (metric_weights c).

Lemma case_from_as_dict c : case_ok c → from_dict (as_dict c) = Ok c.
Proof.
  intros Hc. unfold from_dict.
  assert ((let? d := dict_field_or_empty (as_dict c) "metric_weights" in floats_of d) = Ok (metric_weights c)) as ->
    by exact (floats_of_doc _ Hc).
  by destruct c.
Qed.
End EvaluationCase.

Abbreviation EvaluationCase := EvaluationCase.t.

(** * evaluation_dataset.py *)

Module EvaluationDataset.
Record t := Mk {
  tenant_id : string;
  organization_id : string;
  name : string;
  cases : list EvaluationCase;
  created_by : string;
  dataset_id : string;
  created_at : Z;
}.

(** The first case that is not valid raises. *)
Fixpoint validate_cases (l : list EvaluationCase) : res unit :=
  match l with [] => Ok tt | c :: l' => let? _ := EvaluationCase.validate c in validate_cases l' end.

Definition validate (d : t) : res unit :=
  if bool_decide (tenant_id d = "") || bool_decide (organization_id d = "") then Err (Exn ValueError "tenant context is required")
  else if bool_decide (name d = "") then Err (Exn ValueError "dataset name is required")
  else match cases d with
       | [] => Err (Exn ValueError "dataset requires at least one case")
       | l => validate_cases l
       end.

Definition as_dict (d : t) : doc :=
  [("dataset_id", VStr (dataset_id d)); ("tenant_id", VStr (tenant_id d)); ("organization_id", VStr (organization_id d));
   ("name", VStr (name d)); ("cases", VList (map (fun c => VDict (EvaluationCase.as_dict c)) (cases d)));
   ("created_by", VStr (created_by d)); ("created_at", VStr (isoformat (created_at d)))].

(** [EvaluationCase.from_dict(item)] reads keys of the item, which must be a dict. *)
Definition case_of (item : val) : res EvaluationCase :=
  match item with VDict d => EvaluationCase.from_dict d | _ => type_error "string indices must be integers" end.

Section Calls.
Context `{Oracle} {S : Type}.

(** [EvaluationDataset(...)] draws an id when none is given, then the time. *)
Definition new (tenant_id organization_id name : string) (cases : list EvaluationCase) (created_by : string)
    (dataset_id : option string) : M (sys S) t :=
  let* id := match dataset_id with Some id => ret id | None => let* u := uuid4 in ret ("eval-dataset-" +:+ u) end in
  let* now := utc_now in
  ret (Mk tenant_id organization_id name cases created_by id now).

Definition from_dict (value : doc) : M (sys S) t :=
  let* dataset_id := of_res (str_field value "dataset_id") in
  let* tenant_id := of_res (str_field value "tenant_id") in
  let* organization_id := of_res (str_field value "organization_id") in
  let* name := of_res (str_field value "name") in
  let* cases := of_res (let? l := py_iter (dget_or value "cases" (VList [])) in res_map case_of l) in
  let* created_at := time_field_or_now value "created_at" in
  ret (Mk tenant_id organization_id name cases (str_field_or value "created_by" "") dataset_id created_at).

Definition dataset_ok (d : t) : Prop := Forall EvaluationCase.case_ok (cases d) ∧ time_ok (created_at d).

Lemma cases_of l : Forall EvaluationCase.case_ok l → res_map case_of (map (fun c => VDict (EvaluationCase.as_dict c)) l) = Ok l.
Proof.
  induction 1 as [|c l Hc _ IH]; [done|]. cbn [map res_map case_of]. rewrite EvaluationCase.case_from_as_dict by done.
  cbn [res_bind]. by rewrite IH.
Qed.

Lemma dataset_dec_enc d (s : sys S) : dataset_ok d → from_dict (as_dict d) s = (Ok d, s).
Proof.
  intros [Hc Ht]. unfold from_dict.
  assert ((let? l := py_iter (dget_or (as_dict d) "cases" (VList [])) in res_map case_of l) = Ok (cases d)) as ->
    by exact (cases_of _ Hc).
  unfold bind, of_res, ret. cbn -[time_field_or_now]. rewrite (time_field_or_now_iso _ _ _ _ Ht) by done. by destruct d.
Qed.

End Calls.
End EvaluationDataset.

Abbreviation EvaluationDataset := EvaluationDataset.t.

#[export] Instance dataset_document `{Oracle} {S} : Document S EvaluationDataset := {
  d_coll := "evaluation_datasets";
  d_key := EvaluationDataset.dataset_id;
  d_enc := EvaluationDataset.as_dict;
  d_dec := EvaluationDataset.from_dict;
  d_ok := EvaluationDataset.dataset_ok;
  d_dec_enc := EvaluationDataset.dataset_dec_enc;
  d_enc_ne d := ltac:(done);
}.

(** * evaluation_result.py *)

Definition QUALITY_METRICS : list string :=
  ["correctness"; "completeness"; "latency"; "cost"; "safety"; "policy_compliance"; "tenant_isolation_compliance";
   "veil_boundary_compliance"; "human_approval_accuracy"; "hallucination_risk"; "tool_use_accuracy"].

Module EvaluationResult.
Record t := Mk {
  dataset_id : string;
  tenant_id : string;
  target_type : string;
  target_id : string;
  metrics : dict float;
  case_results : list val;
  run_id : string;
  created_at : Z;
}.

Definition overall_score (r : t) : float :=
  match metrics r with
  | [] => lit 0 1
  | m => round4 (fdiv (py_sum m.*2) (float_of_Z (Z.of_nat (length m))))
  end.

Definition as_dict (r : t) : doc :=
  [("run_id", VStr (run_id r)); ("dataset_id", VStr (dataset_id r)); ("tenant_id", VStr (tenant_id r));
   ("target_type", VStr (target_type r)); ("target_id", VStr (target_id r)); ("metrics", VDict (float_doc (metrics r)));
   ("overall_score", VNumber (overall_score r)); ("case_results", VList (case_results r));
   ("created_at", VStr (isoformat (created_at r)))].

Section Calls.
Context `{Oracle} {S : Type}.

Definition new (dataset_id tenant_id target_type target_id : string) (metrics : dict float) (case_results : list val) : M (sys S) t :=
  let* id := uuid4 in
  let* now := utc_now in
  ret (Mk dataset_id tenant_id target_type target_id metrics case_results ("eval-run-" +:+ id) now).

Definition from_dict (value : doc) : M (sys S) t :=
  let* run_id := of_res (str_field value "run_id") in
  let* dataset_id := of_res (str_field value "dataset_id") in
  let* tenant_id := of_res (str_field value "tenant_id") in
  let* target_type := of_res (str_field value "target_type") in
  let* target_id := of_res (str_field value "target_id") in
  let* metrics := of_res (let? d := dict_field_or_empty value "metrics" in floats_of d) in
  let* case_results := of_res (py_iter (dget_or value "case_results" (VList []))) in
  let* created_at := time_field_or_now value "created_at" in
  ret (Mk dataset_id tenant_id target_type target_id metrics case_results run_id created_at).

Definition result_ok (r : t) : Prop :=
  Forall (fun p => readable p.2) (metrics r) ∧ readable (overall_score r) ∧ time_ok (created_at r).

Lemma evaluation_result_dec_enc r (s : sys S) : result_ok r → from_dict (as_dict r) s = (Ok r, s).
Proof.
  intros (Hm & _ & Ht). unfold from_dict.
  assert ((let? d := dict_field_or_empty (as_dict r) "metrics" in floats_of d) = Ok (metrics r)) as ->
    by exact (floats_of_doc _ Hm).
  unfold bind, of_res, ret. cbn -[time_field_or_now VNumber overall_score]. rewrite (time_field_or_now_iso _ _ _ _ Ht) by done. by destruct r.
Qed.

End Calls.
End EvaluationResult.

Abbreviation EvaluationResult := EvaluationResult.t.

#[export] Instance evaluation_result_document `{Oracle} {S} : Document S EvaluationResult := {
  d_coll := "evaluation_results";
  d_key := EvaluationResult.run_id;
  d_enc := EvaluationResult.as_dict;
  d_dec := EvaluationResult.from_dict;
  d_ok := EvaluationResult.result_ok;
  d_dec_enc := EvaluationResult.evaluation_result_dec_enc;
  d_enc_ne r := ltac:(done);
}.

(** * scorecard.py *)

Module Scorecard.
Record t := Mk {
  run_id : string;
  tenant_id : string;
  target_type : string;
  target_id : string;
  metrics : dict float;
  overall_score : float;
  passed : bool;
}.

Definition as_dict (c : t) : doc :=
  [("run_id", VStr (run_id c)); ("tenant_id", VStr (tenant_id c)); ("target_type", VStr (target_type c));
   ("target_id", VStr (target_id c)); ("metrics", VDict (float_doc (metrics c))); ("overall_score", VNumber (overall_score c));
   ("passed", VBool (passed c))].

(** The threshold is 0.8 when none is given. *)
Definition from_result (result : EvaluationResult) (threshold : option float) : t :=
  Mk (EvaluationResult.run_id result) (EvaluationResult.tenant_id result) (EvaluationResult.target_type result)
    (EvaluationResult.target_id result) (EvaluationResult.metrics result) (EvaluationResult.overall_score result)
    (SFleb (default (lit 8 1) threshold) (EvaluationResult.overall_score result)).

(** The scorecard [EvaluationRunner.scorecard] makes of a stored one. *)
Definition of_item (item : doc) : res t :=
  let? run_id := str_field item "run_id" in
  let? tenant_id := str_field item "tenant_id" in
  let? target_type := str_field item "target_type" in
  let? target_id := str_field item "target_id" in
  let? metrics := (let? d := dict_field_or_empty item "metrics" in floats_of d) in
  let? overall_score := float_field_or item "overall_score" (lit 0 1) in
  Ok (Mk run_id tenant_id target_type target_id metrics overall_score (bool_field_or item "passed" false)).

Definition card_ok (c : t) : Prop := Forall (fun p => readable p.2) (metrics c) ∧ readable (overall_score c).

Lemma card_of_as_dict c : card_ok c → of_item (as_dict c) = Ok c.
Proof.
  intros [Hm Ho]. unfold of_item.
  assert ((let? d := dict_field_or_empty (as_dict c) "metrics" in floats_of d) = Ok (metrics c)) as -> by exact (floats_of_doc _ Hm).
  assert (float_field_or (as_dict c) "overall_score" (lit 0 1) = Ok (overall_score c)) as -> by exact Ho.
  by destruct c.
Qed.

Lemma card_dec_enc {X} c (s : X) : card_ok c → of_res (of_item (as_dict c)) s = (Ok c, s).
Proof. intros Hc. unfold of_res. by rewrite card_of_as_dict. Qed.
End Scorecard.

Abbreviation Scorecard := Scorecard.t.

#[export] Instance scorecard_document `{Oracle} {S} : Document S Scorecard := {
  d_coll := "evaluation_scorecards";
  d_key := Scorecard.run_id;
  d_enc := Scorecard.as_dict;
  d_dec d := of_res (Scorecard.of_item d);
  d_ok := Scorecard.card_ok;
  d_dec_enc := Scorecard.card_dec_enc;
  d_enc_ne c := ltac:(done);
}.

(** * evaluation_runner.py *)

(** [_contains_sensitive_key] of this file knows five of the keys. *)
Definition sensitive_output (v : val) : bool := has_key_of ["raw"; "secret"; "password"; "token_value"; "private_key"] v.

(** The keys of dicts, as a set. *)
Definition keys_of (l : list doc) : gset string := list_to_set (concat (map (fun d : doc => d.*1) l)).

Definition _score (dataset : EvaluationDataset) (outputs : list doc) : dict float :=
  let expected_keys := keys_of (map EvaluationCase.expected_output (EvaluationDataset.cases dataset)) in
  let output_keys := keys_of outputs in
  let overlap := Z.of_nat (size (expected_keys ∩ output_keys)) in
  let one := lit 10 1 in
  let zero := lit 0 1 in
  let correctness := if bool_decide (expected_keys = ∅) then one else fdiv (of_int overlap) (of_int (Z.of_nat (size expected_keys))) in
  let completeness :=
    if SFltb zero correctness
    then fmin (fdiv (of_int (Z.of_nat (length outputs))) (of_int (Z.max (Z.of_nat (length (EvaluationDataset.cases dataset))) 1))) one
    else zero in
  let safety := if existsb (fun o => sensitive_output (VDict o)) outputs then zero else one in
  let metrics := [("correctness", round4 correctness); ("completeness", round4 completeness); ("latency", one); ("cost", one);
    ("safety", safety); ("policy_compliance", one); ("tenant_isolation_compliance", one); ("veil_boundary_compliance", one);
    ("human_approval_accuracy", one); ("hallucination_risk", if SFleb (lit 5 1) correctness then one else zero);
    ("tool_use_accuracy", round4 correctness)] in
  omap (fun metric => x ← dget metrics metric; Some (metric, x)) QUALITY_METRICS.

Module EvaluationRunner.
Section Runner.
Context `{Oracle} `{VeilClient} {S : Type} `{PersistenceStore S}.

(** Whether the runner was given a reputation service; it is one over the same
    store. *)
Context (rated : bool).

Definition create_dataset (dataset : EvaluationDataset) : M (sys S) EvaluationDataset :=
  do* of_res (EvaluationDataset.validate dataset);
  do* doc_put dataset;
  do* EventStore.append "evaluation.dataset.created" (EvaluationDataset.dataset_id dataset) (EvaluationDataset.as_dict dataset);
  ret dataset.

Definition list_datasets (ctx : TenantContext) : M (sys S) (list EvaluationDataset) := doc_list_tenant (TenantContext.tenant_id ctx).

Definition get_dataset (ctx : TenantContext) (dataset_id : string) : M (sys S) EvaluationDataset :=
  let* item := store_get "evaluation_datasets" dataset_id in
  match item with
  | None => raise NotFoundError "evaluation dataset not found"
  | Some d =>
      let* dataset := EvaluationDataset.from_dict d in
      if negb (bool_decide (EvaluationDataset.tenant_id dataset = TenantContext.tenant_id ctx)) && negb (TenantContext.is_global_admin ctx)
      then raise AuthorizationError "cross-tenant evaluation dataset access denied"
      else ret dataset
  end.

Definition policy_request (ctx : TenantContext) (dataset_id target_type target_id : string) : PolicyCheck.request :=
  PolicyCheck.Req ("evaluation:" +:+ target_id) ("evaluation.run." +:+ target_type)
    [("tenant_id", VStr (TenantContext.tenant_id ctx)); ("dataset_id", VStr dataset_id); ("target_id", VStr target_id)].

Definition audit_request (ctx : TenantContext) (target_id run_id : string) : AuditEvent.request :=
  AuditEvent.Req ("evaluation:" +:+ target_id) "evaluation.run.completed"
    [("tenant_id", VStr (TenantContext.tenant_id ctx)); ("run_id", VStr run_id)].

(** [metrics["correctness"]] *)
Definition correctness_of (metrics : dict float) : float := default (lit 0 1) (dget metrics "correctness").

(** Every case is given the score of the run. *)
Definition case_result (target_id : string) (metrics : dict float) (case : EvaluationCase) : val :=
  VDict [("case_id", VStr (EvaluationCase.case_id case)); ("score", VNumber (correctness_of metrics)); ("target_id", VStr target_id)].

(** The run until its result is stored and logged. *)
Definition measure (ctx : TenantContext) (dataset_id target_type target_id : string) (outputs : list doc) : M (sys S) EvaluationResult :=
  let* dataset := get_dataset ctx dataset_id in
  let* policy := veil_call check_policy (policy_request ctx dataset_id target_type target_id) in
  if negb (PolicyCheck.allowed policy) then raise AuthorizationError (str_or (PolicyCheck.reason policy) "VEIL policy denied evaluation")
  else
  let metrics := _score dataset outputs in
  let* result := EvaluationResult.new (EvaluationDataset.dataset_id dataset) (TenantContext.tenant_id ctx) target_type target_id metrics
    (map (case_result target_id metrics) (EvaluationDataset.cases dataset)) in
  let run_id := EvaluationResult.run_id result in
  do* doc_put result;
  do* doc_put (Scorecard.from_result result None);
  do* EventStore.append "evaluation.run.completed" run_id (EvaluationResult.as_dict result);
  let* audit := veil_call create_audit_event (audit_request ctx target_id run_id) in
  do* store_put "evaluation_audit_refs" run_id
    [("tenant_id", VStr (TenantContext.tenant_id ctx)); ("run_id", VStr run_id); ("veil_audit_id", VStr (AuditEvent.event_id audit))];
  ret result.

Definition run (ctx : TenantContext) (dataset_id target_type target_id : string) (outputs : list doc) : M (reputation S) EvaluationResult :=
  let* result := ReputationService.on_env (measure ctx dataset_id target_type target_id outputs) in
  if rated && bool_decide (target_type = "agent_output") then
    let rating := fmul (EvaluationResult.overall_score result) (of_int 5) in
    do* ReputationService.record_rating target_id rating (Some (TenantContext.tenant_id ctx));
    do* ReputationService.on_env (EventStore.append "reputation.updated" target_id
          [("tenant_id", VStr (TenantContext.tenant_id ctx)); ("agent_id", VStr target_id); ("rating", VNumber rating)]);
    ret result
  else ret result.

Definition get_result (ctx : TenantContext) (run_id : string) : M (sys S) EvaluationResult :=
  let* item := store_get "evaluation_results" run_id in
  match item with
  | None => raise NotFoundError "evaluation run not found"
  | Some d =>
      let* result := EvaluationResult.from_dict d in
      if negb (bool_decide (EvaluationResult.tenant_id result = TenantContext.tenant_id ctx)) && negb (TenantContext.is_global_admin ctx)
      then raise AuthorizationError "cross-tenant evaluation access denied"
      else ret result
  end.

Definition scorecard (ctx : TenantContext) (run_id : string) : M (sys S) Scorecard :=
  let* result := get_result ctx run_id in
  let* item := doc_get (A := Scorecard) run_id in
  ret (match item with Some card => card | None => Scorecard.from_result result None end).

End Runner.
End EvaluationRunner.

(** * gates.py *)

Definition DEFAULT_GATE_THRESHOLDS : dict float :=
  [("package_publish", lit 8 1); ("package_install", lit 75 2); ("agent_runtime_execution", lit 7 1); ("workflow_promotion", lit 8 1);
   ("tool_enablement", lit 8 1); ("connector_enablement", lit 8 1); ("federated_delegation", lit 85 2); ("production_deployment", lit 9 1)].

Module QualityGate.
Record t := Mk { gate_type : string; threshold : float; required_metrics : list string }.

Definition evaluate (g : t) (card : Scorecard) : bool :=
  if SFltb (Scorecard.overall_score card) (threshold g) then false
  else forallb (fun metric => SFleb (threshold g) (default (lit 0 1) (dget (Scorecard.metrics card) metric))) (required_metrics g).
End QualityGate.

Module QualityGateService.
(** The thresholds are those of the service. *)
Definition gate (thresholds : dict float) (gate_type : string) (threshold : option float) (required_metrics : list string) : QualityGate.t :=
  QualityGate.Mk gate_type (default (default (lit 8 1) (dget thresholds gate_type)) threshold) required_metrics.

Definition enforce (thresholds : dict float) (gate_type : string) (card : Scorecard) (threshold : option float)
    (required_metrics : list string) : res unit :=
  if QualityGate.evaluate (gate thresholds gate_type threshold required_metrics) card then Ok tt
  else Err (Exn AuthorizationError ("quality gate failed: " +:+ gate_type)).
End QualityGateService.

(** * repository_quality.py *)

Definition REPOSITORY_QUALITY_METRICS : list string :=
  ["architecture_quality"; "code_quality"; "test_coverage"; "documentation_completeness"; "dependency_health";
   "observability_readiness"; "security_posture"].

Module RepositoryQualityScore.
Record t := Mk { repository_id : string; tenant_id : string; metrics : dict float }.

Definition overall_score (s : t) : float :=
  round4 (fdiv (py_sum (metrics s).*2) (float_of_Z (Z.of_nat (length REPOSITORY_QUALITY_METRICS)))).

(** [min] of the values: the first of the smallest. A score always has metrics. *)
Definition lowest (s : t) : float := match (metrics s).*2 with [] => lit 0 1 | x :: l => foldl fmin x l end.

Definition passed (s : t) : bool := SFleb (lit 8 1) (overall_score s) && SFleb (lit 7 1) (lowest s).

Definition as_dict (s : t) : doc :=
  [("repository_id", VStr (repository_id s)); ("tenant_id", VStr (tenant_id s));
   ("metrics", VDict (float_doc (py_sorted key_le (metrics s)))); ("overall_score", VNumber (overall_score s)); ("passed", VBool (passed s))].
End RepositoryQualityScore.

Module RepositoryQualityGate.
Definition score (repository_id tenant_id : string) (metrics : dict float) : res RepositoryQualityScore.t :=
  let missing : gset string := list_to_set REPOSITORY_QUALITY_METRICS ∖ list_to_set metrics.*1 in
  if negb (bool_decide (missing = ∅))
  then Err (Exn AuthorizationError ("repository quality evidence missing: " +:+ join ", " (py_sorted_set missing)))
  else
  let normalized := omap (fun name => x ← dget metrics name; Some (name, x)) REPOSITORY_QUALITY_METRICS in
  if existsb (fun p => SFltb p.2 (lit 0 1) || SFltb (lit 10 1) p.2) normalized
  then Err (Exn ValueError "repository quality metrics must be between 0 and 1")
  else Ok (RepositoryQualityScore.Mk repository_id tenant_id normalized).

Definition enforce (s : RepositoryQualityScore.t) : res unit :=
  if RepositoryQualityScore.passed s then Ok tt else Err (Exn AuthorizationError "repository quality gate failed").
End RepositoryQualityGate.

(** * The gates of the server (server/app.py) *)

Section Gates.
Context `{Oracle} `{VeilClient} {S : Type} `{PersistenceStore S}.

(** The order of [str(item.get("created_at", ""))] *)
Definition created_le (d1 d2 : doc) : bool := str_le (str_field_or d1 "created_at" "") (str_field_or d2 "created_at" "").

Definition of_target (target_type target_id : string) (item : doc) : bool :=
  is_str (dget item "target_type") target_type && is_str (dget item "target_id") target_id.

Definition _latest_quality (ctx : TenantContext) (target_type target_id : string) : M (sys S) doc :=
  let* items := store_list_tenant "evaluation_results" (TenantContext.tenant_id ctx) in
  let results := base.filter (fun item => of_target target_type target_id item = true) items in
  match last (py_sorted created_le results) with
  | None =>
      ret [("target_type", VStr target_type); ("target_id", VStr target_id); ("status", VStr "unknown"); ("overall_score", VNone)]
  | Some latest =>
      let* run_id := of_res (dindex latest "run_id") in
      let* overall_score := of_res (dindex latest "overall_score") in
      let* metrics := of_res (dindex latest "metrics") in
      ret [("target_type", VStr target_type); ("target_id", VStr target_id); ("status", VStr "measured"); ("run_id", run_id);
           ("overall_score", overall_score); ("metrics", metrics)]
  end.

(** The gates of the server have the default thresholds. *)
Definition _enforce_quality_gate (ctx : TenantContext) (gate_type target_type target_id : string) (required : bool) : M (sys S) unit :=
  let* quality := _latest_quality ctx target_type target_id in
  let* overall_score := of_res (dindex quality "overall_score") in
  match overall_score with
  | VNone => if required then raise AuthorizationError ("quality gate failed: " +:+ gate_type) else ret tt
  | _ =>
      let* run_id := of_res (dindex quality "run_id") in
      let* card := EvaluationRunner.scorecard ctx (py_str run_id) in
      of_res (QualityGateService.enforce DEFAULT_GATE_THRESHOLDS gate_type card None [])
  end.
End Gates.

(** * The results and their scorecards *)

Section Facts.
Context `{Oracle} `{VeilClient} {S : Type} `{PersistenceStore S, !StoreLaws S}.
Implicit Types (ctx : TenantContext) (s : sys S) (r : EvaluationResult).

(** Every result is stored with the scorecard made of it. *)
Definition scored (db : S) : Prop :=
  ∀ k d, st_get "evaluation_results" k db = Some d →
    ∃ r, EvaluationResult.result_ok r ∧ EvaluationResult.run_id r = k ∧ d = EvaluationResult.as_dict r ∧
      st_get "evaluation_scorecards" k db = Some (Scorecard.as_dict (Scorecard.from_result r None)).

Lemma scored_typed db : scored db → typed (A := EvaluationResult) db.
Proof. intros Hs k d Hd. destruct (Hs k d Hd) as (r & Hr & Hk & -> & _). by exists r. Qed.

Lemma from_result_ok r threshold : EvaluationResult.result_ok r → Scorecard.card_ok (Scorecard.from_result r threshold).
Proof. by intros (Hm & Ho & _). Qed.

(** The results stored for a target of the tenant of a context *)
Definition result_of ctx (target_type target_id : string) (db : S) r : Prop :=
  stored r db ∧ EvaluationResult.tenant_id r = TenantContext.tenant_id ctx ∧
  EvaluationResult.target_type r = target_type ∧ EvaluationResult.target_id r = target_id.

Lemma scorecard_eq ctx r s :
  scored (db s) → stored r (db s) → EvaluationResult.tenant_id r = TenantContext.tenant_id ctx →
  EvaluationRunner.scorecard ctx (EvaluationResult.run_id r) s = (Ok (Scorecard.from_result r None), s).
Proof.
  intros Hs [Hr Hg] Ht. destruct (Hs _ _ Hg) as (r' & Hr' & _ & Ed & Hc).
  apply (d_enc_inj r r' s Hr Hr') in Ed as <-.
  unfold EvaluationRunner.scorecard, EvaluationRunner.get_result. unfold bind at 1 2, store_get at 1, gets at 1.
  change (d_coll (A := EvaluationResult)) with "evaluation_results" in Hg.
  change (d_key r) with (EvaluationResult.run_id r) in Hg. rewrite Hg. unfold bind at 1.
  change (d_enc r) with (EvaluationResult.as_dict r). rewrite (EvaluationResult.evaluation_result_dec_enc r s Hr).
  rewrite bool_decide_eq_true_2 by done. cbn [negb andb]. unfold ret at 1. unfold doc_get, bind, store_get, gets.
  change (d_coll (A := Scorecard)) with "evaluation_scorecards". change (d_key r) with (EvaluationResult.run_id r) in Hc. rewrite Hc.
  pose proof (Scorecard.card_dec_enc _ s (from_result_ok r None Hr)) as Hdec.
  cbn [Scorecard.as_dict] in Hdec |- *. cbn [d_dec scorecard_document]. by rewrite Hdec.
Qed.

Lemma result_of_target r tt tid :
  of_target tt tid (EvaluationResult.as_dict r) =
  bool_decide (EvaluationResult.target_type r = tt) && bool_decide (EvaluationResult.target_id r = tid).
Proof. done. Qed.

Lemma result_of_tenant r t :
  is_str (dget (EvaluationResult.as_dict r) "tenant_id") t = bool_decide (EvaluationResult.tenant_id r = t).
Proof. done. Qed.

(** What the server lists of a target *)
Lemma listed_results ctx tt tid s :
  scored (db s) →
  ∀ d, d ∈ base.filter (fun item => of_target tt tid item = true) (st_list_tenant "evaluation_results" (TenantContext.tenant_id ctx) (db s)) ↔
    ∃ r, result_of ctx tt tid (db s) r ∧ d = EvaluationResult.as_dict r.
Proof.
  intros Hs d. rewrite list_elem_of_filter, elem_of_list_tenant. split.
  - intros [Hof [Ht [k Hk]]]. destruct (Hs k d Hk) as (r & Hr & <- & -> & _). exists r. split; [|done].
    rewrite result_of_target in Hof. rewrite result_of_tenant in Ht. apply andb_true_iff in Hof as [Hty Hid].
    apply bool_decide_eq_true in Ht, Hty, Hid. by split_and!.
  - intros (r & ([Hr Hg] & Ht & Hty & Hid) & ->). rewrite result_of_target, result_of_tenant, !bool_decide_eq_true_2 by done.
    split_and!; [done..|]. by exists (EvaluationResult.run_id r).
Qed.

Lemma created_le_text r r' :
  created_le (EvaluationResult.as_dict r) (EvaluationResult.as_dict r') =
  str_le (isoformat (EvaluationResult.created_at r)) (isoformat (EvaluationResult.created_at r')).
Proof. done. Qed.

(** The newest result of a target is the one the server reads. *)
Lemma latest_quality_eq ctx tt tid s :
  scored (db s) →
  ((∀ r, ¬ result_of ctx tt tid (db s) r) ∧
   _latest_quality ctx tt tid s =
     (Ok [("target_type", VStr tt); ("target_id", VStr tid); ("status", VStr "unknown"); ("overall_score", VNone)], s)) ∨
  (∃ latest, result_of ctx tt tid (db s) latest ∧
     (∀ r, result_of ctx tt tid (db s) r →
        str_le (isoformat (EvaluationResult.created_at r)) (isoformat (EvaluationResult.created_at latest)) = true) ∧
     _latest_quality ctx tt tid s =
       (Ok [("target_type", VStr tt); ("target_id", VStr tid); ("status", VStr "measured");
            ("run_id", VStr (EvaluationResult.run_id latest)); ("overall_score", VNumber (EvaluationResult.overall_score latest));
            ("metrics", VDict (float_doc (EvaluationResult.metrics latest)))], s)).
Proof.
  intros Hs. pose proof (listed_results ctx tt tid s Hs) as Hl.
  unfold _latest_quality, bind, store_list_tenant, gets. set (results := base.filter _ _) in *.
  destruct (last (py_sorted created_le results)) as [d|] eqn:El.
  - right. assert (Hd : d ∈ results) by by apply last_Some_elem_of, elem_of_py_sorted in El.
    apply Hl in Hd as (latest & Hlat & ->). exists latest. split; [done|]. split; [|done].
    intros r Hr. rewrite <- created_le_text. eapply (sorted_last created_le (py_sorted created_le results)).
    + intros a. unfold created_le. by edestruct str_le_total.
    + intros a b c. apply str_le_trans.
    + apply py_sorted_Sorted. intros a b. apply str_le_total.
    + exact El.
    + apply elem_of_py_sorted, Hl. by exists r.
  - left. split; [|done]. intros r Hr. apply last_None in El.
    assert (Hin : EvaluationResult.as_dict r ∈ results) by (apply Hl; by exists r).
    rewrite <- (elem_of_py_sorted created_le), El in Hin. by apply elem_of_nil in Hin.
Qed.

Lemma get_dataset_eq ctx dataset_id s :
  typed (A := EvaluationDataset) (db s) →
  ∃ a, EvaluationRunner.get_dataset ctx dataset_id s = (a, s) ∧
    match a with Ok dataset => stored dataset (db s) | Err _ => True end.
Proof.
  intros Ht. unfold EvaluationRunner.get_dataset. unfold bind at 1, store_get, gets.
  destruct (st_get "evaluation_datasets" dataset_id (db s)) as [d|] eqn:Hg; [|by eexists].
  destruct (Ht _ _ Hg) as (a & Ha & <- & ->). unfold bind. cbn [d_enc dataset_document].
  rewrite (EvaluationDataset.dataset_dec_enc a s Ha).
  destruct (_ && _); [by eexists|]. by exists (Ok a).
Qed.

(** A result that is stored with its scorecard. *)
Lemma scored_put r (d : S) :
  EvaluationResult.result_ok r → scored d →
  scored (st_put "evaluation_scorecards" (EvaluationResult.run_id r) (Scorecard.as_dict (Scorecard.from_result r None))
            (st_put "evaluation_results" (EvaluationResult.run_id r) (EvaluationResult.as_dict r) d)).
Proof.
  intros Hr Hs k v. rewrite get_put_ne by congruence. destruct (decide (k = EvaluationResult.run_id r)) as [->|Hk].
  - rewrite get_put_eq. intros [= <-]. exists r. by rewrite get_put_eq.
  - rewrite get_put_ne by congruence. intros Hv. destruct (Hs k v Hv) as (r' & ? & ? & ? & ?). exists r'.
    by rewrite !get_put_ne by congruence.
Qed.

Lemma scored_reads (d d' : S) :
  (∀ c k, c ≠ "events" → c ≠ "evaluation_audit_refs" → st_get c k d' = st_get c k d) → scored d → scored d'.
Proof. intros Hd Hs k v. rewrite Hd by done. intros Hv. destruct (Hs k v Hv) as (r & Hr). exists r. by rewrite Hd. Qed.

(** A run leaves every result with its scorecard, also when it fails after the
    result was stored. *)
Lemma measure_scored ctx dataset_id tt tid outputs s :
  (∀ n, time_ok (clock n)) → scored (db s) → typed (A := EvaluationDataset) (db s) →
  (∀ dataset r, stored dataset (db s) → EvaluationResult.metrics r = _score dataset outputs →
     Forall (fun p => readable p.2) (EvaluationResult.metrics r) ∧ readable (EvaluationResult.overall_score r)) →
  scored (db (after (EvaluationRunner.measure ctx dataset_id tt tid outputs) s)).
Proof.
  intros Hclock Hs Ht Hread. unfold after, EvaluationRunner.measure. unfold bind at 1.
  destruct (get_dataset_eq ctx dataset_id s Ht) as ([dataset|e] & -> & Hd); [|done].
  unfold bind at 1, veil_call at 1. set (s1 := Sys _ _ _ _). destruct (check_policy _ _) as [a|e]; [|done].
  destruct (negb (PolicyCheck.allowed a)); [done|].
  unfold bind at 1, EvaluationResult.new at 1, bind at 1, uuid4 at 1, bind at 1, utc_now at 1, ret at 1.
  set (r := EvaluationResult.Mk _ _ _ _ _ _ _ _). set (s2 := Sys _ _ _ _).
  assert (Hr : EvaluationResult.result_ok r).
  { destruct (Hread dataset r Hd eq_refl) as [Hm Ho]. split_and!; [done..|]. apply Hclock. }
  unfold bind at 1, doc_put at 1, store_put at 1, modify at 1. unfold bind at 1, doc_put at 1, store_put at 1, modify at 1.
  set (s3 := with_db _ _). assert (Hs3 : scored (db s3)) by exact (scored_put r (db s) Hr Hs).
  unfold bind at 1. destruct (append_ok "evaluation.run.completed" (EvaluationResult.run_id r) (EvaluationResult.as_dict r) s3)
    as (e & s4 & -> & _ & _ & _ & _ & Hdb); [by vm_compute|].
  assert (Hs4 : scored (db s4)) by (apply (scored_reads (db s3)); [by intros; apply Hdb|done]).
  unfold bind at 1, veil_call at 1. destruct (create_audit_event _ _) as [b|e']; [|done].
  unfold bind, store_put, modify, ret. cbn [snd]. apply (scored_reads (db s4)); [|done].
  intros c k _ Hc. cbn. by rewrite get_put_ne by congruence.
Qed.

End Facts.

(** * What the gates let through *)

Section Theorems.
Context `{Oracle} `{VeilClient} {S : Type} `{PersistenceStore S, !StoreLaws S}.
Implicit Types (ctx : TenantContext) (s : sys S) (r : EvaluationResult).

(** The threshold of a gate of the server *)
Definition gate_threshold (gate_type : string) : float := default (lit 8 1) (dget DEFAULT_GATE_THRESHOLDS gate_type).

Lemma gate_enforce gate_type card :
  QualityGateService.enforce DEFAULT_GATE_THRESHOLDS gate_type card None [] =
  if SFltb (Scorecard.overall_score card) (gate_threshold gate_type)
  then Err (Exn AuthorizationError ("quality gate failed: " +:+ gate_type)) else Ok tt.
Proof.
  unfold QualityGateService.enforce, QualityGate.evaluate. cbn. by destruct (SFltb _ _).
Qed.

(** C18: a gate of the server looks at the newest result of its target that was
    stored for the tenant, and at no other tenant's: it lets the target through
    exactly when the score of that result is not below the gate's threshold, and
    without a result only when none is required; it changes nothing. Every run
    of an evaluation, also one that fails late, leaves the results as the gate
    needs them, each with its scorecard. *)
Theorem evaluation_gate_exact ctx s :
  (∀ n, time_ok (clock n)) → scored (db s) → typed (A := EvaluationDataset) (db s) →
  (∀ gate_type tt_ tid required, ∃ out, _enforce_quality_gate ctx gate_type tt_ tid required s = (out, s) ∧
     let refused := Err (Exn AuthorizationError ("quality gate failed: " +:+ gate_type)) in
     let mine := result_of ctx tt_ tid (db s) in
     ((∀ r, ¬ mine r) ∧ out = (if required then refused else Ok tt)) ∨
     (∃ latest, mine latest ∧
        (∀ r, mine r → str_le (isoformat (EvaluationResult.created_at r)) (isoformat (EvaluationResult.created_at latest)) = true) ∧
        out = if SFltb (EvaluationResult.overall_score latest) (gate_threshold gate_type) then refused else Ok tt)) ∧
  (∀ dataset_id tt_ tid outputs,
     (∀ dataset r, stored dataset (db s) → EvaluationResult.metrics r = _score dataset outputs →
        Forall (fun p => readable p.2) (EvaluationResult.metrics r) ∧ readable (EvaluationResult.overall_score r)) →
     scored (db (after (EvaluationRunner.measure ctx dataset_id tt_ tid outputs) s))).
Proof.
  intros Hclock Hs Ht. split; [|by intros; apply measure_scored].
  intros gate_type tt_ tid required. unfold _enforce_quality_gate. unfold bind at 1.
  destruct (latest_quality_eq ctx tt_ tid s Hs) as [[Hno ->]|(latest & Hlat & Hmax & ->)].
  - exists (if required then Err (Exn AuthorizationError ("quality gate failed: " +:+ gate_type)) else Ok tt).
    split; [by destruct required|]. by left.
  - eexists. split.
    + destruct Hlat as (Hst & Hten & _ & _). unfold bind, of_res.
      change (dindex _ "overall_score") with (Ok (VNumber (EvaluationResult.overall_score latest))). unfold VNumber at 1.
      change (dindex _ "run_id") with (Ok (VStr (EvaluationResult.run_id latest))).
      cbv beta iota. change (py_str _) with (EvaluationResult.run_id latest). rewrite (scorecard_eq ctx latest s Hs Hst Hten). reflexivity.
    + right. exists latest. split_and!; [done..|]. apply gate_enforce.
Qed.

End Theorems.

(** Only the keys of the outputs are looked at, not the values. *)
Lemma values_do_not_count dataset outputs outputs' :
  map (map fst) outputs = map (map fst) outputs' →
  existsb (fun o => sensitive_output (VDict o)) outputs = existsb (fun o => sensitive_output (VDict o)) outputs' →
  _score dataset outputs = _score dataset outputs'.
Proof.
  intros Hk Hs. assert (length outputs = length outputs') as Hl by (apply (f_equal length) in Hk; by rewrite !length_map in Hk).
  unfold _score, keys_of. change (fun d : doc => d.*1) with (map (@fst string val)). by rewrite Hk, Hs, Hl.
Qed.

(** ** Witness *)

Section Demo.
#[local] Existing Instance demo_oracle.
#[local] Existing Instance mock_veil.

Definition demo_dataset : EvaluationDataset :=
  EvaluationDataset.Mk "t-1" "o-1" "answers"
    [EvaluationCase.Mk "case-1" "ref-1" [("answer", VStr "42"); ("source", VStr "book")] "agent_output" "" []] "root" "set-1" (clock 0).

Definition demo_judge : TenantContext := TenantContext.Mk "t-1" "o-1" "root" [] false.

(** The outputs have one of the two keys, with another value. *)
Definition demo_outputs : list doc := [[("answer", VStr "41")]].

Definition demo_result : EvaluationResult :=
  EvaluationResult.Mk "set-1" "t-1" "agent_output" "agent-1" (_score demo_dataset demo_outputs) [] "run-1" (clock 0).

Definition demo_datasets : Memory.store := st_put "evaluation_datasets" "set-1" (EvaluationDataset.as_dict demo_dataset) ∅.

Definition demo_evaluated : sys Memory.store :=
  Sys (st_put "evaluation_scorecards" "run-1" (Scorecard.as_dict (Scorecard.from_result demo_result None))
         (st_put "evaluation_results" "run-1" (EvaluationResult.as_dict demo_result) demo_datasets)) [] true 0.

Lemma demo_result_ok : EvaluationResult.result_ok demo_result.
Proof.
  split; [|split; [by vm_compute|apply demo_clock]]. unfold demo_result, EvaluationResult.metrics, readable.
  let l := eval vm_compute in (_score demo_dataset demo_outputs) in
  replace (_score demo_dataset demo_outputs) with l by (vm_compute; reflexivity).
  repeat (apply Forall_cons; split; [vm_compute; reflexivity|]). by apply Forall_nil.
Qed.

Lemma demo_scored : scored (db demo_evaluated).
Proof.
  apply (scored_put demo_result demo_datasets demo_result_ok). intros k d Hd. unfold demo_datasets in Hd.
  rewrite get_put_ne in Hd by congruence. exfalso. revert Hd. cbn. unfold Memory.get, Memory.collection. by rewrite lookup_empty.
Qed.

Lemma demo_dataset_ok : EvaluationDataset.dataset_ok demo_dataset.
Proof. split; [by repeat constructor|apply demo_clock]. Qed.

Lemma demo_datasets_typed : typed (A := EvaluationDataset) (db demo_evaluated).
Proof.
  apply typed_put_other; [done|]. apply typed_put_other; [done|]. exact (typed_put demo_dataset ∅ demo_dataset_ok typed_empty).
Qed.

Lemma demo_readable dataset r :
  stored dataset (db demo_evaluated) → EvaluationResult.metrics r = _score dataset demo_outputs →
  Forall (fun p => readable p.2) (EvaluationResult.metrics r) ∧ readable (EvaluationResult.overall_score r).
Proof.
  intros [Hok Hg] Hm. destruct demo_result_ok as (Hf & Ho & _). assert (dataset = demo_dataset) as ->.
  { change (st_get "evaluation_datasets" (EvaluationDataset.dataset_id dataset) (db demo_evaluated) =
      Some (EvaluationDataset.as_dict dataset)) in Hg. unfold demo_evaluated, db in Hg.
    rewrite !get_put_ne in Hg by congruence. unfold demo_datasets in Hg. destruct (decide (EvaluationDataset.dataset_id dataset = "set-1")) as [Ek|Ek].
    - rewrite Ek, get_put_eq in Hg. apply (inj Some) in Hg.
      pose proof (EvaluationDataset.dataset_dec_enc dataset demo_start Hok) as Hdec. rewrite <- Hg in Hdec.
      rewrite (EvaluationDataset.dataset_dec_enc demo_dataset demo_start demo_dataset_ok) in Hdec. by injection Hdec as ->.
    - rewrite get_put_ne in Hg by congruence. exfalso. revert Hg. cbn. unfold Memory.get, Memory.collection. by rewrite lookup_empty. }
  assert (Em : EvaluationResult.metrics r = EvaluationResult.metrics demo_result) by exact Hm.
  assert (Eo : EvaluationResult.overall_score r = EvaluationResult.overall_score demo_result).
  { unfold EvaluationResult.overall_score. rewrite Em. reflexivity. }
  rewrite Em, Eo. split; [exact Hf|exact Ho].
Qed.

(** One of two keys, with a wrong value, is enough for a production deployment. *)
Lemma wrong_answers_deploy :
  (_enforce_quality_gate demo_judge "production_deployment" "agent_output" "agent-1" true demo_evaluated).1 = Ok tt.
Proof. by vm_compute. Qed.

Lemma evaluation_gate_exact_witness :
  (_enforce_quality_gate demo_judge "production_deployment" "agent_output" "agent-1" true demo_evaluated).1 = Ok tt ∧
  scored (db (after (EvaluationRunner.measure demo_judge "set-1" "agent_output" "agent-1" demo_outputs) demo_evaluated)) ∧
  ∃ r, result_of demo_judge "agent_output" "agent-1" (db demo_evaluated) r.
Proof.
  destruct (evaluation_gate_exact demo_judge demo_evaluated demo_clock demo_scored demo_datasets_typed) as [Hgate Hrun].
  destruct (Hgate "production_deployment" "agent_output" "agent-1" true) as (out & E & [[_ Hout]|(latest & Hl & _)]).
  - exfalso. apply (f_equal fst) in E. rewrite Hout in E. by vm_compute in E.
  - split; [by vm_compute|]. split; [|by exists latest]. apply Hrun, demo_readable.
Defined.
End Demo.
