(* ===== verification/Feedback.v ===== *)
(** Feedback (agentfabric/feedback): what users say about a target, the
    corrections they give, and the signal made of each record. *)

From stdpp Require Import base option list strings gmap.
From Stdlib Require Import ZArith Lia SpecFloat.
From S2P Require Import Prelude PyVal PyTime Floats Store EventStore Documents Reputation Tenancy Evaluation.

Local Open Scope Z_scope.

(** * correction.py *)

Module Correction.
Record t := Mk {
  tenant_id : string;
  target_type : string;
  target_id : string;
  notes : string;
  correction_id : string;
  created_at : Z;
}.

Definition as_dict (c : t) : doc :=
  [("correction_id", VStr (correction_id c)); ("tenant_id", VStr (tenant_id c)); ("target_type", VStr (target_type c));
   ("target_id", VStr (target_id c)); ("notes", VStr (notes c)); ("created_at", VStr (isoformat (created_at c)))].

Section Calls.
Context `{Oracle} {S : Type}.

Definition new (tenant_id target_type target_id notes : string) : M (sys S) t :=
  let* id := uuid4 in
  let* now := utc_now in
  ret (Mk tenant_id target_type target_id notes ("correction-" +:+ id) now).

Definition from_dict (value : doc) : M (sys S) t :=
  let* correction_id := of_res (str_field value "correction_id") in
  let* tenant_id := of_res (str_field value "tenant_id") in
  let* target_type := of_res (str_field value "target_type") in
  let* target_id := of_res (str_field value "target_id") in
  let* created_at := time_field_or_now value "created_at" in
  ret (Mk tenant_id target_type target_id (str_field_or value "notes" "") correction_id created_at).

Lemma correction_dec_enc c (s : sys S) : time_ok (created_at c) → from_dict (as_dict c) s = (Ok c, s).
Proof.
  intros Ht. unfold from_dict, bind, of_res, ret. cbn -[time_field_or_now].
  rewrite (time_field_or_now_iso _ _ _ _ Ht) by done. by destruct c.
Qed.
End Calls.
End Correction.

Abbreviation Correction := Correction.t.

#[export] Instance correction_document `{Oracle} {S} : Document S Correction := {
  d_coll := "corrections";
  d_key := Correction.correction_id;
  d_enc := Correction.as_dict;
  d_dec := Correction.from_dict;
  d_ok c := time_ok (Correction.created_at c);
  d_dec_enc := Correction.correction_dec_enc;
  d_enc_ne c := ltac:(done);
}.

(** * feedback_record.py *)

Module FeedbackRecord.
Record t := Mk {
  tenant_id : string;
  organization_id : string;
  target_type : string;
  target_id : string;
  feedback_type : string;
  created_by : string;
  rating : option float;
  notes : string;
  correction_id : option string;
  feedback_id : string;
  created_at : Z;
}.

Definition opt_number (x : option float) : val := match x with Some x => VNumber x | None => VNone end.

Definition as_dict (r : t) : doc :=
  [("feedback_id", VStr (feedback_id r)); ("tenant_id", VStr (tenant_id r)); ("organization_id", VStr (organization_id r));
   ("target_type", VStr (target_type r)); ("target_id", VStr (target_id r)); ("feedback_type", VStr (feedback_type r));
   ("rating", opt_number (rating r)); ("notes", VStr (notes r)); ("correction_id", opt_str (correction_id r));
   ("created_by", VStr (created_by r)); ("created_at", VStr (isoformat (created_at r)))].

Section Calls.
Context `{Oracle} {S : Type}.

Definition new (tenant_id organization_id target_type target_id feedback_type created_by : string) (rating : option float)
    (notes : string) (correction_id : option string) : M (sys S) t :=
  let* id := uuid4 in
  let* now := utc_now in
  ret (Mk tenant_id organization_id target_type target_id feedback_type created_by rating notes correction_id
         ("feedback-" +:+ id) now).

Definition from_dict (value : doc) : M (sys S) t :=
  let* feedback_id := of_res (str_field value "feedback_id") in
  let* tenant_id := of_res (str_field value "tenant_id") in
  let* organization_id := of_res (str_field value "organization_id") in
  let* target_type := of_res (str_field value "target_type") in
  let* target_id := of_res (str_field value "target_id") in
  let* feedback_type := of_res (str_field value "feedback_type") in
  let* rating := of_res (opt_float_field value "rating") in
  let notes := str_field_or value "notes" "" in
  let correction_id := opt_str_field value "correction_id" in
  let created_by := str_field_or value "created_by" "" in
  let* created_at := time_field_or_now value "created_at" in
  ret (Mk tenant_id organization_id target_type target_id feedback_type created_by rating notes correction_id feedback_id created_at).

Definition feedback_ok (r : t) : Prop :=
  time_ok (created_at r) ∧ correction_id r ≠ Some "" ∧ (∀ x, rating r = Some x → readable x).

Lemma feedback_dec_enc r (s : sys S) : feedback_ok r → from_dict (as_dict r) s = (Ok r, s).
Proof.
  intros (Ht & Hc & Hr). unfold from_dict.
  assert (opt_float_field (as_dict r) "rating" = Ok (rating r)) as ->.
  { unfold opt_float_field. assert (dget (as_dict r) "rating" = Some (opt_number (rating r))) as -> by done.
    destruct (rating r) as [x|] eqn:E; [|done]. unfold opt_number, VNumber, py_float. by rewrite (Hr x eq_refl). }
  rewrite (opt_str_field_eq _ "correction_id" (correction_id r)) by done.
  unfold bind, of_res, ret. cbn -[time_field_or_now opt_number]. rewrite (time_field_or_now_iso _ _ _ _ Ht) by done. by destruct r.
Qed.
End Calls.
End FeedbackRecord.

Abbreviation FeedbackRecord := FeedbackRecord.t.

#[export] Instance feedback_document `{Oracle} {S} : Document S FeedbackRecord := {
  d_coll := "feedback";
  d_key := FeedbackRecord.feedback_id;
  d_enc := FeedbackRecord.as_dict;
  d_dec := FeedbackRecord.from_dict;
  d_ok := FeedbackRecord.feedback_ok;
  d_dec_enc := FeedbackRecord.feedback_dec_enc;
  d_enc_ne r := ltac:(done);
}.

(** * improvement_signal.py *)

Module ImprovementSignal.
Record t := Mk {
  tenant_id : string;
  target_type : string;
  target_id : string;
  signal_type : string;
  severity : string;
  summary : string;
}.

Definition as_dict (i : t) : doc :=
  [("tenant_id", VStr (tenant_id i)); ("target_type", VStr (target_type i)); ("target_id", VStr (target_id i));
   ("signal_type", VStr (signal_type i)); ("severity", VStr (severity i)); ("summary", VStr (summary i))].
End ImprovementSignal.

(** * feedback_service.py *)

Module FeedbackService.
Section Service.
Context `{Oracle} {S : Type} `{PersistenceStore S}.

(** Whether the service was given a reputation service; it is one over the same
    store. *)
Context (rated : bool).

Definition severe (record : FeedbackRecord) : bool :=
  bool_decide (FeedbackRecord.feedback_type record ∈ ["failure_report"; "abuse_report"]) ||
  match FeedbackRecord.rating record with Some x => SFltb x (of_int 3) | None => false end.

Definition _signal (record : FeedbackRecord) : ImprovementSignal.t :=
  ImprovementSignal.Mk (FeedbackRecord.tenant_id record) (FeedbackRecord.target_type record) (FeedbackRecord.target_id record)
    "quality_improvement" (if severe record then "high" else "low")
    (str_or (FeedbackRecord.notes record) (FeedbackRecord.feedback_type record)).

(** The correction of the payload is stored when it has notes. *)
Definition correct (ctx : TenantContext) (payload : doc) : M (sys S) (option string) :=
  if truthy (dget_or payload "correction_notes" VNone) then
    let* target_type := of_res (str_field payload "target_type") in
    let* target_id := of_res (str_field payload "target_id") in
    let* notes := of_res (str_field payload "correction_notes") in
    let* correction := Correction.new (TenantContext.tenant_id ctx) target_type target_id notes in
    do* doc_put correction;
    ret (Some (Correction.correction_id correction))
  else ret None.

(** [create] until its event is logged *)
Definition file (ctx : TenantContext) (payload : doc) : M (sys S) FeedbackRecord :=
  let* correction_id := correct ctx payload in
  let* target_type := of_res (str_field payload "target_type") in
  let* target_id := of_res (str_field payload "target_id") in
  let* rating := of_res (opt_float_field payload "rating") in
  let* record := FeedbackRecord.new (TenantContext.tenant_id ctx) (TenantContext.organization_id ctx) target_type target_id
                   (str_field_or payload "feedback_type" "human_rating") (TenantContext.principal_id ctx) rating
                   (str_field_or payload "notes" "") correction_id in
  do* doc_put record;
  do* store_put "improvement_signals" (FeedbackRecord.feedback_id record) (ImprovementSignal.as_dict (_signal record));
  do* EventStore.append "feedback.created" (FeedbackRecord.feedback_id record) (FeedbackRecord.as_dict record);
  ret record.

Definition create (ctx : TenantContext) (payload : doc) : M (reputation S) FeedbackRecord :=
  let* record := ReputationService.on_env (file ctx payload) in
  match FeedbackRecord.rating record with
  | Some x =>
      if rated && bool_decide (FeedbackRecord.target_type record = "agent")
      then do* ReputationService.record_rating (FeedbackRecord.target_id record) x (Some (TenantContext.tenant_id ctx)); ret record
      else ret record
  | None => ret record
  end.

Definition list (ctx : TenantContext) : M (sys S) (list FeedbackRecord) := doc_list_tenant (TenantContext.tenant_id ctx).

Definition get_correction (ctx : TenantContext) (correction_id : string) : M (sys S) Correction :=
  let* item := store_get "corrections" correction_id in
  match item with
  | None => raise KeyError (repr_str correction_id)
  | Some d =>
      let* correction := Correction.from_dict d in
      if negb (bool_decide (Correction.tenant_id correction = TenantContext.tenant_id ctx)) && negb (TenantContext.is_global_admin ctx)
      then raise AuthorizationError "cross-tenant correction access denied"
      else ret correction
  end.

End Service.
End FeedbackService.

(** * What is filed *)

Section Facts.
Context `{Oracle} {S : Type} `{PersistenceStore S, !StoreLaws S}.
Implicit Types (ctx : TenantContext) (s : sys S).
Import FeedbackService.

(** The notes of a payload are kept in a correction of the caller's tenant; what
    is refused has changed nothing. *)
Lemma correct_eq ctx payload s :
  (∀ n, time_ok (clock n)) →
  ∃ out s', correct ctx payload s = (out, s') ∧ events s' = events s ∧
    (∀ c k, c ≠ "corrections" → st_get c k (db s') = st_get c k (db s)) ∧
    match out with
    | Ok None => truthy (dget_or payload "correction_notes" VNone) = false ∧ s' = s
    | Ok (Some id) => id ≠ "" ∧ ∃ correction, stored correction (db s') ∧ Correction.correction_id correction = id ∧
        Correction.tenant_id correction = TenantContext.tenant_id ctx ∧
        Ok (Correction.notes correction) = str_field payload "correction_notes" ∧
        Ok (Correction.target_type correction) = str_field payload "target_type" ∧
        Ok (Correction.target_id correction) = str_field payload "target_id"
    | Err _ => s' = s
    end.
Proof.
  intros Hclock. unfold correct. destruct (truthy _) eqn:E; [|do 2 eexists; split; [reflexivity|done]].
  unfold bind at 1, of_res at 1. destruct (str_field payload "target_type") as [tt_|e] eqn:E1; [|do 2 eexists; split; [reflexivity|done]].
  unfold bind at 1, of_res at 1. destruct (str_field payload "target_id") as [tid|e] eqn:E2; [|do 2 eexists; split; [reflexivity|done]].
  unfold bind at 1, of_res at 1. destruct (str_field payload "correction_notes") as [notes|e] eqn:E3; [|do 2 eexists; split; [reflexivity|done]].
  unfold bind, Correction.new, bind, uuid4, utc_now, ret, doc_put, store_put, modify. cbn -[Correction.as_dict uuid_hex].
  do 2 eexists. split; [reflexivity|]. split; [done|]. split; [intros c k Hc; cbn; by rewrite get_put_ne by congruence|].
  split; [done|]. eexists (Correction.Mk _ _ _ _ _ _). split; [|done]. split; [apply Hclock|]. apply get_put_eq.
Qed.

(** What is filed for the user of a context. *)
Record filed ctx (payload : doc) s (record : FeedbackRecord) s' : Prop := Filed {
  fl_owner : FeedbackRecord.tenant_id record = TenantContext.tenant_id ctx ∧
    FeedbackRecord.organization_id record = TenantContext.organization_id ctx ∧
    FeedbackRecord.created_by record = TenantContext.principal_id ctx;
  fl_target : Ok (FeedbackRecord.target_type record) = str_field payload "target_type" ∧
    Ok (FeedbackRecord.target_id record) = str_field payload "target_id" ∧
    Ok (FeedbackRecord.rating record) = opt_float_field payload "rating";
  fl_stored : st_get "feedback" (FeedbackRecord.feedback_id record) (db s') = Some (FeedbackRecord.as_dict record);
  fl_signal : st_get "improvement_signals" (FeedbackRecord.feedback_id record) (db s') =
    Some (ImprovementSignal.as_dict (_signal record));
  fl_correction : match FeedbackRecord.correction_id record with
    | Some id => ∃ correction, stored correction (db s') ∧ Correction.correction_id correction = id ∧
        Correction.tenant_id correction = TenantContext.tenant_id ctx ∧
        Ok (Correction.notes correction) = str_field payload "correction_notes" ∧
        Correction.target_type correction = FeedbackRecord.target_type record ∧
        Correction.target_id correction = FeedbackRecord.target_id record
    | None => truthy (dget_or payload "correction_notes" VNone) = false
    end;
  fl_others : ∀ c k, c ∉ ["corrections"; "events"] → (c, k) ∉ [("feedback", FeedbackRecord.feedback_id record);
      ("improvement_signals", FeedbackRecord.feedback_id record)] → st_get c k (db s') = st_get c k (db s);
  fl_logged : ∃ e, events s' = events s ++ [e] ∧ event_type e = "feedback.created" ∧ EventStore.payload e = FeedbackRecord.as_dict record;
}.

(** Feedback that is accepted is stored for the caller, with the signal made of
    it, with the correction of its notes if there are any, and logged; nothing
    else changes. Feedback that is refused leaves at most a correction. *)
Theorem feedback_filed ctx payload s :
  (∀ n, time_ok (clock n)) →
  ∃ out s', file ctx payload s = (out, s') ∧
    match out with
    | Ok record => filed ctx payload s record s'
    | Err _ => events s' = events s ∧ ∀ c k, c ≠ "corrections" → st_get c k (db s') = st_get c k (db s)
    end.
Proof.
  intros Hclock. unfold file. unfold bind at 1.
  destruct (correct_eq ctx payload s Hclock) as (r & s1 & -> & He & Hd & Hr).
  destruct r as [correction_id|e]; [|do 2 eexists; split; [reflexivity|done]].
  unfold bind at 1, of_res at 1. destruct (str_field payload "target_type") as [tt_|e] eqn:E1; [|do 2 eexists; split; [reflexivity|done]].
  unfold bind at 1, of_res at 1. destruct (str_field payload "target_id") as [tid|e] eqn:E2; [|do 2 eexists; split; [reflexivity|done]].
  unfold bind at 1, of_res at 1. destruct (opt_float_field payload "rating") as [rating|e] eqn:E3; [|do 2 eexists; split; [reflexivity|done]].
  unfold bind at 1, FeedbackRecord.new at 1, bind at 1, uuid4 at 1, bind at 1, utc_now at 1, ret at 1.
  set (record := FeedbackRecord.Mk _ _ _ _ _ _ _ _ _ _ _). set (s2 := Sys _ _ _ _).
  unfold bind at 1, doc_put at 1, store_put at 1, modify at 1. unfold bind at 1, store_put at 1, modify at 1.
  set (s3 := with_db _ _). unfold bind at 1.
  destruct (append_ok "feedback.created" (FeedbackRecord.feedback_id record) (FeedbackRecord.as_dict record) s3)
    as (e & s4 & -> & Hev & Hty & _ & Hp & Hdb); [by vm_compute|].
  do 2 eexists. split; [reflexivity|]. split; [done|by rewrite E1, E2, E3| | | | |].
  - rewrite Hdb by done. unfold s3. cbn. rewrite get_put_ne by congruence. apply get_put_eq.
  - rewrite Hdb by done. unfold s3. cbn. apply get_put_eq.
  - change (FeedbackRecord.correction_id record) with correction_id. destruct correction_id as [id|]; [|by destruct Hr].
    destruct Hr as (_ & correction & [Hok Hst] & Hid & Ht & Hn & Hty' & Htid). exists correction.
    injection Hty' as ->. injection Htid as ->. split_and!; [|done..].
    split; [done|]. rewrite Hdb by done. unfold s3. cbn. rewrite !get_put_ne by congruence. exact Hst.
  - intros c k Hc Hk. rewrite Hdb by (set_solver). unfold s3. cbn. rewrite !get_put_ne by set_solver. apply Hd. set_solver.
  - exists e. split_and!; [|done|done]. rewrite Hev. unfold s3. cbn. by rewrite He.
Qed.

End Facts.

(** A rating that is no number is refused after the correction was stored. *)
Lemma refused_correction_stays :
  let ctx := TenantContext.Mk "t-1" "o-1" "user" [] false in
  let payload := [("target_type", VStr "agent"); ("target_id", VStr "agent-1"); ("correction_notes", VStr "wrong"); ("rating", VStr "bad")] in
  let '(out, s) := FeedbackService.file (H := demo_oracle) ctx payload demo_start in
  is_ok out = false ∧ Memory.keys "corrections" (db s) = ["correction-" +:+ uuid_hex (Oracle := demo_oracle) 0] ∧ Memory.keys "feedback" (db s) = [].
Proof. by vm_compute. Qed.
