(* ===== verification/Economics.v ===== *)
(** Costs, revenue and prices (agentfabric/economics), and the check of the spend
    limits that the server gives its dispatcher. *)

From stdpp Require Import base option list strings gmap.
From Stdlib Require Import ZArith Lia SpecFloat.
From S2P Require Import Prelude PyVal PyTime Floats Store EventStore Documents Job Evaluation.

Local Open Scope Z_scope.

(** A sum is a float, or the integer 0 when there was nothing to add. *)
Inductive number :=
  | Int (n : Z)
  | Float (x : float).

Definition num_float (n : number) : float := match n with Int n => of_int n | Float x => x end.
Definition num_val (n : number) : val := match n with Int n => VInt n | Float x => VNumber x end.

Definition num_sub (a b : number) : number :=
  match a, b with Int m, Int n => Int (m - n) | _, _ => Float (fsub (num_float a) (num_float b)) end.

(** [round(n, 4)], which leaves an integer alone *)
Definition num_round (n : number) : number := match n with Int n => Int n | Float x => Float (round4 x) end.

(** [sum(event.amount for event in events)] *)
Definition sum_amounts (l : list float) : number := match l with [] => Int 0 | _ => Float (py_sum l) end.

(** * cost_event.py *)

Module CostEvent.
Record t := Mk {
  tenant_id : string;
  category : string;
  amount : float;
  source_id : string;
  metadata : doc;
  currency : string;
  event_id : string;
  timestamp : Z;
}.

Definition as_dict (e : t) : doc :=
  [("event_id", VStr (event_id e)); ("tenant_id", VStr (tenant_id e)); ("category", VStr (category e));
   ("amount", VNumber (amount e)); ("currency", VStr (currency e)); ("source_id", VStr (source_id e));
   ("metadata", VDict (metadata e)); ("timestamp", VStr (isoformat (timestamp e)))].

Section Calls.
Context `{Oracle} {S : Type}.

Definition new (tenant_id category : string) (amount : float) (source_id : string) (metadata : doc) : M (sys S) t :=
  let* id := uuid4 in
  let* now := utc_now in
  ret (Mk tenant_id category amount source_id metadata "USD" ("cost-" +:+ id) now).

Definition from_dict (value : doc) : M (sys S) t :=
  let* event_id := of_res (str_field value "event_id") in
  let* tenant_id := of_res (str_field value "tenant_id") in
  let* category := of_res (str_field value "category") in
  let* amount := of_res (let? v := dindex value "amount" in py_float v) in
  let* metadata := of_res (dict_field_or_empty value "metadata") in
  let* timestamp := time_field_or_now value "timestamp" in
  ret (Mk tenant_id category amount (str_field_or value "source_id" "") metadata (str_field_or value "currency" "USD") event_id timestamp).

Definition cost_ok (e : t) : Prop := readable (amount e) ∧ time_ok (timestamp e).

Lemma cost_dec_enc e (s : sys S) : cost_ok e → from_dict (as_dict e) s = (Ok e, s).
Proof.
  intros [Ha Ht]. unfold from_dict.
  assert ((let? v := dindex (as_dict e) "amount" in py_float v) = Ok (amount e)) as -> by exact Ha.
  unfold bind, of_res, ret. cbn -[time_field_or_now VNumber]. rewrite (time_field_or_now_iso _ _ _ _ Ht) by done. by destruct e.
Qed.
End Calls.
End CostEvent.

Abbreviation CostEvent := CostEvent.t.

#[export] Instance cost_event_document `{Oracle} {S} : Document S CostEvent := {
  d_coll := "cost_events";
  d_key := CostEvent.event_id;
  d_enc := CostEvent.as_dict;
  d_dec := CostEvent.from_dict;
  d_ok := CostEvent.cost_ok;
  d_dec_enc := CostEvent.cost_dec_enc;
  d_enc_ne e := ltac:(done);
}.

(** * revenue_event.py *)

Module RevenueEvent.
Record t := Mk {
  tenant_id : string;
  category : string;
  amount : float;
  source_id : string;
  package_id : option string;
  metadata : doc;
  currency : string;
  event_id : string;
  timestamp : Z;
}.

Definition as_dict (e : t) : doc :=
  [("event_id", VStr (event_id e)); ("tenant_id", VStr (tenant_id e)); ("category", VStr (category e));
   ("amount", VNumber (amount e)); ("currency", VStr (currency e)); ("source_id", VStr (source_id e));
   ("package_id", opt_str (package_id e)); ("metadata", VDict (metadata e)); ("timestamp", VStr (isoformat (timestamp e)))].

Section Calls.
Context `{Oracle} {S : Type}.

Definition new (tenant_id category : string) (amount : float) (source_id : string) (package_id : option string) (metadata : doc)
    : M (sys S) t :=
  let* id := uuid4 in
  let* now := utc_now in
  ret (Mk tenant_id category amount source_id package_id metadata "USD" ("rev-" +:+ id) now).

Definition from_dict (value : doc) : M (sys S) t :=
  let* event_id := of_res (str_field value "event_id") in
  let* tenant_id := of_res (str_field value "tenant_id") in
  let* category := of_res (str_field value "category") in
  let* amount := of_res (let? v := dindex value "amount" in py_float v) in
  let* metadata := of_res (dict_field_or_empty value "metadata") in
  let* timestamp := time_field_or_now value "timestamp" in
  ret (Mk tenant_id category amount (str_field_or value "source_id" "") (opt_str_field value "package_id") metadata
         (str_field_or value "currency" "USD") event_id timestamp).

Definition revenue_ok (e : t) : Prop := readable (amount e) ∧ time_ok (timestamp e) ∧ package_id e ≠ Some "".

Lemma revenue_dec_enc e (s : sys S) : revenue_ok e → from_dict (as_dict e) s = (Ok e, s).
Proof.
  intros (Ha & Ht & Hp). unfold from_dict.
  assert ((let? v := dindex (as_dict e) "amount" in py_float v) = Ok (amount e)) as -> by exact Ha.
  rewrite (opt_str_field_eq _ "package_id" (package_id e)) by done.
  unfold bind, of_res, ret. cbn -[time_field_or_now VNumber]. rewrite (time_field_or_now_iso _ _ _ _ Ht) by done. by destruct e.
Qed.
End Calls.
End RevenueEvent.

Abbreviation RevenueEvent := RevenueEvent.t.

#[export] Instance revenue_event_document `{Oracle} {S} : Document S RevenueEvent := {
  d_coll := "revenue_events";
  d_key := RevenueEvent.event_id;
  d_enc := RevenueEvent.as_dict;
  d_dec := RevenueEvent.from_dict;
  d_ok := RevenueEvent.revenue_ok;
  d_dec_enc := RevenueEvent.revenue_dec_enc;
  d_enc_ne e := ltac:(done);
}.

(** * cost_model.py and revenue_model.py *)

(** [round(float(getattr(self, category, default)) * quantity, 4)] of a record of
    rates. The method of the class is an attribute too, and no number; the names
    of Python's own attributes are left aside. *)
Definition estimate_of (rates : dict float) (default_rate category : string) (quantity : float) : res float :=
  if bool_decide (category = "estimate") then type_error "float() argument must be a string or a number, not 'method'"
  else
  let rate := match dget rates category with Some x => x | None => default (lit 0 1) (dget rates default_rate) end in
  Ok (round4 (fmul rate quantity)).

Module CostModel.
Definition rates : dict float :=
  [("agent_run", lit 2 2); ("workflow_run", lit 8 2); ("tool_execution", lit 3 2); ("connector_sync", lit 4 2);
   ("marketplace_execution", lit 25 3); ("federation_delegation", lit 5 2); ("evaluation_run", lit 2 2);
   ("storage_gb_month", lit 10 2); ("queue_worker_runtime", lit 1 2); ("audit_bundle_export", lit 2 2)].

Definition estimate (model : dict float) : string → float → res float := estimate_of model "queue_worker_runtime".
End CostModel.

Module RevenueModel.
Definition rates : dict float :=
  [("subscription", lit 5000 1); ("usage_based", lit 10 2); ("marketplace", lit 30 2); ("package_license", lit 100 1);
   ("federation_delegation", lit 10 1); ("enterprise_support", lit 2500 1)].

Definition estimate (model : dict float) : string → float → res float := estimate_of model "usage_based".
End RevenueModel.

(** * pricing.py *)

Module PricingPolicy.
Record t := Mk {
  per_seat : float;
  per_agent : float;
  per_workflow : float;
  per_tool_call : float;
  per_connector : float;
  per_marketplace_package : float;
  per_federated_delegation : float;
}.

Definition default_policy : t := Mk (lit 200 1) (lit 50 1) (lit 25 2) (lit 5 2) (lit 30 1) (lit 20 1) (lit 5 1).

(** [float(usage.get(key, 0)) * rate] *)
Definition charge (usage : doc) (key : string) (rate : float) : res float :=
  let? n := py_float (dget_or usage key (VInt 0)) in Ok (fmul n rate).

Definition calculate (p : t) (usage : doc) : res float :=
  let? seats := charge usage "seats" (per_seat p) in
  let? agents := charge usage "agents" (per_agent p) in
  let? workflows := charge usage "workflows" (per_workflow p) in
  let? tool_calls := charge usage "tool_calls" (per_tool_call p) in
  let? connectors := charge usage "connectors" (per_connector p) in
  let? packages := charge usage "marketplace_packages" (per_marketplace_package p) in
  let? delegations := charge usage "federated_delegations" (per_federated_delegation p) in
  Ok (round4 (fadd (fadd (fadd (fadd (fadd (fadd seats agents) workflows) tool_calls) connectors) packages) delegations)).
End PricingPolicy.

(** * unit_economics.py *)

Module UnitEconomics.
Record t := Mk { tenant_id : string; total_cost : number; total_revenue : number }.

Definition gross_margin (u : t) : float :=
  if SFeqb (num_float (total_revenue u)) (lit 0 1) then lit 0 1
  else round4 (fdiv (num_float (num_sub (total_revenue u) (total_cost u))) (num_float (total_revenue u))).

Definition profit (u : t) : number := num_round (num_sub (total_revenue u) (total_cost u)).

Definition as_dict (u : t) : doc :=
  [("tenant_id", VStr (tenant_id u)); ("total_cost", num_val (total_cost u)); ("total_revenue", num_val (total_revenue u));
   ("profit", num_val (profit u)); ("gross_margin", VNumber (gross_margin u))].
End UnitEconomics.

(** * cost_tracker.py *)

Module CostTracker.
Section Tracker.
Context `{Oracle} {S : Type} `{PersistenceStore S}.
Context (model : dict float).

(** The given amount, or the estimate for the category *)
Definition amount_or (amount : option float) (category : string) : res float :=
  match amount with Some x => Ok x | None => CostModel.estimate model category (lit 10 1) end.

Definition record (tenant_id category : string) (amount : option float) (source_id : string) (metadata : doc) : M (sys S) CostEvent :=
  let* x := of_res (amount_or amount category) in
  let* event := CostEvent.new tenant_id category x source_id metadata in
  do* doc_put event;
  ret event.

Definition list_for_tenant (tenant_id : string) : M (sys S) (list CostEvent) := doc_list_tenant tenant_id.

Definition total (tenant_id : string) : M (sys S) number :=
  let* events := list_for_tenant tenant_id in
  ret (num_round (sum_amounts (map CostEvent.amount events))).

(** [{"tenant_id": tenant_id, **limits}]: a limit of that name takes its place. *)
Definition set_spend_limits (tenant_id : string) (limits : dict float) : M (sys S) doc :=
  let payload := foldl (fun d p => dset d p.1 (VNumber p.2)) [("tenant_id", VStr tenant_id)] limits in
  do* store_put "spend_limits" tenant_id payload;
  ret payload.

Definition spend_limits (tenant_id : string) : M (sys S) doc :=
  let* item := store_get "spend_limits" tenant_id in
  ret (match item with Some ((_ :: _) as d) => d | _ => [("tenant_id", VStr tenant_id)] end).

Definition specific_keys : dict string :=
  [("workflow_run", "workflow_spend_limit"); ("agent_run", "agent_spend_limit"); ("tool_execution", "tool_spend_limit");
   ("connector_sync", "connector_sync_spend_limit"); ("evaluation_run", "evaluation_run_spend_limit")].

(** [d.get(key)] of a limit that is not None *)
Definition limit_of (limits : doc) (key : string) : option val :=
  match dget limits key with None | Some VNone => None | Some v => Some v end.

(** The events a limit of a category counts *)
Definition counts (category source_id : string) (event : CostEvent) : bool :=
  bool_decide (CostEvent.category event = category) &&
  (bool_decide (source_id = "") || bool_decide (CostEvent.source_id event = source_id)).

Definition enforce_tenant (tenant_id : string) (limits : doc) (projected : float) : M (sys S) unit :=
  match limit_of limits "tenant_spend_limit" with
  | None => ret tt
  | Some v =>
      let* spent := total tenant_id in
      let* tenant_limit := of_res (py_float v) in
      if SFltb tenant_limit (fadd (num_float spent) projected) then raise AuthorizationError "tenant spend limit exceeded" else ret tt
  end.

Definition enforce_category (tenant_id category source_id : string) (limits : doc) (projected : float) : M (sys S) unit :=
  match dget specific_keys category with
  | None => ret tt
  | Some key =>
      match limit_of limits key with
      | None => ret tt
      | Some v =>
          let* events := list_for_tenant tenant_id in
          let spent := sum_amounts (map CostEvent.amount (List.filter (counts category source_id) events)) in
          let* limit := of_res (py_float v) in
          if SFltb limit (fadd (num_float spent) projected) then raise AuthorizationError (key +:+ " exceeded") else ret tt
      end
  end.

Definition enforce (tenant_id category : string) (projected_amount : option float) (source_id : string) : M (sys S) unit :=
  let* limits := spend_limits tenant_id in
  let* projected := of_res (amount_or projected_amount category) in
  do* enforce_tenant tenant_id limits projected;
  enforce_category tenant_id category source_id limits projected.

End Tracker.
End CostTracker.

(** * revenue_tracker.py *)

Module RevenueTracker.
Section Tracker.
Context `{Oracle} {S : Type} `{PersistenceStore S}.
Context (model : dict float).

Definition record (tenant_id category : string) (amount : option float) (source_id : string) (package_id : option string)
    (metadata : doc) : M (sys S) RevenueEvent :=
  let* x := of_res (match amount with Some x => Ok x | None => RevenueModel.estimate model category (lit 10 1) end) in
  let* event := RevenueEvent.new tenant_id category x source_id package_id metadata in
  do* doc_put event;
  ret event.

Definition list_for_tenant (tenant_id : string) : M (sys S) (list RevenueEvent) := doc_list_tenant tenant_id.

Definition total (tenant_id : string) : M (sys S) number :=
  let* events := list_for_tenant tenant_id in
  ret (num_round (sum_amounts (map RevenueEvent.amount events))).

End Tracker.
End RevenueTracker.

(** * margin_analyzer.py, tenant_profitability.py and package_revenue.py *)

Section Reports.
Context `{Oracle} {S : Type} `{PersistenceStore S}.

Definition tenant_margin (tenant_id : string) : M (sys S) UnitEconomics.t :=
  let* total_cost := CostTracker.total tenant_id in
  let* total_revenue := RevenueTracker.total tenant_id in
  ret (UnitEconomics.Mk tenant_id total_cost total_revenue).

Definition profitability_report (tenant_id : string) : M (sys S) doc :=
  let* economics := tenant_margin tenant_id in ret (UnitEconomics.as_dict economics).

Definition of_package (package_id : string) (tenant_id : option string) (item : doc) : bool :=
  is_str (dget item "package_id") package_id &&
  match tenant_id with None => true | Some t => is_str (dget item "tenant_id") t end.

Definition package_report (package_id : string) (tenant_id : option string) : M (sys S) doc :=
  let* items := store_list "revenue_events" in
  let* events := for_map (List.filter (of_package package_id tenant_id) items) RevenueEvent.from_dict in
  ret [("package_id", VStr package_id); ("tenant_id", opt_str tenant_id);
       ("revenue", num_val (num_round (sum_amounts (map RevenueEvent.amount events))));
       ("events", VList (map (fun e => VDict (RevenueEvent.as_dict e)) events))].

(** * The spend check of the server (server/app.py) *)

Definition job_categories : dict string :=
  [("agent_run", "agent_run"); ("workflow_step", "workflow_run"); ("tool_execution", "tool_execution");
   ("connector_sync", "connector_sync"); ("connector_search", "tool_execution"); ("connector_document_fetch", "tool_execution");
   ("marketplace_package", "marketplace_execution"); ("remote_delegation", "federation_delegation");
   ("evaluation_run", "evaluation_run"); ("audit_export", "audit_bundle_export")].

Definition category_of_job (job : RuntimeJob) : string :=
  default "queue_worker_runtime" (dget job_categories (RuntimeJob.job_type job)).

(** The tracker of the server has the default rates. *)
Definition _runtime_spend_check (job : RuntimeJob) : M (sys S) unit :=
  let category := category_of_job job in
  try_except (CostTracker.enforce CostModel.rates (RuntimeJob.tenant_id job) category None (RuntimeJob.job_id job))
    (fun exc =>
       if bool_decide (exn_cls exc = AuthorizationError) then
         do* EventStore.append "economics.spend_limit.exceeded" (RuntimeJob.job_id job)
               [("tenant_id", VStr (RuntimeJob.tenant_id job)); ("job_id", VStr (RuntimeJob.job_id job)); ("category", VStr category)];
         of_res (Err exc)
       else of_res (Err exc)).

End Reports.

(** * What the spend limits let through *)

Section Facts.
Context `{Oracle} {S : Type} `{PersistenceStore S, !StoreLaws S}.
Implicit Types (s : sys S) (l : list CostEvent).
Import CostTracker.

(** The limits of a tenant; none are kept for most. *)
Definition limits_at (tenant_id : string) (db : S) : doc :=
  match st_get "spend_limits" tenant_id db with Some ((_ :: _) as d) => d | _ => [("tenant_id", VStr tenant_id)] end.

(** A limit is passed by what was spent with what is to be spent. *)
Definition passes (limit : option val) (spent : number) (projected : float) : bool :=
  match limit with
  | Some v => match py_float v with Ok x => SFltb x (fadd (num_float spent) projected) | Err _ => false end
  | None => false
  end.

Definition category_limit (limits : doc) (category : string) : option val :=
  match dget specific_keys category with Some key => limit_of limits key | None => None end.

(** What a check of the limits answers, of the events of the tenant *)
Definition verdict (limits : doc) l (category source_id : string) (projected : float) : res unit :=
  if passes (limit_of limits "tenant_spend_limit") (num_round (sum_amounts (map CostEvent.amount l))) projected
  then Err (Exn AuthorizationError "tenant spend limit exceeded")
  else if passes (category_limit limits category)
            (sum_amounts (map CostEvent.amount (List.filter (counts category source_id) l))) projected
  then Err (Exn AuthorizationError (default "" (dget specific_keys category) +:+ " exceeded"))
  else Ok tt.

(** Every limit is a number. *)
Definition numbers (limits : doc) : Prop :=
  ∀ key v, key ∈ "tenant_spend_limit" :: specific_keys.*2 → limit_of limits key = Some v → ∃ x, py_float v = Ok x.

(** The events of a tenant, as they are listed *)
Definition costs_of (tenant_id : string) (db : S) l : Prop :=
  CostEvent.as_dict <$> l = st_list_tenant "cost_events" tenant_id db ∧
  ∀ e, e ∈ l ↔ stored e db ∧ CostEvent.tenant_id e = tenant_id.

Lemma list_costs tenant_id s :
  typed (A := CostEvent) (db s) → ∃ l, list_for_tenant tenant_id s = (Ok l, s) ∧ costs_of tenant_id (db s) l.
Proof.
  intros Ht. destruct (doc_list_tenant_eq tenant_id s Ht) as (l & El & Ed & Hl). exists l. split; [exact El|]. split; [exact Ed|].
  intros e. rewrite (elem_of_doc_list_tenant tenant_id s l Ht Ed Hl).
  assert (is_str (dget (d_enc e) "tenant_id") tenant_id = bool_decide (CostEvent.tenant_id e = tenant_id)) as -> by done.
  by rewrite bool_decide_eq_true.
Qed.

Lemma spend_enforce_eq model tenant_id category projected source_id s :
  typed (A := CostEvent) (db s) → numbers (limits_at tenant_id (db s)) →
  ∃ l, costs_of tenant_id (db s) l ∧
    enforce model tenant_id category projected source_id s =
      (let? x := amount_or model projected category in verdict (limits_at tenant_id (db s)) l category source_id x, s).
Proof.
  intros Ht Hn. destruct (list_costs tenant_id s Ht) as (l & El & Hl). exists l. split; [done|].
  unfold enforce, spend_limits. unfold bind at 1 2, store_get, gets, ret at 1. fold (limits_at tenant_id (db s)).
  set (limits := limits_at tenant_id (db s)) in *. unfold bind at 1, of_res at 1.
  destruct (amount_or model projected category) as [x|e]; [|done]. cbn [res_bind]. unfold verdict, bind at 1.
  assert (enforce_tenant tenant_id limits x s =
    (if passes (limit_of limits "tenant_spend_limit") (num_round (sum_amounts (map CostEvent.amount l))) x
     then Err (Exn AuthorizationError "tenant spend limit exceeded") else Ok tt, s)) as ->.
  { unfold enforce_tenant, passes. destruct (limit_of limits "tenant_spend_limit") as [v|] eqn:Ev; [|done].
    destruct (Hn "tenant_spend_limit" v ltac:(by left) Ev) as [y Ey]. unfold total, bind, ret, of_res. rewrite El, Ey. by destruct (SFltb _ _). }
  destruct (passes (limit_of _ _) _ _); [done|].
  unfold enforce_category, category_limit. destruct (dget specific_keys category) as [key|] eqn:Ek; [|done].
  assert (Hin : key ∈ "tenant_spend_limit" :: specific_keys.*2).
  { right. apply dget_Some_elem in Ek. by apply (list_elem_of_fmap_2 snd) in Ek. }
  unfold passes. destruct (limit_of limits key) as [v|] eqn:Ev; [|done].
  destruct (Hn key v Hin Ev) as [y Ey]. unfold bind, of_res. rewrite El, Ey. by destruct (SFltb _ _).
Qed.

(** Recording a cost adds one event to the costs of the tenant. *)
Lemma record_eq model tenant_id category amount source_id metadata s x :
  (∀ n, time_ok (clock n)) → amount_or model amount category = Ok x → readable x →
  ∃ event s', record model tenant_id category amount source_id metadata s = (Ok event, s') ∧ stored event (db s') ∧
    CostEvent.tenant_id event = tenant_id ∧ CostEvent.category event = category ∧ CostEvent.amount event = x ∧
    CostEvent.source_id event = source_id ∧ (typed (A := CostEvent) (db s) → typed (A := CostEvent) (db s')).
Proof.
  intros Hclock Hx Hr. unfold record. unfold bind at 1, of_res at 1. rewrite Hx.
  unfold bind, CostEvent.new, bind, uuid4, utc_now, ret, doc_put, store_put, modify. cbn -[CostEvent.as_dict uuid_hex].
  do 2 eexists. split; [reflexivity|]. split; [split; [by split; [|apply Hclock]|apply get_put_eq]|].
  split_and!; [done..|]. intros Ht. refine (typed_put (CostEvent.Mk _ _ _ _ _ _ _ _) (db s) _ Ht). by split; [|apply Hclock].
Qed.

End Facts.

(** * The check of the server *)

Section Theorems.
Context `{Oracle} {S : Type} `{PersistenceStore S, !StoreLaws S}.
Implicit Types (s : sys S) (job : RuntimeJob).
Import CostTracker.

Lemma job_estimate job : ∃ x, CostModel.estimate CostModel.rates (category_of_job job) (lit 10 1) = Ok x.
Proof.
  unfold CostModel.estimate, estimate_of. rewrite bool_decide_eq_false_2; [by eexists|].
  unfold category_of_job, job_categories. cbn [dget]. by repeat case_bool_decide.
Qed.

(** C19: the server lets a job be dispatched exactly when the limits of its tenant
    allow it: what all the costs stored for the tenant come to, with the estimate
    of the job, is not above the limit of the tenant, and what is stored for the
    job itself, with the estimate, is not above the limit of its category. A
    refusal names the limit and is logged; the check stores nothing. *)
Theorem spend_check_exact job s :
  typed (A := CostEvent) (db s) → numbers (limits_at (RuntimeJob.tenant_id job) (db s)) →
  ∃ l x out s', costs_of (RuntimeJob.tenant_id job) (db s) l ∧
    CostModel.estimate CostModel.rates (category_of_job job) (lit 10 1) = Ok x ∧
    _runtime_spend_check job s = (out, s') ∧
    out = verdict (limits_at (RuntimeJob.tenant_id job) (db s)) l (category_of_job job) (RuntimeJob.job_id job) x ∧
    match out with
    | Ok _ => s' = s
    | Err e => exn_cls e = AuthorizationError ∧ (∀ c k, c ≠ "events" → st_get c k (db s') = st_get c k (db s)) ∧
        ∃ ev, events s' = events s ++ [ev] ∧ event_type ev = "economics.spend_limit.exceeded" ∧
          aggregate_id ev = RuntimeJob.job_id job
    end.
Proof.
  intros Ht Hn. destruct (job_estimate job) as [x Hx].
  destruct (spend_enforce_eq CostModel.rates _ (category_of_job job) None (RuntimeJob.job_id job) s Ht Hn) as (l & Hl & E).
  exists l, x. unfold amount_or in E. rewrite Hx in E. cbn [res_bind] in E. unfold _runtime_spend_check, try_except. rewrite E. clear E.
  set (limits := limits_at _ _). destruct (verdict limits l _ _ x) as [[]|e] eqn:Ev.
  { exists (Ok tt), s. by split_and!. }
  assert (exn_cls e = AuthorizationError) as Hcls.
  { revert Ev. unfold verdict. destruct (passes (limit_of _ _) _ _); [by intros [= <-]|]. by destruct (passes (category_limit _ _) _ _); intros [= <-]. }
  rewrite bool_decide_eq_true_2 by done. unfold bind.
  destruct (append_ok "economics.spend_limit.exceeded" (RuntimeJob.job_id job)
    [("tenant_id", VStr (RuntimeJob.tenant_id job)); ("job_id", VStr (RuntimeJob.job_id job)); ("category", VStr (category_of_job job))] s)
    as (ev & s' & -> & Hev & Hty & Hid & _ & Hdb); [by vm_compute|].
  exists (Err e), s'. split_and!; [done..|]. by exists ev.
Qed.

(** What other jobs spent in a category counts for nothing against its limit. *)
Theorem category_limit_of_one_job limits job l x :
  RuntimeJob.job_id job ≠ "" → Forall (fun e => CostEvent.source_id e ≠ RuntimeJob.job_id job) l →
  verdict limits l (category_of_job job) (RuntimeJob.job_id job) x =
  if passes (limit_of limits "tenant_spend_limit") (num_round (sum_amounts (map CostEvent.amount l))) x
  then Err (Exn AuthorizationError "tenant spend limit exceeded")
  else if passes (category_limit limits (category_of_job job)) (Int 0) x
  then Err (Exn AuthorizationError (default "" (dget specific_keys (category_of_job job)) +:+ " exceeded"))
  else Ok tt.
Proof.
  intros Hid Hl. unfold verdict.
  assert (List.filter (counts (category_of_job job) (RuntimeJob.job_id job)) l = []) as ->; [|done].
  induction Hl as [|e l He _ IH]; [done|]. cbn [List.filter]. unfold counts at 1.
  rewrite (bool_decide_eq_false_2 (RuntimeJob.job_id job = "")), (bool_decide_eq_false_2 (CostEvent.source_id e = RuntimeJob.job_id job)) by done.
  by rewrite andb_false_r.
Qed.

End Theorems.

(** ** Witness *)

Section Demo.
#[local] Existing Instance demo_oracle.

Definition demo_cost (id : string) : CostEvent := CostEvent.Mk "t-1" "agent_run" (lit 2 2) "job-0" [] "USD" id (clock 0).

Definition demo_limits : doc := [("tenant_id", VStr "t-1"); ("tenant_spend_limit", VNumber (lit 7 2)); ("agent_spend_limit", VNumber (lit 3 2))].

(** Two runs of agents cost 0.04; the tenant may spend 0.07 in all, and 0.03 on
    agents. *)
Definition demo_spent : sys Memory.store :=
  Sys (st_put "cost_events" "c-2" (CostEvent.as_dict (demo_cost "c-2"))
        (st_put "cost_events" "c-1" (CostEvent.as_dict (demo_cost "c-1"))
          (st_put "spend_limits" "t-1" demo_limits ∅)))
    [] true 0.

Definition demo_run_job (job_type : string) : RuntimeJob :=
  RuntimeJob.Mk "t-1" "o-1" "user" job_type [] "default" 3 "job-1" "queued" 0 None "" 0 0 None None.

Lemma demo_cost_ok id : CostEvent.cost_ok (demo_cost id).
Proof. split; [by vm_compute|apply demo_clock]. Qed.

Lemma demo_costs_typed : typed (A := CostEvent) (db demo_spent).
Proof.
  refine (typed_put (demo_cost "c-2") _ (demo_cost_ok _) _). refine (typed_put (demo_cost "c-1") _ (demo_cost_ok _) _).
  apply typed_put_other; [done|apply typed_empty].
Qed.

Lemma demo_limits_numbers : numbers (limits_at "t-1" (db demo_spent)).
Proof.
  intros key v Hkey. unfold limits_at, demo_spent, db. rewrite !get_put_ne by congruence. rewrite get_put_eq. intros Hv.
  assert (Hall : forallb (fun key => match CostTracker.limit_of demo_limits key with Some v => is_ok (py_float v) | None => true end)
    ("tenant_spend_limit" :: CostTracker.specific_keys.*2) = true) by (vm_compute; reflexivity).
  rewrite forallb_forall in Hall. specialize (Hall key). rewrite <- list_elem_of_In in Hall. specialize (Hall Hkey).
  change (CostTracker.limit_of demo_limits key = Some v) in Hv. rewrite Hv in Hall. destruct (py_float v) as [x|]; [by exists x|done].
Qed.

Lemma spend_check_exact_witness :
  (_runtime_spend_check (demo_run_job "workflow_step") demo_spent).1 = Err (Exn AuthorizationError "tenant spend limit exceeded") ∧
  ∃ l, costs_of "t-1" (db demo_spent) l.
Proof.
  destruct (spend_check_exact (demo_run_job "workflow_step") demo_spent demo_costs_typed demo_limits_numbers) as (l & x & out & s' & Hl & _ & E & _).
  split; [by vm_compute|]. by exists l.
Defined.

(** Another agent may still run, although agents have spent 0.04 of 0.03. *)
Lemma category_limit_passed : (_runtime_spend_check (demo_run_job "agent_run") demo_spent).1 = Ok tt.
Proof. by vm_compute. Qed.

(** A limit named tenant_id takes the place of the tenant. *)
Lemma limit_replaces_tenant :
  (CostTracker.set_spend_limits "t-1" [("tenant_id", lit 10 1)] demo_spent).1 = Ok [("tenant_id", VFloat "1.0")].
Proof. by vm_compute. Qed.
End Demo.
