(* ===== verification/Renovation.v ===== *)
(** The records of the renovation application (agentfabric/verticals/renovation):
    proposals, the jobs made of them, crews with their assignments, and the
    deliveries of material. *)

From stdpp Require Import base option list strings gmap sets.
From Stdlib Require Import ZArith Lia Ascii SpecFloat.
From S2P Require Import Prelude PyVal PyTime Floats Store EventStore Documents Evaluation.

Local Open Scope Z_scope.

(** * Texts and dates *)

(** [tuple(sorted({str(item).strip() for item in value if str(item).strip()}))] *)
Definition _strings (value : val) : res (list string) :=
  let? items := py_iter value in
  Ok (py_sorted_set (list_to_set (List.filter (fun s => negb (bool_decide (s = ""))) (map (fun v => strip (py_str v)) items)))).

(** A [date] is the number of its day, [date.fromisoformat(value)] reads the form
    year-month-day, and [d + timedelta(days=n)] leaves no calendar. *)
Definition _date (value : string) : res Z := date_fromiso value.

Definition day_ok (d : Z) : Prop := 0 <= d < max_day.

Definition add_days (d n : Z) : res Z :=
  if Z.abs n >? 999999999
  then Err (Exn OverflowError ("days=" +:+ py_str (VInt n) +:+ "; must have magnitude <= 999999999"))
  else if bool_decide (0 <= d + n < max_day) then Ok (d + n)
  else Err (Exn OverflowError "date value out of range").

(** [payload[key]] and the text of it without the space around *)
Definition text_field (payload : doc) (key : string) : res string := let? s := str_field payload key in Ok (strip s).

(** An item whose method [get] is called *)
Definition as_mapping (v : val) : res doc :=
  match v with VDict d => Ok d | _ => Err (Exn AttributeError "object has no attribute 'get'") end.

Section Digests.
Context `{Oracle}.

Definition _digest (value : val) : string := sha256_hex (dumps value).

(** [f"{prefix}-{_digest(identity)[:20]}"] *)
Definition id_of (prefix : string) (identity : doc) : string :=
  prefix +:+ "-" +:+ String.substring 0 20 (_digest (VDict identity)).
End Digests.

(** * models/ *)

Module Customer.
Record t := Mk { customer_id : string; name : string; email : string; phone : string; address : string }.
End Customer.

Module Project.
Record t := Mk { project_id : string; title : string; property_address : string; notes : string }.
End Project.

Module ScopeItem.
Record t := Mk { description : string; category : string; quantity : float; unit : string; room : string; notes : string }.
End ScopeItem.

Module MaterialLine.
Record t := Mk { description : string; category : string; quantity : float; unit : string; unit_rate : float; total : float }.
End MaterialLine.

Module LaborLine.
Record t := Mk { description : string; hours : float; hourly_rate : float; total : float }.
End LaborLine.

Module Estimate.
Record t := Mk {
  estimate_id : string;
  tenant_id : string;
  project_id : string;
  scope_description : string;
  scope_items : list ScopeItem.t;
  material_lines : list MaterialLine.t;
  labor_lines : list LaborLine.t;
  material_total : float;
  labor_total : float;
  subtotal : float;
  contingency_percentage : float;
  contingency : float;
  taxable_amount : float;
  tax_percentage : float;
  tax : float;
  total : float;
  notes : string;
  rate_table_version : string;
}.
End Estimate.

Module PaymentSchedule.
Record t := Mk { label : string; percentage : float; amount : float }.
End PaymentSchedule.

Module Timeline.
Record t := Mk { phase : string; duration_days : Z; sequence : Z }.
End Timeline.

Module Proposal.
Record t := Mk {
  proposal_id : string;
  tenant_id : string;
  customer : Customer.t;
  project : Project.t;
  estimate : Estimate.t;
  template_id : string;
  template_version : string;
  style : string;
  scope_of_work : list string;
  payment_schedule : list PaymentSchedule.t;
  timeline : list Timeline.t;
  warranty : string;
  terms_and_conditions : list string;
  rendered_text : string;
}.
End Proposal.

(** * jobs/ *)

Module JobPhase.
Record t := Mk { phase_id : string; name : string; sequence : Z; duration_days : Z; status : string }.

Definition as_dict (p : t) : doc :=
  [("phase_id", VStr (phase_id p)); ("name", VStr (name p)); ("sequence", VInt (sequence p));
   ("duration_days", VInt (duration_days p)); ("status", VStr (status p))].
End JobPhase.

Abbreviation JobPhase := JobPhase.t.

Module Job.
Record t := Mk {
  job_id : string;
  tenant_id : string;
  proposal_id : string;
  project_id : string;
  title : string;
  status : string;
  accepted_date : string;
  acceptance_reference : string;
  phases : list JobPhase;
  current_phase : string;
  template_id : string;
}.

Definition as_dict (j : t) : doc :=
  [("job_id", VStr (job_id j)); ("tenant_id", VStr (tenant_id j)); ("proposal_id", VStr (proposal_id j));
   ("project_id", VStr (project_id j)); ("title", VStr (title j)); ("status", VStr (status j));
   ("accepted_date", VStr (accepted_date j)); ("acceptance_reference", VStr (acceptance_reference j));
   ("phases", VList (map (fun p => VDict (JobPhase.as_dict p)) (phases j))); ("current_phase", VStr (current_phase j));
   ("template_id", VStr (template_id j))].
End Job.

Abbreviation Job := Job.t.

Definition JOB_STATUSES : list string := ["planned"; "active"; "on_hold"; "completed"; "cancelled"].
Definition PHASE_STATUSES : list string := ["pending"; "active"; "completed"; "skipped"].

Module JobService.
(** The phases of a timeline, numbered from [index] *)
Fixpoint number_phases (index : Z) (timeline : list Timeline.t) : list JobPhase :=
  match timeline with
  | [] => []
  | item :: rest =>
      JobPhase.Mk ("phase-" +:+ zpad 2 index) (Timeline.phase item) (Timeline.sequence item) (Timeline.duration_days item)
        (if index =? 1 then "active" else "pending") :: number_phases (index + 1) rest
  end.

Definition create `{Oracle} (tenant_id : string) (proposal : Proposal.t) (payload : doc) : res Job :=
  if negb (bool_decide (Proposal.tenant_id proposal = tenant_id)) then Err (Exn PermissionError "cross-tenant proposal access denied")
  else if negb (bool_field_or payload "accepted" false) then Err (Exn ValueError "accepted proposal is required to create a job")
  else
  let? accepted_date := text_field payload "accepted_date" in
  let? reference := text_field payload "acceptance_reference" in
  if bool_decide (accepted_date = "") || bool_decide (reference = "")
  then Err (Exn ValueError "acceptance date and reference are required")
  else
  let phases := number_phases 1 (Proposal.timeline proposal) in
  let identity := [("tenant_id", VStr tenant_id); ("proposal_id", VStr (Proposal.proposal_id proposal));
    ("accepted_date", VStr accepted_date); ("acceptance_reference", VStr reference)] in
  Ok (Job.Mk (id_of "job" identity) tenant_id (Proposal.proposal_id proposal) (Project.project_id (Proposal.project proposal))
        (Project.title (Proposal.project proposal)) (str_field_or payload "status" "active") accepted_date reference phases
        (match phases with p :: _ => JobPhase.phase_id p | [] => "" end) (Proposal.template_id proposal)).

Definition with_status (status : string) (p : JobPhase) : JobPhase :=
  JobPhase.Mk (JobPhase.phase_id p) (JobPhase.name p) (JobPhase.sequence p) (JobPhase.duration_days p) status.

Definition update_phase (phase_statuses : dict string) (p : JobPhase) : res JobPhase :=
  let status := default (JobPhase.status p) (dget phase_statuses (JobPhase.phase_id p)) in
  if bool_decide (status ∈ PHASE_STATUSES) then Ok (with_status status p) else Err (Exn ValueError "invalid job phase status").

Definition update (job : Job) (payload : doc) : res Job :=
  let status := str_field_or payload "status" (Job.status job) in
  if negb (bool_decide (status ∈ JOB_STATUSES)) then Err (Exn ValueError "invalid renovation job status")
  else
  let current_phase := str_field_or payload "current_phase" (Job.current_phase job) in
  let? statuses := dict_field_or_empty payload "phase_statuses" in
  let phase_statuses := prod_map id py_str <$> statuses in
  if negb (bool_decide (current_phase = "")) && negb (bool_decide (current_phase ∈ JobPhase.phase_id <$> Job.phases job))
  then Err (Exn ValueError "current job phase does not exist")
  else
  let? phases := res_map (update_phase phase_statuses) (Job.phases job) in
  Ok (Job.Mk (Job.job_id job) (Job.tenant_id job) (Job.proposal_id job) (Job.project_id job) (Job.title job) status
        (Job.accepted_date job) (Job.acceptance_reference job) phases current_phase (Job.template_id job)).
End JobService.

(** * crews/ *)

Definition AVAILABILITY_STATUSES : list string := ["available"; "unavailable"; "limited"].
Definition ASSIGNMENT_STATUSES : list string := ["assigned"; "active"; "completed"; "cancelled"].

Module CrewMember.
Record t := Mk { member_id : string; name : string; role : string; skills : list string }.

Definition as_dict (m : t) : doc :=
  [("member_id", VStr (member_id m)); ("name", VStr (name m)); ("role", VStr (role m)); ("skills", VList (VStr <$> skills m))].
End CrewMember.

Module Crew.
Record t := Mk {
  crew_id : string;
  tenant_id : string;
  name : string;
  members : list CrewMember.t;
  skills : list string;
  active : bool;
}.

Definition as_dict (c : t) : doc :=
  [("crew_id", VStr (crew_id c)); ("tenant_id", VStr (tenant_id c)); ("name", VStr (name c));
   ("members", VList (map (fun m => VDict (CrewMember.as_dict m)) (members c))); ("skills", VList (VStr <$> skills c));
   ("active", VBool (active c))].
End Crew.

Module CrewAvailability.
Record t := Mk {
  availability_id : string;
  tenant_id : string;
  crew_id : string;
  start_date : string;
  end_date : string;
  status : string;
  note : string;
}.

Definition as_dict (a : t) : doc :=
  [("availability_id", VStr (availability_id a)); ("tenant_id", VStr (tenant_id a)); ("crew_id", VStr (crew_id a));
   ("start_date", VStr (start_date a)); ("end_date", VStr (end_date a)); ("status", VStr (status a)); ("note", VStr (note a))].
End CrewAvailability.

Abbreviation CrewAvailability := CrewAvailability.t.

Module CrewAssignment.
Record t := Mk {
  assignment_id : string;
  tenant_id : string;
  crew_id : string;
  job_id : string;
  schedule_id : string;
  phase_id : string;
  start_date : string;
  end_date : string;
  status : string;
}.

Definition as_dict (a : t) : doc :=
  [("assignment_id", VStr (assignment_id a)); ("tenant_id", VStr (tenant_id a)); ("crew_id", VStr (crew_id a));
   ("job_id", VStr (job_id a)); ("schedule_id", VStr (schedule_id a)); ("phase_id", VStr (phase_id a));
   ("start_date", VStr (start_date a)); ("end_date", VStr (end_date a)); ("status", VStr (status a))].
End CrewAssignment.

Abbreviation CrewAssignment := CrewAssignment.t.

Module CrewService.
(** [CrewMember(...)] of the item with the number [index] *)
Definition member_of (index : Z) (v : val) : res CrewMember.t :=
  let? item := as_mapping v in
  let member_id := match dget item "member_id" with
                   | Some v => if truthy v then py_str v else "member-" +:+ zpad 2 index
                   | None => "member-" +:+ zpad 2 index
                   end in
  let? name := text_field item "name" in
  let? role := text_field item "role" in
  let? skills := _strings (dget_or item "skills" (VList [])) in
  Ok (CrewMember.Mk member_id name role skills).

Fixpoint members_of (index : Z) (items : list val) : res (list CrewMember.t) :=
  match items with
  | [] => Ok []
  | v :: items' => let? m := member_of index v in let? ms := members_of (index + 1) items' in Ok (m :: ms)
  end.

Section Service.
Context `{Oracle}.

Definition create (tenant_id : string) (payload : doc) : res Crew.t :=
  let? name := text_field payload "name" in
  if bool_decide (name = "") then Err (Exn ValueError "crew name is required")
  else
  let? items := py_iter (dget_or payload "members" (VList [])) in
  let? members := members_of 1 items in
  if existsb (fun m => bool_decide (CrewMember.name m = "") || bool_decide (CrewMember.role m = "")) members
  then Err (Exn ValueError "crew member name and role are required")
  else
  let? skills := _strings (dget_or payload "skills" (VList [])) in
  let identity := [("tenant_id", VStr tenant_id); ("name", VStr name);
    ("members", VList (map (fun m => VDict (CrewMember.as_dict m)) members)); ("skills", VList (VStr <$> skills))] in
  Ok (Crew.Mk (id_of "crew" identity) tenant_id name members skills (bool_field_or payload "active" true)).

Definition availability (tenant_id crew_id : string) (payload : doc) : res CrewAvailability :=
  let? first := (let? s := str_field payload "start_date" in _date s) in
  let? last := (let? s := str_field payload "end_date" in _date s) in
  let status := str_field_or payload "status" "available" in
  if last <? first then Err (Exn ValueError "crew availability end date precedes start date")
  else if negb (bool_decide (status ∈ AVAILABILITY_STATUSES)) then Err (Exn ValueError "invalid crew availability status")
  else
  let note := str_field_or payload "note" "" in
  let identity := [("tenant_id", VStr tenant_id); ("crew_id", VStr crew_id); ("start_date", VStr (date_iso first));
    ("end_date", VStr (date_iso last)); ("status", VStr status); ("note", VStr note)] in
  Ok (CrewAvailability.Mk (id_of "availability" identity) tenant_id crew_id (date_iso first) (date_iso last) status note).

Definition assignment (tenant_id crew_id job_id schedule_id phase_id start_date end_date : string) (payload : doc) : res CrewAssignment :=
  let? first := _date start_date in
  let? last := _date end_date in
  let status := str_field_or payload "status" "assigned" in
  if last <? first then Err (Exn ValueError "crew assignment end date precedes start date")
  else if negb (bool_decide (status ∈ ASSIGNMENT_STATUSES)) then Err (Exn ValueError "invalid crew assignment status")
  else
  let identity := [("tenant_id", VStr tenant_id); ("crew_id", VStr crew_id); ("job_id", VStr job_id);
    ("schedule_id", VStr schedule_id); ("phase_id", VStr phase_id); ("start_date", VStr (date_iso first));
    ("end_date", VStr (date_iso last)); ("status", VStr status)] in
  Ok (CrewAssignment.Mk (id_of "assignment" identity) tenant_id crew_id job_id schedule_id phase_id (date_iso first) (date_iso last) status).
End Service.

Definition unassign (a : CrewAssignment) : CrewAssignment :=
  if bool_decide (CrewAssignment.status a = "cancelled") then a
  else CrewAssignment.Mk (CrewAssignment.assignment_id a) (CrewAssignment.tenant_id a) (CrewAssignment.crew_id a)
         (CrewAssignment.job_id a) (CrewAssignment.schedule_id a) (CrewAssignment.phase_id a) (CrewAssignment.start_date a)
         (CrewAssignment.end_date a) "cancelled".
End CrewService.

(** The second comparison is made when the first holds. *)
Definition overlaps (first_start first_end second_start second_end : string) : res bool :=
  let? a := _date first_start in
  let? d := _date second_end in
  if a <=? d then
    let? c := _date second_start in
    let? b := _date first_end in
    Ok (c <=? b)
  else Ok false.

(** * deliveries/ *)

Definition DELIVERY_STATUSES : list string := ["planned"; "ordered"; "in_transit"; "delivered"; "delayed"; "cancelled"].

Module MaterialDelivery.
Record t := Mk {
  delivery_id : string;
  tenant_id : string;
  job_id : string;
  schedule_id : string;
  phase_id : string;
  material : string;
  quantity : float;
  unit : string;
  required_date : string;
  expected_date : string;
  actual_date : string;
  status : string;
  supplier_reference : string;
}.

Definition as_dict (d : t) : doc :=
  [("delivery_id", VStr (delivery_id d)); ("tenant_id", VStr (tenant_id d)); ("job_id", VStr (job_id d));
   ("schedule_id", VStr (schedule_id d)); ("phase_id", VStr (phase_id d)); ("material", VStr (material d));
   ("quantity", VNumber (quantity d)); ("unit", VStr (unit d)); ("required_date", VStr (required_date d));
   ("expected_date", VStr (expected_date d)); ("actual_date", VStr (actual_date d)); ("status", VStr (status d));
   ("supplier_reference", VStr (supplier_reference d))].
End MaterialDelivery.

Abbreviation MaterialDelivery := MaterialDelivery.t.

Module DeliveryService.
(** A date is read if there is one. *)
Definition check_date (s : string) : res Datatypes.unit :=
  if bool_decide (s = "") then Ok tt else let? _ := _date s in Ok tt.

Definition create `{Oracle} (tenant_id job_id schedule_id phase_id : string) (payload : doc) : res MaterialDelivery :=
  let? material := text_field payload "material" in
  let? quantity := (let? v := dindex payload "quantity" in py_float v) in
  let? unit := text_field payload "unit" in
  let? required := (let? s := str_field payload "required_date" in _date s) in
  let? expected := (let? v := dindex payload "required_date" in _date (py_str (dget_or payload "expected_date" v))) in
  let actual := strip (str_field_or payload "actual_date" "") in
  let? _ := check_date actual in
  let status := str_field_or payload "status" "planned" in
  if bool_decide (material = "") || bool_decide (unit = "") || SFleb quantity (lit 0 1)
  then Err (Exn ValueError "delivery material, positive quantity, and unit are required")
  else if negb (bool_decide (status ∈ DELIVERY_STATUSES)) then Err (Exn ValueError "invalid material delivery status")
  else
  let supplier_reference := str_field_or payload "supplier_reference" "" in
  let identity := [("tenant_id", VStr tenant_id); ("job_id", VStr job_id); ("schedule_id", VStr schedule_id);
    ("phase_id", VStr phase_id); ("material", VStr material); ("quantity", VNumber quantity); ("unit", VStr unit);
    ("required_date", VStr (date_iso required)); ("supplier_reference", VStr supplier_reference)] in
  Ok (MaterialDelivery.Mk (id_of "delivery" identity) tenant_id job_id schedule_id phase_id material quantity unit
        (date_iso required) (date_iso expected) actual status supplier_reference).

Definition update (d : MaterialDelivery) (payload : doc) : res MaterialDelivery :=
  let expected_date := str_field_or payload "expected_date" (MaterialDelivery.expected_date d) in
  let actual_date := str_field_or payload "actual_date" (MaterialDelivery.actual_date d) in
  let status := str_field_or payload "status" (MaterialDelivery.status d) in
  let? _ := _date expected_date in
  let? _ := check_date actual_date in
  if negb (bool_decide (status ∈ DELIVERY_STATUSES)) then Err (Exn ValueError "invalid material delivery status")
  else
  Ok (MaterialDelivery.Mk (MaterialDelivery.delivery_id d) (MaterialDelivery.tenant_id d) (MaterialDelivery.job_id d)
        (MaterialDelivery.schedule_id d) (MaterialDelivery.phase_id d) (MaterialDelivery.material d) (MaterialDelivery.quantity d)
        (MaterialDelivery.unit d) (MaterialDelivery.required_date d) expected_date actual_date status
        (MaterialDelivery.supplier_reference d)).
End DeliveryService.

Definition delivery_effective_date (d : MaterialDelivery) : res Z :=
  _date (str_or (MaterialDelivery.actual_date d) (MaterialDelivery.expected_date d)).
