(* ===== verification/RenovationSchedule.v ===== *)
(** The schedules of renovation jobs (verticals/renovation/scheduling): the order
    of the phases, their earliest dates, and what late deliveries and busy crews
    do to them. *)

From stdpp Require Import base option list strings gmap sets.
From Stdlib Require Import ZArith Lia.
From S2P Require Import Prelude PyVal PyTime Store EventStore Graph Renovation.

Local Open Scope Z_scope.

(** * models.py *)

Module PhaseDependency.
Record t := Mk {
  predecessor_phase_id : string;
  successor_phase_id : string;
  dependency_type : string;
  lag_days : Z;
}.

Definition as_dict (d : t) : doc :=
  [("predecessor_phase_id", VStr (predecessor_phase_id d)); ("successor_phase_id", VStr (successor_phase_id d));
   ("dependency_type", VStr (dependency_type d)); ("lag_days", VInt (lag_days d))].
End PhaseDependency.

Abbreviation PhaseDependency := PhaseDependency.t.

Module SchedulePhase.
Record t := Mk {
  phase_id : string;
  name : string;
  sequence : Z;
  duration_days : Z;
  planned_start : string;
  planned_end : string;
  status : string;
  crew_assignment_ids : list string;
  delivery_ids : list string;
  blocked_reasons : list string;
}.

Definition as_dict (p : t) : doc :=
  [("phase_id", VStr (phase_id p)); ("name", VStr (name p)); ("sequence", VInt (sequence p));
   ("duration_days", VInt (duration_days p)); ("planned_start", VStr (planned_start p)); ("planned_end", VStr (planned_end p));
   ("status", VStr (status p)); ("crew_assignment_ids", VList (VStr <$> crew_assignment_ids p));
   ("delivery_ids", VList (VStr <$> delivery_ids p)); ("blocked_reasons", VList (VStr <$> blocked_reasons p))].
End SchedulePhase.

Abbreviation SchedulePhase := SchedulePhase.t.

Module ScheduleConflict.
Record t := Mk {
  conflict_id : string;
  conflict_type : string;
  severity : string;
  phase_id : string;
  reference_id : string;
  description : string;
}.

Definition as_dict (c : t) : doc :=
  [("conflict_id", VStr (conflict_id c)); ("conflict_type", VStr (conflict_type c)); ("severity", VStr (severity c));
   ("phase_id", VStr (phase_id c)); ("reference_id", VStr (reference_id c)); ("description", VStr (description c))].
End ScheduleConflict.

Abbreviation ScheduleConflict := ScheduleConflict.t.

Module DelayImpact.
Record t := Mk {
  delay_id : string;
  schedule_id : string;
  source_type : string;
  source_id : string;
  phase_id : string;
  delay_days : Z;
  original_completion_date : string;
  projected_completion_date : string;
  summary : string;
}.

Definition as_dict (i : t) : doc :=
  [("delay_id", VStr (delay_id i)); ("schedule_id", VStr (schedule_id i)); ("source_type", VStr (source_type i));
   ("source_id", VStr (source_id i)); ("phase_id", VStr (phase_id i)); ("delay_days", VInt (delay_days i));
   ("original_completion_date", VStr (original_completion_date i)); ("projected_completion_date", VStr (projected_completion_date i));
   ("summary", VStr (summary i))].
End DelayImpact.

Abbreviation DelayImpact := DelayImpact.t.

Module Schedule.
Record t := Mk {
  schedule_id : string;
  tenant_id : string;
  job_id : string;
  start_date : string;
  original_completion_date : string;
  projected_completion_date : string;
  status : string;
  revision : Z;
  phases : list SchedulePhase;
  dependencies : list PhaseDependency;
  conflicts : list ScheduleConflict;
  delay_impacts : list DelayImpact;
  schedule_hash : string;
}.

Definition as_dict (s : t) : doc :=
  [("schedule_id", VStr (schedule_id s)); ("tenant_id", VStr (tenant_id s)); ("job_id", VStr (job_id s));
   ("start_date", VStr (start_date s)); ("original_completion_date", VStr (original_completion_date s));
   ("projected_completion_date", VStr (projected_completion_date s)); ("status", VStr (status s)); ("revision", VInt (revision s));
   ("phases", VList (map (fun p => VDict (SchedulePhase.as_dict p)) (phases s)));
   ("dependencies", VList (map (fun d => VDict (PhaseDependency.as_dict d)) (dependencies s)));
   ("conflicts", VList (map (fun c => VDict (ScheduleConflict.as_dict c)) (conflicts s)));
   ("delay_impacts", VList (map (fun i => VDict (DelayImpact.as_dict i)) (delay_impacts s))); ("schedule_hash", VStr (schedule_hash s))].

(** [_schedule]: the hash is that of the schedule without it. *)
Definition sealed `{Oracle} (s : t) : t :=
  let provisional := Mk (schedule_id s) (tenant_id s) (job_id s) (start_date s) (original_completion_date s)
    (projected_completion_date s) (status s) (revision s) (phases s) (dependencies s) (conflicts s) (delay_impacts s) "" in
  Mk (schedule_id s) (tenant_id s) (job_id s) (start_date s) (original_completion_date s) (projected_completion_date s)
    (status s) (revision s) (phases s) (dependencies s) (conflicts s) (delay_impacts s) (_digest (VDict (as_dict provisional))).
End Schedule.

Abbreviation Schedule := Schedule.t.

Definition DEPENDENCY_TYPES : list string := ["finish_to_start"].
Definition SCHEDULE_STATUSES : list string := ["planned"; "active"; "delayed"; "completed"; "cancelled"].

(** * scheduling_service.py: the order of the phases *)

(** Tuples of keys are compared from the left. *)
Definition phase_le (p q : JobPhase) : bool :=
  if JobPhase.sequence p =? JobPhase.sequence q then str_le (JobPhase.phase_id p) (JobPhase.phase_id q)
  else JobPhase.sequence p <? JobPhase.sequence q.

Definition dependency_le (d e : PhaseDependency) : bool :=
  if bool_decide (PhaseDependency.successor_phase_id d = PhaseDependency.successor_phase_id e) then
    if bool_decide (PhaseDependency.predecessor_phase_id d = PhaseDependency.predecessor_phase_id e)
    then PhaseDependency.lag_days d <=? PhaseDependency.lag_days e
    else str_le (PhaseDependency.predecessor_phase_id d) (PhaseDependency.predecessor_phase_id e)
  else str_le (PhaseDependency.successor_phase_id d) (PhaseDependency.successor_phase_id e).

Definition dependency_of (v : val) : res PhaseDependency :=
  let? predecessor := vindex v "predecessor_phase_id" in
  let? successor := vindex v "successor_phase_id" in
  let? item := as_mapping v in
  let? lag_days := Floats.py_int_of_number (dget_or item "lag_days" (VInt 0)) in
  Ok (PhaseDependency.Mk (py_str predecessor) (py_str successor) (str_field_or item "dependency_type" "finish_to_start") lag_days).

(** Each phase after the one before it *)
Fixpoint chain (ordered : list JobPhase) : list PhaseDependency :=
  match ordered with
  | first :: ((second :: _) as rest) =>
      PhaseDependency.Mk (JobPhase.phase_id first) (JobPhase.phase_id second) "finish_to_start" 0 :: chain rest
  | _ => []
  end.

Definition check_dependency (phase_ids : list string) (d : PhaseDependency) : res unit :=
  if negb (bool_decide (PhaseDependency.predecessor_phase_id d ∈ phase_ids)) ||
     negb (bool_decide (PhaseDependency.successor_phase_id d ∈ phase_ids))
  then Err (Exn ValueError "schedule dependency references an unknown phase")
  else if bool_decide (PhaseDependency.predecessor_phase_id d = PhaseDependency.successor_phase_id d)
  then Err (Exn ValueError "schedule phase cannot depend on itself")
  else if negb (bool_decide (PhaseDependency.dependency_type d ∈ DEPENDENCY_TYPES)) || (PhaseDependency.lag_days d <? 0)
  then Err (Exn ValueError "invalid schedule dependency")
  else Ok tt.

Definition _dependencies (job : Job) (payload : doc) : res (list PhaseDependency) :=
  let? dependencies :=
    match dget payload "dependencies" with
    | Some v => let? items := py_iter v in res_map dependency_of items
    | None => Ok (chain (py_sorted phase_le (Job.phases job)))
    end in
  let? _ := res_map (check_dependency (JobPhase.phase_id <$> Job.phases job)) dependencies in
  Ok (py_sorted dependency_le dependencies).

(** [phases[phase_id]] *)
Definition phase_at (phases : dict JobPhase) (id : string) : res JobPhase :=
  match dget phases id with Some p => Ok p | None => Err (Exn KeyError (repr_str id)) end.

(** [incoming] and [successors] are the degrees and the children of a graph. *)
Definition add_dependency (g : graph) (d : PhaseDependency) : graph :=
  Graph (dset (children g) (PhaseDependency.predecessor_phase_id d)
           (children_of g (PhaseDependency.predecessor_phase_id d) ++ [PhaseDependency.successor_phase_id d]))
    (dset (indegree g) (PhaseDependency.successor_phase_id d) (degree (indegree g) (PhaseDependency.successor_phase_id d) + 1)).

(** The loop over the successors of a phase *)
Fixpoint release (phases : dict JobPhase) (successors : list string) (st : dict Z * list JobPhase) : res (dict Z * list JobPhase) :=
  match successors with
  | [] => Ok st
  | successor :: rest =>
      let incoming := dset st.1 successor (degree st.1 successor - 1) in
      if degree incoming successor =? 0 then
        let? p := phase_at phases successor in
        release phases rest (incoming, py_sorted phase_le (st.2 ++ [p]))
      else release phases rest (incoming, st.2)
  end.

(** [while ready]: every phase is taken once at most. *)
Fixpoint order_loop (fuel : nat) (phases : dict JobPhase) (g : graph) (incoming : dict Z) (ready ordered : list JobPhase)
    : res (list JobPhase) :=
  match fuel, ready with
  | Datatypes.S fuel', phase :: ready' =>
      let? st := release phases (py_sorted str_le (children_of g (JobPhase.phase_id phase))) (incoming, ready') in
      order_loop fuel' phases g st.1 st.2 (ordered ++ [phase])
  | _, _ => Ok ordered
  end.

Definition phases_by_id (l : list JobPhase) : dict JobPhase := foldl (fun d p => dset d (JobPhase.phase_id p) p) [] l.

Definition _ordered_phases (job : Job) (dependencies : list PhaseDependency) : res (list JobPhase) :=
  let phases := phases_by_id (Job.phases job) in
  let g := foldl add_dependency (Graph (map (fun p => (p.1, [])) phases) (map (fun p => (p.1, 0)) phases)) dependencies in
  let? ready := res_map (phase_at phases) (roots (indegree g)) in
  let? ordered := order_loop (length phases) phases g (indegree g) (py_sorted phase_le ready) [] in
  if negb (length ordered =? length phases)%nat then Err (Exn ValueError "schedule dependency graph contains a cycle") else Ok ordered.

(** * The dates of the phases *)

(** [phase_dates]: the first and the last day of the phases that were placed *)
Abbreviation dates := (dict (Z * Z)).

(** [for dependency in predecessors: start = max(start, end + timedelta(days=1 + lag))] *)
Fixpoint after_predecessors (placed : dates) (predecessors : list PhaseDependency) (start : Z) : res Z :=
  match predecessors with
  | [] => Ok start
  | d :: rest =>
      match dget placed (PhaseDependency.predecessor_phase_id d) with
      | None => Err (Exn KeyError (repr_str (PhaseDependency.predecessor_phase_id d)))
      | Some (_, last) =>
          let? free := add_days last (1 + PhaseDependency.lag_days d) in
          after_predecessors placed rest (Z.max start free)
      end
  end.

Definition predecessors_of (dependencies : list PhaseDependency) (phase_id : string) : list PhaseDependency :=
  List.filter (fun d => bool_decide (PhaseDependency.successor_phase_id d = phase_id)) dependencies.

(** The first and the last day of a phase *)
Definition place (dependencies : list PhaseDependency) (start : Z) (placed : dates) (phase_id : string) (duration : Z) : res (Z * Z) :=
  let? first := after_predecessors placed (predecessors_of dependencies phase_id) start in
  let? last := add_days first (duration - 1) in
  Ok (first, last).

(** The loop of [create] over the ordered phases *)
Fixpoint place_phases (durations : dict Z) (dependencies : list PhaseDependency) (start : Z) (placed : dates) (ordered : list JobPhase)
    : res (list SchedulePhase) :=
  match ordered with
  | [] => Ok []
  | phase :: rest =>
      let id := JobPhase.phase_id phase in
      let duration := default (JobPhase.duration_days phase) (dget durations id) in
      if duration <=? 0 then Err (Exn ValueError "schedule phase duration must be positive")
      else
      let? span := place dependencies start placed id duration in
      let? phases := place_phases durations dependencies start (dset placed id span) rest in
      Ok (SchedulePhase.Mk id (JobPhase.name phase) (JobPhase.sequence phase) duration (date_iso span.1) (date_iso span.2)
            (JobPhase.status phase) [] [] [] :: phases)
  end.

(** [max((_date(item.planned_end) for item in phases), default=start)] *)
Definition completion_of (phases : list SchedulePhase) (start : Z) : res Z :=
  let? ends := res_map (fun p => _date (SchedulePhase.planned_end p)) phases in
  Ok (match ends with [] => start | d :: l => foldl Z.max d l end).

Module SchedulingService.

Definition durations_of (payload : doc) : res (dict Z) :=
  let? d := dict_field_or_empty payload "phase_durations" in
  res_map (fun p => let? n := Floats.py_int_of_number p.2 in Ok (p.1, n)) d.

(** The part of a schedule its id is made of *)
Definition identity_of (tenant_id : string) (job : Job) (start : Z) (phases : list SchedulePhase) (dependencies : list PhaseDependency) : doc :=
  [("tenant_id", VStr tenant_id); ("job_id", VStr (Job.job_id job)); ("start_date", VStr (date_iso start));
   ("phases", VList (map (fun p => VDict [("phase_id", VStr (SchedulePhase.phase_id p)); ("duration_days", VInt (SchedulePhase.duration_days p))]) phases));
   ("dependencies", VList (map (fun d => VDict (PhaseDependency.as_dict d)) dependencies))].

Definition create `{Oracle} (tenant_id : string) (job : Job) (payload : doc) : res Schedule :=
  if negb (bool_decide (Job.tenant_id job = tenant_id)) then Err (Exn PermissionError "cross-tenant job access denied")
  else
  let? start := _date (str_field_or payload "start_date" (Job.accepted_date job)) in
  let status := str_field_or payload "status" "planned" in
  if negb (bool_decide (status ∈ SCHEDULE_STATUSES)) then Err (Exn ValueError "invalid schedule status")
  else
  let? durations := durations_of payload in
  if existsb (fun id => negb (bool_decide (id ∈ JobPhase.phase_id <$> Job.phases job))) durations.*1
  then Err (Exn ValueError "schedule duration override references an unknown phase")
  else
  let? dependencies := _dependencies job payload in
  let? ordered := _ordered_phases job dependencies in
  let? phases := place_phases durations dependencies start [] ordered in
  let? completion := completion_of phases start in
  Ok (Schedule.sealed (Schedule.Mk (id_of "schedule" (identity_of tenant_id job start phases dependencies)) tenant_id (Job.job_id job)
        (date_iso start) (date_iso completion) (date_iso completion) status 1 phases dependencies [] [] "")).

(** ** Conflicts of crews *)

Definition _conflict `{Oracle} (conflict_type phase_id reference_id description : string) : ScheduleConflict :=
  let identity := [("conflict_type", VStr conflict_type); ("phase_id", VStr phase_id); ("reference_id", VStr reference_id);
    ("description", VStr description)] in
  ScheduleConflict.Mk (id_of "conflict" identity) conflict_type "high" phase_id reference_id description.

Definition is_active (a : CrewAssignment) : bool := negb (bool_decide (CrewAssignment.status a = "cancelled")).

Definition assignment_le (a b : CrewAssignment) : bool := str_le (CrewAssignment.assignment_id a) (CrewAssignment.assignment_id b).

(** Two assignments of a crew, at least one of them to this schedule, that overlap *)
Definition overlap_of `{Oracle} (schedule_id : string) (first second : CrewAssignment) : res (list ScheduleConflict) :=
  if bool_decide (CrewAssignment.crew_id first = CrewAssignment.crew_id second) &&
     negb (bool_decide (CrewAssignment.assignment_id first = CrewAssignment.assignment_id second)) &&
     (bool_decide (CrewAssignment.schedule_id first = schedule_id) || bool_decide (CrewAssignment.schedule_id second = schedule_id))
  then
    let? o := overlaps (CrewAssignment.start_date first) (CrewAssignment.end_date first)
                (CrewAssignment.start_date second) (CrewAssignment.end_date second) in
    if o then
      let own := bool_decide (CrewAssignment.schedule_id first = schedule_id) in
      Ok [_conflict "crew_overlap" (CrewAssignment.phase_id (if own then first else second))
            (CrewAssignment.assignment_id (if own then second else first))
            ("Crew " +:+ CrewAssignment.crew_id first +:+ " has overlapping assignments.")]
    else Ok []
  else Ok [].

Fixpoint overlap_conflicts `{Oracle} (schedule_id : string) (active : list CrewAssignment) : res (list ScheduleConflict) :=
  match active with
  | [] => Ok []
  | first :: rest =>
      let? here := res_map (overlap_of schedule_id first) rest in
      let? later := overlap_conflicts schedule_id rest in
      Ok (concat here ++ later)
  end.

(** [[item for item in availability if ...]] for an assignment *)
Fixpoint unavailable (a : CrewAssignment) (availability : list CrewAvailability) : res (list CrewAvailability) :=
  match availability with
  | [] => Ok []
  | item :: rest =>
      let? o := if bool_decide (CrewAvailability.crew_id item = CrewAssignment.crew_id a) &&
                   bool_decide (CrewAvailability.status item ∈ ["unavailable"; "limited"])
                then overlaps (CrewAssignment.start_date a) (CrewAssignment.end_date a)
                       (CrewAvailability.start_date item) (CrewAvailability.end_date item)
                else Ok false in
      let? l := unavailable a rest in
      Ok (if o then item :: l else l)
  end.

Definition availability_le (a b : CrewAvailability) : bool :=
  str_le (CrewAvailability.availability_id a) (CrewAvailability.availability_id b).

Definition absences `{Oracle} (schedule_id : string) (availability : list CrewAvailability) (a : CrewAssignment) : res (list ScheduleConflict) :=
  if negb (bool_decide (CrewAssignment.schedule_id a = schedule_id)) then Ok []
  else
  let? records := unavailable a availability in
  Ok (map (fun record => _conflict "crew_unavailable" (CrewAssignment.phase_id a) (CrewAvailability.availability_id record)
        ("Crew " +:+ CrewAssignment.crew_id a +:+ " is " +:+ CrewAvailability.status record +:+ " during the assignment."))
      (py_sorted availability_le records)).

(** Conflicts with the same id are one; they come in the order of the ids. *)
Definition unique_conflicts (conflicts : list ScheduleConflict) : list ScheduleConflict :=
  (py_sorted key_le (foldl (fun d c => dset d (ScheduleConflict.conflict_id c) c) [] conflicts)).*2.

Definition _crew_conflicts `{Oracle} (schedule_id : string) (assignments : list CrewAssignment) (availability : list CrewAvailability)
    : res (list ScheduleConflict) :=
  let active := py_sorted assignment_le (List.filter is_active assignments) in
  let? overlapping := overlap_conflicts schedule_id active in
  let? absent := res_map (absences schedule_id availability) active in
  Ok (unique_conflicts (overlapping ++ concat absent)).

(** ** Recalculation *)

Definition delivery_le (a b : MaterialDelivery) : bool := str_le (MaterialDelivery.delivery_id a) (MaterialDelivery.delivery_id b).
Definition conflict_le (a b : ScheduleConflict) : bool := str_le (ScheduleConflict.conflict_id a) (ScheduleConflict.conflict_id b).
Definition predecessor_le (a b : PhaseDependency) : bool :=
  str_le (PhaseDependency.predecessor_phase_id a) (PhaseDependency.predecessor_phase_id b).

(** The loop over the deliveries of a phase: its start, the longest delay of a
    delivery, and why it is blocked *)
Fixpoint await_deliveries (deliveries : list MaterialDelivery) (start delay : Z) (blocked : list string) : res (Z * Z * list string) :=
  match deliveries with
  | [] => Ok (start, delay, blocked)
  | delivery :: rest =>
      let? effective := delivery_effective_date delivery in
      let? required := _date (MaterialDelivery.required_date delivery) in
      let late_days := Z.max 0 (effective - required) in
      if bool_decide (MaterialDelivery.status delivery ∈ ["delayed"; "cancelled"]) || negb (late_days =? 0) then
        await_deliveries rest (Z.max start effective) (Z.max delay (if late_days =? 0 then 1 else late_days))
          (blocked ++ ["material delivery " +:+ MaterialDelivery.delivery_id delivery +:+ " is " +:+ MaterialDelivery.status delivery])
      else await_deliveries rest (Z.max start effective) delay blocked
  end.

(** What a delay is put down to: its kind and its source *)
Definition source_of (delay : Z) (deliveries : list MaterialDelivery) (conflicts : list ScheduleConflict)
    (predecessors : list PhaseDependency) : res (string * string) :=
  if negb (delay =? 0) then
    match py_sorted delivery_le deliveries with
    | d :: _ => Ok ("delivery", MaterialDelivery.delivery_id d)
    | [] => Err (Exn IndexError "list index out of range")
    end
  else match conflicts with
       | _ :: _ => match py_sorted conflict_le conflicts with
                   | c :: _ => Ok ("crew", ScheduleConflict.reference_id c)
                   | [] => Err (Exn IndexError "list index out of range")
                   end
       | [] => match py_sorted predecessor_le predecessors with
               | p :: _ => Ok ("dependency", PhaseDependency.predecessor_phase_id p)
               | [] => Err (Exn IndexError "list index out of range")
               end
       end.

Definition impact_of `{Oracle} (schedule : Schedule) (phase : SchedulePhase) (source : string * string) (delay_days last : Z) : DelayImpact :=
  let identity := [("schedule_id", VStr (Schedule.schedule_id schedule)); ("phase_id", VStr (SchedulePhase.phase_id phase));
    ("source_type", VStr source.1); ("source_id", VStr source.2); ("delay_days", VInt delay_days);
    ("revision", VInt (Schedule.revision schedule + 1))] in
  DelayImpact.Mk (id_of "delay" identity) (Schedule.schedule_id schedule) source.1 source.2 (SchedulePhase.phase_id phase) delay_days
    (Schedule.original_completion_date schedule) (date_iso last)
    (SchedulePhase.name phase +:+ " is projected " +:+ py_str (VInt delay_days) +:+ " day(s) later because of " +:+ source.1 +:+ " constraints.").

(** One phase: its days without what holds it up, its days with it, the phase as
    it is now planned, and the delay if there is one *)
Definition replan `{Oracle} (schedule : Schedule) (assignments : list CrewAssignment) (deliveries : list MaterialDelivery)
    (conflicts : list ScheduleConflict) (start : Z) (baseline placed : dates) (phase : SchedulePhase)
    : res ((Z * Z) * (Z * Z) * SchedulePhase * list DelayImpact) :=
  let id := SchedulePhase.phase_id phase in
  let predecessors := predecessors_of (Schedule.dependencies schedule) id in
  let own_deliveries := List.filter (fun d => bool_decide (MaterialDelivery.phase_id d = id)) deliveries in
  let own_conflicts := List.filter (fun c => bool_decide (ScheduleConflict.phase_id c = id)) conflicts in
  let own_assignments := List.filter (fun a => bool_decide (CrewAssignment.schedule_id a = Schedule.schedule_id schedule) &&
                                       bool_decide (CrewAssignment.phase_id a = id)) assignments in
  let? baseline_span := place (Schedule.dependencies schedule) start baseline id (SchedulePhase.duration_days phase) in
  let? after := after_predecessors placed predecessors baseline_span.1 in
  let? held := await_deliveries (py_sorted delivery_le own_deliveries) after 0 [] in
  let '(supplied, delay, late) := held in
  let? first := match own_conflicts with [] => Ok supplied | _ => add_days supplied (Z.of_nat (length own_conflicts)) end in
  let blocked := late ++ map ScheduleConflict.description own_conflicts in
  let? last := add_days first (SchedulePhase.duration_days phase - 1) in
  let delay_days := Z.max 0 (last - baseline_span.2) in
  let? impacts :=
    if delay_days =? 0 then Ok []
    else let? source := source_of delay own_deliveries own_conflicts predecessors in Ok [impact_of schedule phase source delay_days last] in
  Ok (baseline_span, (first, last),
      SchedulePhase.Mk id (SchedulePhase.name phase) (SchedulePhase.sequence phase) (SchedulePhase.duration_days phase)
        (date_iso first) (date_iso last) (match blocked with [] => SchedulePhase.status phase | _ => "blocked" end)
        (map CrewAssignment.assignment_id (py_sorted assignment_le own_assignments))
        (map MaterialDelivery.delivery_id (py_sorted delivery_le own_deliveries)) (py_sorted_set (list_to_set blocked)),
      impacts).

Fixpoint replan_phases `{Oracle} (schedule : Schedule) (assignments : list CrewAssignment) (deliveries : list MaterialDelivery)
    (conflicts : list ScheduleConflict) (start : Z) (baseline placed : dates) (phases : list SchedulePhase)
    : res (list SchedulePhase * list DelayImpact) :=
  match phases with
  | [] => Ok ([], [])
  | phase :: rest =>
      let? one := replan schedule assignments deliveries conflicts start baseline placed phase in
      let '(baseline_span, span, replanned, impacts) := one in
      let id := SchedulePhase.phase_id phase in
      let? others := replan_phases schedule assignments deliveries conflicts start (dset baseline id baseline_span) (dset placed id span) rest in
      Ok (replanned :: others.1, impacts ++ others.2)
  end.

Definition with_completion (completion : Z) (i : DelayImpact) : DelayImpact :=
  DelayImpact.Mk (DelayImpact.delay_id i) (DelayImpact.schedule_id i) (DelayImpact.source_type i) (DelayImpact.source_id i)
    (DelayImpact.phase_id i) (DelayImpact.delay_days i) (DelayImpact.original_completion_date i) (date_iso completion) (DelayImpact.summary i).

(** The start of the schedule is read with the first phase, and again at the end. *)
Definition recalculate `{Oracle} (schedule : Schedule) (assignments : list CrewAssignment) (availability : list CrewAvailability)
    (deliveries : list MaterialDelivery) (payload : doc) : res Schedule :=
  let status := str_field_or payload "status" (Schedule.status schedule) in
  if negb (bool_decide (status ∈ SCHEDULE_STATUSES)) then Err (Exn ValueError "invalid schedule status")
  else
  let? conflicts := _crew_conflicts (Schedule.schedule_id schedule) assignments availability in
  let? start := _date (Schedule.start_date schedule) in
  let? replanned := replan_phases schedule assignments deliveries conflicts start [] [] (Schedule.phases schedule) in
  let? completion := completion_of replanned.1 start in
  let? original := _date (Schedule.original_completion_date schedule) in
  Ok (Schedule.sealed (Schedule.Mk (Schedule.schedule_id schedule) (Schedule.tenant_id schedule) (Schedule.job_id schedule)
        (Schedule.start_date schedule) (Schedule.original_completion_date schedule) (date_iso completion)
        (if original <? completion then "delayed" else status) (Schedule.revision schedule + 1) replanned.1
        (Schedule.dependencies schedule) conflicts (map (with_completion completion) replanned.2) "")).

(** ** The summary for the customer *)

Definition schedule_phase_le (p q : SchedulePhase) : bool :=
  if SchedulePhase.sequence p =? SchedulePhase.sequence q then str_le (SchedulePhase.phase_id p) (SchedulePhase.phase_id q)
  else SchedulePhase.sequence p <? SchedulePhase.sequence q.

Definition customer_summary `{Oracle} (schedule : Schedule) : res doc :=
  let? projected := _date (Schedule.projected_completion_date schedule) in
  let? original := _date (Schedule.original_completion_date schedule) in
  let summary := [("schedule_id", VStr (Schedule.schedule_id schedule)); ("job_id", VStr (Schedule.job_id schedule));
    ("status", VStr (Schedule.status schedule)); ("start_date", VStr (Schedule.start_date schedule));
    ("projected_completion_date", VStr (Schedule.projected_completion_date schedule));
    ("total_delay_days", VInt (Z.max 0 (projected - original)));
    ("phases", VList (map (fun p => VDict [("name", VStr (SchedulePhase.name p)); ("start_date", VStr (SchedulePhase.planned_start p));
        ("end_date", VStr (SchedulePhase.planned_end p)); ("status", VStr (SchedulePhase.status p))])
      (py_sorted schedule_phase_le (Schedule.phases schedule))));
    ("delay_summaries", VList (map (fun i => VStr (DelayImpact.summary i)) (Schedule.delay_impacts schedule)))] in
  Ok (summary ++ [("summary_hash", VStr (_digest (VDict summary)))]).
End SchedulingService.
