(* ===== verification/RenovationPlans.v ===== *)
(** What the schedules of renovation jobs keep: phases come after what they depend
    on, as early as they can, and a recalculation delays them by what holds them
    up. *)

From stdpp Require Import base option list strings gmap sets.
From Stdlib Require Import ZArith Lia.
From S2P Require Import Prelude PyVal PyTime Store EventStore Graph Renovation RenovationSchedule.

Local Open Scope Z_scope.

Implicit Types (job : Job) (p q : JobPhase) (deps : list PhaseDependency).

(** * The order *)

(** The edges of the dependencies *)
Definition dependency_edges deps : list (string * string) :=
  map (fun d => (PhaseDependency.predecessor_phase_id d, PhaseDependency.successor_phase_id d)) deps.

(** The dependencies are between phases. *)
Definition between (ids : list string) deps : Prop :=
  ∀ d, d ∈ deps → PhaseDependency.predecessor_phase_id d ∈ ids ∧ PhaseDependency.successor_phase_id d ∈ ids.

(** An order of the phases in which each comes after those it depends on *)
Definition plan_of (phases : list JobPhase) deps (l : list JobPhase) : Prop :=
  l ≡ₚ phases ∧ ordered (dependency_edges deps) (JobPhase.phase_id <$> l).

Lemma edges_between ids deps u v :
  between ids deps → (u, v) ∈ dependency_edges deps → u ∈ ids ∧ v ∈ ids.
Proof. intros Hb (d & [= -> ->] & Hd)%list_elem_of_fmap. by apply Hb. Qed.

Lemma add_dependencies_ok ids E g deps :
  between ids deps → graph_ok ids E g → graph_ok ids (E ++ dependency_edges deps) (foldl add_dependency g deps).
Proof.
  revert E g. induction deps as [|d deps IH]; intros E g Hb Hg; [by rewrite app_nil_r|].
  cbn [foldl dependency_edges map]. rewrite (cons_middle _ E), app_assoc. apply IH; [intros d' Hd'; apply Hb; by right|].
  apply add_dep_ok; [|done]. by apply Hb; left.
Qed.

Lemma empty_graph_ok (phases : dict JobPhase) :
  graph_ok phases.*1 [] (Graph (map (fun x => (x.1, [])) phases) (map (fun x => (x.1, 0)) phases)).
Proof.
  split_and!.
  - intros d. unfold children_of. cbn [children]. rewrite (dget_map (fun _ => [])). by destruct (dget phases d).
  - intros c. unfold degree. cbn [indegree]. rewrite (dget_map (fun _ => 0)). by destruct (dget phases c).
  - cbn. change (map ?f ?l) with (f <$> l). rewrite <- list_fmap_compose. by apply list_fmap_ext.
Qed.

(** The table of the phases, when their ids differ *)
Lemma phases_by_id_eq (l : list JobPhase) :
  NoDup (JobPhase.phase_id <$> l) → phases_by_id l = map (fun p => (JobPhase.phase_id p, p)) l.
Proof.
  apply (dict_by_key JobPhase.phase_id).
Qed.

Section Order.
Context (phases : dict JobPhase) (E : list (string * string)).
Hypothesis phases_ok : dict_ok phases.
Hypothesis phases_id : ∀ id p, (id, p) ∈ phases → JobPhase.phase_id p = id.
Hypothesis edges_in : ∀ u v, (u, v) ∈ E → u ∈ phases.*1 ∧ v ∈ phases.*1.

Abbreviation ids_of l := (JobPhase.phase_id <$> (l : list JobPhase)).
Definition are_phases (l : list JobPhase) : Prop := Forall (fun p => (JobPhase.phase_id p, p) ∈ phases) l.

Lemma phase_at_ok id : id ∈ phases.*1 → ∃ p, phase_at phases id = Ok p ∧ JobPhase.phase_id p = id ∧ (id, p) ∈ phases.
Proof.
  intros ([id' p] & -> & Hp)%list_elem_of_fmap. exists p. unfold phase_at. cbn [fst]. rewrite (elem_dget _ _ _ phases_ok Hp).
  split_and!; [done|by apply phases_id|done].
Qed.

Lemma phases_at_ok l :
  (∀ id, id ∈ l → id ∈ phases.*1) → ∃ ps, res_map (phase_at phases) l = Ok ps ∧ ids_of ps = l ∧ are_phases ps.
Proof.
  induction l as [|id l IH]; intros Hl; [exists []; by split_and!; [| |constructor]|].
  destruct (phase_at_ok id) as (p & Hp & Hid & Hin); [apply Hl; by left|].
  destruct IH as (ps & Hps & Hids & Hall); [intros x Hx; apply Hl; by right|].
  exists (p :: ps). cbn [res_map]. rewrite Hp. cbn [res_bind]. rewrite Hps. split_and!; [done|cbn; by rewrite Hid, Hids|].
  constructor; [by rewrite Hid|done].
Qed.

Lemma are_phases_perm l l' : l ≡ₚ l' → are_phases l → are_phases l'.
Proof. unfold are_phases. by intros ->. Qed.

(** What becomes ready joins the others, in their order. *)
Lemma release_walk done rest ind ready :
  (∀ c, c ∈ rest → c ∈ phases.*1) → are_phases ready → walk E phases.*1 done rest ind (ids_of ready) →
  ∃ st, release phases rest (ind, ready) = Ok st ∧ walk E phases.*1 done [] st.1 (ids_of st.2) ∧ are_phases st.2.
Proof.
  revert ind ready. induction rest as [|c rest IH]; intros ind ready Hr Ha Hw; [by eexists|].
  assert (Hc : c ∈ phases.*1) by (apply Hr; by left). cbn [release fst snd].
  eapply relax_walk in Hw; [|exact Hc]. unfold relax in Hw. cbn [fst snd] in Hw.
  destruct (degree (dset ind c (degree ind c - 1)) c =? 0).
  - destruct (phase_at_ok c Hc) as (p & -> & Hid & Hin). cbn [res_bind].
    assert (Hs : py_sorted phase_le (ready ++ [p]) ≡ₚ ready ++ [p]) by apply py_sorted_perm.
    apply IH; [intros x Hx; apply Hr; by right| |].
    + apply (are_phases_perm (ready ++ [p])); [by rewrite Hs|]. apply Forall_app. split; [done|]. constructor; [by rewrite Hid|done].
    + eapply walk_perm; [done| |exact Hw]. rewrite Hs, fmap_app. cbn. by rewrite Hid.
  - apply IH; [intros x Hx; apply Hr; by right|done|done].
Qed.

(** The loop ends with nothing ready. *)
Lemma order_loop_done g fuel ind ready ordered :
  (∀ d, children_of g d = edge_children E d) → are_phases ready → are_phases ordered →
  walk E phases.*1 (ids_of ordered) [] ind (ids_of ready) → (length phases - length ordered ≤ fuel)%nat →
  ∃ l ind', order_loop fuel phases g ind ready ordered = Ok l ∧ walk E phases.*1 (ids_of l) [] ind' [] ∧ are_phases l.
Proof.
  intros Hch. revert ind ready ordered. induction fuel as [|fuel IH]; intros ind ready ordered Ha Ho Hw Hf;
    pose proof (walk_length _ _ _ _ _ Hw) as Hlen; rewrite !length_fmap in Hlen.
  - destruct ready as [|p ready]; [by exists ordered, ind|cbn in Hlen; lia].
  - destruct ready as [|p ready]; [by exists ordered, ind|]. cbn [order_loop].
    apply Forall_cons in Ha as [Hp Ha]. apply pop_walk in Hw.
    assert (Hs : py_sorted str_le (children_of g (JobPhase.phase_id p)) ≡ₚ edge_children E (JobPhase.phase_id p)) by
      (rewrite py_sorted_perm; by rewrite Hch).
    destruct (release_walk (ids_of ordered ++ [JobPhase.phase_id p]) (py_sorted str_le (children_of g (JobPhase.phase_id p))) ind ready)
      as (st & -> & Hw' & Ha'); [|done|by eapply walk_perm|].
    + intros c. rewrite Hs. intros Hc. by eapply child_in.
    + cbn [res_bind]. apply IH; [done| | |rewrite length_app; cbn; lia].
      * apply Forall_app. by split; [|constructor].
      * by rewrite fmap_app.
Qed.
End Order.

(** A phase as a node: its dependencies are kept outside it. *)
#[local] Instance job_phase_node : GraphNode JobPhase := { node_id := JobPhase.phase_id; dependencies _ := [] }.

(** The order of the phases is complete: there is a plan or a cycle. *)
Lemma ordered_phases_spec job deps :
  NoDup (JobPhase.phase_id <$> Job.phases job) → between (JobPhase.phase_id <$> Job.phases job) deps →
  match _ordered_phases job deps with
  | Ok l => plan_of (Job.phases job) deps l
  | Err e => e = Exn ValueError "schedule dependency graph contains a cycle" ∧ ¬ ∃ l, plan_of (Job.phases job) deps l
  end.
Proof.
  intros Hnd Hb. unfold _ordered_phases. rewrite phases_by_id_eq by done.
  set (phases := map (fun p => (JobPhase.phase_id p, p)) (Job.phases job)).
  assert (Hids : phases.*1 = JobPhase.phase_id <$> Job.phases job).
  { unfold phases. change (map ?f ?l) with (f <$> l). by rewrite <- list_fmap_compose. }
  assert (Hok : dict_ok phases) by (unfold dict_ok; by rewrite Hids).
  assert (Hid : ∀ id p, (id, p) ∈ phases → JobPhase.phase_id p = id ∧ p ∈ Job.phases job).
  { intros id p (p' & [= -> ->] & Hp)%list_elem_of_fmap. done. }
  assert (Hg := empty_graph_ok phases). apply (add_dependencies_ok _ _ _ deps) in Hg; [|by rewrite Hids]. cbn [app] in Hg.
  set (g := foldl add_dependency _ deps) in *. assert (Hw := roots_walk_of _ _ g Hok Hg).
  assert (Hedges : ∀ u v, (u, v) ∈ dependency_edges deps → u ∈ phases.*1 ∧ v ∈ phases.*1).
  { intros u v. rewrite Hids. by apply edges_between. }
  destruct (phases_at_ok phases Hok (fun id p Hp => proj1 (Hid id p Hp)) (roots (indegree g))) as (ready & -> & Hready & Hall).
  { intros id Hr. destruct Hw as [_ Hin _ _ _]. apply Hin, Hr. }
  cbn [res_bind]. assert (Hs : py_sorted phase_le ready ≡ₚ ready) by apply py_sorted_perm.
  destruct (order_loop_done phases (dependency_edges deps) Hok (fun id p Hp => proj1 (Hid id p Hp)) Hedges g (length phases)
    (indegree g) (py_sorted phase_le ready) []) as (l & ind & -> & Hwl & Hl); [apply Hg| | | |lia|].
  { by apply (are_phases_perm phases ready). }
  { constructor. }
  { eapply walk_perm; [done| |exact Hw]. by rewrite Hs, Hready. }
  cbn [res_bind]. destruct (walk_complete _ _ _ _ Hok Hwl) as (_ & Hord & _ & Hlen & Hex).
  rewrite !length_fmap in Hlen. destruct (Nat.eqb_spec (length l) (length phases)) as [El|El]; cbn [negb].
  - split; [|done]. apply (nodes_perm (Job.phases job)); [done| |].
    2: { change (JobPhase.phase_id <$> l ≡ₚ JobPhase.phase_id <$> Job.phases job). rewrite <- Hids. by apply Hlen. }
    intros p Hp. unfold are_phases in Hl. rewrite Forall_forall in Hl. by apply (Hid (JobPhase.phase_id p) p), Hl.
  - split; [done|]. intros (o & Hp & Ho). apply El, Hlen, Hex. exists (JobPhase.phase_id <$> o). split; [|done]. by rewrite Hids, Hp.
Qed.

(** * The dates *)

Section Dates.
Context (deps : list PhaseDependency) (start : Z) (duration : string → Z).
Implicit Types (placed : dates) (f : string → Z).

(** First days that keep to the start and to the dependencies *)
Definition feasible (ids : list string) f : Prop :=
  (∀ id, id ∈ ids → start <= f id) ∧
  ∀ d, d ∈ deps → PhaseDependency.successor_phase_id d ∈ ids → PhaseDependency.predecessor_phase_id d ∈ ids →
    f (PhaseDependency.predecessor_phase_id d) + duration (PhaseDependency.predecessor_phase_id d) + PhaseDependency.lag_days d <=
    f (PhaseDependency.successor_phase_id d).

(** The phases that were placed have their days, after the start and after
    what they depend on, and no feasible plan has one of them earlier. *)
Record sound placed : Prop := Sound {
  sd_days : ∀ id s e, dget placed id = Some (s, e) → e = s + duration id - 1 ∧ day_ok e ∧ start <= s;
  sd_after : ∀ d s e, d ∈ deps → dget placed (PhaseDependency.successor_phase_id d) = Some (s, e) →
    ∃ a b, dget placed (PhaseDependency.predecessor_phase_id d) = Some (a, b) ∧ b + 1 + PhaseDependency.lag_days d <= s;
  sd_least : ∀ f, feasible placed.*1 f → ∀ id s e, dget placed id = Some (s, e) → s <= f id;
}.

Lemma add_days_Ok d n d' : add_days d n = Ok d' → d' = d + n ∧ day_ok d'.
Proof. unfold add_days, day_ok. case_match; [done|]. case_bool_decide; [|done]. by intros [= <-]. Qed.

(** The day after the predecessors is the latest of what they ask for. *)
Lemma after_predecessors_Ok placed preds first s :
  after_predecessors placed preds first = Ok s →
  first <= s ∧
  (∀ d, d ∈ preds → ∃ a b, dget placed (PhaseDependency.predecessor_phase_id d) = Some (a, b) ∧ b + 1 + PhaseDependency.lag_days d <= s) ∧
  (s = first ∨ ∃ d a b, d ∈ preds ∧ dget placed (PhaseDependency.predecessor_phase_id d) = Some (a, b) ∧ s = b + 1 + PhaseDependency.lag_days d).
Proof.
  revert first. induction preds as [|d preds IH]; intros first; cbn [after_predecessors].
  { intros [= <-]. split_and!; [lia|by intros d ?%elem_of_nil|by left]. }
  destruct (dget placed _) as [[a b]|] eqn:Hd; [|done]. destruct (add_days b _) as [free|] eqn:Ha; [|done]. cbn [res_bind].
  apply add_days_Ok in Ha as [-> _]. intros Hs. apply IH in Hs as (Hge & Hall & Hor). split; [lia|]. split.
  - intros d' [->|Hd']%elem_of_cons; [exists a, b; split; [done|lia]|by apply Hall].
  - destruct Hor as [->|(d' & a' & b' & Hd' & Hg & ->)].
    + destruct (Z.max_spec first (b + (1 + PhaseDependency.lag_days d))) as [[_ ->]|[_ ->]]; [|by left].
      right. exists d, a, b. split; [by left|]. split; [done|lia].
    + right. exists d', a', b'. split; [by right|done].
Qed.

Lemma elem_of_predecessors d id : d ∈ predecessors_of deps id ↔ d ∈ deps ∧ PhaseDependency.successor_phase_id d = id.
Proof. unfold predecessors_of. rewrite list_elem_of_In, filter_In, <- list_elem_of_In. by rewrite bool_decide_eq_true. Qed.

(** Another phase is placed. *)
Lemma sound_place placed id n s e :
  sound placed → dget placed id = None → n = duration id → place deps start placed id n = Ok (s, e) → sound (dset placed id (s, e)).
Proof.
  intros [Hdays Hafter Hleast] Hnew -> Hp. unfold place in Hp.
  destruct (after_predecessors _ _ _) as [first|] eqn:Hf; [|done]. cbn [res_bind] in Hp.
  destruct (add_days first _) as [last|] eqn:Ha; [|done]. injection Hp as -> ->.
  apply add_days_Ok in Ha as [-> Hok]. apply after_predecessors_Ok in Hf as (Hge & Hall & Hor).
  assert (Hne : ∀ x a b, dget placed x = Some (a, b) → dget (dset placed id (s, s + (duration id - 1))) x = Some (a, b)).
  { intros x a b Hx. rewrite dget_dset_ne; [done|]. intros ->. congruence. }
  split.
  - intros x a b. rewrite dget_dset. case_bool_decide as E; [|by apply Hdays]. subst x. intros [= <- <-]. split_and!; [lia|done|done].
  - intros d a b Hd. rewrite dget_dset. case_bool_decide as E.
    + intros [= <- <-]. destruct (Hall d) as (u & v & Hg & Hle); [by apply elem_of_predecessors|]. exists u, v. split; [by apply Hne|done].
    + intros Hg. destruct (Hafter d a b Hd Hg) as (u & v & Hg' & Hle). exists u, v. split; [by apply Hne|done].
  - intros f Hf x a b. assert (Hf' : feasible placed.*1 f).
    { destruct Hf as [Hs Hd]. assert (∀ y, y ∈ placed.*1 → y ∈ (dset placed id (s, s + (duration id - 1))).*1) as Hsub.
      { intros y Hy. rewrite dset_fst. case_decide; [done|]. apply elem_of_app. by left. }
      split; [intros y Hy; by apply Hs, Hsub|]. intros d Hdd H1 H2. apply Hd; [done|by apply Hsub..]. }
    rewrite dget_dset. case_bool_decide as E; [|by apply (Hleast f Hf')]. subst x. intros [= <- <-].
    assert (Hin : ∀ y w, dget (dset placed id (s, s + (duration id - 1))) y = Some w → y ∈ (dset placed id (s, s + (duration id - 1))).*1).
    { intros y w Hy. apply dget_Some_elem in Hy. by apply (list_elem_of_fmap_2 fst) in Hy. }
    destruct Hf as [Hs Hd]. destruct Hor as [->|(d & u & v & Hdp & Hg & ->)].
    + apply Hs. eapply Hin, dget_dset_eq.
    + apply elem_of_predecessors in Hdp as [Hdd <-]. pose proof (Hleast f Hf' _ _ _ Hg). destruct (Hdays _ _ _ Hg) as [-> _].
      specialize (Hd d Hdd). enough (f (PhaseDependency.predecessor_phase_id d) + duration (PhaseDependency.predecessor_phase_id d) +
        PhaseDependency.lag_days d <= f (PhaseDependency.successor_phase_id d)) by lia.
      apply Hd; [eapply Hin, dget_dset_eq|]. eapply Hin, Hne, Hg.
Qed.

Lemma sound_nil : sound [].
Proof. by split. Qed.
End Dates.

(** ** The plan of a job *)

(** The days of a phase: those given for it, or its own *)
Definition duration_of (job : Job) (durations : dict Z) (id : string) : Z :=
  match dget (phases_by_id (Job.phases job)) id with
  | Some p => default (JobPhase.duration_days p) (dget durations id)
  | None => 0
  end.

Lemma duration_of_phase job durations p :
  NoDup (JobPhase.phase_id <$> Job.phases job) → p ∈ Job.phases job →
  duration_of job durations (JobPhase.phase_id p) = default (JobPhase.duration_days p) (dget durations (JobPhase.phase_id p)).
Proof.
  intros Hnd Hp. unfold duration_of. rewrite phases_by_id_eq by done.
  rewrite (elem_dget _ (JobPhase.phase_id p) p); [done| |].
  - unfold dict_ok. change (map ?f ?l) with (f <$> l). by rewrite <- list_fmap_compose.
  - by apply (list_elem_of_fmap_2 (fun p => (JobPhase.phase_id p, p))).
Qed.

(** A phase of a job as it is planned *)
Definition planned_as (duration : string → Z) (placed : dates) p (sp : SchedulePhase) : Prop :=
  SchedulePhase.phase_id sp = JobPhase.phase_id p ∧ SchedulePhase.name sp = JobPhase.name p ∧
  SchedulePhase.sequence sp = JobPhase.sequence p ∧ SchedulePhase.status sp = JobPhase.status p ∧
  SchedulePhase.duration_days sp = duration (JobPhase.phase_id p) ∧ 0 < SchedulePhase.duration_days sp ∧
  ∃ s e, dget placed (JobPhase.phase_id p) = Some (s, e) ∧ SchedulePhase.planned_start sp = date_iso s ∧
    SchedulePhase.planned_end sp = date_iso e.

(** An outcome that is not a failure, unless the calendar ends *)
Definition fits {A} (r : res A) : Prop := match r with Ok _ => True | Err e => exn_cls e = OverflowError end.

Lemma add_days_fits d n : fits (add_days d n).
Proof. unfold add_days. case_match; [done|]. by case_bool_decide. Qed.

Lemma after_predecessors_fits placed preds first :
  (∀ d, d ∈ preds → is_Some (dget placed (PhaseDependency.predecessor_phase_id d))) → fits (after_predecessors placed preds first).
Proof.
  revert first. induction preds as [|d preds IH]; intros first Hp; [done|]. cbn [after_predecessors].
  destruct (Hp d) as [[a b] ->]; [by left|]. pose proof (add_days_fits b (1 + PhaseDependency.lag_days d)) as Hf.
  destruct (add_days _ _) as [free|e]; cbn [res_bind]; [|done]. apply IH. intros d' Hd'. apply Hp. by right.
Qed.

Lemma place_fits deps start placed id n :
  (∀ d, d ∈ deps → PhaseDependency.successor_phase_id d = id → is_Some (dget placed (PhaseDependency.predecessor_phase_id d))) →
  fits (place deps start placed id n).
Proof.
  intros Hp. unfold place.
  pose proof (after_predecessors_fits placed (predecessors_of deps id) start) as Hf.
  destruct (after_predecessors _ _ _) as [first|e]; cbn [res_bind].
  - pose proof (add_days_fits first (n - 1)) as Ha. by destruct (add_days _ _).
  - apply Hf. intros d Hd. apply (elem_of_predecessors deps d id) in Hd as [? ?]. by apply Hp.
Qed.

Section Plan.
Context (deps : list PhaseDependency) (start : Z) (duration : string → Z) (durations : dict Z).

Lemma place_phases_Ok placed l phases :
  (∀ p, p ∈ l → duration (JobPhase.phase_id p) = default (JobPhase.duration_days p) (dget durations (JobPhase.phase_id p))) →
  NoDup (JobPhase.phase_id <$> l) → (∀ p, p ∈ l → dget placed (JobPhase.phase_id p) = None) → sound deps start duration placed →
  place_phases durations deps start placed l = Ok phases →
  ∃ placed', sound deps start duration placed' ∧ placed'.*1 = placed.*1 ++ (JobPhase.phase_id <$> l) ∧
    (∀ id w, dget placed id = Some w → dget placed' id = Some w) ∧ Forall2 (planned_as duration placed') l phases.
Proof.
  revert placed phases. induction l as [|p l IH]; intros placed phases Hdur Hnd Hnew Hs; cbn [place_phases].
  { intros [= <-]. exists placed. rewrite app_nil_r. by split_and!. }
  rewrite <- (Hdur p ltac:(by left)). set (id := JobPhase.phase_id p) in *.
  destruct (Z.leb_spec (duration id) 0) as [|Hpos]; [done|]. destruct (place _ _ _ _ _) as [[s e]|] eqn:Hp; [|done]. cbn [res_bind fst snd].
  destruct (place_phases _ _ _ _ l) as [phases'|] eqn:Hps; [|done]. intros [= <-]. apply NoDup_cons in Hnd as [Hfresh Hnd].
  assert (Hnone : dget placed id = None) by (apply Hnew; by left).
  apply IH in Hps as (placed' & Hs' & Hids & Hsub & Hall); [|intros q Hq; apply Hdur; by right|done| |by eapply sound_place].
  2: { intros q Hq. rewrite dget_dset_ne; [apply Hnew; by right|]. intros E. apply Hfresh. change (id ∈ JobPhase.phase_id <$> l). rewrite E. by apply list_elem_of_fmap_2. }
  exists placed'. split; [done|]. split.
  { rewrite Hids, dset_new by (by apply dget_None). rewrite fmap_app, <- app_assoc. done. }
  split.
  - intros x w Hx. apply Hsub. rewrite dget_dset_ne; [done|]. intros ->. congruence.
  - constructor; [|done]. split_and!; try done. exists s, e. split_and!; [|done|done]. apply Hsub, dget_dset_eq.
Qed.

(** Phases that come after those they depend on can be placed. *)
Lemma place_phases_fits placed l :
  (∀ p, p ∈ l → 0 < default (JobPhase.duration_days p) (dget durations (JobPhase.phase_id p))) →
  (∀ l1 p l2, l = l1 ++ p :: l2 → ∀ d, d ∈ deps → PhaseDependency.successor_phase_id d = JobPhase.phase_id p →
     PhaseDependency.predecessor_phase_id d ∈ JobPhase.phase_id <$> l1 ∨ is_Some (dget placed (PhaseDependency.predecessor_phase_id d))) →
  fits (place_phases durations deps start placed l).
Proof.
  revert placed. induction l as [|p l IH]; intros placed Hpos Hord; [done|]. cbn [place_phases].
  rewrite (proj2 (Z.leb_gt _ _)) by (apply Hpos; by left). set (id := JobPhase.phase_id p) in *. set (n := default _ _).
  pose proof (place_fits deps start placed id n) as Hf. destruct (place _ _ _ _ _) as [span|e]; cbn [res_bind].
  - assert (fits (place_phases durations deps start (dset placed id span) l)) as Hl.
    { apply IH; [intros q Hq; apply Hpos; by right|]. intros l1 q l2 -> d Hd Hsucc.
      destruct (Hord (p :: l1) q l2 eq_refl d Hd Hsucc) as [[E|Hin]%elem_of_cons|Hsome]; [| by left|].
      - right. fold id in E. rewrite E, dget_dset_eq. by eexists.
      - right. rewrite dget_dset. by case_bool_decide. }
    by destruct (place_phases _ _ _ _ _).
  - apply Hf. intros d Hd Hsucc. destruct (Hord [] p l eq_refl d Hd Hsucc) as [?%elem_of_nil|?]; done.
Qed.
End Plan.

Lemma check_dependency_Ok ids d :
  check_dependency ids d = Ok tt → PhaseDependency.predecessor_phase_id d ∈ ids ∧ PhaseDependency.successor_phase_id d ∈ ids ∧
    PhaseDependency.predecessor_phase_id d ≠ PhaseDependency.successor_phase_id d ∧ 0 <= PhaseDependency.lag_days d.
Proof.
  unfold check_dependency. repeat case_bool_decide; try done. cbn [negb orb]. destruct (Z.ltb_spec (PhaseDependency.lag_days d) 0); [done|].
  by intros _.
Qed.

(** The dependencies of a schedule are between different phases, with lags that
    are not negative. *)
Lemma dependencies_Ok job payload deps :
  _dependencies job payload = Ok deps →
  between (JobPhase.phase_id <$> Job.phases job) deps ∧
  ∀ d, d ∈ deps → PhaseDependency.predecessor_phase_id d ≠ PhaseDependency.successor_phase_id d ∧ 0 <= PhaseDependency.lag_days d.
Proof.
  unfold _dependencies. destruct (match dget payload "dependencies" with Some _ => _ | None => _ end) as [l|]; [|done]. cbn [res_bind].
  destruct (res_map _ l) as [us|] eqn:Hc; [|done]. cbn [res_bind]. intros [= <-].
  assert (Hall : ∀ d, d ∈ py_sorted dependency_le l → check_dependency (JobPhase.phase_id <$> Job.phases job) d = Ok tt).
  { intros d. rewrite elem_of_py_sorted. apply res_map_unit. by rewrite Hc. }
  split; intros d Hd; by apply Hall, check_dependency_Ok in Hd as (? & ? & ? & ?).
Qed.

(** The completion is the latest of the ends. *)
Lemma foldl_max_ge l a : a <= foldl Z.max a l ∧ (∀ x, x ∈ l → x <= foldl Z.max a l) ∧ (foldl Z.max a l = a ∨ foldl Z.max a l ∈ l).
Proof.
  revert a. induction l as [|b l IH]; intros a; [split_and!; [done|by intros x ?%elem_of_nil|by left]|].
  cbn [foldl]. destruct (IH (Z.max a b)) as (H1 & H2 & H3). split_and!; [lia| |].
  - intros x [->|Hx]%elem_of_cons; [lia|by apply H2].
  - destruct H3 as [H3|H3]; [|right; by right]. rewrite H3. destruct (Z.max_spec a b) as [[_ ->]|[_ ->]]; [right; by left|by left].
Qed.

Definition ends_at (phases : list SchedulePhase) (ends : list Z) : Prop :=
  Forall2 (fun sp e => SchedulePhase.planned_end sp = date_iso e ∧ day_ok e) phases ends.

Lemma completion_of_eq phases ends start :
  ends_at phases ends → ∃ c, completion_of phases start = Ok c ∧ (∀ e, e ∈ ends → e <= c) ∧ (ends = [] ∧ c = start ∨ c ∈ ends).
Proof.
  intros Hends. unfold completion_of.
  assert (res_map (fun sp => _date (SchedulePhase.planned_end sp)) phases = Ok ends) as ->.
  { induction Hends as [|sp e phases ends [He Hok] _ IH]; [done|]. cbn [res_map]. rewrite He.
    change (_date (date_iso e)) with (date_fromiso (date_iso e)). rewrite date_fromiso_iso by exact Hok. cbn [res_bind]. by rewrite IH. }
  cbn [res_bind]. destruct ends as [|d l]; [eexists; split_and!; [done|by intros e ?%elem_of_nil|by left]|].
  destruct (foldl_max_ge l d) as (H1 & H2 & H3). eexists. split_and!; [done| |right].
  - intros e [->|He]%elem_of_cons; [done|by apply H2].
  - destruct H3 as [->|H3]; [by left|by right].
Qed.

(** The ends of planned phases are known days. *)
Lemma planned_ends deps start duration placed l phases :
  sound deps start duration placed → Forall2 (planned_as duration placed) l phases →
  ∃ ends, ends_at phases ends ∧ ∀ e, e ∈ ends ↔ ∃ p s, p ∈ l ∧ dget placed (JobPhase.phase_id p) = Some (s, e).
Proof.
  intros Hs. induction 1 as [|p sp l phases Hp _ (ends & Hends & Hin)].
  { exists []. split; [constructor|]. intros e. split; [by intros ?%elem_of_nil|]. by intros (p & s & ?%elem_of_nil & _). }
  destruct Hp as (_ & _ & _ & _ & _ & _ & s & e & Hg & _ & He). exists (e :: ends). split.
  { constructor; [|done]. split; [done|]. apply (sd_days _ _ _ _ Hs _ _ _ Hg). }
  intros x. rewrite elem_of_cons, Hin. split.
  - intros [->|(q & t & Hq & Ht)]; [exists p, s; split; [by left|done]|exists q, t; split; [by right|done]].
  - intros (q & t & [->|Hq]%elem_of_cons & Ht); [left; congruence|right; eauto].
Qed.

(** What is asked of the payload of a schedule *)
Record valid_request job (tenant_id : string) (payload : doc) (start : Z) (durations : dict Z) deps : Prop := Valid {
  vr_tenant : Job.tenant_id job = tenant_id;
  vr_start : _date (str_field_or payload "start_date" (Job.accepted_date job)) = Ok start;
  vr_status : str_field_or payload "status" "planned" ∈ SCHEDULE_STATUSES;
  vr_durations : SchedulingService.durations_of payload = Ok durations;
  vr_known : ∀ id, id ∈ durations.*1 → id ∈ JobPhase.phase_id <$> Job.phases job;
  vr_dependencies : _dependencies job payload = Ok deps;
}.

(** The schedule of a plan: every phase in its days, which are sound, and the
    completion at the end of the last. *)
Record scheduled job (start : Z) (durations : dict Z) deps (schedule : Schedule) : Prop := Scheduled {
  sc_plan : ∃ l placed completion, plan_of (Job.phases job) deps l ∧ sound deps start (duration_of job durations) placed ∧
    placed.*1 = JobPhase.phase_id <$> l ∧ Forall2 (planned_as (duration_of job durations) placed) l (Schedule.phases schedule) ∧
    Schedule.original_completion_date schedule = date_iso completion ∧ Schedule.projected_completion_date schedule = date_iso completion ∧
    (∀ id s e, dget placed id = Some (s, e) → e <= completion) ∧
    (l = [] ∧ completion = start ∨ ∃ id s, dget placed id = Some (s, completion));
  sc_start : Schedule.start_date schedule = date_iso start;
  sc_dependencies : Schedule.dependencies schedule = deps;
}.

Lemma plan_first (phases : list JobPhase) deps l l1 p l2 d :
  plan_of phases deps l → l = l1 ++ p :: l2 → d ∈ deps → PhaseDependency.successor_phase_id d = JobPhase.phase_id p →
  PhaseDependency.predecessor_phase_id d ∈ JobPhase.phase_id <$> l1.
Proof.
  intros [_ Hord] -> Hd Hs. apply (Hord (JobPhase.phase_id <$> l1) (JobPhase.phase_id p) (JobPhase.phase_id <$> l2)).
  - by rewrite fmap_app.
  - rewrite <- Hs. by apply (list_elem_of_fmap_2 (fun d => (PhaseDependency.predecessor_phase_id d, PhaseDependency.successor_phase_id d))).
Qed.

Lemma existsb_unknown (l ids : list string) :
  existsb (fun id => negb (bool_decide (id ∈ ids))) l = false ↔ ∀ id, id ∈ l → id ∈ ids.
Proof.
  rewrite <- not_true_iff_false, existsb_exists. setoid_rewrite <- list_elem_of_In. setoid_rewrite negb_true_iff.
  setoid_rewrite bool_decide_eq_false. split; [|naive_solver]. intros Hn id Hid. destruct (decide (id ∈ ids)) as [?|Hni]; [done|].
  exfalso. apply Hn. by exists id.
Qed.

(** The days of the phases of a plan *)
Lemma place_plan job deps start durations l phases :
  NoDup (JobPhase.phase_id <$> Job.phases job) → plan_of (Job.phases job) deps l → place_phases durations deps start [] l = Ok phases →
  ∃ placed c, sound deps start (duration_of job durations) placed ∧ placed.*1 = JobPhase.phase_id <$> l ∧
    Forall2 (planned_as (duration_of job durations) placed) l phases ∧ completion_of phases start = Ok c ∧
    (∀ id s e, dget placed id = Some (s, e) → e <= c) ∧ (l = [] ∧ c = start ∨ ∃ id s, dget placed id = Some (s, c)).
Proof.
  intros Hnd [Hperm _] Hp.
  destruct (place_phases_Ok deps start (duration_of job durations) durations [] l phases) as (placed & Hs & Hids & _ & Hall);
    [|by rewrite Hperm|done|apply sound_nil|done|].
  { intros p Hpl. apply duration_of_phase; [done|by rewrite <- Hperm]. }
  cbn [app fmap list_fmap] in Hids. destruct (planned_ends deps start _ placed l phases Hs Hall) as (ends & Hends & Hin).
  destruct (completion_of_eq phases ends start Hends) as (c & Ec & Hge & Hc). exists placed, c. split_and!; [done..| |].
  - intros id s e Hg. apply Hge, Hin. assert (Hid : id ∈ JobPhase.phase_id <$> l).
    { rewrite <- Hids. apply dget_Some_elem in Hg. by apply (list_elem_of_fmap_2 fst) in Hg. }
    apply list_elem_of_fmap in Hid as (p & -> & Hpl). by exists p, s.
  - destruct Hc as [[-> ->]|Hc]; [left|right].
    + apply Forall2_nil_inv_r in Hends as ->. by apply Forall2_nil_inv_r in Hall as ->.
    + apply Hin in Hc as (p & s & _ & Hg). eauto.
Qed.

(** C20: a schedule is made of a valid request exactly when its phases can be put
    in an order and the calendar is long enough. Then it holds every phase of the
    job once, for its days; no phase begins before the start of the schedule or
    before the days that follow what it depends on; no plan that keeps to this
    begins any phase earlier; and the completion is the end of the last phase. *)
Theorem schedule_earliest `{Oracle} job tenant_id payload :
  NoDup (JobPhase.phase_id <$> Job.phases job) →
  match SchedulingService.create tenant_id job payload with
  | Ok schedule => ∃ start durations deps, valid_request job tenant_id payload start durations deps ∧
      scheduled job start durations deps schedule
  | Err e => ∀ start durations deps, valid_request job tenant_id payload start durations deps →
      (∀ p, p ∈ Job.phases job → 0 < duration_of job durations (JobPhase.phase_id p)) →
      exn_cls e = OverflowError ∨
      e = Exn ValueError "schedule dependency graph contains a cycle" ∧ ¬ ∃ l, plan_of (Job.phases job) deps l
  end.
Proof.
  intros Hnd. unfold SchedulingService.create. case_bool_decide as Ht; cbn [negb]; [|by intros ? ? ? [? _]].
  destruct (_date _) as [start|] eqn:Hstart; cbn [res_bind]; [|intros ? ? ? [_ ? _ _ _ _]; congruence].
  case_bool_decide as Hstatus; cbn [negb]; [|by intros ? ? ? [_ _ ? _ _ _]].
  destruct (SchedulingService.durations_of payload) as [durations|] eqn:Hdur; cbn [res_bind]; [|intros ? ? ? [_ _ _ ? _ _]; congruence].
  destruct (existsb _ durations.*1) eqn:Hknown.
  { intros ? durations' ? [_ _ _ Hdur' Hk _]. assert (durations' = durations) as -> by congruence.
    apply existsb_unknown in Hk. congruence. }
  rewrite existsb_unknown in Hknown.
  destruct (_dependencies job payload) as [deps|] eqn:Hdeps; cbn [res_bind]; [|intros ? ? ? [_ _ _ _ _ ?]; congruence].
  assert (Hvalid : valid_request job tenant_id payload start durations deps) by done.
  assert (Hsame : ∀ start' durations' deps', valid_request job tenant_id payload start' durations' deps' →
    durations' = durations ∧ deps' = deps) by (intros ? ? ? [_ _ _ ? _ ?]; split; congruence).
  destruct (dependencies_Ok job payload deps Hdeps) as [Hb _]. pose proof (ordered_phases_spec job deps Hnd Hb) as Hplan.
  destruct (_ordered_phases job deps) as [l|e]; cbn [res_bind].
  2: { intros start' durations' deps' Hv _. destruct (Hsame _ _ _ Hv) as [-> ->]. by right. }
  destruct (place_phases durations deps start [] l) as [phases|e] eqn:Hp; cbn [res_bind].
  - destruct (place_plan job deps start durations l phases Hnd Hplan Hp) as (placed & c & Hs & Hids & Hall & -> & Hge & Hc).
    cbn [res_bind]. exists start, durations, deps. split; [done|]. split; [|done|done]. by exists l, placed, c.
  - intros start' durations' deps' Hv Hpos. destruct (Hsame _ _ _ Hv) as [-> ->]. left.
    pose proof (place_phases_fits deps start durations [] l) as Hf. rewrite Hp in Hf. apply Hf.
    + intros p Hpl. destruct Hplan as [Hperm _]. rewrite Hperm in Hpl. rewrite <- (duration_of_phase job) by done. by apply Hpos.
    + intros l1 p l2 -> d Hdd Hsucc. left. by eapply (plan_first (Job.phases job)).
Qed.

(** * Recalculation *)

Section Replan.
Context `{Oracle} (schedule : Schedule) (assignments : list CrewAssignment) (deliveries : list MaterialDelivery)
  (conflicts : list ScheduleConflict) (start : Z) (duration : string → Z).
Import SchedulingService.
Implicit Types (baseline placed : dates) (sp : SchedulePhase).

Abbreviation deps := (Schedule.dependencies schedule).

Definition own_deliveries (id : string) : list MaterialDelivery :=
  List.filter (fun d => bool_decide (MaterialDelivery.phase_id d = id)) deliveries.
Definition own_conflicts (id : string) : list ScheduleConflict :=
  List.filter (fun c => bool_decide (ScheduleConflict.phase_id c = id)) conflicts.

(** The days that the conflicts of a phase cost *)
Definition lost (id : string) : Z := Z.of_nat (length (own_conflicts id)).

(** Each phase begins, but for the days lost to conflicts, on the first day that
    is not before its day in the baseline, the end of its predecessors as they
    are now planned, and the arrival of its deliveries. *)
Record held baseline placed : Prop := Held {
  hd_days : ∀ id s e, dget placed id = Some (s, e) → e = s + duration id - 1 ∧ day_ok e ∧
    ∃ bs be, dget baseline id = Some (bs, be) ∧ bs + lost id <= s;
  hd_after : ∀ d s e, d ∈ deps → dget placed (PhaseDependency.successor_phase_id d) = Some (s, e) →
    ∃ a b, dget placed (PhaseDependency.predecessor_phase_id d) = Some (a, b) ∧
      b + 1 + PhaseDependency.lag_days d + lost (PhaseDependency.successor_phase_id d) <= s;
  hd_supplied : ∀ d s e, d ∈ deliveries → dget placed (MaterialDelivery.phase_id d) = Some (s, e) →
    ∃ day, delivery_effective_date d = Ok day ∧ day + lost (MaterialDelivery.phase_id d) <= s;
  hd_first : ∀ id s e, dget placed id = Some (s, e) →
    (∃ be, dget baseline id = Some (s - lost id, be)) ∨
    (∃ d a b, d ∈ deps ∧ PhaseDependency.successor_phase_id d = id ∧ dget placed (PhaseDependency.predecessor_phase_id d) = Some (a, b) ∧
       s - lost id = b + 1 + PhaseDependency.lag_days d) ∨
    (∃ d, d ∈ deliveries ∧ MaterialDelivery.phase_id d = id ∧ delivery_effective_date d = Ok (s - lost id));
}.

Lemma await_deliveries_Ok l first delay blocked s delay' blocked' :
  await_deliveries l first delay blocked = Ok (s, delay', blocked') →
  first <= s ∧ (∀ d, d ∈ l → ∃ day, delivery_effective_date d = Ok day ∧ day <= s) ∧
  (s = first ∨ ∃ d, d ∈ l ∧ delivery_effective_date d = Ok s).
Proof.
  revert first delay blocked. induction l as [|d l IH]; intros first delay blocked; cbn [await_deliveries].
  { intros [= -> _ _]. split_and!; [lia|by intros d ?%elem_of_nil|by left]. }
  destruct (delivery_effective_date d) as [day|] eqn:Hday; [|done]. cbn [res_bind].
  destruct (_date (MaterialDelivery.required_date d)) as [required|]; [|done]. cbn [res_bind]. intros Hs.
  assert (∃ delay blocked, await_deliveries l (Z.max first day) delay blocked = Ok (s, delay', blocked')) as (dl & bl & Hs').
  { revert Hs. case_match; eauto. }
  apply IH in Hs' as (Hge & Hall & Hor). split; [lia|]. split.
  - intros d' [->|Hd']%elem_of_cons; [exists day; split; [done|lia]|by apply Hall].
  - destruct Hor as [->|(d' & Hd' & He)]; [|right; exists d'; split; [by right|done]].
    destruct (Z.max_spec first day) as [[_ ->]|[_ ->]]; [right; exists d; split; [by left|done]|by left].
Qed.

Lemma elem_of_own_deliveries d id : d ∈ own_deliveries id ↔ d ∈ deliveries ∧ MaterialDelivery.phase_id d = id.
Proof. unfold own_deliveries. rewrite list_elem_of_In, filter_In, <- list_elem_of_In. by rewrite bool_decide_eq_true. Qed.

(** The phase with its days *)
Definition replanned_as baseline placed sp (sp' : SchedulePhase) : Prop :=
  SchedulePhase.phase_id sp' = SchedulePhase.phase_id sp ∧ SchedulePhase.name sp' = SchedulePhase.name sp ∧
  SchedulePhase.duration_days sp' = SchedulePhase.duration_days sp ∧
  ∃ s e, dget placed (SchedulePhase.phase_id sp) = Some (s, e) ∧ SchedulePhase.planned_start sp' = date_iso s ∧
    SchedulePhase.planned_end sp' = date_iso e.

(** What a step of the recalculation finds *)
Lemma replan_Ok baseline placed sp bspan span sp' impacts :
  replan schedule assignments deliveries conflicts start baseline placed sp = Ok (bspan, span, sp', impacts) →
  let id := SchedulePhase.phase_id sp in
  place deps start baseline id (SchedulePhase.duration_days sp) = Ok bspan ∧
  (∃ after supplied delay blocked, after_predecessors placed (predecessors_of deps id) bspan.1 = Ok after ∧
     await_deliveries (py_sorted delivery_le (own_deliveries id)) after 0 [] = Ok (supplied, delay, blocked) ∧
     span.1 = supplied + lost id ∧ span.2 = span.1 + SchedulePhase.duration_days sp - 1 ∧ day_ok span.2) ∧
  SchedulePhase.phase_id sp' = id ∧ SchedulePhase.name sp' = SchedulePhase.name sp ∧
  SchedulePhase.duration_days sp' = SchedulePhase.duration_days sp ∧ SchedulePhase.planned_start sp' = date_iso span.1 ∧
  SchedulePhase.planned_end sp' = date_iso span.2 ∧
  map (fun i => (DelayImpact.phase_id i, DelayImpact.delay_days i)) impacts =
    (if bspan.2 <? span.2 then [(id, span.2 - bspan.2)] else []).
Proof.
  unfold replan. set (id := SchedulePhase.phase_id sp). fold (own_deliveries id) (own_conflicts id).
  destruct (place _ _ _ _ _) as [[bs be]|] eqn:Hb; [|done]. cbn [res_bind fst snd].
  destruct (after_predecessors _ _ _) as [after|] eqn:Ha; [|done]. cbn [res_bind].
  destruct (await_deliveries _ _ _ _) as [[[supplied delay] blocked]|] eqn:Hs; [|done]. cbn [res_bind].
  assert (Hfirst : ∀ first, match own_conflicts id with [] => Ok supplied | _ => add_days supplied (Z.of_nat (length (own_conflicts id))) end = Ok first →
    first = supplied + lost id).
  { intros first. unfold lost. destruct (own_conflicts id); [intros [= <-]; cbn; lia|]. by intros [-> _]%add_days_Ok. }
  destruct (match own_conflicts id with [] => _ | _ => _ end) as [first|]; [|done]. cbn [res_bind]. specialize (Hfirst first eq_refl).
  destruct (add_days first _) as [last|] eqn:Hl; [|done]. cbn [res_bind]. apply add_days_Ok in Hl as [Hl Hok].
  intros Hr. assert (Hout : ∀ l, (if Z.max 0 (last - be) =? 0 then Ok [] else
      let? source := source_of delay (own_deliveries id) (own_conflicts id) (predecessors_of deps id) in
      Ok [impact_of schedule sp source (Z.max 0 (last - be)) last]) = Ok l →
    map (fun i => (DelayImpact.phase_id i, DelayImpact.delay_days i)) l = if be <? last then [(id, last - be)] else []).
  { intros l. destruct (Z.ltb_spec be last) as [Hlt|Hge].
    - rewrite (proj2 (Z.eqb_neq _ 0)) by lia. destruct (source_of _ _ _ _) as [source|]; [|done]. intros [= <-]. cbn. f_equal. f_equal. lia.
    - rewrite (proj2 (Z.eqb_eq _ 0)) by lia. by intros [= <-]. }
  destruct (if Z.max 0 (last - be) =? 0 then _ else _) as [l|]; [|done]. cbn [res_bind] in Hr. injection Hr as <- <- <- <-.
  split; [done|]. split; [|split_and!; try done; by apply Hout].
  exists after, supplied, delay, blocked. split_and!; [done|done|done|cbn; lia|done].
Qed.

(** One more phase is held. *)
Lemma held_place baseline placed id bs be s e after supplied delay blocked :
  held baseline placed → dget baseline id = None → dget placed id = None →
  after_predecessors placed (predecessors_of deps id) bs = Ok after →
  await_deliveries (py_sorted delivery_le (own_deliveries id)) after 0 [] = Ok (supplied, delay, blocked) →
  s = supplied + lost id → e = s + duration id - 1 → day_ok e →
  held (dset baseline id (bs, be)) (dset placed id (s, e)).
Proof.
  intros [Hdays Hafter Hsup Hfirst] Hbn Hpn Ha Hd -> -> Hok.
  apply after_predecessors_Ok in Ha as (Hge & Hall & Hor). apply await_deliveries_Ok in Hd as (Hge' & Hall' & Hor').
  assert (Hold : ∀ x w, dget placed x = Some w → dget (dset placed id (supplied + lost id, supplied + lost id + duration id - 1)) x = Some w).
  { intros x w Hx. rewrite dget_dset_ne; [done|]. intros ->. congruence. }
  assert (Hbold : ∀ x w, dget baseline x = Some w → dget (dset baseline id (bs, be)) x = Some w).
  { intros x w Hx. rewrite dget_dset_ne; [done|]. intros ->. congruence. }
  split.
  - intros x s e. rewrite dget_dset. case_bool_decide as E.
    + subst x. intros [= <- <-]. split_and!; [lia|done|]. exists bs, be. split; [by rewrite dget_dset_eq|lia].
    + intros Hg. destruct (Hdays x s e Hg) as (-> & He & u & v & Hb & Hle). split_and!; [done|done|]. exists u, v. split; [by apply Hbold|done].
  - intros d s e Hd. rewrite dget_dset. case_bool_decide as E.
    + intros [= <- <-]. destruct (Hall d) as (u & v & Hg & Hle); [by apply elem_of_predecessors|].
      exists u, v. split; [by apply Hold|]. rewrite <- E. lia.
    + intros Hg. destruct (Hafter d s e Hd Hg) as (u & v & Hg' & Hle). exists u, v. split; [by apply Hold|done].
  - intros d s e Hd. rewrite dget_dset. case_bool_decide as E; [|by apply Hsup].
    intros [= <- <-]. destruct (Hall' d) as (day & Hday & Hle); [by apply elem_of_py_sorted, elem_of_own_deliveries|].
    exists day. split; [done|]. rewrite <- E. lia.
  - intros x s e. rewrite dget_dset. case_bool_decide as E.
    + subst x. intros [= <- <-]. replace (supplied + lost id - lost id) with supplied by lia.
      destruct Hor' as [->|(d & Hd & Hday)].
      * destruct Hor as [->|(d & u & v & Hdp & Hg & ->)]; [left; exists be; apply dget_dset_eq|right; left].
        apply elem_of_predecessors in Hdp as [Hdd Hsucc]. exists d, u, v. split_and!; [done|done|by apply Hold|done].
      * right; right. apply elem_of_py_sorted, elem_of_own_deliveries in Hd as [Hd Hid]. by exists d.
    + intros Hg. destruct (Hfirst x s e Hg) as [[v Hb]|[(d & u & v & Hd & Hs & Hg' & Heq)|(d & Hd & Hid & Hday)]].
      * left. exists v. by apply Hbold.
      * right; left. exists d, u, v. split_and!; [done|done|by apply Hold|done].
      * right; right. by exists d.
Qed.

(** The delays that are reported: those of the phases that end later than in the
    baseline, with the days between. *)
Definition reports baseline placed (ids : list string) (impacts : list DelayImpact) : Prop :=
  ∀ id n, (id, n) ∈ map (fun i => (DelayImpact.phase_id i, DelayImpact.delay_days i)) impacts ↔
    id ∈ ids ∧ ∃ s e bs be, dget placed id = Some (s, e) ∧ dget baseline id = Some (bs, be) ∧ be < e ∧ n = e - be.

Lemma replan_phases_Ok baseline placed l phases impacts :
  (∀ sp, sp ∈ l → SchedulePhase.duration_days sp = duration (SchedulePhase.phase_id sp)) →
  NoDup (SchedulePhase.phase_id <$> l) →
  (∀ sp, sp ∈ l → dget baseline (SchedulePhase.phase_id sp) = None ∧ dget placed (SchedulePhase.phase_id sp) = None) →
  sound deps start duration baseline → held baseline placed →
  replan_phases schedule assignments deliveries conflicts start baseline placed l = Ok (phases, impacts) →
  ∃ baseline' placed', sound deps start duration baseline' ∧ held baseline' placed' ∧
    baseline'.*1 = baseline.*1 ++ (SchedulePhase.phase_id <$> l) ∧
    (∀ id w, dget placed id = Some w → dget placed' id = Some w) ∧ (∀ id w, dget baseline id = Some w → dget baseline' id = Some w) ∧
    Forall2 (replanned_as baseline' placed') l phases ∧ reports baseline' placed' (SchedulePhase.phase_id <$> l) impacts.
Proof.
  revert baseline placed phases impacts. induction l as [|sp l IH]; intros baseline placed phases impacts Hdur Hnd Hnew Hs Hh; cbn [replan_phases].
  { intros [= <- <-]. exists baseline, placed. rewrite app_nil_r. split_and!; [done..|]. intros id n. split; [by intros ?%elem_of_nil|].
    by intros [?%elem_of_nil _]. }
  destruct (replan _ _ _ _ _ _ _ _) as [[[[bspan span] sp'] imp]|] eqn:Hr; [|done]. cbn [res_bind].
  apply replan_Ok in Hr as (Hplace & (after & supplied & delay & blocked & Ha & Hd & Hs1 & Hs2 & Hok) & Hid & Hn & Hdd & Hps & Hpe & Himp).
  set (id := SchedulePhase.phase_id sp) in *. destruct bspan as [bs be], span as [s e]. cbn [fst snd] in *.
  destruct (replan_phases _ _ _ _ _ _ _ l) as [[phases' impacts']|] eqn:Hrest; [|done]. cbn [res_bind fst snd]. intros [= <- <-].
  destruct (Hnew sp ltac:(by left)) as [Hbn Hpn]. fold id in Hbn, Hpn. rewrite (Hdur sp) in Hs2, Hplace by (by left). fold id in Hs2, Hplace.
  apply NoDup_cons in Hnd as [Hfresh Hnd].
  assert (Hs' : sound deps start duration (dset baseline id (bs, be))) by (by eapply sound_place).
  assert (Hh' : held (dset baseline id (bs, be)) (dset placed id (s, e))) by (eapply held_place; [done|done|done|done|done|done|lia|done]).
  apply IH in Hrest as (baseline' & placed' & Hsb & Hhp & Hids & Hsub & Hbsub & Hall & Hrep);
    [|intros q Hq; apply Hdur; by right|done| |done|done].
  2: { intros q Hq. assert (id ≠ SchedulePhase.phase_id q) as Hne.
       { intros E. apply Hfresh. change (id ∈ SchedulePhase.phase_id <$> l). rewrite E. by apply list_elem_of_fmap_2. }
       rewrite !dget_dset_ne by done. apply Hnew. by right. }
  pose proof (Hsub id (s, e) (dget_dset_eq _ _ _)) as Hpg. pose proof (Hbsub id (bs, be) (dget_dset_eq _ _ _)) as Hbg.
  exists baseline', placed'. split_and!; [done|done| | | | |].
  - rewrite Hids, dset_new by (by apply dget_None). rewrite fmap_app, <- app_assoc. done.
  - intros x w Hx. apply Hsub. rewrite dget_dset_ne; [done|]. intros ->. congruence.
  - intros x w Hx. apply Hbsub. rewrite dget_dset_ne; [done|]. intros ->. congruence.
  - constructor; [|done]. split_and!; [done|done|done|]. by exists s, e.
  - intros x n. rewrite map_app, Himp, elem_of_app, (Hrep x n). cbn [fmap list_fmap]. fold id. rewrite elem_of_cons. split.
    + intros [Hx|[Hx Hw]]; [|split; [by right|done]]. destruct (Z.ltb_spec be e); [|by apply elem_of_nil in Hx].
      apply list_elem_of_singleton in Hx. injection Hx as -> ->. split; [by left|]. by exists s, e, bs, be.
    + intros [[->|Hx] (s' & e' & bs' & be' & H1 & H2 & Hlt & ->)]; [left|right; split; [done|by exists s', e', bs', be']].
      assert (e' = e ∧ be' = be) as [-> ->] by (split; congruence). rewrite (proj2 (Z.ltb_lt be e) Hlt). by left.
Qed.
End Replan.

(** The days of the phases of a schedule *)
Definition days_of (l : list SchedulePhase) (id : string) : Z :=
  match dget (map (fun sp => (SchedulePhase.phase_id sp, SchedulePhase.duration_days sp)) l) id with Some n => n | None => 0 end.

Lemma days_of_phase (l : list SchedulePhase) sp :
  NoDup (SchedulePhase.phase_id <$> l) → sp ∈ l → days_of l (SchedulePhase.phase_id sp) = SchedulePhase.duration_days sp.
Proof.
  intros Hnd Hsp. unfold days_of. rewrite (elem_dget _ _ (SchedulePhase.duration_days sp)); [done| |].
  - unfold dict_ok. change (map ?f ?l) with (f <$> l). by rewrite <- list_fmap_compose.
  - by apply (list_elem_of_fmap_2 (fun sp => (SchedulePhase.phase_id sp, SchedulePhase.duration_days sp))).
Qed.

Lemma held_nil schedule deliveries conflicts duration : held schedule deliveries conflicts duration [] [].
Proof. by split. Qed.

(** The ends of replanned phases are known days. *)
Lemma replanned_ends schedule deliveries conflicts duration baseline placed l phases :
  held schedule deliveries conflicts duration baseline placed → Forall2 (replanned_as baseline placed) l phases →
  ∃ ends, ends_at phases ends ∧ ∀ e, e ∈ ends ↔ ∃ sp s, sp ∈ l ∧ dget placed (SchedulePhase.phase_id sp) = Some (s, e).
Proof.
  intros Hh. induction 1 as [|sp sp' l phases Hp _ (ends & Hends & Hin)].
  { exists []. split; [constructor|]. intros e. split; [by intros ?%elem_of_nil|]. by intros (p & s & ?%elem_of_nil & _). }
  destruct Hp as (_ & _ & _ & s & e & Hg & _ & He). exists (e :: ends). split.
  { constructor; [|done]. split; [done|]. apply (hd_days _ _ _ _ _ _ Hh _ _ _ Hg). }
  intros x. rewrite elem_of_cons, Hin. split.
  - intros [->|(q & t & Hq & Ht)]; [exists sp, s; split; [by left|done]|exists q, t; split; [by right|done]].
  - intros (q & t & [->|Hq]%elem_of_cons & Ht); [left; congruence|right; eauto].
Qed.

Lemma reports_completion c impacts :
  map (fun i => (DelayImpact.phase_id i, DelayImpact.delay_days i)) (map (SchedulingService.with_completion c) impacts) =
  map (fun i => (DelayImpact.phase_id i, DelayImpact.delay_days i)) impacts.
Proof. rewrite map_map. by apply map_ext. Qed.

(** C21: a recalculation keeps the phases, their lengths and what they depend on.
    Against the earliest plan of the schedule each phase is put off to the first
    day on which its predecessors, as they are now planned, are done and its
    deliveries have come, and by a day for each conflict of its crews; a delay is
    reported for exactly the phases that end later than in that plan, with the
    days between; the projected completion is the end of the last phase. The
    status is "delayed" when that is after the original completion, and
    otherwise the one the payload asks for or else the one it had, which may be
    "delayed" too ([delayed_stays_delayed]). *)
Theorem recalculation_exact `{Oracle} schedule assignments availability deliveries payload schedule' :
  NoDup (SchedulePhase.phase_id <$> Schedule.phases schedule) →
  SchedulingService.recalculate schedule assignments availability deliveries payload = Ok schedule' →
  let days := days_of (Schedule.phases schedule) in
  ∃ start conflicts baseline placed original completion,
    _date (Schedule.start_date schedule) = Ok start ∧ _date (Schedule.original_completion_date schedule) = Ok original ∧
    SchedulingService._crew_conflicts (Schedule.schedule_id schedule) assignments availability = Ok conflicts ∧
    Schedule.conflicts schedule' = conflicts ∧ Schedule.dependencies schedule' = Schedule.dependencies schedule ∧
    sound (Schedule.dependencies schedule) start days baseline ∧ held schedule deliveries conflicts days baseline placed ∧
    Forall2 (replanned_as baseline placed) (Schedule.phases schedule) (Schedule.phases schedule') ∧
    reports baseline placed (SchedulePhase.phase_id <$> Schedule.phases schedule) (Schedule.delay_impacts schedule') ∧
    Schedule.projected_completion_date schedule' = date_iso completion ∧
    (∀ sp s e, sp ∈ Schedule.phases schedule → dget placed (SchedulePhase.phase_id sp) = Some (s, e) → e <= completion) ∧
    (Schedule.phases schedule = [] ∧ completion = start ∨
     ∃ sp s, sp ∈ Schedule.phases schedule ∧ dget placed (SchedulePhase.phase_id sp) = Some (s, completion)) ∧
    Schedule.status schedule' = (if original <? completion then "delayed" else str_field_or payload "status" (Schedule.status schedule)) ∧
    Schedule.original_completion_date schedule' = Schedule.original_completion_date schedule ∧
    Schedule.revision schedule' = Schedule.revision schedule + 1.
Proof.
  intros Hnd. unfold SchedulingService.recalculate. case_match; [done|].
  destruct (SchedulingService._crew_conflicts _ _ _) as [conflicts|] eqn:Hc; [|done]. cbn [res_bind].
  destruct (_date (Schedule.start_date schedule)) as [start|] eqn:Hstart; [|done]. cbn [res_bind].
  destruct (SchedulingService.replan_phases _ _ _ _ _ _ _ _) as [[phases impacts]|] eqn:Hr; [|done]. cbn [res_bind fst snd].
  destruct (replan_phases_Ok schedule assignments deliveries conflicts start (days_of (Schedule.phases schedule)) [] [] _ _ _
    (fun sp Hsp => eq_sym (days_of_phase _ sp Hnd Hsp)) Hnd (fun _ _ => conj eq_refl eq_refl) (sound_nil _ _ _) (held_nil _ _ _ _) Hr)
    as (baseline & placed & Hs & Hh & _ & _ & _ & Hall & Hrep).
  destruct (replanned_ends _ _ _ _ _ _ _ _ Hh Hall) as (ends & Hends & Hin).
  destruct (completion_of_eq phases ends start Hends) as (c & -> & Hge & Hor). cbn [res_bind].
  destruct (_date (Schedule.original_completion_date schedule)) as [original|] eqn:Ho; [|done]. cbn [res_bind]. intros [= <-].
  exists start, conflicts, baseline, placed, original, c. split_and!; try done.
  - intros id n. cbn [Schedule.sealed Schedule.delay_impacts]. rewrite reports_completion. apply Hrep.
  - intros sp s e Hsp Hg. apply Hge, Hin. eauto.
  - destruct Hor as [[-> ->]|Hc']; [left|right].
    + apply Forall2_nil_inv_r in Hends as ->. by apply Forall2_nil_inv_r in Hall as ->.
    + apply Hin in Hc' as (sp & s & Hsp & Hg). eauto.
Qed.

(** ** A recalculation that nothing disturbs *)

Lemma after_predecessors_done placed preds first s t :
  after_predecessors placed preds first = Ok s → s <= t → after_predecessors placed preds t = Ok t.
Proof.
  revert first t. induction preds as [|d preds IH]; intros first t; cbn [after_predecessors]; [done|].
  destruct (dget placed _) as [[a b]|]; [|done]. destruct (add_days _ _) as [free|]; [|done]. cbn [res_bind]. intros Hs Ht.
  pose proof (proj1 (after_predecessors_Ok _ _ _ _ Hs)). rewrite Z.max_l by lia. by apply (IH (Z.max first free)).
Qed.

Lemma replan_phases_undisturbed `{Oracle} schedule durations start placed l phases :
  place_phases durations (Schedule.dependencies schedule) start placed l = Ok phases →
  SchedulingService.replan_phases schedule [] [] [] start placed placed phases = Ok (phases, []).
Proof.
  revert placed phases. induction l as [|p l IH]; intros placed phases; cbn [place_phases]; [by intros [= <-]|].
  set (id := JobPhase.phase_id p). set (n := default _ _). case_match; [done|].
  destruct (place _ _ _ _ _) as [[s e]|] eqn:Hp; [|done]. cbn [res_bind fst snd].
  destruct (place_phases _ _ _ _ l) as [phases'|] eqn:Hps; [|done]. cbn [res_bind]. intros [= <-].
  cbn [SchedulingService.replan_phases]. unfold SchedulingService.replan. cbn [SchedulePhase.phase_id SchedulePhase.duration_days List.filter].
  rewrite Hp. cbn [res_bind fst snd]. unfold place in Hp.
  destruct (after_predecessors _ _ start) as [first|] eqn:Ha; [|done]. cbn [res_bind] in Hp.
  destruct (add_days first (n - 1)) as [last|] eqn:Hl; [|done]. cbn [res_bind] in Hp. injection Hp as -> ->.
  rewrite (after_predecessors_done _ _ _ _ s Ha) by done. cbn [res_bind py_sorted SchedulingService.await_deliveries map app].
  rewrite Hl. cbn [res_bind]. rewrite Z.sub_diag. change (Z.max 0 0 =? 0) with true. cbn iota.
  cbn [res_bind fst snd SchedulePhase.phase_id]. fold id. by rewrite (IH _ _ Hps).
Qed.

(** Without assignments of crews and deliveries a recalculation of a new schedule
    changes no phase and no date. *)
Theorem recalculation_undisturbed `{Oracle} job tenant_id payload schedule availability request :
  NoDup (JobPhase.phase_id <$> Job.phases job) →
  SchedulingService.create tenant_id job payload = Ok schedule →
  str_field_or request "status" (Schedule.status schedule) ∈ SCHEDULE_STATUSES →
  ∃ schedule', SchedulingService.recalculate schedule [] availability [] request = Ok schedule' ∧
    Schedule.phases schedule' = Schedule.phases schedule ∧ Schedule.delay_impacts schedule' = [] ∧ Schedule.conflicts schedule' = [] ∧
    Schedule.projected_completion_date schedule' = Schedule.original_completion_date schedule ∧
    Schedule.status schedule' = str_field_or request "status" (Schedule.status schedule) ∧
    Schedule.revision schedule' = 2.
Proof.
  intros Hnd. unfold SchedulingService.create. case_bool_decide; [cbn [negb]|done].
  destruct (_date _) as [start|] eqn:Hstart; [|done]. cbn [res_bind]. case_bool_decide; [cbn [negb]|done].
  destruct (SchedulingService.durations_of payload) as [durations|]; [|done]. cbn [res_bind]. case_match; [done|].
  destruct (_dependencies job payload) as [deps|] eqn:Hdeps; [|done]. cbn [res_bind].
  pose proof (ordered_phases_spec job deps Hnd (proj1 (dependencies_Ok _ _ _ Hdeps))) as Hplan.
  destruct (_ordered_phases job deps) as [l|]; [|done]. cbn [res_bind].
  destruct (place_phases durations deps start [] l) as [phases|] eqn:Hp; [|done]. cbn [res_bind].
  destruct (place_plan job deps start durations l phases Hnd Hplan Hp) as (placed & c & Hs & _ & _ & Ec & _ & Hc).
  rewrite Ec. cbn [res_bind]. intros [= <-] Hst. unfold SchedulingService.recalculate. rewrite (bool_decide_eq_true_2 _ Hst). cbn [negb].
  assert (Hcok : day_ok c).
  { destruct Hc as [[_ ->]|(id & s & Hg)]; [by apply (date_fromiso_range _ _ Hstart)|]. by apply (sd_days _ _ _ _ Hs _ _ _ Hg). }
  assert (Hsok : day_ok start) by by apply (date_fromiso_range _ _ Hstart).
  set (schedule := Schedule.sealed _) in *. change (SchedulingService._crew_conflicts (Schedule.schedule_id schedule) [] availability) with (Ok (@nil ScheduleConflict)).
  cbn [res_bind]. change (_date (Schedule.start_date schedule)) with (date_fromiso (date_iso start)).
  rewrite date_fromiso_iso by exact Hsok. cbn [res_bind].
  change (Schedule.phases schedule) with phases. rewrite (replan_phases_undisturbed schedule durations start [] l phases Hp). cbn [res_bind fst snd].
  rewrite Ec. cbn [res_bind]. change (_date (Schedule.original_completion_date schedule)) with (date_fromiso (date_iso c)).
  rewrite date_fromiso_iso by exact Hcok. cbn [res_bind]. eexists. split; [reflexivity|]. split_and!; try done.
  cbn. by rewrite Z.ltb_irrefl.
Qed.

(** * A job of three phases *)

Definition demo_job : Job :=
  Job.Mk "job-1" "acme" "proposal-1" "project-1" "Kitchen" "active" "2024-02-20" "signed"
    [JobPhase.Mk "phase-01" "Demolition" 1 2 "active"; JobPhase.Mk "phase-02" "Plumbing" 2 3 "pending";
     JobPhase.Mk "phase-03" "Tiling" 3 4 "pending"] "phase-01" "kitchen".

(** Tiling needs the other two to be done, and a day more after the plumbing. *)
Definition demo_request : doc :=
  [("start_date", VStr "2024-02-27");
   ("dependencies", VList [
      VDict [("predecessor_phase_id", VStr "phase-01"); ("successor_phase_id", VStr "phase-03")];
      VDict [("predecessor_phase_id", VStr "phase-02"); ("successor_phase_id", VStr "phase-03"); ("lag_days", VInt 1)]])].

Definition dates_of (schedule : Schedule) : list (string * string * string) :=
  map (fun sp => (SchedulePhase.phase_id sp, SchedulePhase.planned_start sp, SchedulePhase.planned_end sp)) (Schedule.phases schedule).

Definition demo_schedule : Schedule :=
  match SchedulingService.create (H := demo_oracle) "acme" demo_job demo_request with
  | Ok s => s
  | Err _ => Schedule.Mk "" "" "" "" "" "" "" 0 [] [] [] [] ""
  end.

Example demo_schedule_dates :
  dates_of demo_schedule = [("phase-01", "2024-02-27", "2024-02-28"); ("phase-02", "2024-02-27", "2024-02-29"); ("phase-03", "2024-03-02", "2024-03-05")].
Proof. vm_compute. reflexivity. Qed.

Lemma demo_created : SchedulingService.create (H := demo_oracle) "acme" demo_job demo_request = Ok demo_schedule.
Proof. vm_compute. reflexivity. Qed.

Lemma demo_phases_differ : NoDup (JobPhase.phase_id <$> Job.phases demo_job).
Proof. apply (bool_decide_unpack _). vm_compute. exact I. Qed.

Lemma schedule_earliest_witness :
  NoDup (JobPhase.phase_id <$> Job.phases demo_job) ∧
  ∃ start durations deps, valid_request demo_job "acme" demo_request start durations deps ∧
    scheduled demo_job start durations deps demo_schedule.
Proof.
  split; [exact demo_phases_differ|].
  pose proof (schedule_earliest (H := demo_oracle) demo_job "acme" demo_request demo_phases_differ) as Hs.
  rewrite demo_created in Hs. exact Hs.
Defined.

(** Phases that wait for each other are refused. *)
Example demo_cycle :
  SchedulingService.create (H := demo_oracle) "acme" demo_job
    [("dependencies", VList [
        VDict [("predecessor_phase_id", VStr "phase-01"); ("successor_phase_id", VStr "phase-02")];
        VDict [("predecessor_phase_id", VStr "phase-02"); ("successor_phase_id", VStr "phase-01")]])] =
  Err (Exn ValueError "schedule dependency graph contains a cycle").
Proof. vm_compute. reflexivity. Qed.

(** Pipes that come on the fourth of March instead of the first of it, and a crew
    that is booked twice for the demolition *)
Definition demo_delivery (required expected : string) (phase_id : string) : MaterialDelivery :=
  MaterialDelivery.Mk "delivery-1" "acme" "job-1" (Schedule.schedule_id demo_schedule) phase_id "pipes" (Floats.lit 4 0) "m"
    required expected "" "in_transit" "".

Definition demo_assignment (assignment_id schedule_id : string) : CrewAssignment :=
  CrewAssignment.Mk assignment_id "acme" "crew-1" "job-1" schedule_id "phase-01" "2024-02-27" "2024-02-28" "assigned".

Definition demo_recalculated : res Schedule :=
  SchedulingService.recalculate (H := demo_oracle) demo_schedule
    [demo_assignment "assignment-1" (Schedule.schedule_id demo_schedule); demo_assignment "assignment-2" "schedule-of-another-job"] []
    [demo_delivery "2024-02-27" "2024-03-01" "phase-02"] [].

Definition demo_delayed : Schedule := match demo_recalculated with Ok s => s | Err _ => demo_schedule end.

Example demo_delayed_dates :
  dates_of demo_delayed = [("phase-01", "2024-02-28", "2024-02-29"); ("phase-02", "2024-03-01", "2024-03-03"); ("phase-03", "2024-03-05", "2024-03-08")] ∧
  map (fun i => (DelayImpact.phase_id i, DelayImpact.source_type i, DelayImpact.delay_days i)) (Schedule.delay_impacts demo_delayed) =
    [("phase-01", "crew", 1); ("phase-02", "delivery", 3); ("phase-03", "dependency", 3)] ∧
  Schedule.status demo_delayed = "delayed".
Proof. split_and!; vm_compute; reflexivity. Qed.

Lemma demo_schedule_phases_differ : NoDup (SchedulePhase.phase_id <$> Schedule.phases demo_schedule).
Proof. apply (bool_decide_unpack _). vm_compute. exact I. Qed.

Lemma demo_is_recalculated : demo_recalculated = Ok demo_delayed.
Proof. vm_compute. reflexivity. Qed.

(** A schedule that was delayed keeps that status when it is planned back to its
    original completion. *)
Example delayed_stays_delayed :
  (let? s := SchedulingService.recalculate (H := demo_oracle) demo_delayed [] [] [] [] in
   Ok (Schedule.status s, bool_decide (Schedule.projected_completion_date s = Schedule.original_completion_date s),
       Schedule.delay_impacts s)) =
  Ok ("delayed", true, []).
Proof. vm_compute. reflexivity. Qed.

Lemma recalculation_exact_witness :
  NoDup (SchedulePhase.phase_id <$> Schedule.phases demo_schedule) ∧ demo_recalculated = Ok demo_delayed ∧
  ∃ start original completion, _date (Schedule.start_date demo_schedule) = Ok start ∧
    _date (Schedule.original_completion_date demo_schedule) = Ok original ∧
    Schedule.projected_completion_date demo_delayed = date_iso completion ∧
    Schedule.status demo_delayed = (if original <? completion then "delayed" else "planned") ∧
    Schedule.revision demo_delayed = 2.
Proof.
  split; [exact demo_schedule_phases_differ|]. split; [exact demo_is_recalculated|].
  destruct (recalculation_exact (H := demo_oracle) demo_schedule _ _ _ _ demo_delayed demo_schedule_phases_differ demo_is_recalculated)
    as (start & conflicts & baseline & placed & original & completion & Hs & Ho & _ & _ & _ & _ & _ & _ & _ & Hp & _ & _ & Hst & _ & Hr).
  exists start, original, completion. split; [exact Hs|]. split; [exact Ho|]. split; [exact Hp|]. split; [exact Hst|exact Hr].
Defined.

(** ** A delivery that is on time *)

(** A delay that neither a late delivery nor a conflict explains is put down to a
    dependency; where there is none the recalculation fails. *)
Lemma unexplained_delay_raises deliveries :
  SchedulingService.source_of 0 deliveries [] [] = Err (Exn IndexError "list index out of range").
Proof. done. Qed.

(** Material that comes on the day it is required for, after the phase was to
    begin, holds the first phase up without being late. *)
Example on_time_delivery_raises :
  SchedulingService.recalculate (H := demo_oracle) demo_schedule [] [] [demo_delivery "2024-03-01" "2024-03-01" "phase-01"] [] =
  Err (Exn IndexError "list index out of range").
Proof. vm_compute. reflexivity. Qed.

(** With dependencies the delay is put down to one of them, which did not cause it. *)
Example on_time_delivery_blames_dependency :
  (let? s := SchedulingService.recalculate (H := demo_oracle) demo_schedule [] [] [demo_delivery "2024-03-04" "2024-03-04" "phase-03"] [] in
   Ok (map (fun i => (DelayImpact.source_type i, DelayImpact.source_id i)) (Schedule.delay_impacts s))) =
  Ok [("dependency", "phase-01")].
Proof. vm_compute. reflexivity. Qed.

(** ** Jobs *)

(** A job is created with whatever status is asked for, but not updated to it. *)
Lemma created_status_unchecked `{Oracle} tenant_id proposal payload job status :
  status ∉ JOB_STATUSES →
  JobService.create tenant_id proposal (dset payload "status" (VStr status)) = Ok job →
  Job.status job = status ∧ JobService.update job [] = Err (Exn ValueError "invalid renovation job status").
Proof.
  intros Hst. unfold JobService.create. case_match; [done|]. case_match; [done|].
  destruct (text_field _ "accepted_date") as [a|]; [|done]. cbn [res_bind].
  destruct (text_field _ "acceptance_reference") as [r|]; [|done]. cbn [res_bind]. case_match; [done|]. intros [= <-].
  assert (str_field_or (dset payload "status" (VStr status)) "status" "active" = status) as E.
  { unfold str_field_or, dget_or. by rewrite dget_dset_eq. }
  cbn [Job.status]. rewrite E. split; [done|]. unfold JobService.update, str_field_or, dget_or. cbn [dget Job.status]. by rewrite bool_decide_eq_false_2.
Qed.
