(* ===== verification/Repositories.v ===== *)
(** Repositories (agentfabric/repository_factory, repository_lifecycle and
    repository_graph): manifests and the blueprints made of them, the records of
    tenants with their lineage, and what a change of one repository reaches. *)

From stdpp Require Import base option list strings gmap sets relations.
From Stdlib Require Import ZArith Lia Ascii.
From S2P Require Import Prelude PyVal Json PyTime Store EventStore Documents Tenancy.

Local Open Scope Z_scope.

(** * repository_metadata.py *)

Definition REPOSITORY_TYPES : list string :=
  ["service"; "library"; "frontend"; "cli"; "edge"; "infrastructure"; "ai_agent"; "domain_platform"].

Definition sorted_strs (l : list string) : list string := py_sorted str_le l.

Definition strs (l : list string) : val := VList (VStr <$> l).

Module RepositoryManifest.
Record t := Mk {
  name : string;
  domain : string;
  purpose : string;
  architecture : string;
  repository_type : string;
  dependencies : list string;
  apis : list string;
  rbac_scopes : list string;
  events : list string;
  observability : list string;
  tests : list string;
  documentation_requirements : list string;
  package_structure : list string;
  metadata : doc;
}.

Definition validate (m : t) : res unit :=
  if bool_decide (name m = "") || bool_decide (domain m = "") || bool_decide (purpose m = "") || bool_decide (architecture m = "")
  then Err (Exn ValueError "repository manifest is missing required fields")
  else if negb (bool_decide (repository_type m ∈ REPOSITORY_TYPES))
  then Err (Exn ValueError ("unsupported repository type: " +:+ repository_type m))
  else if bool_decide (tests m = []) || bool_decide (documentation_requirements m = [])
  then Err (Exn ValueError "tests and documentation requirements are mandatory")
  else Ok tt.

(** [dict(sorted(metadata.items()))]: the keys differ, so they decide. *)
Definition as_dict (m : t) : doc :=
  [("name", VStr (name m)); ("domain", VStr (domain m)); ("purpose", VStr (purpose m)); ("architecture", VStr (architecture m));
   ("repository_type", VStr (repository_type m)); ("dependencies", strs (sorted_strs (dependencies m)));
   ("apis", strs (sorted_strs (apis m))); ("rbac_scopes", strs (sorted_strs (rbac_scopes m)));
   ("events", strs (sorted_strs (events m))); ("observability", strs (sorted_strs (observability m)));
   ("tests", strs (sorted_strs (tests m))); ("documentation_requirements", strs (sorted_strs (documentation_requirements m)));
   ("package_structure", strs (package_structure m)); ("metadata", VDict (py_sorted key_le (metadata m)))].

Definition export_json (m : t) : string := dumps (VDict (as_dict m)).

Definition repository_id `{Oracle} (m : t) : string := "repo-" +:+ String.substring 0 16 (sha256_hex (export_json m)).

Definition from_dict (value : doc) : res t :=
  let? name := str_field value "name" in
  let? domain := str_field value "domain" in
  let? purpose := str_field value "purpose" in
  let? architecture := str_field value "architecture" in
  let? repository_type := str_field value "repository_type" in
  let? dependencies := strs_field_or value "dependencies" [] in
  let? apis := strs_field_or value "apis" [] in
  let? rbac_scopes := strs_field_or value "rbac_scopes" [] in
  let? events := strs_field_or value "events" [] in
  let? observability := strs_field_or value "observability" [] in
  let? tests := strs_field_or value "tests" [] in
  let? documentation_requirements := strs_field_or value "documentation_requirements" [] in
  let? package_structure := strs_field_or value "package_structure" [] in
  let? metadata := dict_field_or_empty value "metadata" in
  Ok (Mk name domain purpose architecture repository_type dependencies apis rbac_scopes events observability tests
        documentation_requirements package_structure metadata).
End RepositoryManifest.

Abbreviation RepositoryManifest := RepositoryManifest.t.

(** * project_templates.py and package_structure.py *)

Module ProjectTemplate.
Record t := Mk { architecture : string; structure : list string }.
End ProjectTemplate.

Definition PROJECT_TEMPLATES : dict ProjectTemplate.t := [
  ("service", ProjectTemplate.Mk "layered-service" ["src/"; "tests/"; "docs/"; "deploy/"]);
  ("library", ProjectTemplate.Mk "modular-library" ["src/"; "tests/"; "docs/"]);
  ("frontend", ProjectTemplate.Mk "component-frontend" ["src/"; "public/"; "tests/"; "docs/"]);
  ("cli", ProjectTemplate.Mk "command-application" ["src/"; "tests/"; "docs/"]);
  ("edge", ProjectTemplate.Mk "event-driven-edge" ["src/"; "tests/"; "deploy/"; "docs/"]);
  ("infrastructure", ProjectTemplate.Mk "declarative-infrastructure" ["modules/"; "environments/"; "tests/"; "docs/"]);
  ("ai_agent", ProjectTemplate.Mk "policy-gated-agent" ["agent/"; "tools/"; "tests/"; "docs/"]);
  ("domain_platform", ProjectTemplate.Mk "modular-domain-platform" ["services/"; "packages/"; "apps/"; "tests/"; "docs/"])].

Definition project_template (repository_type : string) : res ProjectTemplate.t :=
  match dget PROJECT_TEMPLATES repository_type with
  | Some template => Ok template
  | None => Err (Exn ValueError ("unsupported repository type: " +:+ repository_type))
  end.

Definition underscored (c : ascii) : string := if bool_decide (c = "-"%char) then "_" else String c "".

Definition build_package_structure (repository_type name : string) : res (list string) :=
  let? template := project_template repository_type in
  let root := lower (string_flat underscored name) in
  Ok (map (fun item => root +:+ "/" +:+ item) (ProjectTemplate.structure template)).

(** * manifest_builder.py *)

Module ManifestBuilder.
(** The package structure is computed whether it is used or not. *)
Definition build (payload : doc) : res RepositoryManifest :=
  let repository_type := str_field_or payload "repository_type" "service" in
  let? template := project_template repository_type in
  let? name := str_field payload "name" in
  let domain := str_field_or payload "domain" "general" in
  let? purpose := str_field payload "purpose" in
  let architecture := str_field_or payload "architecture" (ProjectTemplate.architecture template) in
  let? dependencies := strs_field_or payload "dependencies" [] in
  let? apis := strs_field_or payload "apis" [] in
  let? rbac_scopes := strs_field_or payload "rbac_scopes" [] in
  let? events := strs_field_or payload "events" [] in
  let? observability := strs_field_or payload "observability" ["health"; "metrics"; "tracing"] in
  let? tests := strs_field_or payload "tests" ["unit"; "integration"] in
  let? documentation := strs_field_or payload "documentation_requirements" ["README"; "architecture"; "API"] in
  let? structure := build_package_structure repository_type name in
  let? package_structure := strs_field_or payload "package_structure" structure in
  let? metadata := dict_field_or_empty payload "metadata" in
  let manifest := RepositoryManifest.Mk name domain purpose architecture repository_type dependencies apis rbac_scopes events
    observability tests documentation package_structure metadata in
  let? _ := RepositoryManifest.validate manifest in
  Ok manifest.
End ManifestBuilder.

(** * repository_blueprints.py, scaffolding.py and lifecycle.py *)

Module RepositoryBlueprint.
Record t := Mk { blueprint_id : string; manifest : RepositoryManifest; files : dict string }.

Definition as_dict (b : t) : doc :=
  [("blueprint_id", VStr (blueprint_id b)); ("manifest", VDict (RepositoryManifest.as_dict (manifest b)));
   ("files", VDict (map (fun p => (p.1, VStr p.2)) (py_sorted key_le (files b))))].

Definition digest `{Oracle} (b : t) : string := sha256_hex (dumps (VDict (as_dict b))).
End RepositoryBlueprint.

Abbreviation RepositoryBlueprint := RepositoryBlueprint.t.

(** [s.rstrip("/")] *)
Fixpoint rstrip_slash (s : string) : string :=
  match s with
  | "" => ""
  | String c s' => let r := rstrip_slash s' in if bool_decide (r = "") && bool_decide (c = "/"%char) then "" else String c r
  end.

(** [s.removeprefix(p)] *)
Definition remove_prefix (p s : string) : string :=
  if starts_with p s then String.substring (String.length p) (String.length s) s else s.

Module RepositoryScaffolder.
Definition scaffold `{Oracle} (manifest : RepositoryManifest) : RepositoryBlueprint :=
  let files := [("README.md", "# " +:+ RepositoryManifest.name manifest +:+ nl +:+ nl +:+ RepositoryManifest.purpose manifest +:+ nl);
    ("ARCHITECTURE.md", "# Architecture" +:+ nl +:+ nl +:+ RepositoryManifest.architecture manifest +:+ nl);
    ("repository.manifest.json", RepositoryManifest.export_json manifest +:+ nl);
    ("tests/test_smoke.py", "def test_repository_smoke():" +:+ nl +:+ "    assert True" +:+ nl)] in
  RepositoryBlueprint.Mk ("blueprint-" +:+ remove_prefix "repo-" (RepositoryManifest.repository_id manifest)) manifest
    (foldl (fun files path => dset files (rstrip_slash path +:+ "/.gitkeep") "") files (RepositoryManifest.package_structure manifest)).
End RepositoryScaffolder.

Module RepositoryFactory.
Definition create_blueprint `{Oracle} (payload : doc) : res RepositoryBlueprint :=
  let? manifest := ManifestBuilder.build payload in Ok (RepositoryScaffolder.scaffold manifest).
End RepositoryFactory.

(** * dependency_graph.py *)

Module RepositoryDependencyGraph.
(** [_edges]: the dependencies of every repository that was added *)
Definition t : Type := dict (gset string).

Definition init : t := [].

(** [visit(node)], over the nodes on the way to it and those that are done; a set
    is walked in some order. *)
Fixpoint visit (fuel : nat) (edges : t) (node : string) (st : gset string * gset string) : res (gset string * gset string) :=
  let '(visiting, visited) := st in
  if bool_decide (node ∈ visiting) then Err (Exn ValueError "circular repository dependency detected")
  else if bool_decide (node ∈ visited) then Ok st
  else
  match fuel with
  | 0%nat => Err (Exn RecursionError "maximum recursion depth exceeded")
  | Datatypes.S fuel' =>
      let? st' := (fix go (l : list string) (st : gset string * gset string) : res (gset string * gset string) :=
                     match l with
                     | [] => Ok st
                     | dependency :: l' =>
                         if dmem edges dependency then let? st' := visit fuel' edges dependency st in go l' st' else go l' st
                     end) (elements (default ∅ (dget edges node))) ({[node]} ∪ visiting, visited) in
      Ok (st'.1 ∖ {[node]}, {[node]} ∪ st'.2)
  end.

Fixpoint visit_all (edges : t) (nodes : list string) (st : gset string * gset string) : res (gset string * gset string) :=
  match nodes with
  | [] => Ok st
  | node :: nodes' => let? st' := visit (Datatypes.S (length edges)) edges node st in visit_all edges nodes' st'
  end.

Definition validate (edges : t) : res unit :=
  let? _ := visit_all edges (sorted_strs edges.*1) (∅, ∅) in Ok tt.

(** The dependencies stay when the check raises. *)
Definition add (repository_id : string) (dependencies : list string) : M t unit :=
  do* modify (fun edges => dset edges repository_id (list_to_set dependencies));
  let* edges := get_state in of_res (validate edges).

Definition dependencies (repository_id : string) (edges : t) : list string := py_sorted_set (default ∅ (dget edges repository_id)).

Definition as_dict (edges : t) : doc := map (fun p => (p.1, strs (py_sorted_set p.2))) (py_sorted key_le edges).
End RepositoryDependencyGraph.

(** * repository_lifecycle/service.py *)

Module RepositoryRecord.
Record t := Mk {
  repository_id : string;
  tenant_id : string;
  organization_id : string;
  name : string;
  version : string;
  status : string;
  manifest : doc;
  blueprint_digest : string;
  owner : string;
  dependencies : list string;
  parent_repository_id : option string;
  lineage_action : string;
  release_history : list string;
  created_at : Z;
  updated_at : Z;
}.

Definition as_dict (r : t) : doc :=
  [("repository_id", VStr (repository_id r)); ("tenant_id", VStr (tenant_id r)); ("organization_id", VStr (organization_id r));
   ("name", VStr (name r)); ("version", VStr (version r)); ("status", VStr (status r)); ("manifest", VDict (manifest r));
   ("blueprint_digest", VStr (blueprint_digest r)); ("owner", VStr (owner r)); ("dependencies", strs (sorted_strs (dependencies r)));
   ("parent_repository_id", opt_str (parent_repository_id r)); ("lineage_action", VStr (lineage_action r));
   ("release_history", strs (release_history r)); ("created_at", VStr (isoformat (created_at r)));
   ("updated_at", VStr (isoformat (updated_at r)))].

Definition from_dict (value : doc) : res t :=
  let? repository_id := str_field value "repository_id" in
  let? tenant_id := str_field value "tenant_id" in
  let? organization_id := str_field value "organization_id" in
  let? name := str_field value "name" in
  let? version := str_field value "version" in
  let? status := str_field value "status" in
  let? manifest := (let? v := dindex value "manifest" in py_dict v) in
  let? blueprint_digest := str_field value "blueprint_digest" in
  let? owner := str_field value "owner" in
  let? dependencies := strs_field_or value "dependencies" [] in
  let parent_repository_id := opt_str_field value "parent_repository_id" in
  let lineage_action := str_field_or value "lineage_action" "create" in
  let? release_history := strs_field_or value "release_history" ["1.0.0"] in
  let? created_at := time_field value "created_at" in
  let? updated_at := time_field value "updated_at" in
  Ok (Mk repository_id tenant_id organization_id name version status manifest blueprint_digest owner dependencies
        parent_repository_id lineage_action release_history created_at updated_at).

(** [replace(record, status=status, updated_at=now)] *)
Definition with_status (status : string) (now : Z) (r : t) : t :=
  Mk (repository_id r) (tenant_id r) (organization_id r) (name r) (version r) status (manifest r) (blueprint_digest r) (owner r)
    (dependencies r) (parent_repository_id r) (lineage_action r) (release_history r) (created_at r) now.

(** [replace(current, version=version, manifest=..., ...)] *)
Definition with_release (m : RepositoryManifest) (version : string) (now : Z) (r : t) : t :=
  Mk (repository_id r) (tenant_id r) (organization_id r) (name r) version (status r) (RepositoryManifest.as_dict m)
    (blueprint_digest r) (owner r) (RepositoryManifest.dependencies m) (parent_repository_id r) (lineage_action r)
    (release_history r ++ [version]) (created_at r) now.

(** [replace(parent, repository_id=derived_id, name=name, ...)] *)
Definition derived (id name : string) (m : RepositoryManifest) (action owner : string) (created updated : Z) (parent : t) : t :=
  Mk id (tenant_id parent) (organization_id parent) name (version parent) (status parent) (RepositoryManifest.as_dict m)
    (blueprint_digest parent) owner (dependencies parent) (Some (repository_id parent)) action (release_history parent) created updated.

(** A record that is read back as it was written *)
Definition record_ok (r : t) : Prop :=
  repository_id r ≠ "" ∧ sorted_strs (dependencies r) = dependencies r ∧ parent_repository_id r ≠ Some "" ∧
  time_ok (created_at r) ∧ time_ok (updated_at r).

Lemma record_dec_enc r : record_ok r → from_dict (as_dict r) = Ok r.
Proof.
  intros (_ & Hd & Hp & Hc & Hu). unfold from_dict.
  rewrite (strs_field_or_eq (as_dict r) "dependencies" _ (sorted_strs (dependencies r))) by done.
  rewrite (strs_field_or_eq (as_dict r) "release_history" _ (release_history r)) by done.
  rewrite (opt_str_field_eq _ "parent_repository_id" (parent_repository_id r)) by done.
  rewrite (time_field_iso (as_dict r) "created_at" (created_at r)), (time_field_iso (as_dict r) "updated_at" (updated_at r)) by done.
  rewrite Hd. by destruct r.
Qed.
End RepositoryRecord.

Abbreviation RepositoryRecord := RepositoryRecord.t.

#[export] Instance repository_document `{Oracle} {S} : Document S RepositoryRecord := {
  d_coll := "factory_repositories";
  d_key := RepositoryRecord.repository_id;
  d_enc := RepositoryRecord.as_dict;
  d_dec d := of_res (RepositoryRecord.from_dict d);
  d_ok := RepositoryRecord.record_ok;
  d_dec_enc r s Hr := f_equal (fun x => (x, s)) (RepositoryRecord.record_dec_enc r Hr);
  d_enc_ne r := ltac:(done);
}.

Module RepositoryLifecycleService.
Section Service.
Context `{Oracle} {S : Type} `{PersistenceStore S}.

Definition _save (record : RepositoryRecord) (event_type : string) : M (sys S) unit :=
  do* doc_put record;
  do* EventStore.append event_type (RepositoryRecord.repository_id record) (RepositoryRecord.as_dict record);
  ret tt.

Definition create (ctx : TenantContext) (blueprint : RepositoryBlueprint) : M (sys S) RepositoryRecord :=
  let manifest := RepositoryBlueprint.manifest blueprint in
  let* created := utc_now in
  let* updated := utc_now in
  let record := RepositoryRecord.Mk (RepositoryManifest.repository_id manifest) (TenantContext.tenant_id ctx)
    (TenantContext.organization_id ctx) (RepositoryManifest.name manifest) "1.0.0" "active" (RepositoryManifest.as_dict manifest)
    (RepositoryBlueprint.digest blueprint) (TenantContext.principal_id ctx) (RepositoryManifest.dependencies manifest) None "create"
    ["1.0.0"] created updated in
  do* _save record "factory.repository.created";
  ret record.

Definition get (ctx : TenantContext) (repository_id : string) : M (sys S) RepositoryRecord :=
  let* value := store_get "factory_repositories" repository_id in
  match value with
  | None => raise NotFoundError "repository not found"
  | Some value =>
      let* record := of_res (RepositoryRecord.from_dict value) in
      if negb (bool_decide (RepositoryRecord.tenant_id record = TenantContext.tenant_id ctx)) && negb (TenantContext.is_global_admin ctx)
      then raise AuthorizationError "cross-tenant repository access denied" else ret record
  end.

Definition list (ctx : TenantContext) : M (sys S) (list RepositoryRecord) := doc_list_tenant (TenantContext.tenant_id ctx).

Definition update (ctx : TenantContext) (repository_id : string) (manifest : RepositoryManifest) (version : string)
    : M (sys S) RepositoryRecord :=
  let* current := get ctx repository_id in
  let* now := utc_now in
  let updated := RepositoryRecord.with_release manifest version now current in
  do* _save updated "factory.repository.updated";
  ret updated.

Definition _status (ctx : TenantContext) (repository_id status event_type : string) : M (sys S) RepositoryRecord :=
  let* current := get ctx repository_id in
  let* now := utc_now in
  let record := RepositoryRecord.with_status status now current in
  do* _save record event_type;
  ret record.

Definition deprecate ctx repository_id := _status ctx repository_id "deprecated" "factory.repository.deprecated".
Definition archive ctx repository_id := _status ctx repository_id "archived" "factory.repository.archived".
Definition restore ctx repository_id := _status ctx repository_id "active" "factory.repository.restored".

Definition derived_id (parent action name : string) : string :=
  "repo-" +:+ String.substring 0 16 (sha256_hex (parent +:+ ":" +:+ action +:+ ":" +:+ name)).

(** [event_type[action]], for the two actions there are *)
Definition _derive (ctx : TenantContext) (repository_id name action event_type : string) : M (sys S) RepositoryRecord :=
  let* parent := get ctx repository_id in
  let* manifest := of_res (RepositoryManifest.from_dict (dset (RepositoryRecord.manifest parent) "name" (VStr name))) in
  let* created := utc_now in
  let* updated := utc_now in
  let record := RepositoryRecord.derived (derived_id (RepositoryRecord.repository_id parent) action name) name manifest action
    (TenantContext.principal_id ctx) created updated parent in
  do* _save record event_type;
  ret record.

Definition clone ctx repository_id name := _derive ctx repository_id name "clone" "factory.repository.cloned".
Definition fork ctx repository_id name := _derive ctx repository_id name "fork" "factory.repository.forked".
End Service.
End RepositoryLifecycleService.

(** * repository_graph/graph.py *)

Module ImpactAnalysis.
Record t := Mk {
  repository_id : string;
  direct_dependents : list string;
  transitive_dependents : list string;
  drifted_dependencies : list string;
}.

Definition as_dict (a : t) : doc :=
  [("repository_id", VStr (repository_id a)); ("direct_dependents", strs (direct_dependents a));
   ("transitive_dependents", strs (transitive_dependents a)); ("drifted_dependencies", strs (drifted_dependencies a))].
End ImpactAnalysis.

Abbreviation ImpactAnalysis := ImpactAnalysis.t.

Module RepositoryGraph.
Definition t : Type := dict RepositoryRecord.

Definition init (repositories : list RepositoryRecord) : t :=
  foldl (fun g item => dset g (RepositoryRecord.repository_id item) item) [] repositories.

Definition id_le (a b : RepositoryRecord) : bool := str_le (RepositoryRecord.repository_id a) (RepositoryRecord.repository_id b).

Definition lineage (g : t) : list doc :=
  map (fun item => [("repository_id", VStr (RepositoryRecord.repository_id item));
    ("parent_repository_id", opt_str (RepositoryRecord.parent_repository_id item));
    ("lineage_action", VStr (RepositoryRecord.lineage_action item)); ("version", VStr (RepositoryRecord.version item))])
  (py_sorted id_le g.*2).

Definition dependencies (g : t) : dict (list string) :=
  map (fun item => (RepositoryRecord.repository_id item, sorted_strs (RepositoryRecord.dependencies item))) (py_sorted id_le g.*2).

(** A repository that depends on the one just taken and was not found before *)
Definition spread_step (current : string) (st : list string * gset string) (item : RepositoryRecord) : list string * gset string :=
  if bool_decide (current ∈ RepositoryRecord.dependencies item) && negb (bool_decide (RepositoryRecord.repository_id item ∈ st.2))
  then (st.1 ++ [RepositoryRecord.repository_id item], {[RepositoryRecord.repository_id item]} ∪ st.2) else st.

Definition spread (g : t) (current : string) (st : list string * gset string) : list string * gset string :=
  foldl (spread_step current) st g.*2.

(** [while queue] *)
Fixpoint impact_loop (fuel : nat) (g : t) (queue : list string) (transitive : gset string) : option (gset string) :=
  match queue with
  | [] => Some transitive
  | current :: queue' =>
      match fuel with
      | 0%nat => None
      | Datatypes.S fuel' => let st := spread g current (queue', transitive) in impact_loop fuel' g st.1 st.2
      end
  end.

(** Each repository is put into the queue once. *)
Definition transitive_of (g : t) (direct : list string) : gset string :=
  default ∅ (impact_loop (length g) g direct (list_to_set direct)).

Definition direct_of (g : t) (repository_id : string) : list string :=
  sorted_strs (RepositoryRecord.repository_id <$> base.filter (fun item => repository_id ∈ RepositoryRecord.dependencies item) g.*2).

Definition impact (g : t) (repository_id : string) : res ImpactAnalysis :=
  let direct := direct_of g repository_id in
  let transitive := transitive_of g direct in
  match dget g repository_id with
  | None => Err (Exn KeyError (repr_str "repository not found"))
  | Some item =>
      let drifted := sorted_strs (base.filter (fun d => dget g d = None) (RepositoryRecord.dependencies item)) in
      Ok (ImpactAnalysis.Mk repository_id direct (py_sorted_set transitive) drifted)
  end.
End RepositoryGraph.
