(* ===== verification/RepositoryLineage.v ===== *)
(** What a change of a repository reaches, and what the lifecycle of repositories
    keeps: the impact analysis finds exactly the repositories that depend on one,
    through any number of others; a tenant changes its own records only. *)

From stdpp Require Import base option list strings gmap sets relations.
From Stdlib Require Import ZArith Lia Sorted.
From S2P Require Import Prelude PyVal Json PyTime Store EventStore Documents Tenancy Repositories.

Local Open Scope Z_scope.

(** * Impact *)

Section Impact.
Import RepositoryGraph.
Context (g : RepositoryGraph.t).

(** A graph of repositories under their ids *)
Definition graph_of : Prop := dict_ok g ∧ ∀ id r, (id, r) ∈ g → RepositoryRecord.repository_id r = id.

(** [x] is a repository of the graph that depends on [y]. *)
Definition depends_on (x y : string) : Prop := ∃ r, dget g x = Some r ∧ y ∈ RepositoryRecord.dependencies r.

Hypothesis g_ok : graph_of.

Lemma graph_values r : r ∈ g.*2 → dget g (RepositoryRecord.repository_id r) = Some r.
Proof.
  destruct g_ok as [Hd Hid]. intros ([k r'] & -> & Hr)%list_elem_of_fmap. cbn. rewrite (Hid _ _ Hr). by apply elem_dget.
Qed.

Lemma depends_value x y : depends_on x y ↔ ∃ r, r ∈ g.*2 ∧ RepositoryRecord.repository_id r = x ∧ y ∈ RepositoryRecord.dependencies r.
Proof.
  split.
  - intros (r & Hg & Hy). apply dget_Some_elem in Hg. exists r. split_and!; [by apply (list_elem_of_fmap_2 snd) in Hg| |done].
    by apply g_ok.
  - intros (r & Hr & <- & Hy). exists r. split; [by apply graph_values|done].
Qed.

Lemma depends_key x y : depends_on x y → x ∈ g.*1.
Proof. intros (r & Hg & _). apply dget_Some_elem in Hg. by apply (list_elem_of_fmap_2 fst) in Hg. Qed.

Lemma elem_of_direct id x : x ∈ direct_of g id ↔ depends_on x id.
Proof.
  unfold direct_of, sorted_strs. rewrite (py_sorted_perm str_le), list_elem_of_fmap, depends_value.
  setoid_rewrite list_elem_of_filter. naive_solver.
Qed.

Lemma direct_NoDup id : NoDup (direct_of g id).
Proof.
  unfold direct_of, sorted_strs. rewrite (py_sorted_perm str_le).
  eapply sublist_NoDup; [|apply sublist_fmap_filter]. destruct g_ok as [Hd Hid].
  assert (RepositoryRecord.repository_id <$> g.*2 = g.*1) as ->; [|done].
  rewrite <- list_fmap_compose. apply list_fmap_ext. intros i [k r] Hi. cbn. apply Hid. by eapply list_elem_of_lookup_2.
Qed.

(** What was taken from the queue, [done], and the queue are what was found; all
    that depends on what was taken was found. *)
Record searched (id : string) (done queue : list string) (found : gset string) : Prop := Searched {
  sc_nodup : NoDup (done ++ queue);
  sc_found x : x ∈ found ↔ x ∈ done ++ queue;
  sc_tc x : x ∈ found → tc depends_on x id;
  sc_direct x : depends_on x id → x ∈ found;
  sc_closed x y : y ∈ done → depends_on x y → x ∈ found;
}.

Lemma spread_step_cases current q f r :
  spread_step current (q, f) r = (q, f) ∧ (current ∈ RepositoryRecord.dependencies r → RepositoryRecord.repository_id r ∈ f) ∨
  current ∈ RepositoryRecord.dependencies r ∧ RepositoryRecord.repository_id r ∉ f ∧
  spread_step current (q, f) r = (q ++ [RepositoryRecord.repository_id r], {[RepositoryRecord.repository_id r]} ∪ f).
Proof.
  unfold spread_step. cbn [fst snd]. case_bool_decide; cbn [andb]; [|by left]. case_bool_decide; cbn [negb]; [by left|by right].
Qed.

(** What the walk over the repositories [l] keeps, when [current] was taken *)
Lemma spread_invariant id current taken (l : list RepositoryRecord) : ∀ queue found,
  (∀ r, r ∈ l → r ∈ g.*2) → tc depends_on current id →
  NoDup (taken ++ queue) → (∀ x, x ∈ found ↔ x ∈ taken ++ queue) → (∀ x, x ∈ found → tc depends_on x id) →
  let st := foldl (spread_step current) (queue, found) l in
  NoDup (taken ++ st.1) ∧ (∀ x, x ∈ st.2 ↔ x ∈ taken ++ st.1) ∧ (∀ x, x ∈ st.2 → tc depends_on x id) ∧
  found ⊆ st.2 ∧ ∀ r, r ∈ l → current ∈ RepositoryRecord.dependencies r → RepositoryRecord.repository_id r ∈ st.2.
Proof.
  induction l as [|r l IH]; intros q f Hl Hc Hnd Hf Ht; cbn [foldl].
  { split_and!; try done. by intros r ?%elem_of_nil. }
  assert (r ∈ g.*2) as Hr by (apply Hl; by left). specialize (fun q f => IH q f ltac:(intros; apply Hl; by right) Hc).
  destruct (spread_step_cases current q f r) as [[-> Hin]|(Hd & Hn & ->)].
  - destruct (IH q f) as (? & ? & ? & Hff & Hr'); [done..|]. split_and!; try done.
    intros r' [->|?]%elem_of_cons Hd'; [by apply Hff, Hin|by apply Hr'].
  - destruct (IH (q ++ [RepositoryRecord.repository_id r]) ({[RepositoryRecord.repository_id r]} ∪ f)) as (? & ? & ? & Hff & Hr').
    + rewrite app_assoc. apply NoDup_app. split_and!; [done| |apply NoDup_singleton].
      intros x Hx ->%list_elem_of_singleton. by apply Hn, Hf.
    + intros x. rewrite app_assoc, elem_of_app, <- Hf, elem_of_union, elem_of_singleton, list_elem_of_singleton. tauto.
    + intros x [->%elem_of_singleton|Hx]%elem_of_union; [|by apply Ht]. eapply tc_l; [|exact Hc]. apply depends_value. eauto.
    + apply union_subseteq in Hff as [Hff0 Hff]. split_and!; try done.
      intros r' [->|?]%elem_of_cons Hd'; [by apply Hff0, elem_of_singleton|by apply Hr'].
Qed.

Lemma spread_searched id taken current queue found :
  searched id taken (current :: queue) found →
  let st := spread g current (queue, found) in searched id (taken ++ [current]) st.1 st.2.
Proof.
  intros [Hnd Hf Ht Hdir Hcl]. cbv zeta.
  assert (tc depends_on current id) as Hc by (apply Ht, Hf, elem_of_app; right; by left).
  destruct (spread_invariant id current (taken ++ [current]) g.*2 queue found (fun _ Hr => Hr) Hc) as (H1 & H2 & H3 & H4 & H5).
  - by rewrite <- app_assoc.
  - intros x. by rewrite <- app_assoc.
  - done.
  - change (foldl _ _ _) with (spread g current (queue, found)) in *. split; try done.
    + intros x Hx. by apply H4, Hdir.
    + intros x y [Hy| ->%list_elem_of_singleton]%elem_of_app Hxy; [by eapply H4, Hcl|].
      apply depends_value in Hxy as (r & Hr & <- & Hd). by apply H5.
Qed.

Lemma searched_done id taken found : searched id taken [] found → ∀ x, x ∈ found ↔ tc depends_on x id.
Proof.
  intros [Hnd Hf Ht Hdir Hcl] x. split; [apply Ht|].
  induction 1 as [x y Hxy|x y z Hxy _ IH]; [by apply Hdir|].
  apply (Hcl x y); [|done]. specialize (IH Ht Hdir). rewrite Hf, app_nil_r in IH. apply IH; eauto.
Qed.

(** The queue runs dry before the fuel does. *)
Lemma impact_loop_searched id fuel : ∀ taken queue found,
  searched id taken queue found → (length g <= length taken + fuel)%nat →
  ∃ found', impact_loop fuel g queue found = Some found' ∧ ∀ x, x ∈ found' ↔ tc depends_on x id.
Proof.
  induction fuel as [|fuel IH]; intros taken [|current queue] found Hs Hfuel;
    [exists found; split; [done|by apply (searched_done _ taken)]| |exists found; split; [done|by apply (searched_done _ taken)]|].
  - exfalso. pose proof (sc_nodup _ _ _ _ Hs) as Hnd.
    assert (length (taken ++ current :: queue) <= length g.*1)%nat as Hlen.
    { apply submseteq_length, NoDup_submseteq; [done|]. intros x Hx.
      apply (sc_found _ _ _ _ Hs), (sc_tc _ _ _ _ Hs) in Hx.
      by destruct Hx as [x y Hxy|x y z Hxy _]; apply depends_key in Hxy. }
    rewrite length_app, length_fmap in Hlen. cbn in Hlen. lia.
  - cbn [impact_loop]. apply (IH (taken ++ [current])); [by apply spread_searched|]. rewrite length_app. cbn. lia.
Qed.

Lemma transitive_spec id x : x ∈ transitive_of g (direct_of g id) ↔ tc depends_on x id.
Proof.
  unfold transitive_of. destruct (impact_loop_searched id (length g) [] (direct_of g id) (list_to_set (direct_of g id))) as (f & -> & Hf).
  - split; [apply direct_NoDup|by intros; rewrite elem_of_list_to_set| | |by intros ? ? ?%elem_of_nil].
    + intros y Hy%elem_of_list_to_set%elem_of_direct. by apply tc_once.
    + intros y Hy. by apply elem_of_list_to_set, elem_of_direct.
  - cbn. lia.
  - apply Hf.
Qed.
End Impact.

Lemma init_eq repositories :
  NoDup (RepositoryRecord.repository_id <$> repositories) →
  RepositoryGraph.init repositories = map (fun r => (RepositoryRecord.repository_id r, r)) repositories.
Proof. apply (dict_by_key RepositoryRecord.repository_id). Qed.

Lemma init_graph repositories : NoDup (RepositoryRecord.repository_id <$> repositories) → graph_of (RepositoryGraph.init repositories).
Proof.
  intros Hnd. rewrite init_eq by done. split.
  - unfold dict_ok. change (map ?f ?l) with (f <$> l). by rewrite <- list_fmap_compose.
  - by intros id r (r' & [= -> ->] & _)%list_elem_of_fmap.
Qed.

Lemma init_lookup repositories id r :
  NoDup (RepositoryRecord.repository_id <$> repositories) →
  dget (RepositoryGraph.init repositories) id = Some r ↔ r ∈ repositories ∧ RepositoryRecord.repository_id r = id.
Proof.
  intros Hnd. pose proof (init_graph repositories Hnd) as Hg. pose proof (init_eq repositories Hnd) as Heq. split.
  - intros Hr%dget_Some_elem. split; [|by apply Hg]. rewrite Heq in Hr. by apply list_elem_of_fmap in Hr as (r' & [= -> ->] & Hr).
  - intros [Hr <-]. apply elem_dget; [by apply Hg|]. rewrite Heq. by apply (list_elem_of_fmap_2 (fun r => (RepositoryRecord.repository_id r, r))).
Qed.

(** C23: the impact of a repository is found for exactly the repositories there are.
    Its direct dependents are those that name it as a dependency, its transitive
    dependents are those that reach it over any number of dependencies (itself
    included when it is on a cycle), each listed once and in order, and its drifted
    dependencies are those that are no repository. The search always ends. *)
Theorem impact_exact repositories id :
  NoDup (RepositoryRecord.repository_id <$> repositories) →
  let g := RepositoryGraph.init repositories in
  match RepositoryGraph.impact g id with
  | Ok a =>
      id ∈ RepositoryRecord.repository_id <$> repositories ∧ ImpactAnalysis.repository_id a = id ∧
      (∀ x, x ∈ ImpactAnalysis.direct_dependents a ↔ depends_on g x id) ∧
      (∀ x, x ∈ ImpactAnalysis.transitive_dependents a ↔ tc (depends_on g) x id) ∧
      (∀ d, d ∈ ImpactAnalysis.drifted_dependencies a ↔ depends_on g id d ∧ d ∉ RepositoryRecord.repository_id <$> repositories) ∧
      Forall (fun l => NoDup l ∧ Sorted (fun x y => str_le x y = true) l)
        [ImpactAnalysis.direct_dependents a; ImpactAnalysis.transitive_dependents a]
  | Err e => exn_cls e = KeyError ∧ id ∉ RepositoryRecord.repository_id <$> repositories
  end.
Proof.
  intros Hnd. cbv zeta. pose proof (init_graph repositories Hnd) as Hg. set (g := RepositoryGraph.init repositories) in *.
  assert (∀ d, dget g d = None ↔ d ∉ RepositoryRecord.repository_id <$> repositories) as Hnone.
  { intros d. rewrite list_elem_of_fmap. split.
    - intros Hd (r & -> & Hr). by rewrite (proj2 (init_lookup repositories _ r Hnd)) in Hd.
    - intros Hd. destruct (dget g d) as [r|] eqn:E; [|done]. apply init_lookup in E as [Hr <-]; [|done]. destruct Hd. eauto. }
  unfold RepositoryGraph.impact. destruct (dget g id) as [item|] eqn:Hid.
  2: { split; [done|]. by apply Hnone. }
  cbn. split_and!; [| done|..].
  - apply dec_stable. by rewrite <- Hnone, Hid.
  - intros x. by apply elem_of_direct.
  - intros x. rewrite elem_of_sorted_set. by apply transitive_spec.
  - intros d. unfold sorted_strs. rewrite (py_sorted_perm str_le), list_elem_of_filter, Hnone. unfold depends_on. rewrite Hid. naive_solver.
  - assert (∀ s : gset string, NoDup (py_sorted_set s)) as Hnds.
    { intros s. unfold py_sorted_set. rewrite (py_sorted_perm str_le). apply NoDup_elements. }
    repeat constructor; [by apply direct_NoDup|apply py_sorted_Sorted, str_le_total|apply Hnds|apply py_sorted_Sorted, str_le_total].
Qed.

(** * The lifecycle *)

(** The changes of a repository there is *)
Inductive change :=
  | Update (manifest : RepositoryManifest) (version : string)
  | Deprecate
  | Archive
  | Restore
  | Clone (name : string)
  | Fork (name : string).

Definition event_of (c : change) : string :=
  match c with
  | Update _ _ => "factory.repository.updated" | Deprecate => "factory.repository.deprecated"
  | Archive => "factory.repository.archived" | Restore => "factory.repository.restored"
  | Clone _ => "factory.repository.cloned" | Fork _ => "factory.repository.forked"
  end.

Section Lifecycle.
Context `{Oracle} {S : Type} `{PersistenceStore S, !StoreLaws S}.
Import RepositoryLifecycleService.

Definition perform (ctx : TenantContext) (id : string) (c : change) : M (sys S) RepositoryRecord :=
  match c with
  | Update manifest version => update ctx id manifest version
  | Deprecate => deprecate ctx id
  | Archive => archive ctx id
  | Restore => restore ctx id
  | Clone name => clone ctx id name
  | Fork name => fork ctx id name
  end.

(** The record a change makes of one, at the times it reads *)
Definition changed (ctx : TenantContext) (c : change) (now now' : Z) (r : RepositoryRecord) : res RepositoryRecord :=
  let derive name action :=
    let? m := RepositoryManifest.from_dict (dset (RepositoryRecord.manifest r) "name" (VStr name)) in
    Ok (RepositoryRecord.derived (derived_id (RepositoryRecord.repository_id r) action name) name m action
          (TenantContext.principal_id ctx) now now' r) in
  match c with
  | Update manifest version => Ok (RepositoryRecord.with_release manifest version now r)
  | Deprecate => Ok (RepositoryRecord.with_status "deprecated" now r)
  | Archive => Ok (RepositoryRecord.with_status "archived" now r)
  | Restore => Ok (RepositoryRecord.with_status "active" now r)
  | Clone name => derive name "clone"
  | Fork name => derive name "fork"
  end.

Definition may (ctx : TenantContext) (r : RepositoryRecord) : bool :=
  bool_decide (RepositoryRecord.tenant_id r = TenantContext.tenant_id ctx) || TenantContext.is_global_admin ctx.

(** [s'] holds [r] and, but for it, what [s] does; the change was logged. *)
Record saved_as (r : RepositoryRecord) (ty : string) (s s' : sys S) : Prop := SavedAs {
  sv_stored : st_get "factory_repositories" (RepositoryRecord.repository_id r) (db s') = Some (RepositoryRecord.as_dict r);
  sv_others c k : c ≠ "events" → (c, k) ≠ ("factory_repositories", RepositoryRecord.repository_id r) →
    st_get c k (db s') = st_get c k (db s);
  sv_logged : ∃ e, events s' = events s ++ [e] ∧ event_type e = ty ∧ aggregate_id e = RepositoryRecord.repository_id r ∧
    payload e = RepositoryRecord.as_dict r;
}.

Lemma save_eq r ty (s : sys S) :
  bool_decide (ty ∈ EVENT_TYPE_REGISTRY) = true → ∃ s', _save r ty s = (Ok tt, s') ∧ saved_as r ty s s'.
Proof.
  intros Hty. unfold _save, bind at 1, doc_put, store_put, modify.
  destruct (append_ok ty (RepositoryRecord.repository_id r) (RepositoryRecord.as_dict r)
    (with_db (st_put "factory_repositories" (RepositoryRecord.repository_id r) (RepositoryRecord.as_dict r)) s) Hty) as (e & s' & He & Hev & Hty' & Hag & Hp & Hdb).
  exists s'. split; [unfold bind; cbn -[EventStore.append]; by rewrite He|]. split.
  - rewrite Hdb by done. apply get_put_eq.
  - intros c k Hc Hne. rewrite Hdb by done. apply get_put_ne. congruence.
  - by exists e.
Qed.

Lemma repository_get_eq ctx id (s : sys S) :
  typed (A := RepositoryRecord) (db s) →
  (∃ r, stored r (db s) ∧ RepositoryRecord.repository_id r = id ∧
     get ctx id s = (if may ctx r then Ok r else Err (Exn AuthorizationError "cross-tenant repository access denied"), s)) ∨
  (st_get "factory_repositories" id (db s) = None ∧ get ctx id s = (Err (Exn NotFoundError "repository not found"), s)).
Proof.
  intros Ht. unfold get, bind, store_get, gets. destruct (st_get "factory_repositories" id (db s)) as [d|] eqn:Hg; [|by right].
  left. destruct (Ht id d Hg) as (r & Hr & Hk & ->). exists r. split_and!; [by split; [|rewrite Hk]|done|].
  unfold of_res. change (d_enc (S := S) r) with (RepositoryRecord.as_dict r). rewrite RepositoryRecord.record_dec_enc by exact Hr.
  unfold may. case_bool_decide; cbn [negb andb orb]; [done|]. by destruct (TenantContext.is_global_admin ctx).
Qed.

(** What a call that found a record it may change comes to *)
Lemma change_eq ctx id c (s : sys S) r :
  get ctx id s = (Ok r, s) →
  match changed ctx c (clock (tick s)) (clock (Datatypes.S (tick s))) r with
  | Ok r' => ∃ s', perform ctx id c s = (Ok r', s') ∧ saved_as r' (event_of c) s s'
  | Err e => perform ctx id c s = (Err e, s)
  end.
Proof.
  intros Hg.
  assert (∀ r' (t : sys S), db t = db s → events t = events s →
    ∃ s', _save r' (event_of c) t = (Ok tt, s') ∧ saved_as r' (event_of c) s s') as Hsave.
  { intros r' t Hd He. destruct (save_eq r' (event_of c) t ltac:(by destruct c)) as (s' & Hs & [H1 H2 H3]).
    exists s'. split; [done|]. rewrite Hd in H2. rewrite He in H3. by split. }
  assert (∀ B (k : RepositoryRecord → M (sys S) B), bind (get ctx id) k s = k r s) as Hrun by (intros; unfold bind; by rewrite Hg).
  destruct c as [m v| | | |name|name]; cbn [changed perform event_of] in *;
    unfold update, deprecate, archive, restore, clone, fork, _status, _derive; rewrite Hrun.
  5-6: unfold of_res at 1; destruct (RepositoryManifest.from_dict _) as [m|e]; cbn [res_bind]; [|done].
  all: unfold bind, utc_now, ret; cbv beta iota;
    lazymatch goal with |- context [_save ?r' _ ?t] => destruct (Hsave r' t eq_refl eq_refl) as (s' & Hs & Hsv) end; rewrite Hs; by exists s'.
Qed.

Lemma change_err ctx id c (s : sys S) e : get ctx id s = (Err e, s) → perform ctx id c s = (Err e, s).
Proof.
  intros Hg. assert (∀ B (k : RepositoryRecord → M (sys S) B), bind (get ctx id) k s = (Err e, s)) as Hrun
    by (intros; unfold bind; by rewrite Hg).
  destruct c; apply Hrun.
Qed.

(** The record as it is read back: its dependencies are in order. *)
Definition read_back (r : RepositoryRecord) : RepositoryRecord :=
  RepositoryRecord.Mk (RepositoryRecord.repository_id r) (RepositoryRecord.tenant_id r) (RepositoryRecord.organization_id r)
    (RepositoryRecord.name r) (RepositoryRecord.version r) (RepositoryRecord.status r) (RepositoryRecord.manifest r)
    (RepositoryRecord.blueprint_digest r) (RepositoryRecord.owner r) (sorted_strs (RepositoryRecord.dependencies r))
    (RepositoryRecord.parent_repository_id r) (RepositoryRecord.lineage_action r) (RepositoryRecord.release_history r)
    (RepositoryRecord.created_at r) (RepositoryRecord.updated_at r).

Lemma sorted_strs_idem l : sorted_strs (sorted_strs l) = sorted_strs l.
Proof. by apply py_sorted_id, py_sorted_Sorted, str_le_total. Qed.

Lemma read_back_dict r : RepositoryRecord.as_dict (read_back r) = RepositoryRecord.as_dict r.
Proof. unfold RepositoryRecord.as_dict. cbn. by rewrite sorted_strs_idem. Qed.

Definition plain_ok (r : RepositoryRecord) : Prop :=
  RepositoryRecord.repository_id r ≠ "" ∧ RepositoryRecord.parent_repository_id r ≠ Some "" ∧
  time_ok (RepositoryRecord.created_at r) ∧ time_ok (RepositoryRecord.updated_at r).

Lemma read_back_ok r : plain_ok r → RepositoryRecord.record_ok (read_back r).
Proof. intros (? & ? & ? & ?). split_and!; try done. apply sorted_strs_idem. Qed.

Lemma changed_ok ctx c now now' r r' :
  RepositoryRecord.record_ok r → time_ok now → time_ok now' → changed ctx c now now' r = Ok r' →
  plain_ok r' ∧ RepositoryRecord.tenant_id r' = RepositoryRecord.tenant_id r.
Proof.
  intros (Hid & _ & Hp & Hc & Hu) Hn Hn'.
  destruct c; cbn [changed]; try (intros [= <-]; by split_and!).
  all: destruct (RepositoryManifest.from_dict _); cbn [res_bind]; [|done]; intros [= <-];
    split; [split_and!; [done|by intros [= ?]|done|done]|done].
Qed.

Lemma saved_typed r ty (s s' : sys S) :
  plain_ok r → saved_as r ty s s' → typed (A := RepositoryRecord) (db s) → typed (A := RepositoryRecord) (db s').
Proof.
  intros Hr [Hst Hoth _] Ht k d Hd. destruct (decide (k = RepositoryRecord.repository_id r)) as [->|Hne].
  - exists (read_back r). change (d_coll (A := RepositoryRecord)) with "factory_repositories" in Hd. rewrite Hst in Hd.
    injection Hd as <-. split_and!; [by apply read_back_ok|done|]. symmetry. apply read_back_dict.
  - rewrite Hoth in Hd; [by apply Ht|done|]. intros [= ?]. done.
Qed.

(** The record a creation stores *)
Definition created (ctx : TenantContext) (blueprint : RepositoryBlueprint) (now now' : Z) : RepositoryRecord :=
  let manifest := RepositoryBlueprint.manifest blueprint in
  RepositoryRecord.Mk (RepositoryManifest.repository_id manifest) (TenantContext.tenant_id ctx)
    (TenantContext.organization_id ctx) (RepositoryManifest.name manifest) "1.0.0" "active" (RepositoryManifest.as_dict manifest)
    (RepositoryBlueprint.digest blueprint) (TenantContext.principal_id ctx) (RepositoryManifest.dependencies manifest) None "create"
    ["1.0.0"] now now'.

Lemma created_exact ctx blueprint (s : sys S) :
  (∀ n, time_ok (clock n)) → typed (A := RepositoryRecord) (db s) →
  let r := created ctx blueprint (clock (tick s)) (clock (Datatypes.S (tick s))) in
  ∃ s', create ctx blueprint s = (Ok r, s') ∧ typed (A := RepositoryRecord) (db s') ∧
    saved_as r "factory.repository.created" s s'.
Proof.
  intros Hclock Ht r. unfold create. cbv zeta. unfold bind at 1 2, utc_now. cbv beta iota.
  match goal with |- context [bind (_save ?r0 ?ty) _ ?t] => change r0 with r;
    destruct (save_eq r ty t ltac:(done)) as (s' & Hs & [H1 H2 H3]) end.
  assert (Hsv : saved_as r "factory.repository.created" s s') by by split.
  exists s'. split; [by unfold bind; rewrite Hs|]. split; [|done]. apply (saved_typed r "factory.repository.created" s s'); [|done|done].
  split_and!; try done; apply Hclock.
Qed.

(** The calls that change a repository that is there *)
Lemma change_exact ctx id c (s : sys S) :
  (∀ n, time_ok (clock n)) → typed (A := RepositoryRecord) (db s) →
  ∃ out s', perform ctx id c s = (out, s') ∧ typed (A := RepositoryRecord) (db s') ∧
    match st_get "factory_repositories" id (db s) with
    | None => out = Err (Exn NotFoundError "repository not found") ∧ s' = s
    | Some d => ∃ r, d = RepositoryRecord.as_dict r ∧ RepositoryRecord.repository_id r = id ∧
        if may ctx r then
          match changed ctx c (clock (tick s)) (clock (Datatypes.S (tick s))) r with
          | Ok r' => out = Ok r' ∧ RepositoryRecord.tenant_id r' = RepositoryRecord.tenant_id r ∧ saved_as r' (event_of c) s s'
          | Err e => out = Err e ∧ s' = s
          end
        else out = Err (Exn AuthorizationError "cross-tenant repository access denied") ∧ s' = s
    end.
Proof.
  intros Hclock Ht. destruct (repository_get_eq ctx id s Ht) as [(r & [Hok Hst] & <- & Hg)|[Hst Hg]].
  - change (st_get "factory_repositories" (RepositoryRecord.repository_id r) (db s) = Some (RepositoryRecord.as_dict r)) in Hst. rewrite Hst.
    destruct (may ctx r) eqn:Hm.
    + pose proof (change_eq ctx _ c s r Hg) as Hp. destruct (changed ctx c _ _ r) as [r'|e] eqn:Hc.
      * destruct Hp as (s' & Hp & Hs). destruct (changed_ok _ _ _ _ _ _ Hok (Hclock _) (Hclock _) Hc) as [Hr' Hten].
        exists (Ok r'), s'. split; [done|]. split; [by eapply saved_typed|]. exists r. by rewrite Hm, Hc.
      * exists (Err e), s. split; [done|]. split; [done|]. exists r. by rewrite Hm, Hc.
    + exists (Err (Exn AuthorizationError "cross-tenant repository access denied")), s.
      split; [by apply change_err|]. split; [done|]. exists r. by rewrite Hm.
  - rewrite Hst. eexists _, s. split; [by apply change_err|done].
Qed.

(** C22: what changes a repository, and for whom. An update, a deprecation, an
    archiving, a restoration, a clone or a fork of a repository succeeds only for
    its own tenant or a global administrator; the record that is stored under
    its id, the old one or for clones and forks a new one of the same tenant, is
    the one returned, its event is logged, and nothing else changes. A
    repository that is not there or of another tenant, and a manifest that
    cannot be read, change nothing. A creation asks no one: it stores the new
    record of its tenant under the id of the manifest, over whatever is there
    and whoever it belongs to ([create_takes_over]), logs it, and changes nothing
    else. *)
Theorem lifecycle_exact ctx (s : sys S) :
  (∀ n, time_ok (clock n)) → typed (A := RepositoryRecord) (db s) →
  (∀ blueprint, let r := created ctx blueprint (clock (tick s)) (clock (Datatypes.S (tick s))) in
     ∃ s', create ctx blueprint s = (Ok r, s') ∧ typed (A := RepositoryRecord) (db s') ∧
       saved_as r "factory.repository.created" s s') ∧
  ∀ id c,
  ∃ out s', perform ctx id c s = (out, s') ∧ typed (A := RepositoryRecord) (db s') ∧
    match st_get "factory_repositories" id (db s) with
    | None => out = Err (Exn NotFoundError "repository not found") ∧ s' = s
    | Some d => ∃ r, d = RepositoryRecord.as_dict r ∧ RepositoryRecord.repository_id r = id ∧
        if may ctx r then
          match changed ctx c (clock (tick s)) (clock (Datatypes.S (tick s))) r with
          | Ok r' => out = Ok r' ∧ RepositoryRecord.tenant_id r' = RepositoryRecord.tenant_id r ∧ saved_as r' (event_of c) s s'
          | Err e => out = Err e ∧ s' = s
          end
        else out = Err (Exn AuthorizationError "cross-tenant repository access denied") ∧ s' = s
    end.
Proof. intros Hclock Ht. split; [intros blueprint; by apply created_exact|intros id c; by apply change_exact]. Qed.

(** ** What the ids do not keep apart *)

(** The id of a new repository is the digest of its manifest, whoever makes it: a
    second tenant with the same manifest takes the record over. *)
Lemma create_takes_over ctx ctx' blueprint (s : sys S) :
  (∀ n, time_ok (clock n)) → TenantContext.tenant_id ctx' ≠ TenantContext.tenant_id ctx → TenantContext.is_global_admin ctx = false →
  let s1 := after (create ctx blueprint) s in
  let s2 := after (create ctx' blueprint) s1 in
  (get ctx (RepositoryManifest.repository_id (RepositoryBlueprint.manifest blueprint)) s2).1 =
  Err (Exn AuthorizationError "cross-tenant repository access denied").
Proof.
  intros Hclock Hten Hadm. cbv zeta. generalize (after (create ctx blueprint) s). clear s. intros s.
  unfold after, create. cbv zeta. unfold bind at 1 2, utc_now. cbv beta iota.
  set (r := RepositoryRecord.Mk _ _ _ _ _ _ _ _ _ _ _ _ _ _ _). set (t := Sys _ _ _ _).
  destruct (save_eq r "factory.repository.created" t ltac:(done)) as (s2 & Hs & [Hst _ _]).
  unfold bind at 1. rewrite Hs. cbn [snd ret]. unfold get, bind, store_get, gets.
  change (RepositoryRecord.repository_id r) with (RepositoryManifest.repository_id (RepositoryBlueprint.manifest blueprint)) in Hst.
  rewrite Hst. unfold of_res. rewrite <- read_back_dict, RepositoryRecord.record_dec_enc by (apply read_back_ok; split_and!; try done; apply Hclock).
  cbn [read_back RepositoryRecord.tenant_id r]. rewrite (bool_decide_eq_false_2 _ Hten), Hadm. done.
Qed.

(** A clone has the id its name gives it: cloning again under the same name, by
    whomever, overwrites the first clone. *)
Lemma clone_again_replaces ctx ctx' id name (s s1 s2 : sys S) r r' :
  typed (A := RepositoryRecord) (db s) → typed (A := RepositoryRecord) (db s1) →
  clone ctx id name s = (Ok r, s1) → clone ctx' id name s1 = (Ok r', s2) →
  RepositoryRecord.repository_id r' = RepositoryRecord.repository_id r ∧
  st_get "factory_repositories" (RepositoryRecord.repository_id r) (db s2) = Some (RepositoryRecord.as_dict r').
Proof.
  assert (∀ ctx (s s1 : sys S) r, typed (A := RepositoryRecord) (db s) → clone ctx id name s = (Ok r, s1) →
    RepositoryRecord.repository_id r = derived_id id "clone" name ∧
    st_get "factory_repositories" (RepositoryRecord.repository_id r) (db s1) = Some (RepositoryRecord.as_dict r)) as Hgo.
  { intros ctx0 t t1 q Ht Hc. destruct (repository_get_eq ctx0 id t Ht) as [(p & Hst & <- & Hg)|[_ Hg]].
    2: { pose proof (change_err ctx0 id (Clone name) t _ Hg) as Hp. cbn [perform] in Hp. congruence. }
    destruct (may ctx0 p).
    2: { pose proof (change_err ctx0 _ (Clone name) t _ Hg) as Hp. cbn [perform] in Hp. congruence. }
    pose proof (change_eq ctx0 _ (Clone name) t p Hg) as Hp. cbn [perform changed] in Hp.
    destruct (RepositoryManifest.from_dict _) as [m|]; cbn [res_bind] in Hp; [|congruence].
    destruct Hp as (s' & Hp & [Hst' _ _]). rewrite Hp in Hc. injection Hc as <- <-. split; [done|exact Hst']. }
  intros Ht Ht1 Hc Hc'. destruct (Hgo _ _ _ _ Ht Hc) as [E _]. destruct (Hgo _ _ _ _ Ht1 Hc') as [E' Hst].
  split; [congruence|]. by rewrite E, <- E'.
Qed.
End Lifecycle.

(** A dependency that is refused for its cycle stays, so every later one is
    refused too. *)
Example refused_dependency_stays :
  let edges := after (RepositoryDependencyGraph.add "b" ["a"]) (after (RepositoryDependencyGraph.add "a" ["b"]) RepositoryDependencyGraph.init) in
  is_ok (RepositoryDependencyGraph.add "c" [] edges).1 = false.
Proof. vm_compute. reflexivity. Qed.

(** ** Witnesses *)

Definition demo_time : Z := ymd2day 2024 1 1 * day_us.

Definition demo_repository (id : string) (dependencies : list string) : RepositoryRecord :=
  RepositoryRecord.Mk id "acme" "org" id "1.0.0" "active" [] "" "ada" dependencies None "create" ["1.0.0"] demo_time demo_time.

(** An application on a service, which is on a library and on one that is gone *)
Definition demo_repositories : list RepositoryRecord :=
  [demo_repository "app" ["service"]; demo_repository "library" []; demo_repository "service" ["gone"; "library"]].

Example demo_impact :
  RepositoryGraph.impact (RepositoryGraph.init demo_repositories) "library" =
    Ok (ImpactAnalysis.Mk "library" ["service"] ["app"; "service"] []) ∧
  RepositoryGraph.impact (RepositoryGraph.init demo_repositories) "service" =
    Ok (ImpactAnalysis.Mk "service" ["app"] ["app"] ["gone"]).
Proof. split; vm_compute; reflexivity. Qed.

Lemma impact_exact_witness :
  NoDup (RepositoryRecord.repository_id <$> demo_repositories) ∧
  ∀ x, x ∈ ["app"; "service"] ↔ tc (depends_on (RepositoryGraph.init demo_repositories)) x "library".
Proof.
  assert (NoDup (RepositoryRecord.repository_id <$> demo_repositories)) as Hnd by (apply (bool_decide_unpack _); vm_compute; exact I).
  split; [exact Hnd|]. pose proof (impact_exact demo_repositories "library" Hnd) as Hi. cbv zeta in Hi.
  rewrite (proj1 demo_impact) in Hi. destruct Hi as (_ & _ & _ & Ht & _). exact Ht.
Defined.

#[local] Existing Instance demo_oracle.

Definition demo_state : sys Memory.store :=
  Sys (st_put "factory_repositories" "app" (RepositoryRecord.as_dict (demo_repository "app" ["service"])) ∅) [] true 0.

Definition demo_member (tenant_id : string) : TenantContext := TenantContext.Mk tenant_id "org" "bob" [] false.

Lemma demo_repository_typed : typed (A := RepositoryRecord) (db demo_state).
Proof.
  refine (typed_put (demo_repository "app" ["service"]) ∅ _ typed_empty).
  split_and!; [done|done|done|by apply (bool_decide_unpack _); vm_compute..].
Qed.

(** The tenant archives its repository; another tenant cannot. *)
Lemma lifecycle_exact_witness :
  (perform (demo_member "other") "app" Archive demo_state).1 =
    Err (Exn AuthorizationError "cross-tenant repository access denied") ∧
  ∃ out s', perform (demo_member "acme") "app" Archive demo_state = (out, s') ∧ typed (A := RepositoryRecord) (db s').
Proof.
  split; [vm_compute; reflexivity|].
  destruct (proj2 (lifecycle_exact (demo_member "acme") demo_state demo_clock demo_repository_typed) "app" Archive)
    as (out & s' & Hp & Ht & _).
  exists out, s'. split; [exact Hp|exact Ht].
Defined.
