(* ===== verification/Artifacts.v ===== *)
(** Files, and the writer that puts the artifacts of an execution below its root
    and takes them away again (repository_execution/artifact_writer.py). *)

From stdpp Require Import base option list strings gmap sets.
From Stdlib Require Import ZArith Lia Ascii.
From S2P Require Import Prelude PyVal Store EventStore.

(** * Paths *)

(** A path that was resolved is the names on the way from the root. *)
Abbreviation path := (list string).

Fixpoint split_slash (cur s : string) : list string :=
  match s with
  | "" => [cur]
  | String c s' => if bool_decide (c = "/"%char) then cur :: split_slash "" s' else split_slash (cur +:+ String c "") s'
  end.

(** [PurePosixPath(value).parts], without the root *)
Definition parts (value : string) : path := base.filter (fun p => p ≠ "" ∧ p ≠ ".") (split_slash "" value).

Definition is_absolute (value : string) : bool := starts_with "/" value.

(** [base / value] *)
Definition join_path (base : path) (value : string) : path := if is_absolute value then parts value else base ++ parts value.

(** [resolve()], where there are no symbolic links *)
Definition resolve (p : path) : path := foldl (fun done x => if bool_decide (x = "..") then removelast done else done ++ [x]) [] p.

(** [p in q.parents] *)
Definition is_parent (p q : path) : bool := bool_decide (p `prefix_of` q) && negb (bool_decide (p = q)).

Definition path_text (p : path) : string := "/" +:+ join "/" p.

(** * The file system *)

Inductive node :=
  | File (text : string)
  | Directory.

#[export] Instance node_eq_dec : EqDecision node.
Proof. solve_decision. Defined.

Abbreviation tree := (@gmap (list string) _ (@list_countable string _ _) node).

Definition exists_ (p : path) (t : tree) : bool := bool_decide (is_Some (t !! p)).
Definition is_file (p : path) (t : tree) : bool := match t !! p with Some (File _) => true | _ => false end.
Definition is_dir (p : path) (t : tree) : bool := match t !! p with Some Directory => true | _ => false end.

(** Text is read with its line ends made equal. *)
Fixpoint newlines (s : string) : string :=
  match s with
  | String "013"%char (String "010"%char s') => String "010"%char (newlines s')
  | String "013"%char s' => String "010"%char (newlines s')
  | String c s' => String c (newlines s')
  | "" => ""
  end.

Definition os_error {A} (c : exn_class) (what : string) (p : path) : M tree A := raise c (what +:+ ": " +:+ repr_str (path_text p)).

Definition read_text (p : path) : M tree string :=
  let* t := get_state in
  match t !! p with
  | Some (File text) => ret (newlines text)
  | Some Directory => os_error IsADirectoryError "[Errno 21] Is a directory" p
  | None => os_error FileNotFoundError "[Errno 2] No such file or directory" p
  end.

(** The path and all above it *)
Definition prefixes (p : path) : list path := (fun n => take n p) <$> seq 0 (S (length p)).

Definition make_directories (p : path) (t : tree) : tree := foldr (fun q t => <[q := Directory]> t) t (prefixes p).

(** [p.mkdir(parents=True, exist_ok=True)] *)
Definition mkdir (p : path) : M tree unit :=
  let* t := get_state in
  if existsb (fun q => is_file q t) (prefixes (removelast p)) && negb (bool_decide (p = []))
  then os_error NotADirectoryError "[Errno 20] Not a directory" p
  else if is_file p t then os_error FileExistsError "[Errno 17] File exists" p
  else modify (make_directories p).

Definition write_text (p : path) (text : string) : M tree unit :=
  let* t := get_state in
  if is_dir p t then os_error IsADirectoryError "[Errno 21] Is a directory" p
  else match t !! removelast p with
       | Some Directory => modify (fun t => <[p := File text]> t)
       | Some (File _) => os_error NotADirectoryError "[Errno 20] Not a directory" p
       | None => os_error FileNotFoundError "[Errno 2] No such file or directory" p
       end.

(** [p.unlink(missing_ok=True)] *)
Definition unlink (p : path) : M tree unit :=
  let* t := get_state in
  if is_dir p t then os_error IsADirectoryError "[Errno 21] Is a directory" p else modify (base.delete p).

(** * artifact_writer.py *)

Definition validate_relative_path (value : string) : res unit :=
  if is_absolute value || bool_decide (".." ∈ parts value) || bool_decide (parts value = [])
  then Err (Exn ValueError ("unsafe artifact path: " +:+ value)) else Ok tt.

Module ArtifactWriter.
Section Writer.
Context `{Oracle} (output_root : path).

(** The tree, and the files [written] so far *)
Definition on_tree {A} (m : M tree A) : M (tree * list path) A := zoom fst (fun t s => (t, s.2)) m.

(** A round of the loop of [write] *)
Definition put_file (destination : path) (file : string * string) : M (tree * list path) (string * string) :=
  do* of_res (validate_relative_path file.1);
  let target := resolve (join_path destination file.1) in
  if negb (bool_decide (destination = target)) && negb (is_parent destination target)
  then raise ValueError "artifact path escapes repository destination"
  else
  do* on_tree (mkdir (removelast target));
  let* there := on_tree (gets (exists_ target)) in
  if there : bool then
    let* text := on_tree (read_text target) in
    if negb (bool_decide (text = file.2)) then raise FileExistsError ("refusing to overwrite divergent artifact: " +:+ file.1)
    else ret (file.1, sha256_hex file.2)
  else
  do* on_tree (write_text target file.2);
  do* modify (fun s => (s.1, s.2 ++ [target]));
  ret (file.1, sha256_hex file.2).

Definition destination_of (repository_name : string) : path := resolve (join_path output_root repository_name).

(** What was written is removed when the loop raises. *)
Definition write (repository_name : string) (files : dict string) : M tree (dict string) :=
  do* of_res (validate_relative_path repository_name);
  let destination := destination_of repository_name in
  if negb (is_parent output_root destination) then raise ValueError "repository destination escapes output root"
  else fun t =>
    match for_map (py_sorted key_le files) (put_file destination) (t, []) with
    | (Ok hashes, (t', _)) => (Ok hashes, t')
    | (Err e, (t', written)) => (do* for_each (reverse written) unlink; (fun t => (Err e, t))) t'
    end.

Fixpoint remove_files (destination : path) (paths : list string) : M tree (list string) :=
  match paths with
  | [] => ret []
  | relative_path :: paths' =>
      do* of_res (validate_relative_path relative_path);
      let target := resolve (join_path destination relative_path) in
      if negb (is_parent destination target) then raise ValueError "rollback path escapes repository destination"
      else
      let* there := gets (is_file target) in
      do* (if there : bool then unlink target else ret tt);
      let* removed := remove_files destination paths' in
      ret (if there then relative_path :: removed else removed)
  end.

(** Paths are compared name by name. *)
Fixpoint path_le (p q : path) : bool :=
  match p, q with
  | [], _ => true
  | _, [] => false
  | x :: p', y :: q' => if bool_decide (x = y) then path_le p' q' else str_le x y
  end.

(** [not any(directory.iterdir())] *)
Definition is_empty (p : path) (t : tree) : bool :=
  forallb (fun q => negb (bool_decide (removelast q = p)) || bool_decide (q = [])) (map_to_list t).*1.

Definition directories_below (p : path) (t : tree) : list path :=
  List.filter (fun q => is_parent p q && is_dir q t) (map_to_list t).*1.

Definition remove_empty (p : path) : M tree unit :=
  let* empty := gets (is_empty p) in if empty : bool then modify (base.delete p) else ret tt.

Definition rollback (repository_name : string) (relative_paths : list string) : M tree (list string) :=
  let destination := destination_of repository_name in
  let* removed := remove_files destination (reverse (py_sorted str_le relative_paths)) in
  let* directories := gets (directories_below destination) in
  do* for_each (reverse (py_sorted path_le directories)) remove_empty;
  let* t := get_state in
  do* (match t !! destination with
       | None => ret tt
       | Some (File _) => os_error NotADirectoryError "[Errno 20] Not a directory" destination
       | Some Directory => remove_empty destination
       end);
  ret removed.
End Writer.
End ArtifactWriter.
