(* ===== verification/ArtifactTrust.v ===== *)
(** What the writer of artifacts does to the files: all of them or none, below its
    destination only, and nothing that was there is changed. *)

From stdpp Require Import base option list strings gmap sets.
From Stdlib Require Import ZArith Lia Ascii.
From S2P Require Import Prelude PyVal Store EventStore Artifacts.

(** * Paths *)

Lemma resolve_go p : ∀ done, ".." ∉ p → foldl (fun done x => if bool_decide (x = "..") then removelast done else done ++ [x]) done p = done ++ p.
Proof.
  induction p as [|x p IH]; intros done Hp; [by rewrite app_nil_r|]. apply not_elem_of_cons in Hp as [Hx Hp].
  cbn [foldl]. rewrite bool_decide_eq_false_2 by congruence. by rewrite IH, <- app_assoc.
Qed.

Lemma resolve_plain p : ".." ∉ p → resolve p = p.
Proof. apply (resolve_go p []). Qed.

Definition safe (value : string) : Prop := is_absolute value = false ∧ ".." ∉ parts value ∧ parts value ≠ [].

Lemma validate_spec value : validate_relative_path value = if bool_decide (safe value) then Ok tt else Err (Exn ValueError ("unsafe artifact path: " +:+ value)).
Proof.
  unfold validate_relative_path, safe. destruct (is_absolute value); cbn [orb]; [by rewrite bool_decide_eq_false_2 by naive_solver|].
  repeat case_bool_decide; cbn [orb]; naive_solver.
Qed.

Lemma target_eq base value : ".." ∉ base → safe value → resolve (join_path base value) = base ++ parts value.
Proof. intros Hb (Ha & Hd & _). unfold join_path. rewrite Ha. apply resolve_plain. by rewrite elem_of_app; intros [?|?]. Qed.

Lemma is_parent_app p q : q ≠ [] → is_parent p (p ++ q) = true.
Proof.
  intros Hq. unfold is_parent. rewrite bool_decide_eq_true_2 by apply prefix_app_r, prefix_refl || by exists q.
  rewrite bool_decide_eq_false_2; [done|]. intros E. apply Hq. rewrite <- (app_nil_r p) in E at 1. by apply app_inv_head in E.
Qed.

Lemma removelast_snoc (p : path) x : removelast (p ++ [x]) = p.
Proof. apply removelast_last. Qed.

Lemma elem_of_prefixes p q : q ∈ prefixes p ↔ q `prefix_of` p.
Proof.
  unfold prefixes. rewrite list_elem_of_fmap. split.
  - intros (n & -> & _). exists (drop n p). by rewrite take_drop.
  - intros [r ->]. exists (length q). rewrite take_app_length. split; [done|]. apply elem_of_seq. rewrite length_app. lia.
Qed.

(** * The file system *)

(** The root is a directory, and what there is is in a directory. *)
Definition tree_ok (t : tree) : Prop :=
  t !! [] = Some Directory ∧ ∀ p x, is_Some (t !! (p ++ [x])) → t !! p = Some Directory.

Definition file_at (t : tree) (p : path) : option string := match t !! p with Some (File s) => Some s | _ => None end.

Lemma file_at_Some t p s : file_at t p = Some s ↔ t !! p = Some (File s).
Proof. unfold file_at. destruct (t !! p) as [[]|]; naive_solver. Qed.

Lemma is_file_at t p : is_file p t = bool_decide (is_Some (file_at t p)).
Proof. unfold is_file, file_at. destruct (t !! p) as [[]|]; [rewrite bool_decide_eq_true_2|rewrite bool_decide_eq_false_2..]; naive_solver. Qed.

(** Below a file there is nothing, above what there is are directories. *)
Lemma tree_above t p q : tree_ok t → q ≠ [] → is_Some (t !! (p ++ q)) → t !! p = Some Directory.
Proof.
  intros [_ Ht] Hq. induction q as [|x q IH] using rev_ind; [done|]. rewrite app_assoc. intros Hs%Ht.
  destruct (decide (q = [])) as [->|Hne]; [by rewrite app_nil_r in Hs|]. apply IH; [done|]. by rewrite Hs.
Qed.

Lemma make_directories_lookup p t q :
  make_directories p t !! q = if bool_decide (q `prefix_of` p) then Some Directory else t !! q.
Proof.
  unfold make_directories. assert (∀ l, foldr (fun q t => <[q := Directory]> t) t l !! q = if bool_decide (q ∈ l) then Some Directory else t !! q) as ->.
  { induction l as [|r l IH]; [done|]. cbn [foldr]. destruct (decide (r = q)) as [->|Hne].
    - rewrite lookup_insert_eq, bool_decide_eq_true_2; [done|by left].
    - rewrite lookup_insert_ne, IH by done. by rewrite (bool_decide_ext (q ∈ r :: l) (q ∈ l)) by (rewrite elem_of_cons; naive_solver). }
  by rewrite (bool_decide_ext _ _ (elem_of_prefixes p q)).
Qed.

Lemma make_directories_ok p t : tree_ok t → tree_ok (make_directories p t).
Proof.
  intros [Hr Ht]. split; [rewrite make_directories_lookup; by case_bool_decide|]. intros q x. rewrite !make_directories_lookup.
  case_bool_decide as Hqx.
  - intros _. rewrite bool_decide_eq_true_2; [done|]. etrans; [|exact Hqx]. by apply prefix_app_r.
  - intros Hs%Ht. by case_bool_decide.
Qed.

(** The calls on the tree *)
Lemma mkdir_spec p t :
  tree_ok t →
  match mkdir p t with
  | (Ok _, t') => t' = make_directories p t ∧ ∀ q, q `prefix_of` p → file_at t q = None
  | (Err _, t') => t' = t
  end.
Proof.
  intros Ht. unfold mkdir, bind, get_state, os_error, raise, modify.
  destruct (existsb _ _ && _) eqn:Hup; [done|]. destruct (is_file p t) eqn:Hf; [done|]. split; [done|].
  rewrite is_file_at in Hf. apply bool_decide_eq_false in Hf. rewrite <- eq_None_not_Some in Hf.
  intros q Hq. destruct (decide (q = p)) as [->|Hne]; [done|].
  apply andb_false_iff in Hup as [Hup|Hup].
  - destruct (file_at t q) as [s|] eqn:E; [|done]. exfalso. apply not_true_iff_false in Hup. apply Hup, existsb_exists. exists q.
    split; [|rewrite is_file_at, E; by apply bool_decide_eq_true_2]. apply list_elem_of_In, elem_of_prefixes.
    destruct Hq as [r ->]. destruct r as [|x r _] using rev_ind; [by rewrite app_nil_r in Hne|].
    rewrite app_assoc, removelast_snoc. by exists r.
  - apply negb_false_iff, bool_decide_eq_true in Hup as ->. apply prefix_nil_inv in Hq. done.
Qed.

Lemma file_at_directories p t q : (∀ q, q `prefix_of` p → file_at t q = None) → file_at (make_directories p t) q = file_at t q.
Proof.
  intros Hp. unfold file_at at 1. rewrite make_directories_lookup. case_bool_decide as Hq; [|done]. symmetry. by apply Hp.
Qed.

Lemma file_at_insert t p s q : file_at (<[p := File s]> t) q = if bool_decide (q = p) then Some s else file_at t q.
Proof. unfold file_at. case_bool_decide as Hq; [subst; by rewrite lookup_insert_eq|by rewrite lookup_insert_ne]. Qed.

Lemma file_at_delete t p q : file_at (base.delete p t) q = if bool_decide (q = p) then None else file_at t q.
Proof. unfold file_at. case_bool_decide as Hq; [subst; by rewrite lookup_delete_eq|by rewrite lookup_delete_ne]. Qed.

Lemma insert_file_ok p x s t : tree_ok t → t !! p = Some Directory → t !! (p ++ [x]) = None → tree_ok (<[p ++ [x] := File s]> t).
Proof.
  intros [Hr Ht] Hp Hn. split.
  - rewrite lookup_insert_ne; [done|]. by destruct p.
  - intros q y. destruct (decide (q ++ [y] = p ++ [x])) as [E|E].
    + intros _. apply app_inj_tail in E as [-> ->]. rewrite lookup_insert_ne; [done|]. intros E. apply (f_equal length) in E.
      rewrite length_app in E. cbn in E. lia.
    + rewrite lookup_insert_ne by done. intros Hs%Ht. rewrite lookup_insert_ne; [done|]. intros <-. by rewrite Hn in Hs.
Qed.

Lemma delete_file_ok p s t : tree_ok t → t !! p = Some (File s) → tree_ok (base.delete p t).
Proof.
  intros [Hr Ht] Hp. split.
  - rewrite lookup_delete_ne; [done|]. intros ->. congruence.
  - intros q y. destruct (decide (q ++ [y] = p)) as [->|E]; [rewrite lookup_delete_eq; by intros [? ?]|]. rewrite lookup_delete_ne by done.
    intros Hs%Ht. rewrite lookup_delete_ne; [done|]. intros <-. congruence.
Qed.

(** * Writing *)

(** [t'] differs from [t] below [d] and by directories above it only. *)
Definition confined (d : path) (t t' : tree) : Prop :=
  ∀ q, t' !! q = t !! q ∨ d `prefix_of` q ∨ q `prefix_of` d ∧ t !! q = None ∧ t' !! q = Some Directory.

Section Writing.
Context `{Oracle} (t0 : tree) (d : path).
Import ArtifactWriter.
Hypothesis d_plain : ".." ∉ d.

(** The files are those there were and those written, none of which was there. *)
Record writing (t : tree) (written : list path) : Prop := Writing {
  wr_ok : tree_ok t;
  wr_old q : q ∉ written → file_at t q = file_at t0 q;
  wr_new q : q ∈ written → is_Some (file_at t q) ∧ t0 !! q = None;
  wr_kept q n : t0 !! q = Some n → t !! q = Some n;
  wr_confined : confined d t0 t;
}.

(** What a round leaves when it returned *)
Definition done_with (file : string * string) (t : tree) (h : string * string) : Prop :=
  safe file.1 ∧ h = (file.1, sha256_hex file.2) ∧ ∃ s, file_at t (d ++ parts file.1) = Some s ∧ (s = file.2 ∨ newlines s = file.2).

Lemma writing_directories t written p :
  writing t written → d `prefix_of` p → (∀ q, q `prefix_of` p → file_at t q = None) → writing (make_directories p t) written.
Proof.
  intros [Hok Hold Hnew Hkept Hc] Hd Hp. split.
  - by apply make_directories_ok.
  - intros q Hq. by rewrite file_at_directories, Hold.
  - intros q Hq. rewrite file_at_directories by done. by apply Hnew.
  - intros q n Hq. apply Hkept in Hq. rewrite make_directories_lookup. case_bool_decide as Hqp; [|done].
    destruct n as [s|]; [|done]. apply Hp in Hqp. apply file_at_Some in Hq. congruence.
  - intros q. rewrite make_directories_lookup. case_bool_decide as Hq; [|apply Hc].
    destruct (Hc q) as [E|[Hdq|(Hqd & H0 & H1)]]; [|by right; left|by right; right].
    destruct (prefix_weak_total d q p Hd Hq) as [Hdq|Hqd]; [by right; left|].
    destruct (t0 !! q) as [[s|]|] eqn:E0.
    + exfalso. apply Hkept, file_at_Some in E0. by rewrite Hp in E0.
    + by left.
    + right; right. done.
Qed.

Lemma writing_new t written p x s :
  writing t written → d `prefix_of` p → t !! p = Some Directory → t !! (p ++ [x]) = None → t0 !! (p ++ [x]) = None →
  writing (<[p ++ [x] := File s]> t) (written ++ [p ++ [x]]).
Proof.
  intros [Hok Hold Hnew Hkept Hc] Hd Hp Hn H0. split.
  - by apply insert_file_ok.
  - intros q Hq. rewrite elem_of_app, list_elem_of_singleton in Hq. rewrite file_at_insert, bool_decide_eq_false_2 by naive_solver.
    apply Hold. naive_solver.
  - intros q Hq. rewrite file_at_insert. case_bool_decide as E; [subst; by split|]. apply Hnew.
    apply elem_of_app in Hq as [?|?%list_elem_of_singleton]; done.
  - intros q n Hq. rewrite lookup_insert_ne; [by apply Hkept|]. intros <-. congruence.
  - intros q. destruct (decide (q = p ++ [x])) as [->|E]; [right; left; by apply prefix_app_r|].
    rewrite lookup_insert_ne by done. apply Hc.
Qed.

Lemma put_file_spec file t written :
  writing t written →
  let '(r, (t', written')) := put_file d file (t, written) in
  writing t' written' ∧ (∀ q s, file_at t q = Some s → file_at t' q = Some s) ∧
  (∀ q, q ∈ written' → q ∈ written ∨ q = d ++ parts file.1) ∧
  match r with Ok h => done_with file t' h | Err _ => True end.
Proof.
  intros Hw. unfold put_file. unfold bind at 1, of_res. rewrite validate_spec. case_bool_decide as Hsafe; [|by split_and!; auto].
  cbv zeta. rewrite target_eq by done. pose proof Hsafe as (_ & _ & Hne). rewrite is_parent_app by done. rewrite andb_false_r.
  destruct (parts file.1) as [|x ps _] eqn:Eparts using rev_ind; [done|]. rewrite app_assoc. set (p := d ++ ps) in *. rewrite removelast_snoc.
  assert (d `prefix_of` p) as Hdp by by exists ps.
  unfold bind at 1, on_tree at 1, zoom. cbn [fst snd]. pose proof (mkdir_spec p t (wr_ok _ _ Hw)) as Hm.
  destruct (mkdir p t) as [[[]|e] t1]; [|subst; by split_and!; auto]. destruct Hm as [-> Hp].
  pose proof (writing_directories t written p Hw Hdp Hp) as Hw1.
  assert (∀ q s, file_at t q = Some s → file_at (make_directories p t) q = Some s) as Hkeep by (intros; by rewrite file_at_directories).
  set (t1 := make_directories p t) in *. assert (t1 !! p = Some Directory) as Hdir by (unfold t1; rewrite make_directories_lookup; by case_bool_decide).
  unfold bind at 1, on_tree at 1, zoom, gets, exists_. cbn [fst snd]. case_bool_decide as Hex.
  - unfold bind at 1, on_tree, zoom, read_text, bind at 1, get_state. cbn [fst snd].
    destruct Hex as [n Hn]. rewrite Hn. destruct n as [s|]; [|by split_and!; auto]. unfold ret.
    case_bool_decide as Hs; cbn [negb]; [|by split_and!; auto]. split_and!; auto.
    split; [exact Hsafe|]. split; [done|]. exists s. split; [|by right]. apply file_at_Some. by rewrite Eparts, app_assoc.
  - rewrite <- eq_None_not_Some in Hex. unfold bind at 1, on_tree, zoom, write_text, bind at 1, get_state, is_dir. cbn [fst snd].
    rewrite Hex, removelast_snoc, Hdir. cbn.
    assert (t0 !! (p ++ [x]) = None) as H0.
    { destruct (t0 !! (p ++ [x])) as [n|] eqn:E0; [|done]. apply (wr_kept _ _ Hw1) in E0. congruence. }
    pose proof (writing_new t1 written p x file.2 Hw1 Hdp Hdir Hex H0) as Hw2. split_and!.
    + done.
    + intros q s Hs. rewrite file_at_insert. case_bool_decide as E; [|by apply Hkeep]. subst q.
      apply Hkeep, file_at_Some in Hs. congruence.
    + intros q Hq. apply elem_of_app in Hq as [?| ->%list_elem_of_singleton]; [by left|by right].
    + split; [exact Hsafe|]. split; [done|]. exists file.2. split; [|by left]. by rewrite Eparts, app_assoc, file_at_insert, bool_decide_eq_true_2.
Qed.

Lemma put_files_spec files : ∀ t written,
  writing t written →
  let '(r, (t', written')) := for_map files (put_file d) (t, written) in
  writing t' written' ∧ (∀ q s, file_at t q = Some s → file_at t' q = Some s) ∧
  (∀ q, q ∈ written' → q ∈ written ∨ ∃ file, file ∈ files ∧ q = d ++ parts file.1) ∧
  match r with Ok hs => Forall2 (fun file h => done_with file t' h) files hs | Err _ => True end.
Proof.
  induction files as [|file files IH]; intros t written Hw; [split_and!; auto|].
  cbn [for_map]. unfold bind at 1. pose proof (put_file_spec file t written Hw) as Hf.
  destruct (put_file d file (t, written)) as [r [t1 written1]]. destruct Hf as (Hw1 & Hk1 & Hn1 & Hr).
  assert (∀ q, q ∈ written1 → q ∈ written ∨ ∃ file', file' ∈ file :: files ∧ q = d ++ parts file'.1) as Hn1'.
  { intros q Hq. destruct (Hn1 q Hq) as [?|?]; [by left|]. right. exists file. split; [by left|done]. }
  destruct r as [h|e]; [|by split_and!; auto].
  specialize (IH t1 written1 Hw1). unfold bind. destruct (for_map files (put_file d) (t1, written1)) as [r [t2 written2]].
  destruct IH as (Hw2 & Hk2 & Hn2 & Hall).
  assert (∀ q, q ∈ written2 → q ∈ written ∨ ∃ file', file' ∈ file :: files ∧ q = d ++ parts file'.1) as Hn2'.
  { intros q Hq. destruct (Hn2 q Hq) as [?|(f & Hf & ->)]; [by apply Hn1'|]. right. exists f. split; [by right|done]. }
  destruct r as [hs|e]; split_and!; auto. constructor; [|done].
  destruct Hr as (Hs & Hh & s & Hat & Hor). split_and!; [done..|]. exists s. auto.
Qed.

Lemma unlink_eq p t : is_dir p t = false → unlink p t = (Ok tt, base.delete p t).
Proof. intros Hp. unfold unlink, bind, get_state. by rewrite Hp. Qed.

(** The removal of what was written succeeds and gives back the files there were. *)
Lemma unlink_written l : ∀ t,
  tree_ok t → (∀ q, q ∈ l → t !! q = None ∨ is_Some (file_at t q)) →
  ∃ t', for_each l unlink t = (Ok tt, t') ∧ tree_ok t' ∧ ∀ q, t' !! q = if bool_decide (q ∈ l) then None else t !! q.
Proof.
  induction l as [|p l IH]; intros t Ht Hl; [by exists t|].
  cbn [for_each]. unfold bind at 1. rewrite unlink_eq.
  2: { unfold is_dir. destruct (Hl p) as [->|[s Hs%file_at_Some]]; [by left|done|]. by rewrite Hs. }
  destruct (IH (base.delete p t)) as (t' & -> & Hok & Hq).
  - destruct (Hl p) as [Hn|[s Hs%file_at_Some]]; [by left| |by eapply delete_file_ok]. by rewrite delete_id.
  - intros q Hq. destruct (decide (p = q)) as [->|Hne]; [left; by rewrite lookup_delete_eq|]. rewrite lookup_delete_ne by done.
    rewrite file_at_delete, bool_decide_eq_false_2 by congruence. apply Hl. by right.
  - exists t'. split_and!; [done..|]. intros q. rewrite Hq. destruct (decide (p = q)) as [->|Hne].
    + rewrite (bool_decide_eq_true_2 (q ∈ q :: l)) by by left. rewrite lookup_delete_eq. by case_bool_decide.
    + rewrite lookup_delete_ne by done. by rewrite (bool_decide_ext (q ∈ p :: l) (q ∈ l)) by (rewrite elem_of_cons; naive_solver).
Qed.

Lemma undo_writing t written :
  writing t written →
  ∃ t', for_each (reverse written) unlink t = (Ok tt, t') ∧ tree_ok t' ∧ confined d t0 t' ∧
    (∀ q, file_at t' q = file_at t0 q) ∧ ∀ q n, t0 !! q = Some n → t' !! q = Some n.
Proof.
  intros [Hok Hold Hnew Hkept Hc]. destruct (unlink_written (reverse written) t) as (t' & -> & Hok' & Hq).
  - done.
  - intros q Hin. rewrite elem_of_reverse in Hin. right. by destruct (Hnew q Hin).
  - assert (∀ q, t' !! q = if bool_decide (q ∈ written) then None else t !! q) as Hq'.
    { intros q. rewrite Hq. by rewrite (bool_decide_ext (q ∈ reverse written) (q ∈ written)) by apply elem_of_reverse. }
    exists t'. split_and!; try done.
    + intros q. rewrite Hq'. case_bool_decide as Hin; [destruct (Hnew q Hin) as [_ ->]; by left|apply Hc].
    + intros q. unfold file_at at 1. rewrite Hq'. case_bool_decide as Hin; [|by apply Hold].
      unfold file_at. by rewrite (proj2 (Hnew q Hin)).
    + intros q n Hn. rewrite Hq'. case_bool_decide as Hin; [|by apply Hkept]. apply Hnew in Hin as [_ Hin]. congruence.
Qed.
End Writing.

Lemma confined_refl d t : confined d t t.
Proof. intros q. by left. Qed.

Section Writer.
Context `{Oracle} (output_root : path).
Hypothesis root_plain : ".." ∉ output_root.
Import ArtifactWriter.

Lemma destination_eq name : safe name → destination_of output_root name = output_root ++ parts name.
Proof. apply target_eq, root_plain. Qed.

Lemma destination_plain name : safe name → ".." ∉ destination_of output_root name.
Proof. intros Hs. rewrite destination_eq by done. destruct Hs as (_ & ? & _). rewrite elem_of_app. by intros [?|?]. Qed.

(** A writer puts all files in place or none: when it returns, each has its
    content (a file that was there with that content, read as text, is left as it
    is) and its digest is reported; when it raises, the files are those there were.
    No file that was there changes, and nothing changes outside the destination
    below the output root but for directories on the way to it. *)
Theorem artifacts_all_or_none name files t :
  tree_ok t →
  let d := output_root ++ parts name in
  let '(r, t') := write output_root name files t in
  tree_ok t' ∧ confined d t t' ∧ (∀ q n, t !! q = Some n → t' !! q = Some n) ∧
  match r with
  | Ok hashes => safe name ∧ hashes = map (fun file => (file.1, sha256_hex file.2)) (py_sorted key_le files) ∧
      (∀ file, file ∈ files → safe file.1 ∧ ∃ s, file_at t' (d ++ parts file.1) = Some s ∧ (s = file.2 ∨ newlines s = file.2)) ∧
      ∀ q, (∀ file, file ∈ files → q ≠ d ++ parts file.1) → file_at t' q = file_at t q
  | Err _ => ∀ q, file_at t' q = file_at t q
  end.
Proof.
  intros Ht. cbv zeta. unfold write. unfold bind at 1, of_res. rewrite validate_spec.
  case_bool_decide as Hsafe; [|split_and!; auto using confined_refl].
  rewrite destination_eq by done. destruct Hsafe as (Ha & Hd & Hne). rewrite is_parent_app by done. cbn [negb].
  set (d := output_root ++ parts name). assert (".." ∉ d) as Hdd by (unfold d; rewrite elem_of_app; by intros [?|?]).
  assert (writing t d t []) as Hw by (split; try done; [by intros q ?%elem_of_nil|apply confined_refl]).
  pose proof (put_files_spec t d Hdd (py_sorted key_le files) t [] Hw) as Hf.
  destruct (for_map _ _ _) as [[hashes|e] [t1 written]]; destruct Hf as (Hw1 & _ & Hn & Hall).
  - split_and!; [apply Hw1|apply Hw1|apply Hw1|done| | |].
    + clear -Hall. induction Hall as [|file h l hs (_ & -> & _) _ IH]; [done|]. cbn [map]. by f_equal.
    + intros file Hin. rewrite <- (py_sorted_perm key_le) in Hin. apply list_elem_of_lookup in Hin as [i Hi].
      destruct (Forall2_lookup_l _ _ _ _ _ Hall Hi) as (h & _ & Hs & _ & Hex). done.
    + intros q Hq. apply (wr_old _ _ _ _ Hw1). intros Hin. destruct (Hn q Hin) as [?%elem_of_nil|(file & Hin' & ->)]; [done|].
      rewrite (py_sorted_perm key_le) in Hin'. by apply (Hq file).
  - destruct (undo_writing t d t1 written Hw1) as (t2 & Hu & Hok & Hc & Hfiles & Hkept). unfold bind. by rewrite Hu.
Qed.

(** * Rolling back *)

Section Removing.
Context (d : path).
Hypothesis d_plain : ".." ∉ d.

Definition targets (paths : list string) : list path := (fun k => d ++ parts k) <$> paths.

Lemma remove_files_spec paths : ∀ t,
  tree_ok t →
  let '(r, t') := remove_files d paths t in
  tree_ok t' ∧ (∀ q, t' !! q = t !! q ∨ q ∈ targets paths ∧ is_Some (file_at t q) ∧ t' !! q = None) ∧
  match r with
  | Ok removed => Forall safe paths ∧ (∀ q, q ∈ targets paths → file_at t' q = None) ∧
      (∀ k, k ∈ removed → k ∈ paths ∧ is_Some (file_at t (d ++ parts k))) ∧
      ∀ q, q ∈ targets paths → is_Some (file_at t q) → q ∈ targets removed
  | Err e => exn_cls e = ValueError
  end.
Proof.
  induction paths as [|k paths IH]; intros t Ht.
  { split_and!; auto; [by intros k ?%elem_of_nil..|]. by intros q ?%elem_of_nil. }
  cbn [remove_files]. unfold bind at 1, of_res. rewrite validate_spec. case_bool_decide as Hs; [|by split_and!; auto].
  cbv zeta. rewrite target_eq by done. pose proof Hs as (_ & _ & Hne). rewrite is_parent_app by done. cbn [negb].
  set (p := d ++ parts k) in *. unfold bind at 1, gets. cbv beta iota.
  assert (∃ t1, (if is_file p t then unlink p else ret tt) t = (Ok tt, t1) ∧ tree_ok t1 ∧
    ∀ q, t1 !! q = if bool_decide (q = p ∧ is_Some (file_at t q)) then None else t !! q) as (t1 & Hu & Ht1 & Hq1).
  { destruct (is_file p t) eqn:Hf; rewrite is_file_at in Hf.
    - apply bool_decide_eq_true in Hf as [s Hf]. exists (base.delete p t). split_and!.
      + apply unlink_eq. unfold is_dir. apply file_at_Some in Hf. by rewrite Hf.
      + apply file_at_Some in Hf. by eapply delete_file_ok.
      + intros q. case_bool_decide as E; [destruct E as [-> _]; apply lookup_delete_eq|].
        apply lookup_delete_ne. intros <-. apply E. split; [done|]. by exists s.
    - apply bool_decide_eq_false in Hf. exists t. split_and!; [done..|]. intros q. rewrite bool_decide_eq_false_2; [done|].
      by intros [-> ?]. }
  unfold bind at 1. rewrite Hu. cbv beta iota. specialize (IH t1 Ht1). unfold bind, ret.
  destruct (remove_files d paths t1) as [r t2]. destruct IH as (Ht2 & Hq2 & Hr).
  assert (∀ q, is_Some (file_at t1 q) → is_Some (file_at t q)) as Hback.
  { intros q. unfold file_at. rewrite Hq1. case_bool_decide; [by intros [? ?]|done]. }
  assert (∀ q, t2 !! q = t !! q ∨ q ∈ targets (k :: paths) ∧ is_Some (file_at t q) ∧ t2 !! q = None) as Hq.
  { intros q. destruct (Hq2 q) as [E|(Hin & Hf & E)]; [|right; split_and!; [by right|by apply Hback|done]].
    rewrite E, Hq1. case_bool_decide as Hp; [right|by left]. destruct Hp as [-> Hp]. split_and!; [by left|done|done]. }
  destruct r as [removed|e]; [|done]. destruct Hr as (Hall & Hgone & Hrem & Hdone). split_and!; try done.
  - by constructor.
  - intros q [->|Hq']%elem_of_cons; [|by apply Hgone]. destruct (Hq2 p) as [E|(_ & _ & E)]; unfold file_at; fold p; rewrite E; [|done].
    rewrite Hq1. case_bool_decide as Hp; [done|]. destruct (t !! p) as [[s|]|] eqn:Ep; [|done..]. destruct Hp. split; [done|].
    apply file_at_Some in Ep. by exists s.
  - rewrite is_file_at. intros k'. case_bool_decide as Hp.
    + intros [->|Hk']%elem_of_cons; [by split; [left|]|]. destruct (Hrem k' Hk') as [? ?]. by split; [right|apply Hback].
    + intros Hk'. destruct (Hrem k' Hk') as [? ?]. by split; [right|apply Hback].
  - rewrite is_file_at. intros q Hin Hf. case_bool_decide as Hp.
    + destruct (decide (q = p)) as [->|Hqp]; [by left|]. right. apply elem_of_cons in Hin as [?|Hin]; [done|]. apply Hdone; [done|].
      unfold file_at in *. by rewrite Hq1, bool_decide_eq_false_2 by naive_solver.
    + apply elem_of_cons in Hin as [->|Hin]; [done|]. apply Hdone; [done|].
      unfold file_at in Hf |- *. rewrite Hq1, bool_decide_eq_false_2; [done|]. intros [-> ?]. done.
Qed.

(** Only directories go, and only below [d] or [d] itself. *)
Definition pruned (t t' : tree) : Prop := ∀ q, t' !! q = t !! q ∨ d `prefix_of` q ∧ t !! q = Some Directory ∧ t' !! q = None.

Lemma pruned_files t t' : pruned t t' → ∀ q, file_at t' q = file_at t q.
Proof. intros Hp q. unfold file_at. destruct (Hp q) as [->|(_ & -> & ->)]; done. Qed.

Lemma pruned_trans t t1 t2 : pruned t t1 → pruned t1 t2 → pruned t t2.
Proof.
  intros H1 H2 q. destruct (H2 q) as [->|(Hd & Hq & ->)]; [apply H1|]. destruct (H1 q) as [E|(_ & _ & E)]; [|congruence].
  right. by rewrite <- E.
Qed.

Lemma remove_empty_spec p t :
  tree_ok t → p ≠ [] → d `prefix_of` p → file_at t p = None →
  ∃ t', remove_empty p t = (Ok tt, t') ∧ tree_ok t' ∧ pruned t t'.
Proof.
  intros Ht Hp Hd Hf. unfold remove_empty, bind, gets. destruct (is_empty p t) eqn:He; [|exists t; split_and!; [done..|by left]].
  exists (base.delete p t). split_and!; [done| |].
  - destruct Ht as [Hr Ht]. split; [by rewrite lookup_delete_ne|]. intros q x.
    destruct (decide (q ++ [x] = p)) as [->|E]; [rewrite lookup_delete_eq; by intros [? ?]|]. rewrite lookup_delete_ne by done.
    intros Hs. rewrite lookup_delete_ne; [by apply (Ht q x)|]. intros <-. unfold is_empty in He. rewrite forallb_forall in He.
    destruct Hs as [n Hn]. assert (p ++ [x] ∈ (map_to_list t).*1) as Hin.
    { apply (list_elem_of_fmap_2' fst _ (p ++ [x], n)); [by apply elem_of_map_to_list|done]. }
    apply list_elem_of_In in Hin. specialize (He _ Hin). rewrite removelast_snoc in He. rewrite bool_decide_eq_true_2 in He by done.
    cbn in He. apply bool_decide_eq_true in He. by destruct p.
  - intros q. destruct (decide (q = p)) as [->|E]; [|left; by rewrite lookup_delete_ne].
    unfold file_at in Hf. rewrite lookup_delete_eq. destruct (t !! p) as [[]|]; [done|right; done|by left].
Qed.

Lemma remove_empty_all l : ∀ t,
  tree_ok t → (∀ p, p ∈ l → p ≠ [] ∧ d `prefix_of` p ∧ file_at t p = None) →
  ∃ t', for_each l remove_empty t = (Ok tt, t') ∧ tree_ok t' ∧ pruned t t'.
Proof.
  induction l as [|p l IH]; intros t Ht Hl; [exists t; split_and!; [done..|by left]|].
  destruct (Hl p) as (H1 & H2 & H3); [by left|]. destruct (remove_empty_spec p t Ht H1 H2 H3) as (t1 & Hr & Ht1 & Hp1).
  cbn [for_each]. unfold bind. rewrite Hr. destruct (IH t1 Ht1) as (t2 & -> & Ht2 & Hp2).
  - intros q Hq. destruct (Hl q) as (? & ? & ?); [by right|]. by rewrite (pruned_files _ _ Hp1).
  - exists t2. split_and!; [done..|]. by eapply pruned_trans.
Qed.
End Removing.

(** The directories that became empty are removed. *)
Lemma prune_spec t d :
  d ≠ [] → tree_ok t →
  ∃ t', for_each (reverse (py_sorted path_le (directories_below d t))) remove_empty t = (Ok tt, t') ∧ tree_ok t' ∧ pruned d t t'.
Proof.
  intros Hne Ht. apply remove_empty_all; [done|]. intros p Hp. rewrite elem_of_reverse, (py_sorted_perm path_le) in Hp.
  unfold directories_below in Hp. apply list_elem_of_In, filter_In in Hp as [_ [Hp Hdir]%andb_true_iff].
  apply andb_true_iff in Hp as [Hp _]. apply bool_decide_eq_true in Hp. split_and!; [|done|].
  - intros ->. by apply prefix_nil_inv in Hp.
  - unfold is_dir in Hdir. unfold file_at. by destruct (t !! p) as [[]|].
Qed.

(** C25: a rollback removes the files of its paths, lists them, and removes no
    other file; besides, only empty directories below the destination, and the
    destination itself, may go. An unsafe path stops it with an error. *)
Theorem rollback_exact name paths t :
  safe name → tree_ok t →
  let d := output_root ++ parts name in
  let '(r, t') := rollback output_root name paths t in
  tree_ok t' ∧ (∀ q, t' !! q = t !! q ∨ d `prefix_of` q ∧ t' !! q = None) ∧
  (∀ q, file_at t' q = file_at t q ∨ q ∈ targets d paths ∧ file_at t' q = None) ∧
  match r with
  | Ok removed => Forall safe paths ∧ (∀ q, q ∈ targets d paths → file_at t' q = None) ∧
      (∀ k, k ∈ removed → k ∈ paths ∧ is_Some (file_at t (d ++ parts k))) ∧
      ∀ q, q ∈ targets d paths → is_Some (file_at t q) → q ∈ targets d removed
  | Err e => exn_cls e = ValueError ∨ is_Some (file_at t' d)
  end.
Proof.
  intros Hname Ht. cbv zeta. unfold rollback. rewrite destination_eq by done. set (d := output_root ++ parts name).
  assert (".." ∉ d) as Hd by (unfold d; rewrite <- destination_eq by done; by apply destination_plain).
  assert (d ≠ []) as Hne by (unfold d; destruct Hname as (_ & _ & Hne); by intros [_ ?]%app_nil).
  set (l := reverse (py_sorted str_le paths)).
  assert (∀ k, k ∈ l ↔ k ∈ paths) as Hl by (intros k; unfold l; by rewrite elem_of_reverse, (py_sorted_perm str_le)).
  assert (∀ q, q ∈ targets d l ↔ q ∈ targets d paths) as Htl.
  { intros q. unfold targets. rewrite !list_elem_of_fmap. by setoid_rewrite Hl. }
  pose proof (remove_files_spec d Hd l t Ht) as Hr. unfold bind at 1.
  destruct (remove_files d l t) as [r t1]. destruct Hr as (Ht1 & Hq1 & Hr).
  assert (∀ t2, pruned d t1 t2 → (∀ q, t2 !! q = t !! q ∨ d `prefix_of` q ∧ t2 !! q = None) ∧
    ∀ q, file_at t2 q = file_at t q ∨ q ∈ targets d paths ∧ file_at t2 q = None) as Hprune.
  { intros t2 Hp. split.
    - intros q. destruct (Hp q) as [->|(? & _ & ?)]; [|by right]. destruct (Hq1 q) as [?|(Hin & _ & E)]; [by left|right]. split; [|done].
      apply list_elem_of_fmap in Hin as (k & -> & _). by exists (parts k).
    - intros q. rewrite (pruned_files d _ _ Hp). unfold file_at. destruct (Hq1 q) as [->|(Hin & _ & ->)]; [by left|right].
      split; [by apply Htl|done]. }
  destruct r as [removed|e]; [|split_and!; [done|apply (Hprune t1); by left..|by left]].
  unfold bind at 1, gets. destruct (prune_spec t1 d Hne Ht1) as (t2 & Hf & Ht2 & Hp2). unfold bind at 1. rewrite Hf. cbv beta iota.
  assert (∃ o t3, (match t2 !! d with None => ret tt | Some (File _) => os_error NotADirectoryError "[Errno 20] Not a directory" d
                   | Some Directory => remove_empty d end) t2 = (o, t3) ∧ tree_ok t3 ∧ pruned d t2 t3 ∧
    (o = Ok tt ∨ is_Some (file_at t3 d) ∧ is_ok o = false)) as (o & t3 & Ho & Ht3 & Hp3 & Hor).
  { destruct (t2 !! d) as [[s|]|] eqn:E.
    - eexists _, t2. split; [reflexivity|]. split_and!; [done|by left|]. right. split; [|done]. apply file_at_Some in E. by exists s.
    - destruct (remove_empty_spec d d t2 Ht2 Hne) as (t3 & -> & ? & ?); [done|by unfold file_at; rewrite E|].
      eexists _, t3. split_and!; [done..|by left].
    - eexists _, t2. split; [reflexivity|]. split_and!; [done|by left|by left]. }
  pose proof (pruned_trans _ _ _ _ Hp2 Hp3) as Hp. destruct (Hprune t3 Hp) as [Hq Hfiles].
  unfold bind, get_state. rewrite Ho. destruct Hor as [->|[Hor Hko]]; [|destruct o; [done|split_and!; auto]].
  destruct Hr as (Hall & Hgone & Hrem & Hdone). cbn. split_and!; [done..| | | |].
  - rewrite Forall_forall in Hall |- *. intros k Hk. by apply Hall, Hl.
  - intros q Hin. rewrite (pruned_files d _ _ Hp). by apply Hgone, Htl.
  - intros k Hk. destruct (Hrem k Hk). split; [by apply Hl|done].
  - intros q Hin. by apply Hdone, Htl.
Qed.
End Writer.

(** ** Witness *)

(** Whether a tree is one *)
Definition tree_okb (t : tree) : bool := is_dir [] t && forallb (fun q => is_dir (removelast q) t) (map_to_list t).*1.

Lemma tree_okb_ok t : tree_okb t = true → tree_ok t.
Proof.
  assert (∀ p, is_dir p t = true → t !! p = Some Directory) as Hd by (intros p; unfold is_dir; by destruct (t !! p) as [[]|]).
  intros [Hr Hall]%andb_true_iff. split; [by apply Hd|]. intros p x [n Hn]. apply Hd.
  rewrite forallb_forall in Hall. rewrite <- (removelast_snoc p x). apply Hall, list_elem_of_In.
  apply (list_elem_of_fmap_2' fst _ (p ++ [x], n)); [by apply elem_of_map_to_list|done].
Qed.


Definition demo_output : path := ["out"].

Definition demo_files : tree :=
  <[["out"; "app"; "docs"; "api.md"] := File "kept"]> (<[["out"; "app"; "README.md"] := File "read me"]>
    (make_directories ["out"; "app"; "docs"] ∅)).

Lemma demo_output_plain : ".." ∉ demo_output.
Proof. apply (bool_decide_unpack _). vm_compute. exact I. Qed.

Lemma demo_name_safe : safe "app".
Proof. apply (bool_decide_unpack _). vm_compute. exact I. Qed.

Lemma demo_files_ok : tree_ok demo_files.
Proof. apply tree_okb_ok. vm_compute. reflexivity. Qed.

Lemma rollback_exact_witness :
  (".." ∉ demo_output ∧ safe "app" ∧ tree_ok demo_files) ∧
  let t' := (ArtifactWriter.rollback demo_output "app" ["README.md"; "gone"] demo_files).2 in
  tree_ok t' ∧ ∀ q, file_at t' q = file_at demo_files q ∨ q ∈ targets ["out"; "app"] ["README.md"; "gone"] ∧ file_at t' q = None.
Proof.
  split; [split; [exact demo_output_plain|split; [exact demo_name_safe|exact demo_files_ok]]|].
  pose proof (rollback_exact demo_output demo_output_plain "app" ["README.md"; "gone"] demo_files demo_name_safe demo_files_ok) as Hr.
  cbv zeta in Hr |- *. destruct (ArtifactWriter.rollback demo_output "app" ["README.md"; "gone"] demo_files) as [r t'].
  destruct Hr as (Ht & _ & Hf & _). split; [exact Ht|exact Hf].
Defined.

(** A file that is there with another content stops the writer; what it wrote
    before is taken away again. *)
Example divergent_file_undone :
  let '(r, t') := ArtifactWriter.write (H := demo_oracle) demo_output "app" [("README.md", "another"); ("LICENSE", "text")] demo_files in
  bool_decide (r = Err (Exn FileExistsError "refusing to overwrite divergent artifact: README.md")) && negb (exists_ ["out"; "app"; "LICENSE"] t') = true.
Proof. vm_compute. reflexivity. Qed.
