(* ===== verification/Materializer.v ===== *)
(** The source trees of RenovationOS repositories
    (repository_materializer/materializer.py): the text of every file, made of the
    specification of a repository alone. *)

From stdpp Require Import base option list strings gmap pretty sets.
From Stdlib Require Import ZArith Lia Ascii.
From S2P Require Import Prelude PyVal Json JsonText Store EventStore Repositories.

(** * Texts *)

(** A literal of the source, with its double quotes written as [~] *)
Definition lit_char (c : ascii) : string := if bool_decide (c = "~"%char) then String quote_char "" else String c "".
Definition tpl (s : string) : string := string_flat lit_char s.

(** Lines, each with its end *)
Definition lines (l : list string) : string := join "" (map (fun x => x +:+ nl) l).

(** [repr(tuple(values))] of texts *)
Definition tuple_repr (l : list string) : string :=
  match l with
  | [x] => "(" +:+ repr_str x +:+ ",)"
  | _ => "(" +:+ join ", " (map repr_str l) +:+ ")"
  end.

(** [json.dumps(v, indent=2)] after [margin], the dicts in the order they have *)
Fixpoint indented (margin : string) (v : val) : string :=
  let inner := margin +:+ "  " in
  match v with
  | VList ((_ :: _) as l) =>
      "[" +:+ nl +:+ join ("," +:+ nl) (map (fun x => inner +:+ indented inner x) l) +:+ nl +:+ margin +:+ "]"
  | VDict ((_ :: _) as d) =>
      "{" +:+ nl +:+ join ("," +:+ nl) (map (fun p => inner +:+ json_str p.1 +:+ ": " +:+ indented inner p.2) d) +:+ nl +:+ margin +:+ "}"
  | _ => text v
  end.

Definition _json (v : val) : string := indented "" (canon v) +:+ nl.

(** * The specification *)

Definition is_small (c : ascii) : bool := let n := N_of_ascii c in ((97 <=? n) && (n <=? 122))%N.
Definition is_word (c : ascii) : bool := let n := N_of_ascii c in is_small c || ((48 <=? n) && (n <=? 57))%N || bool_decide (c = "_"%char).

(** [SAFE_NAME.fullmatch(name)] *)
Definition safe_name (name : string) : bool :=
  match name with
  | "" => false
  | String c rest => is_small c && all_chars is_word rest && (2 <=? String.length rest)%nat && (String.length rest <=? 63)%nat
  end.

Module RenovationRepositorySpec.
Record t := Mk {
  name : string;
  repository_type : string;
  purpose : string;
  models : list string;
  apis : list string;
  events : list string;
  rbac_scopes : list string;
  metrics : list string;
  tests : list string;
  deployment_requirements : list string;
  dependencies : list string;
}.

Definition validate (s : t) : res unit :=
  if negb (safe_name (name s)) then Err (Exn ValueError "unsafe repository name")
  else if negb (forallb (fun l => negb (bool_decide (l = [])))
                  [models s; apis s; events s; rbac_scopes s; metrics s; tests s; deployment_requirements s])
  then Err (Exn ValueError "repository specification is incomplete")
  else Ok tt.

Definition manifest (s : t) : res doc :=
  let? _ := validate s in
  Ok [("name", VStr (name s)); ("domain", VStr "construction"); ("purpose", VStr (purpose s));
      ("architecture", VStr "layered FastAPI service with domain, service, API, audit, and metrics boundaries");
      ("repository_type", VStr (repository_type s)); ("dependencies", strs (sorted_strs (dependencies s)));
      ("apis", strs (sorted_strs (apis s))); ("rbac_scopes", strs (sorted_strs (rbac_scopes s)));
      ("events", strs (sorted_strs (events s))); ("observability", strs (sorted_strs (metrics s)));
      ("tests", strs (sorted_strs (tests s))); ("documentation_requirements", strs ["README"; "api"; "architecture"; "deployment"]);
      ("metadata", VDict [("platform", VStr "RenovationOS"); ("industry", VStr "construction"); ("capability", VStr (name s));
         ("quality_score", VFloat "1.0"); ("release_readiness", VStr "candidate")])].
End RenovationRepositorySpec.

Abbreviation RenovationRepositorySpec := RenovationRepositorySpec.t.

(** * The files *)

Section Files.
Import RenovationRepositorySpec.
Implicit Types spec : RenovationRepositorySpec.

Definition _readme spec : string :=
  lines ["# " +:+ name spec; ""; purpose spec; "";
    "Generated deterministically by AgentFabric repository execution. All writes require a tenant-scoped approval record."].

Definition _architecture : string :=
  lines ["# Architecture"; "";
    "The repository separates immutable domain models, service orchestration, FastAPI routes, event declarations, RBAC scopes, audit hooks, and metrics hooks.";
    ""; "Sensitive values are represented by VEIL references and are never persisted directly."].

Definition _api_docs spec : string :=
  lines ["# API"; ""] +:+ join nl (map (fun route => "- `" +:+ route +:+ "`") (sorted_strs (apis spec))) +:+ nl.

Definition _deployment spec : string :=
  lines ["# Deployment"; ""; "## Requirements"; ""] +:+ join nl (map (fun item => "- " +:+ item) (sorted_strs (deployment_requirements spec))) +:+
  nl +:+ nl +:+ lines ["Run as a non-root container."].

Definition dashed (c : ascii) : string := if bool_decide (c = "_"%char) then "-" else String c "".

Definition _pyproject spec : string :=
  lines ["[build-system]"; tpl "requires = [~setuptools>=69~]"; tpl "build-backend = ~setuptools.build_meta~"; ""; "[project]";
    tpl "name = ~" +:+ string_flat dashed (name spec) +:+ tpl "~"; tpl "version = ~0.1.0~"; tpl "requires-python = ~>=3.9~";
    tpl "dependencies = [~fastapi>=0.100~, ~pydantic>=2.0~, ~uvicorn>=0.20~]"; ""; "[tool.pytest.ini_options]"; tpl "testpaths = [~tests~]"].

Definition model_block (model : string) : list string :=
  ["@dataclass(frozen=True)"; "class " +:+ model +:+ ":"; tpl "    ~~~Typed domain record with deterministic extension fields.~~~"; "";
   "    record_id: str"; "    attributes: dict[str, Any] = field(default_factory=dict)"; ""; ""].

Definition _models spec : string :=
  rstrip (join nl ([tpl "~~~Domain models generated from the RenovationOS package definition.~~~"; ""; "from __future__ import annotations"; "";
    "from dataclasses import dataclass, field"; "from typing import Any"; ""] ++ concat (map model_block (models spec)))) +:+ nl.

(** [spec.models[0]] *)
Definition first_model spec : res string :=
  match models spec with model :: _ => Ok model | [] => Err (Exn IndexError "tuple index out of range") end.

Definition _service spec : res string :=
  let? model := first_model spec in
  Ok (lines [tpl "~~~Application service boundary.~~~"; ""; "from __future__ import annotations"; ""; "from .models import " +:+ model; ""; "";
    "class RepositoryService:"; "    def create(self, record: " +:+ model +:+ ") -> " +:+ model +:+ ":"; "        return record"]).

Definition _api spec : string :=
  lines [tpl "~~~FastAPI route stubs.~~~"; ""; "from fastapi import APIRouter, FastAPI"; ""; tpl "router = APIRouter(tags=[~renovation-os~])"; ""; "";
    tpl "@router.get(~/health~)"; "def health() -> dict[str, str]:";
    tpl "    return {~status~: ~ok~, ~repository~: ~" +:+ name spec +:+ tpl "~}"; ""; "";
    tpl "app = FastAPI(title=~" +:+ name spec +:+ tpl "~, version=~0.1.0~)"; "app.include_router(router)"].

Definition _constants (constant : string) (values : list string) : string := constant +:+ " = " +:+ tuple_repr (sorted_strs values) +:+ nl.

Definition _audit : string :=
  lines [tpl "~~~Audit hook that stores references, never raw sensitive values.~~~"; "";
    "def audit_record(action: str, veil_reference: str) -> dict[str, str]:"; tpl "    if not veil_reference.startswith(~veil:~):";
    tpl "        raise ValueError(~VEIL reference required~)"; tpl "    return {~action~: action, ~veil_reference~: veil_reference}"].

Definition _metrics spec : string := "METRIC_NAMES = " +:+ tuple_repr (sorted_strs (metrics spec)) +:+ nl.

Definition _tests spec : res string :=
  let? model := first_model spec in
  Ok (lines ["from " +:+ name spec +:+ ".models import " +:+ model; ""; ""; "def test_domain_record_is_immutable() -> None:";
    "    record = " +:+ model +:+ tpl "(record_id=~example~)"; tpl "    assert record.record_id == ~example~"]).

Definition _dockerfile spec : string :=
  lines ["FROM python:3.12-slim"; "WORKDIR /app"; "RUN useradd --create-home app"; "COPY . ."; "RUN pip install --no-cache-dir ."; "USER app";
    tpl "CMD [~uvicorn~, ~" +:+ name spec +:+ tpl ".api:app~, ~--host~, ~0.0.0.0~, ~--port~, ~8000~]"].

Definition _compose spec : string :=
  lines ["services:"; "  " +:+ name spec +:+ ":"; "    build: ."; "    ports:"; tpl "      - ~8000:8000~"].

Definition _ci : string :=
  lines ["name: ci"; "on: [push, pull_request]"; "jobs:"; "  test:"; "    runs-on: ubuntu-latest"; "    steps:"; "      - uses: actions/checkout@v4";
    "      - uses: actions/setup-python@v5"; "        with:"; tpl "          python-version: ~3.12~"; "      - run: pip install -e . pytest";
    "      - run: pytest -q"].

(** The routes are keys of a dict, so each is there once. *)
Definition _openapi spec : val :=
  VDict [("info", VDict [("title", VStr (name spec)); ("version", VStr "0.1.0")]); ("openapi", VStr "3.1.0");
    ("paths", VDict (dupdate [] (map (fun route => (route, VDict [("get", VDict [("responses",
       VDict [("200", VDict [("description", VStr "Success")])])])])) (sorted_strs (apis spec)))))].

Definition package_manifest spec : val :=
  VDict [("name", VStr (name spec)); ("version", VStr "0.1.0"); ("private", VBool true); ("platform", VStr "RenovationOS");
    ("industry", VStr "construction"); ("capability", VStr (name spec)); ("dependencies", strs (sorted_strs (dependencies spec)));
    ("quality_score", VFloat "1.0"); ("release_readiness", VStr "candidate")].
End Files.

Module RepositoryMaterializer.
Import RenovationRepositorySpec.

Definition materialize (spec : RenovationRepositorySpec) : res (dict string) :=
  let? manifest := manifest spec in
  let package := "src/" +:+ name spec +:+ "/" in
  let? service := _service spec in
  let? tests := _tests spec in
  Ok (py_sorted key_le
    [("README.md", _readme spec); ("docs/architecture.md", _architecture); ("docs/api.md", _api_docs spec);
     ("docs/deployment.md", _deployment spec); ("pyproject.toml", _pyproject spec); ("package.manifest.json", _json (package_manifest spec));
     ("repository.manifest.json", _json (VDict manifest)); ("openapi.json", _json (_openapi spec));
     ("config.example.json", _json (VDict [("environment", VStr "development"); ("log_level", VStr "INFO")]));
     ("Dockerfile", _dockerfile spec); ("docker-compose.yml", _compose spec); (".github/workflows/ci.yml", _ci);
     (package +:+ "__init__.py", tpl "~~~RenovationOS generated package.~~~" +:+ nl); (package +:+ "models.py", _models spec);
     (package +:+ "service.py", service); (package +:+ "api.py", _api spec); (package +:+ "events.py", _constants "EVENT_TYPES" (events spec));
     (package +:+ "permissions.py", _constants "RBAC_SCOPES" (rbac_scopes spec)); (package +:+ "audit.py", _audit);
     (package +:+ "metrics.py", _metrics spec); ("tests/test_models.py", tests)]).
End RepositoryMaterializer.
