(* ===== verification/RepositoryExecution.v ===== *)
(** The engine that writes the source tree of a repository (repository_execution):
    it plans an execution, waits for the approval of exactly that plan, and then
    writes the files. *)

From stdpp Require Import base option list strings gmap pretty sets.
From Stdlib Require Import ZArith Lia Ascii.
From S2P Require Import Prelude PyVal Json JsonText PyTime Store EventStore Documents Tenancy Repositories Artifacts Materializer.

Local Open Scope Z_scope.

(** A dict of texts, and [{str(key): str(item) for key, item in dict(v).items()}] *)
Definition str_doc (d : dict string) : doc := map (fun p => (p.1, VStr p.2)) d.
Definition strs_of (d : doc) : dict string := map (fun p => (p.1, py_str p.2)) d.

(** * The records *)

Module ExecutionContext.
Record t := Mk {
  tenant_id : string;
  organization_id : string;
  principal_id : string;
  platform_id : string;
  repository_id : string;
  blueprint_version : string;
  knowledge_pack_version : string;
}.

Definition as_dict (c : t) : doc :=
  [("tenant_id", VStr (tenant_id c)); ("organization_id", VStr (organization_id c)); ("principal_id", VStr (principal_id c));
   ("platform_id", VStr (platform_id c)); ("repository_id", VStr (repository_id c)); ("blueprint_version", VStr (blueprint_version c));
   ("knowledge_pack_version", VStr (knowledge_pack_version c))].

Definition fields : list string :=
  ["tenant_id"; "organization_id"; "principal_id"; "platform_id"; "repository_id"; "blueprint_version"; "knowledge_pack_version"].

(** [ExecutionContext] called with the entries of [d] as its arguments: none is
    missing and there are no others. *)
Definition of_kwargs (d : doc) : res t :=
  if negb (forallb (fun k => bool_decide (k ∈ fields)) d.*1)
  then type_error "ExecutionContext.__init__() got an unexpected keyword argument"
  else if negb (forallb (fun k => dmem d k) fields)
  then type_error "ExecutionContext.__init__() missing required positional arguments"
  else
  let field k := str_field_or d k "" in
  Ok (Mk (field "tenant_id") (field "organization_id") (field "principal_id") (field "platform_id") (field "repository_id")
        (field "blueprint_version") (field "knowledge_pack_version")).
End ExecutionContext.

Abbreviation ExecutionContext := ExecutionContext.t.

Module ExecutionStep.
Record t := Mk { step_id : string; order : Z; action : string; target : string; content_hash : string }.

Definition as_dict (s : t) : doc :=
  [("step_id", VStr (step_id s)); ("order", VInt (order s)); ("action", VStr (action s)); ("target", VStr (target s));
   ("content_hash", VStr (content_hash s))].

Definition from_item (item : val) : res t :=
  let? step_id := vindex item "step_id" in
  let? order := (let? v := vindex item "order" in py_int v) in
  let? action := vindex item "action" in
  let? target := vindex item "target" in
  let? content_hash := vindex item "content_hash" in
  Ok (Mk (py_str step_id) order (py_str action) (py_str target) (py_str content_hash)).
End ExecutionStep.

Abbreviation ExecutionStep := ExecutionStep.t.

Module ExecutionPlan.
Record t := Mk {
  execution_id : string;
  context : ExecutionContext;
  steps : list ExecutionStep;
  artifact_contents : dict string;
  artifact_hashes : dict string;
  quality_gates : dict bool;
  rollback_plan : list string;
  marketplace_metadata : doc;
  status : string;
}.

Definition gate_doc (gates : dict bool) : doc := map (fun p => (p.1, VBool p.2)) gates.

(** [as_dict(include_contents)]: the dicts are sorted, their keys differ. *)
Definition as_dict (include_contents : bool) (p : t) : doc :=
  [("execution_id", VStr (execution_id p)); ("tenant_id", VStr (ExecutionContext.tenant_id (context p)));
   ("context", VDict (ExecutionContext.as_dict (context p)));
   ("steps", VList (map (fun s => VDict (ExecutionStep.as_dict s)) (steps p)));
   ("artifact_hashes", VDict (str_doc (py_sorted key_le (artifact_hashes p))));
   ("quality_gates", VDict (gate_doc (py_sorted key_le (quality_gates p)))); ("rollback_plan", strs (rollback_plan p));
   ("marketplace_metadata", VDict (py_sorted key_le (marketplace_metadata p))); ("status", VStr (status p))] ++
  (if include_contents then [("artifact_contents", VDict (str_doc (py_sorted key_le (artifact_contents p))))] else []).

Definition digest `{Oracle} (p : t) : string := sha256_hex (dumps (VDict (as_dict true p))).

(** [_plan_from_dict(value)] *)
Definition _plan_from_dict (value : doc) : res t :=
  let? context := (let? v := dindex value "context" in let? d := py_dict v in ExecutionContext.of_kwargs d) in
  let? execution_id := str_field value "execution_id" in
  let? steps := (let? v := dindex value "steps" in let? items := py_iter v in res_map ExecutionStep.from_item items) in
  let? contents := (let? v := dindex value "artifact_contents" in py_dict v) in
  let? hashes := (let? v := dindex value "artifact_hashes" in py_dict v) in
  let? gates := (let? v := dindex value "quality_gates" in py_dict v) in
  let? rollback_plan := (let? v := dindex value "rollback_plan" in py_iter v) in
  let? metadata := (let? v := dindex value "marketplace_metadata" in py_dict v) in
  Ok (Mk execution_id context steps (strs_of contents) (strs_of hashes) (map (fun p => (p.1, truthy p.2)) gates)
        (map py_str rollback_plan) metadata (str_field_or value "status" "planned")).
End ExecutionPlan.

Abbreviation ExecutionPlan := ExecutionPlan.t.

Module ApprovalRecord.
Record t := Mk { execution_id : string; tenant_id : string; approved_by : string; approved_at : string; plan_digest : string }.

Definition as_dict (a : t) : doc :=
  [("execution_id", VStr (execution_id a)); ("tenant_id", VStr (tenant_id a)); ("approved_by", VStr (approved_by a));
   ("approved_at", VStr (approved_at a)); ("plan_digest", VStr (plan_digest a))].

Definition fields : list string := ["execution_id"; "tenant_id"; "approved_by"; "approved_at"; "plan_digest"].

Definition of_kwargs (d : doc) : res t :=
  if negb (forallb (fun k => bool_decide (k ∈ fields)) d.*1)
  then type_error "ApprovalRecord.__init__() got an unexpected keyword argument"
  else if negb (forallb (fun k => dmem d k) fields)
  then type_error "ApprovalRecord.__init__() missing required positional arguments"
  else
  let field k := str_field_or d k "" in
  Ok (Mk (field "execution_id") (field "tenant_id") (field "approved_by") (field "approved_at") (field "plan_digest")).
End ApprovalRecord.

Abbreviation ApprovalRecord := ApprovalRecord.t.

Module DryRunResult.
Record t := Mk {
  execution_id : string;
  tenant_id : string;
  status : string;
  artifact_count : Z;
  artifact_hashes : dict string;
  quality_gates : dict bool;
}.

Definition as_dict (r : t) : doc :=
  [("execution_id", VStr (execution_id r)); ("tenant_id", VStr (tenant_id r)); ("status", VStr (status r));
   ("artifact_count", VInt (artifact_count r)); ("artifact_hashes", VDict (str_doc (artifact_hashes r)));
   ("quality_gates", VDict (ExecutionPlan.gate_doc (quality_gates r)))].
End DryRunResult.

Module ExecutionResult.
Record t := Mk {
  execution_id : string;
  tenant_id : string;
  status : string;
  artifact_hashes : dict string;
  approval : doc;
  rollback_plan : list string;
  marketplace_metadata : doc;
}.

Definition as_dict (r : t) : doc :=
  [("execution_id", VStr (execution_id r)); ("tenant_id", VStr (tenant_id r)); ("status", VStr (status r));
   ("artifact_hashes", VDict (str_doc (py_sorted key_le (artifact_hashes r)))); ("approval", VDict (approval r));
   ("rollback_plan", strs (rollback_plan r)); ("marketplace_metadata", VDict (marketplace_metadata r))].

(** [_result_from_dict(value)] *)
Definition _result_from_dict (value : doc) : res t :=
  let? execution_id := str_field value "execution_id" in
  let? tenant_id := str_field value "tenant_id" in
  let? status := str_field value "status" in
  let? hashes := (let? v := dindex value "artifact_hashes" in py_dict v) in
  let? approval := (let? v := dindex value "approval" in py_dict v) in
  let? rollback_plan := (let? v := dindex value "rollback_plan" in py_iter v) in
  let? metadata := (let? v := dindex value "marketplace_metadata" in py_dict v) in
  Ok (Mk execution_id tenant_id status (strs_of hashes) approval (map py_str rollback_plan) metadata).
End ExecutionResult.

Abbreviation ExecutionResult := ExecutionResult.t.

(** lifecycle.py and rollback.py *)
Definition EXECUTION_STATES : list string := ["planned"; "dry_run_complete"; "approved"; "completed"; "rolled_back"; "failed"].

Module RollbackPlan.
Record t := Mk { execution_id : string; tenant_id : string; paths : list string }.

Definition as_dict (r : t) : doc :=
  [("execution_id", VStr (execution_id r)); ("tenant_id", VStr (tenant_id r)); ("paths", strs (paths r))].
End RollbackPlan.

(** * approval_gate.py *)

Module ApprovalGate.
Section Gate.
Context `{Oracle} {S : Type} `{PersistenceStore S}.

Definition approve (execution_id tenant_id principal_id plan_digest : string) : M (sys S) ApprovalRecord :=
  let* now := utc_now in
  let record := ApprovalRecord.Mk execution_id tenant_id principal_id (isoformat now) plan_digest in
  do* store_put "factory_execution_approvals" execution_id (ApprovalRecord.as_dict record);
  ret record.

Definition require (execution_id tenant_id plan_digest : string) : M (sys S) ApprovalRecord :=
  let* value := store_get "factory_execution_approvals" execution_id in
  match value with
  | None => raise AuthorizationError "repository execution approval is required"
  | Some value =>
      if negb (is_str (dget value "tenant_id") tenant_id) || negb (is_str (dget value "plan_digest") plan_digest)
      then raise AuthorizationError "repository execution approval is invalid"
      else of_res (ApprovalRecord.of_kwargs (str_doc (strs_of value)))
  end.
End Gate.
End ApprovalGate.

(** * execution_engine.py *)

Definition RENOVATION_MODELS : dict (list string) := [
  ("reno_estimator", ["ProjectIntake"; "RoomScope"; "MaterialSelection"; "LaborAssumption"; "EstimateLineItem"; "EstimateResult";
     "MarginScenario"; "RiskAdjustment"]);
  ("change_order_agent", ["ChangeOrder"; "ScopeDelta"; "CostDelta"; "ScheduleDelta"; "ApprovalStatus"; "CustomerApproval";
     "ContractorAcknowledgement"; "ChangeOrderAuditRecord"]);
  ("contractor_command_center", ["ContractorProfile"; "CrewAssignment"; "JobTask"; "AttendanceRecord"; "QualityIssue"; "LicenseDocument";
     "InsuranceDocument"; "PaymentMilestone"])].

Definition PURPOSES : dict string := [
  ("reno_estimator", "Produce auditable renovation estimates, margins, and risk adjustments.");
  ("change_order_agent", "Govern renovation scope, cost, schedule, and approval changes.");
  ("contractor_command_center", "Coordinate contractors, crews, quality, compliance, and milestones.")].

Definition RENOVATION_DEPENDENCIES : dict (list string) := [
  ("reno_estimator", []); ("change_order_agent", ["reno_estimator"]);
  ("contractor_command_center", ["change_order_agent"; "materials_intelligence"])].

(** [a == b] for dicts of texts *)
Definition dict_eqb (a b : dict string) : bool :=
  (length a =? length b)%nat && forallb (fun p => bool_decide (dget b p.1 = Some p.2)) a.

Definition gates_hold (gates : dict bool) : bool := forallb snd gates.

Module RepositoryExecutionEngine.
Section Engine.
Context `{Oracle} {S : Type} `{PersistenceStore S}.
Context (output_root platform_root : path) (tenant_subdirectories : bool).

(** The process and the files *)
Abbreviation world := (sys S * tree)%type.

Definition on_sys {A} (m : M (sys S) A) : M world A := zoom fst (fun s w => (s, w.2)) m.
Definition on_disk {A} (m : M tree A) : M world A := zoom snd (fun t w => (w.1, t)) m.

Definition _event (event_type : string) (plan : ExecutionPlan) (payload : doc) : M world unit :=
  let context := ExecutionPlan.context plan in
  do* on_sys (EventStore.append event_type (ExecutionPlan.execution_id plan)
    (dupdate [("tenant_id", VStr (ExecutionContext.tenant_id context)); ("platform_id", VStr (ExecutionContext.platform_id context));
              ("repository_id", VStr (ExecutionContext.repository_id context))] payload));
  ret tt.

Definition _destination (plan : ExecutionPlan) : string :=
  let context := ExecutionPlan.context plan in
  if tenant_subdirectories then ExecutionContext.tenant_id context +:+ "/" +:+ ExecutionContext.repository_id context
  else ExecutionContext.repository_id context.

(** [tuple(str(item) for item in payload[key])] *)
Definition strs_at (payload : val) (key : string) : res (list string) :=
  let? v := vindex payload key in let? items := py_iter v in Ok (map py_str items).

Definition spec_of (repository_name : string) (payload : val) : res RenovationRepositorySpec :=
  let? repository_type := vindex payload "type" in
  let? apis := strs_at payload "apis" in
  let? events := strs_at payload "events" in
  let? rbac_scopes := strs_at payload "rbac_scopes" in
  let? metrics := strs_at payload "metrics" in
  let? tests := strs_at payload "tests" in
  let? deployment_requirements := strs_at payload "deployment_requirements" in
  Ok (RenovationRepositorySpec.Mk repository_name (py_str repository_type) (default "" (dget PURPOSES repository_name))
        (default [] (dget RENOVATION_MODELS repository_name)) apis events rbac_scopes metrics tests deployment_requirements
        (default [] (dget RENOVATION_DEPENDENCIES repository_name))).

(** The description of a repository is read from the files of the platform. *)
Definition _spec (repository_name platform_id : string) : M world RenovationRepositorySpec :=
  if negb (bool_decide (platform_id = "RenovationOS"))
  then raise NotFoundError "only RenovationOS execution is available in Generation 18"
  else if negb (dmem RENOVATION_MODELS repository_name) then raise NotFoundError "RenovationOS repository definition not found"
  else
  let* text := on_disk (read_text (platform_root ++ [repository_name +:+ ".json"])) in
  match json_loads text with
  | None => raise ValueError "Expecting value"
  | Some payload => of_res (spec_of repository_name payload)
  end.

Definition required_files : list string :=
  ["README.md"; "docs/architecture.md"; "docs/api.md"; "docs/deployment.md"; "pyproject.toml"; "repository.manifest.json"; "tests/test_models.py"].

Definition truthy_at (d : doc) (k : string) : bool := match dget d k with Some v => truthy v | None => false end.

Definition _quality_gates (spec : RenovationRepositorySpec) (files : dict string) : res (dict bool) :=
  let? _ := res_map validate_relative_path files.*1 in
  let? manifest := RenovationRepositorySpec.manifest spec in
  let? replay := RepositoryMaterializer.materialize spec in
  Ok [("repository_name_safe", negb (bool_decide (RenovationRepositorySpec.name spec = "")));
      ("path_safety", forallb (fun p => negb (contains ".." p)) files.*1);
      ("template_valid", forallb (fun content => negb (bool_decide (content = ""))) files.*2);
      ("manifest_complete", forallb (truthy_at manifest) ["name"; "domain"; "purpose"; "architecture"]);
      ("dependency_graph_consistent", negb (bool_decide (RenovationRepositorySpec.name spec ∈ RenovationRepositorySpec.dependencies spec)));
      ("rbac_scopes_declared", negb (bool_decide (RenovationRepositorySpec.rbac_scopes spec = [])));
      ("event_schemas_declared", negb (bool_decide (RenovationRepositorySpec.events spec = [])));
      ("documentation_present", forallb (dmem files) required_files);
      ("tests_present", existsb (starts_with "tests/") files.*1);
      ("deterministic_export_stable", dict_eqb replay files)].

Fixpoint steps_of (execution_id : string) (hashes : dict string) (index : Z) (paths : list string) : list ExecutionStep :=
  match paths with
  | [] => []
  | target :: rest =>
      ExecutionStep.Mk (execution_id +:+ ":" +:+ zpad 3 index) index "write" target (default "" (dget hashes target)) ::
      steps_of execution_id hashes (index + 1) rest
  end.

Definition identity_of (context : ExecutionContext) (hashes : dict string) : doc :=
  [("tenant_id", VStr (ExecutionContext.tenant_id context)); ("organization_id", VStr (ExecutionContext.organization_id context));
   ("platform_id", VStr (ExecutionContext.platform_id context)); ("repository_id", VStr (ExecutionContext.repository_id context));
   ("blueprint_version", VStr (ExecutionContext.blueprint_version context));
   ("knowledge_pack_version", VStr (ExecutionContext.knowledge_pack_version context)); ("artifact_hashes", VDict (str_doc hashes))].

(** The plan of the files of a specification *)
Definition plan_of (context : ExecutionContext) (spec : RenovationRepositorySpec) (files : dict string) (gates : dict bool) : ExecutionPlan :=
  let hashes := map (fun p => (p.1, sha256_hex p.2)) files in
  let execution_id := "exec-" +:+ String.substring 0 20 (sha256_hex (dumps (VDict (identity_of context hashes)))) in
  let metadata := [("private", VBool true); ("platform", VStr (ExecutionContext.platform_id context)); ("industry", VStr "construction");
    ("capability", VStr (ExecutionContext.repository_id context)); ("dependencies", strs (sorted_strs (RenovationRepositorySpec.dependencies spec)));
    ("quality_score", VFloat "1.0"); ("release_readiness", VStr "candidate")] in
  ExecutionPlan.Mk execution_id context (steps_of execution_id hashes 1 (sorted_strs files.*1)) files hashes gates (sorted_strs files.*1)
    metadata "planned".

Definition plan (ctx : TenantContext) (repository_name platform_id blueprint_version knowledge_pack_version : string)
    : M world ExecutionPlan :=
  let* spec := _spec repository_name platform_id in
  let* files := of_res (RepositoryMaterializer.materialize spec) in
  let* gates := of_res (_quality_gates spec files) in
  if negb (gates_hold gates) then raise ValueError "repository execution quality gates failed"
  else
  let context := ExecutionContext.Mk (TenantContext.tenant_id ctx) (TenantContext.organization_id ctx) (TenantContext.principal_id ctx)
    platform_id repository_name blueprint_version knowledge_pack_version in
  let plan := plan_of context spec files gates in
  do* on_sys (store_put "factory_execution_plans" (ExecutionPlan.execution_id plan) (ExecutionPlan.as_dict true plan));
  do* _event "factory.execution.planned" plan [("plan_digest", VStr (ExecutionPlan.digest plan))];
  ret plan.

Definition get (ctx : TenantContext) (execution_id : string) : M world ExecutionPlan :=
  let* value := on_sys (store_get "factory_execution_plans" execution_id) in
  match value with
  | None => raise NotFoundError "repository execution not found"
  | Some value =>
      if negb (is_str (dget value "tenant_id") (TenantContext.tenant_id ctx))
      then raise AuthorizationError "cross-tenant repository execution access denied"
      else of_res (ExecutionPlan._plan_from_dict value)
  end.

Definition dry_run (ctx : TenantContext) (execution_id : string) : M world DryRunResult.t :=
  let* plan := get ctx execution_id in
  let context := ExecutionPlan.context plan in
  let* spec := _spec (ExecutionContext.repository_id context) (ExecutionContext.platform_id context) in
  let* replayed := of_res (RepositoryMaterializer.materialize spec) in
  let stable := dict_eqb replayed (ExecutionPlan.artifact_contents plan) in
  let gates := dset (ExecutionPlan.quality_gates plan) "deterministic_replay" stable in
  if negb (gates_hold gates) then raise ValueError "repository dry-run quality gates failed"
  else
  let result := DryRunResult.Mk execution_id (TenantContext.tenant_id ctx) "dry_run_complete" (Z.of_nat (length (ExecutionPlan.steps plan)))
    (ExecutionPlan.artifact_hashes plan) gates in
  do* on_sys (store_put "factory_execution_dry_runs" execution_id (DryRunResult.as_dict result));
  do* _event "factory.execution.dry_run.completed" plan (DryRunResult.as_dict result);
  ret result.

Definition approve (ctx : TenantContext) (execution_id : string) : M world ApprovalRecord :=
  let* plan := get ctx execution_id in
  let* approval := on_sys (ApprovalGate.approve execution_id (TenantContext.tenant_id ctx) (TenantContext.principal_id ctx)
    (ExecutionPlan.digest plan)) in
  do* _event "factory.execution.approval.recorded" plan (ApprovalRecord.as_dict approval);
  ret approval.

(** The files are written, and their digests compared with those of the plan. *)
Definition write_artifacts (plan : ExecutionPlan) : M world (dict string) :=
  let* hashes := on_disk (ArtifactWriter.write output_root (_destination plan) (ExecutionPlan.artifact_contents plan)) in
  if negb (dict_eqb hashes (ExecutionPlan.artifact_hashes plan))
  then raise ValueError "written artifact hashes do not match approved plan" else ret hashes.

Definition record_artifacts (ctx : TenantContext) (execution_id : string) (hashes : dict string) : M world unit :=
  for_each hashes (fun p => on_sys (store_put "factory_execution_artifacts" (execution_id +:+ ":" +:+ p.1)
    [("tenant_id", VStr (TenantContext.tenant_id ctx)); ("execution_id", VStr execution_id); ("path", VStr p.1); ("sha256", VStr p.2)])).

Definition is_completed (existing : option doc) : bool :=
  match existing with Some d => is_str (dget d "status") "completed" | None => false end.

Definition execute (ctx : TenantContext) (execution_id : string) : M world ExecutionResult :=
  let* plan := get ctx execution_id in
  let* existing := on_sys (store_get "factory_execution_results" execution_id) in
  if is_completed existing then of_res (ExecutionResult._result_from_dict (default [] existing))
  else
  let* approval := on_sys (ApprovalGate.require execution_id (TenantContext.tenant_id ctx) (ExecutionPlan.digest plan)) in
  do* for_each (ExecutionPlan.steps plan) (fun step => _event "factory.execution.step.started" plan (ExecutionStep.as_dict step));
  let* hashes := try_except (write_artifacts plan) (fun exc =>
    do* _event "factory.execution.step.failed" plan [("reason", VStr (exn_msg exc))]; (fun w => (Err exc, w))) in
  do* for_each (ExecutionPlan.steps plan) (fun step => _event "factory.execution.step.completed" plan (ExecutionStep.as_dict step));
  let metadata := ExecutionPlan.marketplace_metadata plan in
  let result := ExecutionResult.Mk execution_id (TenantContext.tenant_id ctx) "completed" hashes (ApprovalRecord.as_dict approval)
    (ExecutionPlan.rollback_plan plan) metadata in
  do* on_sys (store_put "factory_execution_results" execution_id (ExecutionResult.as_dict result));
  do* on_sys (store_put "factory_execution_marketplace_metadata" execution_id
    (dupdate [("tenant_id", VStr (TenantContext.tenant_id ctx)); ("execution_id", VStr execution_id)] metadata));
  do* record_artifacts ctx execution_id hashes;
  do* _event "factory.execution.completed" plan (ExecutionResult.as_dict result);
  ret result.

Definition replay (ctx : TenantContext) (execution_id : string) : M world ExecutionPlan :=
  let* planned := get ctx execution_id in
  let context := ExecutionPlan.context planned in
  let* replayed := plan ctx (ExecutionContext.repository_id context) (ExecutionContext.platform_id context)
    (ExecutionContext.blueprint_version context) (ExecutionContext.knowledge_pack_version context) in
  if negb (bool_decide (ExecutionPlan.execution_id replayed = execution_id)) ||
     negb (dict_eqb (ExecutionPlan.artifact_hashes replayed) (ExecutionPlan.artifact_hashes planned))
  then raise ValueError "repository execution replay diverged"
  else
  do* _event "factory.execution.replayed" planned [("plan_digest", VStr (ExecutionPlan.digest replayed))];
  ret replayed.

Definition rollback (ctx : TenantContext) (execution_id : string) : M world doc :=
  let* plan := get ctx execution_id in
  do* on_sys (ApprovalGate.require execution_id (TenantContext.tenant_id ctx) (ExecutionPlan.digest plan));
  let* removed := on_disk (ArtifactWriter.rollback output_root (_destination plan) (ExecutionPlan.rollback_plan plan)) in
  let value := [("tenant_id", VStr (TenantContext.tenant_id ctx)); ("execution_id", VStr execution_id); ("status", VStr "rolled_back");
    ("removed", strs removed)] in
  do* on_sys (store_put "factory_execution_rollbacks" execution_id value);
  do* _event "factory.execution.rolled_back" plan value;
  ret value.

Definition events (ctx : TenantContext) (execution_id : string) : M world (list doc) :=
  do* get ctx execution_id;
  let* log := on_sys (gets EventStore.events) in
  ret (Event.as_dict <$> EventStore.replay (Some execution_id) log).

Definition artifacts (ctx : TenantContext) (execution_id : string) : M world (list doc) :=
  do* get ctx execution_id;
  let* items := on_sys (store_list_tenant "factory_execution_artifacts" (TenantContext.tenant_id ctx)) in
  ret (List.filter (fun item => is_str (dget item "execution_id") execution_id) items).
End Engine.
End RepositoryExecutionEngine.
