(* ===== verification/ExecutionTrust.v ===== *)
(** What the execution of a plan keeps: the files that are written are those of the
    stored plan, and the plan is the one its approval names. *)

From stdpp Require Import base option list strings gmap pretty sets.
From Stdlib Require Import ZArith Lia Ascii Sorted.
From S2P Require Import Prelude PyVal Json JsonText PyTime Store EventStore Documents Tenancy Repositories Artifacts ArtifactTrust Materializer RepositoryExecution.

Local Open Scope Z_scope.

(** * Plans are read back *)

Lemma key_le_total {A} (p q : string * A) : key_le p q = true ∨ key_le q p = true.
Proof. apply str_le_total. Qed.

Lemma sorted_keys_idem {A} (d : dict A) : py_sorted key_le (py_sorted key_le d) = py_sorted key_le d.
Proof. apply py_sorted_id, py_sorted_Sorted, key_le_total. Qed.

Lemma strs_of_doc d : strs_of (str_doc d) = d.
Proof. unfold strs_of, str_doc. rewrite map_map. induction d as [|[k v] d IH]; [done|]. cbn. by f_equal. Qed.

(** The plan as it is stored: its dicts are in the order of their keys. *)
Definition settled (p : ExecutionPlan) : ExecutionPlan :=
  ExecutionPlan.Mk (ExecutionPlan.execution_id p) (ExecutionPlan.context p) (ExecutionPlan.steps p)
    (py_sorted key_le (ExecutionPlan.artifact_contents p)) (py_sorted key_le (ExecutionPlan.artifact_hashes p))
    (py_sorted key_le (ExecutionPlan.quality_gates p)) (ExecutionPlan.rollback_plan p)
    (py_sorted key_le (ExecutionPlan.marketplace_metadata p)) (ExecutionPlan.status p).

Lemma settled_dict p : ExecutionPlan.as_dict true (settled p) = ExecutionPlan.as_dict true p.
Proof. unfold ExecutionPlan.as_dict. cbn. by rewrite !sorted_keys_idem. Qed.

Lemma settled_digest `{Oracle} p : ExecutionPlan.digest (settled p) = ExecutionPlan.digest p.
Proof. unfold ExecutionPlan.digest. by rewrite settled_dict. Qed.

Lemma context_back c : ExecutionContext.of_kwargs (ExecutionContext.as_dict c) = Ok c.
Proof. by destruct c. Qed.

Lemma steps_back l : res_map ExecutionStep.from_item (map (fun s => VDict (ExecutionStep.as_dict s)) l) = Ok l.
Proof. induction l as [|s l IH]; [done|]. cbn [map res_map]. rewrite IH. by destruct s. Qed.

Lemma gates_back (d : dict bool) : map (fun p => (p.1, truthy p.2)) (ExecutionPlan.gate_doc d) = d.
Proof. unfold ExecutionPlan.gate_doc. rewrite map_map. induction d as [|[k v] d IH]; [done|]. cbn. by f_equal. Qed.

Lemma plan_back p : ExecutionPlan._plan_from_dict (ExecutionPlan.as_dict true p) = Ok (settled p).
Proof.
  unfold ExecutionPlan._plan_from_dict.
  change (dindex _ "context") with (Ok (VDict (ExecutionContext.as_dict (ExecutionPlan.context p)))). cbn [res_bind py_dict].
  rewrite context_back. cbn [res_bind]. change (str_field _ "execution_id") with (Ok (ExecutionPlan.execution_id p)). cbn [res_bind].
  change (dindex _ "steps") with (Ok (VList (map (fun s => VDict (ExecutionStep.as_dict s)) (ExecutionPlan.steps p)))). cbn [res_bind py_iter].
  rewrite steps_back. cbn [res_bind].
  change (dindex _ "artifact_contents") with (Ok (VDict (str_doc (py_sorted key_le (ExecutionPlan.artifact_contents p))))).
  change (dindex _ "artifact_hashes") with (Ok (VDict (str_doc (py_sorted key_le (ExecutionPlan.artifact_hashes p))))).
  change (dindex _ "quality_gates") with (Ok (VDict (ExecutionPlan.gate_doc (py_sorted key_le (ExecutionPlan.quality_gates p))))).
  change (dindex _ "rollback_plan") with (Ok (strs (ExecutionPlan.rollback_plan p))).
  change (dindex _ "marketplace_metadata") with (Ok (VDict (py_sorted key_le (ExecutionPlan.marketplace_metadata p)))).
  change (str_field_or _ "status" _) with (ExecutionPlan.status p). cbn [res_bind py_dict py_iter strs]. rewrite !strs_of_doc, gates_back.
  change (VStr <$> ?l) with (map VStr l). by rewrite map_py_str_VStr.
Qed.

(** * Calls of the engine *)

Section Calls.
Context `{Oracle} {S : Type} `{PersistenceStore S, !StoreLaws S}.
Context (output_root platform_root : path) (tenant_subdirectories : bool).
Import RepositoryExecutionEngine.
Abbreviation world := (sys S * tree)%type.

Abbreviation execute := (execute output_root tenant_subdirectories).

(** The documents of [w'] but for the events are those of [w]. *)
Definition same_docs (w w' : world) : Prop := ∀ c k, c ≠ "events" → st_get c k (db w'.1) = st_get c k (db w.1).

Lemma same_docs_trans w w1 w2 : same_docs w w1 → same_docs w1 w2 → same_docs w w2.
Proof. intros H1 H2 c k Hc. by rewrite H2, H1. Qed.

Lemma event_eq (ty : string) (plan : ExecutionPlan) (payload : doc) (w : world) :
  bool_decide (ty ∈ EVENT_TYPE_REGISTRY) = true →
  ∃ s', _event ty plan payload w = (Ok tt, (s', w.2)) ∧ same_docs w (s', w.2).
Proof.
  intros Hty. unfold _event, bind, on_sys, zoom.
  lazymatch goal with |- context [EventStore.append ty ?id ?body w.1] =>
    destruct (append_ok ty id body w.1 Hty) as (e & s' & -> & _ & _ & _ & _ & Hdb) end. by exists s'.
Qed.

Lemma events_eq (ty : string) (plan : ExecutionPlan) (l : list ExecutionStep) : bool_decide (ty ∈ EVENT_TYPE_REGISTRY) = true → ∀ w : world,
  ∃ s', for_each l (fun step => _event ty plan (ExecutionStep.as_dict step)) w = (Ok tt, (s', w.2)) ∧ same_docs w (s', w.2).
Proof.
  intros Hty. induction l as [|step l IH]; intros w; [exists w.1; by destruct w|].
  cbn [for_each]. unfold bind. destruct (event_eq ty plan (ExecutionStep.as_dict step) w Hty) as (s1 & -> & H1).
  destruct (IH (s1, w.2)) as (s2 & E & H2). cbn [snd] in E, H2. exists s2. split; [exact E|]. by eapply same_docs_trans.
Qed.

(** The execution reads the plan and its approval without changing anything. *)
Lemma get_run (ctx : TenantContext) (id : string) (w : world) :
  ∃ out, get ctx id w = (out, w) ∧
    ∀ plan, out = Ok plan → ∃ d, st_get "factory_execution_plans" id (db w.1) = Some d ∧
      is_str (dget d "tenant_id") (TenantContext.tenant_id ctx) = true ∧ ExecutionPlan._plan_from_dict d = Ok plan.
Proof.
  destruct w as [s t]. unfold get, bind, on_sys, zoom, store_get, gets. cbn [fst snd].
  destruct (st_get "factory_execution_plans" id (db s)) as [d|]; [|by eexists].
  destruct (is_str (dget d "tenant_id") (TenantContext.tenant_id ctx)) eqn:Ht; [|by eexists]. cbn [negb].
  eexists. split; [reflexivity|]. intros plan Hp. by exists d.
Qed.

Lemma require_run (id tenant_id digest : string) (w : world) :
  ∃ out, on_sys (ApprovalGate.require id tenant_id digest) w = (out, w) ∧
    ∀ a, out = Ok a → ∃ d, st_get "factory_execution_approvals" id (db w.1) = Some d ∧
      is_str (dget d "tenant_id") tenant_id = true ∧ is_str (dget d "plan_digest") digest = true.
Proof.
  destruct w as [s t]. unfold on_sys, zoom, ApprovalGate.require, bind, store_get, gets. cbn [fst snd].
  destruct (st_get "factory_execution_approvals" id (db s)) as [d|]; [|by eexists].
  destruct (is_str (dget d "tenant_id") tenant_id) eqn:Ht; [|by eexists].
  destruct (is_str (dget d "plan_digest") digest) eqn:Hd; [|by eexists]. cbn [negb orb]. eexists. split; [reflexivity|]. intros a Ha. by exists d.
Qed.

Lemma record_run (ctx : TenantContext) (id : string) (hashes : dict string) : ∀ w : world,
  ∃ s', record_artifacts ctx id hashes w = (Ok tt, (s', w.2)) ∧
    ∀ c k, c ≠ "factory_execution_artifacts" → st_get c k (db s') = st_get c k (db w.1).
Proof.
  induction hashes as [|[path hash] hashes IH]; intros w; [exists w.1; by destruct w|].
  unfold record_artifacts. cbn [for_each]. unfold bind, on_sys at 1, zoom, store_put, modify. cbn [fst snd].
  lazymatch goal with |- context [(with_db ?f w.1, w.2)] => destruct (IH (with_db f w.1, w.2)) as (s' & E & Hs') end.
  cbn [fst snd] in E, Hs'. exists s'. split; [exact E|]. intros c k Hc. rewrite Hs' by done. cbn. apply get_put_ne. congruence.
Qed.

(** What is written down of an execution that wrote its files *)
Definition record_result (ctx : TenantContext) (id : string) (plan : ExecutionPlan) (result : ExecutionResult) : M world ExecutionResult :=
  let metadata := ExecutionPlan.marketplace_metadata plan in
  do* on_sys (store_put "factory_execution_results" id (ExecutionResult.as_dict result));
  do* on_sys (store_put "factory_execution_marketplace_metadata" id
    (dupdate [("tenant_id", VStr (TenantContext.tenant_id ctx)); ("execution_id", VStr id)] metadata));
  do* record_artifacts ctx id (ExecutionResult.artifact_hashes result);
  do* _event "factory.execution.completed" plan (ExecutionResult.as_dict result);
  ret result.

Lemma record_result_run (ctx : TenantContext) (id : string) (plan : ExecutionPlan) (result : ExecutionResult) (w : world) :
  ∃ s', record_result ctx id plan result w = (Ok result, (s', w.2)) ∧
    st_get "factory_execution_results" id (db s') = Some (ExecutionResult.as_dict result).
Proof.
  unfold record_result. cbv zeta. unfold bind at 1 2, on_sys at 1 2, zoom, store_put, modify. cbn [fst snd].
  lazymatch goal with |- context [bind (record_artifacts ctx id ?h) _ (?s, w.2)] =>
    destruct (record_run ctx id h (s, w.2)) as (s1 & E1 & H1) end.
  unfold bind at 1. rewrite E1. cbn [fst snd] in *.
  destruct (event_eq "factory.execution.completed" plan (ExecutionResult.as_dict result) (s1, w.2) ltac:(done)) as (s2 & E2 & H2).
  unfold bind. rewrite E2. exists s2. split; [done|]. rewrite (H2 _ _) by done. cbn [fst]. rewrite H1 by done. cbn.
  rewrite get_put_ne by done. apply get_put_eq.
Qed.

Lemma execute_eq (ctx : TenantContext) (id : string) :
  execute ctx id =
  (let* plan := get ctx id in
   let* existing := on_sys (store_get "factory_execution_results" id) in
   if is_completed existing then of_res (ExecutionResult._result_from_dict (default [] existing))
   else
   let* approval := on_sys (ApprovalGate.require id (TenantContext.tenant_id ctx) (ExecutionPlan.digest plan)) in
   do* for_each (ExecutionPlan.steps plan) (fun step => _event "factory.execution.step.started" plan (ExecutionStep.as_dict step));
   let* hashes := try_except (write_artifacts output_root tenant_subdirectories plan) (fun exc =>
     do* _event "factory.execution.step.failed" plan [("reason", VStr (exn_msg exc))]; (fun w => (Err exc, w))) in
   do* for_each (ExecutionPlan.steps plan) (fun step => _event "factory.execution.step.completed" plan (ExecutionStep.as_dict step));
   record_result ctx id plan (ExecutionResult.Mk id (TenantContext.tenant_id ctx) "completed" hashes (ApprovalRecord.as_dict approval)
    (ExecutionPlan.rollback_plan plan) (ExecutionPlan.marketplace_metadata plan))).
Proof. reflexivity. Qed.

(** The stored plan of the tenant *)
Definition planned (ctx : TenantContext) (id : string) (w : world) (plan : ExecutionPlan) : Prop :=
  ∃ d, st_get "factory_execution_plans" id (db w.1) = Some d ∧ is_str (dget d "tenant_id") (TenantContext.tenant_id ctx) = true ∧
    ExecutionPlan._plan_from_dict d = Ok plan.

(** An approval of the tenant that names this plan *)
Definition approved (ctx : TenantContext) (id : string) (w : world) (plan : ExecutionPlan) : Prop :=
  ∃ d, st_get "factory_execution_approvals" id (db w.1) = Some d ∧ is_str (dget d "tenant_id") (TenantContext.tenant_id ctx) = true ∧
    is_str (dget d "plan_digest") (ExecutionPlan.digest plan) = true.

Definition destination (plan : ExecutionPlan) : path := output_root ++ parts (_destination tenant_subdirectories plan).

(** The files of the plan are in place, and the others are those there were. *)
Definition in_place (plan : ExecutionPlan) (t t' : tree) : Prop :=
  let d := destination plan in
  safe (_destination tenant_subdirectories plan) ∧ confined d t t' ∧
  (∀ file, file ∈ ExecutionPlan.artifact_contents plan → safe file.1 ∧
     ∃ s, file_at t' (d ++ parts file.1) = Some s ∧ (s = file.2 ∨ newlines s = file.2)) ∧
  ∀ q, (∀ file, file ∈ ExecutionPlan.artifact_contents plan → q ≠ d ++ parts file.1) → file_at t' q = file_at t q.

Definition digests (plan : ExecutionPlan) : dict string :=
  map (fun file => (file.1, sha256_hex file.2)) (py_sorted key_le (ExecutionPlan.artifact_contents plan)).

Definition mismatch : exn := Exn ValueError "written artifact hashes do not match approved plan".

Hypothesis root_plain : ".." ∉ output_root.

Lemma write_artifacts_run (plan : ExecutionPlan) (w : world) :
  tree_ok w.2 →
  ∃ out t', write_artifacts output_root tenant_subdirectories plan w = (out, (w.1, t')) ∧
    tree_ok t' ∧ (∀ q n, w.2 !! q = Some n → t' !! q = Some n) ∧
    match out with
    | Ok hashes => hashes = digests plan ∧ dict_eqb hashes (ExecutionPlan.artifact_hashes plan) = true ∧ in_place plan w.2 t'
    | Err e => (∀ q, file_at t' q = file_at w.2 q) ∨ e = mismatch
    end.
Proof.
  intros Ht. unfold write_artifacts, bind, on_disk, zoom.
  pose proof (artifacts_all_or_none output_root root_plain (_destination tenant_subdirectories plan) (ExecutionPlan.artifact_contents plan) w.2 Ht) as Hw.
  cbv zeta in Hw. destruct (ArtifactWriter.write _ _ _ _) as [[hashes|e] t']; destruct Hw as (Hok & Hc & Hk & Hr).
  - destruct Hr as (Hs & -> & Hin & Hother). fold (digests plan).
    destruct (dict_eqb (digests plan) (ExecutionPlan.artifact_hashes plan)) eqn:E; cbn [negb].
    + eexists _, t'. split; [reflexivity|]. by split_and!.
    + eexists _, t'. split; [reflexivity|]. split_and!; [done..|by right].
  - eexists _, t'. split; [reflexivity|]. split_and!; [done..|by left].
Qed.

(** What follows the approval *)
Lemma approved_run ctx id (plan : ExecutionPlan) (approval : doc) (w : world) :
  tree_ok w.2 →
  ∃ out s' t', (do* for_each (ExecutionPlan.steps plan) (fun step => _event "factory.execution.step.started" plan (ExecutionStep.as_dict step));
   let* hashes := try_except (write_artifacts output_root tenant_subdirectories plan) (fun exc =>
     do* _event "factory.execution.step.failed" plan [("reason", VStr (exn_msg exc))]; (fun w => (Err exc, w))) in
   do* for_each (ExecutionPlan.steps plan) (fun step => _event "factory.execution.step.completed" plan (ExecutionStep.as_dict step));
   record_result ctx id plan (ExecutionResult.Mk id (TenantContext.tenant_id ctx) "completed" hashes approval
    (ExecutionPlan.rollback_plan plan) (ExecutionPlan.marketplace_metadata plan))) w = (out, (s', t')) ∧
    tree_ok t' ∧ (∀ q n, w.2 !! q = Some n → t' !! q = Some n) ∧
    match out with
    | Ok result => in_place plan w.2 t' ∧ ExecutionResult.artifact_hashes result = digests plan ∧
        dict_eqb (digests plan) (ExecutionPlan.artifact_hashes plan) = true ∧
        st_get "factory_execution_results" id (db s') = Some (ExecutionResult.as_dict result)
    | Err e => same_docs w (s', t') ∧ ((∀ q, file_at t' q = file_at w.2 q) ∨ e = mismatch)
    end.
Proof.
  intros Ht. unfold bind at 1.
  destruct (events_eq "factory.execution.step.started" plan (ExecutionPlan.steps plan) ltac:(done) w) as (s1 & -> & H1).
  unfold bind at 1, try_except. destruct (write_artifacts_run plan (s1, w.2) Ht) as (out & t' & -> & Hok & Hk & Hr). cbn [fst snd] in *.
  destruct out as [hashes|e].
  - destruct Hr as (-> & Heq & Hin). unfold bind at 1.
    destruct (events_eq "factory.execution.step.completed" plan (ExecutionPlan.steps plan) ltac:(done) (s1, t')) as (s2 & -> & H2). cbn [snd].
    lazymatch goal with |- context [record_result ctx id plan ?r (s2, t')] =>
      destruct (record_result_run ctx id plan r (s2, t')) as (s3 & -> & H3) end.
    eexists _, s3, t'. split; [reflexivity|]. by split_and!.
  - unfold bind. destruct (event_eq "factory.execution.step.failed" plan [("reason", VStr (exn_msg e))] (s1, t') ltac:(done)) as (s2 & -> & H2).
    eexists _, s2, t'. split; [reflexivity|]. split_and!; [done|done| |done]. intros c k Hc. etrans; [by apply H2|by apply H1].
Qed.

(** C24: files are written only for the stored plan of the tenant, and only when an
    approval of the tenant names the digest of that very plan. An execution that
    returns either finds the plan recorded as completed, and then changes nothing
    (a rollback since then may have removed the files: [rolled_back_stays_completed]),
    or has every file of the plan in place below the destination and no other file
    changed, reports the digests of the plan and is recorded as completed. One that raises
    is not recorded, and leaves the files as they were unless their digests are
    not those the plan names. Nothing that was there is changed in any case. *)
Theorem execution_runs_approved ctx id (w : world) :
  tree_ok w.2 →
  ∃ out w', execute ctx id w = (out, w') ∧ tree_ok w'.2 ∧ (∀ q n, w.2 !! q = Some n → w'.2 !! q = Some n) ∧
  match out with
  | Ok result => ∃ plan, planned ctx id w plan ∧
      (is_completed (st_get "factory_execution_results" id (db w.1)) = true ∧ w' = w ∨
       approved ctx id w plan ∧ in_place plan w.2 w'.2 ∧ ExecutionResult.artifact_hashes result = digests plan ∧
       dict_eqb (digests plan) (ExecutionPlan.artifact_hashes plan) = true ∧
       st_get "factory_execution_results" id (db w'.1) = Some (ExecutionResult.as_dict result))
  | Err e => same_docs w w' ∧ ((∀ q, file_at w'.2 q = file_at w.2 q) ∨ e = mismatch ∧ ∃ plan, planned ctx id w plan ∧ approved ctx id w plan)
  end.
Proof.
  intros Ht. rewrite execute_eq. unfold bind at 1. destruct (get_run ctx id w) as (out & -> & Hplan).
  destruct out as [plan|e]; [|eexists _, w; split; [reflexivity|]; split_and!; [done..|by left]].
  specialize (Hplan plan eq_refl). unfold bind at 1, on_sys at 1, zoom, store_get, gets. cbn [fst snd].
  replace (w.1, w.2) with w by by destruct w.
  destruct (is_completed _) eqn:Hdone.
  - unfold of_res. eexists _, w. split; [reflexivity|]. split_and!; [done..|].
    destruct (ExecutionResult._result_from_dict _); [exists plan; split; [done|by left]|split; [done|by left]].
  - unfold bind at 1. destruct (require_run id (TenantContext.tenant_id ctx) (ExecutionPlan.digest plan) w) as (out & -> & Happ).
    destruct out as [approval|e]; [|eexists _, w; split; [reflexivity|]; split_and!; [done..|by left]].
    specialize (Happ approval eq_refl).
    destruct (approved_run ctx id plan (ApprovalRecord.as_dict approval) w Ht) as (out & s' & t' & E & Hok & Hk & Hr).
    exists out, (s', t'). split; [exact E|]. split_and!; [done..|]. destruct out as [result|e].
    + destruct Hr as (Hin & Hh & Heq & Hst). exists plan. split; [done|]. right. by split_and!.
    + destruct Hr as (Hs & Hf). split; [done|]. destruct Hf as [Hf| ->]; [by left|right]. split; [done|]. by exists plan.
Qed.
End Calls.

(** * An execution *)

(** A process whose digests are short: the lengths of the texts *)
Definition short_oracle : Oracle := {|
  clock n := ymd2day 2024 1 1 * day_us + (Z.of_nat n * second_us) `mod` day_us;
  perf n := Z.of_nat n;
  uuid_hex n := pretty (Z.of_nat n);
  sha256_hex s := pretty (String.length s);
|}.

#[local] Existing Instance short_oracle.

Definition demo_world : Type := sys Memory.store * tree.
Definition demo_root : path := ["out"].
Definition demo_platform : path := ["platform"].

Definition demo_description : string :=
  json_dumps (VDict [("type", VStr "service"); ("apis", strs ["/estimates"]); ("events", strs ["estimate.created"]);
    ("rbac_scopes", strs ["estimates:read"]); ("metrics", strs ["estimate_latency"]); ("tests", strs ["unit"]);
    ("deployment_requirements", strs ["container"])]).

Definition demo_tree : tree := <[["platform"; "reno_estimator.json"] := File demo_description]> (make_directories ["platform"] ∅).

Definition demo_start : demo_world := (Sys ∅ [] true 0, demo_tree).

Definition demo_user (principal : string) : TenantContext := TenantContext.Mk "acme" "org" principal [] false.

Definition demo_plan (principal : string) : M demo_world ExecutionPlan :=
  RepositoryExecutionEngine.plan demo_platform (demo_user principal) "reno_estimator" "RenovationOS" "1.0.0" "1.0.0".

Definition demo_id : string := match (demo_plan "ada" demo_start).1 with Ok p => ExecutionPlan.execution_id p | Err _ => "" end.

Definition demo_execute (principal : string) : M demo_world ExecutionResult :=
  RepositoryExecutionEngine.execute demo_root true (demo_user principal) demo_id.

(** Planned and approved *)
Definition demo_approved : demo_world :=
  after (do* demo_plan "ada"; RepositoryExecutionEngine.approve (demo_user "ada") demo_id) demo_start.

Definition demo_readme : path := ["out"; "acme"; "reno_estimator"; "README.md"].

Example demo_executed :
  is_ok (demo_execute "ada" demo_approved).1 = true ∧ is_file demo_readme (after (demo_execute "ada") demo_approved).2 = true ∧
  is_file demo_readme demo_approved.2 = false.
Proof. split_and!; vm_compute; reflexivity. Qed.

Lemma demo_approved_tree : tree_ok demo_approved.2.
Proof. apply tree_okb_ok. vm_compute. reflexivity. Qed.

Lemma demo_root_plain : ".." ∉ demo_root.
Proof. apply (bool_decide_unpack _). vm_compute. exact I. Qed.

Lemma execution_runs_approved_witness :
  tree_ok demo_approved.2 ∧ ∃ out w', demo_execute "ada" demo_approved = (out, w') ∧ tree_ok w'.2.
Proof.
  split; [exact demo_approved_tree|].
  destruct (execution_runs_approved demo_root true demo_root_plain (demo_user "ada") demo_id demo_approved demo_approved_tree)
    as (out & w' & He & Ht & _).
  exists out, w'. split; [exact He|exact Ht].
Defined.

(** Without an approval nothing is written. *)
Example demo_unapproved :
  (demo_execute "ada" (after (demo_plan "ada") demo_start)).1 =
  Err (Exn AuthorizationError "repository execution approval is required").
Proof. vm_compute. reflexivity. Qed.

Definition demo_rollback : M demo_world doc := RepositoryExecutionEngine.rollback demo_root true (demo_user "ada") demo_id.

(** After a rollback the execution still counts as completed: executing it again
    reports the files and writes none of them. *)
Example rolled_back_stays_completed :
  let w := after (do* demo_execute "ada"; demo_rollback) demo_approved in
  is_ok (demo_execute "ada" w).1 = true ∧ is_file demo_readme (after (demo_execute "ada") w).2 = false.
Proof. split; vm_compute; reflexivity. Qed.

(** A replay by another member of the tenant stores the plan with the other's name,
    so the approval there was no longer names it. *)
Example replay_voids_approval :
  let w := after (RepositoryExecutionEngine.replay demo_platform (demo_user "robert") demo_id) demo_approved in
  (demo_execute "ada" w).1 = Err (Exn AuthorizationError "repository execution approval is invalid").
Proof. vm_compute. reflexivity. Qed.

(** A file that was there before, with the content of the plan, is removed by the
    rollback all the same. *)
Example rollback_takes_what_was_there :
  let text := match (demo_plan "ada" demo_start).1 with
              | Ok p => default "" (dget (ExecutionPlan.artifact_contents p) "README.md") | Err _ => "" end in
  let t := <[demo_readme := File text]> (make_directories (removelast demo_readme) demo_approved.2) in
  let w := after (do* demo_execute "ada"; demo_rollback) (demo_approved.1, t) in
  is_file demo_readme t = true ∧ is_file demo_readme w.2 = false.
Proof. split; vm_compute; reflexivity. Qed.
