(* ===== verification/DurableMemory.v ===== *)
(** The durable memory of agents (agentfabric/memory): records that belong to an
    agent of a tenant, in memory with an index and in a collection, and the policy
    for how long they stay. *)

From stdpp Require Import base option list strings gmap sets.
From Stdlib Require Import ZArith Lia Sorted.
From S2P Require Import Prelude PyVal Json PyTime Store EventStore Documents ContextStore.

Local Open Scope Z_scope.

(** * memory_record.py *)

Module MemoryRecord.
Record t := Mk {
  owner_agent_id : string;
  tenant_id : string;
  source_workflow_id : option string;
  classification : string;
  content : doc;
  veil_token_refs : list string;
  memory_type : string;
  memory_id : string;
  created_at : Z;
  last_accessed_at : Z;
}.

(** [self.last_accessed_at = now] *)
Definition accessed (now : Z) (r : t) : t :=
  Mk (owner_agent_id r) (tenant_id r) (source_workflow_id r) (classification r) (content r) (veil_token_refs r)
    (memory_type r) (memory_id r) (created_at r) now.

Definition as_dict (r : t) : doc :=
  [("memory_id", VStr (memory_id r)); ("owner_agent_id", VStr (owner_agent_id r)); ("tenant_id", VStr (tenant_id r));
   ("source_workflow_id", opt_str (source_workflow_id r)); ("classification", VStr (classification r));
   ("content", VDict (content r)); ("veil_token_refs", VList (map VStr (veil_token_refs r)));
   ("memory_type", VStr (memory_type r)); ("created_at", VStr (isoformat (created_at r)));
   ("last_accessed_at", VStr (isoformat (last_accessed_at r)))].

Definition from_dict (value : doc) : res t :=
  let? memory_id := str_field value "memory_id" in
  let? owner_agent_id := str_field value "owner_agent_id" in
  let? tenant_id := str_field value "tenant_id" in
  let source_workflow_id := opt_str_field value "source_workflow_id" in
  let? classification := str_field value "classification" in
  let? content := dict_field_or_empty value "content" in
  let? veil_token_refs := strs_field_or value "veil_token_refs" [] in
  let memory_type := str_field_or value "memory_type" "short_term" in
  let? created_at := time_field value "created_at" in
  let? last_accessed_at := time_field value "last_accessed_at" in
  Ok (Mk owner_agent_id tenant_id source_workflow_id classification content veil_token_refs memory_type memory_id
        created_at last_accessed_at).

Section Calls.
Context `{Oracle} {S : Type}.

(** [MemoryRecord(...)] draws the id, then both times. *)
Definition new (owner_agent_id tenant_id : string) (source_workflow_id : option string) (classification : string)
    (content : doc) (veil_token_refs : list string) (memory_type : string) : M (sys S) t :=
  let* id := uuid4 in
  let* created_at := utc_now in
  let* last_accessed_at := utc_now in
  ret (Mk owner_agent_id tenant_id source_workflow_id classification content veil_token_refs memory_type ("mem-" +:+ id)
         created_at last_accessed_at).

Definition touch (r : t) : M (sys S) t := let* now := utc_now in ret (accessed now r).

(** A workflow with an empty id is read back as none. *)
Definition record_ok (r : t) : Prop :=
  source_workflow_id r ≠ Some "" ∧ time_ok (created_at r) ∧ time_ok (last_accessed_at r).

Lemma memory_dec_enc r (s : sys S) : record_ok r → of_res (from_dict (as_dict r)) s = (Ok r, s).
Proof.
  intros (Hw & Hc & Ha). unfold of_res, from_dict.
  rewrite (opt_str_field_eq _ _ (source_workflow_id r)), (time_field_iso _ _ _ Hc), (time_field_iso _ _ _ Ha) by done.
  rewrite (strs_field_or_eq _ _ _ (veil_token_refs r)) by done. by destruct r.
Qed.

End Calls.
End MemoryRecord.

Abbreviation MemoryRecord := MemoryRecord.t.

#[export] Instance memory_document `{Oracle} {S} : Document S MemoryRecord := {
  d_coll := "runtime_memory";
  d_key := MemoryRecord.memory_id;
  d_enc := MemoryRecord.as_dict;
  d_dec d := of_res (MemoryRecord.from_dict d);
  d_ok := MemoryRecord.record_ok;
  d_dec_enc := MemoryRecord.memory_dec_enc;
  d_enc_ne r := ltac:(done);
}.

(** * memory_policy.py *)

Module MemoryPolicy.
Record t := Mk { short_term_ttl_days : Z; long_term_ttl_days : option Z; allow_delete : bool }.

(** [MemoryPolicy()] *)
Definition default : t := Mk 7 None true.

Definition ttl_days (p : t) (r : MemoryRecord) : option Z :=
  if bool_decide (MemoryRecord.memory_type r = "short_term") then Some (short_term_ttl_days p) else long_term_ttl_days p.

(** The end of a record of [n] days. *)
Definition deadline (n : Z) (r : MemoryRecord) : res Z :=
  let? delta := timedelta_seconds (86400 * n) in dt_add (MemoryRecord.created_at r) delta.

Definition can_delete (p : t) (r : MemoryRecord) : bool :=
  allow_delete p && negb (bool_decide (MemoryRecord.classification r = "legal_hold")).

Section Calls.
Context `{Oracle} {S : Type}.

(** The clock is asked when no time is given, before the time to live is. *)
Definition expired (p : t) (r : MemoryRecord) (now : option Z) : M (sys S) bool :=
  let* current := match now with Some t => ret t | None => utc_now end in
  match ttl_days p r with
  | None => ret false
  | Some n => let* e := of_res (deadline n r) in ret (e <=? current)
  end.

End Calls.
End MemoryPolicy.

Abbreviation MemoryPolicy := MemoryPolicy.t.

(** * memory_index.py *)

Module MemoryIndex.

(** Reading a defaultdict enters an empty set for a missing key; nothing lists
    the keys, and a missing set is read as the empty one. *)
Record t := Mk {
  by_agent : gmap string (gset string);
  by_tenant_agent : gmap (string * string) (gset string);
  by_workflow : gmap string (gset string);
}.

Definition empty : t := Mk ∅ ∅ ∅.

Section Sets.
Context {K : Type} `{Countable K}.

Definition members (k : K) (m : gmap K (gset string)) : gset string := default ∅ (m !! k).
Definition set_add (k : K) (x : string) (m : gmap K (gset string)) : gmap K (gset string) :=
  <[k := {[x]} ∪ members k m]> m.
Definition set_discard (k : K) (x : string) (m : gmap K (gset string)) : gmap K (gset string) :=
  <[k := members k m ∖ {[x]}]> m.

Lemma elem_of_set_add k k' x y m : y ∈ members k' (set_add k x m) ↔ (k' = k ∧ y = x) ∨ y ∈ members k' m.
Proof.
  unfold members, set_add. destruct (decide (k' = k)) as [->|Hk].
  - rewrite lookup_insert_eq. set_solver.
  - rewrite lookup_insert_ne by done. naive_solver.
Qed.

Lemma elem_of_set_discard k k' x y m : y ∈ members k' (set_discard k x m) ↔ y ∈ members k' m ∧ ¬ (k' = k ∧ y = x).
Proof.
  unfold members, set_discard. destruct (decide (k' = k)) as [->|Hk].
  - rewrite lookup_insert_eq. set_solver.
  - rewrite lookup_insert_ne by done. naive_solver.
Qed.

End Sets.

Definition agent_key (r : MemoryRecord) : string * string := (MemoryRecord.tenant_id r, MemoryRecord.owner_agent_id r).

(** The index of workflows, when the record has one. *)
Definition on_workflow (f : string → string → gmap string (gset string) → gmap string (gset string))
    (r : MemoryRecord) (m : gmap string (gset string)) : gmap string (gset string) :=
  match MemoryRecord.source_workflow_id r with
  | None | Some "" => m
  | Some w => f w (MemoryRecord.memory_id r) m
  end.

Definition add (r : MemoryRecord) (i : t) : t :=
  Mk (set_add (MemoryRecord.owner_agent_id r) (MemoryRecord.memory_id r) (by_agent i))
     (set_add (agent_key r) (MemoryRecord.memory_id r) (by_tenant_agent i))
     (on_workflow set_add r (by_workflow i)).

Definition remove (r : MemoryRecord) (i : t) : t :=
  Mk (set_discard (MemoryRecord.owner_agent_id r) (MemoryRecord.memory_id r) (by_agent i))
     (set_discard (agent_key r) (MemoryRecord.memory_id r) (by_tenant_agent i))
     (on_workflow set_discard r (by_workflow i)).

End MemoryIndex.

Abbreviation MemoryIndex := MemoryIndex.t.

(** * memory_store.py *)

(** The process, and the store's fields. Callers do not change the records they
    put or are given. *)
Record memory (S : Type) := Memory {
  env : sys S;
  policy : MemoryPolicy;
  index : MemoryIndex;
  records : dict MemoryRecord;
}.
Arguments Memory {S}.
Arguments env {S}.
Arguments policy {S}.
Arguments index {S}.
Arguments records {S}.

(** The code is that of the context store. *)
Definition _reject_raw_sensitive (value : val) : res unit := ContextStore._reject_raw_sensitive value.

Module DurableMemoryStore.
Section Store.
Context `{Oracle} {S : Type} `{PersistenceStore S}.
#[local] Abbreviation R := (M (memory S)).

Definition on_env {A} (m : M (sys S) A) : R A :=
  zoom env (fun e s => Memory e (policy s) (index s) (records s)) m.

(** [self.records[record.memory_id] = record] *)
Definition set_record (r : MemoryRecord) : R unit :=
  modify (fun s => Memory (env s) (policy s) (index s) (dset (records s) (MemoryRecord.memory_id r) r)).

Definition update_index (f : MemoryIndex → MemoryIndex) : R unit :=
  modify (fun s => Memory (env s) (policy s) (f (index s)) (records s)).

(** The loop of [__init__] over the records that were read. *)
Definition load (l : list MemoryRecord) : MemoryIndex * dict MemoryRecord :=
  foldl (fun p r => (MemoryIndex.add r p.1, dset p.2 (MemoryRecord.memory_id r) r)) (MemoryIndex.empty, []) l.

(** [DurableMemoryStore(persistence, policy)]. Reading a record does nothing
    else, so the records are read first and entered after. *)
Definition init (policy : option MemoryPolicy) (e : sys S) : res (memory S) :=
  let '(r, e') := doc_list (A := MemoryRecord) e in
  let? l := r in
  let '(index, records) := load l in
  Ok (Memory e' (default MemoryPolicy.default policy) index records).

Definition put (record : MemoryRecord) : R MemoryRecord :=
  do* of_res (_reject_raw_sensitive (VDict (MemoryRecord.content record)));
  do* set_record record;
  do* update_index (MemoryIndex.add record);
  do* on_env (doc_put record);
  ret record.

Definition create (owner_agent_id tenant_id : string) (content : doc) (classification : string)
    (source_workflow_id : option string) (veil_token_refs : list string) (memory_type : string) : R MemoryRecord :=
  let* record := on_env (MemoryRecord.new owner_agent_id tenant_id source_workflow_id classification content
                           veil_token_refs memory_type) in
  put record.

(** [self.records[memory_id]] *)
Definition record_at (id : string) (l : dict MemoryRecord) : res MemoryRecord :=
  match dget l id with Some r => Ok r | None => Err (Exn KeyError (repr_str id)) end.

(** A pass of the loop that touches the records. *)
Definition access (r : MemoryRecord) : R MemoryRecord :=
  let* r' := on_env (MemoryRecord.touch r) in
  do* set_record r';
  do* on_env (doc_put r');
  ret r'.

Definition list_for_agent (tenant_id owner_agent_id : string) : R (list MemoryRecord) :=
  let* s := get_state in
  let memory_ids := MemoryIndex.members (tenant_id, owner_agent_id) (MemoryIndex.by_tenant_agent (index s)) in
  let* records := of_res (res_map (fun id => record_at id (records s)) (py_sorted_set memory_ids)) in
  for_map records access.

Definition delete (tenant_id owner_agent_id memory_id : string) : R bool :=
  let* s := get_state in
  match dget (records s) memory_id with
  | None => ret false
  | Some record =>
      if negb (bool_decide (MemoryRecord.tenant_id record = tenant_id)) ||
         negb (bool_decide (MemoryRecord.owner_agent_id record = owner_agent_id)) then ret false
      else if negb (MemoryPolicy.can_delete (policy s) record) then raise PermissionError "memory deletion denied by policy"
      else
        do* update_index (MemoryIndex.remove record);
        do* modify (fun s => Memory (env s) (policy s) (index s) (ddel (records s) memory_id));
        on_env (store_delete "runtime_memory" memory_id)
  end.

(** The loop over the records there were at the start. *)
Fixpoint retention_loop (l : list MemoryRecord) (removed : Z) : R Z :=
  match l with
  | [] => ret removed
  | record :: l' =>
      let* p := gets policy in
      let* gone := on_env (MemoryPolicy.expired p record None) in
      if gone && MemoryPolicy.can_delete p record then
        let* deleted := delete (MemoryRecord.tenant_id record) (MemoryRecord.owner_agent_id record)
                          (MemoryRecord.memory_id record) in
        retention_loop l' (if deleted then removed + 1 else removed)
      else retention_loop l' removed
  end.

Definition enforce_retention : R Z :=
  let* s := get_state in retention_loop (records s).*2 0.

End Store.
End DurableMemoryStore.

(** * What the store keeps *)

Module MemoryFacts.
Import DurableMemoryStore.

Section Facts.
Context `{Oracle} {S : Type} `{PersistenceStore S, !StoreLaws S}.
Implicit Types (m : memory S) (r : MemoryRecord).
#[local] Abbreviation id_of := MemoryRecord.memory_id.
#[local] Abbreviation indexed t a m := (MemoryIndex.members (t, a) (MemoryIndex.by_tenant_agent (index m))).

Definition belongs (t a : string) r : Prop := MemoryIndex.agent_key r = (t, a).

#[export] Instance belongs_dec t a r : Decision (belongs t a r).
Proof. unfold belongs. apply _. Defined.

(** A record that can be written and read back, and holds nothing raw. *)
Definition sound r : Prop := MemoryRecord.record_ok r ∧ raw_sensitive (VDict (MemoryRecord.content r)) = false.

(** The records in memory are those of the collection, and the index says whose
    they are. *)
Record agrees m : Prop := Agrees {
  ag_dict : dict_ok (records m);
  ag_record : ∀ id r, dget (records m) id = Some r → id_of r = id ∧ sound r;
  ag_stored : ∀ id, st_get "runtime_memory" id (db (env m)) = MemoryRecord.as_dict <$> dget (records m) id;
  ag_index : ∀ t a id, id ∈ indexed t a m ↔ ∃ r, dget (records m) id = Some r ∧ belongs t a r;
}.

(** A record may be entered under an id that is new or has the same owner. *)
Definition fits (key : string * string) (id : string) m : Prop :=
  ∀ r, dget (records m) id = Some r → MemoryIndex.agent_key r = key.

Lemma agrees_set m r e i :
  agrees m → sound r → fits (MemoryIndex.agent_key r) (id_of r) m →
  (∀ id, st_get "runtime_memory" id (db e) =
     if bool_decide (id_of r = id) then Some (MemoryRecord.as_dict r) else st_get "runtime_memory" id (db (env m))) →
  (∀ t a id, id ∈ MemoryIndex.members (t, a) (MemoryIndex.by_tenant_agent i) ↔
     (belongs t a r ∧ id = id_of r) ∨ id ∈ indexed t a m) →
  agrees (Memory e (policy m) i (dset (records m) (id_of r) r)).
Proof.
  intros [Hd Hr Hs Hi] Hok Hf He Hx. constructor; cbn [records env index].
  - by apply dict_ok_dset.
  - intros id r1. rewrite dget_dset. case_bool_decide as E; [|apply Hr]. by intros [= <-].
  - intros id. rewrite He, dget_dset. by case_bool_decide.
  - intros t a id. rewrite Hx, Hi, dget_dset. case_bool_decide as E; [subst id|naive_solver]. split.
    + intros [[Hb _]|(r0 & Hg & Hb)]; exists r; [done|]. split; [done|].
      unfold belongs in *. by rewrite <- (Hf r0 Hg).
    + intros (r1 & [= <-] & Hb). by left.
Qed.

(** Entering a record that is sound. *)
Definition entered r m : memory S :=
  Memory (with_db (st_put "runtime_memory" (id_of r) (MemoryRecord.as_dict r)) (env m)) (policy m)
    (MemoryIndex.add r (index m)) (dset (records m) (id_of r) r).

Lemma memory_put_eq r m :
  put r m = match _reject_raw_sensitive (VDict (MemoryRecord.content r)) with
            | Ok _ => (Ok r, entered r m)
            | Err e => (Err e, m)
            end.
Proof. unfold put, bind, of_res. by destruct (_reject_raw_sensitive _). Qed.

Lemma get_put_memory (k : string) d (x : S) id :
  st_get "runtime_memory" id (st_put "runtime_memory" k d x) = if bool_decide (k = id) then Some d else st_get "runtime_memory" id x.
Proof. case_bool_decide as E; [subst; apply get_put_eq|]. apply get_put_ne. congruence. Qed.

Lemma agrees_put r m :
  agrees m → MemoryRecord.record_ok r → fits (MemoryIndex.agent_key r) (id_of r) m → agrees (after (put r) m).
Proof.
  intros Ha Hok Hf. unfold after. rewrite memory_put_eq. unfold _reject_raw_sensitive, ContextStore._reject_raw_sensitive.
  destruct (raw_sensitive _) eqn:Hraw; [done|]. apply agrees_set; [done|by split|done|..].
  - intros id. apply get_put_memory.
  - intros t a id. cbn [MemoryIndex.add MemoryIndex.by_tenant_agent]. rewrite MemoryIndex.elem_of_set_add. unfold belongs. naive_solver.
Qed.

(** Asking the clock or for an id changes no record. *)
Definition asked (n : nat) m : memory S :=
  Memory (Sys (db (env m)) (events (env m)) (durable (env m)) (n + tick (env m))) (policy m) (index m) (records m).

Lemma agrees_asked n m : agrees m → agrees (asked n m).
Proof. by intros []. Qed.

Lemma memory_create_eq a t content c w refs ty m :
  create a t content c w refs ty m =
    put (MemoryRecord.Mk a t w c content refs ty ("mem-" +:+ uuid_hex (tick (env m)))
           (clock (Datatypes.S (tick (env m)))) (clock (2 + tick (env m)))) (asked 3 m).
Proof. done. Qed.

(** ** Listings *)

Lemma access_eq r m :
  access r m = let r' := MemoryRecord.accessed (clock (tick (env m))) r in
    (Ok r', Memory (with_db (st_put "runtime_memory" (id_of r) (MemoryRecord.as_dict r')) (env (asked 1 m))) (policy m) (index m)
              (dset (records m) (id_of r) r')).
Proof. done. Qed.

Hypothesis clock_ok : ∀ n, time_ok (clock n).

Lemma sound_accessed n r : sound r → sound (MemoryRecord.accessed (clock n) r).
Proof. intros [(Hw & Hc & _) Hraw]. by split; [split_and!; [..|apply clock_ok]|]. Qed.

Lemma agrees_access r m : agrees m → dget (records m) (id_of r) = Some r → agrees (after (access r) m).
Proof.
  intros Ha Hg. unfold after. rewrite access_eq. cbn zeta. cbn [snd].
  set (r' := MemoryRecord.accessed _ r). change (id_of r) with (id_of r').
  apply (agrees_set m r' _ (index m)); [done|..].
  - apply sound_accessed, (proj2 (ag_record _ Ha _ _ Hg)).
  - intros r0 E. cbn in E. by simplify_eq.
  - intros id. apply get_put_memory.
  - intros t a id. split; [by right|]. intros [[Hb ->]|?]; [|done]. apply (ag_index _ Ha). by exists r.
Qed.

(** The records of a listing, touched one after the other. *)
Lemma access_all l : ∀ m,
  agrees m → NoDup (id_of <$> l) → (∀ r, r ∈ l → dget (records m) (id_of r) = Some r) →
  ∃ l' m', for_map l access m = (Ok l', m') ∧ agrees m' ∧ id_of <$> l' = id_of <$> l ∧
    Forall2 (fun r r' => ∃ n, r' = MemoryRecord.accessed (clock n) r ∧ dget (records m') (id_of r') = Some r') l l' ∧
    (∀ id, id ∉ id_of <$> l → dget (records m') id = dget (records m) id).
Proof.
  induction l as [|r l IH]; intros m Ha Hnd Hin.
  { exists [], m. by split_and!. }
  apply NoDup_cons in Hnd as [Hr Hnd].
  pose proof (agrees_access r m Ha (Hin r (list_elem_of_here _ _))) as Ha1. unfold after in Ha1.
  rewrite access_eq in Ha1. cbn zeta in Ha1. cbn [snd] in Ha1.
  destruct (IH _ Ha1 Hnd) as (l' & m' & E & Ha' & Hid & Hf & Hfr).
  { intros r1 Hr1. cbn [records]. rewrite dget_dset_ne by (intros E1; apply Hr; rewrite E1; by apply list_elem_of_fmap_2).
    apply Hin. by right. }
  exists (MemoryRecord.accessed (clock (tick (env m))) r :: l'), m'. split_and!; [|done|csimpl; by rewrite Hid| |].
  - cbn [for_map]. unfold bind at 1. rewrite access_eq. cbn zeta. unfold bind. by rewrite E.
  - constructor; [|done]. eexists. split; [done|]. rewrite Hfr by done. cbn. apply dget_dset_eq.
  - intros id [Hne Hni]%not_elem_of_cons. rewrite Hfr by done. cbn. by apply dget_dset_ne.
Qed.

(** The ids of the records of an agent. *)
Definition owned (t a : string) m : gset string := list_to_set (id_of <$> base.filter (belongs t a) (records m).*2).

Lemma elem_of_owned t a m id :
  agrees m → id ∈ owned t a m ↔ ∃ r, dget (records m) id = Some r ∧ belongs t a r.
Proof.
  intros Ha. unfold owned. rewrite elem_of_list_to_set, list_elem_of_fmap. split.
  - intros (r & -> & [Hb ([k r1] & -> & Hin)%list_elem_of_fmap]%list_elem_of_filter). cbn [snd] in *.
    apply elem_dget in Hin; [|apply Ha]. destruct (ag_record _ Ha _ _ Hin) as [-> _]. eauto.
  - intros (r & Hg & Hb). exists r. split; [by destruct (ag_record _ Ha _ _ Hg) as [-> _]|].
    apply list_elem_of_filter. split; [done|]. apply list_elem_of_fmap. exists (id, r). split; [done|]. by apply dget_Some_elem.
Qed.

Lemma indexed_owned t a m : agrees m → indexed t a m = owned t a m.
Proof. intros Ha. apply set_eq. intros id. by rewrite (ag_index _ Ha), elem_of_owned. Qed.

(** The lookups of keys that are there give their records. *)
Lemma records_at m ids :
  agrees m → (∀ id, id ∈ ids → is_Some (dget (records m) id)) →
  ∃ l, res_map (fun id => record_at id (records m)) ids = Ok l ∧ id_of <$> l = ids ∧
       ∀ r, r ∈ l → dget (records m) (id_of r) = Some r.
Proof.
  intros Ha. induction ids as [|id ids IH]; intros Hin; [exists []; split_and!; [done..|set_solver]|].
  destruct IH as (l & El & Hid & Hl); [intros; apply Hin; by right|].
  destruct (Hin id) as [r Hr]; [by left|]. destruct (ag_record _ Ha _ _ Hr) as [Er _].
  exists (r :: l). split_and!.
  - cbn [res_map]. unfold record_at at 1. rewrite Hr. cbn. by rewrite El.
  - csimpl. by rewrite Er, Hid.
  - intros r1 [->|Hr1]%elem_of_cons; [by rewrite Er|auto].
Qed.

Lemma list_for_agent_eq t a m :
  agrees m →
  ∃ l m', list_for_agent t a m = (Ok l, m') ∧ agrees m' ∧ id_of <$> l = py_sorted_set (owned t a m) ∧
    Forall (fun r' => ∃ r n, dget (records m) (id_of r') = Some r ∧ belongs t a r ∧
                        r' = MemoryRecord.accessed (clock n) r ∧ dget (records m') (id_of r') = Some r') l.
Proof.
  intros Ha. set (ids := py_sorted_set (indexed t a m)).
  assert (Hids : ∀ id, id ∈ ids → ∃ r, dget (records m) id = Some r ∧ belongs t a r).
  { intros id. unfold ids. by rewrite elem_of_sorted_set, (ag_index _ Ha). }
  destruct (records_at m ids Ha) as (l & El & Hid & Hl).
  { intros id (r & Hr & _)%Hids. eauto. }
  assert (Hnd : NoDup ids) by (unfold ids, py_sorted_set; rewrite py_sorted_perm; apply NoDup_elements).
  destruct (access_all l m Ha) as (l' & m' & E & Ha' & Hid' & Hf & _); [by rewrite Hid|done|].
  exists l', m'. split_and!; [|done| |].
  - unfold list_for_agent, bind at 1. cbn [get_state]. unfold bind at 1, of_res. fold ids. by rewrite El.
  - rewrite Hid', Hid. unfold ids. by rewrite indexed_owned.
  - apply Forall_forall. intros r' Hr'. apply list_elem_of_lookup in Hr' as [i Hi].
    destruct (Forall2_lookup_r _ _ _ _ _ Hf Hi) as (r & Hri & n & -> & Hg'). apply list_elem_of_lookup_2 in Hri.
    exists r, n. split; [exact (Hl r Hri)|]. split; [|done].
    assert (Hin : id_of r ∈ ids) by (rewrite <- Hid; by apply list_elem_of_fmap_2).
    apply Hids in Hin as (r1 & E1 & Hb). rewrite (Hl r Hri) in E1. by simplify_eq.
Qed.

(** ** Deletions *)

Definition without r m : memory S :=
  Memory (with_db (fun x => (st_delete "runtime_memory" (id_of r) x).2) (env m)) (policy m) (MemoryIndex.remove r (index m))
    (ddel (records m) (id_of r)).

Lemma agrees_without r m : agrees m → dget (records m) (id_of r) = Some r → agrees (without r m).
Proof.
  intros [Hd Hr Hs Hi] Hg. constructor; cbn [without records env index].
  - by apply dict_ok_ddel.
  - intros id r1 E. apply Hr. destruct (decide (id = id_of r)) as [->|Hne]; [by rewrite dget_ddel_eq in E|].
    by rewrite dget_ddel_ne in E.
  - intros id. cbn. destruct (decide (id = id_of r)) as [->|Hne]; [by rewrite get_delete_eq, dget_ddel_eq|].
    by rewrite get_delete_ne, dget_ddel_ne by congruence.
  - intros t a id. cbn [MemoryIndex.remove MemoryIndex.by_tenant_agent]. rewrite MemoryIndex.elem_of_set_discard, Hi.
    unfold belongs. destruct (decide (id = id_of r)) as [->|Hne].
    + rewrite dget_ddel_eq by done. split; [|by intros (? & ? & ?)]. intros [(r1 & E & Hb) Hn]. simplify_eq. by destruct Hn.
    + rewrite dget_ddel_ne by done. naive_solver.
Qed.

Lemma delete_eq r m :
  agrees m → dget (records m) (id_of r) = Some r → MemoryPolicy.can_delete (policy m) r = true →
  delete (MemoryRecord.tenant_id r) (MemoryRecord.owner_agent_id r) (id_of r) m = (Ok true, without r m).
Proof.
  intros Ha Hg Hc. unfold delete, bind at 1. cbn [get_state]. rewrite Hg, !bool_decide_eq_true_2, Hc by done. cbn.
  unfold bind, modify, on_env, zoom, store_delete. cbn.
  pose proof (delete_found "runtime_memory" (id_of r) (db (env m))) as Hf. rewrite (ag_stored _ Ha), Hg in Hf. cbn in Hf.
  unfold without, with_db. destruct (st_delete _ _ _) as [b x]. cbn in *. by subst b.
Qed.

Lemma agrees_delete t a id m : agrees m → agrees (after (delete t a id) m).
Proof.
  intros Ha. unfold after, delete, bind at 1. cbn [get_state].
  destruct (dget (records m) id) as [r|] eqn:Hg; [|done]. destruct (ag_record _ Ha _ _ Hg) as [<- _].
  destruct (_ || _) eqn:Eb; [done|]. destruct (MemoryPolicy.can_delete (policy m) r) eqn:Ec; [|done]. cbn [negb].
  apply orb_false_iff in Eb as [Et%negb_false_iff%bool_decide_eq_true Eo%negb_false_iff%bool_decide_eq_true].
  pose proof (delete_eq r m Ha Hg Ec) as E. unfold delete, bind at 1 in E. cbn [get_state] in E.
  rewrite Hg, !bool_decide_eq_true_2, Ec in E by done. cbn [negb orb] in E. rewrite E. by apply agrees_without.
Qed.

(** ** Retention *)

(** A record may go: it is past its time and may be deleted. *)
Definition due (p : MemoryPolicy) (now : Z) r : bool :=
  match MemoryPolicy.ttl_days p r with None => false | Some n => MemoryRecord.created_at r + n * day_us <=? now end &&
  MemoryPolicy.can_delete p r.

(** The records of a list that go when the clock is asked for each in turn. *)
Fixpoint overdue (p : MemoryPolicy) (n : nat) (l : list MemoryRecord) : list string :=
  match l with
  | [] => []
  | r :: l' => if due p (clock n) r then id_of r :: overdue p (Datatypes.S n) l' else overdue p (Datatypes.S n) l'
  end.

(** The end of a record is a time Python can tell. *)
Definition datable (p : MemoryPolicy) r : Prop :=
  ∀ n, MemoryPolicy.ttl_days p r = Some n → Z.abs n <= 999999999 ∧ time_ok (MemoryRecord.created_at r + n * day_us).

Lemma overdue_sub p n l id : id ∈ overdue p n l → id ∈ id_of <$> l.
Proof.
  revert n. induction l as [|r l IH]; intros n; [done|]. cbn [overdue]. csimpl. destruct (due _ _ _).
  - intros [->|Hid]%elem_of_cons; [by left|]. right. by eapply IH.
  - intros Hid. right. by eapply IH.
Qed.

Lemma deadline_eq n r :
  Z.abs n <= 999999999 → time_ok (MemoryRecord.created_at r + n * day_us) →
  MemoryPolicy.deadline n r = Ok (MemoryRecord.created_at r + n * day_us).
Proof.
  intros Hn Ht. unfold MemoryPolicy.deadline, timedelta_seconds.
  assert (86400 * n * second_us = n * day_us) as -> by (unfold day_us, hour_us, minute_us; lia).
  rewrite Z.div_mul by done. destruct (Z.gtb_spec (Z.abs n) 999999999) as [?|_]; [lia|]. cbn [res_bind].
  unfold dt_add. by rewrite bool_decide_eq_true_2.
Qed.

Lemma expired_due r m :
  datable (policy m) r →
  ∃ b, on_env (MemoryPolicy.expired (policy m) r None) m = (Ok b, asked 1 m) ∧
       b && MemoryPolicy.can_delete (policy m) r = due (policy m) (clock (tick (env m))) r.
Proof.
  intros Hd. unfold on_env, zoom, MemoryPolicy.expired, bind, utc_now, due. cbn.
  destruct (MemoryPolicy.ttl_days (policy m) r) as [n|] eqn:Et; [|by exists false].
  destruct (Hd n Et). rewrite deadline_eq by done. by eexists.
Qed.

Lemma agrees_retention l removed : preserves agrees (retention_loop l removed).
Proof.
  revert removed. induction l as [|r l IH]; intros removed; [apply preserves_ret|].
  apply preserves_bind; [apply preserves_gets|]. intros p. apply preserves_bind.
  { intros m Ha. unfold after, on_env, zoom, MemoryPolicy.expired, bind, utc_now. cbn.
    destruct (MemoryPolicy.ttl_days p r) as [n|]; [|by apply (agrees_asked 1)].
    cbn. destruct (MemoryPolicy.deadline n r); by apply (agrees_asked 1). }
  intros b. destruct (_ && _); [|apply IH].
  apply preserves_bind; [intros m; apply agrees_delete|]. intros b'. apply IH.
Qed.

Lemma retention_loop_eq l : ∀ removed m,
  agrees m → NoDup (id_of <$> l) → (∀ r, r ∈ l → dget (records m) (id_of r) = Some r ∧ datable (policy m) r) →
  ∃ m', let gone := overdue (policy m) (tick (env m)) l in
    retention_loop l removed m = (Ok (removed + Z.of_nat (length gone)), m') ∧
    ∀ id, dget (records m') id = if bool_decide (id ∈ gone) then None else dget (records m) id.
Proof.
  induction l as [|r l IH]; intros removed m Ha Hnd Hin.
  { exists m. cbn. split; [by rewrite Z.add_0_r|done]. }
  apply NoDup_cons in Hnd as [Hr Hnd]. destruct (Hin r (list_elem_of_here _ _)) as [Hg Hd].
  destruct (expired_due r m Hd) as (b & Eb & Hdue). cbn [overdue]. cbn zeta in IH |- *.
  assert (Hrest : ∀ r1, r1 ∈ l → id_of r1 ≠ id_of r) by (intros r1 Hr1 E; apply Hr; rewrite <- E; by apply list_elem_of_fmap_2).
  assert (Hstep : ∀ k, retention_loop (r :: l) removed m = k →
    (if due (policy m) (clock (tick (env m))) r
     then retention_loop l (removed + 1) (without r (asked 1 m)) else retention_loop l removed (asked 1 m)) = k).
  { intros k <-. cbn [retention_loop]. unfold bind at 1, gets. unfold bind at 1. rewrite Eb, Hdue.
    destruct (due _ _ _) eqn:Edue; [|done]. apply andb_prop in Edue as [_ Hc].
    unfold bind. by rewrite (delete_eq r (asked 1 m) (agrees_asked 1 m Ha) Hg Hc). }
  destruct (due (policy m) (clock (tick (env m))) r) eqn:Edue.
  - destruct (IH (removed + 1) (without r (asked 1 m))) as (m' & E & Hrec).
    { by apply agrees_without; [apply agrees_asked|]. }
    { done. }
    { intros r1 Hr1. cbn. rewrite dget_ddel_ne by (intros E; by apply (Hrest r1 Hr1)). apply Hin. by right. }
    exists m'. rewrite <- (Hstep _ eq_refl), E. split; [f_equal; f_equal; cbn; lia|]. intros id. rewrite Hrec. cbn.
    destruct (decide (id = id_of r)) as [->|Hne].
    + rewrite (bool_decide_eq_true_2 (_ ∈ _ :: _)) by (by left). case_bool_decide; [done|].
      apply dget_ddel_eq, (ag_dict _ Ha).
    + rewrite dget_ddel_ne by done. rewrite (bool_decide_ext (_ ∈ id_of r :: _) (id ∈ overdue (policy m) (Datatypes.S (tick (env m))) l)); [done|].
      rewrite elem_of_cons. naive_solver.
  - destruct (IH removed (asked 1 m) (agrees_asked 1 m Ha) Hnd) as (m' & E & Hrec).
    { intros r1 Hr1. apply Hin. by right. }
    exists m'. rewrite <- (Hstep _ eq_refl). by split.
Qed.

Lemma values_found m :
  agrees m → NoDup (id_of <$> (records m).*2) ∧ ∀ r, r ∈ (records m).*2 → dget (records m) (id_of r) = Some r.
Proof.
  intros Ha. pose proof (ag_dict _ Ha) as Hd.
  assert (Hall : ∀ p, p ∈ records m → id_of p.2 = p.1 ∧ dget (records m) p.1 = Some p.2).
  { intros [k r] Hp. apply elem_dget in Hp; [|done]. cbn in *. by destruct (ag_record _ Ha _ _ Hp) as [<- _]. }
  split.
  - assert (id_of <$> (records m).*2 = (records m).*1) as ->; [|done].
    rewrite <- list_fmap_compose. apply list_fmap_ext. intros i p Hi%list_elem_of_lookup_2. by apply Hall.
  - intros r (p & -> & Hp)%list_elem_of_fmap. destruct (Hall p Hp) as [-> ?]. done.
Qed.

(** ** Starting *)

Lemma load_spec l :
  NoDup (id_of <$> l) → Forall sound l →
  let '(i, d) := load l in
  dict_ok d ∧ (∀ id r, dget d id = Some r ↔ r ∈ l ∧ id_of r = id) ∧
  (∀ t a id, id ∈ MemoryIndex.members (t, a) (MemoryIndex.by_tenant_agent i) ↔ ∃ r, r ∈ l ∧ id_of r = id ∧ belongs t a r).
Proof.
  unfold load. induction l as [|r l IH] using rev_ind; intros Hnd Hok.
  { split_and!; [constructor|intros; cbn; set_solver|]. intros t a id. unfold MemoryIndex.members. cbn.
    rewrite lookup_empty. set_solver. }
  rewrite fmap_app in Hnd. apply NoDup_app in Hnd as (Hnd & Hr & _). apply Forall_app in Hok as [Hok _].
  rewrite foldl_app. specialize (IH Hnd Hok). destruct (foldl _ _ l) as [i d]. destruct IH as (Hd & Hg & Hi).
  assert (Hnew : ∀ r1, r1 ∈ l → id_of r1 ≠ id_of r).
  { intros r1 Hr1 E. apply (Hr (id_of r1)); [by apply list_elem_of_fmap_2|]. rewrite E. by left. }
  cbn [foldl fst snd]. split_and!; [by apply dict_ok_dset|..].
  - intros id r1. rewrite dget_dset, elem_of_app, list_elem_of_singleton. case_bool_decide as E; [|rewrite Hg; naive_solver].
    subst id. split; [intros [= ->]; by split; [right|]|]. intros [[Hr1| ->] E]; [|done]. by destruct (Hnew r1 Hr1).
  - intros t a id. cbn [MemoryIndex.add MemoryIndex.by_tenant_agent]. rewrite MemoryIndex.elem_of_set_add, Hi.
    unfold belongs. setoid_rewrite elem_of_app. setoid_rewrite list_elem_of_singleton. naive_solver.
Qed.

(** A store that starts over the records of a collection keeps them. *)
Lemma init_agrees (p : option MemoryPolicy) (e : sys S) :
  typed (A := MemoryRecord) (db e) → (∀ r, stored r (db e) → raw_sensitive (VDict (MemoryRecord.content r)) = false) →
  ∃ m, init p e = Ok m ∧ agrees m ∧ ∀ id r, dget (records m) id = Some r ↔ stored r (db e) ∧ id_of r = id.
Proof.
  intros Ht Hraw. destruct (doc_list_eq (A := MemoryRecord) e Ht) as (l & El & Hl & Hst).
  pose proof (doc_list_NoDup e l Ht Hl Hst) as Hnd. rewrite Forall_forall in Hst.
  assert (Hin : ∀ r, r ∈ l ↔ stored r (db e)).
  { intros r. split; [apply Hst|]. intros [Hok Hg].
    assert (Hd : MemoryRecord.as_dict r ∈ MemoryRecord.as_dict <$> l).
    { change (MemoryRecord.as_dict r ∈ d_enc (S := S) (A := MemoryRecord) <$> l). rewrite Hl. apply elem_of_st_list. by eexists. }
    apply list_elem_of_fmap in Hd as (r1 & E & Hr1). destruct (Hst r1 Hr1) as [Hok1 _].
    by rewrite (d_enc_inj r r1 e Hok Hok1 E). }
  assert (Hs : Forall sound l).
  { apply Forall_forall. intros r Hr. pose proof (Hst r Hr) as Hs. split; [by destruct Hs|by apply Hraw]. }
  pose proof (load_spec l Hnd Hs) as Hload. destruct (load l) as [i d] eqn:Eload. destruct Hload as (Hd & Hg & Hi).
  rewrite Forall_forall in Hs.
  exists (Memory e (default MemoryPolicy.default p) i d). unfold init. rewrite El. cbn [res_bind]. rewrite Eload.
  split; [done|]. split.
  - constructor; cbn [records env index]; [done|..].
    + intros id r E. apply Hg in E as [Hr <-]. by split; [|apply Hs].
    + intros id. destruct (dget d id) as [r|] eqn:E.
      * apply Hg in E as [[_ ?]%Hin <-]. done.
      * destruct (st_get _ _ _) as [x|] eqn:Ex; [|done]. destruct (Ht id x Ex) as (r & Hok & <- & ->).
        assert (dget d (id_of r) = Some r) as E' by (apply Hg; split; [by apply Hin|done]).
        cbn in E. congruence.
    + intros t a id. rewrite Hi. setoid_rewrite Hg. naive_solver.
  - intros id r. cbn. by rewrite Hg, Hin.
Qed.

(** What is in the collection of a store. *)
Lemma agrees_db m :
  agrees m → typed (A := MemoryRecord) (db (env m)) ∧ ∀ r, stored r (db (env m)) ↔ dget (records m) (id_of r) = Some r.
Proof.
  intros Ha. assert (Ht : typed (A := MemoryRecord) (db (env m))).
  { intros id x Hx. cbn in Hx. rewrite (ag_stored _ Ha) in Hx. destruct (dget (records m) id) as [r|] eqn:E; [|done].
    destruct (ag_record _ Ha _ _ E) as (<- & Hok & _). injection Hx as <-. by exists r. }
  split; [done|]. intros r. split.
  - intros [Hok Hg]. cbn in Hg. rewrite (ag_stored _ Ha) in Hg. destruct (dget (records m) (id_of r)) as [r1|] eqn:E; [|done].
    destruct (ag_record _ Ha _ _ E) as (_ & Hok1 & _). apply (inj Some) in Hg.
    f_equal. by apply (d_enc_inj (S := S) r1 r (env m)).
  - intros E. destruct (ag_record _ Ha _ _ E) as (_ & Hok & _). split; [done|]. cbn. by rewrite (ag_stored _ Ha), E.
Qed.

Lemma agrees_restart (p : option MemoryPolicy) m :
  agrees m → ∃ m', init p (env m) = Ok m' ∧ agrees m' ∧ ∀ id, dget (records m') id = dget (records m) id.
Proof.
  intros Ha. destruct (agrees_db m Ha) as [Ht Hst]. destruct (init_agrees p (env m) Ht) as (m' & E & Ha' & Hg).
  { intros r Hr. apply Hst in Hr. by destruct (ag_record _ Ha _ _ Hr) as (_ & _ & ?). }
  exists m'. split_and!; [done..|]. intros id. apply option_eq. intros r. rewrite Hg, Hst. split; [by intros [? <-]|].
  intros E1. by destruct (ag_record _ Ha _ _ E1) as [<- _].
Qed.

(** ** Histories *)

(** A call, or the end of the process and the start of another. *)
Inductive step : memory S → memory S → Prop :=
  | step_put r m : MemoryRecord.record_ok r → fits (MemoryIndex.agent_key r) (id_of r) m → step m (after (put r) m)
  | step_create a t content c w refs ty m :
      w ≠ Some "" → fits (t, a) ("mem-" +:+ uuid_hex (tick (env m))) m → step m (after (create a t content c w refs ty) m)
  | step_list t a m : step m (after (list_for_agent t a) m)
  | step_delete t a id m : step m (after (delete t a id) m)
  | step_retention m : step m (after enforce_retention m)
  | step_restart p m m' : init p (env m) = Ok m' → step m m'.

Lemma agrees_step m m' : step m m' → agrees m → agrees m'.
Proof.
  intros Hs Ha. destruct Hs as [r m Hok Hf|a t content c w refs ty m Hw Hf|t a m|t a id m|m|p m m' E].
  - by apply agrees_put.
  - unfold after. rewrite memory_create_eq. apply agrees_put; [by apply agrees_asked|split_and!; [done|apply clock_ok..]|done].
  - destruct (list_for_agent_eq t a m Ha) as (l & m' & E & Ha' & _). unfold after. by rewrite E.
  - by apply agrees_delete.
  - unfold after, enforce_retention, bind, get_state. by apply agrees_retention.
  - destruct (agrees_restart p m Ha) as (m1 & E1 & Ha1 & _). rewrite E in E1. by injection E1 as ->.
Qed.

(** A history keeps the store and its collection in agreement. *)
Lemma agrees_history p (e : sys S) m0 m :
  typed (A := MemoryRecord) (db e) → (∀ r, stored r (db e) → raw_sensitive (VDict (MemoryRecord.content r)) = false) →
  init p e = Ok m0 → steps step m0 m → agrees m.
Proof.
  intros Ht Hraw E Hs. destruct (init_agrees p e Ht Hraw) as (m1 & E1 & Ha & _). rewrite E in E1. injection E1 as ->.
  revert Ha. apply (steps_invariant step agrees m1 m); [intros a b Hab; by apply agrees_step|done].
Qed.

End Facts.
End MemoryFacts.

(** * What memory answers *)

Section Theorems.
Context `{Oracle} {S : Type} `{PersistenceStore S, !StoreLaws S}.
Import DurableMemoryStore MemoryFacts.

(** C27: after any puts, creations, listings, deletions, retention runs and
    restarts, with ids that are new or kept by their owner, the listing of an
    agent of a tenant is exactly its records, in the order of their ids; each is
    stored again with the time of the access, and none holds a raw sensitive
    key. A process that starts anew holds the same records. *)
Theorem memory_listing_exact p (e : sys S) m0 m :
  (∀ n, time_ok (clock n)) →
  typed (A := MemoryRecord) (db e) → (∀ r, stored r (db e) → raw_sensitive (VDict (MemoryRecord.content r)) = false) →
  init p e = Ok m0 → steps step m0 m →
  (∀ t a, ∃ l m', list_for_agent t a m = (Ok l, m') ∧ MemoryRecord.memory_id <$> l = py_sorted_set (owned t a m) ∧
     Forall (fun r' => ∃ r n, dget (records m) (MemoryRecord.memory_id r') = Some r ∧ belongs t a r ∧
       raw_sensitive (VDict (MemoryRecord.content r)) = false ∧
       r' = MemoryRecord.accessed (clock n) r ∧ stored r' (db (env m'))) l) ∧
  (∀ p', ∃ m', init p' (env m) = Ok m' ∧ ∀ id, dget (records m') id = dget (records m) id).
Proof.
  intros Hclock Ht Hraw E Hs. pose proof (agrees_history Hclock p e m0 m Ht Hraw E Hs) as Ha. split.
  - intros t a. destruct (list_for_agent_eq Hclock t a m Ha) as (l & m' & El & Ha' & Hid & Hl).
    exists l, m'. split_and!; [done..|]. eapply Forall_impl; [exact Hl|]. intros r' (r & n & Hg & Hb & Er & Hg').
    exists r, n. split_and!; [done..| |done|by apply agrees_db]. by destruct (ag_record _ Ha _ _ Hg) as (_ & _ & ?).
  - intros p'. destruct (agrees_restart Hclock p' m Ha) as (m' & E' & _ & Hsame). by exists m'.
Qed.

(** In any such history a retention run removes exactly the records that are
    past their time when the clock is asked for them and may be deleted, and
    returns how many; what remains is untouched. A deletion removes a record for
    its owner only, and never one under legal hold. *)
Theorem memory_retention_exact p (e : sys S) m0 m :
  (∀ n, time_ok (clock n)) →
  typed (A := MemoryRecord) (db e) → (∀ r, stored r (db e) → raw_sensitive (VDict (MemoryRecord.content r)) = false) →
  init p e = Ok m0 → steps step m0 m →
  ((∀ r, r ∈ (records m).*2 → datable (policy m) r) →
   ∃ m', let gone := overdue (policy m) (tick (env m)) (records m).*2 in
     enforce_retention m = (Ok (Z.of_nat (length gone)), m') ∧
     (∀ id, dget (records m') id = if bool_decide (id ∈ gone) then None else dget (records m) id) ∧
     (∀ id, st_get "runtime_memory" id (db (env m')) =
        if bool_decide (id ∈ gone) then None else st_get "runtime_memory" id (db (env m)))) ∧
  (∀ t a id, match dget (records m) id with
     | Some r =>
         if bool_decide (belongs t a r) then
           if MemoryPolicy.can_delete (policy m) r then
             ∃ m', delete t a id m = (Ok true, m') ∧ records m' = ddel (records m) id ∧ st_get "runtime_memory" id (db (env m')) = None
           else delete t a id m = (Err (Exn PermissionError "memory deletion denied by policy"), m)
         else delete t a id m = (Ok false, m)
     | None => delete t a id m = (Ok false, m)
     end).
Proof.
  intros Hclock Ht Hraw E Hs. pose proof (agrees_history Hclock p e m0 m Ht Hraw E Hs) as Ha. split.
  - intros Hd. destruct (values_found m Ha) as [Hnd Hg].
    destruct (retention_loop_eq (records m).*2 0 m Ha Hnd) as (m' & E' & Hrec); [intros r Hr; by auto|].
    exists m'. cbn zeta. unfold enforce_retention, bind, get_state. rewrite E'. split; [done|]. split; [done|].
    assert (Ha' : agrees m') by (pose proof (agrees_retention (records m).*2 0 m Ha) as Hp; unfold after in Hp; by rewrite E' in Hp).
    intros id. rewrite !(ag_stored _ Ha'), !(ag_stored _ Ha), Hrec. by case_bool_decide.
  - intros t a id. destruct (dget (records m) id) as [r|] eqn:Hg; [|unfold delete, bind, get_state; by rewrite Hg].
    destruct (ag_record _ Ha _ _ Hg) as [<- _]. case_bool_decide as Hb.
    + injection Hb as <- <-. destruct (MemoryPolicy.can_delete (policy m) r) eqn:Hc.
      * exists (without r m). rewrite delete_eq by done. split_and!; [done..|]. apply get_delete_eq.
      * unfold delete, bind, get_state. by rewrite Hg, !bool_decide_eq_true_2, Hc.
    + unfold delete, bind, get_state. rewrite Hg. destruct (_ || _) eqn:Eb; [done|]. destruct Hb.
      apply orb_false_iff in Eb as [Et%negb_false_iff%bool_decide_eq_true Eo%negb_false_iff%bool_decide_eq_true].
      unfold belongs, MemoryIndex.agent_key. by rewrite Et, Eo.
Qed.

End Theorems.

(** * Examples *)

Section Examples.
Import DurableMemoryStore MemoryFacts.
#[local] Existing Instance demo_oracle.

Definition demo_policy : MemoryPolicy := MemoryPolicy.Mk 0 None true.

Definition demo_memory : memory Memory.store := Memory demo_start demo_policy MemoryIndex.empty [].

Definition demo_note : memory Memory.store :=
  after (create "agent" "acme" [("note", VStr "done")] "internal" None ["tok-1"] "short_term") demo_memory.

Definition demo_id : string := "mem-" +:+ uuid_hex 0.

Lemma empty_holds_nothing_raw (r : MemoryRecord) :
  stored r (db demo_start) → raw_sensitive (VDict (MemoryRecord.content r)) = false.
Proof. by intros [_ ?]. Qed.

Lemma demo_history : steps step demo_memory demo_note.
Proof. eapply steps_cons; [|apply steps_refl]. by apply step_create. Qed.

Lemma memory_listing_exact_witness :
  ∃ l m, list_for_agent "acme" "agent" demo_note = (Ok l, m) ∧ MemoryRecord.memory_id <$> l = [demo_id].
Proof.
  destruct (memory_listing_exact (Some demo_policy) demo_start demo_memory demo_note demo_clock
              typed_empty empty_holds_nothing_raw eq_refl demo_history) as [Hl _].
  destruct (Hl "acme" "agent") as (l & m & E & Hid & _). exists l, m. split; [exact E|]. rewrite Hid. by vm_compute.
Defined.

Lemma memory_retention_exact_witness : ∃ m, enforce_retention demo_note = (Ok 1, m) ∧ dget (records m) demo_id = None.
Proof.
  destruct (memory_retention_exact (Some demo_policy) demo_start demo_memory demo_note demo_clock
              typed_empty empty_holds_nothing_raw eq_refl demo_history) as [Hr _].
  destruct Hr as (m & E & Hg & _).
  { intros r Hr n. assert (Er : r = List.hd r (records demo_note).*2) by (revert Hr; vm_compute; set_solver).
    rewrite Er. intros [= <-]. by vm_compute. }
  exists m. split; [exact E|]. rewrite Hg. by vm_compute.
Defined.

(** A record that is put under the id of another tenant's record stays in the
    listing of that tenant's agent; once it is deleted, the listing raises. *)
Definition demo_other (r : MemoryRecord) : MemoryRecord :=
  MemoryRecord.Mk "spy" "rival" (MemoryRecord.source_workflow_id r) (MemoryRecord.classification r)
    [("plan", VStr "ours")] [] (MemoryRecord.memory_type r) (MemoryRecord.memory_id r) (MemoryRecord.created_at r)
    (MemoryRecord.last_accessed_at r).

Lemma memory_id_taken_over :
  let m := after (let* r := create "agent" "acme" [("note", VStr "done")] "internal" None [] "short_term" in
                  put (demo_other r)) demo_memory in
  (match (list_for_agent "acme" "agent" m).1 with Ok l => MemoryRecord.tenant_id <$> l | Err _ => [] end) = ["rival"] ∧
  let m' := after (delete "rival" "spy" demo_id) m in
  (list_for_agent "acme" "agent" m').1 = Err (Exn KeyError (repr_str demo_id)).
Proof. by vm_compute. Qed.

End Examples.
