(* ===== verification/ServerQueue.v ===== *)
(** The job queue of the server (agentfabric/server): the in-memory backend and
    the queue table of queue.py, the queue service of services.py and the loop
    of worker.py.

    The table is behind an SQLAlchemy session, which is no part of the
    repository: [QueueSession] is what the code asks of it, [SessionLaws] what
    SQLAlchemy documents. *)

From stdpp Require Import base option list strings gmap pretty.
From Stdlib Require Import ZArith Lia.
From S2P Require Import Prelude PyVal Json JsonText PyTime Store EventStore.

Local Open Scope Z_scope.

(** * models.py *)

Module QueueMessage.
Record t := Mk {
  message_id : string;
  queue_name : string;
  payload_json : string;
  status : string;
  available_at : Z;
  attempts : Z;
  last_error : string;
  created_at : Z;
}.

Definition set_status (x : string) (r : t) : t :=
  Mk (message_id r) (queue_name r) (payload_json r) x (available_at r) (attempts r) (last_error r) (created_at r).
Definition set_attempts (x : Z) (r : t) : t :=
  Mk (message_id r) (queue_name r) (payload_json r) (status r) (available_at r) x (last_error r) (created_at r).
Definition set_error (x : string) (r : t) : t :=
  Mk (message_id r) (queue_name r) (payload_json r) (status r) (available_at r) (attempts r) x (created_at r).
End QueueMessage.

Abbreviation QueueMessage := QueueMessage.t.

(** A session over a database [D]: [db.get(QueueMessage, id)], [db.add(row);
    db.flush()], the rows a query selects, and the end of [with
    session_factory() as db]. *)
Class QueueSession (D : Type) := {
  db_get : string → D → option QueueMessage;
  db_add : QueueMessage → D → D;
  db_rows : D → list QueueMessage;
  db_close : D → D;
}.

(** Closing a session that was not committed discards what was added. *)
Class SessionLaws (D : Type) `{QueueSession D} : Prop := {
  db_get_add_eq : ∀ r d, db_get (QueueMessage.message_id r) (db_add r d) = Some r;
  db_get_add_ne : ∀ r d i, i ≠ QueueMessage.message_id r → db_get i (db_add r d) = db_get i d;
  db_rows_get : ∀ r d, r ∈ db_rows d ↔ db_get (QueueMessage.message_id r) d = Some r;
  db_close_add : ∀ r d, db_close (db_add r d) = db_close d;
  db_close_close : ∀ d, db_close (db_close d) = db_close d;
}.

(** * queue.py *)

Module QueueItem.
Record t := Mk {
  message_id : string;
  queue_name : string;
  payload : doc;
  attempts : Z;
  created_at : Z;
}.
End QueueItem.

Abbreviation QueueItem := QueueItem.t.

(** The backend's [_queues], the database of the session, and the count of the
    questions put to the oracles. *)
Record server (D : Type) := Server {
  _queues : dict (list QueueItem);
  table : D;
  tick : nat;
}.
Arguments Server {D}.
Arguments _queues {D}.
Arguments table {D}.
Arguments tick {D}.

Section Server.
Context `{Oracle} {D : Type} `{QueueSession D}.

Definition utc_now : M (server D) Z :=
  fun s => (Ok (clock (tick s)), Server (_queues s) (table s) (S (tick s))).
Definition uuid4 : M (server D) string :=
  fun s => (Ok (uuid_hex (tick s)), Server (_queues s) (table s) (S (tick s))).

(** [_queues.setdefault(queue_name, deque())] *)
Definition queue_of (q : string) (s : server D) : list QueueItem := default [] (dget (_queues s) q).

Definition set_queue (q : string) (l : list QueueItem) (s : server D) : server D :=
  Server (dset (_queues s) q l) (table s) (tick s).

Definition set_table (f : D → D) (s : server D) : server D := Server (_queues s) (f (table s)) (tick s).

End Server.

Module InMemoryQueueBackend.
Section Backend.
Context `{Oracle} {D : Type} `{QueueSession D}.

Definition enqueue (queue_name : string) (payload : doc) : M (server D) QueueItem :=
  let* message_id := uuid4 in
  let* created_at := utc_now in
  let item := QueueItem.Mk message_id queue_name payload 0 created_at in
  do* modify (fun s => set_queue queue_name (queue_of queue_name s ++ [item]) s);
  ret item.

Definition dequeue (queue_name : string) : M (server D) (option QueueItem) :=
  let* queue := gets (queue_of queue_name) in
  match queue with
  | [] => do* modify (set_queue queue_name []); ret None
  | item :: rest =>
      do* modify (set_queue queue_name rest);
      ret (Some (QueueItem.Mk (QueueItem.message_id item) (QueueItem.queue_name item) (QueueItem.payload item)
                   (QueueItem.attempts item + 1) (QueueItem.created_at item)))
  end.

End Backend.
End InMemoryQueueBackend.

Module SqlQueueStore.
Section Store.
Context `{Oracle} {D : Type} `{QueueSession D}.

(** The columns left out take their defaults when the row is inserted. *)
Definition record_enqueue (queue_name : string) (payload : doc) (message_id : string) : M (server D) QueueMessage :=
  let* available_at := utc_now in
  let* created_at := utc_now in
  let row := QueueMessage.Mk message_id queue_name (json_dumps (VDict payload)) "queued" available_at 0 "" created_at in
  do* modify (set_table (db_add row)); ret row.

(** [row = db.get(...)], and when there is one, its update. *)
Definition update_row (message_id : string) (f : QueueMessage → QueueMessage) : M (server D) unit :=
  let* row := gets (fun s => db_get message_id (table s)) in
  match row with
  | Some row => modify (set_table (db_add (f row)))
  | None => ret tt
  end.

Definition mark_processing (message_id : string) : M (server D) unit :=
  update_row message_id (fun row =>
    QueueMessage.set_attempts (QueueMessage.attempts row + 1) (QueueMessage.set_status "processing" row)).

Definition mark_done (message_id : string) : M (server D) unit :=
  update_row message_id (fun row => QueueMessage.set_error "" (QueueMessage.set_status "done" row)).

Definition mark_failed (message_id error : string) : M (server D) unit :=
  update_row message_id (fun row => QueueMessage.set_error error (QueueMessage.set_status "failed" row)).

Definition get_attempts (message_id : string) : M (server D) Z :=
  let* row := gets (fun s => db_get message_id (table s)) in
  ret (match row with Some row => QueueMessage.attempts row | None => 0 end).

Definition pending_messages (queue_name : string) : M (server D) (list QueueMessage) :=
  gets (fun s => base.filter (fun row => QueueMessage.queue_name row = queue_name ∧ QueueMessage.status row = "queued")
                   (db_rows (table s))).

End Store.
End SqlQueueStore.

(** * services.py *)

Module QueueService.
Section Service.
Context `{Oracle} {D : Type} `{QueueSession D}.

Definition enqueue (queue_name : string) (payload : doc) : M (server D) QueueItem :=
  let* item := InMemoryQueueBackend.enqueue queue_name payload in
  do* SqlQueueStore.record_enqueue queue_name payload (QueueItem.message_id item);
  ret item.

Definition dequeue (queue_name : string) : M (server D) (option QueueItem) :=
  let* item := InMemoryQueueBackend.dequeue queue_name in
  match item with
  | None => ret None
  | Some item => do* SqlQueueStore.mark_processing (QueueItem.message_id item); ret (Some item)
  end.

Definition ack_success (message_id : string) : M (server D) unit := SqlQueueStore.mark_done message_id.

Definition retry_key : string := "__af_retry_count".

(** What [ack_failure] reports: a retry or a dead letter, the id of the new
    message and the attempts made. *)
Record failure := Failure { status : string; new_message_id : string; attempts : Z }.

Definition ack_failure (item : QueueItem) (error : string) (max_attempts : Z) : M (server D) failure :=
  do* SqlQueueStore.mark_failed (QueueItem.message_id item) error;
  let* count := of_res (int_field_or (QueueItem.payload item) retry_key 0) in
  let attempts := count + 1 in
  if attempts <? max_attempts
  then
    let retry_payload := dset (QueueItem.payload item) retry_key (VInt attempts) in
    let* retry := enqueue (QueueItem.queue_name item) retry_payload in
    ret (Failure "retried" (QueueItem.message_id retry) attempts)
  else
    let dlq_name := QueueItem.queue_name item +:+ ".dlq" in
    let dlq_payload := dset (QueueItem.payload item) retry_key (VInt attempts) in
    let* dlq_item := enqueue dlq_name dlq_payload in
    ret (Failure "dlq" (QueueItem.message_id dlq_item) attempts).

End Service.
End QueueService.

(** * worker.py *)

(** What a turn of the loop came to. *)
Inductive turn :=
  | Idle
  | Done (item : QueueItem)
  | Failed (item : QueueItem) (f : QueueService.failure).

Section Worker.
Context `{Oracle} {D : Type} `{QueueSession D}.

(** The handlers of the worker, by kind. A handler is given the payload, has no
    access to the queue, and returns or raises; what it does may depend on when
    it is called. *)
Context (handlers : dict (nat → doc → res unit)).

Definition starts_internal (k : string) : bool := starts_with "__af_" k.

Definition handler_payload (payload : doc) : doc := base.filter (fun p => starts_internal p.1 = false) payload.

Definition handle (item : QueueItem) : M (server D) unit :=
  let* now := gets tick in
  match dget handlers (str_field_or (QueueItem.payload item) "kind" "default") with
  | Some handler => of_res (handler now (handler_payload (QueueItem.payload item)))
  | None => ret tt
  end.

(** One turn of [while True]. The session ends with the turn, also when the
    turn raises. *)
Definition work (queue_name : string) (queue_max_attempts : Z) : M (server D) turn :=
  let* item := QueueService.dequeue queue_name in
  match item with
  | None => ret Idle
  | Some item =>
      try_except
        (do* handle item; do* QueueService.ack_success (QueueItem.message_id item); ret (Done item))
        (fun exc =>
           let* outcome := QueueService.ack_failure item (exn_msg exc) (Z.max 1 queue_max_attempts) in
           ret (Failed item outcome))
  end.

Definition run_worker_turn (queue_name : string) (queue_max_attempts : Z) (s : server D) : res turn * server D :=
  let '(r, s') := work queue_name queue_max_attempts s in (r, set_table db_close s').

(** The loop for [n] turns. *)
Fixpoint run_worker (n : nat) (queue_name : string) (queue_max_attempts : Z) : M (server D) (list turn) :=
  match n with
  | O => ret []
  | S n' =>
      let* turn := run_worker_turn queue_name queue_max_attempts in
      let* turns := run_worker n' queue_name queue_max_attempts in
      ret (turn :: turns)
  end.

End Worker.

(** * The queue *)

(** What a message asks for: its payload without the count of its retries. *)
Definition job_of (i : QueueItem) : doc := base.filter (fun p => p.1 ≠ QueueService.retry_key) (QueueItem.payload i).

Definition retries (i : QueueItem) : res Z := int_field_or (QueueItem.payload i) QueueService.retry_key 0.

(** A message of the queue whose count of retries can be read. *)
Definition queued_in (q : string) (i : QueueItem) : Prop := QueueItem.queue_name i = q ∧ is_ok (retries i) = true.

(** The turns a message may take before it is done with. *)
Definition turns_left (max_attempts : Z) (i : QueueItem) : nat :=
  match retries i with Ok c => Z.to_nat (Z.max 1 (max_attempts - c)) | Err _ => O end.

Definition dlq (q : string) : string := q +:+ ".dlq".

(** The messages a worker handled without a failure. *)
Definition handled (ts : list turn) : list QueueItem := omap (fun t => match t with Done i => Some i | _ => None end) ts.

Lemma job_dset p v : base.filter (fun p => p.1 ≠ QueueService.retry_key) (dset p QueueService.retry_key v) =
  base.filter (fun p : string * val => p.1 ≠ QueueService.retry_key) p.
Proof.
  induction p as [|[k x] p IH]; [done|]. cbn [dset]. case_bool_decide as E.
  - rewrite !filter_cons. cbn [fst]. by rewrite !decide_False by (intros Hn; by apply Hn).
  - rewrite !filter_cons. cbn [fst]. by rewrite IH.
Qed.

Lemma dlq_ne q : dlq q ≠ q.
Proof.
  intros E. apply (f_equal String.length) in E. unfold dlq in E.
  assert (Hl : ∀ a b, String.length (a +:+ b) = (String.length a + String.length b)%nat).
  { intros a b. induction a as [|c a IH]; cbn; [done|]. by rewrite IH. }
  rewrite Hl in E. cbn in E. lia.
Qed.

Section Turn.
Context `{Oracle} {D : Type} `{SessionLaws D} (handlers : dict (nat → doc → res unit)).
Implicit Types (s : server D) (q : string).

Lemma queue_set q q' l s : queue_of q (set_queue q' l s) = if bool_decide (q' = q) then l else queue_of q s.
Proof. unfold queue_of, set_queue. cbn [_queues]. rewrite dget_dset. by case_bool_decide. Qed.

(** ** The table is left as it was *)

(** What the session will leave when it is closed. *)
Definition leaves (x : D) s : Prop := db_close (table s) = x.

Lemma leaves_update_row x i f : preserves (leaves x) (SqlQueueStore.update_row i f).
Proof.
  apply preserves_bind; [apply preserves_gets|]. intros [row|]; [|apply preserves_ret].
  apply preserves_modify. intros s Hs. unfold leaves in *. cbn. by rewrite db_close_add.
Qed.

Lemma leaves_enqueue x q p : preserves (leaves x) (QueueService.enqueue q p).
Proof.
  intros s Hs. unfold QueueService.enqueue, InMemoryQueueBackend.enqueue, SqlQueueStore.record_enqueue, after, bind, modify, ret,
    uuid4, utc_now, leaves in *. cbn. by rewrite db_close_add.
Qed.

Lemma leaves_ack_failure x i e n : preserves (leaves x) (QueueService.ack_failure i e n).
Proof.
  apply preserves_bind; [apply leaves_update_row|]. intros _. apply preserves_bind; [apply preserves_of_res|]. intros c.
  cbv zeta. apply preserves_if; (apply preserves_bind; [apply leaves_enqueue|intros ?; apply preserves_ret]).
Qed.

Lemma leaves_work x q n : preserves (leaves x) (work handlers q n).
Proof.
  apply preserves_bind.
  { apply preserves_bind.
    - apply preserves_bind; [apply preserves_gets|].
      intros [|i l]; (apply preserves_bind; [apply preserves_modify; by intros s Hs|intros _; apply preserves_ret]).
    - intros [i|]; [|apply preserves_ret].
      apply preserves_bind; [apply leaves_update_row|intros _; apply preserves_ret]. }
  intros [i|]; [|apply preserves_ret]. apply preserves_try.
  - apply preserves_bind; [|intros _; apply preserves_bind; [apply leaves_update_row|intros _; apply preserves_ret]].
    apply preserves_bind; [apply preserves_gets|]. intros now.
    destruct (dget handlers _); [apply preserves_of_res|apply preserves_ret].
  - intros e. apply preserves_bind; [apply leaves_ack_failure|intros f; apply preserves_ret].
Qed.

Lemma turn_table q n s : table (run_worker_turn handlers q n s).2 = db_close (table s).
Proof.
  pose proof (leaves_work (db_close (table s)) q n s eq_refl) as Hl. unfold run_worker_turn, after, leaves in *.
  destruct (work handlers q n s) as [r s']. cbn in *. done.
Qed.

(** ** A turn on a queue that is not empty *)

(** The queues after a row was updated are those before. *)
Lemma update_row_queues i f s :
  ∃ s', SqlQueueStore.update_row i f s = (Ok tt, s') ∧ _queues s' = _queues s ∧ tick s' = tick s.
Proof.
  unfold SqlQueueStore.update_row, bind, gets, modify, ret.
  destruct (db_get _ _) as [row|]; eexists; (split; [reflexivity|done]).
Qed.

Lemma enqueue_queues q p s :
  ∃ i s', QueueService.enqueue q p s = (Ok i, s') ∧ _queues s' = dset (_queues s) q (queue_of q s ++ [i]) ∧
    QueueItem.queue_name i = q ∧ QueueItem.payload i = p.
Proof.
  unfold QueueService.enqueue, InMemoryQueueBackend.enqueue, SqlQueueStore.record_enqueue, bind, modify, ret, uuid4, utc_now.
  do 2 eexists. split; [reflexivity|]. done.
Qed.

Lemma queue_of_eq q s s' : _queues s' = _queues s → queue_of q s' = queue_of q s.
Proof. unfold queue_of. by intros ->. Qed.

(** The message [i] was counted once more and put at the end of [q']. *)
Definition moved i q' c s s' (i' : QueueItem) : Prop :=
  (∀ q, queue_of q s' = if bool_decide (q' = q) then queue_of q s ++ [i'] else queue_of q s) ∧
  QueueItem.queue_name i' = q' ∧ job_of i' = job_of i ∧ retries i' = Ok (c + 1).

Lemma ack_failure_eq i e n s c :
  retries i = Ok c →
  ∃ f s' i', QueueService.ack_failure i e n s = (Ok f, s') ∧
    moved i (if c + 1 <? n then QueueItem.queue_name i else dlq (QueueItem.queue_name i)) c s s' i'.
Proof.
  intros Hc. unfold QueueService.ack_failure, SqlQueueStore.mark_failed.
  destruct (update_row_queues (QueueItem.message_id i) (fun row => QueueMessage.set_error e (QueueMessage.set_status "failed" row)) s)
    as (s1 & E1 & Hq1 & _).
  unfold bind at 1. rewrite E1. unfold retries in Hc. unfold bind at 1, of_res at 1. rewrite Hc. cbv zeta.
  set (q' := if c + 1 <? n then QueueItem.queue_name i else dlq (QueueItem.queue_name i)).
  set (p := dset (QueueItem.payload i) QueueService.retry_key (VInt (c + 1))).
  destruct (enqueue_queues q' p s1) as (i' & s' & E & Hq & Hn & Hp).
  assert (Hm : moved i q' c s s' i').
  { split_and!; [|done| |].
    - intros q. unfold queue_of at 1. rewrite Hq, dget_dset. rewrite !(queue_of_eq _ s s1) by done.
      case_bool_decide; [by subst|]. cbn. by rewrite <- (queue_of_eq q s s1).
    - unfold job_of. rewrite Hp. apply job_dset.
    - unfold retries, int_field_or, dget_or. rewrite Hp. unfold p. by rewrite dget_dset_eq. }
  destruct (c + 1 <? n); unfold dlq in *; subst q'; unfold bind; rewrite E; do 3 eexists; (split; [reflexivity|exact Hm]).
Qed.

(** What a turn does to the queue [q] whose first message is [i]. *)
Lemma turn_eq q n s i rest c :
  queue_of q s = i :: rest → QueueItem.queue_name i = q → retries i = Ok c →
  ∃ t s', run_worker_turn handlers q n s = (Ok t, s') ∧
    ((handled [t] = [QueueItem.Mk (QueueItem.message_id i) q (QueueItem.payload i) (QueueItem.attempts i + 1) (QueueItem.created_at i)] ∧
      queue_of q s' = rest ∧ queue_of (dlq q) s' = queue_of (dlq q) s) ∨
     (handled [t] = [] ∧ ∃ i', job_of i' = job_of i ∧ retries i' = Ok (c + 1) ∧
      if c + 1 <? Z.max 1 n
      then QueueItem.queue_name i' = q ∧ queue_of q s' = rest ++ [i'] ∧ queue_of (dlq q) s' = queue_of (dlq q) s
      else queue_of q s' = rest ∧ queue_of (dlq q) s' = queue_of (dlq q) s ++ [i'])).
Proof.
  intros Hq Hn Hc. pose proof (dlq_ne q) as Hne.
  set (s1 := set_queue q rest s).
  set (i1 := QueueItem.Mk (QueueItem.message_id i) (QueueItem.queue_name i) (QueueItem.payload i) (QueueItem.attempts i + 1) (QueueItem.created_at i)).
  destruct (update_row_queues (QueueItem.message_id i) (fun row =>
    QueueMessage.set_attempts (QueueMessage.attempts row + 1) (QueueMessage.set_status "processing" row)) s1) as (s2 & E2 & Hq2 & _).
  assert (Hd : QueueService.dequeue q s = (Ok (Some i1), s2)).
  { unfold QueueService.dequeue, InMemoryQueueBackend.dequeue, bind, gets, modify, ret. rewrite Hq.
    fold s1. fold i1. change (QueueItem.message_id i1) with (QueueItem.message_id i).
    unfold SqlQueueStore.mark_processing. by rewrite E2. }
  assert (Hrest : queue_of q s2 = rest).
  { rewrite (queue_of_eq q s1 s2 Hq2). unfold s1. rewrite queue_set. by rewrite bool_decide_eq_true_2. }
  assert (Hdlq : queue_of (dlq q) s2 = queue_of (dlq q) s).
  { rewrite (queue_of_eq _ s1 s2 Hq2). unfold s1. rewrite queue_set. by rewrite bool_decide_eq_false_2. }
  unfold run_worker_turn, work. unfold bind at 1. rewrite Hd. unfold try_except.
  assert (Hh : ∃ r, handle handlers i1 s2 = (r, s2)).
  { unfold handle, bind, gets. destruct (dget handlers _); by eexists. }
  destruct Hh as [[[]|e] Hh]; unfold bind at 1; rewrite Hh.
  - unfold QueueService.ack_success, SqlQueueStore.mark_done.
    destruct (update_row_queues (QueueItem.message_id i1) (fun row => QueueMessage.set_error "" (QueueMessage.set_status "done" row)) s2)
      as (s3 & E3 & Hq3 & _).
    unfold bind at 1. rewrite E3. do 2 eexists. split; [reflexivity|]. left.
    split_and!; [cbn; unfold i1; by rewrite Hn| |]; rewrite (queue_of_eq _ s2 _) by done; done.
  - destruct (ack_failure_eq i1 (exn_msg e) (Z.max 1 n) s2 c Hc) as (f & s3 & i' & E3 & Hm & Hn' & Hj & Hr).
    unfold bind at 1. rewrite E3. do 2 eexists. split; [reflexivity|]. right. split; [done|].
    exists i'. split_and!; [done|done|]. change (QueueItem.queue_name i1) with (QueueItem.queue_name i) in *. rewrite Hn in *.
    rewrite !(queue_of_eq _ s3 (set_table db_close s3)) by done. rewrite !Hm, Hrest, Hdlq.
    destruct (c + 1 <? Z.max 1 n).
    + rewrite bool_decide_eq_true_2, bool_decide_eq_false_2 by congruence. by rewrite Hn'.
    + rewrite bool_decide_eq_false_2, bool_decide_eq_true_2 by congruence. done.
Qed.

End Turn.

(** * Properties *)

Section ServerQueueProperties.
Context `{Oracle} {D : Type} `{SessionLaws D} (handlers : dict (nat → doc → res unit)).

Lemma handled_cons t ts : handled (t :: ts) = handled [t] ++ handled ts.
Proof. unfold handled. cbn. by destruct t. Qed.

Lemma run_worker_cons n q m (s s1 : server D) t k ts :
  run_worker_turn handlers q m s = (Ok t, s1) → run_worker handlers n q m s1 = (Ok ts, k) →
  run_worker handlers (S n) q m s = (Ok (t :: ts), k).
Proof. intros E1 E2. cbn [run_worker]. unfold bind, ret. by rewrite E1, E2. Qed.

(** The turns left before a message and after it was counted. *)
Lemma turns_left_retry m i i' c :
  retries i = Ok c → retries i' = Ok (c + 1) → c + 1 < m → (S (turns_left m i') <= turns_left m i)%nat.
Proof. intros Hc Hc' Hlt. unfold turns_left. rewrite Hc, Hc'. lia. Qed.

Lemma turns_left_pos m i q : queued_in q i → (1 <= turns_left m i)%nat.
Proof. intros [_ Hi]. unfold turns_left. destruct (retries i); [lia|done]. Qed.

(** Some turns, no more than the messages of the queue [q] have left, empty it:
    the jobs that were in it were handled or are at the end of the dead letter
    queue, each after at least [m] attempts. *)
Definition drained (q : string) (queue_max_attempts : Z) (s : server D) : Prop :=
  let m := Z.max 1 queue_max_attempts in
  ∃ n ts s' dead,
    (n <= sum_list_with (turns_left m) (queue_of q s))%nat ∧
    run_worker handlers n q queue_max_attempts s = (Ok ts, s') ∧ queue_of q s' = [] ∧
    queue_of (dlq q) s' = queue_of (dlq q) s ++ dead ∧
    job_of <$> handled ts ++ dead ≡ₚ job_of <$> queue_of q s ∧
    Forall (fun i => ∃ c, retries i = Ok c ∧ m <= c) dead.

Lemma drained_turn q n s t s1 dead :
  run_worker_turn handlers q n s = (Ok t, s1) → drained q n s1 →
  (S (sum_list_with (turns_left (Z.max 1 n)) (queue_of q s1)) <=
    sum_list_with (turns_left (Z.max 1 n)) (queue_of q s))%nat →
  queue_of (dlq q) s1 = queue_of (dlq q) s ++ dead →
  job_of <$> handled [t] ++ dead ++ queue_of q s1 ≡ₚ job_of <$> queue_of q s →
  Forall (fun i => ∃ c, retries i = Ok c ∧ Z.max 1 n <= c) dead → drained q n s.
Proof.
  intros Et (k & ts & s' & dead' & Hle & Hrun & He & Hd & Hp & Hf) Hsum Hd1 Hp1 Hf1.
  exists (S k), (t :: ts), s', (dead ++ dead'). split_and!; [lia|by eapply run_worker_cons|done| | |by apply Forall_app].
  - by rewrite Hd, Hd1, app_assoc.
  - rewrite <- Hp1, handled_cons, !fmap_app, <- Hp, !fmap_app. solve_Permutation.
Qed.

(** C7: the worker drains its queue. Whatever the handlers do, when the counts
    of the queued messages can be read, a bounded number of turns, at most the
    sum of the attempts the messages have left, empties the queue. No job is
    lost and none is done twice: the jobs the handlers finished and those in the
    dead letter queue, each after at least the greatest number of attempts, are
    together the jobs that were queued. *)
Theorem worker_drains_queue (q : string) (queue_max_attempts : Z) (s : server D) :
  Forall (queued_in q) (queue_of q s) → drained q queue_max_attempts s.
Proof.
  remember (sum_list_with (turns_left (Z.max 1 queue_max_attempts)) (queue_of q s)) as b eqn:Eb. revert s Eb.
  induction b as [b IH] using lt_wf_ind. intros s -> Hf.
  destruct (queue_of q s) as [|i rest] eqn:Hq.
  { exists O, [], s, []. rewrite Hq, app_nil_r. by split_and!; [cbn; lia|..]. }
  apply Forall_cons in Hf as [Hi Hrest]. pose proof (turns_left_pos (Z.max 1 queue_max_attempts) i q Hi) as Hpos.
  destruct Hi as [Hn Hok]. destruct (retries i) as [c|] eqn:Hc; [|done].
  assert (Hrec : ∀ s1, Forall (queued_in q) (queue_of q s1) →
    (S (sum_list_with (turns_left (Z.max 1 queue_max_attempts)) (queue_of q s1)) <=
      sum_list_with (turns_left (Z.max 1 queue_max_attempts)) (i :: rest))%nat → drained q queue_max_attempts s1).
  { intros s1 Hf Hlt. by eapply IH; [|done|done]. }
  destruct (turn_eq handlers q queue_max_attempts s i rest c Hq Hn Hc) as (t & s1 & Et & [(Hh & Hq1 & Hd1)|(Hh & i' & Hj & Hr & Hcase)]).
  - assert (Hsum : (S (sum_list_with (turns_left (Z.max 1 queue_max_attempts)) (queue_of q s1)) <=
      sum_list_with (turns_left (Z.max 1 queue_max_attempts)) (i :: rest))%nat) by (rewrite Hq1; cbn; lia).
    apply (drained_turn q _ s t s1 [] Et); [apply Hrec; [by rewrite Hq1|done]|by rewrite Hq|by rewrite app_nil_r| |done].
    by rewrite Hh, Hq1, Hq.
  - destruct (Z.ltb_spec (c + 1) (Z.max 1 queue_max_attempts)) as [Hlt|Hge].
    + destruct Hcase as (Hn' & Hq1 & Hd1). pose proof (turns_left_retry _ i i' c Hc Hr Hlt) as Ht.
      assert (Hsum : (S (sum_list_with (turns_left (Z.max 1 queue_max_attempts)) (queue_of q s1)) <=
        sum_list_with (turns_left (Z.max 1 queue_max_attempts)) (i :: rest))%nat).
      { rewrite Hq1, sum_list_with_app. cbn. lia. }
      apply (drained_turn q _ s t s1 [] Et); [|by rewrite Hq|by rewrite app_nil_r| |done].
      * apply Hrec; [|done]. rewrite Hq1. apply Forall_app. split; [done|]. constructor; [|done]. split; [done|]. by rewrite Hr.
      * rewrite Hh, Hq1, Hq. cbn [app]. rewrite fmap_app. csimpl. rewrite Hj. solve_Permutation.
    + destruct Hcase as (Hq1 & Hd1).
      apply (drained_turn q _ s t s1 [i'] Et).
      * apply Hrec; rewrite Hq1; [done|cbn; lia].
      * rewrite Hq, Hq1. cbn. lia.
      * done.
      * rewrite Hh, Hq1, Hq. csimpl. by rewrite Hj.
      * constructor; [|done]. by exists (c + 1).
Qed.

(** The worker records nothing. The session of a turn is closed without
    being committed: whatever a worker did, the queue table is as it was, though
    every turn wrote the attempts, the result and the retry to it. *)
Theorem worker_records_nothing (n : nat) (q : string) (queue_max_attempts : Z) (s : server D) :
  db_close (table s) = table s → table (after (run_worker handlers n q queue_max_attempts) s) = table s.
Proof.
  revert s. induction n as [|n IH]; intros s Hs; [done|]. unfold after in *. cbn [run_worker]. unfold bind at 1.
  pose proof (turn_table handlers q queue_max_attempts s) as Ht. rewrite Hs in Ht.
  destruct (run_worker_turn handlers q queue_max_attempts s) as [[t|e] s1]; cbn in Ht; [|done].
  specialize (IH s1). rewrite Ht in IH. specialize (IH Hs). unfold bind, ret.
  by destruct (run_worker handlers n q queue_max_attempts s1) as [[ts|e] s2].
Qed.

End ServerQueueProperties.

(** ** Witnesses *)

(** A database of rows by id: those committed and those of the session. *)
Definition demo_db : Type := gmap string QueueMessage * gmap string QueueMessage.

#[export] Instance demo_session : QueueSession demo_db := {
  db_get i d := d.2 !! i;
  db_add r d := (d.1, <[QueueMessage.message_id r := r]> d.2);
  db_rows d := (base.filter (fun p => p.1 = QueueMessage.message_id p.2) (map_to_list d.2)).*2;
  db_close d := (d.1, d.1);
}.

#[export] Instance demo_session_laws : SessionLaws demo_db.
Proof.
  split; cbn.
  - intros r d. by rewrite lookup_insert_eq.
  - intros r d i Hi. by rewrite lookup_insert_ne.
  - intros r [d1 d2]. cbn. rewrite list_elem_of_fmap. split.
    + intros ([i r'] & -> & [Hi Hin]%list_elem_of_filter). cbn in *. subst. by apply elem_of_map_to_list in Hin.
    + intros Hr. exists (QueueMessage.message_id r, r). split; [done|]. apply list_elem_of_filter. split; [done|].
      by apply elem_of_map_to_list.
  - done.
  - done.
Qed.

(** A message whose handler fails and one that is done. *)
Definition demo_handlers : dict (nat → doc → res unit) :=
  [("report", fun _ _ => Err (Exn RuntimeError "no report")); ("mail", fun _ _ => Ok tt)].

Definition demo_server : server demo_db :=
  Server [("jobs", [QueueItem.Mk "m-1" "jobs" [("kind", VStr "report")] 0 0; QueueItem.Mk "m-2" "jobs" [("kind", VStr "mail")] 0 0])]
    (∅, ∅) 0.

Lemma worker_drains_queue_witness :
  length (queue_of "jobs" demo_server) = 2%nat ∧ drained (H := demo_oracle) demo_handlers "jobs" 3 demo_server.
Proof.
  split; [reflexivity|]. apply (worker_drains_queue (H := demo_oracle) demo_handlers "jobs" 3 demo_server).
  repeat constructor.
Defined.

Lemma worker_records_nothing_witness :
  is_ok (run_worker (H := demo_oracle) demo_handlers 4 "jobs" 3 demo_server).1 = true ∧
  table (after (run_worker (H := demo_oracle) demo_handlers 4 "jobs" 3) demo_server) = table demo_server.
Proof.
  split; [vm_compute; reflexivity|].
  apply (worker_records_nothing (H := demo_oracle) demo_handlers 4 "jobs" 3 demo_server). reflexivity.
Defined.
