(* ===== verification/ToolsTrust.v ===== *)
(** What runs through connectors and tools: who may run them, what VEIL was
    asked, and what is kept of the results. *)

From stdpp Require Import base option list strings gmap sets.
From Stdlib Require Import ZArith Lia.
From S2P Require Import Prelude PyVal PyTime Store EventStore Documents AuditBundle Veil Job Queue Dispatcher Runtime Scheduler Tenancy Connectors Tools.

Local Open Scope Z_scope.

(** A tenant's records are its own, and a global administrator's. *)
Definition may_access (ctx : TenantContext) (tenant : string) : Prop :=
  tenant = TenantContext.tenant_id ctx ∨ TenantContext.is_global_admin ctx = true.

Lemma access_denied_false ctx tenant :
  negb (bool_decide (tenant = TenantContext.tenant_id ctx)) && negb (TenantContext.is_global_admin ctx) = false ↔ may_access ctx tenant.
Proof. unfold may_access. case_bool_decide; destruct (TenantContext.is_global_admin ctx); naive_solver. Qed.

Section Veil.
Context `{Oracle} `{VeilClient} {S : Type}.

(** The client answered a request. *)
Definition answered {Q R} (method : nat → Q → res R) (q : Q) (a : R) : Prop := ∃ n, method n q = Ok a.

(** VEIL allowed a request. *)
Definition veil_allowed (q : PolicyCheck.request) : Prop := ∃ a, answered check_policy q a ∧ PolicyCheck.allowed a = true.

Lemma veil_call_eq {Q R} (method : nat → Q → res R) (q : Q) (s : sys S) :
  ∃ r s', veil_call method q s = (r, s') ∧ db s' = db s ∧ events s' = events s ∧
    match r with Ok a => answered method q a | Err _ => True end.
Proof.
  unfold veil_call. do 2 eexists. split; [reflexivity|]. split; [done|]. split; [done|].
  destruct (method (tick s) q) as [a|e] eqn:E; [by exists (tick s)|done].
Qed.
End Veil.

(** * Connectors *)

Section Connectors.
Context `{Oracle} `{VeilClient} {S : Type} `{PersistenceStore S} `{!StoreLaws S}.
Implicit Types (ctx : TenantContext) (s : sys S).
Import ConnectorRegistry.

Lemma connector_get_eq ctx id s :
  typed (A := Connector) (db s) →
  ∃ r, get ctx id s = (r, s) ∧
    match r with
    | Ok c => stored c (db s) ∧ Connector.connector_id c = id ∧ may_access ctx (Connector.tenant_id c)
    | Err _ => True
    end.
Proof.
  intros Ht. unfold get. unfold bind at 1, store_get, gets. destruct (st_get "connectors" id (db s)) as [d|] eqn:Hg; [|by eexists].
  destruct (Ht id d Hg) as (c & Hc & Hk & ->). unfold bind. rewrite (Connector.connector_from_as_dict c s Hc).
  destruct (negb _ && _) eqn:Ea; [by eexists|]. apply access_denied_false in Ea. exists (Ok c). split; [done|]. split; [|done].
  split; [done|]. by rewrite Hk.
Qed.

(** An operation of a connector that was run: the connector and its policy, the
    answers of VEIL, no sensitive key before or after, and what is left of it. *)
Record connected ctx (id operation : string) (payload : doc) s (result : ConnectorResult) s' : Prop := Connected {
  cn_connector : ∃ c, stored c (db s) ∧ Connector.connector_id c = id ∧ may_access ctx (Connector.tenant_id c) ∧
    ConnectorPolicy.allows operation (opt_str_field payload "data_class") (Connector.policy c) = true ∧
    veil_allowed (policy_request ctx c operation payload) ∧
    (∃ a, answered sanitize_context (sanitize_request ctx c payload) a ∧
       ConnectorResult.sanitized_payload result = SanitizeContext.sanitized_context a) ∧
    (∃ a, answered create_audit_event (audit_request ctx c operation) a ∧
       ConnectorResult.veil_audit_id result = AuditEvent.event_id a);
  cn_clean : _contains_sensitive_key (VDict payload) = false;
  cn_sanitized : _contains_sensitive_key (VDict (ConnectorResult.sanitized_payload result)) = false;
  cn_result : ConnectorResult.connector_id result = id ∧ ConnectorResult.operation result = operation ∧
    ConnectorResult.tenant_id result = TenantContext.tenant_id ctx;
  cn_stored : st_get "connector_results" (ConnectorResult.id_of result) (db s') = Some (ConnectorResult.as_dict result);
  cn_others : ∀ c k, c ≠ "events" → (c, k) ≠ ("connector_results", ConnectorResult.id_of result) → st_get c k (db s') = st_get c k (db s);
  cn_logged : ∃ e, events s' = events s ++ [e] ∧ event_type e = "connector.operation.completed" ∧
    EventStore.payload e = ConnectorResult.as_dict result;
}.

Lemma reject_raw_ok payload : _reject_raw payload = Ok tt ↔ _contains_sensitive_key (VDict payload) = false.
Proof. unfold _reject_raw. by destruct (_contains_sensitive_key _). Qed.

Lemma assert_policy_ok c operation payload :
  _assert_policy c operation payload = Ok tt ↔ ConnectorPolicy.allows operation (opt_str_field payload "data_class") (Connector.policy c) = true.
Proof. unfold _assert_policy. by destruct (ConnectorPolicy.allows _ _ _). Qed.

Lemma connector_execute_eq ctx id operation payload s :
  typed (A := Connector) (db s) →
  ∃ r s', execute ctx id operation payload s = (r, s') ∧
    match r with
    | Ok result => connected ctx id operation payload s result s'
    | Err _ => ∀ c k, c ≠ "events" → st_get c k (db s') = st_get c k (db s)
    end.
Proof.
  intros Ht. unfold execute. unfold bind at 1.
  destruct (connector_get_eq ctx id s Ht) as ([c|e] & -> & Hg); [|by do 2 eexists]. destruct Hg as (Hst & Hid & Hacc).
  unfold bind at 1, of_res at 1. destruct (_assert_policy c operation payload) as [[]|e] eqn:Ep; [|by do 2 eexists]. apply assert_policy_ok in Ep.
  unfold bind at 1, of_res at 1. destruct (_reject_raw payload) as [[]|e] eqn:Er; [|by do 2 eexists]. apply reject_raw_ok in Er.
  unfold bind at 1. destruct (veil_call_eq check_policy (policy_request ctx c operation payload) s) as (r1 & s1 & -> & Hd1 & He1 & Hr1).
  destruct r1 as [a1|e]; [|do 2 eexists; split; [reflexivity|intros; by rewrite Hd1]].
  destruct (PolicyCheck.allowed a1) eqn:Ea1; cbn [negb].
  2: { unfold bind at 1. edestruct (append_ok "connector.policy.denied") as (e & s2 & -> & _ & _ & _ & _ & Hdb); [by vm_compute|].
    do 2 eexists. split; [reflexivity|]. intros c0 k Hc0. by rewrite Hdb, Hd1. }
  unfold bind at 1. destruct (veil_call_eq sanitize_context (sanitize_request ctx c payload) s1) as (r2 & s2 & -> & Hd2 & He2 & Hr2).
  destruct r2 as [a2|e]; [|do 2 eexists; split; [reflexivity|intros; by rewrite Hd2, Hd1]].
  unfold bind at 1, of_res at 1. destruct (_reject_raw (SanitizeContext.sanitized_context a2)) as [[]|e] eqn:Er2;
    [|do 2 eexists; split; [reflexivity|intros; by rewrite Hd2, Hd1]]. apply reject_raw_ok in Er2.
  unfold bind at 1. destruct (veil_call_eq create_audit_event (audit_request ctx c operation) s2) as (r3 & s3 & -> & Hd3 & He3 & Hr3).
  destruct r3 as [a3|e]; [|do 2 eexists; split; [reflexivity|intros; by rewrite Hd3, Hd2, Hd1]].
  unfold bind at 1, of_res at 1. destruct (strs_field_or _ _ _) as [refs|e];
    [|do 2 eexists; split; [reflexivity|intros; by rewrite Hd3, Hd2, Hd1]].
  unfold bind at 1, utc_now at 1. set (result := ConnectorResult.Mk _ _ _ _ _ _ _ _). unfold bind at 1, store_put, modify.
  set (s4 := with_db _ _). unfold bind at 1.
  destruct (append_ok "connector.operation.completed" (Connector.connector_id c) (ConnectorResult.as_dict result) s4) as (e & s5 & -> & Hev & Hty & _ & Hp & Hdb);
    [by vm_compute|].
  do 2 eexists. split; [reflexivity|]. split; [exists c; split_and!; [done|done|done|done| | |]|done|done|by split_and!| | |].
  - by exists a1.
  - by exists a2.
  - by exists a3.
  - rewrite Hdb by done. unfold s4, with_db. cbn [db]. apply get_put_eq.
  - intros c0 k Hc0 Hk. rewrite Hdb by done. unfold s4, with_db. cbn [db]. rewrite get_put_ne by congruence. by rewrite Hd3, Hd2, Hd1.
  - exists e. split_and!; [|done|done]. rewrite Hev. unfold s4, with_db. cbn [events]. by rewrite He3, He2, He1.
Qed.

End Connectors.

(** * Tools *)

Section Tools.
Context `{Oracle} `{VeilClient} {S : Type} `{PersistenceStore S} `{!StoreLaws S}.
Implicit Types (ctx : TenantContext) (s : sys S) (tool : Tool).
Context (connector_registry audit_exporter runtime : bool).

(** The documents besides the events, and the stored results of tools. *)
Definition same_documents s s' : Prop := ∀ c k, c ≠ "events" → st_get c k (db s') = st_get c k (db s).
Definition same_results s s' : Prop := ∀ k, st_get "tool_results" k (db s') = st_get "tool_results" k (db s).

(** A call that was refused and changed nothing. *)
Ltac refused := do 2 eexists; split; [reflexivity|split; [by intros ?|exact I]].

Lemma same_documents_results s s' : same_documents s s' → same_results s s'.
Proof. intros Hs k. by apply Hs. Qed.

Lemma same_results_trans s1 s2 s3 : same_results s1 s2 → same_results s2 s3 → same_results s1 s3.
Proof. intros H12 H23 k. by rewrite H23, H12. Qed.

Lemma tool_get_eq ctx id s :
  typed (A := Tool) (db s) →
  ∃ r, ToolRegistry.get ctx id s = (r, s) ∧
    match r with
    | Ok tool => stored tool (db s) ∧ Tool.tool_id tool = id ∧ may_access ctx (Tool.tenant_id tool)
    | Err _ => True
    end.
Proof.
  intros Ht. unfold ToolRegistry.get. unfold bind at 1, store_get, gets. destruct (st_get "tools" id (db s)) as [d|] eqn:Hg; [|by eexists].
  destruct (Ht id d Hg) as (c & Hc & Hk & ->). unfold bind. rewrite (Tool.tool_from_as_dict c s Hc).
  destruct (negb _ && _) eqn:Ea; [by eexists|]. apply access_denied_false in Ea. exists (Ok c). split; [done|]. split; [|done].
  split; [done|]. by rewrite Hk.
Qed.

(** What the permission of a tool asks for. *)
Record permitted ctx tool (payload : doc) (governance_approved : bool) : Prop := Permitted {
  pm_context : ToolPermission.required_tenant_context (Tool.permission tool) = true → TenantContext.tenant_id ctx ≠ "";
  pm_scope : ToolPermission.required_rbac_scope (Tool.permission tool) ∈ TenantContext.roles ctx;
  pm_governance : ToolPermission.governance_approval_required (Tool.permission tool) = true → governance_approved = true;
  pm_veil : ToolPermission.required_veil_policy_check (Tool.permission tool) = true →
    veil_allowed (ToolRegistry.policy_request ctx tool payload);
}.

Lemma enforce_eq ctx tool payload approved s :
  ∃ r s', ToolRegistry._enforce ctx tool payload approved s = (r, s') ∧ same_documents s s' ∧
    match r with Ok _ => permitted ctx tool payload approved | Err _ => True end.
Proof.
  unfold ToolRegistry._enforce. cbv zeta.
  destruct (ToolPermission.required_tenant_context _ && _) eqn:Ec; [refused|].
  destruct (bool_decide (_ ∈ TenantContext.roles ctx)) eqn:Hscope; cbn [negb]; [|refused]. apply bool_decide_eq_true in Hscope.
  destruct (ToolPermission.governance_approval_required _ && _) eqn:Eg.
  { unfold bind. edestruct (append_ok "tool.approval.required") as (e & s1 & -> & _ & _ & _ & _ & Hdb); [by vm_compute|].
    do 2 eexists. split; [reflexivity|]. by split. }
  assert (Hp : (ToolPermission.required_veil_policy_check (Tool.permission tool) = true → veil_allowed (ToolRegistry.policy_request ctx tool payload)) →
    permitted ctx tool payload approved).
  { intros Hv. split; [|done| |done].
    - intros Hr. rewrite Hr in Ec. by apply bool_decide_eq_false in Ec.
    - intros Hr. rewrite Hr in Eg. by apply negb_false_iff in Eg. }
  destruct (ToolPermission.required_veil_policy_check (Tool.permission tool)) eqn:Ev; [|do 2 eexists; split; [reflexivity|]; split; [by intros ?|by apply Hp]].
  unfold bind at 1. destruct (veil_call_eq check_policy (ToolRegistry.policy_request ctx tool payload) s) as (r1 & s1 & -> & Hd1 & _ & Hr1).
  assert (Hs1 : same_documents s s1) by (intros c k _; by rewrite Hd1).
  destruct r1 as [a|e]; [|do 2 eexists; split; [reflexivity|by split]]. destruct (PolicyCheck.allowed a) eqn:Ea; cbn [negb].
  - do 2 eexists. split; [reflexivity|]. split; [done|]. apply Hp. intros _. by exists a.
  - unfold bind. edestruct (append_ok "tool.policy.denied") as (e & s2 & -> & _ & _ & _ & _ & Hdb); [by vm_compute|].
    do 2 eexists. split; [reflexivity|]. split; [|done]. intros c k Hc. rewrite Hdb by done. by apply Hs1.
Qed.

(** The operation a tool runs on a connector, if it does. *)
Definition connector_operation tool : option string :=
  if bool_decide (ToolManifest.tool_type (Tool.manifest tool) = "connector_search") then Some "search"
  else if bool_decide (ToolManifest.tool_type (Tool.manifest tool) = "connector_fetch") then Some "fetch"
  else None.

Lemma connector_route_eq ctx tool payload operation s :
  typed (A := Connector) (db s) →
  ∃ r s', ToolRouter._connector connector_registry ctx tool payload operation s = (r, s') ∧ same_results s s' ∧
    match r with
    | Ok _ => ∃ result, connected ctx (str_field_or payload "connector_id" "") operation payload s result s'
    | Err _ => True
    end.
Proof.
  intros Ht. unfold ToolRouter._connector. destruct connector_registry; cbn [negb]; [|refused].
  cbv zeta. case_bool_decide; [refused|]. unfold bind.
  destruct (connector_execute_eq ctx (str_field_or payload "connector_id" "") operation payload s Ht) as (r & s' & -> & Hr).
  destruct r as [result|e]; do 2 eexists; (split; [reflexivity|]).
  - split; [|by exists result]. intros k. by apply (cn_others _ _ _ _ _ _ _ Hr).
  - split; [|done]. intros k. by apply Hr.
Qed.

Lemma route_eq ctx tool payload s :
  typed (A := Connector) (db s) →
  ∃ r s', ToolRouter.route connector_registry audit_exporter ctx tool payload s = (r, s') ∧ same_results s s' ∧
    match r with
    | Ok _ => _contains_sensitive_key (VDict payload) = false ∧
        match connector_operation tool with
        | Some operation => ∃ result, connected ctx (str_field_or payload "connector_id" "") operation payload s result s'
        | None => True
        end
    | Err _ => True
    end.
Proof.
  intros Ht. unfold ToolRouter.route, connector_operation. unfold bind at 1, of_res at 1. unfold ToolRouter._reject_raw.
  destruct (_contains_sensitive_key (VDict payload)) eqn:Er; [refused|]. cbv zeta.
  case_bool_decide.
  { destruct (connector_route_eq ctx tool payload "search" s Ht) as (r & s' & E & Hs & Hr). exists r, s'. split; [exact E|]. split; [done|]. by destruct r. }
  case_bool_decide.
  { destruct (connector_route_eq ctx tool payload "fetch" s Ht) as (r & s' & E & Hs & Hr). exists r, s'. split; [exact E|]. split; [done|]. by destruct r. }
  assert (Hpure : ∀ r : res doc, ∃ r' s', of_res r s = (r', s') ∧ same_results s s' ∧ match r' with Ok _ => false = false ∧ True | Err _ => True end).
  { intros r. exists r, s. split; [done|]. split; [done|]. by destruct r. }
  do 4 (case_bool_decide; [apply Hpure|]).
  case_bool_decide.
  { destruct audit_exporter; cbn [negb]; [|apply (Hpure (Err (Exn ValidationError "audit bundle exporter is not configured")))].
    destruct (export_eq (TenantContext.tenant_id ctx) s) as (s' & [Hdb _] & E). unfold bind. rewrite E.
    assert (Hs : same_results s s') by (intros k; by rewrite Hdb).
    destruct (let? refs := _ in _) as [bundle|e]; by do 2 eexists. }
  do 2 (case_bool_decide; [apply Hpure|]). apply (Hpure (Err (Exn ValidationError _))).
Qed.

(** A result that a tool produced: the tool and its permission, the answers of
    VEIL, and what is kept. *)
Record produced ctx (id : string) (payload : doc) (approved : bool) s tool (result : ToolResult) s' : Prop := Produced {
  pd_tool : stored tool (db s) ∧ Tool.tool_id tool = id ∧ may_access ctx (Tool.tenant_id tool);
  pd_permitted : permitted ctx tool payload approved;
  pd_clean : _contains_sensitive_key (VDict payload) = false;
  pd_output : ∃ s1 s2 output a, same_documents s s1 ∧
    ToolRouter.route connector_registry audit_exporter ctx tool payload s1 = (Ok output, s2) ∧
    match connector_operation tool with
    | Some operation => ∃ r, connected ctx (str_field_or payload "connector_id" "") operation payload s1 r s2
    | None => True
    end ∧
    answered sanitize_context (ToolRegistry.sanitize_request ctx tool output) a ∧
    ToolResult.output result = SanitizeContext.sanitized_context a;
  pd_audit : ∃ a, answered create_audit_event (ToolRegistry.audit_request ctx tool) a ∧
    ToolResult.veil_audit_id result = AuditEvent.event_id a;
  pd_classification : ToolResult.classification result ∈ ToolPermission.allowed_output_classifications (Tool.permission tool) ∧
    ToolResult.classification result = str_field_or (ToolResult.output result) "classification" "internal";
  pd_result : ToolResult.tool_id result = id ∧ ToolResult.tenant_id result = TenantContext.tenant_id ctx ∧
    ToolResult.persisted result = ToolPermission.result_persistence_allowed (Tool.permission tool);
  pd_kept : ∀ k, st_get "tool_results" k (db s') =
    if ToolResult.persisted result && bool_decide (k = ToolResult.execution_id result)
    then Some (ToolResult.as_dict result) else st_get "tool_results" k (db s);
}.

Lemma produce_eq ctx id payload approved s :
  typed (A := Tool) (db s) → typed (A := Connector) (db s) →
  ∃ r s', ToolRegistry.produce connector_registry audit_exporter ctx id payload approved s = (r, s') ∧
    match r with
    | Ok p => produced ctx id payload approved s p.1 p.2 s'
    | Err _ => same_results s s'
    end.
Proof.
  intros Ht Hc. unfold ToolRegistry.produce. unfold bind at 1.
  destruct (tool_get_eq ctx id s Ht) as ([tool|e] & -> & Hg); [|by do 2 eexists]. destruct Hg as (Hst & Hid & Hacc).
  unfold bind at 1. destruct (enforce_eq ctx tool payload approved s) as (r1 & s1 & -> & Hs1 & Hr1).
  destruct r1 as [[]|e]; [|do 2 eexists; split; [reflexivity|by apply same_documents_results]].
  unfold bind at 1. destruct (route_eq ctx tool payload s1) as (r2 & s2 & Hroute & Hs2 & Hr2); [by apply (typed_reads (db s))|]. rewrite Hroute.
  assert (Hs12 : same_results s s2) by (eapply same_results_trans; [by apply same_documents_results|done]).
  destruct r2 as [output|e]; [|by do 2 eexists]. destruct Hr2 as [Hclean Hconn].
  unfold bind at 1. destruct (veil_call_eq sanitize_context (ToolRegistry.sanitize_request ctx tool output) s2) as (r3 & s3 & -> & Hd3 & _ & Hr3).
  assert (Hs13 : same_results s s3) by (intros k; rewrite Hd3; apply Hs12). destruct r3 as [a3|e]; [|by do 2 eexists].
  cbv zeta. case_bool_decide as Hclass; cbn [negb]; [|by do 2 eexists].
  unfold bind at 1. destruct (veil_call_eq create_audit_event (ToolRegistry.audit_request ctx tool) s3) as (r4 & s4 & -> & Hd4 & _ & Hr4).
  assert (Hs14 : same_results s s4) by (intros k; rewrite Hd4; apply Hs13). destruct r4 as [a4|e]; [|by do 2 eexists].
  unfold bind at 1, ToolResult.new. unfold bind at 1, uuid4 at 1. unfold bind at 1, utc_now at 1, ret at 1. set (result := ToolResult.Mk _ _ _ _ _ _ _ _).
  assert (Hkept : ∀ s', (∀ k, st_get "tool_results" k (db s') =
      if ToolPermission.result_persistence_allowed (Tool.permission tool) && bool_decide (k = ToolResult.execution_id result)
      then Some (ToolResult.as_dict result) else st_get "tool_results" k (db s)) → produced ctx id payload approved s tool result s').
  { intros s' Hk. split; [done|done|done| | |done|by split_and!|exact Hk].
    - by exists s1, s2, output, a3.
    - by exists a4. }
  unfold bind. destruct (ToolPermission.result_persistence_allowed (Tool.permission tool)) eqn:Ep.
  - unfold doc_put, store_put, modify, ret, with_db. do 2 eexists. split; [reflexivity|]. cbn [fst snd]. apply Hkept. intros k. cbn [db andb].
    case_bool_decide as Hk; [subst k; apply get_put_eq|]. rewrite get_put_ne; [apply Hs14|]. intros E. injection E as E. by apply Hk.
  - unfold ret. do 2 eexists. split; [reflexivity|]. cbn [fst snd]. apply Hkept. intros k. apply Hs14.
Qed.

Lemma create_job_same ctx tool result payload (c : cloud S) :
  same_results (env c) (env (after (ToolRegistry._create_job runtime ctx tool result payload) c)).
Proof.
  set (x := fun c0 k => st_get c0 k (db (env c))).
  assert (Hp : preserves (creads x) (ToolRegistry._create_job runtime ctx tool result payload)).
  { unfold ToolRegistry._create_job. apply preserves_if; [apply preserves_ret|].
    apply preserves_bind; [apply creads_on_env, reads_job_new|intros job]. apply preserves_bind; [apply creads_submit|intros created].
    apply preserves_bind; [apply creads_on_env, reads_append|intros e]. apply preserves_ret. }
  intros k. by apply (Hp c).
Qed.

(** C17: what runs as a tool. An execution that succeeds leaves a result produced
    as the tool's permission asks: the tool is stored and the caller's, the caller
    has its scope and, where needed, a tenant, an approval and the consent of
    VEIL; no sensitive key came in; the output is VEIL's sanitization of the very
    output the router of the tools returned for this tool and payload, over the
    same documents, where a connector it used was allowed by its own policy and by
    VEIL; its classification is one the permission allows, with an audit event; it
    is stored exactly if the permission says so, no other result changes, and the
    last event tells of it. A refusal leaves no result, unless only the job of a
    produced result was refused. *)
Theorem tool_execution_guarded ctx id payload approved (c : cloud S) :
  typed (A := Tool) (db (env c)) → typed (A := Connector) (db (env c)) →
  ∃ r c', ToolRegistry.execute connector_registry audit_exporter runtime ctx id payload approved c = (r, c') ∧
    match r with
    | Ok (result, _) => ∃ tool, produced ctx id payload approved (env c) tool result (env c') ∧
        ∃ e, last (events (env c')) = Some e ∧ event_type e = "tool.executed" ∧ EventStore.payload e = ToolResult.as_dict result
    | Err _ => same_results (env c) (env c') ∨
        ∃ tool result, runtime = true ∧ produced ctx id payload approved (env c) tool result (env c')
    end.
Proof.
  intros Ht Hc. unfold ToolRegistry.execute. unfold bind at 1, on_env at 1, zoom.
  destruct (produce_eq ctx id payload approved (env c) Ht Hc) as (r1 & s1 & -> & Hr1).
  destruct r1 as [[tool result]|e]; [|do 2 eexists; split; [reflexivity|]; by left]. cbn [fst snd] in *. set (c1 := set_env s1 c).
  assert (Hmove : ∀ s2, same_results s1 s2 → produced ctx id payload approved (env c) tool result s2).
  { intros s2 Hs2. destruct Hr1 as [p1 p2 p3 p4 p5 p6 p7 p8]. split; try done. intros k. by rewrite Hs2. }
  pose proof (create_job_same ctx tool result payload c1) as Hj. unfold after in Hj. unfold bind at 1.
  assert (Hjob : is_ok (ToolRegistry._create_job runtime ctx tool result payload c1).1 = true ∨ runtime = true) by (destruct runtime; [by right|by left]).
  destruct (ToolRegistry._create_job runtime ctx tool result payload c1) as [[job|e] c2]; cbn [fst snd is_ok] in *.
  - unfold bind, on_env, zoom.
    destruct (append_ok "tool.executed" (ToolResult.execution_id result) (ToolResult.as_dict result) (env c2)) as (e & s3 & -> & Hev & Hty & _ & Hp & Hdb);
      [by vm_compute|].
    unfold ret. do 2 eexists. split; [reflexivity|]. exists tool. split; [|exists e; cbn; rewrite Hev; by rewrite last_snoc].
    apply Hmove. intros k. cbn. rewrite Hdb by done. apply Hj.
  - do 2 eexists. split; [reflexivity|]. right. exists tool, result. split; [by destruct Hjob|]. by apply Hmove.
Qed.

End Tools.

(** Two results of one operation in the same second have the same id, so the
    second takes the place of the first. *)
Lemma connector_results_collide payload payload' :
  let result payload t := ConnectorResult.Mk "crm" "t-1" "search" payload "audit" [] "" t in
  ConnectorResult.id_of (result payload (ymd2day 2025 1 1 * day_us)) =
  ConnectorResult.id_of (result payload' (ymd2day 2025 1 1 * day_us + 999999)).
Proof. vm_compute. reflexivity. Qed.

(** A package whose signature is any text is reported as checked. *)
Lemma any_signature_is_checked :
  ToolRouter.package_verification
    [("manifest", VDict [("package_id", VStr "p"); ("version", VStr "1.0")]); ("signature", VStr "forged")] =
  Ok [("verification", VDict [("ok", VBool true); ("package_id", VStr "p"); ("signature_checked", VBool true)]);
      ("classification", VStr "internal")].
Proof. vm_compute. reflexivity. Qed.

(** ** Witness *)

Section Demo.
#[local] Existing Instance demo_oracle.
#[local] Existing Instance mock_veil.

Definition demo_tool : Tool :=
  Tool.Mk "t-1" "o-1" "root" (ToolManifest.Mk "summary" "document_summary" "" "1.0.0" None [])
    (ToolPermission.Mk "tools.execute" true true true true true ["internal"]) "tool-1" "active" 0 0.

Definition demo_caller : TenantContext := TenantContext.Mk "t-1" "o-1" "root" ["tools.execute"] false.

Definition demo_tools : cloud Memory.store :=
  set_env (Sys (st_put "tools" "tool-1" (Tool.as_dict demo_tool) ∅) [] true 0) demo_cloud.

Lemma demo_tools_typed : typed (A := Tool) (db (env demo_tools)) ∧ typed (A := Connector) (db (env demo_tools)).
Proof.
  split; [refine (typed_put demo_tool ∅ _ typed_empty); by vm_compute|]. apply typed_put_other; [done|apply typed_empty].
Qed.

Lemma tool_execution_guarded_witness :
  ∃ result job c', ToolRegistry.execute false false true demo_caller "tool-1" [("veil_token_refs", VList [VStr "tok"])] true demo_tools =
    (Ok (result, job), c') ∧
    st_get "tool_results" (ToolResult.execution_id result) (db (env c')) = Some (ToolResult.as_dict result) ∧
    ∃ tool, permitted demo_caller tool [("veil_token_refs", VList [VStr "tok"])] true.
Proof.
  destruct (tool_execution_guarded false false true demo_caller "tool-1" [("veil_token_refs", VList [VStr "tok"])] true demo_tools
    (proj1 demo_tools_typed) (proj2 demo_tools_typed)) as (r & c' & E & Hr). destruct r as [[result job]|e].
  - exists result, job, c'. split; [exact E|]. destruct Hr as (tool & Hp & _). split; [|exists tool; apply Hp].
    assert (Hk : ToolResult.persisted result = true).
    { apply (f_equal (fun x => match x.1 with Ok p => ToolResult.persisted p.1 | Err _ => false end)) in E. vm_compute in E. symmetry. exact E. }
    rewrite (pd_kept _ _ _ _ _ _ _ _ _ _ Hp), Hk. by rewrite bool_decide_eq_true_2.
  - exfalso. apply (f_equal (fun x => is_ok x.1)) in E. vm_compute in E. discriminate E.
Defined.
End Demo.
